(* ===== verification/_CoqProject ===== *)
-Q . S2P
Prelude.v
Queues.v
KString.v
Block.v
Ata.v
Pmm.v
Vmm.v
Ahci.v
Pe.v
Kheap.v
Process.v
Vfs.v
Fat32.v
Pci.v
Diskdev.v
Nic.v
Net.v
Dns.v
Format.v
Serial.v
Vga.v
Gfx.v
Input.v
Syscall.v
Interrupts.v
Clock.v
Vbe.v
Wm.v
WmEvents.v
Taskbar.v
Pkg.v
PkgFetch.v
Shell.v
ShellRun.v
Desktop.v
Libc.v
Programs.v
Html.v
HtmlDoc.v
Startup.v
