(* ===== verification/Prelude.v ===== *)
(** * Khazar OS: a verification development (root file)

    Khazar OS is a 32-bit x86 kernel in C: boot code, memory managers, processes and a
    scheduler, a VFS with FAT32, a small IP stack over two network drivers, consoles, a
    graphics layer with a desktop, a shell and a package manager, and a userland of a C library
    and command line programs.  This library models the kernel and the userland as executable
    definitions, translated function by function from the sources under src/kernel and
    src/userland, and proves what makes each component correct.

    ** Files and what they model

    - Prelude.v (this file): C integers and arrays on [Z] and [list], counted loops
      ([for_loop], [zfind]), little-endian buffers, C strings, the [outcome] of code that may
      access memory out of bounds, the port interface [PortIO] of arch/io.h, and the lemmas
      and tactics the components share.
    - Queues.v: core/events.c ([Events]) and drivers/char/tty.c ([Tty]), the ring buffers
      between interrupt handlers and their readers; interface [BoundedFifo].
    - KString.v: libk/string.h.
    - Block.v: the interface of the disk drivers, [BlockDev] with [BlockDevLaws].
    - Ata.v: drivers/block/ata.c over a bus of drives, as port accesses; it implements
      [BlockDevLaws].
    - Pmm.v: mm/allocator/pmm.c, the frame bitmap; it implements [FrameAllocatorLaws].
    - Vmm.v: mm/paging/vmm.c, two-level page tables in a word store, generic in the frame
      allocator.
    - Ahci.v: drivers/block/ahci.c, commands and tables in memory that a controller ([Hba])
      executes by DMA.
    - Pe.v: core/pe.c, the loader, which writes through the page tables of another address
      space.
    - Kheap.v: mm/allocator/kheap.c on its headers in memory; it implements the heap
      interfaces ([HeapAlloc], [HeapTemp]) that processes and the file system use.
    - Process.v: proc/task/process.c, proc/scheduler/scheduler.c and proc/wait.c: threads and
      processes as records in a store, the circular ready queue, wait queues.
    - Vfs.v: fs/vfs/vfs.c, nodes with their operations as an interface ([VfsWorld]) and path
      lookup across mounts.
    - Fat32.v: fs/fat32/fat32.c and fs/devfs/devfs.c over a block device ([BlockDev]).
    - Pci.v: drivers/pci.c over ports and a configuration space ([PciConfig]).
    - Diskdev.v: the start-up of ahci.c and the drives as device nodes.
    - Nic.v: drivers/net/rtl8169.c ([Rtl8169]) and net/ethernet/ethernet.c with the E1000
      ([Ethernet]); the rings are shared with a card whose steps are a relation.
    - Net.v: net/arp, net/ipv4, net/udp and net/net.c over a link ([Link]) and wait queues
      ([WaitOps]).
    - Dns.v: net/dns.c over Net.v.
    - Format.v: the format engine of drivers/gpu/vga.c with [ksprintf] and [ksnprintf].
    - Serial.v: drivers/char/serial.c over ports, with a transmitter that can lose bytes.
    - Vga.v: the virtual terminals of drivers/gpu/vga.c and [kprintf].
    - Gfx.v: drivers/gpu/gfx.c and libk/font.c.
    - Input.v: drivers/input/keyboard.c ([Keyboard]) and drivers/input/mouse.c ([Mouse]).
    - Syscall.v: syscall/table.c, every system call over the components above, with user
      memory behind the page tables of the caller.
    - Interrupts.v: arch/x86/gdt.c, idt.c, isr.c and mm/paging/fault.c, against the
      interrupt controllers and the scheduler.
    - Clock.v: drivers/char/pit.c and rtc.c.
    - Vbe.v: drivers/gpu/vbe.c over Vmm.v.
    - Wm.v and WmEvents.v: core/gui/wm.c, the windows as records in a heap and their list, and
      the handling of the event queue; Taskbar.v: core/gui/taskbar.c.
    - Desktop.v: the drawing of windows, icons, menus and taskbar over Gfx.v.
    - Pkg.v and PkgFetch.v: core/pkg.c, the archive format and the installation, and the
      stop-and-wait download over UDP ([PkgLink], [PkgServer]).
    - Shell.v and ShellRun.v: core/shell.c, the line editor with history and completion and
      every command, over the rest of the kernel ([ShellEnv]), and the kernel as this
      environment.
    - Libc.v and Programs.v: userland/libc and userland/bin over the system calls ([UserOS]),
      whose contract is an abstract operating system ([uos], [UserOSLaws]).
    - Html.v and HtmlDoc.v: core/gui/htmlui.c, the markup parser, style sheets, layout and
      drawing of element trees; nothing in the kernel calls it yet.
    - Startup.v: the set-up of memory and framebuffer in core/kernel.c and the state of
      core/panic.c.

    A definition has the name of the C function or type it translates; names that are not in
    the sources are either parts of a function (a loop body, a case of a switch) or
    specification.  State is passed explicitly: a record per component holds its static
    variables, memory that several objects share is a store indexed by addresses.

    ** Modelling conventions

    - Integers are [Z] with the wrap-around of their C type written out ([u8] to [u64], [s8],
      [s32]); pointers are 32-bit numbers, 0 is NULL, or [None] where only nullness matters.
    - Arrays are lists.  Where the code checks its bounds the accesses are total and the
      theorems carry the bounds; where it trusts a length from outside (frames, formats,
      images) every access is checked and an access out of bounds is the outcome [Fault].
    - Loops over a counter use [for_loop].  Loops whose end depends on data take fuel:
      the length of the buffer walked ([Dns], [Format]), the number of blocks or threads (the
      heap, the ready queue), twice the number of processes and the threads of a zombie more
      for the cleanup, two for the mutual recursion of [ipv4_send] and [ipv4_handle],
      [dx + dy + 1] for lines.  That the fuel is enough is part of the theorems; where the C
      loop really does not end ([process_terminate_diverges], [dns_resolve_blocks]) that is
      the theorem.
    - Devices are type classes of states and accesses; a read may change the device.  Each
      class has a concrete instance, with which the witnesses are evaluated.
    - Diagnostic output (kprintf, serial messages and log macros inside other components) is
      left out of those components.

    ** What the theorems show

    - Memory: allocated frames and heap blocks are never handed out twice and freeing
      everything restores the initial state; [kmalloc] is first fit, [kfree] merges
      neighbours; mapping, cloning and freeing address spaces have exactly their intended
      effect on the translation; which headers of an executable are accepted, rejected or
      read past their end; a loaded executable with sections in order is their layout.
    - Processes: a tick runs the next runnable thread, every runnable thread runs within one
      round, also while zombies are reaped; process creation on every branch; where
      termination diverges.
    - Files: FAT entries and directory entries round-trip, chains are freed completely, path
      lookup is the walk over components and mounts, and when mounts are not seen.
    - Disks: the ATA driver against its bus and the AHCI driver against its controller are
      block devices, up to the transfer sizes their loops mishandle.
    - System calls: descriptors are an abstract table; console, socket and descriptor calls
      move exactly the bytes they should between user memory and the components; bad pointers
      change nothing, or count as NULL for a command line; file calls return and the process
      table stays well typed; which pointers are wrongly accepted and in which address space
      SYS_EXEC ends.
    - Network: the E1000 driver with any interleaving of the card is a pair of FIFOs, of which
      the one to the card is emptied when it overruns; the checksum is that of RFC 1071; ARP
      resolves both ways; datagrams arrive unchanged on the loopback and between hosts; DNS
      names and answers, and the form of a name that is misparsed; where lengths from outside
      are trusted too much.
    - Interrupts and time: the gates and segments installed, interrupts ended exactly once,
      exceptions end the thread that raised them; the uptime is exact, sleeps last what they
      should; the framebuffer is mapped as far as the code maps it.
    - Consoles and input: what [kprintf] shows is what a typewriter would have on its sheet,
      terminals are independent, serial output loses nothing, [ksnprintf] stays in its
      buffer, typed text arrives.
    - Desktop: the windows are a z-order list, events reach the topmost window and never a
      freed one, the taskbar keeps this invariant, drawing hides what is behind.
    - Shell and packages: the line editor is a plain line with a history, external commands
      and chmod are rejected by the kernel's own system calls, a package is stored and unpacked byte by byte.
    - Userland: arguments are the words of the command line, numbers are read back as printed,
      and programs, from the command line to the console, print what they should over any
      system that meets the contract of the system calls.
    - Markup: the markup of a document is parsed to a tree that shows it, in blocks that are
      all given back; style sheets act on each element by itself; layout does not overlap.
    - Start-up: which frames are free after the memory map was read.
    - Graphics: swaps present the whole picture, blending is per channel, lines are lines,
      the cursor never destroys the background, the pointer stays on the screen.

    ** Interfaces between the components

    [FrameAllocatorLaws] (Pmm to Vmm), [HeapAlloc] and [HeapTemp] (Kheap to Process and
    Fat32), [BlockDevLaws] and [VfsWorld] (disks and file systems), [OnHeap] (file systems on the
    kernel's heap), [Link] and [WaitOps]
    (drivers and scheduler to the IP stack), [BoundedFifo] (event queue), [PkgLink] and
    [PkgServer] (network to the package manager), [ShellEnv] with its laws (kernel to shell),
    [Painted] (drawing layer to the desktop), [UserOS] with [UserOSLaws] (kernel to userland),
    [PortIO], [PciConfig], [NicHw] and [E1000Card] (hardware).  Clients are proved against the
    interface; the implementing file discharges its laws.

    ** Not modelled

    Boot assembly and the system call instruction; the TLB and caches; of kernel.c the order
    of the remaining initialisation calls, its progress messages and the endless main loop,
    which only call the modelled components; the screens of a panic, which are output; the
    endless demo task of process.c; the audio and USB drivers, which are short register
    sequences without state; rtl8139.c, an empty file; and the card side of the devices, which
    is hardware. *)

From stdpp Require Export base tactics numbers list gmap.
From Stdlib Require Export ZArith Lia.

Declare Scope khazar_scope.
Delimit Scope khazar_scope with khazar.
Global Open Scope Z_scope.

(** ** Machine integers

    A w-bit C integer is a [Z]; [u8], [u16], [u32] write out the wrap-around of
    the unsigned types of libk/types.h, [s8] and [s32] the two's complement
    reading of the signed ones. *)

Definition u8 (z : Z) : Z := z mod 0x100.
Definition u16 (z : Z) : Z := z mod 0x10000.
Definition u32 (z : Z) : Z := z mod 0x100000000.
Definition u64 (z : Z) : Z := z mod 0x10000000000000000.
Definition s8 (z : Z) : Z := (z + 0x80) mod 0x100 - 0x80.
Definition s32 (z : Z) : Z := (z + 0x80000000) mod 0x100000000 - 0x80000000.

(** A C truth value. *)
Definition nz (z : Z) : bool := negb (z =? 0).

(** [zlia] is [lia] with the defining equations of the divisions in sight. *)
Ltac zlia := Z.div_mod_to_equations; lia.

(** [words] unfolds the wrap-arounds and lets [lia] reason about them. *)
Ltac words :=
  unfold u8, u16, u32, u64, s8, s32 in *;
  Z.div_mod_to_equations; lia.

Lemma u8_range z : 0 <= u8 z < 0x100.
Proof. words. Qed.
Lemma u16_range z : 0 <= u16 z < 0x10000.
Proof. words. Qed.
Lemma u32_range z : 0 <= u32 z < 0x100000000.
Proof. words. Qed.
Lemma u8_small z : 0 <= z < 0x100 → u8 z = z.
Proof. apply Z.mod_small. Qed.
Lemma u16_small z : 0 <= z < 0x10000 → u16 z = z.
Proof. apply Z.mod_small. Qed.
Lemma u32_small z : 0 <= z < 0x100000000 → u32 z = z.
Proof. apply Z.mod_small. Qed.
Lemma s32_small z : -0x80000000 <= z < 0x80000000 → s32 z = z.
Proof. words. Qed.
Lemma s32_range z : -0x80000000 <= s32 z < 0x80000000.
Proof. words. Qed.

(** ** C arrays

    A C array is a [list], indexed by [Z].  A read outside the bounds gives
    [inhabitant] and a write outside does nothing; the theorems carry the bounds
    under which neither happens. *)

#[global] Instance Z_inhabited_zero : Inhabited Z := populate 0.

Definition alen {A} (l : list A) : Z := Z.of_nat (length l).

Definition aget {A} `{!Inhabited A} (l : list A) (i : Z) : A :=
  if i <? 0 then inhabitant else l !!! Z.to_nat i.

Definition aset {A} (l : list A) (i : Z) (v : A) : list A :=
  if i <? 0 then l else <[Z.to_nat i := v]> l.

Notation "l .[ i ]" := (aget l i)
  (at level 1, left associativity, format "l .[ i ]") : khazar_scope.
Notation "l .[ i <- v ]" := (aset l i v)
  (at level 1, left associativity, format "l .[ i <- v ]") : khazar_scope.
Global Open Scope khazar_scope.

Section arrays.
Context {A : Type} `{!Inhabited A}.
Implicit Types (l : list A) (i j : Z) (v : A).

Lemma alen_nonneg l : 0 <= alen l.
Proof. unfold alen; lia. Qed.

Lemma alen_aset l i v : alen (l.[i <- v]) = alen l.
Proof. unfold alen, aset. case_match; [done|]. by rewrite length_insert. Qed.

Lemma length_aset l i v : length (l.[i <- v]) = length l.
Proof. unfold aset. case_match; [done|]. by rewrite length_insert. Qed.

Lemma aget_aset_eq l i v : 0 <= i < alen l → (l.[i <- v]).[i] = v.
Proof.
  unfold aget, aset, alen. intros. case_match; [lia|].
  rewrite list_lookup_total_insert_eq; [done | lia].
Qed.

Lemma aget_aset_ne l i j v : i ≠ j → 0 <= i → (l.[i <- v]).[j] = l.[j].
Proof.
  unfold aget, aset. intros. repeat case_match; try done.
  rewrite list_lookup_total_insert_ne; [done | lia].
Qed.

Lemma aget_aset l i j v :
  0 <= i < alen l → (l.[i <- v]).[j] = if j =? i then v else l.[j].
Proof.
  intros. destruct (Z.eqb_spec j i) as [->|].
  - by apply aget_aset_eq.
  - apply aget_aset_ne; lia.
Qed.

Lemma aset_aget l i : l.[i <- l.[i]] = l.
Proof.
  unfold aget, aset. case_match; [done|].
  destruct (decide (Z.to_nat i < length l)%nat).
  - apply list_insert_id. by apply list_lookup_lookup_total_lt.
  - rewrite list_insert_ge; [done | lia].
Qed.

Lemma aset_aset l i v w : (l.[i <- v]).[i <- w] = l.[i <- w].
Proof. unfold aset. case_match; [done|]. apply list_insert_insert_eq. Qed.

Lemma aset_comm l i j v w :
  i ≠ j → 0 <= i → 0 <= j → (l.[i <- v]).[j <- w] = (l.[j <- w]).[i <- v].
Proof.
  unfold aset. intros. repeat case_match; try lia.
  rewrite list_insert_insert_ne; [done | lia].
Qed.

Lemma aget_lookup l i v : 0 <= i → l !! Z.to_nat i = Some v → l.[i] = v.
Proof.
  unfold aget. intros ? ?. case_match; [lia|]. by apply list_lookup_total_correct.
Qed.

Lemma lookup_aget l i : 0 <= i < alen l → l !! Z.to_nat i = Some (l.[i]).
Proof.
  unfold aget, alen. intros ?. case_match; [lia|].
  apply list_lookup_lookup_total_lt. lia.
Qed.

Lemma aget_elem l i : 0 <= i < alen l → l.[i] ∈ l.
Proof. intros Hi. eapply list_elem_of_lookup_2, lookup_aget, Hi. Qed.

Lemma elem_aget l v : v ∈ l → ∃ i, 0 <= i < alen l ∧ l.[i] = v.
Proof.
  intros [n Hn]%list_elem_of_lookup. exists (Z.of_nat n).
  pose proof (lookup_lt_Some _ _ _ Hn). unfold alen. split; [lia|].
  apply aget_lookup; [lia | by rewrite Nat2Z.id].
Qed.

Lemma alist_eq l1 l2 :
  alen l1 = alen l2 → (∀ i, 0 <= i < alen l1 → l1.[i] = l2.[i]) → l1 = l2.
Proof.
  unfold alen. intros Hlen Heq. apply list_eq_same_length with (n := length l1); [lia|done|].
  intros n x y Hn Hx Hy. specialize (Heq (Z.of_nat n)).
  erewrite (aget_lookup l1), (aget_lookup l2) in Heq; try apply Heq;
    try rewrite Nat2Z.id; eauto; lia.
Qed.

Lemma aget_oob l i : alen l <= i → l.[i] = inhabitant.
Proof.
  unfold aget, alen. intros. case_match; [done|].
  rewrite list_lookup_total_alt, lookup_ge_None_2; [done | lia].
Qed.

Lemma alen_app l1 l2 : alen (l1 ++ l2) = alen l1 + alen l2.
Proof. unfold alen. rewrite length_app. lia. Qed.

Lemma alen_nil : alen ([] : list A) = 0.
Proof. done. Qed.

Lemma alen_cons v l : alen (v :: l) = 1 + alen l.
Proof. unfold alen. simpl. lia. Qed.

Lemma aget_app_l l1 l2 i : i < alen l1 → (l1 ++ l2).[i] = l1.[i].
Proof.
  unfold aget, alen. intros. case_match; [done|].
  rewrite lookup_total_app_l; [done | lia].
Qed.

Lemma aget_app_r l1 l2 i : alen l1 <= i → (l1 ++ l2).[i] = l2.[i - alen l1].
Proof.
  unfold aget, alen. intros. repeat case_match; try lia.
  rewrite lookup_total_app_r; [f_equal; lia | lia].
Qed.

Lemma aget_cons_0 v l : (v :: l).[0] = v.
Proof. done. Qed.

Lemma aget_cons_S v l i : 0 < i → (v :: l).[i] = l.[i - 1].
Proof.
  unfold aget. intros. repeat case_match; try lia.
  replace (Z.to_nat i) with (S (Z.to_nat (i - 1))) by lia. done.
Qed.

Lemma aget_replicate n v i : 0 <= i < Z.of_nat n → (replicate n v).[i] = v.
Proof.
  unfold aget. intros. case_match; [lia|].
  rewrite lookup_total_replicate_2; [done | lia].
Qed.

Lemma alen_replicate n v : alen (replicate n v) = Z.of_nat n.
Proof. unfold alen. by rewrite length_replicate. Qed.

Lemma Forall_aset (P : A → Prop) l i v : Forall P l → P v → Forall P (l.[i <- v]).
Proof. unfold aset. intros. case_match; [done|]. by apply Forall_insert. Qed.

Lemma Forall_aget (P : A → Prop) l i : 0 <= i < alen l → Forall P l → P (l.[i]).
Proof. intros Hi HP. rewrite Forall_forall in HP. apply HP, aget_elem, Hi. Qed.
End arrays.

Create Rewrite HintDb arr.
#[export] Hint Rewrite @alen_nil @alen_aset @length_aset @alen_app @alen_cons @alen_replicate
  @aset_aset @aset_aget : arr.

(** [arr] normalises lengths of updated arrays; [arr_lia] closes index goals. *)
Ltac arr := autorewrite with arr in *.
Ltac arr_lia := arr; unfold alen in *; lia.

(** ** Loops

    [for_loop n i body s] is [for (k = i; k < i + n; k++) s = body k s].  [zfind p i n]
    is the linear search with [break] that recurs throughout the sources: the first
    [k] of [i .. i+n-1] with [p k]. *)

Fixpoint for_loop {S} (n : nat) (i : Z) (body : Z → S → S) (s : S) : S :=
  match n with
  | O => s
  | S n' => for_loop n' (i + 1) body (body i s)
  end.

Fixpoint zfind (p : Z → bool) (i : Z) (n : nat) : option Z :=
  match n with
  | O => None
  | S n' => if p i then Some i else zfind p (i + 1) n'
  end.

Lemma for_loop_inv {S} (P : Z → S → Prop) n i body (s : S) :
  P i s →
  (∀ k s', i <= k < i + Z.of_nat n → P k s' → P (k + 1) (body k s')) →
  P (i + Z.of_nat n) (for_loop n i body s).
Proof.
  revert i s. induction n as [|n IH]; intros i s H0 Hstep; simpl.
  - by rewrite Z.add_0_r.
  - replace (i + Z.of_nat (Datatypes.S n)) with (i + 1 + Z.of_nat n) by lia.
    apply IH; [apply Hstep; [lia|done] |]. intros k s' Hk. apply Hstep. lia.
Qed.

Lemma for_loop_S {S} n i body (s : S) :
  for_loop (Datatypes.S n) i body s = body (i + Z.of_nat n) (for_loop n i body s).
Proof.
  revert i s. induction n as [|n IH]; intros i s.
  - simpl. by rewrite Z.add_0_r.
  - change (for_loop (Datatypes.S (Datatypes.S n)) i body s)
      with (for_loop (Datatypes.S n) (i + 1) body (body i s)).
    rewrite IH. simpl. f_equal. lia.
Qed.

Lemma for_loop_app {S} n k i body (s : S) :
  for_loop (n + k) i body s = for_loop k (i + Z.of_nat n) body (for_loop n i body s).
Proof.
  revert i s. induction n as [|n IH]; intros i s; cbn [for_loop Nat.add].
  - by rewrite Z.add_0_r.
  - rewrite IH. f_equal. lia.
Qed.

Lemma for_loop_shift {S} n c i body (s : S) :
  for_loop n i (λ x, body (c + x)) s = for_loop n (c + i) body s.
Proof.
  revert i s. induction n as [|n IH]; intros i s; [done|]. cbn [for_loop]. rewrite IH. f_equal. lia.
Qed.

Lemma for_loop_ext {S} n i body body' (s : S) :
  (∀ k s, i <= k < i + Z.of_nat n → body k s = body' k s) → for_loop n i body s = for_loop n i body' s.
Proof.
  revert i s. induction n as [|n IH]; intros i s Hb; [done|]. cbn [for_loop].
  rewrite Hb by lia. apply IH. intros k s' Hk. apply Hb. lia.
Qed.

(** A loop over rows and columns is a loop over the cells. *)
Lemma for_loop_nested {S} n w y f body (s : S) :
  (∀ y' x s, y <= y' < y + Z.of_nat n → 0 <= x < Z.of_nat w → f y' x s = body (y' * Z.of_nat w + x) s) →
  for_loop n y (λ y, for_loop w 0 (f y)) s = for_loop (n * w) (y * Z.of_nat w) body s.
Proof.
  revert y s. induction n as [|n IH]; intros y s Hf; [done|]. cbn [for_loop Nat.mul].
  rewrite for_loop_app, IH by (intros; apply Hf; lia). f_equal; [lia|].
  rewrite (for_loop_ext w 0 (f y) (λ x, body (y * Z.of_nat w + x))) by (intros; apply Hf; lia).
  rewrite for_loop_shift. f_equal. lia.
Qed.

Lemma zfind_Some p i n k :
  zfind p i n = Some k ↔
  i <= k < i + Z.of_nat n ∧ p k = true ∧ ∀ j, i <= j < k → p j = false.
Proof.
  revert i. induction n as [|n IH]; intros i; simpl.
  { split; [done|lia]. }
  destruct (p i) eqn:Hp.
  - split.
    + intros [= ->]. repeat split; [lia|lia|done|lia].
    + intros (? & ? & Hlt). destruct (decide (i = k)) as [->|]; [done|].
      rewrite Hlt in Hp; [done|lia].
  - rewrite IH. split.
    + intros (? & ? & Hlt). split_and!; [lia|lia|done|]. intros j Hj.
      destruct (decide (i = j)) as [->|]; [done|]. apply Hlt. lia.
    + intros (? & Hk & Hlt). assert (i ≠ k) by congruence.
      split_and!; [lia|lia|done|]. intros j Hj. apply Hlt. lia.
Qed.

Lemma zfind_None p i n :
  zfind p i n = None ↔ ∀ j, i <= j < i + Z.of_nat n → p j = false.
Proof.
  revert i. induction n as [|n IH]; intros i; simpl.
  { split; [lia|done]. }
  destruct (p i) eqn:Hp.
  - split; [done|]. intros H. rewrite H in Hp; [done|lia].
  - rewrite IH. split; intros H j Hj.
    + destruct (decide (i = j)) as [->|]; [done|]. apply H. lia.
    + apply H. lia.
Qed.

Lemma zfind_ext p q i n :
  (∀ j, i <= j < i + Z.of_nat n → p j = q j) → zfind p i n = zfind q i n.
Proof.
  revert i. induction n as [|n IH]; intros i H; simpl; [done|].
  rewrite H by lia. rewrite (IH (i + 1)); [done|]. intros. apply H. lia.
Qed.

Lemma zfind_exists p i n j :
  i <= j < i + Z.of_nat n → p j = true → ∃ k, zfind p i n = Some k.
Proof.
  intros Hj Hp. destruct (zfind p i n) as [k|] eqn:E; [by eexists|].
  rewrite zfind_None in E. rewrite E in Hp; [done|lia].
Qed.

Lemma zfind_shift p i n :
  zfind p (i + 1) n = (λ k, k + 1) <$> zfind (λ k, p (k + 1)) i n.
Proof.
  revert i. induction n as [|n IH]; intros i; simpl; [done|].
  destruct (p (i + 1)); [done|]. apply IH.
Qed.

(** ** Little-endian codec

    The x86 target stores the multi-byte fields of packed structures and the words
    that [memset] and [memcpy] move little-endian. *)

Fixpoint le_bytes (n : nat) (z : Z) : list Z :=
  match n with
  | O => []
  | S n' => z mod 256 :: le_bytes n' (z / 256)
  end.

Fixpoint le_num (l : list Z) : Z :=
  match l with
  | [] => 0
  | b :: t => b + 256 * le_num t
  end.

Definition bytes_ok (l : list Z) : Prop := Forall (λ b, 0 <= b < 256) l.

Lemma length_le_bytes n z : length (le_bytes n z) = n.
Proof. revert z. induction n; intros; simpl; auto. Qed.

Lemma alen_le_bytes n z : alen (le_bytes n z) = Z.of_nat n.
Proof. unfold alen. by rewrite length_le_bytes. Qed.

Lemma le_bytes_ok n z : bytes_ok (le_bytes n z).
Proof.
  revert z. unfold bytes_ok.
  induction n; intros; simpl; constructor; auto. apply Z.mod_pos_bound. lia.
Qed.

Lemma le_num_bytes n z : le_num (le_bytes n z) = z mod 256 ^ Z.of_nat n.
Proof.
  revert z. induction n as [|n IH]; intros z; simpl le_num.
  - by rewrite Z.mod_1_r.
  - rewrite IH, Nat2Z.inj_succ, Z.pow_succ_r by lia.
    rewrite Z.rem_mul_r; [lia | lia |]. apply Z.pow_pos_nonneg; lia.
Qed.

Lemma le_num_small n z : 0 <= z < 256 ^ Z.of_nat n → le_num (le_bytes n z) = z.
Proof. intros. rewrite le_num_bytes. by apply Z.mod_small. Qed.

Lemma le_bytes_num l : bytes_ok l → le_bytes (length l) (le_num l) = l.
Proof.
  unfold bytes_ok. induction 1 as [|b l Hb Hl IH]; simpl; [done|].
  rewrite Z.mul_comm, Z.add_comm at 1. rewrite Z.add_comm, Z.mod_add by lia.
  rewrite Z.mod_small by lia. f_equal.
  rewrite Z.mul_comm, Z.div_add by lia. by rewrite Z.div_small, Z.add_0_l by lia.
Qed.

Lemma le_num_range l : bytes_ok l → 0 <= le_num l < 256 ^ alen l.
Proof.
  unfold bytes_ok, alen. induction 1 as [|b l Hb Hl IH]; simpl length; simpl le_num; [lia|].
  rewrite Nat2Z.inj_succ, Z.pow_succ_r by lia. lia.
Qed.

(** ** Byte buffers

    [sub l off n] is the [n] bytes at [l + off]; [splice l off d] overwrites the
    bytes at [l + off] with [d].  [get_le] and [put_le] are the typed accesses the
    sources make through packed structures and casts. *)

Definition sub {A} (l : list A) (off n : Z) : list A :=
  take (Z.to_nat n) (drop (Z.to_nat off) l).

Definition splice {A} (l : list A) (off : Z) (d : list A) : list A :=
  take (Z.to_nat off) l ++ d ++ drop (Z.to_nat off + length d) l.

Definition get_le (n : nat) (l : list Z) (off : Z) : Z := le_num (sub l off (Z.of_nat n)).
Definition put_le (n : nat) (l : list Z) (off v : Z) : list Z := splice l off (le_bytes n v).

Section buffers.
Context {A : Type} `{!Inhabited A}.
Implicit Types (l d : list A) (off n i : Z).

Lemma alen_sub l off n :
  0 <= off → 0 <= n → off + n <= alen l → alen (sub l off n) = n.
Proof. unfold alen, sub. intros. rewrite length_take, length_drop. lia. Qed.

Lemma aget_sub l off n i :
  0 <= off → 0 <= i < n → (sub l off n).[i] = l.[off + i].
Proof.
  unfold sub, aget. intros. repeat case_match; try lia.
  rewrite !list_lookup_total_alt, lookup_take_lt by lia.
  rewrite lookup_drop. do 2 f_equal. lia.
Qed.

Lemma alen_splice l off d :
  0 <= off → off + alen d <= alen l → alen (splice l off d) = alen l.
Proof.
  unfold alen, splice. intros. rewrite !length_app, length_take, length_drop. lia.
Qed.

Lemma aget_splice l off d i :
  0 <= off → off + alen d <= alen l → 0 <= i →
  (splice l off d).[i] =
    if (off <=? i) && (i <? off + alen d) then d.[i - off] else l.[i].
Proof.
  intros Hoff Hlen Hi. unfold splice.
  assert (alen (take (Z.to_nat off) l) = off) as Ht.
  { unfold alen in *. rewrite length_take. lia. }
  destruct (Z.leb_spec off i); simpl.
  - rewrite aget_app_r, Ht by lia.
    destruct (Z.ltb_spec i (off + alen d)).
    + apply aget_app_l. lia.
    + rewrite aget_app_r by lia. unfold aget, alen in *.
      repeat case_match; try lia. rewrite !list_lookup_total_alt, lookup_drop.
      do 2 f_equal. lia.
  - rewrite aget_app_l by lia. unfold aget. case_match; [done|].
    rewrite !list_lookup_total_alt, lookup_take_lt by lia. done.
Qed.

Lemma sub_splice_same l off d :
  0 <= off → off + alen d <= alen l → sub (splice l off d) off (alen d) = d.
Proof.
  intros. pose proof (alen_nonneg d). apply alist_eq.
  - rewrite alen_sub; [done|lia|lia|]. rewrite alen_splice; lia.
  - intros i Hi. rewrite alen_sub in Hi by (try rewrite alen_splice; lia).
    rewrite aget_sub, aget_splice by lia.
    destruct (Z.leb_spec off (off + i)), (Z.ltb_spec (off + i) (off + alen d));
      simpl; try lia. f_equal. lia.
Qed.

Lemma sub_splice_ne l off d off' n :
  0 <= off → off + alen d <= alen l → 0 <= off' → 0 <= n → off' + n <= alen l →
  off' + n <= off ∨ off + alen d <= off' →
  sub (splice l off d) off' n = sub l off' n.
Proof.
  intros. apply alist_eq.
  - rewrite !alen_sub; [done|lia..|]. rewrite alen_splice; lia.
  - intros i Hi. rewrite alen_sub in Hi by (try rewrite alen_splice; lia).
    rewrite !aget_sub, aget_splice by lia.
    destruct (Z.leb_spec off (off' + i)), (Z.ltb_spec (off' + i) (off + alen d));
      simpl; try done; lia.
Qed.

Lemma splice_sub_id l off n :
  0 <= off → 0 <= n → off + n <= alen l → splice l off (sub l off n) = l.
Proof.
  intros. pose proof (alen_sub l off n) as Hs.
  apply alist_eq; [rewrite alen_splice; lia|]. intros i Hi.
  rewrite alen_splice in Hi by lia. rewrite aget_splice by lia. rewrite Hs by lia.
  destruct (Z.leb_spec off i), (Z.ltb_spec i (off + n)); simpl; try done.
  rewrite aget_sub by lia. f_equal. lia.
Qed.

Lemma splice_full l d : alen d = alen l → splice l 0 d = d.
Proof.
  intros. apply alist_eq; [rewrite alen_splice; lia|]. intros i Hi.
  rewrite alen_splice in Hi by lia. rewrite aget_splice by lia.
  destruct (Z.leb_spec 0 i), (Z.ltb_spec i (0 + alen d)); simpl; try lia.
  f_equal. lia.
Qed.

Lemma sub_full l : sub l 0 (alen l) = l.
Proof. unfold sub, alen. rewrite drop_0, Nat2Z.id. by apply take_ge. Qed.

Lemma splice_1 l i v : 0 <= i < alen l → splice l i [v] = l.[i <- v].
Proof.
  intros. apply alist_eq.
  - rewrite alen_splice, alen_aset by (unfold alen; simpl; unfold alen in *; lia). done.
  - intros j Hj. rewrite alen_splice in Hj by (unfold alen in *; simpl; lia).
    rewrite aget_splice, aget_aset by (unfold alen in *; simpl; lia).
    change (alen [v]) with 1.
    destruct (Z.leb_spec i j), (Z.ltb_spec j (i + 1)), (Z.eqb_spec j i);
      simpl; try lia; try done.
    subst. by rewrite Z.sub_diag.
Qed.
End buffers.

Lemma get_put_le n l off v :
  0 <= off → off + Z.of_nat n <= alen l →
  get_le n (put_le n l off v) off = v mod 256 ^ Z.of_nat n.
Proof.
  intros. unfold get_le, put_le. rewrite <-(alen_le_bytes n v) at 1.
  rewrite sub_splice_same by (rewrite ?alen_le_bytes; lia). apply le_num_bytes.
Qed.

Lemma get_put_le_ne n m l off off' v :
  0 <= off → off + Z.of_nat n <= alen l → 0 <= off' → off' + Z.of_nat m <= alen l →
  off' + Z.of_nat m <= off ∨ off + Z.of_nat n <= off' →
  get_le m (put_le n l off v) off' = get_le m l off'.
Proof.
  intros. unfold get_le, put_le. by rewrite sub_splice_ne by (rewrite ?alen_le_bytes; lia).
Qed.

Lemma alen_put_le n l off v :
  0 <= off → off + Z.of_nat n <= alen l → alen (put_le n l off v) = alen l.
Proof. intros. unfold put_le. apply alen_splice; rewrite ?alen_le_bytes; lia. Qed.

Lemma bytes_ok_splice l off d : bytes_ok l → bytes_ok d → bytes_ok (splice l off d).
Proof.
  unfold bytes_ok, splice. intros. repeat apply Forall_app_2; auto using Forall_take, Forall_drop.
Qed.

Lemma bytes_ok_sub l off n : bytes_ok l → bytes_ok (sub l off n).
Proof. unfold bytes_ok, sub. auto using Forall_take, Forall_drop. Qed.

Lemma get_le_range n l off :
  bytes_ok l → 0 <= get_le n l off < 256 ^ Z.of_nat n.
Proof.
  intros Hl. unfold get_le.
  pose proof (le_num_range _ (bytes_ok_sub l off (Z.of_nat n) Hl)) as Hr.
  assert (alen (sub l off (Z.of_nat n)) <= Z.of_nat n).
  { unfold alen, sub. rewrite length_take. lia. }
  pose proof (Z.pow_le_mono_r 256 _ _ ltac:(lia) H). lia.
Qed.

(** The decision procedure for concrete buffers. *)
Lemma bytes_ok_b l : forallb (λ b, (0 <=? b) && (b <? 256)) l = true → bytes_ok l.
Proof.
  intros H. unfold bytes_ok. apply Forall_forall. intros b Hb%list_elem_of_In.
  rewrite forallb_forall in H. specialize (H b Hb). lia.
Qed.

Section more_buffers.
Context {A : Type} `{!Inhabited A}.
Implicit Types (l d : list A).

Lemma splice_nil l off : splice l off [] = l.
Proof. unfold splice. simpl. rewrite Nat.add_0_r. apply take_drop. Qed.

Lemma splice_splice_adj l off d1 d2 :
  0 <= off → off + alen d1 + alen d2 <= alen l →
  splice (splice l off d1) (off + alen d1) d2 = splice l off (d1 ++ d2).
Proof.
  intros. pose proof (alen_nonneg d1). pose proof (alen_nonneg d2).
  apply alist_eq; [rewrite !alen_splice; rewrite ?alen_splice, ?alen_app; lia|].
  intros i Hi. rewrite !alen_splice in Hi by (rewrite ?alen_splice; lia).
  rewrite !aget_splice; rewrite ?alen_splice, ?alen_app; [|lia..].
  destruct (Z.leb_spec off i), (Z.leb_spec (off + alen d1) i),
    (Z.ltb_spec i (off + alen d1 + alen d2)), (Z.ltb_spec i (off + (alen d1 + alen d2))),
    (Z.ltb_spec i (off + alen d1)); simpl; try lia; try done.
  - rewrite aget_app_r by lia. f_equal. lia.
  - rewrite aget_app_l by lia. done.
Qed.

(** The next piece of a record that is written from the front. *)
Lemma splice_append l d1 k d2 :
  k = alen d1 → k + alen d2 <= alen l → splice (splice l 0 d1) k d2 = splice l 0 (d1 ++ d2).
Proof. intros -> ?. by rewrite <-splice_splice_adj by lia. Qed.

Lemma sub_app l off n m :
  0 <= off → 0 <= n → 0 <= m → off + n + m <= alen l →
  sub l off (n + m) = sub l off n ++ sub l (off + n) m.
Proof.
  intros. unfold sub. rewrite !Z2Nat.inj_add by lia.
  rewrite <-drop_drop. by rewrite take_take_drop.
Qed.

Lemma sub_sub l off n off' m :
  0 <= off → 0 <= off' → 0 <= m → off' + m <= n →
  sub (sub l off n) off' m = sub l (off + off') m.
Proof.
  intros. unfold sub. rewrite skipn_firstn_comm, drop_drop, take_take.
  f_equal; [lia|f_equal; lia].
Qed.

(** A write inside a window that was just written. *)
Lemma splice_nested l off d k e :
  0 <= off → 0 <= k → off + alen d <= alen l → k + alen e <= alen d →
  splice (splice l off d) (off + k) e = splice l off (splice d k e).
Proof.
  intros. pose proof (alen_nonneg e). pose proof (alen_splice d k e) as Hde.
  assert (alen (splice l off d) = alen l) as Hl by (apply alen_splice; lia).
  apply alist_eq; [rewrite !alen_splice; lia|].
  intros i Hi. rewrite alen_splice in Hi by lia.
  rewrite !aget_splice by lia. rewrite Hde by lia.
  destruct (Z.leb_spec off i), (Z.leb_spec (off + k) i), (Z.ltb_spec i (off + k + alen e)),
    (Z.ltb_spec i (off + alen d)); simpl; try lia; try done; rewrite aget_splice by lia;
    destruct (Z.leb_spec k (i - off)), (Z.ltb_spec (i - off) (k + alen e)); simpl; try lia; try done.
  f_equal. lia.
Qed.

(** A read inside a window that was just written. *)
Lemma sub_splice_in l off d k n :
  0 <= off → 0 <= k → 0 <= n → off + alen d <= alen l → k + n <= alen d →
  sub (splice l off d) (off + k) n = sub d k n.
Proof.
  intros. rewrite <-sub_sub with (n := alen d) by lia. by rewrite sub_splice_same by lia.
Qed.

Lemma aget_splice_in l off d k :
  0 <= off → 0 <= k < alen d → off + alen d <= alen l → (splice l off d).[off + k] = d.[k].
Proof.
  intros. rewrite aget_splice by lia.
  destruct (Z.leb_spec off (off + k)), (Z.ltb_spec (off + k) (off + alen d)); simpl; try lia.
  f_equal. lia.
Qed.

(** Reading a field of a record laid out as a concatenation. *)
Lemma sub_skip (a b : list A) off n : alen a <= off → sub (a ++ b) off n = sub b (off - alen a) n.
Proof.
  intros. unfold sub, alen in *. rewrite drop_app_ge by lia. do 2 f_equal. lia.
Qed.

Lemma sub_head (a b : list A) n : alen a = n → sub (a ++ b) 0 n = a.
Proof.
  intros <-. unfold sub, alen. rewrite drop_0, Nat2Z.id. apply take_app_length.
Qed.

Lemma sub_0 l off : sub l off 0 = [].
Proof. done. Qed.

Lemma sub_1 l i : 0 <= i < alen l → sub l i 1 = [l.[i]].
Proof.
  intros. apply alist_eq; [by rewrite alen_sub by lia|]. intros j Hj.
  rewrite alen_sub in Hj by lia. rewrite aget_sub by lia.
  replace j with 0 by lia. by rewrite Z.add_0_r.
Qed.

Lemma alen_firstn l n : alen (take n l) = Z.min (Z.of_nat n) (alen l).
Proof. unfold alen. rewrite length_take. lia. Qed.
End more_buffers.

(** A property of bytes is decided by the 256 cases. *)
Lemma byte_forall (P : Z → bool) :
  forallb P (seqZ 0 256) = true → ∀ b, 0 <= b < 256 → P b = true.
Proof.
  intros H b Hb. rewrite forallb_forall in H. apply H.
  apply list_elem_of_In, elem_of_seqZ. lia.
Qed.

(** ** C strings

    A [char *] is the list of the bytes from the pointer on; [cstr] is the string it
    denotes, the bytes before the terminating NUL. *)

Fixpoint cstr (s : list Z) : list Z :=
  match s with
  | [] => []
  | c :: s' => if c =? 0 then [] else c :: cstr s'
  end.

(** The string is terminated inside its object. *)
Definition terminated (s : list Z) : Prop := 0 ∈ s.

Lemma cstr_nonzero s c : c ∈ cstr s → c ≠ 0.
Proof.
  induction s as [|a s IH]; simpl; [by intros ?%not_elem_of_nil|].
  destruct (Z.eqb_spec a 0); [by intros ?%not_elem_of_nil|].
  intros [->|?]%elem_of_cons; auto.
Qed.

Lemma cstr_app_0 l s : Forall (λ c, c ≠ 0) l → cstr (l ++ 0 :: s) = l.
Proof.
  induction 1 as [|c l Hc Hl IH]; simpl; [done|].
  destruct (Z.eqb_spec c 0); [done|]. by rewrite IH.
Qed.

Lemma cstr_length s : alen (cstr s) <= alen s.
Proof.
  induction s as [|a s IH]; simpl; [done|]. case_match; rewrite ?alen_cons, ?alen_nil; [|lia].
  pose proof (alen_nonneg s). lia.
Qed.

Lemma cstr_split s :
  terminated s → ∃ r, s = cstr s ++ 0 :: r.
Proof.
  unfold terminated. induction s as [|a s IH]; [by intros ?%not_elem_of_nil|].
  intros [<-|Hs]%elem_of_cons; simpl; [by exists s|].
  destruct (Z.eqb_spec a 0) as [->|]; [by exists s|].
  destruct (IH Hs) as [r Hr]. exists r. simpl. by f_equal.
Qed.

(** ** Bits of 32-bit words *)

Lemma word_testbit_high w k : 0 <= w < 0x100000000 → 32 <= k → Z.testbit w k = false.
Proof.
  intros Hw Hk. change 0x100000000 with (2 ^ 32) in Hw.
  destruct (decide (w = 0)) as [->|]; [by rewrite Z.bits_0|].
  apply Z.bits_above_log2; [lia|]. eapply Z.lt_le_trans; [|exact Hk].
  apply Z.log2_lt_pow2; lia.
Qed.

Lemma testbit_word_lt w : 0 <= w → (∀ k, 32 <= k → Z.testbit w k = false) → w < 0x100000000.
Proof.
  intros Hw Hk. destruct (Z.lt_ge_cases w (2 ^ 32)) as [|Hge]; [done|].
  assert (w ≠ 0) by lia.
  apply Z.log2_le_pow2 in Hge; [|lia].
  specialize (Hk (Z.log2 w) Hge). rewrite Z.bit_log2 in Hk; [done|lia].
Qed.

Lemma set_bit_range w k :
  0 <= w < 0x100000000 → 0 <= k < 32 → 0 <= Z.lor w (Z.shiftl 1 k) < 0x100000000.
Proof.
  intros Hw Hk.
  assert (0 <= Z.lor w (Z.shiftl 1 k)).
  { apply Z.lor_nonneg. split; [lia|]. apply Z.shiftl_nonneg. lia. }
  split; [done|]. apply testbit_word_lt; [done|]. intros j Hj.
  rewrite Z.lor_spec, word_testbit_high by lia.
  rewrite Z.shiftl_spec by lia. simpl. rewrite Z.bits_above_log2; [done|lia|simpl; lia].
Qed.

Lemma clear_bit_range w m : 0 <= w < 0x100000000 → 0 <= m → 0 <= Z.land w m < 0x100000000.
Proof.
  intros Hw Hm. assert (0 <= Z.land w m) by (apply Z.land_nonneg; lia).
  split; [done|]. apply testbit_word_lt; [done|]. intros j Hj.
  by rewrite Z.land_spec, word_testbit_high.
Qed.

Lemma lor_shift a b k : 0 <= k → 0 <= b < 2 ^ k → Z.lor (Z.shiftl a k) b = a * 2 ^ k + b.
Proof.
  intros Hk Hb. rewrite <-Z.shiftl_mul_pow2 by done.
  assert (Z.land (Z.shiftl a k) b = 0) as Hz.
  { apply Z.bits_inj'. intros i Hi. rewrite Z.land_spec, Z.bits_0, Z.shiftl_spec by done.
    destruct (Z.lt_ge_cases i k); [by rewrite Z.testbit_neg_r by lia|].
    rewrite <-(Z.mod_small b (2 ^ k)), Z.mod_pow2_bits_high by lia. apply andb_false_r. }
  by rewrite Z.add_nocarry_lxor, Z.lxor_lor by exact Hz.
Qed.

Lemma testbit_one_shift k j : 0 <= k → 0 <= j → Z.testbit (Z.shiftl 1 k) j = (j =? k).
Proof.
  intros. rewrite Z.shiftl_1_l, Z.pow2_bits_eqb by lia. apply Z.eqb_sym.
Qed.

Lemma testbit_u32 z j : 0 <= j < 32 → Z.testbit (u32 z) j = Z.testbit z j.
Proof.
  intros. unfold u32. change 0x100000000 with (2 ^ 32). apply Z.mod_pow2_bits_low. lia.
Qed.

(** The two halves of a 32-bit word. *)
Lemma testbit_16 w k : 0 <= w < 0x10000 → 16 <= k → Z.testbit w k = false.
Proof.
  intros Hw Hk. destruct (decide (w = 0)) as [->|]; [by rewrite Z.bits_0|].
  apply Z.bits_above_log2; [lia|]. eapply Z.lt_le_trans; [|exact Hk].
  apply Z.log2_lt_pow2; [lia|]. change (2 ^ 16) with 0x10000. lia.
Qed.

(** ** Counting *)

Fixpoint zcount (p : Z → bool) (i : Z) (n : nat) : Z :=
  match n with
  | O => 0
  | S n' => (if p i then 1 else 0) + zcount p (i + 1) n'
  end.

Lemma zcount_ext p q i n :
  (∀ j, i <= j < i + Z.of_nat n → p j = q j) → zcount p i n = zcount q i n.
Proof.
  revert i. induction n as [|n IH]; intros i H; simpl; [done|].
  rewrite H by lia. rewrite (IH (i + 1)); [done|]. intros. apply H. lia.
Qed.

Lemma zcount_range p i n : 0 <= zcount p i n <= Z.of_nat n.
Proof.
  revert i. induction n as [|n IH]; intros i; simpl; [lia|].
  specialize (IH (i + 1)). destruct (p i); lia.
Qed.

Lemma zcount_upd p q i n k :
  i <= k < i + Z.of_nat n → p k = false → q k = true →
  (∀ j, j ≠ k → i <= j < i + Z.of_nat n → q j = p j) →
  zcount q i n = zcount p i n + 1.
Proof.
  revert i. induction n as [|n IH]; intros i Hk Hp Hq Hne; simpl; [lia|].
  destruct (decide (i = k)) as [->|].
  - rewrite Hp, Hq. rewrite (zcount_ext q p); [lia|]. intros. apply Hne; lia.
  - rewrite (Hne i) by lia. rewrite IH; [lia|lia|done|done|]. intros. apply Hne; lia.
Qed.

Lemma zcount_all p i n :
  (∀ j, i <= j < i + Z.of_nat n → p j = true) → zcount p i n = Z.of_nat n.
Proof.
  revert i. induction n as [|n IH]; intros i H; simpl; [done|].
  rewrite H, IH by (intros; try apply H; lia). lia.
Qed.

(** ** Outcomes

    Code that handles untrusted lengths returns an [outcome]: a value, [Fault] for an
    access outside an object (undefined behaviour of the C code), or [NoFuel] when the
    fuel that bounds a loop or a recursion ran out.  [ck_memory off n len] is the test that
    [n] bytes at [off] lie inside an object of [len] bytes. *)

Inductive outcome (A : Type) :=
| Done (a : A)
| Fault
| NoFuel.
Arguments Done {A} a.
Arguments Fault {A}.
Arguments NoFuel {A}.

#[global] Instance outcome_ret : MRet outcome := λ A a, Done a.
#[global] Instance outcome_bind : MBind outcome := λ A B f m,
  match m with
  | Done a => f a
  | Fault => Fault
  | NoFuel => NoFuel
  end.

Lemma outcome_bind_done {A B} (f : A → outcome B) a : (Done a ≫= f) = f a.
Proof. done. Qed.

Lemma outcome_bind_inv {A B} (m : outcome A) (f : A → outcome B) b :
  m ≫= f = Done b → ∃ a, m = Done a ∧ f a = Done b.
Proof. destruct m; [by eauto | done | done]. Qed.

(** [outcome_inv] takes a computation that is [Done] apart. *)
Ltac outcome_inv :=
  repeat match goal with
  | E : Done _ = Done _ |- _ => injection E as E; subst
  | E : Fault = Done _ |- _ => discriminate E
  | E : NoFuel = Done _ |- _ => discriminate E
  | E : (_ ≫= _) = Done _ |- _ => apply outcome_bind_inv in E as (? & ? & E)
  | E : match ?x with _ => _ end = Done _ |- _ => destruct x eqn:?
  end.

Definition ck_memory (off n len : Z) : bool := (0 <=? off) && (0 <=? n) && (off + n <=? len).

(** A counted loop whose body may fault, and reads of the fields of a file or packet. *)
Fixpoint for_outcome {S} (n : nat) (i : Z) (body : Z → S → outcome S) (s : S) : outcome S :=
  match n with
  | O => Done s
  | Datatypes.S n' => s ← body i s; for_outcome n' (i + 1) body s
  end.

Lemma for_outcome_inv {S} (P : Z → S → Prop) n i body (s : S) :
  P i s →
  (∀ k s', i <= k < i + Z.of_nat n → P k s' → ∃ s'', body k s' = Done s'' ∧ P (k + 1) s'') →
  ∃ s', for_outcome n i body s = Done s' ∧ P (i + Z.of_nat n) s'.
Proof.
  revert i s. induction n as [|n IH]; intros i s H0 Hstep; cbn [for_outcome].
  - exists s. split; [done|]. by rewrite Z.add_0_r.
  - destruct (Hstep i s ltac:(lia) H0) as (s1 & -> & H1). rewrite outcome_bind_done.
    destruct (IH (i + 1) s1 H1) as (s2 & E & H2); [intros k s' Hk; apply Hstep; lia|].
    exists s2. split; [done|]. by replace (i + Z.of_nat (Datatypes.S n)) with (i + 1 + Z.of_nat n) by lia.
Qed.

Definition byte_at (data : list Z) (i : Z) : outcome Z :=
  if ck_memory i 1 (alen data) then Done (data.[i]) else Fault.
Definition half_at (data : list Z) (i : Z) : outcome Z :=
  if ck_memory i 2 (alen data) then Done (get_le 2 data i) else Fault.

Definition word_at (data : list Z) (i : Z) : outcome Z :=
  if ck_memory i 4 (alen data) then Done (get_le 4 data i) else Fault.

Lemma ck_memory_in off n len : 0 <= off → 0 <= n → off + n <= len → ck_memory off n len = true.
Proof.
  intros. unfold ck_memory.
  repeat match goal with |- context [?x <=? ?y] => destruct (Z.leb_spec x y); [|lia] end. done.
Qed.

Lemma half_at_in data i : 0 <= i → i + 2 <= alen data → half_at data i = Done (get_le 2 data i).
Proof. intros. unfold half_at. by rewrite ck_memory_in by lia. Qed.
Lemma word_at_in data i : 0 <= i → i + 4 <= alen data → word_at data i = Done (get_le 4 data i).
Proof. intros. unfold word_at. by rewrite ck_memory_in by lia. Qed.
Lemma byte_at_in data i : 0 <= i → i + 1 <= alen data → byte_at data i = Done (data.[i]).
Proof. intros. unfold byte_at. by rewrite ck_memory_in by lia. Qed.

(** ** Port input and output (arch/io.h)

    The devices behind the x86 ports are not part of the sources: a type of device states
    with the effect of each access.  A read may change the device. *)

Class PortIO (D : Type) := {
  inb : D → Z → Z * D;
  inw : D → Z → Z * D;
  inl : D → Z → Z * D;
  outb : D → Z → Z → D;
  outw : D → Z → Z → D;
  outl : D → Z → Z → D }.

(** ** Lists gathered by a loop *)

Lemma concat_map_snoc {A B} (f : A → list B) l x :
  concat (map f (l ++ [x])) = concat (map f l) ++ f x.
Proof. rewrite map_app, concat_app. simpl. by rewrite app_nil_r. Qed.

Lemma seqZ_snoc m n : 0 <= n → seqZ m (n + 1) = seqZ m n ++ [m + n].
Proof. intros. rewrite seqZ_app by lia. f_equal. Qed.

Lemma alen_drop {A} (l : list A) n : alen (drop n l) = Z.max 0 (alen l - Z.of_nat n).
Proof. unfold alen. rewrite length_drop. lia. Qed.

Lemma aget_drop {A} `{!Inhabited A} (l : list A) n i : 0 <= i → (drop n l).[i] = l.[Z.of_nat n + i].
Proof.
  intros Hi. unfold aget. destruct (Z.ltb_spec i 0), (Z.ltb_spec (Z.of_nat n + i) 0); try lia.
  rewrite !list_lookup_total_alt, lookup_drop. do 2 f_equal. lia.
Qed.

Lemma aset_drop {A} (l : list A) n i v :
  0 <= i → (drop n l).[i <- v] = drop n (l.[Z.of_nat n + i <- v]).
Proof.
  intros Hi. unfold aset. destruct (Z.ltb_spec i 0), (Z.ltb_spec (Z.of_nat n + i) 0); try lia.
  apply list_eq. intros j. destruct (decide (j = Z.to_nat i)) as [->|Hj].
  - destruct (decide (n + Z.to_nat i < length l)%nat).
    + rewrite list_lookup_insert_eq by (rewrite length_drop; lia). rewrite lookup_drop.
      replace (n + Z.to_nat i)%nat with (Z.to_nat (Z.of_nat n + i)) by lia.
      by rewrite list_lookup_insert_eq by lia.
    + rewrite !list_insert_ge by (rewrite ?length_drop; lia). done.
  - rewrite list_lookup_insert_ne, !lookup_drop, list_lookup_insert_ne by lia. done.
Qed.

Lemma land_align4 x : 0 <= x < 0x100000000 → Z.land x 0xFFFFFFFC = 4 * (x / 4).
Proof.
  intros Hx. apply Z.bits_inj'. intros k Hk. rewrite Z.land_spec.
  replace (4 * (x / 4)) with (Z.shiftl (Z.shiftr x 2) 2)
    by (rewrite Z.shiftl_mul_pow2, Z.shiftr_div_pow2 by lia; change (2 ^ 2) with 4; lia).
  rewrite Z.shiftl_spec by lia. destruct (Z.lt_ge_cases k 2) as [H2|H2].
  - rewrite (Z.testbit_neg_r _ (k - 2)) by lia. assert (k = 0 ∨ k = 1) as [-> | ->] by lia; apply andb_false_r.
  - rewrite Z.shiftr_spec by lia. replace (k - 2 + 2) with k by lia.
    destruct (Z.lt_ge_cases k 32) as [H3|H3].
    + change 0xFFFFFFFC with (Z.shiftl (Z.ones 30) 2). rewrite Z.shiftl_spec by lia.
      rewrite Z.ones_spec_low by lia. apply andb_true_r.
    + by rewrite word_testbit_high.
Qed.
