(* ===== verification/Queues.v ===== *)
(** * The kernel's ring buffers

    [Events] models core/events.c (the GUI event queue filled by the keyboard and
    mouse interrupt handlers) and [Tty] models drivers/char/tty.c (the character
    queue behind SYS_READ on descriptor 0).  Both are circular arrays; the class
    [BoundedFifo] states what they promise to their clients, a FIFO of fixed
    capacity that drops on overflow, and both modules are instances of it. *)

From S2P Require Import Prelude.

(** ** The contents of a circular array *)

Definition ring_view {A} `{!Inhabited A} (q : list A) (start cnt : Z) : list A :=
  (λ k, q.[(start + k) mod alen q]) <$> seqZ 0 cnt.

Section ring.
Context {A : Type} `{!Inhabited A}.
Implicit Types (q : list A).

Lemma ring_view_0 q start : ring_view q start 0 = [].
Proof. done. Qed.

Lemma length_ring_view q start cnt : length (ring_view q start cnt) = Z.to_nat cnt.
Proof. unfold ring_view. by rewrite length_fmap, length_seqZ. Qed.

Lemma ring_view_push q start cnt v :
  0 <= start < alen q → 0 <= cnt < alen q →
  ring_view (q.[(start + cnt) mod alen q <- v]) start (cnt + 1) =
  ring_view q start cnt ++ [v].
Proof.
  intros Hs Hc. unfold ring_view. rewrite seqZ_app, fmap_app by lia.
  assert (0 <= (start + cnt) mod alen q < alen q) by (apply Z.mod_pos_bound; lia).
  rewrite alen_aset. f_equal.
  - apply list_fmap_ext. intros ? k [-> Hk]%lookup_seqZ. rewrite aget_aset_ne; [done| |lia].
    intros Heq. apply (f_equal (λ z, (z - start) mod alen q)) in Heq.
    rewrite !Zminus_mod_idemp_l in Heq. rewrite !Z.add_simpl_l, !Z.mod_small in Heq; lia.
  - simpl. rewrite !Z.add_0_l. by rewrite aget_aset_eq.
Qed.

Lemma ring_view_pop q start cnt :
  0 <= start < alen q → 0 < cnt →
  ring_view q start cnt = q.[start] :: ring_view q ((start + 1) mod alen q) (cnt - 1).
Proof.
  intros Hs Hc. unfold ring_view. rewrite seqZ_cons by lia. rewrite fmap_cons. f_equal.
  - rewrite Z.add_0_r, Z.mod_small; [done|lia].
  - rewrite <-(fmap_add_seqZ 1 0), <-list_fmap_compose. 
    replace (Z.pred cnt) with (cnt - 1) by lia.
    apply list_fmap_ext. intros ? k Hk. simpl. rewrite Zplus_mod_idemp_l. do 2 f_equal. lia.
Qed.
End ring.

(** ** What a client relies on *)

Class BoundedFifo (S A : Type) (inv : S → Prop) (cap : Z) (contents : S → list A)
    (push : S → A → S) (pop : S → option A * S) := {
  fifo_push_inv s a : inv s → inv (push s a);
  fifo_push_room s a :
    inv s → alen (contents s) < cap → contents (push s a) = contents s ++ [a];
  fifo_push_full s a : inv s → cap <= alen (contents s) → push s a = s;
  fifo_pop_inv s : inv s → inv (pop s).2;
  fifo_pop_empty s : inv s → contents s = [] → pop s = (None, s);
  fifo_pop_cons s a l :
    inv s → contents s = a :: l → (pop s).1 = Some a ∧ contents (pop s).2 = l;
  fifo_bounded s : inv s → alen (contents s) <= cap
}.

(** A client sees a queue through a sequence of pushes and pops and the results of
    the pops.  [fifo_run] runs an implementation, [spec_run] the abstract queue. *)
Inductive fifo_op (A : Type) := Push (a : A) | Pop.
Arguments Push {A} a.
Arguments Pop {A}.

Fixpoint fifo_run {S A} (push : S → A → S) (pop : S → option A * S)
    (ops : list (fifo_op A)) (s : S) : list (option A) :=
  match ops with
  | [] => []
  | Push a :: ops' => fifo_run push pop ops' (push s a)
  | Pop :: ops' => (pop s).1 :: fifo_run push pop ops' (pop s).2
  end.

Definition spec_push {A} (cap : Z) (l : list A) (a : A) : list A :=
  if alen l <? cap then l ++ [a] else l.

Definition spec_pop {A} (l : list A) : option A * list A :=
  match l with [] => (None, []) | a :: l' => (Some a, l') end.

Lemma fifo_refines {S A inv cap contents push pop}
    `{!BoundedFifo S A inv cap contents push pop} ops s :
  inv s →
  fifo_run push pop ops s = fifo_run (spec_push cap) spec_pop ops (contents s).
Proof.
  revert s. induction ops as [|[a|] ops IH]; intros s Hs; simpl; [done| |].
  - rewrite IH by (by apply fifo_push_inv). f_equal. unfold spec_push.
    destruct (Z.ltb_spec (alen (contents s)) cap).
    + by apply fifo_push_room.
    + by rewrite fifo_push_full.
  - rewrite IH by (by apply fifo_pop_inv).
    destruct (contents s) as [|a l] eqn:E; simpl.
    + rewrite (fifo_pop_empty s Hs E). simpl. by rewrite E.
    + destruct (fifo_pop_cons s a l Hs E) as [-> ->]. done.
Qed.

(** ** core/events.c *)
Module Events.

Inductive event_type_t :=
  | EVENT_NONE | EVENT_KEY_DOWN | EVENT_MOUSE_MOVE | EVENT_MOUSE_CLICK | EVENT_MOUSE_RELEASE.

Record event_t := mk_event
  { type : event_type_t; data1 : Z; data2 : Z; data3 : Z }.

#[export] Instance event_inhabited : Inhabited event_t :=
  populate (mk_event EVENT_NONE 0 0 0).

#[export] Instance event_type_eq_dec : EqDecision event_type_t.
Proof. solve_decision. Defined.
#[export] Instance event_eq_dec : EqDecision event_t.
Proof. solve_decision. Defined.

Definition EVENT_QUEUE_SIZE : Z := 128.

Record state := mk { queue : list event_t; head : Z; tail : Z }.

Definition events_init : state :=
  mk (replicate (Z.to_nat EVENT_QUEUE_SIZE) inhabitant) 0 0.

Definition events_push (s : state) (event : event_t) : state :=
  let next := (tail s + 1) mod EVENT_QUEUE_SIZE in
  if next =? head s then s
  else mk ((queue s).[tail s <- event]) (head s) next.

Definition events_pop (s : state) : option event_t * state :=
  if head s =? tail s then (None, s)
  else (Some ((queue s).[head s]),
        mk (queue s) ((head s + 1) mod EVENT_QUEUE_SIZE) (tail s)).

(** The pending events, oldest first, and the invariant of the indices. *)
Definition contents (s : state) : list event_t :=
  ring_view (queue s) (head s) ((tail s - head s) mod EVENT_QUEUE_SIZE).

Definition inv (s : state) : Prop :=
  alen (queue s) = EVENT_QUEUE_SIZE ∧
  0 <= head s < EVENT_QUEUE_SIZE ∧ 0 <= tail s < EVENT_QUEUE_SIZE.

Definition capacity : Z := 127.

Lemma events_init_inv : inv events_init ∧ contents events_init = [].
Proof. repeat split; done. Qed.

Lemma alen_contents s : inv s → alen (contents s) = (tail s - head s) mod 128.
Proof.
  intros _. unfold contents, alen. rewrite length_ring_view.
  unfold EVENT_QUEUE_SIZE. zlia.
Qed.

Lemma push_full_iff s :
  inv s → (tail s + 1) mod 128 = head s ↔ capacity <= alen (contents s).
Proof.
  intros Hs. rewrite alen_contents by done. destruct Hs as (?&?&?).
  unfold capacity, EVENT_QUEUE_SIZE in *. zlia.
Qed.

Lemma contents_push s e :
  inv s → alen (contents s) < capacity → contents (events_push s e) = contents s ++ [e].
Proof.
  intros Hs Hroom. pose proof (push_full_iff s Hs) as Hfull.
  rewrite (alen_contents s Hs) in *. destruct Hs as (Hq&Hh&Ht).
  unfold events_push, contents, capacity, EVENT_QUEUE_SIZE in *.
  destruct (Z.eqb_spec ((tail s + 1) mod 128) (head s)) as [E|E]; [lia|]. simpl.
  rewrite <-(ring_view_push (queue s)) by zlia.
  rewrite Hq. f_equal.
  - f_equal. zlia.
  - zlia.
Qed.

Lemma pop_spec s :
  inv s →
  match contents s with
  | [] => events_pop s = (None, s)
  | e :: l => (events_pop s).1 = Some e ∧ contents (events_pop s).2 = l
  end.
Proof.
  intros Hs. pose proof (alen_contents s Hs) as Hl. destruct Hs as (Hq&Hh&Ht).
  unfold events_pop, contents, EVENT_QUEUE_SIZE in *.
  destruct (Z.eqb_spec (head s) (tail s)) as [E|E].
  - by rewrite E, Z.sub_diag.
  - rewrite ring_view_pop by (zlia). simpl. split; [done|].
    rewrite Hq. f_equal. zlia.
Qed.

(** The event queue is a FIFO of 127 events: a push with room appends at the back,
    a push on a full queue changes nothing, a pop returns the oldest event. *)
#[export] Instance events_fifo :
  BoundedFifo state event_t inv capacity contents events_push events_pop.
Proof.
  constructor.
  - intros s e (Hq&Hh&Ht). unfold events_push, inv, EVENT_QUEUE_SIZE in *.
    case_match; [done|]. simpl. rewrite alen_aset. zlia.
  - intros. by apply contents_push.
  - intros s e Hs Hfull%push_full_iff; [|done].
    unfold events_push, EVENT_QUEUE_SIZE. by rewrite Hfull, Z.eqb_refl.
  - intros s (Hq&Hh&Ht). unfold events_pop, inv, EVENT_QUEUE_SIZE in *.
    case_match; [done|]. simpl. zlia.
  - intros s Hs Hc. pose proof (pop_spec s Hs) as Hp. by rewrite Hc in Hp.
  - intros s a l Hs Hc. pose proof (pop_spec s Hs) as Hp. by rewrite Hc in Hp.
  - intros s Hs. rewrite alen_contents by done. unfold capacity.
    zlia.
Qed.

(** Whatever pushes and pops the interrupt handlers and the GUI loop make, in any
    order, the event queue started by [events_init] answers every pop exactly as an
    abstract FIFO of 127 events would (oldest event first, a push on a full queue
    dropped, no result on an empty one). *)
Theorem events_refine_fifo (ops : list (fifo_op event_t)) :
  fifo_run events_push events_pop ops events_init =
  fifo_run (spec_push 127) spec_pop ops [].
Proof.
  destruct events_init_inv as [Hinv Hc]. rewrite (fifo_refines ops _ Hinv). by rewrite Hc.
Qed.

End Events.

(** ** drivers/char/tty.c *)
Module Tty.

Definition TTY_BUFFER_SIZE : Z := 1024.

Record tty := mk { buffer : list Z; head : Z; tail : Z; count : Z }.

Definition tty_init : tty := mk (replicate (Z.to_nat TTY_BUFFER_SIZE) 0) 0 0 0.

Definition tty_putc (t : tty) (c : Z) : tty :=
  if count t <? TTY_BUFFER_SIZE then
    mk ((buffer t).[head t <- c]) (u32 (head t + 1) mod TTY_BUFFER_SIZE) (tail t)
       (u32 (count t + 1))
  else t.

Definition tty_getc (t : tty) : Z * tty :=
  if count t =? 0 then (0, t)
  else ((buffer t).[tail t],
        mk (buffer t) (head t) (u32 (tail t + 1) mod TTY_BUFFER_SIZE)
           (u32 (count t - 1))).

(** [tty_read] with [read] bytes already delivered and [n] more to go. *)
Fixpoint tty_read_loop (n : nat) (t : tty) (buf : list Z) (read : Z) : Z * list Z * tty :=
  match n with
  | O => (read, buf, t)
  | S n' =>
      let '(c, t') := tty_getc t in
      let buf' := buf.[read <- c] in
      if c =? 10 then (u32 (read + 1), buf', t')
      else tty_read_loop n' t' buf' (u32 (read + 1))
  end.

Definition tty_read (t : tty) (buf : list Z) (size : Z) : Z * list Z * tty :=
  tty_read_loop (Z.to_nat size) t buf 0.

Definition contents (t : tty) : list Z := ring_view (buffer t) (tail t) (count t).

Definition inv (t : tty) : Prop :=
  alen (buffer t) = TTY_BUFFER_SIZE ∧ 0 <= tail t < TTY_BUFFER_SIZE ∧
  0 <= count t <= TTY_BUFFER_SIZE ∧
  head t = (tail t + count t) mod TTY_BUFFER_SIZE.

(** A pop that tells an empty queue from a stored NUL. *)
Definition tty_pop (t : tty) : option Z * tty :=
  if count t =? 0 then (None, t) else (Some (tty_getc t).1, (tty_getc t).2).

Lemma tty_init_inv : inv tty_init ∧ contents tty_init = [].
Proof. repeat split; done. Qed.

Lemma alen_contents_tty t : inv t → alen (contents t) = count t.
Proof. intros (?&?&?&?). unfold contents, alen. rewrite length_ring_view. lia. Qed.

#[export] Instance tty_fifo :
  BoundedFifo tty Z inv TTY_BUFFER_SIZE contents tty_putc tty_pop.
Proof.
  constructor.
  - intros t c (Hq&Ht&Hc&Hh). unfold tty_putc, inv, TTY_BUFFER_SIZE in *.
    destruct (Z.ltb_spec (count t) 1024); [|done]. simpl. rewrite alen_aset.
    unfold u32. split_and!; zlia.
  - intros t c Hs Hroom. rewrite alen_contents_tty in Hroom by done.
    destruct Hs as (Hq&Ht&Hc&Hh). unfold tty_putc, contents, TTY_BUFFER_SIZE in *.
    destruct (Z.ltb_spec (count t) 1024); [|lia]. simpl.
    rewrite u32_small by lia. rewrite <-ring_view_push by lia. by rewrite Hh, Hq.
  - intros t c Hs Hfull. rewrite alen_contents_tty in Hfull by done.
    unfold tty_putc. destruct (Z.ltb_spec (count t) TTY_BUFFER_SIZE); [lia|done].
  - intros t (Hq&Ht&Hc&Hh). unfold tty_pop, tty_getc, inv, TTY_BUFFER_SIZE in *.
    destruct (Z.eqb_spec (count t) 0); simpl; [done|]. unfold u32. split_and!; zlia.
  - intros t Hs Hc. pose proof (alen_contents_tty t Hs) as Hl. rewrite Hc in Hl.
    unfold tty_pop. by destruct (Z.eqb_spec (count t) 0).
  - intros t a l Hs Hc. pose proof (alen_contents_tty t Hs) as Hl. rewrite Hc, alen_cons in Hl.
    pose proof (alen_nonneg l). destruct Hs as (Hq&Ht&Hcnt&Hh).
    unfold tty_pop, tty_getc, contents, TTY_BUFFER_SIZE in *.
    destruct (Z.eqb_spec (count t) 0); [lia|]. simpl.
    rewrite ring_view_pop in Hc by lia. simplify_eq.
    split; [done|]. rewrite Hq. unfold u32. f_equal; zlia.
  - intros t Hs. rewrite alen_contents_tty by done. destruct Hs as (?&?&?&?); lia.
Qed.

(** The reference behaviour of a read of [n] bytes from a queue that holds [xs]:
    the bytes up to and including the first newline, and once the queue is empty
    NUL bytes up to the requested count. *)
Fixpoint read_line (n : nat) (xs : list Z) : list Z :=
  match n, xs with
  | O, _ => []
  | S _, [] => replicate n 0
  | S n', c :: xs' => if c =? 10 then [c] else c :: read_line n' xs'
  end.

Lemma getc_contents t :
  inv t → inv (tty_getc t).2 ∧
  match contents t with
  | [] => tty_getc t = (0, t)
  | c :: l => (tty_getc t).1 = c ∧ contents (tty_getc t).2 = l
  end.
Proof.
  intros Hs. pose proof (fifo_pop_inv t Hs) as Hinv.
  pose proof (fifo_pop_empty t Hs) as He. pose proof (fifo_pop_cons t) as Hp.
  pose proof (alen_contents_tty t Hs) as Hl.
  unfold tty_pop in *. destruct (Z.eqb_spec (count t) 0) as [E|E].
  - split; [unfold tty_getc; by rewrite E|]. destruct (contents t); [|arr_lia].
    unfold tty_getc. by rewrite E.
  - split; [done|]. destruct (contents t) as [|c l]; [arr_lia|].
    destruct (Hp c l Hs eq_refl) as [? ?]. simpl in *. by simplify_eq.
Qed.

Lemma read_line_empty n : read_line n [] = replicate n 0.
Proof. by destruct n. Qed.

Lemma splice_app (buf : list Z) off c l :
  0 <= off → off + 1 + alen l <= alen buf →
  splice (buf.[off <- c]) (off + 1) l = splice buf off (c :: l).
Proof.
  intros. pose proof (alen_nonneg l).
  apply alist_eq; [rewrite !alen_splice; arr; lia|]. intros i Hi.
  rewrite alen_splice in Hi by (arr; lia). arr.
  rewrite !aget_splice, aget_aset by (arr; lia). arr.
  destruct (Z.leb_spec (off + 1) i), (Z.leb_spec off i), (Z.eqb_spec i off),
    (Z.ltb_spec i (off + 1 + alen l)), (Z.ltb_spec i (off + (1 + alen l)));
    simpl; try lia; try done.
  - rewrite aget_cons_S by lia. f_equal. lia.
  - subst. by rewrite Z.sub_diag.
Qed.

Lemma alen_read_line n xs : alen (read_line n xs) <= Z.of_nat n.
Proof.
  revert xs. induction n as [|n IH]; intros [|c xs]; simpl read_line; [done|done| |].
  - change (0 :: replicate n 0) with (replicate (S n) 0). by rewrite alen_replicate.
  - case_match; rewrite alen_cons; [change (alen []) with 0; lia|]. specialize (IH xs). lia.
Qed.

Lemma tty_read_loop_spec n t buf read :
  inv t → 0 <= read → read + Z.of_nat n <= alen buf → alen buf < 0x100000000 →
  let line := read_line n (contents t) in
  ∃ t', tty_read_loop n t buf read = (read + alen line, splice buf read line, t') ∧
        inv t' ∧ contents t' = drop (length line) (contents t).
Proof.
  revert t buf read. induction n as [|n IH]; intros t buf read Hs Hr Hlen Hmax; simpl.
  { exists t. by rewrite splice_nil, Z.add_0_r. }
  destruct (getc_contents t Hs) as [Hs' Hc].
  destruct (tty_getc t) as [c t'] eqn:E. simpl in *.
  rewrite u32_small by lia.
  destruct (contents t) as [|a l] eqn:El.
  - simplify_eq. simpl. destruct (IH t (buf.[read <- 0]) (read + 1)) as (t''&He&Hi&Hd);
      [done|lia|arr; lia|arr; lia|].
    rewrite He, El, read_line_empty in *. exists t''. rewrite drop_nil in Hd.
    rewrite alen_replicate, alen_cons, alen_replicate in *.
    split_and!; [|done|done]. rewrite splice_app by (arr; lia). by rewrite Z.add_assoc.
  - destruct Hc as [<- Hl]. destruct (Z.eqb_spec c 10).
    + exists t'. split_and!; [|done|done]. change (alen [c]) with 1.
      by rewrite splice_1 by lia.
    + destruct (IH t' (buf.[read <- c]) (read + 1)) as (t''&He&Hi&Hd);
        [done|lia|arr; lia|arr; lia|].
      pose proof (alen_read_line n l).
      rewrite Hl in *. rewrite He. exists t''. split_and!; [|done|done].
      rewrite alen_cons, splice_app by lia. by rewrite Z.add_assoc.
Qed.

(** [tty_read] of [size] bytes delivers exactly the queued characters up to and
    including the first newline, pads with NULs when the queue runs dry first, returns
    the number of bytes delivered, leaves the rest of the destination untouched, and
    removes exactly the delivered characters from the queue. *)
Theorem tty_read_line t buf size :
  inv t → 0 <= size <= alen buf → alen buf < 0x100000000 →
  let line := read_line (Z.to_nat size) (contents t) in
  ∃ t', tty_read t buf size = (alen line, splice buf 0 line, t') ∧
        inv t' ∧ contents t' = drop (length line) (contents t).
Proof. intros Hs Hsz Hmax. apply tty_read_loop_spec; [done|lia..]. Qed.

Definition tty_ab : tty := tty_putc (tty_putc (tty_putc tty_init 97) 10) 98.

Lemma tty_read_line_witness :
  contents tty_ab = [97; 10; 98] ∧
  ∃ t', tty_read tty_ab [0; 0; 0; 7] 3 = (2, [97; 10; 0; 7], t') ∧ inv t' ∧
        contents t' = [98].
Proof.
  split; [by vm_compute|].
  apply (tty_read_line tty_ab [0; 0; 0; 7] 3).
  - repeat apply fifo_push_inv. apply tty_init_inv.
  - split; by vm_compute.
  - by vm_compute.
Defined.

End Tty.
