(* ===== verification/KString.v ===== *)
(** * libk/string.h

    The kernel's memory and string routines.  A buffer is a byte list with an offset,
    a [char *] the list of bytes from the pointer on.  [memset] and [memcpy] keep the
    double-word loop followed by the byte loop of the source; the theorems show that
    each routine is the plain fill, copy or comparison its name promises. *)

From S2P Require Import Prelude.

Definition hd0 (s : list Z) : Z := s.[0].

Fixpoint strlen (str : list Z) : Z :=
  match str with
  | [] => 0
  | c :: str' => if nz c then 1 + strlen str' else 0
  end.

Definition memset (dest : list Z) (off val count : Z) : list Z :=
  let v := u8 val in
  let v32 := u32 (Z.lor (Z.lor (Z.lor v (Z.shiftl v 8)) (Z.shiftl v 16)) (Z.shiftl v 24)) in
  let dwords := count / 4 in
  let d32 := for_loop (Z.to_nat dwords) 0 (λ i d, put_le 4 d (off + 4 * i) v32) dest in
  for_loop (Z.to_nat (count - dwords * 4)) (dwords * 4) (λ i d, d.[off + i <- v]) d32.

Definition memcpy (dest : list Z) (doff : Z) (src : list Z) (soff count : Z) : list Z :=
  let dwords := count / 4 in
  let d32 := for_loop (Z.to_nat dwords) 0
               (λ i d, put_le 4 d (doff + 4 * i) (get_le 4 src (soff + 4 * i))) dest in
  for_loop (Z.to_nat (count - dwords * 4)) (dwords * 4)
    (λ i d, d.[doff + i <- src.[soff + i]]) d32.

(** Both pointers into one object, so that the regions may overlap. *)
Definition memmove (buf : list Z) (d s count : Z) : list Z :=
  if d <? s then
    for_loop (Z.to_nat count) 0 (λ i b, b.[d + i <- b.[s + i]]) buf
  else
    for_loop (Z.to_nat count) 0
      (λ k b, let i := count - k in b.[d + (i - 1) <- b.[s + (i - 1)]]) buf.

Fixpoint strcmp (s1 s2 : list Z) : Z :=
  match s1 with
  | [] => 0 - hd0 s2
  | a :: s1' => if nz a && (a =? hd0 s2) then strcmp s1' (tail s2) else a - hd0 s2
  end.

Fixpoint strncmp (s1 s2 : list Z) (n : nat) : Z :=
  match n with
  | O => 0
  | S n' =>
      if nz (hd0 s1) && (hd0 s1 =? hd0 s2) then strncmp (tail s1) (tail s2) n'
      else hd0 s1 - hd0 s2
  end.

Definition memcmp (s1 s2 : list Z) (n : Z) : Z :=
  match zfind (λ i, negb (s1.[i] =? s2.[i])) 0 (Z.to_nat n) with
  | Some i => s1.[i] - s2.[i]
  | None => 0
  end.

(** The copy loop, with the destination pointer at offset [d] of [dest]. *)
Fixpoint strcpy (dest : list Z) (d : Z) (src : list Z) : list Z :=
  match src with
  | [] => dest.[d <- 0]
  | c :: src' => if nz c then strcpy (dest.[d <- c]) (d + 1) src' else dest.[d <- 0]
  end.

(** The inner loop of [strstr]: does the needle end before a mismatch? *)
Fixpoint strstr_match (h n : list Z) {struct n} : bool :=
  match n with
  | [] => true
  | b :: n' =>
      if b =? 0 then true
      else match h with
           | [] => false
           | a :: h' => if nz a && (a =? b) then strstr_match h' n' else false
           end
  end.

(** The offset of the result in [haystack]. *)
Fixpoint strstr_loop (haystack needle : list Z) : option Z :=
  match haystack with
  | [] => None
  | a :: h' =>
      if a =? 0 then None
      else if strstr_match haystack needle then Some 0
      else (λ k, k + 1) <$> strstr_loop h' needle
  end.

Definition strstr (haystack needle : list Z) : option Z :=
  if hd0 needle =? 0 then Some 0 else strstr_loop haystack needle.

Fixpoint kstrncpy_copy (fuel : nat) (i : Z) (dest : list Z) (doff : Z) (src : list Z) :
    Z * list Z :=
  match fuel with
  | O => (i, dest)
  | S f =>
      if src.[i] =? 0 then (i, dest)
      else kstrncpy_copy f (i + 1) (dest.[doff + i <- src.[i]]) doff src
  end.

Definition kstrncpy (dest : list Z) (doff : Z) (src : list Z) (n : Z) : list Z :=
  let '(i, d) := kstrncpy_copy (Z.to_nat n) 0 dest doff src in
  for_loop (Z.to_nat (n - i)) i (λ j d, d.[doff + j <- 0]) d.

(** ** Fill and copy *)

(** A loop that appends the chunk [f k] to the region written so far writes the
    concatenation of the chunks. *)
Lemma alen_concat {A} (w : Z) (f : Z → list A) i n :
  (∀ k, i <= k < i + Z.of_nat n → alen (f k) = w) →
  alen (concat (f <$> seqZ i (Z.of_nat n))) = w * Z.of_nat n.
Proof.
  revert i. induction n as [|n IH]; intros i Hf.
  - simpl. by rewrite Z.mul_0_r.
  - rewrite seqZ_cons by lia. simpl. rewrite Nat2Z.inj_succ, Z.pred_succ.
    rewrite alen_app, Hf, IH; [lia| |lia]. intros. apply Hf. lia.
Qed.

Lemma fill_loop {A} `{!Inhabited A} (w : Z) (f : Z → list A) body (l : list A) off n i :
  0 <= off → 0 < w → 0 <= i → off + w * (i + Z.of_nat n) <= alen l →
  (∀ k, i <= k < i + Z.of_nat n → alen (f k) = w) →
  (∀ k b, alen b = alen l → i <= k < i + Z.of_nat n → body k b = splice b (off + w * k) (f k)) →
  for_loop n i body l = splice l (off + w * i) (concat (f <$> seqZ i (Z.of_nat n))).
Proof.
  intros Hoff Hw Hi Hlen Hf Hbody. induction n as [|n IH].
  { simpl. by rewrite splice_nil. }
  assert (alen (concat (f <$> seqZ i (Z.of_nat n))) = w * Z.of_nat n) as Hc
    by (apply alen_concat; intros; apply Hf; lia).
  rewrite for_loop_S, Nat2Z.inj_succ, <-Z.add_1_r, seqZ_app by lia.
  rewrite fmap_app, concat_app. simpl. rewrite app_nil_r.
  rewrite IH by (intros; first [apply Hbody | apply Hf | idtac]; lia).
  rewrite Hbody by (rewrite ?alen_splice; lia).
  rewrite <-splice_splice_adj by (rewrite ?Hc, ?Hf; lia).
  by rewrite Hc, Z.mul_add_distr_l, Z.add_assoc.
Qed.

Lemma concat_fill (c : Z) m i n :
  concat ((λ _, replicate m c) <$> seqZ i (Z.of_nat n)) = replicate (m * n) c.
Proof.
  revert i. induction n as [|n IH]; intros i.
  - by rewrite Nat.mul_0_r.
  - rewrite seqZ_cons by lia. simpl. rewrite Nat2Z.inj_succ, Z.pred_succ, IH.
    rewrite <-replicate_add. f_equal. lia.
Qed.

Lemma concat_sub {A} `{!Inhabited A} (l : list A) off w i n :
  0 <= off → 0 < w → 0 <= i → off + w * (i + Z.of_nat n) <= alen l →
  concat ((λ k, sub l (off + w * k) w) <$> seqZ i (Z.of_nat n)) =
  sub l (off + w * i) (w * Z.of_nat n).
Proof.
  revert i. induction n as [|n IH]; intros i ????.
  - by rewrite Z.mul_0_r.
  - rewrite seqZ_cons by lia. simpl. rewrite Nat2Z.inj_succ, Z.pred_succ, <-Z.add_1_r.
    rewrite IH by lia. replace (w * Z.succ (Z.of_nat n)) with (w + w * Z.of_nat n) by lia.
    rewrite sub_app by lia. do 2 f_equal. lia.
Qed.

(** [for (i = 0; i < n; i++) dst[off + i] = src[soff + i]]. *)
Lemma copy_loop (dst : list Z) off src soff n body :
  (∀ i b, body i b = b.[off + i <- src.[soff + i]]) →
  0 <= off → 0 <= soff → off + Z.of_nat n <= alen dst → soff + Z.of_nat n <= alen src →
  for_loop n 0 body dst = splice dst off (sub src soff (Z.of_nat n)).
Proof.
  intros Hb Hoff Hsoff Hd Hs.
  rewrite (fill_loop 1 (λ k, sub src (soff + 1 * k) 1) _ _ off); [|lia..| |].
  - rewrite concat_sub by lia. by rewrite Z.mul_0_r, !Z.add_0_r, Z.mul_1_l.
  - intros. apply alen_sub; lia.
  - intros k b Hlen Hk. rewrite Hb, !Z.mul_1_l, <-splice_1, sub_1 by lia. done.
Qed.

Lemma v32_bytes v :
  0 <= v < 256 →
  le_bytes 4 (u32 (Z.lor (Z.lor (Z.lor v (Z.shiftl v 8)) (Z.shiftl v 16)) (Z.shiftl v 24)))
  = replicate 4 v.
Proof.
  intros Hv. apply (bool_decide_eq_true_1 (_ = _)).
  revert v Hv. apply byte_forall. by vm_compute.
Qed.

Lemma alen_replicate_Z {A} (n : Z) (c : A) : 0 <= n → alen (replicate (Z.to_nat n) c) = n.
Proof. intros. rewrite alen_replicate. lia. Qed.

(** The double-word and byte loops of [memset] together fill exactly the [count]
    bytes at the destination with the low byte of [val] and touch nothing else. *)
Theorem memset_fills dest off val count :
  0 <= off → 0 <= count → off + count <= alen dest →
  memset dest off val count = splice dest off (replicate (Z.to_nat count) (u8 val)).
Proof.
  intros Hoff Hc Hlen. unfold memset. pose proof (u8_range val) as Hv.
  rewrite (fill_loop 4 (λ _, replicate 4 (u8 val)) _ dest off)
    by (intros; try rewrite v32_bytes; unfold put_le; rewrite ?v32_bytes; try done; zlia).
  rewrite Z.mul_0_r, Z.add_0_r, concat_fill.
  rewrite (fill_loop 1 (λ _, replicate 1 (u8 val)) _ _ off).
  - rewrite concat_fill, Z.mul_1_l.
    set (a := replicate (4 * _) _). set (b := replicate (1 * _) _).
    assert (count / 4 * 4 = alen a) as -> by (subst a; rewrite alen_replicate; zlia).
    rewrite splice_splice_adj by (subst a b; rewrite ?alen_replicate; zlia).
    subst a b. rewrite <-replicate_add. do 2 f_equal. zlia.
  - done.
  - lia.
  - zlia.
  - rewrite alen_splice; rewrite ?alen_replicate; zlia.
  - done.
  - intros k b Hb Hk. rewrite Z.mul_1_l. simpl replicate. rewrite splice_1; [done|].
    rewrite Hb. rewrite alen_splice; rewrite ?alen_replicate; zlia.
Qed.

Lemma memset_fills_witness :
  memset [1;2;3;4;5;6;7;8] 1 0x1FF 6 = [1;255;255;255;255;255;255;8].
Proof. rewrite memset_fills by (vm_compute; done). done. Defined.

(** [memcpy] writes exactly the [count] source bytes at the destination. *)
Theorem memcpy_copies dest doff src soff count :
  bytes_ok src → 0 <= doff → 0 <= soff → 0 <= count →
  doff + count <= alen dest → soff + count <= alen src →
  memcpy dest doff src soff count = splice dest doff (sub src soff count).
Proof.
  intros Hok Hd Hs Hc Hdl Hsl. unfold memcpy.
  assert (∀ k, 0 <= k < count / 4 →
    le_bytes 4 (get_le 4 src (soff + 4 * k)) = sub src (soff + 4 * k) 4) as Hw.
  { intros k Hk. unfold get_le.
    assert (length (sub src (soff + 4 * k) 4) = 4%nat) as Hl
      by (pose proof (alen_sub src (soff + 4 * k) 4); unfold alen in *; zlia).
    rewrite <-(le_bytes_num (sub src (soff + 4 * k) 4)) by (by apply bytes_ok_sub).
    by rewrite Hl. }
  assert (∀ k, 0 <= k < count / 4 → alen (sub src (soff + 4 * k) 4) = 4) as Hl4
    by (intros; apply alen_sub; zlia).
  rewrite (fill_loop 4 (λ k, sub src (soff + 4 * k) 4) _ dest doff).
  - rewrite concat_sub, Z.mul_0_r, !Z.add_0_r, Z2Nat.id by zlia.
    assert (alen (sub src soff (4 * (count / 4))) = 4 * (count / 4)) as Ha
      by (apply alen_sub; zlia).
    rewrite (fill_loop 1 (λ k, sub src (soff + 1 * k) 1) _ _ doff).
    + rewrite concat_sub by zlia. rewrite !Z.mul_1_l, Z2Nat.id by zlia.
      replace (count / 4 * 4) with (alen (sub src soff (4 * (count / 4)))) at 1 by lia.
      rewrite splice_splice_adj by (rewrite ?Ha; try rewrite alen_sub; zlia).
      rewrite (Z.mul_comm (count / 4) 4), <-sub_app by zlia. do 2 f_equal. lia.
    + done.
    + lia.
    + zlia.
    + rewrite alen_splice; zlia.
    + intros. apply alen_sub; zlia.
    + intros k b Hb Hk. rewrite !Z.mul_1_l, <-splice_1 by (rewrite Hb, alen_splice; rewrite ?Ha; zlia).
      by rewrite sub_1 by zlia.
  - done.
  - lia.
  - lia.
  - zlia.
  - intros. apply Hl4. lia.
  - intros k b Hb Hk. unfold put_le. by rewrite Hw by lia.
Qed.

Lemma memcpy_copies_witness :
  memcpy [0;0;0;0;0;0;0;0] 1 [9;1;2;3;4;5;6;7] 2 6 = [0;2;3;4;5;6;7;0].
Proof.
  rewrite memcpy_copies; [done| |by vm_compute..].
  repeat constructor; lia.
Defined.

(** [b] is [buf] with the bytes [lo <= x < hi] replaced by those [delta] further on. *)
Definition moved (buf b : list Z) (lo hi delta : Z) : Prop :=
  alen b = alen buf ∧
  ∀ x, 0 <= x → b.[x] = if (lo <=? x) && (x <? hi) then buf.[x + delta] else buf.[x].

Lemma moved_splice buf b d s count :
  0 <= d → 0 <= s → 0 <= count → d + count <= alen buf → s + count <= alen buf →
  moved buf b d (d + count) (s - d) → b = splice buf d (sub buf s count).
Proof.
  intros ????? [Hlen Hb]. pose proof (alen_sub buf s count).
  apply alist_eq; [rewrite alen_splice; lia|]. intros x Hx.
  rewrite Hb, aget_splice by lia. rewrite alen_sub by lia.
  destruct (Z.leb_spec d x), (Z.ltb_spec x (d + count)); simpl; try done.
  rewrite aget_sub by lia. f_equal. lia.
Qed.

(** One step of either loop extends the moved region by one byte at [x]. *)
Lemma moved_step buf b lo hi lo' hi' delta x :
  0 <= lo' → hi' <= alen buf →
  moved buf b lo hi delta → 0 <= x < alen buf → 0 <= x + delta →
  ¬ (lo <= x + delta < hi) →
  (∀ y, lo' <= y < hi' ↔ (lo <= y < hi ∨ y = x)) →
  moved buf (b.[x <- b.[x + delta]]) lo' hi' delta.
Proof.
  intros ?? [Hlen Hb] Hx Hx' Hne Hy. split; [arr; lia|]. intros y Hy0.
  rewrite aget_aset by lia. specialize (Hy y). rewrite !Hb by lia.
  destruct (Z.eqb_spec y x); subst;
    destruct (Z.leb_spec lo (x + delta)), (Z.ltb_spec (x + delta) hi); simpl; try lia;
    repeat match goal with |- context[?a <=? ?b] => destruct (Z.leb_spec a b)
                         | |- context[?a <? ?b] => destruct (Z.ltb_spec a b) end;
    simpl; try lia; done.
Qed.

(** [memmove] delivers the original source bytes at the destination, also when
    the two regions overlap in either direction. *)
Theorem memmove_overlap buf d s count :
  0 <= d → 0 <= s → 0 <= count → d + count <= alen buf → s + count <= alen buf →
  memmove buf d s count = splice buf d (sub buf s count).
Proof.
  intros Hd Hs Hc Hdl Hsl. apply moved_splice; try done. unfold memmove.
  destruct (Z.ltb_spec d s).
  - replace (d + count) with (d + (0 + Z.of_nat (Z.to_nat count))) by lia.
    apply (for_loop_inv (λ i b, moved buf b d (d + i) (s - d))).
    + split; [done|]. intros x _.
      destruct (Z.leb_spec d x), (Z.ltb_spec x (d + 0)); simpl; try done; lia.
    + intros i b Hi Hm. replace (s + i) with (d + i + (s - d)) by lia.
      eapply moved_step; [..|exact Hm| | | |]; lia.
  - replace d with (d + count - (0 + Z.of_nat (Z.to_nat count))) at 1 by lia.
    apply (for_loop_inv (λ k b, moved buf b (d + count - k) (d + count) (s - d))).
    + split; [done|]. intros x _.
      destruct (Z.leb_spec (d + count - 0) x), (Z.ltb_spec x (d + count)); simpl; try done; lia.
    + intros k b Hk Hm. cbv zeta.
      replace (s + (count - k - 1)) with (d + (count - k - 1) + (s - d)) by lia.
      eapply moved_step; [..|exact Hm| | | |]; lia.
Qed.

Lemma memmove_overlap_witness :
  memmove [1;2;3;4;5;6] 1 0 4 = [1;1;2;3;4;6] ∧ memmove [1;2;3;4;5;6] 0 1 4 = [2;3;4;5;5;6].
Proof. split; (rewrite memmove_overlap; [done|by vm_compute..]). Defined.

(** ** Strings *)

Lemma strlen_cstr s : strlen s = alen (cstr s).
Proof.
  induction s as [|c s IH]; simpl; [done|]. unfold nz.
  destruct (Z.eqb_spec c 0); simpl; [done|]. rewrite alen_cons. lia.
Qed.

Lemma cstr_hd s : hd0 s = 0 ↔ cstr s = [].
Proof.
  destruct s as [|c s]; simpl; [done|]. unfold hd0. rewrite aget_cons_0.
  destruct (Z.eqb_spec c 0); naive_solver.
Qed.

Lemma cstr_unfold s : cstr s = if hd0 s =? 0 then [] else hd0 s :: cstr (tail s).
Proof. by destruct s. Qed.

(** [strcmp] answers 0 exactly when the two pointers denote the same string. *)
Theorem strcmp_eq s1 s2 : strcmp s1 s2 = 0 ↔ cstr s1 = cstr s2.
Proof.
  revert s2. induction s1 as [|a s1 IH]; intros s2; simpl.
  - destruct (cstr_hd s2) as [H1 H2]. split; intros E.
    + symmetry. apply H1. lia.
    + rewrite H2 by done. lia.
  - rewrite (cstr_unfold s2). unfold nz.
    destruct (Z.eqb_spec a 0); simpl.
    + subst. destruct (Z.eqb_spec (hd0 s2) 0); split; try done; lia.
    + destruct (Z.eqb_spec a (hd0 s2)).
      * subst. destruct (Z.eqb_spec (hd0 s2) 0); [done|]. rewrite IH. split; congruence.
      * destruct (Z.eqb_spec (hd0 s2) 0); split; try done; try lia; congruence.
Qed.

Lemma strncmp_eq s1 s2 n :
  strncmp s1 s2 n = 0 ↔ take n (cstr s1) = take n (cstr s2).
Proof.
  revert s1 s2. induction n as [|n IH]; intros s1 s2; simpl; [done|].
  rewrite (cstr_unfold s1), (cstr_unfold s2). unfold nz.
  destruct (Z.eqb_spec (hd0 s1) 0) as [E|E]; simpl.
  - rewrite E. destruct (Z.eqb_spec (hd0 s2) 0); split; try done; lia.
  - destruct (Z.eqb_spec (hd0 s1) (hd0 s2)) as [E'|E'].
    + rewrite <-E'. destruct (Z.eqb_spec (hd0 s1) 0); [done|]. simpl.
      rewrite IH. split; congruence.
    + destruct (Z.eqb_spec (hd0 s2) 0); simpl; split; try done; try lia; congruence.
Qed.

Lemma memcmp_eq s1 s2 n :
  0 <= n → n <= alen s1 → n <= alen s2 →
  memcmp s1 s2 n = 0 ↔ sub s1 0 n = sub s2 0 n.
Proof.
  intros. unfold memcmp. destruct (zfind _ 0 _) as [i|] eqn:E.
  - apply zfind_Some in E as (Hi & Hne & _). split.
    + destruct (Z.eqb_spec (s1.[i]) (s2.[i])); [done|lia].
    + intros Heq. apply (f_equal (λ l, l.[i])) in Heq.
      rewrite !aget_sub, !Z.add_0_l in Heq by lia. lia.
  - rewrite zfind_None in E. split; [intros _|done].
    apply alist_eq; [rewrite !alen_sub; lia|]. intros i Hi. rewrite alen_sub in Hi by lia.
    rewrite !aget_sub, !Z.add_0_l by lia.
    specialize (E i ltac:(lia)). by destruct (Z.eqb_spec (s1.[i]) (s2.[i])).
Qed.

Lemma splice_aset_adj (buf : list Z) off c l :
  0 <= off → off + 1 + alen l <= alen buf →
  splice (buf.[off <- c]) (off + 1) l = splice buf off (c :: l).
Proof.
  intros. pose proof (alen_nonneg l).
  rewrite <-splice_1 by lia. change 1 with (alen [c]).
  rewrite splice_splice_adj; [done|lia|]. change (alen [c]) with 1. lia.
Qed.

(** [strcpy] writes the string and its terminator at the destination, and only
    those bytes. *)
Theorem strcpy_copies dest d src :
  0 <= d → d + strlen src + 1 <= alen dest →
  strcpy dest d src = splice dest d (cstr src ++ [0]).
Proof.
  rewrite strlen_cstr. revert dest d.
  induction src as [|c src IH]; intros dest d Hd; simpl.
  - rewrite alen_nil. intros. by rewrite splice_1 by lia.
  - unfold nz. destruct (Z.eqb_spec c 0); simpl; rewrite ?alen_nil, ?alen_cons; intros.
    + by rewrite splice_1 by lia.
    + rewrite IH by (arr; lia). rewrite splice_aset_adj; [done|lia|].
      rewrite alen_app. change (alen [0]) with 1. lia.
Qed.

Lemma strcpy_copies_witness :
  strcpy [7;7;7;7;7] 1 [104;105;0;99] = [7;104;105;0;7].
Proof. rewrite strcpy_copies by (vm_compute; done). done. Defined.

(** *** strstr *)

Lemma strstr_match_prefix h n : strstr_match h n = true ↔ cstr n `prefix_of` cstr h.
Proof.
  revert h. induction n as [|b n IH]; intros h; simpl.
  { split; [intros _; apply prefix_nil|done]. }
  destruct (Z.eqb_spec b 0); [split; [intros _; apply prefix_nil|done]|].
  destruct h as [|a h]; simpl.
  { split; [done|]. by intros ?%prefix_nil_not. }
  unfold nz. destruct (Z.eqb_spec a 0); simpl.
  { split; [done|]. by intros ?%prefix_nil_not. }
  destruct (Z.eqb_spec a b); simpl.
  - subst. rewrite IH. split; [apply prefix_cons|apply prefix_cons_inv_2].
  - split; [done|]. intros ?%prefix_cons_inv_1. congruence.
Qed.

Lemma strstr_loop_spec h n :
  match strstr_loop h n with
  | Some k =>
      0 <= k ∧ k < alen (cstr h) ∧ cstr n `prefix_of` drop (Z.to_nat k) (cstr h) ∧
      ∀ j, 0 <= j < k → ¬ cstr n `prefix_of` drop (Z.to_nat j) (cstr h)
  | None => ∀ j, 0 <= j < alen (cstr h) → ¬ cstr n `prefix_of` drop (Z.to_nat j) (cstr h)
  end.
Proof.
  induction h as [|a h IH]; cbn [strstr_loop cstr].
  { unfold alen; simpl; lia. }
  destruct (Z.eqb_spec a 0) as [->|Ha]; [unfold alen; simpl; lia|].
  pose proof (strstr_match_prefix (a :: h) n) as Hm. simpl in Hm.
  destruct (Z.eqb_spec a 0) as [|_]; [done|].
  destruct (strstr_match (a :: h) n).
  { rewrite alen_cons. pose proof (alen_nonneg (cstr h)). split_and!; [lia|lia| |lia].
    rewrite drop_0. by apply Hm. }
  assert (¬ cstr n `prefix_of` a :: cstr h) as Hn by (intros ?%Hm; done).
  assert (∀ j, 0 < j → drop (Z.to_nat j) (a :: cstr h) = drop (Z.to_nat (j - 1)) (cstr h)) as Hd.
  { intros j Hj. by replace (Z.to_nat j) with (S (Z.to_nat (j - 1))) by lia. }
  destruct (strstr_loop h n) as [k|]; cbn [fmap option_fmap option_map].
  - destruct IH as (Hk0&Hk&Hp&Hlt). rewrite alen_cons. split_and!; [lia|lia| |].
    + rewrite Hd by lia. by rewrite Z.add_simpl_r.
    + intros j Hj. destruct (decide (j = 0)) as [->|]; [done|].
      rewrite Hd by lia. apply Hlt. lia.
  - rewrite alen_cons. intros j Hj. destruct (decide (j = 0)) as [->|]; [done|].
    rewrite Hd by lia. apply IH. lia.
Qed.

(** For a non-empty needle, [strstr] returns the offset of the first occurrence of
    the needle in the haystack, and NULL exactly when there is none. *)
Theorem strstr_first haystack needle :
  cstr needle ≠ [] →
  match strstr haystack needle with
  | Some k =>
      0 <= k < alen (cstr haystack) ∧
      cstr needle `prefix_of` drop (Z.to_nat k) (cstr haystack) ∧
      ∀ j, 0 <= j < k → ¬ cstr needle `prefix_of` drop (Z.to_nat j) (cstr haystack)
  | None =>
      ∀ j, 0 <= j < alen (cstr haystack) →
        ¬ cstr needle `prefix_of` drop (Z.to_nat j) (cstr haystack)
  end.
Proof.
  rewrite <-cstr_hd. intros Hn. unfold strstr.
  destruct (Z.eqb_spec (hd0 needle) 0); [done|].
  pose proof (strstr_loop_spec haystack needle) as Hs.
  destruct (strstr_loop haystack needle); [|done].
  destruct Hs as (?&?&?&?). by split_and!.
Qed.

Lemma strstr_first_witness :
  strstr [97;98;97;98;99;0] [97;98;99;0] = Some 2 ∧
  ¬ cstr [97;98;99;0] `prefix_of` drop 0 (cstr [97;98;97;98;99;0]).
Proof.
  split; [done|].
  destruct (strstr_first [97;98;97;98;99;0] [97;98;99;0]) as (_ & _ & Hlt); [done|].
  apply (Hlt 0). by vm_compute.
Defined.

(** *** kstrncpy *)

Lemma kstrncpy_copy_spec fuel i dest doff src :
  0 <= doff → 0 <= i → doff + i + Z.of_nat fuel <= alen dest →
  let w := take fuel (cstr (drop (Z.to_nat i) src)) in
  kstrncpy_copy fuel i dest doff src = (i + alen w, splice dest (doff + i) w).
Proof.
  revert i dest. induction fuel as [|f IH]; intros i dest Hd Hi Hlen; simpl.
  { rewrite take_0, splice_nil, alen_nil, Z.add_0_r. done. }
  assert (hd0 (drop (Z.to_nat i) src) = src.[i]) as Hhd.
  { unfold hd0, aget. destruct (Z.ltb_spec i 0); [lia|]. simpl.
    rewrite !list_lookup_total_alt, lookup_drop. do 2 f_equal. lia. }
  rewrite (cstr_unfold (drop _ src)), Hhd.
  destruct (Z.eqb_spec (src.[i]) 0); simpl.
  { rewrite splice_nil, Z.add_0_r. done. }
  rewrite IH by (arr; lia).
  replace (tail (drop (Z.to_nat i) src)) with (drop (Z.to_nat (i + 1)) src).
  2:{ replace (Z.to_nat (i + 1)) with (Z.to_nat i + 1)%nat by lia.
      rewrite <-drop_drop. by destruct (drop (Z.to_nat i) src). }
  rewrite alen_cons, Z.add_assoc, Z.add_assoc. f_equal.
  apply splice_aset_adj; [lia|]. rewrite alen_firstn. lia.
Qed.

(** [kstrncpy] fills exactly [n] bytes: the string cut at [n] bytes, then NULs.
    A terminator is written only when the string is shorter than [n]. *)
Theorem kstrncpy_pads dest doff src n :
  0 <= doff → 0 <= n → doff + n <= alen dest →
  kstrncpy dest doff src n =
  splice dest doff (take (Z.to_nat n) (cstr src ++ replicate (Z.to_nat n) 0)).
Proof.
  intros Hd Hn Hlen. unfold kstrncpy.
  rewrite kstrncpy_copy_spec by lia. rewrite drop_0, Z.add_0_r, Z.add_0_l.
  set (w := take (Z.to_nat n) (cstr src)).
  assert (alen w = Z.min n (alen (cstr src))) as Hw
    by (subst w; rewrite alen_firstn; lia).
  pose proof (alen_nonneg (cstr src)).
  rewrite (fill_loop 1 (λ _, replicate 1 0) _ _ doff).
  - rewrite concat_fill, Z.mul_1_l, Nat.mul_1_l, splice_splice_adj
      by (rewrite ?alen_replicate_Z; lia).
    f_equal. subst w. rewrite take_app. f_equal. rewrite take_replicate. f_equal.
    unfold alen in *. lia.
  - done.
  - lia.
  - lia.
  - rewrite alen_splice; lia.
  - done.
  - intros k b Hb Hk. rewrite Z.mul_1_l. simpl replicate. rewrite splice_1; [done|].
    rewrite Hb, alen_splice; lia.
Qed.

Lemma kstrncpy_pads_witness :
  kstrncpy [9;9;9;9;9;9] 1 [104;105;0;99] 4 = [9;104;105;0;0;9] ∧
  kstrncpy [9;9;9] 0 [104;105;106;0] 2 = [104;105;9].
Proof. split; (rewrite kstrncpy_pads; [done|by vm_compute..]). Defined.

(** [memcpy(dest + doff, src + soff, n)] between two objects. *)
Definition memcpy_ck (dest : list Z) (doff : Z) (src : list Z) (soff n : Z) : outcome (list Z) :=
  if ck_memory doff n (alen dest) && ck_memory soff n (alen src)
  then Done (memcpy dest doff src soff n) else Fault.

Lemma memcpy_ck_spec dest doff src soff n :
  bytes_ok src → 0 <= doff → 0 <= soff → 0 <= n → doff + n <= alen dest → soff + n <= alen src →
  memcpy_ck dest doff src soff n = Done (splice dest doff (sub src soff n)).
Proof.
  intros. unfold memcpy_ck, ck_memory.
  repeat match goal with |- context [?a <=? ?b] => destruct (Z.leb_spec a b); [|lia] end.
  simpl. by rewrite memcpy_copies.
Qed.

Lemma memcpy_ck_fault dest doff src soff n :
  n < 0 ∨ alen dest < doff + n ∨ alen src < soff + n → memcpy_ck dest doff src soff n = Fault.
Proof.
  intros Hn. unfold memcpy_ck, ck_memory.
  repeat match goal with |- context [?a <=? ?b] => destruct (Z.leb_spec a b) end; try done; lia.
Qed.
