(* ===== verification/Block.v ===== *)
(** * The interface of the disk drivers to the file system

    fat32.c reaches a disk through [ahci_read] and [ahci_write] of drivers/block/ahci.c or
    [ata_read_sectors] and [ata_write_sectors] of drivers/block/ata.c.  [BlockDev] has these
    operations on an abstract disk; [BlockDevLaws] is what a working disk promises for the
    transfers the drivers support: Ata.v and Ahci.v prove the same promises of the drivers
    with the hardware below them. *)

From S2P Require Import Prelude KString.

Class BlockDev (D : Type) := {
  blk_ahci_drive : D → Z;
  blk_ahci_read : D → Z → Z → Z → option (list Z);
  blk_ahci_write : D → Z → Z → Z → list Z → bool * D;
  blk_ata_read : D → Z → Z → Z → option (list Z);
  blk_ata_write : D → Z → Z → Z → list Z → bool * D }.

(** ata.h: the drives of the bus. *)
Definition ATA_MASTER : Z := 0xA0.
Definition ATA_SLAVE : Z := 0xB0.

(** The [n] sectors from [lba] on. *)
Definition sectors (sec : Z → list Z) (lba n : Z) : list Z := concat (map sec (seqZ lba n)).

(** A device is an AHCI port or an ATA drive.  The AHCI driver transfers up to 16 sectors
    with 32-bit addresses, the ATA driver up to 255 sectors with 28-bit addresses. *)
Definition transfer_ok (v : bool * Z) (lba n : Z) : Prop :=
  0 <= lba ∧ 0 < n ∧ if v.1 then n <= 16 ∧ lba + n <= 0x100000000 else n < 256 ∧ lba + n <= 0x10000000.

(** [d'] is [d] with the sectors of device [v] from [lba] on overwritten by [b]. *)
Definition disk_update {D} (sec : D → bool * Z → Z → list Z) (d d' : D) (v : bool * Z)
    (lba n : Z) (b : list Z) : Prop :=
  ∀ v' l, sec d' v' l =
    if bool_decide (v' = v ∧ lba <= l < lba + n) then sub b (512 * (l - lba)) 512 else sec d v' l.

(** What a drive that works does: [sec d v l] is the content of sector [l] of device [v]. *)
Class BlockDevLaws (D : Type) `{BlockDev D} (sec : D → bool * Z → Z → list Z) := {
  sec_len d v l : alen (sec d v l) = 512;
  sec_bytes d v l : bytes_ok (sec d v l);
  ahci_reads d p lba n : transfer_ok (true, p) lba n →
    blk_ahci_read d p lba n = Some (sectors (sec d (true, p)) lba n);
  ata_reads d p lba n : transfer_ok (false, p) lba n →
    blk_ata_read d p lba n = Some (sectors (sec d (false, p)) lba n);
  ahci_writes d p lba n b : alen b = 512 * n → transfer_ok (true, p) lba n → bytes_ok b →
    ∃ d', blk_ahci_write d p lba n b = (true, d') ∧ disk_update sec d d' (true, p) lba n b;
  ata_writes d p lba n b : alen b = 512 * n → transfer_ok (false, p) lba n → bytes_ok b →
    ∃ d', blk_ata_write d p lba n b = (true, d') ∧ disk_update sec d d' (false, p) lba n b }.

Lemma transfer_pos v lba n : transfer_ok v lba n → 0 <= lba ∧ 0 < n < 256.
Proof. intros (? & ? & H). destruct v as [[] ?]; cbn in H; lia. Qed.

Lemma transfer_1 v lba : 0 <= lba < 0x10000000 → transfer_ok v lba 1.
Proof. intros ?. destruct v as [[] ?]; repeat split; cbn; lia. Qed.

(** Sectors that hold the pieces of a buffer make up the buffer. *)
Lemma sectors_of_buffer (sec : Z → list Z) lba n b :
  0 <= n → alen b = 512 * n → (∀ k, 0 <= k < n → sec (lba + k) = sub b (512 * k) 512) → sectors sec lba n = b.
Proof.
  intros Hn Hb Hs. unfold sectors.
  transitivity (concat ((λ k, sub b (0 + 512 * k) 512) <$> seqZ 0 (Z.of_nat (Z.to_nat n)))).
  - f_equal. rewrite Z2Nat.id by lia. rewrite <-(Z.add_0_r lba) at 1. rewrite <-fmap_add_seqZ.
    change (map ?f ?l) with (f <$> l). rewrite <-list_fmap_compose.
    apply list_fmap_ext. intros i x Hx. apply lookup_seqZ in Hx as [-> Hi]. cbn. rewrite Hs by lia. f_equal.
  - rewrite concat_sub by lia. rewrite Z.mul_0_r, Z.add_0_l, Z2Nat.id by lia. rewrite <-Hb. apply sub_full.
Qed.
