(* ===== verification/Ata.v ===== *)
(** * drivers/block/ata.c: the ATA driver (28-bit LBA, programmed I/O)

    The driver over the ports of [PortIO].  [ata_bus] is a concrete bus with two drives that
    follows the protocol of the ATA specification: it is busy for some polls after every
    command and every sector, offers data words while DRQ is set and commits a sector when
    its last word arrives.  The delays are an arbitrary sequence below the driver's timeout.

    The theorems: on such a bus [ata_read_sectors] and [ata_write_sectors] are the reads and
    writes of a block device, [ata_identify] reports the drive's description, and a drive
    that never gets ready is reported as an error.  The messages are left out. *)

From Stdlib Require Import Ascii String.
From S2P Require Import Prelude KString Block.

Definition ATA_DATA : Z := 0x1F0.
Definition ATA_FEATURES : Z := 0x1F1.
Definition ATA_SECTOR_COUNT : Z := 0x1F2.
Definition ATA_LBA_LOW : Z := 0x1F3.
Definition ATA_LBA_MID : Z := 0x1F4.
Definition ATA_LBA_HIGH : Z := 0x1F5.
Definition ATA_DRIVE_SELECT : Z := 0x1F6.
Definition ATA_COMMAND : Z := 0x1F7.
Definition ATA_STATUS : Z := 0x1F7.
Definition ATA_ALT_STATUS : Z := 0x3F6.
Definition ATA_DEV_CTRL : Z := 0x3F6.
Definition ATA_CMD_READ_PIO : Z := 0x20.
Definition ATA_CMD_WRITE_PIO : Z := 0x30.
Definition ATA_CMD_CACHE_FLUSH : Z := 0xE7.
Definition ATA_CMD_IDENTIFY : Z := 0xEC.
Definition ATA_STATUS_BSY : Z := 0x80.
Definition ATA_STATUS_DF : Z := 0x20.
Definition ATA_STATUS_DRQ : Z := 0x08.
Definition ATA_STATUS_ERR : Z := 0x01.

Record ata_drive_info_t := mk_info {
  present : bool; total_sectors : Z; model : list Z; serial_no : list Z;
  cylinders : Z; heads : Z; sectors_per_track : Z }.

Definition no_info : ata_drive_info_t := mk_info false 0 (replicate 41 0) (replicate 21 0) 0 0 0.
#[global] Instance info_inhabited : Inhabited ata_drive_info_t := populate no_info.

(** [drive_info] and the ports. *)
Record ata (D : Type) := mk_ata { drive_info : list ata_drive_info_t; io : D }.
Arguments mk_ata {D}.
Arguments drive_info {D}.
Arguments io {D}.

Section ata.
Context {D : Type} `{PortIO D}.
Implicit Types d : D.

Definition ata_io_wait d : D :=
  let d := (inb d ATA_ALT_STATUS).2 in
  let d := (inb d ATA_ALT_STATUS).2 in
  let d := (inb d ATA_ALT_STATUS).2 in
  (inb d ATA_ALT_STATUS).2.

Fixpoint wait_bsy_loop (timeout : nat) d : bool * D :=
  match timeout with
  | O => (false, d)
  | S t =>
      let '(v, d) := inb d ATA_STATUS in
      if negb (nz (Z.land v ATA_STATUS_BSY)) then (true, d) else wait_bsy_loop t d
  end.

Definition TIMEOUT : Z := 100000.
Definition ata_wait_bsy d : bool * D := wait_bsy_loop (Z.to_nat TIMEOUT) d.

Fixpoint wait_drq_loop (timeout : nat) d : bool * D :=
  match timeout with
  | O => (false, d)
  | S t =>
      let '(st, d) := inb d ATA_STATUS in
      if nz (Z.land st ATA_STATUS_ERR) then (false, d)
      else if nz (Z.land st ATA_STATUS_DRQ) then (true, d)
      else wait_drq_loop t d
  end.

Definition ata_wait_drq d : bool * D := wait_drq_loop (Z.to_nat TIMEOUT) d.

(** [for (i = di - 1; i >= 0 && dst[i] == ' '; i--) dst[i] = 0]; [n] is [i + 1]. *)
Fixpoint trim_loop (n : nat) (dst : list Z) : list Z :=
  match n with
  | O => dst
  | S n' => if dst.[Z.of_nat n'] =? 32 then trim_loop n' (dst.[Z.of_nat n' <- 0]) else dst
  end.

(** The characters of word [i] go to positions [2 (i - word_start)] and the next one. *)
Definition ata_copy_string (dst : list Z) (words : list Z) (word_start word_count : Z) : list Z :=
  let dst := for_loop (Z.to_nat word_count) 0
    (λ k dst, let w := words.[word_start + k] in
       (dst.[2 * k <- Z.shiftr w 8]).[2 * k + 1 <- Z.land w 0xFF]) dst in
  let di := 2 * word_count in
  trim_loop (Z.to_nat di) (dst.[di <- 0]).

Definition drive_index (drive : Z) : Z := if drive =? ATA_SLAVE then 1 else 0.

(** Reading [n] words of the data port into [buf], from word [off] on. *)
Definition read_words (n : nat) (off : Z) (buf : list Z) d : list Z * D :=
  for_loop n 0 (λ i '(buf, d), let '(w, d) := inw d ATA_DATA in (put_le 2 buf (2 * (off + i)) w, d)) (buf, d).

Definition write_words (n : nat) (off : Z) (buf : list Z) d : D :=
  for_loop n 0 (λ i d, outw d ATA_DATA (get_le 2 buf (2 * (off + i)))) d.

(** What [ata_identify] stores about a drive. *)
Definition parse_identify (w : list Z) (old : ata_drive_info_t) : ata_drive_info_t :=
  mk_info true (Z.lor (w.[60]) (u32 (Z.shiftl (w.[61]) 16)))
    (ata_copy_string (model old) w 27 20) (ata_copy_string (serial_no old) w 10 10)
    (w.[1]) (w.[3]) (w.[6]).

Definition identify_command drive d : D :=
  let d := ata_io_wait (outb d ATA_DRIVE_SELECT drive) in
  let d := outb d ATA_SECTOR_COUNT 0 in
  let d := outb d ATA_LBA_LOW 0 in
  let d := outb d ATA_LBA_MID 0 in
  let d := outb d ATA_LBA_HIGH 0 in
  ata_io_wait (outb d ATA_COMMAND ATA_CMD_IDENTIFY).

Definition collect_words d : list Z * D :=
  for_loop 256 0 (λ i '(ws, d), let '(w, d) := inw d ATA_DATA in (ws.[i <- w], d)) (replicate 256 0, d).

(** The 256 words of the description, or [None] on one of the early returns. *)
Definition identify_answer d : option (list Z) * D :=
  let '(status, d) := inb d ATA_STATUS in
  if (status =? 0) || (status =? 0xFF) then (None, d)
  else
    let '(ok, d) := ata_wait_bsy d in
    if negb ok then (None, d)
    else
      let '(mid, d) := inb d ATA_LBA_MID in
      let '(hi, d) := inb d ATA_LBA_HIGH in
      if nz mid || nz hi then (None, d)
      else
        let '(ok, d) := ata_wait_drq d in
        if negb ok then (None, d)
        else let '(ws, d) := collect_words d in (Some ws, d).

Definition w_present (v : bool) (i : ata_drive_info_t) : ata_drive_info_t :=
  mk_info v (total_sectors i) (model i) (serial_no i) (cylinders i) (heads i) (sectors_per_track i).

Definition ata_identify (st : ata D) (drive : Z) : ata D :=
  let idx := drive_index drive in
  let infos := (drive_info st).[idx <- w_present false ((drive_info st).[idx])] in
  let '(r, d) := identify_answer (identify_command drive (io st)) in
  match r with
  | Some ws => mk_ata (infos.[idx <- parse_identify ws (infos.[idx])]) d
  | None => mk_ata infos d
  end.

(** Select the drive and program the task file, then issue [cmd]. *)
Definition issue drive lba count cmd d : D :=
  let drive_sel := u8 (Z.lor (Z.lor 0xE0 (if drive =? ATA_SLAVE then 0x10 else 0x00))
                             (Z.land (Z.shiftr lba 24) 0x0F)) in
  let d := ata_io_wait (outb d ATA_DRIVE_SELECT drive_sel) in
  let d := outb d ATA_FEATURES 0 in
  let d := outb d ATA_SECTOR_COUNT count in
  let d := outb d ATA_LBA_LOW (u8 lba) in
  let d := outb d ATA_LBA_MID (u8 (Z.shiftr lba 8)) in
  let d := outb d ATA_LBA_HIGH (u8 (Z.shiftr lba 16)) in
  outb d ATA_COMMAND cmd.

(** The sector loop of a read, from sector [j] on with [n] sectors to go. *)
Fixpoint read_loop (n : nat) (j : Z) (buffer : list Z) d : bool * list Z * D :=
  match n with
  | O => (true, buffer, d)
  | S n' =>
      let '(ok, d) := ata_wait_bsy d in
      if negb ok then (false, buffer, d)
      else
        let '(ok, d) := ata_wait_drq d in
        if negb ok then (false, buffer, d)
        else
          let '(st, d) := inb d ATA_STATUS in
          if nz (Z.land st ATA_STATUS_DF) then (false, buffer, d)
          else
            let '(buffer, d) := read_words 256 (j * 256) buffer d in
            read_loop n' (j + 1) buffer (ata_io_wait d)
  end.

Definition ata_read_sectors d (drive lba count : Z) (buffer : list Z) : bool * list Z * D :=
  let '(ok, d) := ata_wait_bsy d in
  if negb ok then (false, buffer, d)
  else read_loop (Z.to_nat count) 0 buffer (issue drive lba count ATA_CMD_READ_PIO d).

Fixpoint write_loop (n : nat) (j : Z) (buffer : list Z) d : bool * D :=
  match n with
  | O => (true, d)
  | S n' =>
      let '(ok, d) := ata_wait_bsy d in
      if negb ok then (false, d)
      else
        let '(ok, d) := ata_wait_drq d in
        if negb ok then (false, d)
        else write_loop n' (j + 1) buffer (ata_io_wait (write_words 256 (j * 256) buffer d))
  end.

Definition ata_write_sectors d (drive lba count : Z) (buffer : list Z) : bool * D :=
  let '(ok, d) := ata_wait_bsy d in
  if negb ok then (false, d)
  else
    let '(ok, d) := write_loop (Z.to_nat count) 0 buffer (issue drive lba count ATA_CMD_WRITE_PIO d) in
    if negb ok then (false, d)
    else ata_wait_bsy (outb d ATA_COMMAND ATA_CMD_CACHE_FLUSH).

Definition ata_get_drive_info (st : ata D) (drive : Z) : option ata_drive_info_t :=
  let i := (drive_info st).[drive_index drive] in
  if negb (present i) then None else Some i.

Definition ata_get_sector_count (st : ata D) (drive : Z) : Z :=
  let i := (drive_info st).[drive_index drive] in
  if present i then total_sectors i else 0.

Definition software_reset d : D :=
  ata_io_wait (outb (ata_io_wait (outb d ATA_DEV_CTRL 0x04)) ATA_DEV_CTRL 0x00).

Definition ata_init (st : ata D) : ata D :=
  ata_identify (ata_identify (mk_ata (drive_info st) (software_reset (io st))) ATA_MASTER) ATA_SLAVE.
End ata.

(** ** A bus with two drives *)

Inductive phase :=
| Idle
| Reading (lba n : Z) (words : list Z)   (** words of the sector still to be fetched *)
| Writing (lba n : Z) (words : list Z)   (** words of the sector received so far *)
| Describing (words : list Z).

Record ata_bus := mk_bus {
  content : bool → Z → list Z;       (** sectors of the master ([false]) and the slave *)
  describes : bool → option (list Z); (** the IDENTIFY words; [None]: no drive *)
  r_count : Z; r_low : Z; r_mid : Z; r_high : Z; r_select : Z;
  ph : phase;
  busy : nat;                        (** polls until the drive is ready again *)
  delays : nat → nat; turn : nat }.  (** how long it will be busy the next times *)

Definition slave_selected (b : ata_bus) : bool := Z.testbit (r_select b) 4.

Definition bus_lba (b : ata_bus) : Z :=
  r_low b + 256 * r_mid b + 65536 * r_high b + 16777216 * (r_select b mod 16).

Definition set_phase (b : ata_bus) (p : phase) : ata_bus :=
  mk_bus (content b) (describes b) (r_count b) (r_low b) (r_mid b) (r_high b) (r_select b) p
    (delays b (turn b)) (delays b) (S (turn b)).

Definition words_of (sector : list Z) : list Z := (λ i, get_le 2 sector (2 * i)) <$> seqZ 0 256.
Definition bytes_of (words : list Z) : list Z := concat ((λ w, le_bytes 2 w) <$> words).

Definition bus_command (b : ata_bus) (cmd : Z) : ata_bus :=
  let n := if r_count b =? 0 then 256 else r_count b in
  match describes b (slave_selected b) with
  | None => b
  | Some ws =>
      if cmd =? 0x20 then set_phase b (Reading (bus_lba b) n (words_of (content b (slave_selected b) (bus_lba b))))
      else if cmd =? 0x30 then set_phase b (Writing (bus_lba b) n [])
      else if cmd =? 0xEC then set_phase b (Describing ws)
      else set_phase b Idle
  end.

Definition bus_outb (b : ata_bus) (port v : Z) : ata_bus :=
  let 'mk_bus c i n lo mi hi s p z ds t := b in
  if port =? 0x1F2 then mk_bus c i v lo mi hi s p z ds t
  else if port =? 0x1F3 then mk_bus c i n v mi hi s p z ds t
  else if port =? 0x1F4 then mk_bus c i n lo v hi s p z ds t
  else if port =? 0x1F5 then mk_bus c i n lo mi v s p z ds t
  else if port =? 0x1F6 then mk_bus c i n lo mi hi v p z ds t
  else if port =? 0x1F7 then bus_command b v
  else if port =? 0x3F6 then (if nz (Z.land v 4) then set_phase b Idle else b)
  else b.

(** Busy, or ready with or without data to transfer; no drive answers with 0. *)
Definition bus_status (b : ata_bus) : Z :=
  match describes b (slave_selected b), busy b, ph b with
  | None, _, _ => 0
  | Some _, S _, _ => 0x80
  | Some _, O, Idle => 0x40
  | Some _, O, _ => 0x48
  end.

Definition poll (b : ata_bus) : ata_bus :=
  mk_bus (content b) (describes b) (r_count b) (r_low b) (r_mid b) (r_high b) (r_select b) (ph b)
    (pred (busy b)) (delays b) (turn b).

Definition bus_inb (b : ata_bus) (port : Z) : Z * ata_bus :=
  if (port =? 0x1F7) || (port =? 0x3F6) then (bus_status b, poll b)
  else if port =? 0x1F4 then (r_mid b, b)
  else if port =? 0x1F5 then (r_high b, b)
  else (0, b).

Definition same_phase (b : ata_bus) (p : phase) : ata_bus :=
  mk_bus (content b) (describes b) (r_count b) (r_low b) (r_mid b) (r_high b) (r_select b) p
    (busy b) (delays b) (turn b).

(** A word leaves the drive; after the last one of a sector the next sector is fetched. *)
Definition bus_inw (b : ata_bus) (port : Z) : Z * ata_bus :=
  if negb (port =? 0x1F0) then (0, b)
  else
    match busy b, ph b with
    | O, Reading lba n [w] =>
        (w, if n =? 1 then set_phase b Idle
            else set_phase b (Reading (lba + 1) (n - 1) (words_of (content b (slave_selected b) (lba + 1)))))
    | O, Reading lba n (w :: ws) => (w, same_phase b (Reading lba n ws))
    | O, Describing [w] => (w, set_phase b Idle)
    | O, Describing (w :: ws) => (w, same_phase b (Describing ws))
    | _, _ => (0, b)
    end.

Definition commit (b : ata_bus) (v : bool) (lba : Z) (sector : list Z) : ata_bus :=
  mk_bus (λ v' l, if bool_decide (v' = v ∧ l = lba) then sector else content b v' l) (describes b)
    (r_count b) (r_low b) (r_mid b) (r_high b) (r_select b) (ph b) (busy b) (delays b) (turn b).

(** A word arrives; with the last one of a sector the sector is stored. *)
Definition bus_outw (b : ata_bus) (port w : Z) : ata_bus :=
  if negb (port =? 0x1F0) then b
  else
    match busy b, ph b with
    | O, Writing lba n ws =>
        if alen ws =? 255 then
          let b := commit b (slave_selected b) lba (bytes_of (ws ++ [w])) in
          set_phase b (if n =? 1 then Idle else Writing (lba + 1) (n - 1) [])
        else same_phase b (Writing lba n (ws ++ [w]))
    | _, _ => b
    end.

#[export] Instance bus_ports : PortIO ata_bus := {
  inb := bus_inb;
  inw := bus_inw;
  inl := λ b _, (0, b);
  outb := bus_outb;
  outw := bus_outw;
  outl := λ b _ _, b }.

Lemma out_command (b : ata_bus) v : outb b ATA_COMMAND v = bus_command b v.
Proof. by destruct b. Qed.

(** ** The drives at work *)

Section bus.
Context (i : bool → option (list Z)).
Implicit Types (b : ata_bus) (c : bool → Z → list Z) (p : phase).

(** The drive [v] is selected and in phase [p], ready again before the driver gives up; the
    sectors are [c]. *)
Record driving c (v : bool) p b : Prop := {
  dr_content : ∀ v l, content b v l = c v l;
  dr_info : describes b = i;
  dr_there : is_Some (i v);
  dr_select : slave_selected b = v;
  dr_phase : ph b = p;
  dr_busy : (busy b < Z.to_nat TIMEOUT)%nat;
  dr_quick : ∀ k, (delays b k < Z.to_nat TIMEOUT)%nat }.

Lemma driving_poll c v p b : driving c v p b → driving c v p (poll b).
Proof. intros []. constructor; try done. cbn [busy poll]. lia. Qed.

Lemma driving_wait c v p b : driving c v p b → driving c v p (ata_io_wait b).
Proof. intros Hb. unfold ata_io_wait. by repeat apply driving_poll. Qed.

Lemma wait_bsy_ready c v p b n :
  driving c v p b → (busy b < n)%nat →
  ∃ b', wait_bsy_loop n b = (true, b') ∧ driving c v p b' ∧ busy b' = 0%nat.
Proof.
  revert b. induction n as [|n IH]; intros b Hb Hn; [lia|]. cbn [wait_bsy_loop].
  change (inb b ATA_STATUS) with (bus_status b, poll b). cbv beta iota.
  pose proof (driving_poll _ _ _ _ Hb) as Hp.
  destruct Hb as [_ Hi [ws Hw] Hs _ _ _]. unfold bus_status. rewrite Hi, Hs, Hw.
  destruct (busy b) as [|k] eqn:Ek.
  - exists (poll b). split; [by destruct (ph b)|]. split; [done|]. cbn. by rewrite Ek.
  - destruct (IH (poll b) Hp) as (b' & E & H'); [cbn; lia|]. by exists b'.
Qed.

Lemma wait_bsy_driving c v p b :
  driving c v p b → ∃ b', ata_wait_bsy b = (true, b') ∧ driving c v p b' ∧ busy b' = 0%nat.
Proof. intros Hb. eapply wait_bsy_ready; [done|]. apply Hb. Qed.

(** A drive that is ready in a data phase shows DRQ and neither an error nor a fault. *)
Lemma status_ready c v p b :
  driving c v p b → busy b = 0%nat → p ≠ Idle → bus_status b = 0x48.
Proof.
  intros [_ Hi [ws Hw] Hs Hp _ _] Hb Hne. unfold bus_status. rewrite Hi, Hs, Hw, Hb, Hp. by destruct p.
Qed.

Lemma wait_drq_driving c v p b :
  driving c v p b → busy b = 0%nat → p ≠ Idle →
  ata_wait_drq b = (true, poll b) ∧ driving c v p (poll b) ∧ busy (poll b) = 0%nat.
Proof.
  intros Hb Hz Hp. split; [|split; [by apply driving_poll|cbn; by rewrite Hz]].
  unfold ata_wait_drq. destruct (Z.to_nat TIMEOUT) eqn:E; [done|]. cbn [wait_drq_loop].
  change (inb b ATA_STATUS) with (bus_status b, poll b). by rewrite (status_ready c v p b).
Qed.

(** *** Words and bytes *)

Lemma alen_bytes_of ws : alen (bytes_of ws) = 2 * alen ws.
Proof.
  induction ws as [|w ws IH]; [done|]. unfold bytes_of in *. cbn [fmap list_fmap concat].
  rewrite alen_app, alen_cons, alen_le_bytes. rewrite IH. lia.
Qed.

Lemma bytes_of_cons w ws : bytes_of (w :: ws) = le_bytes 2 w ++ bytes_of ws.
Proof. done. Qed.

Lemma bytes_of_snoc ws w : bytes_of (ws ++ [w]) = bytes_of ws ++ le_bytes 2 w.
Proof. unfold bytes_of. by rewrite fmap_app, concat_app. Qed.

Lemma le_bytes_get n data off :
  bytes_ok data → 0 <= off → off + Z.of_nat n <= alen data → le_bytes n (get_le n data off) = sub data off (Z.of_nat n).
Proof.
  intros Hd Ho Hl. unfold get_le. assert (alen (sub data off (Z.of_nat n)) = Z.of_nat n) as Hs by (apply alen_sub; lia).
  replace n with (length (sub data off (Z.of_nat n))) at 1 by (unfold alen in Hs; lia).
  by apply le_bytes_num, bytes_ok_sub.
Qed.

Lemma bytes_of_words data k n :
  bytes_ok data → 0 <= k → 2 * k + 2 * Z.of_nat n <= alen data →
  bytes_of ((λ i, get_le 2 data (2 * i)) <$> seqZ k (Z.of_nat n)) = sub data (2 * k) (2 * Z.of_nat n).
Proof.
  intros Hd. revert k. induction n as [|n IH]; intros k Hk Hl.
  { by rewrite sub_0. }
  rewrite seqZ_cons by lia. cbn [fmap list_fmap]. rewrite bytes_of_cons.
  replace (Z.pred (Z.of_nat (S n))) with (Z.of_nat n) by lia. replace (Z.succ k) with (k + 1) by lia.
  rewrite IH, le_bytes_get by (done || lia).
  replace (2 * (k + 1)) with (2 * k + 2) by lia. change (Z.of_nat 2) with 2. rewrite <-sub_app by lia. f_equal. lia.
Qed.

Lemma bytes_words_of s : alen s = 512 → bytes_ok s → bytes_of (words_of s) = s.
Proof.
  intros Hl Hs. unfold words_of. change 256 with (Z.of_nat 256). rewrite bytes_of_words by (done || lia).
  change (2 * 0) with 0. change (2 * Z.of_nat 256) with 512. rewrite <-Hl. apply sub_full.
Qed.

(** *** One sector *)

Definition after_read c (v : bool) (lba n : Z) : phase :=
  if n =? 1 then Idle else Reading (lba + 1) (n - 1) (words_of (c v (lba + 1))).

Lemma driving_set c v p p' b : driving c v p b → driving c v p' (set_phase b p').
Proof. intros []. constructor; try done. cbn [busy set_phase]. auto. Qed.
Lemma driving_same c v p p' b : driving c v p b → driving c v p' (same_phase b p').
Proof. intros []. by constructor. Qed.

Lemma read_words_at c v lba n off ws k buf b :
  ws ≠ [] → driving c v (Reading lba n ws) b → busy b = 0%nat → 0 <= off + k →
  2 * (off + k) + 2 * alen ws <= alen buf →
  ∃ b', for_loop (length ws) k
          (λ i '(buf, d), let '(w, d) := inw d ATA_DATA in (put_le 2 buf (2 * (off + i)) w, d)) (buf, b) =
        (splice buf (2 * (off + k)) (bytes_of ws), b') ∧ driving c v (after_read c v lba n) b'.
Proof.
  intros Hne. revert k buf b. induction ws as [|w ws IH]; [done|]. intros k buf b Hb Hz Hk Hl.
  rewrite alen_cons in Hl. cbn [length for_loop]. change (inw b ATA_DATA) with (bus_inw b 0x1F0).
  unfold bus_inw. cbn [negb Z.eqb Pos.eqb]. rewrite Hz, (dr_phase _ _ _ _ Hb). destruct ws as [|w' ws].
  - cbn [length for_loop]. unfold put_le, bytes_of. cbn [fmap list_fmap concat]. rewrite app_nil_r.
    unfold after_read. destruct (n =? 1); eexists; (split; [reflexivity|]).
    + by eapply driving_set.
    + rewrite (dr_select _ _ _ _ Hb), (dr_content _ _ _ _ Hb). by eapply driving_set.
  - pose proof (alen_nonneg ws). rewrite alen_cons in Hl.
    assert (w' :: ws ≠ []) as Hne' by discriminate.
    destruct (IH Hne' (k + 1) (put_le 2 buf (2 * (off + k)) w) (same_phase b (Reading lba n (w' :: ws))))
      as (b' & E & Hb').
    { by eapply driving_same. } { done. } { lia. } { rewrite alen_put_le, alen_cons; lia. }
    exists b'. split; [|done]. rewrite E. f_equal. rewrite (bytes_of_cons w). unfold put_le.
    replace (2 * (off + (k + 1))) with (2 * (off + k) + alen (le_bytes 2 w)) by (rewrite alen_le_bytes; lia).
    rewrite splice_splice_adj; [done|lia|]. rewrite alen_le_bytes, alen_bytes_of, alen_cons. lia.
Qed.

Definition stored c (v : bool) (lba : Z) (s : list Z) : bool → Z → list Z :=
  λ v' l, if bool_decide (v' = v ∧ l = lba) then s else c v' l.

Definition after_write (lba n : Z) : phase := if n =? 1 then Idle else Writing (lba + 1) (n - 1) [].

Lemma write_words_at c v lba n (get : Z → Z) m k ws b :
  driving c v (Writing lba n ws) b → busy b = 0%nat → alen ws + Z.of_nat m = 256 → (0 < m)%nat →
  driving (stored c v lba (bytes_of (ws ++ (get <$> seqZ k (Z.of_nat m))))) v (after_write lba n)
    (for_loop m k (λ i d, outw d ATA_DATA (get i)) b).
Proof.
  revert k ws b. induction m as [|m IH]; [lia|]. intros k ws b Hb Hz Hl _. cbn [for_loop].
  change (outw b ATA_DATA (get k)) with (bus_outw b 0x1F0 (get k)). unfold bus_outw.
  cbn [negb Z.eqb Pos.eqb]. rewrite Hz, (dr_phase _ _ _ _ Hb). rewrite seqZ_cons by lia.
  replace (Z.pred (Z.of_nat (S m))) with (Z.of_nat m) by lia. replace (Z.succ k) with (k + 1) by lia.
  cbn [fmap list_fmap]. destruct m as [|m].
  - destruct (Z.eqb_spec (alen ws) 255); [|lia]. cbn [for_loop].
    destruct Hb as [Hc Hi Ht Hs Hp Hy Hq]. unfold after_write.
    destruct (n =? 1); (constructor; try done; [|cbn [busy set_phase]; apply Hq]); intros v' l; cbn [content set_phase commit];
      rewrite Hs; unfold stored; case_bool_decide; by rewrite ?Hc.
  - destruct (Z.eqb_spec (alen ws) 255); [lia|].
    replace (ws ++ get k :: (get <$> seqZ (k + 1) (Z.of_nat (S m))))
      with ((ws ++ [get k]) ++ (get <$> seqZ (k + 1) (Z.of_nat (S m)))) by (by rewrite <-app_assoc).
    apply IH; [by eapply driving_same|done| |lia].
    rewrite alen_app, alen_cons, alen_nil. lia.
Qed.

(** *** The commands *)

Lemma drive_sel_bits (s : bool) x :
  0 <= x < 16 →
  let sel := u8 (Z.lor (Z.lor 0xE0 (if s then 0x10 else 0x00)) x) in
  Z.testbit sel 4 = s ∧ sel mod 16 = x.
Proof.
  intros Hx. assert (x ∈ seqZ 0 16) as Hin by (apply elem_of_seqZ; lia). cbn in Hin.
  destruct s; repeat (apply elem_of_cons in Hin as [->|Hin]; [by vm_compute|]); by apply elem_of_nil in Hin.
Qed.

Definition selects (drive : Z) : bool := drive =? ATA_SLAVE.

(** The phase a read or write command leads to. *)
Definition started c (v : bool) (lba n cmd : Z) : phase :=
  if cmd =? ATA_CMD_READ_PIO then Reading lba n (words_of (c v lba)) else Writing lba n [].

Record idle c b : Prop := {
  id_content : ∀ v l, content b v l = c v l;
  id_info : describes b = i;
  id_selected : is_Some (i (slave_selected b));
  id_phase : ph b = Idle;
  id_busy : (busy b < Z.to_nat TIMEOUT)%nat;
  id_quick : ∀ k, (delays b k < Z.to_nat TIMEOUT)%nat }.

Lemma idle_driving c b : idle c b → driving c (slave_selected b) Idle b.
Proof. intros []. by constructor. Qed.
Lemma driving_idle c v b : driving c v Idle b → idle c b.
Proof. intros [? Hi Ht Hs ???]. constructor; try done. by rewrite Hs. Qed.

Lemma lba_bytes lba :
  0 <= lba < 0x10000000 →
  u8 lba + 256 * u8 (Z.shiftr lba 8) + 65536 * u8 (Z.shiftr lba 16) + 16777216 * Z.land (Z.shiftr lba 24) 0x0F = lba.
Proof.
  intros Hl. change 0x0F with (Z.ones 4). rewrite Z.land_ones, !Z.shiftr_div_pow2 by lia. unfold u8.
  change (2 ^ 4) with 16. change (2 ^ 8) with 256. change (2 ^ 16) with 65536. change (2 ^ 24) with 16777216. zlia.
Qed.

Lemma issue_driving c b drive lba count cmd :
  idle c b → is_Some (i (selects drive)) → 0 <= lba < 0x10000000 → 0 < count < 256 →
  cmd = ATA_CMD_READ_PIO ∨ cmd = ATA_CMD_WRITE_PIO →
  driving c (selects drive) (started c (selects drive) lba count cmd) (issue drive lba count cmd b).
Proof.
  intros [Hc Hi _ Hp Hy Hq] [ws Hws] Hlba Hn Hcmd. unfold issue.
  pose proof (drive_sel_bits (selects drive) (Z.land (Z.shiftr lba 24) 0x0F)) as Hsel.
  pose proof (lba_bytes lba Hlba) as Hb. unfold selects in *.
  set (sel := u8 _) in *. destruct Hsel as [Hbit Hmod].
  { change 0x0F with (Z.ones 4). rewrite Z.land_ones by lia. apply Z.mod_pos_bound. lia. }
  set (x := Z.land (Z.shiftr lba 24) 0x0F) in *. clearbody sel x. subst x.
  set (l0 := u8 lba) in *. set (l1 := u8 (Z.shiftr lba 8)) in *. set (l2 := u8 (Z.shiftr lba 16)) in *.
  clearbody l0 l1 l2. destruct b as [c0 i0 rn rl rm rh rs p z ds tn].
  cbn [content describes ph busy delays] in *. subst i0 p.
  change (outb _ ATA_COMMAND cmd) with
    (bus_command (mk_bus c0 i count l0 l1 l2 sel Idle (pred (pred (pred (pred z)))) ds tn) cmd).
  unfold bus_command, slave_selected, bus_lba, started. cbn [describes r_select r_count r_low r_mid r_high content].
  rewrite Hbit, Hws, Hb. destruct (Z.eqb_spec count 0); [lia|].
  destruct Hcmd as [-> | ->]; cbn [Z.eqb Pos.eqb ATA_CMD_READ_PIO ATA_CMD_WRITE_PIO].
  - rewrite Hc. by constructor; try done; cbn.
  - by constructor; try done; cbn.
Qed.

(** *** The loops *)

Definition sectors_ok c : Prop := ∀ v l, alen (c v l) = 512 ∧ bytes_ok (c v l).

(** A turn of the loop: wait, test, transfer a sector. *)
Lemma read_turn c v lba m n j buf b :
  sectors_ok c → 0 <= j → driving c v (Reading lba m (words_of (c v lba))) b → 512 * j + 512 <= alen buf →
  ∃ b', read_loop (S n) j buf b = read_loop n (j + 1) (splice buf (512 * j) (c v lba)) b' ∧
    driving c v (after_read c v lba m) b'.
Proof.
  intros Hsec Hj Hb Hl. destruct (wait_bsy_driving _ _ _ _ Hb) as (b1 & E1 & Hb1 & Hz1).
  destruct (wait_drq_driving _ _ _ _ Hb1 Hz1 ltac:(done)) as (E2 & Hb2 & Hz2).
  destruct (Hsec v lba) as [Hlen Hok].
  assert (alen (words_of (c v lba)) = 256) as Hlw by (unfold words_of, alen; by rewrite length_fmap, length_seqZ).
  destruct (read_words_at c v lba m (j * 256) (words_of (c v lba)) 0 buf (poll (poll b1))) as (b4 & E4 & Hb4).
  { intros Hw. by rewrite Hw in Hlw. } { by apply driving_poll. } { cbn in Hz2 |- *. by rewrite Hz2. } { lia. } { lia. }
  rewrite bytes_words_of in E4 by done. replace (2 * (j * 256 + 0)) with (512 * j) in E4 by lia.
  replace (length (words_of (c v lba))) with 256%nat in E4 by (unfold alen in Hlw; lia).
  exists (ata_io_wait b4). split; [|by apply driving_wait]. cbn [read_loop].
  rewrite E1. cbn [negb]. rewrite E2. cbn [negb].
  change (inb (poll b1) ATA_STATUS) with (bus_status (poll b1), poll (poll b1)). cbv beta iota.
  rewrite (status_ready c v _ (poll b1) Hb2 Hz2) by done.
  change (nz (Z.land 0x48 ATA_STATUS_DF)) with false. cbv iota. unfold read_words. by rewrite E4.
Qed.

Lemma write_turn c v lba m n j buf b :
  bytes_ok buf → 0 <= j → driving c v (Writing lba m []) b → 512 * j + 512 <= alen buf →
  ∃ b', write_loop (S n) j buf b = write_loop n (j + 1) buf b' ∧
    driving (stored c v lba (sub buf (512 * j) 512)) v (after_write lba m) b'.
Proof.
  intros Hby Hj Hb Hl. destruct (wait_bsy_driving _ _ _ _ Hb) as (b1 & E1 & Hb1 & Hz1).
  destruct (wait_drq_driving _ _ _ _ Hb1 Hz1 ltac:(done)) as (E2 & Hb2 & Hz2).
  exists (ata_io_wait (write_words 256 (j * 256) buf (poll b1))). split.
  { cbn [write_loop]. rewrite E1. cbn [negb]. by rewrite E2. }
  apply driving_wait. unfold write_words.
  pose proof (write_words_at c v lba m (λ i, get_le 2 buf (2 * (j * 256 + i))) 256 0 [] (poll b1) Hb2 Hz2 eq_refl ltac:(lia)) as Hw.
  cbn [app] in Hw. change (Z.of_nat 256) with 256 in Hw.
  replace ((λ i, get_le 2 buf (2 * (j * 256 + i))) <$> seqZ 0 256)
    with ((λ i, get_le 2 buf (2 * i)) <$> seqZ (256 * j) (Z.of_nat 256)) in Hw.
  - rewrite bytes_of_words in Hw by (done || lia). replace (2 * (256 * j)) with (512 * j) in Hw by lia. exact Hw.
  - change (Z.of_nat 256) with 256. replace (256 * j) with (256 * j + 0) by lia.
    rewrite <-(fmap_add_seqZ (256 * j) 0 256). rewrite <-list_fmap_compose. apply list_fmap_ext. intros k x _. cbn. do 2 f_equal. lia.
Qed.

Lemma alen_sectors_concat c v lba n :
  sectors_ok c → 0 <= n → alen (concat (map (c v) (seqZ lba n))) = 512 * n.
Proof.
  intros Hsec Hn. assert (∀ ls, alen (concat (map (c v) ls)) = 512 * alen ls) as Hl.
  { induction ls as [|l ls IH]; [done|]. cbn [map concat]. rewrite alen_app, IH, alen_cons.
    destruct (Hsec v l). lia. }
  rewrite Hl. unfold alen. rewrite length_seqZ. lia.
Qed.

Lemma read_loop_sectors c v lba n j buf b :
  sectors_ok c → 0 <= j → driving c v (Reading lba (Z.of_nat (S n)) (words_of (c v lba))) b →
  512 * j + 512 * Z.of_nat (S n) <= alen buf →
  ∃ b', read_loop (S n) j buf b = (true, splice buf (512 * j) (concat (map (c v) (seqZ lba (Z.of_nat (S n))))), b') ∧
    driving c v Idle b'.
Proof.
  intros Hsec. revert lba j buf b. induction n as [|n IH]; intros lba j buf b Hj Hb Hl.
  - destruct (read_turn c v lba _ 0 j buf b Hsec Hj Hb ltac:(lia)) as (b1 & E1 & Hb1).
    exists b1. split; [|done]. rewrite E1. cbn [read_loop]. do 2 f_equal.
    change (Z.of_nat 1) with 1. rewrite seqZ_cons by lia. cbn. by rewrite app_nil_r.
  - destruct (read_turn c v lba _ (S n) j buf b Hsec Hj Hb ltac:(lia)) as (b1 & E1 & Hb1).
    unfold after_read in Hb1. destruct (Z.eqb_spec (Z.of_nat (S (S n))) 1); [lia|].
    replace (Z.of_nat (S (S n)) - 1) with (Z.of_nat (S n)) in Hb1 by lia.
    destruct (Hsec v lba) as [Hlen _].
    destruct (IH (lba + 1) (j + 1) (splice buf (512 * j) (c v lba)) b1) as (b2 & E2 & Hb2);
      [lia|done|rewrite alen_splice; lia|].
    exists b2. split; [|done]. rewrite E1, E2. do 2 f_equal.
    replace (512 * (j + 1)) with (512 * j + alen (c v lba)) by lia.
    rewrite splice_splice_adj; [|lia|].
    + rewrite (seqZ_cons lba) by lia. cbn [map concat]. rewrite <-Z.add_1_r.
      by replace (Z.pred (Z.of_nat (S (S n)))) with (Z.of_nat (S n)) by lia.
    + rewrite alen_sectors_concat by done. lia.
Qed.

(** Sectors [lba .. lba + n - 1] of drive [v] replaced by the data of [buf] from sector [j] on. *)
Definition written c (v : bool) (lba n : Z) (buf : list Z) (j : Z) : bool → Z → list Z :=
  λ v' l, if bool_decide (v' = v ∧ lba <= l < lba + n) then sub buf (512 * (j + (l - lba))) 512 else c v' l.

Lemma driving_ext c c' v p b : (∀ v l, c v l = c' v l) → driving c v p b → driving c' v p b.
Proof. intros Hc []. constructor; try done. intros v' l. by rewrite <-Hc. Qed.

Lemma write_loop_sectors c v lba n j buf b :
  bytes_ok buf → 0 <= j → driving c v (Writing lba (Z.of_nat (S n)) []) b →
  512 * j + 512 * Z.of_nat (S n) <= alen buf →
  ∃ b', write_loop (S n) j buf b = (true, b') ∧ driving (written c v lba (Z.of_nat (S n)) buf j) v Idle b'.
Proof.
  intros Hby. revert c lba j b. induction n as [|n IH]; intros c lba j b Hj Hb Hl.
  - destruct (write_turn c v lba _ 0 j buf b Hby Hj Hb ltac:(lia)) as (b1 & E1 & Hb1).
    exists b1. split; [by rewrite E1|]. eapply driving_ext; [|exact Hb1]. intros v' l. unfold stored, written.
    destruct (decide (v' = v ∧ l = lba)) as [[-> ->]|Hne].
    + rewrite !bool_decide_true by (split; [done|lia]). f_equal. lia.
    + rewrite !bool_decide_false; [done| |done]. intros [-> ?]. apply Hne. split; [done|lia].
  - destruct (write_turn c v lba _ (S n) j buf b Hby Hj Hb ltac:(lia)) as (b1 & E1 & Hb1).
    unfold after_write in Hb1. destruct (Z.eqb_spec (Z.of_nat (S (S n))) 1); [lia|].
    replace (Z.of_nat (S (S n)) - 1) with (Z.of_nat (S n)) in Hb1 by lia.
    destruct (IH _ (lba + 1) (j + 1) b1 ltac:(lia) Hb1 ltac:(lia)) as (b2 & E2 & Hb2).
    exists b2. split; [by rewrite E1, E2|]. eapply driving_ext; [|exact Hb2]. intros v' l. unfold stored, written.
    destruct (decide (v' = v ∧ l = lba)) as [[-> ->]|Hne].
    + rewrite bool_decide_false by lia. rewrite !bool_decide_true by (split; [done|lia]). f_equal. lia.
    + destruct (decide (v' = v ∧ lba + 1 <= l < lba + 1 + Z.of_nat (S n))) as [[-> Hr]|Hno].
      * rewrite !bool_decide_true by (split; [done|lia]). f_equal. lia.
      * rewrite (bool_decide_false _ Hno), (bool_decide_false _ Hne). rewrite bool_decide_false; [done|].
        intros [-> ?]. destruct (decide (l = lba)) as [->|]; [by apply Hne|]. apply Hno. split; [done|lia].
Qed.

Lemma read_sectors_ok c b drive lba count buf :
  idle c b → sectors_ok c → is_Some (i (selects drive)) → 0 <= lba → lba + count <= 0x10000000 →
  0 < count < 256 → 512 * count <= alen buf →
  ∃ b', ata_read_sectors b drive lba count buf =
          (true, splice buf 0 (concat (map (c (selects drive)) (seqZ lba count))), b') ∧ idle c b'.
Proof.
  intros Hb Hsec Hi Hl Hl' Hn Hbuf. unfold ata_read_sectors.
  destruct (wait_bsy_driving _ _ _ _ (idle_driving _ _ Hb)) as (b1 & E1 & Hb1 & _). rewrite E1. cbn [negb].
  pose proof (issue_driving c b1 drive lba count ATA_CMD_READ_PIO (driving_idle _ _ _ Hb1) Hi ltac:(lia) Hn
    ltac:(by left)) as Hb2. unfold started in Hb2. rewrite Z.eqb_refl in Hb2.
  destruct (Z.to_nat count) as [|n] eqn:En; [lia|].
  assert (count = Z.of_nat (S n)) as Hc by lia. clear En. subst count.
  destruct (read_loop_sectors c (selects drive) lba n 0 buf _ Hsec ltac:(lia) Hb2 ltac:(lia)) as (b3 & E & Hb3).
  exists b3. split; [exact E|by eapply driving_idle].
Qed.

Lemma write_sectors_ok c b drive lba count buf :
  idle c b → is_Some (i (selects drive)) → 0 <= lba → lba + count <= 0x10000000 →
  0 < count < 256 → 512 * count <= alen buf → bytes_ok buf →
  ∃ b', ata_write_sectors b drive lba count buf = (true, b') ∧ idle (written c (selects drive) lba count buf 0) b'.
Proof.
  intros Hb Hi Hl Hl' Hn Hbuf Hby. unfold ata_write_sectors.
  destruct (wait_bsy_driving _ _ _ _ (idle_driving _ _ Hb)) as (b1 & E1 & Hb1 & _). rewrite E1. cbn [negb].
  pose proof (issue_driving c b1 drive lba count ATA_CMD_WRITE_PIO (driving_idle _ _ _ Hb1) Hi ltac:(lia) Hn
    ltac:(by right)) as Hb2. change (started _ _ _ _ _) with (Writing lba count []) in Hb2.
  destruct (Z.to_nat count) as [|n] eqn:En; [lia|].
  assert (count = Z.of_nat (S n)) as Hc by lia. clear En. subst count.
  destruct (write_loop_sectors c (selects drive) lba n 0 buf _ Hby ltac:(lia) Hb2 ltac:(lia)) as (b3 & E & Hb3).
  rewrite E. cbn [negb].
  assert (driving (written c (selects drive) lba (Z.of_nat (S n)) buf 0) (selects drive) Idle
    (outb b3 ATA_COMMAND ATA_CMD_CACHE_FLUSH)) as Hb4.
  { rewrite out_command. unfold bus_command.
    rewrite (dr_info _ _ _ _ Hb3), (dr_select _ _ _ _ Hb3). destruct (dr_there _ _ _ _ Hb3) as [ws ->].
    change (ATA_CMD_CACHE_FLUSH =? _) with false. by eapply driving_set. }
  destruct (wait_bsy_driving _ _ _ _ Hb4) as (b5 & E5 & Hb5 & _). exists b5. split; [exact E5|by eapply driving_idle].
Qed.

(** *** Identification *)

(** Nothing under way, whichever drive is selected. *)
Record at_rest c b : Prop := {
  ar_content : ∀ v l, content b v l = c v l;
  ar_info : describes b = i;
  ar_phase : ph b = Idle;
  ar_busy : (busy b < Z.to_nat TIMEOUT)%nat;
  ar_quick : ∀ k, (delays b k < Z.to_nat TIMEOUT)%nat }.

Lemma driving_rest c v b : driving c v Idle b → at_rest c b.
Proof. intros []. by constructor. Qed.

Lemma wait_bsy_regs n b :
  r_mid (wait_bsy_loop n b).2 = r_mid b ∧ r_high (wait_bsy_loop n b).2 = r_high b.
Proof.
  revert b. induction n as [|n IH]; intros b; [done|]. cbn [wait_bsy_loop].
  change (inb b ATA_STATUS) with (bus_status b, poll b). cbv beta iota.
  destruct (negb _); [done|]. apply (IH (poll b)).
Qed.

Lemma ata_wait_bsy_regs b : r_mid (ata_wait_bsy b).2 = r_mid b ∧ r_high (ata_wait_bsy b).2 = r_high b.
Proof. apply wait_bsy_regs. Qed.
#[local] Opaque ata_wait_bsy ata_wait_drq.

Lemma describe_words c v ws k (l : list Z) b :
  ws ≠ [] → driving c v (Describing ws) b → busy b = 0%nat → 0 <= k → k + alen ws <= alen l →
  ∃ b', for_loop (length ws) k (λ i '(l, d), let '(w, d) := inw d ATA_DATA in (l.[i <- w], d)) (l, b) =
        (splice l k ws, b') ∧ driving c v Idle b'.
Proof.
  intros Hne. revert k l b. induction ws as [|w ws IH]; [done|]. intros k l b Hb Hz Hk Hl.
  rewrite alen_cons in Hl. pose proof (alen_nonneg ws). cbn [length for_loop].
  change (inw b ATA_DATA) with (bus_inw b 0x1F0). unfold bus_inw. cbn [negb Z.eqb Pos.eqb].
  rewrite Hz, (dr_phase _ _ _ _ Hb). destruct ws as [|w' ws].
  - exists (set_phase b Idle). split; [|by eapply driving_set]. cbn [length for_loop]. by rewrite splice_1 by lia.
  - assert (w' :: ws ≠ []) as Hne' by discriminate.
    destruct (IH Hne' (k + 1) (l.[k <- w]) (same_phase b (Describing (w' :: ws)))) as (b' & E & Hb').
    { by eapply driving_same. } { done. } { lia. } { rewrite alen_aset. lia. }
    exists b'. split; [|done]. rewrite E. f_equal. rewrite <-splice_1 by lia.
    change (w :: w' :: ws) with ([w] ++ w' :: ws). rewrite <-splice_splice_adj; [done|lia|].
    change (alen [w]) with 1. lia.
Qed.

Definition is_drive (drive : Z) : Prop := drive = ATA_MASTER ∨ drive = ATA_SLAVE.

Lemma identify_sent c b drive :
  at_rest c b → is_drive drive →
  match i (selects drive) with
  | Some ws => driving c (selects drive) (Describing ws) (identify_command drive b) ∧
      r_mid (identify_command drive b) = 0 ∧ r_high (identify_command drive b) = 0
  | None => at_rest c (identify_command drive b) ∧ bus_status (identify_command drive b) = 0
  end.
Proof.
  intros [Hc Hi Hp Hy Hq] Hd. unfold identify_command. destruct b as [c0 i0 rn rl rm rh rs p z ds tn].
  cbn [content describes ph busy delays] in *. subst i0 p.
  assert (Z.testbit drive 4 = selects drive) as Hbit by (by destruct Hd as [-> | ->]).
  rewrite out_command.
  set (b0 := outb _ ATA_LBA_HIGH 0).
  assert (b0 = mk_bus c0 i 0 0 0 0 drive Idle (pred (pred (pred (pred z)))) ds tn) as -> by reflexivity.
  unfold bus_command, slave_selected. cbn [describes r_select]. rewrite Hbit.
  destruct (i (selects drive)) as [ws|] eqn:Ews.
  - change (ATA_CMD_IDENTIFY =? 0x20) with false. change (ATA_CMD_IDENTIFY =? 0x30) with false.
    change (ATA_CMD_IDENTIFY =? 0xEC) with true. cbv iota.
    split; [|by split]. apply driving_wait. constructor; try done. apply Hq.
  - split; [|unfold bus_status, slave_selected; change (describes _) with i; change (r_select _) with drive; by rewrite Hbit, Ews].
    constructor; try done. cbn. lia.
Qed.

Lemma collect_words_ok c v ws b :
  driving c v (Describing ws) b → busy b = 0%nat → alen ws = 256 →
  ∃ b', collect_words b = (ws, b') ∧ driving c v Idle b'.
Proof.
  intros Hb Hz Hw. unfold collect_words.
  destruct (describe_words c v ws 0 (replicate 256 0) b) as (b' & E & Hb');
    [by intros -> | done | done | lia | rewrite alen_replicate; lia |].
  replace (length ws) with 256%nat in E by (unfold alen in Hw; lia). rewrite E.
  exists b'. split; [|done]. by rewrite splice_full by (rewrite alen_replicate; lia).
Qed.

Lemma answer_present c v ws b :
  driving c v (Describing ws) b → r_mid b = 0 → r_high b = 0 → alen ws = 256 →
  ∃ b', identify_answer b = (Some ws, b') ∧ at_rest c b'.
Proof.
  intros Hb Hm Hh Hw. unfold identify_answer. destruct (dr_there _ _ _ _ Hb) as [ws0 Ews].
  assert (inb b ATA_STATUS = (bus_status b, poll b)) as -> by reflexivity.
  assert ((bus_status b =? 0) || (bus_status b =? 0xFF) = false) as ->.
  { unfold bus_status. rewrite (dr_info _ _ _ _ Hb), (dr_select _ _ _ _ Hb), Ews, (dr_phase _ _ _ _ Hb).
    by destruct (busy b). }
  pose proof (ata_wait_bsy_regs (poll b)) as [Hm' Hh'].
  destruct (wait_bsy_driving _ _ _ _ (driving_poll _ _ _ _ Hb)) as (b2 & E2 & Hb2 & Hz2).
  rewrite E2 in Hm', Hh'. cbn [snd] in Hm', Hh'. rewrite E2. cbn [negb].
  assert (inb b2 ATA_LBA_MID = (0, b2)) as ->.
  { change (inb b2 ATA_LBA_MID) with (r_mid b2, b2). rewrite Hm'. by rewrite <-Hm. }
  assert (inb b2 ATA_LBA_HIGH = (0, b2)) as ->.
  { change (inb b2 ATA_LBA_HIGH) with (r_high b2, b2). rewrite Hh'. by rewrite <-Hh. }
  destruct (wait_drq_driving _ _ _ _ Hb2 Hz2 ltac:(done)) as (E3 & Hb3 & Hz3).
  destruct (collect_words_ok _ _ _ _ Hb3 Hz3 Hw) as (b4 & E4 & Hb4).
  exists b4. split; [|by eapply driving_rest]. cbn [nz orb negb Z.eqb]. rewrite E3. cbn [negb]. by rewrite E4.
Qed.

Lemma answer_absent c b : at_rest c b → bus_status b = 0 → identify_answer b = (None, poll b) ∧ at_rest c (poll b).
Proof.
  intros [H1 H2 H3 H4 H5] Hs. split.
  - unfold identify_answer. assert (inb b ATA_STATUS = (0, poll b)) as ->; [by rewrite <-Hs|done].
  - constructor; try done. cbn [busy poll]. lia.
Qed.

Lemma identify_ok c b drive :
  at_rest c b → is_drive drive → (∀ v ws, i v = Some ws → alen ws = 256) →
  ∃ b', identify_answer (identify_command drive b) = (i (selects drive), b') ∧ at_rest c b'.
Proof.
  intros Hb Hd Hw. pose proof (identify_sent c b drive Hb Hd) as Hs.
  destruct (i (selects drive)) as [ws|] eqn:Ews.
  - destruct Hs as (Hs & Hm & Hh). by apply (answer_present c (selects drive)); [| | |apply (Hw _ _ Ews)].
  - destruct Hs as [Hs Hz]. eexists. by apply answer_absent.
Qed.
End bus.

(** ** The strings of the description *)

(** The characters in words [start .. start + n - 1], high byte first. *)
Definition word_chars (ws : list Z) (start n : Z) : list Z :=
  concat ((λ k, [Z.shiftr (ws.[start + k]) 8; Z.land (ws.[start + k]) 0xFF]) <$> seqZ 0 n).

Lemma trim_app s r :
  ∃ s1 k, s = s1 ++ replicate k 32 ∧ last s1 ≠ Some 32 ∧
    trim_loop (length s) (s ++ r) = s1 ++ replicate k 0 ++ r.
Proof.
  revert r. induction s as [|x s IH] using rev_ind; intros r; [by exists [], 0%nat|].
  rewrite length_app, Nat.add_1_r, <-app_assoc. cbn [trim_loop app].
  assert ((s ++ x :: r).[Z.of_nat (length s)] = x) as ->.
  { rewrite aget_app_r by (unfold alen; lia). unfold alen. rewrite Z.sub_diag. apply aget_cons_0. }
  destruct (Z.eqb_spec x 32) as [->|Hx].
  - replace ((s ++ 32 :: r).[Z.of_nat (length s) <- 0]) with (s ++ 0 :: r).
    2: { unfold aset. destruct (Z.ltb_spec (Z.of_nat (length s)) 0); [lia|].
         rewrite Nat2Z.id, insert_app_r_alt, Nat.sub_diag by lia. done. }
    destruct (IH (0 :: r)) as (s1 & k & Es & Hl & ->). exists s1, (S k). rewrite replicate_S_end, Es.
    split_and!; [by rewrite <-app_assoc|done|]. rewrite replicate_S_end. by rewrite <-!app_assoc.
  - exists (s ++ [x]), 0%nat. split_and!; [by rewrite app_nil_r|rewrite last_snoc; congruence|by rewrite <-app_assoc].
Qed.

Lemma alen_word_chars ws start n : 0 <= n → alen (word_chars ws start n) = 2 * n.
Proof.
  intros Hn. unfold word_chars. rewrite <-(Z2Nat.id n) at 2 by done. rewrite <-(length_seqZ 0 n).
  induction (seqZ 0 n) as [|a l IHl]; [done|]. cbn [fmap list_fmap concat length].
  rewrite alen_app, IHl, !alen_cons, alen_nil. lia.
Qed.

Lemma copy_chars ws start dst n :
  2 * Z.of_nat n <= alen dst →
  for_loop n 0 (λ k dst, let w := ws.[start + k] in
     (dst.[2 * k <- Z.shiftr w 8]).[2 * k + 1 <- Z.land w 0xFF]) dst =
  splice dst 0 (word_chars ws start (Z.of_nat n)).
Proof.
  induction n as [|n IH]; intros Hl; [by change (word_chars ws start (Z.of_nat 0)) with (@nil Z); rewrite splice_nil|].
  rewrite for_loop_S, IH by lia. cbv zeta. rewrite Z.add_0_l.
  pose proof (alen_word_chars ws start (Z.of_nat n) ltac:(lia)) as Hn.
  assert (alen (splice dst 0 (word_chars ws start (Z.of_nat n))) = alen dst) as Hd by (apply alen_splice; lia).
  rewrite <-splice_1 by (rewrite alen_aset, Hd; lia). rewrite <-splice_1 by (rewrite Hd; lia).
  replace (2 * Z.of_nat n + 1) with (2 * Z.of_nat n + alen [Z.shiftr (ws.[start + Z.of_nat n]) 8]) by (rewrite alen_cons, alen_nil; lia).
  rewrite splice_splice_adj by (rewrite ?alen_cons, ?alen_nil, ?Hd; lia).
  rewrite splice_append by (cbn [app]; rewrite ?alen_cons, ?alen_nil, ?Hn; lia).
  f_equal. unfold word_chars. replace (Z.of_nat (S n)) with (Z.of_nat n + 1) by lia.
  rewrite seqZ_snoc by lia. rewrite fmap_app, concat_app. done.
Qed.

(** A copied field is the C string of its characters without the trailing blanks. *)
Lemma copy_string_trimmed ws start dst n :
  2 * Z.of_nat n + 1 <= alen dst → Forall (λ c, c ≠ 0) (word_chars ws start (Z.of_nat n)) →
  let r := cstr (ata_copy_string dst ws start (Z.of_nat n)) in
  last r ≠ Some 32 ∧ ∃ k, word_chars ws start (Z.of_nat n) = r ++ replicate k 32.
Proof.
  intros Hl Hnz. unfold ata_copy_string. rewrite Nat2Z.id, copy_chars by lia. cbv zeta.
  set (s := word_chars ws start (Z.of_nat n)) in *.
  assert (alen s = 2 * Z.of_nat n) as Hs.
  { unfold s. apply alen_word_chars. lia. }
  rewrite <-splice_1 by (rewrite alen_splice; lia).
  rewrite splice_append by (rewrite ?alen_cons, ?alen_nil; lia).
  unfold splice. change (Z.to_nat 0) with 0%nat. rewrite take_0, app_nil_l, Nat.add_0_l, length_app. cbn [length].
  rewrite <-(app_assoc s). replace (Z.to_nat (2 * Z.of_nat n)) with (length s) by (unfold alen in Hs; lia).
  destruct (trim_app s ([0] ++ drop (length s + 1) dst)) as (s1 & k & Es & Hlast & ->).
  assert (Forall (λ c, c ≠ 0) s1) as Hs1 by (rewrite Es in Hnz; by apply Forall_app in Hnz as [? _]).
  assert (cstr (s1 ++ replicate k 0 ++ [0] ++ drop (length s + 1) dst) = s1) as ->.
  { destruct k as [|k]; cbn [replicate app]; by apply cstr_app_0. }
  split; [done|by exists k].
Qed.

(** ** The driver and its drives *)

(** C11: on an idle bus whose drives answer in time, the driver is a block device: reading the
    sectors of a drive puts their bytes at the start of the buffer and changes nothing on
    disk, writing replaces exactly the addressed sectors of the addressed drive, reading them
    again gives the bytes written, and the bus is idle afterwards. *)
Theorem ata_drive_is_disk i c b drive lba n buf :
  idle i c b → sectors_ok c → is_Some (i (selects drive)) → transfer_ok (false, drive) lba n →
  alen buf = 512 * n → bytes_ok buf →
  (∃ b', ata_read_sectors b drive lba n buf = (true, sectors (c (selects drive)) lba n, b') ∧ idle i c b') ∧
  ∃ b' c', ata_write_sectors b drive lba n buf = (true, b') ∧ idle i c' b' ∧
    (∀ v l, c' v l = if bool_decide (v = selects drive ∧ lba <= l < lba + n) then sub buf (512 * (l - lba)) 512
                     else c v l) ∧
    ∀ buf', alen buf' = 512 * n → ∃ b'', ata_read_sectors b' drive lba n buf' = (true, buf, b'') ∧ idle i c' b''.
Proof.
  intros Hb Hsec Hi (Hl & Hp & Hn & Hr) Hlen Hby.
  assert (∀ c b buf, idle i c b → sectors_ok c → alen buf = 512 * n →
    ∃ b', ata_read_sectors b drive lba n buf = (true, sectors (c (selects drive)) lba n, b') ∧ idle i c b') as Hread.
  { intros c0 b0 buf0 Hb0 Hsec0 Hlen0.
    destruct (read_sectors_ok i c0 b0 drive lba n buf0) as (b' & -> & Hb'); try done; try lia.
    exists b'. split; [|done]. rewrite splice_full; [done|]. rewrite alen_sectors_concat by (done || lia). lia. }
  split; [by apply Hread|].
  destruct (write_sectors_ok i c b drive lba n buf) as (b' & E & Hb'); try done; try lia.
  set (c' := written c (selects drive) lba n buf 0) in *. exists b', c'. split_and!; [done|done| |].
  - intros v l. unfold c', written. by rewrite Z.add_0_l.
  - intros buf' Hlen'. assert (sectors_ok c') as Hsec'.
    { intros v l. unfold c', written. case_bool_decide as Hin; [|apply Hsec].
      destruct Hin as [_ Hin]. split; [apply alen_sub; lia|by apply bytes_ok_sub]. }
    destruct (Hread c' b' buf' Hb' Hsec' Hlen') as (b'' & -> & Hb''). exists b''. split; [|done]. do 2 f_equal.
    apply sectors_of_buffer; [lia|done|]. intros k Hk. unfold c', written.
    rewrite bool_decide_true by (split; [done|lia]). f_equal. lia.
Qed.

(** The text of a field of the description: [r] is its characters without trailing blanks. *)
Definition field_text (ws : list Z) (start n : Z) (r : list Z) : Prop :=
  last r ≠ Some 32 ∧ ∃ k, word_chars ws start n = r ++ replicate k 32.

(** What the driver knows of a drive described by [ws]. *)
Definition reported {D} (st : ata D) (drive : Z) (d : option (list Z)) : Prop :=
  match d with
  | None => ata_get_drive_info st drive = None ∧ ata_get_sector_count st drive = 0
  | Some ws => ∃ info, ata_get_drive_info st drive = Some info ∧
      total_sectors info = ws.[60] + 65536 * (ws.[61]) ∧ ata_get_sector_count st drive = total_sectors info ∧
      (Forall (λ c, c ≠ 0) (word_chars ws 27 20) → field_text ws 27 20 (cstr (model info))) ∧
      (Forall (λ c, c ≠ 0) (word_chars ws 10 10) → field_text ws 10 10 (cstr (serial_no info)))
  end.

Definition infos_ok (l : list ata_drive_info_t) : Prop :=
  alen l = 2 ∧ Forall (λ i, alen (model i) = 41 ∧ alen (serial_no i) = 21) l.

Definition words_ok (ws : list Z) : Prop := alen ws = 256 ∧ Forall (λ w, 0 <= w < 0x10000) ws.

Lemma alen_copy_string dst ws start n :
  0 <= n → 2 * n + 1 <= alen dst → alen (ata_copy_string dst ws start n) = alen dst.
Proof.
  intros Hn Hl. unfold ata_copy_string. rewrite <-(Z2Nat.id n) in Hl |- * by done.
  rewrite Nat2Z.id, copy_chars by lia.
  assert (∀ m l, alen (trim_loop m l) = alen l) as Ht.
  { induction m as [|m IH]; intros l; [done|]. cbn [trim_loop]. destruct (_ =? _); [|done].
    by rewrite IH, alen_aset. }
  rewrite Ht, alen_aset, alen_splice; [done|lia|]. rewrite alen_word_chars; lia.
Qed.

Lemma parse_reported {D} (st : ata D) drive ws old :
  words_ok ws → alen (model old) = 41 → alen (serial_no old) = 21 →
  (drive_info st).[drive_index drive] = parse_identify ws old → reported st drive (Some ws).
Proof.
  intros [Hlen Hw] Hm Hs E. unfold reported, ata_get_drive_info, ata_get_sector_count. rewrite E.
  eexists. split; [reflexivity|]. unfold parse_identify. cbn [total_sectors present model serial_no].
  assert (0 <= ws.[60] < 0x10000 ∧ 0 <= ws.[61] < 0x10000) as [H60 H61].
  { split; apply (Forall_aget (λ w, 0 <= w < 0x10000)); done || lia. }
  split; [|split; [done|split; intros Hn]].
  - rewrite u32_small by (rewrite Z.shiftl_mul_pow2; lia). rewrite Z.lor_comm, lor_shift by lia. lia.
  - apply (copy_string_trimmed ws 27 (model old) 20); [lia|done].
  - apply (copy_string_trimmed ws 10 (serial_no old) 10); [lia|done].
Qed.

Lemma identify_reports i c st drive d :
  at_rest i c (io st) → is_drive drive → infos_ok (drive_info st) → (∀ v ws, i v = Some ws → words_ok ws) →
  i (selects drive) = d →
  at_rest i c (io (ata_identify st drive)) ∧ infos_ok (drive_info (ata_identify st drive)) ∧
  reported (ata_identify st drive) drive d ∧
  ∀ drive', drive_index drive' ≠ drive_index drive →
    (drive_info (ata_identify st drive)).[drive_index drive'] = (drive_info st).[drive_index drive'].
Proof.
  intros Hr Hd [Hl Hinf] Hw Hi. unfold ata_identify.
  destruct (identify_ok i c (io st) drive Hr Hd) as (b' & E & Hb'); [intros v ws Hv; by destruct (Hw v ws Hv)|].
  rewrite E, Hi. set (k := drive_index drive).
  assert (0 <= k < alen (drive_info st)) as Hk.
  { rewrite Hl. unfold k, drive_index. destruct (drive =? ATA_SLAVE); lia. }
  assert (∀ x, alen (model x) = 41 ∧ alen (serial_no x) = 21 → infos_ok ((drive_info st).[k <- x])) as Hset.
  { intros x Hx. split; [by rewrite alen_aset|by apply Forall_aset]. }
  pose proof (Forall_aget _ _ _ Hk Hinf) as Hold. cbv beta in Hold.
  destruct d as [ws|]; cbn [io drive_info]; rewrite ?aset_aset.
  - rewrite aget_aset_eq by done. split_and!; [done| |apply (parse_reported _ _ _ (w_present false ((drive_info st).[k])))|].
    + apply Hset. cbn [model serial_no parse_identify w_present]. rewrite !alen_copy_string by lia. done.
    + by apply (Hw (selects drive)).
    + cbn. lia.
    + cbn. lia.
    + cbn [drive_info]. fold k. by rewrite aget_aset_eq.
    + intros drive' Hne. fold k in Hne. rewrite aget_aset_ne; [done|congruence|lia].
  - split_and!; [done|by apply Hset| |].
    + unfold reported, ata_get_drive_info, ata_get_sector_count. cbn [drive_info]. fold k.
      by rewrite aget_aset_eq.
    + intros drive' Hne. fold k in Hne. rewrite aget_aset_ne; [done|congruence|lia].
Qed.

Lemma reset_rest i c b :
  (∀ v l, content b v l = c v l) → describes b = i → (∀ k, (delays b k < Z.to_nat TIMEOUT)%nat) →
  at_rest i c (software_reset b).
Proof.
  intros Hc Hi Hq. destruct b as [c0 i0 rn rl rm rh rs p z ds tn]. cbn [content describes delays] in *. subst i0.
  constructor; try done. change (busy _) with (pred (pred (pred (pred (pred (pred (pred (pred (ds tn)))))))) ).
  specialize (Hq tn). lia.
Qed.

Lemma reported_ext {D} (st st' : ata D) drive d :
  (drive_info st').[drive_index drive] = (drive_info st).[drive_index drive] →
  reported st drive d → reported st' drive d.
Proof. intros E. unfold reported, ata_get_drive_info, ata_get_sector_count. by rewrite E. Qed.

(** After [ata_init] the driver reports a drive exactly when it answers on the bus, with
    the number of sectors and the model and serial texts of its description (byte-swapped and
    without trailing blanks), and the bus is at rest. *)
Theorem ata_init_reports i c (st : ata ata_bus) :
  (∀ v l, content (io st) v l = c v l) → describes (io st) = i →
  (∀ k, (delays (io st) k < Z.to_nat TIMEOUT)%nat) → infos_ok (drive_info st) →
  (∀ v ws, i v = Some ws → words_ok ws) →
  at_rest i c (io (ata_init st)) ∧ ∀ drive, is_drive drive → reported (ata_init st) drive (i (selects drive)).
Proof.
  intros Hc Hi Hq Hinf Hw. pose proof (reset_rest i c (io st) Hc Hi Hq) as Hd.
  destruct (identify_reports i c (mk_ata (drive_info st) (software_reset (io st))) ATA_MASTER _ Hd
    ltac:(by left) Hinf Hw eq_refl) as (Hr1 & Hf1 & Hp1 & Ho1).
  destruct (identify_reports i c _ ATA_SLAVE _ Hr1 ltac:(by right) Hf1 Hw eq_refl) as (Hr2 & Hf2 & Hp2 & Ho2).
  split; [exact Hr2|]. intros drive [-> | ->]; [|exact Hp2].
  eapply reported_ext; [|exact Hp1]. by apply Ho2.
Qed.

(** A count of 0 is 256 for the drive and nothing for the driver: it reports success and
    leaves the drive in the middle of the transfer. *)
Lemma ata_read_zero i c b drive lba buf :
  idle i c b → is_Some (i (selects drive)) → 0 <= lba < 0x10000000 →
  ∃ b', ata_read_sectors b drive lba 0 buf = (true, buf, b') ∧ ph b' = Reading lba 256 (words_of (c (selects drive) lba)).
Proof.
  intros Hb [ws Hi] Hl. unfold ata_read_sectors.
  destruct (wait_bsy_driving _ _ _ _ _ (idle_driving _ _ _ Hb)) as (b1 & E1 & Hb1 & _). rewrite E1. cbn [negb].
  eexists. split; [reflexivity|]. unfold issue. rewrite out_command.
  pose proof (drive_sel_bits (selects drive) (Z.land (Z.shiftr lba 24) 0x0F)) as Hsel.
  pose proof (lba_bytes lba Hl) as Hby. unfold selects in *. set (sel := u8 _) in *. destruct Hsel as [Hbit Hmod].
  { change 0x0F with (Z.ones 4). rewrite Z.land_ones by lia. apply Z.mod_pos_bound. lia. }
  clearbody sel. destruct Hb1 as [Hc Hdi _ _ Hp _ _]. destruct b1 as [c0 i0 rn rl rm rh rs p z ds tn].
  cbn [content describes ph] in *. subst i0 p. unfold bus_command.
  change (slave_selected _) with (Z.testbit sel 4). change (describes _) with i. rewrite Hbit, Hi.
  change (bus_lba _) with (u8 lba + 256 * u8 (Z.shiftr lba 8) + 65536 * u8 (Z.shiftr lba 16) + 16777216 * (sel mod 16)).
  rewrite Hmod, Hby. change (content _) with c0. by rewrite Hc.
Qed.

(** ** Witnesses: a master with 4096 sectors, busy for three polls each time *)

(** Ten words of serial number "S1" and twenty of model "QEMU DISK". *)
Definition demo_words : list Z :=
  replicate 10 0 ++ [0x5331] ++ replicate 9 0x2020 ++ replicate 7 0 ++
  [0x5145; 0x4D55; 0x2044; 0x4953; 0x4B20] ++ replicate 15 0x2020 ++ replicate 13 0 ++ [0x1000] ++ replicate 195 0.

Definition demo_bus : ata_bus :=
  mk_bus (λ _ _, replicate 512 0) (λ v, if v : bool then None else Some demo_words) 0 0 0 0 0xA0 Idle 0 (λ _, 3%nat) 0.

Lemma demo_idle : idle (describes demo_bus) (λ _ _, replicate 512 0) demo_bus.
Proof. constructor; try done; cbn [delays busy demo_bus]; unfold TIMEOUT; lia. Qed.

Lemma demo_sectors : sectors_ok (λ _ _, replicate 512 0).
Proof. intros v l. split; [by rewrite alen_replicate|apply Forall_replicate; lia]. Qed.

Lemma ata_drive_is_disk_witness :
  ∃ b' b'', ata_write_sectors demo_bus ATA_MASTER 7 1 (replicate 512 0xAB) = (true, b') ∧
    ata_read_sectors b' ATA_MASTER 7 1 (replicate 512 0) = (true, replicate 512 0xAB, b'').
Proof.
  destruct (ata_drive_is_disk (describes demo_bus) (λ _ _, replicate 512 0) demo_bus ATA_MASTER 7 1 (replicate 512 0xAB))
    as (_ & b' & c' & E & _ & _ & Hr).
  - exact demo_idle.
  - exact demo_sectors.
  - by eexists.
  - repeat split; cbn; lia.
  - by rewrite alen_replicate.
  - apply Forall_replicate. lia.
  - destruct (Hr (replicate 512 0)) as (b'' & E' & _); [by rewrite alen_replicate|].
    exists b', b''. by split.
Defined.

Definition demo_ata : ata ata_bus := mk_ata [no_info; no_info] demo_bus.

Lemma demo_words_ok v ws : describes demo_bus v = Some ws → words_ok ws.
Proof.
  destruct v; [done|]. intros [= <-]. split; [done|].
  apply Forall_forall. intros w Hw. assert (forallb (λ w, (0 <=? w) && (w <? 0x10000)) demo_words = true) as Hb by (by vm_compute).
  rewrite forallb_forall in Hb. specialize (Hb w). rewrite list_elem_of_In in Hw. specialize (Hb Hw). lia.
Qed.

Lemma ata_init_reports_witness :
  ata_get_sector_count (ata_init demo_ata) ATA_MASTER = 4096 ∧ ata_get_drive_info (ata_init demo_ata) ATA_SLAVE = None.
Proof.
  destruct (ata_init_reports (describes demo_bus) (λ _ _, replicate 512 0) demo_ata) as (_ & Hr).
  - done.
  - done.
  - intros k. cbn [delays demo_ata io demo_bus]. unfold TIMEOUT. lia.
  - split; [done|]. by repeat constructor.
  - exact demo_words_ok.
  - split.
    + destruct (Hr ATA_MASTER (or_introl eq_refl)) as (info & _ & Ht & -> & _). rewrite Ht. by vm_compute.
    + by destruct (Hr ATA_SLAVE (or_intror eq_refl)).
Defined.
