(* ===== verification/Pmm.v ===== *)
(** * mm/allocator/pmm.c: the physical frame allocator

    One bit per 4 KiB frame.  The bitmap is the byte array at [bitmap_addr], accessed
    through [uint32_t] words as in the source.  [blk_used] is the abstract view (is
    frame [b] taken), [FrameAllocator] the interface the paging code is verified
    against, and [pmm_frame_allocator] the proof that this allocator implements it. *)

From S2P Require Import Prelude KString.

Definition PMM_BLOCK_SIZE : Z := 4096.
Definition PMM_BLOCKS_PER_BYTE : Z := 8.

Record pmm := mk_pmm {
  pmm_bitmap : list Z;
  pmm_max_blocks : Z;
  pmm_used_blocks : Z }.

Definition bm_word (bm : list Z) (i : Z) : Z := get_le 4 bm (4 * i).

Definition bitmap_set (bm : list Z) (bit : Z) : list Z :=
  put_le 4 bm (4 * (bit / 32))
    (Z.lor (bm_word bm (bit / 32)) (Z.shiftl 1 (bit mod 32))).

Definition bitmap_unset (bm : list Z) (bit : Z) : list Z :=
  put_le 4 bm (4 * (bit / 32))
    (Z.land (bm_word bm (bit / 32)) (u32 (Z.lnot (Z.shiftl 1 (bit mod 32))))).

(** The result type [bool] of libk/types.h is [uint8_t]: the masked word is truncated. *)
Definition bitmap_test (bm : list Z) (bit : Z) : Z :=
  u8 (Z.land (bm_word bm (bit / 32)) (Z.shiftl 1 (bit mod 32))).

Fixpoint find_free_loop (n : nat) (i : Z) (bm : list Z) : Z :=
  match n with
  | O => -1
  | S n' =>
      if negb (bm_word bm i =? 0xFFFFFFFF) then
        match zfind (λ j, Z.land (bm_word bm i) (Z.shiftl 1 j) =? 0) 0 32 with
        | Some j => s32 (u32 (i * 32 + j))
        | None => find_free_loop n' (i + 1) bm
        end
      else find_free_loop n' (i + 1) bm
  end.

Definition bitmap_find_first_free (p : pmm) : Z :=
  find_free_loop (Z.to_nat (pmm_max_blocks p / 32)) 0 (pmm_bitmap p).

(** [mem] is the memory at [bitmap_addr]. *)
Definition pmm_init (mem_size : Z) (mem : list Z) : pmm :=
  let max := mem_size / PMM_BLOCK_SIZE in
  mk_pmm (memset mem 0 0xFF (max / PMM_BLOCKS_PER_BYTE)) max max.

Definition pmm_init_region (p : pmm) (base size : Z) : pmm :=
  let '(bm, used) :=
    for_loop (Z.to_nat (size / PMM_BLOCK_SIZE)) (base / PMM_BLOCK_SIZE)
      (λ align '(bm, used), (bitmap_unset bm align, u32 (used - 1)))
      (pmm_bitmap p, pmm_used_blocks p) in
  mk_pmm (bitmap_set bm 0) (pmm_max_blocks p) used.

Definition pmm_deinit_region (p : pmm) (base size : Z) : pmm :=
  let '(bm, used) :=
    for_loop (Z.to_nat (size / PMM_BLOCK_SIZE)) (base / PMM_BLOCK_SIZE)
      (λ align '(bm, used), (bitmap_set bm align, u32 (used + 1)))
      (pmm_bitmap p, pmm_used_blocks p) in
  mk_pmm bm (pmm_max_blocks p) used.

(** The result is the physical address, 0 for NULL. *)
Definition pmm_alloc_block (p : pmm) : Z * pmm :=
  let free_block := bitmap_find_first_free p in
  if free_block =? -1 then (0, p)
  else (u32 (free_block * PMM_BLOCK_SIZE),
        mk_pmm (bitmap_set (pmm_bitmap p) free_block) (pmm_max_blocks p)
               (u32 (pmm_used_blocks p + 1))).

Definition pmm_free_block (p : pmm) (addr : Z) : pmm :=
  let block := addr / PMM_BLOCK_SIZE in
  mk_pmm (bitmap_unset (pmm_bitmap p) block) (pmm_max_blocks p)
         (u32 (pmm_used_blocks p - 1)).

Definition pmm_get_block_count (p : pmm) : Z := pmm_max_blocks p.
Definition pmm_get_free_block_count (p : pmm) : Z :=
  u32 (pmm_max_blocks p - pmm_used_blocks p).

(** ** The abstract view *)

Definition bit_used (bm : list Z) (b : Z) : bool := Z.testbit (bm_word bm (b / 32)) (b mod 32).
Definition blk_used (p : pmm) (b : Z) : bool := bit_used (pmm_bitmap p) b.

(** The bitmap covers every frame of a physical memory of at most 4 GiB. *)
Definition bm_covers (bm : list Z) (b : Z) : Prop := 0 <= b ∧ 4 * (b / 32) + 4 <= alen bm.

Record pmm_wf (p : pmm) : Prop := {
  wf_bytes : bytes_ok (pmm_bitmap p);
  wf_max : 0 <= pmm_max_blocks p <= 0x100000;
  wf_len : 4 * ((pmm_max_blocks p + 31) / 32) <= alen (pmm_bitmap p) }.

Lemma wf_covers p b : pmm_wf p → 0 <= b < pmm_max_blocks p → bm_covers (pmm_bitmap p) b.
Proof. intros [? ? ?] ?. split; zlia. Qed.

Lemma bm_word_range bm i : bytes_ok bm → 0 <= bm_word bm i < 0x100000000.
Proof. intros. change 0x100000000 with (256 ^ Z.of_nat 4). by apply get_le_range. Qed.

Lemma bitmap_write bm i w :
  bytes_ok bm → 0 <= i → 4 * i + 4 <= alen bm → 0 <= w < 0x100000000 →
  let bm' := put_le 4 bm (4 * i) w in
  bytes_ok bm' ∧ alen bm' = alen bm ∧
  ∀ j, 0 <= j → 4 * j + 4 <= alen bm → bm_word bm' j = if j =? i then w else bm_word bm j.
Proof.
  intros Hok Hi Hlen Hw bm'. split_and!.
  - apply bytes_ok_splice; [done|apply le_bytes_ok].
  - apply alen_put_le; lia.
  - intros j Hj Hjl. unfold bm_word, bm'. destruct (Z.eqb_spec j i) as [->|].
    + rewrite get_put_le by lia. by apply Z.mod_small.
    + apply get_put_le_ne; lia.
Qed.

(** Writing word [b / 32] with bit [b mod 32] changed to [v] changes the state of frame
    [b] only. *)
Lemma bitmap_write_bit bm b w (v : bool) :
  bytes_ok bm → bm_covers bm b → 0 <= w < 0x100000000 →
  (∀ k, 0 <= k < 32 →
     Z.testbit w k = if k =? b mod 32 then v else Z.testbit (bm_word bm (b / 32)) k) →
  let bm' := put_le 4 bm (4 * (b / 32)) w in
  bytes_ok bm' ∧ alen bm' = alen bm ∧
  ∀ c, bm_covers bm c → bit_used bm' c = if c =? b then v else bit_used bm c.
Proof.
  intros Hok [Hb Hcov] Hw Hbits bm'.
  destruct (bitmap_write bm (b / 32) w Hok) as (Hok' & Hlen & Hword); [zlia|lia|done|].
  split_and!; [done|done|]. intros c [Hc Hccov]. unfold bit_used.
  fold bm' in Hword. rewrite Hword by zlia.
  destruct (Z.eqb_spec (c / 32) (b / 32)) as [E|E].
  - rewrite Hbits by zlia. rewrite <-E.
    destruct (Z.eqb_spec (c mod 32) (b mod 32)), (Z.eqb_spec c b); try done; zlia.
  - destruct (Z.eqb_spec c b); [|done]. subst. done.
Qed.

Lemma bitmap_set_spec bm b :
  bytes_ok bm → bm_covers bm b →
  bytes_ok (bitmap_set bm b) ∧ alen (bitmap_set bm b) = alen bm ∧
  ∀ c, bm_covers bm c → bit_used (bitmap_set bm b) c = if c =? b then true else bit_used bm c.
Proof.
  intros Hok Hcov. pose proof (bm_word_range bm (b / 32) Hok).
  apply bitmap_write_bit; [done|done|apply set_bit_range; zlia|].
  intros k Hk. rewrite Z.lor_spec, testbit_one_shift by zlia.
  destruct (k =? b mod 32); [by rewrite orb_true_r|by rewrite orb_false_r].
Qed.

Lemma bitmap_unset_spec bm b :
  bytes_ok bm → bm_covers bm b →
  bytes_ok (bitmap_unset bm b) ∧ alen (bitmap_unset bm b) = alen bm ∧
  ∀ c, bm_covers bm c →
    bit_used (bitmap_unset bm b) c = if c =? b then false else bit_used bm c.
Proof.
  intros Hok Hcov. pose proof (bm_word_range bm (b / 32) Hok).
  apply bitmap_write_bit; [done|done|apply clear_bit_range; [done|apply u32_range]|].
  intros k Hk.
  rewrite Z.land_spec, testbit_u32, Z.lnot_spec, testbit_one_shift by zlia.
  destruct (k =? b mod 32); [by rewrite andb_false_r|by rewrite andb_true_r].
Qed.

(** ** The search *)

Lemma land_one_shift w k : 0 <= k → (Z.land w (Z.shiftl 1 k) =? 0) = negb (Z.testbit w k).
Proof.
  intros Hk. destruct (Z.testbit w k) eqn:E; simpl.
  - apply Z.eqb_neq. intros H0. apply (f_equal (λ z, Z.testbit z k)) in H0.
    rewrite Z.land_spec, testbit_one_shift, E, Z.eqb_refl, Z.bits_0 in H0 by lia. done.
  - apply Z.eqb_eq, Z.bits_inj_0. intros j.
    destruct (Z.neg_nonneg_cases j); [by apply Z.testbit_neg_r|].
    rewrite Z.land_spec, testbit_one_shift by lia.
    destruct (Z.eqb_spec j k) as [->|]; [by rewrite E|by rewrite andb_false_r].
Qed.

Lemma word_full w :
  0 <= w < 0x100000000 → (w =? 0xFFFFFFFF) = true ↔ ∀ k, 0 <= k < 32 → Z.testbit w k = true.
Proof.
  intros Hw. rewrite Z.eqb_eq. split.
  - intros -> k Hk. change 0xFFFFFFFF with (Z.ones 32). apply Z.ones_spec_low. lia.
  - intros H. change 0xFFFFFFFF with (Z.ones 32). apply Z.bits_inj. intros k.
    destruct (Z.neg_nonneg_cases k); [by rewrite !Z.testbit_neg_r|].
    destruct (decide (k < 32)).
    + rewrite H, Z.ones_spec_low by lia. done.
    + rewrite word_testbit_high, Z.ones_spec_high by lia. done.
Qed.

Lemma find_free_loop_spec n i bm :
  bytes_ok bm → 0 <= i → i + Z.of_nat n <= 0x8000 →
  let r := find_free_loop n i bm in
  (r = -1 ∧ ∀ b, 32 * i <= b < 32 * (i + Z.of_nat n) → bit_used bm b = true) ∨
  (32 * i <= r < 32 * (i + Z.of_nat n) ∧ bit_used bm r = false ∧
   ∀ b, 32 * i <= b < r → bit_used bm b = true).
Proof.
  intros Hok. revert i. induction n as [|n IH]; intros i Hi Hn; cbn [find_free_loop].
  { left. split; [done|lia]. }
  pose proof (bm_word_range bm i Hok) as Hw. pose proof (word_full _ Hw) as Hfull.
  assert (∀ b, 32 * i <= b < 32 * (i + 1) →
    bit_used bm b = Z.testbit (bm_word bm i) (b - 32 * i)) as Hb.
  { intros b Hb. unfold bit_used. f_equal; [f_equal|]; zlia. }
  assert ((bm_word bm i =? 0xFFFFFFFF) = true →
    ∀ b, 32 * i <= b < 32 * (i + 1) → bit_used bm b = true) as Hallused.
  { intros Hf b Hbi. rewrite Hb by done. apply (proj1 Hfull Hf). lia. }
  specialize (IH (i + 1) ltac:(lia) ltac:(lia)).
  assert (Hskip : (∀ b, 32 * i <= b < 32 * (i + 1) → bit_used bm b = true) →
    let r := find_free_loop n (i + 1) bm in
    (r = -1 ∧ ∀ b, 32 * i <= b < 32 * (i + Z.of_nat (S n)) → bit_used bm b = true) ∨
    (32 * i <= r < 32 * (i + Z.of_nat (S n)) ∧ bit_used bm r = false ∧
     ∀ b, 32 * i <= b < r → bit_used bm b = true)).
  { intros Hu. destruct IH as [[Hr Hall]|(Hr & Hfree & Hall)]; [left|right].
    - split; [done|]. intros b Hbi. destruct (decide (b < 32 * (i + 1))); [apply Hu|apply Hall]; lia.
    - split_and!; [lia|lia|done|]. intros b Hbi.
      destruct (decide (b < 32 * (i + 1))); [apply Hu|apply Hall]; lia. }
  destruct (bm_word bm i =? 0xFFFFFFFF) eqn:E; cbn [negb]; [by apply Hskip, Hallused|].
  rewrite (zfind_ext _ (λ j, negb (Z.testbit (bm_word bm i) j)))
    by (intros; apply land_one_shift; lia).
  destruct (zfind _ 0 32) as [j|] eqn:Ej.
  - apply zfind_Some in Ej as (Hj & Hfree & Hbefore). right.
    rewrite u32_small, s32_small by lia. split_and!; [lia|lia| |].
    + rewrite Hb by lia. replace (i * 32 + j - 32 * i) with j by lia.
      by apply negb_true_iff.
    + intros b Hbi. rewrite Hb by lia. apply negb_false_iff, Hbefore. lia.
  - apply Hskip. intros b Hbi. rewrite zfind_None in Ej. rewrite Hb by lia.
    apply negb_false_iff, Ej. lia.
Qed.

(** ** What the paging code relies on *)

Class FrameAllocator (S : Type) := {
  alloc_block : S → Z * S;
  free_block : S → Z → S }.

(** [taken s f]: frame [f] is in use or outside the allocator's reach; [managed s f]:
    the allocator can hand out and take back frame [f].  Address 0 is NULL. *)
Class FrameAllocatorLaws (S : Type) `{FrameAllocator S}
    (ok : S → Prop) (taken : S → Z → bool) (managed : S → Z → Prop) := {
  alloc_null s : ok s → (alloc_block s).1 = 0 → (alloc_block s).2 = s;
  alloc_frame s a s' :
    ok s → alloc_block s = (a, s') → a ≠ 0 →
    ∃ f, a = 4096 * f ∧ 0 < f < 0x100000 ∧ managed s f ∧ taken s f = false ∧ ok s' ∧
         (∀ g, managed s' g ↔ managed s g) ∧
         (∀ g, taken s' g = (g =? f) || taken s g);
  free_frame s f :
    ok s → managed s f → f ≠ 0 →
    ok (free_block s (4096 * f)) ∧
    (∀ g, managed (free_block s (4096 * f)) g ↔ managed s g) ∧
    ∀ g, taken (free_block s (4096 * f)) g = if g =? f then false else taken s g;
  alloc_progress s f : ok s → managed s f → taken s f = false → (alloc_block s).1 ≠ 0 }.

#[export] Instance pmm_ops : FrameAllocator pmm :=
  {| alloc_block := pmm_alloc_block; free_block := pmm_free_block |}.

Definition pmm_managed (p : pmm) (f : Z) : Prop := 0 <= f < 32 * (pmm_max_blocks p / 32).

Definition pmm_taken (p : pmm) (f : Z) : bool :=
  if (0 <=? f) && (f <? 32 * (pmm_max_blocks p / 32)) then blk_used p f else true.

(** Frame 0 is never handed out: that is what makes 0 usable as NULL. *)
Definition pmm_ok (p : pmm) : Prop := pmm_wf p ∧ pmm_taken p 0 = true.

Lemma pmm_taken_managed p f : pmm_managed p f → pmm_taken p f = blk_used p f.
Proof.
  unfold pmm_managed, pmm_taken. intros.
  destruct (Z.leb_spec 0 f), (Z.ltb_spec f (32 * (pmm_max_blocks p / 32))); simpl; done || lia.
Qed.

Lemma pmm_taken_free p f : pmm_taken p f = false → pmm_managed p f ∧ blk_used p f = false.
Proof.
  unfold pmm_managed, pmm_taken.
  destruct (Z.leb_spec 0 f), (Z.ltb_spec f (32 * (pmm_max_blocks p / 32))); simpl; try done.
Qed.

Lemma managed_covers p f : pmm_wf p → pmm_managed p f → bm_covers (pmm_bitmap p) f.
Proof. intros [? ? ?] ?. unfold pmm_managed in *. split; zlia. Qed.

(** The effect of a one-bit update on the abstract view. *)
Lemma pmm_update_spec p bm' used f (v : bool) :
  pmm_wf p → pmm_managed p f →
  bytes_ok bm' ∧ alen bm' = alen (pmm_bitmap p) ∧
  (∀ c, bm_covers (pmm_bitmap p) c →
     bit_used bm' c = if c =? f then v else bit_used (pmm_bitmap p) c) →
  let p' := mk_pmm bm' (pmm_max_blocks p) used in
  pmm_wf p' ∧ ∀ g, pmm_taken p' g = if g =? f then v else pmm_taken p g.
Proof.
  intros Hwf Hf (Hok & Hlen & Hbits) p'. split.
  { destruct Hwf. constructor; simpl; [done|done|lia]. }
  intros g. unfold pmm_taken at 1. simpl.
  destruct ((0 <=? g) && (g <? 32 * (pmm_max_blocks p / 32))) eqn:E.
  - apply andb_true_iff in E as [?%Z.leb_le ?%Z.ltb_lt].
    unfold blk_used. simpl. rewrite Hbits by (apply managed_covers; unfold pmm_managed; auto).
    by rewrite pmm_taken_managed.
  - unfold pmm_taken. rewrite E. destruct (Z.eqb_spec g f); [|done]. subst.
    unfold pmm_managed in Hf.
    destruct (Z.leb_spec 0 f), (Z.ltb_spec f (32 * (pmm_max_blocks p / 32))); simpl in *; done || lia.
Qed.

(** The complete behaviour of [pmm_alloc_block]. *)
Lemma alloc_spec p :
  pmm_ok p →
  (pmm_alloc_block p = (0, p) ∧ ∀ f, pmm_managed p f → pmm_taken p f = true) ∨
  ∃ f, pmm_alloc_block p =
         (4096 * f, mk_pmm (bitmap_set (pmm_bitmap p) f) (pmm_max_blocks p)
                      (u32 (pmm_used_blocks p + 1))) ∧
       0 < f ∧ pmm_managed p f ∧ pmm_taken p f = false ∧
       (∀ g, pmm_managed p g → g < f → pmm_taken p g = true).
Proof.
  intros [Hwf H0]. pose proof (wf_max p Hwf). unfold pmm_alloc_block, bitmap_find_first_free.
  destruct (find_free_loop_spec (Z.to_nat (pmm_max_blocks p / 32)) 0 (pmm_bitmap p))
    as [[-> Hall]|(Hr & Hfree & Hall)]; [apply Hwf|done|zlia| |].
  - left. simpl. split; [done|]. intros f Hf. rewrite pmm_taken_managed by done.
    apply Hall. unfold pmm_managed in Hf. zlia.
  - right. set (f := find_free_loop _ _ _) in *. exists f.
    assert (pmm_managed p f) as Hm by (unfold pmm_managed; zlia).
    assert (f ≠ 0) as Hf0.
    { intros E. rewrite E in Hm. rewrite pmm_taken_managed in H0 by done.
      unfold blk_used in H0. congruence. }
    unfold pmm_managed in Hm. destruct (Z.eqb_spec f (-1)); [lia|].
    rewrite u32_small by (unfold PMM_BLOCK_SIZE; zlia).
    split_and!; [by rewrite Z.mul_comm|lia|done| |].
    + by rewrite pmm_taken_managed.
    + intros g Hg ?. rewrite pmm_taken_managed by done. apply Hall.
      unfold pmm_managed in Hg. lia.
Qed.

#[export] Instance pmm_frame_allocator : FrameAllocatorLaws pmm pmm_ok pmm_taken pmm_managed.
Proof.
  constructor; simpl.
  - intros p Hok. destruct (alloc_spec p Hok) as [[-> _]|(f & -> & ? & ?)]; [done|].
    simpl. lia.
  - intros p a p' Hok Ha Hne.
    destruct (alloc_spec p Hok) as [[He _]|(f & He & Hf & Hm & Ht & _)]; simplify_eq; [congruence|].
    assert (a = 4096 * f) by congruence. assert (p' = (pmm_alloc_block p).2) as -> by (by rewrite Ha).
    rewrite He. simpl. destruct Hok as [Hwf H0]. pose proof (wf_max p Hwf).
    destruct (pmm_update_spec p (bitmap_set (pmm_bitmap p) f) (u32 (pmm_used_blocks p + 1)) f true)
      as [Hwf' Ht']; [done|done|apply bitmap_set_spec; [apply Hwf|by apply managed_covers]|].
    assert (f < 0x100000) by (unfold pmm_managed in Hm; zlia).
    assert (pmm_taken (mk_pmm (bitmap_set (pmm_bitmap p) f) (pmm_max_blocks p)
      (u32 (pmm_used_blocks p + 1))) 0 = true)
      by (rewrite Ht'; by destruct (Z.eqb_spec 0 f)).
    exists f. split_and!; try done.
  - intros p f [Hwf H0] Hm Hf. unfold pmm_free_block, PMM_BLOCK_SIZE.
    rewrite (Z.mul_comm 4096 f), Z.div_mul by lia.
    destruct (pmm_update_spec p (bitmap_unset (pmm_bitmap p) f) (u32 (pmm_used_blocks p - 1)) f false)
      as [Hwf' Ht']; [done|done|apply bitmap_unset_spec; [apply Hwf|by apply managed_covers]|].
    split_and!; [split; [done|]|done|done].
    rewrite Ht'. by destruct (Z.eqb_spec 0 f); [congruence|].
  - intros p f Hok Hm Ht.
    destruct (alloc_spec p Hok) as [[_ Hall]|(g & -> & ? & ?)]; [|simpl; lia].
    rewrite Hall in Ht by done. done.
Qed.

(** ** Properties *)

(** On every branch, [pmm_alloc_block] either finds every frame it manages taken,
    returns NULL and changes nothing, or returns the lowest free frame (never frame 0)
    and marks exactly that frame as taken. *)
Theorem pmm_alloc_first_fit p :
  pmm_ok p →
  let '(a, p') := pmm_alloc_block p in
  (a = 0 ∧ p' = p ∧ ∀ f, pmm_managed p f → pmm_taken p f = true) ∨
  (∃ f, a = 4096 * f ∧ 0 < f ∧ pmm_managed p f ∧ pmm_taken p f = false ∧
        (∀ g, pmm_managed p g → g < f → pmm_taken p g = true) ∧
        pmm_ok p' ∧ ∀ g, pmm_taken p' g = (g =? f) || pmm_taken p g).
Proof.
  intros Hok. destruct (alloc_spec p Hok) as [[-> Hall]|(f & He & Hf & Hm & Ht & Hlow)].
  { by left. }
  destruct (alloc_frame p (4096 * f) (pmm_alloc_block p).2 Hok) as (f' & E & ? & ? & ? & Hok' & ? & Ht').
  { simpl. by rewrite He. }
  { lia. }
  assert (f' = f) as -> by lia.
  rewrite He in *. right. exists f. by split_and!.
Qed.

(** After [pmm_init] every frame is reserved. *)
Lemma pmm_init_wf mem_size mem :
  bytes_ok mem → 0 <= mem_size < 0x100000000 →
  4 * ((mem_size / 4096 + 31) / 32) <= alen mem → pmm_wf (pmm_init mem_size mem).
Proof.
  intros Hok Hsz Hlen. unfold pmm_init, PMM_BLOCK_SIZE, PMM_BLOCKS_PER_BYTE.
  rewrite memset_fills by zlia.
  constructor; simpl; [|zlia|rewrite alen_splice; rewrite ?alen_replicate_Z; zlia].
  apply bytes_ok_splice; [done|]. apply Forall_replicate. by vm_compute.
Qed.

Lemma pmm_init_reserved mem_size mem f :
  bytes_ok mem → 0 <= mem_size < 0x100000000 →
  4 * ((mem_size / 4096 + 31) / 32) <= alen mem →
  pmm_taken (pmm_init mem_size mem) f = true.
Proof.
  intros Hok Hsz Hlen. destruct (pmm_taken _ f) eqn:E; [done|].
  apply pmm_taken_free in E as [Hm E]. rewrite <-E. unfold pmm_managed in Hm.
  unfold blk_used, bit_used, pmm_init, PMM_BLOCK_SIZE, PMM_BLOCKS_PER_BYTE, bm_word, get_le in *.
  simpl in *. rewrite memset_fills by zlia.
  assert (sub (splice mem 0 (replicate (Z.to_nat (mem_size / 4096 / 8)) (u8 255)))
    (4 * (f / 32)) (Z.of_nat 4) = replicate 4 255) as ->.
  { apply alist_eq.
    - rewrite alen_sub; rewrite ?alen_splice; rewrite ?alen_replicate_Z; try done; zlia.
    - intros i Hi. rewrite alen_sub in Hi by (rewrite ?alen_splice; rewrite ?alen_replicate_Z; zlia).
      rewrite aget_sub, aget_splice by (rewrite ?alen_replicate_Z; zlia).
      rewrite alen_replicate_Z by zlia.
      destruct (Z.leb_spec 0 (4 * (f / 32) + i)),
        (Z.ltb_spec (4 * (f / 32) + i) (0 + mem_size / 4096 / 8)); simpl; try zlia.
      change [255; 255; 255; 255] with (replicate 4 255). rewrite !aget_replicate by zlia. done. }
  change (le_num (replicate 4 255)) with (Z.ones 32).
  apply Z.ones_spec_low. zlia.
Qed.

Definition demo_pmm : pmm :=
  pmm_init_region (pmm_init 0x40000 (replicate 64 0)) 0 0x40000.

Lemma demo_init_wf : pmm_wf (pmm_init 0x40000 (replicate 64 0)).
Proof. apply pmm_init_wf; [|by vm_compute..]. apply Forall_replicate. lia. Qed.

Lemma demo_pmm_ok : pmm_ok demo_pmm.
Proof.
  split; [constructor|]; [|by vm_compute..].
  unfold bytes_ok. apply Forall_forall. intros b Hb.
  assert (forallb (λ b, (0 <=? b) && (b <? 256)) (pmm_bitmap demo_pmm) = true) as H
    by (by vm_compute).
  rewrite forallb_forall in H. specialize (H b). rewrite list_elem_of_In in Hb.
  specialize (H Hb). lia.
Qed.

Lemma pmm_alloc_first_fit_witness :
  pmm_ok demo_pmm ∧ (pmm_alloc_block demo_pmm).1 = 4096 ∧
  pmm_taken (pmm_alloc_block demo_pmm).2 1 = true.
Proof.
  pose proof (pmm_alloc_first_fit demo_pmm demo_pmm_ok) as H.
  split_and!; [exact demo_pmm_ok|by vm_compute|].
  destruct (pmm_alloc_block demo_pmm) as [a p'] eqn:E. simpl.
  assert (a = 4096) as -> by (change a with (a, p').1; rewrite <-E; by vm_compute).
  destruct H as [[? _]|(f & Hf & _ & _ & _ & _ & _ & Ht)]; [lia|].
  rewrite Ht. by replace f with 1 by lia.
Defined.

(** *** Live allocations never collide

    The kernel as a client: it allocates frames and gives back frames it holds. *)
Inductive client_step : pmm * list Z → pmm * list Z → Prop :=
  | step_alloc p live a p' :
      pmm_alloc_block p = (a, p') → a ≠ 0 → client_step (p, live) (p', a :: live)
  | step_alloc_null p live p' :
      pmm_alloc_block p = (0, p') → client_step (p, live) (p', live)
  | step_free p l1 a l2 :
      client_step (p, l1 ++ a :: l2) (pmm_free_block p a, l1 ++ l2).

Definition client_inv (s : pmm * list Z) : Prop :=
  pmm_ok s.1 ∧ NoDup s.2 ∧
  ∀ a, a ∈ s.2 → ∃ f, a = 4096 * f ∧ 0 < f ∧ pmm_managed s.1 f ∧ pmm_taken s.1 f = true.

Lemma client_step_inv s s' : client_inv s → client_step s s' → client_inv s'.
Proof.
  intros (Hok & Hnd & Hlive) Hstep. destruct Hstep as [p live a p' Ha Hne|p live p' Ha|p l1 a l2];
    simpl in *.
  - destruct (alloc_frame (H:=pmm_ops) p a p' Hok Ha Hne) as (f & -> & Hf & Hm & Hfree & Hok' & Hm' & Ht').
    split_and!; [done| |]; simpl.
    + apply NoDup_cons. split; [|done]. intros (g & Hg & ? & ? & Ht)%Hlive.
      assert (g = f) as -> by lia. congruence.
    + intros b [->|Hb]%elem_of_cons.
      * exists f. split_and!; [done|lia|by apply Hm'|]. by rewrite Ht', Z.eqb_refl.
      * destruct (Hlive b Hb) as (g & -> & ? & ? & Ht). exists g.
        split_and!; [done|done|by apply Hm'|]. by rewrite Ht', Ht, orb_true_r.
  - assert (p' = p) as ->.
    { pose proof (alloc_null p Hok) as Hnull. simpl in Hnull. rewrite Ha in Hnull. auto. }
    by split_and!.
  - destruct (Hlive a) as (f & -> & Hf & Hm & Ht); [set_solver|].
    destruct (free_frame p f Hok Hm) as (Hok' & Hm' & Ht'); [lia|]. simpl in *.
    apply NoDup_app in Hnd as (Hn1 & Hd & Hn2). apply NoDup_cons in Hn2 as [Hnot Hn2].
    split_and!; [done| |]; simpl.
    + apply NoDup_app. split_and!; [done| |done]. intros x Hx Hx2. apply (Hd x Hx). set_solver.
    + intros b Hb. destruct (Hlive b) as (g & -> & ? & ? & Htg); [set_solver|].
      exists g. split_and!; [done|done|by apply Hm'|]. rewrite Ht'.
      destruct (Z.eqb_spec g f) as [->|]; [|done]. exfalso.
      apply elem_of_app in Hb as [Hb|Hb]; [|done]. apply (Hd _ Hb). set_solver.
Qed.

(** C4: Whatever sequence of allocations and frees of held frames the kernel makes, no
    frame is ever held twice, so two callers never share a physical page. *)
Theorem pmm_no_double_allocation p s :
  pmm_ok p → rtc client_step (p, []) s → NoDup s.2 ∧ pmm_ok s.1.
Proof.
  intros Hok Hs. assert (client_inv s) as (?&?&_); [|done].
  eapply (rtc_ind_r (λ s, client_inv s)); [|intros; by eapply client_step_inv|exact Hs].
  split_and!; [done|apply NoDup_nil_2|]. by intros a ?%not_elem_of_nil.
Qed.

Lemma pmm_no_double_allocation_witness :
  ∃ s, rtc client_step (demo_pmm, []) s ∧ s.2 = [8192; 4096] ∧ NoDup s.2.
Proof.
  destruct (pmm_alloc_block demo_pmm) as [a1 p1] eqn:E1.
  destruct (pmm_alloc_block p1) as [a2 p2] eqn:E2.
  assert (a1 = 4096) by (change a1 with (a1, p1).1; rewrite <-E1; by vm_compute).
  assert (a2 = 8192).
  { change a2 with (a2, p2).1. rewrite <-E2. change p1 with (a1, p1).2. rewrite <-E1.
    by vm_compute. }
  assert (rtc client_step (demo_pmm, []) (p2, [a2; a1])) as Hrun.
  { eapply rtc_l; [apply (step_alloc _ [] _ _ E1); lia|].
    eapply rtc_once. apply (step_alloc _ [a1] _ _ E2). lia. }
  exists (p2, [a2; a1]). split_and!; [done|simpl; congruence|].
  apply (pmm_no_double_allocation demo_pmm (p2, [a2; a1]) demo_pmm_ok Hrun).
Defined.

(** *** Regions *)

(** A loop that sets the state of the frames [i .. i+n-1] to [v]. *)
Lemma region_loop bm0 used0 n i (v : bool) (upd : list Z → Z → list Z) (f : Z → Z) :
  bytes_ok bm0 → 0 <= i → (∀ k, i <= k < i + Z.of_nat n → bm_covers bm0 k) →
  (∀ bm b, bytes_ok bm → bm_covers bm b →
     bytes_ok (upd bm b) ∧ alen (upd bm b) = alen bm ∧
     ∀ c, bm_covers bm c → bit_used (upd bm b) c = if c =? b then v else bit_used bm c) →
  let bm := (for_loop n i (λ k '(bm, used), (upd bm k, f used)) (bm0, used0)).1 in
  bytes_ok bm ∧ alen bm = alen bm0 ∧
  (∀ c, bm_covers bm0 c →
     bit_used bm c = if (i <=? c) && (c <? i + Z.of_nat n) then v else bit_used bm0 c).
Proof.
  intros Hok Hi Hcov Hupd.
  apply (for_loop_inv (λ k s,
    bytes_ok s.1 ∧ alen s.1 = alen bm0 ∧
    (∀ c, bm_covers bm0 c →
       bit_used s.1 c = if (i <=? c) && (c <? k) then v else bit_used bm0 c))
    n i (λ k '(bm, used), (upd bm k, f used)) (bm0, used0)); simpl.
  - split_and!; [done|done|]. intros c _.
    destruct (Z.leb_spec i c), (Z.ltb_spec c i); simpl; try done; lia.
  - intros k [bm used] Hk (Hb & Hl & Hc). simpl in *.
    assert (bm_covers bm k) as Hck by (unfold bm_covers; rewrite Hl; by apply Hcov).
    destruct (Hupd bm k Hb Hck) as (Hb' & Hl' & Hc'). split_and!; [done|lia|].
    intros c Hcc. rewrite Hc' by (unfold bm_covers; by rewrite Hl). rewrite Hc by done.
    destruct (Z.eqb_spec c k), (Z.leb_spec i c), (Z.ltb_spec c k), (Z.ltb_spec c (k + 1));
      simpl; try lia; done.
Qed.

Lemma taken_bits p p' (P : Z → bool → bool) :
  pmm_wf p → pmm_max_blocks p' = pmm_max_blocks p →
  (∀ c, bm_covers (pmm_bitmap p) c →
     bit_used (pmm_bitmap p') c = P c (bit_used (pmm_bitmap p) c)) →
  ∀ f, pmm_managed p f → pmm_taken p' f = P f (pmm_taken p f).
Proof.
  intros Hwf Hmax HP f Hf. rewrite !pmm_taken_managed; [|done|unfold pmm_managed; by rewrite Hmax].
  apply HP. by apply managed_covers.
Qed.

(** [pmm_init_region] makes exactly the frames of the region available, except
    frame 0, which stays reserved as the NULL address; [pmm_deinit_region] reserves
    exactly the frames of its region. *)
Theorem pmm_regions p base size :
  pmm_wf p → 0 <= base → 0 <= size →
  (base / 4096 + size / 4096 <= 32 * (pmm_max_blocks p / 32)) → 32 <= pmm_max_blocks p →
  let inside f := (base / 4096 <=? f) && (f <? base / 4096 + size / 4096) in
  pmm_ok (pmm_init_region p base size) ∧
  (∀ f, pmm_managed p f →
     pmm_taken (pmm_init_region p base size) f =
       if f =? 0 then true else if inside f then false else pmm_taken p f) ∧
  (∀ f, pmm_managed p f →
     pmm_taken (pmm_deinit_region p base size) f = if inside f then true else pmm_taken p f).
Proof.
  intros Hwf Hb Hs Hr Hmax inside. unfold pmm_init_region, pmm_deinit_region, PMM_BLOCK_SIZE.
  assert (∀ k, base / 4096 <= k < base / 4096 + Z.of_nat (Z.to_nat (size / 4096)) →
    bm_covers (pmm_bitmap p) k) as Hcov.
  { intros k Hk. apply managed_covers; [done|]. unfold pmm_managed. zlia. }
  assert (∀ n, 0 <= n → base / 4096 + Z.of_nat (Z.to_nat n) = base / 4096 + n) as Hz by lia.
  pose proof (region_loop (pmm_bitmap p) (pmm_used_blocks p) (Z.to_nat (size / 4096))
    (base / 4096) false bitmap_unset (λ u, u32 (u - 1)) ltac:(apply Hwf) ltac:(zlia) Hcov
    bitmap_unset_spec) as H1.
  pose proof (region_loop (pmm_bitmap p) (pmm_used_blocks p) (Z.to_nat (size / 4096))
    (base / 4096) true bitmap_set (λ u, u32 (u + 1)) ltac:(apply Hwf) ltac:(zlia) Hcov
    bitmap_set_spec) as H2.
  rewrite Hz in H1, H2 by zlia.
  destruct (for_loop _ _ (λ align '(bm, used), (bitmap_unset bm align, u32 (used - 1))) _) as [bm1 u1].
  destruct (for_loop _ _ (λ align '(bm, used), (bitmap_set bm align, u32 (used + 1))) _) as [bm2 u2].
  simpl in H1, H2. destruct H1 as (Hok1 & Hl1 & Hc1), H2 as (Hok2 & Hl2 & Hc2).
  assert (bm_covers bm1 0) as H0 by (destruct Hwf; split; zlia).
  destruct (bitmap_set_spec bm1 0 Hok1 H0) as (Hok3 & Hl3 & Hc3).
  assert (∀ f, pmm_managed p f →
    pmm_taken (mk_pmm (bitmap_set bm1 0) (pmm_max_blocks p) u1) f =
      if f =? 0 then true else if inside f then false else pmm_taken p f) as Ht.
  { apply taken_bits with (P := λ f u, if f =? 0 then true else if inside f then false else u);
      [done|done|]. intros c Hc. simpl.
    rewrite Hc3 by (unfold bm_covers in *; by rewrite Hl1). by rewrite Hc1. }
  split_and!; [|done|].
  - split; [destruct Hwf; constructor; simpl; try done; lia|].
    rewrite Ht; [done|]. unfold pmm_managed. zlia.
  - apply taken_bits with (P := λ f u, if inside f then true else u); [done|done|].
    intros c Hc. simpl. by rewrite Hc2.
Qed.

Lemma pmm_regions_witness :
  pmm_taken (pmm_init_region (pmm_init 0x40000 (replicate 64 0)) 0x1000 0x2000) 2 = false ∧
  pmm_taken (pmm_deinit_region demo_pmm 0x1000 0x2000) 2 = true.
Proof.
  split.
  - destruct (pmm_regions (pmm_init 0x40000 (replicate 64 0)) 0x1000 0x2000) as (_ & Hi & _);
      [exact demo_init_wf|by vm_compute..|].
    rewrite Hi; [by vm_compute|by split; vm_compute].
  - destruct (pmm_regions demo_pmm 0x1000 0x2000) as (_ & _ & Hd);
      [apply demo_pmm_ok|by vm_compute..|].
    rewrite Hd; [by vm_compute|by split; vm_compute].
Defined.

(** *** The counter of used blocks *)

Definition count_used (p : pmm) : Z := zcount (blk_used p) 0 (Z.to_nat (pmm_max_blocks p)).

Definition accurate (p : pmm) : Prop := pmm_used_blocks p = count_used p.

Lemma count_used_upd p bm used f :
  pmm_wf p → 0 <= f < pmm_max_blocks p →
  bit_used (pmm_bitmap p) f = false → bit_used bm f = true →
  (∀ c, c ≠ f → bm_covers (pmm_bitmap p) c → bit_used bm c = bit_used (pmm_bitmap p) c) →
  count_used (mk_pmm bm (pmm_max_blocks p) used) = count_used p + 1.
Proof.
  intros Hwf Hf Hp Hb Hne. unfold count_used. simpl.
  apply zcount_upd with (k := f); [lia|done|done|].
  intros j Hj Hr. apply Hne; [done|]. apply wf_covers; [done|lia].
Qed.

(** Allocation, and freeing a frame that is taken, keep [pmm_used_blocks] equal to
    the number of set bits, so [pmm_get_free_block_count] reports the free frames. *)
Theorem pmm_accounting p :
  pmm_ok p → accurate p →
  accurate (pmm_alloc_block p).2 ∧
  (∀ f, pmm_managed p f → pmm_taken p f = true → accurate (pmm_free_block p (4096 * f))) ∧
  pmm_get_free_block_count p = pmm_max_blocks p - count_used p.
Proof.
  intros Hok Hacc. pose proof Hok as [Hwf H0]. pose proof (wf_max p Hwf) as Hmax.
  pose proof (zcount_range (blk_used p) 0 (Z.to_nat (pmm_max_blocks p))) as Hcr.
  fold (count_used p) in Hcr. unfold accurate in *. split_and!.
  - destruct (alloc_spec p Hok) as [[-> _]|(f & -> & Hf & Hm & Ht & _)]; [done|]. simpl.
    assert (0 <= f < pmm_max_blocks p) as Hfr by (unfold pmm_managed in Hm; zlia).
    destruct (bitmap_set_spec (pmm_bitmap p) f) as (_ & _ & Hc);
      [apply Hwf|by apply wf_covers|].
    rewrite pmm_taken_managed in Ht by done.
    rewrite (count_used_upd p _ _ f); [|done|done|done| |].
    + rewrite u32_small by lia. lia.
    + rewrite Hc by (by apply wf_covers). by rewrite Z.eqb_refl.
    + intros c Hcf Hcov. rewrite Hc by done. by destruct (Z.eqb_spec c f).
  - intros f Hm Ht. unfold pmm_free_block, PMM_BLOCK_SIZE.
    rewrite (Z.mul_comm 4096 f), Z.div_mul by lia. simpl.
    assert (0 <= f < pmm_max_blocks p) as Hfr by (unfold pmm_managed in Hm; zlia).
    destruct (bitmap_unset_spec (pmm_bitmap p) f) as (Hb & Hl & Hc);
      [apply Hwf|by apply wf_covers|].
    rewrite pmm_taken_managed in Ht by done.
    set (p' := mk_pmm (bitmap_unset (pmm_bitmap p) f) (pmm_max_blocks p) (u32 (pmm_used_blocks p - 1))).
    assert (pmm_wf p') as Hwf' by (destruct Hwf; constructor; simpl; try done; lia).
    pose proof (count_used_upd p' (pmm_bitmap p) (pmm_used_blocks p) f Hwf' Hfr) as Hu.
    assert (count_used p = count_used p' + 1) as Hcp.
    { destruct p. apply Hu; simpl in *.
      - rewrite Hc by (apply (wf_covers _ f Hwf); simpl; lia). by rewrite Z.eqb_refl.
      - done.
      - intros c Hcf Hcov. rewrite Hc by (unfold bm_covers in *; by rewrite <-Hl).
        by destruct (Z.eqb_spec c f). }
    assert (0 <= count_used p') by apply zcount_range.
    change (u32 (pmm_used_blocks p - 1) = count_used p'). rewrite u32_small; lia.
  - unfold pmm_get_free_block_count. rewrite u32_small; lia.
Qed.

Definition demo_acc : pmm := pmm_init_region (pmm_init 0x40000 (replicate 64 0)) 0x1000 0x3f000.

Lemma pmm_accounting_witness :
  accurate demo_acc ∧ accurate (pmm_alloc_block demo_acc).2 ∧ pmm_get_free_block_count demo_acc = 63.
Proof.
  assert (pmm_ok demo_acc) as Hok.
  { apply (pmm_regions (pmm_init 0x40000 (replicate 64 0)) 0x1000 0x3f000);
      [exact demo_init_wf|by vm_compute..]. }
  assert (accurate demo_acc) as Ha by (by vm_compute).
  destruct (pmm_accounting demo_acc Hok Ha) as (H1 & _ & H2).
  split_and!; [done|done|rewrite H2; by vm_compute].
Defined.

(** [pmm_init_region] over a fully reserved memory that includes frame 0 leaves the
    counter one below the number of frames that are really taken: the closing
    [bitmap_set(0)] is not counted. *)
Theorem pmm_init_region_undercounts :
  let p := pmm_init_region (pmm_init 0x40000 (replicate 64 0)) 0 0x40000 in
  pmm_used_blocks p = 0 ∧ count_used p = 1.
Proof. by split; vm_compute. Qed.

(** [bitmap_test] answers through an 8-bit [bool], so it reports a taken frame only
    when the frame's bit is one of the low eight bits of its word. *)
Theorem bitmap_test_truncated bm bit :
  bytes_ok bm → 0 <= bit →
  nz (bitmap_test bm bit) = bit_used bm bit && (bit mod 32 <? 8).
Proof.
  intros Hok Hb. unfold bitmap_test, bit_used, nz.
  pose proof (land_one_shift (bm_word bm (bit / 32)) (bit mod 32) ltac:(zlia)) as Hl.
  assert (Z.land (bm_word bm (bit / 32)) (Z.shiftl 1 (bit mod 32)) =
    if Z.testbit (bm_word bm (bit / 32)) (bit mod 32) then 2 ^ (bit mod 32) else 0) as ->.
  { destruct (Z.testbit _ _) eqn:E; [|by apply Z.eqb_eq]. clear Hl.
    rewrite Z.shiftl_1_l. apply Z.bits_inj'. intros j Hj.
    rewrite Z.land_spec, Z.pow2_bits_eqb by zlia.
    destruct (Z.eqb_spec (bit mod 32) j) as [<-|]; [by rewrite E|by rewrite andb_false_r]. }
  destruct (Z.testbit _ _); simpl; [|done].
  assert (0 <= bit mod 32 < 32) as Hr by zlia. revert Hr. generalize (bit mod 32). intros k Hk.
  apply (bool_decide_eq_true_1 (_ = _)). 
  assert (forallb (λ k, bool_decide (negb (u8 (2 ^ k) =? 0) = (k <? 8))) (seqZ 0 32) = true) as Hall
    by (by vm_compute).
  rewrite forallb_forall in Hall. apply Hall, list_elem_of_In, elem_of_seqZ. lia.
Qed.

Lemma bitmap_test_truncated_witness :
  bit_used (bitmap_set (replicate 4 0) 8) 8 = true ∧
  nz (bitmap_test (bitmap_set (replicate 4 0) 8) 8) = false.
Proof.
  split; [by vm_compute|]. rewrite bitmap_test_truncated; [by vm_compute| |lia].
  apply bitmap_set_spec; [apply Forall_replicate; lia|by split; vm_compute].
Defined.
