(* ===== verification/Vmm.v ===== *)
(** * mm/paging/vmm.c: two-level paging

    Physical memory is a word store; page directories and page tables live in frames
    obtained from the frame allocator and are reached, as in the source, through
    higher-half pointers ([P2V]).  The model assumes what boot.asm sets up before
    [vmm_init]: a kernel access through [P2V p] reaches physical address [p].  The TLB is
    not modelled ([invlpg] has no effect on the page tables), CR3 is the field [cr3].

    The definitions are generic in the frame allocator; the theorems use only the laws
    of [FrameAllocatorLaws]. *)

From S2P Require Import Prelude KString Pmm.

Definition VMM_PRESENT : Z := 0x1.
Definition VMM_WRITABLE : Z := 0x2.
Definition VMM_USER : Z := 0x4.
Definition KERNEL_VIRT_BASE : Z := 0xC0000000.

Definition P2V (addr : Z) : Z := u32 (addr + KERNEL_VIRT_BASE).
Definition V2P (addr : Z) : Z := u32 (addr - KERNEL_VIRT_BASE).

(** Words of physical memory; memory never written reads 0. *)
Definition rd (m : gmap Z Z) (a : Z) : Z := default 0 (m !! a).
Definition wr (m : gmap Z Z) (a v : Z) : gmap Z Z := <[a := v]> m.

(** [memset(p, 0, 4096)] on a page whose physical address is [pa]. *)
Definition zero_page (m : gmap Z Z) (pa : Z) : gmap Z Z :=
  for_loop 1024 0 (λ i m, wr m (pa + 4 * i) 0) m.

Record vmm (S : Type) := mk_vmm {
  frames : S;
  mem : gmap Z Z;
  kernel_directory : Z;   (* higher-half pointer *)
  current_directory : Z;  (* higher-half pointer *)
  cr3 : Z }.
Arguments mk_vmm {S} _ _ _ _ _.
Arguments frames {S} _.
Arguments mem {S} _.
Arguments kernel_directory {S} _.
Arguments current_directory {S} _.
Arguments cr3 {S} _.

(** [entries[i]] of the directory or table at higher-half pointer [p]. *)
Definition entry_addr (p i : Z) : Z := V2P (u32 (p + 4 * i)).

Definition pd_index (virt : Z) : Z := Z.shiftr virt 22.
Definition pt_index (virt : Z) : Z := Z.land (Z.shiftr virt 12) 0x3FF.
Definition page_mask (e : Z) : Z := Z.land e (u32 (Z.lnot 0xFFF)).

Section vmm_ops.
Context {S : Type} `{FrameAllocator S}.
Implicit Types st : vmm S.

Definition vmm_map_page st (phys virt flags : Z) : bool * vmm S :=
  let pde := entry_addr (current_directory st) (pd_index virt) in
  let write_pte (s : S) (m : gmap Z Z) (pt : Z) :=
    let pte := entry_addr pt (pt_index virt) in
    (true, mk_vmm s (wr m pte (Z.lor (Z.lor phys flags) VMM_PRESENT))
             (kernel_directory st) (current_directory st) (cr3 st)) in
  if negb (nz (Z.land (rd (mem st) pde) VMM_PRESENT)) then
    let '(phys_pt, s') := alloc_block (frames st) in
    if phys_pt =? 0 then
      (false, mk_vmm s' (mem st) (kernel_directory st) (current_directory st) (cr3 st))
    else
      let pt := P2V phys_pt in
      let m1 := zero_page (mem st) (V2P pt) in
      let m2 := wr m1 pde (Z.lor (Z.lor phys_pt flags) VMM_PRESENT) in
      write_pte s' m2 pt
  else
    write_pte (frames st) (mem st) (P2V (page_mask (rd (mem st) pde))).

Definition vmm_unmap_page st (virt : Z) : vmm S :=
  let pde := entry_addr (current_directory st) (pd_index virt) in
  if negb (nz (Z.land (rd (mem st) pde) VMM_PRESENT)) then st
  else
    let pt := P2V (page_mask (rd (mem st) pde)) in
    mk_vmm (frames st) (wr (mem st) (entry_addr pt (pt_index virt)) 0)
      (kernel_directory st) (current_directory st) (cr3 st).

(** [dir] is a physical address. *)
Definition vmm_switch_directory st (dir : Z) : vmm S :=
  mk_vmm (frames st) (mem st) (kernel_directory st) (P2V dir) dir.

Definition vmm_get_phys st (virt : Z) : Z :=
  let pde := entry_addr (current_directory st) (pd_index virt) in
  if negb (nz (Z.land (rd (mem st) pde) VMM_PRESENT)) then 0
  else
    let pt := P2V (page_mask (rd (mem st) pde)) in
    let pte := entry_addr pt (pt_index virt) in
    if negb (nz (Z.land (rd (mem st) pte) VMM_PRESENT)) then 0
    else page_mask (rd (mem st) pte).

Definition vmm_get_kernel_directory st : Z := kernel_directory st.

(** [for (i = 0; i < n * 4096; i += 4096) vmm_map_page(i, base + i, ...)]; the source
    ignores the result of each call. *)
Definition map_range (n : nat) (base : Z) st : vmm S :=
  for_loop n 0
    (λ k st, (vmm_map_page st (4096 * k) (u32 (base + 4096 * k))
                (Z.lor VMM_PRESENT VMM_WRITABLE)).2) st.

Definition vmm_init st : bool * vmm S :=
  let '(phys_pd, s') := alloc_block (frames st) in
  if phys_pd =? 0 then
    (false, mk_vmm s' (mem st) (kernel_directory st) (current_directory st) (cr3 st))
  else
    let kd := P2V phys_pd in
    let st1 := mk_vmm s' (zero_page (mem st) (V2P kd)) kd kd (cr3 st) in
    let st2 := map_range (Z.to_nat (0x100000 / 4096)) 0 st1 in
    let st3 := map_range (Z.to_nat (0x8000000 / 4096)) KERNEL_VIRT_BASE st2 in
    (true, vmm_switch_directory st3 phys_pd).

(** The result is the higher-half pointer to the new directory, 0 for NULL. *)
Definition vmm_clone_directory st : Z * vmm S :=
  let '(phys_dir, s') := alloc_block (frames st) in
  if phys_dir =? 0 then
    (0, mk_vmm s' (mem st) (kernel_directory st) (current_directory st) (cr3 st))
  else
    let new_dir := P2V phys_dir in
    let m1 := zero_page (mem st) (V2P new_dir) in
    let m2 := for_loop 256 768
      (λ i m, wr m (entry_addr new_dir i) (rd m (entry_addr (kernel_directory st) i))) m1 in
    (new_dir, mk_vmm s' m2 (kernel_directory st) (current_directory st) (cr3 st)).

Definition vmm_free_directory st (dir : Z) : vmm S :=
  if dir =? 0 then st
  else
    let virt_dir := P2V dir in
    let s1 := for_loop 768 0
      (λ i s, let e := rd (mem st) (entry_addr virt_dir i) in
              if nz (Z.land e VMM_PRESENT) then free_block s (page_mask e) else s)
      (frames st) in
    mk_vmm (free_block s1 dir) (mem st) (kernel_directory st) (current_directory st) (cr3 st).
End vmm_ops.

(** ** Address arithmetic *)

(** Entry [i] of the table in frame [f]. *)
Definition ent (f i : Z) : Z := 4096 * f + 4 * i.

Lemma ent_inj f g i j :
  0 <= i < 1024 → 0 <= j < 1024 → ent f i = ent g j → f = g ∧ i = j.
Proof. unfold ent. lia. Qed.

Lemma V2P_P2V a : 0 <= a < 0x100000000 → V2P (P2V a) = a.
Proof. intros. unfold V2P, P2V, KERNEL_VIRT_BASE. words. Qed.

Lemma entry_addr_P2V f i :
  0 <= f < 0x100000 → 0 <= i < 1024 → entry_addr (P2V (4096 * f)) i = ent f i.
Proof. intros. unfold entry_addr, V2P, P2V, ent, KERNEL_VIRT_BASE. words. Qed.

Lemma pd_index_range v : 0 <= v < 0x100000000 → 0 <= pd_index v < 1024.
Proof. intros. unfold pd_index. rewrite Z.shiftr_div_pow2 by lia. change (2 ^ 22) with 4194304. zlia. Qed.

Lemma pt_index_eq v : pt_index v = (v / 4096) mod 1024.
Proof.
  unfold pt_index. change 0x3FF with (Z.ones 10).
  rewrite Z.land_ones, Z.shiftr_div_pow2 by lia. done.
Qed.

Lemma pt_index_range v : 0 <= pt_index v < 1024.
Proof. rewrite pt_index_eq. zlia. Qed.

(** The two indices identify the page. *)
Lemma index_page v w :
  pd_index v = pd_index w → pt_index v = pt_index w → v / 4096 = w / 4096.
Proof.
  unfold pd_index. rewrite !pt_index_eq, !Z.shiftr_div_pow2 by lia.
  change (2 ^ 22) with (4096 * 1024). rewrite <-!Z.div_div by lia. zlia.
Qed.

Lemma page_index v w :
  v / 4096 = w / 4096 → pd_index v = pd_index w ∧ pt_index v = pt_index w.
Proof.
  unfold pd_index. rewrite !pt_index_eq, !Z.shiftr_div_pow2 by lia.
  change (2 ^ 22) with (4096 * 1024). rewrite <-!Z.div_div by lia. by intros ->.
Qed.

Lemma present_odd e : nz (Z.land e VMM_PRESENT) = Z.odd e.
Proof.
  unfold nz, VMM_PRESENT. change 1 with (Z.ones 1). rewrite Z.land_ones by lia.
  change (2 ^ 1) with 2. rewrite Zmod_odd. by destruct (Z.odd e).
Qed.

Lemma page_mask_eq e : 0 <= e < 0x100000000 → page_mask e = 4096 * (e / 4096).
Proof.
  intros He. unfold page_mask. change (u32 (Z.lnot 0xFFF)) with (Z.shiftl (Z.ones 20) 12).
  transitivity (Z.shiftl (Z.shiftr e 12) 12).
  - apply Z.bits_inj'. intros k Hk. rewrite Z.land_spec, !Z.shiftl_spec by lia.
    destruct (decide (k < 12)).
    + rewrite !(Z.testbit_neg_r _ (k - 12)) by lia. apply andb_false_r.
    + rewrite Z.shiftr_spec by lia. replace (k - 12 + 12) with k by lia.
      destruct (decide (k < 32)).
      * rewrite Z.ones_spec_low by lia. apply andb_true_r.
      * by rewrite word_testbit_high by lia.
  - rewrite Z.shiftl_mul_pow2, Z.shiftr_div_pow2 by lia. change (2 ^ 12) with 4096. lia.
Qed.

Lemma lor_page f k : 0 <= k < 4096 → Z.lor (4096 * f) k = 4096 * f + k.
Proof.
  intros Hk. pose proof (Z.add_lor_land (4096 * f) k).
  assert (Z.land (4096 * f) k = 0); [|lia].
  apply Z.bits_inj_0. intros j. destruct (Z.neg_nonneg_cases j); [by apply Z.testbit_neg_r|].
  rewrite Z.land_spec. change 4096 with (2 ^ 12) in *. rewrite Z.mul_comm.
  destruct (decide (j < 12)).
  - by rewrite Z.mul_pow2_bits_low by lia.
  - rewrite (Z.bits_above_log2 k); [apply andb_false_r|lia|].
    destruct (decide (k = 0)) as [->|]; [simpl; lia|].
    pose proof (proj1 (Z.log2_lt_pow2 k 12 ltac:(lia))). lia.
Qed.

(** The entry that maps frame [f] with [flags]: present, and it points at [f]. *)
Lemma entry_value f flags :
  0 <= f < 0x100000 → 0 <= flags < 4096 →
  let e := Z.lor (Z.lor (4096 * f) flags) VMM_PRESENT in
  0 <= e < 0x100000000 ∧ Z.odd e = true ∧ e / 4096 = f.
Proof.
  intros Hf Hfl e. subst e. unfold VMM_PRESENT. rewrite <-Z.lor_assoc.
  assert (Z.lor flags 1 = flags + 1 - flags mod 2) as Hl.
  { pose proof (Z.add_lor_land flags 1) as Ha. change (Z.land flags 1) with
      (Z.land flags (Z.ones 1)) in Ha. rewrite Z.land_ones in Ha by lia.
    change (2 ^ 1) with 2 in Ha. lia. }
  rewrite Hl, lor_page by zlia. split_and!; [zlia|zlia| |zlia].
  pose proof (Zmod_odd (4096 * f + (flags + 1 - flags mod 2))) as Ho.
  destruct (Z.odd _); [done|]. zlia.
Qed.

(** ** Words of memory *)

Lemma rd_wr m a v b : rd (wr m a v) b = if b =? a then v else rd m b.
Proof.
  unfold rd, wr. destruct (Z.eqb_spec b a) as [->|].
  - by rewrite lookup_insert_eq.
  - by rewrite lookup_insert_ne.
Qed.

Lemma rd_zero_page m f g j :
  0 <= j < 1024 →
  rd (zero_page m (4096 * f)) (ent g j) = if g =? f then 0 else rd m (ent g j).
Proof.
  intros Hj. unfold zero_page.
  pose proof (for_loop_inv (λ i m', ∀ g j, 0 <= j < 1024 →
    rd m' (ent g j) = if (g =? f) && (j <? i) then 0 else rd m (ent g j)) 1024 0
    (λ i m, wr m (4096 * f + 4 * i) 0) m) as Hl.
  rewrite Hl; [|..|done].
  - destruct (Z.eqb_spec g f), (Z.ltb_spec j (0 + Z.of_nat 1024)); simpl; done || lia.
  - clear. intros g j Hj. destruct (Z.ltb_spec j 0); [lia|]. by rewrite andb_false_r.
  - clear. intros k m' Hk Hm' g j Hj. fold (ent f k). rewrite rd_wr, Hm' by done.
    destruct (Z.eqb_spec (ent g j) (ent f k)) as [E|E].
    + apply ent_inj in E as [-> ->]; [|lia..]. rewrite Z.eqb_refl. simpl.
      by destruct (Z.ltb_spec k (k + 1)); [|lia].
    + destruct (Z.eqb_spec g f) as [->|]; simpl; [|done].
      destruct (Z.ltb_spec j k), (Z.ltb_spec j (k + 1)); try done; [lia|].
      assert (j = k) by lia. congruence.
Qed.

(** ** The abstract address space

    [walk m fd v] is the two-level walk from the directory in frame [fd]: the frame that
    virtual address [v] is mapped to, if any. *)

Definition pde (m : gmap Z Z) (fd i : Z) : Z := rd m (ent fd i).

Definition walk (m : gmap Z Z) (fd v : Z) : option Z :=
  let e := pde m fd (pd_index v) in
  if Z.odd e then
    let t := rd m (ent (e / 4096) (pt_index v)) in
    if Z.odd t then Some (t / 4096) else None
  else None.

Section vmm_proofs.
Context {S : Type} `{FrameAllocatorLaws S ok taken managed}.
Implicit Types (st : vmm S) (s : S) (m : gmap Z Z).

(** The directory in frame [fd] is well formed: it and its page tables are frames in use,
    the tables are distinct from each other and from the directory. *)
Record dir_wf (s : S) (m : gmap Z Z) (fd : Z) : Prop := {
  dw_range : 0 < fd < 0x100000;
  dw_taken : taken s fd = true;
  dw_pde : ∀ i, 0 <= i < 1024 → 0 <= pde m fd i < 0x100000000;
  dw_pt : ∀ i, 0 <= i < 1024 → Z.odd (pde m fd i) = true →
    pde m fd i / 4096 ≠ fd ∧ taken s (pde m fd i / 4096) = true ∧
    ∀ j, 0 <= j < 1024 → 0 <= rd m (ent (pde m fd i / 4096) j) < 0x100000000;
  dw_inj : ∀ i j, 0 <= i < 1024 → 0 <= j < 1024 →
    Z.odd (pde m fd i) = true → Z.odd (pde m fd j) = true →
    pde m fd i / 4096 = pde m fd j / 4096 → i = j }.

(** The current directory is the one in frame [fd]. *)
Definition at_dir st (fd : Z) : Prop := current_directory st = P2V (4096 * fd).

Lemma walk_page m fd v w : v / 4096 = w / 4096 → walk m fd v = walk m fd w.
Proof. intros [E1 E2]%page_index. unfold walk. by rewrite E1, E2. Qed.

Lemma get_phys_walk st fd v :
  at_dir st fd → dir_wf (frames st) (mem st) fd → 0 <= v < 0x100000000 →
  vmm_get_phys st v = match walk (mem st) fd v with Some f => 4096 * f | None => 0 end.
Proof.
  unfold at_dir. intros Hd Hwf Hv. pose proof (pd_index_range v Hv). pose proof (pt_index_range v).
  destruct Hwf as [Hr Ht Hpde Hpt Hinj].
  unfold vmm_get_phys, walk. cbv zeta. rewrite Hd, entry_addr_P2V by lia. fold (pde (mem st) fd (pd_index v)).
  specialize (Hpde (pd_index v) ltac:(lia)).
  rewrite present_odd, (page_mask_eq (pde (mem st) fd (pd_index v))) by done.
  destruct (Z.odd (pde (mem st) fd (pd_index v))) eqn:E; simpl; [|done].
  destruct (Hpt (pd_index v) ltac:(lia) E) as (_ & _ & Hw).
  rewrite entry_addr_P2V by zlia. rewrite present_odd.
  destruct (Z.odd (rd _ _)) eqn:E2; simpl; [|done]. by rewrite page_mask_eq by (apply Hw; lia).
Qed.

(** Writing entry [ptx] of the table in frame [f] that PDE [pdx] points to. *)
Lemma dir_wf_write_pte s m fd pdx ptx e :
  dir_wf s m fd → 0 <= pdx < 1024 → 0 <= ptx < 1024 → Z.odd (pde m fd pdx) = true →
  0 <= e < 0x100000000 →
  let m' := wr m (ent (pde m fd pdx / 4096) ptx) e in
  dir_wf s m' fd ∧ (∀ i, 0 <= i < 1024 → pde m' fd i = pde m fd i) ∧
  ∀ v, 0 <= v < 0x100000000 →
    walk m' fd v = if (pd_index v =? pdx) && (pt_index v =? ptx)
                   then (if Z.odd e then Some (e / 4096) else None)
                   else walk m fd v.
Proof.
  intros [Hr Ht Hpde Hpt Hinj] Hpd Hptx Hp He m'.
  destruct (Hpt pdx Hpd Hp) as (Hne & _ & _).
  assert (∀ i, 0 <= i < 1024 → pde m' fd i = pde m fd i) as Hsame.
  { intros i Hi. unfold pde, m'. rewrite rd_wr.
    destruct (Z.eqb_spec (ent fd i) (ent (pde m fd pdx / 4096) ptx)) as [E|]; [|done].
    apply ent_inj in E as [? _]; [congruence|lia..]. }
  split_and!; [|done|].
  - constructor; [done|done| | |].
    + intros i Hi. rewrite Hsame by done. auto.
    + intros i Hi. rewrite Hsame by done. intros Ho. destruct (Hpt i Hi Ho) as (?&?&Hw).
      split_and!; [done|done|]. intros j Hj. unfold m'. rewrite rd_wr.
      destruct (_ =? _); [lia|]. by apply Hw.
    + intros i j Hi Hj. rewrite !Hsame by done. auto.
  - intros v Hv. pose proof (pd_index_range v Hv). pose proof (pt_index_range v).
    unfold walk. rewrite Hsame by lia. destruct (Z.eqb_spec (pd_index v) pdx) as [E|E].
    + rewrite E, Hp. unfold m'. rewrite rd_wr.
      destruct (Z.eqb_spec (pt_index v) ptx) as [E'|E'].
      * rewrite E', Z.eqb_refl. done.
      * destruct (Z.eqb_spec (ent (pde m fd pdx / 4096) (pt_index v))
          (ent (pde m fd pdx / 4096) ptx)) as [E''|]; [|done].
        apply ent_inj in E'' as [_ ?]; [done|lia..].
    + simpl. destruct (Z.odd (pde m fd (pd_index v))) eqn:Ho; [|done].
      unfold m'. rewrite rd_wr.
      destruct (Z.eqb_spec (ent (pde m fd (pd_index v) / 4096) (pt_index v))
        (ent (pde m fd pdx / 4096) ptx)) as [E''|]; [|done].
      apply ent_inj in E'' as [E'' _]; [|lia..].
      exfalso. apply E. eapply Hinj; eauto; lia.
Qed.

(** Installing a fresh, zeroed page table under an absent PDE maps nothing yet. *)
Lemma dir_wf_new_table s s' m fd pdx f flags :
  dir_wf s m fd → 0 <= pdx < 1024 → Z.odd (pde m fd pdx) = false →
  0 < f < 0x100000 → taken s f = false → 0 <= flags < 4096 →
  (∀ g, taken s' g = (g =? f) || taken s g) →
  let m' := wr (zero_page m (4096 * f)) (ent fd pdx)
               (Z.lor (Z.lor (4096 * f) flags) VMM_PRESENT) in
  dir_wf s' m' fd ∧ Z.odd (pde m' fd pdx) = true ∧ pde m' fd pdx / 4096 = f ∧
  ∀ v, 0 <= v < 0x100000000 → walk m' fd v = walk m fd v.
Proof.
  intros [Hr Ht Hpde Hpt Hinj] Hpd Habs Hf Hfree Hfl Hs' m'.
  destruct (entry_value f flags) as (He & Hodd & Hdiv); [lia|done|].
  assert (f ≠ fd) as Hffd by congruence.
  assert (∀ g, taken s g = true → taken s' g = true) as Hmono.
  { intros g Hg. by rewrite Hs', Hg, orb_true_r. }
  assert (∀ i, 0 <= i < 1024 → pde m' fd i =
    if i =? pdx then Z.lor (Z.lor (4096 * f) flags) VMM_PRESENT else pde m fd i) as Hp'.
  { intros i Hi. unfold pde, m'. rewrite rd_wr.
    destruct (Z.eqb_spec (ent fd i) (ent fd pdx)) as [E|E], (Z.eqb_spec i pdx) as [Ei|Ei].
    - done.
    - apply ent_inj in E as [_ ?]; [done|lia..].
    - subst. done.
    - rewrite rd_zero_page by done. by destruct (Z.eqb_spec fd f). }
  assert (∀ g j, g ≠ fd → 0 <= j < 1024 →
    rd m' (ent g j) = if g =? f then 0 else rd m (ent g j)) as Hw'.
  { intros g j Hg Hj. unfold m'. rewrite rd_wr.
    destruct (Z.eqb_spec (ent g j) (ent fd pdx)) as [E|].
    - apply ent_inj in E as [? _]; [done|lia..].
    - by apply rd_zero_page. }
  clearbody m'.
  assert (pde m' fd pdx = Z.lor (Z.lor (4096 * f) flags) VMM_PRESENT) as Hnew
    by (rewrite Hp', Z.eqb_refl by done; done).
  assert (∀ i, 0 <= i < 1024 → i ≠ pdx → pde m' fd i = pde m fd i) as Hold.
  { intros i Hi Hne. rewrite Hp' by done. by destruct (Z.eqb_spec i pdx). }
  assert (∀ i, 0 <= i < 1024 → Z.odd (pde m fd i) = true → pde m fd i / 4096 ≠ f) as Hnf.
  { intros i Hi Ho E. destruct (Hpt i Hi Ho) as (_ & Htk & _). congruence. }
  split_and!; [|by rewrite Hnew|by rewrite Hnew|].
  - constructor; [done|by apply Hmono| | |].
    + intros i Hi. destruct (decide (i = pdx)) as [->|]; [by rewrite Hnew|].
      rewrite Hold by done. auto.
    + intros i Hi Ho. destruct (decide (i = pdx)) as [->|].
      * rewrite Hnew, Hdiv in *. split_and!; [done|by rewrite Hs', Z.eqb_refl|].
        intros j Hj. rewrite Hw' by done. rewrite Z.eqb_refl. lia.
      * rewrite Hold in * by done. destruct (Hpt i Hi Ho) as (?&?&Hb).
        split_and!; [done|by apply Hmono|]. intros j Hj. rewrite Hw' by done.
        destruct (_ =? _); [lia|auto].
    + intros i j Hi Hj Hoi Hoj Heq.
      destruct (decide (i = pdx)) as [->|], (decide (j = pdx)) as [->|]; [done|..].
      * rewrite Hnew, Hold, Hdiv in * by done. by destruct (Hnf j Hj Hoj).
      * rewrite Hnew, Hold, Hdiv in * by done. by destruct (Hnf i Hi Hoi).
      * rewrite !Hold in * by done. eauto.
  - intros v Hv. pose proof (pd_index_range v Hv). pose proof (pt_index_range v). unfold walk.
    destruct (decide (pd_index v = pdx)) as [E|E].
    + rewrite E, Hnew, Hodd, Hdiv, Habs, Hw' by done. by rewrite Z.eqb_refl.
    + rewrite Hold by done. destruct (Z.odd (pde m fd (pd_index v))) eqn:Ho; [|done].
      destruct (Hpt (pd_index v) ltac:(lia) Ho) as (?&?&?). rewrite Hw' by done.
      destruct (Z.eqb_spec (pde m fd (pd_index v) / 4096) f); [|done].
      by destruct (Hnf (pd_index v) ltac:(lia) Ho).
Qed.
(** What a state and its successor share when only one page table changes. *)
Definition same_frame st st' (fd : Z) : Prop :=
  at_dir st' fd ∧ kernel_directory st' = kernel_directory st ∧ cr3 st' = cr3 st ∧
  ok (frames st') ∧ dir_wf (frames st') (mem st') fd ∧
  (∀ g, taken (frames st) g = true → taken (frames st') g = true) ∧
  (∀ g, managed (frames st') g ↔ managed (frames st) g).

Lemma map_page_walk st fd pf virt flags :
  at_dir st fd → ok (frames st) → dir_wf (frames st) (mem st) fd →
  0 <= pf < 0x100000 → 0 <= flags < 4096 → 0 <= virt < 0x100000000 →
  let '(b, st') := vmm_map_page st (4096 * pf) virt flags in
  if b then
    same_frame st st' fd ∧
    ∀ v, 0 <= v < 0x100000000 →
      walk (mem st') fd v =
        if v / 4096 =? virt / 4096 then Some pf else walk (mem st) fd v
  else st' = st ∧ walk (mem st) fd virt = None ∧ (alloc_block (frames st)).1 = 0.
Proof.
  intros Hd Hok Hwf Hpf Hfl Hv. unfold at_dir in Hd.
  pose proof (pd_index_range virt Hv) as Hpd. pose proof (pt_index_range virt) as Hpt.
  pose proof (dw_range _ _ _ Hwf) as Hr. pose proof (dw_pde _ _ _ Hwf _ Hpd) as Hpde.
  destruct (entry_value pf flags Hpf Hfl) as (He & Hodd & Hdiv).
  set (e := Z.lor (Z.lor (4096 * pf) flags) VMM_PRESENT) in *.
  assert (Hidx : ∀ v, 0 <= v < 0x100000000 →
    (pd_index v =? pd_index virt) && (pt_index v =? pt_index virt) =
    (v / 4096 =? virt / 4096)).
  { intros v Hvr. destruct (Z.eqb_spec (v / 4096) (virt / 4096)) as [E|E].
    - destruct (page_index _ _ E) as [-> ->]. by rewrite !Z.eqb_refl.
    - destruct (Z.eqb_spec (pd_index v) (pd_index virt)) as [E1|], 
        (Z.eqb_spec (pt_index v) (pt_index virt)) as [E2|]; try done.
      by destruct (E (index_page _ _ E1 E2)). }
  unfold vmm_map_page. cbv zeta. rewrite Hd, entry_addr_P2V by lia.
  fold (pde (mem st) fd (pd_index virt)). rewrite present_odd, page_mask_eq by done. fold e.
  destruct (Z.odd (pde (mem st) fd (pd_index virt))) eqn:Eo; simpl negb; cbn iota.
  - rewrite entry_addr_P2V by zlia.
    destruct (dir_wf_write_pte (frames st) (mem st) fd (pd_index virt) (pt_index virt) e
      Hwf Hpd Hpt Eo He) as (Hwf' & _ & Hwalk). split.
    { unfold same_frame; simpl; split_and!; done || (unfold at_dir; by simpl). }
    intros v Hvr. simpl. rewrite Hwalk, Hidx, Hodd, Hdiv by done. done.
  - destruct (alloc_block (frames st)) as [a s'] eqn:Ea.
    destruct (Z.eqb_spec a 0) as [->|Ha].
    { split_and!; [|by unfold walk; rewrite Eo|done].
      pose proof (alloc_null (frames st) Hok) as Hn. rewrite Ea in Hn. simpl in Hn.
      rewrite Hn by done. rewrite <-Hd. clear. by destruct st. }
    destruct (alloc_frame _ _ _ Hok Ea Ha) as (f & -> & Hf & _ & Hfree & Hok' & Hm' & Ht').
    rewrite V2P_P2V by lia. rewrite entry_addr_P2V by lia.
    destruct (dir_wf_new_table (frames st) s' (mem st) fd (pd_index virt) f flags
      Hwf Hpd Eo Hf Hfree Hfl Ht') as (Hwf1 & Ho1 & Hd1 & Hw1).
    set (m1 := wr (zero_page _ _) _ _) in *.
    destruct (dir_wf_write_pte s' m1 fd (pd_index virt) (pt_index virt) e Hwf1 Hpd Hpt Ho1 He)
      as (Hwf2 & _ & Hw2). rewrite Hd1 in *. clearbody m1. split.
    { unfold same_frame; simpl; split_and!; try done.
      intros g Hg. by rewrite Ht', Hg, orb_true_r. }
    intros v Hvr. simpl. rewrite Hw2, Hidx, Hodd, Hdiv, Hw1 by done. done.
Qed.

Lemma unmap_page_walk st fd virt :
  at_dir st fd → ok (frames st) → dir_wf (frames st) (mem st) fd → 0 <= virt < 0x100000000 →
  let st' := vmm_unmap_page st virt in
  same_frame st st' fd ∧
  ∀ v, 0 <= v < 0x100000000 →
    walk (mem st') fd v = if v / 4096 =? virt / 4096 then None else walk (mem st) fd v.
Proof.
  intros Hd Hok Hwf Hv st'. subst st'. unfold at_dir in Hd.
  pose proof (pd_index_range virt Hv) as Hpd. pose proof (pt_index_range virt) as Hpt.
  pose proof (dw_range _ _ _ Hwf) as Hr. pose proof (dw_pde _ _ _ Hwf _ Hpd) as Hpde.
  unfold vmm_unmap_page. cbv zeta. rewrite Hd, entry_addr_P2V by lia.
  fold (pde (mem st) fd (pd_index virt)). rewrite present_odd, page_mask_eq by done.
  destruct (Z.odd (pde (mem st) fd (pd_index virt))) eqn:Eo; simpl negb; cbn iota.
  - rewrite entry_addr_P2V by zlia.
    destruct (dir_wf_write_pte (frames st) (mem st) fd (pd_index virt) (pt_index virt) 0
      Hwf Hpd Hpt Eo ltac:(lia)) as (Hwf' & _ & Hwalk). split.
    { unfold same_frame; simpl; split_and!; done || (unfold at_dir; by simpl). }
    intros v Hvr. simpl. rewrite Hwalk by done.
    destruct (Z.eqb_spec (v / 4096) (virt / 4096)) as [E|E].
    + destruct (page_index _ _ E) as [-> ->]. by rewrite !Z.eqb_refl.
    + destruct (Z.eqb_spec (pd_index v) (pd_index virt)) as [E1|], 
        (Z.eqb_spec (pt_index v) (pt_index virt)) as [E2|]; try done.
      by destruct (E (index_page _ _ E1 E2)).
  - split; [unfold same_frame; split_and!; done|]. intros v Hvr.
    destruct (Z.eqb_spec (v / 4096) (virt / 4096)) as [E|E]; [|done].
    destruct (page_index _ _ E) as [E1 _]. unfold walk. by rewrite E1, Eo.
Qed.

Lemma same_frame_refl st fd :
  at_dir st fd → ok (frames st) → dir_wf (frames st) (mem st) fd → same_frame st st fd.
Proof. intros. unfold same_frame. by split_and!. Qed.

Lemma same_frame_trans st1 st2 st3 fd :
  same_frame st1 st2 fd → same_frame st2 st3 fd → same_frame st1 st3 fd.
Proof.
  intros (?&?&?&?&?&Ht1&Hm1) (?&?&?&?&?&Ht2&Hm2). unfold same_frame.
  split_and!; try done; [congruence|congruence|auto|]. intros g. by rewrite Hm2, Hm1.
Qed.

(** *** Mapping a range

    [has_free st]: the allocator still has a frame to hand out. *)
Definition has_free st : Prop := ∃ f, managed (frames st) f ∧ taken (frames st) f = false.

Lemma has_free_mono st st' fd : same_frame st st' fd → has_free st' → has_free st.
Proof.
  intros (_&_&_&_&_&Ht&Hm) (f & Hf & Hfree). exists f. split; [by apply Hm|].
  destruct (taken (frames st) f) eqn:E; [|done]. by rewrite (Ht _ E) in Hfree.
Qed.

Lemma map_range_walk n base st fd :
  at_dir st fd → ok (frames st) → dir_wf (frames st) (mem st) fd →
  0 <= base → base mod 4096 = 0 → base + 4096 * Z.of_nat n <= 0x100000000 →
  let st' := map_range n base st in
  same_frame st st' fd ∧
  (∀ v, 0 <= v < 0x100000000 → ¬ (base <= v < base + 4096 * Z.of_nat n) →
     walk (mem st') fd v = walk (mem st) fd v) ∧
  (has_free st' → ∀ k, 0 <= k < Z.of_nat n → walk (mem st') fd (base + 4096 * k) = Some k).
Proof.
  intros Hd Hok Hwf Hb Hal Hmax. unfold map_range.
  apply (for_loop_inv (λ k st', same_frame st st' fd ∧
    (∀ v, 0 <= v < 0x100000000 → ¬ (base <= v < base + 4096 * k) →
       walk (mem st') fd v = walk (mem st) fd v) ∧
    (has_free st' → ∀ j, 0 <= j < k → walk (mem st') fd (base + 4096 * j) = Some j))
    n 0 (λ k st0, (vmm_map_page st0 (4096 * k) (u32 (base + 4096 * k))
      (Z.lor VMM_PRESENT VMM_WRITABLE)).2) st).
  - split_and!; [by apply same_frame_refl|done|lia].
  - intros k st' Hk (Hsf & Hout & Hin). rewrite u32_small by lia.
    pose proof Hsf as (Hd' & _ & _ & Hok' & Hwf' & _).
    pose proof (map_page_walk st' fd k (base + 4096 * k) (Z.lor VMM_PRESENT VMM_WRITABLE)
      Hd' Hok' Hwf' ltac:(lia) ltac:(by vm_compute) ltac:(lia)) as Hmap.
    destruct (vmm_map_page st' _ _ _) as [[] st''] eqn:E; simpl.
    + destruct Hmap as [Hsf' Hw]. split_and!; [by eapply same_frame_trans| |].
      * intros v Hv Hnin. rewrite Hw by done.
        destruct (Z.eqb_spec (v / 4096) ((base + 4096 * k) / 4096)); [|apply Hout; lia].
        exfalso. apply Hnin. zlia.
      * intros Hf j Hj. rewrite Hw by lia.
        destruct (Z.eqb_spec ((base + 4096 * j) / 4096) ((base + 4096 * k) / 4096)).
        -- f_equal. zlia.
        -- apply Hin; [by eapply has_free_mono|]. enough (j ≠ k) by lia. congruence.
    + destruct Hmap as (-> & Hnone & Hnull). split_and!; [done|intros; apply Hout; lia|].
      intros (f & Hm & Hfree). by destruct (alloc_progress (frames st') f Hok' Hm Hfree).
Qed.

(** Zeroing or filling a fresh frame [f] leaves every existing directory as it is. *)
Lemma dir_wf_fresh s s' m m' fd f :
  dir_wf s m fd → taken s f = false → (∀ g, taken s g = true → taken s' g = true) →
  (∀ g j, g ≠ f → 0 <= j < 1024 → rd m' (ent g j) = rd m (ent g j)) →
  dir_wf s' m' fd ∧ ∀ v, 0 <= v < 0x100000000 → walk m' fd v = walk m fd v.
Proof.
  intros [Hr Ht Hpde Hpt Hinj] Hfree Hmono Hm.
  assert (∀ i, 0 <= i < 1024 → pde m' fd i = pde m fd i) as Hp
    by (intros i Hi; apply Hm; [congruence|done]).
  split.
  - constructor; [done|auto| | |].
    + intros i Hi. rewrite Hp by done. auto.
    + intros i Hi. rewrite Hp by done. intros Ho. destruct (Hpt i Hi Ho) as (?&Htk&Hw).
      split_and!; [done|auto|]. intros j Hj. rewrite Hm by (congruence || done). auto.
    + intros i j Hi Hj. rewrite !Hp by done. auto.
  - intros v Hv. pose proof (pd_index_range v Hv). pose proof (pt_index_range v).
    unfold walk. rewrite Hp by lia. destruct (Z.odd (pde m fd (pd_index v))) eqn:Ho; [|done].
    destruct (Hpt (pd_index v) ltac:(lia) Ho) as (_&Htk&_).
    rewrite Hm by (congruence || lia). done.
Qed.

(** A freshly zeroed directory is well formed and maps nothing. *)
Lemma dir_wf_zeroed s' m f :
  0 < f < 0x100000 → taken s' f = true →
  let m' := zero_page m (4096 * f) in
  dir_wf s' m' f ∧ ∀ v, 0 <= v < 0x100000000 → walk m' f v = None.
Proof.
  intros Hf Ht m'.
  assert (∀ i, 0 <= i < 1024 → pde m' f i = 0) as Hz.
  { intros i Hi. unfold pde, m'. rewrite rd_zero_page by done. by rewrite Z.eqb_refl. }
  clearbody m'. split.
  - constructor; [done|done| | |]; intros i; intros; rewrite Hz in *; done || lia.
  - intros v Hv. unfold walk. by rewrite Hz by (by apply pd_index_range).
Qed.

(** *** Cloning the kernel half *)

Lemma clone_copy m f kd :
  0 <= f < 0x100000 → 0 <= kd < 0x100000 → f ≠ kd →
  let m2 := for_loop 256 768
      (λ i m, wr m (entry_addr (P2V (4096 * f)) i) (rd m (entry_addr (P2V (4096 * kd)) i)))
      (zero_page m (4096 * f)) in
  (∀ g j, g ≠ f → 0 <= j < 1024 → rd m2 (ent g j) = rd m (ent g j)) ∧
  (∀ j, 0 <= j < 1024 → pde m2 f j = if 768 <=? j then pde m kd j else 0).
Proof.
  intros Hf Hkd Hne m2.
  pose proof (for_loop_inv (λ k m',
    (∀ g j, g ≠ f → 0 <= j < 1024 → rd m' (ent g j) = rd m (ent g j)) ∧
    (∀ j, 0 <= j < 1024 → rd m' (ent f j) =
       if (768 <=? j) && (j <? k) then rd m (ent kd j) else 0)) 256 768
    (λ i m, wr m (entry_addr (P2V (4096 * f)) i) (rd m (entry_addr (P2V (4096 * kd)) i)))
    (zero_page m (4096 * f))) as Hl.
  fold m2 in Hl. clearbody m2. destruct Hl as [H1 H2].
  - split.
    + intros g j Hg Hj. rewrite rd_zero_page by done. by destruct (Z.eqb_spec g f).
    + intros j Hj. rewrite rd_zero_page, Z.eqb_refl by done.
      destruct (Z.leb_spec 768 j), (Z.ltb_spec j 768); simpl; done || lia.
  - intros k m' Hk [Ho Hn]. rewrite !entry_addr_P2V by lia. split.
    + intros g j Hg Hj. rewrite rd_wr. destruct (Z.eqb_spec (ent g j) (ent f k)) as [E|]; [|auto].
      apply ent_inj in E as [? _]; [done|lia..].
    + intros j Hj. rewrite rd_wr. destruct (Z.eqb_spec (ent f j) (ent f k)) as [E|E].
      * apply ent_inj in E as [_ ->]; [|lia..]. rewrite Ho by (congruence || lia).
        destruct (Z.leb_spec 768 k), (Z.ltb_spec k (k + 1)); simpl; done || lia.
      * rewrite Hn by done. assert (j ≠ k) by congruence.
        destruct (Z.leb_spec 768 j), (Z.ltb_spec j k), (Z.ltb_spec j (k + 1)); simpl; done || lia.
  - split; [done|]. intros j Hj. unfold pde. rewrite H2 by done.
    destruct (Z.leb_spec 768 j), (Z.ltb_spec j (768 + Z.of_nat 256)); simpl; done || lia.
Qed.

Lemma clone_walk st kd :
  kernel_directory st = P2V (4096 * kd) → ok (frames st) → dir_wf (frames st) (mem st) kd →
  let '(d, st') := vmm_clone_directory st in
  (d = 0 ∧ st' = st) ∨
  ∃ f, d = P2V (4096 * f) ∧ 0 < f < 0x100000 ∧ taken (frames st) f = false ∧ ok (frames st') ∧
    kernel_directory st' = kernel_directory st ∧
    current_directory st' = current_directory st ∧
    dir_wf (frames st') (mem st') f ∧
    (∀ v, 0 <= v < 0x100000000 →
       walk (mem st') f v = if 0xC0000000 <=? v then walk (mem st) kd v else None) ∧
    (∀ fd, dir_wf (frames st) (mem st) fd → dir_wf (frames st') (mem st') fd ∧
       ∀ v, 0 <= v < 0x100000000 → walk (mem st') fd v = walk (mem st) fd v).
Proof.
  intros Hkd Hok Hwf. unfold vmm_clone_directory.
  destruct (alloc_block (frames st)) as [a s'] eqn:Ea.
  destruct (Z.eqb_spec a 0) as [->|Ha].
  { left. split; [done|]. pose proof (alloc_null (frames st) Hok) as Hn. rewrite Ea in Hn.
    simpl in Hn. rewrite Hn by done. clear. by destruct st. }
  destruct (alloc_frame _ _ _ Hok Ea Ha) as (f & -> & Hf & _ & Hfree & Hok' & _ & Ht').
  right. exists f. pose proof (dw_range _ _ _ Hwf) as Hkr.
  assert (f ≠ kd) as Hne by (pose proof (dw_taken _ _ _ Hwf); congruence).
  cbv zeta. rewrite V2P_P2V by lia. rewrite Hkd.
  destruct (clone_copy (mem st) f kd ltac:(lia) ltac:(lia) Hne) as [Hother Hnew].
  set (m2 := for_loop 256 768 _ _) in *. clearbody m2. simpl.
  assert (∀ g, taken (frames st) g = true → taken s' g = true) as Hmono.
  { intros g Hg. by rewrite Ht', Hg, orb_true_r. }
  assert (∀ fd, dir_wf (frames st) (mem st) fd → dir_wf s' m2 fd ∧
    ∀ v, 0 <= v < 0x100000000 → walk m2 fd v = walk (mem st) fd v) as Hfresh
    by (intros fd Hfd; by apply (dir_wf_fresh (frames st) s' (mem st) m2 fd f)).
  pose proof Hwf as [_ _ Hpde Hpt Hinj].
  split_and!; try done; [lia|lia| |].
  - constructor; [done|by rewrite Ht', Z.eqb_refl| | |].
    + intros i Hi. rewrite Hnew by done. destruct (768 <=? i); [auto|lia].
    + intros i Hi. rewrite Hnew by done. destruct (768 <=? i); [|done]. intros Ho.
      destruct (Hpt i Hi Ho) as (_ & Htk & Hw). split_and!; [congruence|auto|].
      intros j Hj. rewrite Hother by (congruence || done). auto.
    + intros i j Hi Hj. rewrite !Hnew by done.
      destruct (768 <=? i), (768 <=? j); try done. auto.
  - intros v Hv. pose proof (pd_index_range v Hv). pose proof (pt_index_range v).
    unfold walk. rewrite Hnew by done.
    assert ((768 <=? pd_index v) = (0xC0000000 <=? v)) as ->.
    { unfold pd_index. rewrite Z.shiftr_div_pow2 by lia. change (2 ^ 22) with 4194304.
      destruct (Z.leb_spec 768 (v / 4194304)), (Z.leb_spec 0xC0000000 v); try done; zlia. }
    destruct (0xC0000000 <=? v); [|done].
    destruct (Z.odd (pde (mem st) kd (pd_index v))) eqn:Ho; [|done].
    destruct (Hpt (pd_index v) ltac:(lia) Ho) as (_ & Htk & _).
    rewrite Hother by (congruence || lia). done.
Qed.

(** *** Releasing a directory *)

Definition user_table m (fd k g : Z) : Prop :=
  ∃ i, 0 <= i < k ∧ Z.odd (pde m fd i) = true ∧ pde m fd i / 4096 = g.

Lemma user_table_step m fd k g :
  0 <= k → user_table m fd (k + 1) g ↔
  user_table m fd k g ∨ (Z.odd (pde m fd k) = true ∧ pde m fd k / 4096 = g).
Proof.
  intros Hk. split.
  - intros (i & Hi & Ho & Hg). destruct (decide (i = k)) as [->|]; [by right|].
    left. exists i. split; [lia|done].
  - intros [(i & Hi & Ho & Hg)|[Ho Hg]]; [exists i|exists k]; split_and!; done || lia.
Qed.

Lemma free_tables_loop st fd :
  ok (frames st) → dir_wf (frames st) (mem st) fd →
  (∀ g, user_table (mem st) fd 768 g → managed (frames st) g ∧ g ≠ 0) →
  let s1 := for_loop 768 0
      (λ i s, let e := rd (mem st) (entry_addr (P2V (4096 * fd)) i) in
              if nz (Z.land e VMM_PRESENT) then free_block s (page_mask e) else s)
      (frames st) in
  ok s1 ∧ (∀ g, managed s1 g ↔ managed (frames st) g) ∧
  (∀ g, user_table (mem st) fd 768 g → taken s1 g = false) ∧
  (∀ g, ¬ user_table (mem st) fd 768 g → taken s1 g = taken (frames st) g).
Proof.
  intros Hok Hwf Hman.
  apply (for_loop_inv (λ k s, ok s ∧ (∀ g, managed s g ↔ managed (frames st) g) ∧
    (∀ g, user_table (mem st) fd k g → taken s g = false) ∧
    (∀ g, ¬ user_table (mem st) fd k g → taken s g = taken (frames st) g)) 768 0).
  - split_and!; [done|done| |done]. intros g (i & ? & _). lia.
  - intros k s Hk (Hs & Hm & Hin & Hout). destruct Hwf as [Hr _ Hpde Hpt _].
    cbv zeta. rewrite entry_addr_P2V by lia. fold (pde (mem st) fd k).
    rewrite present_odd, page_mask_eq by (apply Hpde; lia).
    destruct (Z.odd (pde (mem st) fd k)) eqn:Ho.
    + destruct (Hman (pde (mem st) fd k / 4096)) as [Hmg Hnz].
      { exists k. split_and!; done || lia. }
      destruct (free_frame s (pde (mem st) fd k / 4096) Hs) as (Hs' & Hm' & Ht');
        [by apply Hm|done|]. split_and!; [done|intros g; by rewrite Hm', Hm| |].
      * intros g Hg. rewrite Ht'. destruct (Z.eqb_spec g (pde (mem st) fd k / 4096)); [done|].
        apply user_table_step in Hg as [?|[_ ?]]; [auto|congruence|lia].
      * intros g Hg. rewrite user_table_step in Hg by lia. rewrite Ht'.
        destruct (Z.eqb_spec g (pde (mem st) fd k / 4096)) as [->|]; [|naive_solver].
        by destruct Hg; right.
    + split_and!; [done|done| |]; intros g Hg; rewrite user_table_step in Hg by lia.
      * destruct Hg as [?|[? _]]; [auto|congruence].
      * apply Hout. tauto.
Qed.

(** C3: [vmm_map_page] on success makes the page resolve to the given frame and leaves
    the translation of every other page alone, preserving the well-formedness of the
    directory; it fails only when a page table is needed and no frame is left, and then
    changes nothing. *)
Theorem vmm_map_page_correct st fd pf virt flags :
  at_dir st fd → ok (frames st) → dir_wf (frames st) (mem st) fd →
  0 <= pf < 0x100000 → 0 <= flags < 4096 → 0 <= virt < 0x100000000 →
  let '(b, st') := vmm_map_page st (4096 * pf) virt flags in
  if b then
    at_dir st' fd ∧ ok (frames st') ∧ dir_wf (frames st') (mem st') fd ∧
    ∀ v, 0 <= v < 0x100000000 →
      vmm_get_phys st' v =
        if v / 4096 =? virt / 4096 then 4096 * pf else vmm_get_phys st v
  else st' = st ∧ vmm_get_phys st virt = 0 ∧
       ∀ f, managed (frames st) f → taken (frames st) f = true.
Proof.
  intros Hd Hok Hwf Hpf Hfl Hv.
  pose proof (map_page_walk st fd pf virt flags Hd Hok Hwf Hpf Hfl Hv) as Hm.
  destruct (vmm_map_page st (4096 * pf) virt flags) as [[] st'].
  - destruct Hm as [(Hd' & _ & _ & Hok' & Hwf' & _ & _) Hw]. split_and!; try done.
    intros v Hvr. rewrite (get_phys_walk st' fd), (get_phys_walk st fd), Hw by done.
    by destruct (v / 4096 =? virt / 4096).
  - destruct Hm as (-> & Hnone & Hnull). split_and!; [done| |].
    + by rewrite (get_phys_walk st fd), Hnone.
    + intros f Hmf. destruct (taken (frames st) f) eqn:E; [done|].
      by destruct (alloc_progress (frames st) f Hok Hmf E).
Qed.

(** After [vmm_unmap_page] the page resolves to NULL and every other page as
    before. *)
Theorem vmm_unmap_page_correct st fd virt :
  at_dir st fd → ok (frames st) → dir_wf (frames st) (mem st) fd → 0 <= virt < 0x100000000 →
  let st' := vmm_unmap_page st virt in
  dir_wf (frames st') (mem st') fd ∧
  ∀ v, 0 <= v < 0x100000000 →
    vmm_get_phys st' v = if v / 4096 =? virt / 4096 then 0 else vmm_get_phys st v.
Proof.
  intros Hd Hok Hwf Hv. pose proof (unmap_page_walk st fd virt Hd Hok Hwf Hv) as Hu.
  cbv zeta in *. set (st' := vmm_unmap_page st virt) in *.
  destruct Hu as [(Hd' & _ & _ & Hok' & Hwf' & _ & _) Hw]. split; [done|].
  intros v Hvr. rewrite (get_phys_walk st' fd), (get_phys_walk st fd), Hw by done.
  by destruct (v / 4096 =? virt / 4096).
Qed.

(** [vmm_clone_directory] yields a fresh directory that shares every kernel mapping
    (0xC0000000 and up), maps nothing below, and disturbs no existing address space. *)
Theorem vmm_clone_shares_kernel st kd :
  kernel_directory st = P2V (4096 * kd) → ok (frames st) → dir_wf (frames st) (mem st) kd →
  let '(d, st') := vmm_clone_directory st in
  (d = 0 ∧ st' = st) ∨
  ∃ f, d = P2V (4096 * f) ∧ taken (frames st) f = false ∧ dir_wf (frames st') (mem st') f ∧
    (∀ v, 0 <= v < 0x100000000 →
       vmm_get_phys (vmm_switch_directory st' (V2P d)) v =
         if 0xC0000000 <=? v
         then vmm_get_phys (vmm_switch_directory st (4096 * kd)) v else 0) ∧
    (∀ fd v, dir_wf (frames st) (mem st) fd → 0 <= v < 0x100000000 →
       vmm_get_phys (vmm_switch_directory st' (4096 * fd)) v =
       vmm_get_phys (vmm_switch_directory st (4096 * fd)) v).
Proof.
  intros Hkd Hok Hwf. pose proof (clone_walk st kd Hkd Hok Hwf) as Hc.
  destruct (vmm_clone_directory st) as [d st'].
  destruct Hc as [?|(f & -> & Hf & Hfree & Hok' & _ & _ & Hwf' & Hw & Hold)]; [by left|right].
  exists f. rewrite V2P_P2V by lia. split_and!; try done.
  - intros v Hv. rewrite (get_phys_walk (vmm_switch_directory st' _) f),
      (get_phys_walk (vmm_switch_directory st _) kd) by done. simpl.
    rewrite Hw by done. by destruct (0xC0000000 <=? v).
  - intros fd v Hfd Hv. destruct (Hold fd Hfd) as [Hfd' Hsame].
    rewrite (get_phys_walk (vmm_switch_directory st' _) fd),
      (get_phys_walk (vmm_switch_directory st _) fd) by done. simpl. by rewrite Hsame.
Qed.

(** [vmm_free_directory] gives back exactly the directory's frame and the frames of
    its user page tables (the first 768 entries). *)
Theorem vmm_free_directory_releases st fd :
  ok (frames st) → dir_wf (frames st) (mem st) fd → managed (frames st) fd →
  (∀ g, user_table (mem st) fd 768 g → managed (frames st) g ∧ g ≠ 0) →
  let st' := vmm_free_directory st (4096 * fd) in
  ok (frames st') ∧
  (∀ g, user_table (mem st) fd 768 g ∨ g = fd → taken (frames st') g = false) ∧
  (∀ g, ¬ user_table (mem st) fd 768 g → g ≠ fd → taken (frames st') g = taken (frames st) g).
Proof.
  intros Hok Hwf Hmd Hman. pose proof (dw_range _ _ _ Hwf) as Hr.
  pose proof (free_tables_loop st fd Hok Hwf Hman) as Hl. unfold vmm_free_directory.
  destruct (Z.eqb_spec (4096 * fd) 0); [lia|]. cbv zeta in *.
  set (s1 := for_loop 768 0 _ _) in *. clearbody s1. simpl.
  destruct Hl as (Hs1 & Hm1 & Hin & Hout).
  destruct (free_frame s1 fd Hs1) as (Hs' & _ & Ht'); [by apply Hm1|lia|].
  split_and!; [done| |].
  - intros g Hg. rewrite Ht'. destruct (Z.eqb_spec g fd); [done|]. destruct Hg; [auto|done].
  - intros g Hg Hne. rewrite Ht'. destruct (Z.eqb_spec g fd); [done|]. auto.
Qed.

(** The two mapping loops of [vmm_init], for [n1] and [n2] pages. *)
Lemma init_ranges n1 n2 st1 f :
  at_dir st1 f → kernel_directory st1 = P2V (4096 * f) → ok (frames st1) →
  dir_wf (frames st1) (mem st1) f →
  4096 * Z.of_nat n1 <= 0xC0000000 → 0xC0000000 + 4096 * Z.of_nat n2 <= 0x100000000 →
  let st3 := map_range n2 KERNEL_VIRT_BASE (map_range n1 0 st1) in
  at_dir st3 f ∧ kernel_directory st3 = P2V (4096 * f) ∧ ok (frames st3) ∧
  dir_wf (frames st3) (mem st3) f ∧
  (has_free st3 →
    (∀ v, 0 <= v < 4096 * Z.of_nat n1 → vmm_get_phys st3 v = 4096 * (v / 4096)) ∧
    (∀ p, 0 <= p < 4096 * Z.of_nat n2 →
       vmm_get_phys st3 (KERNEL_VIRT_BASE + p) = 4096 * (p / 4096))).
Proof.
  intros Hd1 Hk1 Hok1 Hwf1 Hn1 Hn2. unfold KERNEL_VIRT_BASE.
  destruct (map_range_walk n1 0 st1 f) as (Hs2 & Ho2 & Hin2); [done|done|done|lia|done|lia|].
  pose proof Hs2 as (Hd2 & Hk2 & _ & Hok2 & Hwf2 & _). set (st2 := map_range n1 0 st1) in *.
  destruct (map_range_walk n2 0xC0000000 st2 f) as (Hs3 & Ho3 & Hin3);
    [done|done|done|lia|done|lia|].
  pose proof Hs3 as (Hd3 & Hk3 & _ & Hok3 & Hwf3 & _). cbv zeta. split_and!; try done.
  { congruence. }
  intros Hfr. assert (has_free st2) as Hfr2 by (by eapply has_free_mono). split.
  - intros v Hv. rewrite (get_phys_walk _ f), Ho3 by (done || lia).
    rewrite (walk_page _ _ v (0 + 4096 * (v / 4096))) by zlia. by rewrite Hin2 by (done || zlia).
  - intros p Hp. rewrite (get_phys_walk _ f) by (done || lia).
    rewrite (walk_page _ _ _ (0xC0000000 + 4096 * (p / 4096))) by zlia.
    by rewrite Hin3 by (done || zlia).
Qed.

Lemma get_phys_switch st fd v :
  at_dir st fd → vmm_get_phys (vmm_switch_directory st (4096 * fd)) v = vmm_get_phys st v.
Proof. unfold at_dir. intros Hd. unfold vmm_get_phys. simpl. by rewrite Hd. Qed.

(** When [vmm_init] returns true the new directory is well formed and loaded in CR3,
    and, unless physical memory ran out on the way, the first megabyte is identity
    mapped and the first 128 MiB appear at KERNEL_VIRT_BASE; it returns false only when
    no frame is left for the directory. *)
Theorem vmm_init_maps st :
  ok (frames st) →
  let '(b, st') := vmm_init st in
  if b then
    ∃ fd, cr3 st' = 4096 * fd ∧ at_dir st' fd ∧ kernel_directory st' = P2V (4096 * fd) ∧
      ok (frames st') ∧ dir_wf (frames st') (mem st') fd ∧
      (has_free st' →
        (∀ v, 0 <= v < 0x100000 → vmm_get_phys st' v = 4096 * (v / 4096)) ∧
        (∀ p, 0 <= p < 0x8000000 →
           vmm_get_phys st' (KERNEL_VIRT_BASE + p) = 4096 * (p / 4096)))
  else ∀ f, managed (frames st) f → taken (frames st) f = true.
Proof.
  intros Hok. unfold vmm_init. destruct (alloc_block (frames st)) as [a s'] eqn:Ea.
  destruct (Z.eqb_spec a 0) as [->|Ha].
  { intros f Hmf. destruct (taken (frames st) f) eqn:E; [done|].
    destruct (alloc_progress (frames st) f Hok Hmf E). by rewrite Ea. }
  destruct (alloc_frame _ _ _ Hok Ea Ha) as (f & -> & Hf & _ & Hfree & Hok' & _ & Ht').
  exists f. cbv zeta. rewrite V2P_P2V by lia.
  destruct (dir_wf_zeroed s' (mem st) f Hf) as [Hwf1 _]; [by rewrite Ht', Z.eqb_refl|].
  assert (Z.of_nat (Z.to_nat (0x100000 / 4096)) = 256) as Hn1 by (apply Z2Nat.id; lia).
  assert (Z.of_nat (Z.to_nat (0x8000000 / 4096)) = 32768) as Hn2 by (apply Z2Nat.id; lia).
  revert Hn1 Hn2. generalize (Z.to_nat (0x100000 / 4096)) (Z.to_nat (0x8000000 / 4096)).
  intros n1 n2 Hn1 Hn2. generalize dependent (zero_page (mem st) (4096 * f)). intros m1 Hwf1.
  destruct (init_ranges n1 n2 (mk_vmm s' m1 (P2V (4096 * f)) (P2V (4096 * f)) (cr3 st)) f)
    as (Hd3 & Hk3 & Hok3 & Hwf3 & Hmap); [done..|lia|lia|].
  generalize dependent (map_range n2 KERNEL_VIRT_BASE
    (map_range n1 0 (mk_vmm s' m1 (P2V (4096 * f)) (P2V (4096 * f)) (cr3 st)))).
  intros st3 Hd3 Hk3 Hok3 Hwf3 Hmap. split_and!; try done.
  intros Hfr. destruct Hmap as [Hlow Hhigh]; [done|]. split.
  - intros v Hv. rewrite get_phys_switch by done. apply Hlow. lia.
  - intros p Hp. rewrite get_phys_switch by done. apply Hhigh. lia.
Qed.

End vmm_proofs.

(** ** Witnesses, with the bitmap allocator of pmm.c *)

(** A directory in frame 1 of a machine with 64 frames. *)
Definition demo_vmm : vmm pmm :=
  mk_vmm (pmm_alloc_block demo_pmm).2 (zero_page ∅ (4096 * 1))
    (P2V (4096 * 1)) (P2V (4096 * 1)) (4096 * 1).

Lemma demo_vmm_ok :
  at_dir demo_vmm 1 ∧ pmm_ok (frames demo_vmm) ∧
  dir_wf (taken := pmm_taken) (frames demo_vmm) (mem demo_vmm) 1.
Proof.
  assert (pmm_alloc_block demo_pmm = (4096, (pmm_alloc_block demo_pmm).2)) as Ha
    by (by vm_compute).
  destruct (alloc_frame (H:=pmm_ops) demo_pmm _ _ demo_pmm_ok Ha) as (f & Hf & _ & _ & _ & Hok & _ & Ht);
    [done|]. assert (f = 1) as -> by lia.
  split_and!; [done|done|]. apply dir_wf_zeroed; [lia|]. by rewrite Ht.
Qed.

Lemma vmm_map_page_correct_witness :
  vmm_get_phys (vmm_map_page demo_vmm (4096 * 5) 0x400123 7).2 0x400FFF = 4096 * 5.
Proof.
  destruct demo_vmm_ok as (Hd & Hok & Hwf).
  pose proof (vmm_map_page_correct demo_vmm 1 5 0x400123 7 Hd Hok Hwf
    ltac:(lia) ltac:(lia) ltac:(lia)) as H.
  assert ((vmm_map_page demo_vmm (4096 * 5) 0x400123 7).1 = true) as Hb by (by vm_compute).
  destruct (vmm_map_page demo_vmm (4096 * 5) 0x400123 7) as [b st']. simpl in Hb. subst b.
  destruct H as (_ & _ & _ & H). simpl. rewrite H by lia. done.
Defined.

Lemma vmm_unmap_page_correct_witness :
  vmm_get_phys (vmm_unmap_page demo_vmm 0x400123) 0x400FFF = 0.
Proof.
  destruct demo_vmm_ok as (Hd & Hok & Hwf).
  destruct (vmm_unmap_page_correct (managed := pmm_managed) demo_vmm 1 0x400123 Hd Hok Hwf ltac:(lia)) as [_ H].
  rewrite H by lia. done.
Defined.

Lemma vmm_clone_shares_kernel_witness :
  ∃ d st', vmm_clone_directory demo_vmm = (d, st') ∧ d = P2V 8192 ∧
    vmm_get_phys (vmm_switch_directory st' (V2P d)) 0x1000 = 0.
Proof.
  destruct demo_vmm_ok as (Hd & Hok & Hwf).
  pose proof (vmm_clone_shares_kernel (managed := pmm_managed) demo_vmm 1 eq_refl Hok Hwf) as H.
  assert ((vmm_clone_directory demo_vmm).1 = P2V 8192) as Hb by (by vm_compute).
  destruct (vmm_clone_directory demo_vmm) as [d st']. simpl in Hb.
  exists d, st'. split_and!; [done|done|].
  destruct H as [[H0 _]|(f & _ & _ & _ & H & _)].
  - rewrite Hb in H0. by vm_compute in H0.
  - rewrite H by lia. done.
Defined.

Lemma vmm_free_directory_releases_witness :
  pmm_taken (frames demo_vmm) 1 = true ∧
  pmm_taken (frames (vmm_free_directory demo_vmm (4096 * 1))) 1 = false.
Proof.
  destruct demo_vmm_ok as (Hd & Hok & Hwf). split; [by vm_compute|].
  destruct (vmm_free_directory_releases (ok := pmm_ok) demo_vmm 1 Hok Hwf) as (_ & Hin & _).
  - by split; vm_compute.
  - intros g (i & Hi & Ho & _). exfalso. unfold pde in Ho. simpl mem in Ho.
    rewrite rd_zero_page in Ho by lia. done.
  - apply Hin. by right.
Defined.

(** A machine with 144 MiB: 36864 frames, the first megabyte reserved. *)
Definition demo_pmm_144 : pmm :=
  mk_pmm (replicate 32 0xFF ++ replicate 4576 0) 36864 256.
Definition demo_boot : vmm pmm := mk_vmm demo_pmm_144 ∅ 0 0 0.

Lemma vmm_init_maps_witness :
  (vmm_init demo_boot).1 = true ∧
  vmm_get_phys (vmm_init demo_boot).2 0xB8000 = 0xB8000 ∧
  vmm_get_phys (vmm_init demo_boot).2 0xC0500000 = 0x500000.
Proof.
  assert (pmm_ok demo_pmm_144) as Hok.
  { split; [constructor|]; [|by vm_compute..].
    apply Forall_app; split; apply Forall_replicate; lia. }
  pose proof (vmm_init_maps demo_boot Hok) as H.
  assert ((let '(b, st') := vmm_init demo_boot in (b, pmm_taken (frames st') 36000))
    = (true, false)) as Hb by (by vm_compute).
  destruct (vmm_init demo_boot) as [b st']. simpl in Hb. assert (b = true) as -> by congruence.
  destruct H as (fd & _ & _ & _ & _ & _ & H). destruct H as [Hlow Hhigh].
  { exists 36000. split; [|by injection Hb]. apply pmm_taken_free. by injection Hb. }
  split_and!; [done|rewrite Hlow by lia; done|].
  change 0xC0500000 with (KERNEL_VIRT_BASE + 0x500000). simpl snd. rewrite Hhigh by lia. done.
Defined.
