(* ===== verification/Ahci.v ===== *)
(** * drivers/block/ahci.c: the SATA driver

    The controller's registers are reached by [reg_rd] and [reg_wr]; command lists, command
    tables and data buffers lie in physical memory, which the controller reads and writes
    too, so a register access may change it.  The kernel's view of memory is the higher half
    ([P2V], [V2P] of Vmm.v).  [sata] is a concrete controller port with a disk: a command
    issued through CI is carried out after some polls, with the sector count of the FIS and
    the regions of the PRDT.

    The theorem says what a read or write transfers; it is everything that was asked for up
    to 16 sectors.  The messages are left out. *)

From S2P Require Import Prelude KString Block Pmm Vmm.

Definition HBA_PxCMD_ST : Z := 0x0001.
Definition HBA_PxCMD_FRE : Z := 0x0010.
Definition HBA_PxCMD_FR : Z := 0x4000.
Definition HBA_PxCMD_CR : Z := 0x8000.
Definition SATA_SIG_ATAPI : Z := 0xEB140101.
Definition SATA_SIG_SEMB : Z := 0xC33C0101.
Definition SATA_SIG_PM : Z := 0x96690101.
Definition AHCI_DEV_NULL : Z := 0.
Definition AHCI_DEV_SATA : Z := 1.
Definition AHCI_DEV_SATAPI : Z := 2.
Definition AHCI_DEV_SEMB : Z := 3.
Definition AHCI_DEV_PM : Z := 4.
Definition HBA_PORT_DET_PRESENT : Z := 3.
Definition HBA_PORT_IPM_ACTIVE : Z := 1.

(** The offsets in [hba_port_t] and [hba_mem_t]. *)
Definition CLB : Z := 0x00.
Definition CLBU : Z := 0x04.
Definition FB : Z := 0x08.
Definition FBU : Z := 0x0C.
Definition IS : Z := 0x10.
Definition CMD : Z := 0x18.
Definition TFD : Z := 0x20.
Definition SIG : Z := 0x24.
Definition SSTS : Z := 0x28.
Definition SACT : Z := 0x34.
Definition CI : Z := 0x38.
Definition GHC : Z := 0x04.
Definition PI : Z := 0x0C.
Definition port_addr (abar i : Z) : Z := abar + 0x100 + 0x80 * i.

(** A controller and the memory it shares with the processor. *)
Definition hba (D : Type) : Type := D * gmap Z Z.
Class Hba (D : Type) := {
  reg_rd : hba D → Z → Z * hba D;
  reg_wr : hba D → Z → Z → hba D }.

(** ** Memory *)

Definition peek (m : gmap Z Z) (a n : Z) : list Z := rd m <$> seqZ a n.
Definition poke (m : gmap Z Z) (a : Z) (l : list Z) : gmap Z Z :=
  for_loop (length l) 0 (λ k m, wr m (a + k) (l.[k])) m.

Section ahci.
Context {D : Type} `{Hba D}.
Implicit Types st : hba D.

(** Accesses through a pointer [v] of the higher half. *)
Definition get (n : nat) st (v : Z) : Z := le_num (peek st.2 (V2P v) (Z.of_nat n)).
Definition put (n : nat) st (v x : Z) : hba D := (st.1, poke st.2 (V2P v) (le_bytes n x)).
Definition zero_mem st (v n : Z) : hba D := (st.1, poke st.2 (V2P v) (replicate (Z.to_nat n) 0)).

Definition check_port_type st (port : Z) : Z * hba D :=
  let '(ssts, st) := reg_rd st (port + SSTS) in
  let ipm := Z.land (Z.shiftr ssts 8) 0x0F in
  let det := Z.land ssts 0x0F in
  if negb (det =? HBA_PORT_DET_PRESENT) || negb (ipm =? HBA_PORT_IPM_ACTIVE) then (AHCI_DEV_NULL, st)
  else
    let '(sig, st) := reg_rd st (port + SIG) in
    (if sig =? SATA_SIG_ATAPI then AHCI_DEV_SATAPI
     else if sig =? SATA_SIG_SEMB then AHCI_DEV_SEMB
     else if sig =? SATA_SIG_PM then AHCI_DEV_PM
     else AHCI_DEV_SATA, st).

(** [while ((port->cmd & CR) && timeout-- > 0);]: the value of [timeout] afterwards. *)
Fixpoint start_wait (t : nat) st (port : Z) : Z * hba D :=
  let '(v, st) := reg_rd st (port + CMD) in
  if nz (Z.land v HBA_PxCMD_CR) then match t with O => (-1, st) | S t' => start_wait t' st port end
  else (Z.of_nat t, st).

(** [port->cmd |= mask] and [port->cmd &= ~mask] *)
Definition cmd_or st (port mask : Z) : hba D :=
  let '(v, st) := reg_rd st (port + CMD) in reg_wr st (port + CMD) (Z.lor v mask).
Definition cmd_clear st (port mask : Z) : hba D :=
  let '(v, st) := reg_rd st (port + CMD) in reg_wr st (port + CMD) (Z.ldiff v mask).

Definition port_start st (port : Z) : hba D :=
  let '(timeout, st) := start_wait (Z.to_nat 500000) st port in
  if timeout <=? 0 then st
  else cmd_or (cmd_or st port HBA_PxCMD_FRE) port HBA_PxCMD_ST.

Fixpoint stop_wait (t : nat) st (port : Z) : hba D :=
  match t with
  | O => st
  | S t' =>
      let '(v, st) := reg_rd st (port + CMD) in
      if nz (Z.land v HBA_PxCMD_FR) then stop_wait t' st port
      else
        let '(v, st) := reg_rd st (port + CMD) in
        if nz (Z.land v HBA_PxCMD_CR) then stop_wait t' st port else st
  end.

Definition port_stop st (port : Z) : hba D :=
  stop_wait (Z.to_nat 500000) (cmd_clear (cmd_clear st port HBA_PxCMD_ST) port HBA_PxCMD_FRE) port.

(** The first clear bit of [slots], or -1. *)
Definition find_cmdslot st (port : Z) : Z * hba D :=
  let '(sact, st) := reg_rd st (port + SACT) in
  let '(ci, st) := reg_rd st (port + CI) in
  let slots := Z.lor sact ci in
  (default (-1) (zfind (λ i, negb (Z.testbit slots i)) 0 32), st).

(** The fields of [hba_cmd_header_t], [hba_cmd_tbl_t] and [hba_prdt_entry_t]. *)
Definition sizeof_cmd_header : Z := 32.
Definition sizeof_cmd_tbl : Z := 128.
Definition sizeof_prdt_entry : Z := 16.

(** [cfl = 5; w = write; prdtl = (count - 1) / 16 + 1] *)
Definition fill_header st (hdr : Z) (write : bool) (count : Z) : hba D :=
  let st := put 1 st hdr (Z.lor (Z.ldiff (get 1 st hdr) 0x1F) 5) in
  let st := put 1 st hdr (Z.lor (Z.ldiff (get 1 st hdr) 0x40) (if write then 0x40 else 0)) in
  put 2 st (hdr + 2) (u16 (u16 (Z.shiftr (u32 (count - 1)) 4) + 1)).

(** [prdt[i].dba = buf - 0xC0000000; prdt[i].dbc = dbc; prdt[i].i = 1] *)
Definition fill_prdt st (e buf dbc : Z) : hba D :=
  let st := put 4 st e (V2P buf) in
  let st := put 4 st (e + 12) (Z.lor (Z.ldiff (get 4 st (e + 12)) 0x3FFFFF) (Z.land dbc 0x3FFFFF)) in
  put 4 st (e + 12) (Z.lor (get 4 st (e + 12)) 0x80000000).

(** The PRDT loop: [n] entries of 8 KiB. *)
Definition prdt_loop st (prdt : Z) (n : nat) (buf count : Z) : hba D * Z * Z :=
  for_loop n 0
    (λ i '(st, buf, count), (fill_prdt st (prdt + 16 * i) buf (8192 - 1), u32 (buf + 8192), u32 (count - 16)))
    (st, buf, count).

(** The loop and the last entry, with what is left of the sector count. *)
Definition fill_prdts st (prdt : Z) (n : nat) (buf count : Z) : hba D * Z :=
  let '(st, buf, count) := prdt_loop st prdt n buf count in
  (fill_prdt st (prdt + 16 * Z.of_nat n) buf (u32 (u32 (count * 512) - 1)), count).

(** The command FIS; [count] is what is left of the sector count after the PRDT loop. *)
Definition fill_fis st (fis command start_lba count : Z) : hba D :=
  let st := put 1 st fis 0x27 in
  let st := put 1 st (fis + 1) (Z.lor (get 1 st (fis + 1)) 0x80) in
  let st := put 1 st (fis + 2) command in
  let st := put 1 st (fis + 4) (u8 start_lba) in
  let st := put 1 st (fis + 5) (u8 (Z.shiftr start_lba 8)) in
  let st := put 1 st (fis + 6) (u8 (Z.shiftr start_lba 16)) in
  let st := put 1 st (fis + 7) (Z.shiftl 1 6) in
  let st := put 1 st (fis + 8) (u8 (Z.shiftr start_lba 24)) in
  let st := put 1 st (fis + 9) 0 in
  let st := put 1 st (fis + 10) 0 in
  let st := put 1 st (fis + 12) (u8 count) in
  put 1 st (fis + 13) (u8 (Z.shiftr count 8)).

(** Everything up to the command FIS. *)
Definition fill_command st (port slot : Z) (write : bool) (command start_lba count buf : Z) : hba D :=
  let '(clb, st) := reg_rd st (port + CLB) in
  let hdr := u32 (P2V clb + sizeof_cmd_header * slot) in
  let st := fill_header st hdr write count in
  let cmdtbl := P2V (get 4 st (hdr + 8)) in
  let prdtl := get 2 st (hdr + 2) in
  let st := zero_mem st cmdtbl (sizeof_cmd_tbl + prdtl * sizeof_prdt_entry) in
  let '(st, count) := fill_prdts st (cmdtbl + sizeof_cmd_tbl) (Z.to_nat (prdtl - 1)) buf count in
  fill_fis st cmdtbl command start_lba count.

(** [while ((port->tfd & 0x88) && spin < 1000000) spin++]; [t] is [1000000 - spin]. *)
Fixpoint ready_wait (t : nat) st (port : Z) : nat * hba D :=
  let '(v, st) := reg_rd st (port + TFD) in
  if nz (Z.land v (Z.lor 0x80 0x08)) then match t with O => (O, st) | S t' => ready_wait t' st port end
  else (t, st).

(** The completion loop: [None] is a task file error, otherwise [cmpl_timeout] afterwards. *)
Fixpoint done_wait (t : nat) st (port slot : Z) : option Z * hba D :=
  match t with
  | O => (Some (-1), st)
  | S t' =>
      let '(ci, st) := reg_rd st (port + CI) in
      if negb (nz (Z.land ci (Z.shiftl 1 slot))) then (Some (Z.of_nat t'), st)
      else
        let '(pis, st) := reg_rd st (port + IS) in
        if nz (Z.land pis (Z.shiftl 1 30)) then (None, st) else done_wait t' st port slot
  end.

(** Wait for the port, issue the command and wait for its end. *)
Definition run_command st (port slot : Z) : bool * hba D :=
  let '(t, st) := ready_wait (Z.to_nat 1000000) st port in
  if (t =? 0)%nat then (false, st)
  else
    let st := reg_wr st (port + CI) (u32 (Z.shiftl 1 slot)) in
    let '(r, st) := done_wait (Z.to_nat 2000000) st port slot in
    match r with
    | None => (false, st)
    | Some t => if t <=? 0 then (false, st) else (true, st)
    end.

Definition ahci_read st (port start_lba count buf : Z) : bool * hba D :=
  let st := reg_wr st (port + IS) 0xFFFFFFFF in
  let '(slot, st) := find_cmdslot st port in
  if slot =? -1 then (false, st)
  else
    let st := fill_command st port slot false 0x25 start_lba count buf in
    let '(ok, st) := run_command st port slot in
    if negb ok then (false, st)
    else
      let '(pis, st) := reg_rd st (port + IS) in
      if nz (Z.land pis (Z.shiftl 1 30)) then (false, st) else (true, st).

Definition ahci_write st (port start_lba count buf : Z) : bool * hba D :=
  let st := reg_wr st (port + IS) 0xFFFFFFFF in
  let '(slot, st) := find_cmdslot st port in
  if slot =? -1 then (false, st)
  else run_command (fill_command st port slot true 0x35 start_lba count buf) port slot.

(** [for (i = 0; i < 32; i++) if (abar_mem->pi & (1 << i)) ...]; 0 is NULL. *)
Fixpoint get_drive_loop (n : nat) st (abar i : Z) : Z * hba D :=
  match n with
  | O => (0, st)
  | S n' =>
      let '(pi, st) := reg_rd st (abar + PI) in
      if Z.testbit pi i then
        let '(ty, st) := check_port_type st (port_addr abar i) in
        if ty =? AHCI_DEV_SATA then (port_addr abar i, st) else get_drive_loop n' st abar (i + 1)
      else get_drive_loop n' st abar (i + 1)
  end.

(** [abar] is [abar_mem]. *)
Definition ahci_get_drive st (abar : Z) : Z * hba D :=
  if abar =? 0 then (0, st) else get_drive_loop 32 st abar 0.

(** ** Start-up, with the frames of [pmm_alloc_block] *)

Context {F : Type} `{FrameAllocator F}.

(** A frame, cleared through the higher half. *)
Definition cleared_frame (f : F) st : Z * F * hba D :=
  let '(phys, f) := alloc_block f in
  (phys, f, zero_mem st (u32 (phys + 0xC0000000)) 4096).

Definition init_header (f : F) st (hdr : Z) : F * hba D :=
  let st := put 2 st (hdr + 2) 8 in
  let '(ctba, f, st) := cleared_frame f st in
  let st := put 4 st (hdr + 8) ctba in
  (f, put 4 st (hdr + 12) 0).

Definition port_rebase (f : F) st (port : Z) : F * hba D :=
  let st := port_stop st port in
  let '(clb, f, st) := cleared_frame f st in
  let st := reg_wr (reg_wr st (port + CLB) clb) (port + CLBU) 0 in
  let '(fb, f, st) := cleared_frame f st in
  let st := reg_wr (reg_wr st (port + FB) fb) (port + FBU) 0 in
  let '(f, st) := for_loop 32 0
    (λ i '(f, st), init_header f st (u32 (clb + 0xC0000000) + sizeof_cmd_header * i)) (f, st) in
  (f, port_start st port).
End ahci.

(** ** A port with a disk *)

Record sata := mk_sata {
  s_base : Z;                    (** the address of the port's registers *)
  s_clb : Z; s_is : Z; s_cmd : Z; s_ci : Z;
  s_sector : Z → list Z;
  s_busy : nat;                  (** polls of TFD until the port is ready *)
  s_wait : nat;                  (** polls of CI until the command is done *)
  s_delays : nat → nat; s_turn : nat }.

Definition mem_le (n : nat) (m : gmap Z Z) (a : Z) : Z := le_num (peek m a (Z.of_nat n)).

(** The regions of the PRDT of [n] entries at [a]. *)
Definition regions (m : gmap Z Z) (a n : Z) : list (Z * Z) :=
  (λ i, (mem_le 4 m (a + 16 * i), mem_le 4 m (a + 16 * i + 12) mod 0x400000 + 1)) <$> seqZ 0 n.

Fixpoint scatter (m : gmap Z Z) (rs : list (Z * Z)) (data : list Z) : gmap Z Z :=
  match rs with
  | [] => m
  | (a, n) :: rs' => scatter (poke m a (take (Z.to_nat n) data)) rs' (drop (Z.to_nat n) data)
  end.

Definition gather (m : gmap Z Z) (rs : list (Z * Z)) (n : Z) : list Z :=
  take (Z.to_nat n) (concat ((λ '(a, k), peek m a k) <$> rs)).

Definition fis_lba (m : gmap Z Z) (t : Z) : Z :=
  mem_le 3 m (t + 4) + 0x1000000 * mem_le 3 m (t + 8).
Definition fis_count (m : gmap Z Z) (t : Z) : Z :=
  let c := mem_le 2 m (t + 12) in if c =? 0 then 65536 else c.

Definition w_sector (d : sata) (s : Z → list Z) : sata :=
  mk_sata (s_base d) (s_clb d) (s_is d) (s_cmd d) (s_ci d) s (s_busy d) (s_wait d) (s_delays d) (s_turn d).
Definition w_ci (d : sata) (ci : Z) : sata :=
  mk_sata (s_base d) (s_clb d) (s_is d) (s_cmd d) ci (s_sector d) (s_busy d) (s_wait d) (s_delays d) (s_turn d).

(** The command in the slot of [s_ci], with the direction in bit W of its header: 0x25 reads the disk into the regions, 0x35 writes the
    regions to the disk, anything else sets the task file error. *)
Definition execute (st : hba sata) : hba sata :=
  let '(d, m) := st in
  let hdr := s_clb d + 32 * Z.log2 (s_ci d) in
  let t := mem_le 4 m (hdr + 8) in
  let rs := regions m (t + 128) (mem_le 2 m (hdr + 2)) in
  let lba := fis_lba m t in
  let n := fis_count m t in
  let cmd := mem_le 1 m (t + 2) in
  let out := Z.testbit (mem_le 1 m hdr) 6 in
  if (cmd =? 0x25) && negb out then (w_ci d 0, scatter m rs (sectors (s_sector d) lba n))
  else if (cmd =? 0x35) && out then
    let data := gather m rs (512 * n) in
    (w_ci (w_sector d (λ l, if (lba <=? l) && (l <? lba + n) then sub data (512 * (l - lba)) 512
                            else s_sector d l)) 0, m)
  else (mk_sata (s_base d) (s_clb d) (Z.lor (s_is d) 0x40000000) (s_cmd d) (s_ci d) (s_sector d)
          (s_busy d) (s_wait d) (s_delays d) (s_turn d), m).

Definition w_wait (d : sata) (n : nat) : sata :=
  mk_sata (s_base d) (s_clb d) (s_is d) (s_cmd d) (s_ci d) (s_sector d) (s_busy d) n (s_delays d) (s_turn d).
Definition w_busy (d : sata) (n : nat) : sata :=
  mk_sata (s_base d) (s_clb d) (s_is d) (s_cmd d) (s_ci d) (s_sector d) n (s_wait d) (s_delays d) (s_turn d).

Definition sata_rd (st : hba sata) (a : Z) : Z * hba sata :=
  let '(d, m) := st in
  let r := a - s_base d in
  if r =? CI then
    if s_ci d =? 0 then (0, st)
    else match s_wait d with
         | O => let st := execute st in (s_ci st.1, st)
         | S k => (s_ci d, (w_wait d k, m))
         end
  else if r =? TFD then
    match s_busy d with O => (0x50, st) | S k => (0x80, (w_busy d k, m)) end
  else if r =? CLB then (s_clb d, st)
  else if r =? IS then (s_is d, st)
  else if r =? CMD then (s_cmd d, st)
  else if r =? SIG then (0x101, st)
  else if r =? SSTS then (0x123, st)
  else if r =? PI - 0x100 then (1, st)
  else (0, st).

Definition sata_wr (st : hba sata) (a v : Z) : hba sata :=
  let '(mk_sata b clb pis cmd ci s busy w ds tn, m) := st in
  let r := a - b in
  if r =? CI then (mk_sata b clb pis cmd (Z.lor ci v) s busy (ds tn) ds (S tn), m)
  else if r =? IS then (mk_sata b clb (Z.ldiff pis v) cmd ci s busy w ds tn, m)
  else if r =? CLB then (mk_sata b v pis cmd ci s busy w ds tn, m)
  else if r =? CMD then (mk_sata b clb pis v ci s busy w ds tn, m)
  else st.

#[export] Instance sata_hba : Hba sata := { reg_rd := sata_rd; reg_wr := sata_wr }.

(** ** Memory lemmas *)

Lemma rd_poke m a l x :
  rd (poke m a l) x = if (a <=? x) && (x <? a + alen l) then l.[x - a] else rd m x.
Proof.
  unfold poke, alen. generalize (length l) as n. intros n.
  assert (∀ n, rd (for_loop n 0 (λ k m, wr m (a + k) (l.[k])) m) x =
    if (a <=? x) && (x <? a + Z.of_nat n) then l.[x - a] else rd m x) as Hn; [|apply Hn].
  clear n. induction n as [|n IH].
  - cbn [for_loop]. destruct (Z.leb_spec a x), (Z.ltb_spec x (a + Z.of_nat 0)); done || lia.
  - rewrite for_loop_S, Z.add_0_l, rd_wr, IH. destruct (Z.eqb_spec x (a + Z.of_nat n)) as [->|Hne].
    + destruct (Z.leb_spec a (a + Z.of_nat n)), (Z.ltb_spec (a + Z.of_nat n) (a + Z.of_nat (S n))); try lia.
      cbn. f_equal. lia.
    + destruct (Z.leb_spec a x), (Z.ltb_spec x (a + Z.of_nat n)), (Z.ltb_spec x (a + Z.of_nat (S n))); done || lia.
Qed.

Lemma peek_ext m m' a n : (∀ x, a <= x < a + n → rd m' x = rd m x) → peek m' a n = peek m a n.
Proof.
  intros Hx. unfold peek. apply list_fmap_ext. intros i x Hl. apply lookup_seqZ in Hl as [-> Hl]. apply Hx. lia.
Qed.

Lemma alen_peek m a n : 0 <= n → alen (peek m a n) = n.
Proof. intros. unfold peek, alen. rewrite length_fmap, length_seqZ. lia. Qed.

Lemma aget_peek m a n k : 0 <= k < n → (peek m a n).[k] = rd m (a + k).
Proof.
  intros Hk. unfold peek, aget. destruct (Z.ltb_spec k 0); [lia|].
  rewrite list_lookup_total_alt, list_lookup_fmap, lookup_seqZ_lt by lia. cbn. f_equal. lia.
Qed.

Lemma peek_poke m a l : peek (poke m a l) a (alen l) = l.
Proof.
  pose proof (alen_nonneg l). apply alist_eq; [by rewrite alen_peek|]. intros i Hi. rewrite alen_peek in Hi by done.
  rewrite aget_peek, rd_poke by lia. destruct (Z.leb_spec a (a + i)), (Z.ltb_spec (a + i) (a + alen l)); try lia.
  cbn. f_equal. lia.
Qed.

Lemma peek_poke_ne m a l b n : b + n <= a ∨ a + alen l <= b → peek (poke m a l) b n = peek m b n.
Proof.
  intros Hd. apply peek_ext. intros x Hx. rewrite rd_poke.
  destruct (Z.leb_spec a x), (Z.ltb_spec x (a + alen l)); done || lia.
Qed.

(** [m'] is [m] except for the [n] bytes at [a]. *)
Definition only (m m' : gmap Z Z) (a n : Z) : Prop := ∀ x, x < a ∨ a + n <= x → rd m' x = rd m x.

Lemma only_poke m a l : only m (poke m a l) a (alen l).
Proof.
  intros x Hx. rewrite rd_poke. destruct (Z.leb_spec a x), (Z.ltb_spec x (a + alen l)); done || lia.
Qed.
Lemma only_trans m m' m'' a n : only m m' a n → only m' m'' a n → only m m'' a n.
Proof. intros H1 H2 x Hx. by rewrite H2, H1. Qed.
Lemma only_weaken m m' a n b k : only m m' a n → b <= a → a + n <= b + k → only m m' b k.
Proof. intros H1 Hb Hn x Hx. apply H1. lia. Qed.
Lemma only_peek m m' a n b k : only m m' a n → b + k <= a ∨ a + n <= b → peek m' b k = peek m b k.
Proof. intros H1 Hd. apply peek_ext. intros x Hx. apply H1. lia. Qed.

(** Pointers into the first gigabyte of the higher half. *)
Definition hi (a : Z) : Z := 0xC0000000 + a.

Lemma P2V_hi a : 0 <= a < 0x40000000 → P2V a = hi a.
Proof. intros. unfold P2V, hi, KERNEL_VIRT_BASE. rewrite u32_small; lia. Qed.
Lemma V2P_hi a : 0 <= a < 0x40000000 → V2P (hi a) = a.
Proof. intros. unfold V2P, hi, KERNEL_VIRT_BASE. rewrite u32_small; lia. Qed.
Lemma hi_add a k : hi a + k = hi (a + k).
Proof. unfold hi. lia. Qed.
Lemma u32_hi a : 0 <= a < 0x40000000 → u32 (hi a) = hi a.
Proof. intros. unfold hi. rewrite u32_small; lia. Qed.

Section memory.
Context {D : Type}.
Implicit Types (d : D) (m : gmap Z Z).

Lemma get_hi n d m a : 0 <= a < 0x40000000 → get n (d, m) (hi a) = mem_le n m a.
Proof. intros. unfold get, mem_le. by rewrite V2P_hi. Qed.
Lemma put_hi n d m a x : 0 <= a < 0x40000000 → put n (d, m) (hi a) x = (d, poke m a (le_bytes n x)).
Proof. intros. unfold put. by rewrite V2P_hi. Qed.

Lemma mem_le_poke n m a x : mem_le n (poke m a (le_bytes n x)) a = x mod 256 ^ Z.of_nat n.
Proof. unfold mem_le. rewrite <-(alen_le_bytes n x) at 1. by rewrite peek_poke, le_num_bytes. Qed.
Lemma mem_le_only n m m' a k b :
  only m m' a k → b + Z.of_nat n <= a ∨ a + k <= b → mem_le n m' b = mem_le n m b.
Proof. intros Ho Hd. unfold mem_le. by rewrite (only_peek m m' a k b). Qed.
Lemma only_put n m a x : only m (poke m a (le_bytes n x)) a (Z.of_nat n).
Proof. rewrite <-(alen_le_bytes n x). apply only_poke. Qed.
Lemma mem_le_ne n k m a x b :
  b + Z.of_nat n <= a ∨ a + Z.of_nat k <= b → mem_le n (poke m a (le_bytes k x)) b = mem_le n m b.
Proof. intros Hd. apply (mem_le_only n m _ a (Z.of_nat k)); [apply only_put|done]. Qed.

(** The entries the commands build. *)
Lemma fill_header_spec d m a w count :
  0 <= a → a + 32 <= 0x40000000 → 1 <= count < 0x10000 →
  ∃ m', fill_header (d, m) (hi a) w count = (d, m') ∧ only m m' a 4 ∧
    Z.testbit (mem_le 1 m' a) 6 = w ∧ mem_le 2 m' (a + 2) = (count - 1) / 16 + 1.
Proof.
  intros Ha Ha' Hc. unfold fill_header. rewrite hi_add.
  rewrite get_hi, put_hi, get_hi, put_hi, put_hi by lia.
  set (m1 := poke m a _). set (m2 := poke m1 a _). eexists. split; [reflexivity|]. split; [|split].
  - apply (only_trans _ m2); [apply (only_trans _ m1)|]; (eapply only_weaken; [apply only_put|lia|lia]).
  - rewrite mem_le_ne by lia. unfold m2. rewrite mem_le_poke. change (256 ^ Z.of_nat 1) with (2 ^ 8).
    rewrite Z.mod_pow2_bits_low by lia. rewrite Z.lor_spec, Z.ldiff_spec.
    change (Z.testbit 0x40 6) with true. rewrite andb_false_r. by destruct w.
  - rewrite mem_le_poke. rewrite (u32_small (count - 1)) by lia. rewrite Z.shiftr_div_pow2 by lia.
    change (2 ^ 4) with 16. change (256 ^ Z.of_nat 2) with 0x10000.
    assert (0 <= (count - 1) / 16 < 0xFFFF) by zlia. rewrite !u16_small, Z.mod_small by (rewrite ?u16_small; lia). done.
Qed.

Lemma land_22 x : Z.land x 0x3FFFFF = x mod 0x400000.
Proof. change 0x3FFFFF with (Z.ones 22). by rewrite Z.land_ones. Qed.

Lemma fill_prdt_spec d m a b dbc :
  0 <= a → a + 16 <= 0x40000000 → 0 <= b < 0x40000000 → 0 <= dbc < 0x400000 →
  ∃ m', fill_prdt (d, m) (hi a) (hi b) dbc = (d, m') ∧ only m m' a 16 ∧
    mem_le 4 m' a = b ∧ mem_le 4 m' (a + 12) mod 0x400000 = dbc.
Proof.
  intros Ha Ha' Hb Hd. unfold fill_prdt. rewrite !hi_add, V2P_hi by lia.
  rewrite put_hi, get_hi, put_hi, get_hi, put_hi by lia.
  set (m1 := poke m a _). set (m2 := poke m1 (a + 12) _). eexists. split; [reflexivity|]. split; [|split].
  - apply (only_trans _ m2); [apply (only_trans _ m1)|]; (eapply only_weaken; [apply only_put|lia|lia]).
  - rewrite mem_le_ne by lia. unfold m2. rewrite mem_le_ne by lia. unfold m1. rewrite mem_le_poke.
    rewrite Z.mod_small; [done|]. change (256 ^ Z.of_nat 4) with 0x100000000. lia.
  - rewrite mem_le_poke. unfold m2. rewrite mem_le_poke. change (256 ^ Z.of_nat 4) with (2 ^ 32).
    rewrite <-land_22. apply Z.bits_inj'. intros k Hk. rewrite !Z.land_spec. change 0x3FFFFF with (Z.ones 22).
    destruct (Z.lt_ge_cases k 22).
    + rewrite Z.ones_spec_low, andb_true_r, Z.mod_pow2_bits_low, Z.lor_spec, Z.mod_pow2_bits_low by lia.
      rewrite Z.lor_spec, Z.ldiff_spec, Z.land_spec, Z.ones_spec_low by lia. cbn [negb]. rewrite andb_false_r, andb_true_r.
      change 0x80000000 with (2 ^ 31). rewrite Z.pow2_bits_false by lia. by rewrite orb_false_l, orb_false_r.
    + rewrite Z.ones_spec_high, andb_false_r by lia. symmetry. rewrite <-(Z.mod_small dbc (2 ^ 22)) by lia.
      apply Z.mod_pow2_bits_high. lia.
Qed.

(** The PRDT for [16 n + c] sectors at [b]. *)
Lemma fill_prdts_spec d m a n b c :
  0 <= a → a + 16 * (Z.of_nat n + 1) <= 0x40000000 → 0 <= b → b + 8192 * Z.of_nat n + 512 * c <= 0x40000000 →
  1 <= c <= 16 →
  ∃ m', fill_prdts (d, m) (hi a) n (hi b) (16 * Z.of_nat n + c) = ((d, m'), c) ∧
    only m m' a (16 * (Z.of_nat n + 1)) ∧
    (∀ i, 0 <= i < Z.of_nat n → mem_le 4 m' (a + 16 * i) = b + 8192 * i ∧ mem_le 4 m' (a + 16 * i + 12) mod 0x400000 = 8191) ∧
    mem_le 4 m' (a + 16 * Z.of_nat n) = b + 8192 * Z.of_nat n ∧
    mem_le 4 m' (a + 16 * Z.of_nat n + 12) mod 0x400000 = 512 * c - 1.
Proof.
  intros Ha Ha' Hb Hb' Hc. unfold fill_prdts.
  assert (∀ k, (k <= n)%nat → ∃ m1, prdt_loop (d, m) (hi a) k (hi b) (16 * Z.of_nat n + c) = (d, m1, hi (b + 8192 * Z.of_nat k), 16 * (Z.of_nat n - Z.of_nat k) + c) ∧
    only m m1 a (16 * Z.of_nat k) ∧
    ∀ i, 0 <= i < Z.of_nat k → mem_le 4 m1 (a + 16 * i) = b + 8192 * i ∧ mem_le 4 m1 (a + 16 * i + 12) mod 0x400000 = 8191) as Hloop.
  { induction k as [|k IH]; intros Hk.
    - exists m. split_and!; [|done|lia]. unfold prdt_loop. cbn [for_loop]. repeat f_equal; lia.
    - destruct IH as (m1 & E & Ho & He); [lia|]. unfold prdt_loop in E |- *.
      rewrite for_loop_S, E, Z.add_0_l, hi_add.
      destruct (fill_prdt_spec d m1 (a + 16 * Z.of_nat k) (b + 8192 * Z.of_nat k) (8192 - 1)) as (m2 & -> & Ho2 & E1 & E2); try lia.
      exists m2. split_and!.
      + rewrite hi_add, u32_hi, u32_small by lia. f_equal; [do 2 f_equal; lia|lia].
      + apply (only_trans _ m1); (eapply only_weaken; [eassumption|lia|lia]).
      + intros i Hi. destruct (decide (i = Z.of_nat k)) as [->|]; [by split|].
        rewrite !(mem_le_only 4 m1 m2 _ _ _ Ho2) by lia. apply He. lia. }
  destruct (Hloop n ltac:(lia)) as (m1 & -> & Ho & He). rewrite hi_add.
  replace (16 * (Z.of_nat n - Z.of_nat n) + c) with c by lia.
  rewrite (u32_small (c * 512)), u32_small by lia.
  destruct (fill_prdt_spec d m1 (a + 16 * Z.of_nat n) (b + 8192 * Z.of_nat n) (c * 512 - 1)) as (m2 & -> & Ho2 & E1 & E2); try lia.
  exists m2. split_and!; [done| | |done|rewrite E2; lia].
  - apply (only_trans _ m1); (eapply only_weaken; [eassumption|lia|lia]).
  - intros i Hi. rewrite !(mem_le_only 4 m1 m2 _ _ _ Ho2) by lia. by apply He.
Qed.

Lemma rd_put1 m a x y : rd (poke m a (le_bytes 1 x)) y = if y =? a then x mod 256 else rd m y.
Proof.
  rewrite rd_poke. change (alen (le_bytes 1 x)) with 1.
  destruct (Z.eqb_spec y a), (Z.leb_spec a y), (Z.ltb_spec y (a + 1)); try lia; try done.
  subst y. by rewrite Z.sub_diag.
Qed.

Lemma mem_le_S n m a : mem_le (S n) m a = rd m a + 256 * mem_le n m (a + 1).
Proof.
  unfold mem_le, peek. rewrite seqZ_cons by lia. cbn [fmap list_fmap le_num].
  replace (Z.pred (Z.of_nat (S n))) with (Z.of_nat n) by lia. by rewrite <-Z.add_1_r.
Qed.
Lemma mem_le_0 m a : mem_le 0 m a = 0.
Proof. done. Qed.

(** Decide the comparisons of addresses in the goal. *)
Ltac eqs := repeat match goal with |- context [?x =? ?y] =>
  first [rewrite (proj2 (Z.eqb_eq x y)) by lia | rewrite (proj2 (Z.eqb_neq x y)) by lia] end.

Lemma fill_fis_spec d m t command lba count :
  0 <= t → t + 128 <= 0x40000000 → 0 <= command < 256 → 0 <= lba < 0x100000000 → 0 <= count < 0x10000 →
  ∃ m', fill_fis (d, m) (hi t) command lba count = (d, m') ∧ only m m' t 14 ∧
    mem_le 1 m' (t + 2) = command ∧ fis_lba m' t = lba ∧ mem_le 2 m' (t + 12) = count.
Proof.
  intros Ht Ht' Hcmd Hlba Hc. unfold fill_fis. rewrite !hi_add.
  repeat (rewrite put_hi by lia || rewrite get_hi by lia). eexists. split; [reflexivity|]. split_and!.
  - intros x Hx. rewrite !rd_put1. by eqs.
  - rewrite mem_le_S, mem_le_0, !rd_put1. eqs. rewrite Z.mod_small; lia.
  - unfold fis_lba. rewrite !mem_le_S, !mem_le_0, !rd_put1. eqs. rewrite !Z.shiftr_div_pow2 by lia. unfold u8.
    change (2 ^ 8) with 256. change (2 ^ 16) with 65536. change (2 ^ 24) with 16777216. change (0 mod 256) with 0. zlia.
  - rewrite !mem_le_S, mem_le_0, !rd_put1. eqs. rewrite Z.shiftr_div_pow2 by lia. unfold u8. change (2 ^ 8) with 256. zlia.
Qed.
End memory.

(** ** Commands *)

(** The sectors a command for [count] sectors really moves: what the PRDT loop leaves of the
    count is put into the FIS. *)
Definition moved (count : Z) : Z := (count - 1) mod 16 + 1.
Definition prdt_full (count : Z) : nat := Z.to_nat ((count - 1) / 16).

(** The structures of slot 0 and the buffer at physical address [a] are apart from each other
    and in the reach of the higher half. *)
Record placed (d : sata) (m : gmap Z Z) (a count : Z) : Prop := {
  pl_clb : 0 <= s_clb d ∧ s_clb d + 32 <= 0x40000000;
  pl_table : 0 <= mem_le 4 m (s_clb d + 8) ∧ mem_le 4 m (s_clb d + 8) + 4096 <= 0x40000000;
  pl_apart : s_clb d + 32 <= mem_le 4 m (s_clb d + 8) ∨ mem_le 4 m (s_clb d + 8) + 4096 <= s_clb d;
  pl_buffer : 0 <= a ∧ a + 512 * count <= 0x40000000;
  pl_clb_buffer : s_clb d + 32 <= a ∨ a + 512 * count <= s_clb d;
  pl_table_buffer : mem_le 4 m (s_clb d + 8) + 4096 <= a ∨ a + 512 * count <= mem_le 4 m (s_clb d + 8);
  pl_count : 1 <= count <= 3968 }.

(** The memory of the command list entry and the command table. *)
Definition scratch (d : sata) (m : gmap Z Z) (x : Z) : Prop :=
  s_clb d <= x < s_clb d + 32 ∨ mem_le 4 m (s_clb d + 8) <= x < mem_le 4 m (s_clb d + 8) + 4096.

Definition prdt_regions (a : Z) (n : nat) (k : Z) : list (Z * Z) :=
  ((λ i, (a + 8192 * i, 8192)) <$> seqZ 0 (Z.of_nat n)) ++ [(a + 8192 * Z.of_nat n, 512 * k)].

(** What the controller finds in memory. *)
Record command_at (d : sata) (m : gmap Z Z) (t : Z) (write : bool) (command lba a count : Z) : Prop := {
  ca_table : mem_le 4 m (s_clb d + 8) = t;
  ca_dir : Z.testbit (mem_le 1 m (s_clb d)) 6 = write;
  ca_regions : regions m (t + 128) (mem_le 2 m (s_clb d + 2)) = prdt_regions a (prdt_full count) (moved count);
  ca_command : mem_le 1 m (t + 2) = command;
  ca_lba : fis_lba m t = lba;
  ca_count : fis_count m t = moved count }.

Lemma count_split count : 1 <= count → count = 16 * Z.of_nat (prdt_full count) + moved count ∧ 1 <= moved count <= 16.
Proof. intros. unfold prdt_full, moved. rewrite Z2Nat.id by zlia. zlia. Qed.

Lemma fill_command_spec d m write command lba count a :
  placed d m a count → 0 <= command < 256 → 0 <= lba < 0x100000000 →
  ∃ m', fill_command (d, m) (s_base d) 0 write command lba count (hi a) = (d, m') ∧
    (∀ x, ¬ scratch d m x → rd m' x = rd m x) ∧
    command_at d m' (mem_le 4 m (s_clb d + 8)) write command lba a count.
Proof.
  intros [[Hc Hc'] [Ht Ht'] Hap [Ha Ha'] _ _ Hn] Hcmd Hlba. unfold fill_command.
  assert (reg_rd (d, m) (s_base d + CLB) = (s_clb d, (d, m))) as ->.
  { cbn. unfold sata_rd, CLB. by replace (s_base d + 0 - s_base d) with 0 by lia. }
  set (c := s_clb d) in *. set (t := mem_le 4 m (c + 8)) in *.
  rewrite P2V_hi, Z.mul_0_r, hi_add, Z.add_0_r, u32_hi by lia.
  destruct (fill_header_spec d m c write count) as (m1 & -> & Ho1 & Hw1 & Hp1); try lia.
  rewrite !hi_add, !get_hi by lia. rewrite (mem_le_only 4 m m1 c 4 _ Ho1) by lia. fold t. rewrite Hp1, P2V_hi by lia.
  set (n := (count - 1) / 16). assert (0 <= n <= 247) as Hn' by (unfold n; zlia).
  unfold zero_mem, sizeof_cmd_tbl, sizeof_prdt_entry. rewrite V2P_hi by lia. cbn [fst snd].
  set (z := replicate (Z.to_nat _) 0). assert (alen z = 128 + (n + 1) * 16) as Hz by (unfold z; rewrite alen_replicate; lia).
  set (m2 := poke m1 t z). assert (only m1 m2 t 4096) as Ho2 by (eapply only_weaken; [apply only_poke|lia|lia]).
  destruct (count_split count ltac:(lia)) as [Hsplit Hmv]. fold n in Hsplit. unfold prdt_full in Hsplit. fold n in Hsplit.
  rewrite hi_add. replace (Z.to_nat (n + 1 - 1)) with (Z.to_nat n) by (f_equal; lia).
  destruct (fill_prdts_spec d m2 (t + 128) (Z.to_nat n) a (moved count)) as (m3 & E3 & Ho3 & He3 & Hl3 & Hl3'); try lia.
  rewrite <-Hsplit in E3. rewrite E3.
  destruct (fill_fis_spec d m3 t command lba (moved count)) as (m4 & -> & Ho4 & Hc4 & Hb4 & Hn4); try lia.
  exists m4. split; [done|].
  assert (only m1 m4 t 4096) as Hall.
  { apply (only_trans _ m2); [done|]. apply (only_trans _ m3); (eapply only_weaken; [eassumption|lia|lia]). }
  split; [|constructor; fold c].
  - intros x Hx. unfold scratch in Hx. fold c t in Hx. rewrite Hall, Ho1 by lia. done.
  - rewrite (mem_le_only 4 m1 m4 t 4096 _ Hall) by lia. apply (mem_le_only 4 m m1 c 4 _ Ho1). lia.
  - by rewrite (mem_le_only 1 m1 m4 t 4096 _ Hall) by lia.
  - rewrite (mem_le_only 2 m1 m4 t 4096 _ Hall), Hp1 by lia. fold n. unfold regions, prdt_regions, prdt_full. fold n.
    rewrite seqZ_snoc, fmap_app by lia. rewrite Z2Nat.id in He3, Hl3, Hl3' |- * by lia. f_equal.
    + apply list_fmap_ext. intros i x Hx. apply lookup_seqZ in Hx as [-> Hi].
      rewrite !(mem_le_only 4 m3 m4 t 14 _ Ho4) by lia. destruct (He3 (0 + Z.of_nat i)) as [-> ->]; [lia|done].
    + cbn [fmap list_fmap]. rewrite Z.add_0_l, !(mem_le_only 4 m3 m4 t 14 _ Ho4), Hl3, Hl3' by lia. do 2 f_equal. lia.
  - done.
  - done.
  - unfold fis_count. rewrite Hn4. destruct (Z.eqb_spec (moved count) 0); [lia|done].
Qed.

(** The port at rest, ready before the driver gives up. *)
Record port_idle (d : sata) : Prop := {
  pi_ci : s_ci d = 0;
  pi_is : 0 <= s_is d < 0x100000000;
  pi_busy : (s_busy d < Z.to_nat 1000000)%nat;
  pi_quick : ∀ k, (S (s_delays d k) < Z.to_nat 2000000)%nat }.

Lemma reg_at (d : sata) r : s_base d + r - s_base d = r.
Proof. lia. Qed.

Lemma ready_wait_spec t d m :
  (s_busy d < t)%nat → ∃ t', ready_wait t (d, m) (s_base d) = (S t', (w_busy d 0, m)).
Proof.
  revert d. induction t as [|t IH]; intros d Hb; [lia|]. cbn [ready_wait].
  assert (reg_rd (d, m) (s_base d + TFD) =
    match s_busy d with O => (0x50, (d, m)) | S k => (0x80, (w_busy d k, m)) end) as ->.
  { cbn. unfold sata_rd. by rewrite reg_at. }
  destruct (s_busy d) as [|k] eqn:Ek.
  - exists t. cbn. do 2 f_equal. destruct d. cbn in Ek. by subst.
  - destruct (IH (w_busy d k)) as (t' & E); [cbn; lia|]. by exists t'.
Qed.

Lemma done_wait_spec t d m :
  s_ci d = 1 → Z.testbit (s_is d) 30 = false → (S (s_wait d) < t)%nat →
  s_ci (execute (w_wait d 0, m)).1 = 0 →
  ∃ k, done_wait t (d, m) (s_base d) 0 = (Some k, execute (w_wait d 0, m)) ∧ 0 < k.
Proof.
  revert d. induction t as [|t IH]; intros d Hci Hpis Hw Hex; [lia|]. cbn [done_wait].
  assert (reg_rd (d, m) (s_base d + CI) = match s_wait d with
    | O => let st := execute (d, m) in (s_ci st.1, st) | S k => (1, (w_wait d k, m)) end) as ->.
  { cbn. unfold sata_rd. rewrite reg_at, Z.eqb_refl, Hci. done. }
  destruct (s_wait d) as [|k] eqn:Ek.
  - assert (w_wait d 0 = d) as Ed by (destruct d; cbn in Ek; by subst). rewrite Ed in Hex |- *.
    cbv zeta beta iota. rewrite Hex. exists (Z.of_nat t). split; [done|lia].
  - cbn [nz negb Z.land Z.shiftl Z.eqb].
    assert (reg_rd (w_wait d k, m) (s_base d + IS) = (s_is d, (w_wait d k, m))) as ->.
    { cbn. unfold sata_rd. cbn [s_base w_wait]. by rewrite reg_at. }
    assert (nz (Z.land (s_is d) (Z.shiftl 1 30)) = false) as ->.
    { unfold nz. apply negb_false_iff, Z.eqb_eq, Z.bits_inj'. intros j Hj. rewrite Z.land_spec, Z.bits_0.
      rewrite Z.shiftl_1_l. destruct (decide (j = 30)) as [->|]; [by rewrite Hpis|].
      rewrite Z.pow2_bits_false by lia. apply andb_false_r. }
    destruct (IH (w_wait d k)) as (k' & E & Hk'); [done|done|cbn; lia|done|]. exists k'. by split.
Qed.

(** The port after the command: what issuing it in slot 0 and waiting for its end leads to. *)
Definition issued (d : sata) : sata :=
  mk_sata (s_base d) (s_clb d) 0 (s_cmd d) 1 (s_sector d) 0 0 (s_delays d) (S (s_turn d)).

Lemma clear_is d : 0 <= s_is d < 0x100000000 → Z.ldiff (s_is d) 0xFFFFFFFF = 0.
Proof.
  intros Hr. change 0xFFFFFFFF with (Z.ones 32). rewrite Z.ldiff_ones_r by lia.
  rewrite Z.shiftr_div_pow2, Z.div_small by lia. done.
Qed.

Definition cleared_is (d : sata) : sata :=
  mk_sata (s_base d) (s_clb d) 0 (s_cmd d) (s_ci d) (s_sector d) (s_busy d) (s_wait d) (s_delays d) (s_turn d).

Lemma write_is d m : 0 <= s_is d < 0x100000000 → reg_wr (d, m) (s_base d + IS) 0xFFFFFFFF = (cleared_is d, m).
Proof.
  intros Hr. pose proof (clear_is d Hr) as Hz. destruct d as [b clb pis cmd ci s busy w ds tn].
  cbn [s_is s_base reg_wr sata_hba] in *. unfold sata_wr, cleared_is. cbn [s_base s_clb s_cmd s_ci s_sector s_busy s_wait s_delays s_turn].
  replace (b + IS - b) with IS by lia. cbn [Z.eqb Pos.eqb IS CI]. by rewrite Hz.
Qed.

Lemma find_slot d m : s_ci d = 0 → find_cmdslot (d, m) (s_base d) = (0, (d, m)).
Proof.
  intros Hci. unfold find_cmdslot.
  assert (reg_rd (d, m) (s_base d + SACT) = (0, (d, m))) as -> by (cbn; unfold sata_rd; by rewrite reg_at).
  assert (reg_rd (d, m) (s_base d + CI) = (0, (d, m))) as ->; [|done].
  cbn. unfold sata_rd. by rewrite reg_at, Z.eqb_refl, Hci.
Qed.

Lemma run_command_spec d m :
  port_idle d → s_is d = 0 → s_ci (execute (issued d, m)).1 = 0 →
  run_command (d, m) (s_base d) 0 = (true, execute (issued d, m)).
Proof.
  intros [Hci _ Hb Hq] Hz Hex. unfold run_command.
  destruct (ready_wait_spec (Z.to_nat 1000000) d m Hb) as (t' & ->). cbn [Nat.eqb].
  set (d1 := mk_sata (s_base d) (s_clb d) 0 (s_cmd d) 1 (s_sector d) 0 (s_delays d (s_turn d)) (s_delays d) (S (s_turn d))).
  assert (reg_wr (w_busy d 0, m) (s_base d + CI) (u32 (Z.shiftl 1 0)) = (d1, m)) as ->.
  { destruct d as [b clb pis cmd ci s busy w ds tn]. cbn [s_ci s_is] in *. subst ci pis.
    cbn [reg_wr sata_hba w_busy s_base]. unfold sata_wr. cbn [w_busy s_base s_clb s_is s_cmd s_ci s_sector s_wait s_delays s_turn].
    by replace (b + CI - b) with CI by lia. }
  destruct (done_wait_spec (Z.to_nat 2000000) d1 m) as (k & E & Hk).
  - done.
  - done.
  - cbn [s_wait d1]. apply Hq.
  - exact Hex.
  - change (s_base d) with (s_base d1). rewrite E. destruct (Z.leb_spec k 0); [lia|done].
Qed.

Lemma scatter_nil m rs : scatter m rs [] = m.
Proof. induction rs as [|[a n] rs IH]; [done|]. cbn. by rewrite take_nil, drop_nil. Qed.

(** The data of up to 16 sectors fits into the first region. *)
Lemma first_region a n k :
  1 <= k <= 16 → ∃ s rs, prdt_regions a n k = (a, s) :: rs ∧ 512 * k <= s.
Proof.
  intros Hk. unfold prdt_regions. destruct n as [|n].
  - exists (512 * k), []. change (Z.of_nat 0) with 0. rewrite Z.mul_0_r, Z.add_0_r. split; [done|lia].
  - rewrite seqZ_cons by lia. eexists 8192, _. cbn. rewrite Z.add_0_r. split; [reflexivity|lia].
Qed.

Lemma scatter_regions m a n k data :
  1 <= k <= 16 → alen data = 512 * k → scatter m (prdt_regions a n k) data = poke m a data.
Proof.
  intros Hk Hd. destruct (first_region a n k Hk) as (s & rs & -> & Hs). cbn [scatter].
  rewrite take_ge, drop_ge by (unfold alen in Hd; lia). apply scatter_nil.
Qed.

Lemma gather_regions m a n k :
  1 <= k <= 16 → gather m (prdt_regions a n k) (512 * k) = peek m a (512 * k).
Proof.
  intros Hk. destruct (first_region a n k Hk) as (s & rs & -> & Hs). unfold gather. cbn [fmap list_fmap concat].
  replace s with (512 * k + (s - 512 * k)) by lia. unfold peek at 1. rewrite seqZ_app, fmap_app, <-app_assoc by lia.
  apply take_app_length'. change (fmap (rd m) (seqZ a (512 * k))) with (peek m a (512 * k)).
  pose proof (alen_peek m a (512 * k) ltac:(lia)) as Hl. unfold alen in Hl. lia.
Qed.

Definition sata_ok (s : Z → list Z) : Prop := ∀ l, alen (s l) = 512.

Lemma alen_sata s lba n : sata_ok s → 0 <= n → alen (sectors s lba n) = 512 * n.
Proof.
  intros Hs Hn. unfold sectors. rewrite <-(Z2Nat.id n) at 2 by done. rewrite <-(length_seqZ lba n).
  induction (seqZ lba n) as [|x l IH]; [done|]. cbn [map concat length]. rewrite alen_app, Hs, IH. lia.
Qed.

Lemma idle_after d s : port_idle d → port_idle (w_ci (w_sector (issued (cleared_is d)) s) 0).
Proof. intros []. constructor; try done; cbn; lia. Qed.

Lemma ahci_read_spec d m a lba count :
  port_idle d → sata_ok (s_sector d) → placed d m a count → 0 <= lba → lba + count <= 0x100000000 →
  ∃ d' m', ahci_read (d, m) (s_base d) lba count (hi a) = (true, (d', m')) ∧ port_idle d' ∧
    s_sector d' = s_sector d ∧ peek m' a (512 * moved count) = sectors (s_sector d) lba (moved count) ∧
    ∀ x, ¬ scratch d m x → ¬ (a <= x < a + 512 * moved count) → rd m' x = rd m x.
Proof.
  intros Hid Hsec Hpl Hlba Hl. destruct (count_split count) as [Hsp Hk]; [apply Hpl|].
  pose proof Hid as [Hci Hpis Hb Hq]. set (d0 := cleared_is d). assert (port_idle d0) as Hd0 by (constructor; try done; cbn; lia).
  assert (placed d0 m a count) as Hpl0 by (destruct Hpl; by constructor).
  destruct (fill_command_spec d0 m false 0x25 lba count a Hpl0) as (m1 & E1 & Ho1 & [C1 C2 C3 C4 C5 C6]); [lia|lia|].
  unfold ahci_read. rewrite write_is by done. change (s_base d) with (s_base d0). rewrite find_slot by done.
  cbn [Z.eqb]. rewrite E1.
  assert (execute (issued d0, m1) = (w_ci (issued d0) 0, poke m1 a (sectors (s_sector d) lba (moved count)))) as Hex.
  { unfold execute. cbn [issued s_clb s_ci]. change (32 * Z.log2 1) with 0. rewrite Z.add_0_r.
    rewrite C1, C4, C2, C3, C5, C6. cbn [negb andb Z.eqb Pos.eqb].
    rewrite scatter_regions by (done || (apply alen_sata; [done|lia])). done. }
  rewrite run_command_spec; [|done|done|by rewrite Hex]. rewrite Hex. cbn [negb].
  assert (reg_rd (w_ci (issued d0) 0, poke m1 a (sectors (s_sector d) lba (moved count))) (s_base d0 + IS) =
    (0, (w_ci (issued d0) 0, poke m1 a (sectors (s_sector d) lba (moved count))))) as ->.
  { cbn [reg_rd sata_hba]. unfold sata_rd. change (s_base (w_ci (issued d0) 0)) with (s_base d0). by rewrite reg_at. }
  eexists _, _. split; [reflexivity|]. split; [apply (idle_after d (s_sector d) Hid)|]. split; [done|].
  pose proof (alen_sata (s_sector d) lba (moved count) Hsec ltac:(lia)) as Hlen. split.
  - rewrite <-Hlen. apply peek_poke.
  - intros x Hx Hx'. rewrite only_poke by lia. by apply Ho1.
Qed.

Lemma ahci_write_spec d m a lba count :
  port_idle d → sata_ok (s_sector d) → placed d m a count → 0 <= lba → lba + count <= 0x100000000 →
  ∃ d' m', ahci_write (d, m) (s_base d) lba count (hi a) = (true, (d', m')) ∧ port_idle d' ∧
    (∀ l, s_sector d' l = if (lba <=? l) && (l <? lba + moved count)
                          then sub (peek m a (512 * moved count)) (512 * (l - lba)) 512 else s_sector d l) ∧
    ∀ x, ¬ scratch d m x → rd m' x = rd m x.
Proof.
  intros Hid Hsec Hpl Hlba Hl. destruct (count_split count) as [Hsp Hk]; [apply Hpl|].
  pose proof Hid as [Hci Hpis Hb Hq]. set (d0 := cleared_is d). assert (port_idle d0) as Hd0 by (constructor; try done; cbn; lia).
  assert (placed d0 m a count) as Hpl0 by (destruct Hpl; by constructor).
  destruct (fill_command_spec d0 m true 0x35 lba count a Hpl0) as (m1 & E1 & Ho1 & [C1 C2 C3 C4 C5 C6]); [lia|lia|].
  unfold ahci_write. rewrite write_is by done. change (s_base d) with (s_base d0). rewrite find_slot by done.
  cbn [Z.eqb]. rewrite E1.
  set (s := λ l, if (lba <=? l) && (l <? lba + moved count) then sub (peek m1 a (512 * moved count)) (512 * (l - lba)) 512
                 else s_sector d l).
  assert (execute (issued d0, m1) = (w_ci (w_sector (issued d0) s) 0, m1)) as Hex.
  { unfold execute. cbn [issued s_clb s_ci]. change (32 * Z.log2 1) with 0. rewrite Z.add_0_r.
    rewrite C1, C4, C2, C3, C5, C6. cbn [negb andb Z.eqb Pos.eqb]. rewrite gather_regions by done. done. }
  rewrite run_command_spec; [|done|done|by rewrite Hex]. rewrite Hex.
  eexists _, _. split; [reflexivity|]. split; [by apply idle_after|]. split; [|exact Ho1].
  intros l. cbn [s_sector w_ci w_sector]. unfold s.
  rewrite (peek_ext m m1); [done|]. intros x Hx. apply Ho1. destruct Hpl as [_ _ _ _ P1 P2 _].
  unfold scratch. change (s_clb d0) with (s_clb d). lia.
Qed.

(** C12: on a port that answers in time, [ahci_read] and [ahci_write] of 1 to 3968 sectors
    report success; they transfer the first [moved count] sectors, which is all of them for up
    to 16 sectors and between 1 and 16 otherwise.  A read changes no other memory than these
    sectors of the buffer and the command structures, a write no other sector of the disk, and
    the port is idle afterwards. *)
Theorem ahci_transfers d m a lba count :
  port_idle d → sata_ok (s_sector d) → placed d m a count → 0 <= lba → lba + count <= 0x100000000 →
  let k := moved count in
  (∃ d' m', ahci_read (d, m) (s_base d) lba count (hi a) = (true, (d', m')) ∧ port_idle d' ∧
     s_sector d' = s_sector d ∧ peek m' a (512 * k) = sectors (s_sector d) lba k ∧
     ∀ x, ¬ scratch d m x → ¬ (a <= x < a + 512 * k) → rd m' x = rd m x) ∧
  (∃ d' m', ahci_write (d, m) (s_base d) lba count (hi a) = (true, (d', m')) ∧ port_idle d' ∧
     (∀ l, s_sector d' l = if (lba <=? l) && (l <? lba + k) then sub (peek m a (512 * k)) (512 * (l - lba)) 512
                           else s_sector d l) ∧
     ∀ x, ¬ scratch d m x → rd m' x = rd m x) ∧
  1 <= k <= 16 ∧ (count <= 16 → k = count).
Proof.
  intros Hid Hsec Hpl Hlba Hl. destruct (count_split count) as [Hsp Hk]; [apply Hpl|].
  split_and!; [by apply ahci_read_spec|by apply ahci_write_spec|lia|lia|].
  intros Hle. pose proof (pl_count _ _ _ _ Hpl). unfold moved. rewrite Z.mod_small by lia. lia.
Qed.

(** ** Witness: a read of 20 sectors reports success after 4 *)

Definition demo_port : sata :=
  mk_sata 0xFEBF1100 0x1000 0 0x11 0 (λ l, replicate 512 (l mod 256)) 2 0 (λ _, 5%nat) 0.
Definition demo_mem : gmap Z Z := poke ∅ 0x1008 (le_bytes 4 0x3000).

Lemma demo_placed : placed demo_port demo_mem 0x10000 20.
Proof.
  assert (mem_le 4 demo_mem (s_clb demo_port + 8) = 0x3000) as Ht by (by vm_compute).
  constructor; rewrite ?Ht; cbn [s_clb demo_port]; lia.
Qed.

Lemma ahci_transfers_witness :
  ∃ d' m', ahci_read (demo_port, demo_mem) 0xFEBF1100 100 20 (hi 0x10000) = (true, (d', m')) ∧
    rd m' 0x10000 = 100 ∧ rd m' (0x10000 + 4 * 512) = 0.
Proof.
  destruct (ahci_transfers demo_port demo_mem 0x10000 100 20) as ((d' & m' & E & _ & _ & Hp & Ho) & _).
  - constructor; [done|cbn [s_is demo_port]; lia|cbn [s_busy demo_port]; lia|intros k; cbn [s_delays demo_port]; lia].
  - intros l. apply alen_replicate.
  - exact demo_placed.
  - lia.
  - lia.
  - exists d', m'. change (moved 20) with 4 in *. split; [exact E|]. split.
    + replace 0x10000 with (0x10000 + 0) by lia. rewrite <-(aget_peek m' 0x10000 (512 * 4)) by lia.
      rewrite Hp. by vm_compute.
    + rewrite Ho; [by vm_compute| |lia]. assert (mem_le 4 demo_mem (s_clb demo_port + 8) = 0x3000) as Ht by (by vm_compute).
      unfold scratch. rewrite Ht. cbn [s_clb demo_port]. lia.
Defined.

(** The port the file system is given. *)
Lemma get_drive_port d m : ahci_get_drive (d, m) (s_base d - 0x100) = (if s_base d - 0x100 =? 0 then 0 else s_base d, (d, m)).
Proof.
  unfold ahci_get_drive. destruct (s_base d - 0x100 =? 0); [done|].
  generalize 31%nat. intros n. cbn [get_drive_loop].
  assert (reg_rd (d, m) (s_base d - 0x100 + PI) = (1, (d, m))) as ->.
  { cbn [reg_rd sata_hba]. unfold sata_rd. by replace (s_base d - 0x100 + PI - s_base d) with (PI - 0x100) by lia. }
  change (Z.testbit 1 0) with true. cbv iota. unfold check_port_type.
  replace (port_addr (s_base d - 0x100) 0) with (s_base d) by (unfold port_addr; lia).
  assert (reg_rd (d, m) (s_base d + SSTS) = (0x123, (d, m))) as -> by (cbn [reg_rd sata_hba]; unfold sata_rd; by rewrite reg_at).
  change (Z.land 0x123 0x0F =? HBA_PORT_DET_PRESENT) with true.
  change (Z.land (Z.shiftr 0x123 8) 0x0F =? HBA_PORT_IPM_ACTIVE) with true. cbn [negb orb].
  assert (reg_rd (d, m) (s_base d + SIG) = (0x101, (d, m))) as -> by (cbn [reg_rd sata_hba]; unfold sata_rd; by rewrite reg_at).
  done.
Qed.
