(* ===== verification/Pe.v ===== *)
(** * core/pe.c: the PE loader

    [pe_load] checks the headers of an executable in memory, maps its sections and a stack
    into the address space of a new process and copies the section data there.  The page
    tables are those of Vmm.v; the bytes of the data frames are a second store, [ram].  A
    store goes through the page tables of the loaded directory as the processor does it
    ([mmu]); a store to an unmapped page or into the kernel's half is a [Fault].  The
    diagnostics are left out.

    The theorem describes the address space the loader leaves behind: [view] gives the byte
    at a virtual address, and it is the one that laying out the sections in order gives. *)

From S2P Require Import Prelude KString Pmm Vmm.

Definition sizeof_dos_header : Z := 64.
Definition sizeof_pe_header : Z := 24.
Definition sizeof_section_header : Z := 40.

(** The fields [pe_load] uses, by their offsets in the packed structures. *)
Definition e_magic (file : list Z) : outcome Z := half_at file 0.
Definition e_lfanew (file : list Z) : outcome Z := word_at file 60.
Definition signature (file : list Z) (pe : Z) : outcome Z := word_at file pe.
Definition section_count (file : list Z) (pe : Z) : outcome Z := half_at file (pe + 6).
Definition optional_header_size (file : list Z) (pe : Z) : outcome Z := half_at file (pe + 20).
Definition entry_point (file : list Z) (opt : Z) : outcome Z := word_at file (opt + 16).
Definition image_base (file : list Z) (opt : Z) : outcome Z := word_at file (opt + 28).

Record pe_section_header := mk_section {
  virtual_size : Z; virtual_address : Z; raw_data_size : Z; raw_data_pointer : Z }.

Definition section_at (file : list Z) (a : Z) : outcome pe_section_header :=
  vs ← word_at file (a + 8);
  va ← word_at file (a + 12);
  rs ← word_at file (a + 16);
  rp ← word_at file (a + 20);
  Done (mk_section vs va rs rp).

(** The checked headers: offset of the optional header, entry point, number of sections and
    offset of the section table; [None] when a check rejects the file. *)
Definition pe_headers (file : list Z) (file_size : Z) : outcome (option (Z * Z * Z * Z)) :=
  if file_size <? sizeof_dos_header then Done None
  else
    magic ← e_magic file;
    if negb (magic =? 0x5A4D) then Done None
    else
      lfanew ← e_lfanew file;
      if file_size <? u32 (lfanew + sizeof_pe_header) then Done None
      else
        sig ← signature file lfanew;
        if negb (sig =? 0x00004550) then Done None
        else
          let opt_hdr_addr := u32 (lfanew + sizeof_pe_header) in
          osize ← optional_header_size file lfanew;
          if file_size <? u32 (opt_hdr_addr + osize) then Done None
          else
            ep ← entry_point file opt_hdr_addr;
            count ← section_count file lfanew;
            let sections_addr := u32 (opt_hdr_addr + osize) in
            if file_size <? u32 (sections_addr + count * sizeof_section_header) then Done None
            else Done (Some (opt_hdr_addr, ep, count, sections_addr)).

Record machine (S : Type) := mk_machine { vm : vmm S; ram : gmap Z Z }.
Arguments mk_machine {S} _ _.
Arguments vm {S} _.
Arguments ram {S} _.

Section pe.
Context {S : Type} `{FrameAllocator S}.
Implicit Types st : machine S.

(** The physical address of a virtual one, by the walk from CR3. *)
Definition mmu st (v : Z) : option Z :=
  (λ f, 4096 * f + v mod 4096) <$> walk (mem (vm st)) (cr3 (vm st) / 4096) v.

Definition store st (v b : Z) : outcome (machine S) :=
  if v <? KERNEL_VIRT_BASE then
    match mmu st v with
    | Some a => Done (mk_machine (vm st) (wr (ram st) a b))
    | None => Fault
    end
  else Fault.

Definition w_vm st (m : vmm S) : machine S := mk_machine m (ram st).

Definition switch_to st (dir : Z) : machine S := w_vm st (vmm_switch_directory (vm st) (V2P dir)).

(** A frame from the allocator, mapped at [virt] and cleared through the mapping; the result
    of [vmm_map_page] and a failed allocation are not looked at. *)
Definition map_zeroed st (virt : Z) : outcome (machine S) :=
  let '(phys, s) := alloc_block (frames (vm st)) in
  let m := mk_vmm s (mem (vm st)) (kernel_directory (vm st)) (current_directory (vm st)) (cr3 (vm st)) in
  let st := w_vm st (vmm_map_page m phys virt (Z.lor (Z.lor VMM_PRESENT VMM_WRITABLE) VMM_USER)).2 in
  for_outcome 4096 0 (λ k st, store st (u32 (virt + k)) 0) st.

(** [memcpy((void * )virt, file_data + off, n)] *)
Definition copy_in st (virt : Z) (file : list Z) (off n : Z) : outcome (machine S) :=
  for_outcome (Z.to_nat n) 0 (λ k st, b ← byte_at file (off + k); store st (u32 (virt + k)) b) st.

(** The body of the section loop; [false] when the section data is out of bounds. *)
Definition load_section st (file : list Z) (file_size target_dir base : Z) (s : pe_section_header)
  : outcome (bool * machine S) :=
  let virt_addr := u32 (virtual_address s + base) in
  let page_count := u32 (virtual_size s + 4095) / 4096 in
  let prev_dir := vmm_get_kernel_directory (vm st) in
  st ← for_outcome (Z.to_nat page_count) 0
         (λ j st, map_zeroed st (u32 (virt_addr + j * 4096))) (switch_to st target_dir);
  let st := switch_to st prev_dir in
  if file_size <? u32 (raw_data_pointer s + raw_data_size s) then Done (false, st)
  else if 0 <? raw_data_size s then
    let prev_dir := vmm_get_kernel_directory (vm st) in
    st ← copy_in (switch_to st target_dir) virt_addr file (raw_data_pointer s) (raw_data_size s);
    Done (true, switch_to st prev_dir)
  else Done (true, st).

Fixpoint load_sections st (file : list Z) (file_size target_dir base table : Z) (n : nat)
  : outcome (bool * machine S) :=
  match n with
  | O => Done (true, st)
  | Datatypes.S n' =>
      s ← section_at file table;
      '(ok, st) ← load_section st file file_size target_dir base s;
      if (ok : bool) then load_sections st file file_size target_dir base (table + sizeof_section_header) n'
      else Done (false, st)
  end.

Definition USER_STACK_BASE : Z := 0xB0000000.

(** The result: success, [*entry_point] and [*user_stack_top]. *)
Definition pe_load st (file_data : option (list Z)) (file_size target_dir : Z)
  : outcome (option (Z * Z) * machine S) :=
  match file_data with
  | None => Done (None, st)
  | Some file =>
      if target_dir =? 0 then Done (None, st)
      else
        h ← pe_headers file file_size;
        match h with
        | None => Done (None, st)
        | Some (opt, ep, count, table) =>
            base ← image_base file opt;
            '(ok, st) ← load_sections st file file_size target_dir base table (Z.to_nat count);
            if negb ok then Done (None, st)
            else
              let entry := u32 (ep + base) in
              let prev_dir := vmm_get_kernel_directory (vm st) in
              st ← for_outcome 4 0 (λ j st, map_zeroed st (USER_STACK_BASE + j * 4096)) (switch_to st target_dir);
              Done (Some (entry, USER_STACK_BASE + 4 * 4096), switch_to st prev_dir)
        end
  end.
End pe.

(** ** Address spaces *)

(** The byte a program in the directory of frame [fd] finds at a virtual address. *)
Definition view {S} (st : machine S) (fd v : Z) : option Z :=
  (λ f, rd (ram st) (4096 * f + v mod 4096)) <$> walk (mem (vm st)) fd v.

(** ** The header checks *)

(** The header of a file: its offset, the sizes of the optional header and of the section
    table, and the two signatures. *)
Definition hdr_offset (file : list Z) : Z := get_le 4 file 60.
Definition hdr_optional_size (file : list Z) : Z := get_le 2 file (hdr_offset file + 20).
Definition hdr_sections (file : list Z) : Z := get_le 2 file (hdr_offset file + 6).
Definition hdr_table (file : list Z) : Z := hdr_offset file + 24 + hdr_optional_size file.

Definition mz_file (file : list Z) : Prop := 64 <= alen file ∧ get_le 2 file 0 = 0x5A4D.

Definition pe_file (file : list Z) : Prop :=
  mz_file file ∧ hdr_offset file + 24 <= alen file ∧ get_le 4 file (hdr_offset file) = 0x4550.

(** The files whose checks read past the end: the sum of the header offset and the header
    size wraps around, or the file ends inside the entry point field although the optional
    header, by its own size, is inside. *)
Definition headers_outside (file : list Z) : Prop :=
  mz_file file ∧
  (0xFFFFFFE8 <= hdr_offset file ∨ pe_file file ∧ hdr_table file <= alen file < hdr_offset file + 44).

(** The files that are accepted. *)
Definition headers_inside (file : list Z) : Prop :=
  pe_file file ∧ hdr_offset file + 44 <= alen file ∧ hdr_table file + 40 * hdr_sections file <= alen file.

(** What an accepted file yields. *)
Definition headers_found (file : list Z) : Z * Z * Z * Z :=
  (hdr_offset file + 24, get_le 4 file (hdr_offset file + 40), hdr_sections file, hdr_table file).

Lemma headers_disjoint file : alen file < 0x80000000 → headers_inside file → headers_outside file → False.
Proof. intros Hl ((_ & Ho & _) & He & _) (_ & [Hw|(_ & Ht)]); lia. Qed.

Lemma pe_headers_cases file :
  alen file < 0x80000000 → bytes_ok file →
  (headers_outside file ∧ pe_headers file (alen file) = Fault) ∨
  (headers_inside file ∧ pe_headers file (alen file) = Done (Some (headers_found file))) ∨
  (¬ headers_outside file ∧ ¬ headers_inside file ∧ pe_headers file (alen file) = Done None).
Proof.
  intros Hl Hby. unfold headers_inside, headers_outside, pe_file, mz_file, headers_found, hdr_table.
  unfold pe_headers, sizeof_dos_header, sizeof_pe_header, sizeof_section_header.
  destruct (Z.ltb_spec (alen file) 64); [right; right; split_and!; [lia|lia|done]|].
  unfold e_magic. rewrite half_at_in, outcome_bind_done by lia.
  destruct (Z.eqb_spec (get_le 2 file 0) 0x5A4D) as [Hm|]; cbn [negb]; [|right; right; split_and!; [tauto|tauto|done]].
  unfold e_lfanew. rewrite word_at_in, outcome_bind_done by lia. fold (hdr_offset file).
  set (lfa := hdr_offset file). assert (0 <= lfa < 0x100000000) as Hlfa by (apply (get_le_range 4); done).
  destruct (Z.le_gt_cases 0xFFFFFFE8 lfa) as [Hwrap|Hno].
  { left. split; [by eauto|]. replace (u32 (lfa + 24)) with (lfa + 24 - 0x100000000) by words.
    destruct (Z.ltb_spec (alen file) (lfa + 24 - 0x100000000)); [lia|].
    unfold signature, word_at, ck_memory. destruct (Z.leb_spec (lfa + 4) (alen file)); [lia|]. by rewrite andb_false_r. }
  rewrite (u32_small (lfa + 24)) by lia. destruct (Z.ltb_spec (alen file) (lfa + 24)) as [|Hh]; [right; right; split_and!; [lia|lia|done]|].
  unfold signature. rewrite word_at_in, outcome_bind_done by lia.
  destruct (Z.eqb_spec (get_le 4 file lfa) 0x4550) as [Hp|]; cbn [negb]; [|right; right; split_and!; [intuition lia|intuition lia|done]].
  unfold optional_header_size. rewrite half_at_in, outcome_bind_done by lia. fold lfa.
  change (get_le 2 file (lfa + 20)) with (hdr_optional_size file). set (osz := hdr_optional_size file).
  assert (0 <= osz < 0x10000) as Hosz by (apply (get_le_range 2); done).
  rewrite (u32_small (lfa + 24 + osz)) by lia.
  assert (0 <= hdr_sections file < 0x10000) as Hc by (apply (get_le_range 2); done).
  destruct (Z.ltb_spec (alen file) (lfa + 24 + osz)); [right; right; split_and!; [intuition lia|intuition lia|done]|].
  unfold entry_point. destruct (Z.le_gt_cases (lfa + 44) (alen file)) as [He|He].
  - rewrite word_at_in, outcome_bind_done by lia. unfold section_count. rewrite half_at_in, outcome_bind_done by lia.
    fold lfa. change (get_le 2 file (lfa + 6)) with (hdr_sections file).
    rewrite u32_small by lia. replace (lfa + 24 + 16) with (lfa + 40) by lia.
    destruct (Z.ltb_spec (alen file) (lfa + 24 + osz + hdr_sections file * 40)).
    + right; right. split_and!; [intuition lia|intuition lia|done].
    + right; left. split; [|done]. split_and!; try done; lia.
  - left. split; [by eauto 10|]. unfold word_at, ck_memory. destruct (Z.leb_spec (lfa + 24 + 16 + 4) (alen file)); [lia|].
    by rewrite andb_false_r.
Qed.

Lemma pe_headers_accept file opt ep count table :
  alen file < 0x80000000 → bytes_ok file → pe_headers file (alen file) = Done (Some (opt, ep, count, table)) →
  0 <= count ∧ 0 <= opt <= table ∧ table + 40 * count <= alen file.
Proof.
  intros Hl Hby E. destruct (pe_headers_cases file Hl Hby) as [[_ E']|[[Hin E']|(_ & _ & E')]]; rewrite E in E'; [done| |done].
  injection E' as -> -> -> ->. destruct Hin as (_ & _ & Ht).
  pose proof (get_le_range 4 file 60 Hby). pose proof (get_le_range 2 file (hdr_offset file + 20) Hby).
  pose proof (get_le_range 2 file (hdr_offset file + 6) Hby).
  unfold hdr_sections, hdr_table, hdr_optional_size in *. fold (hdr_offset file) in *. lia.
Qed.

Section loader.
Context {S : Type} `{FrameAllocatorLaws S ok taken managed}.
Implicit Types st : machine S.

(** Enough frames for [n] more allocations. *)
Definition room s (n : nat) : Prop :=
  ∃ X : gset Z, (∀ f, f ∈ X → managed s f ∧ taken s f = false) ∧ (n <= size X)%nat.

Lemma room_le s n k : (k <= n)%nat → room s n → room s k.
Proof. intros Hk (X & HX & Hn). exists X. split; [done|lia]. Qed.

Lemma room_alloc s s' f n :
  (∀ g, managed s' g ↔ managed s g) → (∀ g, taken s' g = (g =? f) || taken s g) →
  room s (Datatypes.S n) → room s' n.
Proof.
  intros Hm Ht (X & HX & Hn). exists (X ∖ {[f]}). split.
  - intros g [Hg Hne]%elem_of_difference. rewrite not_elem_of_singleton in Hne.
    destruct (HX g Hg) as [H1 H2]. split; [by apply Hm|]. rewrite Ht, H2.
    destruct (Z.eqb_spec g f); done.
  - rewrite size_difference_alt.
    assert (size (X ∩ {[f]}) <= 1)%nat; [|lia].
    rewrite <-(size_singleton (C := gset Z) f). apply subseteq_size. set_solver.
Qed.

(** With room for one frame an allocation succeeds. *)
Lemma alloc_room s n :
  ok s → room s (Datatypes.S n) →
  ∃ f s', alloc_block s = (4096 * f, s') ∧ 0 < f < 0x100000 ∧ taken s f = false ∧ ok s' ∧ room s' n ∧
    ∀ g, taken s' g = (g =? f) || taken s g.
Proof.
  intros Hok Hr. pose proof Hr as (X & HX & Hn). destruct (set_choose_or_empty X) as [[x Hx]|He].
  2: { assert (size X = 0)%nat by (by apply size_empty_iff). lia. }
  destruct (HX x Hx) as [Hm Hfree]. pose proof (alloc_progress s x Hok Hm Hfree) as Ha.
  destruct (alloc_block s) as [a s'] eqn:E. simpl in Ha.
  destruct (alloc_frame s a s' Hok E Ha) as (f & -> & Hf & _ & Hfr & Hok' & Hm' & Ht').
  exists f, s'. split_and!; try done; try lia. by eapply room_alloc.
Qed.

(** The address space of the directory in frame [fd], whichever directory is loaded: its
    user pages lie in frames in use, different pages in different frames. *)
Record space_ok st (fd : Z) : Prop := {
  so_ok : ok (frames (vm st));
  so_wf : dir_wf (taken := taken) (frames (vm st)) (mem (vm st)) fd;
  so_leaf : ∀ v f, 0 <= v < KERNEL_VIRT_BASE → walk (mem (vm st)) fd v = Some f → taken (frames (vm st)) f = true;
  so_inj : ∀ v w f, 0 <= v < KERNEL_VIRT_BASE → 0 <= w < KERNEL_VIRT_BASE →
    walk (mem (vm st)) fd v = Some f → walk (mem (vm st)) fd w = Some f → v / 4096 = w / 4096 }.

Definition active st (fd : Z) : Prop := at_dir (vm st) fd ∧ cr3 (vm st) = 4096 * fd.

Lemma map_page_frames (m : vmm S) phys virt flags :
  frames (vmm_map_page m phys virt flags).2 = frames m ∨
  frames (vmm_map_page m phys virt flags).2 = (alloc_block (frames m)).2.
Proof.
  unfold vmm_map_page. cbv zeta. destruct (negb _); [|by left].
  destruct (alloc_block (frames m)) as [a s']. destruct (a =? 0); by right.
Qed.

Definition page_of (v w : Z) : bool := v / 4096 =? w / 4096.

(** A fresh frame mapped at [virt]: the page is now backed by it, the rest is as before. *)
Lemma map_fresh st fd virt n :
  space_ok st fd → active st fd → 0 <= virt < KERNEL_VIRT_BASE → room (frames (vm st)) (2 + n) →
  let '(phys, s) := alloc_block (frames (vm st)) in
  let m := mk_vmm s (mem (vm st)) (kernel_directory (vm st)) (current_directory (vm st)) (cr3 (vm st)) in
  let st1 := w_vm st (vmm_map_page m phys virt (Z.lor (Z.lor VMM_PRESENT VMM_WRITABLE) VMM_USER)).2 in
  ∃ f, space_ok st1 fd ∧ active st1 fd ∧ room (frames (vm st1)) n ∧
    kernel_directory (vm st1) = kernel_directory (vm st) ∧
    ∀ v, 0 <= v < 0x100000000 →
      walk (mem (vm st1)) fd v = if page_of v virt then Some f else walk (mem (vm st)) fd v.
Proof.
  intros [Hok Hwf Hleaf Hinj] [Hat Hcr] Hv Hr. unfold KERNEL_VIRT_BASE in *.
  destruct (alloc_room _ (Datatypes.S n) Hok Hr) as (f & s1 & -> & Hf & Hfree & Hok1 & Hr1 & Ht1).
  cbv beta iota zeta. set (m := mk_vmm s1 _ _ _ _).
  assert (dir_wf (taken := taken) s1 (mem (vm st)) fd) as Hwf1.
  { destruct Hwf as [W1 W2 W3 W4 W5]. constructor; try done.
    - by rewrite Ht1, W2, orb_true_r.
    - intros i Hi Ho. destruct (W4 i Hi Ho) as (A & B & C). split_and!; try done. by rewrite Ht1, B, orb_true_r. }
  pose proof (map_page_walk m fd f virt 7 Hat Hok1 Hwf1 ltac:(lia) ltac:(lia) ltac:(lia)) as HM.
  change (Z.lor (Z.lor VMM_PRESENT VMM_WRITABLE) VMM_USER) with 7.
  pose proof (map_page_frames m (4096 * f) virt 7) as HF.
  destruct (vmm_map_page m (4096 * f) virt 7) as [b m2]. cbn [snd] in *. destruct b.
  2: { destruct HM as (_ & _ & Hz). cbn [frames m] in Hz. exfalso.
       destruct (alloc_room s1 n Hok1 Hr1) as (g & s2 & E2 & Hg & _). rewrite E2 in Hz. simpl in Hz. lia. }
  destruct HM as ((Hat2 & Hk2 & Hc2 & Hok2 & Hwf2 & Hmono & Hman) & Hw). exists f. cbn [vm w_vm].
  assert (∀ g, taken (frames (vm st)) g = true → taken (frames m2) g = true) as Hmono'.
  { intros g Hg. apply Hmono. cbn [frames m]. by rewrite Ht1, Hg, orb_true_r. }
  assert (∀ v, 0 <= v < 0xC0000000 → walk (mem m2) fd v = if page_of v virt then Some f else walk (mem (vm st)) fd v) as Hw'.
  { intros v Hv'. apply Hw. lia. }
  split_and!; try done.
  - constructor; try done; cbn [vm].
    + intros v g Hv'. unfold KERNEL_VIRT_BASE in *. rewrite Hw' by done. destruct (page_of v virt).
      * intros [= <-]. apply Hmono. cbn [frames m]. by rewrite Ht1, Z.eqb_refl.
      * intros Hg. apply Hmono'. by eapply Hleaf.
    + intros v w g Hv' Hw''. unfold KERNEL_VIRT_BASE in *. rewrite !Hw' by done. unfold page_of.
      destruct (Z.eqb_spec (v / 4096) (virt / 4096)), (Z.eqb_spec (w / 4096) (virt / 4096)); try congruence.
      * intros [= <-] Hg. exfalso. apply Hleaf in Hg; [congruence|done].
      * intros Hg [= <-]. exfalso. apply Hleaf in Hg; [congruence|done].
      * intros A B. by eapply Hinj.
  - split; [exact Hat2|]. cbn [vm w_vm]. by rewrite Hc2.
  - destruct HF as [-> | ->]; [by apply (room_le _ (Datatypes.S n)); [lia|]|].
    cbn [frames m]. destruct (alloc_room s1 n Hok1 Hr1) as (g & s2 & -> & _ & _ & _ & Hr2 & _). done.
Qed.

(** A store changes the byte at its address and no other. *)
Lemma store_view st fd v b :
  space_ok st fd → active st fd → 0 <= v < KERNEL_VIRT_BASE → is_Some (view st fd v) →
  ∃ st', store st v b = Done st' ∧ vm st' = vm st ∧
    ∀ w, 0 <= w < KERNEL_VIRT_BASE → view st' fd w = if w =? v then Some b else view st fd w.
Proof.
  intros Hs [Hat Hcr] Hv [x Hx]. unfold view in Hx. apply fmap_Some in Hx as (f & Hf & _).
  unfold store, mmu. rewrite Hcr, Z.mul_comm, Z.div_mul by lia. rewrite Hf. cbn [fmap option_fmap option_map].
  destruct (Z.ltb_spec v KERNEL_VIRT_BASE); [|lia]. eexists. split; [reflexivity|]. split; [done|].
  intros w Hw. unfold view. cbn [vm ram]. destruct (walk (mem (vm st)) fd w) as [g|] eqn:Eg; cbn.
  - rewrite rd_wr. destruct (Z.eqb_spec w v) as [->|Hne].
    + rewrite Hf in Eg. injection Eg as <-. by rewrite Z.eqb_refl.
    + destruct (Z.eqb_spec (4096 * g + w mod 4096) (4096 * f + v mod 4096)) as [E|]; [|done].
      exfalso. assert (g = f ∧ w mod 4096 = v mod 4096) as [-> Em] by zlia.
      pose proof (so_inj _ _ Hs w v f Hw Hv Eg Hf). zlia.
  - destruct (Z.eqb_spec w v) as [->|]; [by rewrite Hf in Eg|done].
Qed.

Lemma space_ok_vm st st' fd : vm st' = vm st → space_ok st fd → space_ok st' fd.
Proof. intros E []. by constructor; rewrite ?E. Qed.

(** A run of stores into mapped pages. *)
Lemma store_range st fd a n (g : Z → Z) (get : Z → outcome Z) :
  space_ok st fd → active st fd → 0 <= a → a + Z.of_nat n <= KERNEL_VIRT_BASE →
  (∀ k, 0 <= k < Z.of_nat n → get k = Done (g k)) →
  (∀ k, 0 <= k < Z.of_nat n → is_Some (view st fd (a + k))) →
  ∃ st', for_outcome n 0 (λ k st, b ← get k; store st (u32 (a + k)) b) st = Done st' ∧ vm st' = vm st ∧
    ∀ w, 0 <= w < KERNEL_VIRT_BASE →
      view st' fd w = if (a <=? w) && (w <? a + Z.of_nat n) then Some (g (w - a)) else view st fd w.
Proof.
  intros Hs Hac Ha Hn Hget Hmap.
  destruct (for_outcome_inv (λ k st', vm st' = vm st ∧ ∀ w, 0 <= w < KERNEL_VIRT_BASE →
      view st' fd w = if (a <=? w) && (w <? a + k) then Some (g (w - a)) else view st fd w)
    n 0 (λ k st, b ← get k; store st (u32 (a + k)) b) st) as (st' & E & Hvm & Hv).
  - split; [done|]. intros w Hw. destruct (Z.leb_spec a w), (Z.ltb_spec w (a + 0)); try done. lia.
  - intros k st1 Hk (Hvm & Hv). rewrite Hget, outcome_bind_done by lia. unfold KERNEL_VIRT_BASE in *.
    rewrite u32_small by lia.
    destruct (store_view st1 fd (a + k) (g k)) as (st2 & E2 & Hvm2 & Hv2).
    { by eapply space_ok_vm. } { unfold active. by rewrite Hvm. } { unfold KERNEL_VIRT_BASE. lia. }
    { rewrite Hv by lia. destruct (Z.leb_spec a (a + k)), (Z.ltb_spec (a + k) (a + k)); try lia. apply Hmap. lia. }
    exists st2. split; [done|]. split; [congruence|]. unfold KERNEL_VIRT_BASE in *. intros w Hw.
    rewrite Hv2, Hv by done. destruct (Z.eqb_spec w (a + k)) as [->|].
    + destruct (Z.leb_spec a (a + k)), (Z.ltb_spec (a + k) (a + (k + 1))); try lia. cbn [andb]. do 2 f_equal. lia.
    + destruct (Z.leb_spec a w), (Z.ltb_spec w (a + k)), (Z.ltb_spec w (a + (k + 1))); try done; lia.
  - exists st'. by rewrite Z.add_0_l in Hv.
Qed.

(** What the steps of the loader keep. *)
Record same_space st st' (fd : Z) (n : nat) : Prop := {
  ss_ok : space_ok st' fd;
  ss_room : room (frames (vm st')) n;
  ss_kernel : kernel_directory (vm st') = kernel_directory (vm st) }.

(** A zeroed page at a page boundary. *)
Lemma map_zeroed_view st fd virt n :
  space_ok st fd → active st fd → 0 <= virt → virt mod 4096 = 0 → virt + 4096 <= KERNEL_VIRT_BASE →
  room (frames (vm st)) (2 + n) →
  ∃ st', map_zeroed st virt = Done st' ∧ same_space st st' fd n ∧ active st' fd ∧
    ∀ w, 0 <= w < KERNEL_VIRT_BASE →
      view st' fd w = if (virt <=? w) && (w <? virt + 4096) then Some 0 else view st fd w.
Proof.
  intros Hs Hac Hv Hal Hk Hr. unfold map_zeroed.
  pose proof (map_fresh st fd virt n Hs Hac ltac:(unfold KERNEL_VIRT_BASE in *; lia) Hr) as HM.
  destruct (alloc_block (frames (vm st))) as [phys s]. cbv zeta in *.
  set (st1 := w_vm st _) in *. destruct HM as (f & Hs1 & Hac1 & Hr1 & Hk1 & Hw).
  assert (∀ w, 0 <= w < KERNEL_VIRT_BASE → page_of w virt = (virt <=? w) && (w <? virt + 4096)) as Hp.
  { intros w Hw'. unfold page_of. destruct (Z.eqb_spec (w / 4096) (virt / 4096)),
      (Z.leb_spec virt w), (Z.ltb_spec w (virt + 4096)); try done; zlia. }
  destruct (store_range st1 fd virt 4096 (λ _, 0) (λ _, Done 0) Hs1 Hac1 Hv) as (st2 & E & Hvm & Hv2).
  - done.
  - done.
  - intros k Hk'. unfold view, KERNEL_VIRT_BASE in *. rewrite Hw by lia. rewrite Hp by lia.
    destruct (Z.leb_spec virt (virt + k)), (Z.ltb_spec (virt + k) (virt + 4096)); try lia. cbn. eauto.
  - exists st2. split; [exact E|]. split; [|split].
    + constructor; [by eapply space_ok_vm|by rewrite Hvm|by rewrite Hvm].
    + unfold active. by rewrite Hvm.
    + intros w Hw'. rewrite Hv2 by done. change (Z.of_nat 4096) with 4096. rewrite <-Hp by done.
      destruct (page_of w virt) eqn:Epg; [done|]. unfold view. unfold KERNEL_VIRT_BASE in *.
      rewrite Hw, Epg by lia. done.
Qed.

(** A run of zeroed pages. *)
Lemma map_pages_view st fd virt pages n (addr : Z → Z) :
  space_ok st fd → active st fd → 0 <= virt → virt mod 4096 = 0 →
  virt + 4096 * Z.of_nat pages <= KERNEL_VIRT_BASE → room (frames (vm st)) (2 * pages + n) →
  (∀ j, 0 <= j < Z.of_nat pages → addr j = virt + j * 4096) →
  ∃ st', for_outcome pages 0 (λ j st, map_zeroed st (addr j)) st = Done st' ∧
    same_space st st' fd n ∧ active st' fd ∧
    ∀ w, 0 <= w < KERNEL_VIRT_BASE →
      view st' fd w = if (virt <=? w) && (w <? virt + 4096 * Z.of_nat pages) then Some 0 else view st fd w.
Proof.
  intros Hs Hac Hv Hal Hk Hr Haddr.
  destruct (for_outcome_inv (λ j st', same_space st st' fd (2 * (pages - Z.to_nat j) + n) ∧ active st' fd ∧
      ∀ w, 0 <= w < KERNEL_VIRT_BASE →
        view st' fd w = if (virt <=? w) && (w <? virt + 4096 * j) then Some 0 else view st fd w)
    pages 0 (λ j st, map_zeroed st (addr j)) st) as (st' & E & Hss & Hac' & Hv').
  - split; [|split; [done|]].
    + constructor; [done| |done]. by rewrite Nat.sub_0_r.
    + intros w Hw. destruct (Z.leb_spec virt w), (Z.ltb_spec w (virt + 4096 * 0)); try done. lia.
  - intros j st1 Hj ([Hs1 Hr1 Hk1] & Hac1 & Hv1). rewrite Haddr by lia. unfold KERNEL_VIRT_BASE in *.
    destruct (map_zeroed_view st1 fd (virt + j * 4096) (2 * (pages - Z.to_nat (j + 1)) + n) Hs1 Hac1)
      as (st2 & E2 & [Hs2 Hr2 Hk2] & Hac2 & Hv2); unfold KERNEL_VIRT_BASE in *; [lia|zlia|lia| |].
    { eapply room_le; [|exact Hr1]. lia. }
    exists st2. split; [done|]. split; [constructor; [done|done|congruence]|]. split; [done|].
    intros w Hw. rewrite Hv2, Hv1 by done.
    destruct (Z.leb_spec virt w), (Z.leb_spec (virt + j * 4096) w), (Z.ltb_spec w (virt + j * 4096 + 4096)),
      (Z.ltb_spec w (virt + 4096 * j)), (Z.ltb_spec w (virt + 4096 * (j + 1))); try done; lia.
  - rewrite Z.add_0_l in *. exists st'. split; [done|]. split; [|done].
    destruct Hss as [A B C]. constructor; [done| |done]. eapply room_le; [|exact B]. lia.
Qed.

(** Loading a directory changes neither the address spaces nor the kernel's directory. *)
Lemma switch_keeps st d fd n :
  space_ok st fd → room (frames (vm st)) n →
  same_space st (switch_to st d) fd n ∧ ∀ w, view (switch_to st d) fd w = view st fd w.
Proof. intros [] ?. split; [by constructor|done]. Qed.

Lemma switch_active st fd : 0 <= fd < 0x100000 → active (switch_to st (P2V (4096 * fd))) fd.
Proof.
  intros Hf. split; unfold at_dir; cbn [vm switch_to w_vm vmm_switch_directory current_directory cr3];
    by rewrite V2P_P2V by lia.
Qed.

(** ** The layout of an image *)

Definition section_base (base : Z) (s : pe_section_header) : Z := u32 (virtual_address s + base).
Definition section_pages (s : pe_section_header) : Z := u32 (virtual_size s + 4095) / 4096.

(** The section over what was there before: the raw data, then zeros up to a page. *)
Definition lay (file : list Z) (base : Z) (s : pe_section_header) (V : Z → option Z) (v : Z) : option Z :=
  let va := section_base base s in
  if (va <=? v) && (v <? va + raw_data_size s) then Some (file.[raw_data_pointer s + (v - va)])
  else if (va <=? v) && (v <? va + 4096 * section_pages s) then Some 0
  else V v.

Definition section_ok (file : list Z) (base : Z) (s : pe_section_header) : Prop :=
  section_base base s mod 4096 = 0 ∧ section_base base s + 4096 * section_pages s <= KERNEL_VIRT_BASE ∧
  0 <= raw_data_size s <= 4096 * section_pages s ∧ 0 <= raw_data_pointer s ∧
  raw_data_pointer s + raw_data_size s <= alen file.

(** The section data, copied by way of the target directory from the kernel's one. *)
Lemma copy_view st fd va file off n k d :
  space_ok st fd → 0 <= fd < 0x100000 → room (frames (vm st)) k → 0 <= va → 0 <= n → va + n <= KERNEL_VIRT_BASE →
  0 <= off → off + n <= alen file → (∀ w, va <= w < va + n → is_Some (view st fd w)) →
  ∃ st', copy_in (switch_to st (P2V (4096 * fd))) va file off n = Done st' ∧
    same_space st (switch_to st' d) fd k ∧
    ∀ w, 0 <= w < KERNEL_VIRT_BASE → view (switch_to st' d) fd w =
      if (va <=? w) && (w <? va + n) then Some (file.[off + (w - va)]) else view st fd w.
Proof.
  intros Hs Hfd Hr Hva Hn Hkb Hoff Hfit Hmap.
  destruct (switch_keeps st (P2V (4096 * fd)) fd k Hs Hr) as [[Hs1 Hr1 Hk1] Hv1].
  destruct (store_range (switch_to st (P2V (4096 * fd))) fd va (Z.to_nat n)
              (λ k, file.[off + k]) (λ k, byte_at file (off + k))
              Hs1 (switch_active st fd Hfd) Hva) as (st2 & E2 & Hvm2 & Hv2); rewrite ?Z2Nat.id by lia.
  - done.
  - intros j Hj. apply byte_at_in; lia.
  - intros j Hj. rewrite Hv1. apply Hmap. lia.
  - rewrite Z2Nat.id in Hv2 by lia. exists st2. split; [exact E2|].
    assert (space_ok st2 fd) as Hs2 by (by eapply space_ok_vm).
    assert (room (frames (vm st2)) k) as Hr2 by (by rewrite Hvm2).
    destruct (switch_keeps st2 d fd k Hs2 Hr2) as [[Hs3 Hr3 Hk3] Hv3]. split.
    + constructor; [done|done|]. rewrite Hk3, Hvm2. exact Hk1.
    + intros w Hw. rewrite Hv3, Hv2 by done. destruct (_ && _); [done|apply Hv1].
Qed.

Lemma load_section_view st fd file base s n :
  space_ok st fd → 0 <= fd < 0x100000 → alen file < 0x100000000 → section_ok file base s →
  room (frames (vm st)) (2 * Z.to_nat (section_pages s) + n) →
  ∃ st', load_section st file (alen file) (P2V (4096 * fd)) base s = Done (true, st') ∧
    same_space st st' fd n ∧
    ∀ w, 0 <= w < KERNEL_VIRT_BASE → view st' fd w = lay file base s (view st fd) w.
Proof.
  intros Hs Hfd Hfl (Hal & Hkb & Hraw & Hptr & Hfit) Hr. unfold load_section.
  fold (section_base base s) (section_pages s). set (va := section_base base s) in *.
  assert (0 <= va) as Hva by (unfold va, section_base; pose proof (u32_range (virtual_address s + base)); lia).
  assert (0 <= section_pages s) as Hpg.
  { unfold section_pages. pose proof (u32_range (virtual_size s + 4095)). apply Z.div_pos; lia. }
  destruct (switch_keeps st (P2V (4096 * fd)) fd _ Hs Hr) as [[Hs0 Hr0 Hk0] Hv0].
  destruct (map_pages_view (switch_to st (P2V (4096 * fd))) fd va (Z.to_nat (section_pages s)) n
              (λ j, u32 (va + j * 4096)) Hs0 (switch_active st fd Hfd) Hva Hal)
    as (st1 & E1 & [Hs1 Hr1 Hk1] & Hac1 & Hv1); rewrite ?Z2Nat.id by done; try done.
  { intros j Hj. unfold KERNEL_VIRT_BASE in *. rewrite u32_small by lia. done. }
  rewrite E1, outcome_bind_done. rewrite Z2Nat.id in Hv1 by done. cbv zeta.
  set (st2 := switch_to st1 (vmm_get_kernel_directory (vm st))).
  destruct (switch_keeps st1 (vmm_get_kernel_directory (vm st)) fd n Hs1 Hr1) as [[Hs2 Hr2 Hk2] Hv2].
  fold st2 in Hs2, Hr2, Hk2, Hv2.
  assert (∀ w, 0 <= w < KERNEL_VIRT_BASE → view st2 fd w =
    if (va <=? w) && (w <? va + 4096 * section_pages s) then Some 0 else view st fd w) as Hv2'.
  { intros w Hw. rewrite Hv2, Hv1 by done. destruct (_ && _); [done|apply Hv0]. }
  assert (kernel_directory (vm st2) = kernel_directory (vm st)) as Hkd by (rewrite Hk2, Hk1; exact Hk0).
  rewrite u32_small by lia. destruct (Z.ltb_spec (alen file) (raw_data_pointer s + raw_data_size s)); [lia|].
  destruct (Z.ltb_spec 0 (raw_data_size s)) as [Hpos|Hzero].
  - destruct (copy_view st2 fd va file (raw_data_pointer s) (raw_data_size s) n (vmm_get_kernel_directory (vm st2)))
      as (st3 & -> & [Hs3 Hr3 Hk3] & Hv3); try done; try lia.
    { intros w Hw. unfold KERNEL_VIRT_BASE in *. rewrite Hv2' by lia.
      destruct (Z.leb_spec va w), (Z.ltb_spec w (va + 4096 * section_pages s)); try lia. cbn. eauto. }
    eexists. split; [reflexivity|]. split; [constructor; [done|done|congruence]|].
    intros w Hw. rewrite Hv3 by done. unfold lay. fold va. destruct (_ && _); [done|by apply Hv2'].
  - eexists. split; [reflexivity|]. split; [by constructor|].
    intros w Hw. rewrite Hv2' by done. unfold lay. fold va. replace (raw_data_size s) with 0 by lia.
    destruct (Z.leb_spec va w), (Z.ltb_spec w (va + 0)); try lia; done.
Qed.

(** The section table of a file, and the image its sections make up, in order. *)
Definition read_section (file : list Z) (a : Z) : pe_section_header :=
  mk_section (get_le 4 file (a + 8)) (get_le 4 file (a + 12)) (get_le 4 file (a + 16)) (get_le 4 file (a + 20)).
Definition section_table (file : list Z) (table : Z) (n : nat) : list pe_section_header :=
  (λ i, read_section file (table + 40 * Z.of_nat i)) <$> seq 0 n.
Definition image (file : list Z) (base : Z) (ss : list pe_section_header) (V : Z → option Z) : Z → option Z :=
  foldl (λ V s, lay file base s V) V ss.
Definition image_pages (ss : list pe_section_header) : nat :=
  sum_list ((λ s, Z.to_nat (section_pages s)) <$> ss).

Lemma section_table_cons file table n :
  section_table file table (Datatypes.S n) = read_section file table :: section_table file (table + 40) n.
Proof.
  unfold section_table. cbn [seq fmap list_fmap]. f_equal; [f_equal; lia|].
  rewrite <-fmap_S_seq, <-list_fmap_compose. apply list_fmap_ext. intros i x Hx. cbn. f_equal. lia.
Qed.

Lemma section_at_read file a : 0 <= a → a + 40 <= alen file → section_at file a = Done (read_section file a).
Proof.
  intros Ha Hl. unfold section_at. by rewrite !word_at_in by lia.
Qed.

Lemma image_ext file base ss V V' (P : Z → Prop) :
  (∀ w, P w → V w = V' w) → ∀ w, P w → image file base ss V w = image file base ss V' w.
Proof.
  revert V V'. induction ss as [|s ss IH]; intros V V' HV w Hw; [by apply HV|]. cbn.
  apply IH; [|done]. intros x Hx. unfold lay. by rewrite HV.
Qed.

Lemma load_sections_view st fd file base table n k :
  space_ok st fd → 0 <= fd < 0x100000 → alen file < 0x100000000 → 0 <= table → table + 40 * Z.of_nat n <= alen file →
  Forall (section_ok file base) (section_table file table n) →
  room (frames (vm st)) (2 * image_pages (section_table file table n) + k) →
  ∃ st', load_sections st file (alen file) (P2V (4096 * fd)) base table n = Done (true, st') ∧
    same_space st st' fd k ∧
    ∀ w, 0 <= w < KERNEL_VIRT_BASE → view st' fd w = image file base (section_table file table n) (view st fd) w.
Proof.
  intros Hs Hfd Hfl. revert st table Hs. induction n as [|n IH]; intros st table Hs Ht Hl Hok Hr.
  { eexists. split; [reflexivity|]. by split. }
  rewrite section_table_cons in Hok, Hr |- *. apply Forall_cons in Hok as [Hs1 Hok].
  cbn [load_sections]. rewrite section_at_read, outcome_bind_done by lia.
  destruct (load_section_view st fd file base (read_section file table)
     (2 * image_pages (section_table file (table + 40) n) + k) Hs Hfd Hfl Hs1) as (st1 & -> & [Hso Hro Hko] & Hv1).
  { eapply room_le; [|exact Hr]. unfold image_pages. cbn [fmap list_fmap]. cbn. lia. }
  rewrite outcome_bind_done. cbn iota.
  destruct (IH st1 (table + 40) Hso ltac:(lia) ltac:(lia) Hok Hro) as (st2 & E2 & [Hs2 Hr2 Hk2] & Hv2).
  exists st2. split; [exact E2|]. split; [constructor; [done|done|congruence]|].
  intros w Hw. rewrite Hv2 by done. cbn [image foldl].
  by apply (image_ext _ _ _ _ _ (λ w, 0 <= w < KERNEL_VIRT_BASE)).
Qed.

Lemma P2V_nz f : 0 <= f < 0x40000 → P2V (4096 * f) ≠ 0.
Proof. intros. unfold P2V, KERNEL_VIRT_BASE. rewrite u32_small; lia. Qed.

(** The stack over what was there before. *)
Definition with_stack (V : Z → option Z) (v : Z) : option Z :=
  if (USER_STACK_BASE <=? v) && (v <? USER_STACK_BASE + 4 * 4096) then Some 0 else V v.

(** C9: loading an accepted executable succeeds and never faults when its sections are page
    aligned and end below the kernel half, when the raw data of each lies inside the file and
    is not larger than its pages ([section_ok]), and when two frames are free for every page of
    the sections and of the stack.  (The loader checks none of this but the end of the raw
    data.)  The address space of the process is then the
    image of the file (the sections in table order: raw data, zeros up to the page, and what was
    mapped before outside them) under a cleared 16 KiB stack, the entry point and stack top are
    those of the headers, and the kernel's directory is loaded again. *)
Theorem pe_load_image st fd file opt ep count table base k :
  space_ok st fd → 0 <= fd < 0x40000 → alen file < 0x80000000 → bytes_ok file →
  pe_headers file (alen file) = Done (Some (opt, ep, count, table)) → image_base file opt = Done base →
  let ss := section_table file table (Z.to_nat count) in
  Forall (section_ok file base) ss → room (frames (vm st)) (2 * image_pages ss + (2 * 4 + k)) →
  ∃ st', pe_load st (Some file) (alen file) (P2V (4096 * fd)) = Done (Some (u32 (ep + base), 0xB0004000), st') ∧
    same_space st st' fd k ∧ cr3 (vm st') = V2P (kernel_directory (vm st)) ∧
    ∀ w, 0 <= w < KERNEL_VIRT_BASE → view st' fd w = with_stack (image file base ss (view st fd)) w.
Proof.
  intros Hs Hfd Hfl Hby Hh Hb ss Hok Hr.
  destruct (pe_headers_accept file opt ep count table Hfl Hby Hh) as (Hc & Ht & Htl).
  assert (0 <= fd < 0x100000) as Hfd' by lia.
  destruct (load_sections_view st fd file base table (Z.to_nat count) (2 * 4 + k)) as
    (st1 & E1 & [Hs1 Hr1 Hk1] & Hv1); try done; try lia.
  unfold pe_load. destruct (Z.eqb_spec (P2V (4096 * fd)) 0) as [Hz|_]; [by apply P2V_nz in Hz|]. rewrite Hh, outcome_bind_done, Hb, outcome_bind_done, E1, outcome_bind_done.
  cbn [negb]. destruct (switch_keeps st1 (P2V (4096 * fd)) fd _ Hs1 Hr1) as [[Hs2 Hr2 Hk2] Hv2].
  destruct (map_pages_view (switch_to st1 (P2V (4096 * fd))) fd USER_STACK_BASE 4 k (λ j, USER_STACK_BASE + j * 4096)
     Hs2 (switch_active st1 fd Hfd')) as (st3 & E3 & [Hs3 Hr3 Hk3] & _ & Hv3); try done.
  rewrite E3, outcome_bind_done. eexists. split; [reflexivity|].
  destruct (switch_keeps st3 (vmm_get_kernel_directory (vm st1)) fd k Hs3 Hr3) as [[Hs4 Hr4 Hk4] Hv4].
  split; [|split].
  - constructor; [done|done|]. congruence.
  - cbn. unfold vmm_get_kernel_directory. by rewrite Hk1.
  - intros w Hw. rewrite Hv4, Hv3 by done. unfold with_stack. change (4096 * Z.of_nat 4) with (4 * 4096).
    destruct (_ && _); [done|]. by rewrite Hv2, Hv1.
Qed.
End loader.

(** C10: the header checks of files under 2 GiB, decided exactly: they read past the end of the
    file if and only if [headers_outside] (the header offset lies in the last 24 bytes of the
    address space, or the file ends before the entry point field although the optional header,
    by its own size, fits), they accept it if and only if [headers_inside] (both signatures
    present, entry point field and section table inside the file) and then yield the fields at
    their offsets; every other file is rejected and the state is unchanged. *)
Theorem pe_headers_bounds file :
  alen file < 0x80000000 → bytes_ok file →
  (pe_headers file (alen file) = Fault ↔ headers_outside file) ∧
  (∀ h, pe_headers file (alen file) = Done (Some h) ↔ headers_inside file ∧ h = headers_found file) ∧
  ∀ S (A : FrameAllocator S) (st : machine S) dir, ¬ headers_outside file → ¬ headers_inside file →
    pe_load st (Some file) (alen file) dir = Done (None, st).
Proof.
  intros Hl Hby. destruct (pe_headers_cases file Hl Hby) as [[Ho E]|[[Hi E]|(Ho & Hi & E)]]; split_and!.
  1, 4, 7: rewrite E; split; [done|]; intros; try done; by destruct (headers_disjoint file Hl).
  1, 3, 5: intros h; rewrite E; split; [|by intros [Hi' ->]; first [done | destruct (headers_disjoint file Hl)]].
  1, 2, 3: intros Eh; try done; by injection Eh as <-.
  all: intros S A st dir Hno Hni; try done. unfold pe_load. destruct (dir =? 0); [done|]. by rewrite E.
Qed.

(** ** Witnesses: an executable with one section of 16 bytes at 0x401000 *)

Definition demo_file : list Z :=
  [0x4D; 0x5A] ++ replicate 58 0 ++ le_bytes 4 64 ++
  (le_bytes 4 0x4550 ++ [0x4C; 1; 1; 0] ++ replicate 12 0 ++ le_bytes 2 32 ++ [0; 0]) ++
  (replicate 16 0 ++ le_bytes 4 0x1000 ++ replicate 8 0 ++ le_bytes 4 0x400000) ++
  (replicate 8 0 ++ le_bytes 4 16 ++ le_bytes 4 0x1000 ++ le_bytes 4 16 ++ le_bytes 4 160 ++ replicate 16 0) ++
  [0xB8; 1; 2; 3; 4; 5; 6; 7; 8; 9; 10; 11; 12; 13; 14; 15].

(** The same file with a header offset that wraps around. *)
Definition demo_wrapped : list Z :=
  [0x4D; 0x5A] ++ replicate 58 0 ++ le_bytes 4 0xFFFFFFF0.

Definition demo_machine : machine pmm := mk_machine demo_vmm ∅.

Lemma demo_file_bytes : bytes_ok demo_file.
Proof. apply Forall_fold_right. vm_compute. intuition discriminate. Qed.

Lemma demo_wrapped_bytes : bytes_ok demo_wrapped.
Proof. apply Forall_fold_right. vm_compute. intuition discriminate. Qed.

Lemma demo_table : section_table demo_file 120 1 = [mk_section 16 0x1000 16 160].
Proof. by vm_compute. Qed.

Lemma demo_section_ok : section_ok demo_file 0x400000 (mk_section 16 0x1000 16 160).
Proof. unfold section_ok. split_and!; vm_compute; intros; discriminate || reflexivity. Qed.

Lemma demo_space : space_ok (ok := pmm_ok) (taken := pmm_taken) demo_machine 1.
Proof.
  destruct demo_vmm_ok as (Hd & Hok & Hwf).
  assert (∀ v, 0 <= v < KERNEL_VIRT_BASE → walk (mem demo_vmm) 1 v = None) as Hw.
  { intros v Hv. unfold walk, pde. cbn [mem demo_vmm].
    pose proof (pd_index_range v ltac:(unfold KERNEL_VIRT_BASE in *; lia)).
    by rewrite rd_zero_page by lia. }
  constructor; cbn [vm demo_machine]; [done|done| |].
  - intros v f Hv E. rewrite (Hw v Hv) in E. discriminate E.
  - intros v w f Hv _ E. rewrite (Hw v Hv) in E. discriminate E.
Qed.

Lemma demo_frames : room (taken := pmm_taken) (managed := pmm_managed) (frames demo_vmm) 10.
Proof.
  exists (list_to_set (Z.of_nat <$> seq 2 10)). split; [|by vm_compute].
  intros f Hf. assert (pmm_taken (frames demo_vmm) f = false) as Ht; [|by split; [apply pmm_taken_free|]].
  rewrite elem_of_list_to_set in Hf. apply list_elem_of_fmap in Hf as (i & -> & Hi%elem_of_seq).
  do 12 (destruct i as [|i]; [first [lia | by vm_compute]|]). lia.
Qed.

Lemma pe_load_image_witness :
  ∃ st', pe_load demo_machine (Some demo_file) 176 (P2V 4096) = Done (Some (0x401000, 0xB0004000), st') ∧
    view st' 1 0x401002 = Some 2 ∧ view st' 1 0x401FFF = Some 0 ∧ view st' 1 0x402000 = None ∧
    view st' 1 0xB0003FFC = Some 0.
Proof.
  destruct (pe_load_image demo_machine 1 demo_file 88 0x1000 1 120 0x400000 0 demo_space) as (st' & E & _ & _ & Hv).
  - lia.
  - done.
  - exact demo_file_bytes.
  - by vm_compute.
  - by vm_compute.
  - change (Z.to_nat 1) with 1%nat. rewrite demo_table. apply Forall_singleton. exact demo_section_ok.
  - change (Z.to_nat 1) with 1%nat. rewrite demo_table. exact demo_frames.
  - exists st'. split; [exact E|]. change (Z.to_nat 1) with 1%nat in Hv. rewrite demo_table in Hv.
    unfold KERNEL_VIRT_BASE in Hv. split_and!; (rewrite Hv by lia; vm_compute; reflexivity).
Defined.

Lemma pe_headers_bounds_witness :
  headers_inside demo_file ∧ headers_found demo_file = (88, 0x1000, 1, 120) ∧
  headers_outside demo_wrapped ∧
  pe_load demo_machine (Some [0x7F; 0x45]) 2 (P2V 4096) = Done (None, demo_machine).
Proof.
  split_and!.
  - by apply (proj1 (proj2 (pe_headers_bounds demo_file eq_refl demo_file_bytes)) (88, 0x1000, 1, 120)); vm_compute.
  - by vm_compute.
  - apply (pe_headers_bounds demo_wrapped); [done|exact demo_wrapped_bytes|by vm_compute].
  - by vm_compute.
Defined.
