(* ===== verification/Kheap.v ===== *)
(** * mm/allocator/kheap.c: the kernel heap

    A doubly linked list of headers laid out in the heap memory.  The model keeps the
    headers in memory, one cell per field at its offset in [header_t], and follows the
    source's pointers; [heap_repr] relates the memory to the list of blocks it
    represents, and the refinement theorems say what [kmalloc] and [kfree] do to that
    list.  Sections below: the code, the representation, the abstract first-fit allocator,
    the refinement, and what follows for clients. *)

From S2P Require Import Prelude KString Pmm Vmm.

Definition KHEAP_MAGIC : Z := 0x1234ABCD.
Definition HEADER_SIZE : Z := 20.

(** [struct header]: magic, size, is_free (one byte), next, prev. *)
Definition o_magic : Z := 0.
Definition o_size : Z := 4.
Definition o_free : Z := 8.
Definition o_next : Z := 12.
Definition o_prev : Z := 16.

Record kheap := mk_kheap { hmem : gmap Z Z; heap_start : Z }.

Definition fget (m : gmap Z Z) (h o : Z) : Z := rd m (h + o).
Definition fset (m : gmap Z Z) (h o v : Z) : gmap Z Z := wr m (h + o) v.

(** The pages of the heap that are not mapped yet are backed by consecutive frames from
    0x500000 on.  The loop [for (v = start_addr; v < start_addr + size; v += 4096)] visits
    the page addresses below the wrapped bound. *)
Definition kheap_map {S} `{FrameAllocator S} (st : vmm S) (start_addr size : Z) : vmm S :=
  (for_loop (Z.to_nat ((u32 (start_addr + size) - start_addr + 4095) / 4096)) 0
    (λ k '(st, phys),
       let v := u32 (start_addr + 4096 * k) in
       if vmm_get_phys st v =? 0 then
         ((vmm_map_page st phys v (Z.lor VMM_PRESENT VMM_WRITABLE)).2, u32 (phys + 4096))
       else (st, phys))
    (st, 0x500000)).1.

Definition kheap_init {S} `{FrameAllocator S} (st : vmm S) (m : gmap Z Z) (start_addr size : Z) :
    vmm S * kheap :=
  let h := start_addr in
  let m := fset m h o_magic KHEAP_MAGIC in
  let m := fset m h o_size (u32 (size - HEADER_SIZE)) in
  let m := fset m h o_free 1 in
  let m := fset m h o_next 0 in
  let m := fset m h o_prev 0 in
  (kheap_map st start_addr size, mk_kheap m start_addr).

Definition round8 (size : Z) : Z := Z.land (u32 (size + 7)) (u32 (Z.lnot 7)).

(** The block [curr] fits: split it when it is large enough, mark it taken. *)
Definition take_block (m : gmap Z Z) (curr size : Z) : gmap Z Z :=
  let csize := fget m curr o_size in
  let m :=
    if u32 (size + HEADER_SIZE + 8) <=? csize then
      let new_block := u32 (curr + HEADER_SIZE + size) in
      let m := fset m new_block o_magic KHEAP_MAGIC in
      let m := fset m new_block o_size (u32 (csize - size - HEADER_SIZE)) in
      let m := fset m new_block o_free 1 in
      let m := fset m new_block o_next (fget m curr o_next) in
      let m := fset m new_block o_prev curr in
      let m := if nz (fget m curr o_next) then fset m (fget m curr o_next) o_prev new_block
               else m in
      let m := fset m curr o_next new_block in
      fset m curr o_size size
    else m in
  fset m curr o_free 0.

(** The search loop; [None] when the fuel runs out. *)
Fixpoint kmalloc_loop (fuel : nat) (m : gmap Z Z) (curr size : Z) : option (Z * gmap Z Z) :=
  if curr =? 0 then Some (0, m)
  else
    match fuel with
    | O => None
    | S fuel' =>
        if nz (fget m curr o_free) && (size <=? fget m curr o_size) then
          Some (u32 (curr + HEADER_SIZE), take_block m curr size)
        else kmalloc_loop fuel' m (fget m curr o_next) size
    end.

Definition kmalloc (fuel : nat) (h : kheap) (size : Z) : option (Z * kheap) :=
  if size =? 0 then Some (0, h)
  else
    match kmalloc_loop fuel (hmem h) (heap_start h) (round8 size) with
    | Some (p, m) => Some (p, mk_kheap m (heap_start h))
    | None => None
    end.

(** Steps 1 and 2 of [kfree]: merge with a free successor, then with a free predecessor. *)
Definition merge_next (m : gmap Z Z) (header : Z) : gmap Z Z :=
  let next := fget m header o_next in
  if nz next && nz (fget m next o_free) then
    let m := fset m header o_size
               (u32 (fget m header o_size + (HEADER_SIZE + fget m next o_size))) in
    let m := fset m header o_next (fget m next o_next) in
    if nz (fget m header o_next) then fset m (fget m header o_next) o_prev header else m
  else m.

Definition merge_prev (m : gmap Z Z) (header : Z) : gmap Z Z :=
  let prev := fget m header o_prev in
  if nz prev && nz (fget m prev o_free) then
    let m := fset m prev o_size
               (u32 (fget m prev o_size + (HEADER_SIZE + fget m header o_size))) in
    let m := fset m prev o_next (fget m header o_next) in
    if nz (fget m header o_next) then fset m (fget m header o_next) o_prev prev else m
  else m.

Definition kfree (h : kheap) (ptr : Z) : kheap :=
  if ptr =? 0 then h
  else
    let header := u32 (ptr - HEADER_SIZE) in
    let m := hmem h in
    if negb (fget m header o_magic =? KHEAP_MAGIC) then h
    else if nz (fget m header o_free) then h
    else
      let m := fset m header o_free 1 in
      mk_kheap (merge_prev (merge_next m header) header) (heap_start h).

(** ** Representation *)

Definition blk : Type := Z * bool.  (* size, free *)

Definition bspan (b : blk) : Z := HEADER_SIZE + b.1.

Fixpoint total (l : list blk) : Z :=
  match l with [] => 0 | b :: l' => bspan b + total l' end.

Definition hdr (m : gmap Z Z) (h : Z) (b : blk) (next prev : Z) : Prop :=
  fget m h o_magic = KHEAP_MAGIC ∧ fget m h o_size = b.1 ∧
  fget m h o_free = (if b.2 then 1 else 0) ∧ fget m h o_next = next ∧ fget m h o_prev = prev.

(** The blocks [l] from address [h] on; [prev] precedes the first, [nxt] follows the
    last. *)
Fixpoint seg (m : gmap Z Z) (prev h : Z) (l : list blk) (nxt : Z) : Prop :=
  match l with
  | [] => True
  | b :: l' =>
      hdr m h b (match l' with [] => nxt | _ => h + bspan b end) prev ∧
      seg m h (h + bspan b) l' nxt
  end.

Definition sizes_ok (l : list blk) : Prop := Forall (λ b, 0 <= b.1) l.

Record heap_repr (hp : kheap) (l : list blk) : Prop := {
  hr_start : 4096 <= heap_start hp;
  hr_end : heap_start hp + total l < 0x100000000 - 28;
  hr_sizes : sizes_ok l;
  hr_nonempty : l ≠ [];
  hr_seg : seg (hmem hp) 0 (heap_start hp) l 0 }.

(** ** The abstract allocator: first fit with splitting, and coalescing free *)

Fixpoint abs_malloc (l : list blk) (size : Z) : option (Z * list blk) :=
  match l with
  | [] => None
  | (sz, fr) :: l' =>
      if fr && (size <=? sz) then
        Some (0, if size + HEADER_SIZE + 8 <=? sz
                 then (size, false) :: (sz - size - HEADER_SIZE, true) :: l'
                 else (sz, false) :: l')
      else
        match abs_malloc l' size with
        | Some (off, l'') => Some (HEADER_SIZE + sz + off, (sz, fr) :: l'')
        | None => None
        end
  end.

Definition abs_merge_next (sz : Z) (l2 : list blk) : list blk :=
  match l2 with
  | (s2, true) :: l2' => (sz + (HEADER_SIZE + s2), true) :: l2'
  | _ => (sz, true) :: l2
  end.

(** The block [(sz, false)] of [l1 ++ (sz, false) :: l2] is freed. *)
Fixpoint abs_free (l1 : list blk) (sz : Z) (l2 : list blk) : list blk :=
  match l1 with
  | [] => abs_merge_next sz l2
  | [(s0, true)] =>
      match abs_merge_next sz l2 with
      | (s1, _) :: l2' => (s0 + (HEADER_SIZE + s1), true) :: l2'
      | [] => []
      end
  | b :: l1' => b :: abs_free l1' sz l2
  end.

(** ** Reading back after writes *)

Lemma fget_fset m h o v h' o' :
  fget (fset m h o v) h' o' = if h' + o' =? h + o then v else fget m h' o'.
Proof. apply rd_wr. Qed.

(** [eqbs] decides the address comparisons left by [fget_fset] and [rd_wr]. *)
Ltac eqbs :=
  repeat match goal with
  | |- context [?a =? ?b] =>
      first [ rewrite (proj2 (Z.eqb_neq a b)) by lia | rewrite (proj2 (Z.eqb_eq a b)) by lia ]
  end.

Ltac offs := unfold bspan, o_magic, o_size, o_free, o_next, o_prev, HEADER_SIZE in *.

Lemma total_nonneg l : sizes_ok l → 0 <= total l.
Proof.
  induction 1 as [|[sz fr] l Hb Hl IH]; simpl in *; [done|]. offs. simpl in *. lia.
Qed.

Lemma total_app l1 l2 : total (l1 ++ l2) = total l1 + total l2.
Proof. induction l1; simpl; lia. Qed.

Lemma seg_cons m prev h b l nxt :
  seg m prev h (b :: l) nxt =
  (hdr m h b (match l with [] => nxt | _ => h + bspan b end) prev ∧ seg m h (h + bspan b) l nxt).
Proof. done. Qed.

Lemma hdr_frame m m' h b next prev :
  (∀ a, h <= a < h + HEADER_SIZE → rd m' a = rd m a) → hdr m h b next prev → hdr m' h b next prev.
Proof.
  intros Hm. unfold hdr, fget. offs. rewrite !Hm by lia. done.
Qed.

Lemma seg_frame m m' prev h l nxt :
  sizes_ok l → (∀ a, h <= a < h + total l → rd m' a = rd m a) →
  seg m prev h l nxt → seg m' prev h l nxt.
Proof.
  intros Hs. revert prev h. induction Hs as [|b l Hb Hl IH]; intros prev h Hm; simpl; [done|].
  pose proof (total_nonneg l Hl). simpl in Hm. offs. intros [Hh Hseg]. split.
  - eapply hdr_frame; [|exact Hh]. intros a Ha. apply Hm. offs. lia.
  - apply IH; [|done]. intros a Ha. apply Hm. lia.
Qed.

(** Relinking the first header of a segment to a new predecessor. *)
Lemma seg_set_prev m prev prev' h l nxt :
  sizes_ok l → l ≠ [] → seg m prev h l nxt → seg (fset m h o_prev prev') prev' h l nxt.
Proof.
  intros Hs Hne. destruct Hs as [|b l Hb Hl]; [done|]. simpl. intros [(?&?&?&?&?) Hseg].
  pose proof (total_nonneg l Hl). split.
  - unfold hdr. rewrite !fget_fset. offs. by eqbs.
  - eapply seg_frame; [done| |exact Hseg]. intros a Ha. unfold fset. rewrite rd_wr. offs. by eqbs.
Qed.

(** The pointer to the first block of a list that starts at [h]. *)
Definition first_ptr (h : Z) (l : list blk) (nxt : Z) : Z := match l with [] => nxt | _ => h end.

(** [a] lies in the payload of an allocated block. *)
Fixpoint live (h : Z) (l : list blk) (a : Z) : Prop :=
  match l with
  | [] => False
  | b :: l' => (b.2 = false ∧ h + HEADER_SIZE <= a < h + bspan b) ∨ live (h + bspan b) l' a
  end.

(** [m'] differs from [m] only inside the heap, and not in an allocated payload. *)
Definition keeps (h : Z) (l : list blk) (m m' : gmap Z Z) : Prop :=
  ∀ a, a < h ∨ h + total l <= a ∨ live h l a → rd m' a = rd m a.

Lemma live_bound h l a : sizes_ok l → live h l a → h + HEADER_SIZE <= a < h + total l.
Proof.
  intros Hs. revert h. induction Hs as [|[sz fr] l Hb Hl IH]; intros h; [done|].
  pose proof (total_nonneg l Hl). cbn [live total]. offs. cbn [fst snd] in *.
  intros [?|Hi]; [lia|]. specialize (IH _ Hi). lia.
Qed.

Lemma take_block_spec m prev c sz l2 size :
  0 < c → c + HEADER_SIZE + sz + total l2 < 0x100000000 - 28 → sizes_ok l2 →
  0 <= size <= sz → seg m prev c ((sz, true) :: l2) 0 →
  let m' := take_block m c size in
  seg m' prev c
    (if size + HEADER_SIZE + 8 <=? sz
     then (size, false) :: (sz - size - HEADER_SIZE, true) :: l2
     else (sz, false) :: l2) 0 ∧
  keeps c ((sz, true) :: l2) m m'.
Proof.
  intros Hc Hmax Hs2 Hsz [(Hmag & Hsize & Hfree & Hnext & Hprev) Hseg]. cbn [fst snd] in *.
  pose proof (total_nonneg l2 Hs2) as Ht2. unfold take_block, keeps. cbv zeta. rewrite Hsize.
  pose proof (λ a, live_bound (c + (20 + sz)) l2 a Hs2) as Hlive. cbn [live total].
  offs. cbn [fst snd] in *. rewrite u32_small by lia.
  destruct (Z.leb_spec (size + 20 + 8) sz) as [Hsplit|Hno].
  - rewrite (u32_small (c + 20 + size)), (u32_small (sz - size - 20)) by lia.
    rewrite !fget_fset. eqbs. rewrite Hnext.
    destruct l2 as [|b2 l2].
    + change (nz 0) with false. cbn iota. split.
      * cbn [seg]. unfold hdr. rewrite !fget_fset. offs. cbn [fst snd].
        eqbs. split_and!; done || lia.
      * intros a Ha. unfold fset. rewrite !rd_wr. simpl in Ha.
        destruct Ha as [|[|[[??]|[]]]]; [..|done]; by eqbs.
    + replace (nz _) with true by (unfold nz; by eqbs). cbn iota. split.
      * rewrite !seg_cons, <-(seg_cons _ _ _ b2). split; [|split].
        -- unfold hdr. rewrite !fget_fset. offs. cbn [fst snd]. eqbs. split_and!; done || lia.
        -- unfold hdr. rewrite !fget_fset. offs. cbn [fst snd].
           eqbs. split_and!; done || lia.
        -- offs. cbn [fst snd].
           replace (c + (20 + size) + (20 + (sz - size - 20))) with (c + (20 + sz)) in * by lia.
           apply (seg_frame (fset m (c + (20 + sz)) o_prev (c + (20 + size)))); [done| |].
           ++ intros a Ha. unfold fset. rewrite !rd_wr. offs. simpl total in *. offs.
              destruct (Z.eqb_spec a (c + (20 + sz) + 16)); eqbs; done || lia.
           ++ by eapply seg_set_prev.
      * intros a Ha.
        assert (a < c ∨ c + (20 + sz) + 20 <= a).
        { destruct Ha as [|[|[[??]|Ha%Hlive]]]; [lia| |done|lia].
          inversion Hs2; subst. pose proof (total_nonneg l2 ltac:(done)).
          destruct b2. simpl in *. offs. simpl in *. lia. }
        unfold fset. rewrite !rd_wr. by eqbs.
  - split.
    + cbn [seg]. split.
      * unfold hdr. rewrite !fget_fset. offs. cbn [fst snd]. by eqbs.
      * eapply seg_frame; [done| |exact Hseg]. intros a Ha. offs. cbn [fst] in Ha.
        unfold fset. rewrite rd_wr. by eqbs.
    + intros a Ha.
      assert (a < c ∨ c + (20 + sz) <= a).
      { destruct Ha as [|[|[[??]|Ha%Hlive]]]; [lia|lia|done|lia]. }
      unfold fset. rewrite rd_wr. by eqbs.
Qed.

Lemma abs_malloc_nonempty l size off l' : abs_malloc l size = Some (off, l') → l' ≠ [].
Proof.
  destruct l as [|[sz fr] l]; simpl; [done|]. repeat case_match; naive_solver.
Qed.

(** Extending [keeps] over a block in front of the ones that changed. *)
Lemma keeps_cons h b l m m' :
  0 <= b.1 → sizes_ok l → keeps (h + bspan b) l m m' → keeps h (b :: l) m m'.
Proof.
  intros Hb Hl Hk a Ha. apply Hk. cbn [total live] in Ha. pose proof (total_nonneg l Hl).
  offs. destruct Ha as [|[|[|]]]; auto; lia.
Qed.

Lemma keeps_seg h l m m' a : keeps h l m m' → a < h → rd m' a = rd m a.
Proof. intros Hk Ha. apply Hk. by left. Qed.

Lemma kmalloc_loop_spec fuel m prev h l size :
  0 < h → h + total l < 0x100000000 - 28 → sizes_ok l → 0 <= size < 0x100000000 →
  (length l <= fuel)%nat → seg m prev h l 0 →
  match abs_malloc l size with
  | Some (off, l') =>
      ∃ m', kmalloc_loop fuel m (first_ptr h l 0) size = Some (h + off + HEADER_SIZE, m') ∧
            seg m' prev h l' 0 ∧ keeps h l m m'
  | None => kmalloc_loop fuel m (first_ptr h l 0) size = Some (0, m)
  end ∧ ∀ off l', abs_malloc l size = Some (off, l') → 0 <= off ∧ off + 20 <= total l.
Proof.
  intros Hh Hmax Hs Hsize. revert fuel prev h Hh Hmax.
  induction Hs as [|[sz fr] l Hb Hl IH]; intros fuel prev h Hh Hmax Hfuel Hseg.
  { simpl. by destruct fuel. }
  destruct fuel as [|fuel]; simpl in Hfuel; [lia|].
  pose proof (total_nonneg l Hl) as Ht. cbn [total] in Hmax |- *.
  cbn [abs_malloc first_ptr kmalloc_loop].
  destruct Hseg as [Hh0 Hseg]. pose proof Hh0 as (_ & Hsz & Hfr & Hnx & _).
  cbn [fst snd] in *. rewrite Hsz, Hfr. offs. cbn [fst] in *. eqbs.
  assert (nz (if fr then 1 else 0) = fr) as -> by (by destruct fr).
  destruct (fr && (size <=? sz)) eqn:E.
  - split; [|intros ?? [= <- <-]; lia].
    apply andb_true_iff in E as [-> Hle%Z.leb_le].
    destruct (take_block_spec m prev h sz l size) as [Hseg' Hfrm]; [lia|offs; lia|done|lia|done|].
    offs. exists (take_block m h size). rewrite u32_small by lia.
    split_and!; [do 2 f_equal; lia|done|done].
  - specialize (IH fuel h (h + (20 + sz)) ltac:(lia) ltac:(lia) ltac:(lia) Hseg) as [IH Hoff].
    assert (fget m h 12 = first_ptr (h + (20 + sz)) l 0) as ->.
    { rewrite Hnx. by destruct l. }
    destruct (abs_malloc l size) as [[off l']|] eqn:Ea; [|done].
    destruct (Hoff off l' eq_refl) as [Ho1 Ho2].
    split; [|intros ?? [= <- <-]; lia].
    destruct IH as (m' & He & Hs' & Hk). exists m'. rewrite He.
    split_and!; [do 2 f_equal; lia| |by apply keeps_cons].
    rewrite seg_cons. offs. cbn [fst]. split; [|done].
    apply (hdr_frame m); [intros a Ha; eapply keeps_seg; [done|offs; lia]|].
    pose proof (abs_malloc_nonempty _ _ _ _ Ea). by destruct l', l.
Qed.

Lemma round8_eq size : round8 size = 8 * (u32 (size + 7) / 8).
Proof.
  unfold round8. change (u32 (Z.lnot 7)) with (Z.shiftl (Z.ones 29) 3).
  pose proof (u32_range (size + 7)) as Hr. set (x := u32 (size + 7)) in *.
  rewrite (Z.mul_comm 8). change 8 with (2 ^ 3). rewrite <-Z.shiftr_div_pow2 by lia.
  rewrite <-Z.shiftl_mul_pow2 by lia. apply Z.bits_inj'. intros k Hk.
  rewrite Z.land_spec, !Z.shiftl_spec by lia.
  destruct (Z.ltb_spec k 3).
  { rewrite !(Z.testbit_neg_r _ (k - 3)) by lia. apply andb_false_r. }
  rewrite Z.shiftr_spec by lia. replace (k - 3 + 3) with k by lia.
  destruct (Z.ltb_spec k 32).
  - rewrite Z.ones_spec_low by lia. apply andb_true_r.
  - rewrite word_testbit_high by lia. done.
Qed.

Lemma round8_bounds size :
  0 < size <= 0xFFFFFFF8 → size <= round8 size < size + 8 ∧ round8 size mod 8 = 0.
Proof.
  intros. rewrite round8_eq, u32_small by lia. zlia.
Qed.

Lemma round8_range size : 0 <= round8 size < 0x100000000.
Proof. rewrite round8_eq. words. Qed.

(** ** The abstract allocator *)

Definition fits (n : Z) (b : blk) : Prop := b.2 = true ∧ n <= b.1.

Definition split_block (n sz : Z) : list blk :=
  if n + HEADER_SIZE + 8 <=? sz then [(n, false); (sz - n - HEADER_SIZE, true)] else [(sz, false)].

Lemma abs_malloc_None l n : abs_malloc l n = None ↔ Forall (λ b, ¬ fits n b) l.
Proof.
  induction l as [|[sz fr] l IH]; [by simpl|]. cbn [abs_malloc]. rewrite Forall_cons. unfold fits at 1.
  simpl. destruct fr; simpl; [destruct (Z.leb_spec n sz)|]; simpl;
    [naive_solver|..]; destruct (abs_malloc l n) as [[??]|]; naive_solver lia.
Qed.

Lemma abs_malloc_Some l n off l' :
  abs_malloc l n = Some (off, l') →
  ∃ l1 sz l2, l = l1 ++ (sz, true) :: l2 ∧ Forall (λ b, ¬ fits n b) l1 ∧ n <= sz ∧
    off = total l1 ∧ l' = l1 ++ split_block n sz ++ l2.
Proof.
  revert off l'. induction l as [|[sz fr] l IH]; intros off l'; [done|]. cbn [abs_malloc].
  destruct (fr && (n <=? sz)) eqn:E.
  - apply andb_true_iff in E as [-> Hle%Z.leb_le]. intros [= <- <-].
    exists [], sz, l. unfold split_block. split_and!; try done. by case_match.
  - destruct (abs_malloc l n) as [[off' l'']|] eqn:Ea; [|done]. intros [= <- <-].
    destruct (IH off' l'' eq_refl) as (l1 & sz' & l2 & -> & Hf & Hle & -> & ->).
    exists ((sz, fr) :: l1), sz', l2. split_and!; try done. constructor; [|done].
    unfold fits. simpl. intros [-> Hn%Z.leb_le]. by rewrite Hn in E.
Qed.

Lemma total_split n sz : total (split_block n sz) = bspan (sz, true).
Proof. unfold split_block. case_match; simpl; offs; simpl; lia. Qed.

Lemma sizes_ok_split n sz : 0 <= n <= sz → sizes_ok (split_block n sz).
Proof.
  intros. unfold split_block. destruct (Z.leb_spec (n + HEADER_SIZE + 8) sz); offs;
    repeat constructor; simpl; lia.
Qed.

(** ** Segments of a concatenation *)

Fixpoint last_ptr (prev h : Z) (l : list blk) : Z :=
  match l with [] => prev | b :: l' => last_ptr h (h + bspan b) l' end.

Lemma seg_app m prev h l1 l2 nxt :
  seg m prev h (l1 ++ l2) nxt ↔
  seg m prev h l1 (first_ptr (h + total l1) l2 nxt) ∧
  seg m (last_ptr prev h l1) (h + total l1) l2 nxt.
Proof.
  revert prev h. induction l1 as [|b l1 IH]; intros prev h.
  { simpl. rewrite Z.add_0_r. tauto. }
  change ((b :: l1) ++ l2) with (b :: (l1 ++ l2)). rewrite !seg_cons, IH.
  cbn [last_ptr total]. replace (h + (bspan b + total l1)) with (h + bspan b + total l1) by lia.
  assert (match l1 ++ l2 with [] => nxt | _ => h + bspan b end =
          match l1 with [] => first_ptr (h + bspan b + total l1) l2 nxt | _ => h + bspan b end) as ->.
  { destruct l1; [|done]. simpl. rewrite Z.add_0_r. by destruct l2. }
  tauto.
Qed.

Lemma last_ptr_snoc prev h l b : last_ptr prev h (l ++ [b]) = h + total l.
Proof.
  revert prev h. induction l as [|b' l IH]; intros prev h; simpl; [lia|]. rewrite IH. lia.
Qed.

(** ** Freeing *)

Lemma merge_next_spec m prev c sz l2 :
  0 < c → c + HEADER_SIZE + sz + total l2 < 0x100000000 → 0 <= sz → sizes_ok l2 →
  seg m prev c ((sz, true) :: l2) 0 →
  seg (merge_next m c) prev c (abs_merge_next sz l2) 0 ∧
  keeps c ((sz, true) :: l2) m (merge_next m c).
Proof.
  intros Hc Hmax Hsz Hs2 Hseg0. pose proof Hseg0 as [(Hmag & Hsize & Hfree & Hnext & Hprev) Hseg].
  cbn [fst snd] in *. unfold merge_next. cbv zeta. rewrite Hnext.
  destruct Hs2 as [|[s2 f2] l2 Hb2 Hs2]; [by simpl in *|].
  offs. cbn [fst snd total] in *. offs. cbn [fst snd] in *.
  replace (nz (c + (20 + sz))) with true by (unfold nz; by eqbs). rewrite andb_true_l.
  rewrite seg_cons in Hseg. destruct Hseg as [(Hm2 & Hz2 & Hf2 & Hn2 & Hp2) Hseg].
  cbn [fst snd] in *. offs. rewrite Hf2. destruct f2; [|done].
  change (nz 1) with true. cbn iota. pose proof (total_nonneg l2 Hs2).
  rewrite Hsize, Hz2, (u32_small (sz + (20 + s2))) by lia. rewrite !fget_fset. offs. eqbs. rewrite Hn2.
  unfold keeps. cbn [live total]. offs. cbn [fst snd].
  pose proof (λ a, live_bound (c + (20 + sz) + (20 + s2)) l2 a Hs2) as Hlive. offs.
  destruct l2 as [|b3 l2]; cbn iota.
  - change (nz 0) with false. cbn iota. split.
    + simpl. unfold hdr. rewrite !fget_fset. offs. simpl. by eqbs.
    + intros a Ha. unfold fset. rewrite !rd_wr. simpl in *.
      destruct Ha as [|[|[[??]|[[??]|[]]]]]; try done; by eqbs.
  - replace (nz _) with true by (unfold nz; by eqbs). cbn iota.
    unfold abs_merge_next. split.
    + rewrite seg_cons. offs. cbn [fst snd]. split.
      * unfold hdr. rewrite !fget_fset. offs. cbn [fst snd]. eqbs. split_and!; done || lia.
      * replace (c + (20 + (sz + (20 + s2)))) with (c + (20 + sz) + (20 + s2)) by lia.
        eapply (seg_frame (fset m (c + (20 + sz) + (20 + s2)) o_prev c)); [done| |].
        -- intros a Ha. unfold fset. rewrite !rd_wr. offs.
           destruct (Z.eqb_spec a (c + (20 + sz) + (20 + s2) + 16)); eqbs; done || lia.
        -- by eapply seg_set_prev.
    + intros a Ha.
      assert (a < c ∨ c + (20 + sz) + (20 + s2) + 20 <= a).
      { destruct Ha as [|[|[[??]|[[??]|Ha%Hlive]]]]; try done; [lia| |lia].
        inversion Hs2 as [|?? Hb3 Hs3]; subst. pose proof (total_nonneg l2 Hs3).
        simpl in *. offs. destruct b3. simpl in *. lia. }
      unfold fset. rewrite !rd_wr. by eqbs.
Qed.

Lemma merge_prev_spec m pp p s0 f0 s1 l2 :
  0 < p → p + HEADER_SIZE + s0 + HEADER_SIZE + s1 + total l2 < 0x100000000 →
  0 <= s0 → 0 <= s1 → sizes_ok l2 →
  seg m pp p ((s0, f0) :: (s1, true) :: l2) 0 →
  seg (merge_prev m (p + HEADER_SIZE + s0)) pp p
    (if f0 then (s0 + (HEADER_SIZE + s1), true) :: l2 else (s0, f0) :: (s1, true) :: l2) 0 ∧
  keeps p ((s0, f0) :: (s1, true) :: l2) m (merge_prev m (p + HEADER_SIZE + s0)).
Proof.
  intros Hp Hmax Hs0 Hs1 Hs2 Hseg. pose proof Hseg as Hseg0. rewrite !seg_cons in Hseg.
  destruct Hseg as ((Hma & Hza & Hfa & Hna & Hpa) & (Hmb & Hzb & Hfb & Hnb & Hpb) & Hseg).
  unfold merge_prev. cbv zeta. offs. cbn [fst snd] in *.
  replace (p + 20 + s0) with (p + (20 + s0)) by lia. rewrite Hpb, Hfa.
  replace (nz p) with true by (unfold nz; by eqbs). rewrite andb_true_l.
  destruct f0; [|done]. change (nz 1) with true. cbn iota.
  pose proof (total_nonneg l2 Hs2). rewrite !fget_fset. offs. rewrite Hza, Hzb.
  rewrite (u32_small (s0 + (20 + s1))) by lia. eqbs. rewrite Hnb.
  unfold keeps. cbn [live total]. offs. cbn [fst snd].
  pose proof (λ a, live_bound (p + (20 + s0) + (20 + s1)) l2 a Hs2) as Hlive. offs.
  destruct l2 as [|b3 l2]; cbn iota.
  - change (nz 0) with false. cbn iota. split.
    + simpl. unfold hdr. rewrite !fget_fset. offs. simpl. by eqbs.
    + intros a Ha. unfold fset. rewrite !rd_wr. simpl in *.
      destruct Ha as [|[|[[??]|[[??]|[]]]]]; try done; by eqbs.
  - replace (nz _) with true by (unfold nz; by eqbs). cbn iota. split.
    + rewrite seg_cons. offs. cbn [fst snd]. split.
      * unfold hdr. rewrite !fget_fset. offs. cbn [fst snd]. eqbs. split_and!; done || lia.
      * replace (p + (20 + (s0 + (20 + s1)))) with (p + (20 + s0) + (20 + s1)) by lia.
        eapply (seg_frame (fset m (p + (20 + s0) + (20 + s1)) o_prev p)); [done| |].
        -- intros a Ha. unfold fset. rewrite !rd_wr. offs.
           destruct (Z.eqb_spec a (p + (20 + s0) + (20 + s1) + 16)); eqbs; done || lia.
        -- by eapply seg_set_prev.
    + intros a Ha.
      assert (a < p ∨ p + (20 + s0) + (20 + s1) + 20 <= a).
      { destruct Ha as [|[|[[??]|[[??]|Ha%Hlive]]]]; try done; [lia| |lia].
        inversion Hs2 as [|?? Hb3 Hs3]; subst. pose proof (total_nonneg l2 Hs3).
        simpl in *. offs. destruct b3. simpl in *. lia. }
      unfold fset. rewrite !rd_wr. by eqbs.
Qed.

Lemma abs_free_snoc l0 s0 f0 sz l2 :
  abs_free (l0 ++ [(s0, f0)]) sz l2 =
  l0 ++ (if f0 then
           match abs_merge_next sz l2 with
           | (s1, _) :: l2' => (s0 + (HEADER_SIZE + s1), true) :: l2'
           | [] => []
           end
         else (s0, f0) :: abs_merge_next sz l2).
Proof.
  induction l0 as [|[s f] l0 IH]; simpl; [by destruct f0|].
  destruct f; [|by rewrite IH]. destruct (l0 ++ [(s0, f0)]) eqn:E; [|by rewrite <-IH].
  by destruct l0.
Qed.

Lemma abs_merge_next_cons sz l2 :
  ∃ s1 l2', abs_merge_next sz l2 = (s1, true) :: l2' ∧
    (0 <= sz → sizes_ok l2 → 0 <= s1 ∧ sizes_ok l2') ∧
    bspan (s1, true) + total l2' = bspan (sz, true) + total l2.
Proof.
  unfold abs_merge_next. destruct l2 as [|[s2 []] l2]; eexists _, _; (split; [done|]);
    simpl; offs; simpl; (split; [|lia]).
  - done.
  - intros ? [??]%Forall_cons. simpl in *. split; [lia|done].
  - intros ? ?. done.
Qed.

Lemma total_abs_free l1 sz l2 : total (abs_free l1 sz l2) = total (l1 ++ (sz, false) :: l2).
Proof.
  destruct (abs_merge_next_cons sz l2) as (s1 & l2' & He & _ & Ht).
  destruct l1 as [|[s0 f0] l1 _] using rev_ind.
  - simpl. rewrite He. simpl. offs. simpl in *. lia.
  - rewrite abs_free_snoc, He, !total_app. destruct f0; simpl; offs; simpl in *; lia.
Qed.

Lemma sizes_ok_abs_free l1 sz l2 :
  sizes_ok (l1 ++ (sz, false) :: l2) → sizes_ok (abs_free l1 sz l2).
Proof.
  unfold sizes_ok. rewrite Forall_app, Forall_cons. simpl. intros (H1 & Hsz & H2).
  destruct (abs_merge_next_cons sz l2) as (s1 & l2' & He & Hok & _).
  destruct (Hok Hsz H2) as [Hs1 Hl2'].
  destruct l1 as [|[s0 f0] l1 _] using rev_ind.
  - simpl. rewrite He. by constructor.
  - apply Forall_app in H1 as [H1 [H0 _]%Forall_cons]. rewrite abs_free_snoc, He. simpl in *.
    unfold HEADER_SIZE.
    apply Forall_app. split; [done|]. destruct f0; repeat constructor; simpl; try done; lia.
Qed.

Lemma live_app h l1 l2 a : live h (l1 ++ l2) a ↔ live h l1 a ∨ live (h + total l1) l2 a.
Proof.
  revert h. induction l1 as [|b l1 IH]; intros h; simpl.
  - rewrite Z.add_0_r. tauto.
  - rewrite IH. replace (h + (bspan b + total l1)) with (h + bspan b + total l1) by lia. tauto.
Qed.

Lemma keeps_app h l1 l2 m m' :
  sizes_ok l1 → sizes_ok l2 → keeps (h + total l1) l2 m m' → keeps h (l1 ++ l2) m m'.
Proof.
  intros H1 H2 Hk a Ha. apply Hk. rewrite total_app, live_app in Ha.
  pose proof (total_nonneg l1 H1). pose proof (total_nonneg l2 H2).
  destruct Ha as [|[|[Hl|]]]; auto; [lia|lia|].
  apply live_bound in Hl; [|done]. lia.
Qed.

Lemma keeps_trans h l l' m m' m'' :
  total l' = total l → (∀ a, live h l a → live h l' a) →
  keeps h l m m' → keeps h l' m' m'' → keeps h l m m''.
Proof.
  intros Ht Hl Hk Hk' a Ha. rewrite Hk', Hk; [done|done|]. rewrite Ht.
  destruct Ha as [|[|]]; auto.
Qed.

Lemma live_merge_next h sz l2 a :
  live h ((sz, true) :: l2) a → live h (abs_merge_next sz l2) a.
Proof.
  destruct l2 as [|[s2 []] l2]; try done. cbn [live abs_merge_next snd fst].
  intros [[??]|[[??]|H]]; [done|done|]. right. offs. simpl in *.
  by replace (h + (20 + (sz + (20 + s2)))) with (h + (20 + sz) + (20 + s2)) by lia.
Qed.

Lemma set_free_spec m prev c sz f l2 nxt :
  0 <= sz → sizes_ok l2 → seg m prev c ((sz, f) :: l2) nxt →
  seg (fset m c o_free 1) prev c ((sz, true) :: l2) nxt ∧
  keeps c ((sz, true) :: l2) m (fset m c o_free 1).
Proof.
  intros Hsz Hs2 [(?&?&?&?&?) Hseg]. pose proof (total_nonneg l2 Hs2). split.
  - rewrite seg_cons. split.
    + unfold hdr. rewrite !fget_fset. offs. simpl in *. by eqbs.
    + eapply seg_frame; [done| |exact Hseg]. intros a Ha. unfold fset. rewrite rd_wr.
      offs. simpl in *. by eqbs.
  - intros a Ha. unfold fset. rewrite rd_wr. cbn [live total] in Ha. offs. simpl in *.
    destruct Ha as [|[|[[??]|Ha%live_bound]]]; try done; offs; by eqbs.
Qed.

Lemma seg_prefix m m' prev h l1 l2 l nxt :
  sizes_ok l1 → keeps (h + total l1) l2 m m' → seg m prev h l1 nxt → (nxt = h + total l1) →
  l ≠ [] → seg m' (last_ptr prev h l1) (h + total l1) l 0 → seg m' prev h (l1 ++ l) 0.
Proof.
  intros H1 Hk Hs -> Hl Hs'. apply seg_app. split; [|done].
  destruct l; [done|]. simpl. eapply seg_frame; [done| |exact Hs].
  intros a Ha. apply Hk. left. lia.
Qed.

(** Both merges, for the block at the end of the prefix [l1]. *)
Lemma merge_spec m h l1 sz l2 :
  0 < h → h + total (l1 ++ (sz, true) :: l2) < 0x100000000 →
  sizes_ok l1 → 0 <= sz → sizes_ok l2 →
  seg m 0 h (l1 ++ (sz, true) :: l2) 0 →
  let m' := merge_prev (merge_next m (h + total l1)) (h + total l1) in
  seg m' 0 h (abs_free l1 sz l2) 0 ∧ keeps h (l1 ++ (sz, true) :: l2) m m'.
Proof.
  intros Hh Hmax H1 Hsz H2 Hseg. cbv zeta. rewrite total_app in Hmax. cbn [total] in Hmax.
  pose proof (total_nonneg l1 H1). pose proof (total_nonneg l2 H2).
  pose proof Hseg as [Hs1 Hs2]%seg_app. simpl first_ptr in Hs1.
  destruct (merge_next_spec m (last_ptr 0 h l1) (h + total l1) sz l2)
    as [Hn Hkn]; [lia|offs; simpl in *; lia|done|done|done|].
  set (m1 := merge_next m (h + total l1)) in *.
  destruct (abs_merge_next_cons sz l2) as (s1 & l2' & He & Hok & Ht).
  destruct (Hok Hsz H2) as [Hs1' H2']. pose proof (total_nonneg l2' H2').
  assert (seg m1 0 h (l1 ++ abs_merge_next sz l2) 0) as Hs.
  { eapply seg_prefix; try done. by rewrite He. }
  assert (keeps h (l1 ++ (sz, true) :: l2) m m1) as Hk.
  { apply keeps_app; [done|by constructor|done]. }
  clearbody m1. destruct l1 as [|[s0 f0] l0 _] using rev_ind.
  - simpl total in *. rewrite Z.add_0_r in *. cbn [abs_free app] in *. rewrite He in *.
    assert (merge_prev m1 h = m1) as ->.
    { unfold merge_prev. cbv zeta. destruct Hs as [(_&_&_&_&Hp) _]. by rewrite Hp. }
    done.
  - apply Forall_app in H1 as [Hok0 [Hs0 _]%Forall_cons]. pose proof (total_nonneg l0 Hok0).
    rewrite <-app_assoc in Hs. cbn [app] in Hs. rewrite He in Hs.
    pose proof Hs as [Hsa Hsb]%seg_app. rewrite total_app in *. cbn [total fst] in *.
    offs. cbn [fst first_ptr] in *.
    destruct (merge_prev_spec m1 (last_ptr 0 h l0) (h + total l0) s0 f0 s1 l2')
      as [Hp Hkp]; [lia|offs; lia|done..|]. offs.
    replace (h + (total l0 + (20 + s0 + 0))) with (h + total l0 + 20 + s0) by lia.
    split.
    + rewrite abs_free_snoc, He. offs.
      eapply seg_prefix; [done|exact Hkp|exact Hsa|done|by destruct f0|].
      by destruct f0.
    + eapply (keeps_trans _ _ (l0 ++ (s0, f0) :: (s1, true) :: l2')); [..|exact Hk|].
      * rewrite !total_app. cbn [total]. offs. cbn [fst]. lia.
      * intros a. rewrite <-app_assoc, !live_app. intros [|Hl]; [by left|right].
        destruct Hl as [[Hl|[]]|Hl]; [by left|right]. apply live_merge_next in Hl.
        rewrite He in Hl. cbn [total] in Hl. by rewrite Z.add_0_r in Hl.
      * apply keeps_app; [done| |done]. repeat (constructor; [done|]). done.
Qed.

(** ** The heap operations against the abstract allocator *)

Lemma first_ptr_ne h l nxt : l ≠ [] → first_ptr h l nxt = h.
Proof. by destruct l. Qed.

Lemma kmalloc_spec fuel hp l size :
  heap_repr hp l → 0 < size → (length l <= fuel)%nat →
  match abs_malloc l (round8 size) with
  | Some (off, l') =>
      ∃ hp', kmalloc fuel hp size = Some (heap_start hp + off + HEADER_SIZE, hp') ∧
        heap_start hp' = heap_start hp ∧ heap_repr hp' l' ∧
        keeps (heap_start hp) l (hmem hp) (hmem hp')
  | None => kmalloc fuel hp size = Some (0, hp)
  end.
Proof.
  intros [Hst Hend Hs Hne Hseg] Hsize Hfuel. unfold kmalloc. eqbs.
  destruct (kmalloc_loop_spec fuel (hmem hp) 0 (heap_start hp) l (round8 size)) as [H _];
    [lia|done|done|apply round8_range|done|done|].
  rewrite first_ptr_ne in H by done.
  destruct (abs_malloc l (round8 size)) as [[off l']|] eqn:Ea.
  - destruct H as (m' & He & Hs' & Hk). rewrite He. eexists. split_and!; [done|done| |done].
    pose proof (abs_malloc_nonempty _ _ _ _ Ea).
    destruct (abs_malloc_Some _ _ _ _ Ea) as (l1 & sz & l2 & -> & _ & Hle & _ & ->).
    apply Forall_app in Hs as [? [? ?]%Forall_cons]. pose proof (round8_range size).
    split; simpl; try done.
    + rewrite !total_app, total_split. rewrite total_app in Hend. simpl in *. offs. simpl in *. lia.
    + repeat apply Forall_app_2; try done. apply sizes_ok_split. lia.
  - rewrite H. by destruct hp.
Qed.

Lemma kfree_spec hp l1 sz l2 :
  heap_repr hp (l1 ++ (sz, false) :: l2) →
  let hp' := kfree hp (heap_start hp + total l1 + HEADER_SIZE) in
  heap_start hp' = heap_start hp ∧ heap_repr hp' (abs_free l1 sz l2) ∧
  keeps (heap_start hp) (l1 ++ (sz, true) :: l2) (hmem hp) (hmem hp').
Proof.
  intros [Hst Hend Hs Hne Hseg]. cbv zeta. unfold kfree. cbv zeta.
  pose proof (sizes_ok_abs_free _ _ _ Hs) as Hsf. pose proof (total_abs_free l1 sz l2) as Htf.
  apply Forall_app in Hs as [H1 [Hsz H2]%Forall_cons]. cbn [fst] in Hsz.
  pose proof (total_nonneg l1 H1). pose proof (total_nonneg l2 H2).
  pose proof Hseg as [Hs1 Hs2]%seg_app. simpl first_ptr in Hs1.
  pose proof Hs2 as [(Hmag & _ & Hfree & _) _]. cbn [snd] in Hfree.
  assert (heap_start hp + total l1 + HEADER_SIZE - HEADER_SIZE = heap_start hp + total l1) as ->
    by (offs; lia).
  rewrite total_app in Hend. cbn [total] in Hend. offs. cbn [fst] in *.
  rewrite u32_small, Hmag, Hfree by lia. eqbs. cbn [negb]. change (nz 0) with false. cbn iota.
  destruct (set_free_spec (hmem hp) (last_ptr 0 (heap_start hp) l1) (heap_start hp + total l1)
              sz false l2 0) as [Hset Hkset]; [done..|].
  change 8 with o_free. set (m1 := fset (hmem hp) (heap_start hp + total l1) o_free 1) in *.
  assert (seg m1 0 (heap_start hp) (l1 ++ (sz, true) :: l2) 0) as Hm1
    by (by eapply seg_prefix).
  destruct (merge_spec m1 (heap_start hp) l1 sz l2) as [Hms Hmk]; try done; [lia| |].
  { rewrite total_app. simpl. offs. simpl. lia. }
  split_and!; [done| |].
  - split; simpl; try done.
    + rewrite Htf, total_app. simpl. offs. simpl. lia.
    + intros He. rewrite He, total_app in Htf. simpl in Htf. offs. simpl in Htf. lia.
  - eapply (keeps_trans _ _ (l1 ++ (sz, true) :: l2)); [done|done| |exact Hmk].
    apply keeps_app; [done|by constructor|done].
Qed.

(** [kheap_init] lays out one free block over the whole region. *)
Lemma kheap_init_repr {S} `{FrameAllocator S} (st : vmm S) m start size :
  4096 <= start → HEADER_SIZE <= size → start + size < 0x100000000 - 28 →
  heap_repr (kheap_init st m start size).2 [(size - HEADER_SIZE, true)].
Proof.
  intros Hs Hz He. unfold kheap_init. cbv zeta. generalize (kheap_map st start size). intros v.
  offs. cbn [snd]. split; cbn [heap_start hmem total bspan fst].
  - done.
  - offs. simpl. lia.
  - repeat constructor. simpl. lia.
  - done.
  - cbn [seg]. split; [|done]. unfold hdr. rewrite !fget_fset. offs. cbn [fst snd]. eqbs.
    rewrite u32_small by lia. done.
Qed.

(** ** What clients see *)

(** Payload address and size of the allocated blocks. *)
Fixpoint allocs (h : Z) (l : list blk) : list (Z * Z) :=
  match l with
  | [] => []
  | b :: l' => (if b.2 then [] else [(h + HEADER_SIZE, b.1)]) ++ allocs (h + bspan b) l'
  end.

Lemma allocs_app h l1 l2 : allocs h (l1 ++ l2) = allocs h l1 ++ allocs (h + total l1) l2.
Proof.
  revert h. induction l1 as [|b l1 IH]; intros h; simpl; [by rewrite Z.add_0_r|].
  rewrite IH, <-app_assoc. do 3 f_equal. lia.
Qed.

Lemma allocs_bound h l p n :
  sizes_ok l → (p, n) ∈ allocs h l → h + HEADER_SIZE <= p ∧ p + n <= h + total l.
Proof.
  intros Hs. revert h. induction Hs as [|[sz f] l Hb Hl IH]; intros h; simpl.
  { by intros ?%not_elem_of_nil. }
  pose proof (total_nonneg l Hl). intros [Hp|Hp]%elem_of_app.
  - offs. simpl in *. destruct f; [by apply not_elem_of_nil in Hp|].
    apply list_elem_of_singleton in Hp as [= -> ->]. lia.
  - specialize (IH _ Hp). offs. simpl in *. lia.
Qed.

Lemma allocs_disjoint h l :
  sizes_ok l →
  NoDup (allocs h l).*1 ∧
  ∀ x y, x ∈ allocs h l → y ∈ allocs h l → x.1 ≠ y.1 → x.1 + x.2 <= y.1 ∨ y.1 + y.2 <= x.1.
Proof.
  intros Hs. revert h. induction Hs as [|[sz f] l Hb Hl IH]; intros h; simpl.
  { split; [constructor|]. by intros ?? ?%not_elem_of_nil. }
  destruct (IH (h + bspan (sz, f))) as [Hnd Hdis]. destruct f; simpl; [done|].
  pose proof (λ p n, allocs_bound (h + bspan (sz, false)) l p n Hl) as Hbd. offs. simpl in *.
  split.
  - constructor; [|done]. intros [[p n] [Heq Hp]]%list_elem_of_fmap.
    apply Hbd in Hp. simpl in *. lia.
  - intros [p n] [q k] [[= -> ->]|Hx]%elem_of_cons [[= -> ->]|Hy]%elem_of_cons; simpl; intros Hne.
    + done.
    + apply Hbd in Hy. lia.
    + apply Hbd in Hx. lia.
    + by apply (Hdis (p, n) (q, k)).
Qed.

Lemma allocs_split h l p n : (p, n) ∈ allocs h l →
  ∃ l1 l2, l = l1 ++ (n, false) :: l2 ∧ p = h + total l1 + HEADER_SIZE.
Proof.
  revert h. induction l as [|[sz f] l IH]; intros h; simpl.
  { by intros ?%not_elem_of_nil. }
  intros [Hp|Hp]%elem_of_app.
  - destruct f; [by apply not_elem_of_nil in Hp|].
    apply list_elem_of_singleton in Hp as [= -> ->]. exists [], l. split; [done|]. simpl. lia.
  - destruct (IH _ Hp) as (l1 & l2 & -> & ->). exists ((sz, f) :: l1), l2.
    split; [done|]. simpl. lia.
Qed.

Lemma allocs_live h l p n a : (p, n) ∈ allocs h l → p <= a < p + n → live h l a.
Proof.
  intros (l1 & l2 & -> & ->)%allocs_split Ha. apply live_app. right. left. offs. simpl. lia.
Qed.

(** Writes to allocated payloads leave the headers alone. *)
Lemma seg_live_frame m m' prev h l nxt :
  sizes_ok l → (∀ a, h <= a → ¬ live h l a → rd m' a = rd m a) →
  seg m prev h l nxt → seg m' prev h l nxt.
Proof.
  intros Hs. revert prev h. induction Hs as [|[sz f] l Hb Hl IH]; intros prev h Hm; [done|].
  rewrite !seg_cons. intros [Hh Hseg]. pose proof (λ h a, live_bound h l a Hl) as Hbd.
  cbn [live] in Hm. offs. simpl in *. split.
  - eapply hdr_frame; [|exact Hh]. intros a Ha. apply Hm; offs; [lia|].
    intros [[??]|?%Hbd]; lia.
  - apply IH; [|done]. intros a Ha Hn. apply Hm; [lia|]. intros [[??]|?]; [lia|done].
Qed.

Lemma allocs_merge_next h sz l2 :
  allocs h (abs_merge_next sz l2) = allocs (h + bspan (sz, true)) l2.
Proof.
  destruct l2 as [|[s2 []] l2]; try done. simpl. f_equal. offs. simpl. lia.
Qed.

Lemma allocs_free h l1 sz l2 :
  allocs h (abs_free l1 sz l2) = allocs h l1 ++ allocs (h + total l1 + bspan (sz, true)) l2.
Proof.
  destruct (abs_merge_next_cons sz l2) as (s1 & l2' & He & _ & _).
  destruct l1 as [|[s0 f0] l1 _] using rev_ind.
  - simpl. rewrite allocs_merge_next. by rewrite Z.add_0_r.
  - rewrite abs_free_snoc. rewrite !allocs_app, total_app.
    pose proof (allocs_merge_next (h + total l1 + bspan (s0, f0)) sz l2) as Hm.
    destruct f0.
    + rewrite He in Hm |- *. simpl in *. rewrite app_nil_r. f_equal.
      offs. simpl in *. etransitivity; [|etransitivity; [exact Hm|]]; f_equal; lia.
    + simpl in *. rewrite Hm. rewrite <-app_assoc. simpl. do 3 f_equal. offs. simpl. lia.
Qed.

Lemma allocs_split_block h n sz :
  ∃ s, allocs h (split_block n sz) = [(h + HEADER_SIZE, s)] ∧ (n <= sz → n <= s).
Proof. unfold split_block. case_match; simpl; eexists; (split; [done|lia]). Qed.

(** No two neighbouring free blocks. *)
Fixpoint coalesced (l : list blk) : bool :=
  match l with
  | b :: ((b' :: _) as l') => negb (b.2 && b'.2) && coalesced l'
  | _ => true
  end.

Lemma coalesced_cons b l :
  coalesced (b :: l) = negb (b.2 && match l with b' :: _ => b'.2 | [] => false end) && coalesced l.
Proof. destruct l; simpl; by rewrite ?andb_false_r. Qed.

Lemma coalesced_app l1 l2 :
  coalesced (l1 ++ l2) =
  coalesced l1 && coalesced l2 &&
  negb (match last l1 with Some b => b.2 | None => false end &&
        match l2 with b :: _ => b.2 | [] => false end).
Proof.
  induction l1 as [|b l1 IH]; [simpl; by rewrite andb_true_r|].
  change ((b :: l1) ++ l2) with (b :: (l1 ++ l2)). rewrite !coalesced_cons, IH.
  destruct l1 as [|b' l1]; simpl.
  - destruct b as [s []]; simpl; destruct (match l2 with [] => _ | _ => _ end);
      by rewrite ?andb_true_r, ?andb_false_r.
  - by rewrite !andb_assoc.
Qed.

Lemma coalesced_malloc l n off l' :
  abs_malloc l n = Some (off, l') → coalesced l = true → coalesced l' = true.
Proof.
  intros (l1 & sz & l2 & -> & _ & _ & _ & ->)%abs_malloc_Some.
  rewrite !(coalesced_app l1), coalesced_cons. simpl.
  intros [[-> [Hx H2]%andb_true_iff]%andb_true_iff _]%andb_true_iff. simpl.
  unfold split_block. destruct (n + HEADER_SIZE + 8 <=? sz); cbn [app]; rewrite !coalesced_cons, H2; cbn [snd];
    rewrite ?andb_false_r; cbn [andb]; rewrite ?Hx; done.
Qed.

Lemma coalesced_merge_next sz l2 :
  coalesced l2 = true →
  coalesced (abs_merge_next sz l2) = true.
Proof.
  destruct l2 as [|[s2 []] l2]; [done| |].
  - cbn [abs_merge_next]. by rewrite !coalesced_cons.
  - cbn [abs_merge_next]. by rewrite !coalesced_cons.
Qed.

Lemma coalesced_free l1 sz l2 :
  coalesced (l1 ++ (sz, false) :: l2) = true → coalesced (abs_free l1 sz l2) = true.
Proof.
  rewrite coalesced_app, coalesced_cons. simpl. rewrite andb_false_r. simpl. rewrite andb_true_r.
  intros [H1 H2]%andb_true_iff. apply (coalesced_merge_next sz) in H2.
  destruct (abs_merge_next_cons sz l2) as (s1 & l2' & He & _ & _). rewrite He in H2.
  destruct l1 as [|[s0 f0] l1 _] using rev_ind; [simpl; by rewrite He|].
  rewrite abs_free_snoc, He. rewrite coalesced_app in H1. simpl in H1.
  rewrite coalesced_app. destruct f0.
  - rewrite !coalesced_cons in H2 |- *. simpl in *. rewrite H2. done.
  - rewrite coalesced_cons, H2. cbn [snd andb negb]. done.
Qed.

(** A coalesced list with no allocated block is a single free block. *)
Lemma coalesced_all_free h l :
  l ≠ [] → coalesced l = true → allocs h l = [] → ∃ sz, l = [(sz, true)].
Proof.
  destruct l as [|[s f] l]; [done|]. intros _ Hc Ha. simpl in Ha.
  destruct f; [|done]. destruct l as [|[s' f'] l]; [by exists s|].
  simpl in Ha. destruct f'; [|done]. by rewrite coalesced_cons in Hc.
Qed.

(** ** Clients

    A client asks for blocks, writes inside the bytes it asked for, and frees the pointers
    it got.  Its state is the heap and the list of the blocks it holds, each with the size
    it requested. *)

Definition hclient : Type := kheap * list (Z * Z).

Inductive heap_step : hclient → hclient → Prop :=
  | hs_malloc fuel hp own size p hp' :
      0 < size <= 0xFFFFFFF8 → kmalloc fuel hp size = Some (p, hp') → p ≠ 0 →
      heap_step (hp, own) (hp', (p, size) :: own)
  | hs_fail fuel hp own size hp' :
      0 <= size → kmalloc fuel hp size = Some (0, hp') → heap_step (hp, own) (hp', own)
  | hs_write hp own a v p n :
      (p, n) ∈ own → p <= a < p + n →
      heap_step (hp, own) (mk_kheap (wr (hmem hp) a v) (heap_start hp), own)
  | hs_free hp own1 own2 p n :
      heap_step (hp, own1 ++ (p, n) :: own2) (kfree hp p, own1 ++ own2).

(** [start] and [tot] are the bounds of the heap, [g] the blocks granted. *)
Definition heap_inv (start tot : Z) (c : hclient) : Prop :=
  ∃ l g, heap_repr c.1 l ∧ heap_start c.1 = start ∧ total l = tot ∧ coalesced l = true ∧
    g ≡ₚ allocs start l ∧ Forall2 (λ x y, x.1 = y.1 ∧ x.2 <= y.2) c.2 g.

Lemma granted_fst (own g : list (Z * Z)) :
  Forall2 (λ x y, x.1 = y.1 ∧ x.2 <= y.2) own g → own.*1 = g.*1.
Proof. induction 1 as [|x y ?? [Hx _] _ IH]; [done|]. rewrite !fmap_cons. by f_equal. Qed.

Lemma kmalloc_loop_mono f f' m c size r :
  (f <= f')%nat → kmalloc_loop f m c size = Some r → kmalloc_loop f' m c size = Some r.
Proof.
  revert f' c. induction f as [|f IH]; intros [|f'] c Hf; simpl; try done; try lia.
  - case_match; done.
  - repeat case_match; try done. intros. apply IH; [lia|done].
Qed.

Lemma kmalloc_mono f f' hp size r :
  (f <= f')%nat → kmalloc f hp size = Some r → kmalloc f' hp size = Some r.
Proof.
  unfold kmalloc. intros Hf. case_match; [done|].
  destruct (kmalloc_loop f _ _ _) as [[p m]|] eqn:E; [|done].
  by rewrite (kmalloc_loop_mono f f' _ _ _ (p, m) Hf E).
Qed.

Lemma kmalloc_inv fuel hp l size p hp' :
  heap_repr hp l → 0 <= size → kmalloc fuel hp size = Some (p, hp') →
  (p = 0 ∧ hp' = hp) ∨
  (∃ off l', abs_malloc l (round8 size) = Some (off, l') ∧
     p = heap_start hp + off + HEADER_SIZE ∧ heap_start hp' = heap_start hp ∧ heap_repr hp' l').
Proof.
  intros Hr Hs Hk. destruct (decide (size = 0)) as [->|].
  { left. unfold kmalloc in Hk. simpl in Hk. by simplify_eq. }
  apply (kmalloc_mono _ (fuel + length l)) in Hk; [|lia].
  pose proof (kmalloc_spec (fuel + length l) hp l size Hr ltac:(lia) ltac:(lia)) as H.
  destruct (abs_malloc l (round8 size)) as [[off l']|] eqn:Ea.
  - destruct H as (hp'' & He & ? & ? & _). rewrite He in Hk. simplify_eq. right. eauto 10.
  - rewrite H in Hk. simplify_eq. by left.
Qed.

Lemma heap_inv_malloc start tot hp own fuel size p hp' :
  heap_inv start tot (hp, own) → 0 < size <= 0xFFFFFFF8 →
  kmalloc fuel hp size = Some (p, hp') → p ≠ 0 → heap_inv start tot (hp', (p, size) :: own).
Proof.
  intros (l & g & Hr & <- & <- & Hc & Hg & Hown) Hsize Hk Hp.
  destruct (kmalloc_inv fuel hp l size p hp' Hr ltac:(lia) Hk) as [[??]|(off & l' & Ha & -> & Hst & Hr')];
    [done|].
  pose proof (coalesced_malloc _ _ _ _ Ha Hc).
  destruct (abs_malloc_Some _ _ _ _ Ha) as (l1 & sz & l2 & -> & _ & Hle & -> & ->).
  destruct (allocs_split_block (heap_start hp + total l1) (round8 size) sz) as (s & Hs & Hns).
  exists (l1 ++ split_block (round8 size) sz ++ l2), ((heap_start hp + total l1 + HEADER_SIZE, s) :: g).
  pose proof (round8_bounds size Hsize) as [Hb _]. simpl in *. split_and!; try done.
  - rewrite !total_app, total_split. simpl. lia.
  - rewrite Hg, !allocs_app, Hs, total_split. simpl. by rewrite <-Permutation_middle.
  - constructor; [|done]. simpl. split; [done|]. specialize (Hns Hle). lia.
Qed.

Lemma heap_inv_free start tot hp own1 own2 p n :
  heap_inv start tot (hp, own1 ++ (p, n) :: own2) → heap_inv start tot (kfree hp p, own1 ++ own2).
Proof.
  intros (l & g & Hr & <- & <- & Hc & Hg & Hown). simpl in *.
  apply Forall2_app_inv_l in Hown as (g1 & g' & H1 & H2 & ->).
  apply Forall2_cons_inv_l in H2 as ([q s] & g2 & [Hq _] & H2 & ->). simpl in Hq. subst q.
  assert ((p, s) ∈ allocs (heap_start hp) l) as Hin.
  { rewrite <-Hg. set_solver. }
  apply allocs_split in Hin as (l1 & l2 & -> & ->).
  destruct (kfree_spec hp l1 s l2 Hr) as (Hst & Hr' & _).
  exists (abs_free l1 s l2), (g1 ++ g2). simpl. split_and!; try done.
  - apply total_abs_free.
  - by apply coalesced_free.
  - rewrite allocs_free. rewrite allocs_app in Hg. simpl in Hg.
    rewrite <-!Permutation_middle in Hg. by apply Permutation_cons_inv in Hg.
  - by apply Forall2_app.
Qed.

Lemma heap_inv_write start tot hp own a v p n :
  heap_inv start tot (hp, own) → (p, n) ∈ own → p <= a < p + n →
  heap_inv start tot (mk_kheap (wr (hmem hp) a v) (heap_start hp), own).
Proof.
  intros (l & g & [Hst Hend Hs Hne Hseg] & <- & <- & Hc & Hg & Hown) Hin Ha. simpl in *.
  exists l, g. simpl. split_and!; try done. split; simpl; try done.
  eapply seg_live_frame; [done| |exact Hseg]. intros a' _ Hn. rewrite rd_wr.
  destruct (Z.eqb_spec a' a) as [->|]; [|done]. destruct Hn.
  apply list_elem_of_lookup in Hin as [i Hi].
  destruct (Forall2_lookup_l _ _ _ _ _ Hown Hi) as ([q s] & Hq & ? & ?). simpl in *. subst q.
  eapply (allocs_live _ _ p s); [|lia]. rewrite <-Hg. by eapply list_elem_of_lookup_2.
Qed.

Lemma heap_inv_step start tot c c' : heap_step c c' → heap_inv start tot c → heap_inv start tot c'.
Proof.
  destruct 1; intros Hinv.
  - by eapply heap_inv_malloc.
  - destruct Hinv as (l & g & Hr & Hrest). simpl in Hr.
    destruct (kmalloc_inv _ _ _ _ _ _ Hr ltac:(done) H0) as [[_ ->]|(off & l' & Ha & Hp & _)].
    + by exists l, g.
    + destruct (abs_malloc_Some _ _ _ _ Ha) as (l1 & sz & l2 & -> & _ & _ & -> & _).
      destruct Hr as [Hst _ [H1 _]%Forall_app _ _]. pose proof (total_nonneg l1 H1).
      offs. lia.
  - by eapply heap_inv_write.
  - by eapply heap_inv_free.
Qed.

Lemma heap_inv_init {S} `{FrameAllocator S} (st : vmm S) m start size :
  4096 <= start → HEADER_SIZE <= size → start + size < 0x100000000 - 28 →
  heap_inv start size ((kheap_init st m start size).2, []).
Proof.
  intros Hst Hsz Hend. exists [(size - HEADER_SIZE, true)], []. split_and!; try done.
  - by apply kheap_init_repr.
  - simpl. offs. simpl. lia.
Qed.

(** ** Theorems *)

(** C6: a request of [size > 0] bytes terminates after at most one visit per block.  It
    returns NULL and changes nothing exactly when no free block holds the rounded size;
    otherwise it returns the payload of the first free block that does, splits that block
    when the rest can hold a header and 8 bytes, and touches neither the payload of an
    allocated block nor a byte outside the heap. *)
Theorem kmalloc_first_fit fuel hp l size :
  heap_repr hp l → 0 < size → (length l <= fuel)%nat →
  let n := round8 size in
  (Forall (λ b, ¬ fits n b) l ∧ kmalloc fuel hp size = Some (0, hp)) ∨
  ∃ l1 sz l2 hp', l = l1 ++ (sz, true) :: l2 ∧ Forall (λ b, ¬ fits n b) l1 ∧ n <= sz ∧
    kmalloc fuel hp size = Some (heap_start hp + total l1 + HEADER_SIZE, hp') ∧
    heap_start hp' = heap_start hp ∧ heap_repr hp' (l1 ++ split_block n sz ++ l2) ∧
    keeps (heap_start hp) l (hmem hp) (hmem hp').
Proof.
  intros Hr Hsize Hfuel n. pose proof (kmalloc_spec fuel hp l size Hr Hsize Hfuel) as H.
  fold n in H. destruct (abs_malloc l n) as [[off l']|] eqn:Ea.
  - right. destruct H as (hp' & ? & ? & ? & ?).
    destruct (abs_malloc_Some _ _ _ _ Ea) as (l1 & sz & l2 & ? & ? & ? & -> & ->).
    by exists l1, sz, l2, hp'.
  - left. by rewrite <-abs_malloc_None.
Qed.

(** C7: Freeing the payload pointer of a block.  A block that is free already is detected
    and nothing changes.  An allocated block becomes free and is merged with a free right
    neighbour and a free left neighbour: the bytes of the heap are conserved, no two
    neighbouring free blocks appear, the other allocated blocks stay where they are with
    their contents. *)
Theorem kfree_coalesces hp l1 sz f l2 :
  heap_repr hp (l1 ++ (sz, f) :: l2) →
  let hp' := kfree hp (heap_start hp + total l1 + HEADER_SIZE) in
  let l' := if f then l1 ++ (sz, f) :: l2 else abs_free l1 sz l2 in
  (f = true → hp' = hp) ∧ heap_repr hp' l' ∧ total l' = total (l1 ++ (sz, f) :: l2) ∧
  (coalesced (l1 ++ (sz, f) :: l2) = true → coalesced l' = true) ∧
  allocs (heap_start hp) l' =
    allocs (heap_start hp) l1 ++ allocs (heap_start hp + total l1 + bspan (sz, f)) l2 ∧
  keeps (heap_start hp) (l1 ++ (sz, true) :: l2) (hmem hp) (hmem hp').
Proof.
  intros Hr. destruct f; cbv zeta.
  - assert (kfree hp (heap_start hp + total l1 + HEADER_SIZE) = hp) as ->.
    { destruct Hr as [Hst Hend [H1 [H2 H3]%Forall_cons]%Forall_app _ [_ Hs]%seg_app].
      pose proof (total_nonneg l1 H1). pose proof (total_nonneg l2 H3).
      destruct Hs as [(Hm & _ & Hf & _) _]. rewrite total_app in Hend. simpl in *.
      unfold kfree. cbv zeta. offs. simpl in *. eqbs. rewrite u32_small by lia.
      replace (heap_start hp + total l1 + 20 - 20) with (heap_start hp + total l1) by lia.
      by rewrite Hm, Hf. }
    split_and!; try done. by rewrite allocs_app.
  - destruct (kfree_spec hp l1 sz l2 Hr) as (_ & Hr' & Hk). split_and!; try done.
    + apply total_abs_free.
    + apply coalesced_free.
    + by rewrite allocs_free.
Qed.

(** C1: clients of a freshly initialised heap that write only inside the bytes they asked
    for, and free only what they hold, always hold pairwise disjoint regions inside the
    heap; when everything is freed, the heap is the single block of [kheap_init] again:
    no leak and no fragmentation remain. *)
Theorem kheap_client_safe {S} `{FrameAllocator S} (st : vmm S) m start size hp own :
  4096 <= start → HEADER_SIZE <= size → start + size < 0x100000000 - 28 →
  rtc heap_step ((kheap_init st m start size).2, []) (hp, own) →
  NoDup own.*1 ∧
  (∀ p n, (p, n) ∈ own → start + HEADER_SIZE <= p ∧ p + n <= start + size) ∧
  (∀ x y, x ∈ own → y ∈ own → x.1 ≠ y.1 → x.1 + x.2 <= y.1 ∨ y.1 + y.2 <= x.1) ∧
  (own = [] → heap_repr hp [(size - HEADER_SIZE, true)]).
Proof.
  intros Hst Hsz Hend Hrun.
  assert (heap_inv start size (hp, own)) as (l & g & Hr & Hs & Ht & Hc & Hg & Hown).
  { pose proof (heap_inv_init st m start size Hst Hsz Hend) as Hi. revert Hi. generalize ((kheap_init st m start size).2, [] : list (Z * Z)) as c0, Hrun.
    intros c0 Hr0. induction Hr0 as [|??? Hstep _ IH]; [done|]. eauto using heap_inv_step. }
  simpl in *. destruct (allocs_disjoint start l (hr_sizes _ _ Hr)) as [Hnd Hdis].
  assert (∀ x, x ∈ own → ∃ s, x.2 <= s ∧ (x.1, s) ∈ allocs start l) as Hin.
  { intros x [i Hi]%list_elem_of_lookup.
    destruct (Forall2_lookup_l _ _ _ _ _ Hown Hi) as ([q s] & Hq & Heq & Hle).
    simpl in *. subst q. exists s. split; [done|]. rewrite <-Hg. by eapply list_elem_of_lookup_2. }
  split_and!.
  - by rewrite (granted_fst _ _ Hown), Hg.
  - intros p n (s & Hle & Hp)%Hin. simpl in *.
    apply allocs_bound in Hp; [|by destruct Hr]. lia.
  - intros x y (s & Hle & Hp)%Hin (s' & Hle' & Hp')%Hin Hne.
    pose proof (Hdis _ _ Hp Hp' Hne). simpl in *. lia.
  - intros ->. inversion Hown; subst g. symmetry in Hg. apply Permutation_nil_r in Hg.
    destruct (coalesced_all_free start l) as [sz ->]; [by destruct Hr|done|done|].
    simpl in Ht. offs. simpl in Ht. by replace (size - 20) with sz by lia.
Qed.

(** The rounding [(size + 7) & ~7] wraps for the last seven sizes: the request of
    almost 4 GiB is served with a block of zero bytes instead of being refused. *)
Theorem kmalloc_wraps fuel hp sz l2 size :
  heap_repr hp ((sz, true) :: l2) → 0xFFFFFFF8 < size < 0x100000000 →
  (length ((sz, true) :: l2) <= fuel)%nat →
  ∃ hp', kmalloc fuel hp size = Some (heap_start hp + HEADER_SIZE, hp') ∧
    heap_repr hp' (split_block 0 sz ++ l2).
Proof.
  intros Hr Hsize Hfuel. pose proof (kmalloc_spec _ _ _ size Hr ltac:(lia) Hfuel) as H.
  assert (round8 size = 0) as Hz by (rewrite round8_eq; words). rewrite Hz in H.
  pose proof (hr_sizes _ _ Hr) as [Hs _]%Forall_cons. cbn [fst] in Hs.
  cbn [abs_malloc] in H. replace (true && (0 <=? sz)) with true in H by (symmetry; by apply Z.leb_le).
  destruct H as (hp' & He & _ & Hr' & _). exists hp'. rewrite Z.add_0_r in He. split; [done|].
  unfold split_block. by case_match.
Qed.

(** ** The interface the other components program against

    [kmalloc] and [kfree] as total functions, and what a client may rely on: a block that
    is handed out is none of those held, and freeing a held block gives up that one. *)

Class HeapAlloc (H : Type) := {
  halloc : H → Z → Z * H;
  hfree : H → Z → H }.

(** [holds h L]: the heap is consistent and the blocks at [L] are the ones handed out. *)
Class HeapAllocLaws (H : Type) `{HeapAlloc H} (holds : H → list Z → Prop) := {
  holds_nodup h L : holds h L → NoDup L ∧ Forall (λ p, 0 < p < 0x100000000) L;
  halloc_holds h L n :
    holds h L → 0 <= n <= 0xFFFFFFF8 →
    ((halloc h n).1 = 0 ∧ holds (halloc h n).2 L) ∨
    ((halloc h n).1 ≠ 0 ∧ (halloc h n).1 ∉ L ∧ holds (halloc h n).2 ((halloc h n).1 :: L));
  hfree_holds h L1 L2 p : holds h (L1 ++ p :: L2) → holds (hfree h p) (L1 ++ L2);
  hfree_null h : hfree h 0 = h }.

(** A block header occupies a cell of the memory, so the number of cells bounds the walk. *)
Definition kheap_fuel (h : kheap) : nat := size (hmem h).

#[global] Instance kheap_alloc : HeapAlloc kheap := {|
  halloc h n := default (0, h) (kmalloc (kheap_fuel h) h n);
  hfree := kfree |}.

Lemma seg_length m prev h l nxt :
  sizes_ok l → seg m prev h l nxt →
  ∃ X : gset Z, X ⊆ dom m ∧ (∀ a, a ∈ X → h <= a) ∧ size X = length l.
Proof.
  intros Hs. revert prev h. induction Hs as [|[sz f] l Hb Hl IH]; intros prev h.
  { exists ∅. split_and!; [set_solver|set_solver|]. by rewrite size_empty. }
  rewrite seg_cons. intros [(Hm & _) Hseg]. destruct (IH _ _ Hseg) as (X & HX & Hge & Hsz).
  offs. simpl in *. exists ({[h]} ∪ X). split_and!.
  - apply union_subseteq. split; [|done]. apply singleton_subseteq_l, elem_of_dom.
    unfold fget, rd in Hm. rewrite Z.add_0_r in Hm. destruct (m !! h); [done|].
    by vm_compute in Hm.
  - intros a [->%elem_of_singleton|Ha%Hge]%elem_of_union; lia.
  - rewrite size_union, size_singleton, Hsz; [done|].
    intros a ->%elem_of_singleton Ha%Hge. lia.
Qed.

Lemma heap_repr_fuel hp l : heap_repr hp l → (length l <= kheap_fuel hp)%nat.
Proof.
  intros [_ _ Hs _ Hseg]. destruct (seg_length _ _ _ _ _ Hs Hseg) as (X & HX & _ & <-).
  unfold kheap_fuel. rewrite <-(size_dom (D := gset Z)). by apply subseteq_size.
Qed.

Definition kheap_holds (h : kheap) (L : list Z) : Prop :=
  ∃ start tot own, heap_inv start tot (h, own) ∧ own.*1 = L.

#[global] Instance kheap_laws : HeapAllocLaws kheap kheap_holds.
Proof.
  split.
  - intros h L (start & tot & own & (l & g & Hr & Hs & Ht & _ & Hg & Hown) & <-). simpl in *.
    rewrite (granted_fst _ _ Hown).
    destruct Hr as [Hst Hend Hok _ _]. destruct (allocs_disjoint start l Hok) as [Hnd _].
    rewrite Hg. split; [done|]. apply Forall_fmap, Forall_forall. intros [p n] Hp. simpl.
    pose proof (total_nonneg l Hok).
    apply allocs_split in Hp as (l1 & l2 & -> & ->). rewrite total_app in *.
    apply Forall_app in Hok as [H1 [H2 H3]%Forall_cons].
    pose proof (total_nonneg l1 H1). pose proof (total_nonneg l2 H3). simpl in *. offs.
    simpl in *. lia.
  - intros h L n (start & tot & own & Hinv & <-) Hn. simpl.
    pose proof Hinv as (l & g & Hr & _). simpl in Hr.
    pose proof (heap_repr_fuel _ _ Hr) as Hf.
    assert (∃ p h', kmalloc (kheap_fuel h) h n = Some (p, h')) as (p & h' & He).
    { destruct (decide (n = 0)) as [->|]; [by eexists _, _|].
      pose proof (kmalloc_spec _ _ _ n Hr ltac:(lia) Hf) as H.
      destruct (abs_malloc _ _) as [[??]|]; [destruct H as (? & -> & _)|rewrite H]; eauto. }
    rewrite He. simpl. destruct (decide (p = 0)) as [->|Hp].
    + left. split; [done|]. exists start, tot, own. split; [|done].
      eapply heap_inv_step; [|exact Hinv]. eapply hs_fail; [|exact He]. lia.
    + right. split; [done|]. destruct (decide (n = 0)) as [->|].
      { unfold kmalloc in He. simpl in He. by simplify_eq. }
      assert (heap_inv start tot (h', (p, n) :: own)) as Hinv'.
      { eapply heap_inv_step; [|exact Hinv]. eapply hs_malloc; [lia|exact He|done]. }
      split; [|exists start, tot, ((p, n) :: own); done].
      destruct Hinv' as (l' & g' & Hr' & _ & _ & _ & Hg & Hown).
      pose proof (granted_fst _ _ Hown) as Heq. simpl in Heq.
      destruct (allocs_disjoint start l' (hr_sizes _ _ Hr')) as [Hnd _].
      rewrite <-Hg, <-Heq in Hnd. by apply NoDup_cons in Hnd as [??].
  - intros h L1 L2 p (start & tot & own & Hinv & HL).
    apply fmap_app_inv in HL as (o1 & o2 & -> & HL & ->).
    symmetry in HL. apply fmap_cons_inv in HL as ([q n] & o3 & -> & -> & ->).
    exists start, tot, (o1 ++ o3). split; [|by rewrite fmap_app].
    simpl. eapply heap_inv_step; [|exact Hinv]. apply hs_free.
  - done.
Qed.

(** ** Temporary buffers

    Most of the kernel allocates a buffer, uses it and frees it.  [room h n] says a request
    of [n] bytes would be served; a temporary buffer leaves the room as it was. *)

Class HeapTemp (H : Type) `{HeapAlloc H} (room : H → Z → Prop) := {
  room_alloc h n : room h n → (halloc h n).1 ≠ 0;
  room_temp h n k : room h n → room h k → room (hfree (halloc h n).2 (halloc h n).1) k }.

Lemma seg_inj m prev h l l' :
  0 < h → sizes_ok l → sizes_ok l' → l ≠ [] → l' ≠ [] →
  seg m prev h l 0 → seg m prev h l' 0 → l = l'.
Proof.
  intros Hh Hs. revert prev h Hh l'. induction Hs as [|[sz f] l Hb Hl IH]; [done|].
  intros prev h Hh [|[sz' f'] l'] Hs' _ Hne'; [done|]. apply Forall_cons in Hs' as [Hb' Hl'].
  rewrite !seg_cons. intros [(_ & Hz & Hf & Hn & _) Hseg] [(_ & Hz' & Hf' & Hn' & _) Hseg'].
  cbn [fst snd] in *. rewrite Hz in Hz'. rewrite Hf in Hf'. rewrite Hn in Hn'.
  assert (sz = sz') as -> by done. assert (f = f') as -> by (by destruct f, f'). f_equal.
  offs. cbn [fst] in *. destruct l as [|b l], l' as [|b' l']; [done|lia|lia|].
  eapply IH; [|exact Hl'|done|done|exact Hseg|exact Hseg']. lia.
Qed.

Lemma heap_repr_inj hp l l' : heap_repr hp l → heap_repr hp l' → l = l'.
Proof.
  intros [H1 _ Hs Hne Hseg] [_ _ Hs' Hne' Hseg']. eapply seg_inj; try done. lia.
Qed.

(** Freeing what was just allocated from a coalesced heap restores the block list. *)
Lemma abs_malloc_free l n l1 sz l2 :
  coalesced l = true → l = l1 ++ (sz, true) :: l2 → n <= sz →
  ∃ s l2', split_block n sz ++ l2 = (s, false) :: l2' ∧ abs_free l1 s l2' = l.
Proof.
  intros Hc -> Hn.
  assert (∃ s l2', split_block n sz ++ l2 = (s, false) :: l2' ∧
            abs_merge_next s l2' = (sz, true) :: l2) as (s & l2' & He & Hm).
  { unfold split_block. rewrite coalesced_app, coalesced_cons in Hc.
    destruct (n + HEADER_SIZE + 8 <=? sz); eexists _, _; (split; [done|]); cbn [abs_merge_next].
    - repeat f_equal. offs. lia.
    - destruct l2 as [|[s2 []] l2]; try done. simpl in Hc. by rewrite !andb_false_r in Hc. }
  exists s, l2'. split; [done|]. destruct l1 as [|[s0 f0] l1 _] using rev_ind; [done|].
  rewrite abs_free_snoc, Hm. destruct f0; [|by rewrite <-app_assoc].
  rewrite coalesced_app, last_snoc in Hc. simpl in Hc. by rewrite andb_false_r in Hc.
Qed.

Definition kheap_room (h : kheap) (n : Z) : Prop :=
  0 < n ∧ ∃ l, heap_repr h l ∧ coalesced l = true ∧ Exists (fits (round8 n)) l.

Lemma kheap_room_alloc h n :
  kheap_room h n → (halloc h n).1 ≠ 0 ∧
  ∀ l, heap_repr h l → heap_repr (hfree (halloc h n).2 (halloc h n).1) l.
Proof.
  intros (Hn & l & Hr & Hc & Hfit). cbn [halloc hfree kheap_alloc].
  pose proof (kmalloc_spec _ _ _ n Hr Hn (heap_repr_fuel _ _ Hr)) as H.
  destruct (abs_malloc l (round8 n)) as [[off l']|] eqn:Ea.
  - destruct H as (h' & -> & Hst & Hr' & _). cbn [default from_option fst snd id].
    destruct (abs_malloc_Some _ _ _ _ Ea) as (l1 & sz & l2 & Hl & _ & Hle & -> & ->).
    split.
    + destruct Hr as [Hstart _ Hs _ _]. rewrite Hl in Hs. apply Forall_app in Hs as [H1 _].
      pose proof (total_nonneg l1 H1). offs. lia.
    + intros k Hk. rewrite (heap_repr_inj _ _ _ Hk Hr).
      destruct (abs_malloc_free l (round8 n) l1 sz l2 Hc Hl Hle) as (s & l2' & He & <-).
      rewrite He in Hr'. destruct (kfree_spec h' l1 s l2' Hr') as (_ & Hf & _).
      by rewrite Hst in Hf.
  - exfalso. apply abs_malloc_None in Ea. rewrite Forall_forall in Ea.
    apply Exists_exists in Hfit as (b & Hb & Hfb). by apply (Ea b).
Qed.

#[global] Instance kheap_temp : HeapTemp kheap kheap_room.
Proof.
  split.
  - intros h n Hroom. by apply kheap_room_alloc.
  - intros h n k Hroom (Hk & l & Hr & Hc & Hfit). destruct (kheap_room_alloc h n Hroom) as [_ Hl].
    split; [done|]. exists l. auto.
Qed.

(** ** Concrete runs *)

Definition demo_heap : kheap := (kheap_init demo_vmm ∅ 0xD0000000 4096).2.

Lemma demo_heap_ok : heap_repr demo_heap [(4076, true)].
Proof. apply (kheap_init_repr (H := pmm_ops) demo_vmm ∅ 0xD0000000 4096); by vm_compute. Qed.

Lemma kmalloc_first_fit_witness :
  ∃ hp', kmalloc 1 demo_heap 100 = Some (0xD0000014, hp') ∧
    heap_repr hp' [(104, false); (3952, true)].
Proof.
  destruct (kmalloc_first_fit 1 demo_heap [(4076, true)] 100 demo_heap_ok ltac:(lia) ltac:(simpl; lia))
    as [[Hn _]|(l1 & sz & l2 & hp' & Hl & _ & _ & Hk & _ & Hr & _)].
  - apply Forall_cons in Hn as [Hn _]. destruct Hn. by vm_compute.
  - destruct l1 as [|? [|??]]; simpl in Hl; simplify_eq. exists hp'. by split.
Defined.

Lemma kfree_coalesces_witness :
  ∃ p hp, kmalloc 1 demo_heap 100 = Some (p, hp) ∧ heap_repr (kfree hp p) [(4076, true)].
Proof.
  pose proof (kmalloc_spec 1 demo_heap [(4076, true)] 100 demo_heap_ok ltac:(lia) ltac:(simpl; lia))
    as (hp & Hk & Hst & Hr & _).
  eexists _, hp. split; [exact Hk|].
  destruct (kfree_coalesces hp [] 104 false [(3952, true)] Hr) as (_ & Hr' & _).
  rewrite Hst in Hr'. exact Hr'.
Defined.

Lemma kheap_client_safe_witness :
  ∃ hp, rtc heap_step (demo_heap, []) (hp, []) ∧ heap_repr hp [(4076, true)].
Proof.
  pose proof (kmalloc_spec 1 demo_heap [(4076, true)] 100 demo_heap_ok ltac:(lia) ltac:(simpl; lia))
    as (hp & Hk & _).
  assert (rtc heap_step (demo_heap, []) (kfree hp (0xD0000014), [])) as Hrun.
  { eapply rtc_l; [apply (hs_malloc 1 _ [] 100 (0xD0000014) hp); [lia|exact Hk|done]|].
    apply rtc_once. apply (hs_free hp [] [] 0xD0000014 100). }
  exists (kfree hp 0xD0000014). split; [exact Hrun|].
  apply (kheap_client_safe (H := pmm_ops) demo_vmm ∅ 0xD0000000 4096 _ []
           ltac:(lia) ltac:(by vm_compute) ltac:(by vm_compute) Hrun). done.
Defined.

Lemma kmalloc_wraps_witness :
  ∃ hp', kmalloc 1 demo_heap 0xFFFFFFFF = Some (0xD0000014, hp') ∧
    heap_repr hp' [(0, false); (4056, true)].
Proof.
  destruct (kmalloc_wraps 1 demo_heap 4076 [] 0xFFFFFFFF demo_heap_ok ltac:(lia) ltac:(simpl; lia))
    as (hp' & Hk & Hr). exists hp'. by split.
Defined.
