(* ===== verification/Process.v ===== *)
(** * proc/: processes, the round-robin scheduler and wait queues

    Threads and processes are C structures reached through pointers; the model keeps them
    in stores indexed by their address, next to the heap they are allocated from, the page
    tables and the globals of process.c and scheduler.c.  A freed structure stays in its
    store, as the bytes stay in memory.  The heap is used through the [HeapAlloc]
    interface, the VFS through the [vfs_close] operation.

    The ready queue is the ring of the threads' [next] links.  [ring] relates it to the
    list of its threads; the theorems say what [scheduler_add_thread] and
    [scheduler_schedule] do to that list, that the scheduler is fair, and what happens
    when [process_terminate] follows the same links. *)

From S2P Require Import Prelude KString Pmm Vmm Kheap.

(** ** Structures (process.h, isr.h) *)

Inductive thread_state_t :=
  THREAD_STATE_READY | THREAD_STATE_RUNNING | THREAD_STATE_BLOCKED | THREAD_STATE_TERMINATED.
#[global] Instance thread_state_eq_dec : EqDecision thread_state_t.
Proof. solve_decision. Defined.

Inductive process_state_t := PROCESS_STATE_ALIVE | PROCESS_STATE_ZOMBIE.
#[global] Instance process_state_eq_dec : EqDecision process_state_t.
Proof. solve_decision. Defined.

Record thread_t := mk_thread {
  tid : Z;
  tstate : thread_state_t;
  context : Z;
  kernel_stack : Z;
  tprocess : Z;
  tnext : Z }.

Record process_t := mk_process {
  pid : Z;
  parent_pid : Z;
  pstate : process_state_t;
  exit_status : Z;
  pname : list Z;
  cmdline : list Z;
  page_directory : Z;
  fd_table : list Z;
  threads : Z;
  pnext : Z }.

(** [struct registers], the frame saved on a kernel stack. *)
Record registers_t := mk_regs {
  ds : Z; edi : Z; esi : Z; ebp : Z; esp : Z; ebx : Z; edx : Z; ecx : Z;
  eax : Z; int_no : Z; err_code : Z; eip : Z; cs : Z; eflags : Z; useresp : Z; ss : Z }.

Definition MAX_PROCESSES : Z := 64.
Definition MAX_PROCESS_FDS : Z := 16.
Definition KERNEL_STACK_SIZE : Z := 8192.
Definition sizeof_process : Z := 252.
Definition sizeof_thread : Z := 24.
Definition sizeof_registers : Z := 64.

(** What [memset (.., 0, ..)] leaves. *)
Definition zero_thread : thread_t := mk_thread 0 THREAD_STATE_READY 0 0 0 0.
Definition zero_process : process_t :=
  mk_process 0 0 PROCESS_STATE_ALIVE 0 (replicate 32 0) (replicate 128 0) 0 (replicate 16 0) 0 0.
Definition zero_regs : registers_t := mk_regs 0 0 0 0 0 0 0 0 0 0 0 0 0 0 0 0.

Definition w_tid (v : Z) (r : thread_t) : thread_t :=
  mk_thread v (tstate r) (context r) (kernel_stack r) (tprocess r) (tnext r).
Definition w_tstate (v : thread_state_t) (r : thread_t) : thread_t :=
  mk_thread (tid r) v (context r) (kernel_stack r) (tprocess r) (tnext r).
Definition w_context (v : Z) (r : thread_t) : thread_t :=
  mk_thread (tid r) (tstate r) v (kernel_stack r) (tprocess r) (tnext r).
Definition w_kernel_stack (v : Z) (r : thread_t) : thread_t :=
  mk_thread (tid r) (tstate r) (context r) v (tprocess r) (tnext r).
Definition w_tprocess (v : Z) (r : thread_t) : thread_t :=
  mk_thread (tid r) (tstate r) (context r) (kernel_stack r) v (tnext r).
Definition w_tnext (v : Z) (r : thread_t) : thread_t :=
  mk_thread (tid r) (tstate r) (context r) (kernel_stack r) (tprocess r) v.

Definition w_pid (v : Z) (r : process_t) : process_t :=
  mk_process v (parent_pid r) (pstate r) (exit_status r) (pname r) (cmdline r) (page_directory r) (fd_table r) (threads r) (pnext r).
Definition w_parent_pid (v : Z) (r : process_t) : process_t :=
  mk_process (pid r) v (pstate r) (exit_status r) (pname r) (cmdline r) (page_directory r) (fd_table r) (threads r) (pnext r).
Definition w_pstate (v : process_state_t) (r : process_t) : process_t :=
  mk_process (pid r) (parent_pid r) v (exit_status r) (pname r) (cmdline r) (page_directory r) (fd_table r) (threads r) (pnext r).
Definition w_exit_status (v : Z) (r : process_t) : process_t :=
  mk_process (pid r) (parent_pid r) (pstate r) v (pname r) (cmdline r) (page_directory r) (fd_table r) (threads r) (pnext r).
Definition w_pname (v : list Z) (r : process_t) : process_t :=
  mk_process (pid r) (parent_pid r) (pstate r) (exit_status r) v (cmdline r) (page_directory r) (fd_table r) (threads r) (pnext r).
Definition w_cmdline (v : list Z) (r : process_t) : process_t :=
  mk_process (pid r) (parent_pid r) (pstate r) (exit_status r) (pname r) v (page_directory r) (fd_table r) (threads r) (pnext r).
Definition w_page_directory (v : Z) (r : process_t) : process_t :=
  mk_process (pid r) (parent_pid r) (pstate r) (exit_status r) (pname r) (cmdline r) v (fd_table r) (threads r) (pnext r).
Definition w_fd_table (v : list Z) (r : process_t) : process_t :=
  mk_process (pid r) (parent_pid r) (pstate r) (exit_status r) (pname r) (cmdline r) (page_directory r) v (threads r) (pnext r).
Definition w_threads (v : Z) (r : process_t) : process_t :=
  mk_process (pid r) (parent_pid r) (pstate r) (exit_status r) (pname r) (cmdline r) (page_directory r) (fd_table r) v (pnext r).
Definition w_pnext (v : Z) (r : process_t) : process_t :=
  mk_process (pid r) (parent_pid r) (pstate r) (exit_status r) (pname r) (cmdline r) (page_directory r) (fd_table r) (threads r) v.

Record sys (H F V : Type) := mk_sys {
  heap : H;
  vm : vmm F;
  files : V;
  thr : gmap Z thread_t;
  prc : gmap Z process_t;
  ctx : gmap Z registers_t;
  next_pid : Z;
  next_tid : Z;
  process_list : Z;
  current_thread : Z;
  ready_queue : Z;
  sched_ticks : Z;
  esp0 : Z }.
Arguments mk_sys {H F V}.
Arguments heap {H F V}.
Arguments vm {H F V}.
Arguments files {H F V}.
Arguments thr {H F V}.
Arguments prc {H F V}.
Arguments ctx {H F V}.
Arguments next_pid {H F V}.
Arguments next_tid {H F V}.
Arguments process_list {H F V}.
Arguments current_thread {H F V}.
Arguments ready_queue {H F V}.
Arguments sched_ticks {H F V}.
Arguments esp0 {H F V}.

Section system.
Context {H F V : Type} `{HeapAlloc H} `{FrameAllocator F}.
(** [vfs_close], the operation of fs/vfs/vfs.c on the file system state. *)
Variable vfs_close : V → Z → V.
Implicit Types (st : sys H F V) (t p : Z).

Definition w_heap (v : H) (r : sys H F V) : sys H F V :=
  mk_sys v (vm r) (files r) (thr r) (prc r) (ctx r) (next_pid r) (next_tid r) (process_list r) (current_thread r) (ready_queue r) (sched_ticks r) (esp0 r).
Definition w_vm (v : vmm F) (r : sys H F V) : sys H F V :=
  mk_sys (heap r) v (files r) (thr r) (prc r) (ctx r) (next_pid r) (next_tid r) (process_list r) (current_thread r) (ready_queue r) (sched_ticks r) (esp0 r).
Definition w_files (v : V) (r : sys H F V) : sys H F V :=
  mk_sys (heap r) (vm r) v (thr r) (prc r) (ctx r) (next_pid r) (next_tid r) (process_list r) (current_thread r) (ready_queue r) (sched_ticks r) (esp0 r).
Definition w_thr (v : gmap Z thread_t) (r : sys H F V) : sys H F V :=
  mk_sys (heap r) (vm r) (files r) v (prc r) (ctx r) (next_pid r) (next_tid r) (process_list r) (current_thread r) (ready_queue r) (sched_ticks r) (esp0 r).
Definition w_prc (v : gmap Z process_t) (r : sys H F V) : sys H F V :=
  mk_sys (heap r) (vm r) (files r) (thr r) v (ctx r) (next_pid r) (next_tid r) (process_list r) (current_thread r) (ready_queue r) (sched_ticks r) (esp0 r).
Definition w_ctx (v : gmap Z registers_t) (r : sys H F V) : sys H F V :=
  mk_sys (heap r) (vm r) (files r) (thr r) (prc r) v (next_pid r) (next_tid r) (process_list r) (current_thread r) (ready_queue r) (sched_ticks r) (esp0 r).
Definition w_next_pid (v : Z) (r : sys H F V) : sys H F V :=
  mk_sys (heap r) (vm r) (files r) (thr r) (prc r) (ctx r) v (next_tid r) (process_list r) (current_thread r) (ready_queue r) (sched_ticks r) (esp0 r).
Definition w_next_tid (v : Z) (r : sys H F V) : sys H F V :=
  mk_sys (heap r) (vm r) (files r) (thr r) (prc r) (ctx r) (next_pid r) v (process_list r) (current_thread r) (ready_queue r) (sched_ticks r) (esp0 r).
Definition w_process_list (v : Z) (r : sys H F V) : sys H F V :=
  mk_sys (heap r) (vm r) (files r) (thr r) (prc r) (ctx r) (next_pid r) (next_tid r) v (current_thread r) (ready_queue r) (sched_ticks r) (esp0 r).
Definition w_current_thread (v : Z) (r : sys H F V) : sys H F V :=
  mk_sys (heap r) (vm r) (files r) (thr r) (prc r) (ctx r) (next_pid r) (next_tid r) (process_list r) v (ready_queue r) (sched_ticks r) (esp0 r).
Definition w_ready_queue (v : Z) (r : sys H F V) : sys H F V :=
  mk_sys (heap r) (vm r) (files r) (thr r) (prc r) (ctx r) (next_pid r) (next_tid r) (process_list r) (current_thread r) v (sched_ticks r) (esp0 r).
Definition w_sched_ticks (v : Z) (r : sys H F V) : sys H F V :=
  mk_sys (heap r) (vm r) (files r) (thr r) (prc r) (ctx r) (next_pid r) (next_tid r) (process_list r) (current_thread r) (ready_queue r) v (esp0 r).
Definition w_esp0 (v : Z) (r : sys H F V) : sys H F V :=
  mk_sys (heap r) (vm r) (files r) (thr r) (prc r) (ctx r) (next_pid r) (next_tid r) (process_list r) (current_thread r) (ready_queue r) (sched_ticks r) v.

Definition tget st t : thread_t := default zero_thread (thr st !! t).
Definition pget st p : process_t := default zero_process (prc st !! p).
Definition tput st t (v : thread_t) : sys H F V := w_thr (<[t := v]> (thr st)) st.
Definition pput st p (v : process_t) : sys H F V := w_prc (<[p := v]> (prc st)) st.
Definition tupd st t (f : thread_t → thread_t) : sys H F V := tput st t (f (tget st t)).
Definition pupd st p (f : process_t → process_t) : sys H F V := pput st p (f (pget st p)).

Definition kmalloc_sys st (n : Z) : Z * sys H F V :=
  let r := halloc (heap st) n in (r.1, w_heap r.2 st).
Definition kfree_sys st (a : Z) : sys H F V := w_heap (hfree (heap st) a) st.

(** ** scheduler.c: queries and the ready queue *)

Definition scheduler_set_current_thread st t : sys H F V :=
  let st := w_current_thread t st in
  if ready_queue st =? 0 then w_ready_queue t st else st.

Definition scheduler_get_current_thread st : Z := current_thread st.

Definition scheduler_get_current_process st : Z :=
  if nz (current_thread st) then tprocess (tget st (current_thread st)) else 0.

(** [while (last->next != ready_queue) last = last->next] *)
Fixpoint find_last (fuel : nat) st (last : Z) : option Z :=
  if tnext (tget st last) =? ready_queue st then Some last
  else
    match fuel with
    | O => None
    | S fuel' => find_last fuel' st (tnext (tget st last))
    end.

Definition scheduler_add_thread (fuel : nat) st t : option (sys H F V) :=
  if ready_queue st =? 0 then
    let st := w_ready_queue t st in
    Some (tupd st t (w_tnext t))
  else
    last ← find_last fuel st (ready_queue st);
    let st := tupd st last (w_tnext t) in
    Some (tupd st t (w_tnext (ready_queue st))).

(** ** process.c: creation *)

(** [set_kernel_stack] (gdt.c) stores the stack top in the TSS. *)
Definition set_kernel_stack st (stack : Z) : sys H F V := w_esp0 stack st.

(** The frame [enter_user_mode] pushes for [iret]. *)
Record iret_frame := mk_iret { f_eip : Z; f_cs : Z; f_eflags : Z; f_esp : Z; f_ss : Z }.

(** [fallback_stack] is the function's static variable; the result is its new value, the
    state and the frame [iret] consumes; [eflags0] is the flags register at the [pushfl]. *)
Definition enter_user_mode st (fallback_stack eflags0 entry_point user_stack : Z) :
    Z * sys H F V * iret_frame :=
  let current := scheduler_get_current_thread st in
  let '(fb, st) :=
    if nz current && nz (kernel_stack (tget st current)) then
      (fallback_stack,
       set_kernel_stack st (u32 (kernel_stack (tget st current) + KERNEL_STACK_SIZE)))
    else
      let '(fb, st) := if fallback_stack =? 0 then kmalloc_sys st KERNEL_STACK_SIZE
                       else (fallback_stack, st) in
      (fb, set_kernel_stack st (u32 (fb + KERNEL_STACK_SIZE))) in
  (fb, st, mk_iret entry_point 0x1B (Z.lor eflags0 0x200) user_stack 0x23).

Definition name_Kernel : list Z := [75; 101; 114; 110; 101; 108; 0].

Definition process_init (fuel : nat) st : option (sys H F V) :=
  let st := w_next_tid 1 (w_next_pid 1 st) in
  let '(kp, st) := kmalloc_sys st sizeof_process in
  let st := pput st kp (w_pname (kstrncpy (pname zero_process) 0 name_Kernel 31)
                          (w_pid 0 zero_process)) in
  let '(kt, st) := kmalloc_sys st sizeof_thread in
  let st := tput st kt (w_tprocess kp (w_tstate THREAD_STATE_RUNNING
                          (w_tid 0 zero_thread))) in
  let st := pupd st kp (λ r, w_pnext 0 (w_threads kt r)) in
  let st := w_process_list kp st in
  st ← scheduler_add_thread fuel st kt;
  Some (scheduler_set_current_thread st kt).

(** The block at [proc] becomes a process: cleared, numbered, named. *)
Definition init_process st (proc : Z) (name : list Z) : sys H F V :=
  let st := pput st proc zero_process in
  let st := pupd st proc (w_pid (next_pid st)) in
  let st := w_next_pid (u32 (next_pid st + 1)) st in
  let st := pupd st proc (λ r, w_exit_status 0 (w_pstate PROCESS_STATE_ALIVE r)) in
  let parent := scheduler_get_current_process st in
  let st := pupd st proc (w_parent_pid (if nz parent then pid (pget st parent) else 0)) in
  pupd st proc (λ r, w_pname (kstrncpy (pname r) 0 name 31) r).

(** The block at [thread] becomes its thread, and its descriptor table is cleared. *)
Definition init_thread st (proc thread : Z) : sys H F V :=
  let st := tput st thread zero_thread in
  let st := tupd st thread (w_tid (next_tid st)) in
  let st := w_next_tid (u32 (next_tid st + 1)) st in
  let st := tupd st thread (λ r, w_tprocess proc (w_tstate THREAD_STATE_READY r)) in
  let st := pupd st proc (w_threads thread) in
  pupd st proc (λ r, w_fd_table
    (for_loop (Z.to_nat MAX_PROCESS_FDS) 0 (λ i l, l.[i <- 0]) (fd_table r)) r).

(** The part [process_create] and [process_create_user] share, up to the zeroed register
    frame at the top of the kernel stack: the process, its thread and the frame, or [None]
    on the allocation failures, which free what was allocated before. *)
Definition process_alloc st (name : list Z) : sys H F V * option (Z * Z * Z) :=
  let '(proc, st) := kmalloc_sys st sizeof_process in
  if proc =? 0 then (st, None)
  else
    let st := init_process st proc name in
    let '(thread, st) := kmalloc_sys st sizeof_thread in
    if thread =? 0 then (kfree_sys st proc, None)
    else
      let st := init_thread st proc thread in
      let '(stack, st) := kmalloc_sys st KERNEL_STACK_SIZE in
      let st := tupd st thread (w_kernel_stack stack) in
      if stack =? 0 then (kfree_sys (kfree_sys st thread) proc, None)
      else
        let regs := u32 (u32 (stack + KERNEL_STACK_SIZE) - sizeof_registers) in
        let st := w_ctx (<[regs := zero_regs]> (ctx st)) st in
        (st, Some (proc, thread, regs)).

Definition push_process st p : sys H F V :=
  let st := pupd st p (w_pnext (process_list st)) in
  w_process_list p st.

(** Everything [process_create] does between the allocation and the ready queue. *)
Definition finish_create st (entrypoint proc thread regs : Z) : sys H F V :=
  let top := u32 (kernel_stack (tget st thread) + KERNEL_STACK_SIZE) in
  let frame := mk_regs 0x10 0 0 top regs 0 0 0 0 0 0 entrypoint 0x08 0x202 0 0 in
  let st := w_ctx (<[regs := frame]> (ctx st)) st in
  let st := tupd st thread (w_context regs) in
  let st := pupd st proc (w_page_directory 0) in
  push_process st proc.

Definition process_create (fuel : nat) st (name : list Z) (entrypoint : Z) :
    option (Z * sys H F V) :=
  match process_alloc st name with
  | (st, None) => Some (0, st)
  | (st, Some (proc, thread, regs)) =>
      let st := finish_create st entrypoint proc thread regs in
      st ← scheduler_add_thread fuel st thread;
      Some (proc, st)
  end.

Definition process_create_user st (name : list Z) (entrypoint user_stack_top : Z) :
    Z * sys H F V :=
  match process_alloc st name with
  | (st, None) => (0, st)
  | (st, Some (proc, thread, regs)) =>
      let frame := mk_regs 0x23 0 0 user_stack_top 0 0 0 0 0 0 0 entrypoint 0x1B 0x202
                     user_stack_top 0x23 in
      let st := w_ctx (<[regs := frame]> (ctx st)) st in
      let st := tupd st thread (w_context regs) in
      let '(dir, v) := vmm_clone_directory (vm st) in
      let st := w_vm v st in
      let st := pupd st proc (w_page_directory dir) in
      (proc, push_process st proc)
  end.

Definition process_get_list st : Z := process_list st.

Fixpoint get_by_pid_loop (fuel : nat) st (curr k : Z) : option Z :=
  if curr =? 0 then Some 0
  else if pid (pget st curr) =? k then Some curr
  else
    match fuel with
    | O => None
    | S fuel' => get_by_pid_loop fuel' st (pnext (pget st curr)) k
    end.

Definition process_get_by_pid (fuel : nat) st (k : Z) : option Z :=
  get_by_pid_loop fuel st (process_list st) k.

(** ** process.c: termination *)

(** [while (t) { t->state = TERMINATED; t = t->next; }] *)
Fixpoint kill_threads (fuel : nat) st t : option (sys H F V) :=
  if t =? 0 then Some st
  else
    match fuel with
    | O => None
    | S fuel' =>
        let st := tupd st t (w_tstate THREAD_STATE_TERMINATED) in
        kill_threads fuel' st (tnext (tget st t))
    end.

Definition close_fds st p : sys H F V :=
  for_loop (Z.to_nat MAX_PROCESS_FDS) 0
    (λ i st,
       let fd := (fd_table (pget st p)).[i] in
       if nz fd then
         let st := w_files (vfs_close (files st) fd) st in
         pupd st p (λ r, w_fd_table ((fd_table r).[i <- 0]) r)
       else st) st.

Definition process_terminate (fuel : nat) st p (status : Z) : option (sys H F V) :=
  if (p =? 0) || bool_decide (pstate (pget st p) = PROCESS_STATE_ZOMBIE) then Some st
  else
    let st := pupd st p (λ r, w_exit_status status (w_pstate PROCESS_STATE_ZOMBIE r)) in
    st ← kill_threads fuel st (threads (pget st p));
    Some (close_fds st p).

(** [while (curr && curr->next != proc) curr = curr->next] *)
Fixpoint find_prev (fuel : nat) st (curr p : Z) : option Z :=
  if (curr =? 0) || (pnext (pget st curr) =? p) then Some curr
  else
    match fuel with
    | O => None
    | S fuel' => find_prev fuel' st (pnext (pget st curr)) p
    end.

Definition unlink_process (fuel : nat) st p : option (sys H F V) :=
  if process_list st =? p then Some (w_process_list (pnext (pget st p)) st)
  else
    curr ← find_prev fuel st (process_list st) p;
    Some (if nz curr then pupd st curr (w_pnext (pnext (pget st p))) else st).

Fixpoint free_threads (fuel : nat) st t : option (sys H F V) :=
  if t =? 0 then Some st
  else
    match fuel with
    | O => None
    | S fuel' =>
        let next := tnext (tget st t) in
        let st := if nz (kernel_stack (tget st t)) then kfree_sys st (kernel_stack (tget st t))
                  else st in
        let st := kfree_sys st t in
        free_threads fuel' st next
    end.

Definition process_cleanup (fuel : nat) st p : option (sys H F V) :=
  if p =? 0 then Some st
  else
    st ← unlink_process fuel st p;
    st ← free_threads fuel st (threads (pget st p));
    let st := if nz (page_directory (pget st p))
              then w_vm (vmm_free_directory (vm st) (page_directory (pget st p))) st else st in
    Some (kfree_sys st p).

(** One poll of the busy-wait loop: the result when the loop ends here. *)
Definition waitpid_poll (fuel : nat) st (k : Z) : option (option (Z * Z * sys H F V)) :=
  child ← process_get_by_pid fuel st k;
  if child =? 0 then Some (Some (-1, 0, st))
  else if bool_decide (pstate (pget st child) = PROCESS_STATE_ZOMBIE) then
    let status := exit_status (pget st child) in
    st ← process_cleanup fuel st child;
    Some (Some (s32 k, status, st))
  else Some None.

(** The loop; [tick] is what the interrupts do to the state between two polls.  The result
    is the return value, the exit status stored through [status], and the state. *)
Fixpoint process_waitpid (fuel : nat) (tick : sys H F V → sys H F V) st (k : Z) :
    option (Z * Z * sys H F V) :=
  match fuel with
  | O => None
  | S fuel' =>
      r ← waitpid_poll fuel st k;
      match r with
      | Some res => Some res
      | None => process_waitpid fuel' tick (tick st) k
      end
  end.

(** ** scheduler.c: the tick *)

Definition runnable (s : thread_state_t) : bool :=
  match s with THREAD_STATE_READY | THREAD_STATE_RUNNING => true | _ => false end.

Fixpoint reap_loop (fuel : nat) st (curr : Z) : option (sys H F V) :=
  if curr =? 0 then Some st
  else
    match fuel with
    | O => None
    | S fuel' =>
        let next := pnext (pget st curr) in
        st ←
          (if bool_decide (pstate (pget st curr) = PROCESS_STATE_ZOMBIE) then
             parent ← process_get_by_pid fuel st (parent_pid (pget st curr));
             if (parent =? 0) || bool_decide (pstate (pget st parent) = PROCESS_STATE_ZOMBIE)
             then process_cleanup fuel st curr
             else Some st
           else Some st);
        reap_loop fuel' st next
    end.

(** [do { queue_size++; temp = temp->next; } while (temp != ready_queue)] *)
Fixpoint count_loop (fuel : nat) st (temp : Z) (queue_size : Z) : option Z :=
  match fuel with
  | O => None
  | S fuel' =>
      let temp := tnext (tget st temp) in
      if temp =? ready_queue st then Some (queue_size + 1)
      else count_loop fuel' st temp (queue_size + 1)
  end.

(** [n] is [queue_size - checked]. *)
Fixpoint pick_loop (n : nat) st (cur : Z) : Z :=
  match n with
  | O => cur
  | S n' =>
      if nz cur && negb (runnable (tstate (tget st cur))) then pick_loop n' st (tnext (tget st cur))
      else cur
  end.

Definition switch_kernel_directory st : sys H F V :=
  w_vm (vmm_switch_directory (vm st) (V2P (vmm_get_kernel_directory (vm st)))) st.

(** Save the context of the current thread. *)
Definition save_context st (regs : Z) : sys H F V :=
  if nz (current_thread st) then tupd st (current_thread st) (w_context regs) else st.

(** The periodic zombie cleanup. *)
Definition zombie_cleanup (fuel : nat) st : option (sys H F V) :=
  let st := w_sched_ticks (sched_ticks st + 1) st in
  if 100 <? sched_ticks st then
    let st := w_sched_ticks 0 st in
    reap_loop fuel st (process_get_list st)
  else Some st.

(** What happens once the search has stopped at [cur]. *)
Definition resume st (cur regs : Z) : Z * sys H F V :=
  if (cur =? 0) || bool_decide (tstate (tget st cur) = THREAD_STATE_TERMINATED) then
    (regs, switch_kernel_directory (w_current_thread 0 st))
  else
    let st := w_current_thread cur st in
    let st := tupd st cur (w_tstate THREAD_STATE_RUNNING) in
    let st := if nz (kernel_stack (tget st cur))
              then set_kernel_stack st (u32 (kernel_stack (tget st cur) + KERNEL_STACK_SIZE))
              else st in
    if context (tget st cur) =? 0 then (regs, st)
    else
      let proc := tprocess (tget st cur) in
      let st := if nz proc && nz (page_directory (pget st proc))
                then w_vm (vmm_switch_directory (vm st) (V2P (page_directory (pget st proc)))) st
                else switch_kernel_directory st in
      (context (tget st cur), st).

Definition scheduler_schedule (fuel : nat) st (regs : Z) : option (Z * sys H F V) :=
  if ready_queue st =? 0 then Some (regs, st)
  else
    let st := save_context st regs in
    st ← zombie_cleanup fuel st;
    let cur := if current_thread st =? 0 then ready_queue st
               else tnext (tget st (current_thread st)) in
    queue_size ← (if nz (ready_queue st) then count_loop fuel st (ready_queue st) 0 else Some 0);
    Some (resume st (pick_loop (Z.to_nat queue_size) st cur) regs).

(** ** wait.c *)

Record wait_queue_t := mk_wq { wq_threads : list Z; wq_count : Z }.

Definition wait_queue_init (q : wait_queue_t) : wait_queue_t := mk_wq (wq_threads q) 0.

(** The result says whether the thread blocked, in which case [int 0x20] yields. *)
Definition wait_on st (q : wait_queue_t) : bool * sys H F V * wait_queue_t :=
  let curr := scheduler_get_current_thread st in
  if curr =? 0 then (false, st, q)
  else if wq_count q <? MAX_PROCESSES then
    let st := tupd st curr (w_tstate THREAD_STATE_BLOCKED) in
    (true, st, mk_wq ((wq_threads q).[wq_count q <- curr]) (wq_count q + 1))
  else (false, st, q).

Definition wake_up st (q : wait_queue_t) : sys H F V * wait_queue_t :=
  (for_loop (Z.to_nat (wq_count q)) 0
     (λ i st, tupd st ((wq_threads q).[i]) (w_tstate THREAD_STATE_READY)) st,
   mk_wq (wq_threads q) 0).

(** ** Reading back *)

Lemma tget_tput st t v t' : tget (tput st t v) t' = if t' =? t then v else tget st t'.
Proof.
  unfold tget, tput. simpl. destruct (Z.eqb_spec t' t) as [->|].
  - by rewrite lookup_insert_eq.
  - by rewrite lookup_insert_ne.
Qed.

Lemma pget_pput st p v p' : pget (pput st p v) p' = if p' =? p then v else pget st p'.
Proof.
  unfold pget, pput. simpl. destruct (Z.eqb_spec p' p) as [->|].
  - by rewrite lookup_insert_eq.
  - by rewrite lookup_insert_ne.
Qed.

Lemma tget_tupd st t f t' : tget (tupd st t f) t' = if t' =? t then f (tget st t) else tget st t'.
Proof. apply tget_tput. Qed.

Lemma pget_pupd st p f p' : pget (pupd st p f) p' = if p' =? p then f (pget st p) else pget st p'.
Proof. apply pget_pput. Qed.

Lemma tget_pput st p v t : tget (pput st p v) t = tget st t.
Proof. done. Qed.
Lemma tget_pupd st p f t : tget (pupd st p f) t = tget st t.
Proof. done. Qed.
Lemma pget_tput st t v p : pget (tput st t v) p = pget st p.
Proof. done. Qed.
Lemma pget_tupd st t f p : pget (tupd st t f) p = pget st p.
Proof. done. Qed.
Lemma tget_w_heap v st a : tget (w_heap v st) a = tget st a.
Proof. done. Qed.
Lemma tget_w_vm v st a : tget (w_vm v st) a = tget st a.
Proof. done. Qed.
Lemma tget_w_files v st a : tget (w_files v st) a = tget st a.
Proof. done. Qed.
Lemma tget_w_ctx v st a : tget (w_ctx v st) a = tget st a.
Proof. done. Qed.
Lemma tget_w_next_pid v st a : tget (w_next_pid v st) a = tget st a.
Proof. done. Qed.
Lemma tget_w_next_tid v st a : tget (w_next_tid v st) a = tget st a.
Proof. done. Qed.
Lemma tget_w_process_list v st a : tget (w_process_list v st) a = tget st a.
Proof. done. Qed.
Lemma tget_w_current_thread v st a : tget (w_current_thread v st) a = tget st a.
Proof. done. Qed.
Lemma tget_w_ready_queue v st a : tget (w_ready_queue v st) a = tget st a.
Proof. done. Qed.
Lemma tget_w_sched_ticks v st a : tget (w_sched_ticks v st) a = tget st a.
Proof. done. Qed.
Lemma tget_w_esp0 v st a : tget (w_esp0 v st) a = tget st a.
Proof. done. Qed.
Lemma pget_w_heap v st a : pget (w_heap v st) a = pget st a.
Proof. done. Qed.
Lemma pget_w_vm v st a : pget (w_vm v st) a = pget st a.
Proof. done. Qed.
Lemma pget_w_files v st a : pget (w_files v st) a = pget st a.
Proof. done. Qed.
Lemma pget_w_ctx v st a : pget (w_ctx v st) a = pget st a.
Proof. done. Qed.
Lemma pget_w_next_pid v st a : pget (w_next_pid v st) a = pget st a.
Proof. done. Qed.
Lemma pget_w_next_tid v st a : pget (w_next_tid v st) a = pget st a.
Proof. done. Qed.
Lemma pget_w_process_list v st a : pget (w_process_list v st) a = pget st a.
Proof. done. Qed.
Lemma pget_w_current_thread v st a : pget (w_current_thread v st) a = pget st a.
Proof. done. Qed.
Lemma pget_w_ready_queue v st a : pget (w_ready_queue v st) a = pget st a.
Proof. done. Qed.
Lemma pget_w_sched_ticks v st a : pget (w_sched_ticks v st) a = pget st a.
Proof. done. Qed.
Lemma pget_w_esp0 v st a : pget (w_esp0 v st) a = pget st a.
Proof. done. Qed.

(** [stget] pushes reads of the stores through updates of the other components. *)
Ltac stget :=
  repeat first
    [ rewrite tget_pput | rewrite tget_pupd
    | rewrite pget_tput | rewrite pget_tupd
    | rewrite tget_w_heap | rewrite tget_w_vm
    | rewrite tget_w_files | rewrite tget_w_ctx
    | rewrite tget_w_next_pid | rewrite tget_w_next_tid
    | rewrite tget_w_process_list | rewrite tget_w_current_thread
    | rewrite tget_w_ready_queue | rewrite tget_w_sched_ticks
    | rewrite tget_w_esp0 | rewrite pget_w_heap
    | rewrite pget_w_vm | rewrite pget_w_files
    | rewrite pget_w_ctx | rewrite pget_w_next_pid
    | rewrite pget_w_next_tid | rewrite pget_w_process_list
    | rewrite pget_w_current_thread | rewrite pget_w_ready_queue
    | rewrite pget_w_sched_ticks | rewrite pget_w_esp0 ].

(** ** The ready queue as a list *)

Fixpoint chain (nx : Z → Z) (l : list Z) (z : Z) : Prop :=
  match l with
  | [] => True
  | a :: l' => nx a = hd z l' ∧ chain nx l' z
  end.

Lemma chain_app nx l1 l2 z : chain nx (l1 ++ l2) z ↔ chain nx l1 (hd z l2) ∧ chain nx l2 z.
Proof.
  induction l1 as [|a l1 IH]; simpl; [tauto|]. rewrite IH. destruct l1; simpl; tauto.
Qed.

Lemma chain_ext nx nx' l z : (∀ a, a ∈ l → nx' a = nx a) → chain nx l z → chain nx' l z.
Proof.
  induction l as [|a l IH]; simpl; [done|]. intros He [Ha Hl]. split.
  - rewrite He; [done|]. left.
  - apply IH; [|done]. intros b Hb. apply He. by right.
Qed.

Definition nexts st : Z → Z := λ t, tnext (tget st t).

Record ring st (l : list Z) : Prop := {
  ring_head : hd 0 l = ready_queue st;
  ring_ne : l ≠ [];
  ring_nodup : NoDup l;
  ring_nonnull : Forall (λ t, t ≠ 0) l;
  ring_chain : chain (nexts st) l (ready_queue st) }.

(** The last element of [a :: l]. *)
Fixpoint last_from (a : Z) (l : list Z) : Z :=
  match l with [] => a | b :: l' => last_from b l' end.

Lemma find_last_spec fuel st a l :
  (length l <= fuel)%nat → chain (nexts st) (a :: l) (ready_queue st) → ready_queue st ∉ l →
  find_last fuel st a = Some (last_from a l).
Proof.
  revert fuel a. induction l as [|b l IH]; intros fuel a Hf [Ha Hl] Hq.
  - unfold nexts in Ha. simpl in Ha. destruct fuel; simpl; by rewrite Ha, Z.eqb_refl.
  - destruct fuel as [|fuel]; simpl in Hf; [lia|]. unfold nexts in Ha. simpl in Ha.
    cbn [find_last]. rewrite Ha. apply not_elem_of_cons in Hq as [Hqb Hq].
    rewrite (proj2 (Z.eqb_neq b (ready_queue st))) by done.
    by rewrite IH by (done || lia).
Qed.

Lemma ring_unfold st l : ring st l → ∃ l', l = ready_queue st :: l' ∧ ready_queue st ∉ l' ∧
  ready_queue st ≠ 0 ∧ chain (nexts st) (ready_queue st :: l') (ready_queue st).
Proof.
  intros [Hh Hne Hnd Hnz Hc]. destruct l as [|q l']; [done|]. simpl in Hh. subst q.
  exists l'. apply NoDup_cons in Hnd as [? ?]. apply Forall_cons in Hnz as [??]. done.
Qed.

Lemma last_snoc_split (l : list Z) a : ∃ l0, a :: l = l0 ++ [last_from a l].
Proof.
  revert a. induction l as [|b l IH]; intros a; [by exists []|].
  destruct (IH b) as [l0 Hl0]. exists (a :: l0). simpl. by rewrite Hl0.
Qed.

(** Appending a thread to the ring. *)
Lemma add_thread_ring fuel st l t :
  ring st l → t ∉ l → t ≠ 0 → (length l <= fuel)%nat →
  ∃ st', scheduler_add_thread fuel st t = Some st' ∧ ring st' (l ++ [t]) ∧
    current_thread st' = current_thread st ∧
    (∀ u, w_tnext 0 (tget st' u) = w_tnext 0 (tget st u)) ∧ prc st' = prc st ∧
    process_list st' = process_list st ∧ heap st' = heap st ∧ ctx st' = ctx st.
Proof.
  intros Hr Ht Ht0 Hf. pose proof Hr as Hr0.
  apply ring_unfold in Hr as (l' & -> & Hq & Hq0 & Hc).
  unfold scheduler_add_thread. rewrite (proj2 (Z.eqb_neq _ _) Hq0).
  rewrite (find_last_spec fuel st _ l'); [|simpl in Hf; lia|done|done]. simpl mbind.
  destruct (last_snoc_split l' (ready_queue st)) as [l0 Hl0].
  set (la := last_from (ready_queue st) l') in *.
  assert (la ∈ ready_queue st :: l') as Hla by (rewrite Hl0; set_solver).
  clearbody la. assert (t ≠ la) by (intros ->; done).
  eexists. split; [done|]. split_and!; try done.
  - split.
    + done.
    + done.
    + apply NoDup_app. split_and!; [by destruct Hr0|set_solver|apply NoDup_singleton].
    + apply Forall_app. split; [by destruct Hr0|by constructor].
    + cbn [ready_queue tupd tput w_thr]. rewrite Hl0, <-app_assoc.
      rewrite Hl0 in Hc. apply chain_app in Hc as [Hc0 [Hcl _]].
      assert (NoDup (l0 ++ [la])) as Hnd by (rewrite <-Hl0; by destruct Hr0).
      apply NoDup_app in Hnd as (_ & Hnd & _).
      apply chain_app. split; [|split; [|split; [|done]]].
      * simpl. eapply chain_ext; [|exact Hc0]. intros a Ha. unfold nexts.
        rewrite !tget_tupd. specialize (Hnd a Ha).
        assert (a ≠ t) by (intros ->; apply Ht; rewrite Hl0; set_solver).
        assert (a ≠ la) by set_solver.
        by rewrite !(proj2 (Z.eqb_neq _ _)) by done.
      * unfold nexts. rewrite !tget_tupd. simpl.
        rewrite (proj2 (Z.eqb_neq la t)), Z.eqb_refl by done. done.
      * unfold nexts. rewrite !tget_tupd. simpl. by rewrite Z.eqb_refl.
  - intros u. rewrite !tget_tupd.
    destruct (Z.eqb_spec u t) as [->|].
    + rewrite (proj2 (Z.eqb_neq t la)) by done. by destruct (tget st t).
    + destruct (Z.eqb_spec u la) as [->|]; [|done]. by destruct (tget st la).
Qed.

Lemma count_loop_spec fuel st a l n :
  (length l < fuel)%nat → chain (nexts st) (a :: l) (ready_queue st) → ready_queue st ∉ l →
  count_loop fuel st a n = Some (n + Z.of_nat (length (a :: l))).
Proof.
  revert fuel a n. induction l as [|b l IH]; intros fuel a n Hf [Ha Hl] Hq;
    (destruct fuel as [|fuel]; [simpl in Hf; lia|]); unfold nexts in Ha; simpl in Ha;
    cbn [count_loop]; rewrite Ha.
  - rewrite Z.eqb_refl. simpl. f_equal.
  - apply not_elem_of_cons in Hq as [Hqb Hq].
    rewrite (proj2 (Z.eqb_neq b (ready_queue st))) by done.
    rewrite IH by (simpl in Hf; done || lia). f_equal. simpl length. lia.
Qed.

Definition is_runnable st t : bool := runnable (tstate (tget st t)).

(** The thread the scheduler settles on when it examines the threads in the order [l]:
    the first runnable one, or [z], where the walk ends. *)
Definition pick st (l : list Z) (z : Z) : Z :=
  match List.find (is_runnable st) l with Some t => t | None => z end.

Lemma pick_loop_spec st l z :
  chain (nexts st) l z → Forall (λ t, t ≠ 0) l →
  pick_loop (length l) st (hd z l) = pick st l z.
Proof.
  unfold pick. intros Hc Hnz. revert Hc. induction Hnz as [|a l Ha Hl IH]; [done|].
  intros [Hx Hc]. simpl. unfold nz. rewrite (proj2 (Z.eqb_neq a 0)) by done. simpl.
  unfold is_runnable at 1. destruct (runnable (tstate (tget st a))); simpl; [done|].
  unfold nexts in Hx. rewrite Hx. by apply IH.
Qed.

(** The process list. *)
Record plist st (pl : list Z) : Prop := {
  pl_head : hd 0 pl = process_list st;
  pl_nonnull : Forall (λ p, p ≠ 0) pl;
  pl_chain : chain (λ p, pnext (pget st p)) pl 0 }.

Lemma get_by_pid_spec fuel st pl k :
  (length pl <= fuel)%nat → plist st pl →
  process_get_by_pid fuel st k =
  Some (default 0 (List.find (λ p, pid (pget st p) =? k) pl)).
Proof.
  intros Hf [Hh Hnz Hc]. unfold process_get_by_pid. rewrite <-Hh. clear Hh. revert fuel Hf Hc.
  induction Hnz as [|p pl Hp Hnz IH]; intros fuel Hf Hc; [by destruct fuel|].
  destruct Hc as [Hn Hc]. simpl in Hf. destruct fuel as [|fuel]; [lia|].
  cbn [hd get_by_pid_loop List.find]. rewrite (proj2 (Z.eqb_neq p 0)) by done.
  case_match; [done|]. rewrite Hn. apply IH; [lia|done].
Qed.

(** The process list, and that nothing on it is a zombie. *)
Record alive_list st (pl : list Z) : Prop := {
  al_head : hd 0 pl = process_list st;
  al_nonnull : Forall (λ p, p ≠ 0) pl;
  al_chain : chain (λ p, pnext (pget st p)) pl 0;
  al_alive : Forall (λ p, pstate (pget st p) = PROCESS_STATE_ALIVE) pl }.

Lemma reap_loop_alive fuel st pl :
  (length pl <= fuel)%nat → Forall (λ p, p ≠ 0) pl → chain (λ p, pnext (pget st p)) pl 0 →
  Forall (λ p, pstate (pget st p) = PROCESS_STATE_ALIVE) pl →
  reap_loop fuel st (hd 0 pl) = Some st.
Proof.
  intros Hf Hnz. revert fuel Hf. induction Hnz as [|p pl Hp Hnz IH]; intros fuel Hf Hc Ha.
  { by destruct fuel. }
  destruct fuel as [|fuel]; simpl in Hf; [lia|]. destruct Hc as [Hn Hc].
  apply Forall_cons in Ha as [Hs Ha]. simpl hd. cbn [reap_loop].
  rewrite (proj2 (Z.eqb_neq p 0)), Hs, bool_decide_false by done. simpl mbind.
  rewrite Hn. apply IH; [lia|done|done].
Qed.

(** The order in which the scheduler examines the ring [l]: from the current thread's
    successor around to the current thread, or from the head when there is none. *)
Definition rotation (cur : Z) (l rot : list Z) : Prop :=
  (cur = 0 ∧ rot = l) ∨ ∃ l1 l2, l = l1 ++ cur :: l2 ∧ rot = l2 ++ l1 ++ [cur].

Lemma rotation_chain st l rot :
  ring st l → rotation (current_thread st) l rot →
  Permutation rot l ∧ chain (nexts st) rot (hd 0 rot) ∧
  hd 0 rot = (if current_thread st =? 0 then ready_queue st
              else tnext (tget st (current_thread st))).
Proof.
  intros [Hh Hne Hnd Hnz Hc] [[H0' ->]|(l1 & l2 & -> & ->)].
  - rewrite H0', Hh. by split_and!.
  - apply chain_app in Hc as [Hc1 [Hcc Hc2]]. simpl in Hc1.
    assert (current_thread st ≠ 0) as Hcz by (rewrite Forall_forall in Hnz; set_solver).
    rewrite (proj2 (Z.eqb_neq _ _) Hcz). fold (nexts st (current_thread st)). rewrite Hcc.
    assert (hd 0 (l2 ++ l1 ++ [current_thread st]) = hd (ready_queue st) l2) as Hhd.
    { rewrite <-Hh. destruct l2; [|done]. by destruct l1. }
    split_and!; [|rewrite Hhd|done].
    + rewrite (app_assoc l2), (Permutation_app_comm l2), <-app_assoc. simpl.
      by rewrite (Permutation_app_comm l2 [_]).
    + apply chain_app. split; [|apply chain_app; split; [done|by split]].
      rewrite <-Hh in Hc2. destruct l1; done.
Qed.

(** What a tick leaves alone. *)
Record tick_frame st st' : Prop := {
  tf_ready : ready_queue st' = ready_queue st;
  tf_next t : tnext (tget st' t) = tnext (tget st t);
  tf_kstack t : kernel_stack (tget st' t) = kernel_stack (tget st t);
  tf_proc t : tprocess (tget st' t) = tprocess (tget st t);
  tf_prc : prc st' = prc st;
  tf_plist : process_list st' = process_list st;
  tf_heap : heap st' = heap st }.

Lemma tick_frame_state st t s : tick_frame st (tupd st t (w_tstate s)).
Proof. split; try done; intros u; rewrite tget_tupd; by destruct (Z.eqb_spec u t) as [->|]. Qed.

Lemma tick_frame_trans st st' st'' : tick_frame st st' → tick_frame st' st'' → tick_frame st st''.
Proof. intros [] []. split; intros; etransitivity; eauto. Qed.

Lemma ring_frame st st' l : tick_frame st st' → ring st l → ring st' l.
Proof.
  intros [Hq Hn _ _ _ _ _] [Hh Hne Hnd Hnz Hc]. split; try done.
  - by rewrite Hq.
  - rewrite Hq. eapply chain_ext; [|exact Hc]. intros a _. apply Hn.
Qed.

Lemma alive_frame st st' pl : tick_frame st st' → alive_list st pl → alive_list st' pl.
Proof.
  intros [_ _ _ _ Hp Hl _] [Hh Hnz Hc Ha].
  assert (∀ p, pget st' p = pget st p) as Hg by (intros; unfold pget; by rewrite Hp).
  split; [by rewrite Hl|done| |].
  - eapply chain_ext; [|exact Hc]. intros a _. by rewrite Hg.
  - eapply Forall_impl; [exact Ha|]. intros a Hx. by rewrite Hg.
Qed.

(** The context a thread is resumed with: the one just saved if it was running. *)
Definition saved_context st (regs c : Z) : Z :=
  if nz (current_thread st) && (c =? current_thread st) then regs else context (tget st c).

Lemma find_ext {A} (f g : A → bool) l : (∀ a, f a = g a) → List.find f l = List.find g l.
Proof. intros He. induction l as [|a l IH]; simpl; [done|]. by rewrite He, IH. Qed.

Lemma find_Some_in {A} (f : A → bool) l a : List.find f l = Some a → a ∈ l ∧ f a = true.
Proof. intros [? ?]%List.find_some. by rewrite list_elem_of_In. Qed.

Lemma save_context_spec st regs :
  tick_frame st (save_context st regs) ∧
  current_thread (save_context st regs) = current_thread st ∧
  (∀ t, tstate (tget (save_context st regs) t) = tstate (tget st t)) ∧
  (∀ t, context (tget (save_context st regs) t) = saved_context st regs t).
Proof.
  unfold save_context, saved_context.
  destruct (nz (current_thread st)); cbn [andb]; [|by split_and!].
  split_and!; [split|..]; try done; intros t; rewrite tget_tupd;
    destruct (Z.eqb_spec t (current_thread st)) as [->|]; done.
Qed.

(** With no zombie on the list the cleanup only counts the tick. *)
Lemma zombie_cleanup_alive fuel st pl :
  alive_list st pl → (length pl <= fuel)%nat →
  ∃ n, zombie_cleanup fuel st = Some (w_sched_ticks n st).
Proof.
  intros [Hh Hnz Hc Ha] Hf. unfold zombie_cleanup. cbv zeta. case_match; [|by eexists].
  exists 0. change (w_sched_ticks 0 (w_sched_ticks _ st)) with (w_sched_ticks 0 st).
  unfold process_get_list. change (process_list (w_sched_ticks 0 st)) with (process_list st).
  rewrite <-Hh. by apply (reap_loop_alive fuel (w_sched_ticks 0 st) pl).
Qed.

Lemma resume_spec st c regs :
  c ≠ 0 → 
  tick_frame st (resume st c regs).2 ∧
  if bool_decide (tstate (tget st c) = THREAD_STATE_TERMINATED) then
    (resume st c regs).1 = regs ∧ current_thread (resume st c regs).2 = 0 ∧
    (∀ t, tstate (tget (resume st c regs).2 t) = tstate (tget st t))
  else
    current_thread (resume st c regs).2 = c ∧
    (resume st c regs).1 = (if context (tget st c) =? 0 then regs else context (tget st c)) ∧
    (∀ t, tstate (tget (resume st c regs).2 t) =
          if t =? c then THREAD_STATE_RUNNING else tstate (tget st t)).
Proof.
  intros Hc. unfold resume. rewrite (proj2 (Z.eqb_neq c 0) Hc). cbn [orb].
  destruct (bool_decide _); [by split|]. cbv zeta.
  set (st1 := tupd (w_current_thread c st) c (w_tstate THREAD_STATE_RUNNING)).
  assert (∀ t, tget st1 t = if t =? c then w_tstate THREAD_STATE_RUNNING (tget st c) else tget st t)
    as Ht by (intros; unfold st1; by rewrite tget_tupd).
  assert (tick_frame st st1) as Hf.
  { split; try done; intros t; rewrite Ht; destruct (Z.eqb_spec t c) as [->|]; done. }
  set (st2 := if nz (kernel_stack (tget st1 c)) then _ else st1).
  assert (thr st2 = thr st1 ∧ current_thread st2 = c ∧ tick_frame st1 st2) as (Htt & Hcc & Hf2).
  { unfold st2. case_match; by split_and!. }
  assert (∀ t, tget st2 t = tget st1 t) as Ht2 by (intros; unfold tget; by rewrite Htt).
  clearbody st2.
  assert (tick_frame st st2) as Hf3.
  { by eapply tick_frame_trans. }
  rewrite !Ht2, !Ht, !Z.eqb_refl. cbn [context w_tstate].
  assert (∀ t, tstate (tget st2 t) =
    if t =? c then THREAD_STATE_RUNNING else tstate (tget st t)) as Hts.
  { intros t. rewrite Ht2, Ht. by destruct (t =? c). }
  case_match; [by split|].
  match goal with |- context [if ?b then w_vm ?x st2 else _] =>
    assert (∃ v, (if b then w_vm x st2 else switch_kernel_directory st2) = w_vm v st2) as [v ->]
      by (destruct b; by eexists) end.
  cbn [fst snd]. split; [by destruct Hf3|]. split_and!; [done| |done].
  change (tget (w_vm v st2) c) with (tget st2 c). by rewrite Ht2, Ht, Z.eqb_refl.
Qed.

(** *** Reaping

    The processes on the list, zombies among them.  The threads of a zombie are a list that
    ends in NULL, of at most [k] threads: they were never put on the ready queue, which is a
    ring. *)

Record listed (k : nat) st (pl : list Z) : Prop := {
  ls_plist : plist st pl;
  ls_nodup : NoDup pl;
  ls_zombie p : p ∈ pl → pstate (pget st p) = PROCESS_STATE_ZOMBIE →
    ∃ tl, hd 0 tl = threads (pget st p) ∧ Forall (λ t, t ≠ 0) tl ∧ chain (nexts st) tl 0 ∧ (length tl <= k)%nat }.

(** The threads and the queue are as before; the processes up to their [next] links. *)
Record reaped st st' : Prop := {
  rp_thr : thr st' = thr st;
  rp_ready : ready_queue st' = ready_queue st;
  rp_current : current_thread st' = current_thread st;
  rp_procs q : w_pnext 0 (pget st' q) = w_pnext 0 (pget st q) }.

Lemma reaped_refl st : reaped st st.
Proof. done. Qed.

Lemma reaped_trans st st' st'' : reaped st st' → reaped st' st'' → reaped st st''.
Proof. intros [] []. split; intros; etransitivity; eauto. Qed.

(** Only the heap, the page tables and the clock differ. *)
Lemma reaped_same st st' :
  thr st' = thr st → prc st' = prc st → ready_queue st' = ready_queue st → current_thread st' = current_thread st →
  reaped st st'.
Proof. intros E1 E2 E3 E4. split; try done. intros q. unfold pget. by rewrite E2. Qed.

Lemma reaped_fields st st' q : reaped st st' →
  pstate (pget st' q) = pstate (pget st q) ∧ threads (pget st' q) = threads (pget st q) ∧
  nexts st' = nexts st.
Proof.
  intros [Ht _ _ Hp]. specialize (Hp q). unfold nexts, tget. rewrite Ht.
  pose proof (f_equal pstate Hp) as E1. pose proof (f_equal threads Hp) as E2. by split_and!.
Qed.

Lemma plist_same st st' pl : prc st' = prc st → process_list st' = process_list st → plist st pl → plist st' pl.
Proof.
  intros E1 E2 [Hh Hn Hc]. split; [by rewrite E2|done|]. eapply chain_ext; [|exact Hc]. intros q _. unfold pget. by rewrite E1.
Qed.

(** A part of the list after some of it was reaped. *)
Lemma listed_reaped k st st' pl pl' :
  reaped st st' → listed k st pl → plist st' pl' → pl' ⊆ pl → NoDup pl' → listed k st' pl'.
Proof.
  intros Hr [_ _ Hz] Hp Hs Hn. split; try done. intros q Hq Hzq.
  destruct (reaped_fields st st' q Hr) as (E1 & E2 & E3). rewrite E1 in Hzq. rewrite E2, E3. apply Hz; [set_solver|done].
Qed.

Lemma listed_frame k st st' pl : tick_frame st st' → listed k st pl → listed k st' pl.
Proof.
  intros [_ Hn _ _ Hp Hl _] [Hpl Hnd Hz]. split; [by apply (plist_same st)|done|]. intros q Hq Hzq.
  assert (pget st' q = pget st q) as E by (unfold pget; by rewrite Hp). rewrite E in Hzq |- *.
  destruct (Hz q Hq Hzq) as (tl & ? & ? & Hc & ?). exists tl. split_and!; try done. eapply chain_ext; [|exact Hc].
  intros x _. apply Hn.
Qed.

Lemma hd_before (a : list Z) q p b : NoDup (a ++ q :: p :: b) → hd 0 (a ++ q :: p :: b) ≠ p.
Proof. destruct a as [|x a]; cbn [app hd]; intros [Hn _]%NoDup_cons ->; apply Hn; set_solver. Qed.

Lemma find_prev_spec fuel st a q p b :
  chain (λ p, pnext (pget st p)) (a ++ q :: p :: b) 0 → NoDup (a ++ q :: p :: b) →
  Forall (λ p, p ≠ 0) (a ++ [q]) → (length a <= fuel)%nat →
  find_prev fuel st (hd 0 (a ++ q :: p :: b)) p = Some q.
Proof.
  revert fuel. induction a as [|x a IH]; intros fuel Hc Hn Hz Hf.
  - destruct Hc as [Hq _]. cbn [app hd] in *. destruct fuel; cbn [find_prev]; by rewrite Hq, Z.eqb_refl, orb_true_r.
  - destruct fuel as [|fuel]; [cbn in Hf; lia|]. apply Forall_cons in Hz as [Hx Hz]. destruct Hc as [Hxn Hc].
    cbn [app] in Hn. apply NoDup_cons in Hn as [_ Hn]. change (hd 0 ((x :: a) ++ q :: p :: b)) with x. cbn [find_prev].
    rewrite (proj2 (Z.eqb_neq x 0) Hx), Hxn. pose proof (hd_before a q p b Hn) as Hne.
    cbn [orb]. rewrite (proj2 (Z.eqb_neq _ p) Hne). apply IH; [done|done|done|cbn in Hf; lia].
Qed.

(** A process is taken off the list. *)
Lemma unlink_process_spec fuel k st a p b :
  listed k st (a ++ p :: b) → (length (a ++ p :: b) <= fuel)%nat →
  ∃ st', unlink_process fuel st p = Some st' ∧ reaped st st' ∧ plist st' (a ++ b).
Proof.
  intros [[Hh Hnz Hc] Hn _] Hf. unfold unlink_process. destruct a as [|q a _] using rev_ind.
  - cbn [app hd] in *. rewrite <-Hh, Z.eqb_refl. destruct Hc as [Hp Hc]. apply Forall_cons in Hnz as [_ Hnz].
    eexists. split; [done|]. split; [by apply reaped_same|]. split; [by rewrite Hp|done|done].
  - rewrite <-app_assoc in *. cbn [app] in *. rewrite length_app in Hf. cbn [length] in Hf.
    assert (process_list st ≠ p) as Hne by (rewrite <-Hh; by apply hd_before).
    rewrite (proj2 (Z.eqb_neq _ _) Hne). rewrite <-Hh, find_prev_spec; [|done|done| |lia].
    2: { apply Forall_app in Hnz as [? Hnz]. apply Forall_cons in Hnz as [? _]. apply Forall_app. by split; [|constructor]. }
    cbn [mbind option_bind]. pose proof Hnz as [Ha Hnz']%Forall_app. apply Forall_cons in Hnz' as [Hq Hnz'].
    unfold nz. rewrite (proj2 (Z.eqb_neq q 0) Hq). cbn [negb]. eexists. split; [done|].
    assert (∀ x, pget (pupd st q (w_pnext (pnext (pget st p)))) x =
      if x =? q then w_pnext (pnext (pget st p)) (pget st q) else pget st x) as Hg by (intros; apply pget_pupd).
    split; [split; try done; intros x; rewrite Hg; destruct (Z.eqb_spec x q) as [->|]; [by destruct (pget st q)|done]|].
    apply chain_app in Hc as [Hc1 [_ [Hpn Hc2]]]. apply NoDup_app in Hn as (_ & Hn1 & Hn2).
    apply NoDup_cons in Hn2 as [Hn2 _]. split.
    + cbn [process_list pupd pput w_prc]. rewrite <-Hh. by destruct a.
    + apply Forall_app. split; [done|]. apply Forall_cons in Hnz' as [_ ?]. by constructor.
    + apply chain_app. split; [|split].
      * eapply chain_ext; [|exact Hc1]. intros x Hx. rewrite Hg. destruct (Z.eqb_spec x q) as [->|]; [|done].
        exfalso. apply (Hn1 q Hx). left.
      * rewrite Hg, Z.eqb_refl. exact Hpn.
      * eapply chain_ext; [|exact Hc2]. intros x Hx. rewrite Hg. destruct (Z.eqb_spec x q) as [->|]; [|done].
        exfalso. apply Hn2. by right.
Qed.

Lemma free_threads_spec fuel st tl :
  Forall (λ t, t ≠ 0) tl → chain (nexts st) tl 0 → (length tl <= fuel)%nat →
  ∃ st', free_threads fuel st (hd 0 tl) = Some st' ∧ thr st' = thr st ∧ prc st' = prc st ∧
    ready_queue st' = ready_queue st ∧ current_thread st' = current_thread st ∧ process_list st' = process_list st.
Proof.
  intros Hz. revert fuel st. induction Hz as [|t tl Ht Hz IH]; intros fuel st Hc Hf; [by exists st; destruct fuel|].
  destruct fuel as [|fuel]; [cbn in Hf; lia|]. destruct Hc as [Hn Hc]. cbn [hd free_threads].
  rewrite (proj2 (Z.eqb_neq t 0) Ht). unfold nexts in Hn. rewrite Hn.
  set (st1 := kfree_sys _ t). assert (thr st1 = thr st ∧ prc st1 = prc st ∧ ready_queue st1 = ready_queue st ∧
    current_thread st1 = current_thread st ∧ process_list st1 = process_list st) as (E1 & E2 & E3 & E4 & E5).
  { unfold st1. by destruct (nz _). }
  clearbody st1. destruct (IH fuel st1) as (st' & E & F1 & F2 & F3 & F4 & F5).
  - eapply chain_ext; [|exact Hc]. intros x _. unfold nexts, tget. by rewrite E1.
  - cbn in Hf. lia.
  - exists st'. rewrite E. by split_and!; try congruence.
Qed.

Lemma process_cleanup_spec fuel k st a p b :
  listed k st (a ++ p :: b) → pstate (pget st p) = PROCESS_STATE_ZOMBIE →
  (length (a ++ p :: b) <= fuel)%nat → (k <= fuel)%nat →
  ∃ st', process_cleanup fuel st p = Some st' ∧ reaped st st' ∧ listed k st' (a ++ b).
Proof.
  intros Hl Hs Hf Hk. pose proof Hl as [[_ Hnz _] Hn Hz]. unfold process_cleanup.
  assert (p ≠ 0) as Hp by (rewrite Forall_forall in Hnz; apply Hnz; set_solver).
  rewrite (proj2 (Z.eqb_neq p 0) Hp).
  destruct (unlink_process_spec fuel k st a p b Hl Hf) as (st1 & -> & Hr1 & Hp1). cbn [mbind option_bind].
  destruct (Hz p ltac:(set_solver) Hs) as (tl & Htl & Htn & Htc & Htk).
  destruct (reaped_fields st st1 p Hr1) as (_ & Et & En). rewrite Et, <-Htl. rewrite <-En in Htc.
  destruct (free_threads_spec fuel st1 tl Htn Htc ltac:(lia)) as (st2 & -> & E1 & E2 & E3 & E4 & E5). cbn [mbind option_bind].
  set (st3 := if nz _ then _ else st2). assert (thr st3 = thr st2 ∧ prc st3 = prc st2 ∧ ready_queue st3 = ready_queue st2 ∧
    current_thread st3 = current_thread st2 ∧ process_list st3 = process_list st2) as (F1 & F2 & F3 & F4 & F5)
    by (unfold st3; by destruct (nz _)).
  clearbody st3. exists (kfree_sys st3 p). split; [done|].
  assert (reaped st1 (kfree_sys st3 p)) as Hr2 by (apply reaped_same; cbn; congruence).
  assert (reaped st (kfree_sys st3 p)) as Hr by (by eapply reaped_trans). split; [done|].
  apply (listed_reaped k st _ (a ++ p :: b)); [done|done| |set_solver|].
  - apply (plist_same st1); [cbn; congruence|cbn; congruence|done].
  - apply NoDup_app in Hn as (? & ? & [? ?]%NoDup_cons). apply NoDup_app. split_and!; [done|set_solver|done].
Qed.

(** The loop over the list: [a] was passed and kept. *)
Lemma reap_loop_spec fuel k st a b :
  listed k st (a ++ b) → (length a + 2 * length b <= fuel)%nat → (k + length b <= fuel)%nat →
  ∃ st' pl', reap_loop fuel st (hd 0 b) = Some st' ∧ reaped st st' ∧ listed k st' pl' ∧
    (length pl' <= length a + length b)%nat.
Proof.
  revert fuel st a. induction b as [|p b IH]; intros fuel st a Hl Hf Hk.
  { exists st, a. rewrite app_nil_r in Hl. split; [by destruct fuel|]. split_and!; [apply reaped_refl|done|lia]. }
  destruct fuel as [|fuel]; [cbn in Hf; lia|]. cbn [hd length] in *. cbn [reap_loop].
  pose proof Hl as [Hpl Hn Hz]. pose proof Hpl as [_ Hnz Hc]. apply Forall_app in Hnz as [_ [Hp _]%Forall_cons].
  rewrite (proj2 (Z.eqb_neq p 0) Hp). apply chain_app in Hc as [_ [Hpn _]]. rewrite Hpn.
  assert (∃ st', reap_loop (S fuel) st p = reap_loop fuel st' (hd 0 b) ∧ reaped st st' ∧
    (listed k st' ((a ++ [p]) ++ b) ∨ listed k st' (a ++ b))) as (st1 & E & Hr & Hl1).
  { cbn [reap_loop]. rewrite (proj2 (Z.eqb_neq p 0) Hp), Hpn.
    assert (listed k st ((a ++ [p]) ++ b)) as Hkeep by (by rewrite <-app_assoc).
    case_bool_decide as Hs; [|exists st; split; [done|]; split; [apply reaped_refl|by left]].
    rewrite (get_by_pid_spec (S fuel) st (a ++ p :: b)) by (done || (rewrite length_app; cbn; lia)).
    cbn [mbind option_bind]. destruct (_ || _); [|exists st; split; [done|]; split; [apply reaped_refl|by left]].
    destruct (process_cleanup_spec (S fuel) k st a p b Hl Hs) as (st' & -> & Hr & Hl'); [rewrite length_app; cbn; lia|lia|].
    exists st'. split; [done|]. split; [done|by right]. }
  cbn [reap_loop] in E. rewrite (proj2 (Z.eqb_neq p 0) Hp), Hpn in E. rewrite E.
  destruct Hl1 as [Hl1|Hl1]; apply (IH fuel) in Hl1 as (st' & pl' & E' & Hr' & Hl' & Hlen);
    rewrite ?length_app in *; cbn [length] in *; try lia.
  all: exists st', pl'; split_and!; [done|by eapply reaped_trans|done|lia].
Qed.

(** The periodic cleanup of any such list ends and leaves the threads and the queue alone. *)
Lemma zombie_cleanup_listed fuel k st pl :
  listed k st pl → (2 * length pl <= fuel)%nat → (k + length pl <= fuel)%nat →
  ∃ st' pl', zombie_cleanup fuel st = Some st' ∧ reaped st st' ∧ listed k st' pl' ∧ (length pl' <= length pl)%nat.
Proof.
  intros Hl Hf Hk. unfold zombie_cleanup. cbv zeta.
  assert (∀ n, reaped st (w_sched_ticks n st) ∧ listed k (w_sched_ticks n st) pl) as Ht.
  { intros n. assert (reaped st (w_sched_ticks n st)) as Hr by (by apply reaped_same). split; [done|].
    destruct Hl as [Hp Hn Hz]. split; [|done|exact Hz]. by apply (plist_same st). }
  case_match; [|exists (w_sched_ticks (sched_ticks st + 1) st), pl; destruct (Ht (sched_ticks st + 1)); by split_and!].
  change (w_sched_ticks 0 (w_sched_ticks _ st)) with (w_sched_ticks 0 st). destruct (Ht 0) as [Hr0 Hl0].
  unfold process_get_list. rewrite <-(pl_head _ _ (ls_plist _ _ _ Hl0)).
  destruct (reap_loop_spec fuel k (w_sched_ticks 0 st) [] pl Hl0) as (st' & pl' & E & Hr & Hl' & Hlen); [cbn; lia|lia|].
  exists st', pl'. split_and!; [done|by eapply reaped_trans|done|done].
Qed.

(** *** A tick, given what the cleanup leaves *)

Lemma schedule_core fuel st l rot regs st1 :
  ring st l → rotation (current_thread st) l rot → (length l <= fuel)%nat →
  zombie_cleanup fuel (save_context st regs) = Some st1 → reaped (save_context st regs) st1 →
  let c := pick st rot (hd 0 rot) in
  ∃ r st', scheduler_schedule fuel st regs = Some (r, st') ∧ tick_frame st1 st' ∧ ring st' l ∧
    if bool_decide (tstate (tget st c) = THREAD_STATE_TERMINATED) then
      r = regs ∧ current_thread st' = 0 ∧ (∀ t, tstate (tget st' t) = tstate (tget st t))
    else
      current_thread st' = c ∧
      r = (if saved_context st regs c =? 0 then regs else saved_context st regs c) ∧
      (∀ t, tstate (tget st' t) = if t =? c then THREAD_STATE_RUNNING else tstate (tget st t)).
Proof.
  intros Hr Hrot Hf Hz [Ht Hrq Hcr _]. cbv zeta.
  destruct (save_context_spec st regs) as (Hfr & Hcur & Hts & Hctx).
  unfold scheduler_schedule. destruct (ring_unfold _ _ Hr) as (_ & _ & _ & Hq0 & _).
  rewrite (proj2 (Z.eqb_neq _ _) Hq0). cbv zeta. rewrite Hz. cbn [mbind option_bind].
  assert (∀ t, tget st1 t = tget (save_context st regs) t) as Hg by (intros; unfold tget; by rewrite Ht).
  setoid_rewrite <-Hg in Hts. setoid_rewrite <-Hg in Hctx. rewrite <-Hcr in Hcur.
  pose proof (ring_frame _ _ _ Hfr Hr) as Hr0.
  assert (ring st1 l) as Hr1.
  { destruct Hr0 as [Hh Hne Hnd Hnz Hc]. split; try done; rewrite Hrq; [done|].
    eapply chain_ext; [|exact Hc]. intros x _. unfold nexts. by rewrite Hg. }
  clear Hz Ht Hrq Hcr Hfr Hr0 Hg. rewrite <-Hcur in Hrot.
  destruct (rotation_chain _ _ _ Hr1 Hrot) as (Hperm & Hch & Hhd).
  destruct (ring_unfold _ _ Hr1) as (l' & Hl & Hq & Hq1 & Hc).
  replace (nz (ready_queue st1)) with true by (unfold nz; by rewrite (proj2 (Z.eqb_neq _ _) Hq1)).
  rewrite (count_loop_spec fuel st1 _ l') by (done || (rewrite Hl in Hf; simpl in Hf; lia)).
  cbn [mbind option_bind]. rewrite <-Hl, Z.add_0_l, Nat2Z.id, <-Hhd.
  assert (Forall (λ t, t ≠ 0) rot) as Hnz by (rewrite Hperm; by destruct Hr1).
  assert (pick_loop (length l) st1 (hd 0 rot) = pick st rot (hd 0 rot)) as ->.
  { replace (length l) with (length rot) by (by rewrite Hperm).
    transitivity (pick st1 rot (hd 0 rot)).
    - rewrite <-pick_loop_spec by done. by destruct rot.
    - unfold pick. rewrite (find_ext (is_runnable st) (is_runnable st1)); [done|].
      intros a. unfold is_runnable. by rewrite Hts. }
  set (c := pick st rot (hd 0 rot)) in *.
  assert (c ≠ 0) as Hcnz.
  { unfold c, pick. rewrite Forall_forall in Hnz.
    destruct (List.find _ rot) eqn:E; [apply find_Some_in in E as [? _]; auto|].
    apply Hnz. destruct rot; [|left]. apply Permutation_nil_l in Hperm. by subst l. }
  destruct (resume_spec st1 c regs Hcnz) as [Hf2 Hres].
  rewrite Hts, Hctx in Hres. destruct (resume st1 c regs) as [r st']. cbn [fst snd] in *.
  exists r, st'. split; [done|]. split; [done|]. split; [by eapply ring_frame|].
  case_match; destruct Hres as (? & ? & Ht); (split_and!; [done|done|]);
    intros t; by rewrite Ht, ?Hts.
Qed.

Lemma schedule_spec fuel st l pl rot regs :
  ring st l → alive_list st pl → rotation (current_thread st) l rot →
  (length l <= fuel)%nat → (length pl <= fuel)%nat →
  let c := pick st rot (hd 0 rot) in
  ∃ r st', scheduler_schedule fuel st regs = Some (r, st') ∧ tick_frame st st' ∧
    if bool_decide (tstate (tget st c) = THREAD_STATE_TERMINATED) then
      r = regs ∧ current_thread st' = 0 ∧ (∀ t, tstate (tget st' t) = tstate (tget st t))
    else
      current_thread st' = c ∧
      r = (if saved_context st regs c =? 0 then regs else saved_context st regs c) ∧
      (∀ t, tstate (tget st' t) = if t =? c then THREAD_STATE_RUNNING else tstate (tget st t)).
Proof.
  intros Hr Hal Hrot Hf Hfp. cbv zeta.
  destruct (save_context_spec st regs) as (Hfr & _).
  destruct (zombie_cleanup_alive fuel _ pl (alive_frame _ _ _ Hfr Hal) Hfp) as [n Ez].
  destruct (schedule_core fuel st l rot regs _ Hr Hrot Hf Ez) as (r & st' & E & Hf2 & _ & Hs); [by apply reaped_same|].
  exists r, st'. split; [done|]. split; [|done]. eapply tick_frame_trans; [exact Hfr|]. by destruct Hf2.
Qed.

(** A tick of a system with zombies. *)
Lemma schedule_listed fuel k st l pl rot regs :
  ring st l → listed k st pl → rotation (current_thread st) l rot →
  (length l <= fuel)%nat → (2 * length pl <= fuel)%nat → (k + length pl <= fuel)%nat →
  let c := pick st rot (hd 0 rot) in
  ∃ r st' pl', scheduler_schedule fuel st regs = Some (r, st') ∧ ring st' l ∧
    listed k st' pl' ∧ (length pl' <= length pl)%nat ∧
    if bool_decide (tstate (tget st c) = THREAD_STATE_TERMINATED) then
      r = regs ∧ current_thread st' = 0 ∧ (∀ t, tstate (tget st' t) = tstate (tget st t))
    else
      current_thread st' = c ∧
      r = (if saved_context st regs c =? 0 then regs else saved_context st regs c) ∧
      (∀ t, tstate (tget st' t) = if t =? c then THREAD_STATE_RUNNING else tstate (tget st t)).
Proof.
  intros Hr Hl Hrot Hf Hfp Hk. cbv zeta.
  destruct (save_context_spec st regs) as (Hfr & _).
  destruct (zombie_cleanup_listed fuel k _ pl (listed_frame _ _ _ _ Hfr Hl) Hfp Hk) as (st1 & pl' & Ez & Hr1 & Hl1 & Hlen).
  destruct (schedule_core fuel st l rot regs st1 Hr Hrot Hf Ez Hr1) as (r & st' & E & Hf2 & Hr2 & Hs).
  exists r, st', pl'. split_and!; try done. by eapply listed_frame.
Qed.

(** ** Creation *)

Context `{Laws : !HeapAllocLaws H holds}.

(** What creation leaves alone: everything at the addresses in [L], and the globals of the
    scheduler. *)
Record create_frame (L : list Z) st st' : Prop := {
  cf_thr t : t ∈ L → tget st' t = tget st t;
  cf_prc p : p ∈ L → pget st' p = pget st p;
  cf_ready : ready_queue st' = ready_queue st;
  cf_cur : current_thread st' = current_thread st;
  cf_plist : process_list st' = process_list st;
  cf_vm : vm st' = vm st;
  cf_files : files st' = files st }.

Definition new_process st (name : list Z) (thread : Z) : process_t :=
  mk_process (next_pid st)
    (if nz (scheduler_get_current_process st)
     then pid (pget st (scheduler_get_current_process st)) else 0)
    PROCESS_STATE_ALIVE 0 (kstrncpy (replicate 32 0) 0 name 31) (replicate 128 0) 0
    (replicate 16 0) thread 0.

Definition new_thread st (proc stack : Z) : thread_t :=
  mk_thread (next_tid st) THREAD_STATE_READY 0 stack proc 0.

Lemma clear_fds : for_loop 16 0 (λ i l, l.[i <- 0]) (replicate 16 0) = replicate 16 0.
Proof. by vm_compute. Qed.

Lemma init_process_spec st proc name :
  let st' := init_process st proc name in
  (∀ p, pget st' p = if p =? proc then
     mk_process (next_pid st)
       (let q := scheduler_get_current_process st in
        if nz q then (if q =? proc then next_pid st else pid (pget st q)) else 0)
       PROCESS_STATE_ALIVE 0 (kstrncpy (replicate 32 0) 0 name 31) (replicate 128 0) 0
       (replicate 16 0) 0 0 else pget st p) ∧
  thr st' = thr st ∧ heap st' = heap st ∧ ready_queue st' = ready_queue st ∧
  current_thread st' = current_thread st ∧ process_list st' = process_list st ∧
  vm st' = vm st ∧ files st' = files st ∧ next_pid st' = u32 (next_pid st + 1) ∧
  next_tid st' = next_tid st.
Proof.
  cbv zeta. split; [|done]. intros p. unfold init_process. cbv zeta.
  rewrite !pget_pupd, !pget_w_next_pid, !pget_pupd, !pget_pput. destruct (Z.eqb_spec p proc) as [->|Hne].
  - rewrite !Z.eqb_refl. match goal with |- context [nz ?x] =>
      change x with (scheduler_get_current_process st) end.
    destruct (nz _); [|done]. by destruct (_ =? proc).
  - done.
Qed.

Lemma init_thread_spec st proc thread :
  let st' := init_thread st proc thread in
  (∀ t, tget st' t = if t =? thread then mk_thread (next_tid st) THREAD_STATE_READY 0 0 proc 0
                     else tget st t) ∧
  (∀ p, pget st' p = if p =? proc then
     w_fd_table (for_loop 16 0 (λ i l, l.[i <- 0]) (fd_table (pget st proc)))
       (w_threads thread (pget st proc)) else pget st p) ∧
  heap st' = heap st ∧ ready_queue st' = ready_queue st ∧
  current_thread st' = current_thread st ∧ process_list st' = process_list st ∧
  vm st' = vm st ∧ files st' = files st ∧ next_pid st' = next_pid st ∧
  next_tid st' = u32 (next_tid st + 1).
Proof.
  cbv zeta. split; [|split; [|done]].
  - intros t. unfold init_thread. cbv zeta.
    stget. rewrite !tget_tupd, !tget_w_next_tid, !tget_tupd, !tget_tput, !Z.eqb_refl. by destruct (Z.eqb_spec t thread) as [->|].
  - intros p. unfold init_thread. cbv zeta. rewrite !pget_pupd, Z.eqb_refl. stget.
    by destruct (Z.eqb_spec p proc).
Qed.

Lemma create_frame_heap L st st' h : create_frame L st st' → create_frame L st (w_heap h st').
Proof. by intros []. Qed.

Lemma create_frame_ctx L st st' c : create_frame L st st' → create_frame L st (w_ctx c st').
Proof. by intros []. Qed.

Lemma create_frame_tupd L st st' t f :
  t ∉ L → create_frame L st st' → create_frame L st (tupd st' t f).
Proof.
  intros Ht []. split; try done. intros u Hu. rewrite tget_tupd.
  rewrite (proj2 (Z.eqb_neq u t)) by set_solver. auto.
Qed.

Lemma create_frame_process L st h proc name :
  proc ∉ L → create_frame L st (init_process (w_heap h st) proc name).
Proof.
  intros Hp. destruct (init_process_spec (w_heap h st) proc name) as [Hp1 _].
  split; try done. intros p HpL. rewrite Hp1. by rewrite (proj2 (Z.eqb_neq p proc)) by set_solver.
Qed.

Lemma create_frame_thread L st st' h proc thread :
  proc ∉ L → thread ∉ L → create_frame L st st' →
  create_frame L st (init_thread (w_heap h st') proc thread).
Proof.
  intros Hp Ht []. destruct (init_thread_spec (w_heap h st') proc thread)
    as (Ht2 & Hp2 & _ & Hr2 & Hc2 & Hl2 & Hv2 & Hf2 & _).
  split; try (etransitivity; eassumption).
  - intros t HtL. rewrite Ht2. rewrite (proj2 (Z.eqb_neq t thread)) by set_solver.
    stget. auto.
  - intros p HpL. rewrite Hp2. rewrite (proj2 (Z.eqb_neq p proc)) by set_solver.
    stget. auto.
Qed.

(** The two records after the whole initialisation. *)
Lemma init_records st h1 h2 (L : list Z) proc thread name :
  proc ∉ L → scheduler_get_current_process st = 0 ∨ scheduler_get_current_process st ∈ L →
  let st2 := init_thread (w_heap h2 (init_process (w_heap h1 st) proc name)) proc thread in
  pget st2 proc = new_process st name thread ∧ tget st2 thread = new_thread st proc 0 ∧
  heap st2 = h2 ∧ next_pid st2 = u32 (next_pid st + 1) ∧ next_tid st2 = u32 (next_tid st + 1).
Proof.
  intros Hp Hpar. cbv zeta.
  destruct (init_process_spec (w_heap h1 st) proc name)
    as (Hp1 & _ & _ & _ & _ & _ & _ & _ & Hn1 & Hm1).
  generalize dependent (init_process (w_heap h1 st) proc name). intros st1 Hp1 Hn1 Hm1.
  destruct (init_thread_spec (w_heap h2 st1) proc thread)
    as (Ht2 & Hp2 & Hh2 & _ & _ & _ & _ & _ & Hn2 & Hm2).
  split_and!.
  - rewrite Hp2, Z.eqb_refl, pget_w_heap, Hp1, Z.eqb_refl. unfold new_process, w_threads, w_fd_table.
    cbn [pid parent_pid pstate exit_status pname cmdline page_directory fd_table threads pnext].
    rewrite clear_fds. cbv zeta.
    change (scheduler_get_current_process (w_heap h1 st)) with (scheduler_get_current_process st).
    f_equal. destruct Hpar as [->|Hin]; [done|].
    by rewrite (proj2 (Z.eqb_neq _ proc)) by set_solver.
  - rewrite Ht2, Z.eqb_refl. unfold new_thread. f_equal. exact Hm1.
  - exact Hh2.
  - rewrite Hn2. exact Hn1.
  - rewrite Hm2. cbn [next_tid w_heap]. by rewrite Hm1.
Qed.

Lemma process_alloc_spec st name L :
  holds (heap st) L →
  scheduler_get_current_process st = 0 ∨ scheduler_get_current_process st ∈ L →
  match process_alloc st name with
  | (st', None) => holds (heap st') L ∧ create_frame L st st'
  | (st', Some (proc, thread, regs)) =>
      ∃ stack, holds (heap st') (stack :: thread :: proc :: L) ∧ create_frame L st st' ∧
        pget st' proc = new_process st name thread ∧
        tget st' thread = new_thread st proc stack ∧
        regs = u32 (u32 (stack + KERNEL_STACK_SIZE) - sizeof_registers) ∧
        next_pid st' = u32 (next_pid st + 1) ∧ next_tid st' = u32 (next_tid st + 1)
  end.
Proof.
  intros Hh Hpar. unfold process_alloc, kmalloc_sys, kfree_sys. cbv zeta.
  destruct (halloc_holds (heap st) L sizeof_process Hh ltac:(done)) as [[-> Hf]|Hs].
  { cbn [Z.eqb]. split; [done|]. apply create_frame_heap. by split. }
  destruct (halloc (heap st) sizeof_process) as [proc h1]. cbn [fst snd] in *.
  destruct Hs as (Hp0 & HpL & Hh1). rewrite (proj2 (Z.eqb_neq _ _) Hp0).
  pose proof (create_frame_process L st h1 proc name HpL) as Hfr1.
  pose proof (λ h2 thread, init_records st h1 h2 L proc thread name HpL Hpar) as Hrec. cbv zeta in Hrec.
  destruct (init_process_spec (w_heap h1 st) proc name) as (_ & _ & Hhp1 & _).
  cbn [heap w_heap] in Hhp1.
  generalize dependent (init_process (w_heap h1 st) proc name). intros st1 Hfr1 Hrec Hhp1.
  rewrite Hhp1.
  destruct (halloc_holds h1 (proc :: L) sizeof_thread Hh1 ltac:(done)) as [[-> Hf]|Hs].
  { cbn [Z.eqb]. split; [by apply (hfree_holds _ [] L proc)|]. by do 2 apply create_frame_heap. }
  destruct (halloc h1 sizeof_thread) as [thread h2]. cbn [fst snd] in *.
  destruct Hs as (Ht0 & HtL & Hh2). rewrite (proj2 (Z.eqb_neq _ _) Ht0).
  assert (thread ∉ L) as HtL' by set_solver.
  pose proof (create_frame_thread L st st1 h2 proc thread HpL HtL' Hfr1) as Hfr2.
  destruct (Hrec h2 thread) as (HP & HT & Hhp2 & Hn & Hm). clear Hrec.
  generalize dependent (init_thread (w_heap h2 st1) proc thread). intros st2 Hfr2 HP HT Hhp2 Hn Hm.
  rewrite Hhp2.
  destruct (halloc_holds h2 (thread :: proc :: L) KERNEL_STACK_SIZE Hh2 ltac:(done)) as [[-> Hf]|Hs].
  - cbn [Z.eqb]. split.
    + apply (hfree_holds _ [] L proc). apply (hfree_holds _ [] (proc :: L) thread). done.
    + do 2 apply create_frame_heap. apply create_frame_tupd; [done|]. by apply create_frame_heap.
  - destruct (halloc h2 KERNEL_STACK_SIZE) as [stack h3]. cbn [fst snd] in *.
    destruct Hs as (Hs0 & HsL & Hh3). rewrite (proj2 (Z.eqb_neq _ _) Hs0).
    exists stack. split_and!; [done| | | |done|done|done].
    + apply create_frame_ctx, create_frame_tupd; [done|]. by apply create_frame_heap.
    + stget. done.
    + stget. rewrite tget_tupd, Z.eqb_refl. stget. by rewrite HT.
Qed.

Lemma ring_create_frame L st st' l :
  create_frame L st st' → (∀ t, t ∈ l → t ∈ L) → ring st l → ring st' l.
Proof.
  intros [Ht _ Hq _ _ _ _] HL [Hh Hne Hnd Hnz Hc]. split; try done.
  - by rewrite Hq.
  - rewrite Hq. eapply chain_ext; [|exact Hc]. intros a Ha. unfold nexts. rewrite Ht; auto.
Qed.

Lemma create_frame_pupd L st st' p f :
  p ∉ L → create_frame L st st' → create_frame L st (pupd st' p f).
Proof.
  intros Hp []. split; try done. intros u Hu. rewrite pget_pupd.
  rewrite (proj2 (Z.eqb_neq u p)) by set_solver. auto.
Qed.

Lemma finish_create_spec L st st1 entrypoint proc thread regs :
  create_frame L st st1 → proc ∉ L → thread ∉ L →
  let st2 := finish_create st1 entrypoint proc thread regs in
  let top := u32 (kernel_stack (tget st1 thread) + KERNEL_STACK_SIZE) in
  (∀ t, t ∈ L → tget st2 t = tget st t) ∧ (∀ p, p ∈ L → pget st2 p = pget st p) ∧
  ready_queue st2 = ready_queue st ∧ process_list st2 = proc ∧ heap st2 = heap st1 ∧
  pget st2 proc = w_pnext (process_list st) (w_page_directory 0 (pget st1 proc)) ∧
  tget st2 thread = w_context regs (tget st1 thread) ∧
  ctx st2 !! regs = Some (mk_regs 0x10 0 0 top regs 0 0 0 0 0 0 entrypoint 0x08 0x202 0 0).
Proof.
  intros [Ht1 Hp1 Hq1 Hc1 Hl1 Hv1 Hf1] Hp Ht. cbv zeta. unfold finish_create, push_process. cbv zeta.
  split_and!; try done.
  - intros t HtL. stget. rewrite tget_tupd, (proj2 (Z.eqb_neq t thread)) by set_solver.
    stget. auto.
  - intros p HpL. stget. rewrite !pget_pupd, (proj2 (Z.eqb_neq p proc)) by set_solver.
    stget. auto.
  - stget. rewrite !pget_pupd, !Z.eqb_refl. stget. simpl. by rewrite Hl1.
  - stget. rewrite tget_tupd, Z.eqb_refl. by stget.
  - simpl. by rewrite lookup_insert_eq.
Qed.

(** C37: [process_create] on a consistent heap, with the threads of the ready queue among
    the blocks handed out.  Either an allocation failed: NULL is returned, everything
    allocated on the way is given back and the queue and the process list are as before.
    Or a process with the next PID, an empty descriptor table and the caller as parent is
    in front of the process list, and its READY thread, whose saved frame resumes at the
    entry point in ring 0 with interrupts on, is at the end of the ready queue. *)
Theorem process_create_correct fuel st name entrypoint (L l : list Z) :
  holds (heap st) L → ring st l → (∀ t, t ∈ l → t ∈ L) →
  scheduler_get_current_process st = 0 ∨ scheduler_get_current_process st ∈ L →
  (length l <= fuel)%nat →
  ∃ p st', process_create fuel st name entrypoint = Some (p, st') ∧
    ((p = 0 ∧ holds (heap st') L ∧ ring st' l ∧ process_list st' = process_list st) ∨
     (∃ t k, let top := u32 (k + KERNEL_STACK_SIZE) in
        let regs := u32 (top - sizeof_registers) in
        holds (heap st') (k :: t :: p :: L) ∧ ring st' (l ++ [t]) ∧
        process_list st' = p ∧
        pget st' p = w_pnext (process_list st) (new_process st name t) ∧
        w_tnext 0 (tget st' t) = mk_thread (next_tid st) THREAD_STATE_READY regs k p 0 ∧
        ctx st' !! regs =
          Some (mk_regs 0x10 0 0 top regs 0 0 0 0 0 0 entrypoint 0x08 0x202 0 0) ∧
        ∀ q, q ∈ L → pget st' q = pget st q)).
Proof.
  intros Hh Hr HlL Hpar Hf. unfold process_create.
  pose proof (process_alloc_spec st name L Hh Hpar) as Ha.
  destruct (process_alloc st name) as [st1 [[[proc thread] regs]|]].
  - destruct Ha as (k & Hh1 & Hfr & HP & HT & -> & _).
    destruct (holds_nodup _ _ Hh1) as [Hnd Hpos].
    apply NoDup_cons in Hnd as [_ [HtL [HpL _]%NoDup_cons]%NoDup_cons].
    apply Forall_cons in Hpos as [_ [Ht0 [Hp0 _]%Forall_cons]%Forall_cons].
    set (regs := u32 (u32 (k + KERNEL_STACK_SIZE) - sizeof_registers)).
    destruct (finish_create_spec L st st1 entrypoint proc thread regs Hfr)
      as (Ht2 & Hp2 & Hq2 & Hl2 & Hh2 & HP2 & HT2 & Hc2); [done|set_solver|].
    rewrite HT in Hc2, HT2. rewrite HP in HP2.
    generalize dependent (finish_create st1 entrypoint proc thread regs).
    intros st2 Ht2 Hp2 Hq2 Hl2 Hh2 HP2 HT2 Hc2. cbv zeta.
    assert (ring st2 l) as Hr2.
    { destruct Hr as [Hhd Hne Hnd Hnz Hc]. split; rewrite ?Hq2; try done.
      eapply chain_ext; [|exact Hc]. intros a Ha. unfold nexts. rewrite Ht2; auto. }
    destruct (add_thread_ring fuel st2 l thread)
      as (st' & He & Hr' & _ & Htu & Hpu & Hlu & Hhu & Hcu); [done|set_solver|lia|done|].
    rewrite He. cbn [mbind option_bind]. exists proc, st'. split; [done|]. right.
    assert (∀ q, pget st' q = pget st2 q) as Hpq by (intros; unfold pget; by rewrite Hpu).
    exists thread, k. cbv zeta. fold regs. split_and!.
    + by rewrite Hhu, Hh2.
    + done.
    + by rewrite Hlu.
    + by rewrite Hpq, HP2.
    + by rewrite Htu, HT2.
    + by rewrite Hcu.
    + intros q Hq. rewrite Hpq. auto.
  - destruct Ha as [Hh1 Hfr]. exists 0, st1. split; [done|]. left. split_and!; try done.
    + by eapply ring_create_frame.
    + by destruct Hfr.
Qed.

(** ** Scheduling *)

Lemma pick_first st a t b z :
  Forall (λ u, is_runnable st u = false) a → is_runnable st t = true →
  pick st (a ++ t :: b) z = t.
Proof.
  unfold pick. intros Ha Ht. induction Ha as [|u a Hu Ha IH]; simpl; [by rewrite Ht|].
  by rewrite Hu.
Qed.

Lemma runnable_not_terminated st t :
  is_runnable st t = true → bool_decide (tstate (tget st t) = THREAD_STATE_TERMINATED) = false.
Proof.
  unfold is_runnable. intros Hr. apply bool_decide_false. intros Ht. by rewrite Ht in Hr.
Qed.

(** A timer tick passes the processor to the next runnable thread in ring order after
    the current one, skipping blocked and terminated threads; that thread is RUNNING and is
    resumed with the context it was saved with, every other thread keeps its state and the
    queue its order.  The tick terminates. *)
Theorem scheduler_next_runnable fuel st l pl a t b regs :
  ring st l → alive_list st pl → rotation (current_thread st) l (a ++ t :: b) →
  Forall (λ u, is_runnable st u = false) a → is_runnable st t = true →
  (length l <= fuel)%nat → (length pl <= fuel)%nat →
  ∃ r st', scheduler_schedule fuel st regs = Some (r, st') ∧
    current_thread st' = t ∧ tstate (tget st' t) = THREAD_STATE_RUNNING ∧
    r = (if saved_context st regs t =? 0 then regs else saved_context st regs t) ∧
    (∀ u, u ≠ t → tstate (tget st' u) = tstate (tget st u)) ∧ ring st' l ∧ alive_list st' pl.
Proof.
  intros Hr Hal Hrot Ha Ht Hf Hfp.
  destruct (schedule_spec fuel st l pl (a ++ t :: b) regs) as (r & st' & He & Hfr & Hs); try done.
  rewrite pick_first, runnable_not_terminated in Hs by done.
  destruct Hs as (Hcur & Hres & Hts). exists r, st'. split_and!; try done.
  - by rewrite Hts, Z.eqb_refl.
  - intros u Hu. by rewrite Hts, (proj2 (Z.eqb_neq u t)).
  - by eapply ring_frame.
  - by eapply alive_frame.
Qed.

(** When every thread of the ready queue is blocked, the search falls back on the
    thread after the current one and the scheduler runs it although it is blocked, instead
    of returning to the interrupted context. *)
Theorem scheduler_runs_blocked_thread fuel st l pl rot regs :
  ring st l → alive_list st pl → rotation (current_thread st) l rot →
  Forall (λ u, tstate (tget st u) = THREAD_STATE_BLOCKED) l →
  (length l <= fuel)%nat → (length pl <= fuel)%nat →
  ∃ r st', scheduler_schedule fuel st regs = Some (r, st') ∧
    tstate (tget st (hd 0 rot)) = THREAD_STATE_BLOCKED ∧
    current_thread st' = hd 0 rot ∧ tstate (tget st' (hd 0 rot)) = THREAD_STATE_RUNNING.
Proof.
  intros Hr Hal Hrot Hb Hf Hfp. destruct (rotation_chain _ _ _ Hr Hrot) as (Hperm & _ & _).
  assert (pick st rot (hd 0 rot) = hd 0 rot) as Hp.
  { unfold pick. destruct (List.find _ rot) eqn:E; [|done].
    apply find_Some_in in E as [Hin Hrun]. rewrite Hperm in Hin.
    rewrite Forall_forall in Hb. specialize (Hb _ Hin). unfold is_runnable in Hrun.
    by rewrite Hb in Hrun. }
  assert (tstate (tget st (hd 0 rot)) = THREAD_STATE_BLOCKED) as Hhb.
  { rewrite Forall_forall in Hb. apply Hb. rewrite <-Hperm.
    destruct rot; [|left]. apply Permutation_nil_l in Hperm. subst l. by destruct Hr. }
  destruct (schedule_spec fuel st l pl rot regs) as (r & st' & He & _ & Hs); try done.
  rewrite Hp, Hhb, bool_decide_false in Hs by done. destruct Hs as (Hcur & _ & Hts).
  exists r, st'. split_and!; try done. by rewrite Hts, Z.eqb_refl.
Qed.

(** [n] ticks in a row, the interrupted contexts given by [regs]. *)
Fixpoint ticks (fuel n : nat) st (regs : nat → Z) : option (sys H F V) :=
  match n with
  | O => Some st
  | S n' =>
      match scheduler_schedule fuel st (regs O) with
      | Some (_, st') => ticks fuel n' st' (λ i, regs (S i))
      | None => None
      end
  end.

Definition rotl (l r : list Z) : Prop := ∃ x y, l = x ++ y ∧ r = y ++ x.

Lemma rotl_trans l r r' : rotl l r → rotl r r' → rotl l r'.
Proof.
  intros (x & y & -> & ->) (u & v & He & ->).
  apply app_eq_inv in He as [(k & -> & ->)|(k & -> & ->)].
  - exists (x ++ u), k. by rewrite <-!app_assoc.
  - exists k, (v ++ y). by rewrite <-!app_assoc.
Qed.

Lemma rotation_rotl cur l rot : rotation cur l rot → rotl l rot.
Proof.
  intros [[_ ->]|(l1 & l2 & -> & ->)].
  - exists [], l. by rewrite app_nil_r.
  - exists (l1 ++ [cur]), l2. by rewrite <-app_assoc.
Qed.

Lemma rotl_rotation c l r : rotl l (r ++ [c]) → rotation c l (r ++ [c]).
Proof.
  intros (x & y & -> & He). right. destruct x as [|d x _] using rev_ind.
  - rewrite app_nil_r in He. subst y. by exists r, [].
  - rewrite app_assoc in He. apply app_inj_tail in He as [-> ->].
    exists x, y. by rewrite <-!app_assoc.
Qed.

(** After the thread [c] in the middle of the order was picked. *)
Lemma rotation_after cur l a c b : rotation cur l (a ++ c :: b) → rotation c l (b ++ a ++ [c]).
Proof.
  intros Hr%rotation_rotl. rewrite app_assoc. apply rotl_rotation. eapply rotl_trans; [exact Hr|].
  exists (a ++ [c]), b. by rewrite <-!app_assoc.
Qed.

Lemma first_runnable st a :
  Forall (λ u, is_runnable st u = false) a ∨
  ∃ a1 c a2, a = a1 ++ c :: a2 ∧ Forall (λ u, is_runnable st u = false) a1 ∧ is_runnable st c = true.
Proof.
  induction a as [|u a [IH|(a1 & c & a2 & -> & IH & Hc)]]; [by left| |];
    destruct (is_runnable st u) eqn:E.
  - right. by exists [], u, a.
  - left. by constructor.
  - right. by exists [], u, (a1 ++ c :: a2).
  - right. exists (u :: a1), c, a2. split_and!; [done|by constructor|done].
Qed.

Lemma ticks_reach fuel k st l pl a t b regs :
  ring st l → listed k st pl → rotation (current_thread st) l (a ++ t :: b) →
  is_runnable st t = true → (length l <= fuel)%nat → (2 * length pl <= fuel)%nat → (k + length pl <= fuel)%nat →
  ∃ n st' pl', (1 <= n <= S (length a))%nat ∧ ticks fuel n st regs = Some st' ∧ current_thread st' = t ∧
    ring st' l ∧ listed k st' pl' ∧ (length pl' <= length pl)%nat.
Proof.
  intros Hr Hal Hrot Ht Hf Hfp Hk. remember (length a) as m eqn:Hm.
  assert (length a <= m)%nat as Hle by lia. clear Hm.
  revert st pl regs a b Hr Hal Hrot Ht Hle Hfp Hk. induction m as [|m IH]; intros st pl regs a b Hr Hal Hrot Ht Hle Hfp Hk.
  all: destruct (first_runnable st a) as [Ha|(a1 & c & a2 & -> & Ha1 & Hc)].
  1, 3: destruct (schedule_listed fuel k st l pl (a ++ t :: b) (regs O)) as (r & st' & pl' & He & Hr' & Hl' & Hlen & Hs); try done;
    rewrite pick_first, runnable_not_terminated in Hs by done;
    exists 1%nat, st', pl'; split_and!; [lia|lia|by simpl; rewrite He|apply Hs|done|done|done].
  - rewrite length_app in Hle. simpl in Hle. lia.
  - rewrite <-app_assoc in Hrot. simpl in Hrot.
    destruct (schedule_listed fuel k st l pl _ (regs O) Hr Hal Hrot Hf Hfp Hk) as (r & st' & pl' & He & Hr' & Hl' & Hlen & Hs).
    rewrite pick_first, runnable_not_terminated in Hs by done.
    destruct Hs as (Hcur & _ & Hts).
    apply rotation_after in Hrot. rewrite <-app_assoc in Hrot. simpl in Hrot.
    destruct (IH st' pl' (λ i, regs (S i)) a2 (b ++ a1 ++ [c])) as (n & st'' & pl'' & Hn & Htk & Hc' & ? & ? & ?); try done; try lia.
    + by rewrite Hcur.
    + unfold is_runnable in Ht |- *. rewrite Hts. by case_match.
    + rewrite length_app in Hle. simpl in Hle. lia.
    + exists (S n), st'', pl''. split_and!; try lia; try done. simpl. by rewrite He.
Qed.

(** C2: the scheduler is fair: a thread of the ready queue that can run becomes the current
    thread within as many ticks as the queue has threads, whatever the other threads'
    states and the interrupted contexts.  The process list may hold zombies, which the
    periodic cleanup of the tick removes when their parent is gone or a zombie too; every one
    of these ticks ends, the queue keeps its order, and the list stays a list and does not
    grow.  Of the zombies it is assumed that their threads form a list that ends in NULL
    ([listed]), as it is when they were never put on the ready queue.  Zombies with a thread
    on the queue are left out: terminating such a process does not return (see below). *)
Theorem scheduler_fair fuel k st l pl rot t regs :
  ring st l → listed k st pl → rotation (current_thread st) l rot → t ∈ l →
  is_runnable st t = true → (length l <= fuel)%nat → (2 * length pl <= fuel)%nat → (k + length pl <= fuel)%nat →
  ∃ n st' pl', (1 <= n <= length l)%nat ∧ ticks fuel n st regs = Some st' ∧ current_thread st' = t ∧
    ring st' l ∧ listed k st' pl' ∧ (length pl' <= length pl)%nat.
Proof.
  intros Hr Hal Hrot Hin Ht Hf Hfp Hk. destruct (rotation_chain _ _ _ Hr Hrot) as (Hperm & _ & _).
  rewrite <-Hperm in Hin. apply list_elem_of_split in Hin as (a & b & ->).
  destruct (ticks_reach fuel k st l pl a t b regs) as (n & st' & pl' & Hn & ?); try done.
  exists n, st', pl'. split; [|done]. apply Permutation_length in Hperm.
  rewrite length_app in Hperm. simpl in Hperm. lia.
Qed.

(** ** Termination of processes *)

Lemma ring_next_in st l t : ring st l → t ∈ l → nexts st t ∈ l ∧ t ≠ 0.
Proof.
  intros Hr Hin. pose proof Hr as [Hh Hne Hnd Hnz Hc]. split.
  - apply list_elem_of_split in Hin as (a & b & ->). apply chain_app in Hc as [_ [Ht _]].
    rewrite Ht. destruct b; simpl; [|set_solver].
    rewrite <-Hh. destruct a; set_solver.
  - rewrite Forall_forall in Hnz. auto.
Qed.

Lemma kill_threads_ring fuel st l t : ring st l → t ∈ l → kill_threads fuel st t = None.
Proof.
  revert st t. induction fuel as [|fuel IH]; intros st t Hr Hin;
    destruct (ring_next_in _ _ _ Hr Hin) as [Hn Ht0]; simpl;
    rewrite (proj2 (Z.eqb_neq t 0)) by done; [done|].
  pose proof (tick_frame_state st t THREAD_STATE_TERMINATED) as Hf.
  apply (IH _ _ (ring_frame _ _ _ Hf Hr)).
  destruct Hf as [_ Hnx _ _ _ _ _]. rewrite Hnx. exact Hn.
Qed.

(** C38: [process_terminate] follows the threads' [next] links to "kill all threads", but
    those links are the circular ready queue: for a process whose thread has been added to
    the scheduler the loop never ends, so exit, kill and the page-fault handler hang. *)
Theorem process_terminate_diverges fuel st l p status :
  ring st l → p ≠ 0 → pstate (pget st p) = PROCESS_STATE_ALIVE → threads (pget st p) ∈ l →
  process_terminate fuel st p status = None.
Proof.
  intros Hr Hp Hs Hin. unfold process_terminate.
  rewrite (proj2 (Z.eqb_neq p 0)), Hs, bool_decide_false by done. simpl.
  rewrite pget_pupd, Z.eqb_refl. simpl. rewrite kill_threads_ring with (l := l); [done| |done].
  by destruct Hr.
Qed.

Lemma close_fds_spec st p fds :
  fd_table (pget st p) = fds → alen fds = 16 →
  let st' := close_fds st p in
  pget st' p = w_fd_table (replicate 16 0) (pget st p) ∧
  files st' = foldl vfs_close (files st) (filter (λ fd, nz fd) fds) ∧
  (∀ q, q ≠ p → pget st' q = pget st q) ∧ thr st' = thr st.
Proof.
  intros Hfds Hlen. unfold close_fds, MAX_PROCESS_FDS. cbv zeta.
  set (body := λ i st, _). 
  pose proof (for_loop_inv (λ k s,
    pget s p = w_fd_table (replicate (Z.to_nat k) 0 ++ drop (Z.to_nat k) fds) (pget st p) ∧
    files s = foldl vfs_close (files st) (filter (λ fd, nz fd) (take (Z.to_nat k) fds)) ∧
    (∀ q, q ≠ p → pget s q = pget st q) ∧ thr s = thr st) (Z.to_nat 16) 0 body st) as Hloop.
  destruct Hloop as (HP & HF & HQ & HT).
  - split_and!; try done. simpl. destruct (pget st p) eqn:E. simpl in Hfds. by subst.
  - intros k s Hk (HP & HF & HQ & HT). unfold body.
    assert (fd_table (pget s p) = replicate (Z.to_nat k) 0 ++ drop (Z.to_nat k) fds) as Ht by (by rewrite HP).
    assert (Z.to_nat k < length fds)%nat as Hklt by (unfold alen in Hlen; lia).
    destruct (lookup_lt_is_Some_2 fds (Z.to_nat k) Hklt) as [fd Hfd].
    assert ((fd_table (pget s p)).[k] = fd) as Hget.
    { rewrite Ht. rewrite aget_app_r, alen_replicate by (rewrite alen_replicate; lia).
      apply aget_lookup; [lia|]. rewrite lookup_drop. rewrite <-Hfd. f_equal. lia. }
    cbv zeta. rewrite Hget. replace (Z.to_nat (k + 1)) with (S (Z.to_nat k)) by lia.
    rewrite (take_S_r _ _ fd), filter_app by done.
    rewrite (drop_S _ _ _ Hfd) in HP, Ht.
    assert (Htab : replicate (S (Z.to_nat k)) 0 ++ drop (S (Z.to_nat k)) fds =
            (replicate (Z.to_nat k) 0 ++ 0 :: drop (S (Z.to_nat k)) fds)).
    { replace (S (Z.to_nat k)) with (Z.to_nat k + 1)%nat at 1 by lia.
      by rewrite replicate_add, <-app_assoc. }
    rewrite Htab. unfold nz. destruct (Z.eqb_spec fd 0) as [->|Hnz]; cbn [negb].
    + rewrite filter_cons_False by (simpl; tauto). rewrite app_nil_r. done.
    + rewrite filter_cons_True, filter_nil, foldl_app by (by rewrite (proj2 (Z.eqb_neq fd 0))).
      split_and!.
      * rewrite pget_pupd, Z.eqb_refl. stget. rewrite HP. unfold w_fd_table. simpl. f_equal.
        unfold aset. rewrite (proj2 (Z.ltb_ge k 0)) by lia.
        by rewrite insert_app_r_alt, length_replicate, Nat.sub_diag by (rewrite length_replicate; lia).
      * simpl. by rewrite HF.
      * intros q Hq. rewrite pget_pupd, (proj2 (Z.eqb_neq q p)) by done. stget. auto.
      * done.
  - change (Z.to_nat (0 + Z.of_nat (Z.to_nat 16))) with 16%nat in HP, HF.
    rewrite drop_ge, app_nil_r in HP by (unfold alen in Hlen; lia).
    rewrite take_ge in HF by (unfold alen in Hlen; lia). done.
Qed.

(** Terminating a process whose thread is not in the ready queue ends: the process is
    a zombie with the given status, its thread is terminated, each open descriptor is
    closed once, in order, and the table is empty; other processes are untouched, and a
    second termination changes nothing. *)
Theorem process_terminate_detached fuel st p t status :
  p ≠ 0 → pstate (pget st p) = PROCESS_STATE_ALIVE → threads (pget st p) = t →
  tnext (tget st t) = 0 → alen (fd_table (pget st p)) = 16 → (1 <= fuel)%nat →
  ∃ st', process_terminate fuel st p status = Some st' ∧
    pget st' p = w_fd_table (replicate 16 0)
                   (w_exit_status status (w_pstate PROCESS_STATE_ZOMBIE (pget st p))) ∧
    (t ≠ 0 → tstate (tget st' t) = THREAD_STATE_TERMINATED) ∧
    files st' = foldl vfs_close (files st) (filter (λ fd, nz fd) (fd_table (pget st p))) ∧
    (∀ q, q ≠ p → pget st' q = pget st q) ∧
    ∀ s, process_terminate fuel st' p s = Some st'.
Proof.
  intros Hp Hal Hthr Hnx Hfd Hf. unfold process_terminate at 1.
  rewrite (proj2 (Z.eqb_neq p 0)), Hal, bool_decide_false by done. cbn [orb].
  set (st1 := pupd st p _).
  assert (pget st1 p = w_exit_status status (w_pstate PROCESS_STATE_ZOMBIE (pget st p))) as HP1
    by (unfold st1; by rewrite pget_pupd, Z.eqb_refl).
  assert (∀ q, q ≠ p → pget st1 q = pget st q) as HQ1.
  { intros q Hq. unfold st1. by rewrite pget_pupd, (proj2 (Z.eqb_neq q p)). }
  assert (∃ st2, kill_threads fuel st1 (threads (pget st1 p)) = Some st2 ∧ prc st2 = prc st1 ∧
     files st2 = files st ∧ (t ≠ 0 → tstate (tget st2 t) = THREAD_STATE_TERMINATED))
    as (st2 & -> & Hprc & Hfi & Ht2).
  { rewrite HP1. cbn [threads w_exit_status w_pstate]. rewrite Hthr.
    destruct fuel as [|fuel]; [lia|]. simpl. destruct (Z.eqb_spec t 0) as [->|Ht0].
    { by eexists. }
    rewrite tget_tupd, Z.eqb_refl. unfold st1 at 2. stget. simpl. rewrite Hnx.
    eexists. split; [by destruct fuel|]. split_and!; [done|done|].
    intros _. by rewrite tget_tupd, Z.eqb_refl. }
  cbn [mbind option_bind].
  assert (∀ q, pget st2 q = pget st1 q) as Hpq by (intros; unfold pget; by rewrite Hprc).
  destruct (close_fds_spec st2 p (fd_table (pget st p))) as (HP & HF & HQ & HT);
    [by rewrite Hpq, HP1|done|].
  rewrite Hpq, HP1 in HP. rewrite Hfi in HF.
  generalize dependent (close_fds st2 p). intros st3 HP HF HQ HT.
  exists st3. split; [done|]. split_and!; [done| |done| |].
  - intros Ht0. unfold tget. rewrite HT. by apply Ht2.
  - intros q Hq. rewrite HQ, Hpq by done. auto.
  - intros s. unfold process_terminate. rewrite HP. cbn [pstate w_fd_table w_exit_status w_pstate].
    by rewrite bool_decide_true, orb_true_r by done.
Qed.

(** ** Lookup by PID *)

(** [process_waitpid] on a PID that no process carries answers -1 and changes nothing;
    on a living process it keeps polling; on a zombie it returns the PID with the recorded
    exit status. *)
Theorem waitpid_poll_cases fuel st pl k :
  plist st pl → (length pl <= fuel)%nat →
  match List.find (λ p, pid (pget st p) =? k) pl with
  | None => waitpid_poll fuel st k = Some (Some (-1, 0, st))
  | Some c =>
      if bool_decide (pstate (pget st c) = PROCESS_STATE_ALIVE) then
        waitpid_poll fuel st k = Some None
      else
        waitpid_poll fuel st k =
          match process_cleanup fuel st c with
          | Some st' => Some (Some (s32 k, exit_status (pget st c), st'))
          | None => None
          end
  end.
Proof.
  intros Hpl Hf. unfold waitpid_poll. rewrite (get_by_pid_spec fuel st pl) by done.
  cbn [mbind option_bind]. destruct (List.find _ pl) as [c|] eqn:E; [|done]. cbn [default].
  apply find_Some_in in E as [Hin _]. destruct Hpl as [_ Hnz _]. rewrite Forall_forall in Hnz.
  unfold id. rewrite (proj2 (Z.eqb_neq c 0)) by auto.
  destruct (pstate (pget st c)); [done|]. cbn [bool_decide_pack]. done.
Qed.

(** ** Wait queues *)

(** The loop over the first [n] entries, as the list it visits. *)
Lemma wake_loop_spec st (l : list Z) n :
  (n <= length l)%nat →
  let st' := for_loop n 0 (λ i st, tupd st (l.[i]) (w_tstate THREAD_STATE_READY)) st in
  (∀ t, tstate (tget st' t) =
        if bool_decide (t ∈ take n l) then THREAD_STATE_READY else tstate (tget st t)) ∧
  tick_frame st st' ∧ current_thread st' = current_thread st.
Proof.
  intros Hn. cbv zeta. induction n as [|n IH].
  { simpl. by split. }
  rewrite for_loop_S. destruct IH as (Ht & Hf & Hc); [lia|].
  set (st1 := for_loop n 0 _ st) in *. clearbody st1.
  destruct (lookup_lt_is_Some_2 l n) as [x Hx]; [lia|].
  assert (l.[0 + Z.of_nat n] = x) as Hxe by (apply aget_lookup; [lia|by rewrite Z.add_0_l, Nat2Z.id]).
  rewrite Hxe, (take_S_r _ _ x) by done. split_and!.
  - intros t. rewrite tget_tupd. destruct (Z.eqb_spec t x) as [->|Hne]; cbn [tstate w_tstate].
    + by rewrite bool_decide_true by set_solver.
    + rewrite Ht. destruct (decide (t ∈ take n l)).
      * by rewrite !bool_decide_true by set_solver.
      * by rewrite !bool_decide_false by set_solver.
  - eapply tick_frame_trans; [exact Hf|apply tick_frame_state].
  - done.
Qed.

(** [wake_up] makes exactly the waiting threads ready and empties the queue; a thread
    that called [wait_on] while the queue had room is one of them. *)
Theorem wait_then_wake st q :
  alen (wq_threads q) = MAX_PROCESSES → 0 <= wq_count q <= MAX_PROCESSES → current_thread st ≠ 0 →
  let '(blocked, st1, q1) := wait_on st q in
  blocked = (wq_count q <? MAX_PROCESSES) ∧
  0 <= wq_count q1 <= MAX_PROCESSES ∧ alen (wq_threads q1) = MAX_PROCESSES ∧
  (blocked = true → tstate (tget st1 (current_thread st)) = THREAD_STATE_BLOCKED) ∧
  (blocked = false → st1 = st ∧ q1 = q) ∧
  let '(st2, q2) := wake_up st1 q1 in
  wq_count q2 = 0 ∧
  (∀ t, tstate (tget st2 t) =
        if bool_decide (t ∈ take (Z.to_nat (wq_count q)) (wq_threads q)) ||
           (blocked && (t =? current_thread st))
        then THREAD_STATE_READY else tstate (tget st t)) ∧
  (∀ l, ring st l → ring st2 l).
Proof.
  intros Hlen Hcnt Hcur. unfold wait_on, scheduler_get_current_thread, wake_up.
  rewrite (proj2 (Z.eqb_neq _ _) Hcur).
  destruct (Z.ltb_spec (wq_count q) MAX_PROCESSES) as [Hlt|Hge]; unfold MAX_PROCESSES in *.
  - set (cur := current_thread st) in *. cbn [wq_threads wq_count].
    set (st1 := tupd st cur _). set (l1 := (wq_threads q).[wq_count q <- cur]).
    assert (tick_frame st st1) as Hf1 by apply tick_frame_state.
    assert (alen l1 = 64) as Hl1 by (unfold l1; by rewrite alen_aset).
    destruct (wake_loop_spec st1 l1 (Z.to_nat (wq_count q + 1))) as (Ht & Hf & _);
      [unfold alen in Hl1; lia|].
    assert (take (Z.to_nat (wq_count q + 1)) l1 = take (Z.to_nat (wq_count q)) (wq_threads q) ++ [cur]) as Htk.
    { replace (Z.to_nat (wq_count q + 1)) with (S (Z.to_nat (wq_count q))) by lia.
      assert (l1 !! Z.to_nat (wq_count q) = Some cur) as Hlk.
      { unfold l1, aset. rewrite (proj2 (Z.ltb_ge _ 0)) by lia.
        apply list_lookup_insert_eq. unfold alen in Hlen. lia. }
      rewrite (take_S_r _ _ cur) by done. f_equal. unfold l1, aset.
      rewrite (proj2 (Z.ltb_ge _ 0)) by lia. by rewrite take_insert_ge by lia. }
    split_and!; try done; try lia.
    + intros _. unfold st1. by rewrite tget_tupd, Z.eqb_refl.
    + intros t. rewrite Ht, Htk. cbn [andb].
      destruct (Z.eqb_spec t cur) as [->|Hne].
      * rewrite bool_decide_true by set_solver. by rewrite orb_true_r.
      * rewrite orb_false_r. unfold st1. rewrite tget_tupd, (proj2 (Z.eqb_neq t cur)) by done.
        destruct (decide (t ∈ take (Z.to_nat (wq_count q)) (wq_threads q))).
        -- by rewrite !bool_decide_true by set_solver.
        -- by rewrite !bool_decide_false by set_solver.
    + intros l Hr. eapply ring_frame; [exact Hf|]. by eapply ring_frame.
  - destruct (wake_loop_spec st (wq_threads q) (Z.to_nat (wq_count q))) as (Ht & Hf & _);
      [unfold alen in Hlen; lia|].
    split_and!; try done; try lia.
    + intros t. rewrite Ht. cbn [andb]. by rewrite orb_false_r.
    + intros l Hr. by eapply ring_frame.
Qed.

(** ** Boot *)

Lemma process_init_spec fuel st L :
  holds (heap st) L → ready_queue st = 0 →
  (halloc (heap st) sizeof_process).1 ≠ 0 →
  (halloc (halloc (heap st) sizeof_process).2 sizeof_thread).1 ≠ 0 →
  ∃ kp kt st', process_init fuel st = Some st' ∧ holds (heap st') (kt :: kp :: L) ∧
    ring st' [kt] ∧ current_thread st' = kt ∧ is_runnable st' kt = true ∧
    alive_list st' [kp] ∧ tprocess (tget st' kt) = kp ∧ next_pid st' = 1.
Proof.
  intros Hh Hq Hp0 Ht0. unfold process_init, kmalloc_sys. cbv zeta.
  change (heap (w_next_tid 1 (w_next_pid 1 st))) with (heap st).
  destruct (halloc_holds (heap st) L sizeof_process Hh ltac:(done)) as [[? _]|(_ & HpL & Hh1)];
    [done|].
  destruct (halloc (heap st) sizeof_process) as [kp h1]. cbn [fst snd] in *.
  change (heap (pput (w_heap h1 _) kp _)) with h1.
  destruct (halloc_holds h1 (kp :: L) sizeof_thread Hh1 ltac:(done)) as [[? _]|(_ & HtL & Hh2)];
    [done|].
  destruct (halloc h1 sizeof_thread) as [kt h2]. cbn [fst snd] in *.
  unfold scheduler_add_thread. cbn [ready_queue w_process_list pupd pput w_prc tput w_thr w_heap
    w_next_pid w_next_tid]. rewrite Hq. cbn [Z.eqb mbind option_bind].
  eexists kp, kt, _. split; [done|].
  assert (kp ≠ kt) by set_solver.
  unfold scheduler_set_current_thread. cbv zeta.
  match goal with |- context [if ready_queue ?s =? 0 then _ else _] =>
    replace (ready_queue s =? 0) with false by (symmetry; by apply Z.eqb_neq) end.
  split_and!; try done.
  - split; try done.
    + apply NoDup_singleton.
    + by repeat constructor.
    + split; [|done]. unfold nexts. stget. by rewrite tget_tupd, Z.eqb_refl.
  - unfold is_runnable. stget. rewrite tget_tupd, Z.eqb_refl. stget.
    by rewrite tget_tput, Z.eqb_refl.
  - split; try done.
    + by repeat constructor.
    + split; [|done]. stget. by rewrite pget_pupd, Z.eqb_refl.
    + constructor; [|done]. stget. rewrite pget_pupd, Z.eqb_refl. stget.
      by rewrite pget_pput, Z.eqb_refl.
  - stget. rewrite tget_tupd, Z.eqb_refl. stget. by rewrite tget_tput, Z.eqb_refl.
Qed.

End system.

(** ** Concrete runs *)

Definition demo_kheap : kheap := (kheap_init demo_vmm ∅ 0xC0500000 0x10000).2.
Definition demo_sys0 : sys kheap pmm (list Z) :=
  mk_sys demo_kheap demo_vmm [] ∅ ∅ ∅ 0 0 0 0 0 0 0.
(** After [process_init]: the kernel's process and its thread. *)
Definition demo_sys1 : sys kheap pmm (list Z) := default demo_sys0 (process_init 4 demo_sys0).
(** After one [process_create]: two threads in the ready queue. *)
Definition demo_sys2 : sys kheap pmm (list Z) :=
  (default (0, demo_sys1) (process_create 4 demo_sys1 [105; 0] 0x1000)).2.

Definition t0 : Z := 3226468648.
Definition t1 : Z := 3226468968.
Definition p0 : Z := 3226468372.
Definition p1 : Z := 3226468692.

Lemma demo_ring : ring demo_sys2 [t0; t1].
Proof.
  split; [by vm_compute|done| |by repeat constructor|].
  - apply NoDup_cons. split; [|apply NoDup_singleton]. intros ?%list_elem_of_singleton. done.
  - split; [by vm_compute|]. by split; [vm_compute|].
Qed.

Lemma demo_alive : alive_list demo_sys2 [p1; p0].
Proof.
  split; [by vm_compute|by repeat constructor| |].
  - split; [by vm_compute|]. by split; [vm_compute|].
  - repeat constructor; by vm_compute.
Qed.

Lemma demo_rotation : rotation (current_thread demo_sys2) [t0; t1] [t1; t0].
Proof. right. exists [], [t1]. split; by vm_compute. Qed.

Lemma scheduler_next_runnable_witness :
  ∃ r st', scheduler_schedule 4 demo_sys2 0x9000 = Some (r, st') ∧ current_thread st' = t1.
Proof.
  destruct (scheduler_next_runnable 4 demo_sys2 [t0; t1] [p1; p0] [] t1 [t0] 0x9000
              demo_ring demo_alive demo_rotation (Forall_nil_2 _) ltac:(by vm_compute)
              ltac:(simpl; lia) ltac:(simpl; lia)) as (r & st' & He & Hc & _).
  exists r, st'. split; [exact He|exact Hc].
Defined.

(** The process [p1] is a zombie without a parent whose thread is not on the queue, and the
    next tick is one that cleans up. *)
Definition demo_zombie : sys kheap pmm (list Z) :=
  w_sched_ticks 100
    (pupd (tupd (tupd demo_sys2 t0 (w_tnext t0)) t1 (w_tnext 0)) p1
       (λ r, w_parent_pid 9 (w_pstate PROCESS_STATE_ZOMBIE r))).

Lemma demo_zombie_ring : ring demo_zombie [t0].
Proof.
  split; [by vm_compute|done|apply NoDup_singleton|by repeat constructor|].
  by split; [vm_compute|].
Qed.

Lemma demo_zombie_listed : listed 1 demo_zombie [p1; p0].
Proof.
  split.
  - split; [by vm_compute|by repeat constructor|]. split; [by vm_compute|]. by split; [vm_compute|].
  - apply NoDup_cons. split; [|apply NoDup_singleton]. intros ?%list_elem_of_singleton. done.
  - intros p [->|[->|[]%elem_of_nil]%elem_of_cons]%elem_of_cons Hs; [|by vm_compute in Hs].
    exists [t1]. split_and!; [by vm_compute|by repeat constructor| |simpl; lia]. by split; [vm_compute|].
Qed.

(** The thread runs after one tick, which has removed the zombie from the list. *)
Lemma scheduler_fair_witness :
  (∃ n st' pl', (1 <= n <= 1)%nat ∧ ticks 4 n demo_zombie (λ _, 0x9000) = Some st' ∧
    current_thread st' = t0 ∧ ring st' [t0] ∧ listed 1 st' pl' ∧ (length pl' <= 2)%nat) ∧
  process_list <$> ticks 4 1 demo_zombie (λ _, 0x9000) = Some p0.
Proof.
  split; [|by vm_compute].
  exact (scheduler_fair 4 1 demo_zombie [t0] [p1; p0] [t0] t0 (λ _, 0x9000)
           demo_zombie_ring demo_zombie_listed ltac:(right; exists [], []; split; by vm_compute)
           (list_elem_of_here _ _) ltac:(by vm_compute)
           ltac:(simpl; lia) ltac:(simpl; lia) ltac:(simpl; lia)).
Defined.

(** Both threads have called [wait_on]. *)
Definition demo_blocked : sys kheap pmm (list Z) :=
  tupd (tupd demo_sys2 t0 (w_tstate THREAD_STATE_BLOCKED)) t1 (w_tstate THREAD_STATE_BLOCKED).

Lemma scheduler_runs_blocked_thread_witness :
  ∃ r st', scheduler_schedule 4 demo_blocked 0x9000 = Some (r, st') ∧
    tstate (tget demo_blocked t1) = THREAD_STATE_BLOCKED ∧ current_thread st' = t1.
Proof.
  assert (tick_frame demo_sys2 demo_blocked) as Hf.
  { unfold demo_blocked. eapply tick_frame_trans; apply tick_frame_state. }
  assert (rotation (current_thread demo_blocked) [t0; t1] [t1; t0]) as Hrot.
  { right. exists [], [t1]. split; by vm_compute. }
  destruct (scheduler_runs_blocked_thread 4 demo_blocked [t0; t1] [p1; p0] [t1; t0] 0x9000
              (ring_frame _ _ _ Hf demo_ring) (alive_frame _ _ _ Hf demo_alive) Hrot
              ltac:(repeat constructor; by vm_compute) ltac:(simpl; lia) ltac:(simpl; lia))
    as (r & st' & He & Hb & Hc & _).
  exists r, st'. split; [exact He|]. split; [exact Hb|exact Hc].
Defined.

Lemma process_terminate_diverges_witness :
  process_terminate (λ v fd, fd :: v) 100 demo_sys2 p1 0 = None.
Proof.
  apply (process_terminate_diverges _ 100 demo_sys2 [t0; t1] p1 0 demo_ring);
    [done|by vm_compute|]. right. left.
Defined.

(** The thread of [p1] taken off the queue, one descriptor open. *)
Definition demo_detached : sys kheap pmm (list Z) :=
  pupd (tupd demo_sys2 t1 (w_tnext 0)) p1 (λ r, w_fd_table ((fd_table r).[3 <- 77]) r).

Lemma process_terminate_detached_witness :
  ∃ st', process_terminate (λ v fd, fd :: v) 1 demo_detached p1 9 = Some st' ∧ files st' = [77].
Proof.
  destruct (process_terminate_detached (λ v fd, fd :: v) 1 demo_detached p1 t1 9
              ltac:(by vm_compute) ltac:(by vm_compute) ltac:(by vm_compute) ltac:(by vm_compute)
              ltac:(by vm_compute) ltac:(lia)) as (st' & He & _ & _ & Hf & _).
  exists st'. split; [exact He|]. rewrite Hf. by vm_compute.
Defined.

Lemma demo_holds : kheap_holds demo_kheap [].
Proof.
  exists 0xC0500000, 0x10000, []. split; [|done].
  apply (heap_inv_init (H := pmm_ops) demo_vmm ∅ 0xC0500000 0x10000); by vm_compute.
Qed.

Lemma process_create_correct_witness :
  ∃ st1 p st2, process_init 4 demo_sys0 = Some st1 ∧
    process_create 4 st1 [105; 0] 0x1000 = Some (p, st2) ∧ (p ≠ 0 → pid (pget st2 p) = 1).
Proof.
  destruct (process_init_spec (holds := kheap_holds) 4 demo_sys0 [] demo_holds eq_refl)
    as (kp & kt & st1 & He & Hh & Hr & Hc & _ & _ & Hp & Hn); [by vm_compute|by vm_compute|].
  exists st1. clear -He Hh Hr Hc Hp Hn.
  destruct (process_create_correct (holds := kheap_holds) 4 st1 [105; 0] 0x1000
              [kt; kp] [kt] Hh Hr) as (p & st2 & He' & Hres).
  - intros t ->%list_elem_of_singleton. left.
  - right. unfold scheduler_get_current_process. rewrite Hc, Hp.
    destruct Hr as [_ _ _ [Hk _]%Forall_cons _]. unfold nz. rewrite (proj2 (Z.eqb_neq _ _) Hk).
    right. left.
  - simpl. lia.
  - exists p, st2. split; [exact He|]. split; [exact He'|]. intros Hne.
    destruct Hres as [[? _]|(t & k & _ & _ & _ & HP & _)]; [by destruct Hne|].
    rewrite HP. exact Hn.
Defined.

Lemma waitpid_poll_cases_witness : waitpid_poll 4 demo_sys2 7 = Some (Some (-1, 0, demo_sys2)).
Proof.
  assert (plist demo_sys2 [p1; p0]) as Hpl by (destruct demo_alive; split; assumption).
  pose proof (waitpid_poll_cases 4 demo_sys2 [p1; p0] 7 Hpl ltac:(simpl; lia)) as H.
  assert (List.find (λ p, pid (pget demo_sys2 p) =? 7) [p1; p0] = None) as Hf by (by vm_compute).
  rewrite Hf in H. exact H.
Defined.

Lemma wait_then_wake_witness :
  let '(b, st1, q1) := wait_on demo_sys2 (mk_wq (replicate 64 0) 0) in
  b = true ∧ tstate (tget (wake_up st1 q1).1 t0) = THREAD_STATE_READY.
Proof.
  pose proof (wait_then_wake demo_sys2 (mk_wq (replicate 64 0) 0) eq_refl
    ltac:(by vm_compute) ltac:(by vm_compute)) as H.
  destruct (wait_on _ _) as [[b st1] q1]. destruct H as (-> & _ & _ & _ & _ & H).
  destruct (wake_up st1 q1) as [st2 q2]. destruct H as (_ & H & _). simpl. split; [done|].
  rewrite H. by vm_compute.
Defined.
