(* ===== verification/Vfs.v ===== *)
(** * fs/vfs: the virtual file system layer

    A [vfs_node_t] holds, per operation, a function pointer.  The model keeps in each slot
    the file system whose function is stored there ([None] is NULL) and calls it through
    the [VfsWorld] interface, which also gives access to the nodes by address.  The VFS
    operations are the source's dispatchers; [vfs_find_path] is the recursive path walk,
    and [walk] what it is meant to compute on a list of components. *)

From S2P Require Import Prelude KString.

Definition VFS_FILE : Z := 1.
Definition VFS_DIRECTORY : Z := 2.
Definition VFS_CHAR_DEVICE : Z := 3.
Definition VFS_BLOCK_DEVICE : Z := 4.
Definition MAX_MOUNTS : Z := 8.

(** The implementations whose functions are stored in nodes. *)
Inductive fsid := FS_FAT32 | FS_DEVFS | FS_NETINFO | FS_AHCI.
#[global] Instance fsid_eq_dec : EqDecision fsid.
Proof. solve_decision. Defined.

Record vfs_node := mk_node {
  nname : list Z;
  mask : Z; uid : Z; gid : Z; flags : Z; inode : Z; nlength : Z; impl : Z;
  f_read : option fsid; f_write : option fsid; f_open : option fsid; f_close : option fsid;
  f_readdir : option fsid; f_finddir : option fsid; f_create : option fsid;
  f_unlink : option fsid; f_mkdir : option fsid;
  nptr : Z; device_data : Z }.

Definition zero_node : vfs_node :=
  mk_node (replicate 128 0) 0 0 0 0 0 0 0 None None None None None None None None None 0 0.

Definition w_ptr (v : Z) (n : vfs_node) : vfs_node :=
  mk_node (nname n) (mask n) (uid n) (gid n) (flags n) (inode n) (nlength n) (impl n)
    (f_read n) (f_write n) (f_open n) (f_close n) (f_readdir n) (f_finddir n) (f_create n)
    (f_unlink n) (f_mkdir n) v (device_data n).

(** What the VFS needs of the rest of the kernel. *)
Class VfsWorld (W : Type) := {
  node_at : W → Z → vfs_node;
  put_node : W → Z → vfs_node → W;
  call_read : fsid → W → Z → Z → Z → list Z → Z * list Z * W;
  call_write : fsid → W → Z → Z → Z → list Z → Z * W;
  call_open : fsid → W → Z → W;
  call_close : fsid → W → Z → W;
  call_readdir : fsid → W → Z → Z → Z * W;
  call_finddir : fsid → W → Z → list Z → Z * W;
  call_create : fsid → W → Z → list Z → Z * W;
  call_unlink : fsid → W → Z → list Z → bool * W;
  call_mkdir : fsid → W → Z → list Z → Z * W }.

(** [vfs_mount_t] and the globals of vfs.c. *)
Record vfs_mount_t := mk_mount { mpath : list Z; mroot : Z }.
#[global] Instance vfs_mount_inhabited : Inhabited vfs_mount_t := populate (mk_mount [] 0).
Record vfs := mk_vfs { vfs_root : Z; vfs_mounts : list vfs_mount_t }.

Section vfs.
Context {W : Type} `{VfsWorld W}.
Implicit Types (w : W) (node : Z).

Definition is_dir (n : vfs_node) : bool := Z.land (flags n) 7 =? VFS_DIRECTORY.

Definition vfs_read w node (offset size : Z) (buffer : list Z) : Z * list Z * W :=
  if node =? 0 then (0, buffer, w)
  else match f_read (node_at w node) with
       | Some fs => call_read fs w node offset size buffer
       | None => (0, buffer, w)
       end.

Definition vfs_write w node (offset size : Z) (buffer : list Z) : Z * W :=
  if node =? 0 then (0, w)
  else match f_write (node_at w node) with
       | Some fs => call_write fs w node offset size buffer
       | None => (0, w)
       end.

Definition vfs_open w node : W :=
  if node =? 0 then w
  else match f_open (node_at w node) with Some fs => call_open fs w node | None => w end.

Definition vfs_close w node : W :=
  if node =? 0 then w
  else match f_close (node_at w node) with Some fs => call_close fs w node | None => w end.

Definition vfs_readdir w node (index : Z) : Z * W :=
  if node =? 0 then (0, w)
  else match is_dir (node_at w node), f_readdir (node_at w node) with
       | true, Some fs => call_readdir fs w node index
       | _, _ => (0, w)
       end.

Definition vfs_finddir w node (name : list Z) : Z * W :=
  if node =? 0 then (0, w)
  else match is_dir (node_at w node), f_finddir (node_at w node) with
       | true, Some fs => call_finddir fs w node name
       | _, _ => (0, w)
       end.

Definition vfs_create w node (name : list Z) : Z * W :=
  if node =? 0 then (0, w)
  else match is_dir (node_at w node), f_create (node_at w node) with
       | true, Some fs => call_create fs w node name
       | _, _ => (0, w)
       end.

Definition vfs_unlink w node (name : list Z) : bool * W :=
  if node =? 0 then (false, w)
  else match is_dir (node_at w node), f_unlink (node_at w node) with
       | true, Some fs => call_unlink fs w node name
       | _, _ => (false, w)
       end.

Definition vfs_mkdir w node (name : list Z) : Z * W :=
  if node =? 0 then (0, w)
  else match is_dir (node_at w node), f_mkdir (node_at w node) with
       | true, Some fs => call_mkdir fs w node name
       | _, _ => (0, w)
       end.

Definition vfs_check_mount w node : Z :=
  if node =? 0 then 0
  else if nz (nptr (node_at w node)) then nptr (node_at w node) else node.

(** [while (path[i] != '/' && path[i] != 0 && i < 127) component[i] = path[i++]]: the
    component and the rest of the path.  A path is the byte list from the pointer on; a
    read past its end is the terminator. *)
Definition SLASH : Z := 47.

Fixpoint take_component (n : nat) (path : list Z) : list Z * list Z :=
  match n, path with
  | S n', c :: path' =>
      if (c =? SLASH) || (c =? 0) then ([], path)
      else let '(comp, rest) := take_component n' path' in (c :: comp, rest)
  | _, _ => ([], path)
  end.

(** The recursion consumes the path, whose length bounds the depth. *)
Fixpoint find_path_rec (fuel : nat) (v : vfs) w (root : Z) (path : list Z) : option (Z * W) :=
  match fuel with
  | O => None
  | S fuel' =>
      if hd0 path =? 0 then Some (vfs_check_mount w root, w)
      else if (hd0 path =? SLASH) && (hd0 (tail path) =? 0) then
        Some (vfs_check_mount w (vfs_root v), w)
      else
        let '(root, path) :=
          if hd0 path =? SLASH then (vfs_root v, tail path) else (root, path) in
        if root =? 0 then Some (0, w)
        else
          let '(component, rest) := take_component 127 path in
          let '(next, w) := vfs_finddir w (vfs_check_mount w root) (component ++ [0]) in
          if next =? 0 then Some (0, w)
          else if hd0 rest =? SLASH then find_path_rec fuel' v w next (tail rest)
          else Some (vfs_check_mount w next, w)
  end.

Definition vfs_find_path (v : vfs) w (root : Z) (path : list Z) : Z * W :=
  default (0, w) (find_path_rec (S (length path)) v w root path).

Definition vfs_mount (v : vfs) w (path : list Z) (root_node : Z) : bool * vfs * W :=
  match zfind (λ i, (mpath ((vfs_mounts v).[i])).[0] =? 0) 0 (Z.to_nat MAX_MOUNTS) with
  | Some i =>
      let slot := mk_mount (kstrncpy (mpath ((vfs_mounts v).[i])) 0 path 127) root_node in
      let v := mk_vfs (vfs_root v) ((vfs_mounts v).[i <- slot]) in
      let '(target, w) := vfs_find_path v w (vfs_root v) path in
      (true, v, if nz target then put_node w target (w_ptr root_node (node_at w target)) else w)
  | None => (false, v, w)
  end.

(** ** What the path walk is meant to compute *)

(** Looking up one component after the other, crossing mount points on the way. *)
Fixpoint walk w node (comps : list (list Z)) : Z * W :=
  match comps with
  | [] => (vfs_check_mount w node, w)
  | c :: comps' =>
      if node =? 0 then (0, w)
      else
        let '(next, w) := vfs_finddir w (vfs_check_mount w node) (c ++ [0]) in
        if next =? 0 then (0, w) else walk w next comps'
  end.

(** A name: 1 to 127 characters, none of them the separator. *)
Definition name_ok (c : list Z) : Prop :=
  c ≠ [] ∧ (length c <= 127)%nat ∧ Forall (λ x, x ≠ 0 ∧ x ≠ SLASH) c.

Fixpoint join (comps : list (list Z)) : list Z :=
  match comps with
  | [] => []
  | [c] => c
  | c :: comps' => c ++ SLASH :: join comps'
  end.

Lemma take_component_name n c rest :
  (length c <= n)%nat → Forall (λ x, x ≠ 0 ∧ x ≠ SLASH) c →
  (rest = [] ∨ hd0 rest = 0 ∨ hd0 rest = SLASH) → take_component n (c ++ rest) = (c, rest).
Proof.
  intros Hn Hc Hr. revert n Hn. induction Hc as [|x c [Hx0 Hxs] Hc IH]; intros n Hn; simpl.
  - destruct n, rest as [|y rest]; simpl; try done. destruct Hr as [?|Hr]; [done|].
    unfold hd0 in Hr. rewrite aget_cons_0 in Hr.
    by destruct Hr as [-> | ->].
  - destruct n as [|n]; simpl in Hn; [lia|]. simpl.
    rewrite (proj2 (Z.eqb_neq x SLASH)), (proj2 (Z.eqb_neq x 0)) by done. simpl.
    by rewrite IH by lia.
Qed.

Lemma take_component_len n path : (length (take_component n path).2 <= length path)%nat.
Proof.
  revert n. induction path as [|c path IH]; intros [|n]; simpl; try lia.
  case_match; simpl; [lia|]. specialize (IH n). destruct (take_component n path). simpl in *. lia.
Qed.

(** The fuel of [vfs_find_path] is enough: every call consumes a separator. *)
Lemma find_path_total fuel v w root path :
  (length path < fuel)%nat → ∃ r, find_path_rec fuel v w root path = Some r.
Proof.
  revert w root path. induction fuel as [|fuel IH]; intros w root path Hf; [lia|]. cbn [find_path_rec].
  destruct (hd0 path =? 0); [by eexists|].
  destruct ((hd0 path =? SLASH) && (hd0 (tail path) =? 0)); [by eexists|].
  assert (∃ r p, (if hd0 path =? SLASH then (vfs_root v, tail path) else (root, path)) = (r, p) ∧
    (length p <= length path)%nat) as (r & p & -> & Hp).
  { case_match; eexists _, _; (split; [done|]); [destruct path; simpl; lia|lia]. }
  destruct (r =? 0); [by eexists|]. pose proof (take_component_len 127 p) as Hl.
  destruct (take_component 127 p) as [comp rest]. simpl in Hl.
  destruct (vfs_finddir w (vfs_check_mount w r) (comp ++ [0])) as [next w'].
  destruct (next =? 0); [by eexists|].
  destruct (hd0 rest =? SLASH) eqn:E; [|by eexists]. apply IH.
  destruct rest as [|c rest]; [by vm_compute in E|]. simpl in *. lia.
Qed.

Lemma find_path_mono fuel fuel' v w root path r :
  (fuel <= fuel')%nat → find_path_rec fuel v w root path = Some r →
  find_path_rec fuel' v w root path = Some r.
Proof.
  revert fuel' w root path. induction fuel as [|fuel IH]; intros [|fuel'] w root path Hf;
    cbn [find_path_rec]; try done; try lia.
  destruct (hd0 path =? 0); [done|].
  destruct ((hd0 path =? SLASH) && (hd0 (tail path) =? 0)); [done|].
  destruct (if hd0 path =? SLASH then _ else _) as [r0 p]. destruct (r0 =? 0); [done|].
  destruct (take_component 127 p) as [comp rest].
  destruct (vfs_finddir _ _ _) as [next w']. destruct (next =? 0); [done|].
  destruct (hd0 rest =? SLASH); [|done]. apply IH. lia.
Qed.

(** [vfs_find_path] does not depend on the fuel it is given. *)
Lemma find_path_fuel fuel v w root path :
  (length path < fuel)%nat → find_path_rec fuel v w root path = Some (vfs_find_path v w root path).
Proof.
  intros Hf. unfold vfs_find_path.
  destruct (find_path_total (S (length path)) v w root path) as [r Hr]; [lia|].
  rewrite Hr. by apply (find_path_mono _ fuel) in Hr; [|lia].
Qed.

(** One step of the walk on a relative path. *)
Lemma find_path_step v w root c rest :
  name_ok c → (rest = [] ∨ hd0 rest = 0 ∨ hd0 rest = SLASH) → root ≠ 0 →
  vfs_find_path v w root (c ++ rest) =
  let '(next, w) := vfs_finddir w (vfs_check_mount w root) (c ++ [0]) in
  if next =? 0 then (0, w)
  else if hd0 rest =? SLASH then vfs_find_path v w next (tail rest)
  else (vfs_check_mount w next, w).
Proof.
  intros (Hne & Hlen & Hc) Hr Hroot. unfold vfs_find_path at 1. cbn [find_path_rec].
  destruct c as [|x c]; [done|]. pose proof Hc as [[Hx0 Hxs] _]%Forall_cons.
  assert (hd0 ((x :: c) ++ rest) = x) as -> by done.
  rewrite (proj2 (Z.eqb_neq x 0)), (proj2 (Z.eqb_neq x SLASH)) by done. cbn [andb].
  rewrite (proj2 (Z.eqb_neq root 0)) by done. rewrite (take_component_name 127) by done.
  destruct (vfs_finddir w (vfs_check_mount w root) ((x :: c) ++ [0])) as [next w'].
  destruct (next =? 0); [done|]. destruct (hd0 rest =? SLASH); [|done].
  rewrite find_path_fuel; [done|]. rewrite length_app. simpl. destruct rest; simpl; lia.
Qed.

Lemma find_path_slash v w root path :
  hd0 path ≠ 0 → hd0 path ≠ SLASH → vfs_root v ≠ 0 →
  vfs_find_path v w root (SLASH :: path) = vfs_find_path v w (vfs_root v) path.
Proof.
  intros H0 Hs Hr. unfold vfs_find_path. cbn [find_path_rec tail].
  assert (hd0 (SLASH :: path) = SLASH) as -> by done. cbn [Z.eqb]. 
  rewrite (proj2 (Z.eqb_neq _ 0) H0). change (SLASH =? 0) with false.
  rewrite Z.eqb_refl. cbn [andb]. rewrite (proj2 (Z.eqb_neq _ SLASH) Hs). cbn [andb].
  rewrite (proj2 (Z.eqb_neq _ 0) Hr).
  destruct (take_component 127 path) as [comp rest] eqn:E.
  destruct (vfs_finddir w (vfs_check_mount w (vfs_root v)) (comp ++ [0])) as [next w'].
  destruct (next =? 0); [done|]. destruct (hd0 rest =? SLASH) eqn:Er; [|done].
  pose proof (take_component_len 127 path) as Hl. rewrite E in Hl. simpl in Hl.
  assert (length (tail rest) < length path)%nat.
  { destruct rest; [by vm_compute in Er|]. simpl in *. lia. }
  by rewrite !find_path_fuel by (simpl; lia).
Qed.

Lemma find_path_names v w root comps tl :
  comps ≠ [] → Forall name_ok comps → (tl = [] ∨ hd0 tl = 0) → root ≠ 0 →
  vfs_find_path v w root (join comps ++ tl) = walk w root comps.
Proof.
  intros Hne Hok Htl Hroot. revert Hne root w Hroot.
  induction Hok as [|c comps Hc Hok IH]; [done|]. intros _ r w' Hr.
  cbn [walk]. rewrite (proj2 (Z.eqb_neq r 0)) by done. destruct comps as [|c' comps].
  - cbn [join]. rewrite find_path_step by (done || naive_solver).
    destruct (vfs_finddir _ _ _) as [next w'']. destruct (next =? 0); [done|].
    assert (hd0 tl =? SLASH = false) as -> by (destruct Htl as [-> | ->]; done). done.
  - change (join (c :: c' :: comps)) with (c ++ SLASH :: join (c' :: comps)).
    rewrite <-app_assoc. rewrite find_path_step by (done || (right; by right)).
    destruct (vfs_finddir _ _ _) as [next w'']. destruct (Z.eqb_spec next 0); [done|].
    cbn [tail app]. assert (hd0 (SLASH :: join (c' :: comps) ++ tl) =? SLASH = true) as -> by done.
    by apply IH.
Qed.

Lemma find_path_absolute v w root comps tl :
  comps ≠ [] → Forall name_ok comps → (tl = [] ∨ hd0 tl = 0) → vfs_root v ≠ 0 →
  vfs_find_path v w root (SLASH :: join comps ++ tl) = walk w (vfs_root v) comps.
Proof.
  intros Hne Hok Htl Hvr. rewrite <-(find_path_names v w _ comps tl) by done.
  destruct comps as [|c comps]; [done|].
  apply Forall_cons in Hok as [(Hc & _ & Hch) _]. destruct c as [|x c]; [done|].
  apply Forall_cons in Hch as [[??] _].
  assert (hd0 (join ((x :: c) :: comps) ++ tl) = x) as Hhd by (by destruct comps).
  apply find_path_slash; by rewrite ?Hhd.
Qed.

(** On a path of proper names [vfs_find_path] looks the components up one after the
    other, crossing mount points at every step, and stops with NULL at the first one that
    is missing; a leading slash starts at the root of the file system, and "/" is the root
    itself. *)
Theorem vfs_find_path_walk v w root comps tl :
  comps ≠ [] → Forall name_ok comps → (tl = [] ∨ hd0 tl = 0) → root ≠ 0 → vfs_root v ≠ 0 →
  vfs_find_path v w root (join comps ++ tl) = walk w root comps ∧
  vfs_find_path v w root (SLASH :: join comps ++ tl) = walk w (vfs_root v) comps ∧
  vfs_find_path v w root (SLASH :: tl) = walk w (vfs_root v) [].
Proof.
  intros ?? Htl ??. split_and!; [by apply find_path_names|by apply find_path_absolute|].
  unfold vfs_find_path. cbn [find_path_rec tail].
  assert (hd0 (SLASH :: tl) = SLASH) as -> by done. change (SLASH =? 0) with false.
  assert (hd0 tl =? 0 = true) as -> by (destruct Htl as [-> | ->]; done). done.
Qed.

(** A doubled separator does not stand for one: after [a//b] the walk starts again at
    the root of the file system, so [b] is looked up there and not in [a]. *)
Theorem double_slash_restarts v w root c rest next w' :
  name_ok c → root ≠ 0 → vfs_finddir w (vfs_check_mount w root) (c ++ [0]) = (next, w') →
  next ≠ 0 →
  vfs_find_path v w root (c ++ SLASH :: SLASH :: rest) = vfs_find_path v w' next (SLASH :: rest) ∧
  ∀ node, vfs_find_path v w' next (SLASH :: rest) = vfs_find_path v w' node (SLASH :: rest).
Proof.
  intros Hc Hr Hf Hn. rewrite find_path_step by (done || (right; by right)).
  rewrite Hf, (proj2 (Z.eqb_neq next 0)) by done. split; [done|].
  intros node. unfold vfs_find_path. cbn [find_path_rec tail].
  assert (hd0 (SLASH :: rest) = SLASH) as -> by done. change (SLASH =? 0) with false.
  rewrite Z.eqb_refl. done.
Qed.

Lemma splice_head (l : list Z) d : (splice l 0 d).[0] = if decide (d = []) then l.[0] else d.[0].
Proof. unfold splice. simpl. destruct d; simpl; [by destruct l|done]. Qed.

(** [vfs_mount] takes the first unused slot of the mount table and fails exactly when
    all eight are used; the other slots are kept. *)
Theorem vfs_mount_table v w path root_node :
  alen (vfs_mounts v) = MAX_MOUNTS → hd0 path ≠ 0 →
  Forall (λ m, alen (mpath m) = 128) (vfs_mounts v) →
  let '(ok, v', _) := vfs_mount v w path root_node in
  if bool_decide (Forall (λ m, (mpath m).[0] ≠ 0) (vfs_mounts v)) then
    ok = false ∧ v' = v
  else
    ok = true ∧ vfs_root v' = vfs_root v ∧
    ∃ i, 0 <= i < MAX_MOUNTS ∧ (mpath ((vfs_mounts v).[i])).[0] = 0 ∧
      (mpath ((vfs_mounts v').[i])).[0] = hd0 path ∧ mroot ((vfs_mounts v').[i]) = root_node ∧
      ∀ j, 0 <= j < MAX_MOUNTS → j ≠ i →
        ((vfs_mounts v').[j]) = ((vfs_mounts v).[j]) ∧ (j < i → (mpath ((vfs_mounts v).[j])).[0] ≠ 0).
Proof.
  unfold MAX_MOUNTS. intros Hlen Hp Hpl. unfold vfs_mount, MAX_MOUNTS.
  destruct (zfind _ 0 (Z.to_nat 8)) as [i|] eqn:E.
  - apply zfind_Some in E as (Hi & Hz%Z.eqb_eq & Hlt).
    destruct (vfs_find_path _ _ _ _) as [target w']. rewrite bool_decide_false.
    2:{ rewrite Forall_forall. intros Hall. apply (Hall ((vfs_mounts v).[i])); [|done].
        apply aget_elem. lia. }
    split_and!; [done|done|]. exists i. cbn [vfs_mounts].
    rewrite aget_aset_eq by lia. cbn [mpath mroot].
    assert (alen (mpath ((vfs_mounts v).[i])) = 128) as Hm.
    { apply (Forall_aget (λ m, alen (mpath m) = 128)); [lia|done]. }
    split_and!; try done; try lia.
    + destruct path as [|x path]; [done|]. unfold hd0 in *. rewrite aget_cons_0 in *.
      rewrite kstrncpy_pads, splice_head by lia. cbn [cstr].
      rewrite (proj2 (Z.eqb_neq x 0)) by done. done.
    + intros j Hj Hji. rewrite aget_aset_ne by lia. split; [done|]. intros Hji'.
      apply Z.eqb_neq, Hlt. lia.
  - rewrite zfind_None in E. rewrite bool_decide_true; [done|].
    rewrite Forall_forall. intros m (j & Hj & <-)%elem_aget. apply Z.eqb_neq, E. lia.
Qed.
End vfs.

(** ** A small world for concrete runs: "/a" holds "b". *)

Definition toy_dir : vfs_node :=
  mk_node (replicate 128 0) 0 0 0 2 0 0 0 None None None None None (Some FS_FAT32) None None None 0 0.

Definition toy_world : VfsWorld (gmap Z vfs_node) := {|
  node_at w p := default toy_dir (w !! p);
  put_node w p n := <[p := n]> w;
  call_read _ w _ _ _ b := (0, b, w);
  call_write _ w _ _ _ _ := (0, w);
  call_open _ w _ := w;
  call_close _ w _ := w;
  call_readdir _ w _ _ := (0, w);
  call_finddir _ w node name :=
    (if bool_decide (node = 1 ∧ name = [97; 0]) then 2
     else if bool_decide (node = 2 ∧ name = [98; 0]) then 3 else 0, w);
  call_create _ w _ _ := (0, w);
  call_unlink _ w _ _ := (false, w);
  call_mkdir _ w _ _ := (0, w) |}.

Definition toy_vfs : vfs := mk_vfs 1 (replicate 8 (mk_mount (replicate 128 0) 0)).

Lemma toy_name x : x ≠ 0 → x ≠ SLASH → name_ok [x].
Proof. intros. split; [done|]. split; [simpl; lia|]. by repeat constructor. Qed.

Lemma vfs_find_path_walk_witness :
  vfs_find_path (H := toy_world) toy_vfs ∅ 7 [47; 97; 47; 98; 0] = (3, ∅).
Proof.
  destruct (vfs_find_path_walk (H := toy_world) toy_vfs ∅ 7 [[97]; [98]] [0]) as (_ & Hp & _);
    [done| |by right|done|done|].
  - repeat (constructor; [by apply toy_name|]). constructor.
  - etransitivity; [exact Hp|]. by vm_compute.
Defined.

Lemma double_slash_restarts_witness :
  vfs_find_path (H := toy_world) toy_vfs ∅ 1 [97; 47; 98; 0] = (3, ∅) ∧
  vfs_find_path (H := toy_world) toy_vfs ∅ 1 [97; 47; 47; 98; 0] = (0, ∅).
Proof.
  split; [by vm_compute|].
  destruct (double_slash_restarts (H := toy_world) toy_vfs ∅ 1 [97] [98; 0] 2 ∅) as [Hp _].
  - by apply toy_name.
  - done.
  - by vm_compute.
  - done.
  - etransitivity; [exact Hp|]. by vm_compute.
Defined.

Lemma vfs_mount_table_witness :
  (vfs_mount (H := toy_world) toy_vfs ∅ [47; 97; 0] 9).1.1 = true.
Proof.
  pose proof (vfs_mount_table (H := toy_world) toy_vfs ∅ [47; 97; 0] 9 eq_refl ltac:(done)) as Hm.
  destruct (vfs_mount _ _ _ _) as [[ok v'] w'].
  rewrite bool_decide_false in Hm.
  - by destruct Hm as [-> _]; [repeat constructor|].
  - intros Hall. apply Forall_cons in Hall as [Hh _]. by vm_compute in Hh.
Defined.
