(* ===== verification/Fat32.v ===== *)
(** * fs/fat32 and fs/devfs: the file systems behind the VFS

    The disk is used through the [BlockDev] interface (the AHCI and ATA drivers), the heap
    through [HeapAlloc]; [BlockDevLaws] states what a working drive does.  Directory
    clusters and FAT sectors are byte buffers, decoded at the offsets of the packed
    structures of fat32.h.  The functions are translated whole, their allocation failures
    and I/O errors included; where the source ignores a failed read, the buffer keeps the
    bytes [fresh] found in the block. *)

From S2P Require Import Prelude KString Pmm Vmm Kheap Vfs Block.

(** ** Packed structures *)

(** The fields of [struct fat32_bpb] the driver uses. *)
Record fat32_bpb := mk_bpb {
  sectors_per_cluster : Z; reserved_sectors : Z; fat_count : Z; fat_size_long : Z;
  root_cluster : Z }.

Definition bpb_of_bytes (b : list Z) : fat32_bpb :=
  mk_bpb (b.[13]) (get_le 2 b 14) (b.[16]) (get_le 4 b 36) (get_le 4 b 44).

Definition boot_signature (b : list Z) : Z := b.[66].

(** [struct fat32_dir_entry], entry [i] of a directory buffer. *)
Definition DIRENT_SIZE : Z := 32.
Definition e_name (b : list Z) (i : Z) : list Z := sub b (32 * i) 11.
Definition e_name0 (b : list Z) (i : Z) : Z := b.[32 * i].
Definition e_attr (b : list Z) (i : Z) : Z := b.[32 * i + 11].
Definition e_size (b : list Z) (i : Z) : Z := get_le 4 b (32 * i + 28).
Definition e_cluster (b : list Z) (i : Z) : Z :=
  Z.lor (get_le 2 b (32 * i + 26)) (Z.shiftl (get_le 2 b (32 * i + 20)) 16).

(** The driver's globals. *)
Record fat32 := mk_fat32 {
  bpb : fat32_bpb; fat32_ready : bool; first_data_sector : Z; sectors_per_fat : Z;
  fat32_drive : Z; fat32_ahci_port : Z }.

(** The world of the file systems. *)
Record fsw (H D : Type) := mk_fsw {
  fs_heap : H; fs_disk : D; fs_nodes : gmap Z vfs_node; fat : fat32;
  devfs_root : Z; devices : list Z; num_devices : Z }.
Arguments mk_fsw {H D}.
Arguments fs_heap {H D}.
Arguments fs_disk {H D}.
Arguments fs_nodes {H D}.
Arguments fat {H D}.
Arguments devfs_root {H D}.
Arguments devices {H D}.
Arguments num_devices {H D}.

(** ** Names *)

Definition SPACE : Z := 32.
Definition DOT : Z := 46.
Definition upcase (c : Z) : Z := if (97 <=? c) && (c <=? 122) then c - 32 else c.

(** [while (src[i] != '.' && src[i] != 0 && j < 8) dest[j++] = upcase (src[i++])] *)
Fixpoint fmt_base (n : nat) (src : list Z) : list Z * list Z :=
  match n, src with
  | S n', c :: src' =>
      if (c =? DOT) || (c =? 0) then ([], src)
      else let '(d, r) := fmt_base n' src' in (upcase c :: d, r)
  | _, _ => ([], src)
  end.

Fixpoint fmt_skip (src : list Z) : list Z :=
  match src with
  | c :: src' => if (c =? DOT) || (c =? 0) then src else fmt_skip src'
  | [] => []
  end.

Fixpoint fmt_ext (n : nat) (src : list Z) : list Z :=
  match n, src with
  | S n', c :: src' => if c =? 0 then [] else upcase c :: fmt_ext n' src'
  | _, _ => []
  end.

(** The 11 bytes of a directory name: base and extension, padded with spaces. *)
Definition format_fat_name (src : list Z) : list Z :=
  let '(base, rest) := fmt_base 8 src in
  let rest := fmt_skip rest in
  let dest := splice (replicate 11 SPACE) 0 base in
  if hd0 rest =? DOT then splice dest 8 (fmt_ext 3 (tail rest)) else dest.

(** The printable name [fat32_vfs_readdir] makes of a directory name. *)
Fixpoint until_space (l : list Z) : list Z :=
  match l with
  | c :: l' => if c =? SPACE then [] else c :: until_space l'
  | [] => []
  end.

Definition show_fat_name (n : list Z) : list Z :=
  until_space (sub n 0 8) ++
  (if n.[8] =? SPACE then [] else DOT :: until_space (sub n 8 3)) ++ [0].

Definition fat32_compare_name (fat_name input_name : list Z) : bool :=
  memcmp fat_name (format_fat_name input_name) 11 =? 0.

Section fat32.
Context {H D : Type} `{HeapAlloc H} `{BlockDev D}.
(** The bytes found in a block of [n] bytes that was just allocated. *)
Variable fresh : H → Z → Z → list Z.
Implicit Types (w : fsw H D) (node : Z).

Definition w_heap_fs (v : H) w : fsw H D :=
  mk_fsw v (fs_disk w) (fs_nodes w) (fat w) (devfs_root w) (devices w) (num_devices w).
Definition w_disk (v : D) w : fsw H D :=
  mk_fsw (fs_heap w) v (fs_nodes w) (fat w) (devfs_root w) (devices w) (num_devices w).
Definition w_nodes (v : gmap Z vfs_node) w : fsw H D :=
  mk_fsw (fs_heap w) (fs_disk w) v (fat w) (devfs_root w) (devices w) (num_devices w).
Definition w_fat (v : fat32) w : fsw H D :=
  mk_fsw (fs_heap w) (fs_disk w) (fs_nodes w) v (devfs_root w) (devices w) (num_devices w).

Definition node_fs w node : vfs_node := default zero_node (fs_nodes w !! node).
Definition put_node_fs w node (n : vfs_node) : fsw H D := w_nodes (<[node := n]> (fs_nodes w)) w.

Definition kmalloc_fs w (n : Z) : Z * fsw H D :=
  let r := halloc (fs_heap w) n in (r.1, w_heap_fs r.2 w).
Definition kfree_fs w (p : Z) : fsw H D := w_heap_fs (hfree (fs_heap w) p) w.

(** ** Sectors *)

Definition disk_read_sectors w (lba count : Z) : option (list Z) :=
  if nz (fat32_ahci_port (fat w)) then
    blk_ahci_read (fs_disk w) (fat32_ahci_port (fat w)) lba count
  else blk_ata_read (fs_disk w) (fat32_drive (fat w)) lba (u8 count).

Definition disk_write_sectors w (lba count : Z) (buffer : list Z) : bool * fsw H D :=
  let r := if nz (fat32_ahci_port (fat w)) then
             blk_ahci_write (fs_disk w) (fat32_ahci_port (fat w)) lba count buffer
           else blk_ata_write (fs_disk w) (fat32_drive (fat w)) lba (u8 count) buffer in
  (r.1, w_disk r.2 w).

(** Read into a buffer: whether it worked, and the buffer's bytes afterwards. *)
Definition read_into w (lba count : Z) (buffer : list Z) : bool * list Z :=
  match disk_read_sectors w lba count with
  | Some bs => (true, splice buffer 0 bs)
  | None => (false, buffer)
  end.

(** ** Probing *)

Definition fat32_probe w (drive : Z) : bool * fsw H D :=
  let '(buffer, w) := kmalloc_fs w 512 in
  if buffer =? 0 then (false, w)
  else
    let '(ok, b) := read_into w 0 1 (fresh (fs_heap w) buffer 512) in
    if negb ok then (false, kfree_fs w buffer)
    else if negb (boot_signature b =? 0x29) && negb (boot_signature b =? 0x28) then
      (false, kfree_fs w buffer)
    else
      let nb := bpb_of_bytes b in
      let fds := u32 (reserved_sectors nb + fat_count nb * fat_size_long nb) in
      let f := mk_fat32 nb (fat32_ready (fat w)) fds (fat_size_long nb) drive
                 (fat32_ahci_port (fat w)) in
      (true, kfree_fs (w_fat f w) buffer).

Definition set_ready (b : bool) w : fsw H D :=
  let f := fat w in
  w_fat (mk_fat32 (bpb f) b (first_data_sector f) (sectors_per_fat f) (fat32_drive f)
           (fat32_ahci_port f)) w.

Definition fat32_init w : bool * fsw H D :=
  let w := set_ready false w in
  let f := fat w in
  let w := w_fat (mk_fat32 (bpb f) (fat32_ready f) (first_data_sector f) (sectors_per_fat f)
                    (fat32_drive f) (blk_ahci_drive (fs_disk w))) w in
  let '(ok, w) := if nz (fat32_ahci_port (fat w)) then fat32_probe w 0 else (false, w) in
  if ok then (true, set_ready true w)
  else
    let '(ok, w) := fat32_probe w ATA_MASTER in
    if ok then (true, set_ready true w)
    else
      let '(ok, w) := fat32_probe w ATA_SLAVE in
      if ok then (true, set_ready true w) else (false, w).

(** ** The allocation table *)

Definition cluster_to_lba w (cluster : Z) : Z :=
  u32 (first_data_sector (fat w) + u32 (cluster - 2) * sectors_per_cluster (bpb (fat w))).

Definition EOC : Z := 0x0FFFFFFF.
Definition FAT_MASK : Z := 0x0FFFFFFF.

Definition fat32_get_fat_entry w (cluster : Z) : Z * fsw H D :=
  let fat_sector := u32 (reserved_sectors (bpb (fat w)) + u32 (cluster * 4) / 512) in
  let fat_offset := u32 (cluster * 4) mod 512 in
  let '(buffer, w) := kmalloc_fs w 512 in
  if buffer =? 0 then (EOC, w)
  else
    let '(ok, b) := read_into w fat_sector 1 (fresh (fs_heap w) buffer 512) in
    if negb ok then (EOC, kfree_fs w buffer)
    else (Z.land (get_le 4 b fat_offset) FAT_MASK, kfree_fs w buffer).

(** The loop over the copies of the table, [i] of them left; the buffer is reused. *)
Fixpoint set_fat_loop (n : nat) (i : Z) w (sec off value : Z) (b : list Z) : bool * fsw H D :=
  match n with
  | O => (true, w)
  | S n' =>
      let fat_sector := u32 (reserved_sectors (bpb (fat w)) + i * sectors_per_fat (fat w) + sec) in
      let '(ok, b) := read_into w fat_sector 1 b in
      if negb ok then (false, w)
      else
        let b := put_le 4 b off (Z.land value FAT_MASK) in
        let '(ok, w) := disk_write_sectors w fat_sector 1 b in
        if negb ok then (false, w)
        else set_fat_loop n' (i + 1) w sec off value b
  end.

Definition fat32_set_fat_entry w (cluster value : Z) : bool * fsw H D :=
  let fat_sector_offset := u32 (cluster * 4) / 512 in
  let fat_offset := u32 (cluster * 4) mod 512 in
  let '(buffer, w) := kmalloc_fs w 512 in
  if buffer =? 0 then (false, w)
  else
    let '(ok, w) := set_fat_loop (Z.to_nat (fat_count (bpb (fat w)))) 0 w fat_sector_offset
                      fat_offset value (fresh (fs_heap w) buffer 512) in
    (ok, kfree_fs w buffer).

Fixpoint allocate_loop (n : nat) (i : Z) w : Z * fsw H D :=
  match n with
  | O => (EOC, w)
  | S n' =>
      let '(e, w) := fat32_get_fat_entry w i in
      if e =? 0 then
        let '(_, w) := fat32_set_fat_entry w i EOC in (i, w)
      else allocate_loop n' (i + 1) w
  end.

Definition fat32_allocate_cluster w : Z * fsw H D :=
  let total_clusters := u32 (fat_size_long (bpb (fat w)) * 512) / 4 in
  allocate_loop (Z.to_nat (total_clusters - 2)) 2 w.

(** ** Directory entries *)

Definition cluster_bytes w : Z := 512 * sectors_per_cluster (bpb (fat w)).
Definition slots w : nat := Z.to_nat (16 * sectors_per_cluster (bpb (fat w))).

Definition fill_entry (b : list Z) (slot : Z) (name : list Z) (attr start_cluster size : Z) : list Z :=
  let b := memset b (32 * slot) 0 32 in
  let b := splice b (32 * slot) (format_fat_name name) in
  let b := b.[32 * slot + 11 <- attr] in
  let b := put_le 2 b (32 * slot + 26) (Z.land start_cluster 0xFFFF) in
  let b := put_le 2 b (32 * slot + 20) (Z.land (Z.shiftr start_cluster 16) 0xFFFF) in
  put_le 4 b (32 * slot + 28) size.

Definition fat32_create_entry w (parent : Z) (name : list Z) (attr start_cluster size : Z) :
    bool * fsw H D :=
  let lba := cluster_to_lba w (impl (node_fs w parent)) in
  let '(buffer, w) := kmalloc_fs w (cluster_bytes w) in
  if buffer =? 0 then (false, w)
  else
    let '(ok, b) := read_into w lba (sectors_per_cluster (bpb (fat w)))
                      (fresh (fs_heap w) buffer (cluster_bytes w)) in
    if negb ok then (false, kfree_fs w buffer)
    else
      match zfind (λ i, (e_name0 b i =? 0) || (e_name0 b i =? 0xE5)) 0 (slots w) with
      | None => (false, kfree_fs w buffer)
      | Some slot =>
          let b := fill_entry b slot name attr start_cluster size in
          let '(ok, w) := disk_write_sectors w lba (sectors_per_cluster (bpb (fat w))) b in
          (ok, kfree_fs w buffer)
      end.

Definition fat32_update_entry_size w (dir_cluster file_cluster new_size : Z) : fsw H D :=
  let lba := cluster_to_lba w dir_cluster in
  let '(buffer, w) := kmalloc_fs w (cluster_bytes w) in
  if buffer =? 0 then w
  else
    let '(ok, b) := read_into w lba (sectors_per_cluster (bpb (fat w)))
                      (fresh (fs_heap w) buffer (cluster_bytes w)) in
    let w :=
      if ok then
        match zfind (λ i, (e_cluster b i =? file_cluster) && negb (e_name0 b i =? 0) &&
                          negb (e_name0 b i =? 0xE5)) 0 (slots w) with
        | Some i =>
            (disk_write_sectors w lba (sectors_per_cluster (bpb (fat w)))
               (put_le 4 b (32 * i + 28) new_size)).2
        | None => w
        end
      else w in
    kfree_fs w buffer.

(** The result: the address of the data (0 for NULL), the size stored through the pointer
    when the file was found, and the bytes at that address. *)
Definition fat32_read_file w (filename : list Z) : Z * option Z * list Z * fsw H D :=
  if negb (fat32_ready (fat w)) then (0, None, [], w)
  else
    let root_lba := cluster_to_lba w (root_cluster (bpb (fat w))) in
    let '(buffer, w) := kmalloc_fs w (cluster_bytes w) in
    if buffer =? 0 then (0, None, [], w)
    else
      let '(_, b) := read_into w root_lba (sectors_per_cluster (bpb (fat w)))
                       (fresh (fs_heap w) buffer (cluster_bytes w)) in
      match zfind (λ i, (e_name0 b i =? 0) || fat32_compare_name (e_name b i) filename) 0 16 with
      | Some i =>
          if e_name0 b i =? 0 then (0, None, [], kfree_fs w buffer)
          else
            let size := e_size b i in
            let lba := cluster_to_lba w (e_cluster b i) in
            let sectors_to_read := u32 (size + 511) / 512 in
            let '(file_data, w) := kmalloc_fs w (u32 (sectors_to_read * 512)) in
            let bytes := fresh (fs_heap w) file_data (u32 (sectors_to_read * 512)) in
            let bytes := if nz file_data then (read_into w lba sectors_to_read bytes).2 else [] in
            (file_data, Some size, bytes, kfree_fs w buffer)
      | None => (0, None, [], kfree_fs w buffer)
      end.

(** ** The VFS adapter *)

Definition name_field (name : list Z) : list Z := kstrncpy (replicate 128 0) 0 name 127.

(** The node the adapter fills for a file or directory of the disk. *)
Definition fat_node (name : list Z) (mask flags inode length impl : Z) : vfs_node :=
  mk_node (name_field name) mask 0 0 flags inode length impl
    (Some FS_FAT32) (Some FS_FAT32) None None (Some FS_FAT32) (Some FS_FAT32) (Some FS_FAT32)
    (Some FS_FAT32) (Some FS_FAT32) 0 0.

Definition sizeof_node : Z := 200.

(** [kmalloc (sizeof (vfs_node_t))] and the initialisation that follows, unchecked. *)
Definition new_node w (n : vfs_node) : Z * fsw H D :=
  let '(res, w) := kmalloc_fs w sizeof_node in (res, put_node_fs w res n).

Definition entry_node (b : list Z) (i : Z) (name : list Z) (parent_impl : Z) : vfs_node :=
  let fl := if nz (Z.land (e_attr b i) 0x10) then VFS_DIRECTORY else VFS_FILE in
  fat_node name (if fl =? VFS_DIRECTORY then 0x1FF else 0x1B6) fl parent_impl (e_size b i)
    (e_cluster b i).

Definition fat32_vfs_create w (parent : Z) (name : list Z) : Z * fsw H D :=
  if negb (fat32_ready (fat w)) then (0, w)
  else
    let '(cluster, w) := fat32_allocate_cluster w in
    if cluster =? EOC then (0, w)
    else
      let '(ok, w) := fat32_create_entry w parent name 0x20 cluster 0 in
      if negb ok then
        let '(_, w) := fat32_set_fat_entry w cluster 0 in (0, w)
      else new_node w (fat_node name 0x1B6 VFS_FILE (impl (node_fs w parent)) 0 cluster).

(** [skip_clusters] links of the chain. *)
Fixpoint skip_loop (n : nat) w (cur : Z) : option Z * fsw H D :=
  match n with
  | O => (Some cur, w)
  | S n' =>
      let '(cur, w) := fat32_get_fat_entry w cur in
      if 0x0FFFFFF8 <=? cur then (None, w) else skip_loop n' w cur
  end.

(** The copy loop: the bytes read so far are [acc]; [temp] is the reused buffer.  Every
    round with a non-empty cluster copies at least one byte. *)
Fixpoint read_loop (fuel : nat) w (cur off real_size : Z) (acc temp : list Z) :
    option (list Z * fsw H D) :=
  if (alen acc <? real_size) && (2 <=? cur) && (cur <? 0x0FFFFFF8) then
    match fuel with
    | O => None
    | S fuel' =>
        let cs := cluster_bytes w in
        let temp := (read_into w (cluster_to_lba w cur) (sectors_per_cluster (bpb (fat w))) temp).2 in
        let to_copy := Z.min (cs - off) (real_size - alen acc) in
        let acc := acc ++ sub temp off to_copy in
        let '(cur, w) := if alen acc <? real_size then fat32_get_fat_entry w cur else (cur, w) in
        read_loop fuel' w cur 0 real_size acc temp
    end
  else Some (acc, w).

Definition fat32_vfs_read (fuel : nat) w node (offset size : Z) (buffer : list Z) :
    option (Z * list Z * fsw H D) :=
  let n := node_fs w node in
  if negb (fat32_ready (fat w)) || (nlength n =? 0) || (size =? 0) then Some (0, buffer, w)
  else if nlength n <=? offset then Some (0, buffer, w)
  else
    let real_size := if nlength n <? u32 (offset + size) then nlength n - offset else size in
    let cs := cluster_bytes w in
    let '(cur, w) := skip_loop (Z.to_nat (offset / cs)) w (impl n) in
    match cur with
    | None => Some (0, buffer, w)
    | Some cur =>
        let '(tb, w) := kmalloc_fs w cs in
        if tb =? 0 then Some (0, buffer, w)
        else
          match read_loop fuel w cur (offset mod cs) real_size [] (fresh (fs_heap w) tb cs) with
          | Some (bytes, w) => Some (alen bytes, splice buffer 0 bytes, kfree_fs w tb)
          | None => None
          end
    end.

(** The next cluster of the chain, allocated and linked at its end. *)
Definition next_or_alloc w (cur : Z) : option Z * fsw H D :=
  let '(next, w) := fat32_get_fat_entry w cur in
  if 0x0FFFFFF8 <=? next then
    let '(next, w) := fat32_allocate_cluster w in
    if next =? EOC then (None, w)
    else let '(_, w) := fat32_set_fat_entry w cur next in (Some next, w)
  else (Some next, w).

Fixpoint seek_loop (n : nat) w (cur : Z) : option Z * fsw H D :=
  match n with
  | O => (Some cur, w)
  | S n' =>
      let '(next, w) := next_or_alloc w cur in
      match next with None => (None, w) | Some cur => seek_loop n' w cur end
  end.

Fixpoint write_loop (fuel : nat) w (cur off size : Z) (buffer temp : list Z) (written : Z) :
    option (Z * fsw H D) :=
  if written <? size then
    match fuel with
    | O => None
    | S fuel' =>
        let cs := cluster_bytes w in
        let spc := sectors_per_cluster (bpb (fat w)) in
        let lba := cluster_to_lba w cur in
        let to_write := Z.min (cs - off) (size - written) in
        let temp := if to_write <? cs then (read_into w lba spc temp).2 else temp in
        let temp := splice temp off (sub buffer written to_write) in
        let '(_, w) := disk_write_sectors w lba spc temp in
        let written := written + to_write in
        if written <? size then
          let '(next, w) := next_or_alloc w cur in
          match next with
          | None => Some (written, w)
          | Some cur => write_loop fuel' w cur 0 size buffer temp written
          end
        else write_loop fuel' w cur 0 size buffer temp written
    end
  else Some (written, w).

Definition w_impl (v : Z) (n : vfs_node) : vfs_node :=
  mk_node (nname n) (mask n) (uid n) (gid n) (flags n) (inode n) (nlength n) v
    (f_read n) (f_write n) (f_open n) (f_close n) (f_readdir n) (f_finddir n) (f_create n)
    (f_unlink n) (f_mkdir n) (nptr n) (device_data n).
Definition w_nlength (v : Z) (n : vfs_node) : vfs_node :=
  mk_node (nname n) (mask n) (uid n) (gid n) (flags n) (inode n) v (impl n)
    (f_read n) (f_write n) (f_open n) (f_close n) (f_readdir n) (f_finddir n) (f_create n)
    (f_unlink n) (f_mkdir n) (nptr n) (device_data n).

Definition fat32_vfs_write (fuel : nat) w node (offset size : Z) (buffer : list Z) :
    option (Z * fsw H D) :=
  if negb (fat32_ready (fat w)) || (size =? 0) then Some (0, w)
  else
    let cs := cluster_bytes w in
    let '(cur, w) :=
      if impl (node_fs w node) =? 0 then
        let '(c, w) := fat32_allocate_cluster w in
        if c =? EOC then (None, w)
        else (Some c, put_node_fs w node (w_impl c (node_fs w node)))
      else (Some (impl (node_fs w node)), w) in
    match cur with
    | None => Some (0, w)
    | Some cur =>
        let '(cur, w) := seek_loop (Z.to_nat (offset / cs)) w cur in
        match cur with
        | None => Some (0, w)
        | Some cur =>
            let '(tb, w) := kmalloc_fs w cs in
            if tb =? 0 then Some (0, w)
            else
              match write_loop fuel w cur (offset mod cs) size buffer (fresh (fs_heap w) tb cs) 0 with
              | None => None
              | Some (written, w) =>
                  let w := kfree_fs w tb in
                  let n := node_fs w node in
                  if nlength n <? u32 (offset + written) then
                    let w := put_node_fs w node (w_nlength (u32 (offset + written)) n) in
                    Some (written,
                          fat32_update_entry_size w (inode n) (impl n) (u32 (offset + written)))
                  else Some (written, w)
              end
        end
    end.

(** An entry [fat32_vfs_readdir] skips. *)
Definition hidden_entry (b : list Z) (i : Z) : bool :=
  (e_name0 b i =? 0xE5) || nz (Z.land (e_attr b i) 0x08) || nz (Z.land (e_attr b i) 0x0F).

(** The lines of [fat32_ls]: the names and the sizes. *)
Fixpoint ls_loop (n : nat) (i : Z) (b : list Z) : list (list Z * Z) :=
  match n with
  | O => []
  | S n' =>
      if e_name0 b i =? 0 then []
      else if hidden_entry b i then ls_loop n' (i + 1) b
      else (e_name b i, e_size b i) :: ls_loop n' (i + 1) b
  end.

(** What [fat32_ls] prints: [None] when the file system is not initialised, and nothing at all
    when there is no memory. *)
Definition fat32_ls w : option (option (list (list Z * Z))) * fsw H D :=
  if negb (fat32_ready (fat w)) then (None, w)
  else
    let root_lba := cluster_to_lba w (root_cluster (bpb (fat w))) in
    let '(buffer, w) := kmalloc_fs w (cluster_bytes w) in
    if buffer =? 0 then (Some None, w)
    else
      let '(_, b) := read_into w root_lba (sectors_per_cluster (bpb (fat w)))
                       (fresh (fs_heap w) buffer (cluster_bytes w)) in
      (Some (Some (ls_loop 16 0 b)), kfree_fs w buffer).

(** The entry with the given index among the visible ones. *)
Fixpoint readdir_loop (n : nat) (i : Z) (b : list Z) (count index : Z) : option Z :=
  match n with
  | O => None
  | S n' =>
      if e_name0 b i =? 0 then None
      else if hidden_entry b i then readdir_loop n' (i + 1) b count index
      else if count =? index then Some i
      else readdir_loop n' (i + 1) b (count + 1) index
  end.

Definition fat32_vfs_readdir w node (index : Z) : Z * fsw H D :=
  if negb (fat32_ready (fat w)) then (0, w)
  else
    let lba := cluster_to_lba w (impl (node_fs w node)) in
    let '(buffer, w) := kmalloc_fs w (cluster_bytes w) in
    if buffer =? 0 then (0, w)
    else
      let '(_, b) := read_into w lba (sectors_per_cluster (bpb (fat w)))
                       (fresh (fs_heap w) buffer (cluster_bytes w)) in
      match readdir_loop (slots w) 0 b 0 index with
      | Some i =>
          let '(res, w) := new_node w (entry_node b i (show_fat_name (e_name b i))
                                         (impl (node_fs w node))) in
          (res, kfree_fs w buffer)
      | None => (0, kfree_fs w buffer)
      end.

Definition fat32_vfs_finddir w node (name : list Z) : Z * fsw H D :=
  if negb (fat32_ready (fat w)) then (0, w)
  else
    let lba := cluster_to_lba w (impl (node_fs w node)) in
    let '(buffer, w) := kmalloc_fs w (cluster_bytes w) in
    if buffer =? 0 then (0, w)
    else
      let '(_, b) := read_into w lba (sectors_per_cluster (bpb (fat w)))
                       (fresh (fs_heap w) buffer (cluster_bytes w)) in
      match zfind (λ i, (e_name0 b i =? 0) || fat32_compare_name (e_name b i) name) 0 (slots w) with
      | Some i =>
          if e_name0 b i =? 0 then (0, kfree_fs w buffer)
          else
            let '(res, w) := new_node w (entry_node b i name (impl (node_fs w node))) in
            (res, kfree_fs w buffer)
      | None => (0, kfree_fs w buffer)
      end.

(** Free the chain from [cur] on. *)
Fixpoint free_chain (fuel : nat) w (cur : Z) : option (fsw H D) :=
  if (2 <=? cur) && (cur <? 0x0FFFFFF8) then
    match fuel with
    | O => None
    | S fuel' =>
        let '(next, w) := fat32_get_fat_entry w cur in
        let '(_, w) := fat32_set_fat_entry w cur 0 in
        free_chain fuel' w next
    end
  else Some w.

Definition fat32_vfs_unlink (fuel : nat) w (parent : Z) (name : list Z) : option (bool * fsw H D) :=
  if negb (fat32_ready (fat w)) || (parent =? 0) then Some (false, w)
  else
    let lba := cluster_to_lba w (impl (node_fs w parent)) in
    let '(buffer, w) := kmalloc_fs w (cluster_bytes w) in
    if buffer =? 0 then Some (false, w)
    else
      let '(ok, b) := read_into w lba (sectors_per_cluster (bpb (fat w)))
                        (fresh (fs_heap w) buffer (cluster_bytes w)) in
      if negb ok then Some (false, kfree_fs w buffer)
      else
        match zfind (λ i, (e_name0 b i =? 0) ||
                          (negb (e_name0 b i =? 0xE5) && fat32_compare_name (e_name b i) name))
                0 (slots w) with
        | Some i =>
            if e_name0 b i =? 0 then Some (false, kfree_fs w buffer)
            else
              let '(ok, w) := disk_write_sectors w lba (sectors_per_cluster (bpb (fat w)))
                                (b.[32 * i <- 0xE5]) in
              if negb ok then Some (false, kfree_fs w buffer)
              else
                match free_chain fuel (kfree_fs w buffer) (e_cluster b i) with
                | Some w => Some (true, w)
                | None => None
                end
        | None => Some (false, kfree_fs w buffer)
        end.

(** The first two entries of a new directory. *)
Definition dot_entry (b : list Z) (i : Z) (name : list Z) (cluster : Z) : list Z :=
  let b := splice b (32 * i) name in
  let b := b.[32 * i + 11 <- 0x10] in
  let b := put_le 2 b (32 * i + 26) (Z.land cluster 0xFFFF) in
  put_le 2 b (32 * i + 20) (Z.land (Z.shiftr cluster 16) 0xFFFF).

Definition fat32_vfs_mkdir w (parent : Z) (name : list Z) : Z * fsw H D :=
  if negb (fat32_ready (fat w)) || (parent =? 0) then (0, w)
  else
    let '(cluster, w) := fat32_allocate_cluster w in
    if cluster =? EOC then (0, w)
    else
      let '(ok, w) := fat32_create_entry w parent name 0x10 cluster 0 in
      if negb ok then
        let '(_, w) := fat32_set_fat_entry w cluster 0 in (0, w)
      else
        let lba := cluster_to_lba w cluster in
        let '(buffer, w) := kmalloc_fs w (cluster_bytes w) in
        if buffer =? 0 then (0, w)
        else
          let b := memset (fresh (fs_heap w) buffer (cluster_bytes w)) 0 0 (cluster_bytes w) in
          let b := dot_entry b 0 (DOT :: replicate 10 SPACE) cluster in
          let b := dot_entry b 1 (DOT :: DOT :: replicate 9 SPACE) (impl (node_fs w parent)) in
          let '(_, w) := disk_write_sectors w lba (sectors_per_cluster (bpb (fat w))) b in
          let w := kfree_fs w buffer in
          new_node w (fat_node name 0x1FF VFS_DIRECTORY (impl (node_fs w parent)) 0 cluster).

(** "fat32_root" *)
Definition root_name : list Z := [102; 97; 116; 51; 50; 95; 114; 111; 111; 116; 0].

Definition fat32_get_root w : Z * fsw H D :=
  new_node w (mk_node (name_field root_name) 0x1FF 0 0 VFS_DIRECTORY 0 0
    (root_cluster (bpb (fat w))) None None None None (Some FS_FAT32) (Some FS_FAT32)
    (Some FS_FAT32) (Some FS_FAT32) (Some FS_FAT32) 0 0).

(** ** devfs *)

Definition MAX_DEVICES : Z := 32.

Definition devfs_readdir w node (index : Z) : Z :=
  if u32 (num_devices w) <=? index then 0 else (devices w).[index].

Definition devfs_finddir w node (name : list Z) : Z :=
  match zfind (λ i, strncmp (nname (node_fs w ((devices w).[i]))) name 127 =? 0) 0
          (Z.to_nat (num_devices w)) with
  | Some i => (devices w).[i]
  | None => 0
  end.

Definition devfs_register_device w (name : list Z) (device_node : Z) : fsw H D :=
  if MAX_DEVICES <=? num_devices w then w
  else
    let n := node_fs w device_node in
    let n := mk_node (kstrncpy (nname n) 0 name 127) (mask n) (uid n) (gid n) (flags n) (inode n)
               (nlength n) (impl n) (f_read n) (f_write n) (f_open n) (f_close n) (f_readdir n)
               (f_finddir n) (f_create n) (f_unlink n) (f_mkdir n) (nptr n) (device_data n) in
    let w := put_node_fs w device_node n in
    mk_fsw (fs_heap w) (fs_disk w) (fs_nodes w) (fat w) (devfs_root w)
      ((devices w).[num_devices w <- device_node]) (num_devices w + 1).

(** [netinfo_read], given the text it prints about the network card. *)
Definition netinfo_read (text : list Z) (offset size : Z) (buffer : list Z) : Z * list Z :=
  if 0 <? offset then (0, buffer)
  else
    let len := if size <? strlen text then size else strlen text in
    (len, memcpy buffer 0 text 0 len).

(** ** The allocation table on a working drive *)

Context `{BL : !BlockDevLaws D sec} `{HT : !HeapTemp H room}.
Hypothesis fresh_len : ∀ h p n, 0 <= n → alen (fresh h p n) = n.

Definition device (f : fat32) : bool * Z :=
  if nz (fat32_ahci_port f) then (true, fat32_ahci_port f) else (false, fat32_drive f).

Definition sector_of w : Z → list Z := sec (fs_disk w) (device (fat w)).

(** [w'] has the same disk, nodes and driver state, and at least the room, of [w]. *)
Record same_fs w w' : Prop := {
  sf_disk : fs_disk w' = fs_disk w;
  sf_fat : fat w' = fat w;
  sf_nodes : fs_nodes w' = fs_nodes w;
  sf_room k : room (fs_heap w) k → room (fs_heap w') k }.

Lemma alen_sectors w lba n : 0 <= n → alen (sectors (sector_of w) lba n) = 512 * n.
Proof.
  intros Hn. unfold sectors. rewrite <-(Z2Nat.id n) at 2 by lia.
  unfold seqZ. generalize (Z.to_nat n). intros k.
  assert (∀ l, alen (concat (map (sector_of w) l)) = 512 * Z.of_nat (length l)) as Hl.
  { induction l as [|x l IH]; simpl; [done|]. rewrite alen_app, IH.
    unfold sector_of. rewrite sec_len. lia. }
  rewrite Hl, length_fmap, length_seq. done.
Qed.

Lemma sectors_1 w lba : sectors (sector_of w) lba 1 = sector_of w lba.
Proof. unfold sectors. simpl. rewrite Z.add_0_l. apply app_nil_r. Qed.

Lemma read_into_ok w lba n b :
  transfer_ok (device (fat w)) lba n → alen b = 512 * n → read_into w lba n b = (true, sectors (sector_of w) lba n).
Proof.
  intros Ht Hb. pose proof (transfer_pos _ _ _ Ht) as [_ Hn]. unfold read_into, disk_read_sectors.
  pose proof (alen_sectors w lba n ltac:(lia)) as Hl. unfold sector_of, device in Ht, Hl |- *.
  destruct (nz (fat32_ahci_port (fat w))).
  - rewrite ahci_reads by done. by rewrite splice_full by lia.
  - rewrite u8_small, ata_reads by (done || lia). by rewrite splice_full by lia.
Qed.

Lemma write_ok w lba n b :
  transfer_ok (device (fat w)) lba n → alen b = 512 * n → bytes_ok b →
  ∃ d', disk_write_sectors w lba n b = (true, w_disk d' w) ∧
    disk_update sec (fs_disk w) d' (device (fat w)) lba n b.
Proof.
  intros Ht Hb Hok. pose proof (transfer_pos _ _ _ Ht) as [_ Hn]. unfold disk_write_sectors, device in *.
  destruct (nz (fat32_ahci_port (fat w))).
  - destruct (ahci_writes (fs_disk w) (fat32_ahci_port (fat w)) lba n b) as (d' & -> & Hd); try done.
    by exists d'.
  - rewrite u8_small by lia.
    destruct (ata_writes (fs_disk w) (fat32_drive (fat w)) lba n b) as (d' & -> & Hd); try done.
    by exists d'.
Qed.

Lemma kmalloc_fs_ok w n :
  room (fs_heap w) n →
  ∃ p w1, kmalloc_fs w n = (p, w1) ∧ p ≠ 0 ∧ fs_disk w1 = fs_disk w ∧ fat w1 = fat w ∧
    fs_nodes w1 = fs_nodes w ∧ fs_heap w1 = (halloc (fs_heap w) n).2 ∧ p = (halloc (fs_heap w) n).1.
Proof.
  intros Hr. eexists _, _. split; [done|]. cbn. pose proof (room_alloc _ _ Hr). done.
Qed.

(** Freeing the buffer after a change of the disk. *)
Lemma temp_room w n w2 :
  room (fs_heap w) n → fs_heap w2 = (halloc (fs_heap w) n).2 →
  ∀ k, room (fs_heap w) k → room (fs_heap (kfree_fs w2 (halloc (fs_heap w) n).1)) k.
Proof. intros Hr He k Hk. cbn. rewrite He. by apply room_temp. Qed.

(** The geometry: the table starts after the reserved sectors and cluster [c] has its
    entry inside every copy. *)
Record fat_geometry (f : fat32) : Prop := {
  fg_res : 0 <= reserved_sectors (bpb f);
  fg_copies : 1 <= fat_count (bpb f) < 256;
  fg_size : 0 <= fat_size_long (bpb f);
  fg_spf : sectors_per_fat f = fat_size_long (bpb f);
  fg_fits : reserved_sectors (bpb f) + 256 * fat_size_long (bpb f) < 0x10000000;
  fg_words : fat_size_long (bpb f) * 512 < 0x100000000 }.

Definition in_fat (f : fat32) (c : Z) : Prop := 0 <= c < 128 * fat_size_long (bpb f).

Definition fat_sector w (c : Z) : Z := reserved_sectors (bpb (fat w)) + c / 128.

(** The entry of cluster [c] in the first copy of the table. *)
Definition fat_entry w (c : Z) : Z :=
  Z.land (get_le 4 (sector_of w (fat_sector w c)) (4 * (c mod 128))) FAT_MASK.

Lemma fat_index f c : fat_geometry f → in_fat f c →
  u32 (c * 4) / 512 = c / 128 ∧ u32 (c * 4) mod 512 = 4 * (c mod 128) ∧
  0 <= c / 128 < fat_size_long (bpb f).
Proof.
  intros [] [??]. rewrite u32_small by lia. zlia.
Qed.

Lemma get_fat_entry_spec w c :
  fat_geometry (fat w) → in_fat (fat w) c → room (fs_heap w) 512 →
  ∃ w', fat32_get_fat_entry w c = (fat_entry w c, w') ∧ same_fs w w'.
Proof.
  intros Hg Hc Hr. destruct (fat_index _ _ Hg Hc) as (Hs & Ho & Hb). destruct Hg.
  unfold fat32_get_fat_entry. rewrite Hs, Ho.
  destruct (kmalloc_fs_ok w 512 Hr) as (p & w1 & -> & Hp & Hd & Hf & Hn & Hh & Hpe).
  rewrite (proj2 (Z.eqb_neq p 0)) by done.
  rewrite u32_small by lia.
  rewrite read_into_ok, sectors_1; [|apply transfer_1; lia|by rewrite fresh_len]. cbn [negb]. eexists. split; [f_equal|].
  - unfold fat_entry, sector_of, fat_sector. by rewrite Hd, Hf.
  - split; try done. intros k Hk. rewrite Hpe. by apply (temp_room w 512 w1).
Qed.

Definition fat_copy f (j s : Z) : Z :=
  reserved_sectors (bpb f) + j * sectors_per_fat f + s.

Lemma set_fat_loop_spec n i w s off v b :
  fat_geometry (fat w) → 0 <= i → i + Z.of_nat n <= 256 → 0 <= s < fat_size_long (bpb (fat w)) →
  0 <= off <= 508 → alen b = 512 →
  ∃ w', set_fat_loop n i w s off v b = (true, w') ∧ fs_heap w' = fs_heap w ∧ fat w' = fat w ∧
    fs_nodes w' = fs_nodes w ∧
    (∀ j, i <= j < i + Z.of_nat n → sector_of w' (fat_copy (fat w) j s) =
       put_le 4 (sector_of w (fat_copy (fat w) j s)) off (Z.land v FAT_MASK)) ∧
    (∀ v' l, (v' = device (fat w) → ∀ j, i <= j < i + Z.of_nat n → l ≠ fat_copy (fat w) j s) →
       sec (fs_disk w') v' l = sec (fs_disk w) v' l).
Proof.
  intros Hg. revert i w b Hg. induction n as [|n IH]; intros i w b Hg Hi Hn Hs Ho Hb.
  { exists w. split_and!; try done. intros j Hj. lia. }
  pose proof Hg as [G1 G2 G3 G4 G5 G6]. cbn [set_fat_loop].
  assert (u32 (reserved_sectors (bpb (fat w)) + i * sectors_per_fat (fat w) + s) =
          fat_copy (fat w) i s) as ->.
  { unfold fat_copy. apply u32_small. rewrite G4. nia. }
  assert (0 <= fat_copy (fat w) i s < 0x10000000) as Hreach by (unfold fat_copy; rewrite G4; nia).
  rewrite read_into_ok, sectors_1 by (apply transfer_1 || idtac; lia). cbn [negb].
  set (b' := put_le 4 _ off _).
  assert (alen b' = 512) as Hb'.
  { unfold b'. rewrite alen_put_le; unfold sector_of; rewrite ?sec_len; lia. }
  destruct (write_ok w (fat_copy (fat w) i s) 1 b') as (d' & -> & Hd); [by apply transfer_1|lia| |].
  { unfold b', put_le. apply bytes_ok_splice; [apply sec_bytes|apply le_bytes_ok]. }
  cbn [negb].
  destruct (IH (i + 1) (w_disk d' w) b') as (w' & -> & Hh & Hf & Hno & Hin & Hout); try done; try lia.
  cbn [fat w_disk fs_heap fs_nodes fs_disk] in *.
  assert (∀ j, i <= j < 257 → j ≠ i → fat_copy (fat w) j s ≠ fat_copy (fat w) i s) as Hdis.
  { intros j Hj Hne. unfold fat_copy. rewrite G4. nia. }
  assert (sub b' (512 * (fat_copy (fat w) i s - fat_copy (fat w) i s)) 512 = b') as Hsub.
  { rewrite Z.sub_diag, Z.mul_0_r. rewrite <-Hb'. apply sub_full. }
  exists w'. split_and!; try done.
  - intros j Hj. destruct (decide (j = i)) as [->|Hne].
    + unfold sector_of. rewrite Hf, Hout.
      * rewrite Hd, bool_decide_true by (split; [done|lia]). by rewrite Hsub.
      * intros _ j' Hj'. apply not_eq_sym, Hdis; lia.
    + rewrite Hin by lia. f_equal. unfold sector_of. cbn [fs_disk w_disk fat]. rewrite Hd.
      rewrite bool_decide_false; [done|]. intros [_ Heq]. apply (Hdis j); lia.
  - intros v' l Hl. rewrite Hout.
    + rewrite Hd, bool_decide_false; [done|]. intros [-> Heq]. apply (Hl eq_refl i); lia.
    + intros Hv j Hj. apply Hl; [done|lia].
Qed.

(** Reading a table entry back after [put_le]. *)
Lemma get_put_entry b k k' v :
  alen b = 512 → 0 <= k < 128 → 0 <= k' < 128 →
  Z.land (get_le 4 (put_le 4 b (4 * k) (Z.land v FAT_MASK)) (4 * k')) FAT_MASK =
  if k' =? k then Z.land v FAT_MASK else Z.land (get_le 4 b (4 * k')) FAT_MASK.
Proof.
  intros Hb Hk Hk'. destruct (Z.eqb_spec k' k) as [->|Hne].
  - rewrite get_put_le by lia. change (256 ^ Z.of_nat 4) with (2 ^ 32).
    rewrite Z.mod_small.
    + by rewrite <-Z.land_assoc.
    + change FAT_MASK with (Z.ones 28). rewrite Z.land_ones by lia.
      pose proof (Z.mod_pos_bound v (2 ^ 28)). lia.
  - rewrite get_put_le_ne by lia. done.
Qed.

(** Sectors that belong to no copy of the table. *)
Definition outside_fat f (l : Z) : Prop :=
  l < reserved_sectors (bpb f) ∨ reserved_sectors (bpb f) + fat_count (bpb f) * sectors_per_fat f <= l.

Lemma set_fat_entry_spec w c v :
  fat_geometry (fat w) → in_fat (fat w) c → room (fs_heap w) 512 →
  ∃ w', fat32_set_fat_entry w c v = (true, w') ∧ fat w' = fat w ∧ fs_nodes w' = fs_nodes w ∧
    (∀ k, room (fs_heap w) k → room (fs_heap w') k) ∧
    (∀ c', in_fat (fat w) c' →
       fat_entry w' c' = if c' =? c then Z.land v FAT_MASK else fat_entry w c') ∧
    (∀ v' l, v' ≠ device (fat w) ∨ outside_fat (fat w) l →
       sec (fs_disk w') v' l = sec (fs_disk w) v' l).
Proof.
  intros Hg Hc Hr. destruct (fat_index _ _ Hg Hc) as (Hs & Ho & Hb). pose proof Hg as [G1 G2 G3 G4 G5 G6].
  unfold fat32_set_fat_entry. rewrite Hs, Ho.
  destruct (kmalloc_fs_ok w 512 Hr) as (p & w1 & -> & Hp & Hd & Hf & Hn & Hh & Hpe).
  rewrite (proj2 (Z.eqb_neq p 0)) by done.
  pose proof (Z.mod_pos_bound c 128 ltac:(lia)) as Hm.
  destruct (set_fat_loop_spec (Z.to_nat (fat_count (bpb (fat w1)))) 0 w1 (c / 128)
              (4 * (c mod 128)) v (fresh (fs_heap w1) p 512))
    as (w2 & -> & Hh2 & Hf2 & Hn2 & Hin & Hout); rewrite ?Hf; try done; try lia.
  { rewrite fresh_len; lia. }
  rewrite Hf in Hin, Hout. eexists. split; [done|].
  split_and!; cbn [kfree_fs w_heap_fs fat fs_nodes fs_disk].
  - congruence.
  - congruence.
  - rewrite Hpe. apply temp_room; congruence.
  - intros c' Hc'. destruct (fat_index _ _ Hg Hc') as (_ & _ & Hb').
    pose proof (Z.mod_pos_bound c' 128 ltac:(lia)) as Hm'.
    unfold fat_entry, fat_sector, sector_of. cbn [kfree_fs w_heap_fs fat fs_disk].
    rewrite Hf2, Hf.
    assert (∀ q, fat_copy (fat w) 0 q = reserved_sectors (bpb (fat w)) + q) as Hq
      by (intros; unfold fat_copy; lia).
    destruct (decide (c' / 128 = c / 128)) as [Heq|Hne].
    + rewrite Heq. pose proof (Hin 0 ltac:(lia)) as Hi. unfold sector_of in Hi.
      rewrite Hq, Hf2, Hf, Hd in Hi. rewrite Hi, get_put_entry; [|apply sec_len|lia|lia].
      assert ((c' mod 128 =? c mod 128) = (c' =? c)) as ->; [|done].
      destruct (Z.eqb_spec (c' mod 128) (c mod 128)), (Z.eqb_spec c' c); zlia.
    + rewrite Hout, Hd.
      * destruct (Z.eqb_spec c' c) as [->|]; done.
      * intros _ j Hj Heq. unfold fat_copy in Heq. rewrite G4 in Heq.
        destruct (decide (j = 0)); nia.
  - intros v' l Hl. rewrite Hout, Hd; [done|]. intros -> j Hj ->.
    destruct Hl as [?|Hl]; [done|]. unfold outside_fat, fat_copy in Hl. rewrite G4 in Hl. nia.
Qed.

Lemma same_fs_entry w w' c : same_fs w w' → fat_entry w' c = fat_entry w c.
Proof.
  intros [Hd Hf _ _]. unfold fat_entry, sector_of, fat_sector. by rewrite Hd, Hf.
Qed.

(** [w'] is [w] with the entry of [c] set to [v] in the table, nothing else changed. *)
Record entry_set w w' (c v : Z) : Prop := {
  es_fat : fat w' = fat w;
  es_nodes : fs_nodes w' = fs_nodes w;
  es_room k : room (fs_heap w) k → room (fs_heap w') k;
  es_entry c' : in_fat (fat w) c' → fat_entry w' c' = if c' =? c then v else fat_entry w c';
  es_other v' l : v' ≠ device (fat w) ∨ outside_fat (fat w) l →
    sec (fs_disk w') v' l = sec (fs_disk w) v' l }.

Lemma allocate_loop_spec n i w :
  fat_geometry (fat w) → 0 <= i → i + Z.of_nat n <= 128 * fat_size_long (bpb (fat w)) →
  room (fs_heap w) 512 →
  ∃ w', match zfind (λ c, fat_entry w c =? 0) i n with
        | Some c => allocate_loop n i w = (c, w') ∧ entry_set w w' c EOC
        | None => allocate_loop n i w = (EOC, w') ∧ same_fs w w'
        end.
Proof.
  revert i w. induction n as [|n IH]; intros i w Hg Hi Hn Hr.
  { exists w. by split. }
  cbn [allocate_loop zfind].
  destruct (get_fat_entry_spec w i Hg ltac:(split; lia) Hr) as (w1 & -> & Hs1).
  pose proof Hs1 as [Hd1 Hf1 Hn1 Hr1]. destruct (fat_entry w i =? 0).
  - destruct (set_fat_entry_spec w1 i EOC) as (w2 & -> & Hf & Hno & Hrm & He & Ho);
      rewrite ?Hf1; auto; [split; lia|].
    exists w2. split; [done|]. split; try congruence.
    + auto.
    + intros c' Hc'. rewrite He by (by rewrite Hf1). rewrite (same_fs_entry w w1) by done. done.
    + intros v' l Hl. rewrite Ho by (by rewrite Hf1). by rewrite Hd1.
  - destruct (IH (i + 1) w1) as (w2 & H2); rewrite ?Hf1; auto; try lia.
    exists w2. rewrite (zfind_ext _ (λ c, fat_entry w1 c =? 0)).
    2:{ intros j _. by rewrite (same_fs_entry w w1). }
    destruct (zfind _ (i + 1) n) as [c|]; destruct H2 as [-> H2]; (split; [done|]).
    + destruct H2 as [E1 E2 E3 E4 E5]. split; try congruence; auto.
      * intros c' Hc'. rewrite E4 by (by rewrite Hf1). by rewrite (same_fs_entry w w1).
      * intros v' l Hl. rewrite E5 by (by rewrite Hf1). by rewrite Hd1.
    + destruct H2 as [E1 E2 E3 E4]. split; try congruence; auto.
Qed.

Lemma total_clusters f :
  fat_geometry f → u32 (fat_size_long (bpb f) * 512) / 4 = 128 * fat_size_long (bpb f).
Proof. intros []. rewrite u32_small by lia. zlia. Qed.

(** On a working drive, writing the entry of a cluster stores the low 28 bits of the
    value in every copy of the table, so that reading the cluster gives them back; the
    entries of all other clusters, and the rest of the disk, are unchanged. *)
Theorem fat_entry_roundtrip w c v c' :
  fat_geometry (fat w) → in_fat (fat w) c → in_fat (fat w) c' → room (fs_heap w) 512 →
  ∃ w1 w2 w3,
    fat32_get_fat_entry w c' = (fat_entry w c', w1) ∧
    fat32_set_fat_entry w c v = (true, w2) ∧
    fat32_get_fat_entry w2 c' =
      (if c' =? c then Z.land v 0x0FFFFFFF else fat_entry w c', w3) ∧
    fs_nodes w3 = fs_nodes w ∧
    ∀ l, outside_fat (fat w) l → sector_of w3 l = sector_of w l.
Proof.
  intros Hg Hc Hc' Hr.
  destruct (get_fat_entry_spec w c' Hg Hc' Hr) as (w1 & He1 & _).
  destruct (set_fat_entry_spec w c v Hg Hc Hr) as (w2 & He2 & Hf & Hno & Hrm & Hent & Ho).
  destruct (get_fat_entry_spec w2 c') as (w3 & He3 & [Hd3 Hf3 Hn3 _]); rewrite ?Hf; auto.
  exists w1, w2, w3. rewrite Hent in He3 by done. split_and!; try done.
  - congruence.
  - intros l Hl. unfold sector_of. rewrite Hd3, Hf3, Hf. auto.
Qed.

(** [fat32_allocate_cluster] returns the lowest-numbered free cluster from 2 on, marks
    exactly that one as the end of a chain and reports 0x0FFFFFFF, changing nothing, when
    the table has no free entry. *)
Theorem allocate_first_free w :
  fat_geometry (fat w) → room (fs_heap w) 512 → 2 <= 128 * fat_size_long (bpb (fat w)) →
  ∃ c w', fat32_allocate_cluster w = (c, w') ∧
    ((c = EOC ∧ same_fs w w' ∧
      ∀ k, 2 <= k < 128 * fat_size_long (bpb (fat w)) → fat_entry w k ≠ 0) ∨
     (2 <= c < 128 * fat_size_long (bpb (fat w)) ∧ fat_entry w c = 0 ∧
      (∀ k, 2 <= k < c → fat_entry w k ≠ 0) ∧ entry_set w w' c EOC)).
Proof.
  intros Hg Hr Hsz. unfold fat32_allocate_cluster. rewrite total_clusters by done.
  destruct (allocate_loop_spec (Z.to_nat (128 * fat_size_long (bpb (fat w)) - 2)) 2 w)
    as (w' & Hw); try done; try lia.
  destruct (zfind _ 2 _) as [c|] eqn:E; destruct Hw as [-> Hw].
  - apply zfind_Some in E as (Hc & Hz%Z.eqb_eq & Hlt). exists c, w'. split; [done|]. right.
    split_and!; try done; try lia. intros k Hk. by apply Z.eqb_neq, Hlt.
  - rewrite zfind_None in E. exists EOC, w'. split; [done|]. left. split_and!; try done.
    intros k Hk. apply Z.eqb_neq, E. lia.
Qed.

(** ** Names *)

Lemma upcase_nonzero c : c ≠ 0 → upcase c ≠ 0.
Proof. unfold upcase. destruct (Z.leb_spec 97 c), (Z.leb_spec c 122); simpl; lia. Qed.

Lemma upcase_byte c : 0 <= c < 256 → 0 <= upcase c < 256.
Proof. unfold upcase. destruct (Z.leb_spec 97 c), (Z.leb_spec c 122); simpl; lia. Qed.

Lemma fmt_base_props n src :
  alen (fmt_base n src).1 <= Z.of_nat n ∧ Forall (λ c, c ≠ 0) (fmt_base n src).1 ∧
  (bytes_ok src → bytes_ok (fmt_base n src).1 ∧ bytes_ok (fmt_base n src).2).
Proof.
  revert src. unfold bytes_ok. induction n as [|n IH]; intros [|c src]; cbn [fmt_base].
  1-3: cbn [fst snd]; rewrite ?alen_nil; split_and!; try done; lia.
  destruct ((c =? DOT) || (c =? 0)) eqn:E.
  - cbn [fst snd]. rewrite alen_nil. split_and!; try done; lia.
  - apply orb_false_iff in E as [_ E%Z.eqb_neq]. specialize (IH src).
    destruct (fmt_base n src) as [d r]. cbn [fst snd] in *. destruct IH as (Hl & Hnz & Hb).
    rewrite alen_cons. split_and!; [lia|by constructor; [apply upcase_nonzero|]|].
    intros [Hc Hs]%Forall_cons. destruct (Hb Hs). split; [|done].
    constructor; [by apply upcase_byte|done].
Qed.

Lemma fmt_ext_props n src :
  alen (fmt_ext n src) <= Z.of_nat n ∧ (bytes_ok src → bytes_ok (fmt_ext n src)).
Proof.
  revert src. unfold bytes_ok. induction n as [|n IH]; intros [|c src]; cbn [fmt_ext];
    rewrite ?alen_nil; try (split; [lia|done]).
  destruct (c =? 0); [rewrite alen_nil; split; [lia|done]|]. destruct (IH src) as [Hl Hb].
  rewrite alen_cons. split; [lia|]. intros [??]%Forall_cons.
  constructor; [by apply upcase_byte|auto].
Qed.

Lemma fmt_skip_bytes src : bytes_ok src → bytes_ok (fmt_skip src).
Proof.
  unfold bytes_ok. induction 1 as [|c src Hc Hs IH]; simpl; [done|].
  case_match; [by constructor|done].
Qed.

Lemma format_fat_name_props src :
  alen (format_fat_name src) = 11 ∧ (format_fat_name src).[0] ≠ 0 ∧
  (bytes_ok src → bytes_ok (format_fat_name src)).
Proof.
  unfold format_fat_name. destruct (fmt_base_props 8 src) as (Hl & Hnz & Hb).
  destruct (fmt_base 8 src) as [base rest]. cbn [fst snd] in *.
  assert (alen (replicate 11 SPACE) = 11) as Hrep by done.
  assert (alen (splice (replicate 11 SPACE) 0 base) = 11) as Hd by (rewrite alen_splice; lia).
  assert ((splice (replicate 11 SPACE) 0 base).[0] ≠ 0) as Hd0.
  { rewrite splice_head. destruct (decide (base = [])); [done|].
    destruct base as [|c base]; [done|]. by apply Forall_cons in Hnz as [? _]. }
  assert (bytes_ok src → bytes_ok (splice (replicate 11 SPACE) 0 base)) as Hbd.
  { intros Hs. apply bytes_ok_splice; [|by apply Hb]. apply Forall_replicate. done. }
  destruct (fmt_ext_props 3 (tail (fmt_skip rest))) as [Hel Heb].
  case_match; [|done]. split_and!.
  - rewrite alen_splice; lia.
  - rewrite aget_splice by lia. simpl. done.
  - intros Hs. apply bytes_ok_splice; [auto|]. apply Heb. destruct (Hb Hs) as [_ Hr].
    apply fmt_skip_bytes in Hr. destruct (fmt_skip rest); [done|]. by apply Forall_cons in Hr as [_ ?].
Qed.

(** ** Directory entries *)

(** The 32 bytes of a new entry. *)
Definition entry_bytes (name : list Z) (attr cluster size : Z) : list Z :=
  let b := splice (replicate 32 0) 0 (format_fat_name name) in
  let b := b.[11 <- attr] in
  let b := put_le 2 b 26 (Z.land cluster 0xFFFF) in
  let b := put_le 2 b 20 (Z.land (Z.shiftr cluster 16) 0xFFFF) in
  put_le 4 b 28 size.

Lemma fill_entry_splice b slot name attr cluster size :
  0 <= slot → 32 * slot + 32 <= alen b →
  fill_entry b slot name attr cluster size =
  splice b (32 * slot) (entry_bytes name attr cluster size).
Proof.
  intros Hs Hlen. unfold fill_entry, entry_bytes. cbv zeta.
  destruct (format_fat_name_props name) as (Hn & _ & _).
  rewrite memset_fills by lia. change (u8 0) with 0. change (Z.to_nat 32) with 32%nat.
  assert (alen (replicate 32 0) = 32) as Hz by done.
  set (x1 := splice (replicate 32 0) 0 (format_fat_name name)).
  assert (alen x1 = 32) as Hx1 by (unfold x1; rewrite alen_splice; lia).
  assert (splice (splice b (32 * slot) (replicate 32 0)) (32 * slot) (format_fat_name name) =
          splice b (32 * slot) x1) as ->.
  { rewrite <-(Z.add_0_r (32 * slot)) at 2. apply splice_nested; lia. }
  rewrite <-splice_1 by (rewrite alen_splice; lia).
  rewrite splice_nested by (rewrite ?Hx1; change (alen [attr]) with 1; lia).
  rewrite splice_1 by lia.
  set (x2 := x1.[11 <- attr]). assert (alen x2 = 32) as H2 by (unfold x2; by rewrite alen_aset).
  unfold put_le.
  rewrite splice_nested by (rewrite ?alen_le_bytes; lia).
  set (x3 := splice x2 26 _). assert (alen x3 = 32) as H3
    by (unfold x3; rewrite alen_splice; rewrite ?alen_le_bytes; lia).
  rewrite splice_nested by (rewrite ?alen_le_bytes; lia).
  set (x4 := splice x3 20 _). assert (alen x4 = 32) as H4
    by (unfold x4; rewrite alen_splice; rewrite ?alen_le_bytes; lia).
  by rewrite splice_nested by (rewrite ?alen_le_bytes; lia).
Qed.

Lemma alen_entry_bytes name attr cluster size : alen (entry_bytes name attr cluster size) = 32.
Proof.
  unfold entry_bytes. destruct (format_fat_name_props name) as (Hn & _ & _).
  assert (alen (splice (replicate 32 0) 0 (format_fat_name name)) = 32) as Hs
    by (rewrite alen_splice; change (alen (replicate 32 0)) with 32; lia).
  cbv zeta. set (x2 := (splice _ 0 _).[11 <- attr]).
  assert (alen x2 = 32) as Hx2 by (unfold x2; by rewrite alen_aset).
  assert (∀ n b o v, alen b = 32 → 0 <= o → o + Z.of_nat n <= 32 → alen (put_le n b o v) = 32) as Hp.
  { intros n b o v <- ? ?. by apply alen_put_le. }
  do 3 (apply Hp; [|lia|lia]). done.
Qed.

Lemma lor_halves c :
  0 <= c < 0x100000000 →
  Z.lor (Z.land c 0xFFFF) (Z.shiftl (Z.land (Z.shiftr c 16) 0xFFFF) 16) = c.
Proof.
  intros Hc. apply Z.bits_inj'. intros k Hk. change 0xFFFF with (Z.ones 16).
  rewrite Z.lor_spec, Z.land_spec, Z.shiftl_spec by lia.
  destruct (Z.ltb_spec k 16).
  - rewrite Z.ones_spec_low, (Z.testbit_neg_r _ (k - 16)) by lia.
    by rewrite andb_true_r, orb_false_r.
  - rewrite Z.ones_spec_high by lia. rewrite andb_false_r, Z.land_spec, Z.shiftr_spec by lia.
    replace (k - 16 + 16) with k by lia. simpl. destruct (Z.ltb_spec k 32).
    + rewrite Z.ones_spec_low by lia. apply andb_true_r.
    + rewrite word_testbit_high by lia. done.
Qed.

Lemma land16_range c : 0 <= Z.land c 0xFFFF < 2 ^ 16.
Proof. change 0xFFFF with (Z.ones 16). rewrite Z.land_ones by lia. apply Z.mod_pos_bound. lia. Qed.

(** The fields of a new entry. *)
Lemma entry_bytes_fields name attr cluster size :
  0 <= cluster < 0x100000000 → 0 <= size < 0x100000000 →
  let e := entry_bytes name attr cluster size in
  sub e 0 11 = format_fat_name name ∧ e.[11] = attr ∧
  Z.lor (get_le 2 e 26) (Z.shiftl (get_le 2 e 20) 16) = cluster ∧ get_le 4 e 28 = size.
Proof.
  intros Hc Hs. cbv zeta. unfold entry_bytes.
  destruct (format_fat_name_props name) as (Hn & _ & _).
  assert (alen (replicate 32 0) = 32) as Hz by done.
  set (x1 := splice (replicate 32 0) 0 (format_fat_name name)).
  assert (alen x1 = 32) as Hx1 by (unfold x1; rewrite alen_splice; lia).
  set (x2 := x1.[11 <- attr]). assert (alen x2 = 32) as Hx2 by (unfold x2; by rewrite alen_aset).
  set (x3 := put_le 2 x2 26 _).
  assert (alen x3 = 32) as Hx3 by (unfold x3; rewrite alen_put_le; lia).
  set (x4 := put_le 2 x3 20 _).
  assert (alen x4 = 32) as Hx4 by (unfold x4; rewrite alen_put_le; lia).
  split_and!.
  - unfold put_le. rewrite sub_splice_ne by (rewrite ?alen_le_bytes; lia).
    unfold x4, put_le. rewrite sub_splice_ne by (rewrite ?alen_le_bytes; lia).
    unfold x3, put_le. rewrite sub_splice_ne by (rewrite ?alen_le_bytes; lia).
    unfold x2. rewrite <-splice_1 by lia.
    rewrite sub_splice_ne by (change (alen [attr]) with 1; lia).
    rewrite <-Hn. unfold x1. apply sub_splice_same; lia.
  - unfold put_le. rewrite aget_splice by (rewrite ?alen_le_bytes; lia). simpl.
    unfold x4, put_le. rewrite aget_splice by (rewrite ?alen_le_bytes; lia). simpl.
    unfold x3, put_le. rewrite aget_splice by (rewrite ?alen_le_bytes; lia). simpl.
    unfold x2. by rewrite aget_aset_eq by lia.
  - pose proof (land16_range cluster). pose proof (land16_range (Z.shiftr cluster 16)).
    rewrite (get_put_le_ne 4 2) by lia. unfold x4 at 1. rewrite get_put_le_ne by lia.
    unfold x3. rewrite get_put_le by lia. change (256 ^ Z.of_nat 2) with (2 ^ 16).
    rewrite get_put_le_ne by lia. unfold x4. rewrite get_put_le by lia.
    change (256 ^ Z.of_nat 2) with (2 ^ 16). rewrite !Z.mod_small by lia. by apply lor_halves.
  - rewrite get_put_le by lia. change (256 ^ Z.of_nat 4) with 0x100000000. by apply Z.mod_small.
Qed.

Lemma bytes_entry name attr cluster size :
  bytes_ok name → 0 <= attr < 256 → bytes_ok (entry_bytes name attr cluster size).
Proof.
  intros Hn Ha. unfold entry_bytes, put_le. destruct (format_fat_name_props name) as (_ & _ & Hb).
  repeat (apply bytes_ok_splice; [|apply le_bytes_ok]).
  apply Forall_aset; [|lia]. apply bytes_ok_splice; [|auto]. by apply Forall_replicate.
Qed.

(** A directory buffer with entry [slot] replaced. *)
Section replaced.
Context (b e : list Z) (slot : Z).
Hypothesis (Hs : 0 <= slot) (Hb : 32 * slot + 32 <= alen b) (He : alen e = 32).
Let b' := splice b (32 * slot) e.

Lemma replaced_same :
  e_name b' slot = sub e 0 11 ∧ e_name0 b' slot = e.[0] ∧ e_attr b' slot = e.[11] ∧
  e_size b' slot = get_le 4 e 28 ∧
  e_cluster b' slot = Z.lor (get_le 2 e 26) (Z.shiftl (get_le 2 e 20) 16).
Proof.
  unfold e_name, e_name0, e_attr, e_size, e_cluster, get_le, b'. split_and!.
  - rewrite <-(Z.add_0_r (32 * slot)) at 2. apply sub_splice_in; lia.
  - rewrite <-(Z.add_0_r (32 * slot)) at 2. apply aget_splice_in; lia.
  - apply aget_splice_in; lia.
  - f_equal. apply sub_splice_in; lia.
  - rewrite !sub_splice_in by lia. done.
Qed.

Lemma replaced_other i :
  0 <= i → i ≠ slot → 32 * i + 32 <= alen b →
  e_name b' i = e_name b i ∧ e_name0 b' i = e_name0 b i ∧ e_attr b' i = e_attr b i ∧
  e_size b' i = e_size b i ∧ e_cluster b' i = e_cluster b i.
Proof.
  intros Hi Hne Hl. unfold e_name, e_name0, e_attr, e_size, e_cluster, get_le, b'.
  assert (∀ k n, 0 <= k → 0 <= n → k + n <= 32 →
    sub (splice b (32 * slot) e) (32 * i + k) n = sub b (32 * i + k) n) as Hsub.
  { intros. apply sub_splice_ne; lia. }
  assert (∀ k, 0 <= k < 32 → (splice b (32 * slot) e).[32 * i + k] = b.[32 * i + k]) as Hget.
  { intros k Hk. rewrite aget_splice by lia.
    destruct (Z.leb_spec (32 * slot) (32 * i + k)), (Z.ltb_spec (32 * i + k) (32 * slot + alen e));
      simpl; try done; lia. }
  split_and!.
  - replace (32 * i) with (32 * i + 0) by lia. apply Hsub; lia.
  - replace (32 * i) with (32 * i + 0) by lia. apply Hget; lia.
  - apply Hget; lia.
  - by rewrite Hsub by lia.
  - by rewrite !Hsub by lia.
Qed.
End replaced.

(** ** Directories *)

Definition spc w : Z := sectors_per_cluster (bpb (fat w)).

(** The bytes of cluster [c]. *)
Definition cluster_data w (c : Z) : list Z := sectors (sector_of w) (cluster_to_lba w c) (spc w).

Lemma alen_cluster_data w c : 1 <= spc w → alen (cluster_data w c) = cluster_bytes w.
Proof. intros. unfold cluster_data. rewrite alen_sectors by lia. done. Qed.

Lemma bytes_cluster_data w c : bytes_ok (cluster_data w c).
Proof.
  unfold cluster_data, sectors, bytes_ok. apply Forall_concat, Forall_map, Forall_true.
  intros l. apply sec_bytes.
Qed.

Lemma sectors_written d d' v lba n b :
  0 <= n → alen b = 512 * n → disk_update sec d d' v lba n b → sectors (sec d' v) lba n = b.
Proof.
  intros Hn Hb Hd. apply sectors_of_buffer; [done|done|]. intros k Hk.
  rewrite Hd, bool_decide_true by (split; [done|lia]). f_equal. lia.
Qed.

(** The clusters are of a size the device transfers and lie within its addresses. *)
Definition cluster_ok w (c : Z) : Prop := transfer_ok (device (fat w)) (cluster_to_lba w c) (spc w).

Lemma create_entry_spec w parent name attr c size :
  let dir := impl (node_fs w parent) in
  let b := cluster_data w dir in
  cluster_ok w dir → room (fs_heap w) (cluster_bytes w) → bytes_ok name → 0 <= attr < 256 →
  ∃ w', fat w' = fat w ∧ fs_nodes w' = fs_nodes w ∧
    (∀ k, room (fs_heap w) k → room (fs_heap w') k) ∧
    match zfind (λ i, (e_name0 b i =? 0) || (e_name0 b i =? 0xE5)) 0 (slots w) with
    | Some s => fat32_create_entry w parent name attr c size = (true, w') ∧
                cluster_data w' dir = splice b (32 * s) (entry_bytes name attr c size)
    | None => fat32_create_entry w parent name attr c size = (false, w') ∧ fs_disk w' = fs_disk w
    end.
Proof.
  cbv zeta. intros Hclu Hr Hnm Ha. unfold fat32_create_entry.
  pose proof (transfer_pos _ _ _ Hclu) as [_ Hspc].
  destruct (kmalloc_fs_ok w (cluster_bytes w) Hr) as (p & w1 & -> & Hp & Hd & Hf & Hn & Hh & Hpe).
  rewrite (proj2 (Z.eqb_neq p 0)) by done.
  assert (cluster_bytes w1 = cluster_bytes w) as Hcb by (unfold cluster_bytes; by rewrite Hf).
  rewrite Hf. fold (spc w).
  assert (alen (fresh (fs_heap w1) p (cluster_bytes w1)) = 512 * spc w) as Hbuf.
  { rewrite fresh_len; rewrite Hcb; unfold cluster_bytes; fold (spc w); lia. }
  rewrite read_into_ok; [|unfold cluster_ok, cluster_to_lba in Hclu |- *; by rewrite Hf|done].
  assert (sector_of w1 = sector_of w) as Hsec by (unfold sector_of; by rewrite Hd, Hf).
  rewrite Hsec. fold (cluster_data w (impl (node_fs w parent))). cbn [negb].
  set (b := cluster_data w (impl (node_fs w parent))).
  assert (slots w1 = slots w) as -> by (unfold slots; by rewrite Hf).
  destruct (zfind _ 0 (slots w)) as [s|] eqn:E.
  - apply zfind_Some in E as (Hsl & _ & _).
    assert (alen b = cluster_bytes w) as Hb by (apply alen_cluster_data; lia).
    assert (32 * s + 32 <= alen b) as Hfit.
    { rewrite Hb. unfold cluster_bytes, slots in *. fold (spc w) in Hsl |- *. lia. }
    rewrite fill_entry_splice by lia.
    pose proof (alen_entry_bytes name attr c size) as Hel.
    destruct (write_ok w1 (cluster_to_lba w (impl (node_fs w parent))) (spc w)
                (splice b (32 * s) (entry_bytes name attr c size))) as (d' & -> & Hdd).
    + unfold cluster_ok, cluster_to_lba in Hclu |- *. by rewrite Hf.
    + rewrite alen_splice by lia. rewrite Hb. done.
    + apply bytes_ok_splice; [apply bytes_cluster_data|by apply bytes_entry].
    + exists (kfree_fs (w_disk d' w1) p). cbn [kfree_fs w_heap_fs w_disk fat fs_nodes fs_disk].
      split_and!; [done|done| |done|].
      * rewrite Hpe. by apply temp_room.
      * unfold cluster_data, spc, cluster_to_lba, sector_of.
        cbn [kfree_fs w_heap_fs w_disk fat fs_disk]. rewrite Hf in Hdd |- *.
        eapply sectors_written; [| |exact Hdd]; [fold (spc w); lia|].
        rewrite alen_splice by lia. rewrite Hb. done.
  - exists (kfree_fs w1 p). split_and!; [done|done| |done|done].
    rewrite Hpe. by apply temp_room.
Qed.

Lemma finddir_spec w node name :
  let dir := impl (node_fs w node) in
  let b := cluster_data w dir in
  cluster_ok w dir → room (fs_heap w) (cluster_bytes w) → fat32_ready (fat w) = true →
  ∃ r w', fat32_vfs_finddir w node name = (r, w') ∧ fat w' = fat w ∧ fs_disk w' = fs_disk w ∧
    match zfind (λ i, (e_name0 b i =? 0) || fat32_compare_name (e_name b i) name) 0 (slots w) with
    | Some i => if e_name0 b i =? 0 then r = 0 ∧ fs_nodes w' = fs_nodes w
                else node_fs w' r = entry_node b i name dir
    | None => r = 0 ∧ fs_nodes w' = fs_nodes w
    end.
Proof.
  cbv zeta. intros Hclu Hr Hrdy. unfold fat32_vfs_finddir.
  pose proof (transfer_pos _ _ _ Hclu) as [_ Hspc]. rewrite Hrdy. cbn [negb].
  destruct (kmalloc_fs_ok w (cluster_bytes w) Hr) as (p & w1 & -> & Hp & Hd & Hf & Hn & Hh & Hpe).
  rewrite (proj2 (Z.eqb_neq p 0)) by done.
  assert (cluster_bytes w1 = cluster_bytes w) as Hcb by (unfold cluster_bytes; by rewrite Hf).
  rewrite Hf. fold (spc w).
  assert (alen (fresh (fs_heap w1) p (cluster_bytes w1)) = 512 * spc w) as Hbuf.
  { rewrite fresh_len; rewrite Hcb; unfold cluster_bytes; fold (spc w); lia. }
  rewrite read_into_ok; [|unfold cluster_ok, cluster_to_lba in Hclu |- *; by rewrite Hf|done].
  assert (sector_of w1 = sector_of w) as Hsec by (unfold sector_of; by rewrite Hd, Hf).
  rewrite Hsec. fold (cluster_data w (impl (node_fs w node))).
  set (b := cluster_data w (impl (node_fs w node))).
  assert (slots w1 = slots w) as -> by (unfold slots; by rewrite Hf).
  destruct (zfind _ 0 (slots w)) as [i|].
  - destruct (e_name0 b i =? 0).
    + by exists 0, (kfree_fs w1 p).
    + unfold new_node. destruct (kmalloc_fs w1 sizeof_node) as [res w2] eqn:Ek.
      unfold kmalloc_fs in Ek. injection Ek as <- <-.
      eexists _, _. split; [done|]. split_and!; [done|done|].
      unfold node_fs at 1, kfree_fs, put_node_fs. cbn [fs_nodes w_heap_fs w_nodes].
      rewrite lookup_insert_eq. cbn [default from_option id]. f_equal.
      unfold node_fs. by rewrite Hn.
  - by exists 0, (kfree_fs w1 p).
Qed.

Lemma compare_format name : fat32_compare_name (format_fat_name name) name = true.
Proof.
  unfold fat32_compare_name. destruct (format_fat_name_props name) as (Hn & _ & _).
  apply Z.eqb_eq, memcmp_eq; [lia|lia|lia|done].
Qed.

(** C32: an entry created in a directory is found there under its name, with the attributes,
    start cluster and size it was given (as the node at the address that the lookup answers,
    which is NULL when there is no memory for a node); the other entries of the directory stay
    as they were. *)
Theorem create_then_find w parent name attr c size s :
  let dir := impl (node_fs w parent) in
  let b := cluster_data w dir in
  cluster_ok w dir → room (fs_heap w) (cluster_bytes w) → fat32_ready (fat w) = true →
  bytes_ok name → 0 <= attr < 256 → 0 <= c < 0x100000000 → 0 <= size < 0x100000000 →
  zfind (λ i, (e_name0 b i =? 0) || (e_name0 b i =? 0xE5)) 0 (slots w) = Some s →
  (∀ i, 0 <= i < s → fat32_compare_name (e_name b i) name = false) →
  ∃ w1 r w2, fat32_create_entry w parent name attr c size = (true, w1) ∧
    fat32_vfs_finddir w1 parent name = (r, w2) ∧
    (let fl := if nz (Z.land attr 0x10) then VFS_DIRECTORY else VFS_FILE in
     node_fs w2 r = fat_node name (if fl =? VFS_DIRECTORY then 0x1FF else 0x1B6) fl dir size c) ∧
    ∀ i, 0 <= i < 16 * spc w → i ≠ s →
      let b1 := cluster_data w1 dir in
      e_name b1 i = e_name b i ∧ e_attr b1 i = e_attr b i ∧
      e_cluster b1 i = e_cluster b i ∧ e_size b1 i = e_size b i.
Proof.
  cbv zeta. intros Hclu Hr Hrdy Hnm Ha Hc Hsz Hslot Hno. pose proof (transfer_pos _ _ _ Hclu) as [_ Hspc].
  destruct (create_entry_spec w parent name attr c size Hclu Hr Hnm Ha) as (w1 & Hf & Hn & Hrm & Hw).
  rewrite Hslot in Hw. destruct Hw as [-> Hdata].
  set (dir := impl (node_fs w parent)) in *. set (b := cluster_data w dir) in *.
  assert (alen b = 512 * spc w) as Hb by (unfold b; rewrite alen_cluster_data by lia; done).
  apply zfind_Some in Hslot as (Hs & _ & Hused). unfold slots in Hs. fold (spc w) in Hs.
  pose proof (alen_entry_bytes name attr c size) as Hel.
  destruct (entry_bytes_fields name attr c size Hc Hsz) as (E1 & E2 & E3 & E4).
  destruct (replaced_same b (entry_bytes name attr c size) s) as (R1 & R2 & R3 & R4 & R5);
    [lia|lia|done|].
  pose proof (replaced_other b (entry_bytes name attr c size) s) as Hother.
  destruct (format_fat_name_props name) as (Hfl & Hf0 & _).
  assert (node_fs w1 parent = node_fs w parent) as Hnode by (unfold node_fs; by rewrite Hn).
  assert (spc w1 = spc w) as Hspc1 by (unfold spc; by rewrite Hf).
  destruct (finddir_spec w1 parent name) as (r & w2 & He & _ & _ & Hfind).
  { unfold cluster_ok, cluster_to_lba, spc in Hclu |- *. by rewrite Hnode, Hf. }
  { unfold cluster_bytes. rewrite Hf. by apply Hrm. }
  { by rewrite Hf. }
  rewrite Hnode in Hfind. fold dir in Hfind. rewrite Hdata in Hfind.
  set (b' := splice b (32 * s) (entry_bytes name attr c size)) in *.
  assert ((entry_bytes name attr c size).[0] = (format_fat_name name).[0]) as H00.
  { rewrite <-E1. by rewrite aget_sub by lia. }
  assert (zfind (λ i, (e_name0 b' i =? 0) || fat32_compare_name (e_name b' i) name) 0 (slots w1) =
          Some s) as Hz.
  { apply zfind_Some. unfold slots. fold (spc w1). rewrite Hspc1. split_and!; [lia|lia| |].
    - rewrite R1, E1, compare_format. apply orb_true_r.
    - intros i Hi. destruct (Hother ltac:(lia) ltac:(lia) Hel i) as (O1 & O2 & _); try lia.
      rewrite O1, O2, Hno by lia.
      specialize (Hused i Hi). apply orb_false_iff in Hused as [-> _]. done. }
  rewrite Hz, R2, H00 in Hfind. rewrite (proj2 (Z.eqb_neq _ _) Hf0) in Hfind.
  exists w1, r, w2. split_and!; try done.
  - rewrite Hfind. unfold entry_node. rewrite R3, R4, R5, E2, E3, E4. done.
  - intros i Hi Hne. rewrite Hdata.
    destruct (Hother ltac:(lia) ltac:(lia) Hel i) as (O1 & O2 & O3 & O4 & O5); try lia. done.
Qed.

(** ** Chains *)

(** The clusters of the chain that starts at [c]. *)
Fixpoint is_chain w (c : Z) (l : list Z) : Prop :=
  match l with
  | [] => ¬ (2 <= c < 0x0FFFFFF8)
  | x :: l' => x = c ∧ 2 <= c < 0x0FFFFFF8 ∧ in_fat (fat w) c ∧ is_chain w (fat_entry w c) l'
  end.

Lemma is_chain_ext w w' c l :
  fat w' = fat w → (∀ x, x ∈ l → fat_entry w' x = fat_entry w x) → is_chain w c l → is_chain w' c l.
Proof.
  intros Hf. revert c. induction l as [|x l IH]; intros c He; simpl; [done|].
  intros (-> & Hc & Hin & Hl). split_and!; [done|lia|lia|by rewrite Hf|].
  rewrite He by left. apply IH; [|done]. intros y Hy. apply He. by right.
Qed.

(** C40: the chain loop of deleting a file frees exactly its clusters: it ends
    after one round per cluster, every cluster of the chain is free afterwards, and no
    other table entry and nothing outside the table has changed. *)
Theorem free_chain_frees fuel w c l :
  fat_geometry (fat w) → room (fs_heap w) 512 → is_chain w c l → NoDup l → (length l <= fuel)%nat →
  ∃ w', free_chain fuel w c = Some w' ∧ fat w' = fat w ∧ fs_nodes w' = fs_nodes w ∧
    (∀ k, in_fat (fat w) k → fat_entry w' k = if bool_decide (k ∈ l) then 0 else fat_entry w k) ∧
    ∀ v s, v ≠ device (fat w) ∨ outside_fat (fat w) s →
      sec (fs_disk w') v s = sec (fs_disk w) v s.
Proof.
  intros Hg Hr Hc Hnd. revert fuel w c Hg Hr Hc.
  induction Hnd as [|x l Hx Hnd IH]; intros fuel w c Hg Hr Hc Hf.
  { exists w. split; [|by split_and!].
    destruct fuel; simpl; destruct (Z.leb_spec 2 c), (Z.ltb_spec c 0x0FFFFFF8); simpl; try done;
      exfalso; apply Hc; lia. }
  destruct Hc as (-> & Hcr & Hin & Hl). destruct fuel as [|fuel]; simpl in Hf; [lia|].
  cbn [free_chain]. rewrite (proj2 (Z.leb_le 2 c)), (proj2 (Z.ltb_lt c 0x0FFFFFF8)) by lia. cbn [andb].
  destruct (get_fat_entry_spec w c Hg Hin Hr) as (w1 & -> & Hs1). pose proof Hs1 as [D1 F1 N1 R1].
  destruct (set_fat_entry_spec w1 c 0) as (w2 & -> & F2 & N2 & R2 & E2 & O2); rewrite ?F1; auto.
  rewrite F1 in *.
  assert (∀ k, in_fat (fat w) k → fat_entry w2 k = if k =? c then 0 else fat_entry w k) as E2'.
  { intros k Hk. rewrite E2 by done. by rewrite (same_fs_entry w w1). }
  assert (∀ y, y ∈ l → in_fat (fat w) y) as Hlin.
  { clear -Hl. generalize dependent (fat_entry w c). induction l as [|z l IH]; intros q Hq y Hy.
    - by apply not_elem_of_nil in Hy.
    - destruct Hq as (-> & _ & Hz & Hq). apply elem_of_cons in Hy as [->|Hy]; [done|]. by eapply IH. }
  destruct (IH fuel w2 (fat_entry w c)) as (w3 & -> & F3 & N3 & E3 & O3); rewrite ?F2; auto; try lia.
  { eapply is_chain_ext; [exact F2| |exact Hl]. intros y Hy. rewrite E2' by auto.
    by rewrite (proj2 (Z.eqb_neq y c)) by (intros ->; done). }
  rewrite F2 in *. exists w3. split_and!; try congruence.
  - intros k Hk. rewrite E3, E2' by done. destruct (Z.eqb_spec k c) as [->|Hne].
    + rewrite (bool_decide_true (c ∈ c :: l)) by left. by case_match.
    + destruct (decide (k ∈ l)).
      * by rewrite !bool_decide_true by (done || by right).
      * rewrite !bool_decide_false; [done| |done]. by intros [?|?]%elem_of_cons.
  - intros v s Hs. rewrite O3, O2 by done. by rewrite D1.
Qed.

End fat32.

(** ** The world the VFS sees *)

Section world.
Context {H D : Type} `{HeapAlloc H} `{BlockDev D}.
Variable fresh : H → Z → Z → list Z.
(** The text about the network card, which depends on the drivers. *)
Variable netinfo_text : fsw H D → list Z.
Implicit Types (w : fsw H D) (node : Z).

(** Rounds that are enough for a transfer of [size] bytes, and for a whole chain. *)
Definition transfer_fuel w (size : Z) : nat := S (Z.to_nat (size / cluster_bytes w + 2)).
Definition chain_fuel w : nat := S (Z.to_nat (u32 (fat_size_long (bpb (fat w)) * 512) / 4)).

(** ** ahci.c: the drives as device nodes

    The port of a drive is in its node's [device_data].  The copies between the caller's
    buffer and the bounce buffer of whole sectors are checked. *)

Definition ahci_vfs_read w node (offset size : Z) (buffer : list Z) : outcome (Z * list Z * fsw H D) :=
  let port := device_data (node_fs w node) in
  let start_lba := offset / 512 in
  let count := u32 (size + 511) / 512 in
  let '(bounce, w) := kmalloc_fs w (u32 (count * 512)) in
  if bounce =? 0 then Done (0, buffer, w)
  else
    let b := fresh (fs_heap w) bounce (u32 (count * 512)) in
    match blk_ahci_read (fs_disk w) port start_lba count with
    | Some bs =>
        buffer ← memcpy_ck buffer 0 (splice b 0 bs) (offset mod 512) size;
        Done (size, buffer, kfree_fs w bounce)
    | None => Done (0, buffer, kfree_fs w bounce)
    end.

Definition ahci_vfs_write w node (offset size : Z) (buffer : list Z) : outcome (Z * fsw H D) :=
  let port := device_data (node_fs w node) in
  let start_lba := offset / 512 in
  let count := u32 (size + 511) / 512 in
  let '(bounce, w) := kmalloc_fs w (u32 (count * 512)) in
  if bounce =? 0 then Done (0, w)
  else
    let b := fresh (fs_heap w) bounce (u32 (count * 512)) in
    let sector_offset := offset mod 512 in
    let b := if nz sector_offset || nz (size mod 512)
             then (λ bs, splice b 0 bs) <$> blk_ahci_read (fs_disk w) port start_lba count
             else Some b in
    match b with
    | None => Done (0, kfree_fs w bounce)
    | Some b =>
        b ← memcpy_ck b sector_offset buffer 0 size;
        let '(ok, d) := blk_ahci_write (fs_disk w) port start_lba count b in
        let w := kfree_fs (w_disk d w) bounce in
        Done (if ok : bool then size else 0, w)
    end.

(** The value of a call that did not fault. *)
Definition or_else {A} (dflt : A) (o : outcome A) : A := match o with Done a => a | _ => dflt end.

#[local] Instance fs_world : VfsWorld (fsw H D) := {|
  node_at := node_fs;
  put_node := put_node_fs;
  call_read fs w node offset size buffer :=
    match fs with
    | FS_FAT32 => default (0, buffer, w)
                    (fat32_vfs_read fresh (transfer_fuel w size) w node offset size buffer)
    | FS_NETINFO => (netinfo_read (netinfo_text w) offset size buffer, w)
    | FS_DEVFS => (0, buffer, w)
    | FS_AHCI => or_else (0, buffer, w) (ahci_vfs_read w node offset size buffer)
    end;
  call_write fs w node offset size buffer :=
    match fs with
    | FS_FAT32 => default (0, w) (fat32_vfs_write fresh (transfer_fuel w size) w node offset size buffer)
    | FS_AHCI => or_else (0, w) (ahci_vfs_write w node offset size buffer)
    | _ => (0, w)
    end;
  call_open _ w _ := w;
  call_close _ w _ := w;
  call_readdir fs w node index :=
    match fs with
    | FS_FAT32 => fat32_vfs_readdir fresh w node index
    | FS_DEVFS => (devfs_readdir w node index, w)
    | _ => (0, w)
    end;
  call_finddir fs w node name :=
    match fs with
    | FS_FAT32 => fat32_vfs_finddir fresh w node name
    | FS_DEVFS => (devfs_finddir w node name, w)
    | _ => (0, w)
    end;
  call_create fs w node name :=
    match fs with FS_FAT32 => fat32_vfs_create fresh w node name | _ => (0, w) end;
  call_unlink fs w node name :=
    match fs with
    | FS_FAT32 => default (false, w) (fat32_vfs_unlink fresh (chain_fuel w) w node name)
    | _ => (false, w)
    end;
  call_mkdir fs w node name :=
    match fs with FS_FAT32 => fat32_vfs_mkdir fresh w node name | _ => (0, w) end |}.

(** "dev", "/dev", "netinfo" *)
Definition str_dev : list Z := [100; 101; 118; 0].
Definition str_slash_dev : list Z := SLASH :: str_dev.
Definition str_netinfo : list Z := [110; 101; 116; 105; 110; 102; 111; 0].

Definition devfs_init (v : vfs) w : vfs * fsw H D :=
  let '(root, w) := kmalloc_fs w sizeof_node in
  let w := put_node_fs w root
             (mk_node (name_field str_dev) 0 0 0 VFS_DIRECTORY 0 0 0 None None None None
                (Some FS_DEVFS) (Some FS_DEVFS) None None None 0 0) in
  let w := mk_fsw (fs_heap w) (fs_disk w) (fs_nodes w) (fat w) root (devices w) (num_devices w) in
  let '(dev_dir, w) := vfs_find_path v w (vfs_root v) str_slash_dev in
  let '(dev_dir, w) := if dev_dir =? 0 then vfs_mkdir w (vfs_root v) str_dev else (dev_dir, w) in
  let '(v, w) := if nz dev_dir then
                   let '(_, v, w) := vfs_mount v w str_slash_dev root in (v, w)
                 else (v, w) in
  let '(netinfo_node, w) := kmalloc_fs w sizeof_node in
  if nz netinfo_node then
    let w := put_node_fs w netinfo_node
               (mk_node (name_field str_netinfo) 0 0 0 VFS_CHAR_DEVICE 0 0 0 (Some FS_NETINFO)
                  None None None None None None None None 0 0) in
    (v, devfs_register_device w str_netinfo netinfo_node)
  else (v, w).

(** ** Mount points are lost *)

(** A node [fat32_vfs_finddir] made: nothing is mounted on it. *)
Definition plain_fat_node (n : vfs_node) : Prop := nptr n = 0 ∧ f_finddir n = Some FS_FAT32.

Lemma finddir_plain w node name r w' :
  fat32_vfs_finddir fresh w node name = (r, w') → r ≠ 0 → plain_fat_node (node_fs w' r).
Proof.
  unfold fat32_vfs_finddir. destruct (fat32_ready (fat w)); cbn [negb]; [|by intros [= <- _]].
  destruct (kmalloc_fs w _) as [buffer w1]. destruct (buffer =? 0); [by intros [= <- _]|].
  destruct (read_into _ _ _ _) as [ok b]. destruct (zfind _ _ _) as [i|]; [|by intros [= <- _]].
  destruct (e_name0 b i =? 0); [by intros [= <- _]|].
  unfold new_node. destruct (kmalloc_fs w1 sizeof_node) as [res w2]. intros [= <- <-] _.
  unfold node_fs, kfree_fs, put_node_fs. cbn [fs_nodes w_heap_fs w_nodes].
  by rewrite lookup_insert_eq.
Qed.

Lemma walk_plain w node comps r w' :
  comps ≠ [] → node ≠ 0 → plain_fat_node (node_fs w node) →
  walk w node comps = (r, w') → r ≠ 0 → plain_fat_node (node_fs w' r).
Proof.
  intros Hne. revert w node. induction comps as [|c comps IH]; [done|].
  intros w node Hn [Hp Hf] Hw Hr. cbn [walk] in Hw. rewrite (proj2 (Z.eqb_neq node 0)) in Hw by done.
  assert (vfs_check_mount w node = node) as Hcm.
  { unfold vfs_check_mount. rewrite (proj2 (Z.eqb_neq node 0)) by done.
    cbn [node_at fs_world]. rewrite Hp. done. }
  rewrite Hcm in Hw. destruct (vfs_finddir w node (c ++ [0])) as [next w1] eqn:Ef.
  destruct (Z.eqb_spec next 0) as [->|Hnext]; [naive_solver|].
  assert (plain_fat_node (node_fs w1 next)) as Hpl.
  { unfold vfs_finddir in Ef. rewrite (proj2 (Z.eqb_neq node 0)) in Ef by done.
    cbn [node_at fs_world] in Ef. rewrite Hf in Ef. destruct (is_dir _); [|naive_solver].
    cbn [call_finddir fs_world] in Ef. by eapply finddir_plain. }
  destruct comps as [|c' comps].
  - cbn [walk] in Hw. unfold vfs_check_mount in Hw. rewrite (proj2 (Z.eqb_neq next 0)) in Hw by done.
    cbn [node_at fs_world] in Hw. destruct Hpl as [Hp' Hf']. rewrite Hp' in Hw.
    change (nz 0) with false in Hw. by injection Hw as <- <-.
  - by apply (IH ltac:(done) w1 next).
Qed.

(** Mounting on a directory of the FAT32 root file system has no effect on path
    lookups.  [fat32_vfs_finddir] makes a new node at every lookup, so the [ptr] that
    [vfs_mount] sets is on a node no later lookup returns, and the mount table is never
    consulted: whatever has been mounted below the root, every absolute path still resolves
    to a FAT32 node with nothing mounted on it. *)
Theorem mounts_never_crossed v w x comps tl r w' :
  comps ≠ [] → Forall name_ok comps → (tl = [] ∨ hd0 tl = 0) →
  vfs_root v ≠ 0 → plain_fat_node (node_fs w (vfs_root v)) →
  vfs_find_path v w x (SLASH :: join comps ++ tl) = (r, w') → r ≠ 0 →
  plain_fat_node (node_fs w' r).
Proof.
  intros Hne Hok Htl Hv Hp He Hr. rewrite find_path_absolute in He by done.
  exact (walk_plain w (vfs_root v) comps r w' Hne Hv Hp He Hr).
Qed.

End world.

(** ** Printing and parsing short names *)

(** A character of a stored name: printable as it is and not changed by [upcase]. *)
Definition name_char (c : Z) : Prop := c ≠ 0 ∧ c ≠ DOT ∧ c ≠ SPACE ∧ upcase c = c.

Definition padded (n : nat) (l : list Z) : list Z := l ++ replicate (n - length l) SPACE.

Lemma until_space_padded n l : Forall name_char l → until_space (padded n l) = l.
Proof.
  unfold padded. generalize (n - length l)%nat. intros k.
  induction 1 as [|c l (_ & _ & Hs & _) Hl IH]; simpl; [by destruct k|].
  rewrite (proj2 (Z.eqb_neq c SPACE)) by done. by f_equal.
Qed.

Lemma length_padded n l : (length l <= n)%nat → length (padded n l) = n.
Proof. intros. unfold padded. rewrite length_app, length_replicate. lia. Qed.

Lemma fmt_base_name n l rest :
  Forall name_char l → (length l <= n)%nat → (hd0 rest = DOT ∨ hd0 rest = 0) →
  fmt_base n (l ++ rest) = (l, rest).
Proof.
  intros Hl Hn Hr. revert n Hn. induction Hl as [|c l (H0 & Hd & _ & Hu) Hl IH]; intros n Hn.
  - destruct n, rest as [|x rest]; simpl; try done. unfold hd0 in Hr. rewrite aget_cons_0 in Hr.
    by destruct Hr as [-> | ->].
  - destruct n as [|n]; simpl in Hn; [lia|]. simpl.
    rewrite (proj2 (Z.eqb_neq c DOT)), (proj2 (Z.eqb_neq c 0)) by done. simpl.
    rewrite IH by lia. by rewrite Hu.
Qed.

Lemma fmt_ext_name n l : Forall name_char l → (length l <= n)%nat → fmt_ext n (l ++ [0]) = l.
Proof.
  intros Hl. revert n. induction Hl as [|c l (H0 & _ & _ & Hu) Hl IH]; intros n Hn.
  - by destruct n.
  - destruct n as [|n]; simpl in Hn; [lia|]. simpl.
    rewrite (proj2 (Z.eqb_neq c 0)), Hu, IH by (done || lia). done.
Qed.

Lemma splice_pad (n : nat) l : (length l <= n)%nat → splice (replicate n SPACE) 0 l = padded n l.
Proof.
  intros. unfold splice, padded. simpl. f_equal. apply drop_replicate.
Qed.

(** A directory name that is printed by [fat32_vfs_readdir] and looked up again is
    formatted back to the same 11 bytes, for every base of up to 8 and extension of up to 3
    stored characters. *)
Theorem fat_name_roundtrip base ext :
  Forall name_char base → Forall name_char ext → (length base <= 8)%nat → (length ext <= 3)%nat →
  let n := padded 8 base ++ padded 3 ext in
  cstr (show_fat_name n) = base ++ (if decide (ext = []) then [] else DOT :: ext) ∧
  format_fat_name (show_fat_name n) = n.
Proof.
  intros Hb He Hlb Hle. cbv zeta. set (n := padded 8 base ++ padded 3 ext).
  pose proof (length_padded 8 base Hlb) as Hp8. pose proof (length_padded 3 ext Hle) as Hp3.
  assert (sub n 0 8 = padded 8 base) as Hs8.
  { unfold sub, n. rewrite drop_0. change (Z.to_nat 8) with 8%nat.
    by rewrite take_app_length' by done. }
  assert (sub n 8 3 = padded 3 ext) as Hs3.
  { unfold sub, n. change (Z.to_nat 8) with 8%nat. change (Z.to_nat 3) with 3%nat.
    rewrite drop_app_length' by done. by apply take_ge; lia. }
  assert (n.[8] = hd SPACE ext) as H8.
  { unfold n. rewrite aget_app_r by (unfold alen; lia). unfold alen. rewrite Hp8.
    by destruct ext. }
  assert (show_fat_name n = base ++ (if decide (ext = []) then [0] else DOT :: ext ++ [0])) as Hshow.
  { unfold show_fat_name. rewrite Hs8, Hs3, H8, !until_space_padded by done.
    destruct ext as [|c ext]; [done|]. apply Forall_cons in He as [(_ & _ & Hc & _) _].
    cbn [hd]. rewrite (proj2 (Z.eqb_neq c SPACE)) by done. done. }
  split.
  - rewrite Hshow. destruct (decide (ext = [])).
    + rewrite app_nil_r. apply cstr_app_0. eapply Forall_impl; [exact Hb|]. by intros c (? & _).
    + rewrite app_comm_cons, app_assoc. apply cstr_app_0. apply Forall_app. split.
      * eapply Forall_impl; [exact Hb|]. by intros c (? & _).
      * constructor; [done|]. eapply Forall_impl; [exact He|]. by intros c (? & _).
  - rewrite Hshow. unfold format_fat_name. destruct (decide (ext = [])) as [->|Hne].
    + rewrite fmt_base_name by (done || by right). cbn [fmt_skip].
      change ((0 =? DOT) || (0 =? 0)) with true. cbn iota. change (hd0 [0] =? DOT) with false.
      cbn iota. change 11%nat with (8 + 3)%nat. unfold n.
      rewrite splice_pad by lia. unfold padded. simpl length.
      replace (8 + 3 - length base)%nat with (8 - length base + 3)%nat by lia.
      rewrite replicate_add. by rewrite app_assoc.
    + rewrite fmt_base_name by (done || by left). cbn [fmt_skip].
      change ((DOT =? DOT) || (DOT =? 0)) with true. cbn iota.
      change (hd0 (DOT :: ext ++ [0]) =? DOT) with true. cbn [tail]. cbn iota.
      rewrite fmt_ext_name by done. change 11%nat with (8 + 3)%nat.
      rewrite splice_pad by lia.
      assert (padded (8 + 3) base = padded 8 base ++ replicate 3 SPACE) as ->.
      { unfold padded. replace (8 + 3 - length base)%nat with (8 - length base + 3)%nat by lia.
        rewrite replicate_add. by rewrite app_assoc. }
      unfold n. rewrite <-(splice_pad 3 ext) by lia. unfold splice.
      change (Z.to_nat 8) with 8%nat. change (Z.to_nat 0) with 0%nat. cbn [take app plus].
      rewrite take_app_length' by done. rewrite (take_0 (replicate 3 SPACE)), app_nil_l.
      f_equal. f_equal. rewrite drop_app_ge by lia. rewrite Hp8. f_equal. lia.
Qed.

(** ** A RAM disk, and concrete runs *)

Notation ramdisk := (gmap (bool * Z * Z) (list Z)).

Definition ram_sec (d : ramdisk) (v : bool * Z) (l : Z) : list Z :=
  match d !! (v, l) with
  | Some b => if bool_decide (alen b = 512 ∧ bytes_ok b) then b else replicate 512 0
  | None => replicate 512 0
  end.

Definition ram_write (d : ramdisk) (v : bool * Z) (lba n : Z) (b : list Z) : ramdisk :=
  for_loop (Z.to_nat n) 0 (λ k d, <[(v, lba + k) := sub b (512 * k) 512]> d) d.

#[global] Instance ram_dev : BlockDev ramdisk := {|
  blk_ahci_drive _ := 0;
  blk_ahci_read d p lba n := Some (sectors (ram_sec d (true, p)) lba n);
  blk_ahci_write d p lba n b := (true, ram_write d (true, p) lba n b);
  blk_ata_read d p lba n := Some (sectors (ram_sec d (false, p)) lba n);
  blk_ata_write d p lba n b := (true, ram_write d (false, p) lba n b) |}.

Lemma ram_write_update d v lba n b :
  alen b = 512 * n → bytes_ok b → disk_update ram_sec d (ram_write d v lba n b) v lba n b.
Proof.
  intros Hb Hok v' l. unfold ram_write.
  assert (0 <= n) as Hn by (pose proof (alen_nonneg b); lia).
  assert (∀ m, (m <= Z.to_nat n)%nat →
    ram_sec (for_loop m 0 (λ k d, <[(v, lba + k) := sub b (512 * k) 512]> d) d) v' l =
    if bool_decide (v' = v ∧ lba <= l < lba + Z.of_nat m) then sub b (512 * (l - lba)) 512
    else ram_sec d v' l) as Hm.
  { induction m as [|m IH]; intros Hle.
    - rewrite bool_decide_false by lia. done.
    - rewrite for_loop_S, Z.add_0_l. specialize (IH ltac:(lia)).
      generalize dependent (for_loop m 0 (λ k d, <[(v, lba + k) := sub b (512 * k) 512]> d) d).
      intros d1 IH. unfold ram_sec at 1.
      destruct (decide (v' = v ∧ l = lba + Z.of_nat m)) as [[-> ->]|Hne].
      + rewrite lookup_insert_eq.
        rewrite (bool_decide_true (v = v ∧ _)) by (split; [done|lia]).
        rewrite bool_decide_true; [f_equal; lia|].
        split; [apply alen_sub; lia|by apply bytes_ok_sub].
      + rewrite lookup_insert_ne by (intros [= <- ?]; apply Hne; split; [done|lia]).
        fold (ram_sec d1 v' l). rewrite IH.
        destruct (decide (v' = v ∧ lba <= l < lba + Z.of_nat m)) as [Hin|Hout].
        * rewrite !bool_decide_true; [done| |done]. destruct Hin. split; [done|lia].
        * rewrite !bool_decide_false; [done| |done]. intros [-> Hl].
          destruct (decide (l = lba + Z.of_nat m)); [by apply Hne|]. apply Hout. split; [done|lia]. }
  rewrite Hm by lia. by rewrite Z2Nat.id by lia.
Qed.

#[global] Instance ram_laws : BlockDevLaws ramdisk ram_sec.
Proof.
  split.
  - intros d v l. unfold ram_sec. repeat case_match; try done. by apply bool_decide_eq_true in H0 as [? _].
  - intros d v l. unfold ram_sec. repeat case_match; try (by apply Forall_replicate).
    by apply bool_decide_eq_true in H0 as [_ ?].
  - done.
  - done.
  - intros d p lba n b Hb Hok. eexists. split; [done|]. by apply ram_write_update.
  - intros d p lba n b Hb _ Hok. eexists. split; [done|]. by apply ram_write_update.
Qed.

(** A formatted disk: one sector per cluster, one reserved sector, two tables of one sector,
    the root directory in cluster 2, all of it empty. *)
Definition demo_fat : fat32 := mk_fat32 (mk_bpb 1 1 2 1 2) true 3 1 ATA_MASTER 0.
Definition demo_table : list Z :=
  le_bytes 4 0x0FFFFFF8 ++ le_bytes 4 0x0FFFFFFF ++ le_bytes 4 0x0FFFFFFF ++ replicate 500 0.
Definition demo_disk : ramdisk :=
  <[((false, ATA_MASTER), 1) := demo_table]> (<[((false, ATA_MASTER), 2) := demo_table]> ∅).
Definition demo_root : vfs_node :=
  mk_node (name_field root_name) 0x1FF 0 0 VFS_DIRECTORY 0 0 2 None None None None
    (Some FS_FAT32) (Some FS_FAT32) (Some FS_FAT32) (Some FS_FAT32) (Some FS_FAT32) 0 0.
Definition demo_fs : fsw kheap ramdisk :=
  mk_fsw demo_heap demo_disk {[ 8 := demo_root ]} demo_fat 0 (replicate 32 0) 0.
Definition zeros (_ : kheap) (_ n : Z) : list Z := replicate (Z.to_nat n) 0.

Lemma zeros_len h p n : 0 <= n → alen (zeros h p n) = n.
Proof. intros. unfold zeros. rewrite alen_replicate. lia. Qed.

Lemma demo_room : kheap_room demo_heap 512.
Proof.
  split; [lia|]. exists [(4076, true)]. split_and!; [apply demo_heap_ok|done|].
  constructor. by split; vm_compute.
Qed.

Lemma demo_geometry : fat_geometry demo_fat.
Proof. split; by vm_compute. Qed.

Lemma fat_entry_roundtrip_witness :
  ∃ w2 w3, fat32_set_fat_entry zeros demo_fs 5 0x12345678 = (true, w2) ∧
    fat32_get_fat_entry zeros w2 5 = (0x02345678, w3).
Proof.
  destruct (fat_entry_roundtrip zeros (BL := ram_laws) (HT := kheap_temp) zeros_len demo_fs
              5 0x12345678 5 demo_geometry) as (w1 & w2 & w3 & _ & H2 & H3 & _).
  - by split; vm_compute.
  - by split; vm_compute.
  - apply demo_room.
  - exists w2, w3. split; [exact H2|]. rewrite H3. done.
Defined.

Lemma allocate_first_free_witness : (fat32_allocate_cluster zeros demo_fs).1 = 3.
Proof.
  destruct (allocate_first_free zeros (BL := ram_laws) (HT := kheap_temp) zeros_len demo_fs
              demo_geometry demo_room) as (c & w' & He & Hc); [by vm_compute|].
  assert (fat_entry (sec := ram_sec) demo_fs 2 = EOC) as H2 by (by vm_compute).
  assert (fat_entry (sec := ram_sec) demo_fs 3 = 0) as H3 by (by vm_compute).
  rewrite He. destruct Hc as [(_ & _ & Hall)|(Hr & Hz & Hlt & _)].
  - destruct (Hall 3 ltac:(split; by vm_compute) H3).
  - cbn [fst]. destruct (decide (c = 2)) as [Hc2|]; [rewrite Hc2, H2 in Hz; discriminate Hz|].
    destruct (decide (3 < c)) as [H3c|]; [destruct (Hlt 3 ltac:(lia) H3)|].
    clear -n n0 Hr. lia.
Defined.

Lemma fat_name_roundtrip_witness :
  format_fat_name (show_fat_name [75; 32; 32; 32; 32; 32; 32; 32; 80; 69; 32]) =
  [75; 32; 32; 32; 32; 32; 32; 32; 80; 69; 32].
Proof.
  apply (fat_name_roundtrip [75] [80; 69]); [by repeat constructor..|simpl; lia|simpl; lia].
Defined.

(** "a.t" *)
Lemma create_then_find_witness :
  ∃ w1 r w2, fat32_create_entry zeros demo_fs 8 [97; 46; 116; 0] 0x20 3 5 = (true, w1) ∧
    fat32_vfs_finddir zeros w1 8 [97; 46; 116; 0] = (r, w2) ∧ impl (node_fs w2 r) = 3.
Proof.
  destruct (create_then_find zeros (BL := ram_laws) (HT := kheap_temp) zeros_len demo_fs 8
              [97; 46; 116; 0] 0x20 3 5 0 ltac:(by vm_compute) demo_room ltac:(by vm_compute)
              ltac:(by repeat constructor) ltac:(done) ltac:(done) ltac:(done)
              ltac:(by vm_compute) ltac:(lia)) as (w1 & r & w2 & H1 & H2 & H3 & _).
  exists w1, r, w2. split; [exact H1|]. split; [exact H2|]. rewrite H3. done.
Defined.

(** The chain 3, 4 of a file, freed. *)
Definition demo_file : fsw kheap ramdisk :=
  (fat32_set_fat_entry zeros (fat32_set_fat_entry zeros demo_fs 3 4).2 4 EOC).2.

Lemma free_chain_frees_witness :
  ∃ w', free_chain zeros 2 demo_file 3 = Some w' ∧ fat_entry (sec := ram_sec) demo_file 4 = EOC ∧
    fat_entry (sec := ram_sec) w' 4 = 0.
Proof.
  destruct (set_fat_entry_spec zeros (BL := ram_laws) (HT := kheap_temp) zeros_len demo_fs 3 4
    demo_geometry ltac:(by split; vm_compute) demo_room) as (w1 & E1 & F1 & _ & R1 & T1 & _).
  destruct (set_fat_entry_spec zeros (BL := ram_laws) (HT := kheap_temp) zeros_len w1 4 EOC
    ltac:(rewrite F1; apply demo_geometry) ltac:(rewrite F1; by split; vm_compute)
    (R1 _ demo_room)) as (w2 & E2 & F2 & _ & R2 & T2 & _).
  assert (demo_file = w2) as -> by (unfold demo_file; rewrite E1; cbn [snd]; by rewrite E2).
  rewrite F1 in F2, T2.
  assert (fat_entry (sec := ram_sec) w2 3 = 4) as H3.
  { rewrite T2 by (by split; vm_compute). rewrite T1 by (by split; vm_compute). by vm_compute. }
  assert (fat_entry (sec := ram_sec) w2 4 = EOC) as H4 by (rewrite T2 by (by split; vm_compute); by vm_compute).
  destruct (free_chain_frees zeros (BL := ram_laws) (HT := kheap_temp) zeros_len 2 w2 3 [3; 4])
    as (w' & Hw & _ & _ & Hf & _).
  - rewrite F2. apply demo_geometry.
  - apply R2, R1, demo_room.
  - cbn [is_chain]. rewrite H3, H4, F2. clear.
    do 2 (split; [reflexivity|split; [lia|split; [by split; vm_compute|]]]). unfold EOC. lia.
  - apply NoDup_cons. split; [by intros ?%list_elem_of_singleton|apply NoDup_singleton].
  - done.
  - exists w'. split; [exact Hw|]. split; [exact H4|].
    rewrite Hf by (rewrite F2; by split; vm_compute).
    rewrite bool_decide_true; [reflexivity|]. right. left.
Defined.

Definition demo_vfs : vfs := mk_vfs 8 (replicate 8 (mk_mount (replicate 128 0) 0)).
Definition demo_dev : vfs * fsw kheap ramdisk := devfs_init zeros (λ _, []) demo_vfs demo_fs.

Definition find_dev : Z * fsw kheap ramdisk :=
  vfs_find_path (H := fs_world zeros (λ _, [])) demo_dev.1 demo_dev.2 8 str_slash_dev.

Lemma mounts_never_crossed_witness :
  (vfs_mounts demo_dev.1).[0] =
    mk_mount (kstrncpy (replicate 128 0) 0 str_slash_dev 127) (devfs_root demo_dev.2) ∧
  devfs_root demo_dev.2 ≠ 0 ∧ find_dev.1 ≠ 0 ∧
  f_finddir (node_fs find_dev.2 find_dev.1) = Some FS_FAT32.
Proof.
  split; [by vm_compute|]. split; [by vm_compute|].
  assert (find_dev.1 ≠ 0) as Hne by (by vm_compute). split; [exact Hne|].
  destruct (mounts_never_crossed zeros (λ _, []) demo_dev.1 demo_dev.2 8 [[100; 101; 118]] [0]
              find_dev.1 find_dev.2) as [_ Hf].
  - done.
  - constructor; [|done]. split; [done|]. split; [simpl; lia|]. by repeat constructor.
  - by right.
  - by vm_compute.
  - by split; vm_compute.
  - apply surjective_pairing.
  - exact Hne.
  - exact Hf.
Defined.
