(* ===== verification/Pci.v ===== *)
(** * drivers/pci.c: the PCI bus scan

    Configuration space is reached through the address port 0xCF8 and the data port
    0xCFC.  The bus is hardware: [PciConfig] states what the PCI specification promises of
    configuration mechanism 1.  The state is the device behind the ports, the static table
    of 128 devices and its count. *)

From S2P Require Import Prelude.

Definition PCI_CONFIG_ADDRESS : Z := 0xCF8.
Definition PCI_CONFIG_DATA : Z := 0xCFC.
Definition PCI_MAX_DEVICES : Z := 128.

Record pci_device_t := mk_pci_device {
  bus : Z; dev : Z; func : Z; vendor_id : Z; device_id : Z;
  class_code : Z; subclass : Z; prog_if : Z; revision : Z }.

#[global] Instance pci_device_inhabited : Inhabited pci_device_t :=
  populate (mk_pci_device 0 0 0 0 0 0 0 0 0).

Definition pci_make_addr (b d f offset : Z) : Z :=
  Z.lor (Z.lor (Z.lor (Z.lor (Z.shiftl 1 31) (Z.shiftl b 16)) (Z.shiftl d 11)) (Z.shiftl f 8))
    (Z.land offset 0xFC).

Record pci (D : Type) := mk_pci {
  io : D;
  pci_devices : list pci_device_t;
  pci_device_count : Z }.
Arguments mk_pci {D}.
Arguments io {D}.
Arguments pci_devices {D}.
Arguments pci_device_count {D}.

Section pci_ops.
Context {D : Type} `{PortIO D}.

Definition pci_read32 (h : D) (b d f offset : Z) : Z * D :=
  inl (outl h PCI_CONFIG_ADDRESS (pci_make_addr b d f offset)) PCI_CONFIG_DATA.

Definition pci_read16 (h : D) (b d f offset : Z) : Z * D :=
  let '(v, h) := pci_read32 h b d f offset in
  let shift := if nz (Z.land offset 2) then 16 else 0 in
  (Z.land (Z.shiftr v shift) 0xFFFF, h).

Definition pci_write32 (h : D) (b d f offset val : Z) : D :=
  outl (outl h PCI_CONFIG_ADDRESS (pci_make_addr b d f offset)) PCI_CONFIG_DATA val.

Definition pci_write16 (h : D) (b d f offset val : Z) : D :=
  let '(v, h) := pci_read32 h b d f offset in
  let v := if nz (Z.land offset 2)
           then Z.lor (Z.land v 0x0000FFFF) (Z.shiftl val 16)
           else Z.lor (Z.land v 0xFFFF0000) val in
  pci_write32 h b d f offset v.

Definition pci_read8 (h : D) (b d f offset : Z) : Z * D :=
  let '(v, h) := pci_read32 h b d f offset in
  let shift := Z.land offset 3 * 8 in
  (Z.land (Z.shiftr v shift) 0xFF, h).

Definition pci_try_add (st : pci D) (b d f : Z) : pci D :=
  let '(vendor, h) := pci_read16 (io st) b d f 0x00 in
  if vendor =? 0xFFFF then mk_pci h (pci_devices st) (pci_device_count st)
  else if PCI_MAX_DEVICES <=? pci_device_count st then
    mk_pci h (pci_devices st) (pci_device_count st)
  else
    let n := pci_device_count st in
    let '(device, h) := pci_read16 h b d f 0x02 in
    let '(rev, h) := pci_read8 h b d f 0x08 in
    let '(prog, h) := pci_read8 h b d f 0x09 in
    let '(sub, h) := pci_read8 h b d f 0x0A in
    let '(cls, h) := pci_read8 h b d f 0x0B in
    mk_pci h ((pci_devices st).[n <- mk_pci_device b d f vendor device cls sub prog rev])
      (n + 1).

(** The body of the two scan loops. *)
Definition pci_scan_slot (b d : Z) (st : pci D) : pci D :=
  let '(vendor0, h) := pci_read16 (io st) b d 0 0x00 in
  let st := mk_pci h (pci_devices st) (pci_device_count st) in
  if vendor0 =? 0xFFFF then st
  else
    let '(header_type, h) := pci_read8 (io st) b d 0 0x0E in
    let multi := Z.land header_type 0x80 in
    let st := pci_try_add (mk_pci h (pci_devices st) (pci_device_count st)) b d 0 in
    if nz multi then for_loop 7 1 (λ f st, pci_try_add st b d f) st else st.

Definition pci_init (st : pci D) : pci D :=
  for_loop 256 0 (λ b, for_loop 32 0 (pci_scan_slot b)) (mk_pci (io st) (pci_devices st) 0).

Definition pci_get_device_count (st : pci D) : Z := pci_device_count st.

Definition pci_get_device (st : pci D) (idx : Z) : option pci_device_t :=
  if pci_device_count st <=? idx then None else Some ((pci_devices st).[idx]).

Definition pci_find_class (st : pci D) (cls sub : Z) : option pci_device_t :=
  (λ i, (pci_devices st).[i]) <$>
    zfind (λ i, (class_code ((pci_devices st).[i]) =? cls) && (subclass ((pci_devices st).[i]) =? sub))
      0 (Z.to_nat (pci_device_count st)).

Definition pci_find_device (st : pci D) (vendor device : Z) : option pci_device_t :=
  (λ i, (pci_devices st).[i]) <$>
    zfind (λ i, (vendor_id ((pci_devices st).[i]) =? vendor)
                && (device_id ((pci_devices st).[i]) =? device))
      0 (Z.to_nat (pci_device_count st)).
End pci_ops.

(** ** What the bus promises

    [cfg h a] is the double word of configuration space at address [a].  Selecting an
    address and reading leave configuration space as it is; a write to a register that is
    [plain] (fully writable, without side effect) stores the value. *)

Class PciConfig (D : Type) `{PortIO D} := {
  cfg : D → Z → Z;
  latch : D → Z;
  plain : Z → Prop;
  cfg_select h a : cfg (outl h PCI_CONFIG_ADDRESS a) = cfg h;
  latch_select h a : latch (outl h PCI_CONFIG_ADDRESS a) = a;
  cfg_value h : (inl h PCI_CONFIG_DATA).1 = cfg h (latch h);
  cfg_read h : cfg (inl h PCI_CONFIG_DATA).2 = cfg h;
  cfg_word h a : 0 <= cfg h a < 0x100000000;
  cfg_write h v a :
    plain (latch h) → 0 <= v < 0x100000000 →
    cfg (outl h PCI_CONFIG_DATA v) a = if a =? latch h then v else cfg h a }.

(** ** The scan *)

Definition field16 (c : Z → Z) (b d f offset : Z) : Z :=
  Z.land (Z.shiftr (c (pci_make_addr b d f offset)) (if nz (Z.land offset 2) then 16 else 0)) 0xFFFF.
Definition field8 (c : Z → Z) (b d f offset : Z) : Z :=
  Z.land (Z.shiftr (c (pci_make_addr b d f offset)) (Z.land offset 3 * 8)) 0xFF.

(** The device a function of the bus announces, if one is there. *)
Definition announced (c : Z → Z) (b d f : Z) : list pci_device_t :=
  if field16 c b d f 0x00 =? 0xFFFF then []
  else [mk_pci_device b d f (field16 c b d f 0x00) (field16 c b d f 0x02) (field8 c b d f 0x0B)
          (field8 c b d f 0x0A) (field8 c b d f 0x09) (field8 c b d f 0x08)].

(** A slot whose function 0 is absent is empty; the functions 1 to 7 count only when the
    header type of function 0 has the multi-function bit. *)
Definition slot_devices (c : Z → Z) (b d : Z) : list pci_device_t :=
  if field16 c b d 0 0x00 =? 0xFFFF then []
  else announced c b d 0 ++
       (if nz (Z.land (field8 c b d 0 0x0E) 0x80)
        then concat (map (announced c b d) (seqZ 1 7)) else []).

Definition bus_devices (c : Z → Z) : list pci_device_t :=
  concat (map (λ b, concat (map (slot_devices c b) (seqZ 0 32))) (seqZ 0 256)).

Section scan.
Context {D : Type} `{PC : PciConfig D}.
Implicit Types (h : D) (st : pci D) (l : list pci_device_t).

Lemma read32_spec h b d f o :
  ∃ h', pci_read32 h b d f o = (cfg h (pci_make_addr b d f o), h') ∧ cfg h' = cfg h.
Proof.
  unfold pci_read32. eexists. rewrite (surjective_pairing (inl _ _)), cfg_value.
  rewrite latch_select, cfg_select. split; [done|]. by rewrite cfg_read, cfg_select.
Qed.

Lemma read16_spec h b d f o :
  ∃ h', pci_read16 h b d f o = (field16 (cfg h) b d f o, h') ∧ cfg h' = cfg h.
Proof.
  destruct (read32_spec h b d f o) as (h' & E & Hc). exists h'.
  unfold pci_read16. by rewrite E.
Qed.

Lemma read8_spec h b d f o :
  ∃ h', pci_read8 h b d f o = (field8 (cfg h) b d f o, h') ∧ cfg h' = cfg h.
Proof.
  destruct (read32_spec h b d f o) as (h' & E & Hc). exists h'.
  unfold pci_read8. by rewrite E.
Qed.

(** The table holds the first 128 of the devices [l] met so far. *)
Record scanned (c : Z → Z) l st : Prop := {
  sc_cfg : cfg (io st) = c;
  sc_len : alen (pci_devices st) = PCI_MAX_DEVICES;
  sc_count : pci_device_count st = Z.min PCI_MAX_DEVICES (alen l);
  sc_tab : take (Z.to_nat (pci_device_count st)) (pci_devices st) = take 128 l }.

Lemma scanned_io c l st h :
  scanned c l st → cfg h = c → scanned c l (mk_pci h (pci_devices st) (pci_device_count st)).
Proof. intros [] Hh. by constructor. Qed.

Ltac next_read :=
  match goal with
  | |- context [pci_read16 ?h ?b ?d ?f ?o] =>
      destruct (read16_spec h b d f o) as (? & -> & ?)
  | |- context [pci_read8 ?h ?b ?d ?f ?o] =>
      destruct (read8_spec h b d f o) as (? & -> & ?)
  end.

Lemma take_aset_push {A} `{!Inhabited A} (t : list A) n v :
  0 <= n < alen t → take (Z.to_nat (n + 1)) (t.[n <- v]) = take (Z.to_nat n) t ++ [v].
Proof.
  intros Hn. apply alist_eq; [rewrite alen_app, !alen_firstn, alen_aset, alen_cons, alen_nil; lia|].
  intros i Hi. rewrite alen_firstn, alen_aset in Hi.
  assert (∀ (l : list A) k, 0 <= i < k → (take (Z.to_nat k) l).[i] = l.[i]) as Htk.
  { intros l k Hk. unfold aget. case_match; [lia|].
    by rewrite !list_lookup_total_alt, lookup_take_lt by lia. }
  rewrite Htk, aget_aset by lia. destruct (Z.eqb_spec i n) as [->|].
  - rewrite aget_app_r; rewrite alen_firstn; [|lia].
    by replace (n - _) with 0 by lia.
  - rewrite aget_app_l, Htk; [done|lia|]. rewrite alen_firstn. lia.
Qed.

Lemma try_add_scanned c l st b d f :
  scanned c l st → scanned c (l ++ announced c b d f) (pci_try_add st b d f).
Proof.
  intros Hs. pose proof (sc_cfg _ _ _ Hs) as Hc. pose proof (sc_count _ _ _ Hs) as Hn.
  pose proof (sc_len _ _ _ Hs) as Hlen. pose proof (sc_tab _ _ _ Hs) as Ht.
  pose proof (alen_nonneg l) as Hl. unfold PCI_MAX_DEVICES in *.
  unfold pci_try_add, announced. next_read. rewrite Hc in *.
  destruct (_ =? 0xFFFF); [rewrite app_nil_r; by apply scanned_io|].
  unfold PCI_MAX_DEVICES. destruct (Z.leb_spec 128 (pci_device_count st)).
  - constructor; cbn [io pci_devices pci_device_count]; unfold PCI_MAX_DEVICES;
      rewrite ?alen_app, ?alen_cons, ?alen_nil; [done|done|lia|].
    rewrite Ht, take_app_le; [done|]. unfold alen in *. lia.
  - repeat next_read. repeat match goal with E : cfg _ = cfg _ |- _ => rewrite E in *; clear E end.
    constructor; cbn [io pci_devices pci_device_count]; unfold PCI_MAX_DEVICES;
      rewrite ?alen_aset, ?alen_app, ?alen_cons, ?alen_nil; [congruence|done|lia|].
    rewrite take_aset_push, Ht by lia. rewrite !take_ge; [|unfold alen in *; rewrite ?length_app; simpl; lia..].
    repeat f_equal; congruence.
Qed.

(** A loop whose body appends [f k] to the devices met. *)
Lemma scanned_loop c (f : Z → list pci_device_t) body n i l st :
  (∀ k l st, scanned c l st → scanned c (l ++ f k) (body k st)) →
  scanned c l st →
  scanned c (l ++ concat (map f (seqZ i (Z.of_nat n)))) (for_loop n i body st).
Proof.
  intros Hbody Hs.
  pose proof (for_loop_inv (λ k st, scanned c (l ++ concat (map f (seqZ i (k - i)))) st) n i body st)
    as HI. cbv beta in HI. rewrite (Z.add_comm i), Z.add_simpl_r in HI. apply HI.
  - by rewrite Z.sub_diag, app_nil_r.
  - intros k st' Hk Hst'. replace (k + 1 - i) with (k - i + 1) by lia.
    rewrite seqZ_snoc, concat_map_snoc, app_assoc by lia.
    replace (i + (k - i)) with k by lia. by apply Hbody.
Qed.

Lemma scan_slot_scanned c l st b d :
  scanned c l st → scanned c (l ++ slot_devices c b d) (pci_scan_slot b d st).
Proof.
  intros Hs. pose proof (sc_cfg _ _ _ Hs) as Hc.
  unfold pci_scan_slot, slot_devices. next_read. rewrite Hc in *.
  destruct (_ =? 0xFFFF); [rewrite app_nil_r; by apply scanned_io|].
  cbn [io pci_devices pci_device_count]. next_read.
  match goal with E : cfg ?x = cfg ?y, E' : cfg ?y = c |- _ => rewrite E' in * end.
  rewrite app_assoc. assert (∀ h, cfg h = c → scanned c (l ++ announced c b d 0)
    (pci_try_add (mk_pci h (pci_devices st) (pci_device_count st)) b d 0)) as Hadd.
  { intros. by apply try_add_scanned, scanned_io. }
  case_match; [|rewrite app_nil_r; by apply Hadd].
  apply (scanned_loop c (announced c b d) _ 7 1); [|by apply Hadd].
  intros. by apply try_add_scanned.
Qed.

(** [pci_init] fills the table with exactly the functions present on the bus, in scan
    order (functions 1 to 7 only behind a multi-function function 0), each with the
    identification read from its configuration header, and drops those beyond the
    128th. *)
Theorem pci_init_scans st :
  alen (pci_devices st) = PCI_MAX_DEVICES →
  let st' := pci_init st in
  pci_device_count st' = Z.min 128 (alen (bus_devices (cfg (io st)))) ∧
  take (Z.to_nat (pci_device_count st')) (pci_devices st') = take 128 (bus_devices (cfg (io st))) ∧
  cfg (io st') = cfg (io st).
Proof.
  intros Hlen. cbv zeta.
  assert (scanned (cfg (io st)) [] (mk_pci (io st) (pci_devices st) 0)) as H0 by by constructor.
  assert (scanned (cfg (io st)) (bus_devices (cfg (io st))) (pci_init st)) as [H1 _ H2 H3]; [|done].
  apply (scanned_loop _ (λ b, concat (map (slot_devices (cfg (io st)) b) (seqZ 0 32))) _ 256 0 []);
    [|done].
  intros b l st' Hs. apply (scanned_loop _ (slot_devices (cfg (io st)) b) _ 32 0); [|done].
  intros. by apply scan_slot_scanned.
Qed.

(** The search loops of the table. *)
Lemma find_first (p : pci_device_t → bool) (t : list pci_device_t) m :
  (m <= length t)%nat →
  (λ i, t.[i]) <$> zfind (λ i, p (t.[i])) 0 m = head (filter p (take m t)).
Proof.
  revert t. induction m as [|m IH]; intros t Hle; [done|].
  destruct t as [|x t]; [simpl in Hle; lia|]. cbn [zfind take]. rewrite aget_cons_0, filter_cons.
  destruct (p x) eqn:Hp; simpl; [done|]. rewrite <-IH by (simpl in Hle; lia).
  rewrite (zfind_shift _ 0), <-option_fmap_compose.
  rewrite (zfind_ext _ (λ i, p (t.[i]))).
  - destruct (zfind _ 0 m) as [k|] eqn:E; simpl; [|done]. apply zfind_Some in E.
    rewrite aget_cons_S by lia. by rewrite Z.add_simpl_r.
  - intros j Hj. rewrite aget_cons_S by lia. by rewrite Z.add_simpl_r.
Qed.

(** [pci_find_device] answers the first scanned function with the two identifiers, and
    nothing when no scanned function has them. *)
Theorem pci_find_device_first st vendor device :
  0 <= pci_device_count st <= alen (pci_devices st) →
  pci_find_device st vendor device =
    head (filter (λ d, (vendor_id d =? vendor) && (device_id d =? device))
            (take (Z.to_nat (pci_device_count st)) (pci_devices st))).
Proof.
  intros Hn. unfold pci_find_device.
  apply (find_first (λ d, (vendor_id d =? vendor) && (device_id d =? device))).
  unfold alen in Hn. lia.
Qed.

(** Replacing one half of a double word keeps the other. *)
Lemma half_bits v val :
  0 <= v < 0x100000000 → 0 <= val < 0x10000 →
  let hi := Z.lor (Z.land v 0x0000FFFF) (Z.shiftl val 16) in
  let lo := Z.lor (Z.land v 0xFFFF0000) val in
  (Z.land (Z.shiftr hi 16) 0xFFFF = val ∧ Z.land (Z.shiftr hi 0) 0xFFFF = Z.land (Z.shiftr v 0) 0xFFFF) ∧
  (Z.land (Z.shiftr lo 0) 0xFFFF = val ∧ Z.land (Z.shiftr lo 16) 0xFFFF = Z.land (Z.shiftr v 16) 0xFFFF) ∧
  0 <= hi < 0x100000000 ∧ 0 <= lo < 0x100000000.
Proof.
  intros Hv Hval hi lo.
  assert (∀ k, 0 <= k → Z.testbit 0xFFFF k = (k <? 16)) as Hm.
  { intros k Hk. change 0xFFFF with (Z.ones 16). apply Z.testbit_ones_nonneg; lia. }
  assert (∀ k, 0 <= k → Z.testbit 0xFFFF0000 k = (16 <=? k) && (k <? 32)) as Hm'.
  { intros k Hk. change 0xFFFF0000 with (Z.shiftl (Z.ones 16) 16).
    rewrite Z.shiftl_spec by lia. destruct (Z.leb_spec 16 k).
    - rewrite Z.testbit_ones_nonneg by lia. destruct (Z.ltb_spec (k - 16) 16), (Z.ltb_spec k 32); lia.
    - rewrite Z.testbit_neg_r by lia. done. }
  assert (∀ k, 0 <= k → Z.testbit hi k = if k <? 16 then Z.testbit v k else Z.testbit val (k - 16)) as Hhi.
  { intros k Hk. unfold hi. rewrite Z.lor_spec, Z.land_spec, Hm, Z.shiftl_spec by lia.
    destruct (Z.ltb_spec k 16); rewrite ?andb_true_r, ?andb_false_r; [|done].
    rewrite (Z.testbit_neg_r _ (k - 16)) by lia. by rewrite orb_false_r. }
  assert (∀ k, 0 <= k → Z.testbit lo k = if k <? 16 then Z.testbit val k else Z.testbit v k) as Hlo.
  { intros k Hk. unfold lo. rewrite Z.lor_spec, Z.land_spec, Hm' by lia.
    destruct (Z.ltb_spec k 16), (Z.leb_spec 16 k); try lia; simpl.
    - by rewrite andb_false_r.
    - rewrite (testbit_16 val), orb_false_r by lia. destruct (Z.ltb_spec k 32); [by rewrite andb_true_r|].
      by rewrite word_testbit_high. }
  assert (0 <= hi) by (apply Z.lor_nonneg; split; [apply Z.land_nonneg; lia|apply Z.shiftl_nonneg; lia]).
  assert (0 <= lo) by (apply Z.lor_nonneg; split; [apply Z.land_nonneg; lia|lia]).
  split_and!; try done.
  1-4: apply Z.bits_inj'; intros k Hk; rewrite ?Z.land_spec, ?Hm, ?Z.shiftr_spec, ?Hhi, ?Hlo by lia;
    destruct (Z.ltb_spec k 16); rewrite ?andb_false_r, ?andb_true_r; try done;
    try (symmetry; apply testbit_16; lia); destruct (Z.ltb_spec (k + 16) 16), (Z.ltb_spec (k + 0) 16); try lia.
  1-4: rewrite ?Z.add_simpl_r, ?Z.add_0_r; done.
  all: apply testbit_word_lt; [done|]; intros k Hk; rewrite ?Hhi, ?Hlo by lia;
    destruct (Z.ltb_spec k 16); [lia|].
  - apply testbit_16; lia.
  - by apply word_testbit_high.
Qed.

(** [pci_write16] to a plain register stores the half it names, keeps the other half of
    the double word and touches no other address. *)
Theorem pci_write16_half h b d f o val :
  0 <= o < 256 → Z.odd o = false → 0 <= val < 0x10000 →
  plain (pci_make_addr b d f o) →
  let h' := pci_write16 h b d f o val in
  (pci_read16 h' b d f o).1 = val ∧
  (pci_read16 h' b d f (Z.lxor o 2)).1 = (pci_read16 h b d f (Z.lxor o 2)).1 ∧
  (∀ a, a ≠ pci_make_addr b d f o → cfg h' a = cfg h a).
Proof.
  intros Ho Hodd Hval Hp h'. unfold h', pci_write16, pci_write32.
  destruct (read32_spec h b d f o) as (h1 & -> & Hc1).
  pose proof (half_bits _ val (cfg_word h (pci_make_addr b d f o)) Hval) as (Hhi & Hlo & Rhi & Rlo).
  pose proof (byte_forall (λ o, (Z.land (Z.lxor o 2) 0xFC =? Z.land o 0xFC) &&
    Bool.eqb (nz (Z.land (Z.lxor o 2) 2)) (negb (nz (Z.land o 2)))) eq_refl o Ho) as Hx.
  apply andb_true_iff in Hx as [Hx1%Z.eqb_eq Hx2%Bool.eqb_prop].
  assert (pci_make_addr b d f (Z.lxor o 2) = pci_make_addr b d f o) as Ha
    by (unfold pci_make_addr; by rewrite Hx1).
  set (a := pci_make_addr b d f o) in *.
  set (v := if nz (Z.land o 2) then _ else _).
  assert (0 <= v < 0x100000000) as Hv by (unfold v; case_match; assumption).
  assert (∀ x, cfg (outl (outl h1 PCI_CONFIG_ADDRESS a) PCI_CONFIG_DATA v) x =
    if x =? a then v else cfg h x) as Hw.
  { intros x. rewrite cfg_write, latch_select, cfg_select, Hc1; [done| |done].
    by rewrite latch_select. }
  repeat match goal with |- context [pci_read16 ?h ?b ?d ?f ?o] =>
    destruct (read16_spec h b d f o) as (? & -> & _) end.
  unfold field16, fst. rewrite !Ha. fold a. rewrite !Hw, Z.eqb_refl, Hx2. unfold v.
  split_and!.
  - destruct (nz (Z.land o 2)); simpl; tauto.
  - destruct (nz (Z.land o 2)); simpl; tauto.
  - intros y Hy. rewrite Hw. by destruct (Z.eqb_spec y a).
Qed.
End scan.

(** ** A bus with two devices

    An E1000 in slot 3 of bus 0 and a multi-function bridge in slot 1 whose function 1 is
    an IDE controller; every register is plain. *)

Record toy_bus := mk_toy { toy_latch : Z; toy_cfg : gmap Z Z }.

Definition toy_word (m : gmap Z Z) (a : Z) : Z := u32 (default 0xFFFFFFFF (m !! a)).

#[global] Instance toy_ports : PortIO toy_bus := {
  inb h _ := (0, h);
  inw h _ := (0, h);
  inl h p := (if p =? PCI_CONFIG_DATA then toy_word (toy_cfg h) (toy_latch h) else 0, h);
  outb h _ _ := h;
  outw h _ _ := h;
  outl h p v :=
    if p =? PCI_CONFIG_ADDRESS then mk_toy v (toy_cfg h)
    else if p =? PCI_CONFIG_DATA then mk_toy (toy_latch h) (<[toy_latch h := v]> (toy_cfg h))
    else h }.

#[global] Instance toy_pci : PciConfig toy_bus.
Proof.
  refine {| cfg h := toy_word (toy_cfg h); latch := toy_latch; plain := λ _, True |}.
  all: try done.
  - intros h a. apply u32_range.
  - intros h v a _ Hv. cbn. unfold toy_word. destruct (Z.eqb_spec a (toy_latch h)) as [->|].
    + rewrite lookup_insert_eq. by apply u32_small.
    + by rewrite lookup_insert_ne.
Defined.

Definition demo_bus : toy_bus := mk_toy 0 (list_to_map [
  (pci_make_addr 0 1 0 0x00, 0x70008086); (pci_make_addr 0 1 0 0x08, 0x06010000);
  (pci_make_addr 0 1 0 0x0C, 0x00800000);
  (pci_make_addr 0 1 1 0x00, 0x70108086); (pci_make_addr 0 1 1 0x08, 0x01018000);
  (pci_make_addr 0 3 0 0x00, 0x100E8086); (pci_make_addr 0 3 0 0x08, 0x02000003);
  (pci_make_addr 0 3 0 0x0C, 0x00000000)]).

Definition demo_pci : pci toy_bus := mk_pci demo_bus (replicate 128 inhabitant) 0.

Lemma pci_init_scans_witness :
  pci_device_count (pci_init demo_pci) = 3 ∧
  take 3 (pci_devices (pci_init demo_pci)) =
    [mk_pci_device 0 1 0 0x8086 0x7000 6 1 0 0; mk_pci_device 0 1 1 0x8086 0x7010 1 1 0x80 0;
     mk_pci_device 0 3 0 0x8086 0x100E 2 0 0 3].
Proof.
  destruct (pci_init_scans (PC := toy_pci) demo_pci ltac:(by vm_compute)) as (Hn & Ht & _).
  assert (bus_devices (cfg (io demo_pci)) =
    [mk_pci_device 0 1 0 0x8086 0x7000 6 1 0 0; mk_pci_device 0 1 1 0x8086 0x7010 1 1 0x80 0;
     mk_pci_device 0 3 0 0x8086 0x100E 2 0 0 3]) as E by (vm_compute; reflexivity).
  rewrite E in Hn, Ht. change (Z.min _ _) with 3 in Hn. rewrite Hn in Ht. exact (conj Hn Ht).
Defined.

Definition demo_scanned : pci toy_bus :=
  mk_pci demo_bus ([mk_pci_device 0 1 0 0x8086 0x7000 6 1 0 0; mk_pci_device 0 1 1 0x8086 0x7010 1 1 0x80 0;
     mk_pci_device 0 3 0 0x8086 0x100E 2 0 0 3] ++ replicate 125 inhabitant) 3.

Lemma pci_find_device_first_witness :
  pci_find_device demo_scanned 0x8086 0x100E = Some (mk_pci_device 0 3 0 0x8086 0x100E 2 0 0 3).
Proof.
  assert (0 <= pci_device_count demo_scanned <= alen (pci_devices demo_scanned)) as Hn
    by (vm_compute; split; discriminate).
  refine (eq_trans (pci_find_device_first demo_scanned 0x8086 0x100E Hn) _).
  vm_compute. reflexivity.
Defined.

Lemma pci_write16_half_witness :
  (pci_read16 (pci_write16 demo_bus 0 3 0 0x04 0x0006) 0 3 0 0x04).1 = 6.
Proof.
  exact (proj1 (pci_write16_half (PC := toy_pci) demo_bus 0 3 0 0x04 0x0006
    ltac:(lia) eq_refl ltac:(lia) I)).
Defined.
