(* ===== verification/Diskdev.v ===== *)
(** * drivers/block/ahci.c: start-up and the drives as device nodes

    [ahci_init] composes the PCI table, the page tables, the controller of Ahci.v and devfs.
    The theorem is about the nodes it registers: [ahci_vfs_read] and [ahci_vfs_write] (with
    the file system's world in Fat32.v) read and write the bytes of the disk when the range
    needs no more sectors than its length says; otherwise they leave the bounce buffer. *)

From S2P Require Import Prelude KString Block Pmm Vmm Kheap Vfs Fat32 Pci Ahci.

Definition VMM_CACHE_DISABLE : Z := 0x10.

Record sata_sys (P F S H D : Type) := mk_sata_sys {
  y_pci : pci P; y_vm : vmm F; y_hba : hba S; y_fs : fsw H D; abar_mem : Z }.
Arguments mk_sata_sys {P F S H D}.
Arguments y_pci {P F S H D}.
Arguments y_vm {P F S H D}.
Arguments y_hba {P F S H D}.
Arguments y_fs {P F S H D}.
Arguments abar_mem {P F S H D}.

Section init.
Context {P F S H D : Type} `{PortIO P} `{FrameAllocator F} `{Hba S} `{HeapAlloc H} `{BlockDev D}.
Implicit Types st : sata_sys P F S H D.

Definition w_frames (v : vmm F) (f : F) : vmm F :=
  mk_vmm f (mem v) (kernel_directory v) (current_directory v) (cr3 v).

(** [ksprintf(drive_name, "sd%c", 'a' + port_count)] *)
Definition drive_name (port_count : Z) : list Z := [115; 100; u8 (97 + port_count); 0].

Definition drive_node (name : list Z) (port : Z) : vfs_node :=
  mk_node (kstrncpy (nname zero_node) 0 name 31) 0 0 0 VFS_BLOCK_DEVICE 0 0 0 (Some FS_AHCI) (Some FS_AHCI)
    None None None None None None None 0 port.

(** A SATA drive is set up and registered. *)
Definition attach_drive st (port port_count : Z) : sata_sys P F S H D :=
  let '(f, h) := port_rebase (frames (y_vm st)) (y_hba st) port in
  let name := drive_name port_count in
  let '(node, w) := kmalloc_fs (y_fs st) sizeof_node in
  let w := put_node_fs w node (drive_node name port) in
  mk_sata_sys (y_pci st) (w_frames (y_vm st) f) h (devfs_register_device w name node) (abar_mem st).

Definition w_hba st (h : hba S) : sata_sys P F S H D :=
  mk_sata_sys (y_pci st) (y_vm st) h (y_fs st) (abar_mem st).

(** The port loop: the state and [port_count]. *)
Definition attach_ports st (pi : Z) : sata_sys P F S H D * Z :=
  for_loop 32 0
    (λ i '(st, port_count),
       if Z.testbit pi i then
         let port := port_addr (abar_mem st) i in
         let '(type, h) := check_port_type (y_hba st) port in
         let st := w_hba st h in
         if type =? AHCI_DEV_SATA then (attach_drive st port port_count, port_count + 1)
         else if type =? AHCI_DEV_SATAPI then (st, port_count + 1)
         else (st, port_count)
       else (st, port_count)) (st, 0).

Definition ahci_init st : sata_sys P F S H D :=
  match pci_find_class (y_pci st) 0x01 0x06 with
  | None => st
  | Some dev =>
      let '(abar_phys, io) := pci_read32 (Pci.io (y_pci st)) (bus dev) (Pci.dev dev) (func dev) 0x24 in
      let st := mk_sata_sys (mk_pci io (pci_devices (y_pci st)) (pci_device_count (y_pci st)))
                  (y_vm st) (y_hba st) (y_fs st) (abar_mem st) in
      if nz (Z.land abar_phys 1) then st
      else
        let abar_phys := Z.land abar_phys 0xFFFFFFF0 in
        let aligned_phys := Z.land abar_phys 0xFFFFF000 in
        let '(ok, v) := vmm_map_page (y_vm st) aligned_phys aligned_phys
                          (Z.lor (Z.lor VMM_PRESENT VMM_WRITABLE) VMM_CACHE_DISABLE) in
        let st := mk_sata_sys (y_pci st) v (y_hba st) (y_fs st) (abar_mem st) in
        if negb ok then st
        else
          let st := mk_sata_sys (y_pci st) (y_vm st) (y_hba st) (y_fs st) abar_phys in
          let '(ghc, h) := reg_rd (y_hba st) (abar_phys + GHC) in
          let h := reg_wr h (abar_phys + GHC) (Z.lor ghc 0x80000000) in
          let '(pi, h) := reg_rd h (abar_phys + PI) in
          (attach_ports (w_hba st h) pi).1
  end.
End init.

(** ** The bytes of a disk *)

Section nodes.
Context {H D : Type} `{HeapAlloc H} `{BlockDev D} `{BL : !BlockDevLaws D sec} `{HT : !HeapTemp H room}.
Variable fresh : H → Z → Z → list Z.
Hypothesis fresh_len : ∀ h p n, 0 <= n → alen (fresh h p n) = n.
Hypothesis fresh_bytes : ∀ h p n, bytes_ok (fresh h p n).
Implicit Types (w : fsw H D) (node : Z).

Definition disk_byte (d : D) (v : bool * Z) (a : Z) : Z := (sec d v (a / 512)).[a mod 512].

Lemma sectors_byte d v lba n k :
  0 <= k < 512 * n → (sectors (sec d v) lba n).[k] = disk_byte d v (512 * lba + k).
Proof.
  intros Hk. unfold sectors, disk_byte. rewrite <-(Z2Nat.id n) in Hk |- * by lia.
  generalize dependent k. generalize dependent lba. induction (Z.to_nat n) as [|m IH]; intros lba k Hk; [lia|].
  rewrite seqZ_cons by lia. cbn [map concat]. pose proof (sec_len d v lba) as Hl.
  replace (Z.pred (Z.of_nat (Datatypes.S m))) with (Z.of_nat m) by lia. rewrite <-Z.add_1_r.
  destruct (Z.lt_ge_cases k 512).
  - rewrite aget_app_l by lia. replace ((512 * lba + k) / 512) with lba by zlia. f_equal. zlia.
  - rewrite aget_app_r by lia. rewrite Hl, IH by lia.
    by replace (512 * (lba + 1) + (k - 512)) with (512 * lba + k) by lia.
Qed.

Lemma alen_disk_sectors d v lba n : 0 <= n → alen (sectors (sec d v) lba n) = 512 * n.
Proof.
  intros Hn. unfold sectors. rewrite <-(Z2Nat.id n) at 2 by done. rewrite <-(length_seqZ lba n).
  induction (seqZ lba n) as [|x l IH]; [done|]. cbn [map concat length]. rewrite alen_app, sec_len, IH. lia.
Qed.

Lemma bytes_disk_sectors d v lba n : bytes_ok (sectors (sec d v) lba n).
Proof.
  unfold sectors. induction (seqZ lba n) as [|x l IH]; [constructor|]. cbn [map concat].
  apply Forall_app. split; [apply sec_bytes|done].
Qed.

(** The sectors a request for [size] bytes transfers. *)
Definition request_sectors (size : Z) : Z := (size + 511) / 512.

Record request w node (offset size : Z) (buffer : list Z) : Prop := {
  rq_size : 0 < size < 0x10000;
  rq_offset : 0 <= offset;
  rq_reach : transfer_ok (true, device_data (node_fs w node)) (offset / 512) (request_sectors size);
  rq_room : room (fs_heap w) (512 * request_sectors size);
  rq_buffer : alen buffer = size;
  rq_bytes : bytes_ok buffer }.

Lemma node_read_spec w node offset size buffer :
  request w node offset size buffer →
  let d := fs_disk w in
  let v := (true, device_data (node_fs w node)) in
  if offset mod 512 + size <=? 512 * request_sectors size then
    ∃ b w', ahci_vfs_read fresh w node offset size buffer = Done (size, b, w') ∧ fs_disk w' = d ∧
      alen b = size ∧ ∀ k, 0 <= k < size → b.[k] = disk_byte d v (offset + k)
  else ahci_vfs_read fresh w node offset size buffer = Fault.
Proof.
  intros [Hsz Hoff Hreach Hroom Hbuf Hby]. cbv zeta. unfold ahci_vfs_read.
  rewrite (u32_small (size + 511)) by lia. fold (request_sectors size). set (n := request_sectors size) in *.
  pose proof (transfer_pos _ _ _ Hreach) as [_ Hn]. rewrite (u32_small (n * 512)) by lia.
  replace (n * 512) with (512 * n) by lia.
  destruct (kmalloc_fs_ok w (512 * n) Hroom) as (p & w1 & -> & Hp & Hd & _). rewrite (proj2 (Z.eqb_neq p 0)) by done.
  rewrite Hd, ahci_reads by done.
  pose proof (alen_disk_sectors (fs_disk w) (true, device_data (node_fs w node)) (offset / 512) n ltac:(lia)) as Hl.
  rewrite splice_full by (rewrite fresh_len; lia).
  destruct (Z.leb_spec (offset mod 512 + size) (512 * n)).
  - rewrite memcpy_ck_spec, outcome_bind_done by (apply bytes_disk_sectors || zlia).
    eexists _, _. split; [reflexivity|]. split; [done|].
    rewrite splice_full by (rewrite alen_sub by zlia; lia). split; [apply alen_sub; zlia|].
    intros k Hk. rewrite aget_sub, sectors_byte by zlia. f_equal. zlia.
  - by rewrite memcpy_ck_fault by lia.
Qed.

(** The bounce buffer of a write: what is on disk, or anything when all of it is replaced. *)
Lemma node_write_spec w node offset size buffer :
  request w node offset size buffer →
  let d := fs_disk w in
  let v := (true, device_data (node_fs w node)) in
  if offset mod 512 + size <=? 512 * request_sectors size then
    ∃ w', ahci_vfs_write fresh w node offset size buffer = Done (size, w') ∧
      ∀ v' a, 0 <= a → disk_byte (fs_disk w') v' a =
        if bool_decide (v' = v ∧ offset <= a < offset + size) then buffer.[a - offset] else disk_byte d v' a
  else ahci_vfs_write fresh w node offset size buffer = Fault.
Proof.
  intros [Hsz Hoff Hreach Hroom Hbuf Hby]. cbv zeta. unfold ahci_vfs_write.
  rewrite (u32_small (size + 511)) by lia. fold (request_sectors size). set (n := request_sectors size) in *.
  assert (512 * (n - 1) < size <= 512 * n) as Hnn by (unfold n, request_sectors; zlia).
  pose proof (transfer_pos _ _ _ Hreach) as [_ Hn]. rewrite (u32_small (n * 512)) by lia.
  replace (n * 512) with (512 * n) by lia.
  destruct (kmalloc_fs_ok w (512 * n) Hroom) as (p & w1 & -> & Hp & Hd & _). rewrite (proj2 (Z.eqb_neq p 0)) by done.
  set (v := (true, device_data (node_fs w node))) in *. rewrite Hd, ahci_reads by done. fold v.
  pose proof (alen_disk_sectors (fs_disk w) v (offset / 512) n ltac:(lia)) as Hl. cbn [fmap option_fmap option_map].
  rewrite splice_full by (rewrite fresh_len; lia).
  set (part := nz (offset mod 512) || nz (size mod 512)).
  set (b := if part then sectors (sec (fs_disk w) v) (offset / 512) n else fresh (fs_heap w1) p (512 * n)).
  assert ((if part then Some (sectors (sec (fs_disk w) v) (offset / 512) n) else Some (fresh (fs_heap w1) p (512 * n))) = Some b)
    as -> by (unfold b; by destruct part).
  assert (alen b = 512 * n) as Hb by (unfold b; destruct part; [done|apply fresh_len; lia]).
  assert (bytes_ok b) as Hbok by (unfold b; destruct part; [apply bytes_disk_sectors|apply fresh_bytes]).
  assert (∀ k, 0 <= k < 512 * n → ¬ (offset mod 512 <= k < offset mod 512 + size) →
    b.[k] = disk_byte (fs_disk w) v (512 * (offset / 512) + k)) as Hkeep.
  { intros k Hk Hout. unfold b. destruct part eqn:Ep; [by apply sectors_byte|].
    unfold part, nz in Ep. apply orb_false_iff in Ep as [E1 E2]. apply negb_false_iff, Z.eqb_eq in E1, E2. zlia. }
  clearbody b. destruct (Z.leb_spec (offset mod 512 + size) (512 * n)).
  2: { by rewrite memcpy_ck_fault by lia. }
  rewrite memcpy_ck_spec, outcome_bind_done by (done || zlia).
  replace (sub buffer 0 size) with buffer by (rewrite <-Hbuf; symmetry; apply sub_full).
  set (b' := splice b (offset mod 512) buffer).
  assert (alen b' = 512 * n) as Hb' by (unfold b'; rewrite alen_splice; zlia).
  destruct (ahci_writes (fs_disk w) (device_data (node_fs w node)) (offset / 512) n b') as (d' & -> & Hup); [done|done| |].
  { by apply bytes_ok_splice. }
  eexists. split; [reflexivity|]. cbn [fs_disk kfree_fs w_heap_fs w_disk]. intros v' a Ha.
  unfold disk_byte at 1. rewrite Hup. fold v.
  destruct (decide (v' = v ∧ offset / 512 <= a / 512 < offset / 512 + n)) as [[-> Hin]|Hout].
  - rewrite bool_decide_true by done. rewrite aget_sub by zlia. unfold b'. rewrite aget_splice by zlia.
    destruct (decide (offset <= a < offset + size)) as [Hr|Hr].
    + rewrite bool_decide_true by done. destruct (Z.leb_spec (offset mod 512) (512 * (a / 512 - offset / 512) + a mod 512)),
        (Z.ltb_spec (512 * (a / 512 - offset / 512) + a mod 512) (offset mod 512 + alen buffer)); try zlia.
      cbn. f_equal. zlia.
    + rewrite bool_decide_false by tauto. destruct (Z.leb_spec (offset mod 512) (512 * (a / 512 - offset / 512) + a mod 512)),
        (Z.ltb_spec (512 * (a / 512 - offset / 512) + a mod 512) (offset mod 512 + alen buffer)); try zlia; cbn;
        (rewrite Hkeep by zlia; f_equal; zlia).
  - rewrite !bool_decide_false; [done| |done]. intros [-> Hr]. apply Hout. split; [done|]. zlia.
Qed.

(** A drive's node gives the bytes of the disk: when the range of a request lies in the
    sectors its length alone needs, a read returns the bytes at the offset and leaves the disk
    as it is, and a write replaces exactly these bytes, also within sectors; when the range
    crosses one sector more, both leave their bounce buffer. *)
Theorem disk_node_bytes w node offset size buffer :
  request w node offset size buffer →
  let d := fs_disk w in
  let v := (true, device_data (node_fs w node)) in
  if offset mod 512 + size <=? 512 * request_sectors size then
    (∃ b w', ahci_vfs_read fresh w node offset size buffer = Done (size, b, w') ∧ fs_disk w' = d ∧
       alen b = size ∧ ∀ k, 0 <= k < size → b.[k] = disk_byte d v (offset + k)) ∧
    (∃ w', ahci_vfs_write fresh w node offset size buffer = Done (size, w') ∧
       ∀ v' a, 0 <= a → disk_byte (fs_disk w') v' a =
         if bool_decide (v' = v ∧ offset <= a < offset + size) then buffer.[a - offset] else disk_byte d v' a)
  else ahci_vfs_read fresh w node offset size buffer = Fault ∧
       ahci_vfs_write fresh w node offset size buffer = Fault.
Proof.
  intros Hr. pose proof (node_read_spec w node offset size buffer Hr) as Hread.
  pose proof (node_write_spec w node offset size buffer Hr) as Hwrite. cbv zeta in *.
  by destruct (_ <=? _).
Qed.
End nodes.

(** ** Witness: the heap and the disk in memory of Fat32.v *)

Definition demo_drive : fsw kheap ramdisk :=
  mk_fsw demo_heap ∅ {[ 16 := drive_node (drive_name 0) 0xFEBF1100 ]} demo_fat 0 (replicate 32 0) 0.

Lemma demo_request offset : 0 <= offset < 512 → request (room := kheap_room) demo_drive 16 offset 4 [1; 2; 3; 4].
Proof.
  intros Ho. constructor; try done.
  - lia.
  - change (request_sectors 4) with 1. apply transfer_1. zlia.
  - exact demo_room.
  - repeat constructor; lia.
Qed.

Lemma disk_node_bytes_witness :
  (∃ w', ahci_vfs_write zeros demo_drive 16 100 4 [1; 2; 3; 4] = Done (4, w') ∧
     disk_byte (sec := ram_sec) (fs_disk w') (true, 0xFEBF1100) 102 = 3 ∧
     disk_byte (sec := ram_sec) (fs_disk w') (true, 0xFEBF1100) 99 = 0) ∧
  ahci_vfs_read zeros demo_drive 16 510 4 [1; 2; 3; 4] = Fault.
Proof.
  assert (∀ h p n, bytes_ok (zeros h p n)) as Hz by (intros; apply Forall_replicate; lia).
  split.
  - pose proof (disk_node_bytes zeros (BL := ram_laws) (HT := kheap_temp) zeros_len Hz demo_drive 16 100 4 [1; 2; 3; 4]
      (demo_request 100 ltac:(lia))) as H1. cbv zeta in H1. change (100 mod 512 + 4 <=? 512 * request_sectors 4) with true in H1.
    destruct H1 as (_ & w' & E & Hb). exists w'. split; [exact E|].
    split; (rewrite Hb by lia; vm_compute; reflexivity).
  - pose proof (disk_node_bytes zeros (BL := ram_laws) (HT := kheap_temp) zeros_len Hz demo_drive 16 510 4 [1; 2; 3; 4]
      (demo_request 510 ltac:(lia))) as H1. cbv zeta in H1. change (510 mod 512 + 4 <=? 512 * request_sectors 4) with false in H1.
    apply H1.
Defined.
