(* ===== verification/Nic.v ===== *)
(** * Network cards: net/ethernet/ethernet.c (Intel E1000) and drivers/net/rtl8169.c

    The cards are hardware: [NicHw] gives the effect of the register accesses, and what a
    card writes into the descriptor rings it shares with the driver happens between driver
    calls (the steps [card_rx] and [card_tx] below).  A loop that polls a descriptor takes the
    values its successive volatile reads return as an argument.  The addresses the linker
    gives the static rings are section variables.

    Memory outside an object is a [Fault]. *)

From S2P Require Import Prelude KString Pmm Vmm Pci.

Class NicHw (D : Type) := {
  mmio_r : D → Z → Z * D;
  mmio_w : D → Z → Z → D }.

(** The first 14 bytes of a frame: [frame[i] = dst_mac[i]], [frame[6 + i] = mac[i]] and
    the EtherType, most significant byte first. *)
Definition frame_header (frame dst_mac mac : list Z) (ethertype : Z) : list Z :=
  let frame := for_loop 6 0 (λ i f, f.[i <- dst_mac.[i]]) frame in
  let frame := for_loop 6 0 (λ i f, f.[6 + i <- mac.[i]]) frame in
  let frame := frame.[12 <- Z.land (Z.shiftr ethertype 8) 0xFF] in
  frame.[13 <- Z.land ethertype 0xFF].

Definition header_bytes (dst_mac mac : list Z) (ethertype : Z) : list Z :=
  sub dst_mac 0 6 ++ sub mac 0 6 ++ [Z.land (Z.shiftr ethertype 8) 0xFF; Z.land ethertype 0xFF].

Lemma alen_header dst mac ty :
  6 <= alen dst → 6 <= alen mac → alen (header_bytes dst mac ty) = 14.
Proof. intros. unfold header_bytes. rewrite !alen_app, !alen_sub by lia. done. Qed.

Lemma frame_header_spec frame dst mac ty :
  14 <= alen frame → 6 <= alen dst → 6 <= alen mac →
  frame_header frame dst mac ty = splice frame 0 (header_bytes dst mac ty).
Proof.
  intros Hf Hd Hm. unfold frame_header, header_bytes.
  assert (alen (sub dst 0 6) = 6) as Ld by (rewrite alen_sub; lia).
  assert (alen (sub mac 0 6) = 6) as Lm by (rewrite alen_sub; lia).
  rewrite (copy_loop frame 0 dst 0 6) by (done || lia). change (Z.of_nat 6) with 6.
  assert (alen (splice frame 0 (sub dst 0 6)) = alen frame) as L1 by (apply alen_splice; lia).
  rewrite (copy_loop _ 6 mac 0 6) by (done || lia). change (Z.of_nat 6) with 6.
  assert (alen (splice (splice frame 0 (sub dst 0 6)) 6 (sub mac 0 6)) = alen frame) as L2
    by (rewrite alen_splice; lia).
  rewrite <-(splice_1 _ 12), <-(splice_1 _ 13) by (rewrite ?alen_splice; rewrite ?alen_cons, ?alen_nil; lia).
  rewrite (splice_append _ (sub dst 0 6) 6) by lia.
  assert (alen (sub dst 0 6 ++ sub mac 0 6) = 12) as L3 by (rewrite alen_app; lia).
  rewrite splice_append by (rewrite ?alen_cons, ?alen_nil; lia).
  rewrite splice_append; [by rewrite <-!app_assoc|by rewrite alen_app, L3|].
  rewrite alen_cons, alen_nil; lia.
Qed.

(** Header and payload form the frame. *)
Lemma frame_built frame dst mac ty payload n :
  bytes_ok payload → 14 + n <= alen frame → 6 <= alen dst → 6 <= alen mac → 0 <= n <= alen payload →
  memcpy_ck (frame_header frame dst mac ty) 14 payload 0 n =
    Done (splice frame 0 (header_bytes dst mac ty ++ sub payload 0 n)).
Proof.
  intros. pose proof (alen_header dst mac ty ltac:(lia) ltac:(lia)) as Hh.
  pose proof (alen_sub payload 0 n ltac:(lia) ltac:(lia) ltac:(lia)) as Hs.
  rewrite frame_header_spec by lia. rewrite memcpy_ck_spec; try done; try lia.
  - by rewrite splice_append by lia.
  - rewrite alen_splice by lia. lia.
Qed.

(** ** drivers/net/rtl8169.c *)

Module Rtl8169.

Definition REG_MAC : Z := 0x00.
Definition REG_TNPDS : Z := 0x20.
Definition REG_CMD : Z := 0x37.
Definition REG_TPPOLL : Z := 0x38.
Definition REG_IMR : Z := 0x3C.
Definition REG_ISR : Z := 0x3E.
Definition REG_TCR : Z := 0x40.
Definition REG_RCR : Z := 0x44.
Definition REG_9346CR : Z := 0x50.
Definition REG_RMS : Z := 0xDA.
Definition REG_RDSAR : Z := 0xE4.
Definition REG_MTPS : Z := 0xEC.
Definition NUM_DESC : Z := 16.
Definition PACKET_SIZE : Z := 1536.

Definition OWN : Z := Z.shiftl 1 31.
Definition EOR : Z := Z.shiftl 1 30.

Record rtl8169_desc_t := mk_desc { command : Z; vlan : Z; low_buf : Z; high_buf : Z }.
#[global] Instance desc_inhabited : Inhabited rtl8169_desc_t := populate (mk_desc 0 0 0 0).

Definition w_command (v : Z) (d : rtl8169_desc_t) : rtl8169_desc_t :=
  mk_desc v (vlan d) (low_buf d) (high_buf d).

Record rtl (D : Type) := mk_rtl {
  port : D;
  rtl_ready : bool;
  io_base : Z;
  rtl_mac : list Z;
  rtl_rx_descs : list rtl8169_desc_t;
  rtl_tx_descs : list rtl8169_desc_t;
  rtl_rx_buf : list (list Z);
  rtl_tx_buf : list (list Z);
  rx_cur : Z;
  tx_cur : Z }.
Arguments mk_rtl {D}.
Arguments port {D}.
Arguments rtl_ready {D}.
Arguments io_base {D}.
Arguments rtl_mac {D}.
Arguments rtl_rx_descs {D}.
Arguments rtl_tx_descs {D}.
Arguments rtl_rx_buf {D}.
Arguments rtl_tx_buf {D}.
Arguments rx_cur {D}.
Arguments tx_cur {D}.

Section ops.
Context {D : Type} `{PortIO D}.
(** Link addresses of the static rings and buffers. *)
Variables rx_descs_addr tx_descs_addr rx_buf_addr tx_buf_addr : Z.
Implicit Types st : rtl D.

(** [while ((inb(cmd) & 0x10) && spin--);] *)
Fixpoint reset_wait (n : nat) (h : D) (p : Z) : D :=
  match n with
  | O => h
  | S n' =>
      let '(v, h) := inb h p in
      if nz (Z.land v 0x10) then reset_wait n' h p else h
  end.

(** Bus mastering through the PCI command register. *)
Definition bus_master (h : D) (d : pci_device_t) : D :=
  let cmd_addr := Z.lor (Z.lor (Z.lor (Z.lor (Z.shiftl 1 31) (Z.shiftl (bus d) 16))
                    (Z.shiftl (dev d) 11)) (Z.shiftl (func d) 8)) 0x04 in
  let '(cmd, h) := inl (outl h 0xCF8 cmd_addr) 0xCFC in
  outl (outl h 0xCF8 cmd_addr) 0xCFC (Z.lor cmd 0x04).

Definition init_rx_ring : list rtl8169_desc_t :=
  let r := for_loop 16 0
    (λ i r, r.[i <- mk_desc (Z.lor OWN PACKET_SIZE) 0 (V2P (u32 (rx_buf_addr + PACKET_SIZE * i))) 0])
    (replicate 16 (mk_desc 0 0 0 0)) in
  r.[NUM_DESC - 1 <- w_command (Z.lor (command (r.[NUM_DESC - 1])) EOR) (r.[NUM_DESC - 1])].

Definition init_tx_ring : list rtl8169_desc_t :=
  let r := for_loop 16 0
    (λ i r, r.[i <- mk_desc 0 0 (V2P (u32 (tx_buf_addr + PACKET_SIZE * i))) 0])
    (replicate 16 (mk_desc 0 0 0 0)) in
  r.[NUM_DESC - 1 <- w_command (Z.lor (command (r.[NUM_DESC - 1])) EOR) (r.[NUM_DESC - 1])].

(** Steps 5 to 10: ring addresses, TCR, RCR, lock, interrupts off. *)
Definition configure (h : D) (io : Z) : D :=
  let h := outl h (u16 (io + REG_TNPDS)) (V2P tx_descs_addr) in
  let h := outl h (u16 (io + REG_TNPDS + 4)) 0 in
  let h := outl h (u16 (io + REG_RDSAR)) (V2P rx_descs_addr) in
  let h := outl h (u16 (io + REG_RDSAR + 4)) 0 in
  let h := outl h (u16 (io + REG_TCR)) (Z.lor (Z.shiftl 3 24) (Z.shiftl 7 8)) in
  let h := outl h (u16 (io + REG_RCR)) (Z.lor (Z.shiftl 7 8) 0x0F) in
  let h := outb h (u16 (io + REG_9346CR)) 0x00 in
  let h := outw h (u16 (io + REG_IMR)) 0x0000 in
  outw h (u16 (io + REG_ISR)) 0xFFFF.

Definition read_mac (h : D) (io : Z) (mac : list Z) : list Z * D :=
  for_loop 6 0 (λ i '(m, h), let '(v, h) := inb h (u16 (io + REG_MAC + i)) in (m.[i <- v], h)) (mac, h).

Definition rtl8169_init st (pdev : option pci_device_t) : bool * rtl D :=
  match pdev with
  | None => (false, st)
  | Some d =>
      let '(bar0, h) := pci_read32 (port st) (bus d) (dev d) (func d) 0x10 in
      if negb (nz (Z.land bar0 1)) then
        (false, mk_rtl h (rtl_ready st) (io_base st) (rtl_mac st) (rtl_rx_descs st) (rtl_tx_descs st)
                  (rtl_rx_buf st) (rtl_tx_buf st) (rx_cur st) (tx_cur st))
      else
        let io := Z.land bar0 (u32 (Z.lnot 3)) in
        let h := bus_master h d in
        let h := outb h (u16 (io + REG_CMD)) 0x10 in
        let h := reset_wait (Z.to_nat 1000001) h (u16 (io + REG_CMD)) in
        let h := outb h (u16 (io + REG_9346CR)) 0xC0 in
        let h := outw h (u16 (io + REG_RMS)) PACKET_SIZE in
        let h := outb h (u16 (io + REG_MTPS)) 0x3F in
        let h := configure h io in
        let '(mac, h) := read_mac h io (rtl_mac st) in
        let h := outb h (u16 (io + REG_CMD)) 0x0C in
        (true, mk_rtl h true io mac init_rx_ring init_tx_ring (rtl_rx_buf st) (rtl_tx_buf st) 0 0)
  end.

(** [while ((command & OWN) && timeout--);]: the value of [timeout] after the loop, when
    the [k]-th read of the OWN bit gives [own k]. *)
Fixpoint own_wait (n : nat) (own : nat → bool) (k : nat) (timeout : Z) : Z :=
  match n with
  | O => timeout
  | S n' =>
      if own k then
        if timeout =? 0 then u32 (timeout - 1) else own_wait n' own (S k) (timeout - 1)
      else timeout
  end.

Definition SEND_TIMEOUT : Z := 1000000.

Definition rtl8169_send (own : nat → bool) st (dst_mac : list Z) (ethertype : Z) (payload : list Z)
    (len : Z) : outcome (bool * rtl D) :=
  if negb (rtl_ready st) then Done (false, st)
  else
    let timeout := own_wait (Z.to_nat (SEND_TIMEOUT + 1)) own 0 SEND_TIMEOUT in
    if timeout =? 0 then Done (false, st)
    else
      let cur := tx_cur st in
      let frame := frame_header ((rtl_tx_buf st).[cur]) dst_mac (rtl_mac st) ethertype in
      let total := if PACKET_SIZE <? 14 + len then PACKET_SIZE else 14 + len in
      frame ← memcpy_ck frame 14 payload 0 (total - 14);
      let cmd_val := Z.lor (Z.lor (Z.lor OWN (Z.shiftl 1 29)) (Z.shiftl 1 28)) total in
      let cmd_val := if cur =? NUM_DESC - 1 then Z.lor cmd_val EOR else cmd_val in
      Done (true, mk_rtl (outb (port st) (u16 (io_base st + REG_TPPOLL)) 0x40) (rtl_ready st) (io_base st)
        (rtl_mac st) (rtl_rx_descs st)
        ((rtl_tx_descs st).[cur <- w_command cmd_val ((rtl_tx_descs st).[cur])])
        (rtl_rx_buf st) ((rtl_tx_buf st).[cur <- frame]) (rx_cur st) ((cur + 1) mod NUM_DESC)).

(** The result, the buffer and the state. *)
Definition rtl8169_receive st (buf : list Z) (maxlen : Z) : outcome (Z * list Z * rtl D) :=
  if negb (rtl_ready st) then Done (-1, buf, st)
  else
    let cur := rx_cur st in
    let cmd_val := command ((rtl_rx_descs st).[cur]) in
    if nz (Z.land cmd_val OWN) then Done (0, buf, st)
    else
      let len := Z.land cmd_val 0x3FFF in
      let len := if maxlen <? len then maxlen else len in
      buf ← memcpy_ck buf 0 ((rtl_rx_buf st).[cur]) 0 len;
      let restore_cmd := Z.lor OWN PACKET_SIZE in
      let restore_cmd := if cur =? NUM_DESC - 1 then Z.lor restore_cmd EOR else restore_cmd in
      Done (len, buf, mk_rtl (port st) (rtl_ready st) (io_base st) (rtl_mac st)
        ((rtl_rx_descs st).[cur <- w_command restore_cmd ((rtl_rx_descs st).[cur])])
        (rtl_tx_descs st) (rtl_rx_buf st) (rtl_tx_buf st) ((cur + 1) mod NUM_DESC) (tx_cur st)).

Definition rtl8169_is_ready st : bool := rtl_ready st.

Definition rtl8169_get_mac st (mac : list Z) : list Z :=
  for_loop 6 0 (λ i m, m.[i <- (rtl_mac st).[i]]) mac.
End ops.

Lemma own_wait_zero own m k :
  Z.of_nat m < 0x100000000 →
  own_wait (S m) own k (Z.of_nat m) = 0 ↔
  (∀ j, (k <= j < k + m)%nat → own j = true) ∧ own (k + m)%nat = false.
Proof.
  assert (∀ n k t, own_wait (S n) own k t =
    if own k then if t =? 0 then u32 (t - 1) else own_wait n own (S k) (t - 1) else t) as HS by done.
  revert k. induction m as [|m IH]; intros k Hm; rewrite HS.
  - rewrite Nat.add_0_r. destruct (own k) eqn:E.
    + split; [done|]. by intros [_ ?].
    + split; [|done]. intros _. split; [lia|done].
  - destruct (own k) eqn:E.
    + destruct (Z.eqb_spec (Z.of_nat (S m)) 0); [lia|].
      replace (Z.of_nat (S m) - 1) with (Z.of_nat m) by lia. rewrite IH by lia.
      replace (S k + m)%nat with (k + S m)%nat by lia. split; intros [Ha Hb]; (split; [|done]); intros j Hj.
      * destruct (decide (j = k)) as [->|]; [done|]. apply Ha. lia.
      * apply Ha. lia.
    + split; [lia|]. intros [Ha _]. rewrite Ha in E; [done|lia].
Qed.

Lemma own_wait_send own :
  own_wait (Z.to_nat (SEND_TIMEOUT + 1)) own 0 SEND_TIMEOUT = 0 ↔
  (∀ j, (j < Z.to_nat SEND_TIMEOUT)%nat → own j = true) ∧ own (Z.to_nat SEND_TIMEOUT) = false.
Proof.
  pose proof (own_wait_zero own (Z.to_nat SEND_TIMEOUT) 0) as H.
  replace (Z.to_nat (SEND_TIMEOUT + 1)) with (S (Z.to_nat SEND_TIMEOUT)) by (unfold SEND_TIMEOUT; lia).
  rewrite Z2Nat.id in H by (unfold SEND_TIMEOUT; lia). rewrite H by (unfold SEND_TIMEOUT; lia).
  cbn [Nat.add]. split; intros [Ha Hb]; (split; [|exact Hb]); intros j Hj; apply Ha; lia.
Qed.

(** [rtl8169_send] reports a full transmit queue only when the card releases the descriptor
    exactly at the last poll; when the card never releases it, [timeout] has wrapped to
    0xFFFFFFFF, the frame and the command of the descriptor the card still owns are
    overwritten and the result is success. *)
Theorem rtl_send_busy_descriptor {D} `{PortIO D} own (st : rtl D) dst ty payload len :
  rtl_ready st = true → 0 <= tx_cur st < 16 → alen (rtl_tx_descs st) = 16 →
  alen (rtl_tx_buf st) = 16 → alen ((rtl_tx_buf st).[tx_cur st]) = PACKET_SIZE →
  6 <= alen dst → alen (rtl_mac st) = 6 → bytes_ok payload → 0 <= len <= PACKET_SIZE - 14 →
  len <= alen payload →
  ∃ ok st', rtl8169_send own st dst ty payload len = Done (ok, st') ∧
    (ok = false ↔ (∀ j, (j < Z.to_nat SEND_TIMEOUT)%nat → own j = true) ∧
                  own (Z.to_nat SEND_TIMEOUT) = false) ∧
    (ok = false → st' = st) ∧
    (ok = true →
       (rtl_tx_buf st').[tx_cur st] =
         splice ((rtl_tx_buf st).[tx_cur st]) 0 (header_bytes dst (rtl_mac st) ty ++ sub payload 0 len) ∧
       Z.testbit (command ((rtl_tx_descs st').[tx_cur st])) 31 = true ∧
       tx_cur st' = (tx_cur st + 1) mod 16).
Proof.
  intros Hr Hc Hd Hb Hs Hdst Hmac Hok Hlen Hp. unfold rtl8169_send. rewrite Hr. cbn [negb].
  generalize (own_wait_send own).
  generalize (own_wait (Z.to_nat (SEND_TIMEOUT + 1)) own 0 SEND_TIMEOUT).
  intros t HW. destruct (Z.eqb_spec t 0) as [Ht|Ht].
  { exists false, st. split; [reflexivity|]. split; [|split; done]. rewrite <-HW. done. }
  unfold PACKET_SIZE in *. destruct (Z.ltb_spec 1536 (14 + len)); [lia|].
  replace (14 + len - 14) with len by lia. rewrite frame_built by (done || lia).
  rewrite outcome_bind_done. eexists true, _. split; [reflexivity|].
  split; [rewrite <-HW; split; [done|by intros ->]|]. split; [done|]. intros _. cbn [rtl_tx_buf rtl_tx_descs tx_cur]. rewrite !aget_aset_eq by lia.
  split; [done|]. split; [|done]. cbn [w_command command].
  case_match; rewrite !Z.lor_spec; unfold OWN; rewrite Z.shiftl_1_l, Z.pow2_bits_true by lia; done.
Qed.

(** A received frame is the oldest the card released, and the descriptor goes back to the
    card with its end-of-ring mark kept. *)
Theorem rtl_receive_oldest {D} `{PortIO D} (st : rtl D) buf maxlen :
  rtl_ready st = true → 0 <= rx_cur st < 16 → alen (rtl_rx_descs st) = 16 →
  let cmd := command ((rtl_rx_descs st).[rx_cur st]) in
  let n := Z.min maxlen (Z.land cmd 0x3FFF) in
  0 <= maxlen <= alen buf → 0 <= cmd → Z.land cmd 0x3FFF <= alen ((rtl_rx_buf st).[rx_cur st]) →
  bytes_ok ((rtl_rx_buf st).[rx_cur st]) →
  if Z.testbit cmd 31 then rtl8169_receive st buf maxlen = Done (0, buf, st)
  else ∃ st', rtl8169_receive st buf maxlen =
         Done (n, splice buf 0 (sub ((rtl_rx_buf st).[rx_cur st]) 0 n), st') ∧
       rx_cur st' = (rx_cur st + 1) mod 16 ∧
       ∀ i, 0 <= i < 16 →
         command ((rtl_rx_descs st').[i]) =
           if i =? rx_cur st
           then Z.lor (Z.lor OWN PACKET_SIZE) (if i =? 15 then EOR else 0)
           else command ((rtl_rx_descs st).[i]).
Proof.
  intros Hr Hc Hd cmd n Hm Hcmd Hlen Hok. unfold rtl8169_receive. rewrite Hr. cbn [negb]. fold cmd.
  assert (nz (Z.land cmd OWN) = Z.testbit cmd 31) as ->.
  { unfold nz, OWN. rewrite Z.shiftl_1_l. destruct (Z.testbit cmd 31) eqn:E.
    - destruct (Z.eqb_spec (Z.land cmd (2 ^ 31)) 0) as [E0|]; [|done].
      assert (Z.testbit (Z.land cmd (2 ^ 31)) 31 = true) as E1 by (by rewrite Z.land_spec, E).
      rewrite E0 in E1. done.
    - destruct (Z.eqb_spec (Z.land cmd (2 ^ 31)) 0) as [E0|E0]; [done|]. exfalso. apply E0.
      apply Z.bits_inj'. intros k Hk. rewrite Z.land_spec, Z.pow2_bits_eqb, Z.bits_0 by lia.
      destruct (Z.eqb_spec 31 k) as [<-|]; [by rewrite E|by rewrite andb_false_r]. }
  destruct (Z.testbit cmd 31); [done|].
  assert (0 <= Z.land cmd 0x3FFF) by (apply Z.land_nonneg; lia).
  assert ((if maxlen <? Z.land cmd 0x3FFF then maxlen else Z.land cmd 0x3FFF) = n) as ->
    by (unfold n; destruct (Z.ltb_spec maxlen (Z.land cmd 0x3FFF)); lia).
  rewrite memcpy_ck_spec by (done || lia). rewrite outcome_bind_done.
  eexists. split; [reflexivity|]. split; [done|]. intros i Hi. cbn [rtl_rx_descs].
  rewrite aget_aset by lia. destruct (Z.eqb_spec i (rx_cur st)) as [->|]; [|done].
  cbn [w_command command]. unfold NUM_DESC. change (16 - 1) with 15.
  destruct (rx_cur st =? 15); [done|]. by rewrite Z.lor_0_r.
Qed.
End Rtl8169.

(** ** net/ethernet/ethernet.c *)

Module Ethernet.

Definition REG_CTRL : Z := 0x0000.
Definition REG_EEPROM : Z := 0x0014.
Definition REG_ICR : Z := 0x00C0.
Definition REG_IMC : Z := 0x00D8.
Definition REG_RCTL : Z := 0x0100.
Definition REG_TCTL : Z := 0x0400.
Definition REG_RDBAL : Z := 0x2800.
Definition REG_RDBAH : Z := 0x2804.
Definition REG_RDLEN : Z := 0x2808.
Definition REG_RDH : Z := 0x2810.
Definition REG_RDT : Z := 0x2818.
Definition REG_TDBAL : Z := 0x3800.
Definition REG_TDBAH : Z := 0x3804.
Definition REG_TDLEN : Z := 0x3808.
Definition REG_TDH : Z := 0x3810.
Definition REG_TDT : Z := 0x3818.
Definition REG_MTA : Z := 0x5200.
Definition REG_RAL : Z := 0x5400.
Definition REG_RAH : Z := 0x5404.
Definition CTRL_SLU : Z := Z.shiftl 1 6.
Definition CTRL_RST : Z := Z.shiftl 1 26.
Definition RCTL_EN : Z := Z.shiftl 1 1.
Definition RCTL_SBP : Z := Z.shiftl 1 2.
Definition RCTL_BAM : Z := Z.shiftl 1 15.
Definition RCTL_SECRC : Z := Z.shiftl 1 26.
Definition TCTL_EN : Z := Z.shiftl 1 1.
Definition TCTL_PSP : Z := Z.shiftl 1 3.
Definition TX_CMD_EOP : Z := Z.shiftl 1 0.
Definition TX_CMD_IFCS : Z := Z.shiftl 1 1.
Definition TX_CMD_RS : Z := Z.shiftl 1 3.
Definition TX_STA_DD : Z := 1.
Definition NUM_RX_DESC : Z := 16.
Definition NUM_TX_DESC : Z := 16.
Definition PACKET_SIZE : Z := 2048.

Record e1000_rx_desc_t := mk_rx_desc {
  rx_address : Z; rx_length : Z; rx_checksum : Z; rx_status : Z; rx_errors : Z; rx_special : Z }.
Record e1000_tx_desc_t := mk_tx_desc {
  tx_address : Z; tx_length : Z; tx_cso : Z; tx_cmd : Z; tx_status : Z; tx_css : Z; tx_special : Z }.
#[global] Instance rx_desc_inhabited : Inhabited e1000_rx_desc_t := populate (mk_rx_desc 0 0 0 0 0 0).
#[global] Instance tx_desc_inhabited : Inhabited e1000_tx_desc_t := populate (mk_tx_desc 0 0 0 0 0 0 0).

Record ethernet_device_t := mk_eth_dev {
  pci_dev : option pci_device_t; mmio_base : Z; mac : list Z; initialized : bool }.

(** The static variables of the file; the [port] of [rtl] is the device state all drivers
    share. *)
Record eth (D F : Type) := mk_eth {
  rtl8169 : Rtl8169.rtl D;
  devices : list pci_device_t;
  vm : vmm F;
  eth_dev : ethernet_device_t;
  e1000_mmio : Z;
  net_driver_type : Z;
  rx_descs : list e1000_rx_desc_t;
  tx_descs : list e1000_tx_desc_t;
  rx_buf : list (list Z);
  tx_buf : list (list Z);
  rx_cur : Z;
  tx_cur : Z }.
Arguments mk_eth {D F}.
Arguments rtl8169 {D F}.
Arguments devices {D F}.
Arguments vm {D F}.
Arguments eth_dev {D F}.
Arguments e1000_mmio {D F}.
Arguments net_driver_type {D F}.
Arguments rx_descs {D F}.
Arguments tx_descs {D F}.
Arguments rx_buf {D F}.
Arguments tx_buf {D F}.
Arguments rx_cur {D F}.
Arguments tx_cur {D F}.

Section ops.
Context {D F : Type} `{PortIO D} `{NicHw D} `{FrameAllocator F}.
Variables rx_descs_addr tx_descs_addr rx_buf_addr tx_buf_addr : Z.
Implicit Types st : eth D F.

Definition w_rtl8169 (v : Rtl8169.rtl D) st : eth D F :=
  mk_eth v (devices st) (vm st) (eth_dev st) (e1000_mmio st) (net_driver_type st) (rx_descs st) (tx_descs st) (rx_buf st) (tx_buf st) (rx_cur st) (tx_cur st).
Definition w_vm (v : vmm F) st : eth D F :=
  mk_eth (rtl8169 st) (devices st) v (eth_dev st) (e1000_mmio st) (net_driver_type st) (rx_descs st) (tx_descs st) (rx_buf st) (tx_buf st) (rx_cur st) (tx_cur st).
Definition w_eth_dev (v : ethernet_device_t) st : eth D F :=
  mk_eth (rtl8169 st) (devices st) (vm st) v (e1000_mmio st) (net_driver_type st) (rx_descs st) (tx_descs st) (rx_buf st) (tx_buf st) (rx_cur st) (tx_cur st).
Definition w_e1000_mmio (v : Z) st : eth D F :=
  mk_eth (rtl8169 st) (devices st) (vm st) (eth_dev st) v (net_driver_type st) (rx_descs st) (tx_descs st) (rx_buf st) (tx_buf st) (rx_cur st) (tx_cur st).
Definition w_net_driver_type (v : Z) st : eth D F :=
  mk_eth (rtl8169 st) (devices st) (vm st) (eth_dev st) (e1000_mmio st) v (rx_descs st) (tx_descs st) (rx_buf st) (tx_buf st) (rx_cur st) (tx_cur st).
Definition w_rx_descs (v : list e1000_rx_desc_t) st : eth D F :=
  mk_eth (rtl8169 st) (devices st) (vm st) (eth_dev st) (e1000_mmio st) (net_driver_type st) v (tx_descs st) (rx_buf st) (tx_buf st) (rx_cur st) (tx_cur st).
Definition w_tx_descs (v : list e1000_tx_desc_t) st : eth D F :=
  mk_eth (rtl8169 st) (devices st) (vm st) (eth_dev st) (e1000_mmio st) (net_driver_type st) (rx_descs st) v (rx_buf st) (tx_buf st) (rx_cur st) (tx_cur st).
Definition w_rx_buf (v : list (list Z)) st : eth D F :=
  mk_eth (rtl8169 st) (devices st) (vm st) (eth_dev st) (e1000_mmio st) (net_driver_type st) (rx_descs st) (tx_descs st) v (tx_buf st) (rx_cur st) (tx_cur st).
Definition w_tx_buf (v : list (list Z)) st : eth D F :=
  mk_eth (rtl8169 st) (devices st) (vm st) (eth_dev st) (e1000_mmio st) (net_driver_type st) (rx_descs st) (tx_descs st) (rx_buf st) v (rx_cur st) (tx_cur st).
Definition w_rx_cur (v : Z) st : eth D F :=
  mk_eth (rtl8169 st) (devices st) (vm st) (eth_dev st) (e1000_mmio st) (net_driver_type st) (rx_descs st) (tx_descs st) (rx_buf st) (tx_buf st) v (tx_cur st).
Definition w_tx_cur (v : Z) st : eth D F :=
  mk_eth (rtl8169 st) (devices st) (vm st) (eth_dev st) (e1000_mmio st) (net_driver_type st) (rx_descs st) (tx_descs st) (rx_buf st) (tx_buf st) (rx_cur st) v.

Definition hw st : D := Rtl8169.port (rtl8169 st).
Definition w_hw (h : D) st : eth D F :=
  let r := rtl8169 st in
  w_rtl8169 (Rtl8169.mk_rtl h (Rtl8169.rtl_ready r) (Rtl8169.io_base r) (Rtl8169.rtl_mac r)
    (Rtl8169.rtl_rx_descs r) (Rtl8169.rtl_tx_descs r) (Rtl8169.rtl_rx_buf r) (Rtl8169.rtl_tx_buf r)
    (Rtl8169.rx_cur r) (Rtl8169.tx_cur r)) st.

(** [e1000_mmio[reg >> 2]], the register at byte offset [reg]. *)
Definition e1000_r st (reg : Z) : Z * eth D F :=
  let '(v, h) := mmio_r (hw st) (e1000_mmio st + 4 * Z.shiftr reg 2) in (v, w_hw h st).
Definition e1000_w st (reg val : Z) : eth D F :=
  w_hw (mmio_w (hw st) (e1000_mmio st + 4 * Z.shiftr reg 2) (u32 val)) st.

Fixpoint eeprom_wait (n : nat) st (val : Z) : Z * eth D F :=
  match n with
  | O => (val, st)
  | S n' =>
      let '(val, st) := e1000_r st REG_EEPROM in
      if nz (Z.land val (Z.shiftl 1 4)) then (val, st) else eeprom_wait n' st val
  end.

Definition e1000_eeprom_read st (addr : Z) : Z * eth D F :=
  let st := e1000_w st REG_EEPROM (Z.lor 1 (Z.shiftl addr 8)) in
  let '(val, st) := eeprom_wait (Z.to_nat 10000) st 0 in
  (u16 (Z.land (Z.shiftr val 16) 0xFFFF), st).

Definition e1000_read_mac st : list Z * eth D F :=
  let '(w0, st) := e1000_eeprom_read st 0 in
  let '(w1, st) := e1000_eeprom_read st 1 in
  let '(w2, st) := e1000_eeprom_read st 2 in
  ([Z.land w0 0xFF; Z.land (Z.shiftr w0 8) 0xFF; Z.land w1 0xFF; Z.land (Z.shiftr w1 8) 0xFF;
    Z.land w2 0xFF; Z.land (Z.shiftr w2 8) 0xFF], st).

Definition e1000_init_rx st : eth D F :=
  let st := w_rx_descs (for_loop 16 0
    (λ i r, let d := r.[i] in
       r.[i <- mk_rx_desc (V2P (u32 (rx_buf_addr + PACKET_SIZE * i))) (rx_length d) (rx_checksum d) 0
                 (rx_errors d) (rx_special d)]) (rx_descs st)) st in
  let st := e1000_w st REG_RDBAL (V2P rx_descs_addr) in
  let st := e1000_w st REG_RDBAH 0 in
  let st := e1000_w st REG_RDLEN (NUM_RX_DESC * 16) in
  let st := e1000_w st REG_RDH 0 in
  let st := e1000_w st REG_RDT (NUM_RX_DESC - 1) in
  e1000_w st REG_RCTL (Z.lor (Z.lor (Z.lor RCTL_EN RCTL_SBP) RCTL_BAM) RCTL_SECRC).

Definition e1000_init_tx st : eth D F :=
  let st := w_tx_descs (for_loop 16 0
    (λ i r, let d := r.[i] in
       r.[i <- mk_tx_desc (V2P (u32 (tx_buf_addr + PACKET_SIZE * i))) (tx_length d) (tx_cso d) (tx_cmd d)
                 TX_STA_DD (tx_css d) (tx_special d)]) (tx_descs st)) st in
  let st := e1000_w st REG_TDBAL (V2P tx_descs_addr) in
  let st := e1000_w st REG_TDBAH 0 in
  let st := e1000_w st REG_TDLEN (NUM_TX_DESC * 16) in
  let st := e1000_w st REG_TDH 0 in
  let st := e1000_w st REG_TDT 0 in
  e1000_w st REG_TCTL (Z.lor (Z.lor TCTL_EN TCTL_PSP) (Z.lor (Z.shiftl 0x0F 4) (Z.shiftl 0x40 12))).

Definition pci_read_bar0 st (d : pci_device_t) : Z * eth D F :=
  let addr := Z.lor (Z.lor (Z.lor (Z.lor (Z.shiftl 1 31) (Z.shiftl (bus d) 16))
                (Z.shiftl (dev d) 11)) (Z.shiftl (func d) 8)) 0x10 in
  let '(v, h) := inl (outl (hw st) 0xCF8 addr) 0xCFC in (v, w_hw h st).

Definition is_e1000 (d : pci_device_t) : bool :=
  (vendor_id d =? 0x8086) &&
  ((device_id d =? 0x100E) || (device_id d =? 0x100F) || (device_id d =? 0x1010)
   || (device_id d =? 0x1016)).

Definition is_rtl (d : pci_device_t) : bool :=
  (vendor_id d =? 0x10EC) &&
  ((device_id d =? 0x8136) || (device_id d =? 0x8168) || (device_id d =? 0x8169)).

(** The search loops over [pci_get_device]. *)
Definition find_pci (p : pci_device_t → bool) st : option pci_device_t :=
  (λ i, (devices st).[i]) <$> zfind (λ i, p ((devices st).[i])) 0 (length (devices st)).

Definition map_mmio st (mmio_phys : Z) : eth D F :=
  w_vm (for_loop 32 0
    (λ pg m, let phys_page := u32 (mmio_phys + pg * 4096) in
             (vmm_map_page m phys_page phys_page (Z.lor VMM_PRESENT VMM_WRITABLE)).2) (vm st)) st.

(** [while ((e1000_r(REG_CTRL) & CTRL_RST) && spin--);] *)
Fixpoint reset_wait (n : nat) st : eth D F :=
  match n with
  | O => st
  | S n' =>
      let '(v, st) := e1000_r st REG_CTRL in
      if nz (Z.land v CTRL_RST) then reset_wait n' st else st
  end.

(** Reset, link up, multicast table cleared, interrupts off. *)
Definition e1000_reset st : eth D F :=
  let '(c, st) := e1000_r st REG_CTRL in
  let st := e1000_w st REG_CTRL (Z.lor c CTRL_RST) in
  let st := reset_wait (Z.to_nat 1000001) st in
  let '(c, st) := e1000_r st REG_CTRL in
  let st := e1000_w st REG_CTRL (Z.lor c CTRL_SLU) in
  let st := for_loop 128 0 (λ i st, e1000_w st (REG_MTA + i * 4) 0) st in
  let st := e1000_w st REG_IMC 0xFFFFFFFF in
  (e1000_r st REG_ICR).2.

(** The receive address registers. *)
Definition ral_of (m : list Z) : Z :=
  u32 (Z.lor (Z.lor (Z.lor (m.[0]) (Z.shiftl (m.[1]) 8)) (Z.shiftl (m.[2]) 16)) (Z.shiftl (m.[3]) 24)).
Definition rah_of (m : list Z) : Z :=
  Z.lor (Z.lor (m.[4]) (Z.shiftl (m.[5]) 8)) (Z.shiftl 1 31).

Definition e1000_start st (d : pci_device_t) : bool * eth D F :=
  let '(bar0, st) := pci_read_bar0 st d in
  if nz (Z.land bar0 1) then (false, st)
  else
    let base := Z.land bar0 0xFFFFFFF0 in
    let ed := eth_dev st in
    let st := w_eth_dev (mk_eth_dev (Some d) base (mac ed) (initialized ed)) st in
    let st := map_mmio st base in
    let st := w_e1000_mmio base st in
    let st := w_hw (Rtl8169.bus_master (hw st) d) st in
    let st := e1000_reset st in
    let '(m, st) := e1000_read_mac st in
    let st := w_eth_dev (mk_eth_dev (Some d) base m (initialized ed)) st in
    let st := e1000_w st REG_RAL (ral_of m) in
    let st := e1000_w st REG_RAH (rah_of m) in
    let st := e1000_init_tx (e1000_init_rx st) in
    let st := w_net_driver_type 1 st in
    (true, w_eth_dev (mk_eth_dev (Some d) base m true) st).

(** [rtl_addrs] are the link addresses of the rings of rtl8169.c. *)
Definition ethernet_init (rtl_addrs : Z * Z * Z * Z) st : bool * eth D F :=
  match find_pci is_e1000 st with
  | Some d => e1000_start st d
  | None =>
      match find_pci is_rtl st with
      | None => (false, st)
      | Some d =>
          let '(rxd, txd, rxb, txb) := rtl_addrs in
          let '(ok, r) := Rtl8169.rtl8169_init rxd txd rxb txb (rtl8169 st) (Some d) in
          let st := w_rtl8169 r st in
          if ok then
            let ed := eth_dev st in
            let st := w_net_driver_type 2 st in
            (true, w_eth_dev (mk_eth_dev (Some d) (mmio_base ed)
                                (Rtl8169.rtl8169_get_mac r (mac ed)) true) st)
          else (false, st)
      end
  end.

Definition e1000_send st (dst_mac : list Z) (ethertype : Z) (payload : list Z) (len : Z) :
    outcome (bool * eth D F) :=
  let cur := tx_cur st in
  let frame := frame_header ((tx_buf st).[cur]) dst_mac (mac (eth_dev st)) ethertype in
  let total := u16 (14 + len) in
  let total := if PACKET_SIZE <? total then PACKET_SIZE else total in
  frame ← memcpy_ck frame 14 payload 0 (total - 14);
  let d := (tx_descs st).[cur] in
  let d := mk_tx_desc (tx_address d) total (tx_cso d) (Z.lor (Z.lor TX_CMD_EOP TX_CMD_IFCS) TX_CMD_RS)
             0 (tx_css d) (tx_special d) in
  let st := w_tx_buf ((tx_buf st).[cur <- frame]) st in
  let st := w_tx_descs ((tx_descs st).[cur <- d]) st in
  let st := w_tx_cur ((cur + 1) mod NUM_TX_DESC) st in
  Done (true, e1000_w st REG_TDT (tx_cur st)).

(** The wait for completion at the end of the E1000 branch (an empty loop body, at most
    1000001 reads) changes nothing the driver keeps, whether it ends with the frame sent or
    by its timeout; what the card does during it are steps of their own below.  [own] is what
    the polls of the RTL8169 transmit descriptor see. *)
Definition ethernet_send (own : nat → bool) st (dst_mac : list Z) (ethertype : Z) (payload : list Z)
    (len : Z) : outcome (bool * eth D F) :=
  if negb (initialized (eth_dev st)) then Done (false, st)
  else if net_driver_type st =? 1 then e1000_send st dst_mac ethertype payload len
  else if net_driver_type st =? 2 then
    '(ok, r) ← Rtl8169.rtl8169_send own (rtl8169 st) dst_mac ethertype payload len;
    Done (ok, w_rtl8169 r st)
  else Done (false, st).

Definition ethernet_receive st (buf : list Z) (maxlen : Z) : outcome (Z * list Z * eth D F) :=
  if negb (initialized (eth_dev st)) then Done (-1, buf, st)
  else if net_driver_type st =? 1 then
    let cur := rx_cur st in
    let d := (rx_descs st).[cur] in
    if negb (nz (Z.land (rx_status d) 0x01)) then Done (0, buf, st)
    else
      let len := if maxlen <? rx_length d then maxlen else rx_length d in
      buf ← memcpy_ck buf 0 ((rx_buf st).[cur]) 0 len;
      let d := mk_rx_desc (rx_address d) (rx_length d) (rx_checksum d) 0 (rx_errors d) (rx_special d) in
      let st := w_rx_descs ((rx_descs st).[cur <- d]) st in
      let st := e1000_w st REG_RDT cur in
      Done (len, buf, w_rx_cur ((cur + 1) mod NUM_RX_DESC) st)
  else if net_driver_type st =? 2 then
    '(n, buf, r) ← Rtl8169.rtl8169_receive (rtl8169 st) buf maxlen;
    Done (n, buf, w_rtl8169 r st)
  else Done (-1, buf, st).

Definition ethernet_is_ready st : bool :=
  if net_driver_type st =? 1 then initialized (eth_dev st)
  else if net_driver_type st =? 2 then Rtl8169.rtl8169_is_ready (rtl8169 st)
  else false.

Definition ethernet_get_device st : option ethernet_device_t :=
  if initialized (eth_dev st) then Some (eth_dev st) else None.
End ops.

(** ** The card

    [ring_reg h r] is the ring pointer register [r] of the card mapped at [base].  A driver
    write sets the register it names; the other registers the driver writes after the reset
    leave the ring pointers alone. *)

Definition ring_regs : list Z := [REG_RDH; REG_RDT; REG_TDH; REG_TDT].

Lemma ring_reg_RDH : REG_RDH ∈ ring_regs.
Proof. apply elem_of_cons. by left. Qed.
Lemma ring_reg_RDT : REG_RDT ∈ ring_regs.
Proof. do 1 (apply elem_of_cons; right). apply elem_of_cons. by left. Qed.
Lemma ring_reg_TDH : REG_TDH ∈ ring_regs.
Proof. do 2 (apply elem_of_cons; right). apply elem_of_cons. by left. Qed.
Lemma ring_reg_TDT : REG_TDT ∈ ring_regs.
Proof. do 3 (apply elem_of_cons; right). apply elem_of_cons. by left. Qed.

Create HintDb nic.
#[export] Hint Resolve ring_reg_RDH ring_reg_RDT ring_reg_TDH ring_reg_TDT : nic.

Class E1000Card (D : Type) `{NicHw D} (base : Z) := {
  ring_reg : D → Z → Z;
  ring_reg_w h r r' v :
    r ∈ ring_regs → r' ∈ ring_regs → 0 <= v < 16 →
    ring_reg (mmio_w h (base + r) v) r' = if r' =? r then v else ring_reg h r';
  ring_reg_other h r r' v :
    r ∉ ring_regs → r ≠ REG_CTRL → r' ∈ ring_regs →
    ring_reg (mmio_w h (base + r) v) r' = ring_reg h r' }.

(** The frame the driver puts on the wire. *)
Definition wire_frame (dst src : list Z) (ethertype : Z) (data : list Z) : list Z :=
  header_bytes dst src ethertype ++ data.

Section rings.
Context {D F : Type} `{PortIO D} {NH : NicHw D} `{FrameAllocator F}.
Context (base : Z) {Card : E1000Card D base}.
Implicit Types (st : eth D F) (q : list (list Z)) (f : list Z).

(** *** Card activity *)

Definition set_reg (h : D) (r v : Z) (h' : D) : Prop :=
  ∀ r', r' ∈ ring_regs → ring_reg h' r' = if r' =? r then v else ring_reg h r'.

(** A frame arrives while the card owns a receive descriptor. *)
Inductive card_rx f st : eth D F → Prop :=
| card_rx_intro h' d :
    let k := ring_reg (hw st) REG_RDH in
    k ≠ ring_reg (hw st) REG_RDT →
    0 < alen f <= PACKET_SIZE → bytes_ok f →
    d = (rx_descs st).[k] →
    set_reg (hw st) REG_RDH ((k + 1) mod 16) h' →
    card_rx f st
      (w_hw h' (w_rx_buf ((rx_buf st).[k <- splice ((rx_buf st).[k]) 0 f])
         (w_rx_descs ((rx_descs st).[k <- mk_rx_desc (rx_address d) (alen f) (rx_checksum d) 3
                                            (rx_errors d) (rx_special d)]) st))).

(** The card sends the frame of the next transmit descriptor. *)
Inductive card_tx f st : eth D F → Prop :=
| card_tx_intro h' d :
    let k := ring_reg (hw st) REG_TDH in
    k ≠ ring_reg (hw st) REG_TDT →
    d = (tx_descs st).[k] →
    f = sub ((tx_buf st).[k]) 0 (tx_length d) →
    set_reg (hw st) REG_TDH ((k + 1) mod 16) h' →
    card_tx f st
      (w_hw h' (w_tx_descs ((tx_descs st).[k <- mk_tx_desc (tx_address d) (tx_length d) (tx_cso d)
                                                  (tx_cmd d) (Z.lor (tx_status d) TX_STA_DD)
                                                  (tx_css d) (tx_special d)]) st)).

(** *** What the rings hold *)

Definition rx_slot st (k : Z) (o : option (list Z)) : Prop :=
  let d := (rx_descs st).[k] in
  match o with
  | Some f => nz (Z.land (rx_status d) 1) = true ∧ rx_length d = alen f ∧
              alen f <= PACKET_SIZE ∧ sub ((rx_buf st).[k]) 0 (alen f) = f
  | None => nz (Z.land (rx_status d) 1) = false
  end.

(** The frames [q] wait in the receive ring, oldest first. *)
Record rx_ring st q : Prop := {
  rr_base : e1000_mmio st = base;
  rr_cur : 0 <= rx_cur st < 16;
  rr_descs : alen (rx_descs st) = 16;
  rr_bufs : alen (rx_buf st) = 16;
  rr_size i : 0 <= i < 16 → alen ((rx_buf st).[i]) = PACKET_SIZE ∧ bytes_ok ((rx_buf st).[i]);
  rr_len : alen q <= 15;
  rr_rdh : ring_reg (hw st) REG_RDH = (rx_cur st + alen q) mod 16;
  rr_rdt : ring_reg (hw st) REG_RDT = (rx_cur st + 15) mod 16;
  rr_slot i : 0 <= i < 16 → rx_slot st ((rx_cur st + i) mod 16) (q !! Z.to_nat i) }.

Definition tx_slot st (k : Z) f : Prop :=
  let d := (tx_descs st).[k] in
  tx_length d = alen f ∧ sub ((tx_buf st).[k]) 0 (alen f) = f.

(** The frames [q] wait for the card in the transmit ring, oldest first. *)
Record tx_ring st q : Prop := {
  tr_base : e1000_mmio st = base;
  tr_cur : 0 <= tx_cur st < 16;
  tr_descs : alen (tx_descs st) = 16;
  tr_bufs : alen (tx_buf st) = 16;
  tr_size i : 0 <= i < 16 → alen ((tx_buf st).[i]) = PACKET_SIZE;
  tr_len : alen q <= 15;
  tr_tdh : ring_reg (hw st) REG_TDH = (tx_cur st - alen q) mod 16;
  tr_tdt : ring_reg (hw st) REG_TDT = tx_cur st;
  tr_slot i f : 0 <= i → q !! Z.to_nat i = Some f → tx_slot st ((tx_cur st - alen q + i) mod 16) f }.

Lemma slot_inj c i j : 0 <= i < 16 → 0 <= j < 16 → (c + i) mod 16 = (c + j) mod 16 → i = j.
Proof. zlia. Qed.

(** Frame of the two rings: each ring only depends on its own fields. *)
Lemma rx_ring_frame st st' q :
  rx_ring st q → e1000_mmio st' = e1000_mmio st → rx_cur st' = rx_cur st →
  rx_descs st' = rx_descs st → rx_buf st' = rx_buf st →
  ring_reg (hw st') REG_RDH = ring_reg (hw st) REG_RDH →
  ring_reg (hw st') REG_RDT = ring_reg (hw st) REG_RDT → rx_ring st' q.
Proof.
  intros [] E1 E2 E3 E4 E5 E6. constructor; rewrite ?E1, ?E2, ?E3, ?E4, ?E5, ?E6; try done.
  intros i Hi. unfold rx_slot. rewrite E3, E4. by apply rr_slot0.
Qed.

Lemma tx_ring_frame st st' q :
  tx_ring st q → e1000_mmio st' = e1000_mmio st → tx_cur st' = tx_cur st →
  (∀ k, tx_length ((tx_descs st').[k]) = tx_length ((tx_descs st).[k])) →
  alen (tx_descs st') = alen (tx_descs st) → tx_buf st' = tx_buf st →
  ring_reg (hw st') REG_TDH = ring_reg (hw st) REG_TDH →
  ring_reg (hw st') REG_TDT = ring_reg (hw st) REG_TDT → tx_ring st' q.
Proof.
  intros [] E1 E2 E3 E3' E4 E5 E6. constructor; rewrite ?E1, ?E2, ?E3', ?E4, ?E5, ?E6; try done.
  intros i f Hi Hf. unfold tx_slot. rewrite E3, E4. by apply (tr_slot0 i f).
Qed.

Lemma rx_deliver f st st' q : rx_ring st q → card_rx f st st' → rx_ring st' (q ++ [f]).
Proof.
  intros R [h' d k Hk Hf Hok Hd Hreg]. destruct R. subst k.
  rewrite rr_rdh0, rr_rdt0 in *. pose proof (alen_nonneg q).
  assert (alen q < 15) by (destruct (decide (alen q = 15)) as [E|]; [rewrite E in Hk; done|lia]).
  pose proof (Z.mod_pos_bound (rx_cur st + alen q) 16 ltac:(lia)).
  set (k := (rx_cur st + alen q) mod 16) in *.
  constructor; try done; cbn -[aget aset splice alen Z.modulo Z.add]; rewrite ?alen_aset, ?alen_app, ?alen_cons, ?alen_nil;
    try done; try lia.
  - intros i Hi. rewrite aget_aset by lia. destruct (Z.eqb_spec i k) as [->|]; [|by apply rr_size0].
    destruct (rr_size0 k ltac:(lia)). split; [rewrite alen_splice; lia|by apply bytes_ok_splice].
  - change (hw _) with h'. rewrite Hreg by auto with nic. simpl. unfold k. zlia.
  - change (hw _) with h'. rewrite Hreg by auto with nic. done.
  - intros i Hi. specialize (rr_slot0 i Hi). unfold rx_slot in *. cbn -[aget aset splice alen Z.modulo Z.add].
    destruct (decide (i = alen q)) as [->|Hne].
    + fold k. rewrite lookup_app_r by (unfold alen; lia).
      replace (Z.to_nat (alen q) - length q)%nat with 0%nat by (unfold alen; lia). simpl.
      rewrite !aget_aset_eq by lia. simpl. destruct (rr_size0 k ltac:(lia)).
      split_and!; try done; [lia|]. apply sub_splice_same; lia.
    + assert ((rx_cur st + i) mod 16 ≠ k) by (intros E; apply Hne, (slot_inj (rx_cur st)); [lia|lia|done]).
      rewrite !aget_aset_ne by lia. destruct (decide (i < alen q)).
      * rewrite lookup_app_l by (unfold alen in *; lia). done.
      * rewrite lookup_ge_None_2 in rr_slot0 by (unfold alen in *; lia).
        rewrite lookup_ge_None_2 by (rewrite length_app; unfold alen in *; simpl; lia). done.
Qed.

Lemma rx_take st q buf maxlen :
  rx_ring st q → initialized (eth_dev st) = true → net_driver_type st = 1 →
  0 <= maxlen <= alen buf →
  match q with
  | [] => ethernet_receive st buf maxlen = Done (0, buf, st)
  | f :: q' =>
      let n := Z.min maxlen (alen f) in
      ∃ st', ethernet_receive st buf maxlen = Done (n, splice buf 0 (sub f 0 n), st') ∧
             rx_ring st' q' ∧ tx_descs st' = tx_descs st ∧ tx_buf st' = tx_buf st ∧
             tx_cur st' = tx_cur st ∧ eth_dev st' = eth_dev st ∧ net_driver_type st' = 1 ∧
             ∀ r, r ∈ [REG_TDH; REG_TDT] → ring_reg (hw st') r = ring_reg (hw st) r
  end.
Proof.
  intros R Hinit Hty Hmax. unfold ethernet_receive. rewrite Hinit, Hty. cbn [negb Z.eqb Pos.eqb].
  destruct R. pose proof (rr_slot0 0 ltac:(lia)) as Hs0.
  rewrite Z.add_0_r, Z.mod_small in Hs0 by lia. unfold rx_slot in Hs0.
  destruct q as [|f q']; simpl in Hs0; [by rewrite Hs0|].
  destruct Hs0 as (Hst & Hl & Hfl & Hsub). rewrite Hst, Hl. cbn [negb].
  destruct (rr_size0 (rx_cur st) ltac:(lia)) as [Hsz Hbok]. pose proof (alen_nonneg f).
  rewrite alen_cons in *.
  assert ((if maxlen <? alen f then maxlen else alen f) = Z.min maxlen (alen f)) as ->
    by (destruct (Z.ltb_spec maxlen (alen f)); lia).
  rewrite memcpy_ck_spec by (done || lia).
  rewrite outcome_bind_done. eexists. split; [f_equal; f_equal; f_equal|].
  { rewrite <-Hsub at 2. by rewrite sub_sub, Z.add_0_l by lia. }
  set (k := rx_cur st) in *.
  assert (∀ r, r ∈ ring_regs → ring_reg (mmio_w (hw st) (base + REG_RDT) k) r =
    if r =? REG_RDT then k else ring_reg (hw st) r) as Hw.
  { intros. apply ring_reg_w; [auto with nic|done|lia]. }
  assert (base + 4 * Z.shiftr REG_RDT 2 = base + REG_RDT) as Ha by done.
  split; [|split_and!; try done].
  - constructor; try done; unfold e1000_w; cbn -[aget aset splice alen Z.modulo Z.add Z.mul Z.shiftr mmio_w];
      rewrite ?alen_aset; try done; try lia.
    + apply Z.mod_pos_bound. lia.
    + rewrite rr_base0, Ha, u32_small by lia. rewrite Hw by auto with nic.
      change (REG_RDH =? REG_RDT) with false. cbv iota. rewrite rr_rdh0. fold k.
      rewrite Z.add_mod_idemp_l by done. f_equal. lia.
    + rewrite rr_base0, Ha, u32_small by lia. rewrite Hw by auto with nic.
      change (REG_RDT =? REG_RDT) with true. cbv iota. fold k. rewrite Z.add_mod_idemp_l by done. zlia.
    + intros i Hi. unfold rx_slot. cbn -[aget aset splice alen Z.modulo Z.add Z.mul Z.shiftr mmio_w].
      fold k. rewrite Z.add_mod_idemp_l by done. destruct (decide (i = 15)) as [->|].
      * rewrite lookup_ge_None_2 by (unfold alen in *; lia).
        replace ((k + 1 + 15) mod 16) with k by zlia. by rewrite aget_aset_eq by lia.
      * pose proof (rr_slot0 (i + 1) ltac:(lia)) as Hs. unfold rx_slot in Hs. fold k in Hs.
        replace (k + 1 + i) with (k + (i + 1)) by lia.
        rewrite aget_aset_ne by zlia.
        replace (Z.to_nat (i + 1)) with (S (Z.to_nat i)) in Hs by lia. exact Hs.
  - intros r Hr. unfold e1000_w. cbn -[aget aset splice alen Z.modulo Z.add Z.mul Z.shiftr mmio_w].
    change (hw (w_rx_descs _ st)) with (hw st).
    rewrite rr_base0, Ha, u32_small by lia.
    repeat (apply elem_of_cons in Hr as [-> | Hr]; [by rewrite Hw by auto with nic|]).
    by apply not_elem_of_nil in Hr.
Qed.

(** The queue after a send.  Nothing checks for a free descriptor: with 15 frames waiting, the
    tail pointer catches up with the head, the ring counts as empty and the 15 frames are lost
    with the new one. *)
Definition tx_push q f : list (list Z) := if alen q <? 15 then q ++ [f] else [].

Lemma tx_put own st q dst ty payload len :
  tx_ring st q → initialized (eth_dev st) = true → net_driver_type st = 1 →
  6 <= alen dst → 6 <= alen (mac (eth_dev st)) → bytes_ok payload →
  0 <= len < 0x10000 - 14 → Z.min len (PACKET_SIZE - 14) <= alen payload →
  let data := sub payload 0 (Z.min len (PACKET_SIZE - 14)) in
  ∃ st', ethernet_send own st dst ty payload len = Done (true, st') ∧
         tx_ring st' (tx_push q (wire_frame dst (mac (eth_dev st)) ty data)) ∧
         rx_descs st' = rx_descs st ∧ rx_buf st' = rx_buf st ∧ rx_cur st' = rx_cur st ∧
         e1000_mmio st' = e1000_mmio st ∧ eth_dev st' = eth_dev st ∧ net_driver_type st' = 1 ∧
         ∀ r, r ∈ [REG_RDH; REG_RDT] → ring_reg (hw st') r = ring_reg (hw st) r.
Proof.
  intros R Hinit Hty Hdst Hmac Hok Hlen Hpay data. unfold ethernet_send. rewrite Hinit, Hty.
  cbn [negb Z.eqb Pos.eqb]. unfold e1000_send. destruct R. set (k := tx_cur st) in *.
  unfold PACKET_SIZE in *. rewrite u16_small by lia.
  assert ((if 2048 <? 14 + len then 2048 else 14 + len) = 14 + Z.min len (2048 - 14)) as ->
    by (destruct (Z.ltb_spec 2048 (14 + len)); lia).
  set (n := Z.min len (2048 - 14)) in *.
  replace (14 + n - 14) with n by lia.
  rewrite frame_built by (done || rewrite ?tr_size0; lia).
  fold data. rewrite outcome_bind_done.
  assert (alen (wire_frame dst (mac (eth_dev st)) ty data) = 14 + n) as Hw.
  { unfold wire_frame, data. rewrite alen_app, alen_header, alen_sub; lia. }
  set (f := wire_frame dst (mac (eth_dev st)) ty data) in *.
  change (header_bytes dst (mac (eth_dev st)) ty ++ data) with f.
  pose proof (alen_nonneg q).
  assert (0 <= (k + 1) mod 16 < 16) as Hk1 by (apply Z.mod_pos_bound; lia).
  assert (∀ r, r ∈ ring_regs → ring_reg (mmio_w (hw st) (base + REG_TDT) ((k + 1) mod 16)) r =
    if r =? REG_TDT then (k + 1) mod 16 else ring_reg (hw st) r) as Hreg.
  { intros. apply ring_reg_w; [auto with nic|done|lia]. }
  eexists. split; [reflexivity|]. unfold e1000_w. rewrite u32_small
    by (cbn -[aget aset splice alen Z.modulo Z.add]; change NUM_TX_DESC with 16; lia).
  cbn [e1000_mmio w_tx_cur w_tx_descs w_tx_buf tx_cur]. change NUM_TX_DESC with 16. rewrite tr_base0.
  change (base + 4 * Z.shiftr REG_TDT 2) with (base + REG_TDT).
  split; [|split_and!; try done].
  - assert (∀ i, 0 <= i < 16 → alen ((tx_buf st).[k <- splice ((tx_buf st).[k]) 0 f].[i]) = 2048) as Hsize.
    { intros i Hi. rewrite aget_aset by lia. destruct (Z.eqb_spec i k) as [->|]; [|by apply tr_size0].
      rewrite alen_splice; rewrite ?tr_size0; lia. }
    unfold tx_push. destruct (Z.ltb_spec (alen q) 15) as [Hq|Hq].
    2: { constructor; cbn -[aget aset splice alen Z.modulo Z.add Z.sub Z.mul Z.shiftr mmio_w]; rewrite ?alen_aset, ?alen_nil;
           try done; try lia.
         - change (ring_reg (mmio_w (hw st) (base + REG_TDT) ((k + 1) mod 16)) REG_TDH = ((k + 1) mod 16 - 0) mod 16).
           rewrite Hreg by auto with nic. change (REG_TDH =? REG_TDT) with false. cbv iota. rewrite tr_tdh0. fold k. zlia.
         - change (ring_reg (mmio_w (hw st) (base + REG_TDT) ((k + 1) mod 16)) REG_TDT = (k + 1) mod 16).
           rewrite Hreg by auto with nic. done. }
    constructor; cbn -[aget aset splice alen Z.modulo Z.add Z.sub Z.mul Z.shiftr mmio_w];
      rewrite ?alen_aset, ?alen_app, ?alen_cons, ?alen_nil; try done; try lia.
    + change (ring_reg (mmio_w (hw st) (base + REG_TDT) ((k + 1) mod 16)) REG_TDH = ((k + 1) mod 16 - (alen q + (1 + 0))) mod 16).
      rewrite Hreg by auto with nic. change (REG_TDH =? REG_TDT) with false. cbv iota.
      rewrite tr_tdh0. fold k. zlia.
    + change (ring_reg (mmio_w (hw st) (base + REG_TDT) ((k + 1) mod 16)) REG_TDT = (k + 1) mod 16).
      rewrite Hreg by auto with nic. done.
    + intros i g Hi Hg. unfold tx_slot. cbn -[aget aset splice alen Z.modulo Z.add Z.sub Z.mul Z.shiftr mmio_w].
      fold k. change (alen (@nil (list Z))) with 0. replace (((k + 1) mod 16 - (alen q + (1 + 0)) + i) mod 16) with ((k - alen q + i) mod 16) by zlia.
      destruct (decide (i = alen q)) as [->|Hne].
      * rewrite lookup_app_r in Hg by (unfold alen; lia).
        replace (Z.to_nat (alen q) - length q)%nat with 0%nat in Hg by (unfold alen; lia).
        injection Hg as <-. replace ((k - alen q + alen q) mod 16) with k by zlia.
        rewrite !aget_aset_eq by lia. cbn [tx_length]. split; [done|].
        apply sub_splice_same; rewrite ?tr_size0; lia.
      * pose proof (lookup_lt_Some _ _ _ Hg) as Hlt. rewrite length_app in Hlt. simpl in Hlt.
        rewrite lookup_app_l in Hg by (unfold alen in *; lia).
        rewrite !aget_aset_ne by (unfold alen in *; zlia). by apply tr_slot0.
  - intros r Hr. change (ring_reg (mmio_w (hw st) (base + REG_TDT) ((k + 1) mod 16)) r = ring_reg (hw st) r).
    repeat (apply elem_of_cons in Hr as [-> | Hr]; [by rewrite Hreg by auto with nic|]).
    by apply not_elem_of_nil in Hr.
Qed.

(** A send that finds 15 frames waiting reports success and leaves the card with nothing to
    send: head and tail are equal. *)
Theorem e1000_send_overruns own st q dst ty payload len :
  tx_ring st q → alen q = 15 → initialized (eth_dev st) = true → net_driver_type st = 1 →
  6 <= alen dst → 6 <= alen (mac (eth_dev st)) → bytes_ok payload →
  0 <= len < 0x10000 - 14 → Z.min len (PACKET_SIZE - 14) <= alen payload →
  ∃ st', ethernet_send own st dst ty payload len = Done (true, st') ∧ tx_ring st' [] ∧
    ring_reg (hw st') REG_TDH = ring_reg (hw st') REG_TDT ∧ ∀ f st'', ¬ card_tx f st' st''.
Proof.
  intros R Hq Hinit Hty Hdst Hmac Hok Hlen Hpay.
  destruct (tx_put own st q dst ty payload len) as (st' & E & R' & _); try done.
  unfold tx_push in R'. rewrite Hq in R'. cbn in R'. pose proof R' as [].
  assert (ring_reg (hw st') REG_TDH = ring_reg (hw st') REG_TDT) as Et
    by (rewrite tr_tdh0, tr_tdt0, alen_nil, Z.sub_0_r; by apply Z.mod_small).
  exists st'. split_and!; try done. intros f st'' []. done.
Qed.

Lemma tx_wire f st st' q :
  tx_ring st q → card_tx f st st' → ∃ q', q = f :: q' ∧ tx_ring st' q'.
Proof.
  intros R [h' d k Hk Hd Hf Hreg]. destruct R. subst k. rewrite tr_tdh0, tr_tdt0 in *.
  pose proof (alen_nonneg q). pose proof (Z.mod_pos_bound (tx_cur st - alen q) 16 ltac:(lia)) as Hb.
  set (k := (tx_cur st - alen q) mod 16) in *.
  destruct q as [|g q']; [exfalso; apply Hk; unfold k; rewrite alen_nil; zlia|].
  assert (k = (tx_cur st - (1 + alen q')) mod 16) as Hke by (unfold k; by rewrite alen_cons).
  rewrite alen_cons in *. pose proof (alen_nonneg q'). clearbody k.
  pose proof (tr_slot0 0 g ltac:(lia) eq_refl) as Hs. unfold tx_slot in Hs.
  rewrite Z.add_0_r, <-Hke in Hs. rewrite <-Hd in Hs. destruct Hs as [Hl Hsub].
  exists q'. rewrite Hl, Hsub in Hf. subst g. split; [done|].
  assert (∀ j, tx_length (((tx_descs st).[k <- mk_tx_desc (tx_address d) (tx_length d) (tx_cso d)
    (tx_cmd d) (Z.lor (tx_status d) TX_STA_DD) (tx_css d) (tx_special d)]).[j]) =
    tx_length ((tx_descs st).[j])) as Htl.
  { intros j. rewrite aget_aset by lia. destruct (Z.eqb_spec j k) as [->|]; [by subst d|done]. }
  constructor; cbn -[aget aset splice alen Z.modulo Z.add Z.sub]; rewrite ?alen_aset; try done; try lia.
  - change (hw _) with h'. rewrite Hreg by auto with nic. simpl. rewrite Hke. zlia.
  - change (hw _) with h'. rewrite Hreg by auto with nic. done.
  - intros i g Hi Hg. unfold tx_slot. cbn -[aget aset splice alen Z.modulo Z.add Z.sub].
    rewrite Htl. specialize (tr_slot0 (i + 1) g ltac:(lia)).
    replace (Z.to_nat (i + 1)) with (S (Z.to_nat i)) in tr_slot0 by lia.
    specialize (tr_slot0 Hg).
    replace (tx_cur st - (1 + alen q') + (i + 1)) with (tx_cur st - alen q' + i) in tr_slot0 by lia.
    exact tr_slot0.
Qed.

(** *** Driver and card interleaved

    The events of a run: a frame arrives, the network task polls with a buffer of [M]
    bytes (an empty poll yields no data), the stack sends a payload, a frame leaves. *)

Variable M : Z.

Inductive nic_event :=
| Arrive (f : list Z)
| Recv (data : list Z)
| Send (dst : list Z) (ethertype : Z) (data : list Z)
| Wire (f : list Z).

(** The payload of a send fits a frame; the ring may be full.  What the card does while
    [ethernet_send] waits for completion are the steps that follow it. *)
Inductive nic_step st : nic_event → eth D F → Prop :=
| step_arrive f st' : card_rx f st st' → nic_step st (Arrive f) st'
| step_wire f st' : card_tx f st st' → nic_step st (Wire f) st'
| step_recv buf n buf' st' :
    M <= alen buf → ethernet_receive st buf M = Done (n, buf', st') →
    nic_step st (Recv (sub buf' 0 n)) st'
| step_send own dst ty payload len b st' :
    6 <= alen dst → bytes_ok payload → 0 <= len <= PACKET_SIZE - 14 → len <= alen payload →
    ethernet_send own st dst ty payload len = Done (b, st') →
    nic_step st (Send dst ty (sub payload 0 len)) st'.

Inductive nic_run : eth D F → list nic_event → eth D F → Prop :=
| run_nil st : nic_run st [] st
| run_cons st ev st1 evs st2 : nic_step st ev st1 → nic_run st1 evs st2 → nic_run st (ev :: evs) st2.

(** The specification: two FIFO queues, one per direction, of which the one to the card is
    emptied by a send that finds it full. *)
Definition trunc (f : list Z) : list Z := sub f 0 (Z.min M (alen f)).

Inductive queue_step (m : list Z) : list (list Z) * list (list Z) → nic_event →
    list (list Z) * list (list Z) → Prop :=
| q_arrive f rx tx : 0 < alen f → queue_step m (rx, tx) (Arrive f) (rx ++ [f], tx)
| q_wire f rx tx : queue_step m (rx, f :: tx) (Wire f) (rx, tx)
| q_recv f rx tx : 0 < alen f → queue_step m (f :: rx, tx) (Recv (trunc f)) (rx, tx)
| q_poll tx : queue_step m ([], tx) (Recv []) ([], tx)
| q_send dst ty data rx tx :
    queue_step m (rx, tx) (Send dst ty data) (rx, tx_push tx (wire_frame dst m ty data)).

Record nic_ok (m : list Z) st (rx tx : list (list Z)) : Prop := {
  ok_init : initialized (eth_dev st) = true;
  ok_type : net_driver_type st = 1;
  ok_mac : mac (eth_dev st) = m;
  ok_mac_len : 6 <= alen m;
  ok_rx : rx_ring st rx;
  ok_pos : Forall (λ f, 0 < alen f) rx;
  ok_tx : tx_ring st tx }.

Lemma nic_simulation m st rx tx ev st' :
  0 < M → nic_ok m st rx tx → nic_step st ev st' →
  ∃ rx' tx', queue_step m (rx, tx) ev (rx', tx') ∧ nic_ok m st' rx' tx'.
Proof.
  intros HM [Hinit Hty Hm Hml Hrx Hpos Htx] Hstep. destruct Hstep as [f st' Hc|f st' Hc|buf n buf' st' HM' Hr|].
  - pose proof (rx_deliver f st st' rx Hrx Hc) as Hrx'. destruct Hc as [h' d k ? ? ? ? Hreg].
    exists (rx ++ [f]), tx. split; [constructor; lia|]. constructor; try done.
    + apply Forall_app_2; [done|]. constructor; [lia|constructor].
    + apply (tx_ring_frame st); try done; change (hw _) with h' at 1; rewrite Hreg by auto with nic; done.
  - destruct (tx_wire f st st' tx Htx Hc) as (tx' & -> & Htx'). destruct Hc as [h' d k ? ? ? Hreg].
    exists rx, tx'. split; [constructor|]. constructor; try done.
    apply (rx_ring_frame st); try done; change (hw _) with h' at 1; rewrite Hreg by auto with nic; done.
  - pose proof (rx_take st rx buf M Hrx Hinit Hty ltac:(lia)) as Ht. destruct rx as [|f rx].
    + rewrite Ht in Hr. injection Hr as <- <- <-. exists [], tx. split; [constructor|by constructor].
    + cbv zeta in Ht. destruct Ht as (st1 & E & Hrx' & Etd & Etb & Etc & Eed & Ety & Hreg).
      rewrite E in Hr. injection Hr as <- <- <-. exists rx, tx.
      inversion Hpos; subst. pose proof (alen_nonneg f).
      assert (alen (sub f 0 (Z.min M (alen f))) = Z.min M (alen f)) as Hl by (rewrite alen_sub; lia).
      rewrite <-Hl at 2. rewrite sub_splice_same by lia. split; [by constructor|].
      constructor; try done; [by rewrite Eed|by rewrite Eed|]. apply (tx_ring_frame st); try done.
      * rewrite (rr_base _ _ Hrx), (rr_base _ _ Hrx'). done.
      * intros. by rewrite Etd.
      * by rewrite Etd.
      * apply Hreg. apply elem_of_cons. by left.
      * apply Hreg. apply elem_of_cons. right. apply elem_of_cons. by left.
  - exists rx, (tx_push tx (wire_frame dst m ty (sub payload 0 len))). split; [constructor|].
    unfold PACKET_SIZE in *.
    destruct (tx_put own st tx dst ty payload len Htx) as (st1 & E & Htx' & E1 & E2 & E3 & E4 & E5 & E6 & Hreg);
      try done; unfold PACKET_SIZE; rewrite ?Hm; try lia.
    rewrite E in *. simplify_eq. rewrite Z.min_l in Htx' by (unfold PACKET_SIZE; lia).
    constructor; try done; [by rewrite E5|by rewrite E5|].
    apply (rx_ring_frame st); try done; apply Hreg; [|apply elem_of_cons; right]; apply elem_of_cons; by left.
Qed.

(** What a trace says: the frames that arrived, those the driver handed out, those it was
    asked to send and those that left. *)
Definition arrived (evs : list nic_event) : list (list Z) :=
  omap (λ ev, match ev with Arrive f => Some f | _ => None end) evs.
Definition received (evs : list nic_event) : list (list Z) :=
  omap (λ ev, match ev with Recv (b :: f) => Some (b :: f) | _ => None end) evs.
Definition sent (m : list Z) (evs : list nic_event) : list (list Z) :=
  omap (λ ev, match ev with Send dst ty data => Some (wire_frame dst m ty data) | _ => None end) evs.
Definition wired (evs : list nic_event) : list (list Z) :=
  omap (λ ev, match ev with Wire f => Some f | _ => None end) evs.

Lemma trunc_cons f : 0 < M → 0 < alen f → ∃ b t, trunc f = b :: t.
Proof.
  intros HM Hf. unfold trunc. destruct (sub f 0 (Z.min M (alen f))) as [|b t] eqn:E; [|by eauto].
  apply (f_equal alen) in E. rewrite alen_sub, alen_nil in E; lia.
Qed.

(** [lossy all out left]: [out] and then [left] are the frames of [all] in order, up to blocks
    of 16 consecutive ones that are missing. *)
Inductive lossy : list (list Z) → list (list Z) → list (list Z) → Prop :=
| lossy_left q : lossy q [] q
| lossy_out f all out q : lossy all out q → lossy (f :: all) (f :: out) q
| lossy_lost lost all out q : length lost = 16%nat → lossy all out q → lossy (lost ++ all) out q.

Lemma nic_run_queues m st rx tx evs st' :
  0 < M → nic_ok m st rx tx → nic_run st evs st' →
  ∃ got rx' tx', nic_ok m st' rx' tx' ∧
    rx ++ arrived evs = got ++ rx' ∧ received evs = map trunc got ∧
    lossy (tx ++ sent m evs) (wired evs) tx' ∧
    ((∀ pre suf, evs = pre ++ suf → (length tx + length (sent m pre) <= length (wired pre) + 15)%nat) →
     tx ++ sent m evs = wired evs ++ tx').
Proof.
  intros HM Hok Hrun. revert rx tx Hok.
  induction Hrun as [st|st ev st1 evs st2 Hstep Hrun IH]; intros rx tx Hok.
  { exists [], rx, tx. cbn. rewrite !app_nil_r. split_and!; try done. constructor. }
  destruct (nic_simulation m st rx tx ev st1 HM Hok Hstep) as (rx1 & tx1 & Hq & Hok1).
  destruct (IH rx1 tx1 Hok1) as (got & rx' & tx' & Hok' & Ha & Hr & Hs & Hn).
  inversion Hq; subst; cbn; fold (arrived evs) (received evs) (sent m evs) (wired evs).
  - exists got, rx', tx'. split_and!; try done; [by rewrite <-Ha, <-app_assoc|].
    intros Hc. apply Hn. intros pre suf ->. apply (Hc (Arrive f :: pre) suf eq_refl).
  - exists got, rx', tx'. split_and!; try done; [by constructor|].
    intros Hc. f_equal. apply Hn. intros pre suf ->. specialize (Hc (Wire f :: pre) suf eq_refl). cbn in Hc.
    fold (sent m pre) (wired pre) in Hc. lia.
  - destruct (trunc_cons f) as (b & t & E); [done|done|].
    exists (f :: got), rx', tx'. rewrite E. cbn. fold (received evs).
    split_and!; try done; [by rewrite Ha|by rewrite E, Hr|].
    intros Hc. apply Hn. intros pre suf ->. apply (Hc (Recv (b :: t) :: pre) suf eq_refl).
  - exists got, rx', tx'. split_and!; try done.
    intros Hc. apply Hn. intros pre suf ->. apply (Hc (Recv [] :: pre) suf eq_refl).
  - exists got, rx', tx'. set (f := wire_frame dst m ty data) in *. unfold tx_push in *.
    pose proof (tr_len _ _ (ok_tx _ _ _ _ Hok)) as Hl. split_and!; try done.
    + rewrite cons_middle, app_assoc. destruct (Z.ltb_spec (alen tx) 15); [done|].
      apply lossy_lost; [|done]. rewrite length_app. unfold alen in *. cbn. lia.
    + intros Hc. destruct (Z.ltb_spec (alen tx) 15).
      * rewrite cons_middle, app_assoc. apply Hn. intros pre suf ->.
        specialize (Hc (Send dst ty data :: pre) suf eq_refl). cbn in Hc. fold (sent m pre) (wired pre) in Hc.
        rewrite length_app. cbn. lia.
      * specialize (Hc [Send dst ty data] evs eq_refl). cbn in Hc. unfold alen in *. lia.
Qed.

(** C8: The E1000 driver and a card that follows its ring protocol, in any interleaving of
    arrivals the card has a descriptor for, polls, sends and transmissions: the network task
    receives the frames that arrived, in order, none lost or duplicated, each cut to its
    buffer; the frames on the wire are the payloads handed to [ethernet_send] with their
    headers, in order, none duplicated.  On the way out frames can be lost, because the driver
    does not look for a free descriptor: what is missing are blocks of 16 consecutive frames,
    one for every send that finds 15 frames waiting ([tx_push], [lossy]).  As long as no more
    than 15 frames are ahead of the card, none is lost.  At most 15 frames wait in each
    direction. *)
Theorem nic_fifo m st evs st' :
  0 < M → nic_ok m st [] [] → nic_run st evs st' →
  ∃ got waiting unsent, arrived evs = got ++ waiting ∧ received evs = map trunc got ∧
    lossy (sent m evs) (wired evs) unsent ∧ alen waiting <= 15 ∧ alen unsent <= 15 ∧
    ((∀ pre suf, evs = pre ++ suf → (length (sent m pre) <= length (wired pre) + 15)%nat) →
     sent m evs = wired evs ++ unsent).
Proof.
  intros HM Hok Hrun.
  destruct (nic_run_queues m st [] [] evs st' HM Hok Hrun) as (got & rx' & tx' & Hok' & Ha & Hr & Hs & Hn).
  exists got, rx', tx'. split_and!; try done; [eapply rr_len, ok_rx, Hok'|eapply tr_len, ok_tx, Hok'].
Qed.

(** *** Initialisation *)

Lemma e1000_r_hw st r : ∃ v h, e1000_r st r = (v, w_hw h st).
Proof. unfold e1000_r. destruct (mmio_r _ _) as [v h]. by exists v, h. Qed.

Lemma w_hw_hw h h' st : w_hw h (w_hw h' st) = w_hw h st.
Proof. done. Qed.

Lemma reset_wait_hw n st : ∃ h, reset_wait n st = w_hw h st.
Proof.
  revert st. induction n as [|n IH]; intros st; cbn [reset_wait].
  { exists (hw st). by destruct st as [[]]. }
  destruct (e1000_r_hw st REG_CTRL) as (v & h & ->). case_match; [|by exists h].
  destruct (IH (w_hw h st)) as [h' ->]. by exists h'.
Qed.

Lemma e1000_reset_hw st : ∃ h, e1000_reset st = w_hw h st.
Proof.
  unfold e1000_reset. destruct (e1000_r_hw st REG_CTRL) as (v & h & ->).
  match goal with |- context [reset_wait ?n ?s] => destruct (reset_wait_hw n s) as [h1 ->] end.
  match goal with |- context [e1000_r ?s REG_CTRL] => destruct (e1000_r_hw s REG_CTRL) as (v2 & h2 & ->) end.
  match goal with |- context [for_loop 128 0 ?b ?s] =>
    pose proof (for_loop_inv (λ _ x, ∃ h, x = w_hw h st) 128 0 b s) as HL end.
  destruct HL as [h3 ->]; [by eexists| |].
  { intros k s' _ [h' ->]. by eexists. }
  match goal with |- context [e1000_r ?s REG_ICR] => destruct (e1000_r_hw s REG_ICR) as (v4 & h4 & ->) end.
  by exists h4.
Qed.

Lemma eeprom_hw st addr : ∃ v h, e1000_eeprom_read st addr = (v, w_hw h st).
Proof.
  unfold e1000_eeprom_read.
  assert (∀ n (s : eth D F) v, ∃ v' h, eeprom_wait n s v = (v', w_hw h s)) as HW.
  { induction n as [|n IH]; intros s v; cbn [eeprom_wait].
    { exists v, (hw s). by destruct s as [[]]. }
    destruct (e1000_r_hw s REG_EEPROM) as (v' & h & ->). case_match; [by exists v', h|].
    destruct (IH (w_hw h s) v') as (v2 & h2 & ->). by exists v2, h2. }
  match goal with |- context [eeprom_wait ?n ?s ?v] => destruct (HW n s v) as (v' & h & ->) end.
  by eexists _, h.
Qed.

Lemma read_mac_hw st : ∃ m h, e1000_read_mac st = (m, w_hw h st) ∧ alen m = 6.
Proof.
  unfold e1000_read_mac.
  destruct (eeprom_hw st 0) as (w0 & h0 & ->). destruct (eeprom_hw (w_hw h0 st) 1) as (w1 & h1 & ->).
  match goal with |- context [e1000_eeprom_read ?s 2] => destruct (eeprom_hw s 2) as (w2 & h2 & ->) end.
  by eexists _, h2.
Qed.

(** The two initialisation loops leave every receive descriptor empty. *)
Lemma init_descs {A} `{!Inhabited A} (g : Z → A → A) (P : A → Prop) (l : list A) :
  alen l = 16 → (∀ i x, P (g i x)) →
  let l' := for_loop 16 0 (λ i r, r.[i <- g i (r.[i])]) l in
  alen l' = 16 ∧ ∀ i, 0 <= i < 16 → P (l'.[i]).
Proof.
  intros Hl HP l'. unfold l'.
  apply (for_loop_inv (λ k r, alen r = 16 ∧ ∀ i, 0 <= i < k → P (r.[i])) 16 0); [split; [done|lia]|].
  intros k r Hk [Hr Hi]. rewrite alen_aset. split; [done|]. intros i Hik.
  rewrite aget_aset by lia. destruct (Z.eqb_spec i k) as [->|]; [apply HP|apply Hi; lia].
Qed.

(** A register write of the initialisation, as the card sees it. *)
Lemma reg_after st r v r' :
  e1000_mmio st = base → r mod 4 = 0 → r ≠ REG_CTRL → r' ∈ ring_regs →
  (r ∈ ring_regs → 0 <= v < 16) →
  ring_reg (hw (e1000_w st r v)) r' = if r' =? r then v else ring_reg (hw st) r'.
Proof.
  intros Hb Hr Hc Hr' Hv. unfold e1000_w.
  change (hw (w_hw ?h _)) with h. rewrite Hb.
  replace (4 * Z.shiftr r 2) with r by (rewrite Z.shiftr_div_pow2 by lia; change (2 ^ 2) with 4; zlia).
  destruct (decide (r ∈ ring_regs)) as [Hin|Hin].
  - rewrite u32_small by (specialize (Hv Hin); lia). by apply ring_reg_w; auto.
  - rewrite ring_reg_other by done. destruct (Z.eqb_spec r' r) as [->|]; [done|done].
Qed.

Ltac reg_step Hb :=
  rewrite reg_after; [|exact Hb|reflexivity|discriminate|auto with nic|
    first [let E := fresh in intros E; exfalso; revert E;
           match goal with |- ?P → False => exact (bool_decide_eq_false_1 P eq_refl) end
          | intros _; vm_compute; split; [discriminate|reflexivity]]];
  match goal with |- context [?a =? ?b] =>
    let v := eval vm_compute in (a =? b) in change (a =? b) with v; cbv iota end.

Lemma init_rx_ring rxd rxb st :
  e1000_mmio st = base → rx_cur st = 0 → alen (rx_descs st) = 16 → alen (rx_buf st) = 16 →
  (∀ i, 0 <= i < 16 → alen ((rx_buf st).[i]) = PACKET_SIZE ∧ bytes_ok ((rx_buf st).[i])) →
  let st' := e1000_init_rx rxd rxb st in
  rx_ring st' [] ∧ e1000_mmio st' = e1000_mmio st ∧ tx_cur st' = tx_cur st ∧
  tx_descs st' = tx_descs st ∧ tx_buf st' = tx_buf st.
Proof.
  intros Hb Hcur Hd Hbuf Hsz.
  destruct (init_descs (λ i d, mk_rx_desc (V2P (u32 (rxb + PACKET_SIZE * i))) (rx_length d)
    (rx_checksum d) 0 (rx_errors d) (rx_special d)) (λ d, rx_status d = 0) (rx_descs st) Hd) as [Hl Hs];
    [done|].
  unfold e1000_init_rx. cbv zeta. split; [|do 3 (split; [reflexivity|]); reflexivity].
  constructor; try done.
  - change (rx_cur _) with (rx_cur st). lia.
  - change (rx_cur _) with (rx_cur st). rewrite Hcur. do 3 reg_step Hb. done.
  - change (rx_cur _) with (rx_cur st). rewrite Hcur. do 2 reg_step Hb. done.
  - intros i Hi. change (rx_cur _) with (rx_cur st). rewrite Hcur, Z.add_0_l, Z.mod_small by lia.
    unfold rx_slot. rewrite lookup_nil.
    match goal with |- context [(rx_descs ?s).[i]] =>
      change (rx_descs s) with (for_loop 16 0 (λ i r, r.[i <- mk_rx_desc (V2P (u32 (rxb + PACKET_SIZE * i)))
        (rx_length (r.[i])) (rx_checksum (r.[i])) 0 (rx_errors (r.[i])) (rx_special (r.[i]))]) (rx_descs st)) end.
    by rewrite Hs.
Qed.

Lemma init_tx_ring txd txb st :
  e1000_mmio st = base → tx_cur st = 0 → alen (tx_descs st) = 16 → alen (tx_buf st) = 16 →
  (∀ i, 0 <= i < 16 → alen ((tx_buf st).[i]) = PACKET_SIZE) →
  let st' := e1000_init_tx txd txb st in
  tx_ring st' [] ∧ e1000_mmio st' = e1000_mmio st ∧ rx_cur st' = rx_cur st ∧
  rx_descs st' = rx_descs st ∧ rx_buf st' = rx_buf st ∧
  ∀ r, r ∈ [REG_RDH; REG_RDT] → ring_reg (hw st') r = ring_reg (hw st) r.
Proof.
  intros Hb Hcur Hd Hbuf Hsz.
  destruct (init_descs (λ i d, mk_tx_desc (V2P (u32 (txb + PACKET_SIZE * i))) (tx_length d)
    (tx_cso d) (tx_cmd d) TX_STA_DD (tx_css d) (tx_special d)) (λ _, True) (tx_descs st) Hd) as [Hl _];
    [done|].
  unfold e1000_init_tx. cbv zeta. split; [|do 4 (split; [reflexivity|])].
  - constructor; try done.
    + change (tx_cur _) with (tx_cur st). lia.
    + change (tx_cur _) with (tx_cur st). rewrite Hcur. do 3 reg_step Hb. done.
    + change (tx_cur _) with (tx_cur st). rewrite Hcur. do 2 reg_step Hb. done.
  - intros r Hr. repeat (apply elem_of_cons in Hr as [-> | Hr]; [do 6 reg_step Hb; done|]).
    by apply not_elem_of_nil in Hr.
Qed.

(** The end of [e1000_start], once the registers are mapped and the card is reset. *)
Lemma start_rings rxd txd rxb txb st d m :
  e1000_mmio st = base → rx_cur st = 0 → tx_cur st = 0 → alen (rx_descs st) = 16 →
  alen (tx_descs st) = 16 → alen (rx_buf st) = 16 → alen (tx_buf st) = 16 →
  (∀ i, 0 <= i < 16 → alen ((rx_buf st).[i]) = PACKET_SIZE ∧ bytes_ok ((rx_buf st).[i])) →
  (∀ i, 0 <= i < 16 → alen ((tx_buf st).[i]) = PACKET_SIZE) →
  6 <= alen m →
  ∃ st', (true, w_eth_dev (mk_eth_dev (Some d) base m true)
            (w_net_driver_type 1 (e1000_init_tx txd txb (e1000_init_rx rxd rxb st)))) = (true, st') ∧
         nic_ok (mac (eth_dev st')) st' [] [] ∧ ethernet_is_ready st' = true.
Proof.
  intros Hb Hrc Htc Hrd Htd Hrb Htb Hrs Hts Hm.
  generalize (init_rx_ring rxd rxb st Hb Hrc Hrd Hrb Hrs). cbv zeta.
  generalize (e1000_init_rx rxd rxb st). intros s1 (R1 & G1 & G2 & G3 & G4).
  rewrite <-G1 in Hb. rewrite <-G2 in Htc. rewrite <-G3 in Htd. rewrite <-G4 in Htb, Hts.
  generalize (init_tx_ring txd txb s1 Hb Htc Htd Htb Hts). cbv zeta.
  generalize (e1000_init_tx txd txb s1). intros s2 (R2 & E1 & E2 & E3 & E4 & Hregs).
  eexists. split; [reflexivity|]. split; [|reflexivity]. split.
  - reflexivity.
  - reflexivity.
  - reflexivity.
  - exact Hm.
  - apply (rx_ring_frame s1); [exact R1|exact E1|exact E2|exact E3|exact E4|..].
    + apply (Hregs REG_RDH). apply elem_of_cons. by left.
    + apply (Hregs REG_RDT). apply elem_of_cons. right. apply elem_of_cons. by left.
  - constructor.
  - apply (tx_ring_frame s2); try reflexivity. exact R2.
Qed.

(** When the card's BAR0 is a memory BAR, [ethernet_init] brings the driver up with both
    rings empty and the card's ring pointers agreeing with the driver's. *)
Theorem e1000_start_ready rxd txd rxb txb st d :
  let bar0 := (pci_read_bar0 st d).1 in
  nz (Z.land bar0 1) = false → Z.land bar0 0xFFFFFFF0 = base →
  rx_cur st = 0 → tx_cur st = 0 → alen (rx_descs st) = 16 → alen (tx_descs st) = 16 →
  alen (rx_buf st) = 16 → alen (tx_buf st) = 16 →
  (∀ i, 0 <= i < 16 → alen ((rx_buf st).[i]) = PACKET_SIZE ∧ bytes_ok ((rx_buf st).[i])) →
  (∀ i, 0 <= i < 16 → alen ((tx_buf st).[i]) = PACKET_SIZE) →
  ∃ st', e1000_start rxd txd rxb txb st d = (true, st') ∧ nic_ok (mac (eth_dev st')) st' [] [] ∧
         ethernet_is_ready st' = true.
Proof.
  intros bar0 Hbar Hbase Hrc Htc Hrd Htd Hrb Htb Hrs Hts. unfold e1000_start.
  assert (∃ h, pci_read_bar0 st d = (bar0, w_hw h st)) as [h1 ->].
  { unfold bar0, pci_read_bar0. destruct (inl _ _) as [v h]. by exists h. }
  rewrite Hbar, Hbase. cbv zeta.
  match goal with |- context [e1000_reset ?s] => destruct (e1000_reset_hw s) as [h2 ->] end.
  match goal with |- context [e1000_read_mac ?s] => destruct (read_mac_hw s) as (m & h3 & -> & Hm) end.
  match goal with |- context [e1000_init_rx _ _ ?s] => set (s1 := s) end.
  assert (e1000_mmio s1 = base ∧ rx_cur s1 = 0 ∧ tx_cur s1 = 0 ∧ rx_descs s1 = rx_descs st ∧
    tx_descs s1 = tx_descs st ∧ rx_buf s1 = rx_buf st ∧ tx_buf s1 = tx_buf st)
    as (F1 & F2 & F3 & F4 & F5 & F6 & F7) by (rewrite <-Hrc at 1; rewrite <-Htc; repeat split).
  clearbody s1. rewrite <-F4 in Hrd. rewrite <-F5 in Htd. rewrite <-F6 in Hrb, Hrs. rewrite <-F7 in Htb, Hts.
  exact (start_rings rxd txd rxb txb s1 d m F1 F2 F3 Hrd Htd Hrb Htb Hrs Hts ltac:(lia)).
Qed.
End rings.

(** ** A card

    Registers keep what was written; a read of CTRL finds the reset finished, a read of the
    EEPROM register finds it done. *)

Record toy_nic := mk_toy_nic { toy_pci_bus : toy_bus; toy_regs : gmap Z Z }.

#[global] Instance toy_nic_ports : PortIO toy_nic := {
  inb h p := ((inb (toy_pci_bus h) p).1, h);
  inw h p := ((inw (toy_pci_bus h) p).1, h);
  inl h p := ((inl (toy_pci_bus h) p).1, h);
  outb h p v := h;
  outw h p v := h;
  outl h p v := mk_toy_nic (outl (toy_pci_bus h) p v) (toy_regs h) }.

#[global] Instance toy_nic_hw : NicHw toy_nic := {
  mmio_r h a := (Z.lor (Z.land (default 0 (toy_regs h !! a)) (u32 (Z.lnot CTRL_RST))) 0x10, h);
  mmio_w h a v := mk_toy_nic (toy_pci_bus h) (<[a := v]> (toy_regs h)) }.

Definition demo_base : Z := 0xFEBC0000.

#[global] Instance toy_card : E1000Card toy_nic demo_base.
Proof.
  refine {| ring_reg h r := default 0 (toy_regs h !! (demo_base + r)) |}.
  - intros h r r' v _ _ _. cbn [mmio_w toy_nic_hw toy_regs]. destruct (Z.eqb_spec r' r) as [->|].
    + by rewrite lookup_insert_eq.
    + by rewrite lookup_insert_ne by lia.
  - intros h r r' v Hr _ Hr'. cbn [mmio_w toy_nic_hw toy_regs].
    rewrite lookup_insert_ne; [done|]. intros E. apply Hr. by replace r with r' by lia.
Defined.

Definition demo_device : pci_device_t := mk_pci_device 0 3 0 0x8086 0x100E 2 0 0 3.
Definition demo_hw : toy_nic :=
  mk_toy_nic (pci_write32 demo_bus 0 3 0 0x10 demo_base) ∅.
Definition demo_rtl : Rtl8169.rtl toy_nic :=
  Rtl8169.mk_rtl demo_hw true 0xC000 [0x52; 0x54; 0; 0x12; 0x34; 0x56] (replicate 16 inhabitant)
    (replicate 16 inhabitant) (replicate 16 (replicate 1536 0)) (replicate 16 (replicate 1536 0)) 0 0.
Definition demo_eth : eth toy_nic pmm :=
  mk_eth demo_rtl [demo_device] demo_vmm (mk_eth_dev None 0 (replicate 6 0) false) demo_base 0
    (replicate 16 inhabitant) (replicate 16 inhabitant) (replicate 16 (replicate 2048 0))
    (replicate 16 (replicate 2048 0)) 0 0.

Lemma demo_bufs n i : 0 <= i < 16 →
  alen ((replicate 16 (replicate n 0)).[i]) = Z.of_nat n ∧ bytes_ok ((replicate 16 (replicate n 0)).[i]).
Proof.
  intros Hi. rewrite aget_replicate by lia. rewrite alen_replicate. split; [done|].
  apply Forall_replicate. lia.
Qed.

Lemma e1000_start_ready_witness :
  ∃ st', e1000_start 0xC0200000 0xC0201000 0xC0202000 0xC0212000 demo_eth demo_device = (true, st') ∧
         ethernet_is_ready st' = true.
Proof.
  assert ((pci_read_bar0 demo_eth demo_device).1 = demo_base) as Hbar by (vm_compute; reflexivity).
  assert (nz (Z.land (pci_read_bar0 demo_eth demo_device).1 1) = false) as H1 by (by rewrite Hbar).
  assert (Z.land (pci_read_bar0 demo_eth demo_device).1 0xFFFFFFF0 = demo_base) as H2 by (by rewrite Hbar).
  destruct (e1000_start_ready demo_base 0xC0200000 0xC0201000 0xC0202000 0xC0212000 demo_eth demo_device
    H1 H2 eq_refl eq_refl eq_refl eq_refl
    eq_refl eq_refl (demo_bufs 2048) (λ i Hi, proj1 (demo_bufs 2048 i Hi))) as (st' & E & _ & Hr).
  exists st'. exact (conj E Hr).
Defined.

Definition demo_mac : list Z := [0x52; 0x54; 0; 0x12; 0x34; 0x56].

(** The driver after initialisation. *)
Definition demo_up : eth toy_nic pmm :=
  w_eth_dev (mk_eth_dev (Some demo_device) demo_base demo_mac true)
    (w_net_driver_type 1 (e1000_init_tx 0xC0201000 0xC0212000 (e1000_init_rx 0xC0200000 0xC0202000 demo_eth))).

Lemma demo_up_ok : nic_ok demo_base demo_mac demo_up [] [].
Proof.
  destruct (start_rings demo_base 0xC0200000 0xC0201000 0xC0202000 0xC0212000 demo_eth demo_device demo_mac
    eq_refl eq_refl eq_refl eq_refl eq_refl eq_refl eq_refl (demo_bufs 2048)
    (λ i Hi, proj1 (demo_bufs 2048 i Hi)) ltac:(vm_compute; discriminate)) as (st' & E & Hok & _).
  injection E as <-. exact Hok.
Qed.

Definition demo_frame : list Z := replicate 60 7.

Lemma demo_arrives : ∃ st', card_rx demo_base demo_frame demo_up st'.
Proof.
  eexists. eapply (card_rx_intro demo_base demo_frame demo_up
    (mmio_w (hw demo_up) (demo_base + REG_RDH) 1)); [|..|reflexivity|].
  - vm_compute. discriminate.
  - vm_compute. split; [reflexivity|discriminate].
  - apply Forall_replicate. lia.
  - intros r Hr. rewrite (ring_reg_w (base := demo_base)) by (auto with nic || lia).
    destruct (Z.eqb_spec r REG_RDH); [by vm_compute|done].
Qed.

Lemma nic_fifo_witness :
  ∃ st' got waiting, nic_run demo_base 1518 demo_up [Arrive demo_frame; Recv demo_frame] st' ∧
    [demo_frame] = got ++ waiting ∧ [demo_frame] = map (trunc 1518) got.
Proof.
  destruct demo_arrives as [st1 H1].
  pose proof (rx_deliver demo_base demo_frame demo_up st1 [] (ok_rx _ _ _ _ _ demo_up_ok) H1) as R1.
  assert (initialized (eth_dev st1) = true ∧ net_driver_type st1 = 1) as [Hi Ht] by (by destruct H1).
  destruct (rx_take demo_base st1 [demo_frame] (replicate 1518 0) 1518 R1 Hi Ht) as (st2 & E & _).
  { rewrite alen_replicate. lia. }
  change (Z.min 1518 (alen demo_frame)) with 60 in E.
  assert (nic_run demo_base 1518 demo_up [Arrive demo_frame; Recv demo_frame] st2) as Hrun.
  { eapply run_cons; [exact (step_arrive _ _ _ _ _ H1)|]. eapply run_cons; [|apply run_nil].
    assert (sub (splice (replicate 1518 0) 0 (sub demo_frame 0 60)) 0 60 = demo_frame) as <-
      by (vm_compute; reflexivity).
    eapply step_recv; [|exact E]. rewrite alen_replicate. lia. }
  destruct (nic_fifo demo_base 1518 demo_mac demo_up _ st2 eq_refl demo_up_ok Hrun)
    as (got & waiting & unsent & Ha & Hr & _).
  exists st2, got, waiting. exact (conj Hrun (conj Ha Hr)).
Defined.

(** The card of this run never gives the descriptor back. *)
Lemma rtl_send_busy_descriptor_witness :
  ∃ st', Rtl8169.rtl8169_send (λ _, true) demo_rtl (replicate 6 255) 0x0806 (replicate 28 1) 28 =
         Done (true, st') ∧ Rtl8169.tx_cur st' = 1.
Proof.
  assert (bytes_ok (replicate 28 1)) as Hb by (apply Forall_replicate; lia).
  destruct (Rtl8169.rtl_send_busy_descriptor (λ _, true) demo_rtl (replicate 6 255) 0x0806 (replicate 28 1) 28
    eq_refl ltac:(vm_compute; split; [discriminate|reflexivity]) eq_refl eq_refl eq_refl
    ltac:(vm_compute; discriminate) eq_refl Hb ltac:(vm_compute; split; discriminate)
    ltac:(vm_compute; discriminate)) as (ok & st' & E & Hf & _ & Ht).
  destruct ok.
  - exists st'. exact (conj E (proj2 (proj2 (Ht eq_refl)))).
  - exfalso. destruct (proj1 Hf eq_refl) as [_ F]. discriminate F.
Defined.

Definition demo_rtl_rx : Rtl8169.rtl toy_nic :=
  Rtl8169.mk_rtl demo_hw true 0xC000 demo_mac
    (replicate 16 (Rtl8169.mk_desc 60 0 0 0)) (replicate 16 inhabitant)
    (replicate 16 (replicate 1536 9)) (replicate 16 (replicate 1536 0)) 15 0.

Lemma rtl_receive_oldest_witness :
  ∃ st', Rtl8169.rtl8169_receive demo_rtl_rx (replicate 100 0) 100 =
         Done (60, replicate 60 9 ++ replicate 40 0, st') ∧ Rtl8169.rx_cur st' = 0.
Proof.
  assert (bytes_ok ((Rtl8169.rtl_rx_buf demo_rtl_rx).[Rtl8169.rx_cur demo_rtl_rx])) as Hb
    by (change (bytes_ok (replicate 1536 9)); apply Forall_replicate; lia).
  destruct (Rtl8169.rtl_receive_oldest demo_rtl_rx (replicate 100 0) 100 eq_refl
    ltac:(vm_compute; split; [discriminate|reflexivity]) eq_refl ltac:(vm_compute; split; discriminate)
    ltac:(vm_compute; discriminate) ltac:(vm_compute; discriminate) Hb) as (st' & E & Hc & _).
  exists st'. exact (conj E Hc).
Defined.
End Ethernet.
