(* ===== verification/Net.v ===== *)
(** * net/: ARP, IPv4 with ICMP echo, UDP, DNS and the network task

    The stack is generic in the link layer ([Link], implemented by net/ethernet/ethernet.c
    in Nic.v) and in the wait queues ([WaitOps], implemented by proc/wait.c in Process.v).
    Packed structures are records with their byte layout; multi-byte fields are
    little-endian loads and stores, so network order is made explicit by [bswap16] as in the
    source.  Uninitialised stack arrays hold the arbitrary bytes [junk].  An access outside
    an object is a [Fault]; [ipv4_send] and [ipv4_handle] call each other through the
    loopback path, which is bounded by a fuel that the theorems discharge. *)

From S2P Require Import Prelude KString Pmm Vmm Kheap Process Pci Nic.

Class Link (L : Type) := {
  link_mac : L → option (list Z);
  link_send : L → list Z → Z → list Z → Z → outcome (bool * L);
  link_recv : L → list Z → Z → outcome (Z * list Z * L) }.

Class WaitOps (S Q : Type) := {
  wq_init : Q → Q;
  wq_wait : S → Q → bool * S * Q;
  wq_wake : S → Q → S * Q }.

Definition eth_link {D F} `{PortIO D} `{NicHw D} (own : nat → bool) : Link (Ethernet.eth D F) := {|
  link_mac st := Ethernet.mac <$> Ethernet.ethernet_get_device st;
  link_send := Ethernet.ethernet_send own;
  link_recv := Ethernet.ethernet_receive |}.

#[global] Instance proc_wait {H F V} : WaitOps (sys H F V) wait_queue_t := {|
  wq_init := wait_queue_init;
  wq_wait := wait_on;
  wq_wake := wake_up |}.

Definition ARP_CACHE_SIZE : Z := 8.
Definition MAX_UDP_PORTS : Z := 16.
Definition UDP_BUF_SIZE : Z := 2048.
Definition ETHERTYPE_ARP : Z := 0x0806.
Definition ETHERTYPE_IP : Z := 0x0800.
Definition IP_PROTO_ICMP : Z := 1.
Definition IP_PROTO_UDP : Z := 17.

Definition bswap16 (v : Z) : Z := u16 (Z.lor (Z.shiftr v 8) (Z.shiftl v 8)).

Record arp_entry_t := mk_arp_entry { e_ip : Z; e_mac : list Z; e_valid : bool }.
#[global] Instance arp_entry_inhabited : Inhabited arp_entry_t := populate (mk_arp_entry 0 [] false).

Record udp_queue_t (Q : Type) := mk_udp_queue {
  q_port : Z; q_buffer : list Z; q_length : Z; q_active : bool; q_wait : Q }.
Arguments mk_udp_queue {Q}.
Arguments q_port {Q}.
Arguments q_buffer {Q}.
Arguments q_length {Q}.
Arguments q_active {Q}.
Arguments q_wait {Q}.
#[global] Instance udp_queue_inhabited {Q} `{!Inhabited Q} : Inhabited (udp_queue_t Q) :=
  populate (mk_udp_queue 0 [] 0 false inhabitant).

(** The static variables of arp.c, ipv4.c and udp.c with the layers below. *)
Record net (L S Q : Type) := mk_net {
  link : L;
  sched : S;
  arp_cache : list arp_entry_t;
  net_our_ip : Z;
  ip_id : Z;
  udp_queues : list (udp_queue_t Q) }.
Arguments mk_net {L S Q}.
Arguments link {L S Q}.
Arguments sched {L S Q}.
Arguments arp_cache {L S Q}.
Arguments net_our_ip {L S Q}.
Arguments ip_id {L S Q}.
Arguments udp_queues {L S Q}.

(** ** Packet layouts *)

Record arp_packet_t := mk_arp {
  htype : Z; ptype : Z; hlen : Z; plen : Z; oper : Z;
  sha : list Z; spa : Z; tha : list Z; tpa : Z }.

Definition sizeof_arp : Z := 28.

Definition arp_bytes (p : arp_packet_t) : list Z :=
  le_bytes 2 (htype p) ++ le_bytes 2 (ptype p) ++ [hlen p; plen p] ++ le_bytes 2 (oper p)
    ++ sha p ++ le_bytes 4 (spa p) ++ tha p ++ le_bytes 4 (tpa p).

Definition arp_of (b : list Z) : arp_packet_t :=
  mk_arp (get_le 2 b 0) (get_le 2 b 2) (b.[4]) (b.[5]) (get_le 2 b 6)
    (sub b 8 6) (get_le 4 b 14) (sub b 18 6) (get_le 4 b 24).

Record ipv4_header_t := mk_ipv4 {
  ver_ihl : Z; tos : Z; total_len : Z; id : Z; frag_off : Z; ttl : Z; protocol : Z;
  checksum : Z; src_ip : Z; dst_ip : Z }.

Definition sizeof_ipv4 : Z := 20.

Definition ipv4_bytes (h : ipv4_header_t) : list Z :=
  [ver_ihl h; tos h] ++ le_bytes 2 (total_len h) ++ le_bytes 2 (id h) ++ le_bytes 2 (frag_off h)
    ++ [ttl h; protocol h] ++ le_bytes 2 (checksum h) ++ le_bytes 4 (src_ip h) ++ le_bytes 4 (dst_ip h).

Definition ipv4_of (b : list Z) (off : Z) : ipv4_header_t :=
  mk_ipv4 (b.[off]) (b.[off + 1]) (get_le 2 b (off + 2)) (get_le 2 b (off + 4)) (get_le 2 b (off + 6))
    (b.[off + 8]) (b.[off + 9]) (get_le 2 b (off + 10)) (get_le 4 b (off + 12)) (get_le 4 b (off + 16)).

Record udp_header_t := mk_udp { src_port : Z; dst_port : Z; length_ : Z; udp_checksum : Z }.

Definition udp_bytes (h : udp_header_t) : list Z :=
  le_bytes 2 (src_port h) ++ le_bytes 2 (dst_port h) ++ le_bytes 2 (length_ h) ++ le_bytes 2 (udp_checksum h).

Record icmp_header_t := mk_icmp { type_ : Z; code : Z; icmp_checksum : Z; icmp_id : Z; seq : Z }.

Definition icmp_bytes (h : icmp_header_t) : list Z :=
  [type_ h; code h] ++ le_bytes 2 (icmp_checksum h) ++ le_bytes 2 (icmp_id h) ++ le_bytes 2 (seq h).

(** ** The Internet checksum *)

Fixpoint fold_sum (fuel : nat) (sum : Z) : option Z :=
  match fuel with
  | O => None
  | S fuel' =>
      if nz (Z.shiftr sum 16)
      then fold_sum fuel' (u32 (Z.land sum 0xFFFF + Z.shiftr sum 16))
      else Some sum
  end.

(** The checksum of the [len] bytes at [data + off]; three rounds of folding are enough
    ([fold_sum_total]). *)
Definition ip_checksum (data : list Z) (off len : Z) : Z :=
  let sum := for_loop (Z.to_nat (len / 2)) 0 (λ i s, u32 (s + get_le 2 data (off + 2 * i))) 0 in
  let sum := if nz (len mod 2) then u32 (sum + data.[off + len - 1]) else sum in
  match fold_sum 3 sum with
  | Some s => u16 (Z.lnot s)
  | None => 0
  end.

Section stack.
Context {L S Q : Type} `{Link L} `{!Inhabited Q} `{WaitOps S Q}.
(** Contents of uninitialised stack arrays. *)
Variable junk : Z → Z.
Implicit Types st : net L S Q.

Definition uninit (n : Z) : list Z := map (λ i, u8 (junk i)) (seqZ 0 n).

Definition w_link (v : L) st : net L S Q :=
  mk_net v (sched st) (arp_cache st) (net_our_ip st) (ip_id st) (udp_queues st).
Definition w_sched (v : S) st : net L S Q :=
  mk_net (link st) v (arp_cache st) (net_our_ip st) (ip_id st) (udp_queues st).
Definition w_arp_cache (v : list arp_entry_t) st : net L S Q :=
  mk_net (link st) (sched st) v (net_our_ip st) (ip_id st) (udp_queues st).
Definition w_ip_id (v : Z) st : net L S Q :=
  mk_net (link st) (sched st) (arp_cache st) (net_our_ip st) v (udp_queues st).
Definition w_udp_queues (v : list (udp_queue_t Q)) st : net L S Q :=
  mk_net (link st) (sched st) (arp_cache st) (net_our_ip st) (ip_id st) v.

Definition send_frame st (dst : list Z) (ethertype : Z) (payload : list Z) (len : Z) :
    outcome (bool * net L S Q) :=
  '(ok, l) ← link_send (link st) dst ethertype payload len; Done (ok, w_link l st).

(** ** arp.c *)

Definition BROADCAST_MAC : list Z := [0xFF; 0xFF; 0xFF; 0xFF; 0xFF; 0xFF].

Definition arp_init st : net L S Q :=
  w_arp_cache (for_loop 8 0 (λ i c, c.[i <- mk_arp_entry (e_ip (c.[i])) (e_mac (c.[i])) false])
                 (arp_cache st)) st.

Definition cached (c : list arp_entry_t) (ip i : Z) : bool := e_valid (c.[i]) && (e_ip (c.[i]) =? ip).

(** [mac] are the six bytes at the pointer the source passes. *)
Definition arp_cache_put (c : list arp_entry_t) (ip : Z) (mac : list Z) : list arp_entry_t :=
  match zfind (cached c ip) 0 8 with
  | Some i => c.[i <- mk_arp_entry (e_ip (c.[i])) mac (e_valid (c.[i]))]
  | None =>
      match zfind (λ i, negb (e_valid (c.[i]))) 0 8 with
      | Some i => c.[i <- mk_arp_entry ip mac true]
      | None => c.[0 <- mk_arp_entry ip mac true]
      end
  end.

Definition arp_lookup (c : list arp_entry_t) (ip : Z) : option (list Z) :=
  (λ i, e_mac (c.[i])) <$> zfind (cached c ip) 0 8.

Definition arp_request st (target_ip : Z) : outcome (net L S Q) :=
  match link_mac (link st) with
  | None => Done st
  | Some mac =>
      let pkt := mk_arp 0x0100 0x0008 6 4 0x0100 (sub mac 0 6) (net_our_ip st) (replicate 6 0) target_ip in
      '(_, st) ← send_frame st BROADCAST_MAC ETHERTYPE_ARP (arp_bytes pkt) sizeof_arp;
      Done st
  end.

(** [payload] is the object the pointer leads into, [off] the offset of the packet. *)
Definition arp_handle st (frame : list Z) (off len : Z) : outcome (net L S Q) :=
  if len <? sizeof_arp then Done st
  else if negb (ck_memory off sizeof_arp (alen frame)) then Fault
  else
    let pkt := arp_of (sub frame off sizeof_arp) in
    if negb (htype pkt =? 0x0100) || negb (ptype pkt =? 0x0008) then Done st
    else
      let st := w_arp_cache (arp_cache_put (arp_cache st) (spa pkt) (sha pkt)) st in
      if (oper pkt =? 0x0100) && (tpa pkt =? net_our_ip st) then
        match link_mac (link st) with
        | None => Done st
        | Some mac =>
            let reply := mk_arp 0x0100 0x0008 6 4 0x0200 (sub mac 0 6) (net_our_ip st) (sha pkt) (spa pkt) in
            '(_, st) ← send_frame st (sha pkt) ETHERTYPE_ARP (arp_bytes reply) sizeof_arp;
            Done st
        end
      else Done st.

(** ** udp.c: receiving *)

Definition udp_init st : net L S Q :=
  w_udp_queues (for_loop 16 0
    (λ i q, let e := q.[i] in
       q.[i <- mk_udp_queue (q_port e) (q_buffer e) 0 false (wq_init (q_wait e))]) (udp_queues st)) st.

Definition bound (qs : list (udp_queue_t Q)) (port i : Z) : bool :=
  q_active (qs.[i]) && (q_port (qs.[i]) =? port).

(** The queue of a port, or a free queue that is bound to it. *)
Definition udp_slot (qs : list (udp_queue_t Q)) (port : Z) : option (Z * list (udp_queue_t Q)) :=
  match zfind (bound qs port) 0 16 with
  | Some i => Some (i, qs)
  | None =>
      (λ i, let e := qs.[i] in
            (i, qs.[i <- mk_udp_queue port (q_buffer e) (q_length e) true (q_wait e)]))
      <$> zfind (λ i, negb (q_active (qs.[i]))) 0 16
  end.

(** The segment is the [len] bytes at [frame + off]. *)
Definition udp_handle st (frame : list Z) (off len : Z) : outcome (net L S Q) :=
  if len <? 8 then Done st
  else if negb (ck_memory off 8 (alen frame)) then Fault
  else
    let dst_port := bswap16 (get_le 2 frame (off + 2)) in
    let data_len := u16 (bswap16 (get_le 2 frame (off + 4)) - 8) in
    match udp_slot (udp_queues st) dst_port with
    | None => Done st
    | Some (i, qs) =>
        let data_len := if UDP_BUF_SIZE <? data_len then UDP_BUF_SIZE else data_len in
        let e := qs.[i] in
        buffer ← memcpy_ck (q_buffer e) 0 frame (off + 8) data_len;
        let '(s, w) := wq_wake (sched st) (q_wait e) in
        Done (w_sched s (w_udp_queues
          (qs.[i <- mk_udp_queue (q_port e) buffer data_len (q_active e) w]) st))
    end.

(** [while (length == 0) wait_on(...)]: [resume] is what the rest of the system does until
    the thread runs again. *)
Fixpoint udp_wait (fuel : nat) (resume : net L S Q → net L S Q) st (i : Z) : outcome (net L S Q) :=
  match fuel with
  | O => NoFuel
  | Datatypes.S fuel' =>
      let e := (udp_queues st).[i] in
      if q_length e =? 0 then
        let '(blocked, s, w) := wq_wait (sched st) (q_wait e) in
        let st := w_sched s (w_udp_queues
          ((udp_queues st).[i <- mk_udp_queue (q_port e) (q_buffer e) (q_length e) (q_active e) w]) st) in
        udp_wait fuel' resume (if blocked : bool then resume st else st) i
      else Done st
  end.

(** The result, the buffer and the state; a NULL buffer is the empty list. *)
Definition udp_recv (fuel : nat) (resume : net L S Q → net L S Q) st (local_port : Z) (buf : list Z)
    (maxlen : Z) : outcome (Z * list Z * net L S Q) :=
  match zfind (bound (udp_queues st) local_port) 0 16 with
  | Some i =>
      st ← udp_wait fuel resume st i;
      let e := (udp_queues st).[i] in
      let n := if q_length e <? maxlen then q_length e else maxlen in
      buf ← memcpy_ck buf 0 (q_buffer e) 0 n;
      Done (n, buf, w_udp_queues
        ((udp_queues st).[i <- mk_udp_queue (q_port e) (q_buffer e) 0 (q_active e) (q_wait e)]) st)
  | None =>
      match zfind (λ i, negb (q_active ((udp_queues st).[i]))) 0 16 with
      | Some i =>
          let e := (udp_queues st).[i] in
          Done (0, buf, w_udp_queues
            ((udp_queues st).[i <- mk_udp_queue local_port (q_buffer e) 0 true (q_wait e)]) st)
      | None => Done (0, buf, st)
      end
  end.

(** ** ipv4.c *)

Definition ipv4_init st : net L S Q := w_ip_id 0 st.

(** The header both branches of [ipv4_send] build. *)
Definition ipv4_header (total id src dst proto checksum : Z) : ipv4_header_t :=
  mk_ipv4 0x45 0 (bswap16 total) (bswap16 id) 0 64 proto checksum src dst.

Definition put_ipv4 (buf : list Z) (off total id src dst proto : Z) : list Z :=
  let buf := splice buf off (ipv4_bytes (ipv4_header total id src dst proto 0)) in
  splice buf off (ipv4_bytes (ipv4_header total id src dst proto (ip_checksum buf off sizeof_ipv4))).

Definition is_loopback st (dst : Z) : bool := (dst =? 0x0100007F) || (dst =? net_our_ip st).

Section handle.
(** [ipv4_send], which the echo reply calls. *)
Variable send : net L S Q → Z → Z → list Z → Z → outcome (bool * net L S Q).

Definition icmp_handle st (frame : list Z) (src payload plen : Z) : outcome (net L S Q) :=
  if plen <? 8 then Done st
  else if negb (ck_memory payload 8 (alen frame)) then Fault
  else if frame.[payload] =? 8 then
    let plen := if 512 <? plen then 512 else plen in
    rep_buf ← memcpy_ck (uninit 512) 0 frame payload plen;
    let rep_buf := put_le 2 ((rep_buf.[0 <- 0]).[1 <- 0]) 2 0 in
    let rep_buf := put_le 2 rep_buf 2 (ip_checksum rep_buf 0 plen) in
    '(_, st) ← send st src IP_PROTO_ICMP rep_buf plen;
    Done st
  else Done st.

Definition ipv4_handle_with st (frame : list Z) (frame_len : Z) : outcome (net L S Q) :=
  if frame_len <? 14 + sizeof_ipv4 then Done st
  else if negb (ck_memory 14 sizeof_ipv4 (alen frame)) then Fault
  else
    let hdr := ipv4_of frame 14 in
    let ihl := Z.land (ver_ihl hdr) 0x0F * 4 in
    let total := bswap16 (total_len hdr) in
    let payload := 14 + ihl in
    let plen := u16 (total - ihl) in
    if protocol hdr =? IP_PROTO_UDP then udp_handle st frame payload plen
    else if protocol hdr =? IP_PROTO_ICMP then icmp_handle st frame (src_ip hdr) payload plen
    else Done st.
End handle.

(** The body of [ipv4_send]; [send] is the recursive call behind [ipv4_handle]. *)
Definition ipv4_send_with (send : net L S Q → Z → Z → list Z → Z → outcome (bool * net L S Q))
    st (dst proto : Z) (payload : list Z) (plen : Z) : outcome (bool * net L S Q) :=
  if is_loopback st dst then
    let total := u16 (sizeof_ipv4 + plen) in
    if 1518 <? total + 14 then Done (false, st)
    else
      let loop_buf := memset (uninit 1518) 0 0 14 in
      let loop_buf := (loop_buf.[12 <- 0x08]).[13 <- 0x00] in
      let loop_buf := put_ipv4 loop_buf 14 total (ip_id st) (net_our_ip st) dst proto in
      let st := w_ip_id (u16 (ip_id st + 1)) st in
      loop_buf ← memcpy_ck loop_buf (14 + sizeof_ipv4) payload 0 plen;
      st ← ipv4_handle_with send st loop_buf (total + 14);
      Done (true, st)
  else
    match arp_lookup (arp_cache st) dst with
    | None => st ← arp_request st dst; Done (false, st)
    | Some dst_mac =>
        let total := u16 (sizeof_ipv4 + plen) in
        if 1500 <? total then Done (false, st)
        else
          let buf := put_ipv4 (uninit 1500) 0 total (ip_id st) (net_our_ip st) dst proto in
          let st := w_ip_id (u16 (ip_id st + 1)) st in
          buf ← memcpy_ck buf sizeof_ipv4 payload 0 plen;
          send_frame st dst_mac ETHERTYPE_IP buf total
    end.

(** Each level of [fuel] is one more [ipv4_send] on the stack. *)
Fixpoint ipv4_send (fuel : nat) : net L S Q → Z → Z → list Z → Z → outcome (bool * net L S Q) :=
  match fuel with
  | O => λ _ _ _ _ _, NoFuel
  | Datatypes.S fuel' => ipv4_send_with (ipv4_send fuel')
  end.

Definition ipv4_handle (fuel : nat) : net L S Q → list Z → Z → outcome (net L S Q) :=
  ipv4_handle_with (ipv4_send fuel).

Definition icmp_send_request (fuel : nat) st (dst : Z) : outcome (bool * net L S Q) :=
  let pkt := mk_icmp 8 0 0 (bswap16 1234) (bswap16 1) in
  let pkt := mk_icmp 8 0 (ip_checksum (icmp_bytes pkt) 0 8) (bswap16 1234) (bswap16 1) in
  ipv4_send fuel st dst IP_PROTO_ICMP (icmp_bytes pkt) 8.

(** ** udp.c: sending *)

Definition udp_send (fuel : nat) st (dst port : Z) (payload : list Z) (plen : Z) :
    outcome (bool * net L S Q) :=
  let udp_total := u16 (8 + plen) in
  if 1472 <? udp_total then Done (false, st)
  else
    let hdr := mk_udp (bswap16 1234) (bswap16 port) (bswap16 udp_total) 0 in
    let buf := splice (uninit 1472) 0 (udp_bytes hdr) in
    buf ← memcpy_ck buf 8 payload 0 plen;
    ipv4_send fuel st dst IP_PROTO_UDP buf udp_total.

(** ** net.c: one turn of the network task

    The yield at the end of a turn is left to the scheduler. *)

Definition network_poll (fuel : nat) st (frame : list Z) : outcome (list Z * net L S Q) :=
  '(len, frame, l) ← link_recv (link st) frame 1518;
  let st := w_link l st in
  if 0 <? len then
    if len <? 14 then Done (frame, st)
    else
      let ethertype := Z.lor (Z.shiftl (frame.[12]) 8) (frame.[13]) in
      if ethertype =? 0x0800 then
        st ← ipv4_handle fuel st frame (u16 len); Done (frame, st)
      else if ethertype =? 0x0806 then
        st ← arp_handle st frame 14 (u16 (len - 14)); Done (frame, st)
      else Done (frame, st)
  else Done (frame, st).
End stack.

(** ** The checksum is the Internet checksum *)

(** The 16-bit words of a region, the last byte padded with zero. *)
Definition words_sum (data : list Z) (off len : Z) : Z :=
  for_loop (Z.to_nat (len / 2)) 0 (λ i s, s + get_le 2 data (off + 2 * i)) 0
  + (if nz (len mod 2) then data.[off + len - 1] else 0).

(** One's complement addition (RFC 1071), carry added at once. *)
Definition onec_add (a b : Z) : Z :=
  let s := a + b in if 0xFFFF <? s then s - 0xFFFF else s.

(** The reference sum: words added one by one with end-around carry. *)
Definition onec_sum (data : list Z) (off len : Z) : Z :=
  let s := for_loop (Z.to_nat (len / 2)) 0 (λ i s, onec_add s (get_le 2 data (off + 2 * i))) 0 in
  if nz (len mod 2) then onec_add s (data.[off + len - 1]) else s.

(** [r] represents the sum [s] in one's complement: congruent modulo 65535, and zero
    exactly for zero. *)
Definition onec (s r : Z) : Prop := 0 <= r <= 0xFFFF ∧ r mod 0xFFFF = s mod 0xFFFF ∧ (r = 0 ↔ s = 0).

Lemma onec_unique s r1 r2 : onec s r1 → onec s r2 → r1 = r2.
Proof. intros (H1 & E1 & Z1) (H2 & E2 & Z2). zlia. Qed.

Lemma onec_step s r w : 0 <= s → 0 <= w <= 0xFFFF → onec s r → onec (s + w) (onec_add r w).
Proof.
  intros Hs Hw (Hr & E & Z0). unfold onec, onec_add.
  destruct (Z.ltb_spec 0xFFFF (r + w)); split_and!; try lia.
  - rewrite <-(Z.mod_add (r + w - 0xFFFF) 1 0xFFFF) by lia.
    replace (r + w - 0xFFFF + 1 * 0xFFFF) with (r + w) by lia.
    by rewrite Z.add_mod, E, <-Z.add_mod by lia.
  - by rewrite Z.add_mod, E, <-Z.add_mod by lia.
Qed.

Lemma fold_step s :
  0 <= s < 0x100000000 →
  let s' := u32 (Z.land s 0xFFFF + Z.shiftr s 16) in
  s' = s mod 0x10000 + s / 0x10000 ∧ s' mod 0xFFFF = s mod 0xFFFF ∧ (s' = 0 ↔ s = 0).
Proof.
  intros Hs. cbv zeta.
  assert (u32 (Z.land s 0xFFFF + Z.shiftr s 16) = s mod 0x10000 + s / 0x10000) as ->.
  { change 0xFFFF with (Z.ones 16). rewrite Z.land_ones, Z.shiftr_div_pow2 by lia.
    change (2 ^ 16) with 0x10000. apply u32_small. zlia. }
  split; [done|]. split; [|zlia].
  rewrite (Z.div_mod s 0x10000) at 3 by lia.
  replace (0x10000 * (s / 0x10000) + s mod 0x10000)
    with (s mod 0x10000 + s / 0x10000 + (s / 0x10000) * 0xFFFF) by lia.
  by rewrite Z.mod_add by lia.
Qed.

(** Three rounds of folding always suffice. *)
Lemma fold_sum_total s : 0 <= s < 0x100000000 → ∃ r, fold_sum 3 s = Some r ∧ onec s r.
Proof.
  intros Hs.
  assert (∀ t, nz (Z.shiftr t 16) = negb (t / 0x10000 =? 0)) as Hnz
    by (intros; unfold nz; by rewrite Z.shiftr_div_pow2 by lia).
  destruct (fold_step s Hs) as (E1 & C1 & Z1). set (s1 := u32 (Z.land s 0xFFFF + Z.shiftr s 16)) in *.
  assert (0 <= s1 < 0x20000) as H1 by zlia.
  destruct (fold_step s1 ltac:(lia)) as (E2 & C2 & Z2). set (s2 := u32 (Z.land s1 0xFFFF + Z.shiftr s1 16)) in *.
  assert (0 <= s2 <= 0xFFFF) as H2 by zlia.
  unfold fold_sum. fold s1. fold s2. rewrite !Hnz.
  destruct (Z.eqb_spec (s / 0x10000) 0); cbn [negb].
  { exists s. split; [done|]. unfold onec. split_and!; try done; zlia. }
  destruct (Z.eqb_spec (s1 / 0x10000) 0); cbn [negb].
  { exists s1. split; [done|]. unfold onec. split_and!; try done; zlia. }
  destruct (Z.eqb_spec (s2 / 0x10000) 0); cbn [negb]; [|zlia].
  exists s2. split; [done|]. unfold onec. split_and!; try done; try lia; congruence.
Qed.

Lemma get_le2_range b off : bytes_ok b → 0 <= get_le 2 b off <= 0xFFFF.
Proof. intros H. pose proof (get_le_range 2 b off H) as Hr. change (256 ^ Z.of_nat 2) with 0x10000 in Hr. lia. Qed.

Lemma aget_byte b i : bytes_ok b → 0 <= b.[i] < 256.
Proof.
  intros Hb. destruct (decide (0 <= i < alen b)) as [Hi|Hi].
  - by apply (Forall_aget (λ x, 0 <= x < 256)).
  - unfold aget. case_match; [done|]. rewrite list_lookup_total_alt, lookup_ge_None_2; [done|].
    unfold alen in *. lia.
Qed.

Lemma word_loops data off len n :
  bytes_ok data → (n <= Z.to_nat (len / 2))%nat → 0 <= len <= 0xFFFF →
  let p := for_loop n 0 (λ i s, s + get_le 2 data (off + 2 * i)) 0 in
  0 <= p <= 0xFFFF * Z.of_nat n ∧
  for_loop n 0 (λ i s, u32 (s + get_le 2 data (off + 2 * i))) 0 = p ∧
  onec p (for_loop n 0 (λ i s, onec_add s (get_le 2 data (off + 2 * i))) 0).
Proof.
  intros Hok. induction n as [|n IH]; intros Hn Hlen p; unfold p.
  { cbn. split; [lia|]. split; [done|]. unfold onec. split_and!; try done; lia. }
  rewrite !for_loop_S. destruct (IH ltac:(lia) Hlen) as (Hb & E & Ho).
  pose proof (get_le2_range data (off + 2 * (0 + Z.of_nat n)) Hok). rewrite E.
  split; [lia|]. split; [apply u32_small; zlia|]. apply onec_step; [lia|lia|done].
Qed.

(** What [ip_checksum] sums: the words without loss, reduced as the reference does. *)
Lemma checksum_sums data off len :
  bytes_ok data → 0 <= len <= 0xFFFF →
  0 <= words_sum data off len < 0x100000000 ∧ onec (words_sum data off len) (onec_sum data off len) ∧
  ip_checksum data off len =
    match fold_sum 3 (words_sum data off len) with Some s => u16 (Z.lnot s) | None => 0 end.
Proof.
  intros Hok Hlen. destruct (word_loops data off len (Z.to_nat (len / 2)) Hok ltac:(lia) Hlen) as (Hb & E & Ho).
  unfold ip_checksum, words_sum, onec_sum. rewrite E.
  pose proof (aget_byte data (off + len - 1) Hok).
  set (p := for_loop _ 0 (λ i s, s + get_le 2 data (off + 2 * i)) 0) in *.
  assert (p + 255 < 0x100000000) by zlia.
  destruct (nz (len mod 2)).
  - split; [lia|]. split; [apply onec_step; [lia|lia|done]|]. by rewrite u32_small by lia.
  - rewrite Z.add_0_r. split; [lia|]. split; [done|done].
Qed.

(** C36: [ip_checksum] computes the Internet checksum of RFC 1071: the complement of the
    one's complement sum of the 16-bit words, for every region of up to 65535 bytes, odd
    lengths included; the 32-bit accumulator never overflows and the folding loop ends. *)
Theorem ip_checksum_reference data off len :
  bytes_ok data → 0 <= len <= 0xFFFF →
  ip_checksum data off len = 0xFFFF - onec_sum data off len.
Proof.
  intros Hok Hlen. destruct (checksum_sums data off len Hok Hlen) as (Hw & Ho & ->).
  destruct (fold_sum_total _ Hw) as (r & -> & Hr).
  rewrite (onec_unique _ _ _ Hr Ho). destruct Ho as [Hb _]. unfold Z.lnot. words.
Qed.

Lemma ip_checksum_reference_witness :
  ip_checksum [0x45; 0; 0; 0x1C; 0xFF; 0xFF; 7] 0 7 = 0xFFFF - onec_sum [0x45; 0; 0; 0x1C; 0xFF; 0xFF; 7] 0 7.
Proof. apply ip_checksum_reference; [repeat constructor; lia|lia]. Defined.

Lemma words_sum_put data off len k c :
  0 <= off → off + len <= alen data → 0 <= k → k mod 2 = 0 → k + 2 <= len → 0 <= c < 0x10000 →
  words_sum (put_le 2 data (off + k) c) off len = words_sum data off len - get_le 2 data (off + k) + c.
Proof.
  intros Ho Hl Hk Hk2 Hkl Hc. unfold words_sum.
  assert (∀ n, (n <= Z.to_nat (len / 2))%nat →
    for_loop n 0 (λ i s, s + get_le 2 (put_le 2 data (off + k) c) (off + 2 * i)) 0 =
    for_loop n 0 (λ i s, s + get_le 2 data (off + 2 * i)) 0 +
    (if k / 2 <? Z.of_nat n then c - get_le 2 data (off + k) else 0)) as HL.
  { induction n as [|n IH]; intros Hn; [cbn [for_loop]; change (Z.of_nat 0) with 0; destruct (Z.ltb_spec (k / 2) 0); [exfalso|]; zlia|].
    rewrite !for_loop_S, IH by lia. rewrite Z.add_0_l. destruct (Z.eq_dec (k / 2) (Z.of_nat n)) as [E|E].
    - replace (off + 2 * Z.of_nat n) with (off + k) by zlia.
      rewrite get_put_le by (change (Z.of_nat 2) with 2; zlia). change (256 ^ Z.of_nat 2) with 0x10000.
      rewrite Z.mod_small by lia.
      destruct (Z.ltb_spec (k / 2) (Z.of_nat n)), (Z.ltb_spec (k / 2) (Z.of_nat (S n))); lia.
    - rewrite get_put_le_ne by (change (Z.of_nat 2) with 2; zlia).
      destruct (Z.ltb_spec (k / 2) (Z.of_nat n)), (Z.ltb_spec (k / 2) (Z.of_nat (S n))); lia. }
  rewrite HL by lia. destruct (Z.ltb_spec (k / 2) (Z.of_nat (Z.to_nat (len / 2)))); [|zlia].
  assert (nz (len mod 2) = true → (put_le 2 data (off + k) c).[off + len - 1] = data.[off + len - 1]) as Hlast.
  { intros Hodd. unfold nz in Hodd. destruct (Z.eqb_spec (len mod 2) 0); [done|].
    unfold put_le. rewrite aget_splice by (rewrite ?alen_le_bytes; lia). rewrite alen_le_bytes.
    destruct (Z.leb_spec (off + k) (off + len - 1)), (Z.ltb_spec (off + len - 1) (off + k + Z.of_nat 2));
      simpl; try done; zlia. }
  destruct (nz (len mod 2)); [rewrite Hlast by done|]; lia.
Qed.

(** A header whose checksum field was zero verifies at the receiver once the computed
    checksum is stored in the field: its one's complement sum is 0xFFFF. *)
Theorem ip_checksum_verifies data off len k :
  bytes_ok data → 0 <= off → 0 <= len <= 0xFFFF → off + len <= alen data →
  0 <= k → k mod 2 = 0 → k + 2 <= len → get_le 2 data (off + k) = 0 →
  ip_checksum (put_le 2 data (off + k) (ip_checksum data off len)) off len = 0.
Proof.
  intros Hok Ho Hlen Hl Hk Hk2 Hkl H0.
  destruct (checksum_sums data off len Hok Hlen) as (Hw & Hs & E1). rewrite E1.
  destruct (fold_sum_total _ Hw) as (r & -> & Hr).
  assert (u16 (Z.lnot r) = 0xFFFF - r) as -> by (destruct Hr as [? _]; unfold Z.lnot; words).
  assert (0 <= 0xFFFF - r < 0x10000) as Hc by (destruct Hr; lia).
  assert (bytes_ok (put_le 2 data (off + k) (0xFFFF - r))) as Hok'
    by (apply bytes_ok_splice; [done|apply le_bytes_ok]).
  destruct (checksum_sums _ off len Hok' Hlen) as (Hw' & _ & ->).
  destruct (fold_sum_total _ Hw') as (r' & -> & Hr').
  rewrite words_sum_put, H0 in Hr' by done.
  assert (r' = 0xFFFF) as ->; [|done].
  destruct Hr as (Hb & Hm & Hz), Hr' as (Hb' & Hm' & Hz').
  rewrite Z.sub_0_r in Hm', Hz'.
  assert ((words_sum data off len + (0xFFFF - r)) mod 0xFFFF = 0) as E0.
  { replace (words_sum data off len + (0xFFFF - r)) with (words_sum data off len - r + 1 * 0xFFFF) by lia.
    rewrite Z.mod_add, Zminus_mod, Hm, Z.sub_diag by lia. done. }
  assert (words_sum data off len + (0xFFFF - r) ≠ 0) by lia. zlia.
Qed.

Lemma ip_checksum_verifies_witness :
  let hdr := ipv4_bytes (ipv4_header 48 7 0x0F02000A 0x0202000A 17 0) in
  ip_checksum (put_le 2 hdr 10 (ip_checksum hdr 0 20)) 0 20 = 0.
Proof.
  apply (ip_checksum_verifies (ipv4_bytes (ipv4_header 48 7 0x0F02000A 0x0202000A 17 0)) 0 20 10);
    try (vm_compute; split; discriminate); try (vm_compute; discriminate); try (vm_compute; reflexivity).
  apply bytes_ok_b. vm_compute. reflexivity.
Defined.

(** ** ARP cache *)

(** No address has two valid entries. *)
Record arp_wf (c : list arp_entry_t) : Prop := {
  aw_len : alen c = ARP_CACHE_SIZE;
  aw_uniq i j : 0 <= i < 8 → 0 <= j < 8 → e_valid (c.[i]) = true → e_valid (c.[j]) = true →
                e_ip (c.[i]) = e_ip (c.[j]) → i = j }.

Lemma cached_iff c ip i : cached c ip i = true ↔ e_valid (c.[i]) = true ∧ e_ip (c.[i]) = ip.
Proof. unfold cached. rewrite andb_true_iff, Z.eqb_eq. done. Qed.

Lemma arp_find c ip :
  arp_wf c →
  match zfind (cached c ip) 0 8 with
  | Some i => 0 <= i < 8 ∧ cached c ip i = true
  | None => ∀ i, 0 <= i < 8 → cached c ip i = false
  end.
Proof.
  intros _. destruct (zfind _ 0 8) as [i|] eqn:E.
  - apply zfind_Some in E as (? & ? & _). split; [lia|done].
  - rewrite zfind_None in E. intros. apply E. lia.
Qed.

(** The value found does not depend on which valid entry is met first. *)
Lemma arp_lookup_at c ip i :
  arp_wf c → 0 <= i < 8 → cached c ip i = true → arp_lookup c ip = Some (e_mac (c.[i])).
Proof.
  intros Hw Hi Hc. unfold arp_lookup. pose proof (arp_find c ip Hw) as HF.
  destruct (zfind _ 0 8) as [j|]; [|by rewrite HF in Hc]. destruct HF as [Hj Hcj].
  apply cached_iff in Hc as [V1 E1]. apply cached_iff in Hcj as [V2 E2].
  simpl. by rewrite (aw_uniq _ Hw i j) by (done || congruence).
Qed.

Lemma arp_lookup_none c ip :
  (∀ i, 0 <= i < 8 → cached c ip i = false) → arp_lookup c ip = None.
Proof.
  intros Hn. unfold arp_lookup. destruct (zfind _ 0 8) as [j|] eqn:E; [|done].
  apply zfind_Some in E as (? & E & _). rewrite Hn in E; [done|lia].
Qed.

(** Writing a valid entry for [ip] at slot [k], when no other slot holds [ip]. *)
Lemma arp_write c ip mac k :
  arp_wf c → 0 <= k < 8 → (∀ i, 0 <= i < 8 → i ≠ k → cached c ip i = false) →
  let c' := c.[k <- mk_arp_entry ip mac true] in
  arp_wf c' ∧ arp_lookup c' ip = Some mac ∧
  ∀ ip', ip' ≠ ip → arp_lookup c' ip' = if cached c ip' k then None else arp_lookup c ip'.
Proof.
  intros Hw Hk Hn c'. pose proof (aw_len _ Hw) as Hl. unfold ARP_CACHE_SIZE in Hl.
  assert (∀ i, c'.[i] = if i =? k then mk_arp_entry ip mac true else c.[i]) as Hg
    by (intros; apply aget_aset; lia).
  assert (∀ i x, 0 <= i < 8 → cached c' x i = if i =? k then x =? ip else cached c x i) as Hc.
  { intros i x Hi. unfold cached. rewrite Hg. destruct (i =? k); [|done]. cbn. apply Z.eqb_sym. }
  assert (arp_wf c') as Hw'.
  { split; [unfold c'; by rewrite alen_aset|]. intros i j Hi Hj Vi Vj E.
    specialize (Hc i (e_ip (c'.[i])) Hi) as C1. specialize (Hc j (e_ip (c'.[i])) Hj) as C2.
    assert (cached c' (e_ip (c'.[i])) i = true) as K1 by (by apply cached_iff).
    assert (cached c' (e_ip (c'.[i])) j = true) as K2 by (by apply cached_iff).
    rewrite K1 in C1. rewrite K2 in C2.
    destruct (Z.eqb_spec i k) as [->|Nik], (Z.eqb_spec j k) as [->|Njk]; [done|..].
    - symmetry in C1. apply Z.eqb_eq in C1. rewrite C1, Hn in C2 by done. done.
    - symmetry in C2. apply Z.eqb_eq in C2. rewrite C2, Hn in C1 by done. done.
    - symmetry in C1, C2. apply cached_iff in C1 as [A1 B1]. apply cached_iff in C2 as [A2 B2].
      apply (aw_uniq _ Hw); [done|done|done|done|congruence]. }
  split; [done|]. split.
  - rewrite (arp_lookup_at c' ip k Hw' Hk).
    + rewrite Hg, Z.eqb_refl. done.
    + rewrite Hc, Z.eqb_refl by done. apply Z.eqb_refl.
  - intros ip' Hne. destruct (cached c ip' k) eqn:Ek.
    + apply arp_lookup_none. intros i Hi. rewrite Hc by done.
      destruct (Z.eqb_spec i k) as [->|Nik]; [by apply Z.eqb_neq|].
      destruct (cached c ip' i) eqn:E; [|done]. apply cached_iff in E as [? ?], Ek as [? ?].
      exfalso. apply Nik, (aw_uniq _ Hw); [done|done|done|done|congruence].
    + unfold arp_lookup. rewrite (zfind_ext _ (cached c ip')).
      * destruct (zfind _ 0 8) as [j|] eqn:E; [|done]. simpl. rewrite Hg.
        apply zfind_Some in E as (? & E & _). destruct (Z.eqb_spec j k) as [->|]; [congruence|done].
      * intros i Hi. rewrite Hc by lia. destruct (Z.eqb_spec i k) as [->|]; [|done].
        rewrite Ek. by apply Z.eqb_neq.
Qed.

Lemma arp_put_cases c ip mac :
  arp_wf c →
  let c' := arp_cache_put c ip mac in
  let evicts := forallb (λ i, e_valid (c.[i])) (seqZ 0 8) && negb (bool_decide (is_Some (arp_lookup c ip))) in
  arp_wf c' ∧ arp_lookup c' ip = Some mac ∧
  ∀ ip', ip' ≠ ip →
    arp_lookup c' ip' = if evicts && cached c ip' 0 then None else arp_lookup c ip'.
Proof.
  intros Hw. cbv zeta. unfold arp_cache_put. pose proof (arp_find c ip Hw) as HF.
  destruct (zfind (cached c ip) 0 8) as [k|].
  - destruct HF as [Hk Hc]. rewrite (arp_lookup_at c ip k Hw Hk Hc).
    rewrite (bool_decide_eq_true_2 (is_Some (Some _))) by done. cbn [negb]. rewrite andb_false_r. cbn [andb].
    pose proof (proj1 (cached_iff c ip k) Hc) as [Vk Ek]. rewrite Vk, Ek.
    destruct (arp_write c ip mac k Hw Hk) as (W & Lk & Ho).
    { intros i Hi Hne. destruct (cached c ip i) eqn:E; [|done]. apply cached_iff in E as [? ?].
      exfalso. apply Hne, (aw_uniq _ Hw); [done|done|done|done|congruence]. }
    split; [done|]. split; [done|]. intros ip' Hne. rewrite Ho by done.
    destruct (cached c ip' k) eqn:E; [|done]. apply cached_iff in E as [_ E]. congruence.
  - rewrite (arp_lookup_none c ip HF). rewrite (bool_decide_eq_false_2 (is_Some None)) by (by intros [? ?]).
    rewrite andb_true_r. destruct (zfind (λ i, negb (e_valid (c.[i]))) 0 8) as [k|] eqn:E.
    + apply zfind_Some in E as (Hk & Vk & _). rewrite negb_true_iff in Vk.
      destruct (arp_write c ip mac k Hw ltac:(lia)) as (W & Lk & Ho); [intros; by apply HF|].
      split; [done|]. split; [done|]. intros ip' Hne. rewrite Ho by done.
      assert (forallb (λ i, e_valid (c.[i])) (seqZ 0 8) = false) as ->.
      { apply not_true_iff_false. rewrite forallb_forall. intros Hall.
        rewrite Hall in Vk; [done|]. apply list_elem_of_In, elem_of_seqZ. lia. }
      unfold cached at 1. by rewrite Vk.
    + rewrite zfind_None in E. destruct (arp_write c ip mac 0 Hw ltac:(lia)) as (W & Lk & Ho); [intros; by apply HF|].
      assert (forallb (λ i, e_valid (c.[i])) (seqZ 0 8) = true) as ->; [|by cbn [andb]].
      rewrite forallb_forall. intros i Hi%list_elem_of_In%elem_of_seqZ.
      rewrite <-negb_false_iff. apply E. lia.
Qed.

Lemma arp_put_wf c ip mac :
  arp_wf c → arp_wf (arp_cache_put c ip mac) ∧ arp_lookup (arp_cache_put c ip mac) ip = Some mac.
Proof. intros Hw. destruct (arp_put_cases c ip mac Hw) as (? & ? & _). done. Qed.

(** [arp_cache_put] keeps at most one valid entry per address, makes the address resolve
    to the new hardware address, and changes no other address except the one in slot 0,
    which is evicted when the cache is full and the address is new. *)
Theorem arp_put_then_lookup c ip mac :
  arp_wf c →
  let c' := arp_cache_put c ip mac in
  let evicts := forallb (λ i, e_valid (c.[i])) (seqZ 0 8) && negb (bool_decide (is_Some (arp_lookup c ip))) in
  arp_wf c' ∧ arp_lookup c' ip = Some mac ∧
  ∀ ip', ip' ≠ ip →
    arp_lookup c' ip' = if evicts && cached c ip' 0 then None else arp_lookup c ip'.
Proof. apply arp_put_cases. Qed.

Definition demo_cache : list arp_entry_t := replicate 8 (mk_arp_entry 0 [] false).

Lemma demo_cache_wf : arp_wf demo_cache.
Proof.
  split; [done|]. intros i j Hi _ Vi. exfalso. revert Vi. unfold demo_cache.
  rewrite aget_replicate by lia. discriminate.
Qed.

Lemma arp_put_then_lookup_witness :
  arp_lookup (arp_cache_put demo_cache 0x0202000A [1; 2; 3; 4; 5; 6]) 0x0202000A = Some [1; 2; 3; 4; 5; 6].
Proof.
  exact (proj1 (proj2 (arp_put_then_lookup demo_cache 0x0202000A [1; 2; 3; 4; 5; 6] demo_cache_wf))).
Defined.

(** ** Byte order and layouts *)

Create HintDb bytes.

Lemma bswap16_swaps v : 0 <= v < 0x10000 → bswap16 v = (v mod 256) * 256 + v / 256.
Proof.
  intros Hv. assert (0 <= v / 256 < 256) as H1 by zlia. assert (0 <= v mod 256 < 256) as H2 by zlia.
  assert (forallb (λ a, forallb (λ b, bswap16 (256 * a + b) =? b * 256 + a) (seqZ 0 256)) (seqZ 0 256) = true)
    as HA by (vm_compute; reflexivity).
  pose proof (byte_forall _ HA (v / 256) H1) as H. clear HA. cbv beta in H.
  pose proof (byte_forall (λ b, bswap16 (256 * (v / 256) + b) =? b * 256 + v / 256) H (v mod 256) H2) as E.
  clear H. cbv beta in E. apply Z.eqb_eq in E.
  by rewrite <-Z.div_mod in E by lia.
Qed.

Lemma bswap16_range v : 0 <= bswap16 v < 0x10000.
Proof. apply u16_range. Qed.

Lemma bswap16_inv v : 0 <= v < 0x10000 → bswap16 (bswap16 v) = v.
Proof.
  intros Hv. pose proof (bswap16_range v). rewrite (bswap16_swaps (bswap16 v)), bswap16_swaps by done. zlia.
Qed.

Lemma get_le_sub n l off k j :
  0 <= off → 0 <= j → j + Z.of_nat n <= k → get_le n (sub l off k) j = get_le n l (off + j).
Proof. intros. unfold get_le. by rewrite sub_sub by lia. Qed.

Lemma aget_sub_at (l : list Z) off k j : 0 <= off → 0 <= j < k → l.[off + j] = (sub l off k).[j].
Proof. intros. by rewrite aget_sub by lia. Qed.

Lemma le_num_2 z : 0 <= z < 0x10000 → le_num (le_bytes 2 z) = z.
Proof. apply (le_num_small 2). Qed.
Lemma le_num_4 z : 0 <= z < 0x100000000 → le_num (le_bytes 4 z) = z.
Proof. apply (le_num_small 4). Qed.

(** [field] reads a field of a structure laid out as a concatenation: it skips the fields
    before it, whose lengths [arr] knows, and decodes it. *)
Ltac field_skip :=
  repeat (rewrite sub_skip by (rewrite ?alen_le_bytes, ?alen_cons, ?alen_nil; lia));
  rewrite ?alen_le_bytes, ?alen_cons; change (alen (@nil Z)) with 0.
Ltac field :=
  unfold get_le; field_skip;
  match goal with |- context [sub ?l ?o ?n] => replace o with 0 by lia end;
  first [rewrite sub_head by (rewrite ?alen_le_bytes; lia)
        | rewrite <-(app_nil_r (le_bytes _ _)), sub_head by (rewrite ?alen_le_bytes; lia)];
  first [apply le_num_2; lia | apply le_num_4; lia | done].

(** The fields of a structure are in range. *)
Definition arp_ok (p : arp_packet_t) : Prop :=
  (0 <= htype p < 0x10000 ∧ 0 <= ptype p < 0x10000 ∧ 0 <= oper p < 0x10000) ∧
  (0 <= spa p < 0x100000000 ∧ 0 <= tpa p < 0x100000000) ∧ alen (sha p) = 6 ∧ alen (tha p) = 6.

(** Reading the packed structure back gives its fields. *)
Lemma arp_of_bytes p : arp_ok p → arp_of (arp_bytes p) = p.
Proof.
  intros ((H1 & H2 & H3) & (H4 & H5) & Hs & Ht). destruct p as [ht pt hl pl op s sp t tp].
  cbn [htype ptype hlen plen oper sha spa tha tpa] in *. unfold arp_of, arp_bytes.
  cbn [htype ptype hlen plen oper sha spa tha tpa]. f_equal.
  - field.
  - field.
  - field.
  - field.
  - field.
  - field.
  - field.
Qed.

Lemma length_arp_bytes p : alen (sha p) = 6 → alen (tha p) = 6 → alen (arp_bytes p) = 28.
Proof. intros Hs Ht. unfold arp_bytes. rewrite !alen_app, !alen_le_bytes, Hs, Ht. done. Qed.

(** ** Two hosts

    A link that records what is sent on it. *)

Record wire := mk_wire { w_mac : list Z; w_log : list (list Z * Z * list Z) }.

#[global] Instance wire_link : Link wire := {|
  link_mac w := Some (w_mac w);
  link_send w d t p n := Done (true, mk_wire (w_mac w) (w_log w ++ [(d, t, sub p 0 n)]));
  link_recv w b m := Done (0, b, w) |}.

Section exchange.
Context {S Q : Type} `{!Inhabited Q} `{WaitOps S Q}.
Implicit Types a b st : net wire S Q.

(** A host with a well-formed cache, its addresses in range. *)
Record host_ok st : Prop := {
  ho_cache : arp_wf (arp_cache st);
  ho_ip : 0 <= net_our_ip st < 0x100000000;
  ho_mac : alen (w_mac (link st)) = 6 }.

(** Handling an ARP packet that arrives at [frame + off]. *)
Lemma arp_handle_packet st frame off p :
  arp_ok p → 0 <= off → off + 28 <= alen frame → sub frame off 28 = arp_bytes p →
  htype p = 0x0100 → ptype p = 0x0008 →
  let st1 := w_arp_cache (arp_cache_put (arp_cache st) (spa p) (sha p)) st in
  arp_handle st frame off 28 =
    if (oper p =? 0x0100) && (tpa p =? net_our_ip st) then
      Done (w_link (mk_wire (w_mac (link st)) (w_log (link st) ++
        [(sha p, ETHERTYPE_ARP, sub (arp_bytes (mk_arp 0x0100 0x0008 6 4 0x0200
           (sub (w_mac (link st)) 0 6) (net_our_ip st) (sha p) (spa p))) 0 28)])) st1)
    else Done st1.
Proof.
  intros Hp Ho Hl E Hh Ht st1. unfold arp_handle, ck_memory, sizeof_arp.
  rewrite E, arp_of_bytes, Hh, Ht by done.
  destruct (Z.leb_spec 0 off); [|lia]. destruct (Z.leb_spec (off + 28) (alen frame)); [|lia].
  cbn -[arp_bytes sub arp_cache_put]. by destruct (_ && _).
Qed.

(** The ARP exchange: [a]'s broadcast request, handled by [b], produces exactly one reply
    to [a], and the reply, handled by [a], makes each host resolve the other. *)
Theorem arp_exchange a b ipb :
  host_ok a → host_ok b → net_our_ip b = ipb → net_our_ip a ≠ ipb →
  ∃ a1 req, arp_request a ipb = Done a1 ∧
    w_log (link a1) = w_log (link a) ++ [(BROADCAST_MAC, ETHERTYPE_ARP, req)] ∧ alen req = 28 ∧
    ∀ f off, 0 <= off → off + 28 <= alen f → sub f off 28 = req →
    ∃ b1 rep, arp_handle b f off 28 = Done b1 ∧
      w_log (link b1) = w_log (link b) ++ [(w_mac (link a), ETHERTYPE_ARP, rep)] ∧ alen rep = 28 ∧
      arp_lookup (arp_cache b1) (net_our_ip a) = Some (w_mac (link a)) ∧ host_ok b1 ∧
      ∀ g off', 0 <= off' → off' + 28 <= alen g → sub g off' 28 = rep →
      ∃ a2, arp_handle a1 g off' 28 = Done a2 ∧ link a2 = link a1 ∧
        arp_lookup (arp_cache a2) ipb = Some (w_mac (link b)) ∧ host_ok a2.
Proof.
  intros Ha Hb <- Hne. pose proof (ho_mac _ Ha) as Hma. pose proof (ho_mac _ Hb) as Hmb.
  pose proof (ho_ip _ Ha). pose proof (ho_ip _ Hb).
  assert (∀ m : list Z, alen m = 6 → sub m 0 6 = m) as Hsub
    by (intros m E; rewrite <-E; apply sub_full).
  set (p := mk_arp 0x0100 0x0008 6 4 0x0100 (w_mac (link a)) (net_our_ip a) (replicate 6 0) (net_our_ip b)).
  set (r := mk_arp 0x0100 0x0008 6 4 0x0200 (w_mac (link b)) (net_our_ip b) (w_mac (link a)) (net_our_ip a)).
  assert (arp_ok p) as Hp by (unfold arp_ok; cbn [p htype ptype oper spa tpa sha tha]; split_and!; done || lia).
  assert (arp_ok r) as Hr by (unfold arp_ok; cbn [r htype ptype oper spa tpa sha tha]; split_and!; done || lia).
  assert (alen (arp_bytes p) = 28) as Lp by (by apply length_arp_bytes).
  assert (alen (arp_bytes r) = 28) as Lr by (by apply length_arp_bytes).
  assert (sub (arp_bytes p) 0 28 = arp_bytes p) as Sp by (rewrite <-Lp; apply sub_full).
  assert (sub (arp_bytes r) 0 28 = arp_bytes r) as Sr by (rewrite <-Lr; apply sub_full).
  eexists _, (arp_bytes p). split; [reflexivity|]. cbn [link w_link w_log link_mac wire_link].
  rewrite Hsub by done. fold p. change sizeof_arp with 28. rewrite Sp. split; [done|]. split; [done|].
  intros f off Hoff Hlen Hf.
  destruct (arp_put_wf (arp_cache b) (net_our_ip a) (w_mac (link a)) (ho_cache _ Hb)) as [Wb Lb].
  destruct (arp_put_wf (arp_cache a) (net_our_ip b) (w_mac (link b)) (ho_cache _ Ha)) as [Wa La].
  rewrite (arp_handle_packet b f off p Hp Hoff Hlen Hf eq_refl eq_refl).
  assert ((oper p =? 0x0100) && (tpa p =? net_our_ip b) = true) as -> by (by apply andb_true_iff, conj, Z.eqb_refl).
  change (sha p) with (w_mac (link a)). change (spa p) with (net_our_ip a).
  eexists _, (arp_bytes r). split; [reflexivity|]. cbn [link w_link w_log].
  rewrite Hsub by done. fold r. rewrite Sr. split; [done|]. split; [done|]. split; [exact Lb|].
  split; [by split|]. intros g off' Hoff' Hlen' Hg.
  rewrite (arp_handle_packet _ g off' r Hr Hoff' Hlen' Hg eq_refl eq_refl).
  eexists. split; [reflexivity|]. split; [done|].
  split; [exact La|by split].
Qed.
End exchange.

(** ** IPv4 packets in a buffer *)

Definition ipv4_ok (h : ipv4_header_t) : Prop :=
  (0 <= ver_ihl h < 256 ∧ 0 <= tos h < 256 ∧ 0 <= ttl h < 256 ∧ 0 <= protocol h < 256) ∧
  (0 <= total_len h < 0x10000 ∧ 0 <= id h < 0x10000 ∧ 0 <= frag_off h < 0x10000 ∧
   0 <= checksum h < 0x10000) ∧
  (0 <= src_ip h < 0x100000000 ∧ 0 <= dst_ip h < 0x100000000).

Lemma alen_ipv4_bytes h : alen (ipv4_bytes h) = 20.
Proof. unfold ipv4_bytes. rewrite !alen_app, !alen_le_bytes. done. Qed.

Lemma bytes_ok_app a b : bytes_ok a → bytes_ok b → bytes_ok (a ++ b).
Proof. apply Forall_app_2. Qed.

Lemma bytes_ok_cons x l : 0 <= x < 256 → bytes_ok l → bytes_ok (x :: l).
Proof. by constructor. Qed.

Lemma bytes_ok_nil : bytes_ok [].
Proof. constructor. Qed.

#[export] Hint Resolve bytes_ok_app bytes_ok_cons bytes_ok_nil le_bytes_ok bytes_ok_splice bytes_ok_sub : bytes.

Lemma ipv4_bytes_ok h :
  0 <= ver_ihl h < 256 ∧ 0 <= tos h < 256 ∧ 0 <= ttl h < 256 ∧ 0 <= protocol h < 256 →
  bytes_ok (ipv4_bytes h).
Proof. intros (? & ? & ? & ?). unfold ipv4_bytes. auto 20 with bytes. Qed.

Lemma ipv4_of_bytes frame off h :
  ipv4_ok h → 0 <= off → sub frame off 20 = ipv4_bytes h → ipv4_of frame off = h.
Proof.
  intros (_ & (H1 & H2 & H3 & H4) & (H5 & H6)) Ho E. unfold ipv4_of.
  rewrite <-(Z.add_0_r off) at 1. rewrite !(aget_sub_at frame off 20) by lia. rewrite E.
  destruct h as [vi to tl i fo tt pr ck sr ds]. cbn [total_len id frag_off checksum src_ip dst_ip] in *.
  f_equal; rewrite <-(get_le_sub _ frame off 20) by lia; rewrite E; unfold ipv4_bytes;
    cbn [ver_ihl tos total_len id frag_off ttl protocol checksum src_ip dst_ip]; field.
Qed.

Lemma splice_over (l : list Z) off d d' :
  0 <= off → off + alen d <= alen l → alen d' = alen d →
  splice (splice l off d) off d' = splice l off d'.
Proof.
  intros Ho Hl Hd. rewrite <-(Z.add_0_r off) at 2. rewrite splice_nested by lia.
  by rewrite splice_full.
Qed.

Lemma ip_checksum_range data off len : 0 <= ip_checksum data off len < 0x10000.
Proof. unfold ip_checksum. case_match; [apply u16_range|lia]. Qed.

Lemma ipv4_header_ok total i src dst proto ck :
  0 <= proto < 256 → 0 <= src < 0x100000000 → 0 <= dst < 0x100000000 → 0 <= ck < 0x10000 →
  ipv4_ok (ipv4_header total i src dst proto ck).
Proof.
  intros. unfold ipv4_ok, ipv4_header; cbn [ver_ihl tos total_len id frag_off ttl protocol checksum src_ip dst_ip].
  pose proof (bswap16_range total). pose proof (bswap16_range i). split_and!; lia.
Qed.

Lemma put_ipv4_spec buf off total i src dst proto :
  0 <= off → off + 20 <= alen buf →
  ∃ ck, 0 <= ck < 0x10000 ∧
    put_ipv4 buf off total i src dst proto = splice buf off (ipv4_bytes (ipv4_header total i src dst proto ck)).
Proof.
  intros Ho Hl. unfold put_ipv4. eexists. split; [apply ip_checksum_range|].
  rewrite splice_over; rewrite ?alen_ipv4_bytes; [done|lia|lia|done].
Qed.

(** A packet built at [buf + off]: the header, then the payload. *)
Lemma ip_packet buf off total i src dst proto payload n :
  bytes_ok buf → bytes_ok payload → 0 <= off → 0 <= n <= alen payload → off + 20 + n <= alen buf →
  0 <= proto < 256 → 0 <= src < 0x100000000 → 0 <= dst < 0x100000000 →
  ∃ b ck, memcpy_ck (put_ipv4 buf off total i src dst proto) (off + 20) payload 0 n = Done b ∧
    alen b = alen buf ∧ bytes_ok b ∧ 0 <= ck < 0x10000 ∧
    ipv4_of b off = ipv4_header total i src dst proto ck ∧
    sub b off (20 + n) = ipv4_bytes (ipv4_header total i src dst proto ck) ++ sub payload 0 n.
Proof.
  intros Hb Hp Ho Hn Hl Hpr Hs Hd.
  destruct (put_ipv4_spec buf off total i src dst proto Ho ltac:(lia)) as (ck & Hck & ->).
  set (h := ipv4_header total i src dst proto ck).
  assert (ipv4_ok h) as Hh by (by apply ipv4_header_ok).
  pose proof (alen_ipv4_bytes h) as Lh.
  assert (alen (sub payload 0 n) = n) as Lp by (apply alen_sub; lia).
  rewrite memcpy_ck_spec by (done || (rewrite ?alen_splice; lia)).
  rewrite <-Lh, splice_splice_adj by lia.
  assert (alen (ipv4_bytes h ++ sub payload 0 n) = 20 + n) as La by (rewrite alen_app; lia).
  assert (bytes_ok (ipv4_bytes h)) by (apply ipv4_bytes_ok, Hh).
  eexists _, ck. split; [done|]. split; [apply alen_splice; lia|]. split; [auto with bytes|]. split; [done|].
  assert (sub (splice buf off (ipv4_bytes h ++ sub payload 0 n)) off (alen (ipv4_bytes h) + n) =
    ipv4_bytes h ++ sub payload 0 n) as E.
  { rewrite Lh, <-La. apply sub_splice_same; lia. }
  split; [|done]. apply ipv4_of_bytes; [done|done|].
  replace off with (off + 0) at 2 by lia. rewrite <-(sub_sub _ off (alen (ipv4_bytes h) + n) 0 20) by lia.
  rewrite E. apply sub_head. exact Lh.
Qed.

(** ** The loopback recursion is bounded *)

Class LinkLaws (L : Type) `{Link L} := {
  link_send_total l dst ty payload n : link_send l dst ty payload n ≠ NoFuel }.

#[global] Instance wire_laws : LinkLaws wire.
Proof. by split. Qed.

Lemma memcpy_ck_total d o s so n : memcpy_ck d o s so n ≠ NoFuel.
Proof. unfold memcpy_ck. by case_match. Qed.

Lemma eth_laws {D F} `{PortIO D} `{NicHw D} own : @LinkLaws (Ethernet.eth D F) (eth_link own).
Proof.
  split. intros st dst ty payload n. cbn. unfold Ethernet.ethernet_send.
  destruct (negb _); [done|]. destruct (_ =? 1).
  { unfold Ethernet.e1000_send. pose proof (memcpy_ck_total
      (frame_header ((Ethernet.tx_buf st).[Ethernet.tx_cur st]) dst (Ethernet.mac (Ethernet.eth_dev st)) ty) 14
      payload 0) as HT. by destruct (memcpy_ck _ _ _ _ _) eqn:E; [done|done|destruct (HT _ E)]. }
  destruct (_ =? 2); [|done]. unfold Rtl8169.rtl8169_send. destruct (negb _); [done|].
  destruct (_ =? 0); [done|]. pose proof (memcpy_ck_total
    (frame_header ((Rtl8169.rtl_tx_buf (Ethernet.rtl8169 st)).[Rtl8169.tx_cur (Ethernet.rtl8169 st)]) dst
      (Rtl8169.rtl_mac (Ethernet.rtl8169 st)) ty) 14 payload 0) as HT.
  by destruct (memcpy_ck _ _ _ _ _) eqn:E; [done|done|destruct (HT _ E)].
Qed.

Section recursion.
Context {L S Q : Type} `{Link L} `{!LinkLaws L} `{!Inhabited Q} `{WaitOps S Q}.
Variable junk : Z → Z.
Implicit Types st : net L S Q.
Notation sender := (net L S Q → Z → Z → list Z → Z → outcome (bool * net L S Q)).

Lemma alen_uninit n : 0 <= n → alen (uninit junk n) = n.
Proof. intros. unfold uninit, alen. rewrite length_map, length_seqZ. lia. Qed.

Lemma uninit_ok n : bytes_ok (uninit junk n).
Proof. apply Forall_forall. intros x (y & -> & _)%list_elem_of_fmap. apply u8_range. Qed.

Lemma send_frame_total st dst ty p n : send_frame st dst ty p n ≠ NoFuel.
Proof.
  unfold send_frame. pose proof (link_send_total (link st) dst ty p n).
  by destruct (link_send _ _ _ _ _) as [[]| |].
Qed.

Lemma arp_request_total st ip : arp_request st ip ≠ NoFuel.
Proof.
  unfold arp_request. destruct (link_mac _); [|done].
  match goal with |- context [send_frame ?s ?d ?t ?p ?n] => pose proof (send_frame_total s d t p n) end.
  by destruct (send_frame _ _ _ _ _) as [[]| |].
Qed.

Lemma udp_handle_total st f off len : udp_handle st f off len ≠ NoFuel.
Proof.
  unfold udp_handle. repeat (case_match; try done); simplify_eq.
  all: match goal with |- context [memcpy_ck ?a ?b ?c ?d ?e] =>
    pose proof (memcpy_ck_total a b c d e); destruct (memcpy_ck a b c d e); try done end.
  all: simpl; by destruct (wq_wake _ _).
Qed.

(** The buffer of the loopback branch before the header. *)
Definition loop_buf0 : list Z := ((memset (uninit junk 1518) 0 0 14).[12 <- 0x08]).[13 <- 0x00].

Lemma loop_buf0_ok : alen loop_buf0 = 1518 ∧ bytes_ok loop_buf0.
Proof.
  unfold loop_buf0. pose proof (alen_uninit 1518 ltac:(lia)).
  rewrite memset_fills by lia. split.
  - rewrite !alen_aset. rewrite alen_splice; rewrite ?alen_replicate; lia.
  - apply Forall_aset; [apply Forall_aset|]; try lia. apply bytes_ok_splice; [apply uninit_ok|].
    apply Forall_replicate, u8_range.
Qed.

(** The two calls the recursion can make with the same result. *)
Definition agree (rec1 rec2 : sender) st src rep n : Prop :=
  rec1 st src IP_PROTO_ICMP rep n = rec2 st src IP_PROTO_ICMP rep n ∧ rec1 st src IP_PROTO_ICMP rep n ≠ NoFuel.

Section agree.
Variables rec1 rec2 : sender.
Variable ip : Z.
Hypothesis Hag : ∀ st src rep n,
  net_our_ip st = ip → bytes_ok rep → alen rep = 512 → rep.[0] = 0 → 8 <= n <= 512 →
  0 <= src < 0x100000000 → agree rec1 rec2 st src rep n.

(** The only call is an echo reply: the type byte is 0. *)
Lemma icmp_agree st frame src payload plen :
  net_our_ip st = ip → bytes_ok frame → 0 <= src < 0x100000000 →
  icmp_handle junk rec1 st frame src payload plen = icmp_handle junk rec2 st frame src payload plen ∧
  icmp_handle junk rec1 st frame src payload plen ≠ NoFuel.
Proof.
  intros Hip Hok Hsrc. unfold icmp_handle. destruct (Z.ltb_spec plen 8); [done|].
  destruct (negb (ck_memory _ 8 _)) eqn:Hck; [done|]. destruct (_ =? 8); [|done].
  assert (8 <= (if 512 <? plen then 512 else plen) <= 512) as Hn
    by (destruct (Z.ltb_spec 512 plen); lia).
  generalize dependent (if 512 <? plen then 512 else plen). intros n Hn.
  destruct (memcpy_ck (uninit junk 512) 0 frame payload n) as [rep| |] eqn:E; [|done|by apply memcpy_ck_total in E].
  pose proof (alen_uninit 512 ltac:(lia)) as Lu.
  destruct (decide (0 <= payload ∧ payload + n <= alen frame)) as [[Hp1 Hp2]|Hp].
  2: { unfold memcpy_ck, ck_memory in E.
       destruct (Z.leb_spec 0 payload), (Z.leb_spec (payload + n) (alen frame)); try lia;
       rewrite ?andb_false_r in E; done. }
  rewrite memcpy_ck_spec in E by (done || lia). injection E as <-.
  assert (alen (sub frame payload n) = n) as Ld by (apply alen_sub; lia).
  set (rep := splice (uninit junk 512) 0 (sub frame payload n)).
  assert (bytes_ok rep) as Hrep by (apply bytes_ok_splice; [apply uninit_ok|by apply bytes_ok_sub]).
  assert (alen rep = 512) as Lrep by (unfold rep; rewrite alen_splice; lia).
  clearbody rep. cbn [mbind outcome_bind].
  match goal with |- context [rec1 st src IP_PROTO_ICMP ?r n] => destruct (Hag st src r n) as [E1 E2]; try done end.
  - unfold put_le. apply bytes_ok_splice; [|apply le_bytes_ok]. apply bytes_ok_splice; [|apply le_bytes_ok].
    apply Forall_aset; [apply Forall_aset|]; try lia. done.
  - rewrite !alen_put_le; rewrite ?alen_put_le, ?alen_aset; rewrite ?alen_aset; lia.
  - unfold put_le. rewrite !aget_splice; rewrite ?alen_splice; rewrite ?alen_aset, ?alen_le_bytes; try lia.
    simpl. rewrite aget_aset_ne, aget_aset_eq; rewrite ?alen_aset; lia.
  - rewrite <-E1. split; [done|]. by destruct (rec1 _ _ _ _ _) as [[]| |].
Qed.

Lemma handle_agree st frame len :
  net_our_ip st = ip → bytes_ok frame →
  ipv4_handle_with junk rec1 st frame len = ipv4_handle_with junk rec2 st frame len ∧
  ipv4_handle_with junk rec1 st frame len ≠ NoFuel.
Proof.
  intros Hip Hok. unfold ipv4_handle_with. destruct (len <? _); [done|]. destruct (negb _); [done|].
  cbv zeta. destruct (_ =? IP_PROTO_UDP); [split; [done|apply udp_handle_total]|].
  destruct (_ =? IP_PROTO_ICMP); [|done].
  apply icmp_agree; [done|done|]. apply (get_le_range 4 frame (14 + 12) Hok).
Qed.
End agree.

Lemma memcpy_ck_inv d o src so n b :
  bytes_ok src → memcpy_ck d o src so n = Done b →
  (0 <= o ∧ 0 <= n ∧ o + n <= alen d ∧ 0 <= so ∧ so + n <= alen src) ∧ b = splice d o (sub src so n).
Proof.
  intros Hs E. assert (0 <= o ∧ 0 <= n ∧ o + n <= alen d ∧ 0 <= so ∧ so + n <= alen src) as Hb.
  { unfold memcpy_ck, ck_memory in E. destruct (_ && _) eqn:Hc; [lia|done]. }
  split; [done|]. rewrite memcpy_ck_spec in E by (done || lia). congruence.
Qed.

(** What [ipv4_handle] does with a packet [ipv4_send] built. *)
Lemma handle_built rec st b len total i src dst proto ck :
  34 <= len → 34 <= alen b → 20 <= total < 0x10000 →
  ipv4_of b 14 = ipv4_header total i src dst proto ck →
  ipv4_handle_with junk rec st b len =
    if proto =? IP_PROTO_UDP then udp_handle st b 34 (total - 20)
    else if proto =? IP_PROTO_ICMP then icmp_handle junk rec st b src 34 (total - 20)
    else Done st.
Proof.
  intros Hl Hb Ht E. unfold ipv4_handle_with, sizeof_ipv4, ck_memory.
  destruct (Z.ltb_spec len (14 + 20)); [lia|].
  destruct (Z.leb_spec (14 + 20) (alen b)); [|lia]. rewrite E. unfold ipv4_header.
  cbn [ver_ihl total_len protocol src_ip negb andb]. rewrite bswap16_inv by lia.
  change (Z.land 0x45 0x0F * 4) with 20. rewrite u16_small by lia. done.
Qed.

Lemma reply_ends rec1 rec2 st src rep n :
  0 <= net_our_ip st < 0x100000000 → bytes_ok rep → alen rep = 512 → rep.[0] = 0 → 8 <= n <= 512 →
  0 <= src < 0x100000000 →
  agree (ipv4_send_with junk rec1) (ipv4_send_with junk rec2) st src rep n.
Proof.
  intros Hip Hok Hl H0' Hn Hsrc. unfold agree, ipv4_send_with, sizeof_ipv4.
  destruct (is_loopback st src) eqn:Hlo.
  - rewrite u16_small by lia. destruct (Z.ltb_spec 1518 (20 + n + 14)); [done|].
    fold loop_buf0. destruct loop_buf0_ok as [Lb Ob].
    destruct (ip_packet loop_buf0 14 (20 + n) (ip_id st) (net_our_ip st) src IP_PROTO_ICMP rep n)
      as (b & ck & E & Lb' & Ob' & Hck & Hh & Hs); try done; try lia.
    change (14 + 20) with 34 in *. rewrite E. cbn [mbind outcome_bind].
    assert (∀ (rec : sender) s, ipv4_handle_with junk rec s b (20 + n + 14) =
      icmp_handle junk rec s b (net_our_ip st) 34 (20 + n - 20)) as HB.
    { intros rec s. by rewrite (handle_built rec s b _ (20 + n) (ip_id st) (net_our_ip st) src IP_PROTO_ICMP ck)
        by (done || lia). }
    rewrite !HB. unfold icmp_handle.
    assert (b.[34] = 0) as ->.
    { change 34 with (14 + 20). rewrite (aget_sub_at b 14 (20 + n)), Hs by lia.
      rewrite aget_app_r; rewrite alen_ipv4_bytes; [|lia]. rewrite aget_sub by lia. exact H0'. }
    cbn [Z.eqb]. destruct (_ <? 8); [done|]. by destruct (negb _).
  - destruct (arp_lookup _ _) as [m|].
    + destruct (1500 <? _); [done|]. split; [done|].
      match goal with |- context [memcpy_ck ?a ?b ?c ?d ?e] =>
        pose proof (memcpy_ck_total a b c d e); destruct (memcpy_ck a b c d e); try done end.
      apply send_frame_total.
    + split; [done|]. pose proof (arp_request_total st src). by destruct (arp_request st src).
Qed.

Lemma send_agree rec1 rec2 st dst proto payload n :
  (∀ st' src rep n, net_our_ip st' = net_our_ip st → bytes_ok rep → alen rep = 512 → rep.[0] = 0 →
     8 <= n <= 512 → 0 <= src < 0x100000000 → agree rec1 rec2 st' src rep n) →
  bytes_ok payload → 0 <= proto < 256 →
  ipv4_send_with junk rec1 st dst proto payload n = ipv4_send_with junk rec2 st dst proto payload n ∧
  ipv4_send_with junk rec1 st dst proto payload n ≠ NoFuel.
Proof.
  intros Hag Hok Hpr. unfold ipv4_send_with. destruct (is_loopback st dst).
  - destruct (1518 <? _); [done|]. fold loop_buf0. destruct loop_buf0_ok as [Lb Ob].
    match goal with |- context [memcpy_ck ?a ?b ?c ?d ?e] =>
      destruct (memcpy_ck a b c d e) as [b0| |] eqn:E; [|done|by apply memcpy_ck_total in E] end.
    apply memcpy_ck_inv in E as [Hb ->]; [|done]. cbn [mbind outcome_bind].
    match goal with |- context [ipv4_handle_with junk rec1 ?s ?f ?l] =>
      destruct (handle_agree rec1 rec2 (net_our_ip st) Hag s f l) as [E1 E2] end.
    + done.
    + apply bytes_ok_splice; [|by apply bytes_ok_sub].
      destruct (put_ipv4_spec loop_buf0 14 (u16 (sizeof_ipv4 + n)) (ip_id st) (net_our_ip st) dst proto
        ltac:(lia) ltac:(lia)) as (ck & Hck & ->).
      apply bytes_ok_splice; [done|]. apply ipv4_bytes_ok. cbn [ipv4_header ver_ihl tos ttl protocol]. lia.
    + rewrite <-E1. split; [done|]. by destruct (ipv4_handle_with junk rec1 _ _ _).
  - destruct (arp_lookup _ _) as [m|].
    + destruct (1500 <? _); [done|]. split; [done|].
      match goal with |- context [memcpy_ck ?a ?b ?c ?d ?e] =>
        pose proof (memcpy_ck_total a b c d e); destruct (memcpy_ck a b c d e); try done end.
      apply send_frame_total.
    + split; [done|]. pose proof (arp_request_total st dst). by destruct (arp_request st dst).
Qed.

(** [ipv4_send] and [ipv4_handle] call each other through the loopback path, but an echo
    reply is never answered: two calls of [ipv4_send] on the stack always suffice, whatever
    the packet. *)
Theorem ipv4_recursion_bounded fuel st dst proto payload n :
  0 <= net_our_ip st < 0x100000000 → bytes_ok payload → 0 <= proto < 256 →
  ipv4_send junk (2 + fuel) st dst proto payload n = ipv4_send junk 2 st dst proto payload n ∧
  ipv4_send junk 2 st dst proto payload n ≠ NoFuel.
Proof.
  intros Hip Hok Hpr.
  destruct (send_agree (ipv4_send_with junk (ipv4_send junk fuel)) (ipv4_send_with junk (ipv4_send junk 0))
    st dst proto payload n) as [E1 E2]; [|done|done|].
  - intros st' src rep k Hs' ? ? ? ? ?. apply reply_ends; [by rewrite Hs'|done..].
  - split; [exact E1|]. cbn [ipv4_send] in *. by rewrite <-E1.
Qed.
End recursion.

(** ** UDP delivery *)

Section delivery.
Context {L S Q : Type} `{Link L} `{!Inhabited Q} `{WaitOps S Q}.
Variable junk : Z → Z.
Implicit Types (st : net L S Q) (qs : list (udp_queue_t Q)).

Record udp_wf qs : Prop := {
  uw_len : alen qs = MAX_UDP_PORTS;
  uw_buf i : 0 <= i < 16 → alen (q_buffer (qs.[i])) = UDP_BUF_SIZE ∧ bytes_ok (q_buffer (qs.[i])) }.

Lemma udp_wf_set qs i e :
  udp_wf qs → 0 <= i < 16 → alen (q_buffer e) = UDP_BUF_SIZE → bytes_ok (q_buffer e) → udp_wf (qs.[i <- e]).
Proof.
  intros [Hl Hb] Hi Le Oe. unfold MAX_UDP_PORTS in *. split; [by rewrite alen_aset|].
  intros j Hj. rewrite aget_aset by lia. case_match; [done|by apply Hb].
Qed.

(** The queue [udp_slot] returns is the one [udp_recv] will find. *)
Lemma udp_slot_spec qs port i qs' :
  udp_wf qs → udp_slot qs port = Some (i, qs') →
  0 <= i < 16 ∧ udp_wf qs' ∧ zfind (bound qs' port) 0 16 = Some i ∧
  q_port (qs'.[i]) = port ∧ q_active (qs'.[i]) = true.
Proof.
  intros Hw E. unfold udp_slot in E. destruct (zfind (bound qs port) 0 16) as [k|] eqn:F.
  - injection E as <- <-. pose proof F as F'. apply zfind_Some in F' as (Hk & B & _).
    unfold bound in B. apply andb_true_iff in B as [? ?%Z.eqb_eq]. split_and!; try done; lia.
  - destruct (zfind (λ i, negb (q_active (qs.[i]))) 0 16) as [k|] eqn:G; [|done]. simpl in E.
    injection E as <- <-. apply zfind_Some in G as (Hk & A & _). pose proof (uw_len _ Hw) as Hl.
    unfold MAX_UDP_PORTS in Hl. rewrite zfind_None in F. destruct (uw_buf _ Hw k ltac:(lia)).
    set (e := mk_udp_queue port (q_buffer (qs.[k])) (q_length (qs.[k])) true (q_wait (qs.[k]))).
    rewrite aget_aset_eq by lia. split; [lia|]. split; [by apply udp_wf_set; [done|lia|done|done]|].
    split; [|done]. apply zfind_Some. unfold bound. split; [lia|].
    rewrite aget_aset_eq by lia. split; [cbn; apply Z.eqb_refl|].
    intros j Hj. rewrite aget_aset_ne by lia. apply F. lia.
Qed.

Lemma udp_handle_delivers st frame off len port data i qs :
  udp_wf (udp_queues st) → 0 <= port < 0x10000 → bytes_ok frame → 0 <= off → 8 <= len →
  off + 8 + alen data <= alen frame → alen data <= UDP_BUF_SIZE →
  get_le 2 frame (off + 2) = bswap16 port → get_le 2 frame (off + 4) = bswap16 (8 + alen data) →
  sub frame (off + 8) (alen data) = data →
  udp_slot (udp_queues st) port = Some (i, qs) →
  let e := qs.[i] in
  let '(s', w') := wq_wake (sched st) (q_wait e) in
  udp_handle st frame off len = Done (w_sched s' (w_udp_queues
    (qs.[i <- mk_udp_queue port (splice (q_buffer e) 0 data) (alen data) true w']) st)).
Proof.
  intros Hw Hp Hok Ho Hl Hfit Hmax E1 E2 Hd Hslot. cbv zeta. pose proof (alen_nonneg data).
  destruct (udp_slot_spec _ _ _ _ Hw Hslot) as (Hi & Hw' & _ & Hport & Hact).
  destruct (uw_buf _ Hw' i Hi) as [Lb Ob]. unfold UDP_BUF_SIZE in *.
  destruct (wq_wake (sched st) (q_wait (qs.[i]))) as [s' w'] eqn:Ew.
  unfold udp_handle. destruct (Z.ltb_spec len 8); [lia|]. unfold ck_memory.
  destruct (Z.leb_spec 0 off); [|lia]. destruct (Z.leb_spec (off + 8) (alen frame)); [|lia].
  cbn [andb negb Z.leb Z.compare]. rewrite E1, E2, !bswap16_inv, Hslot by lia.
  replace (8 + alen data - 8) with (alen data) by lia. rewrite u16_small by lia.
  unfold UDP_BUF_SIZE. destruct (Z.ltb_spec 2048 (alen data)); [lia|].
  rewrite memcpy_ck_spec by (done || lia). cbn [mbind outcome_bind]. rewrite Ew, Hd, Hport, Hact. done.
Qed.

(** Reading a queue that holds a datagram. *)
Lemma udp_recv_takes fuel resume st port i buf maxlen :
  zfind (bound (udp_queues st) port) 0 16 = Some i → udp_wf (udp_queues st) →
  0 < q_length ((udp_queues st).[i]) <= UDP_BUF_SIZE → 0 <= maxlen <= alen buf →
  let e := (udp_queues st).[i] in
  let n := Z.min (q_length e) maxlen in
  udp_recv (Datatypes.S fuel) resume st port buf maxlen =
    Done (n, splice buf 0 (sub (q_buffer e) 0 n), w_udp_queues
      ((udp_queues st).[i <- mk_udp_queue (q_port e) (q_buffer e) 0 (q_active e) (q_wait e)]) st).
Proof.
  intros Hf Hw Hlen Hm e n. unfold udp_recv. rewrite Hf. cbn [udp_wait]. fold e.
  pose proof Hf as Hf'. apply zfind_Some in Hf' as (Hi & _).
  destruct (uw_buf _ Hw i ltac:(lia)) as [Lb Ob]. fold e in Lb, Ob, Hlen.
  destruct (Z.eqb_spec (q_length e) 0); [lia|]. cbn [mbind outcome_bind]. fold e.
  assert ((if q_length e <? maxlen then q_length e else maxlen) = n) as ->
    by (unfold n; destruct (Z.ltb_spec (q_length e) maxlen); lia).
  unfold UDP_BUF_SIZE in *. by rewrite memcpy_ck_spec by (done || lia).
Qed.

Lemma udp_header_bytes sp dp ln :
  0 <= dp < 0x10000 → 0 <= ln < 0x10000 → ∀ rest,
  let b := udp_bytes (mk_udp sp dp ln 0) ++ rest in
  alen (udp_bytes (mk_udp sp dp ln 0)) = 8 ∧ get_le 2 b 2 = dp ∧ get_le 2 b 4 = ln.
Proof.
  intros Hd Hl rest b. unfold b, udp_bytes. cbn [src_port dst_port length_ udp_checksum].
  rewrite <-!app_assoc. split; [by rewrite !alen_app, !alen_le_bytes|]. split; field.
Qed.

(** The datagram [udp_send] hands to IP. *)
Lemma udp_built port payload n :
  0 <= port < 0x10000 → bytes_ok payload → 0 <= n <= 1464 → n <= alen payload →
  let d := udp_bytes (mk_udp (bswap16 1234) (bswap16 port) (bswap16 (8 + n)) 0) ++ sub payload 0 n in
  ∃ b, memcpy_ck (splice (uninit junk 1472) 0
         (udp_bytes (mk_udp (bswap16 1234) (bswap16 port) (bswap16 (8 + n)) 0))) 8 payload 0 n = Done b ∧
    alen b = 1472 ∧ bytes_ok b ∧ sub b 0 (8 + n) = d ∧ alen d = 8 + n.
Proof.
  intros Hp Hok Hn Hl d. pose proof (bswap16_range port). pose proof (bswap16_range (8 + n)).
  destruct (udp_header_bytes (bswap16 1234) (bswap16 port) (bswap16 (8 + n)) ltac:(lia) ltac:(lia) (sub payload 0 n))
    as (Lu & _ & _).
  pose proof (alen_uninit junk 1472 ltac:(lia)) as L0. pose proof (alen_sub payload 0 n ltac:(lia) ltac:(lia) ltac:(lia)).
  assert (alen d = 8 + n) as Ld by (unfold d; rewrite alen_app; lia).
  rewrite memcpy_ck_spec by (done || (rewrite ?alen_splice; lia)). eexists. split; [reflexivity|].
  rewrite splice_append by lia. fold d. split; [rewrite alen_splice; lia|].
  split; [|split; [rewrite <-Ld; apply sub_splice_same; lia|done]].
  apply bytes_ok_splice; [apply uninit_ok|]. unfold d. apply bytes_ok_app; [|by apply bytes_ok_sub].
  unfold udp_bytes. auto 10 with bytes.
Qed.

(** A frame that carries the datagram. *)
Lemma handle_datagram rec st b len total i src dst ck port data k qs :
  udp_wf (udp_queues st) → 0 <= port < 0x10000 → bytes_ok b → 34 <= len → 0 < alen data <= 1464 →
  total = 28 + alen data → 14 + total <= alen b →
  0 <= src < 0x100000000 → 0 <= dst < 0x100000000 → 0 <= ck < 0x10000 →
  sub b 14 total = ipv4_bytes (ipv4_header total i src dst IP_PROTO_UDP ck) ++
    udp_bytes (mk_udp (bswap16 1234) (bswap16 port) (bswap16 (8 + alen data)) 0) ++ data →
  udp_slot (udp_queues st) port = Some (k, qs) →
  ∃ s' w', ipv4_handle_with junk rec st b len = Done (w_sched s' (w_udp_queues
    (qs.[k <- mk_udp_queue port (splice (q_buffer (qs.[k])) 0 data) (alen data) true w']) st)).
Proof.
  intros Hw Hp Hok Hlen Hn -> Hfit Hsrc Hdst Hck Hs Hslot.
  set (h := ipv4_header (28 + alen data) i src dst IP_PROTO_UDP ck) in *.
  pose proof (alen_ipv4_bytes h) as Lh.
  pose proof (bswap16_range port). pose proof (bswap16_range (8 + alen data)).
  destruct (udp_header_bytes (bswap16 1234) (bswap16 port) (bswap16 (8 + alen data)) ltac:(lia) ltac:(lia) data)
    as (Lu & G1 & G2).
  set (u := udp_bytes _) in *.
  assert (∀ o m, 0 <= o → 0 <= m → o + m <= 8 + alen data → sub b (34 + o) m = sub (u ++ data) o m) as Hat.
  { intros o m Ho Hm Hom. replace (34 + o) with (14 + (20 + o)) by lia.
    rewrite <-(sub_sub b 14 (28 + alen data) (20 + o) m), Hs by lia.
    rewrite sub_skip by lia. f_equal. lia. }
  assert (ipv4_of b 14 = h) as Hh.
  { apply ipv4_of_bytes; [by apply ipv4_header_ok|lia|].
    change 14 with (14 + 0) at 1. rewrite <-(sub_sub b 14 (28 + alen data) 0 20), Hs by lia.
    by apply sub_head. }
  rewrite (handle_built junk rec st b len (28 + alen data) i src dst IP_PROTO_UDP ck) by (done || lia).
  rewrite Z.eqb_refl. pose proof (udp_handle_delivers st b 34 (28 + alen data - 20) port data k qs) as HD.
  cbv zeta in HD. destruct (wq_wake _ _) as [s' w']. exists s', w'. apply HD; try done; try lia.
  - unfold UDP_BUF_SIZE. lia.
  - unfold get_le. rewrite Hat by lia. exact G1.
  - unfold get_le. rewrite Hat by lia. exact G2.
  - rewrite Hat, sub_skip, Lu by lia. apply sub_full.
Qed.

(** After the delivery the receiver of the port reads the payload. *)
Lemma recv_delivered fuel resume st port data k qs w s' buf maxlen :
  udp_wf (udp_queues st) → 0 <= port < 0x10000 → bytes_ok data → 0 < alen data <= UDP_BUF_SIZE →
  udp_slot (udp_queues st) port = Some (k, qs) → alen data <= maxlen <= alen buf →
  let st1 := w_sched s' (w_udp_queues
    (qs.[k <- mk_udp_queue port (splice (q_buffer (qs.[k])) 0 data) (alen data) true w]) st) in
  ∃ st2, udp_recv (Datatypes.S fuel) resume st1 port buf maxlen = Done (alen data, splice buf 0 data, st2) ∧
    sched st2 = sched st1.
Proof.
  intros Hw Hp Hok Hn Hslot Hm st1.
  destruct (udp_slot_spec _ _ _ _ Hw Hslot) as (Hk & Hw' & Hz & Hport & Hact).
  destruct (uw_buf _ Hw' k Hk) as [Lb Ob]. pose proof (uw_len _ Hw') as Lq.
  unfold UDP_BUF_SIZE, MAX_UDP_PORTS in *.
  assert (alen (splice (q_buffer (qs.[k])) 0 data) = 2048) as Ls by (rewrite alen_splice; lia).
  assert (udp_queues st1 = qs.[k <- mk_udp_queue port (splice (q_buffer (qs.[k])) 0 data) (alen data) true w])
    as Eq by done. clearbody st1.
  rewrite (udp_recv_takes fuel resume st1 port k buf maxlen); rewrite ?Eq, ?aget_aset_eq by lia.
  - cbn [q_length q_buffer]. rewrite Z.min_l, sub_splice_same by lia. by eexists.
  - rewrite <-Hz. apply zfind_ext. intros j Hj. unfold bound. rewrite aget_aset by lia.
    destruct (Z.eqb_spec j k) as [->|]; [|done]. cbn. by rewrite Hact, Hport.
  - apply udp_wf_set; [done|lia|done|]. by apply bytes_ok_splice.
  - cbn. unfold UDP_BUF_SIZE. lia.
  - lia.
Qed.

(** A datagram of 1 to 1464 bytes sent to the loopback address or to the host's own address
    arrives: [udp_send] succeeds and the next [udp_recv] on the port returns exactly the
    payload, whether the port was bound before or is bound by the delivery. *)
Theorem udp_loopback_delivers fuel resume st dst port payload n k qs buf maxlen :
  is_loopback st dst = true → 0 <= net_our_ip st < 0x100000000 → udp_wf (udp_queues st) →
  0 <= port < 0x10000 → bytes_ok payload → 0 < n <= 1464 → n <= alen payload →
  udp_slot (udp_queues st) port = Some (k, qs) → n <= maxlen <= alen buf →
  ∃ st1 st2, udp_send junk (Datatypes.S fuel) st dst port payload n = Done (true, st1) ∧
    udp_recv (Datatypes.S fuel) resume st1 port buf maxlen = Done (n, splice buf 0 (sub payload 0 n), st2) ∧
    sched st2 = sched st1.
Proof.
  intros Hlo Hip Hw Hp Hok Hn Hl Hslot Hm.
  assert (0 <= dst < 0x100000000) as Hdst.
  { unfold is_loopback in Hlo. apply orb_true_iff in Hlo as [->%Z.eqb_eq | ->%Z.eqb_eq]; lia. }
  unfold udp_send. rewrite u16_small by lia. destruct (Z.ltb_spec 1472 (8 + n)); [lia|].
  destruct (udp_built port payload n Hp Hok ltac:(lia) Hl) as (d & -> & Ld & Od & Sd & Ls).
  cbn [mbind outcome_bind ipv4_send]. unfold ipv4_send_with. rewrite Hlo. unfold sizeof_ipv4.
  rewrite u16_small by lia. destruct (Z.ltb_spec 1518 (20 + (8 + n) + 14)); [lia|].
  fold (loop_buf0 junk). destruct (loop_buf0_ok junk) as [Lb Ob].
  destruct (ip_packet (loop_buf0 junk) 14 (20 + (8 + n)) (ip_id st) (net_our_ip st) dst IP_PROTO_UDP d (8 + n))
    as (b & ck & E & Lb' & Ob' & Hck & Hh & Hs); try done; try lia.
  change (14 + 20) with 34 in *. rewrite E. cbn [mbind outcome_bind]. rewrite Sd in Hs.
  pose proof (alen_sub payload 0 n ltac:(lia) ltac:(lia) ltac:(lia)) as Lp.
  set (st0 := w_ip_id (u16 (ip_id st + 1)) st).
  destruct (handle_datagram (ipv4_send junk fuel) st0 b (20 + (8 + n) + 14) (20 + (8 + n)) (ip_id st)
    (net_our_ip st) dst ck port (sub payload 0 n) k qs) as (s' & w' & ->); rewrite ?Lp; try done; try lia.
  cbn [mbind outcome_bind].
  destruct (recv_delivered fuel resume st0 port (sub payload 0 n) k qs w' s' buf maxlen) as (st2 & E2 & E3);
    rewrite ?Lp; try done; [by apply bytes_ok_sub|unfold UDP_BUF_SIZE; lia|].
  rewrite Lp in E2, E3. eexists _, st2. split; [reflexivity|]. split; [exact E2|exact E3].
Qed.
End delivery.

(** ** What the stack does to the scheduler

    Whatever holds of the scheduler's state and survives waking (and, for a receiver, waiting
    and the other threads' turns) survives sending and receiving. *)
Section scheduler.
Context {L S Q : Type} `{Link L} `{!Inhabited Q} `{WaitOps S Q}.
Variables (junk : Z → Z) (P : S → Prop).
Hypothesis P_wake : ∀ s q, P s → P (wq_wake s q).1.
Implicit Types st : net L S Q.

Lemma send_frame_sched st dst ty b n r st' : send_frame st dst ty b n = Done (r, st') → sched st' = sched st.
Proof. unfold send_frame. intros E. by outcome_inv; simplify_eq. Qed.

Lemma arp_request_sched st ip st' : arp_request st ip = Done st' → sched st' = sched st.
Proof. unfold arp_request. intros E. outcome_inv; simplify_eq; [by eapply send_frame_sched|done]. Qed.

Lemma udp_handle_sched st f off len st' : udp_handle st f off len = Done st' → P (sched st) → P (sched st').
Proof.
  unfold udp_handle. cbv zeta. intros E HP. outcome_inv; simplify_eq; try done.
  match goal with Hw : wq_wake ?s ?q = _ |- _ => pose proof (P_wake s q HP) as HW; rewrite Hw in HW end. exact HW.
Qed.

Lemma handle_with_sched send st f len st' :
  (∀ st a b c n r st', send st a b c n = Done (r, st') → P (sched st) → P (sched st')) →
  ipv4_handle_with junk send st f len = Done st' → P (sched st) → P (sched st').
Proof.
  intros Hs. unfold ipv4_handle_with, icmp_handle. cbv zeta. intros E HP.
  outcome_inv; simplify_eq; eauto using udp_handle_sched.
Qed.

Lemma ipv4_send_sched fuel : ∀ st dst proto b n r st',
  ipv4_send junk fuel st dst proto b n = Done (r, st') → P (sched st) → P (sched st').
Proof.
  induction fuel as [|fuel IH]; intros st dst proto b n r st'; cbn [ipv4_send]; [done|].
  unfold ipv4_send_with. cbv zeta. intros E HP. outcome_inv; simplify_eq; try done.
  - eapply handle_with_sched; [|eassumption|done]. exact IH.
  - erewrite send_frame_sched by eassumption. done.
  - erewrite arp_request_sched by eassumption. done.
Qed.

Lemma udp_send_sched fuel st dst port b n r st' :
  udp_send junk fuel st dst port b n = Done (r, st') → P (sched st) → P (sched st').
Proof. unfold udp_send. cbv zeta. intros E HP. outcome_inv; simplify_eq; eauto using ipv4_send_sched. Qed.

Hypothesis P_wait : ∀ s q, P s → P (wq_wait s q).1.2.
Variable resume : net L S Q → net L S Q.
Hypothesis P_resume : ∀ st, P (sched st) → P (sched (resume st)).

Lemma udp_wait_sched fuel : ∀ st i st', udp_wait fuel resume st i = Done st' → P (sched st) → P (sched st').
Proof.
  induction fuel as [|fuel IH]; intros st i st'; cbn [udp_wait]; [done|]. cbv zeta.
  destruct (_ =? 0); [|intros; by outcome_inv].
  pose proof (P_wait (sched st) (q_wait ((udp_queues st).[i]))) as HW. destruct (wq_wait _ _) as [[b s] w].
  intros E HP. specialize (HW HP). eapply IH; [exact E|]. destruct b; [by apply P_resume|done].
Qed.

Lemma udp_recv_sched fuel st port b n r b' st' :
  udp_recv fuel resume st port b n = Done (r, b', st') → P (sched st) → P (sched st').
Proof.
  unfold udp_recv. cbv zeta. intros E HP.
  outcome_inv; simplify_eq; cbn [sched w_udp_queues]; eauto using udp_wait_sched.
Qed.
End scheduler.

Section two_hosts.
Context {S Q : Type} `{!Inhabited Q} `{WaitOps S Q}.
Variable junk : Z → Z.
Implicit Types a b : net wire S Q.

(** C31: Between two hosts: once [a] has resolved the destination, [udp_send] puts one IPv4
    frame on the wire, and whatever frame carries these bytes to [b] makes the payload
    readable on [b]'s port. *)
Theorem udp_wire_delivers fuel resume a b dst mac port payload n k qs buf maxlen :
  is_loopback a dst = false → 0 <= dst < 0x100000000 → 0 <= net_our_ip a < 0x100000000 →
  arp_lookup (arp_cache a) dst = Some mac → 0 <= port < 0x10000 → bytes_ok payload →
  0 < n <= 1464 → n <= alen payload →
  udp_wf (udp_queues b) → udp_slot (udp_queues b) port = Some (k, qs) → n <= maxlen <= alen buf →
  ∃ a1 p, udp_send junk (Datatypes.S fuel) a dst port payload n = Done (true, a1) ∧
    w_log (link a1) = w_log (link a) ++ [(mac, ETHERTYPE_IP, p)] ∧
    ∀ g len, bytes_ok g → 14 + alen p <= alen g → sub g 14 (alen p) = p → 34 <= len →
    ∃ b1 b2, ipv4_handle junk fuel b g len = Done b1 ∧
      udp_recv 1 resume b1 port buf maxlen = Done (n, splice buf 0 (sub payload 0 n), b2).
Proof.
  intros Hlo Hdst Hip Harp Hp Hok Hn Hl Hw Hslot Hm.
  unfold udp_send. rewrite u16_small by lia. destruct (Z.ltb_spec 1472 (8 + n)); [lia|].
  destruct (udp_built junk port payload n Hp Hok ltac:(lia) Hl) as (d & -> & Ld & Od & Sd & Ls).
  cbn [mbind outcome_bind ipv4_send]. unfold ipv4_send_with. rewrite Hlo, Harp. unfold sizeof_ipv4.
  rewrite u16_small by lia. destruct (Z.ltb_spec 1500 (20 + (8 + n))); [lia|].
  pose proof (alen_uninit junk 1500 ltac:(lia)) as Lu.
  destruct (ip_packet (uninit junk 1500) 0 (20 + (8 + n)) (ip_id a) (net_our_ip a) dst IP_PROTO_UDP d (8 + n))
    as (f & ck & E & Lf & Of & Hck & Hh & Hs); try done; try lia; [apply uninit_ok|].
  rewrite Sd in Hs. change (0 + 20) with 20 in E. rewrite E. cbn [mbind outcome_bind].
  pose proof (alen_sub payload 0 n ltac:(lia) ltac:(lia) ltac:(lia)) as Lp.
  eexists _, (sub f 0 (20 + (8 + n))). split; [reflexivity|]. split; [reflexivity|].
  intros g len Og Lg Eg Hlen. rewrite alen_sub in Lg, Eg by lia. rewrite Hs in Eg.
  destruct (handle_datagram junk (ipv4_send junk fuel) b g len (20 + (8 + n)) (ip_id a)
    (net_our_ip a) dst ck port (sub payload 0 n) k qs) as (s' & w' & E1); rewrite ?Lp; try done; try lia.
  destruct (recv_delivered 0 resume b port (sub payload 0 n) k qs w' s' buf maxlen) as (b2 & E2 & _);
    rewrite ?Lp; try done; [by apply bytes_ok_sub|unfold UDP_BUF_SIZE; lia|].
  rewrite Lp in E1, E2. eexists _, b2. split; [exact E1|exact E2].
Qed.
End two_hosts.

(** ** Lengths the code does not check *)

Section lengths.
Context {L S Q : Type} `{Link L} `{!Inhabited Q} `{WaitOps S Q}.
Variable junk : Z → Z.
Implicit Types st : net L S Q.

(** [udp_handle] copies as many bytes as the UDP length field says, up to 2048, whatever the
    length of the frame: in the 1518-byte frame buffer of the network task it reads past the
    end exactly when the field, less 8 modulo 65536, exceeds the 1476 bytes behind the
    headers. *)
Theorem udp_handle_overread st frame len i qs :
  alen frame = 1518 → bytes_ok frame → 8 <= len → udp_wf (udp_queues st) →
  udp_slot (udp_queues st) (bswap16 (get_le 2 frame 36)) = Some (i, qs) →
  udp_handle st frame 34 len = Fault ↔ 1476 < u16 (bswap16 (get_le 2 frame 38) - 8).
Proof.
  intros Lf Of Hl Hw Hslot. destruct (udp_slot_spec _ _ _ _ Hw Hslot) as (Hi & Hw' & _).
  destruct (uw_buf _ Hw' i Hi) as [Lb Ob]. unfold UDP_BUF_SIZE in Lb.
  unfold udp_handle, ck_memory. rewrite Lf. destruct (Z.ltb_spec len 8); [lia|].
  cbn [Z.leb Z.compare Pos.compare Pos.compare_cont Z.add Pos.add negb andb].
  change (34 + 2) with 36. change (34 + 4) with 38. rewrite Hslot. unfold UDP_BUF_SIZE.
  pose proof (u16_range (bswap16 (get_le 2 frame 38) - 8)) as Hr.
  set (n := u16 (bswap16 (get_le 2 frame 38) - 8)) in *. clearbody n.
  split.
  - intros E. destruct (Z.lt_ge_cases 1476 n) as [|Hge]; [done|]. exfalso. revert E.
    destruct (Z.ltb_spec 2048 n); [lia|]. rewrite memcpy_ck_spec by (done || lia).
    cbn [mbind outcome_bind]. by destruct (wq_wake _ _).
  - intros Hn. rewrite memcpy_ck_fault; [done|]. right. right. destruct (Z.ltb_spec 2048 n); lia.
Qed.

(** The 16-bit total of [udp_send] wraps: a length of 65528 or more passes the size check
    and the payload is copied past the end of the 1472-byte stack buffer. *)
Theorem udp_send_length_wraps fuel st dst port payload n :
  65528 <= n < 0x10000 → udp_send junk fuel st dst port payload n = Fault.
Proof.
  intros Hn. unfold udp_send.
  assert (u16 (8 + n) = n - 65528) as -> by words. destruct (Z.ltb_spec 1472 (n - 65528)); [lia|].
  rewrite memcpy_ck_fault; [done|]. right. left.
  pose proof (alen_uninit junk 1472 ltac:(lia)). rewrite alen_splice; [lia|lia|].
  unfold udp_bytes. rewrite !alen_app, !alen_le_bytes. lia.
Qed.
End lengths.

(** ** Example hosts *)

#[global] Instance wq_inhabited : Inhabited wait_queue_t := populate (mk_wq [] 0).

Definition demo_queues : list (udp_queue_t wait_queue_t) :=
  replicate 16 (mk_udp_queue 0 (replicate 2048 0) 0 false (mk_wq (replicate 64 0) 0)).

Lemma demo_queues_wf : udp_wf demo_queues.
Proof.
  split; [reflexivity|]. intros i Hi. unfold demo_queues. rewrite aget_replicate by lia.
  cbn [q_buffer]. rewrite alen_replicate. split; [reflexivity|]. apply Forall_replicate. lia.
Qed.

Definition demo_net : net wire (sys kheap pmm (list Z)) wait_queue_t :=
  mk_net (mk_wire [2; 0; 0; 0; 0; 1] []) demo_sys0 demo_cache 0x0F02000A 0 demo_queues.
Definition demo_peer : net wire (sys kheap pmm (list Z)) wait_queue_t :=
  mk_net (mk_wire [2; 0; 0; 0; 0; 2] []) demo_sys0 demo_cache 0x0202000A 0 demo_queues.
(** The first host after it resolved the second. *)
Definition demo_net_arp : net wire (sys kheap pmm (list Z)) wait_queue_t :=
  w_arp_cache (arp_cache_put demo_cache 0x0202000A [2; 0; 0; 0; 0; 2]) demo_net.

Lemma demo_hosts_ok : host_ok demo_net ∧ host_ok demo_peer.
Proof. split; (split; [apply demo_cache_wf|cbn; lia|reflexivity]). Qed.

Lemma arp_exchange_witness :
  ∃ a1 req, arp_request demo_net 0x0202000A = Done a1 ∧
    w_log (link a1) = [(BROADCAST_MAC, ETHERTYPE_ARP, req)].
Proof.
  destruct (arp_exchange demo_net demo_peer 0x0202000A (proj1 demo_hosts_ok) (proj2 demo_hosts_ok) eq_refl
    ltac:(discriminate)) as (a1 & req & E & El & _).
  exists a1, req. exact (conj E El).
Defined.

Definition demo_payload : list Z := [104; 105; 33].

Lemma demo_payload_ok : bytes_ok demo_payload.
Proof. apply bytes_ok_b. reflexivity. Qed.

Lemma ipv4_recursion_bounded_witness :
  ipv4_send (λ _, 0) 2 demo_net 0x0100007F IP_PROTO_ICMP demo_payload 3 ≠ NoFuel.
Proof.
  exact (proj2 (ipv4_recursion_bounded (λ _, 0) 0 demo_net 0x0100007F IP_PROTO_ICMP demo_payload 3
    ltac:(cbn; lia) demo_payload_ok ltac:(unfold IP_PROTO_ICMP; lia))).
Defined.

Definition demo_bound : list (udp_queue_t wait_queue_t) :=
  demo_queues.[0 <- mk_udp_queue 7 (replicate 2048 0) 0 true (mk_wq (replicate 64 0) 0)].

Lemma demo_slot : udp_slot demo_queues 7 = Some (0, demo_bound).
Proof. reflexivity. Qed.

Lemma udp_loopback_delivers_witness :
  ∃ st1 st2, udp_send (λ _, 0) 1 demo_net 0x0100007F 7 demo_payload 3 = Done (true, st1) ∧
    udp_recv 1 (λ st, st) st1 7 (replicate 8 0) 8 = Done (3, [104; 105; 33; 0; 0; 0; 0; 0], st2) ∧
    sched st2 = sched st1.
Proof.
  exact (udp_loopback_delivers (λ _, 0) 0 (λ st, st) demo_net 0x0100007F 7 demo_payload 3 0 demo_bound
    (replicate 8 0) 8 eq_refl ltac:(cbn; lia) demo_queues_wf ltac:(lia) demo_payload_ok ltac:(lia)
    ltac:(vm_compute; discriminate) demo_slot ltac:(vm_compute; split; discriminate)).
Defined.

Lemma udp_wire_delivers_witness :
  ∃ a1 p, udp_send (λ _, 0) 1 demo_net_arp 0x0202000A 7 demo_payload 3 = Done (true, a1) ∧
    w_log (link a1) = [([2; 0; 0; 0; 0; 2], ETHERTYPE_IP, p)].
Proof.
  destruct (udp_wire_delivers (λ _, 0) 0 (λ st, st) demo_net_arp demo_peer 0x0202000A [2; 0; 0; 0; 0; 2] 7
    demo_payload 3 0 demo_bound (replicate 8 0) 8 eq_refl ltac:(lia) ltac:(cbn; lia)
    ltac:(vm_compute; reflexivity) ltac:(lia) demo_payload_ok ltac:(lia) ltac:(vm_compute; discriminate)
    demo_queues_wf demo_slot ltac:(vm_compute; split; discriminate)) as (a1 & p & E & El & _).
  exists a1, p. exact (conj E El).
Defined.

(** A minimal frame whose UDP header claims 2000 bytes. *)
Definition demo_bad_frame : list Z :=
  splice (splice (replicate 1518 0) 36 [0; 7]) 38 [7; 0xD0].

Lemma udp_handle_overread_witness : udp_handle demo_net demo_bad_frame 34 8 = Fault.
Proof.
  apply (udp_handle_overread demo_net demo_bad_frame 8 0 demo_bound eq_refl).
  - apply bytes_ok_b. vm_compute. reflexivity.
  - lia.
  - exact demo_queues_wf.
  - exact demo_slot.
  - vm_compute. reflexivity.
Defined.

Lemma udp_send_length_wraps_witness :
  udp_send (λ _, 0) 1 demo_net 0x0100007F 7 (replicate 10 0) 65530 = Fault.
Proof. exact (udp_send_length_wraps (λ _, 0) 1 demo_net 0x0100007F 7 (replicate 10 0) 65530 ltac:(lia)). Defined.
