(* ===== verification/Dns.v ===== *)
(** * net/dns.c: the resolver

    The query is built and the response parsed on byte buffers; a read outside the response
    buffer is a [Fault].  The blocking receive and the yields take the step [resume] of the
    rest of the system, as in [udp_recv]. *)

From S2P Require Import Prelude KString Pmm Kheap Process Nic Net.

Definition DOT : Z := 46.

(** The body of the formatting loop: [pos] is the write position, [lock] the start of the
    label being read. *)
Fixpoint format_loop (fuel : nat) (src : list Z) (i lock : Z) (out : list Z) (pos : Z) : list Z * Z :=
  match fuel with
  | O => (out, pos)
  | S fuel' =>
      let c := src.[i] in
      if c =? 0 then (out, pos)
      else if c =? DOT then
        let out := out.[pos <- u8 (i - lock)] in
        let out := for_loop (Z.to_nat (i - lock)) 0 (λ j o, o.[pos + 1 + j <- src.[lock + j]]) out in
        format_loop fuel' src (i + 1) (i + 1) out (pos + 1 + (i - lock))
      else format_loop fuel' src (i + 1) lock out pos
  end.

(** The local copy of the host name with a final dot. *)
Definition dotted (junk : Z → Z) (host : list Z) : list Z :=
  let src := (kstrncpy (uninit junk 128) 0 host 126).[126 <- 0] in
  let len := strlen src in
  if (0 <? len) && negb (src.[len - 1] =? DOT) then (src.[len <- DOT]).[len + 1 <- 0] else src.

Definition dns_format_name (junk : Z → Z) (packet : list Z) (qname : Z) (host : list Z) : list Z :=
  let '(out, pos) := format_loop 128 (dotted junk host) 0 0 packet qname in
  out.[pos <- 0].

(** The packet and its size. *)
Definition dns_query (junk : Z → Z) (hostname : list Z) : list Z * Z :=
  let packet := memset (uninit junk 512) 0 0 512 in
  let packet := put_le 2 packet 0 (bswap16 0x1234) in
  let packet := put_le 2 packet 2 (bswap16 0x0100) in
  let packet := put_le 2 packet 4 (bswap16 1) in
  let packet := dns_format_name junk packet 12 hostname in
  let name_len := strlen (drop 12 packet) + 1 in
  let q := 12 + name_len in
  let packet := (((packet.[q <- 0]).[q + 1 <- 1]).[q + 2 <- 0]).[q + 3 <- 1] in
  (packet, u16 (q + 4)).

(** ** The response *)

Definition rd8 (resp : list Z) (p : Z) : outcome Z :=
  if ck_memory p 1 (alen resp) then Done (resp.[p]) else Fault.

(** [(ptr[0] << 8) | ptr[1]] *)
Definition rd16 (resp : list Z) (p : Z) : outcome Z :=
  hi ← rd8 resp p; lo ← rd8 resp (p + 1); Done (u16 (Z.lor (Z.shiftl hi 8) lo)).

(** [while ( *ptr != 0) ptr++; ptr++;] *)
Fixpoint skip_name (fuel : nat) (resp : list Z) (p : Z) : outcome Z :=
  match fuel with
  | O => NoFuel
  | S fuel' => c ← rd8 resp p; if c =? 0 then Done (p + 1) else skip_name fuel' resp (p + 1)
  end.

Definition skip_fuel (resp : list Z) : nat := S (length resp).

Definition skip_owner (resp : list Z) (p : Z) : outcome Z :=
  c ← rd8 resp p;
  if Z.land c 0xC0 =? 0xC0 then Done (p + 2) else skip_name (skip_fuel resp) resp p.

Fixpoint parse_answers (n : nat) (resp : list Z) (p : Z) : outcome (option Z) :=
  match n with
  | O => Done None
  | S n' =>
      p ← skip_owner resp p;
      type ← rd16 resp p;
      class ← rd16 resp (p + 2);
      rdlength ← rd16 resp (p + 8);
      if (type =? 1) && (class =? 1) && (rdlength =? 4) then
        if ck_memory (p + 10) 4 (alen resp) then Done (Some (get_le 4 resp (p + 10))) else Fault
      else parse_answers n' resp (p + 10 + rdlength)
  end.

Definition dns_parse (resp : list Z) (received : Z) : outcome (option Z) :=
  if received <? 12 then Done None
  else
    let ans_count := bswap16 (get_le 2 resp 6) in
    if ans_count =? 0 then Done None
    else
      p ← skip_name (skip_fuel resp) resp 12;
      parse_answers (Z.to_nat ans_count) resp (p + 4).

(** The literals of the fallback table. *)
Definition localhost : list Z := [108; 111; 99; 97; 108; 104; 111; 115; 116; 0].
Definition loopback_name : list Z := [49; 50; 55; 46; 48; 46; 48; 46; 49; 0].
Definition google_com : list Z := [103; 111; 111; 103; 108; 101; 46; 99; 111; 109; 0].
Definition khazar_org : list Z := [107; 104; 97; 122; 97; 114; 45; 111; 115; 46; 111; 114; 103; 0].

Definition fallback (hostname : list Z) : option Z :=
  if (strcmp hostname localhost =? 0) || (strcmp hostname loopback_name =? 0) then Some 0x0100007F
  else if strcmp hostname google_com =? 0 then Some 0x8EFAFA8E
  else if strcmp hostname khazar_org =? 0 then Some 0x059070B9
  else None.

Definition DNS_PORT : Z := 5553.
Definition DNS_SERVER : Z := 0x08080808.

Section resolve.
Context {L S Q : Type} `{Link L} `{!Inhabited Q} `{WaitOps S Q}.
Variable junk : Z → Z.
Implicit Types st : net L S Q.

(** The retry loop; [int 0x20] lets the rest of the system run. *)
Fixpoint dns_retry (n : nat) (fuel : nat) (resume : net L S Q → net L S Q) st (resp : list Z) (received : Z) :
    outcome (Z * list Z * net L S Q) :=
  match n with
  | O => Done (received, resp, st)
  | Datatypes.S n' =>
      '(received, resp, st) ← udp_recv fuel resume st DNS_PORT resp 1024;
      if 0 <? received then Done (received, resp, st)
      else dns_retry n' fuel resume (resume st) resp received
  end.

(** The address, or [None] when the result is false. *)
Definition dns_resolve (fuel : nat) (resume : net L S Q → net L S Q) st (hostname : list Z) :
    outcome (option Z * net L S Q) :=
  match fallback hostname with
  | Some ip => Done (Some ip, st)
  | None =>
      let '(packet, packet_size) := dns_query junk hostname in
      '(_, _, st) ← udp_recv fuel resume st DNS_PORT [] 0;
      '(ok, st) ← udp_send junk fuel st DNS_SERVER 53 packet packet_size;
      if negb ok then Done (None, st)
      else
        '(received, resp, st) ← dns_retry 5 fuel resume st (uninit junk 1024) 0;
        ip ← dns_parse resp received;
        Done (ip, st)
  end.
End resolve.

(** ** Parsing undoes encoding *)

Lemma rd8_at pre c post : rd8 (pre ++ c :: post) (alen pre) = Done c.
Proof.
  unfold rd8, ck_memory. rewrite alen_app, alen_cons. pose proof (alen_nonneg pre). pose proof (alen_nonneg post).
  destruct (Z.leb_spec 0 (alen pre)); [|lia]. destruct (Z.leb_spec (alen pre + 1) (alen pre + (1 + alen post))); [|lia].
  simpl. rewrite aget_app_r by lia. by rewrite Z.sub_diag.
Qed.

Lemma rd8_in pre l i post : 0 <= i < alen l → rd8 (pre ++ l ++ post) (alen pre + i) = Done (l.[i]).
Proof.
  intros Hi. pose proof (alen_nonneg pre). pose proof (alen_nonneg post). unfold rd8, ck_memory.
  rewrite !alen_app. destruct (Z.leb_spec 0 (alen pre + i)); [|lia].
  destruct (Z.leb_spec (alen pre + i + 1) (alen pre + (alen l + alen post))); [|lia].
  simpl. rewrite aget_app_r by lia. rewrite Z.add_simpl_l, aget_app_l by lia. done.
Qed.

Definition be16 (v : Z) : list Z := [v / 256; v mod 256].

Lemma alen_be16 v : alen (be16 v) = 2.
Proof. done. Qed.

Lemma be16_lor v : 0 <= v < 0x10000 → u16 (Z.lor (Z.shiftl (v / 256) 8) (v mod 256)) = v.
Proof.
  intros Hv. rewrite Z.lor_comm.
  assert (Z.lor (v mod 256) (Z.shiftl (v / 256) 8) = v) as ->; [|by apply u16_small].
  apply Z.bits_inj'. intros k Hk. rewrite Z.lor_spec, Z.shiftl_spec by lia.
  change 256 with (2 ^ 8). destruct (Z.lt_ge_cases k 8).
  - rewrite Z.mod_pow2_bits_low, (Z.testbit_neg_r _ (k - 8)), orb_false_r by lia. done.
  - rewrite Z.mod_pow2_bits_high by lia. rewrite Z.div_pow2_bits, orb_false_l by lia. by rewrite Z.sub_add.
Qed.

Lemma rd16_at pre v post : 0 <= v < 0x10000 → rd16 (pre ++ be16 v ++ post) (alen pre) = Done v.
Proof.
  intros Hv. unfold rd16. rewrite <-(Z.add_0_r (alen pre)) at 1.
  rewrite (rd8_in pre (be16 v) 0 post), (rd8_in pre (be16 v) 1 post) by (done || (unfold be16; cbn; lia)).
  cbn [mbind outcome_bind]. f_equal. by apply be16_lor.
Qed.

Lemma skip_name_at fuel pre l post :
  Forall (λ c, c ≠ 0) l → (length l < fuel)%nat →
  skip_name fuel (pre ++ l ++ 0 :: post) (alen pre) = Done (alen pre + alen l + 1).
Proof.
  revert pre l. induction fuel as [|fuel IH]; intros pre l Hl Hf; [lia|].
  cbn [skip_name]. destruct l as [|c l].
  - change ([] ++ 0 :: post) with (0 :: post). rewrite rd8_at. change (alen (@nil Z)) with 0.
    by rewrite Z.add_0_r.
  - inversion Hl; subst. change ((c :: l) ++ 0 :: post) with (c :: (l ++ 0 :: post)). rewrite rd8_at.
    cbn [mbind outcome_bind]. destruct (Z.eqb_spec c 0); [done|].
    specialize (IH (pre ++ [c]) l). rewrite <-app_assoc in IH. simpl in IH. rewrite alen_app in IH.
    change (alen [c]) with 1 in IH. rewrite IH by (done || (simpl in Hf; lia)). f_equal. rewrite alen_cons. lia.
Qed.

Record answer := mk_answer {
  an_owner : list Z; an_type : Z; an_class : Z; an_ttl : list Z; an_rdata : list Z }.

(** The two of the three forms of RFC 1035, 4.1.4, that the parser skips correctly: a single
    compression pointer, or labels up to the zero byte.  For the third, labels that end in a
    compression pointer, see [dns_parse_suffix_missed]. *)
Definition owner_ok (o : list Z) : Prop :=
  (∃ a b, o = [a; b] ∧ Z.land a 0xC0 = 0xC0) ∨
  (∃ l, o = l ++ [0] ∧ Forall (λ c, c ≠ 0) l ∧ Z.land (default 0 (head l)) 0xC0 ≠ 0xC0).

Record answer_ok (a : answer) : Prop := {
  ok_owner : owner_ok (an_owner a);
  ok_type : 0 <= an_type a < 0x10000;
  ok_class : 0 <= an_class a < 0x10000;
  ok_ttl : alen (an_ttl a) = 4;
  ok_rdata : alen (an_rdata a) < 0x10000 }.

Definition answer_bytes (a : answer) : list Z :=
  an_owner a ++ be16 (an_type a) ++ be16 (an_class a) ++ an_ttl a ++ be16 (alen (an_rdata a)) ++ an_rdata a.

Definition is_address (a : answer) : bool :=
  (an_type a =? 1) && (an_class a =? 1) && (alen (an_rdata a) =? 4).

Lemma skip_owner_at pre o post :
  owner_ok o → skip_owner (pre ++ o ++ post) (alen pre) = Done (alen pre + alen o).
Proof.
  intros [(a & b & -> & Ha)|(l & -> & Hl & Hh)]; unfold skip_owner.
  - simpl. rewrite rd8_at. cbn [mbind outcome_bind]. rewrite Ha, Z.eqb_refl. done.
  - rewrite <-app_assoc. change ([0] ++ post) with (0 :: post).
    destruct l as [|c l].
    + change ([] ++ 0 :: post) with (0 :: post). rewrite rd8_at. cbn [mbind outcome_bind].
      pose proof (skip_name_at (skip_fuel (pre ++ 0 :: post)) pre [] post) as E.
      change ([] ++ 0 :: post) with (0 :: post) in E.
      change (Z.land 0 0xC0 =? 0xC0) with false. cbv iota.
      rewrite E; [|done|unfold skip_fuel; simpl; lia].
      f_equal. change (alen (@nil Z)) with 0. change (alen ([] ++ [0])) with 1. lia.
    + change ((c :: l) ++ 0 :: post) with (c :: (l ++ 0 :: post)). rewrite rd8_at.
      cbn [mbind outcome_bind]. simpl in Hh. destruct (Z.eqb_spec (Z.land c 0xC0) 0xC0); [done|].
      change (c :: l ++ 0 :: post) with ((c :: l) ++ 0 :: post). rewrite skip_name_at; [|done|].
      * f_equal. rewrite alen_app, !alen_cons. change (alen (@nil Z)) with 0. lia.
      * unfold skip_fuel. rewrite !length_app. simpl. lia.
Qed.

Lemma parse_answers_at pre answers rest :
  Forall answer_ok answers →
  parse_answers (length answers) (pre ++ concat (map answer_bytes answers) ++ rest) (alen pre) =
    Done ((λ a, le_num (an_rdata a)) <$> head (filter is_address answers)).
Proof.
  intros Hok. revert pre. induction Hok as [|a answers Ha Hok IH]; intros pre; [done|].
  cbn [length parse_answers map concat]. destruct Ha as [Ho Ht Hc Httl Hrd].
  pose proof (alen_nonneg (an_rdata a)). unfold answer_bytes.
  set (tail := concat (map answer_bytes answers) ++ rest).
  assert (∀ x : list Z, (x ++ concat (map answer_bytes answers)) ++ rest = x ++ tail) as ->
    by (intros; by rewrite <-app_assoc).
  rewrite <-!app_assoc. rewrite skip_owner_at by done. cbn [mbind outcome_bind].
  set (o := an_owner a). set (d := an_rdata a).
  assert (∀ k (x : list Z), alen x = k → alen ((pre ++ o) ++ x) = alen pre + alen o + k) as Hlen
    by (intros k x <-; rewrite !alen_app; lia).
  assert (pre ++ o ++ be16 (an_type a) ++ be16 (an_class a) ++ an_ttl a ++ be16 (alen d) ++ d ++ tail =
    (pre ++ o) ++ be16 (an_type a) ++ be16 (an_class a) ++ an_ttl a ++ be16 (alen d) ++ d ++ tail) as ->
    by (by rewrite <-app_assoc).
  rewrite <-(alen_app pre o). rewrite (rd16_at (pre ++ o)) by done. cbn [mbind outcome_bind].
  rewrite (app_assoc (pre ++ o)). change (alen (pre ++ o) + 2) with (alen (pre ++ o) + alen (be16 (an_type a))).
  rewrite <-alen_app, rd16_at by done. cbn [mbind outcome_bind].
  assert (alen (pre ++ o) + 8 = alen ((((pre ++ o) ++ be16 (an_type a)) ++ be16 (an_class a)) ++ an_ttl a)) as ->
    by (rewrite !alen_app, !alen_be16, Httl; lia).
  set (p4 := (((pre ++ o) ++ be16 (an_type a)) ++ be16 (an_class a)) ++ an_ttl a).
  assert (((pre ++ o) ++ be16 (an_type a)) ++ be16 (an_class a) ++ an_ttl a ++ be16 (alen d) ++ d ++ tail =
    p4 ++ be16 (alen d) ++ d ++ tail) as -> by (unfold p4; by rewrite <-!app_assoc).
  rewrite (rd16_at p4 (alen d)) by (unfold d; lia). cbn [mbind outcome_bind]. rewrite filter_cons.
  assert (alen (pre ++ o) + 10 = alen (p4 ++ be16 (alen d))) as E10
    by (unfold p4; rewrite !alen_app, !alen_be16, Httl; lia).
  rewrite E10. change (is_address a) with ((an_type a =? 1) && (an_class a =? 1) && (alen d =? 4)).
  rewrite (app_assoc p4). destruct ((an_type a =? 1) && (an_class a =? 1) && (alen d =? 4)) eqn:Hd.
  - rewrite decide_True by done. apply andb_true_iff in Hd as [_ Hd%Z.eqb_eq].
    unfold ck_memory. rewrite !alen_app, Hd. pose proof (alen_nonneg p4). pose proof (alen_nonneg tail).
    pose proof (alen_nonneg (be16 4)).
    destruct (Z.leb_spec 0 (alen p4 + alen (be16 4))); [|lia].
    destruct (Z.leb_spec (alen p4 + alen (be16 4) + 4) (alen p4 + alen (be16 4) + (4 + alen tail))); [|lia].
    cbn [andb Z.leb Z.compare]. simpl. f_equal. f_equal. unfold get_le. rewrite <-alen_app.
    rewrite sub_skip by lia. rewrite Z.sub_diag. f_equal. by apply sub_head.
  - rewrite decide_False by (by intros []).
    specialize (IH ((p4 ++ be16 (alen d)) ++ d)). rewrite alen_app, <-app_assoc in IH. exact IH.
Qed.

(** The header and the question are stepped over. *)
Lemma dns_parse_open hdr qname qinfo x n received :
  alen hdr = 12 → get_le 2 hdr 6 = bswap16 n → 0 < n < 0x10000 → Forall (λ c, c ≠ 0) qname → alen qinfo = 4 →
  12 <= received →
  dns_parse (hdr ++ qname ++ 0 :: qinfo ++ x) received =
    parse_answers (Z.to_nat n) ((hdr ++ qname ++ 0 :: qinfo) ++ x) (alen (hdr ++ qname ++ 0 :: qinfo)).
Proof.
  intros Hh Hc Hn Hq Hqi Hr. unfold dns_parse. destruct (Z.ltb_spec received 12); [lia|].
  assert (∀ x : list Z, get_le 2 (hdr ++ x) 6 = get_le 2 hdr 6) as ->.
  { intros y. unfold get_le. f_equal. unfold sub. rewrite drop_app_le by (unfold alen in *; lia).
    rewrite take_app_le; [done|]. rewrite length_drop. unfold alen in *. lia. }
  rewrite Hc, bswap16_inv by lia. destruct (Z.eqb_spec n 0); [lia|].
  rewrite <-Hh. rewrite skip_name_at; [|done|unfold skip_fuel; rewrite !length_app; simpl; lia].
  rewrite outcome_bind_done. f_equal.
  - rewrite <-!app_assoc. done.
  - rewrite !alen_app, alen_cons. lia.
Qed.

(** C39: [dns_parse] returns the address of the first A record of a response whose owner names
    are all either a single compression pointer or labels up to the zero byte ([owner_ok]),
    skipping records of other types, and reports failure when such a response has no address.
    A name of labels that end in a compression pointer is well formed too, and not covered:
    [dns_parse_suffix_missed] shows what becomes of it. *)
Theorem dns_parse_first_address hdr qname qinfo answers rest received :
  alen hdr = 12 → get_le 2 hdr 6 = bswap16 (alen answers) → 0 < alen answers < 0x10000 →
  Forall (λ c, c ≠ 0) qname → alen qinfo = 4 → Forall answer_ok answers → 12 <= received →
  dns_parse (hdr ++ qname ++ 0 :: qinfo ++ concat (map answer_bytes answers) ++ rest) received =
    Done ((λ a, le_num (an_rdata a)) <$> head (filter is_address answers)).
Proof.
  intros Hh Hc Hn Hq Hqi Ha Hr. rewrite (dns_parse_open _ _ _ _ (alen answers)) by (done || lia).
  unfold alen at 1. rewrite Nat2Z.id. by apply parse_answers_at.
Qed.

(** ** Names that end in a compression pointer

    The third form of a name, one or more labels and then a compression pointer, has no zero
    byte of its own.  The parser looks for one all the same. *)

Definition suffix_owner (o : list Z) : Prop :=
  ∃ l p b, o = l ++ [p; b] ∧ l ≠ [] ∧ Forall (λ c, c ≠ 0) l ∧ Z.land (default 0 (head l)) 0xC0 ≠ 0xC0 ∧
    Z.land p 0xC0 = 0xC0 ∧ b ≠ 0.

(** The zero it finds is the high byte of the record type, so it goes one byte too far. *)
Lemma skip_owner_suffix pre o post :
  suffix_owner o → skip_owner (pre ++ o ++ 0 :: post) (alen pre) = Done (alen pre + alen o + 1).
Proof.
  intros (l & p & b & -> & Hne & Hl & Hh & Hp & Hb). destruct l as [|c l]; [done|].
  assert (Forall (λ c, c ≠ 0) ((c :: l) ++ [p; b])) as Hnz.
  { apply Forall_app. split; [done|]. repeat constructor; [|done]. by intros ->. }
  unfold skip_owner. change (((c :: l) ++ [p; b]) ++ 0 :: post) with (c :: (l ++ [p; b]) ++ 0 :: post).
  rewrite rd8_at, outcome_bind_done. cbn in Hh. destruct (Z.eqb_spec (Z.land c 0xC0) 0xC0); [done|].
  change (c :: (l ++ [p; b]) ++ 0 :: post) with (((c :: l) ++ [p; b]) ++ 0 :: post).
  apply skip_name_at; [done|]. unfold skip_fuel. rewrite !length_app. cbn. lia.
Qed.

(** A response whose only record is an address under such a name is reported as a failure,
    whatever address it holds. *)
Theorem dns_parse_suffix_missed hdr qname qinfo a rest received :
  alen hdr = 12 → get_le 2 hdr 6 = bswap16 1 → Forall (λ c, c ≠ 0) qname → alen qinfo = 4 → 12 <= received →
  suffix_owner (an_owner a) → alen (an_ttl a) = 4 → is_address a = true →
  dns_parse (hdr ++ qname ++ 0 :: qinfo ++ answer_bytes a ++ rest) received = Done None.
Proof.
  intros Hh Hc Hq Hqi Hr Ho Httl [[Ht%Z.eqb_eq Hcl%Z.eqb_eq]%andb_true_iff Hd%Z.eqb_eq]%andb_true_iff.
  unfold answer_bytes. rewrite Ht, Hcl, Hd.
  destruct (an_ttl a) as [|t0 [|t1 [|t2 [|t3 [|? ?]]]]]; try (unfold alen in Httl; cbn in Httl; lia).
  destruct (an_rdata a) as [|d0 d]; [done|].
  rewrite (dns_parse_open _ _ _ _ 1) by (done || lia). change (Z.to_nat 1) with 1%nat. cbn [parse_answers].
  rewrite <-(app_assoc (an_owner a)). change (be16 1) with [0; 1]. cbn [app].
  rewrite skip_owner_suffix, outcome_bind_done by done.
  set (pre := (hdr ++ qname ++ 0 :: qinfo) ++ an_owner a ++ [0]).
  assert (alen (hdr ++ qname ++ 0 :: qinfo) + alen (an_owner a) + 1 = alen pre) as ->
    by (unfold pre; rewrite (alen_app _ (an_owner a ++ [0])), (alen_app (an_owner a)); change (alen [0]) with 1; lia).
  assert (∀ x, (hdr ++ qname ++ 0 :: qinfo) ++ an_owner a ++ 0 :: x = pre ++ x) as ->
    by (intros x; unfold pre; by rewrite <-!app_assoc).
  change (1 :: 0 :: _) with ([1; 0; 1; t0; t1; t2; t3; 0; 4; d0] ++ d ++ rest).
  unfold rd16. rewrite <-(Z.add_0_r (alen pre)) at 1. rewrite <-!Z.add_assoc, !rd8_in by done.
  by rewrite !outcome_bind_done.
Qed.

(** ** Query names *)

Definition label_ok (l : list Z) : Prop := Forall (λ c, c ≠ 0 ∧ c ≠ DOT ∧ 0 <= c < 256) l.

(** The host name with a dot after each label, and the name as DNS encodes it. *)
Definition dots (ls : list (list Z)) : list Z := concat (map (λ l, l ++ [DOT]) ls).
Definition encode_name (ls : list (list Z)) : list Z := concat (map (λ l, alen l :: l) ls).

Lemma encode_name_length ls : alen (encode_name ls) = alen (dots ls).
Proof.
  induction ls as [|l ls IH]; [done|]. unfold encode_name, dots in *. cbn [map concat].
  rewrite !alen_app, alen_cons, IH. change (alen [DOT]) with 1. lia.
Qed.

(** [src] holds the string [d] at offset [i]. *)
Definition reads (src : list Z) (i : Z) (d : list Z) : Prop :=
  ∀ j, 0 <= j < alen d → src.[i + j] = d.[j].

Lemma reads_app src i d1 d2 : reads src i (d1 ++ d2) ↔ reads src i d1 ∧ reads src (i + alen d1) d2.
Proof.
  unfold reads. rewrite alen_app. pose proof (alen_nonneg d1). pose proof (alen_nonneg d2). split.
  - intros Hr. split; intros j Hj.
    + rewrite Hr by lia. apply aget_app_l. lia.
    + rewrite <-Z.add_assoc, Hr by lia. rewrite aget_app_r by lia. f_equal. lia.
  - intros [H1 H2] j Hj. destruct (Z.lt_ge_cases j (alen d1)).
    + rewrite H1, aget_app_l by lia. done.
    + rewrite aget_app_r by lia. rewrite <-H2 by lia. f_equal. lia.
Qed.

Lemma reads_sub src i d : 0 <= i → i + alen d <= alen src → reads src i d → sub src i (alen d) = d.
Proof.
  intros Hi Hl Hr. pose proof (alen_nonneg d). apply alist_eq; rewrite alen_sub by lia; [done|].
  intros j Hj. rewrite aget_sub by lia. by apply Hr.
Qed.

Lemma scan_label l fuel src i lock out pos :
  label_ok l → reads src i l →
  format_loop (length l + fuel) src i lock out pos = format_loop fuel src (i + alen l) lock out pos.
Proof.
  revert i. induction l as [|c l IH]; intros i Hl Hr.
  { cbn [length Nat.add]. change (alen (@nil Z)) with 0. by rewrite Z.add_0_r. }
  inversion Hl as [|? ? (H0 & H1 & _) Hl']; subst. cbn [length Nat.add format_loop].
  assert (src.[i] = c) as ->.
  { specialize (Hr 0). rewrite Z.add_0_r in Hr. apply Hr. rewrite alen_cons. pose proof (alen_nonneg l). lia. }
  destruct (Z.eqb_spec c 0); [done|]. destruct (Z.eqb_spec c DOT); [done|].
  rewrite IH; [f_equal; rewrite alen_cons; lia|done|].
  apply (reads_app src i [c] l) in Hr as [_ Hr]. exact Hr.
Qed.

Lemma format_labels ls fuel src i out pos :
  Forall label_ok ls → Forall (λ l, alen l < 256) ls → reads src i (dots ls) →
  src.[i + alen (dots ls)] = 0 → 0 <= i → i + alen (dots ls) < alen src → (length (dots ls) < fuel)%nat →
  0 <= pos → pos + alen (dots ls) <= alen out →
  format_loop fuel src i i out pos = (splice out pos (encode_name ls), pos + alen (encode_name ls)).
Proof.
  intros Hok. revert fuel i out pos.
  induction Hok as [|l ls Hl Hok IH]; intros fuel i out pos Hlen Hr Hz Hi Hsrc Hf Hp Hout.
  - cbn in Hz. rewrite Z.add_0_r in Hz. destruct fuel as [|fuel]; [cbn in Hf; lia|].
    cbn [format_loop]. rewrite Hz. cbn. by rewrite splice_nil, Z.add_0_r.
  - inversion Hlen as [|? ? Hl256 Hlen']; subst. cbn [dots map concat] in *. fold (dots ls) in *.
    rewrite !alen_app in *. change (alen [DOT]) with 1 in *. rewrite !length_app in Hf. simpl in Hf.
    pose proof (alen_nonneg l). pose proof (alen_nonneg (dots ls)).
    rewrite <-app_assoc in Hr. apply reads_app in Hr as [R1 Hr]. apply reads_app in Hr as [R2 Hr].
    change (alen [DOT]) with 1 in Hr.
    replace fuel with (length l + S (fuel - length l - 1))%nat by lia.
    rewrite scan_label by done. cbn [format_loop].
    assert (src.[i + alen l] = DOT) as ->.
    { specialize (R2 0). rewrite Z.add_0_r in R2. by apply R2. }
    cbn [Z.eqb Pos.eqb DOT]. replace (i + alen l - i) with (alen l) by lia.
    rewrite u8_small by lia. rewrite <-splice_1 by lia.
    rewrite (copy_loop _ (pos + 1) src i (Z.to_nat (alen l))); [|done|lia|lia| |lia].
    2: { rewrite alen_splice; change (alen [alen l]) with 1; lia. }
    rewrite Z2Nat.id, reads_sub by (done || lia).
    assert (splice (splice out pos [alen l]) (pos + 1) l = splice out pos (alen l :: l)) as ->.
    { change 1 with (alen [alen l]) at 1. rewrite splice_splice_adj; [done|lia|]. change (alen [alen l]) with 1. lia. }
    rewrite IH; try done; try lia.
    + cbn [encode_name map concat]. fold (encode_name ls). f_equal.
      * assert (pos + 1 + alen l = pos + alen (alen l :: l)) as -> by (rewrite alen_cons; lia).
        rewrite splice_splice_adj; [done|lia|]. rewrite alen_cons, encode_name_length. lia.
      * rewrite alen_app, alen_cons. lia.
    + replace (i + alen l + 1 + alen (dots ls)) with (i + (alen l + 1 + alen (dots ls))) by lia. done.
    + rewrite alen_splice; rewrite ?alen_cons; lia.
Qed.

Lemma strlen_reads src t :
  reads src 0 t → Forall (λ c, c ≠ 0) t → src.[alen t] = 0 → alen t < alen src → strlen src = alen t.
Proof.
  revert src. induction t as [|c t IH]; intros src Hr Hnz Hz Hl.
  { destruct src as [|x src]; [done|]. change (x = 0) in Hz. by subst x. }
  destruct src as [|x src].
  - pose proof (alen_nonneg (c :: t)). change (alen (@nil Z)) with 0 in Hl. lia.
  - inversion Hnz; subst. pose proof (alen_nonneg t). rewrite !alen_cons in *.
    assert (x = c) as ->. { specialize (Hr 0 ltac:(rewrite alen_cons; lia)). done. }
    cbn [strlen]. unfold nz. destruct (Z.eqb_spec c 0); [done|]. cbn [negb]. rewrite IH; [done| |done| |lia].
    + intros j Hj. specialize (Hr (j + 1) ltac:(rewrite alen_cons; lia)).
      rewrite Z.add_0_l, !aget_cons_S, Z.add_simpl_r in Hr by lia. by rewrite Z.add_0_l.
    + rewrite aget_cons_S in Hz by lia. by replace (1 + alen t - 1) with (alen t) in Hz by lia.
Qed.

(** The local copy is the host name with its final dot. *)
Lemma dotted_reads junk host :
  let t := cstr host in
  0 < alen t <= 125 → t.[alen t - 1] ≠ DOT →
  reads (dotted junk host) 0 (t ++ [DOT]) ∧ (dotted junk host).[alen t + 1] = 0 ∧ alen (dotted junk host) = 128.
Proof.
  intros t Ht Hlast. unfold dotted.
  pose proof (alen_uninit junk 128 ltac:(lia)) as Lu. rewrite kstrncpy_pads by lia. fold t.
  set (w := take (Z.to_nat 126) (t ++ replicate (Z.to_nat 126) 0)).
  assert (alen w = 126) as Lw by (unfold w; rewrite alen_firstn, alen_app, alen_replicate; lia).
  assert (∀ j, 0 <= j < 126 → w.[j] = if j <? alen t then t.[j] else 0) as Hw.
  { intros j Hj. unfold w. unfold aget at 1. destruct (Z.ltb_spec j 0); [lia|].
    rewrite list_lookup_total_alt, lookup_take_lt, <-list_lookup_total_alt by lia.
    change ((t ++ replicate (Z.to_nat 126) 0) !!! Z.to_nat j) with
      (if false then inhabitant else (t ++ replicate (Z.to_nat 126) 0) !!! Z.to_nat j).
    assert ((t ++ replicate (Z.to_nat 126) 0).[j] = if j <? alen t then t.[j] else 0) as <-.
    { destruct (Z.ltb_spec j (alen t)); [by rewrite aget_app_l by lia|].
      rewrite aget_app_r, aget_replicate by lia. done. }
    unfold aget. destruct (Z.ltb_spec j 0); [lia|done]. }
  assert (alen (splice (uninit junk 128) 0 w) = 128) as Ls by (rewrite alen_splice; lia).
  set (src := (splice (uninit junk 128) 0 w).[126 <- 0]).
  assert (alen src = 128) as L by (unfold src; by rewrite alen_aset).
  assert (∀ j, 0 <= j <= 126 → src.[j] = if j <? alen t then t.[j] else 0) as Hsrc.
  { intros j Hj. unfold src. rewrite aget_aset by lia. destruct (Z.eqb_spec j 126) as [->|].
    - destruct (Z.ltb_spec 126 (alen t)); [lia|done].
    - rewrite <-Hw by lia. change j with (0 + j) at 1. apply aget_splice_in; lia. }
  assert (strlen src = alen t) as ->.
  { apply strlen_reads; try lia.
    - intros j Hj. rewrite Z.add_0_l, Hsrc by lia. destruct (Z.ltb_spec j (alen t)); [done|lia].
    - apply Forall_forall. intros c. apply cstr_nonzero.
    - rewrite Hsrc by lia. by rewrite Z.ltb_irrefl. }
  rewrite (Hsrc (alen t - 1)) by lia. destruct (Z.ltb_spec (alen t - 1) (alen t)); [|lia].
  destruct (Z.ltb_spec 0 (alen t)); [|lia]. destruct (Z.eqb_spec (t.[alen t - 1]) DOT); [done|]. cbn [andb negb].
  split_and!.
  - apply reads_app. split.
    + intros j Hj. rewrite Z.add_0_l, !aget_aset_ne, Hsrc by (rewrite ?alen_aset; lia).
      destruct (Z.ltb_spec j (alen t)); [done|lia].
    + intros j Hj. change (alen [DOT]) with 1 in Hj. replace j with 0 by lia. rewrite Z.add_0_r, Z.add_0_l.
      rewrite aget_aset_ne, aget_aset_eq by (rewrite ?alen_aset; lia). done.
  - by rewrite aget_aset_eq by (rewrite alen_aset; lia).
  - by rewrite !alen_aset.
Qed.

(** [dns_format_name] writes the name of a host of dot-separated labels as the sequence of
    length-prefixed labels that DNS prescribes, with its final zero, and nothing else. *)
Theorem dns_format_name_encodes junk packet pos host ls :
  Forall label_ok ls → ls ≠ [] → last ls ≠ Some [] → cstr host ++ [DOT] = dots ls → alen (dots ls) <= 126 →
  0 <= pos → pos + alen (dots ls) + 1 <= alen packet →
  dns_format_name junk packet pos host = splice packet pos (encode_name ls ++ [0]).
Proof.
  intros Hok Hne Hlast Hhost Hlen Hp Hpk.
  assert (Forall (λ l, alen l < 256) ls) as H256.
  { apply Forall_forall. intros l Hl. pose proof (alen_nonneg l).
    assert (alen l <= alen (dots ls)); [|lia]. clear -Hl. induction ls as [|x ls IH]; [by apply not_elem_of_nil in Hl|].
    cbn [dots map concat]. rewrite !alen_app. pose proof (alen_nonneg (concat (map (λ l, l ++ [DOT]) ls))).
    pose proof (alen_nonneg [DOT]). pose proof (alen_nonneg x).
    apply elem_of_cons in Hl as [->|Hl]; [lia|]. specialize (IH Hl). unfold dots in IH. lia. }
  assert (alen (cstr host) + 1 = alen (dots ls)) as Lh by (rewrite <-Hhost, alen_app; done).
  set (t := cstr host) in *. pose proof (alen_nonneg t).
  assert (reads (dotted junk host) 0 (dots ls) ∧ (dotted junk host).[0 + alen (dots ls)] = 0 ∧
    alen (dotted junk host) = 128) as (R & Hz & L).
  { destruct (exists_last Hne) as (ls' & l & ->). rewrite last_snoc in Hlast.
    assert (t = dots ls' ++ l) as Et.
    { unfold dots in Hhost. rewrite map_app, concat_app in Hhost. simpl in Hhost.
      rewrite app_nil_r, app_assoc in Hhost. by apply app_inj_tail in Hhost as [-> _]. }
    apply Forall_app in Hok as [_ Hl]. inversion Hl as [|? ? Hl' _]; subst.
    assert (0 < alen l) as Pl by (destruct l; [done|rewrite alen_cons; pose proof (alen_nonneg l); lia]).
    pose proof (alen_nonneg (dots ls')). pose proof (alen_app (dots ls') l) as At. rewrite <-Et in At.
    destruct (dotted_reads junk host) as (R & Hz & L); fold t; [lia| |].
    - rewrite Et, aget_app_r; [|rewrite <-Et; lia].
      apply (Forall_aget (λ c, c ≠ 0 ∧ c ≠ DOT ∧ 0 <= c < 256)); [|done]. rewrite <-Et. lia.
    - fold t in R, Hz. rewrite Hhost in R. rewrite Z.add_0_l, <-Lh. done. }
  unfold dns_format_name. rewrite (format_labels ls 128 (dotted junk host) 0 packet pos); try done; try lia.
  - rewrite encode_name_length, <-splice_1, <-(encode_name_length ls), splice_splice_adj; try done; try lia.
    + rewrite encode_name_length. change (alen [0]) with 1. lia.
    + rewrite alen_splice; rewrite ?encode_name_length; lia.
  - unfold alen in *. lia.
Qed.

(** ** A second query never leaves the host *)

Section blocking.
Context {L S Q : Type} `{Link L} `{!Inhabited Q} `{WaitOps S Q}.
Variable junk : Z → Z.
Implicit Types st : net L S Q.

Definition no_data (k : Z) st : Prop :=
  alen (udp_queues st) = MAX_UDP_PORTS ∧ q_length ((udp_queues st).[k]) = 0.

Lemma udp_wait_forever fuel resume st k :
  0 <= k < 16 → (∀ st, no_data k st → no_data k (resume st)) → no_data k st →
  udp_wait fuel resume st k = NoFuel.
Proof.
  intros Hk Hres. revert st. induction fuel as [|fuel IH]; intros st [Hl Hq]; [done|].
  cbn [udp_wait]. rewrite Hq. cbn [Z.eqb].
  destruct (wq_wait (sched st) (q_wait ((udp_queues st).[k]))) as [[blocked s] w].
  assert (no_data k (w_sched s (w_udp_queues ((udp_queues st).[k <-
    mk_udp_queue (q_port ((udp_queues st).[k])) (q_buffer ((udp_queues st).[k])) 0
      (q_active ((udp_queues st).[k])) w]) st))) as HP.
  { unfold MAX_UDP_PORTS in *. split; cbn [udp_queues w_sched w_udp_queues].
    - by rewrite alen_aset.
    - by rewrite aget_aset_eq by lia. }
  destruct blocked; apply IH; [by apply Hres|done].
Qed.

(** Once port 5553 is bound, as the first resolution leaves it, [dns_resolve] waits for a
    datagram on it before it sends the query: unless some unrelated datagram arrives there,
    it never returns. *)
Theorem dns_resolve_blocks fuel resume st host k :
  fallback host = None → alen (udp_queues st) = MAX_UDP_PORTS →
  zfind (bound (udp_queues st) DNS_PORT) 0 16 = Some k → q_length ((udp_queues st).[k]) = 0 →
  (∀ st, no_data k st → no_data k (resume st)) →
  dns_resolve junk fuel resume st host = NoFuel.
Proof.
  intros Hf Hl Hz Hq Hres. unfold dns_resolve. rewrite Hf. destruct (dns_query junk host) as [packet n].
  unfold udp_recv. rewrite Hz. apply zfind_Some in Hz as (Hk & _).
  by rewrite udp_wait_forever by (done || lia).
Qed.
End blocking.

(** ** Examples *)

(** "os.khazar.org" *)
Definition demo_host : list Z := [111; 115; 46; 107; 104; 97; 122; 97; 114; 46; 111; 114; 103; 0].
Definition demo_labels : list (list Z) := [[111; 115]; [107; 104; 97; 122; 97; 114]; [111; 114; 103]].

Lemma dns_format_name_encodes_witness :
  dns_format_name (λ _, 0) (replicate 512 0) 12 demo_host =
    splice (replicate 512 0) 12 [2; 111; 115; 6; 107; 104; 97; 122; 97; 114; 3; 111; 114; 103; 0].
Proof.
  apply (dns_format_name_encodes (λ _, 0) (replicate 512 0) 12 demo_host demo_labels);
    [|discriminate|discriminate|reflexivity|vm_compute; discriminate..].
  repeat constructor; unfold DOT; lia.
Defined.

(** A CNAME record, then an address. *)
Definition demo_answers : list answer :=
  [mk_answer [0xC0; 12] 5 1 [0; 0; 0; 60] [3; 119; 119; 119; 0];
   mk_answer [3; 119; 119; 119; 0] 1 1 [0; 0; 0; 60] [93; 184; 216; 34]].

Lemma dns_parse_first_address_witness :
  dns_parse ([0x12; 0x34; 0x81; 0x80; 0; 1; 0; 2; 0; 0; 0; 0] ++ [2; 111; 115] ++ 0 :: [0; 1; 0; 1] ++
    concat (map answer_bytes demo_answers) ++ replicate 900 0) 57 = Done (Some 0x22D8B85D).
Proof.
  apply (dns_parse_first_address [0x12; 0x34; 0x81; 0x80; 0; 1; 0; 2; 0; 0; 0; 0] [2; 111; 115] [0; 1; 0; 1]
    demo_answers (replicate 900 0) 57); try reflexivity; try lia.
  - vm_compute. split; reflexivity.
  - repeat constructor; discriminate.
  - constructor; [|constructor; [|constructor]]; split; cbn; try lia; try reflexivity.
    + left. by exists 0xC0, 12.
    + right. exists [3; 119; 119; 119]. split; [done|]. split; [repeat constructor; discriminate|done].
Defined.

(** The owner "www" followed by a pointer to the name of the question. *)
Lemma dns_parse_suffix_missed_witness :
  dns_parse ([0x12; 0x34; 0x81; 0x80; 0; 1; 0; 1; 0; 0; 0; 0] ++ [2; 111; 115] ++ 0 :: [0; 1; 0; 1] ++
    answer_bytes (mk_answer [3; 119; 119; 119; 0xC0; 12] 1 1 [0; 0; 0; 60] [93; 184; 216; 34]) ++ replicate 900 0) 40 =
    Done None.
Proof.
  apply dns_parse_suffix_missed; try reflexivity; try lia.
  - repeat constructor; discriminate.
  - exists [3; 119; 119; 119], 0xC0, 12. split_and!; try done. repeat constructor; discriminate.
Defined.

(** The host after a first resolution: port 5553 is bound and its queue was read. *)
Definition demo_resolved : net wire (sys kheap pmm (list Z)) wait_queue_t :=
  mk_net (link demo_net) (sched demo_net) (arp_cache demo_net) (net_our_ip demo_net) 1
    (demo_queues.[0 <- mk_udp_queue DNS_PORT (replicate 2048 0) 0 true (mk_wq (replicate 64 0) 0)]).

Lemma dns_resolve_blocks_witness : dns_resolve (λ _, 0) 100 (λ st, st) demo_resolved demo_host = NoFuel.
Proof.
  apply (dns_resolve_blocks (λ _, 0) 100 (λ st, st) demo_resolved demo_host 0).
  - vm_compute. reflexivity.
  - vm_compute. reflexivity.
  - vm_compute. reflexivity.
  - vm_compute. reflexivity.
  - intros st Hst. exact Hst.
Defined.
