(* ===== verification/Format.v ===== *)
(** * drivers/gpu/vga.c: the format engine

    [kvprintf] and the number printers it uses, over an arbitrary [putc_func], and its
    clients [ksprintf] and [ksnprintf].  A format is the buffer behind the [char *], so
    that a read past its end is a [Fault].  The variable arguments are the 32-bit words the
    caller pushed, as on i386: [%d], [%x] and [%c] take one word, [%llx] two, [%s] one word
    that is the address of a string in [mem].  [kprintf] itself is in Vga.v.

    The reference is a format given as a list of pieces: its text, the words it consumes
    and the characters it must produce. *)

From Stdlib Require Import Ascii String.
From S2P Require Import Prelude.

(** ** Characters and variable arguments *)

Definition ch (a : ascii) : Z := Z.of_N (N_of_ascii a).
Arguments ch a%_char.

Fixpoint str_bytes (s : string) : list Z :=
  match s with
  | EmptyString => []
  | String a s' => ch a :: str_bytes s'
  end.
Arguments str_bytes s%_string.

(** Decides the comparisons of character constants. *)
Ltac chars :=
  repeat match goal with
    | |- context [ch ?a =? ch ?b] =>
        let v := eval vm_compute in (ch a =? ch b) in change (ch a =? ch b) with v
    end; cbv iota.

Definition char_at (s : list Z) (i : Z) : outcome Z :=
  if ck_memory i 1 (alen s) then Done (s.[i]) else Fault.

Definition va_arg (args : list Z) : outcome (Z * list Z) :=
  match args with
  | w :: args' => Done (w, args')
  | [] => Fault
  end.

Definition va_arg64 (args : list Z) : outcome (Z * list Z) :=
  '(lo, args) ← va_arg args;
  '(hi, args) ← va_arg args;
  Done (lo + Z.shiftl hi 32, args).

(** ** Numbers *)

(** The digit loop of [itoa], least significant digit first; C's [%] and [/] truncate
    towards zero.  An [int] has at most 10 digits, so 32 turns are enough. *)
Fixpoint itoa_digits (fuel : nat) (num : Z) (str : list Z) (i : Z) : list Z * Z :=
  match fuel with
  | O => (str, i)
  | S fuel' =>
      if num =? 0 then (str, i)
      else let rem := Z.rem num 10 in
           itoa_digits fuel' (Z.quot num 10) (str.[i <- u8 (rem + ch "0")]) (i + 1)
  end.

Fixpoint itoa_reverse (fuel : nat) (str : list Z) (start end_ : Z) : list Z :=
  match fuel with
  | O => str
  | S fuel' =>
      if start <? end_ then
        let temp := str.[start] in
        itoa_reverse fuel' ((str.[start <- str.[end_]]).[end_ <- temp]) (start + 1) (end_ - 1)
      else str
  end.

Definition itoa (num : Z) (str : list Z) : list Z :=
  if num =? 0 then (str.[0 <- ch "0"]).[1 <- 0]
  else
    let is_negative := num <? 0 in
    let num := if is_negative then s32 (- num) else num in
    let '(str, i) := itoa_digits 32 num str 0 in
    let '(str, i) := if is_negative then (str.[i <- ch "-"], i + 1) else (str, i) in
    itoa_reverse 32 (str.[i <- 0]) 0 (i - 1).

Definition hex_chars : list Z := str_bytes "0123456789ABCDEF".

(** One turn of the loops of [itoh] and of [%llx]. *)
Definition hex_step (i : Z) (s : Z * list Z) : Z * list Z :=
  (Z.shiftr s.1 4, s.2.[i <- hex_chars.[Z.land s.1 0xF]]).

Definition itoh (num : Z) (str : list Z) : list Z :=
  (for_loop 8 0 (λ k, hex_step (7 - k)) (num, str)).2.[8 <- 0].

(** The loop of the [ll] case: [pos] counts down from 15. *)
Definition llx_digits (num : Z) (buffer : list Z) : list Z :=
  (for_loop 16 0 (λ j, hex_step (15 - j)) (num, buffer.[16 <- 0])).2.

(** ** kvprintf *)

Section kvprintf.
Context {E : Type} (putc_func : Z → E → outcome E).
Variable mem : Z → list Z.
(** The uninitialised [char buffer[32]] of the cases. *)
Variable buffer : list Z.

(** [for (int j = 0; s[j]; j++) putc_func(s[j], extra);] *)
Fixpoint put_chars (s : list Z) (extra : E) : outcome E :=
  match s with
  | [] => Fault
  | c :: s' => if c =? 0 then Done extra else extra ← putc_func c extra; put_chars s' extra
  end.

(** [while (format[i] >= '0' && format[i] <= '9') i++;] *)
Fixpoint skip_width (fuel : nat) (format : list Z) (i : Z) : outcome Z :=
  match fuel with
  | O => NoFuel
  | S fuel' =>
      c ← char_at format i;
      if (ch "0" <=? c) && (c <=? ch "9") then skip_width fuel' format (i + 1) else Done i
  end.

Definition is_llx (format : list Z) (i : Z) : outcome bool :=
  c1 ← char_at format (i + 1);
  if c1 =? ch "l" then c2 ← char_at format (i + 2); Done (c2 =? ch "x") else Done false.

(** The [switch] on the directive at [format[i]]. *)
Definition conversion (format : list Z) (i : Z) (args : list Z) (extra : E)
  : outcome (E * list Z * Z) :=
  c ← char_at format i;
  if c =? ch "d" then
    '(num, args) ← va_arg args;
    extra ← put_chars (itoa (s32 num) buffer) extra; Done (extra, args, i)
  else if c =? ch "x" then
    '(num, args) ← va_arg args;
    extra ← put_chars (itoh num buffer) extra; Done (extra, args, i)
  else if c =? ch "l" then
    ll ← is_llx format i;
    if (ll : bool) then
      '(num, args) ← va_arg64 args;
      extra ← put_chars (llx_digits num buffer) extra; Done (extra, args, i + 2)
    else Done (extra, args, i)
  else if c =? ch "s" then
    '(p, args) ← va_arg args;
    extra ← put_chars (if p =? 0 then str_bytes "(null)" ++ [0] else mem p) extra;
    Done (extra, args, i)
  else if c =? ch "c" then
    '(w, args) ← va_arg args;
    extra ← putc_func (u8 w) extra; Done (extra, args, i)
  else if c =? ch "%" then
    extra ← putc_func (ch "%") extra; Done (extra, args, i)
  else
    extra ← putc_func (ch "%") extra;
    extra ← putc_func c extra; Done (extra, args, i).

Definition directive_at (format : list Z) (i c : Z) : outcome bool :=
  if c =? ch "%" then c' ← char_at format (i + 1); Done (nz c') else Done false.

Fixpoint kvprintf_loop (fuel : nat) (format : list Z) (i : Z) (args : list Z) (extra : E)
  : outcome E :=
  match fuel with
  | O => NoFuel
  | S fuel' =>
      c ← char_at format i;
      if c =? 0 then Done extra
      else
        b ← directive_at format i c;
        if (b : bool) then
          i ← skip_width (S (length format)) format (i + 1);
          '(extra, args, i) ← conversion format i args extra;
          kvprintf_loop fuel' format (i + 1) args extra
        else
          extra ← putc_func c extra;
          kvprintf_loop fuel' format (i + 1) args extra
  end.

(** The index grows in every turn and a read past the format faults: one turn more than
    the format is long is enough. *)
Definition kvprintf (extra : E) (format args : list Z) : outcome E :=
  kvprintf_loop (S (length format)) format 0 args extra.

(** The characters of [s], one after the other. *)
Fixpoint put_all (s : list Z) (extra : E) : outcome E :=
  match s with
  | [] => Done extra
  | c :: s' => extra ← putc_func c extra; put_all s' extra
  end.
End kvprintf.

(** ** ksprintf and ksnprintf *)

(** [**buf_ptr = c; ( *buf_ptr)++]: the buffer and the offset of the pointer in it. *)
Definition ksprintf_putc (c : Z) (extra : list Z * Z) : outcome (list Z * Z) :=
  let '(str, p) := extra in
  if ck_memory p 1 (alen str) then Done (str.[p <- c], p + 1) else Fault.

Definition ksprintf (mem : Z → list Z) (buffer str format args : list Z) : outcome (list Z) :=
  '(str, p) ← kvprintf ksprintf_putc mem buffer (str, 0) format args;
  if ck_memory p 1 (alen str) then Done (str.[p <- 0]) else Fault.

(** The string being written and [ksnprintf_ctx_t]. *)
Record ksnprintf_ctx_t := mk_ctx { c_str : list Z; c_p : Z; c_remaining : Z }.

Definition ksnprintf_putc (c : Z) (ctx : ksnprintf_ctx_t) : outcome ksnprintf_ctx_t :=
  if 1 <? c_remaining ctx then
    if ck_memory (c_p ctx) 1 (alen (c_str ctx)) then
      Done (mk_ctx ((c_str ctx).[c_p ctx <- c]) (c_p ctx + 1) (c_remaining ctx - 1))
    else Fault
  else Done ctx.

(** [None] is the null pointer. *)
Definition ksnprintf (mem : Z → list Z) (buffer : list Z) (str : option (list Z)) (n : Z)
    (format args : list Z) : outcome (option (list Z)) :=
  match str with
  | None => Done None
  | Some s =>
      if n =? 0 then Done str
      else
        ctx ← kvprintf ksnprintf_putc mem buffer (mk_ctx s 0 n) format args;
        if ck_memory (c_p ctx) 1 (alen (c_str ctx))
        then Done (Some ((c_str ctx).[c_p ctx <- 0])) else Fault
  end.

(** ** Reference numerals *)

(** The digits of [n] in a base, least significant first; [fuel] bounds their number. *)
Fixpoint digits (base : Z) (fuel : nat) (n : Z) : list Z :=
  match fuel with
  | O => []
  | S fuel' => if n =? 0 then [] else n mod base :: digits base fuel' (n / base)
  end.

Fixpoint digits_value (base : Z) (ds : list Z) : Z :=
  match ds with
  | [] => 0
  | d :: ds' => d + base * digits_value base ds'
  end.

Lemma digits_value_inv base fuel n :
  1 < base → 0 <= n < base ^ Z.of_nat fuel → digits_value base (digits base fuel n) = n.
Proof.
  intros Hb. revert n. induction fuel as [|f IH]; intros n Hn.
  - change (base ^ Z.of_nat 0) with 1 in Hn. simpl. lia.
  - simpl. destruct (Z.eqb_spec n 0) as [->|]; [done|]. simpl. rewrite IH; [zlia|].
    rewrite Nat2Z.inj_succ, Z.pow_succ_r in Hn by lia.
    split; [apply Z.div_pos; lia|apply Z.div_lt_upper_bound; lia].
Qed.

Lemma digits_range base fuel n : 1 < base → Forall (λ d, 0 <= d < base) (digits base fuel n).
Proof.
  intros Hb. revert n. induction fuel as [|f IH]; intros n; simpl; [constructor|].
  destruct (n =? 0); constructor; [|apply IH]. apply Z.mod_pos_bound. lia.
Qed.

(** The fuel does not matter as soon as it is enough. *)
Lemma digits_fuel base f g n :
  1 < base → 0 <= n < base ^ Z.of_nat f → (f <= g)%nat → digits base g n = digits base f n.
Proof.
  intros Hb. revert g n. induction f as [|f IH]; intros g n Hn Hg.
  - change (base ^ Z.of_nat 0) with 1 in Hn. replace n with 0 by lia. by destruct g.
  - destruct g as [|g]; [lia|]. simpl. destruct (n =? 0); [done|]. f_equal. apply IH; [|lia].
    rewrite Nat2Z.inj_succ, Z.pow_succ_r in Hn by lia.
    split; [apply Z.div_pos; lia|apply Z.div_lt_upper_bound; lia].
Qed.

Lemma digits_length base fuel n : (length (digits base fuel n) <= fuel)%nat.
Proof.
  revert n. induction fuel as [|f IH]; intros n; simpl; [lia|].
  destruct (n =? 0); simpl; [lia|]. specialize (IH (n / base)). lia.
Qed.

(** The last digit is the most significant one: a numeral has no leading zero. *)
Lemma digits_last base fuel n d :
  1 < base → 0 <= n < base ^ Z.of_nat fuel → last (digits base fuel n) = Some d → d ≠ 0.
Proof.
  intros Hb. revert n. induction fuel as [|f IH]; intros n Hn; [done|]. simpl.
  destruct (Z.eqb_spec n 0) as [->|Hz]; [done|].
  assert (0 <= n / base < base ^ Z.of_nat f) as Hq.
  { rewrite Nat2Z.inj_succ, Z.pow_succ_r in Hn by lia.
    split; [apply Z.div_pos; lia|apply Z.div_lt_upper_bound; lia]. }
  specialize (IH (n / base) Hq). destruct (digits base f (n / base)) as [|e ds] eqn:E.
  - simpl. intros [= <-] Hd. pose proof (digits_value_inv base f _ Hb Hq) as Hv.
    rewrite E in Hv. simpl in Hv. pose proof (Z_div_mod_eq_full n base). lia.
  - intros Hl. rewrite last_cons_cons in Hl. by apply IH.
Qed.

Definition numeral (base : Z) (digit : Z → Z) (n : Z) : list Z :=
  if n =? 0 then [digit 0] else rev (map digit (digits base 32 n)).

Definition show_digit (d : Z) : Z := ch "0" + d.

(** What [%d] must print. *)
Definition show_int (n : Z) : list Z :=
  if n <? 0 then ch "-" :: numeral 10 show_digit (- n) else numeral 10 show_digit n.

(** What [%x] and [%llx] must print: all 8 or 16 digits. *)
Definition show_hex (w : nat) (n : Z) : list Z :=
  rev (map (λ k, hex_chars.[Z.shiftr n (4 * k) mod 16]) (seqZ 0 (Z.of_nat w))).

(** The reader of decimal numbers. *)
Definition read_digits (s : list Z) : Z := foldl (λ v c, 10 * v + (c - ch "0")) 0 s.

Definition read_int (s : list Z) : Z :=
  match s with
  | c :: s' => if c =? ch "-" then - read_digits s' else read_digits s
  | [] => 0
  end.

Lemma read_rev_digits ds : read_digits (rev (map show_digit ds)) = digits_value 10 ds.
Proof.
  induction ds as [|d ds IH]; [done|]. simpl. unfold read_digits in *. rewrite foldl_app, IH.
  cbn [foldl]. unfold show_digit. lia.
Qed.

Lemma read_numeral n : 0 <= n < 0x100000000 → read_digits (numeral 10 show_digit n) = n.
Proof.
  intros Hn. unfold numeral. destruct (Z.eqb_spec n 0) as [->|]; [done|].
  rewrite read_rev_digits. apply digits_value_inv; [lia|]. change (Z.of_nat 32) with 32. lia.
Qed.

Lemma numeral_chars n : Forall (λ c, ch "0" <= c <= ch "9") (numeral 10 show_digit n).
Proof.
  unfold numeral. destruct (n =? 0).
  { constructor; [by vm_compute|constructor]. }
  apply Forall_rev, Forall_map. eapply Forall_impl; [apply digits_range; lia|].
  intros d Hd. unfold show_digit. change (ch "0") with 48. change (ch "9") with 57. cbn in *. lia.
Qed.

(** [show_int] is a decimal numeral: reading it gives the number back. *)
Lemma read_show_int n : -0x100000000 < n < 0x100000000 → read_int (show_int n) = n.
Proof.
  intros Hn. unfold show_int. destruct (Z.ltb_spec n 0).
  - simpl. rewrite read_numeral by lia. lia.
  - pose proof (numeral_chars n) as Hc. pose proof (read_numeral n ltac:(lia)) as Hr.
    destruct (numeral 10 show_digit n) as [|c s]; [done|]. simpl.
    apply Forall_cons in Hc as [Hc _]. change (ch "0") with 48 in Hc. change (ch "-") with 45.
    destruct (Z.eqb_spec c 45); [lia|done].
Qed.

(** ** The number printers meet the reference *)

Lemma itoa_digits_spec fuel num str i :
  0 <= num < 10 ^ Z.of_nat fuel → 0 <= i → i + alen (digits 10 fuel num) <= alen str →
  itoa_digits fuel num str i =
    (splice str i (map show_digit (digits 10 fuel num)), i + alen (digits 10 fuel num)).
Proof.
  revert num str i. induction fuel as [|f IH]; intros num str i Hn Hi Hl; cbn [digits itoa_digits].
  { cbn [map]. rewrite splice_nil. f_equal. change (alen (@nil Z)) with 0. lia. }
  cbn [digits] in Hl. destruct (Z.eqb_spec num 0) as [->|Hz].
  { cbn [map]. rewrite splice_nil. f_equal. change (alen (@nil Z)) with 0. lia. }
  rewrite alen_cons in Hl |- *. pose proof (alen_nonneg (digits 10 f (num / 10))).
  rewrite Z.quot_div_nonneg, Z.rem_mod_nonneg by lia.
  rewrite IH; [|rewrite Nat2Z.inj_succ, Z.pow_succ_r in Hn by lia; zlia|lia|rewrite alen_aset; lia].
  f_equal; [|lia].
  rewrite <-splice_1 by lia. cbn [map].
  change (show_digit (num mod 10) :: map show_digit (digits 10 f (num / 10)))
    with ([show_digit (num mod 10)] ++ map show_digit (digits 10 f (num / 10))).
  rewrite <-splice_splice_adj; [|lia|].
  - change (alen [show_digit (num mod 10)]) with 1. unfold show_digit.
    change (ch "0") with 48. rewrite u8_small by zlia. by rewrite (Z.add_comm 48).
  - change (alen [show_digit (num mod 10)]) with 1.
    replace (alen (map show_digit (digits 10 f (num / 10)))) with (alen (digits 10 f (num / 10)))
      by (unfold alen; by rewrite length_map). lia.
Qed.

(** The swap loop reverses the characters from [start] to [end_]. *)
Lemma itoa_reverse_spec fuel str s e k :
  0 <= s → e < alen str → e - s < 2 * Z.of_nat fuel → 0 <= k →
  (itoa_reverse fuel str s e).[k] = if (s <=? k) && (k <=? e) then str.[s + e - k] else str.[k].
Proof.
  revert str s e. induction fuel as [|f IH]; intros str s e Hs He Hf Hk; simpl.
  - destruct (Z.leb_spec s k), (Z.leb_spec k e); try done. lia.
  - destruct (Z.ltb_spec s e) as [Hlt|Hge].
    + rewrite IH by (rewrite ?alen_aset; lia).
      destruct (Z.leb_spec (s + 1) k), (Z.leb_spec k (e - 1)), (Z.leb_spec s k), (Z.leb_spec k e);
        simpl; rewrite ?aget_aset by (rewrite ?alen_aset; lia);
        repeat match goal with |- context [?a =? ?b] => destruct (Z.eqb_spec a b) end;
        try lia; f_equal; lia.
    + destruct (Z.leb_spec s k), (Z.leb_spec k e); try done. simpl. f_equal. lia.
Qed.

Lemma itoa_reverse_len fuel str s e : alen (itoa_reverse fuel str s e) = alen str.
Proof.
  revert str s e. induction fuel as [|f IH]; intros str s e; simpl; [done|].
  destruct (s <? e); [|done]. by rewrite IH, !alen_aset.
Qed.

Lemma aget_rev (l : list Z) k : 0 <= k < alen l → (rev l).[k] = l.[alen l - 1 - k].
Proof.
  unfold alen, aget. intros Hk. rewrite rev_alt. fold (reverse l).
  destruct (Z.ltb_spec k 0), (Z.ltb_spec (Z.of_nat (length l) - 1 - k) 0); try lia.
  rewrite !list_lookup_total_alt. rewrite reverse_lookup by lia. do 2 f_equal. lia.
Qed.

Lemma alen_rev (l : list Z) : alen (rev l) = alen l.
Proof. unfold alen. by rewrite length_rev. Qed.

Lemma alen_map {A B} (f : A → B) l : alen (map f l) = alen l.
Proof. unfold alen. by rewrite length_map. Qed.

Lemma alen_seqZ m n : 0 <= n → alen (seqZ m n) = n.
Proof. intros. unfold alen. rewrite length_seqZ. lia. Qed.

Lemma aget_map_seqZ (f : Z → Z) m n i : 0 <= i < n → (map f (seqZ m n)).[i] = f (m + i).
Proof.
  intros Hi. unfold aget. destruct (Z.ltb_spec i 0); [lia|].
  rewrite list_lookup_total_alt, list_lookup_fmap, lookup_seqZ_lt by lia. cbn.
  by rewrite Z2Nat.id by lia.
Qed.

(** Reversing a written prefix in place is writing its reverse. *)
Lemma itoa_reverse_splice str d :
  alen d + 1 <= alen str → alen d <= 33 →
  itoa_reverse 32 ((splice str 0 d).[alen d <- 0]) 0 (alen d - 1) = splice str 0 (rev d ++ [0]).
Proof.
  intros Hl H32. pose proof (alen_nonneg d).
  assert (alen ((splice str 0 d).[alen d <- 0]) = alen str) as Hlen.
  { rewrite alen_aset, alen_splice; lia. }
  assert (alen (rev d ++ [0]) = alen d + 1) as Hr.
  { rewrite alen_app, alen_rev. done. }
  apply alist_eq.
  - rewrite itoa_reverse_len, Hlen, alen_splice; lia.
  - rewrite itoa_reverse_len, Hlen. intros i Hi.
    rewrite itoa_reverse_spec by (rewrite ?Hlen; lia).
    rewrite (aget_splice _ _ (rev d ++ [0])), Hr by lia.
    assert (alen (splice str 0 d) = alen str) as Hsp by (apply alen_splice; lia).
    destruct (Z.leb_spec 0 i), (Z.leb_spec i (alen d - 1)), (Z.ltb_spec i (0 + (alen d + 1))); try lia; cbn [andb].
    + rewrite aget_aset_ne, aget_splice by lia.
      destruct (Z.leb_spec 0 (0 + (alen d - 1) - i)), (Z.ltb_spec (0 + (alen d - 1) - i) (0 + alen d)); try lia. cbn [andb].
      rewrite aget_app_l by (rewrite alen_rev; lia). rewrite aget_rev by lia. f_equal. lia.
    + replace i with (alen d) by lia. rewrite aget_aset_eq by lia.
      rewrite aget_app_r by (rewrite alen_rev; lia). rewrite alen_rev.
      replace (alen d - 0 - alen d) with 0 by lia. done.
    + rewrite aget_aset_ne, aget_splice by lia.
      destruct (Z.leb_spec 0 i), (Z.ltb_spec i (0 + alen d)); try lia. done.
Qed.

Lemma itoa_len10 n : 0 <= n < 0x80000000 → alen (digits 10 32 n) <= 10.
Proof.
  intros Hn. rewrite (digits_fuel 10 10 32) by (try lia; change (Z.of_nat 10) with 10; lia).
  pose proof (digits_length 10 10 n). unfold alen. lia.
Qed.

(** [itoa] writes the decimal numeral of every [int] but the least one. *)
Lemma itoa_spec num str :
  -0x80000000 < num < 0x80000000 → 12 <= alen str →
  itoa num str = splice str 0 (show_int num ++ [0]).
Proof.
  intros Hn Hl. unfold itoa, show_int, numeral. change (ch "0") with 48. change (ch "-") with 45.
  destruct (Z.eqb_spec num 0) as [->|Hz].
  { change (0 <? 0) with false. cbn match. change (0 =? 0) with true. cbn match.
    rewrite <-(splice_1 str) by lia.
    rewrite <-splice_1 by (rewrite alen_splice; change (alen [48]) with 1; lia).
    rewrite splice_append; [done|done|change (alen [0]) with 1; lia]. }
  destruct (Z.ltb_spec num 0) as [Hneg|Hpos].
  - rewrite s32_small by lia. destruct (Z.eqb_spec (- num) 0); [lia|].
    pose proof (itoa_len10 (- num) ltac:(lia)) as Hd.
    rewrite itoa_digits_spec by (try lia; change (Z.of_nat 32) with 32; lia).
    set (d := map show_digit (digits 10 32 (- num))).
    assert (alen d = alen (digits 10 32 (- num))) as Hdl by apply alen_map. rewrite <-Hdl in *.
    pose proof (alen_nonneg d). rewrite <-(splice_1 (splice str 0 d)) by (rewrite alen_splice; lia).
    rewrite splice_append by (try lia; change (alen [45]) with 1; lia).
    replace (0 + alen d + 1) with (alen (d ++ [45])) by (rewrite alen_app; change (alen [45]) with 1; lia).
    rewrite itoa_reverse_splice by (rewrite ?alen_app; change (alen [45]) with 1; lia).
    by rewrite rev_app_distr.
  - destruct (Z.eqb_spec num 0); [lia|].
    pose proof (itoa_len10 num ltac:(lia)) as Hd.
    rewrite itoa_digits_spec by (try lia; change (Z.of_nat 32) with 32; lia).
    set (d := map show_digit (digits 10 32 num)).
    assert (alen d = alen (digits 10 32 num)) as Hdl by apply alen_map. rewrite <-Hdl in *.
    rewrite Z.add_0_l. apply itoa_reverse_splice; lia.
Qed.

Lemma hex_loop_spec w num str :
  0 <= num → Z.of_nat w <= alen str →
  (for_loop w 0 (λ k, hex_step (Z.of_nat w - 1 - k)) (num, str)).2 = splice str 0 (show_hex w num).
Proof.
  intros Hn Hl.
  pose (P := λ (k : Z) (s : Z * list Z), s.1 = Z.shiftr num (4 * k) ∧ alen s.2 = alen str ∧
    ∀ j, 0 <= j → s.2.[j] = if (Z.of_nat w - k <=? j) && (j <? Z.of_nat w)
           then hex_chars.[Z.shiftr num (4 * (Z.of_nat w - 1 - j)) mod 16] else str.[j]).
  assert (P (0 + Z.of_nat w) (for_loop w 0 (λ k, hex_step (Z.of_nat w - 1 - k)) (num, str))) as (_ & HL & HG).
  { apply for_loop_inv.
    - split; [done|]. split; [done|]. intros j Hj. cbn [snd].
      destruct (Z.leb_spec (Z.of_nat w - 0) j), (Z.ltb_spec j (Z.of_nat w)); try done. lia.
    - intros k [v s] Hk (H1 & H2 & H3). cbn [fst snd] in *. unfold hex_step, P. cbn [fst snd].
      split; [|split].
      + subst v. rewrite Z.shiftr_shiftr by lia. f_equal. lia.
      + by rewrite alen_aset.
      + intros j Hj. rewrite aget_aset by lia. rewrite H3 by done. subst v.
        change 0xF with (Z.ones 4). rewrite Z.land_ones by lia. change (2 ^ 4) with 16.
        destruct (Z.eqb_spec j (Z.of_nat w - 1 - k)) as [->|].
        * destruct (Z.leb_spec (Z.of_nat w - (k + 1)) (Z.of_nat w - 1 - k)),
            (Z.ltb_spec (Z.of_nat w - 1 - k) (Z.of_nat w)); try lia. cbn [andb].
          do 4 f_equal. lia.
        * destruct (Z.leb_spec (Z.of_nat w - (k + 1)) j), (Z.leb_spec (Z.of_nat w - k) j),
            (Z.ltb_spec j (Z.of_nat w)); try done; lia. }
  assert (alen (show_hex w num) = Z.of_nat w) as Hw.
  { unfold show_hex. by rewrite alen_rev, alen_map, alen_seqZ by lia. }
  apply alist_eq; [rewrite HL, alen_splice; lia|]. rewrite HL. intros i Hi.
  rewrite HG, aget_splice, Hw by lia.
  destruct (Z.leb_spec (Z.of_nat w - (0 + Z.of_nat w)) i), (Z.leb_spec 0 i),
    (Z.ltb_spec i (Z.of_nat w)), (Z.ltb_spec i (0 + Z.of_nat w)); try lia; try done. cbn [andb].
  unfold show_hex in *. rewrite alen_rev in Hw. rewrite Z.sub_0_r, aget_rev by lia. rewrite Hw.
  by rewrite aget_map_seqZ by lia.
Qed.

Lemma itoh_spec num str :
  0 <= num → 9 <= alen str → itoh num str = splice str 0 (show_hex 8 num ++ [0]).
Proof.
  intros Hn Hl. unfold itoh.
  assert (alen (show_hex 8 num) = 8) as Hw by done.
  pose proof (hex_loop_spec 8 num str Hn ltac:(lia)) as E. change (Z.of_nat 8 - 1) with 7 in E.
  rewrite E, <-splice_1 by (rewrite alen_splice; lia).
  apply splice_append; [done|]. change (alen [0]) with 1. lia.
Qed.

Lemma llx_spec num str :
  0 <= num → 17 <= alen str → llx_digits num str = splice str 0 (show_hex 16 num ++ [0]).
Proof.
  intros Hn Hl. unfold llx_digits.
  pose proof (hex_loop_spec 16 num (str.[16 <- 0]) Hn ltac:(rewrite alen_aset; lia)) as E.
  change (Z.of_nat 16 - 1) with 15 in E. rewrite E.
  assert (alen (show_hex 16 num) = 16) as Hw by done.
  assert (alen (show_hex 16 num ++ [0]) = 17) as Hw' by done.
  apply alist_eq; [rewrite !alen_splice, ?alen_aset; rewrite ?alen_aset; lia|].
  intros i Hi. rewrite alen_splice in Hi by (rewrite ?alen_aset; lia).
  rewrite !aget_splice, Hw, Hw' by (rewrite ?alen_aset; lia).
  rewrite alen_aset in Hi.
  destruct (Z.leb_spec 0 i), (Z.ltb_spec i (0 + 16)), (Z.ltb_spec i (0 + 17)); try lia; cbn [andb].
  - rewrite aget_app_l by lia. done.
  - replace i with 16 by lia. rewrite aget_aset_eq by lia. done.
  - rewrite aget_aset_ne by lia. done.
Qed.

(** ** Formats as lists of pieces *)

Inductive directive :=
| Dec (w : Z)
| Hex (w : Z)
| Hex64 (lo hi : Z)
| Str (p : Z)
| Chr (w : Z)
| Percent
| Unknown (c : Z).

(** A plain character, or a directive with the digits of its width. *)
Inductive piece :=
| Lit (c : Z)
| Dir (width : list Z) (d : directive).

Definition is_digit (c : Z) : bool := (ch "0" <=? c) && (c <=? ch "9").

(** The letters of a directive in the format, *)
Definition dir_letters (d : directive) : list Z :=
  match d with
  | Dec _ => [ch "d"]
  | Hex _ => [ch "x"]
  | Hex64 _ _ => [ch "l"; ch "l"; ch "x"]
  | Str _ => [ch "s"]
  | Chr _ => [ch "c"]
  | Percent => [ch "%"]
  | Unknown c => [c]
  end.

(** the words it consumes, *)
Definition dir_args (d : directive) : list Z :=
  match d with
  | Dec w | Hex w | Str w | Chr w => [w]
  | Hex64 lo hi => [lo; hi]
  | Percent | Unknown _ => []
  end.

(** and the characters it produces; the width is ignored. *)
Definition dir_out (mem : Z → list Z) (d : directive) : list Z :=
  match d with
  | Dec w => show_int (s32 w)
  | Hex w => show_hex 8 w
  | Hex64 lo hi => show_hex 16 (lo + 0x100000000 * hi)
  | Str p => if p =? 0 then str_bytes "(null)" else cstr (mem p)
  | Chr w => [u8 w]
  | Percent => [ch "%"]
  | Unknown c => [ch "%"; c]
  end.

Definition word_ok (w : Z) : Prop := 0 <= w < 0x100000000.

Definition dir_ok (mem : Z → list Z) (d : directive) : Prop :=
  match d with
  | Dec v => word_ok v ∧ v ≠ 0x80000000
  | Hex v => word_ok v
  | Hex64 lo hi => word_ok lo ∧ word_ok hi
  | Str p => p ≠ 0 → terminated (mem p)
  | Chr _ | Percent => True
  | Unknown c => c ≠ 0 ∧ is_digit c = false ∧ c ∉ str_bytes "dxlsc%"
  end.

Definition piece_text (p : piece) : list Z :=
  match p with
  | Lit c => [c]
  | Dir w d => ch "%" :: w ++ dir_letters d
  end.

Definition piece_args (p : piece) : list Z :=
  match p with Lit _ => [] | Dir _ d => dir_args d end.

Definition piece_out (mem : Z → list Z) (p : piece) : list Z :=
  match p with Lit c => [c] | Dir _ d => dir_out mem d end.

Definition piece_ok (mem : Z → list Z) (p : piece) : Prop :=
  match p with
  | Lit c => c ≠ 0 ∧ c ≠ ch "%"
  | Dir w d => Forall is_digit w ∧ dir_ok mem d
  end.

Definition pieces_text (ps : list piece) : list Z := concat (map piece_text ps).
Definition pieces_args (ps : list piece) : list Z := concat (map piece_args ps).
Definition pieces_out (mem : Z → list Z) (ps : list piece) : list Z := concat (map (piece_out mem) ps).

Lemma char_at_mid pre c post i : i = alen pre → char_at (pre ++ c :: post) i = Done c.
Proof.
  intros ->. unfold char_at, ck_memory. rewrite alen_app, alen_cons.
  pose proof (alen_nonneg pre). pose proof (alen_nonneg post).
  destruct (Z.leb_spec 0 (alen pre)), (Z.leb_spec (alen pre + 1) (alen pre + (1 + alen post))); try lia.
  cbn. f_equal. rewrite aget_app_r by lia. rewrite Z.sub_diag. done.
Qed.

Lemma skip_width_spec w pre c post fuel i :
  Forall is_digit w → is_digit c = false → (length w < fuel)%nat → i = alen pre →
  skip_width fuel (pre ++ w ++ c :: post) i = Done (i + alen w).
Proof.
  revert pre fuel i. induction w as [|d w IH]; intros pre fuel i Hw Hc Hf ->; (destruct fuel as [|f]; [simpl in Hf; lia|]); cbn [skip_width].
  - rewrite app_nil_l, char_at_mid by done. rewrite outcome_bind_done. unfold is_digit in Hc.
    rewrite Hc. f_equal. change (alen (@nil Z)) with 0. lia.
  - apply Forall_cons in Hw as [Hd Hw]. rewrite <-app_comm_cons, char_at_mid by done.
    rewrite outcome_bind_done. unfold is_digit in Hd. apply Is_true_true in Hd. rewrite Hd.
    replace (pre ++ d :: w ++ c :: post) with ((pre ++ [d]) ++ w ++ c :: post)
      by (by rewrite <-!app_assoc).
    rewrite IH; [|done|done|simpl in Hf; lia|rewrite alen_app; done].
    f_equal. rewrite alen_cons. lia.
Qed.

Section renders.
Context {E : Type} (putc_func : Z → E → outcome E).
Variables (mem : Z → list Z) (buffer : list Z).
Hypothesis Hbuffer : alen buffer = 32.
Local Notation PA := (put_all putc_func).
Local Notation PC := (put_chars putc_func).
Local Notation CONV := (conversion putc_func mem buffer).
Local Notation LOOP := (kvprintf_loop putc_func mem buffer).

Lemma put_all_app s t e : PA (s ++ t) e = (e ← PA s e; PA t e).
Proof.
  revert e. induction s as [|c s IH]; intros e; [done|]. simpl.
  destruct (putc_func c e); [|done|done]. apply IH.
Qed.

Lemma put_chars_all s r e : Forall (λ c, c ≠ 0) s → PC (s ++ 0 :: r) e = PA s e.
Proof.
  intros Hs. revert e. induction Hs as [|c s Hc Hs IH]; intros e; [done|]. simpl.
  destruct (Z.eqb_spec c 0); [done|]. destruct (putc_func c e); [|done|done]. apply IH.
Qed.

Lemma put_chars_cstr s e : terminated s → PC s e = PA (cstr s) e.
Proof.
  intros Ht. destruct (cstr_split s Ht) as [r Hr].
  rewrite Hr at 1. apply put_chars_all. apply Forall_forall. apply cstr_nonzero.
Qed.

(** A number printer's buffer holds the numeral and its terminator. *)
Lemma put_chars_buffer b s e :
  b = splice buffer 0 (s ++ [0]) → Forall (λ c, c ≠ 0) s → PC b e = PA s e.
Proof. intros -> Hs. unfold splice. simpl. rewrite <-app_assoc. by apply put_chars_all. Qed.

Lemma show_int_nonzero n : Forall (λ c, c ≠ 0) (show_int n).
Proof.
  assert (∀ m, Forall (λ c, c ≠ 0) (numeral 10 show_digit m)) as Hm.
  { intros m. eapply Forall_impl; [apply numeral_chars|]. intros c [Hc _]. change (48 <= c) in Hc. lia. }
  unfold show_int. destruct (n <? 0); [|apply Hm]. constructor; [done|apply Hm].
Qed.

Lemma show_hex_nonzero w n : Forall (λ c, c ≠ 0) (show_hex w n).
Proof.
  apply Forall_rev, Forall_map, Forall_forall. intros k _. simpl.
  apply (Forall_aget (λ c, c ≠ 0)); [|repeat constructor; done].
  change (alen hex_chars) with 16. apply Z.mod_pos_bound. lia.
Qed.

(** One directive, the index at its letter. *)
Lemma conversion_spec d pre x post args e :
  dir_ok mem d →
  CONV (pre ++ dir_letters d ++ x :: post) (alen pre) (dir_args d ++ args) e =
    (e ← PA (dir_out mem d) e; Done (e, args, alen pre + alen (dir_letters d) - 1)).
Proof.
  intros Hd. unfold conversion.
  assert (alen pre + 1 - 1 = alen pre) as H1 by lia.
  destruct d as [w|w|lo hi|p|w| |c]; cbn [dir_letters app dir_args dir_ok dir_out] in *;
    rewrite char_at_mid by done; rewrite outcome_bind_done; chars; cbn [va_arg]; rewrite ?outcome_bind_done.
  - destruct Hd as [Hw Hm]. 
    erewrite put_chars_buffer; [|apply itoa_spec; [unfold word_ok in Hw; words|lia]|apply show_int_nonzero].
    change (alen [ch "d"]) with 1. by rewrite H1.
  - erewrite put_chars_buffer; [|apply itoh_spec; [unfold word_ok in Hd; lia|lia]|apply show_hex_nonzero].
    change (alen [ch "x"]) with 1. by rewrite H1.
  - unfold is_llx.
    replace (pre ++ ch "l" :: ch "l" :: ch "x" :: x :: post)
      with ((pre ++ [ch "l"]) ++ ch "l" :: ch "x" :: x :: post) by (by rewrite <-app_assoc).
    rewrite (char_at_mid (pre ++ [ch "l"]) _ _ (alen pre + 1)) by (by rewrite alen_app).
    rewrite outcome_bind_done. chars.
    replace ((pre ++ [ch "l"]) ++ ch "l" :: ch "x" :: x :: post)
      with ((pre ++ [ch "l"; ch "l"]) ++ ch "x" :: x :: post) by (by rewrite <-!app_assoc).
    rewrite (char_at_mid (pre ++ [ch "l"; ch "l"]) _ _ (alen pre + 2)) by (by rewrite alen_app).
    change (alen [ch "l"; ch "l"; ch "x"]) with 3.
    replace (alen pre + 3 - 1) with (alen pre + 2) by lia.
    rewrite !outcome_bind_done. chars. cbn [va_arg64 va_arg mbind outcome_bind].
    destruct Hd as [H2 H3]. unfold word_ok in *. rewrite Z.shiftl_mul_pow2 by lia.
    change (2 ^ 32) with 0x100000000. rewrite (Z.mul_comm hi).
    erewrite put_chars_buffer; [done|apply llx_spec; lia|apply show_hex_nonzero].
  - change (alen [ch "s"]) with 1. rewrite H1. destruct (Z.eqb_spec p 0) as [->|Hp].
    + rewrite (put_chars_all (str_bytes "(null)") []); [done|repeat constructor; done].
    + by rewrite put_chars_cstr by auto.
  - change (alen [ch "c"]) with 1. rewrite H1. cbn [put_all]. by destruct (putc_func (u8 w) e).
  - change (alen [ch "%"]) with 1. rewrite H1. cbn [put_all]. by destruct (putc_func _ e).
  - change (alen [c]) with 1. rewrite H1. destruct Hd as (H0 & Hg & Hn).
    cbn [str_bytes] in Hn. rewrite !not_elem_of_cons in Hn. destruct Hn as (? & ? & ? & ? & ? & ? & _).
    repeat match goal with |- context [c =? ?b] => destruct (Z.eqb_spec c b); [done|] end.
    cbn [put_all]. destruct (putc_func (ch "%") e) as [e'| |]; [|done|done]. rewrite !outcome_bind_done.
    by destruct (putc_func c e').
Qed.

(** One turn of the main loop reads one piece. *)
Lemma loop_piece fuel p pre x post args e :
  piece_ok mem p →
  LOOP (Datatypes.S fuel) (pre ++ piece_text p ++ x :: post) (alen pre) (piece_args p ++ args) e =
    (e ← PA (piece_out mem p) e;
     LOOP fuel (pre ++ piece_text p ++ x :: post) (alen pre + alen (piece_text p)) args e).
Proof.
  intros Hp. cbn [kvprintf_loop]. destruct p as [c|w d]; cbn [piece_text piece_args piece_out piece_ok] in *.
  - destruct Hp as [H0 Hc]. cbn [app]. rewrite char_at_mid by done. rewrite outcome_bind_done.
    destruct (Z.eqb_spec c 0); [done|]. unfold directive_at. destruct (Z.eqb_spec c (ch "%")); [done|].
    rewrite outcome_bind_done. cbn [put_all]. by destruct (putc_func c e).
  - destruct Hp as [Hw Hd]. cbn [app]. rewrite <-app_assoc.
    rewrite char_at_mid by done. rewrite outcome_bind_done. unfold directive_at.
    change (ch "%" =? 0) with false. chars.
    assert (∃ l ls, dir_letters d = l :: ls ∧ l ≠ 0 ∧ is_digit l = false) as (l & ls & El & Hl & Hg).
    { destruct d; cbn [dir_letters dir_ok] in *; eexists _, _; (split; [reflexivity|]);
        try (split; [done|reflexivity]). destruct Hd as (? & ? & _). done. }
    set (full := pre ++ ch "%" :: w ++ dir_letters d ++ x :: post).
    assert (full = (pre ++ [ch "%"]) ++ w ++ l :: ls ++ x :: post) as E1.
    { unfold full. rewrite El. by rewrite <-!app_assoc. }
    assert (full = ((pre ++ [ch "%"]) ++ w) ++ dir_letters d ++ x :: post) as E2.
    { unfold full. by rewrite <-!app_assoc. }
    assert (alen (pre ++ [ch "%"]) = alen pre + 1) as Hpre by (by rewrite alen_app).
    assert (char_at full (alen pre + 1) ≫= (λ c', Done (nz c')) = Done true) as ->.
    { rewrite E1. destruct w as [|a w].
      - cbn [app]. rewrite char_at_mid by lia. rewrite outcome_bind_done. f_equal.
        unfold nz. destruct (Z.eqb_spec l 0); done.
      - cbn [app]. rewrite char_at_mid by lia. rewrite outcome_bind_done. f_equal.
        apply Forall_cons in Hw as [Ha _]. unfold nz. destruct (Z.eqb_spec a 0) as [->|]; done. }
    rewrite outcome_bind_done.
    assert (skip_width (Datatypes.S (length full)) full (alen pre + 1) = Done (alen pre + 1 + alen w)) as ->.
    { rewrite E1 at 2. apply skip_width_spec; [done|done| |lia].
      rewrite E1, !length_app. lia. }
    rewrite outcome_bind_done.
    pose proof (conversion_spec d ((pre ++ [ch "%"]) ++ w) x post args e Hd) as HC.
    rewrite <-E2, alen_app, Hpre in HC. rewrite HC.
    destruct (PA (dir_out mem d) e) as [e'| |]; [|done|done]. rewrite !outcome_bind_done.
    rewrite alen_cons, alen_app. f_equal. lia.
Qed.

Lemma loop_pieces ps pre rest args fuel e :
  Forall (piece_ok mem) ps → (length ps < fuel)%nat →
  LOOP fuel (pre ++ pieces_text ps ++ 0 :: rest) (alen pre) (pieces_args ps ++ args) e =
    PA (pieces_out mem ps) e.
Proof.
  intros Hps. revert pre fuel e. induction Hps as [|p ps Hp Hps IH]; intros pre fuel e Hf;
    (destruct fuel as [|f]; [simpl in Hf; lia|]).
  - cbn [kvprintf_loop pieces_text pieces_args concat map app]. rewrite char_at_mid by done. done.
  - unfold pieces_text, pieces_args, pieces_out. cbn [map concat]. rewrite <-!app_assoc.
    fold (pieces_text ps) (pieces_args ps) (pieces_out mem ps).
    assert (∃ x post, pieces_text ps ++ 0 :: rest = x :: post) as (x & post & Ex).
    { destruct (pieces_text ps); simpl; eauto. }
    rewrite Ex, loop_piece by done. rewrite put_all_app.
    destruct (PA (piece_out mem p) e) as [e'| |]; [|done|done]. rewrite !outcome_bind_done.
    rewrite <-Ex, app_assoc. rewrite <-alen_app. apply IH. simpl in Hf. lia.
Qed.

Lemma pieces_text_length ps : (length ps <= length (pieces_text ps))%nat.
Proof.
  induction ps as [|p ps IH]; [done|]. unfold pieces_text. cbn [map concat].
  fold (pieces_text ps). rewrite length_app. destruct p; simpl; lia.
Qed.

(** [kvprintf] hands to [putc_func], in order, exactly the characters that the pieces of
    the format denote, and consumes exactly their argument words: [%d] prints the decimal
    numeral of every [int] but the least, [%x] and [%llx] all their digits, widths are
    ignored, and an unsupported directive is printed as it stands without consuming an
    argument. *)
Theorem kvprintf_renders ps rest args e :
  Forall (piece_ok mem) ps →
  kvprintf putc_func mem buffer e (pieces_text ps ++ 0 :: rest) (pieces_args ps ++ args) =
    put_all putc_func (pieces_out mem ps) e.
Proof.
  intros Hps. unfold kvprintf. apply (loop_pieces ps []); [done|].
  pose proof (pieces_text_length ps). rewrite length_app. lia.
Qed.
End renders.

(** ** Printing to strings *)

Lemma ck_one p n : 0 <= p < n → ck_memory p 1 n = true.
Proof.
  intros Hp. unfold ck_memory. destruct (Z.leb_spec 0 p), (Z.leb_spec (p + 1) n); done || lia.
Qed.

Lemma ksprintf_put_all s str p :
  0 <= p → p + alen s <= alen str →
  put_all ksprintf_putc s (str, p) = Done (splice str p s, p + alen s).
Proof.
  revert str p. induction s as [|c s IH]; intros str p Hp Hl; cbn [put_all].
  - rewrite splice_nil. change (alen (@nil Z)) with 0. by rewrite Z.add_0_r.
  - rewrite alen_cons in Hl |- *. pose proof (alen_nonneg s).
    assert (ksprintf_putc c (str, p) = Done (str.[p <- c], p + 1)) as ->.
    { unfold ksprintf_putc. by rewrite ck_one by lia. }
    rewrite outcome_bind_done, IH by (rewrite ?alen_aset; lia).
    f_equal. f_equal; [|lia]. rewrite <-splice_1 by lia. change 1 with (alen [c]).
    rewrite splice_splice_adj; [done|lia|]. change (alen [c]) with 1. lia.
Qed.

(** [ksprintf] writes the text and its terminator when the string has room. *)
Lemma ksprintf_spec mem buffer str ps rest args :
  alen buffer = 32 → Forall (piece_ok mem) ps → alen (pieces_out mem ps) < alen str →
  ksprintf mem buffer str (pieces_text ps ++ 0 :: rest) (pieces_args ps ++ args) =
    Done (splice str 0 (pieces_out mem ps ++ [0])).
Proof.
  intros Hb Hps Hl. unfold ksprintf. rewrite kvprintf_renders by done.
  pose proof (alen_nonneg (pieces_out mem ps)).
  rewrite ksprintf_put_all by lia. rewrite outcome_bind_done, Z.add_0_l.
  assert (alen (splice str 0 (pieces_out mem ps)) = alen str) as Hs by (apply alen_splice; lia).
  rewrite ck_one by lia.
  f_equal. rewrite <-splice_1 by lia. apply splice_append; [done|]. change (alen [0]) with 1. lia.
Qed.

Lemma ksnprintf_put_all s str p r :
  0 <= p → 1 <= r → p + r <= alen str →
  put_all ksnprintf_putc s (mk_ctx str p r) =
    Done (mk_ctx (splice str p (take (Z.to_nat (r - 1)) s)) (p + alen (take (Z.to_nat (r - 1)) s))
            (r - alen (take (Z.to_nat (r - 1)) s))).
Proof.
  revert str p r. induction s as [|c s IH]; intros str p r Hp Hr Hl; cbn [put_all].
  - rewrite take_nil, splice_nil. change (alen (@nil Z)) with 0. by rewrite Z.add_0_r, Z.sub_0_r.
  - destruct (Z.ltb_spec 1 r) as [H1|H1].
    + assert (ksnprintf_putc c (mk_ctx str p r) = Done (mk_ctx (str.[p <- c]) (p + 1) (r - 1))) as ->.
      { unfold ksnprintf_putc. cbn [c_remaining c_p c_str]. rewrite ck_one by lia.
        by destruct (Z.ltb_spec 1 r); [|lia]. }
      rewrite outcome_bind_done, IH by (rewrite ?alen_aset; lia).
      replace (Z.to_nat (r - 1)) with (Datatypes.S (Z.to_nat (r - 1 - 1))) by lia. cbn [take].
      rewrite alen_cons. set (t := take (Z.to_nat (r - 1 - 1)) s).
      assert (alen t <= r - 2) as Ht by (unfold t; rewrite alen_firstn; lia).
      f_equal. f_equal; [|lia|lia]. rewrite <-splice_1 by lia. change 1 with (alen [c]).
      rewrite splice_splice_adj; [done|lia|]. change (alen [c]) with 1. lia.
    + replace r with 1 by lia. change (ksnprintf_putc c (mk_ctx str p 1)) with (Done (mk_ctx str p 1)).
      rewrite outcome_bind_done, IH by lia. change (Z.to_nat (1 - 1)) with 0%nat.
      by rewrite !take_0.
Qed.

(** [ksnprintf] with a size of [n >= 1] writes the first [n - 1] characters of the
    formatted text and a terminator, and no byte past the [n] it was given; with a null
    string or a size of 0 it writes nothing. *)
Theorem ksnprintf_truncates mem buffer str n ps rest args :
  alen buffer = 32 → Forall (piece_ok mem) ps → 0 <= n <= alen str →
  ksnprintf mem buffer (Some str) n (pieces_text ps ++ 0 :: rest) (pieces_args ps ++ args) =
    Done (Some (if n =? 0 then str
                else splice str 0 (take (Z.to_nat (n - 1)) (pieces_out mem ps) ++ [0]))) ∧
  ksnprintf mem buffer None n (pieces_text ps ++ 0 :: rest) (pieces_args ps ++ args) = Done None.
Proof.
  intros Hb Hps Hn. split; [|done]. unfold ksnprintf. destruct (Z.eqb_spec n 0) as [->|]; [done|].
  rewrite kvprintf_renders by done. rewrite ksnprintf_put_all by lia. rewrite outcome_bind_done.
  cbn [c_p c_str]. rewrite Z.add_0_l. set (t := take (Z.to_nat (n - 1)) (pieces_out mem ps)).
  assert (alen t <= n - 1) as Ht by (unfold t; rewrite alen_firstn; lia).
  pose proof (alen_nonneg t).
  assert (alen (splice str 0 t) = alen str) as Hs by (apply alen_splice; lia).
  rewrite ck_one by lia. do 2 f_equal. rewrite <-splice_1 by lia.
  apply splice_append; [done|]. change (alen [0]) with 1. lia.
Qed.

(** [ksnprintf(str, 8, "pid %d: %08x", -42, 0xBEEF)]. *)
Definition demo_pieces : list piece :=
  map Lit (str_bytes "pid ") ++ [Dir [] (Dec (u32 (-42)))] ++ map Lit (str_bytes ": ") ++
  [Dir (str_bytes "08") (Hex 0xBEEF)].

Lemma demo_pieces_text : pieces_text demo_pieces = str_bytes "pid %d: %08x".
Proof. reflexivity. Qed.

Lemma demo_pieces_out : pieces_out (λ _, []) demo_pieces = str_bytes "pid -42: 0000BEEF".
Proof. reflexivity. Qed.

Lemma demo_pieces_ok mem : Forall (piece_ok mem) demo_pieces.
Proof.
  unfold demo_pieces. repeat (apply Forall_app_2 || apply Forall_cons_2 || apply Forall_nil_2);
    cbn; unfold word_ok; try done; split_and?; try done; repeat constructor.
Qed.

Lemma ksnprintf_truncates_witness :
  ksnprintf (λ _, []) (replicate 32 0) (Some (replicate 10 1)) 8
    (pieces_text demo_pieces ++ 0 :: []) (pieces_args demo_pieces ++ []) =
  Done (Some (str_bytes "pid -42" ++ [0; 1; 1])).
Proof.
  destruct (ksnprintf_truncates (λ _, []) (replicate 32 0) (replicate 10 1) 8 demo_pieces [] []
              eq_refl (demo_pieces_ok _) ltac:(split; done)) as [E _].
  exact E.
Defined.

(** The numeral [itoa] writes reads back as the number, for every [int] but the least: there
    the negation overflows and the remainders are negative, so that the characters below
    the digit zero are written. *)
Lemma itoa_roundtrip num buffer :
  -0x80000000 < num < 0x80000000 → 12 <= alen buffer → read_int (cstr (itoa num buffer)) = num.
Proof.
  intros Hn Hb. rewrite itoa_spec by done. unfold splice. simpl. rewrite <-app_assoc. simpl.
  rewrite cstr_app_0 by apply show_int_nonzero. apply read_show_int. lia.
Qed.

Lemma itoa_least : cstr (itoa (-0x80000000) (replicate 32 0)) = str_bytes "-./,),(-*,(".
Proof. reflexivity. Qed.

(** A width at the end of the format: the terminator is taken for the directive and the
    loop goes on behind it. *)
Lemma kvprintf_width_overread :
  kvprintf ksprintf_putc (λ _, []) (replicate 32 0) (replicate 16 0, 0) (str_bytes "%5" ++ [0]) [] = Fault.
Proof. reflexivity. Qed.
