(* ===== verification/Serial.v ===== *)
(** * drivers/char/serial.c: the COM1 console

    Initialisation of the UART, the polled transmitter and the format engine of
    [serial_kprintf], over the ports of [PortIO].  [uart] is a concrete transmitter: it is
    busy for [delay] polls after each byte and loses a byte written while it is busy.  The
    theorems show that no byte is lost on any transmitter that recovers within the 65535
    polls of [serial_wait_tx], and which bytes [serial_kprintf] puts on the wire. *)

From Stdlib Require Import Ascii String.
From S2P Require Import Prelude Format.

Definition COM1_BASE : Z := 0x3F8.
Definition COM_DATA (b : Z) : Z := b.
Definition COM_INTERRUPT_ENABLE (b : Z) : Z := b + 1.
Definition COM_INTERRUPT_ID (b : Z) : Z := b + 2.
Definition COM_LINE_CONTROL (b : Z) : Z := b + 3.
Definition COM_MODEM_CONTROL (b : Z) : Z := b + 4.
Definition COM_LINE_STATUS (b : Z) : Z := b + 5.
Definition COM_DIVISOR_LOW : Z := 0x01.
Definition COM_DIVISOR_HIGH : Z := 0x00.

(** [serial_ready] and the devices behind the ports. *)
Record serial (D : Type) := mk_serial { serial_ready : bool; s_io : D }.
Arguments mk_serial {D}.
Arguments serial_ready {D}.
Arguments s_io {D}.

Section serial.
Context {D : Type} `{PortIO D}.
Implicit Types st : serial D.

Definition serial_init (st : serial D) : serial D :=
  let d := outb (s_io st) (COM_INTERRUPT_ENABLE COM1_BASE) 0x00 in
  let d := outb d (COM_LINE_CONTROL COM1_BASE) 0x80 in
  let d := outb d (COM_DATA COM1_BASE) COM_DIVISOR_LOW in
  let d := outb d (COM_INTERRUPT_ENABLE COM1_BASE) COM_DIVISOR_HIGH in
  let d := outb d (COM_LINE_CONTROL COM1_BASE) 0x03 in
  let d := outb d (COM_INTERRUPT_ID COM1_BASE) 0xC7 in
  let d := outb d (COM_MODEM_CONTROL COM1_BASE) 0x0B in
  mk_serial true d.

(** [while (!(inb(...) & 0x20) && timeout-- > 0);] *)
Fixpoint wait_tx_loop (timeout : nat) (d : D) : D :=
  let '(v, d) := inb d (COM_LINE_STATUS COM1_BASE) in
  if nz (Z.land v 0x20) then d
  else match timeout with O => d | S t => wait_tx_loop t d end.

Definition serial_wait_tx (d : D) : D := wait_tx_loop (Z.to_nat 0xFFFF) d.

Definition serial_write_char (st : serial D) (c : Z) : serial D :=
  if negb (serial_ready st) then st
  else
    let d := if c =? 10 then outb (serial_wait_tx (s_io st)) (COM_DATA COM1_BASE) 13 else s_io st in
    mk_serial true (outb (serial_wait_tx d) (COM_DATA COM1_BASE) (u8 c)).

(** The write loop over the bytes of a string; [None] is the end of the object reached
    before a terminator. *)
Fixpoint serial_write_string (st : serial D) (str : list Z) : outcome (serial D) :=
  match str with
  | [] => Fault
  | c :: str' => if c =? 0 then Done st else serial_write_string (serial_write_char st c) str'
  end.

(** [while (v > 0) { ... buf[len++] = ...; v /= base; }] *)
Fixpoint uint_digits (fuel : nat) (base v : Z) (buf : list Z) (len : Z) : list Z * Z :=
  match fuel with
  | O => (buf, len)
  | S fuel' =>
      if 0 <? v then
        let rem := v mod base in
        uint_digits fuel' base (v / base)
          (buf.[len <- if rem <? 10 then ch "0" + rem else ch "a" + rem - 10]) (len + 1)
      else (buf, len)
  end.

(** [junk] is the uninitialised [char buf[12]]; a 32-bit number has at most 10 decimal
    digits, so 12 turns are enough. *)
Definition serial_write_uint (junk : list Z) (st : serial D) (v base : Z) : serial D :=
  if v =? 0 then serial_write_char st (ch "0")
  else
    let '(buf, len) := uint_digits 12 base v junk 0 in
    for_loop (Z.to_nat len) 0 (λ k st, serial_write_char st (buf.[len - 1 - k])) st.

Definition serial_write_int (junk : list Z) (st : serial D) (v : Z) : serial D :=
  let '(st, v) := if v <? 0 then (serial_write_char st (ch "-"), s32 (- v)) else (st, v) in
  serial_write_uint junk st (u32 v) 10.

Definition serial_directive (mem : Z → list Z) (junk : list Z) (c : Z) (args : list Z)
    (st : serial D) : outcome (serial D * list Z) :=
  if c =? ch "d" then
    '(v, args) ← va_arg args; Done (serial_write_int junk st (s32 v), args)
  else if c =? ch "u" then
    '(v, args) ← va_arg args; Done (serial_write_uint junk st v 10, args)
  else if c =? ch "x" then
    st ← serial_write_string st (str_bytes "0x" ++ [0]);
    '(v, args) ← va_arg args; Done (serial_write_uint junk st v 16, args)
  else if c =? ch "s" then
    '(p, args) ← va_arg args;
    st ← serial_write_string st (if p =? 0 then str_bytes "(null)" ++ [0] else mem p);
    Done (st, args)
  else if c =? ch "c" then
    '(w, args) ← va_arg args; Done (serial_write_char st (u8 w), args)
  else if c =? ch "%" then Done (serial_write_char st (ch "%"), args)
  else Done (serial_write_char (serial_write_char st (ch "%")) c, args).

Fixpoint serial_kprintf_loop (mem : Z → list Z) (junk : list Z) (fuel : nat) (fmt : list Z)
    (i : Z) (args : list Z) (st : serial D) : outcome (serial D) :=
  match fuel with
  | O => NoFuel
  | S fuel' =>
      c ← char_at fmt i;
      if c =? 0 then Done st
      else if negb (c =? ch "%") then
        serial_kprintf_loop mem junk fuel' fmt (i + 1) args (serial_write_char st c)
      else
        c' ← char_at fmt (i + 1);
        '(st, args) ← serial_directive mem junk c' args st;
        serial_kprintf_loop mem junk fuel' fmt (i + 2) args st
  end.

Definition serial_kprintf (mem : Z → list Z) (junk : list Z) (st : serial D) (fmt args : list Z)
  : outcome (serial D) :=
  if negb (serial_ready st) then Done st
  else serial_kprintf_loop mem junk (S (length fmt)) fmt 0 args st.

(** ** The text of a format *)

Fixpoint write_all (st : serial D) (s : list Z) : serial D :=
  match s with
  | [] => st
  | c :: s' => write_all (serial_write_char st c) s'
  end.

Lemma write_all_app st s t : write_all st (s ++ t) = write_all (write_all st s) t.
Proof. revert st. induction s as [|c s IH]; intros st; [done|]. apply IH. Qed.

Lemma write_string_all st s r :
  Forall (λ c, c ≠ 0) s → serial_write_string st (s ++ 0 :: r) = Done (write_all st s).
Proof.
  intros Hs. revert st. induction Hs as [|c s Hc Hs IH]; intros st; [done|]. simpl.
  destruct (Z.eqb_spec c 0); [done|]. apply IH.
Qed.

Lemma write_string_cstr st s : terminated s → serial_write_string st s = Done (write_all st (cstr s)).
Proof.
  intros Ht. destruct (cstr_split s Ht) as [r Hr].
  rewrite Hr at 1. apply write_string_all. apply Forall_forall. apply cstr_nonzero.
Qed.

(** Lower-case digits up to base 16. *)
Definition show_low (d : Z) : Z := if d <? 10 then ch "0" + d else ch "a" + d - 10.

Lemma uint_digits_spec base fuel v buf len :
  1 < base → 0 <= v < base ^ Z.of_nat fuel → 0 <= len → len + alen (digits base fuel v) <= alen buf →
  uint_digits fuel base v buf len =
    (splice buf len (map show_low (digits base fuel v)), len + alen (digits base fuel v)).
Proof.
  intros Hb. revert v buf len.
  induction fuel as [|f IH]; intros v buf len Hn Hi Hl; cbn [digits uint_digits].
  { cbn [map]. rewrite splice_nil. f_equal. change (alen (@nil Z)) with 0. lia. }
  cbn [digits] in Hl. destruct (Z.eqb_spec v 0) as [->|Hz].
  { cbn [map]. rewrite splice_nil. f_equal. change (alen (@nil Z)) with 0. lia. }
  destruct (Z.ltb_spec 0 v); [|lia].
  rewrite alen_cons in Hl |- *. pose proof (alen_nonneg (digits base f (v / base))).
  rewrite IH; [|rewrite Nat2Z.inj_succ, Z.pow_succ_r in Hn by lia;
    split; [apply Z.div_pos; lia|apply Z.div_lt_upper_bound; lia]|lia|rewrite alen_aset; lia].
  f_equal; [|lia].
  rewrite <-splice_1 by lia. cbn [map].
  change (show_low (v mod base) :: map show_low (digits base f (v / base)))
    with ([show_low (v mod base)] ++ map show_low (digits base f (v / base))).
  rewrite <-splice_splice_adj; [done|lia|].
  change (alen [show_low (v mod base)]) with 1. rewrite alen_map. lia.
Qed.

Lemma for_write f n i st :
  for_loop n i (λ k st, serial_write_char st (f k)) st = write_all st (map f (seqZ i (Z.of_nat n))).
Proof.
  revert i st. induction n as [|n IH]; intros i st; [done|].
  rewrite seqZ_cons by lia. cbn [for_loop map write_all]. rewrite IH.
  do 3 f_equal; lia.
Qed.

Lemma write_down st buf d :
  alen d <= alen buf →
  for_loop (Z.to_nat (alen d)) 0 (λ k st, serial_write_char st ((splice buf 0 d).[alen d - 1 - k])) st =
    write_all st (rev d).
Proof.
  intros Hl. rewrite (for_write (λ k, (splice buf 0 d).[alen d - 1 - k])). f_equal.
  pose proof (alen_nonneg d). rewrite Z2Nat.id by lia.
  apply alist_eq; [by rewrite alen_map, alen_seqZ, alen_rev by lia|].
  rewrite alen_map, alen_seqZ by lia. intros i Hi.
  rewrite aget_map_seqZ, aget_rev, aget_splice by lia.
  destruct (Z.leb_spec 0 (alen d - 1 - (0 + i))), (Z.ltb_spec (alen d - 1 - (0 + i)) (0 + alen d)); try lia.
  cbn [andb]. f_equal. lia.
Qed.

Lemma digits_len base n w : 1 < base → 0 <= n < base ^ Z.of_nat w → alen (digits base w n) <= Z.of_nat w.
Proof. intros. pose proof (digits_length base w n). unfold alen. lia. Qed.

Lemma write_uint_spec junk st v base :
  alen junk = 12 → 10 <= base → 0 <= v < 0x100000000 →
  serial_write_uint junk st v base = write_all st (numeral base show_low v).
Proof.
  intros Hj Hb Hv. unfold serial_write_uint, numeral. destruct (Z.eqb_spec v 0) as [->|Hz]; [done|].
  assert (0 <= v < base ^ Z.of_nat 12) as Hr.
  { split; [lia|]. apply Z.lt_le_trans with (10 ^ Z.of_nat 12); [change (10 ^ Z.of_nat 12) with 1000000000000; lia|].
    apply Z.pow_le_mono_l. lia. }
  pose proof (digits_len base v 12 ltac:(lia) Hr) as Hd.
  rewrite uint_digits_spec by lia. rewrite (digits_fuel base 12 32) by lia.
  rewrite Z.add_0_l, <-(alen_map show_low). apply write_down. rewrite alen_map. lia.
Qed.

(** Every [int], the least one included: the negated value is read as unsigned. *)
Lemma write_int_spec junk st v :
  alen junk = 12 → -0x80000000 <= v < 0x80000000 →
  serial_write_int junk st v = write_all st (if v <? 0 then ch "-" :: numeral 10 show_low (- v)
                                             else numeral 10 show_low v).
Proof.
  intros Hj Hv. unfold serial_write_int. destruct (Z.ltb_spec v 0).
  - rewrite write_uint_spec by (done || lia || apply u32_range).
    replace (u32 (s32 (- v))) with (- v) by words. done.
  - rewrite write_uint_spec by (done || lia || apply u32_range). by rewrite u32_small by lia.
Qed.

Lemma numeral_low n : numeral 10 show_low n = numeral 10 show_digit n.
Proof.
  unfold numeral. destruct (n =? 0); [done|]. f_equal. apply map_ext_in.
  intros d Hd%list_elem_of_In. pose proof (digits_range 10 32 n ltac:(lia)) as Hr.
  rewrite Forall_forall in Hr. specialize (Hr d Hd). unfold show_low.
  destruct (Z.ltb_spec d 10); [done|lia].
Qed.

(** ** Formats as lists of pieces *)

Inductive sdirective :=
| SDec (w : Z)
| SUns (w : Z)
| SHex (w : Z)
| SStr (p : Z)
| SChr (w : Z)
| SPercent
| SUnknown (c : Z).

Inductive spiece :=
| SLit (c : Z)
| SDir (d : sdirective).

Definition sdir_letter (d : sdirective) : Z :=
  match d with
  | SDec _ => ch "d"
  | SUns _ => ch "u"
  | SHex _ => ch "x"
  | SStr _ => ch "s"
  | SChr _ => ch "c"
  | SPercent => ch "%"
  | SUnknown c => c
  end.

Definition sdir_args (d : sdirective) : list Z :=
  match d with
  | SDec w | SUns w | SHex w | SStr w | SChr w => [w]
  | SPercent | SUnknown _ => []
  end.

Definition sdir_out (mem : Z → list Z) (d : sdirective) : list Z :=
  match d with
  | SDec w => show_int (s32 w)
  | SUns w => numeral 10 show_digit w
  | SHex w => str_bytes "0x" ++ numeral 16 show_low w
  | SStr p => if p =? 0 then str_bytes "(null)" else cstr (mem p)
  | SChr w => [u8 w]
  | SPercent => [ch "%"]
  | SUnknown c => [ch "%"; c]
  end.

Definition sdir_ok (mem : Z → list Z) (d : sdirective) : Prop :=
  match d with
  | SDec w | SUns w | SHex w => word_ok w
  | SStr p => p ≠ 0 → terminated (mem p)
  | SChr _ | SPercent => True
  | SUnknown c => c ≠ 0 ∧ c ∉ str_bytes "duxsc%"
  end.

Definition spiece_text (p : spiece) : list Z :=
  match p with SLit c => [c] | SDir d => [ch "%"; sdir_letter d] end.
Definition spiece_args (p : spiece) : list Z :=
  match p with SLit _ => [] | SDir d => sdir_args d end.
Definition spiece_out (mem : Z → list Z) (p : spiece) : list Z :=
  match p with SLit c => [c] | SDir d => sdir_out mem d end.
Definition spiece_ok (mem : Z → list Z) (p : spiece) : Prop :=
  match p with SLit c => c ≠ 0 ∧ c ≠ ch "%" | SDir d => sdir_ok mem d end.

Definition spieces_text (ps : list spiece) : list Z := concat (map spiece_text ps).
Definition spieces_args (ps : list spiece) : list Z := concat (map spiece_args ps).
Definition spieces_out (mem : Z → list Z) (ps : list spiece) : list Z := concat (map (spiece_out mem) ps).

Lemma directive_spec mem junk d args st :
  alen junk = 12 → sdir_ok mem d →
  serial_directive mem junk (sdir_letter d) (sdir_args d ++ args) st =
    Done (write_all st (sdir_out mem d), args).
Proof.
  intros Hj Hd. unfold serial_directive.
  destruct d as [w|w|w|p|w| |c]; cbn [sdir_letter sdir_args sdir_out sdir_ok app] in *; chars; cbn [va_arg];
    rewrite ?outcome_bind_done.
  - rewrite write_int_spec by (try done; apply s32_range). unfold show_int. by rewrite !numeral_low.
  - rewrite write_uint_spec by (done || lia). by rewrite numeral_low.
  - rewrite (write_string_all st (str_bytes "0x") []) by (repeat constructor; done).
    rewrite !outcome_bind_done, write_uint_spec by (done || lia). by rewrite write_all_app.
  - destruct (Z.eqb_spec p 0).
    + rewrite (write_string_all st (str_bytes "(null)") []) by (repeat constructor; done). done.
    + by rewrite write_string_cstr by auto.
  - done.
  - done.
  - destruct Hd as (H0 & Hn). cbn [str_bytes] in Hn. rewrite !not_elem_of_cons in Hn.
    destruct Hn as (? & ? & ? & ? & ? & ? & _).
    by repeat match goal with |- context [c =? ?b] => destruct (Z.eqb_spec c b); [done|] end.
Qed.

Lemma serial_loop_pieces mem junk ps pre rest args fuel st :
  alen junk = 12 → Forall (spiece_ok mem) ps → (length ps < fuel)%nat →
  serial_kprintf_loop mem junk fuel (pre ++ spieces_text ps ++ 0 :: rest) (alen pre)
      (spieces_args ps ++ args) st = Done (write_all st (spieces_out mem ps)).
Proof.
  intros Hj Hps. revert pre fuel st. induction Hps as [|p ps Hp Hps IH]; intros pre fuel st Hf;
    (destruct fuel as [|f]; [simpl in Hf; lia|]); cbn [serial_kprintf_loop].
  - unfold spieces_text, spieces_args, spieces_out. cbn [concat map app]. by rewrite (char_at_mid pre _ _ (alen pre)) by done.
  - unfold spieces_text, spieces_args, spieces_out. cbn [map concat]. rewrite <-!app_assoc.
    fold (spieces_text ps) (spieces_args ps) (spieces_out mem ps). rewrite write_all_app.
    simpl in Hf. destruct p as [c|d]; cbn [spiece_text spiece_args spiece_out spiece_ok app] in *;
      rewrite (char_at_mid pre _ _ (alen pre)) by done; rewrite outcome_bind_done.
    + destruct Hp as [H0 Hc]. destruct (Z.eqb_spec c 0); [done|]. destruct (Z.eqb_spec c (ch "%")); [done|].
      cbn [negb write_all].
      replace (pre ++ c :: spieces_text ps ++ 0 :: rest)
        with ((pre ++ [c]) ++ spieces_text ps ++ 0 :: rest) by (by rewrite <-app_assoc).
      replace (alen pre + 1) with (alen (pre ++ [c])) by (by rewrite alen_app). apply IH. lia.
    + change (ch "%" =? 0) with false. chars. cbn [negb].
      replace (pre ++ ch "%" :: sdir_letter d :: spieces_text ps ++ 0 :: rest)
        with ((pre ++ [ch "%"]) ++ sdir_letter d :: spieces_text ps ++ 0 :: rest) by (by rewrite <-app_assoc).
      rewrite char_at_mid by (by rewrite alen_app). rewrite outcome_bind_done, directive_spec by done.
      rewrite outcome_bind_done. cbv beta iota.
      replace ((pre ++ [ch "%"]) ++ sdir_letter d :: spieces_text ps ++ 0 :: rest)
        with ((pre ++ [ch "%"; sdir_letter d]) ++ spieces_text ps ++ 0 :: rest) by (by rewrite <-!app_assoc).
      replace (alen pre + 2) with (alen (pre ++ [ch "%"; sdir_letter d])) by (by rewrite alen_app).
      apply IH. lia.
Qed.

Lemma spieces_text_length ps : (length ps <= length (spieces_text ps))%nat.
Proof.
  induction ps as [|p ps IH]; [done|]. unfold spieces_text. cbn [map concat].
  fold (spieces_text ps). rewrite length_app. destruct p; simpl; lia.
Qed.

(** [serial_kprintf] writes the text of the format, piece by piece; nothing before the
    port was initialised. *)
Lemma serial_kprintf_writes mem junk ps rest args st :
  alen junk = 12 → Forall (spiece_ok mem) ps →
  serial_kprintf mem junk st (spieces_text ps ++ 0 :: rest) (spieces_args ps ++ args) =
    Done (if serial_ready st then write_all st (spieces_out mem ps) else st).
Proof.
  intros Hj Hps. unfold serial_kprintf. destruct (serial_ready st); [|done]. cbn [negb].
  apply (serial_loop_pieces mem junk ps []); [done|done|].
  pose proof (spieces_text_length ps). rewrite length_app. lia.
Qed.
End serial.

(** ** A transmitter *)

Record uart := mk_uart {
  u_dlab : bool; u_divisor : Z; u_lcr : Z; u_delay : nat; u_busy : nat; u_sent : list Z }.

(** Bit 5 of the line status register: the holding register is empty. *)
Definition uart_inb (u : uart) (port : Z) : Z * uart :=
  if port =? 0x3FD then
    match u_busy u with
    | O => (0x60, u)
    | S b => (0, mk_uart (u_dlab u) (u_divisor u) (u_lcr u) (u_delay u) b (u_sent u))
    end
  else (0, u).

Definition uart_outb (u : uart) (port v : Z) : uart :=
  if port =? 0x3FB then mk_uart (Z.testbit v 7) (u_divisor u) v (u_delay u) (u_busy u) (u_sent u)
  else if port =? 0x3F8 then
    if u_dlab u then mk_uart true v (u_lcr u) (u_delay u) (u_busy u) (u_sent u)
    else match u_busy u with
         | O => mk_uart false (u_divisor u) (u_lcr u) (u_delay u) (u_delay u) (u_sent u ++ [v])
         | S _ => u
         end
  else u.

#[export] Instance uart_ports : PortIO uart := {
  inb := uart_inb;
  inw := λ u _, (0, u);
  inl := λ u _, (0, u);
  outb := uart_outb;
  outw := λ u _ _, u;
  outl := λ u _ _, u }.

(** What goes over the wire: a carriage return before every line feed. *)
Definition crlf (s : list Z) : list Z := concat (map (λ c, if c =? 10 then [13; c] else [c]) s).

(** Ready, set to 8 data bits, and never busy for more polls than the driver waits. *)
Definition uart_up (st : serial uart) : Prop :=
  serial_ready st = true ∧ u_dlab (s_io st) = false ∧
  (u_busy (s_io st) <= Z.to_nat 0xFFFF)%nat ∧ (u_delay (s_io st) <= Z.to_nat 0xFFFF)%nat.

Lemma wait_tx_idle n u :
  (u_busy u <= n)%nat →
  wait_tx_loop n u = mk_uart (u_dlab u) (u_divisor u) (u_lcr u) (u_delay u) 0 (u_sent u).
Proof.
  revert u. induction n as [|n IH]; intros [a b c d e f] Hb; cbn [u_busy] in *.
  - replace e with 0%nat by lia. reflexivity.
  - destruct e as [|e]; [reflexivity|].
    change (wait_tx_loop (S n) (mk_uart a b c d (S e) f)) with (wait_tx_loop n (mk_uart a b c d e f)).
    rewrite IH by (cbn; lia). done.
Qed.

(** A byte offered after the wait is sent. *)
Lemma send_byte u v :
  u_dlab u = false → (u_busy u <= Z.to_nat 0xFFFF)%nat →
  outb (serial_wait_tx u) (COM_DATA COM1_BASE) v =
    mk_uart false (u_divisor u) (u_lcr u) (u_delay u) (u_delay u) (u_sent u ++ [v]).
Proof. intros Hd Hb. unfold serial_wait_tx. rewrite wait_tx_idle by done. rewrite Hd. done. Qed.

Lemma write_char_sends st c :
  uart_up st → 0 <= c < 256 →
  uart_up (serial_write_char st c) ∧
  u_sent (s_io (serial_write_char st c)) = u_sent (s_io st) ++ crlf [c].
Proof.
  intros (Hr & Hd & Hb & Hm) Hc. unfold serial_write_char. rewrite Hr, u8_small by lia. cbn [negb].
  unfold crlf. cbn [map concat]. rewrite app_nil_r. destruct (c =? 10).
  - rewrite (send_byte (s_io st)), send_byte by done. split; [done|]. cbn [s_io u_sent].
    by rewrite <-app_assoc.
  - rewrite send_byte by done. done.
Qed.

Lemma write_all_sends s st :
  uart_up st → bytes_ok s →
  uart_up (write_all st s) ∧ u_sent (s_io (write_all st s)) = u_sent (s_io st) ++ crlf s.
Proof.
  intros Hu Hs. revert st Hu. induction Hs as [|c s Hc Hs IH]; intros st Hu.
  - split; [done|]. by rewrite app_nil_r.
  - destruct (write_char_sends st c Hu Hc) as [H1 H2]. destruct (IH _ H1) as [H3 H4].
    split; [exact H3|]. cbn [write_all]. rewrite H4, H2, <-app_assoc. f_equal.
    unfold crlf. cbn [map concat]. by rewrite app_nil_r.
Qed.

(** On a transmitter that recovers from each byte within 65535 polls, [serial_kprintf]
    loses no byte: the wire carries exactly the text of the format with a carriage return
    before each line feed, for all numbers of 32 bits, the least [int] included. *)
Theorem serial_kprintf_on_wire mem junk ps rest args st :
  uart_up st → alen junk = 12 → Forall (spiece_ok mem) ps → bytes_ok (spieces_out mem ps) →
  ∃ st', serial_kprintf mem junk st (spieces_text ps ++ 0 :: rest) (spieces_args ps ++ args) = Done st' ∧
    uart_up st' ∧ u_sent (s_io st') = u_sent (s_io st) ++ crlf (spieces_out mem ps).
Proof.
  intros Hu Hj Hps Hb. rewrite serial_kprintf_writes by done. destruct Hu as [Hr Hu]. rewrite Hr.
  eexists. split; [done|]. by apply write_all_sends.
Qed.

(** [serial_init] brings an idle transmitter up: divisor 1, 8 data bits, nothing sent. *)
Lemma serial_init_up u :
  (u_busy u <= Z.to_nat 0xFFFF)%nat → (u_delay u <= Z.to_nat 0xFFFF)%nat →
  uart_up (serial_init (mk_serial false u)) ∧
  u_divisor (s_io (serial_init (mk_serial false u))) = 1 ∧
  u_lcr (s_io (serial_init (mk_serial false u))) = 3 ∧
  u_sent (s_io (serial_init (mk_serial false u))) = u_sent u.
Proof. intros Hb Hd. destruct u. done. Qed.

Definition demo_uart : serial uart := serial_init (mk_serial false (mk_uart true 0 0 3 2 [])).

Definition demo_spieces : list spiece :=
  map SLit (str_bytes "v=") ++ [SDir (SDec 0x80000000); SLit 10; SDir (SHex 0xBEEF)].

Lemma serial_kprintf_on_wire_witness :
  ∃ st', serial_kprintf (λ _, []) (replicate 12 0) demo_uart
           (spieces_text demo_spieces ++ [0]) (spieces_args demo_spieces ++ []) = Done st' ∧
    u_sent (s_io st') = str_bytes "v=-2147483648" ++ [13; 10] ++ str_bytes "0xbeef".
Proof.
  destruct (serial_kprintf_on_wire (λ _, []) (replicate 12 0) demo_spieces [] [] demo_uart)
    as (st' & E & _ & Hs).
  - split; [done|]. split; [done|]. split.
    + change (2 <= Z.to_nat 0xFFFF)%nat. lia.
    + change (3 <= Z.to_nat 0xFFFF)%nat. lia.
  - done.
  - unfold demo_spieces. repeat (apply Forall_app_2 || apply Forall_cons_2 || apply Forall_nil_2);
      cbn; unfold word_ok; try done.
  - apply bytes_ok_b. reflexivity.
  - exists st'. split; [exact E|]. rewrite Hs. reflexivity.
Defined.

(** A format that ends in a percent sign: the terminator is taken for the directive and the
    loop goes on behind it. *)
Lemma serial_percent_overread :
  serial_kprintf (λ _, []) (replicate 12 0) demo_uart (str_bytes "50%" ++ [0]) [] = Fault.
Proof. reflexivity. Qed.
