(* ===== verification/Vga.v ===== *)
(** * drivers/gpu/vga.c: virtual terminals and kprintf

    The terminals are objects in a store, named by their addresses; [active_terminal] is the
    address of the selected one, [terminal_buffer] that of the terminal whose cells are being
    written, and [hw] the text memory at 0xC00B8000 that mirrors the active terminal.  The
    cursor goes out through the CRT controller's ports and every plain character also to the
    serial console.

    The specification is a typewriter: an unbounded sheet of cells on which a head moves;
    the screen shows its last 25 lines. *)

From Stdlib Require Import Ascii String.
From S2P Require Import Prelude KString Format Serial.

Definition VGA_WIDTH : Z := 80.
Definition VGA_HEIGHT : Z := 25.
Definition VGA_COLOR_BLACK : Z := 0.
Definition VGA_COLOR_LIGHT_GREY : Z := 7.

Definition vga_entry_color (fg bg : Z) : Z := u8 (Z.lor fg (Z.shiftl bg 4)).
Definition vga_entry (c color : Z) : Z := u16 (Z.lor (u8 c) (Z.shiftl (u8 color) 8)).

Record virtual_terminal_t := mk_vt { row : Z; column : Z; color : Z; buffer : list Z }.

#[global] Instance virtual_terminal_inhabited : Inhabited virtual_terminal_t :=
  populate (mk_vt 0 0 0 []).

Record vga (D : Type) := mk_vga {
  terms : gmap Z virtual_terminal_t;
  active_terminal : Z;
  terminal_buffer : Z;
  hw : list Z;
  ser : serial D }.
Arguments mk_vga {D}.
Arguments terms {D}.
Arguments active_terminal {D}.
Arguments terminal_buffer {D}.
Arguments hw {D}.
Arguments ser {D}.

Section vga.
Context {D : Type} `{PortIO D}.
(** The address of the static [default_terminal]. *)
Variable default_terminal : Z.
Implicit Types st : vga D.

(** ** Accesses *)

Definition term_at st (p : Z) : virtual_terminal_t := terms st !!! p.
Definition active st : virtual_terminal_t := term_at st (active_terminal st).

Definition set_term st (p : Z) (t : virtual_terminal_t) : vga D :=
  mk_vga (<[p := t]> (terms st)) (active_terminal st) (terminal_buffer st) (hw st) (ser st).
Definition set_hw st (h : list Z) : vga D :=
  mk_vga (terms st) (active_terminal st) (terminal_buffer st) h (ser st).
Definition set_ser st (s : serial D) : vga D :=
  mk_vga (terms st) (active_terminal st) (terminal_buffer st) (hw st) s.

Definition w_row (v : Z) (t : virtual_terminal_t) := mk_vt v (column t) (color t) (buffer t).
Definition w_column (v : Z) (t : virtual_terminal_t) := mk_vt (row t) v (color t) (buffer t).
Definition w_color (v : Z) (t : virtual_terminal_t) := mk_vt (row t) (column t) v (buffer t).
Definition w_buffer (v : list Z) (t : virtual_terminal_t) := mk_vt (row t) (column t) (color t) v.

Definition upd_active st (f : virtual_terminal_t → virtual_terminal_t) : vga D :=
  set_term st (active_terminal st) (f (active st)).

(** [term->buffer[i] = v] and [terminal_buffer[i] = v]. *)
Definition put_buffer st (p i v : Z) : vga D :=
  set_term st p (w_buffer ((buffer (term_at st p)).[i <- v]) (term_at st p)).
Definition get_buffer st (p i : Z) : Z := (buffer (term_at st p)).[i].

(** [((uint16_t * )0xC00B8000)[i] = terminal_buffer[i]] *)
Definition mirror st (i : Z) : vga D :=
  set_hw st ((hw st).[i <- get_buffer st (terminal_buffer st) i]).

(** ** Operations *)

Definition terminal_get_buffer st : Z := active_terminal st.
Definition terminal_get_active st : Z := active_terminal st.
Definition terminal_get_default : Z := default_terminal.
Definition terminal_get_row st : Z := row (active st).
Definition terminal_get_column st : Z := column (active st).

Definition update_cursor st (x y : Z) : vga D :=
  let pos := u16 (u8 y * VGA_WIDTH + u8 x) in
  let d := s_io (ser st) in
  let d := outb d 0x3D4 0x0F in
  let d := outb d 0x3D5 (u8 (Z.land pos 0xFF)) in
  let d := outb d 0x3D4 0x0E in
  let d := outb d 0x3D5 (u8 (Z.land (Z.shiftr pos 8) 0xFF)) in
  set_ser st (mk_serial (serial_ready (ser st)) d).

Definition terminal_init_virtual st (term : Z) : vga D :=
  if term =? 0 then st
  else
    let t := term_at st term in
    let c := vga_entry_color VGA_COLOR_LIGHT_GREY VGA_COLOR_BLACK in
    let st := set_term st term (mk_vt 0 0 c (buffer t)) in
    for_loop (Z.to_nat VGA_HEIGHT) 0 (λ y, for_loop (Z.to_nat VGA_WIDTH) 0 (λ x st,
      let index := y * VGA_WIDTH + x in
      put_buffer st term index (vga_entry (ch " ") (color (term_at st term))))) st.

Definition terminal_flush_to_hardware st : vga D :=
  let st := for_loop (Z.to_nat (VGA_WIDTH * VGA_HEIGHT)) 0 (λ i st,
              set_hw st ((hw st).[i <- get_buffer st (active_terminal st) i])) st in
  update_cursor st (u8 (column (active st))) (u8 (row (active st))).

Definition terminal_set_active st (term : Z) : vga D :=
  let a := if nz term then term else default_terminal in
  terminal_flush_to_hardware (mk_vga (terms st) a a (hw st) (ser st)).

Definition terminal_initialize st : vga D :=
  let st := terminal_init_virtual st default_terminal in
  let st := terminal_set_active st default_terminal in
  let st := for_loop (Z.to_nat VGA_HEIGHT) 0 (λ y, for_loop (Z.to_nat VGA_WIDTH) 0 (λ x st,
              let index := y * VGA_WIDTH + x in
              mirror (put_buffer st (terminal_buffer st) index (get_buffer st default_terminal index)) index)) st in
  update_cursor st 0 0.

Definition terminal_setcolor st (c : Z) : vga D := upd_active st (w_color c).

Definition terminal_clear st : vga D :=
  let st := for_loop (Z.to_nat VGA_HEIGHT) 0 (λ y, for_loop (Z.to_nat VGA_WIDTH) 0 (λ x st,
              let index := y * VGA_WIDTH + x in
              mirror (put_buffer st (terminal_buffer st) index (vga_entry (ch " ") (color (active st)))) index)) st in
  let st := upd_active st (w_row 0) in
  let st := upd_active st (w_column 0) in
  update_cursor st 0 0.

Definition terminal_scroll st : vga D :=
  let is_active := terminal_buffer st =? active_terminal st in
  let st := for_loop (Z.to_nat (VGA_HEIGHT - 1)) 0 (λ y, for_loop (Z.to_nat VGA_WIDTH) 0 (λ x st,
              let src_index := (y + 1) * VGA_WIDTH + x in
              let dst_index := y * VGA_WIDTH + x in
              let st := put_buffer st (terminal_buffer st) dst_index
                          (get_buffer st (terminal_buffer st) src_index) in
              if is_active then mirror st dst_index else st)) st in
  for_loop (Z.to_nat VGA_WIDTH) 0 (λ x st,
    let index := (VGA_HEIGHT - 1) * VGA_WIDTH + x in
    let st := put_buffer st (terminal_buffer st) index (vga_entry (ch " ") (color (active st))) in
    if is_active then mirror st index else st) st.

Definition terminal_putentryat st (c color x y : Z) : vga D :=
  let index := y * VGA_WIDTH + x in
  let st := put_buffer st (terminal_buffer st) index (vga_entry c color) in
  if terminal_buffer st =? active_terminal st then mirror st index else st.

(** [if (++active_terminal->row == VGA_HEIGHT) { terminal_scroll(); ... }] *)
Definition next_row st : vga D :=
  let st := upd_active st (w_row (u32 (row (active st) + 1))) in
  if row (active st) =? VGA_HEIGHT then
    upd_active (terminal_scroll st) (w_row (VGA_HEIGHT - 1))
  else st.

Definition cursor_here st : vga D :=
  update_cursor st (u8 (column (active st))) (u8 (row (active st))).

Definition terminal_putchar st (c : Z) : vga D :=
  if c =? 8 then
    let st := if 0 <? column (active st) then upd_active st (w_column (column (active st) - 1))
              else if 0 <? row (active st) then
                upd_active (upd_active st (w_row (row (active st) - 1))) (w_column (VGA_WIDTH - 1))
              else st in
    cursor_here (terminal_putentryat st (ch " ") (color (active st)) (column (active st)) (row (active st)))
  else if c =? 10 then
    cursor_here (next_row (upd_active st (w_column 0)))
  else if c =? 9 then
    let st := upd_active st (w_column (Z.land (u32 (column (active st) + 4)) 0xFFFFFFFC)) in
    cursor_here (if VGA_WIDTH <=? column (active st) then next_row (upd_active st (w_column 0)) else st)
  else
    let st := terminal_putentryat st c (color (active st)) (column (active st)) (row (active st)) in
    let st := upd_active st (w_column (u32 (column (active st) + 1))) in
    let st := if column (active st) =? VGA_WIDTH then next_row (upd_active st (w_column 0)) else st in
    let st := cursor_here st in
    set_ser st (serial_write_char (ser st) c).

Definition terminal_write st (data : list Z) (size : Z) : vga D :=
  for_loop (Z.to_nat size) 0 (λ i st, terminal_putchar st (data.[i])) st.

Definition terminal_writestring st (data : list Z) : vga D :=
  terminal_write st data (strlen data).

Definition kprintf_putc (c : Z) st : outcome (vga D) := Done (terminal_putchar st c).

(** [junk] is the uninitialised buffer of the number printers. *)
Definition kprintf (mem : Z → list Z) (junk : list Z) st (format args : list Z) : outcome (vga D) :=
  kvprintf kprintf_putc mem junk st format args.

(** ** The screen in one piece

    When the writes go to the active terminal and the text memory mirrors it, the state is
    determined by the other terminals [m], the active one and the ports. *)

Definition screen (m : gmap Z virtual_terminal_t) (a : Z) (t : virtual_terminal_t) (s : serial D) : vga D :=
  mk_vga (<[a := t]> m) a a (buffer t) s.

Section screen.
Variables (m : gmap Z virtual_terminal_t) (a : Z).
Implicit Types (t : virtual_terminal_t) (s : serial D).

Lemma term_screen t s : term_at (screen m a t s) a = t.
Proof. unfold term_at, screen. cbn. by rewrite lookup_total_insert_eq. Qed.

Lemma active_screen t s : active (screen m a t s) = t.
Proof. apply term_screen. Qed.

Lemma upd_screen t s f : buffer (f t) = buffer t → upd_active (screen m a t s) f = screen m a (f t) s.
Proof.
  intros Hb. unfold upd_active. rewrite active_screen. unfold set_term, screen. cbn.
  by rewrite insert_insert_eq, Hb.
Qed.

Lemma cell_screen t s i v :
  0 <= i < alen (buffer t) →
  mirror (put_buffer (screen m a t s) a i v) i = screen m a (w_buffer ((buffer t).[i <- v]) t) s.
Proof.
  intros Hi. unfold mirror, put_buffer, get_buffer. rewrite term_screen.
  unfold set_hw, set_term, screen, term_at. cbn. rewrite lookup_total_insert_eq, insert_insert_eq. cbn.
  by rewrite aget_aset_eq.
Qed.

Lemma cursor_screen t s : ∃ s', cursor_here (screen m a t s) = screen m a t s'.
Proof. eexists. reflexivity. Qed.

Lemma putentry_screen t s c col x y :
  0 <= y * 80 + x < alen (buffer t) →
  terminal_putentryat (screen m a t s) c col x y =
    screen m a (w_buffer ((buffer t).[y * 80 + x <- vga_entry c col]) t) s.
Proof.
  intros Hi. unfold terminal_putentryat. cbn [terminal_buffer screen active_terminal put_buffer set_term].
  rewrite Z.eqb_refl. by apply cell_screen.
Qed.
End screen.

Section cells.
Variables (m : gmap Z virtual_terminal_t) (a : Z) (t : virtual_terminal_t) (s : serial D).
Hypothesis Hlen : alen (buffer t) = 2000.

(** A loop that gives cell after cell a new value, computed from the cells it has not
    reached. *)
Lemma cells_loop n i (f : list Z → Z → Z) body :
  0 <= i → i + Z.of_nat n <= 2000 →
  (∀ b j, alen b = 2000 → 0 <= j < 2000 →
     body j (screen m a (w_buffer b t) s) = screen m a (w_buffer (b.[j <- f b j]) t) s) →
  (∀ b b' j, i <= j → alen b = 2000 → alen b' = 2000 → (∀ k, j <= k → b.[k] = b'.[k]) → f b j = f b' j) →
  ∃ b, for_loop n i body (screen m a t s) = screen m a (w_buffer b t) s ∧ alen b = 2000 ∧
    ∀ j, 0 <= j → b.[j] = if (i <=? j) && (j <? i + Z.of_nat n) then f (buffer t) j else (buffer t).[j].
Proof.
  intros Hi Hn Hbody Hf.
  assert (∃ b, for_loop n i body (screen m a t s) = screen m a (w_buffer b t) s ∧ alen b = 2000 ∧
    (∀ j, 0 <= j → b.[j] = if (i <=? j) && (j <? i + Z.of_nat n) then f (buffer t) j else (buffer t).[j]) ∧
    i + Z.of_nat n <= 2000) as (b & ? & ? & ? & _); [|by exists b].
  apply (for_loop_inv (λ k s0, ∃ b, s0 = screen m a (w_buffer b t) s ∧ alen b = 2000 ∧
    (∀ j, 0 <= j → b.[j] = if (i <=? j) && (j <? k) then f (buffer t) j else (buffer t).[j]) ∧ k <= 2000)).
  - exists (buffer t). split; [by destruct t|]. split; [done|]. split; [|lia]. intros j Hj.
    destruct (Z.leb_spec i j), (Z.ltb_spec j i); try done. lia.
  - intros k s0 Hk (b & -> & Hb & Hp & _). rewrite Hbody by lia. eexists. split; [done|].
    split; [by rewrite alen_aset|]. split; [|lia]. intros j Hj. rewrite aget_aset by lia.
    rewrite Hp by done. rewrite (Hf b (buffer t) k).
    + destruct (Z.eqb_spec j k) as [->|].
      * destruct (Z.leb_spec i k), (Z.ltb_spec k (k + 1)); try lia. done.
      * destruct (Z.leb_spec i j), (Z.ltb_spec j k), (Z.ltb_spec j (k + 1)); try done; lia.
    + lia.
    + done.
    + done.
    + intros j' Hj'. rewrite Hp by lia.
      destruct (Z.leb_spec i j'), (Z.ltb_spec j' k); try done. lia.
Qed.
End cells.

Lemma w_buffer_twice b b' t : w_buffer b (w_buffer b' t) = w_buffer b t.
Proof. done. Qed.

Definition blank (c : Z) : Z := vga_entry (ch " ") c.

(** [terminal_scroll] moves every line up by one and clears the last. *)
Lemma scroll_screen m a t s :
  alen (buffer t) = 2000 →
  terminal_scroll (screen m a t s) =
    screen m a (w_buffer (drop 80 (buffer t) ++ replicate 80 (blank (color t))) t) s.
Proof.
  intros Hl. unfold terminal_scroll. cbn [terminal_buffer active_terminal screen]. rewrite Z.eqb_refl.
  rewrite (for_loop_nested _ _ 0 _ (λ i (st : vga D),
    mirror (put_buffer st (terminal_buffer st) i (get_buffer st (terminal_buffer st) (i + 80))) i)).
  2: { intros y x st _ _. change (Z.of_nat (Z.to_nat VGA_WIDTH)) with VGA_WIDTH.
       do 3 f_equal. unfold VGA_WIDTH. lia. }
  change (Z.to_nat (VGA_HEIGHT - 1) * Z.to_nat VGA_WIDTH)%nat with (Z.to_nat 1920).
  destruct (cells_loop m a t s Hl (Z.to_nat 1920) (0 * Z.of_nat (Z.to_nat VGA_WIDTH))
    (λ b j, b.[j + 80]) (λ i (st : vga D),
    mirror (put_buffer st (terminal_buffer st) i (get_buffer st (terminal_buffer st) (i + 80))) i))
    as (b & -> & Hb & Hg).
  - lia.
  - lia.
  - intros b j Hb Hj. unfold get_buffer. cbn [terminal_buffer screen]. rewrite term_screen, cell_screen; [done|cbn; lia].
  - intros b b' j Hj Hb Hb' Hk. apply Hk. lia.
  - rewrite (for_loop_shift (S := vga D) (Z.to_nat VGA_WIDTH) ((VGA_HEIGHT - 1) * VGA_WIDTH) 0 (λ i (st : vga D),
      mirror (put_buffer st (terminal_buffer st) i (vga_entry (ch " ") (color (active st)))) i)).
    destruct (cells_loop m a (w_buffer b t) s Hb (Z.to_nat VGA_WIDTH) ((VGA_HEIGHT - 1) * VGA_WIDTH + 0)
      (λ b j, blank (color t)) (λ i (st : vga D),
      mirror (put_buffer st (terminal_buffer st) i (vga_entry (ch " ") (color (active st)))) i))
      as (b' & -> & Hb' & Hg').
    + done.
    + done.
    + intros c j Hc Hj. rewrite active_screen. cbn [terminal_buffer screen]. rewrite w_buffer_twice, cell_screen; [done|cbn; lia].
    + done.
    + rewrite w_buffer_twice. do 2 f_equal. cbn [buffer w_buffer] in Hg'.
      assert (alen (drop 80 (buffer t)) = 1920) as Hd.
      { rewrite alen_drop. lia. }
      apply alist_eq; [rewrite alen_app, Hd, alen_replicate; lia|].
      rewrite Hb'. intros i Hi. rewrite Hg' by lia.
      destruct (Z.leb_spec ((VGA_HEIGHT - 1) * VGA_WIDTH + 0) i) as [H1|H1]; change ((VGA_HEIGHT - 1) * VGA_WIDTH + 0) with 1920 in *.
      * destruct (Z.ltb_spec i (1920 + Z.of_nat (Z.to_nat VGA_WIDTH))) as [H2|H2]; [|unfold VGA_WIDTH in H2; lia].
        cbn [andb]. rewrite aget_app_r, aget_replicate by (rewrite Hd; lia). done.
      * cbn [andb]. rewrite aget_app_l, Hg by (rewrite ?Hd; lia).
        destruct (Z.leb_spec (0 * Z.of_nat (Z.to_nat VGA_WIDTH)) i),
          (Z.ltb_spec i (0 * Z.of_nat (Z.to_nat VGA_WIDTH) + Z.of_nat (Z.to_nat 1920))); try lia. cbn [andb].
        rewrite aget_drop by lia. f_equal. lia.
Qed.

(** ** The typewriter *)

Record paper := mk_paper { sheet : list Z; head : Z; ink : Z }.

(** The head reaches a new line: the sheet grows by one blank line. *)
Definition advance (p : paper) (h : Z) : paper :=
  if h =? alen (sheet p) then mk_paper (sheet p ++ replicate 80 (blank (ink p))) h (ink p)
  else mk_paper (sheet p) h (ink p).

Definition type_char (p : paper) (c : Z) : paper :=
  if c =? 8 then
    let h := if alen (sheet p) - 2000 <? head p then head p - 1 else head p in
    mk_paper ((sheet p).[h <- blank (ink p)]) h (ink p)
  else if c =? 10 then advance p (80 * (head p / 80 + 1))
  else if c =? 9 then advance p (4 * (head p / 4 + 1))
  else advance (mk_paper ((sheet p).[head p <- vga_entry c (ink p)]) (head p) (ink p)) (head p + 1).

Definition type_text (p : paper) (s : list Z) : paper := foldl type_char p s.

(** The terminal shows the last 25 lines of the sheet, the cursor at the head. *)
Definition shows (p : paper) (t : virtual_terminal_t) : Prop :=
  (alen (sheet p)) mod 80 = 0 ∧ 2000 <= alen (sheet p) ∧
  0 <= row t < 25 ∧ 0 <= column t < 80 ∧ color t = ink p ∧
  buffer t = drop (Z.to_nat (alen (sheet p) - 2000)) (sheet p) ∧
  head p = alen (sheet p) - 2000 + 80 * row t + column t.

Lemma shows_len p t : shows p t → alen (buffer t) = 2000.
Proof. intros (_ & ? & _ & _ & _ & -> & _). rewrite alen_drop. lia. Qed.

Lemma shows_put p t i v h :
  shows p t → 0 <= i < 2000 → h = alen (sheet p) - 2000 + i →
  drop (Z.to_nat (alen (sheet p) - 2000)) ((sheet p).[h <- v]) = (buffer t).[i <- v].
Proof.
  intros (_ & H2 & _ & _ & _ & -> & _) Hi ->. rewrite aset_drop by lia.
  by rewrite Z2Nat.id by lia.
Qed.

Lemma next_row_screen m a t s p h :
  (alen (sheet p)) mod 80 = 0 → 2000 <= alen (sheet p) → 0 <= row t < 25 → column t = 0 →
  color t = ink p → buffer t = drop (Z.to_nat (alen (sheet p) - 2000)) (sheet p) →
  h = alen (sheet p) - 2000 + 80 * (row t + 1) →
  ∃ t', next_row (screen m a t s) = screen m a t' s ∧ shows (advance p h) t'.
Proof.
  intros H1 H2 H3 H4 H5 H6 H7. unfold next_row. rewrite active_screen, upd_screen by done.
  rewrite active_screen. cbn [row w_row]. rewrite u32_small by lia. unfold advance.
  assert (alen (buffer t) = 2000) as Hb by (rewrite H6, alen_drop; lia).
  destruct (Z.eqb_spec (row t + 1) VGA_HEIGHT) as [E|E]; unfold VGA_HEIGHT in E.
  - rewrite scroll_screen, upd_screen by done. eexists. split; [done|].
    destruct (Z.eqb_spec h (alen (sheet p))); [|lia].
    unfold shows. cbn [sheet head ink row column color buffer w_row w_buffer].
    rewrite alen_app, alen_replicate, H6, H4, H5. change (Z.of_nat 80) with 80. change (VGA_HEIGHT - 1) with 24.
    split_and!; try lia; [zlia|]. rewrite drop_drop.
    rewrite drop_app_le by (unfold alen in *; lia). do 2 f_equal. lia.
  - eexists. split; [done|]. destruct (Z.eqb_spec h (alen (sheet p))); [lia|].
    unfold shows. cbn [sheet head ink row column color buffer w_row]. rewrite H4.
    split_and!; try lia; done.
Qed.

(** Every character keeps the screen and the sheet in step. *)
Lemma putchar_types m a t s p c :
  shows p t →
  ∃ t' s', terminal_putchar (screen m a t s) c = screen m a t' s' ∧ shows (type_char p c) t'.
Proof.
  intros Hs. pose proof (shows_len p t Hs) as Hb. pose proof Hs as (H1 & H2 & H3 & H4 & H5 & H6 & H7).
  unfold terminal_putchar, type_char. destruct (c =? 8).
  - rewrite !active_screen.
    set (h := if alen (sheet p) - 2000 <? head p then head p - 1 else head p).
    assert (∃ t1, (if 0 <? column t then upd_active (screen m a t s) (w_column (column t - 1))
       else if 0 <? row t then upd_active (upd_active (screen m a t s) (w_row (row t - 1))) (w_column (VGA_WIDTH - 1))
       else screen m a t s) = screen m a t1 s ∧ buffer t1 = buffer t ∧ color t1 = color t ∧
       0 <= row t1 < 25 ∧ 0 <= column t1 < 80 ∧ h = alen (sheet p) - 2000 + (80 * row t1 + column t1))
      as (t1 & -> & Eb & Ec & Hr & Hc & Hh).
    { unfold h. destruct (Z.ltb_spec 0 (column t)); [|destruct (Z.ltb_spec 0 (row t))].
      - rewrite upd_screen by done. eexists. split; [done|]. cbn.
        destruct (Z.ltb_spec (alen (sheet p) - 2000) (head p)); split_and!; try done; lia.
      - rewrite !upd_screen by done. eexists. split; [done|]. cbn. unfold VGA_WIDTH.
        destruct (Z.ltb_spec (alen (sheet p) - 2000) (head p)); split_and!; try done; lia.
      - exists t. destruct (Z.ltb_spec (alen (sheet p) - 2000) (head p)); split_and!; try done; lia. }
    rewrite active_screen, putentry_screen by (rewrite Eb; lia).
    match goal with |- context [cursor_here (screen m a ?t2 s)] =>
      destruct (cursor_screen m a t2 s) as [s' ->]; exists t2, s' end.
    split; [done|]. unfold shows. cbn [sheet head ink row column color buffer w_buffer].
    rewrite alen_aset. split_and!; try done; try lia.
    rewrite Eb, Ec, H5. symmetry. apply shows_put; [done|lia|lia].
  - destruct (c =? 10); [|destruct (c =? 9)].
    + rewrite upd_screen by done.
      destruct (next_row_screen m a (w_column 0 t) s p (80 * (head p / 80 + 1))) as (t' & -> & Ht');
        [done..|cbn [row w_column]; rewrite H7; zlia|].
      destruct (cursor_screen m a t' s) as [s' ->]. by exists t', s'.
    + rewrite active_screen, u32_small, upd_screen by (done || lia). rewrite active_screen.
      cbn [column w_column]. rewrite land_align4 by lia.
      destruct (Z.leb_spec VGA_WIDTH (4 * ((column t + 4) / 4))) as [Hw|Hw]; unfold VGA_WIDTH in Hw.
      * rewrite upd_screen by done.
        destruct (next_row_screen m a (w_column 0 (w_column (4 * ((column t + 4) / 4)) t)) s p
                    (4 * (head p / 4 + 1))) as (t' & -> & Ht');
          [done..|cbn [row w_column]; rewrite H7; zlia|].
        destruct (cursor_screen m a t' s) as [s' ->]. by exists t', s'.
      * match goal with |- context [cursor_here (screen m a ?t2 s)] =>
          destruct (cursor_screen m a t2 s) as [s' ->]; exists t2, s' end.
        split; [done|]. unfold advance.
        destruct (Z.eqb_spec (4 * (head p / 4 + 1)) (alen (sheet p))); [zlia|].
        unfold shows. cbn [sheet head ink row column color buffer w_column].
        split_and!; try done; zlia.
    + rewrite !active_screen, putentry_screen by (rewrite Hb; lia).
      rewrite active_screen. cbn [column w_buffer]. rewrite u32_small, upd_screen by (done || lia).
      rewrite active_screen. cbn [column w_column].
      set (p1 := mk_paper ((sheet p).[head p <- vga_entry c (ink p)]) (head p) (ink p)).
      assert (ink p1 = ink p) as Hi1 by done.
      assert (alen (sheet p1) = alen (sheet p)) as Hp1 by (cbn; by rewrite alen_aset).
      assert ((buffer t).[row t * 80 + column t <- vga_entry c (color t)] =
              drop (Z.to_nat (alen (sheet p1) - 2000)) (sheet p1)) as Hb1.
      { rewrite Hp1, H5. symmetry. apply shows_put; [done|lia|lia]. }
      destruct (Z.eqb_spec (column t + 1) VGA_WIDTH) as [Hw|Hw]; unfold VGA_WIDTH in Hw.
      * rewrite upd_screen by done.
        match goal with |- context [next_row (screen m a ?t2 s)] =>
          destruct (next_row_screen m a t2 s p1 (head p + 1)) as (t' & -> & Ht') end;
          [by rewrite Hp1|by rewrite Hp1|done|done|exact H5|exact Hb1|cbn [row w_column w_buffer]; rewrite Hp1, H7; lia|].
        destruct (cursor_screen m a t' s) as [s' ->]. eexists t', _. split; [reflexivity|exact Ht'].
      * match goal with |- context [cursor_here (screen m a ?t2 s)] =>
          destruct (cursor_screen m a t2 s) as [s' ->]; exists t2 end.
        eexists. split; [reflexivity|]. unfold advance. rewrite Hp1.
        destruct (Z.eqb_spec (head p + 1) (alen (sheet p))); [zlia|].
        unfold shows. clearbody p1. cbn [sheet head ink row column color buffer w_column w_buffer].
        rewrite Hp1. split_and!; try done; try lia. by rewrite Hb1, Hp1.
Qed.

Definition cells (p : paper) : list Z := drop (Z.to_nat (alen (sheet p) - 2000)) (sheet p).

Lemma write_types m a data : ∀ n i t s p,
  shows p t → 0 <= i → i + Z.of_nat n <= alen data →
  ∃ t' s', for_loop n i (λ i st, terminal_putchar st (data.[i])) (screen m a t s) = screen m a t' s' ∧
    shows (type_text p (sub data i (Z.of_nat n))) t'.
Proof.
  induction n as [|n IH]; intros i t s p Hp Hi Hn.
  - exists t, s. split; [done|]. by rewrite sub_0.
  - cbn [for_loop]. destruct (putchar_types m a t s p (data.[i]) Hp) as (t1 & s1 & -> & H1).
    destruct (IH (i + 1) t1 s1 _ H1) as (t2 & s2 & -> & H2); [lia|lia|].
    exists t2, s2. split; [done|].
    replace (Z.of_nat (Datatypes.S n)) with (1 + Z.of_nat n) by lia.
    rewrite sub_app, sub_1 by lia. exact H2.
Qed.

(** [terminal_write] types the bytes it is given. *)
Lemma terminal_write_types m a t s p data :
  shows p t →
  ∃ t' s', terminal_write (screen m a t s) data (alen data) = screen m a t' s' ∧ shows (type_text p data) t'.
Proof.
  intros Hp. pose proof (alen_nonneg data).
  destruct (write_types m a data (Z.to_nat (alen data)) 0 t s p Hp) as (t' & s' & E & Ht'); [lia|lia|].
  rewrite Z2Nat.id, sub_full in Ht' by lia. by exists t', s'.
Qed.

Lemma put_all_types m a text : ∀ t s p,
  shows p t →
  ∃ t' s', put_all kprintf_putc text (screen m a t s) = Done (screen m a t' s') ∧ shows (type_text p text) t'.
Proof.
  induction text as [|c text IH]; intros t s p Hp; [by exists t, s|]. cbn [put_all].
  change (kprintf_putc c (screen m a t s)) with (Done (terminal_putchar (screen m a t s) c)).
  rewrite outcome_bind_done.
  destruct (putchar_types m a t s p c Hp) as (t1 & s1 & -> & H1). apply (IH t1 s1 _ H1).
Qed.

(** C30: [kprintf] types the text its format denotes: whatever the text, with line feeds,
    tabs, backspaces, wrapping and scrolling, the screen afterwards is the last 25 lines of
    the typewriter's sheet with the cursor at its head, the text memory mirrors it, and no
    other terminal has changed.  The directives with the least int, which is printed wrongly,
    are left out. *)
Theorem kprintf_types mem junk m a t s p ps rest args :
  alen junk = 32 → Forall (piece_ok mem) ps → shows p t →
  ∃ t' s', kprintf mem junk (screen m a t s) (pieces_text ps ++ 0 :: rest) (pieces_args ps ++ args) =
      Done (screen m a t' s') ∧
    shows (type_text p (pieces_out mem ps)) t' ∧
    hw (screen m a t' s') = cells (type_text p (pieces_out mem ps)).
Proof.
  intros Hj Hps Hp. unfold kprintf. rewrite kvprintf_renders by done.
  destruct (put_all_types m a (pieces_out mem ps) t s p Hp) as (t' & s' & E & Ht').
  exists t', s'. split; [exact E|]. split; [exact Ht'|]. apply Ht'.
Qed.

(** ** Selecting and clearing terminals *)

(** Selecting a terminal puts its cells on the screen. *)
Lemma set_active_screen st b t :
  b ≠ 0 → terms st !! b = Some t → alen (hw st) = 2000 → alen (buffer t) = 2000 →
  ∃ s', terminal_set_active st b = screen (terms st) b t s'.
Proof.
  intros Hb Ht Hh Hl. unfold terminal_set_active, nz. destruct (Z.eqb_spec b 0); [done|]. cbn [negb].
  unfold terminal_flush_to_hardware.
  set (st1 := mk_vga (terms st) b b (hw st) (ser st)).
  assert (for_loop (Z.to_nat (VGA_WIDTH * VGA_HEIGHT)) 0 (λ i st,
            set_hw st ((hw st).[i <- get_buffer st (active_terminal st) i])) st1 = screen (terms st) b t (ser st)) as ->.
  { change (Z.to_nat (VGA_WIDTH * VGA_HEIGHT)) with (Z.to_nat 2000).
    assert (∃ h, for_loop (Z.to_nat 2000) 0 (λ i st,
            set_hw st ((hw st).[i <- get_buffer st (active_terminal st) i])) st1 = set_hw st1 h ∧
            alen h = 2000 ∧ ∀ j, 0 <= j < 0 + Z.of_nat (Z.to_nat 2000) → h.[j] = (buffer t).[j]) as (h & -> & H1 & H2).
    { apply (for_loop_inv (λ k s, ∃ h, s = set_hw st1 h ∧ alen h = 2000 ∧ ∀ j, 0 <= j < k → h.[j] = (buffer t).[j])).
      - exists (hw st). split; [done|]. split; [done|]. intros j Hj. lia.
      - intros k s0 Hk (h & -> & H1 & H2). eexists. split; [reflexivity|]. cbn [hw set_hw].
        split; [by rewrite alen_aset|]. intros j Hj. rewrite aget_aset by lia.
        destruct (Z.eqb_spec j k) as [->|]; [|apply H2; lia].
        unfold get_buffer, term_at. cbn [terms set_hw st1 active_terminal].
        by rewrite (lookup_total_correct _ _ _ Ht). }
    unfold set_hw, screen, st1. cbn. rewrite insert_id by done. f_equal.
    apply alist_eq; [lia|]. intros i Hi. apply H2. lia. }
  eexists. unfold update_cursor, set_ser, screen. cbn. reflexivity.
Qed.

Lemma blank_sheet_shows c : shows (mk_paper (replicate 2000 (blank c)) 0 c) (mk_vt 0 0 c (replicate 2000 (blank c))).
Proof.
  unfold shows. cbn [sheet head ink row column color buffer]. rewrite alen_replicate.
  change (Z.of_nat 2000) with 2000. split_and!; done || lia.
Qed.

(** Whatever the cells were, a loop over all of them that writes blanks leaves blanks. *)
Lemma all_blank (c : Z) (b : list Z) : alen b = 2000 → (∀ j, 0 <= j → b.[j] = if (0 <=? j) && (j <? 2000) then c else inhabitant) →
  b = replicate 2000 c.
Proof.
  intros Hb Hg. apply alist_eq; [rewrite alen_replicate; lia|]. rewrite Hb. intros i Hi.
  rewrite Hg, aget_replicate by lia. destruct (Z.leb_spec 0 i), (Z.ltb_spec i 2000); done || lia.
Qed.

(** [terminal_clear] blanks the screen in the current colour and homes the cursor. *)
Lemma clear_screen m a t s :
  alen (buffer t) = 2000 →
  ∃ s', terminal_clear (screen m a t s) =
    screen m a (mk_vt 0 0 (color t) (replicate 2000 (blank (color t)))) s'.
Proof.
  intros Hl. unfold terminal_clear.
  rewrite (for_loop_nested _ _ 0 _ (λ i (st : vga D),
    mirror (put_buffer st (terminal_buffer st) i (vga_entry (ch " ") (color (active st)))) i)) by done.
  change (Z.to_nat VGA_HEIGHT * Z.to_nat VGA_WIDTH)%nat with (Z.to_nat 2000).
  destruct (cells_loop m a t s Hl (Z.to_nat 2000) (0 * Z.of_nat (Z.to_nat VGA_WIDTH))
    (λ b j, blank (color t)) (λ i (st : vga D),
    mirror (put_buffer st (terminal_buffer st) i (vga_entry (ch " ") (color (active st)))) i))
    as (b & -> & Hb & Hg); [lia|lia| |done|].
  { intros b j Hb Hj. rewrite active_screen. cbn [terminal_buffer screen]. rewrite cell_screen; [done|cbn; lia]. }
  rewrite !upd_screen by done. eexists. unfold w_column, w_row, w_buffer, update_cursor, set_ser, screen. cbn.
  rewrite (all_blank (blank (color t)) b Hb); [reflexivity|]. intros j Hj. rewrite Hg by done.
  change (0 * Z.of_nat (Z.to_nat VGA_WIDTH)) with 0. rewrite Z.add_0_l, Z2Nat.id by lia.
  destruct (Z.leb_spec 0 j), (Z.ltb_spec j 2000); try (done || lia). cbn [andb]. apply aget_oob. lia.
Qed.

(** Virtual terminals are independent: after typing on one terminal, selecting another
    and typing there, selecting the first one again shows exactly what was typed on it. *)
Theorem terminals_isolated st a b ta tb pa pb da db :
  a ≠ 0 → b ≠ 0 → a ≠ b → terms st !! a = Some ta → terms st !! b = Some tb →
  alen (hw st) = 2000 → shows pa ta → shows pb tb →
  let st1 := terminal_write (terminal_set_active st a) da (alen da) in
  let st2 := terminal_write (terminal_set_active st1 b) db (alen db) in
  let st3 := terminal_set_active st2 a in
  hw st1 = cells (type_text pa da) ∧ hw st2 = cells (type_text pb db) ∧
  hw st3 = cells (type_text pa da) ∧ shows (type_text pa da) (active st3).
Proof.
  intros Ha Hb Hab Hta Htb Hh Hpa Hpb.
  destruct (set_active_screen st a ta Ha Hta Hh (shows_len _ _ Hpa)) as [s0 ->].
  destruct (terminal_write_types (terms st) a ta s0 pa da Hpa) as (t1 & s1 & -> & H1). cbv zeta.
  destruct (set_active_screen (screen (terms st) a t1 s1) b tb Hb) as [s2 ->].
  { cbn. by rewrite lookup_insert_ne. }
  { apply (shows_len _ _ H1). }
  { apply (shows_len _ _ Hpb). }
  destruct (terminal_write_types (terms (screen (terms st) a t1 s1)) b tb s2 pb db Hpb) as (t2 & s3 & -> & H2).
  destruct (set_active_screen (screen (terms (screen (terms st) a t1 s1)) b t2 s3) a t1 Ha) as [s4 ->].
  { cbn. rewrite lookup_insert_ne by done. by rewrite lookup_insert_eq. }
  { apply (shows_len _ _ H2). }
  { apply (shows_len _ _ H1). }
  rewrite active_screen. split_and!; [apply H1|apply H2|apply H1|exact H1].
Qed.
End vga.

(** ** Examples *)

Definition demo_term : virtual_terminal_t := mk_vt 0 0 7 (replicate 2000 (blank 7)).
Definition demo_paper : paper := mk_paper (replicate 2000 (blank 7)) 0 7.

Lemma kprintf_types_witness :
  ∃ t' s', kprintf (λ _, []) (replicate 32 0) (screen ∅ 0x1000 demo_term demo_uart)
             (pieces_text demo_pieces ++ 0 :: []) (pieces_args demo_pieces ++ []) =
           Done (screen ∅ 0x1000 t' s') ∧
    take 17 (buffer t') = map (λ c, c + 0x700) (str_bytes "pid -42: 0000BEEF").
Proof.
  destruct (kprintf_types (λ _, []) (replicate 32 0) ∅ 0x1000 demo_term demo_uart demo_paper
              demo_pieces [] [] eq_refl (demo_pieces_ok _) (blank_sheet_shows 7))
    as (t' & s' & E & _ & Hh).
  exists t', s'. split; [exact E|]. cbn [hw screen] in Hh. rewrite Hh. by vm_compute.
Defined.

Definition demo_vga : vga uart :=
  mk_vga (<[0x1000 := demo_term]> (<[0x2000 := demo_term]> ∅)) 0x1000 0x1000 (replicate 2000 0) demo_uart.

Lemma terminals_isolated_witness :
  let st1 := terminal_write (terminal_set_active 0x1000 demo_vga 0x1000) (str_bytes "ab") 2 in
  let st2 := terminal_write (terminal_set_active 0x1000 st1 0x2000) (str_bytes "xyz") 3 in
  take 3 (hw st2) = [0x778; 0x779; 0x77A] ∧
  take 3 (hw (terminal_set_active 0x1000 st2 0x1000)) = [0x761; 0x762; 0x720].
Proof.
  destruct (terminals_isolated 0x1000 demo_vga 0x1000 0x2000 demo_term demo_term demo_paper demo_paper
              (str_bytes "ab") (str_bytes "xyz") ltac:(done) ltac:(done) ltac:(done)
              eq_refl eq_refl eq_refl (blank_sheet_shows 7) (blank_sheet_shows 7))
    as (_ & H2 & H3 & _).
  cbv zeta in *. change (alen (str_bytes "ab")) with 2 in *. change (alen (str_bytes "xyz")) with 3 in *.
  rewrite H2, H3. split; by vm_compute.
Defined.
