(* ===== verification/Input.v ===== *)
(** * drivers/input/keyboard.c and drivers/input/mouse.c

    The PS/2 keyboard and mouse drivers: initialisation over the ports of the 8042
    controller, the interrupt handlers that decode scancodes and mouse packets, and the
    mouse cursor drawn over the back buffer of Gfx.v.  Both drivers push into the event
    queue of Queues.v, the keyboard also into the terminal's line buffer.

    The theorems: text typed with make and break codes arrives in the event queue; the
    pointer never leaves the screen whatever bytes arrive; which movements a packet is
    decoded to; moving the cursor never loses the background. *)

From Stdlib Require Import Ascii String.
From S2P Require Import Prelude Queues KString Format Gfx.
Import Queues.Events Queues.Tty.

(** ** Shared state *)

(** The tables of the kernel that both drivers change. *)
Record platform (D : Type) := mk_platform {
  p_tty : tty; p_events : Events.state; p_handlers : list Z; p_io : D }.
Arguments mk_platform {D}.
Arguments p_tty {D}.
Arguments p_events {D}.
Arguments p_handlers {D}.
Arguments p_io {D}.

Section platform.
Context {D : Type}.
Definition w_tty (v : tty) (p : platform D) := mk_platform v (p_events p) (p_handlers p) (p_io p).
Definition w_events (v : Events.state) (p : platform D) := mk_platform (p_tty p) v (p_handlers p) (p_io p).
Definition w_io (v : D) (p : platform D) := mk_platform (p_tty p) (p_events p) (p_handlers p) v.

Definition push_event (p : platform D) (e : event_t) : platform D := w_events (events_push (p_events p) e) p.

(** [interrupt_handlers[n] = handler]; handlers are named by numbers, 0 is no handler. *)
Definition register_interrupt_handler (p : platform D) (n handler : Z) : platform D :=
  mk_platform (p_tty p) (p_events p) ((p_handlers p).[n <- handler]) (p_io p).
End platform.

Definition KEYBOARD_CALLBACK : Z := 1.
Definition MOUSE_HANDLER : Z := 2.

(** ** Keyboard *)

Module Keyboard.

Definition KEYBOARD_DATA_PORT : Z := 0x60.
Definition PIC1_DATA : Z := 0x21.
Definition SC_UP_ARROW : Z := 0x48.
Definition SC_DOWN_ARROW : Z := 0x50.
Definition SC_LEFT_ARROW : Z := 0x4B.
Definition SC_RIGHT_ARROW : Z := 0x4D.
Definition SC_TAB : Z := 0x0F.

Definition scancode_ascii : list Z :=
  [0; 27; 49; 50; 51; 52; 53; 54; 55; 56; 57; 48; 45; 61; 8;
   9; 113; 119; 101; 114; 116; 121; 117; 105; 111; 112; 91; 93; 10; 0;
   97; 115; 100; 102; 103; 104; 106; 107; 108; 59; 39; 96; 0; 92; 122;
   120; 99; 118; 98; 110; 109; 44; 46; 47; 0; 42; 0; 32; 0; 0;
   0; 0; 0; 0; 0; 0; 0; 0; 0; 0; 0; 0; 0; 0; 45;
   0; 0; 0; 43; 0; 0; 0; 0; 0; 0; 0; 0; 0; 0; 0].

Record keyboard := mk_kb {
  shift_pressed : bool; caps_lock_on : bool; e0_prefix : bool; last_special_scancode : Z }.

Definition shift_table : list (Z * Z) :=
  [(ch "1", ch "!"); (ch "2", ch "@"); (ch "3", ch "#"); (ch "4", ch "$"); (ch "5", ch "%");
   (ch "6", ch "^"); (ch "7", ch "&"); (ch "8", ch "*"); (ch "9", ch "("); (ch "0", ch ")");
   (ch "-", ch "_"); (ch "=", ch "+"); (ch "[", ch "{"); (ch "]", ch "}"); (92, ch "|");
   (ch ";", ch ":"); (39, 34); (ch ",", ch "<"); (ch ".", ch ">"); (ch "/", ch "?");
   (ch "`", ch "~")].

Definition is_lower (c : Z) : bool := (ch "a" <=? c) && (c <=? ch "z").

(** The cases of the [switch], then its default. *)
Definition shift_char (c : Z) : Z :=
  match List.find (λ kv, kv.1 =? c) shift_table with
  | Some kv => kv.2
  | None => if is_lower c then c - 32 else c
  end.

Definition is_arrow (sc : Z) : bool :=
  (sc =? SC_UP_ARROW) || (sc =? SC_DOWN_ARROW) || (sc =? SC_LEFT_ARROW) || (sc =? SC_RIGHT_ARROW).
Definition is_shift (key : Z) : bool := (key =? 0x2A) || (key =? 0x36).

Section keyboard.
Context {D : Type} `{PortIO D}.

(** [keyboard_callback] after the scancode was read. *)
Definition keyboard_scancode (k : keyboard) (p : platform D) (scancode : Z) : keyboard * platform D :=
  if scancode =? 0xE0 then
    (mk_kb (shift_pressed k) (caps_lock_on k) true (last_special_scancode k), p)
  else if nz (Z.land scancode 0x80) then
    let key := Z.land scancode 0x7F in
    (mk_kb (if is_shift key then false else shift_pressed k) (caps_lock_on k) false (last_special_scancode k), p)
  else if e0_prefix k then
    if is_arrow scancode then
      (mk_kb (shift_pressed k) (caps_lock_on k) false scancode, w_tty (tty_putc (p_tty p) 1) p)
    else (mk_kb (shift_pressed k) (caps_lock_on k) false (last_special_scancode k), p)
  else if scancode =? 0x3A then
    (mk_kb (shift_pressed k) (negb (caps_lock_on k)) (e0_prefix k) (last_special_scancode k), p)
  else if is_shift scancode then
    (mk_kb true (caps_lock_on k) (e0_prefix k) (last_special_scancode k), p)
  else if scancode =? SC_TAB then
    (mk_kb (shift_pressed k) (caps_lock_on k) (e0_prefix k) SC_TAB, w_tty (tty_putc (p_tty p) 9) p)
  else if scancode <? alen scancode_ascii then
    let c := scancode_ascii.[scancode] in
    if negb (c =? 0) then
      let do_shift := if is_lower c && caps_lock_on k then negb (shift_pressed k) else shift_pressed k in
      let c := if do_shift then shift_char c else c in
      (k, push_event p (mk_event EVENT_KEY_DOWN c 0 0))
    else (k, p)
  else (k, p).

Definition keyboard_callback (k : keyboard) (p : platform D) : keyboard * platform D :=
  let '(scancode, d) := inb (p_io p) KEYBOARD_DATA_PORT in
  keyboard_scancode k (w_io d p) scancode.

Definition keyboard_get_special (k : keyboard) : Z * keyboard :=
  (last_special_scancode k, mk_kb (shift_pressed k) (caps_lock_on k) (e0_prefix k) 0).

(** [while ((inb(0x64) & 1) && flush_timeout-- > 0) inb(0x60);] *)
Fixpoint flush_loop (flush_timeout : nat) (d : D) : D :=
  let '(s, d) := inb d 0x64 in
  if nz (Z.land s 1) then
    match flush_timeout with
    | O => d
    | S t => let '(_, d) := inb d 0x60 in flush_loop t d
    end
  else d.

Definition keyboard_init (p : platform D) : platform D :=
  let p := w_io (flush_loop (Z.to_nat 100000) (p_io p)) p in
  let p := register_interrupt_handler p 33 KEYBOARD_CALLBACK in
  let '(mask, d) := inb (p_io p) PIC1_DATA in
  let mask := Z.land mask (Z.lnot (Z.shiftl 1 1)) in
  w_io (outb d PIC1_DATA (u8 mask)) p.

(** ** Typing

    The keys of the US layout: the scancode that gives a character alone or with shift, and
    the make and break codes a user sends for it. *)

Definition feed (k : keyboard) (p : platform D) (codes : list Z) : keyboard * platform D :=
  foldl (λ s sc, keyboard_scancode s.1 s.2 sc) (k, p) codes.

(** A scancode the table translates. *)
Definition plain (sc : Z) : bool :=
  (0 <=? sc) && (sc <? 90) && negb (sc =? 0x3A) && negb (is_shift sc) && negb (sc =? SC_TAB) &&
  negb (scancode_ascii.[sc] =? 0).

Definition bare_key (c : Z) : option Z := zfind (λ sc, plain sc && (scancode_ascii.[sc] =? c)) 0 90.
Definition shifted_key (c : Z) : option Z :=
  zfind (λ sc, plain sc && (shift_char (scancode_ascii.[sc]) =? c)) 0 90.

Definition key_of (c : Z) : option (Z * bool) :=
  match bare_key c with
  | Some sc => Some (sc, false)
  | None => match shifted_key c with Some sc => Some (sc, true) | None => None end
  end.

(** Make and break of the key, inside make and break of the left shift key if needed. *)
Definition press (c : Z) : list Z :=
  match key_of c with
  | Some (sc, false) => [sc; sc + 0x80]
  | Some (sc, true) => [0x2A; sc; sc + 0x80; 0x2A + 0x80]
  | None => []
  end.

(** Printable characters, backspace, line feed and escape. *)
Definition typable (c : Z) : bool :=
  ((32 <=? c) && (c <? 127)) || (c =? 8) || (c =? 10) || (c =? 27).

Lemma plain_facts sc :
  plain sc = true →
  0 <= sc < 90 ∧ sc ≠ 0x3A ∧ is_shift sc = false ∧ sc ≠ SC_TAB ∧ scancode_ascii.[sc] ≠ 0.
Proof.
  unfold plain. rewrite !andb_true_iff, !negb_true_iff, !Z.eqb_neq, Z.leb_le, Z.ltb_lt.
  intros (((((H1 & H2) & H3) & H4) & H5) & H6). split_and!; assumption.
Qed.

Lemma below_7bits sc : 0 <= sc < 90 → nz (Z.land sc 0x80) = false ∧ nz (Z.land (sc + 0x80) 0x80) = true ∧
  Z.land (sc + 0x80) 0x7F = sc.
Proof.
  intros Hs. assert (0 <= sc < 256) as Hb by lia.
  pose proof (byte_forall (λ sc, negb (sc <? 90) || (negb (nz (Z.land sc 0x80)) && nz (Z.land (sc + 0x80) 0x80)
    && (Z.land (sc + 0x80) 0x7F =? sc))) eq_refl sc Hb) as Hc.
  cbn beta in Hc. destruct (Z.ltb_spec sc 90); [|lia]. cbn [negb orb] in Hc.
  apply andb_true_iff in Hc as [Hc H3%Z.eqb_eq]. apply andb_true_iff in Hc as [H1%negb_true_iff H2]. done.
Qed.

Lemma make_plain sh ls p sc :
  plain sc = true →
  keyboard_scancode (mk_kb sh false false ls) p sc =
    (mk_kb sh false false ls,
     push_event p (mk_event EVENT_KEY_DOWN
       (if sh : bool then shift_char (scancode_ascii.[sc]) else scancode_ascii.[sc]) 0 0)).
Proof.
  intros Hp. destruct (plain_facts sc Hp) as (Hr & H1 & H2 & H3 & H4).
  destruct (below_7bits sc Hr) as (Hb & _ & _). unfold keyboard_scancode. cbn [e0_prefix caps_lock_on shift_pressed].
  rewrite Hb, H2. change (alen scancode_ascii) with 90.
  destruct (Z.eqb_spec sc 0xE0); [lia|]. destruct (Z.eqb_spec sc 0x3A); [done|].
  destruct (Z.eqb_spec sc SC_TAB); [done|]. destruct (Z.ltb_spec sc 90); [|lia].
  destruct (Z.eqb_spec (scancode_ascii.[sc]) 0); [done|]. cbn [negb]. by rewrite andb_false_r.
Qed.

Lemma break_plain sh ls p sc :
  plain sc = true →
  keyboard_scancode (mk_kb sh false false ls) p (sc + 0x80) = (mk_kb sh false false ls, p).
Proof.
  intros Hp. destruct (plain_facts sc Hp) as (Hr & _ & H2 & _).
  destruct (below_7bits sc Hr) as (_ & Hb & Hk). unfold keyboard_scancode. cbv zeta. rewrite Hb, Hk, H2.
  destruct (Z.eqb_spec (sc + 0x80) 0xE0) as [E|]; [|done].
  exfalso. assert (sc = 0x60) by lia. lia.
Qed.

(** A pressed key leaves the keyboard as it was and gives its character. *)
Lemma press_gives ls p c :
  is_Some (key_of c) →
  feed (mk_kb false false false ls) p (press c) =
    (mk_kb false false false ls, push_event p (mk_event EVENT_KEY_DOWN c 0 0)).
Proof.
  intros [[sc sh] Hk]. unfold press. rewrite Hk. unfold key_of in Hk.
  destruct (bare_key c) as [s|] eqn:E1.
  - injection Hk as -> <-. apply zfind_Some in E1 as (_ & Hp & _).
    apply andb_true_iff in Hp as [Hp Hc%Z.eqb_eq]. unfold feed. cbn [foldl fst snd].
    rewrite make_plain by done. cbn [fst snd]. rewrite break_plain by done. by rewrite Hc.
  - destruct (shifted_key c) as [s|] eqn:E2; [|done]. injection Hk as -> <-.
    apply zfind_Some in E2 as (_ & Hp & _). apply andb_true_iff in Hp as [Hp Hc%Z.eqb_eq].
    unfold feed. cbn [foldl fst snd].
    change (keyboard_scancode (mk_kb false false false ls) p 0x2A) with (mk_kb true false false ls, p).
    cbn [fst snd]. rewrite make_plain by done. cbn [fst snd]. rewrite break_plain by done. cbn [fst snd].
    rewrite Hc. done.
Qed.

Lemma typable_key c : typable c = true → is_Some (key_of c).
Proof.
  intros Hc. assert (0 <= c < 256) as Hb by (unfold typable in Hc; lia).
  pose proof (byte_forall (λ c, negb (typable c) || bool_decide (is_Some (key_of c))) eq_refl c Hb) as H1.
  cbn beta in H1. rewrite Hc in H1. cbn [negb orb] in H1. by apply bool_decide_eq_true in H1.
Qed.

Definition key_down (c : Z) : event_t := mk_event EVENT_KEY_DOWN c 0 0.

(** The queue is a bounded FIFO. *)
Lemma contents_push_spec s e :
  Events.inv s → Events.inv (events_push s e) ∧
  Events.contents (events_push s e) = spec_push 127 (Events.contents s) e.
Proof.
  intros Hs. split; [by apply fifo_push_inv|]. unfold spec_push.
  destruct (Z.ltb_spec (alen (Events.contents s)) 127) as [Hl|Hl].
  - by apply contents_push.
  - by rewrite (fifo_push_full (BoundedFifo := events_fifo)).
Qed.

(** Text typed on the keyboard, every character by the make and break codes of its key
    and the shift key where the US layout needs it, arrives in the event queue character by
    character, in order, and leaves the modifiers as they were; every printable character,
    backspace, line feed and escape can be typed. *)
Theorem keyboard_types_text text ls p :
  Forall (λ c, typable c = true) text → Events.inv (p_events p) →
  let '(k', p') := feed (mk_kb false false false ls) p (concat (map press text)) in
  k' = mk_kb false false false ls ∧ p_tty p' = p_tty p ∧ Events.inv (p_events p') ∧
  Events.contents (p_events p') = foldl (spec_push 127) (Events.contents (p_events p)) (map key_down text).
Proof.
  intros Ht. revert p. induction Ht as [|c text Hc Ht IH]; intros p Hp; [done|].
  cbn [map concat]. unfold feed. rewrite foldl_app. fold (feed (mk_kb false false false ls) p (press c)).
  rewrite press_gives by (by apply typable_key).
  destruct (contents_push_spec (p_events p) (key_down c) Hp) as [H1 H2].
  specialize (IH (push_event p (key_down c)) H1). unfold feed in IH. cbn [foldl]. rewrite <-H2. exact IH.
Qed.
End keyboard.

Definition demo_platform : platform unit := mk_platform tty_init events_init (replicate 256 0) ().

Lemma keyboard_types_text_witness :
  let '(_, p') := feed (mk_kb false false false 0) demo_platform (concat (map press (str_bytes "Ok!"))) in
  Events.contents (p_events p') = map key_down (str_bytes "Ok!").
Proof.
  assert (Forall (λ c, typable c = true) (str_bytes "Ok!")) as Ht by (repeat constructor).
  pose proof (keyboard_types_text (str_bytes "Ok!") 0 demo_platform Ht ltac:(repeat split; done)) as H.
  destruct (feed _ _ _) as [k p']. destruct H as (_ & _ & _ & H). rewrite H. by vm_compute.
Defined.
End Keyboard.

(** ** Mouse *)

Module Mouse.

Definition MOUSE_PORT : Z := 0x60.
Definition MOUSE_STATUS : Z := 0x64.
Definition CURSOR_W : Z := 16.
Definition CURSOR_H : Z := 16.
Definition CURSOR_SIZE : Z := CURSOR_W * CURSOR_H.
Definition CURSOR_TRANSPARENT : Z := 0x00FF00FF.

(** Black, white and transparent. *)
Local Notation K := 0x00000000.
Local Notation W := 0x00FFFFFF.
Local Notation T := 0x00FF00FF.

Definition cursor_arrow : list Z :=
  [K; K; T; T; T; T; T; T; T; T; T; T; T; T; T; T;
   K; W; K; T; T; T; T; T; T; T; T; T; T; T; T; T;
   K; W; W; K; T; T; T; T; T; T; T; T; T; T; T; T;
   K; W; W; W; K; T; T; T; T; T; T; T; T; T; T; T;
   K; W; W; W; W; K; T; T; T; T; T; T; T; T; T; T;
   K; W; W; W; W; W; K; T; T; T; T; T; T; T; T; T;
   K; W; W; W; W; W; W; K; T; T; T; T; T; T; T; T;
   K; W; W; W; W; W; W; W; K; T; T; T; T; T; T; T;
   K; W; W; W; W; W; W; W; W; K; T; T; T; T; T; T;
   K; W; W; W; W; W; K; K; K; K; T; T; T; T; T; T;
   K; W; W; K; W; W; K; T; T; T; T; T; T; T; T; T;
   K; W; K; T; K; W; W; K; T; T; T; T; T; T; T; T;
   K; K; T; T; K; W; W; K; T; T; T; T; T; T; T; T;
   T; T; T; T; T; K; W; W; K; T; T; T; T; T; T; T;
   T; T; T; T; T; K; W; K; T; T; T; T; T; T; T; T;
   T; T; T; T; T; T; K; T; T; T; T; T; T; T; T; T].

Record mouse := mk_mouse {
  m_x : Z; m_y : Z; m_buttons : Z; mouse_cycle : Z; mouse_byte : list Z;
  save_buffer : list Z; last_cursor_x : Z; last_cursor_y : Z }.

Definition w_packet (cycle : Z) (bytes : list Z) (m : mouse) : mouse :=
  mk_mouse (m_x m) (m_y m) (m_buttons m) cycle bytes (save_buffer m) (last_cursor_x m) (last_cursor_y m).
Definition w_pos (x y : Z) (m : mouse) : mouse :=
  mk_mouse x y (m_buttons m) (mouse_cycle m) (mouse_byte m) (save_buffer m) (last_cursor_x m) (last_cursor_y m).
Definition w_buttons (b : Z) (m : mouse) : mouse :=
  mk_mouse (m_x m) (m_y m) b (mouse_cycle m) (mouse_byte m) (save_buffer m) (last_cursor_x m) (last_cursor_y m).
Definition w_cursor (s : list Z) (x y : Z) (m : mouse) : mouse :=
  mk_mouse (m_x m) (m_y m) (m_buttons m) (mouse_cycle m) (mouse_byte m) s x y.

Section mouse.
Context {D : Type} `{PortIO D}.

(** [while (timeout--) { if (ready) return; io_wait(); }] with [timeout] turns. *)
Fixpoint wait_loop (timeout : nat) (ready : Z → bool) (d : D) : D :=
  match timeout with
  | O => d
  | S t =>
      let '(s, d) := inb d MOUSE_STATUS in
      if ready s then d else wait_loop t ready (outb d 0x80 0)
  end.

Definition mouse_wait (type : Z) (d : D) : D :=
  if type =? 0 then wait_loop (Z.to_nat 100000) (λ s, Z.land s 1 =? 1) d
  else wait_loop (Z.to_nat 100000) (λ s, Z.land s 2 =? 0) d.

Definition mouse_write (d : D) (write : Z) : D :=
  let d := outb (mouse_wait 1 d) MOUSE_STATUS 0xD4 in
  outb (mouse_wait 1 d) MOUSE_PORT write.

Definition mouse_read (d : D) : Z * D := inb (mouse_wait 0 d) MOUSE_PORT.

(** [x_move = (int8_t)byte; if (sign) x_move |= 0xFFFFFF00;] *)
Definition move_of (byte : Z) (sign : bool) : Z :=
  let v := s8 byte in if sign then s32 (Z.lor v 0xFFFFFF00) else v.

Definition clamp (v bound : Z) : Z :=
  let v := if v <? 0 then 0 else v in
  if s32 bound <=? v then s32 (bound - 1) else v.

(** The click and release events of one button. *)
Definition button_events (p : platform D) (now old bit x y : Z) : platform D :=
  let p := if nz (Z.land now bit) && negb (nz (Z.land old bit))
           then push_event p (mk_event EVENT_MOUSE_CLICK bit x y) else p in
  if negb (nz (Z.land now bit)) && nz (Z.land old bit)
  then push_event p (mk_event EVENT_MOUSE_RELEASE bit x y) else p.

(** A complete packet. *)
Definition mouse_packet (vbe : vbe_info) (m : mouse) (p : platform D) : mouse * platform D :=
  let b0 := (mouse_byte m).[0] in
  let x_move := move_of ((mouse_byte m).[1]) (nz (Z.land b0 0x10)) in
  let y_move := move_of ((mouse_byte m).[2]) (nz (Z.land b0 0x20)) in
  let x := clamp (s32 (m_x m + x_move)) (width vbe) in
  let y := clamp (s32 (m_y m - y_move)) (height vbe) in
  let old_buttons := m_buttons m in
  let buttons := Z.land b0 0x07 in
  let p := button_events p buttons old_buttons 1 x y in
  let p := button_events p buttons old_buttons 2 x y in
  (w_buttons buttons (w_pos x y m), push_event p (mk_event EVENT_MOUSE_MOVE x y 0)).

Definition mouse_byte_in (vbe : vbe_info) (m : mouse) (p : platform D) (b : Z) : mouse * platform D :=
  if (mouse_cycle m =? 0) && negb (nz (Z.land b 0x08)) then (m, p)
  else
    let m := w_packet (mouse_cycle m + 1) ((mouse_byte m).[mouse_cycle m <- b]) m in
    if mouse_cycle m =? 3 then mouse_packet vbe (w_packet 0 (mouse_byte m) m) p else (m, p).

Definition mouse_handler (vbe : vbe_info) (m : mouse) (p : platform D) : mouse * platform D :=
  let '(b, d) := inb (p_io p) MOUSE_PORT in
  mouse_byte_in vbe m (w_io d p) b.

Definition mouse_init (m : mouse) (p : platform D) : mouse * platform D :=
  let m := mk_mouse 512 384 0 (mouse_cycle m) (mouse_byte m) (save_buffer m) (-1) (-1) in
  let d := outb (mouse_wait 1 (p_io p)) MOUSE_STATUS 0xA8 in
  let d := outb (mouse_wait 1 d) MOUSE_STATUS 0x20 in
  let '(v, d) := inb (mouse_wait 0 d) MOUSE_PORT in
  let status := Z.lor v 2 in
  let d := outb (mouse_wait 1 d) MOUSE_STATUS 0x60 in
  let d := outb (mouse_wait 1 d) MOUSE_PORT status in
  let '(_, d) := mouse_read (mouse_write d 0xF6) in
  let '(_, d) := mouse_read (mouse_write d 0xF4) in
  let '(mask_slave, d) := inb d 0xA1 in
  let d := outb d 0xA1 (u8 (Z.land mask_slave (Z.lnot (Z.shiftl 1 4)))) in
  let '(mask_master, d) := inb d 0x21 in
  let d := outb d 0x21 (u8 (Z.land mask_master (Z.lnot (Z.shiftl 1 2)))) in
  (m, register_interrupt_handler (w_io d p) 44 MOUSE_HANDLER).
End mouse.

Definition mouse_get_state (m : mouse) : Z * Z * Z := (m_x m, m_y m, m_buttons m).

(** One pixel of the sprite. *)
Definition sprite_pixel (x y row col : Z) (g : gfx) : gfx :=
  let dx := x + col in
  let dy := y + row in
  if (dx <? 0) || (s32 (width (vbe g)) <=? dx) then g
  else
    let px := cursor_arrow.[row * CURSOR_W + col] in
    if px =? CURSOR_TRANSPARENT then g
    else if px =? 0 then gfx_put_pixel g dx dy px
    else gfx_put_pixel_alpha g dx dy (Z.land px 0xFFFFFF) 255.

Definition cursor_draw_sprite (g : gfx) (x y : Z) : gfx :=
  for_loop (Z.to_nat CURSOR_H) 0 (λ row g,
    let dy := y + row in
    if (dy <? 0) || (s32 (height (vbe g)) <=? dy) then g
    else for_loop (Z.to_nat CURSOR_W) 0 (λ col, sprite_pixel x y row col) g) g.

Definition mouse_draw_cursor (m : mouse) (g : gfx) : outcome (mouse * gfx) :=
  let x := m_x m in
  let y := m_y m in
  g ← (if (0 <=? last_cursor_x m) && (0 <=? last_cursor_y m) then
         gfx_restore_rect g (Some (save_buffer m)) (last_cursor_x m) (last_cursor_y m) CURSOR_W CURSOR_H
       else Done g);
  s ← gfx_save_rect g (Some (save_buffer m)) x y CURSOR_W CURSOR_H;
  let g := cursor_draw_sprite g x y in
  Done (w_cursor (default (save_buffer m) s) x y m, g).

Definition mouse_invalidate_cursor (m : mouse) : mouse := w_cursor (save_buffer m) (-1) (-1) m.

(** ** The pointer *)

Section pointer.
Context {D : Type}.
Implicit Types (m : mouse) (p : platform D).

(** Between interrupts: a partial packet of at most two bytes, the pointer on the screen. *)
Definition pointer_ok (vbe : vbe_info) m : Prop :=
  0 <= m_x m < width vbe ∧ 0 <= m_y m < height vbe ∧
  0 <= mouse_cycle m < 3 ∧ alen (mouse_byte m) = 3 ∧ 0 <= m_buttons m < 8.

Lemma clamp_range v bound : 0 < bound < 0x80000000 → 0 <= clamp v bound < bound.
Proof.
  intros Hb. unfold clamp. rewrite (s32_small bound), (s32_small (bound - 1)) by lia.
  destruct (Z.ltb_spec v 0), (Z.leb_spec bound (if v <? 0 then 0 else v)); repeat case_match; lia.
Qed.

Lemma clamp_id v bound : 0 <= v < bound → bound < 0x80000000 → clamp v bound = v.
Proof.
  intros Hv Hb. unfold clamp. rewrite (s32_small bound) by lia.
  destruct (Z.ltb_spec v 0); [lia|]. destruct (Z.leb_spec bound v); [lia|done].
Qed.

Lemma land7_range b : 0 <= Z.land b 7 < 8.
Proof. change 7 with (Z.ones 3). rewrite Z.land_ones by lia. apply Z.mod_pos_bound. lia. Qed.

Lemma byte_in_ok (vbe : vbe_info) m p b :
  0 < width vbe < 0x80000000 → 0 < height vbe < 0x80000000 →
  pointer_ok vbe m → pointer_ok vbe (mouse_byte_in vbe m p b).1.
Proof.
  intros Hw Hh (Hx & Hy & Hc & Hl & Hb). unfold mouse_byte_in.
  destruct ((mouse_cycle m =? 0) && _); [unfold pointer_ok; cbn [fst]; lia|]. cbn [mouse_cycle w_packet].
  destruct (Z.eqb_spec (mouse_cycle m + 1) 3).
  - unfold mouse_packet. cbn [fst]. unfold pointer_ok, w_buttons, w_pos, w_packet.
    cbn [m_x m_y m_buttons mouse_cycle mouse_byte]. rewrite alen_aset.
    split_and!; try apply clamp_range; try apply land7_range; lia.
  - cbn [fst]. unfold pointer_ok, w_packet. cbn [m_x m_y m_buttons mouse_cycle mouse_byte].
    rewrite alen_aset. lia.
Qed.

Definition feed_bytes (vbe : vbe_info) m p (bs : list Z) : mouse * platform D :=
  foldl (λ s b, mouse_byte_in vbe s.1 s.2 b) (m, p) bs.

(** Whatever bytes the mouse sends, in step with its packets or not, the pointer stays
    on the screen, the packet buffer is never overrun and only three buttons are
    reported. *)
Theorem mouse_stays_on_screen (vbe : vbe_info) m p bs :
  0 < width vbe < 0x80000000 → 0 < height vbe < 0x80000000 →
  pointer_ok vbe m → pointer_ok vbe (feed_bytes vbe m p bs).1.
Proof.
  intros Hw Hh. unfold feed_bytes. revert m p. induction bs as [|b bs IH]; intros m p Hm; [done|].
  cbn [foldl fst snd]. pose proof (byte_in_ok vbe m p b Hw Hh Hm) as H1.
  destruct (mouse_byte_in vbe m p b) as [m1 p1]. by apply IH.
Qed.

(** The movement of a packet is a 9-bit two's complement number, its sign in the first
    byte.  A positive movement of 128 or more is read as a negative one; all others are
    read as they are. *)
Lemma move_decoded byte (sign : bool) :
  0 <= byte < 256 →
  move_of byte sign = byte - (if sign then 256 else if 128 <=? byte then 256 else 0).
Proof.
  intros Hb. pose proof (byte_forall (λ byte, forallb (λ sign : bool,
    move_of byte sign =? byte - (if sign then 256 else if 128 <=? byte then 256 else 0)) [true; false])
    eq_refl byte Hb) as H1.
  cbn [forallb] in H1. rewrite !andb_true_iff, !Z.eqb_eq in H1. destruct H1 as (Ht & Hf & _).
  destruct sign; [exact Ht|exact Hf].
Qed.

Lemma byte_first (vbe : vbe_info) m p b :
  mouse_cycle m = 0 → nz (Z.land b 0x08) = true →
  mouse_byte_in vbe m p b = (w_packet 1 ((mouse_byte m).[0 <- b]) m, p).
Proof. intros Hc H8. unfold mouse_byte_in. rewrite Hc, H8. done. Qed.

Lemma byte_second (vbe : vbe_info) m p b :
  mouse_cycle m = 1 → mouse_byte_in vbe m p b = (w_packet 2 ((mouse_byte m).[1 <- b]) m, p).
Proof. intros Hc. unfold mouse_byte_in. rewrite Hc. done. Qed.

Lemma byte_third (vbe : vbe_info) m p b :
  mouse_cycle m = 2 →
  mouse_byte_in vbe m p b = mouse_packet vbe (w_packet 0 ((mouse_byte m).[2 <- b]) m) p.
Proof. intros Hc. unfold mouse_byte_in. rewrite Hc. done. Qed.

(** A packet in step moves the pointer by its movements, upwards for positive y, as far as
    the screen goes, for movements from -256 to 127. *)
Lemma packet_moves (vbe : vbe_info) m p b0 b1 b2 :
  mouse_cycle m = 0 → alen (mouse_byte m) = 3 → nz (Z.land b0 0x08) = true →
  0 <= b1 < 256 → 0 <= b2 < 256 →
  let sx := nz (Z.land b0 0x10) in let sy := nz (Z.land b0 0x20) in
  (sx = false → b1 < 128) → (sy = false → b2 < 128) →
  let m' := (feed_bytes vbe m p [b0; b1; b2]).1 in
  m_x m' = clamp (s32 (m_x m + (b1 - if sx then 256 else 0))) (width vbe) ∧
  m_y m' = clamp (s32 (m_y m - (b2 - if sy then 256 else 0))) (height vbe) ∧
  m_buttons m' = Z.land b0 7 ∧ mouse_cycle m' = 0.
Proof.
  intros Hc Hl H8 H1 H2 sx sy Hx Hy. unfold feed_bytes. cbn [foldl fst snd].
  rewrite (byte_first vbe m) by done. cbn [fst snd]. rewrite (byte_second vbe (w_packet 1 _ m)) by done. cbn [fst snd].
  rewrite (byte_third vbe (w_packet 2 _ _)) by done.
  unfold mouse_packet. cbn [fst m_x m_y m_buttons mouse_cycle mouse_byte w_pos w_buttons w_packet].
  assert (((((mouse_byte m).[0 <- b0]).[1 <- b1]).[2 <- b2]).[2] = b2 ∧
          ((((mouse_byte m).[0 <- b0]).[1 <- b1]).[2 <- b2]).[1] = b1 ∧
          ((((mouse_byte m).[0 <- b0]).[1 <- b1]).[2 <- b2]).[0] = b0) as (-> & -> & ->).
  { rewrite !aget_aset by (rewrite ?alen_aset; lia). done. }
  fold sx sy. rewrite !move_decoded by done. split_and!; try done.
  - destruct sx; [done|]. destruct (Z.leb_spec 128 b1); [|done]. specialize (Hx eq_refl). lia.
  - destruct sy; [done|]. destruct (Z.leb_spec 128 b2); [|done]. specialize (Hy eq_refl). lia.
Qed.
End pointer.

(** ** The cursor *)

(** The screen without the cursor. *)
Definition under (m : mouse) (g : gfx) : outcome gfx :=
  if (0 <=? last_cursor_x m) && (0 <=? last_cursor_y m) then
    gfx_restore_rect g (Some (save_buffer m)) (last_cursor_x m) (last_cursor_y m) CURSOR_W CURSOR_H
  else Done g.

Section cursor.
Variables (g : gfx) (b : list Z).
Hypothesis Hok : gfx_ok g b.
Local Notation w := (width (vbe g)).
Local Notation h := (height (vbe g)).

(** The index of a pixel of the screen. *)
Lemma pixel_at x y : 0 <= x < w → 0 <= y < h → pixel g x y = y * w + x ∧ 0 <= y * w + x < alen b.
Proof using Hok.
  intros Hx Hy. destruct Hok as [Hw Hh _ Hs]. unfold pixel. rewrite Hs.
  assert (0 <= y * w + x < w * h) as Hr by nia. rewrite u32_small by nia. done.
Qed.

Lemma pixel_inj x y x' y' :
  0 <= x < w → 0 <= x' < w → y * w + x = y' * w + x' → x = x' ∧ y = y'.
Proof using Hok. intros Hx Hx' E. assert (y = y') by nia. nia. Qed.

Definition in_rect (x y a c : Z) : bool := (x <=? a) && (a <? x + 16) && (y <=? c) && (c <? y + 16).

Lemma sizes : s32 w = w ∧ s32 h = h.
Proof using Hok. destruct Hok. split; apply s32_small; lia. Qed.

(** One row saved: the visible pixels of row [k] of the rectangle, other rows untouched. *)
Lemma save_row_spec s x y k :
  alen s = 256 → 0 <= x → 0 <= y + k < h → 0 <= k < 16 →
  let s' := save_row g b x (y + k) CURSOR_W k s in
  alen s' = 256 ∧ (∀ c, 0 <= c < 16 → x + c < w → s'.[k * 16 + c] = b.[(y + k) * w + (x + c)]) ∧
  ∀ j, 0 <= j → j < k * 16 ∨ k * 16 + 16 <= j → s'.[j] = s.[j].
Proof using Hok.
  intros Hl Hx Hy Hk. unfold save_row. destruct sizes as [Ew _]. rewrite Ew.
  change 16 with (0 + Z.of_nat (Z.to_nat CURSOR_W)) at 1.
  apply (for_loop_inv (λ n s', alen s' = 256 ∧
    (∀ c, 0 <= c < n → x + c < w → s'.[k * 16 + c] = b.[(y + k) * w + (x + c)]) ∧
    ∀ j, 0 <= j → j < k * 16 ∨ k * 16 + 16 <= j → s'.[j] = s.[j])).
  - split; [done|]. split; [|done]. intros c Hc. lia.
  - intros c s2 Hc (L2 & H2 & H3). cbv zeta. change (0 + Z.of_nat (Z.to_nat CURSOR_W)) with 16 in Hc.
    unfold CURSOR_W. rewrite alen_aset. split; [done|]. split.
    + intros c' Hc' Hw'. rewrite aget_aset by lia.
      destruct (Z.eqb_spec (k * 16 + c') (k * 16 + c)) as [E|E]; [|apply H2; lia].
      replace c' with c in * by lia.
      destruct (Z.leb_spec 0 (x + c)), (Z.ltb_spec (x + c) w); try lia. cbn [andb].
      by destruct (pixel_at (x + c) (y + k) ltac:(lia) ltac:(lia)) as [-> _].
    + intros j Hj Ho. rewrite aget_aset_ne by lia. by apply H3.
Qed.

(** What was saved under the rectangle. *)
Lemma save_rect_spec s x y :
  alen s = 256 → 0 <= x < w → 0 <= y < h →
  ∃ s', gfx_save_rect g (Some s) x y CURSOR_W CURSOR_H = Done (Some s') ∧ alen s' = 256 ∧
    ∀ r c, 0 <= r < 16 → 0 <= c < 16 → x + c < w → y + r < h → s'.[r * 16 + c] = b.[(y + r) * w + (x + c)].
Proof using Hok.
  intros Hl Hx Hy. unfold gfx_save_rect. rewrite (ok_back g b Hok). destruct sizes as [_ Eh].
  eexists. split; [reflexivity|]. rewrite Eh.
  change (∀ r c, 0 <= r < 16 → ?P r c) with (∀ r c, 0 <= r < 0 + Z.of_nat (Z.to_nat CURSOR_H) → P r c).
  apply (for_loop_inv (λ n s', alen s' = 256 ∧
    ∀ r c, 0 <= r < n → 0 <= c < 16 → x + c < w → y + r < h → s'.[r * 16 + c] = b.[(y + r) * w + (x + c)])).
  { split; [done|]. intros r c Hr. lia. }
  intros k s1 Hk (L1 & H1). cbv zeta. change (0 + Z.of_nat (Z.to_nat CURSOR_H)) with 16 in Hk.
  destruct (Z.ltb_spec (y + k) 0); [lia|]. destruct (Z.leb_spec h (y + k)); cbn [orb].
  - split; [done|]. intros r c Hr Hc. destruct (decide (r = k)); [lia|]. apply H1; lia.
  - destruct (save_row_spec s1 x y k L1) as (L2 & H2 & H3); [lia|lia|lia|]. split; [done|].
    intros r c Hr Hc Hw' Hh'. destruct (decide (r = k)) as [->|]; [by apply H2|].
    rewrite H3 by lia. apply H1; lia.
Qed.

(** One row restored. *)
Lemma restore_row_spec s b1 x y k :
  alen b1 = alen b → 0 <= x → 0 <= y + k < h →
  let b2 := restore_row g s x (y + k) CURSOR_W k b1 in
  alen b2 = alen b ∧
  ∀ a c, 0 <= a < w → 0 <= c < h →
    b2.[c * w + a] = if (c =? y + k) && (x <=? a) && (a <? x + 16) then s.[k * 16 + (a - x)] else b1.[c * w + a].
Proof using Hok.
  intros Hl Hx Hy. unfold restore_row. destruct sizes as [Ew _]. rewrite Ew.
  assert (let b2 := for_loop (Z.to_nat CURSOR_W) 0 (λ col b, let dx := x + col in
      if (0 <=? dx) && (dx <? w) then b.[pixel g dx (y + k) <- s.[k * CURSOR_W + col]] else b) b1 in
    alen b2 = alen b ∧ ∀ a c, 0 <= a < w → 0 <= c < h →
    b2.[c * w + a] = if (c =? y + k) && (x <=? a) && (a <? x + (0 + Z.of_nat (Z.to_nat CURSOR_W)))
                     then s.[k * 16 + (a - x)] else b1.[c * w + a]) as HH; [|exact HH].
  apply (for_loop_inv (λ n b2, alen b2 = alen b ∧ ∀ a c, 0 <= a < w → 0 <= c < h →
    b2.[c * w + a] = if (c =? y + k) && (x <=? a) && (a <? x + n) then s.[k * 16 + (a - x)] else b1.[c * w + a])).
  - split; [done|]. intros a c Ha Hc. destruct (c =? y + k), (Z.leb_spec x a), (Z.ltb_spec a (x + 0)); try done. lia.
  - intros n b2 Hn (L2 & H2). cbv zeta. destruct (Z.leb_spec 0 (x + n)); [|lia]. destruct (Z.ltb_spec (x + n) w); cbn [andb].
    + destruct (pixel_at (x + n) (y + k)) as [-> Hr]; [lia|lia|]. rewrite alen_aset. split; [done|].
      intros a c Ha Hc. rewrite aget_aset, H2 by lia.
      destruct (Z.eqb_spec (c * w + a) ((y + k) * w + (x + n))) as [E|E].
      * apply pixel_inj in E as [-> ->]; [|lia|lia]. rewrite Z.eqb_refl.
        destruct (Z.leb_spec x (x + n)), (Z.ltb_spec (x + n) (x + (n + 1))); try lia. cbn [andb].
        f_equal. unfold CURSOR_W. lia.
      * destruct (Z.eqb_spec c (y + k)) as [->|]; [|done].
        destruct (Z.leb_spec x a), (Z.ltb_spec a (x + n)), (Z.ltb_spec a (x + (n + 1))); try done; lia.
    + split; [done|]. intros a c Ha Hc. rewrite H2 by lia.
      destruct (c =? y + k), (Z.leb_spec x a), (Z.ltb_spec a (x + n)), (Z.ltb_spec a (x + (n + 1))); try done; lia.
Qed.

Lemma restore_rect_spec s b1 x y :
  alen b1 = alen b → 0 <= x → 0 <= y →
  ∃ b2, gfx_restore_rect (w_back (Some b1) g) (Some s) x y CURSOR_W CURSOR_H = Done (w_back (Some b2) g) ∧
    alen b2 = alen b ∧ ∀ a c, 0 <= a < w → 0 <= c < h →
    b2.[c * w + a] = if in_rect x y a c then s.[(c - y) * 16 + (a - x)] else b1.[c * w + a].
Proof using Hok.
  intros Hl Hx Hy. unfold gfx_restore_rect. cbn [backbuffer w_back vbe]. destruct sizes as [_ Eh]. rewrite Eh.
  eexists. split; [reflexivity|].
  assert (let b2 := for_loop (Z.to_nat CURSOR_H) 0 (λ row b, let dy := y + row in
      if (dy <? 0) || (h <=? dy) then b else restore_row g s x dy CURSOR_W row b) b1 in
    alen b2 = alen b ∧ ∀ a c, 0 <= a < w → 0 <= c < h →
    b2.[c * w + a] = if (x <=? a) && (a <? x + 16) && (y <=? c) && (c <? y + (0 + Z.of_nat (Z.to_nat CURSOR_H)))
                     then s.[(c - y) * 16 + (a - x)] else b1.[c * w + a]) as HH; [|exact HH].
  apply (for_loop_inv (λ n b2, alen b2 = alen b ∧ ∀ a c, 0 <= a < w → 0 <= c < h →
    b2.[c * w + a] = if (x <=? a) && (a <? x + 16) && (y <=? c) && (c <? y + n)
                     then s.[(c - y) * 16 + (a - x)] else b1.[c * w + a])).
  - split; [done|]. intros a c Ha Hc.
    destruct (x <=? a), (a <? x + 16), (Z.leb_spec y c), (Z.ltb_spec c (y + 0)); try done. lia.
  - intros n b2 Hn (L2 & H2). cbv zeta. destruct (Z.ltb_spec (y + n) 0); [lia|]. destruct (Z.leb_spec h (y + n)); cbn [orb].
    + split; [done|]. intros a c Ha Hc. rewrite H2 by done.
      destruct (x <=? a), (a <? x + 16), (Z.leb_spec y c), (Z.ltb_spec c (y + n)), (Z.ltb_spec c (y + (n + 1))); try done; lia.
    + destruct (restore_row_spec s b2 x y n L2) as (L3 & H3); [lia|lia|]. split; [done|].
      intros a c Ha Hc. rewrite H3, H2 by done.
      destruct (Z.eqb_spec c (y + n)) as [->|].
      * destruct (Z.leb_spec y (y + n)), (Z.ltb_spec (y + n) (y + n)), (Z.ltb_spec (y + n) (y + (n + 1))); try lia.
        rewrite !andb_true_r, andb_false_r. cbn [andb]. by replace (y + n - y) with n by lia.
      * cbn [andb]. destruct (x <=? a), (a <? x + 16), (Z.leb_spec y c), (Z.ltb_spec c (y + n)), (Z.ltb_spec c (y + (n + 1)));
          try done; lia.
Qed.

(** The sprite changes pixels of its rectangle only. *)
Lemma sprite_spec x y :
  0 <= x < w → 0 <= y < h →
  ∃ b2, cursor_draw_sprite g x y = w_back (Some b2) g ∧ alen b2 = alen b ∧
    ∀ a c, 0 <= a < w → 0 <= c < h → in_rect x y a c = false → b2.[c * w + a] = b.[c * w + a].
Proof using Hok.
  intros Hx Hy. unfold cursor_draw_sprite.
  pose (P := λ (_ : Z) (g2 : gfx), ∃ b2, g2 = w_back (Some b2) g ∧ alen b2 = alen b ∧
    ∀ a c, 0 <= a < w → 0 <= c < h → in_rect x y a c = false → b2.[c * w + a] = b.[c * w + a]).
  assert (∀ n row col g2, 0 <= row < 16 → 0 <= col < 16 → P n g2 → y + row < h → P n (sprite_pixel x y row col g2)) as Hpx.
  { intros n row col g2 Hr Hc (b2 & -> & L2 & H2) Hyr. unfold sprite_pixel. cbn [vbe w_back].
    destruct sizes as [Ew Eh]. rewrite Ew.
    destruct (Z.ltb_spec (x + col) 0); [lia|]. destruct (Z.leb_spec w (x + col)); cbn [orb]; [by exists b2|].
    destruct (_ =? CURSOR_TRANSPARENT); [by exists b2|].
    destruct (pixel_at (x + col) (y + row)) as [Hp Hi]; [lia|lia|].
    assert (∀ v, P n (w_back (Some (b2.[pixel g (x + col) (y + row) <- v])) g)) as Hset.
    { intros v. eexists. split; [reflexivity|]. rewrite alen_aset. split; [done|]. intros a c Ha Hc' Hout.
      rewrite Hp, aget_aset_ne; [by apply H2| |lia]. intros E. apply pixel_inj in E as [<- <-]; [|lia|lia].
      unfold in_rect in Hout. lia. }
    assert (visible (w_back (Some b2) g) (x + col) (y + row) = true) as Hv.
    { unfold visible. cbn [vbe w_back]. rewrite Ew, Eh. lia. }
    destruct (_ =? 0).
    - unfold gfx_put_pixel. cbn [backbuffer w_back]. fold (w_back (Some b2) g). rewrite Hv. apply Hset.
    - unfold gfx_put_pixel_alpha. cbn [backbuffer w_back]. fold (w_back (Some b2) g). rewrite Hv. apply Hset. }
  assert (P 0 g) as H0.
  { exists b. split; [|done]. destruct Hok as [_ _ Hb _]. destruct g as [v bk fr sz]. cbn in Hb. by rewrite <-Hb. }
  apply (for_loop_inv P); [exact H0|]. intros row g2 Hr HP. cbv zeta.
  change (0 + Z.of_nat (Z.to_nat CURSOR_H)) with 16 in Hr.
  assert (vbe g2 = vbe g) as Ev by (destruct HP as (b2 & -> & _); done). rewrite Ev.
  destruct sizes as [_ Eh]. rewrite Eh.
  destruct (Z.ltb_spec (y + row) 0); [lia|]. destruct (Z.leb_spec h (y + row)); cbn [orb]; [exact HP|].
  apply (for_loop_inv P); [exact HP|]. intros col g3 Hc H3.
  change (0 + Z.of_nat (Z.to_nat CURSOR_W)) with 16 in Hc. by apply (Hpx 0).
Qed.

(** Drawing over a saved rectangle can be undone. *)
Lemma draw_undone s x y :
  alen s = 256 → 0 <= x < w → 0 <= y < h →
  ∃ s', gfx_save_rect g (Some s) x y CURSOR_W CURSOR_H = Done (Some s') ∧ alen s' = 256 ∧
    gfx_restore_rect (cursor_draw_sprite g x y) (Some s') x y CURSOR_W CURSOR_H = Done g.
Proof using Hok.
  intros Hl Hx Hy. destruct (save_rect_spec s x y Hl Hx Hy) as (s' & E & L & Hs).
  exists s'. split; [done|]. split; [done|].
  destruct (sprite_spec x y Hx Hy) as (b2 & -> & L2 & H2).
  destruct (restore_rect_spec s' b2 x y L2) as (b3 & -> & L3 & H3); [lia|lia|].
  assert (b3 = b) as ->.
  { apply alist_eq; [done|]. rewrite L3. intros i Hi. destruct Hok as [Hw Hh _ Hsz].
    pose proof (Z.mod_pos_bound i w ltac:(lia)) as Hm. pose proof (Z_div_mod_eq_full i w) as Hdm.
    assert (0 <= i / w < h) as Hd.
    { split; [apply Z.div_pos; lia|]. apply Z.div_lt_upper_bound; lia. }
    replace i with (i / w * w + i mod w) by lia. rewrite H3 by done.
    destruct (in_rect x y (i mod w) (i / w)) eqn:Er; [|by apply H2].
    unfold in_rect in Er. rewrite Hs by lia. f_equal. lia. }
  f_equal. destruct Hok as [_ _ Hb _]. destruct g as [v bk fr sz]. cbn in Hb. by rewrite <-Hb.
Qed.
End cursor.

(** C33: The background survives the mouse cursor: drawing the cursor at its new position
    restores what the previous cursor covered and saves what the new one covers, so that the
    screen without the cursor is the same before and after, wherever the pointer is, at the
    edges of the screen too. *)
Theorem cursor_preserves_background m g b :
  gfx_ok g b → alen (save_buffer m) = 256 →
  0 <= m_x m < width (vbe g) → 0 <= m_y m < height (vbe g) →
  ∃ m' g' clean, mouse_draw_cursor m g = Done (m', g') ∧
    under m g = Done clean ∧ under m' g' = Done clean ∧
    alen (save_buffer m') = 256 ∧ last_cursor_x m' = m_x m ∧ last_cursor_y m' = m_y m.
Proof.
  intros Hok Hs Hx Hy. unfold mouse_draw_cursor. fold (under m g).
  assert (∃ g1 b1, under m g = Done g1 ∧ vbe g1 = vbe g ∧ gfx_ok g1 b1) as (g1 & b1 & E & Ev & Hok1).
  { unfold under. destruct (Z.leb_spec 0 (last_cursor_x m)), (Z.leb_spec 0 (last_cursor_y m)); cbn [andb];
      [|by exists g, b..].
    destruct (restore_rect_spec g b Hok (save_buffer m) b (last_cursor_x m) (last_cursor_y m))
      as (b2 & E & L & _); [done|lia|lia|].
    exists (w_back (Some b2) g), b2. split; [|split; [done|]].
    - rewrite <-E. f_equal. destruct Hok as [_ _ Hb _]. destruct g as [v bk fr sz]. cbn in Hb. by rewrite <-Hb.
    - destruct Hok as [Hw Hh Hb Hsz]. by split; rewrite ?L. }
  rewrite E, outcome_bind_done.
  destruct (draw_undone g1 b1 Hok1 (save_buffer m) (m_x m) (m_y m) Hs) as (s' & Es & L & Er); [by rewrite Ev..|].
  rewrite Es, outcome_bind_done. eexists _, _, g1. split; [reflexivity|]. split; [done|].
  unfold under. cbn [last_cursor_x last_cursor_y save_buffer w_cursor default from_option id].
  destruct (Z.leb_spec 0 (m_x m)), (Z.leb_spec 0 (m_y m)); try lia. cbn [andb]. by rewrite Er.
Qed.

(** ** Examples *)

Definition demo_mouse : mouse := mk_mouse 2 1 0 0 [0; 0; 0] (replicate 256 0) (-1) (-1).

Lemma mouse_stays_on_screen_witness :
  pointer_ok (vbe demo_gfx)
    (feed_bytes (vbe demo_gfx) demo_mouse (mk_platform tty_init events_init [] ()) [0x18; 3; 120; 9; 255; 255]).1.
Proof. apply mouse_stays_on_screen; by vm_compute. Defined.

Lemma cursor_preserves_background_witness :
  ∃ m' g', mouse_draw_cursor demo_mouse demo_gfx = Done (m', g') ∧ under m' g' = Done demo_gfx ∧
    backbuffer g' ≠ backbuffer demo_gfx.
Proof.
  destruct (cursor_preserves_background demo_mouse demo_gfx (replicate 16 0)) as (m' & g' & c & E & Eu & Eu' & _).
  - split; by vm_compute.
  - reflexivity.
  - by vm_compute.
  - by vm_compute.
  - exists m', g'. split; [exact E|]. split; [rewrite Eu'; rewrite <-Eu; reflexivity|].
    assert (mouse_draw_cursor demo_mouse demo_gfx = Done (m', g')) as E' by exact E.
    vm_compute in E'. injection E' as _ <-. discriminate.
Defined.

End Mouse.
