(* ===== verification/Syscall.v ===== *)
(** * syscall/table.c: the system calls

    [syscall_handler] composes the components below it: the current process and its
    descriptors (Process.v), the mounts and the file system (Vfs.v, any [VfsWorld]), the
    terminal (Vga.v), the line buffer (Queues.v), the sockets (Net.v), the loader (Pe.v) and
    the heap they share.  User pointers are dereferenced through the page tables that CR3
    selects; an access to an address that is no mapped user byte is [Fault].

    The theorems: which pointers are accepted, and that the others change nothing; that the
    descriptor calls implement a table with lowest-free allocation; that the console calls
    move bytes between user memory, the keyboard line and the screen; that a datagram goes
    from one buffer to another; how paths are split; and what [SYS_EXEC] leaves in CR3. *)

From S2P Require Import Prelude Queues KString Pmm Vmm Kheap Pe Process Vfs Fat32 Net Format Serial Vga.

Definition USER_SPACE_MIN : Z := 0x00400000.
Definition USER_SPACE_MAX : Z := 0xBFFFFFFF.

Definition SYS_EXIT : Z := 1.
Definition SYS_READ : Z := 3.
Definition SYS_WRITE : Z := 4.
Definition SYS_OPEN : Z := 5.
Definition SYS_CLOSE : Z := 6.
Definition SYS_REBOOT : Z := 88.
Definition SYS_SHUTDOWN : Z := 89.

Definition KERR_OK : Z := 0.
Definition KERR_NOMEM : Z := -2.
Definition KERR_INVAL : Z := -3.
Definition KERR_IO : Z := -4.
Definition KERR_NOTFOUND : Z := -5.
Definition KERR_NOSYS : Z := -8.
Definition KERR_FAULT : Z := -9.

Definition syscall_validate_ptr (ptr size : Z) : bool :=
  if ptr =? 0 then false
  else if ptr <? USER_SPACE_MIN then false
  else if USER_SPACE_MAX <? ptr then false
  else if (0 <? size) && (USER_SPACE_MAX <? u32 (u32 (ptr + size) - 1)) then false
  else true.

(** ** The state

    What the scheduler's state carries for the rest of the kernel: the file system, the
    mounts, the bytes of physical memory, the line buffer and the terminals. *)

Record rest (W U : Type) := mk_rest {
  k_fs : W; k_vfs : vfs; k_ram : gmap Z Z; k_tty : Tty.tty; k_vga : vga U }.
Arguments mk_rest {W U}.
Arguments k_fs {W U}.
Arguments k_vfs {W U}.
Arguments k_ram {W U}.
Arguments k_tty {W U}.
Arguments k_vga {W U}.

(** The file system allocates on the kernel's heap. *)
Class OnHeap (W H : Type) := {
  heap_of : W → H;
  on_heap : H → W → W }.

#[global] Instance fsw_on_heap {H D} : OnHeap (fsw H D) H := {|
  heap_of := fs_heap;
  on_heap := w_heap_fs |}.

(** How a system call ends: back to the caller with these registers, by forcing a timer
    interrupt ([int $32]), or in power.c, which does not return. *)
Inductive sysret :=
| Return (regs : registers_t)
| Reschedule (regs : registers_t)
| Reboot
| Shutdown.

Definition w_eax (v : Z) (r : registers_t) : registers_t :=
  mk_regs (ds r) (edi r) (esi r) (ebp r) (esp r) (ebx r) (edx r) (ecx r) v (int_no r) (err_code r) (eip r)
    (cs r) (eflags r) (useresp r) (ss r).

(** [context->eip = ep; context->useresp = ust; context->ebp = ust] *)
Definition w_entry (ep ust : Z) (r : registers_t) : registers_t :=
  mk_regs (ds r) (edi r) (esi r) ust (esp r) (ebx r) (edx r) (ecx r) (eax r) (int_no r) (err_code r) ep
    (cs r) (eflags r) ust (ss r).

Definition of_fuel {A} (o : option A) : outcome A := match o with Some a => Done a | None => NoFuel end.

(** "PID %d: %s (%s)\n" *)
Definition ps_format : list Z :=
  [80; 73; 68; 32; 37; 100; 58; 32; 37; 115; 32; 40; 37; 115; 41; 10; 0].

(** [for (i = 0; path[i]; i++) if (path[i] == '/') last_slash = i], from index [i] on. *)
Fixpoint find_slash (path : list Z) (i last_slash : Z) : Z :=
  match path with
  | [] => last_slash
  | c :: path' =>
      if c =? 0 then last_slash else find_slash path' (i + 1) (if c =? SLASH then i else last_slash)
  end.

(** The splitting of SYS_UNLINK, SYS_MKDIR and SYS_CREATE: [parent_path] and [name], two
    buffers of 128 bytes on the stack; a parent of 128 characters or more does not fit. *)
Definition split_path (stack1 stack2 path : list Z) : outcome (list Z * list Z) :=
  let last_slash := find_slash path 0 (-1) in
  if last_slash =? -1 then
    Done (kstrncpy stack1 0 [SLASH; 0] 2, kstrncpy stack2 0 path 127)
  else
    parent ← (if last_slash =? 0 then Done (kstrncpy stack1 0 [SLASH; 0] 2)
              else if 128 <=? last_slash then Fault
              else Done ((kstrncpy stack1 0 path last_slash).[last_slash <- 0]));
    Done (parent, kstrncpy stack2 0 (drop (Z.to_nat (last_slash + 1)) path) 127).

Section syscall.
Context {L H F W U : Type} `{Link L} `{HeapAlloc H} `{FrameAllocator F} `{VfsWorld W} `{!OnHeap W H} `{PortIO U}.
Notation system := (sys H F (rest W U)).
Notation kernel := (net L system wait_queue_t).
(** Rounds for the loops over lists and strings; what runs while the thread waits for a
    datagram or polls for a child; the bytes of a fresh block; uninitialised stack. *)
Variables (fuel : nat) (resume : kernel → kernel) (tick : system → system).
Variables (fresh : H → Z → Z → list Z) (junk : Z → Z).
Implicit Types (k : kernel) (r : registers_t).

Definition env k : rest W U := files (sched k).
Definition w_sys k (s : system) : kernel := w_sched s k.
Definition w_env k (e : rest W U) : kernel := w_sys k (w_files e (sched k)).
Definition w_tty k (t : Tty.tty) : kernel :=
  w_env k (mk_rest (k_fs (env k)) (k_vfs (env k)) (k_ram (env k)) t (k_vga (env k))).
Definition w_vga k (v : vga U) : kernel :=
  w_env k (mk_rest (k_fs (env k)) (k_vfs (env k)) (k_ram (env k)) (k_tty (env k)) v).

(** The file system on the heap as it is now, and back. *)
Definition fs_of k : W := on_heap (heap (sched k)) (k_fs (env k)).
Definition put_fs k (w : W) : kernel :=
  w_sys k (w_heap (heap_of w)
    (w_files (mk_rest w (k_vfs (env k)) (k_ram (env k)) (k_tty (env k)) (k_vga (env k))) (sched k))).

(** No file system of the sources sets [close], so the heap plays no part in it. *)
Definition close_node (e : rest W U) (node : Z) : rest W U :=
  mk_rest (vfs_close (k_fs e) node) (k_vfs e) (k_ram e) (k_tty e) (k_vga e).

(** ** User memory *)

Definition machine_of k : machine F := mk_machine (Process.vm (sched k)) (k_ram (env k)).
Definition put_machine k (m : machine F) : kernel :=
  w_sys k (Process.w_vm (Pe.vm m)
    (w_files (mk_rest (k_fs (env k)) (k_vfs (env k)) (Pe.ram m) (k_tty (env k)) (k_vga (env k))) (sched k))).

Definition load k (v : Z) : option Z :=
  if v <? KERNEL_VIRT_BASE then rd (k_ram (env k)) <$> mmu (machine_of k) v else None.

(** The bytes of a buffer up to the first address that is not mapped. *)
Fixpoint mapped (n : nat) k (v : Z) : list Z :=
  match n with
  | O => []
  | S n' => match load k v with Some b => b :: mapped n' k (u32 (v + 1)) | None => [] end
  end.

(** A buffer that is read to its end. *)
Definition user_bytes k (v n : Z) : outcome (list Z) :=
  let b := mapped (Z.to_nat n) k v in
  if alen b =? n then Done b else Fault.

(** A string with its terminator. *)
Fixpoint user_string (n : nat) k (v : Z) : outcome (list Z) :=
  match n with
  | O => NoFuel
  | S n' =>
      match load k v with
      | Some b => if b =? 0 then Done [0] else s ← user_string n' k (u32 (v + 1)); Done (b :: s)
      | None => Fault
      end
  end.

Definition store_bytes k (v : Z) (b : list Z) : outcome kernel :=
  m ← for_outcome (length b) 0 (λ i m, c ← Done (b.[i]); store m (u32 (v + i)) c) (machine_of k);
  Done (put_machine k m).

(** A buffer the callee filled: [n] bytes of [b] were written. *)
Definition write_back k (v : Z) (b : list Z) (n : Z) : outcome kernel :=
  if alen b <? n then Fault else store_bytes k v (take (Z.to_nat n) b).

(** ** The calls

    Each returns the result the handler puts in EAX and the state. *)

(** [thread ? thread->process : NULL] *)
Definition current_process k : Z := scheduler_get_current_process (sched k).
Definition proc_of k : process_t := pget (sched k) (current_process k).

Definition fault k : outcome (Z * kernel) := Done (KERR_FAULT, k).

Definition sys_write k (fd buf size : Z) : outcome (Z * kernel) :=
  if negb (syscall_validate_ptr buf size) then fault k
  else if (fd =? 1) || (fd =? 2) then
    data ← user_bytes k buf size;
    Done (s32 size, w_vga k (terminal_write (k_vga (env k)) data size))
  else if nz (current_process k) && (0 <=? fd) && (fd <? MAX_PROCESS_FDS) && nz ((fd_table (proc_of k)).[fd]) then
    data ← user_bytes k buf size;
    let '(n, w) := vfs_write (fs_of k) ((fd_table (proc_of k)).[fd]) 0 size data in
    Done (s32 n, put_fs k w)
  else Done (KERR_INVAL, k).

Definition sys_read k (fd buf size : Z) : outcome (Z * kernel) :=
  if negb (syscall_validate_ptr buf size) then fault k
  else
    let dest := mapped (Z.to_nat size) k buf in
    if fd =? 0 then
      let '(n, dest, t) := Tty.tty_read (k_tty (env k)) dest size in
      k ← write_back (w_tty k t) buf dest n;
      Done (s32 n, k)
    else if nz (current_process k) && (0 <=? fd) && (fd <? MAX_PROCESS_FDS) && nz ((fd_table (proc_of k)).[fd]) then
      let '(n, dest, w) := vfs_read (fs_of k) ((fd_table (proc_of k)).[fd]) 0 size dest in
      k ← write_back (put_fs k w) buf dest n;
      Done (s32 n, k)
    else Done (KERR_INVAL, k).

(** [vfs_find_path(vfs_root, path)] *)
Definition find_node k (path : list Z) : Z * kernel :=
  let '(node, w) := vfs_find_path (k_vfs (env k)) (fs_of k) (vfs_root (k_vfs (env k))) path in
  (node, put_fs k w).

Definition set_fd k (p fd node : Z) : kernel :=
  w_sys k (pupd (sched k) p (λ pr, w_fd_table ((fd_table pr).[fd <- node]) pr)).

(** The loop over the descriptors from 3 on. *)
Definition free_fd (fds : list Z) : option Z := zfind (λ i, fds.[i] =? 0) 3 (Z.to_nat (MAX_PROCESS_FDS - 3)).

Definition sys_open k (name : Z) : outcome (Z * kernel) :=
  if negb (syscall_validate_ptr name 1) then fault k
  else
    path ← user_string fuel k name;
    let '(node, k) := find_node k path in
    if nz (current_process k) && nz node then
      match free_fd (fd_table (proc_of k)) with
      | Some i => Done (i, set_fd k (current_process k) i node)
      | None => Done (KERR_NOTFOUND, k)
      end
    else Done (KERR_NOTFOUND, k).

Definition sys_close k (fd : Z) : outcome (Z * kernel) :=
  if nz (current_process k) && (3 <=? fd) && (fd <? MAX_PROCESS_FDS) && nz ((fd_table (proc_of k)).[fd]) then
    let p := current_process k in
    let k := put_fs k (vfs_close (fs_of k) ((fd_table (proc_of k)).[fd])) in
    Done (KERR_OK, set_fd k p fd 0)
  else Done (KERR_INVAL, k).

(** The new process runs the image: its entry point and stack, its command line, and its
    thread in the ready queue. *)
Definition start_process k (proc ep ust cmd : Z) : outcome (Z * kernel) :=
  let thread := threads (pget (sched k) proc) in
  let c := context (tget (sched k) thread) in
  let s := w_ctx (<[c := w_entry ep ust (default zero_regs (ctx (sched k) !! c))]> (ctx (sched k))) (sched k) in
  line ← (if nz cmd && syscall_validate_ptr cmd 1 then
            src ← user_string fuel k cmd;
            Done (kstrncpy (cmdline (pget s proc)) 0 src 127)
          else Done ((cmdline (pget s proc)).[0 <- 0]));
  let s := pupd s proc (w_cmdline line) in
  s ← of_fuel (scheduler_add_thread fuel s thread);
  Done (KERR_OK, w_sys k s).

Definition load_process k (name file : list Z) (size cmd : Z) : outcome (Z * kernel) :=
  let '(proc, s) := process_create_user (sched k) name 0 0 in
  let k := w_sys k s in
  if nz proc && nz (threads (pget s proc)) then
    '(img, m) ← pe_load (machine_of k) (Some file) size (page_directory (pget s proc));
    let k := put_machine k m in
    match img with
    | Some (ep, ust) => start_process k proc ep ust cmd
    | None =>
        Done (KERR_IO, w_sys k (tupd (sched k) (threads (pget (sched k) proc)) (w_tstate THREAD_STATE_TERMINATED)))
    end
  else Done (KERR_NOMEM, k).

Definition sys_exec k (name cmd : Z) : outcome (Z * kernel) :=
  if negb (syscall_validate_ptr name 1) then fault k
  else
    path ← user_string fuel k name;
    let '(node, k) := find_node k path in
    if node =? 0 then Done (KERR_NOTFOUND, k)
    else
      let size := nlength (node_at (fs_of k) node) in
      let '(file_buf, s) := kmalloc_sys (sched k) size in
      let k := w_sys k s in
      if file_buf =? 0 then Done (KERR_NOMEM, k)
      else
        let '(_, file, w) := vfs_read (fs_of k) node 0 size (fresh (heap s) file_buf size) in
        '(ret, k) ← load_process (put_fs k w) path file size cmd;
        Done (ret, w_sys k (kfree_sys (sched k) file_buf)).

(** [kernel_dirent_t], packed, up to the terminator of the name. *)
Definition sizeof_dirent : Z := 141.
Definition dirent_bytes (n : vfs_node) : list Z :=
  let nl := Z.min (strlen (nname n)) 127 in
  le_bytes 4 (inode n) ++ le_bytes 4 (nlength n) ++ le_bytes 2 sizeof_dirent ++ le_bytes 2 (mask n) ++
  [if nz (Z.land (flags n) VFS_DIRECTORY) then 2 else 1] ++
  kstrncpy (replicate (Z.to_nat nl) 0) 0 (nname n) nl ++ [0].

Definition sys_getdents k (fd buf index : Z) : outcome (Z * kernel) :=
  if negb (syscall_validate_ptr buf 128) then fault k
  else if nz (current_process k) && (3 <=? fd) && (fd <? MAX_PROCESS_FDS) && nz ((fd_table (proc_of k)).[fd]) then
    let dir := (fd_table (proc_of k)).[fd] in
    if Z.land (flags (node_at (fs_of k) dir)) VFS_DIRECTORY =? VFS_DIRECTORY then
      let '(child, w) := vfs_readdir (fs_of k) dir index in
      let k := put_fs k w in
      if nz child then
        k ← store_bytes k buf (dirent_bytes (node_at (fs_of k) child));
        Done (1, w_sys k (kfree_sys (sched k) child))
      else Done (0, k)
    else Done (KERR_INVAL, k)
  else Done (KERR_INVAL, k).

Definition sys_getcmdline k (buf size : Z) : outcome (Z * kernel) :=
  if negb (syscall_validate_ptr buf size) then fault k
  else if nz (current_process k) && (0 <? size) then
    let line := kstrncpy (replicate (Z.to_nat (size - 1)) 0) 0 (cmdline (proc_of k)) (size - 1) in
    k ← store_bytes k buf (line ++ [0]);
    Done (KERR_OK, k)
  else Done (KERR_INVAL, k).

Definition sys_netsend k (dst_ip port buf len : Z) : outcome (Z * kernel) :=
  let port := u16 port in
  let len := u16 len in
  if negb (syscall_validate_ptr buf len) then fault k
  else
    '(ok, k) ← udp_send junk fuel k dst_ip port (mapped (Z.to_nat len) k buf) len;
    Done (if ok : bool then KERR_OK else KERR_IO, k).

Definition sys_netrecv k (port buf maxlen : Z) : outcome (Z * kernel) :=
  let port := u16 port in
  let maxlen := u16 maxlen in
  if negb (syscall_validate_ptr buf maxlen) then fault k
  else
    '(n, dest, k) ← udp_recv fuel resume k port (mapped (Z.to_nat maxlen) k buf) maxlen;
    k ← write_back k buf dest n;
    Done (n, k).

Definition w_mask (v : Z) (n : vfs_node) : vfs_node :=
  mk_node (nname n) v (uid n) (gid n) (flags n) (inode n) (nlength n) (impl n) (f_read n) (f_write n) (f_open n)
    (f_close n) (f_readdir n) (f_finddir n) (f_create n) (f_unlink n) (f_mkdir n) (nptr n) (device_data n).

Definition sys_chmod k (path mode : Z) : outcome (Z * kernel) :=
  if negb (syscall_validate_ptr path 1) then fault k
  else
    p ← user_string fuel k path;
    let '(node, k) := find_node k p in
    if nz node then Done (KERR_OK, put_fs k (put_node (fs_of k) node (w_mask mode (node_at (fs_of k) node))))
    else Done (KERR_NOSYS, k).

(** SYS_UNLINK, SYS_MKDIR and SYS_CREATE, which differ in the operation on the parent. *)
Definition sys_in_parent (op : W → Z → list Z → bool * W) k (path : Z) : outcome (Z * kernel) :=
  if negb (syscall_validate_ptr path 1) then fault k
  else
    p ← user_string fuel k path;
    '(parent_path, name) ← split_path (uninit junk 128) (uninit junk 128) p;
    let '(parent, k) := find_node k parent_path in
    if nz parent then
      let '(ok, w) := op (fs_of k) parent name in
      Done (if ok : bool then KERR_OK else KERR_IO, put_fs k w)
    else Done (KERR_NOTFOUND, k).

Definition sys_unlink k (path : Z) : outcome (Z * kernel) := sys_in_parent vfs_unlink k path.
Definition sys_mkdir k (path : Z) : outcome (Z * kernel) :=
  sys_in_parent (λ w node name, let '(n, w) := vfs_mkdir w node name in (nz n, w)) k path.
Definition sys_create k (path : Z) : outcome (Z * kernel) :=
  sys_in_parent (λ w node name, let '(n, w) := vfs_create w node name in (nz n, w)) k path.

(** One line of SYS_PS into [n] bytes at [at_].  A line is at most 11 + 31 + 127 characters
    and punctuation, so that the 512 bytes in view are enough for any [n]. *)
Definition ps_line k (p at_ n : Z) : outcome kernel :=
  let pr := pget (sched k) p in
  s ← ksnprintf (λ a, if a =? u32 (p + 16) then pname pr else cmdline pr) (uninit junk 32)
        (Some (mapped (Z.to_nat (Z.min n 512)) k at_)) n ps_format [pid pr; u32 (p + 16); u32 (p + 48)];
  let s := default [] s in
  store_bytes k at_ (take (Z.to_nat (strlen s + 1)) s).

Fixpoint ps_loop (rounds : nat) k (p buf size offset : Z) : outcome kernel :=
  if nz p && (offset <? u32 (size - 128)) then
    match rounds with
    | O => NoFuel
    | S rounds' =>
        k ← ps_line k p (u32 (buf + offset)) (u32 (size - offset));
        s ← user_string fuel k (u32 (buf + offset));
        ps_loop rounds' k (pnext (pget (sched k) p)) buf size (u32 (offset + strlen s))
    end
  else Done k.

Definition sys_ps k (buf size : Z) : outcome (Z * kernel) :=
  if negb (syscall_validate_ptr buf size) then fault k
  else
    k ← ps_loop fuel k (process_get_list (sched k)) buf size 0;
    Done (KERR_OK, k).

(** The status is stored when a child was reaped. *)
Definition sys_waitpid k (target_pid status_ptr : Z) : outcome (Z * kernel) :=
  if nz status_ptr && negb (syscall_validate_ptr status_ptr 4) then fault k
  else
    '(ret, status, s) ← of_fuel (process_waitpid fuel tick (sched k) target_pid);
    let k := w_sys k s in
    k ← (if nz status_ptr && negb (ret =? -1) then store_bytes k status_ptr (le_bytes 4 status) else Done k);
    Done (ret, k).

Definition sys_kill k (target_pid sig : Z) : outcome (Z * kernel) :=
  target ← of_fuel (process_get_by_pid fuel (sched k) target_pid);
  if target =? 0 then Done (KERR_NOTFOUND, k)
  else
    s ← of_fuel (process_terminate close_node fuel (sched k) target (s32 (128 + sig)));
    Done (KERR_OK, w_sys k s).

(** The chain of [else if]s. *)
Definition syscall_dispatch k r : outcome (Z * kernel) :=
  let num := eax r in
  if num =? SYS_WRITE then sys_write k (s32 (ebx r)) (ecx r) (edx r)
  else if num =? SYS_READ then sys_read k (s32 (ebx r)) (ecx r) (edx r)
  else if num =? SYS_OPEN then sys_open k (ebx r)
  else if num =? SYS_CLOSE then sys_close k (s32 (ebx r))
  else if num =? 11 then sys_exec k (ebx r) (ecx r)
  else if num =? 78 then sys_getdents k (s32 (ebx r)) (ecx r) (edx r)
  else if num =? 12 then sys_getcmdline k (ebx r) (ecx r)
  else if num =? 13 then sys_netsend k (ebx r) (ecx r) (edx r) (esi r)
  else if num =? 14 then sys_netrecv k (ebx r) (ecx r) (edx r)
  else if num =? 15 then sys_chmod k (ebx r) (ecx r)
  else if num =? 16 then sys_unlink k (ebx r)
  else if num =? 17 then sys_mkdir k (ebx r)
  else if num =? 18 then sys_create k (ebx r)
  else if num =? 19 then sys_ps k (ebx r) (ecx r)
  else if num =? 7 then sys_waitpid k (ebx r) (ecx r)
  else if num =? 37 then sys_kill k (ebx r) (s32 (ecx r))
  else Done (KERR_NOSYS, k).

Definition sys_exit k r : outcome (sysret * kernel) :=
  let p := current_process k in
  s ← (if nz p then of_fuel (process_terminate close_node fuel (sched k) p (s32 (ebx r))) else Done (sched k));
  Done (Reschedule r, w_sys k s).

Definition syscall_handler k r : outcome (sysret * kernel) :=
  if eax r =? SYS_REBOOT then Done (Reboot, k)
  else if eax r =? SYS_SHUTDOWN then Done (Shutdown, k)
  else if eax r =? SYS_EXIT then sys_exit k r
  else
    '(ret, k) ← syscall_dispatch k r;
    Done (Return (w_eax (u32 ret) r), k).
End syscall.

(** ** Which pointers are accepted *)

(** Up to a gigabyte nothing wraps around. *)
Lemma validate_ptr_range p n :
  0 <= p < 0x100000000 → 0 <= n <= 0x40000000 →
  syscall_validate_ptr p n = true ↔
    USER_SPACE_MIN <= p <= USER_SPACE_MAX ∧ ∀ i, 0 <= i < n → USER_SPACE_MIN <= p + i <= USER_SPACE_MAX.
Proof.
  intros Hp Hs. unfold syscall_validate_ptr, USER_SPACE_MIN, USER_SPACE_MAX.
  destruct (Z.eqb_spec p 0), (Z.ltb_spec p 0x400000), (Z.ltb_spec 0xBFFFFFFF p); try (split; [done|lia]).
  assert (0 < n → u32 (u32 (p + n) - 1) = p + n - 1) as Hu by (intros; words).
  destruct (Z.ltb_spec 0 n); cbn [andb].
  - rewrite Hu by done. destruct (Z.ltb_spec 0xBFFFFFFF (p + n - 1)).
    + split; [done|]. intros [_ Hi]. specialize (Hi (n - 1)). lia.
    + split; [|done]. intros _. split; [lia|]. intros i Hi. lia.
  - split; [|done]. intros _. split; [lia|]. intros i Hi. lia.
Qed.

(** C17: [syscall_validate_ptr] decides what it is meant to decide, that every byte of the
    buffer lies in user space, for all sizes up to a gigabyte; from 0x40000002 on there is for
    every size a pointer it accepts although the buffer runs into the kernel, because the sum
    wraps around. *)
Theorem validate_ptr_exact p n :
  0 <= p < 0x100000000 → 0 <= n < 0x100000000 →
  (n <= 0x40000000 →
   syscall_validate_ptr p n = true ↔
     USER_SPACE_MIN <= p <= USER_SPACE_MAX ∧ ∀ i, 0 <= i < n → USER_SPACE_MIN <= p + i <= USER_SPACE_MAX) ∧
  (0x40000001 < n → syscall_validate_ptr USER_SPACE_MAX n = true ∧ KERNEL_VIRT_BASE < USER_SPACE_MAX + (n - 1)).
Proof.
  intros Hp Hn. split; [intros Hs; apply validate_ptr_range; lia|]. intros Hs.
  unfold syscall_validate_ptr, USER_SPACE_MIN, USER_SPACE_MAX, KERNEL_VIRT_BASE.
  cbn [Z.eqb Z.ltb Z.compare Pos.compare Pos.compare_cont].
  assert (u32 (u32 (0xBFFFFFFF + n) - 1) = n - 0x40000002) as -> by words.
  destruct (Z.ltb_spec 0xBFFFFFFF (n - 0x40000002)); [lia|]. rewrite andb_false_r. split; [done|lia].
Qed.

Lemma validate_ptr_exact_witness :
  syscall_validate_ptr 0xBFFFFFF0 16 = true ∧ syscall_validate_ptr 0xBFFFFFF0 17 = false ∧
  syscall_validate_ptr USER_SPACE_MAX 0x50000000 = true.
Proof.
  split; [|split; [by vm_compute|]].
  - apply (validate_ptr_exact 0xBFFFFFF0 16); [lia|lia|lia|]. unfold USER_SPACE_MIN, USER_SPACE_MAX.
    split; [lia|]. intros i Hi. lia.
  - apply (validate_ptr_exact USER_SPACE_MAX 0x50000000); [by vm_compute|lia|lia].
Defined.

(** ** Splitting a path *)

Lemma kstrncpy_front dest src n :
  0 <= n <= alen dest → kstrncpy dest 0 src n =
    take (Z.to_nat n) (cstr src ++ replicate (Z.to_nat n) 0) ++ drop (Z.to_nat n) dest.
Proof.
  intros Hn. rewrite kstrncpy_pads by lia. set (t := take _ _).
  assert (length t = Z.to_nat n) as Ht by (unfold t; rewrite length_take, length_app, length_replicate; lia).
  unfold splice. rewrite take_0, Ht, app_nil_l. done.
Qed.

Lemma cstr_Forall s : Forall (λ c, c ≠ 0) (cstr s).
Proof. apply Forall_forall. intros c. apply cstr_nonzero. Qed.

(** A copy with room to spare is the string. *)
Lemma cstr_kstrncpy dest src n :
  0 <= n <= alen dest → alen (cstr src) < n → cstr (kstrncpy dest 0 src n) = cstr src.
Proof.
  intros Hn Hl. rewrite kstrncpy_front by done. unfold alen in *.
  rewrite take_app, (take_ge (cstr src)) by lia.
  destruct (Z.to_nat n - length (cstr src))%nat as [|m] eqn:Em; [lia|].
  assert (∃ l, take (S m) (replicate (Z.to_nat n) 0) = 0 :: l) as [l ->].
  { destruct (Z.to_nat n); [lia|]. by eexists. }
  rewrite <-app_assoc. apply cstr_app_0, cstr_Forall.
Qed.

(** The beginning of a string, cut and terminated. *)
Lemma cstr_cut dest s t n :
  alen s = n → 0 <= n < alen dest → Forall (λ c, c ≠ 0) s →
  cstr ((kstrncpy dest 0 (s ++ t) n).[n <- 0]) = s.
Proof.
  intros Hl Hn Hs. rewrite kstrncpy_front by lia. unfold alen in *.
  assert (take (Z.to_nat n) (cstr (s ++ t) ++ replicate (Z.to_nat n) 0) = s) as ->.
  { assert (∃ u, cstr (s ++ t) = s ++ u) as [u ->].
    { clear -Hs. induction Hs as [|c s Hc Hs [u IH]]; [by exists (cstr t)|]. exists u. cbn.
      rewrite (proj2 (Z.eqb_neq c 0)) by done. by rewrite IH. }
    rewrite <-app_assoc. by rewrite take_app_length' by lia. }
  unfold aset. destruct (Z.ltb_spec n 0); [lia|]. rewrite insert_app_r_alt by lia.
  replace (Z.to_nat n - length s)%nat with 0%nat by lia.
  destruct (drop (Z.to_nat n) dest) as [|x l] eqn:Ed.
  - apply (f_equal length) in Ed. rewrite length_drop in Ed. cbn in Ed. lia.
  - cbn. by apply cstr_app_0.
Qed.

Lemma find_slash_name name : ∀ i last,
  Forall (λ c, c ≠ 0 ∧ c ≠ SLASH) name → find_slash (name ++ [0]) i last = last.
Proof.
  induction name as [|c name IH]; intros i last Hn; [done|]. apply Forall_cons in Hn as [[? ?] Hn]. cbn.
  rewrite !(proj2 (Z.eqb_neq c _)) by done. by apply IH.
Qed.

Lemma find_slash_path parent name : ∀ i last,
  Forall (λ c, c ≠ 0) parent → Forall (λ c, c ≠ 0 ∧ c ≠ SLASH) name →
  find_slash (parent ++ SLASH :: name ++ [0]) i last = i + alen parent.
Proof.
  induction parent as [|c parent IH]; intros i last Hp Hn.
  - cbn. rewrite find_slash_name by done. rewrite alen_nil. lia.
  - apply Forall_cons in Hp as [Hc Hp]. cbn [app find_slash]. rewrite (proj2 (Z.eqb_neq c 0)) by done.
    rewrite IH by done. arr. lia.
Qed.

(** A path is split at its last separator: for names of up to 126 characters the two
    buffers hold the parent (the root directory when there is none) and the name, whatever
    was on the stack; a parent of 128 characters or more is written past its buffer. *)
Theorem split_path_spec s1 s2 parent name :
  alen s1 = 128 → alen s2 = 128 → Forall (λ c, c ≠ 0) parent → Forall (λ c, c ≠ 0 ∧ c ≠ SLASH) name →
  alen name <= 126 →
  (alen parent < 128 → ∃ pp nm, split_path s1 s2 (parent ++ SLASH :: name ++ [0]) = Done (pp, nm) ∧
     cstr pp = (if decide (parent = []) then [SLASH] else parent) ∧ cstr nm = name) ∧
  (128 <= alen parent → split_path s1 s2 (parent ++ SLASH :: name ++ [0]) = Fault) ∧
  (∃ pp nm, split_path s1 s2 (name ++ [0]) = Done (pp, nm) ∧ cstr pp = [SLASH] ∧ cstr nm = name).
Proof.
  intros L1 L2 Hp Hn Hl. unfold split_path. rewrite find_slash_path, find_slash_name by done. rewrite Z.add_0_l.
  pose proof (alen_nonneg parent).
  assert (cstr (name ++ [0]) = name) as Cn.
  { apply cstr_app_0. eapply Forall_impl; [exact Hn|]. by intros ? []. }
  assert (cstr (kstrncpy s1 0 [SLASH; 0] 2) = [SLASH]) as Cr by (rewrite cstr_kstrncpy; [done|lia|done]).
  assert (drop (Z.to_nat (alen parent + 1)) (parent ++ SLASH :: name ++ [0]) = name ++ [0]) as ->.
  { rewrite (cons_middle SLASH parent), app_assoc. apply drop_app_length'. rewrite length_app. unfold alen. cbn. lia. }
  split_and!.
  - intros Hs. destruct (Z.eqb_spec (alen parent) (-1)); [lia|].
    destruct (Z.eqb_spec (alen parent) 0) as [E0|E0]; [|destruct (Z.leb_spec 128 (alen parent)); [lia|]];
      cbn [mbind outcome_bind]; eexists _, _; (split; [reflexivity|]);
      (split; [|rewrite cstr_kstrncpy, Cn by (rewrite ?Cn; lia); done]).
    + destruct parent; [done|]. arr_lia.
    + rewrite decide_False by (intros ->; done). apply cstr_cut; done || lia.
  - intros Hs. destruct (Z.eqb_spec (alen parent) (-1)), (Z.eqb_spec (alen parent) 0), (Z.leb_spec 128 (alen parent));
      try lia. done.
  - cbn. eexists _, _. split; [reflexivity|]. split; [done|]. rewrite cstr_kstrncpy, Cn by (rewrite ?Cn; lia). done.
Qed.

Lemma split_path_spec_witness :
  ∃ pp nm, split_path (replicate 128 9) (replicate 128 9) [47; 97; 47; 98; 0] = Done (pp, nm) ∧
    cstr pp = [47; 97] ∧ cstr nm = [98].
Proof.
  apply (split_path_spec (replicate 128 9) (replicate 128 9) [47; 97] [98] eq_refl eq_refl).
  - by repeat constructor.
  - by repeat constructor.
  - done.
  - done.
Defined.

(** ** Rejected calls *)

(** The pointer a call is rejected for and the size that is checked with it; SYS_WAITPID
    accepts NULL.  SYS_EXEC takes a second pointer, the command line in ECX, which is checked
    too but not rejected: an invalid one counts as none. *)
Definition pointer_arg (r : registers_t) : option (Z * Z) :=
  let num := eax r in
  if (num =? SYS_WRITE) || (num =? SYS_READ) then Some (ecx r, edx r)
  else if (num =? SYS_OPEN) || (num =? 11) || (num =? 15) || (num =? 16) || (num =? 17) || (num =? 18)
  then Some (ebx r, 1)
  else if num =? 78 then Some (ecx r, 128)
  else if (num =? 12) || (num =? 19) then Some (ebx r, ecx r)
  else if num =? 13 then Some (edx r, u16 (esi r))
  else if num =? 14 then Some (ecx r, u16 (edx r))
  else if num =? 7 then (if nz (ecx r) then Some (ecx r, 4) else None)
  else None.

Definition syscall_numbers : list Z := [1; 3; 4; 5; 6; 7; 11; 12; 13; 14; 15; 16; 17; 18; 19; 37; 78; 88; 89].

(** [by_number] decides the comparisons of a call number. *)
Ltac by_number :=
  repeat match goal with
  | |- context [?x =? ?y] => is_var x; destruct (Z.eqb_spec x y); [subst x|]
  | H : context [?x =? ?y] |- _ => is_var x; destruct (Z.eqb_spec x y); [subst x|]
  end.

Section calls.
Context {L H F W U : Type} `{Link L} `{HeapAlloc H} `{FrameAllocatorLaws F ok taken managed} `{VfsWorld W}
  `{!OnHeap W H} `{PortIO U}.
Notation system := (sys H F (rest W U)).
Notation kernel := (net L system wait_queue_t).
Variables (fuel : nat) (resume : kernel → kernel) (tick : system → system).
Variables (fresh : H → Z → Z → list Z) (junk : Z → Z).
Implicit Types (k : kernel) (r : registers_t).
Notation handler := (syscall_handler fuel resume tick fresh junk).

(** The command line of SYS_EXEC: a pointer that does not pass the check is as good as NULL. *)
Lemma sys_exec_bad_line k name cmd :
  syscall_validate_ptr cmd 1 = false → sys_exec fuel fresh k name cmd = sys_exec fuel fresh k name 0.
Proof.
  intros Hv. unfold sys_exec, load_process, start_process. by rewrite Hv, andb_false_r.
Qed.


(** ** Descriptors

    The abstract table of a process: the nodes by descriptor.  Opening takes the lowest free
    descriptor from 3 on, closing forgets one. *)

Definition table_free (T : gmap Z Z) : option Z :=
  zfind (λ i, bool_decide (T !! i = None)) 3 (Z.to_nat (MAX_PROCESS_FDS - 3)).

Definition table_open (T : gmap Z Z) (node : Z) : Z * gmap Z Z :=
  if node =? 0 then (KERR_NOTFOUND, T)
  else match table_free T with Some i => (i, <[i := node]> T) | None => (KERR_NOTFOUND, T) end.

Definition table_close (T : gmap Z Z) (fd : Z) : Z * gmap Z Z :=
  match T !! fd with Some _ => (KERR_OK, delete fd T) | None => (KERR_INVAL, T) end.

Record holds_table k (T : gmap Z Z) : Prop := {
  ht_proc : current_process k ≠ 0;
  ht_len : alen (fd_table (proc_of k)) = MAX_PROCESS_FDS;
  ht_dom fd : is_Some (T !! fd) → 3 <= fd < MAX_PROCESS_FDS;
  ht_val fd node : T !! fd = Some node → node ≠ 0;
  ht_fds i : 0 <= i < MAX_PROCESS_FDS → (fd_table (proc_of k)).[i] = default 0 (T !! i) }.

Lemma current_put_fs k w : current_process (put_fs k w) = current_process k.
Proof. done. Qed.
Lemma proc_put_fs k w : proc_of (put_fs k w) = proc_of k.
Proof. done. Qed.

Lemma current_set_fd k p fd node : current_process (set_fd k p fd node) = current_process k.
Proof. done. Qed.
Lemma proc_set_fd k fd node :
  proc_of (set_fd k (current_process k) fd node) = w_fd_table ((fd_table (proc_of k)).[fd <- node]) (proc_of k).
Proof.
  unfold proc_of. rewrite current_set_fd. unfold set_fd, w_sys, pupd. cbn [sched w_sched].
  rewrite pget_pput, Z.eqb_refl. done.
Qed.

Lemma holds_table_fs k w T : holds_table k T → holds_table (put_fs k w) T.
Proof. by intros [? ? ? ? ?]; constructor; rewrite ?proc_put_fs. Qed.

Lemma free_fd_table k T : holds_table k T → free_fd (fd_table (proc_of k)) = table_free T.
Proof.
  intros [_ _ _ Hv Hf]. apply zfind_ext. intros i Hi. unfold MAX_PROCESS_FDS in *. rewrite Hf by lia.
  destruct (T !! i) as [n|] eqn:E; cbn.
  - apply Z.eqb_neq. by eapply Hv.
  - done.
Qed.

Lemma holds_table_set k T fd node T' :
  holds_table k T → 3 <= fd < MAX_PROCESS_FDS → (T' = delete fd T ∧ node = 0 ∨ T' = <[fd := node]> T ∧ node ≠ 0) →
  holds_table (set_fd k (current_process k) fd node) T'.
Proof.
  intros [A1 A2 A3 A4 A5] Hfd HT. unfold MAX_PROCESS_FDS in *.
  constructor; rewrite ?current_set_fd, ?proc_set_fd; cbn [fd_table w_fd_table]; unfold MAX_PROCESS_FDS in *.
  - done.
  - by rewrite alen_aset.
  - intros j. destruct HT as [[-> _] | [-> _]].
    + intros [x [_ Hx]%lookup_delete_Some]. eauto.
    + destruct (decide (j = fd)) as [->|]; [done|]. rewrite lookup_insert_ne by done. auto.
  - intros j x. destruct HT as [[-> _] | [-> ?]].
    + intros [_ Hx]%lookup_delete_Some. eauto.
    + intros [[_ <-] | [_ Hx]]%lookup_insert_Some; eauto.
  - intros i Hi. rewrite aget_aset by lia. destruct (Z.eqb_spec i fd) as [->|Hne].
    + destruct HT as [[-> ->] | [-> ?]]; [by rewrite lookup_delete_eq|by rewrite lookup_insert_eq].
    + rewrite A5 by lia. destruct HT as [[-> ->] | [-> ?]]; [by rewrite lookup_delete_ne|by rewrite lookup_insert_ne].
Qed.

Lemma sys_open_table k T name path :
  holds_table k T → syscall_validate_ptr name 1 = true → user_string fuel k name = Done path →
  ∃ k', sys_open fuel k name = Done ((table_open T (find_node k path).1).1, k') ∧
    holds_table k' (table_open T (find_node k path).1).2.
Proof.
  intros HT Hv Hs. unfold sys_open, table_open. rewrite Hv, Hs. cbn [negb mbind outcome_bind].
  destruct (find_node k path) as [node k1] eqn:En. unfold find_node in En.
  destruct (vfs_find_path _ _ _ _) as [n w]. injection En as <- <-. cbn [fst].
  pose proof (holds_table_fs _ w _ HT) as HT1. rewrite (free_fd_table _ _ HT1).
  pose proof (ht_proc _ _ HT1). unfold nz. rewrite (proj2 (Z.eqb_neq _ 0)) by done.
  destruct (Z.eqb_spec n 0); cbn [negb andb]; [by eexists|].
  destruct (table_free T) as [i|] eqn:Ef; [|by eexists]. eexists. split; [done|].
  apply zfind_Some in Ef as (Hi & _). unfold MAX_PROCESS_FDS in *.
  eapply holds_table_set; [done|unfold MAX_PROCESS_FDS; lia|by right].
Qed.

Lemma sys_close_table k T fd :
  holds_table k T →
  ∃ k', sys_close k fd = Done ((table_close T fd).1, k') ∧ holds_table k' (table_close T fd).2.
Proof.
  intros HT. pose proof HT as [A1 A2 A3 A4 A5]. unfold sys_close, table_close. unfold nz at 1.
  rewrite (proj2 (Z.eqb_neq _ 0)) by done. cbn [negb andb].
  destruct (T !! fd) as [n|] eqn:E.
  - pose proof (A3 fd (mk_is_Some _ _ E)) as Hfd. unfold MAX_PROCESS_FDS in *.
    rewrite A5, E by lia. change (default 0 (Some n)) with n. unfold nz.
    rewrite (proj2 (Z.eqb_neq n 0)) by eauto. destruct (Z.leb_spec 3 fd), (Z.ltb_spec fd 16); try lia. cbn [negb andb].
    eexists. split; [done|]. rewrite <-(current_put_fs k (vfs_close (fs_of k) n)).
    eapply holds_table_set; [by apply holds_table_fs|unfold MAX_PROCESS_FDS; lia|by left].
  - exists k. split; [|done]. destruct (Z.leb_spec 3 fd), (Z.ltb_spec fd MAX_PROCESS_FDS); try done.
    unfold MAX_PROCESS_FDS in *. rewrite A5, E by lia. done.
Qed.

(** C13: The descriptor calls implement an abstract table: SYS_OPEN of a path that resolves
    to a node returns the lowest free descriptor from 3 on and binds it, or KERR_NOTFOUND
    when the path does not resolve or all 13 are taken; SYS_CLOSE frees exactly the
    descriptor it names or returns KERR_INVAL; whatever the file system does meanwhile, no
    other descriptor changes. *)
Theorem descriptors_refine k T r :
  holds_table k T →
  (∀ path, eax r = SYS_OPEN → syscall_validate_ptr (ebx r) 1 = true → user_string fuel k (ebx r) = Done path →
   ∃ k', let '(ret, T') := table_open T (find_node k path).1 in
     handler k r = Done (Return (w_eax (u32 ret) r), k') ∧ holds_table k' T') ∧
  (eax r = SYS_CLOSE →
   ∃ k', let '(ret, T') := table_close T (s32 (ebx r)) in
     handler k r = Done (Return (w_eax (u32 ret) r), k') ∧ holds_table k' T').
Proof.
  intros HT. split.
  - intros path En Hv Hs. destruct (sys_open_table k T (ebx r) path HT Hv Hs) as (k' & E & HT').
    exists k'. destruct (table_open _ _) as [ret T']. unfold syscall_handler, syscall_dispatch. rewrite En.
    cbn [Z.eqb Pos.eqb SYS_OPEN SYS_REBOOT SYS_SHUTDOWN SYS_EXIT SYS_WRITE SYS_READ]. rewrite E. done.
  - intros En. destruct (sys_close_table k T (s32 (ebx r)) HT) as (k' & E & HT').
    exists k'. destruct (table_close _ _) as [ret T']. unfold syscall_handler, syscall_dispatch. rewrite En.
    cbn [Z.eqb Pos.eqb SYS_OPEN SYS_CLOSE SYS_REBOOT SYS_SHUTDOWN SYS_EXIT SYS_WRITE SYS_READ]. rewrite E. done.
Qed.

(** ** User memory

    The process runs in the directory of frame [d], which is loaded. *)

Definition user_dir k (d : Z) : Prop :=
  space_ok (ok := ok) (taken := taken) (machine_of k) d ∧ Pe.active (machine_of k) d.

Definition uview k (d v : Z) : option Z := view (machine_of k) d v.

Definition at_user k (d p : Z) (data : list Z) : Prop :=
  ∀ i, 0 <= i < alen data → uview k d (p + i) = Some (data.[i]).

Lemma load_view k d v : user_dir k d → v < KERNEL_VIRT_BASE → load k v = uview k d v.
Proof.
  intros [_ [_ Hc]] Hv. unfold load, uview, view, mmu. destruct (Z.ltb_spec v KERNEL_VIRT_BASE); [|lia].
  rewrite Hc, Z.mul_comm, Z.div_mul by lia. by destruct (Vmm.walk _ _ _).
Qed.

Lemma at_user_cons k d p c data : at_user k d p (c :: data) → uview k d p = Some c ∧ at_user k d (p + 1) data.
Proof.
  intros Ha. pose proof (alen_nonneg data). split.
  - specialize (Ha 0). rewrite Z.add_0_r in Ha. apply Ha. arr. lia.
  - intros i Hi. replace (p + 1 + i) with (p + (i + 1)) by lia. rewrite Ha by (arr; lia).
    rewrite aget_cons_S by lia. do 2 f_equal. lia.
Qed.

Lemma mapped_at k d data : ∀ p,
  user_dir k d → 0 <= p → p + alen data <= KERNEL_VIRT_BASE → at_user k d p data → mapped (length data) k p = data.
Proof.
  induction data as [|c data IH]; intros p Hd Hp Hl Ha; [done|]. apply at_user_cons in Ha as [Hc Ha].
  arr. pose proof (alen_nonneg data). unfold KERNEL_VIRT_BASE in *. cbn [length mapped].
  rewrite (load_view k d) by (done || (unfold KERNEL_VIRT_BASE; lia)). rewrite Hc, u32_small by lia. f_equal. apply IH; done || lia.
Qed.

Lemma user_bytes_at k d p data :
  user_dir k d → 0 <= p → p + alen data <= KERNEL_VIRT_BASE → at_user k d p data →
  user_bytes k p (alen data) = Done data.
Proof.
  intros. unfold user_bytes. replace (Z.to_nat (alen data)) with (length data) by (unfold alen; lia).
  rewrite (mapped_at k d) by done. by rewrite Z.eqb_refl.
Qed.

Lemma alen_mapped k d n : ∀ p,
  user_dir k d → 0 <= p → p + Z.of_nat n <= KERNEL_VIRT_BASE →
  (∀ i, 0 <= i < Z.of_nat n → is_Some (uview k d (p + i))) → alen (mapped n k p) = Z.of_nat n.
Proof.
  induction n as [|n IH]; intros p Hd Hp Hl Ha; [done|]. unfold KERNEL_VIRT_BASE in *. cbn [mapped].
  rewrite (load_view k d) by (done || (unfold KERNEL_VIRT_BASE; lia)).
  destruct (Ha 0 ltac:(lia)) as [b Hb]. rewrite Z.add_0_r in Hb. rewrite Hb, u32_small by lia. arr.
  rewrite IH; [lia|done|lia|lia|]. intros i Hi. replace (p + 1 + i) with (p + (i + 1)) by lia. apply Ha. lia.
Qed.

(** A string in user memory. *)
Lemma user_string_at k d s : ∀ p n,
  user_dir k d → 0 <= p → p + alen s + 1 <= KERNEL_VIRT_BASE → Forall (λ c, c ≠ 0) s → at_user k d p (s ++ [0]) →
  (length s < n)%nat → user_string n k p = Done (s ++ [0]).
Proof.
  induction s as [|c s IH]; intros p n Hd Hp Hl Hs Ha Hn; (destruct n as [|n]; [lia|]); cbn [user_string];
    arr; unfold KERNEL_VIRT_BASE in *.
  - apply at_user_cons in Ha as [Hc _]. rewrite (load_view k d) by (done || (unfold KERNEL_VIRT_BASE; lia)). by rewrite Hc.
  - apply at_user_cons in Ha as [Hc Ha]. pose proof (alen_nonneg s).
    rewrite (load_view k d) by (done || (unfold KERNEL_VIRT_BASE; lia)). rewrite Hc.
    apply Forall_cons in Hs as [Hc0 Hs]. rewrite (proj2 (Z.eqb_neq c 0)) by done. rewrite u32_small by lia.
    rewrite IH; [done|done|lia|lia|done|done|cbn in Hn; lia].
Qed.

Lemma machine_put k m : machine_of (put_machine k m) = m.
Proof. by destruct m. Qed.

(** Storing bytes changes the buffer and nothing else of the address space. *)
Lemma store_bytes_view k d p b :
  user_dir k d → 0 <= p → p + alen b <= KERNEL_VIRT_BASE →
  (∀ i, 0 <= i < alen b → is_Some (uview k d (p + i))) →
  ∃ m, store_bytes k p b = Done (put_machine k m) ∧ Pe.vm m = Process.vm (sched k) ∧
    ∀ v, 0 <= v < KERNEL_VIRT_BASE →
      view m d v = if (p <=? v) && (v <? p + alen b) then Some (b.[v - p]) else uview k d v.
Proof.
  intros [Hs Ha] Hp Hl Hm. unfold store_bytes.
  destruct (store_range (machine_of k) d p (length b) (λ i, b.[i]) (λ i, Done (b.[i])) Hs Ha Hp Hl)
    as (m & E & Hv & Hw); [done|done|].
  exists m. rewrite E. done.
Qed.

Lemma user_dir_machine k d m : Pe.vm m = Process.vm (sched k) → user_dir k d → user_dir (put_machine k m) d.
Proof.
  intros E [Hs Ha]. unfold user_dir. rewrite machine_put. split.
  - by eapply space_ok_vm; [|exact Hs].
  - unfold Pe.active. by rewrite E.
Qed.

(** ** The console calls *)

Lemma validate_fits p n :
  0 <= p < 0x100000000 → 0 <= n <= 0x40000000 → syscall_validate_ptr p n = true →
  0 <= p ∧ p + n <= KERNEL_VIRT_BASE.
Proof.
  intros Hp Hn Hv. apply validate_ptr_range in Hv as [Hv1 Hv2]; [|lia|lia].
  unfold USER_SPACE_MAX, KERNEL_VIRT_BASE in *. destruct (decide (n = 0)); [lia|]. specialize (Hv2 (n - 1)). lia.
Qed.

(** SYS_READ on descriptor 0 moves the typed line into the caller's memory: the bytes up
    to and including the first newline (padded with NULs when the line is not complete)
    appear at the buffer, the rest of the address space is unchanged, the result is their
    number, and exactly they leave the line buffer. *)
Theorem sys_read_console k d r :
  eax r = SYS_READ → ebx r = 0 → 0 <= ecx r < 0x100000000 → 0 <= edx r <= 0x40000000 →
  syscall_validate_ptr (ecx r) (edx r) = true → user_dir k d → Tty.inv (k_tty (env k)) →
  (∀ i, 0 <= i < edx r → is_Some (uview k d (ecx r + i))) →
  let line := Tty.read_line (Z.to_nat (edx r)) (Tty.contents (k_tty (env k))) in
  ∃ k', handler k r = Done (Return (w_eax (alen line) r), k') ∧
    (∀ v, 0 <= v < KERNEL_VIRT_BASE →
       uview k' d v = if (ecx r <=? v) && (v <? ecx r + alen line) then Some (line.[v - ecx r]) else uview k d v) ∧
    user_dir k' d ∧ Tty.inv (k_tty (env k')) ∧
    Tty.contents (k_tty (env k')) = drop (length line) (Tty.contents (k_tty (env k))).
Proof.
  intros En Eb Hc Hsz Hv Hd Hi Hm line.
  destruct (validate_fits (ecx r) (edx r) Hc ltac:(lia) Hv) as [_ Hfit].
  unfold syscall_handler, syscall_dispatch. rewrite En, Eb.
  cbn [Z.eqb Pos.eqb SYS_REBOOT SYS_SHUTDOWN SYS_EXIT SYS_WRITE SYS_READ].
  unfold sys_read. rewrite Hv. change (s32 0) with 0. cbn [negb Z.eqb].
  pose proof (alen_mapped k d (Z.to_nat (edx r)) (ecx r) Hd ltac:(lia) ltac:(lia)) as Lm.
  rewrite Z2Nat.id in Lm by lia. specialize (Lm Hm). set (dest := mapped _ _ _) in *.
  destruct (Tty.tty_read_line (k_tty (env k)) dest (edx r) Hi ltac:(lia) ltac:(lia)) as (t & -> & Hi' & Hd').
  fold line. fold line in Hd'. pose proof (Tty.alen_read_line (Z.to_nat (edx r)) (Tty.contents (k_tty (env k)))) as Ll.
  fold line in Ll. pose proof (alen_nonneg line). unfold write_back. rewrite alen_splice by lia.
  destruct (Z.ltb_spec (alen dest) (alen line)); [lia|].
  assert (take (Z.to_nat (alen line)) (splice dest 0 line) = line) as ->.
  { change (take (Z.to_nat (alen line)) (splice dest 0 line)) with (sub (splice dest 0 line) 0 (alen line)).
    apply sub_splice_same; lia. }
  destruct (store_bytes_view (w_tty k t) d (ecx r) line) as (m & -> & Hvm & Hvw); [done|lia|lia| |].
  { intros i Hi0. apply (Hm i). lia. }
  cbn [mbind outcome_bind]. eexists. split; [|split; [|split; [|split]]].
  - rewrite s32_small, u32_small by lia. reflexivity.
  - intros v Hv0. unfold uview at 1. rewrite machine_put. by apply Hvw.
  - by apply user_dir_machine.
  - exact Hi'.
  - exact Hd'.
Qed.

(** SYS_WRITE on descriptors 1 and 2 types the caller's bytes: the screen afterwards is
    the typewriter's sheet with the bytes of the buffer added, and the result is their
    number. *)
Theorem sys_write_console k d r data mm a t s p :
  eax r = SYS_WRITE → ebx r = 1 ∨ ebx r = 2 → 0 <= ecx r → edx r = alen data → alen data < 0x80000000 →
  ecx r + alen data <= KERNEL_VIRT_BASE → syscall_validate_ptr (ecx r) (edx r) = true →
  user_dir k d → at_user k d (ecx r) data → k_vga (env k) = screen mm a t s → shows p t →
  ∃ k' t' s', handler k r = Done (Return (w_eax (alen data) r), k') ∧
    k_vga (env k') = screen mm a t' s' ∧ shows (type_text p data) t' ∧
    hw (k_vga (env k')) = cells (type_text p data) ∧ user_dir k' d ∧ ∀ v, uview k' d v = uview k d v.
Proof.
  intros En Eb Hc Hl Hl2 Hfit Hv Hd Ha Hk Hp.
  unfold syscall_handler, syscall_dispatch. rewrite En. pose proof (alen_nonneg data).
  cbn [Z.eqb Pos.eqb SYS_REBOOT SYS_SHUTDOWN SYS_EXIT SYS_WRITE].
  assert ((s32 (ebx r) =? 1) || (s32 (ebx r) =? 2) = true) as Hfd by (destruct Eb as [-> | ->]; done).
  unfold sys_write. rewrite Hv, Hfd, Hl. cbn [negb]. rewrite (user_bytes_at k d) by done.
  cbn [mbind outcome_bind]. rewrite Hk.
  destruct (terminal_write_types mm a t s p data Hp) as (t' & s' & -> & Ht').
  cbn [mbind outcome_bind]. eexists _, t', s'. split; [rewrite s32_small, u32_small by lia; reflexivity|].
  split; [reflexivity|]. split; [done|]. split; [apply Ht'|]. done.
Qed.

(** ** Datagrams *)

Lemma wake_up_machine (s : system) q :
  Process.vm (wake_up s q).1 = Process.vm s ∧ files (wake_up s q).1 = files s.
Proof.
  cbn [wake_up fst]. apply (for_loop_inv (λ _ s', Process.vm s' = Process.vm s ∧ files s' = files s)); [done|].
  by intros i s' _ [<- <-].
Qed.

(** Sending wakes receivers and touches nothing else of the machine. *)
Lemma udp_send_machine k dst port b n ok' k' :
  udp_send junk fuel k dst port b n = Done (ok', k') → machine_of k' = machine_of k.
Proof.
  intros E.
  assert (Process.vm (sched k') = Process.vm (sched k) ∧ files (sched k') = files (sched k)) as [E1 E2].
  { eapply (udp_send_sched junk (λ s, Process.vm s = Process.vm (sched k) ∧ files s = files (sched k))); [|exact E|done].
    intros s q [<- <-]. apply wake_up_machine. }
  unfold machine_of, env. by rewrite E1, E2.
Qed.

(** C16: A datagram of 1 to 1464 bytes sent with SYS_NETSEND to the loopback or the host's
    own address reaches the buffer of the next SYS_NETRECV on the port: the bytes appear
    there in the receiver's memory, the rest of the address space is unchanged and the
    result is their number. *)
Theorem sys_net_roundtrip k d r1 r2 data i qs :
  (0 < fuel)%nat → eax r1 = 13 → eax r2 = 14 → is_loopback k (ebx r1) = true → 0 <= net_our_ip k < 0x100000000 →
  udp_wf (udp_queues k) → u16 (ecx r1) = u16 (ebx r2) → udp_slot (udp_queues k) (u16 (ebx r2)) = Some (i, qs) →
  bytes_ok data → 0 < alen data <= 1464 → esi r1 = alen data → 0 <= edx r1 < 0x100000000 →
  syscall_validate_ptr (edx r1) (alen data) = true → user_dir k d → at_user k d (edx r1) data →
  alen data <= edx r2 < 0x10000 → 0 <= ecx r2 < 0x100000000 → syscall_validate_ptr (ecx r2) (edx r2) = true →
  (∀ j, 0 <= j < edx r2 → is_Some (uview k d (ecx r2 + j))) →
  ∃ k1 k2, handler k r1 = Done (Return (w_eax 0 r1), k1) ∧
    handler k1 r2 = Done (Return (w_eax (alen data) r2), k2) ∧
    ∀ v, 0 <= v < KERNEL_VIRT_BASE →
      uview k2 d v = if (ecx r2 <=? v) && (v <? ecx r2 + alen data) then Some (data.[v - ecx r2]) else uview k d v.
Proof.
  intros Hf E1 E2 Hlo Hip Hw Hport Hslot Hok Hn Hs Hp1 Hv1 Hd Ha Hsz Hp2 Hv2 Hm.
  destruct (Nat.lt_exists_pred 0 fuel Hf) as (fuel' & Ef & _).
  destruct (validate_fits (edx r1) (alen data) Hp1 ltac:(lia) Hv1) as [_ Hfit1].
  destruct (validate_fits (ecx r2) (edx r2) Hp2 ltac:(lia) Hv2) as [_ Hfit2].
  pose proof (alen_mapped k d (Z.to_nat (edx r2)) (ecx r2) Hd ltac:(lia) ltac:(lia)) as Lm.
  rewrite Z2Nat.id in Lm by lia. specialize (Lm Hm).
  destruct (udp_loopback_delivers junk fuel' resume k (ebx r1) (u16 (ebx r2)) data (alen data) i qs
    (mapped (Z.to_nat (edx r2)) k (ecx r2)) (edx r2)) as (k1 & k2 & S1 & S2 & S3); try done; try lia.
  { apply u16_range. }
  rewrite sub_full in S2. rewrite <-Ef in S1, S2. pose proof (udp_send_machine _ _ _ _ _ _ _ S1) as M1.
  assert (∀ n p, mapped n k1 p = mapped n k p) as Hmap.
  { assert (∀ v, load k1 v = load k v) as Hl.
    { intros v. unfold load. change (k_ram (env k1)) with (Pe.ram (machine_of k1)). by rewrite M1. }
    induction n as [|n IH]; intros p; [done|]. cbn [mapped]. rewrite Hl. by destruct (load k p); rewrite ?IH. }
  exists k1. set (dest := splice _ _ _) in S2.
  assert (machine_of k2 = machine_of k) as M2 by (rewrite <-M1; unfold machine_of, env; by rewrite S3).
  destruct (store_bytes_view k2 d (ecx r2) data) as (m & Em & _ & Hvw).
  { unfold user_dir. by rewrite M2. } { lia. } { lia. }
  { intros j Hj. unfold uview. rewrite M2. apply Hm. lia. }
  eexists. split; [|split].
  - unfold syscall_handler, syscall_dispatch. rewrite E1. cbn [Z.eqb Pos.eqb SYS_REBOOT SYS_SHUTDOWN SYS_EXIT
      SYS_WRITE SYS_READ SYS_OPEN SYS_CLOSE]. unfold sys_netsend. rewrite Hs, Hport, u16_small by lia. rewrite Hv1.
    replace (Z.to_nat (alen data)) with (length data) by (unfold alen; lia). rewrite (mapped_at k d) by (done || lia).
    rewrite S1. reflexivity.
  - unfold syscall_handler, syscall_dispatch. rewrite E2. cbn [Z.eqb Pos.eqb SYS_REBOOT SYS_SHUTDOWN SYS_EXIT
      SYS_WRITE SYS_READ SYS_OPEN SYS_CLOSE]. unfold sys_netrecv. rewrite (u16_small (edx r2)) by lia.
    rewrite Hv2, Hmap, S2. cbn [negb mbind outcome_bind]. unfold write_back, dest. rewrite alen_splice by lia.
    destruct (Z.ltb_spec (alen (mapped (Z.to_nat (edx r2)) k (ecx r2))) (alen data)); [lia|].
    assert (take (Z.to_nat (alen data)) (splice (mapped (Z.to_nat (edx r2)) k (ecx r2)) 0 data) = data) as ->.
    { match goal with |- take ?n ?l = _ => change (take n l) with (sub l 0 (alen data)) end. apply sub_splice_same; lia. }
    rewrite Em. cbn [mbind outcome_bind]. rewrite u32_small by lia. reflexivity.
  - intros v Hv. unfold uview at 1. rewrite machine_put, Hvw by done. unfold uview. by rewrite M2.
Qed.
End calls.

(** ** SYS_EXEC and the loaded directory *)

Section exec.
Context {L H F W U : Type} `{Link L} `{HeapAlloc H} `{FrameAllocator F} `{VfsWorld W} `{!OnHeap W H} `{PortIO U}.
Notation system := (sys H F (rest W U)).
Notation kernel := (net L system wait_queue_t).
Variables (fuel : nat) (fresh : H → Z → Z → list Z).
Implicit Types (k : kernel) (m : machine F).

Definition on_kernel_directory (v : vmm F) : Prop := cr3 v = V2P (kernel_directory v).

Lemma map_page_kernel (v : vmm F) phys virt flags :
  kernel_directory (vmm_map_page v phys virt flags).2 = kernel_directory v.
Proof.
  unfold vmm_map_page. cbv zeta. destruct (negb _); [|done]. destruct (alloc_block _) as [a s]. by destruct (a =? 0).
Qed.

Lemma store_vm m v b m' : store m v b = Done m' → Pe.vm m' = Pe.vm m.
Proof. unfold store. intros E. by outcome_inv; simplify_eq. Qed.

Lemma for_outcome_keeps {S} (P : S → Prop) n : ∀ i body (s s' : S),
  (∀ j s s', body j s = Done s' → P s → P s') → for_outcome n i body s = Done s' → P s → P s'.
Proof.
  induction n as [|n IH]; intros i body s s' Hb E HP; cbn [for_outcome] in E; [by simplify_eq|].
  apply outcome_bind_inv in E as (s1 & E1 & E). eauto.
Qed.

Lemma map_zeroed_kernel m virt m' : map_zeroed m virt = Done m' → kernel_directory (Pe.vm m') = kernel_directory (Pe.vm m).
Proof.
  unfold map_zeroed. destruct (alloc_block _) as [phys s]. cbv zeta. intros E.
  eapply (for_outcome_keeps (λ m1, kernel_directory (Pe.vm m1) = kernel_directory (Pe.vm m))); [|exact E|].
  - intros j s1 s2 Es <-. by rewrite (store_vm _ _ _ _ Es).
  - cbn [Pe.vm Pe.w_vm]. by rewrite map_page_kernel.
Qed.

(** The loader comes back with the kernel's directory loaded. *)
Lemma pe_load_directory m file size dir img m' :
  pe_load m file size dir = Done (Some img, m') → on_kernel_directory (Pe.vm m').
Proof.
  unfold pe_load. intros E. destruct file as [f|]; [|by simplify_eq]. destruct (dir =? 0); [by simplify_eq|].
  apply outcome_bind_inv in E as (h & _ & E). destruct h as [[[[opt ep] count] table]|]; [|by simplify_eq].
  apply outcome_bind_inv in E as (base & _ & E). apply outcome_bind_inv in E as ([okl m1] & _ & E).
  destruct (negb okl); [by simplify_eq|]. cbv zeta in E. apply outcome_bind_inv in E as (m2 & E2 & [= <- <-]).
  apply (for_outcome_keeps (λ x, kernel_directory (Pe.vm x) = kernel_directory (Pe.vm m1))) in E2; [|
    intros j s s' Es <-; by eapply map_zeroed_kernel|done].
  unfold on_kernel_directory. cbn [switch_to Pe.w_vm Pe.vm vmm_switch_directory cr3 kernel_directory].
  unfold vmm_get_kernel_directory. by rewrite E2.
Qed.

Lemma user_string_mapped n k v s : user_string n k v = Done s → is_Some (load k v).
Proof. destruct n; cbn [user_string]; [done|]. by destruct (load k v); [eauto|]. Qed.

(** When SYS_EXEC has started a program the directory of the kernel is loaded, not that
    of the caller, and stays so until the scheduler loads another: addresses that only the
    caller maps cannot be read, and the command line was read through it. *)
Theorem exec_on_kernel_directory k name cmd k' :
  sys_exec fuel fresh k name cmd = Done (KERR_OK, k') →
  on_kernel_directory (Process.vm (sched k')) ∧
  (∀ v, Vmm.walk (mem (Process.vm (sched k'))) (cr3 (Process.vm (sched k')) / 4096) v = None → load k' v = None) ∧
  (syscall_validate_ptr cmd 1 = true → is_Some (load k' cmd)).
Proof.
  unfold sys_exec, fault. intros E. destruct (negb _); [by simplify_eq|].
  apply outcome_bind_inv in E as (path & _ & E). destruct (find_node k path) as [node k1].
  destruct (node =? 0); [by simplify_eq|]. cbv zeta in E. destruct (kmalloc_sys _ _) as [b s].
  destruct (b =? 0); [by simplify_eq|]. destruct (vfs_read _ _ _ _ _) as [[? file] w].
  apply outcome_bind_inv in E as ([ret k2] & El & [= -> <-]). unfold load_process in El.
  destruct (process_create_user _ _ _ _) as [proc s1]. cbv zeta in El. destruct (_ && _); [|by simplify_eq].
  apply outcome_bind_inv in El as ([img m] & Ep & El). destruct img as [[ep ust]|]; [|by simplify_eq].
  apply pe_load_directory in Ep. unfold start_process in El. cbv zeta in El.
  apply outcome_bind_inv in El as (line & Ec & El).
  apply outcome_bind_inv in El as (s2 & Ea & [= <-]).
  assert (Process.vm s2 = Pe.vm m ∧ k_ram (files s2) = Pe.ram m) as [E1 E2].
  { destruct (scheduler_add_thread _ _ _) as [x|] eqn:Es; [|done]. injection Ea as <-.
    unfold scheduler_add_thread in Es. cbv zeta in Es. destruct (_ =? 0); [by simplify_eq|].
    apply bind_Some in Es as (la & _ & [= <-]). done. }
  set (kx := put_machine _ m) in *.
  assert (machine_of (w_sys (w_sys kx s2) (kfree_sys (sched (w_sys kx s2)) b)) = m) as Em
    by (unfold machine_of, env; cbn [sched w_sys w_sched kfree_sys w_heap Process.vm files]; rewrite E1, E2; by destruct m).
  split; [|split].
  - cbn [sched w_sys w_sched kfree_sys w_heap Process.vm]. by rewrite E1.
  - intros v Hv. unfold load, mmu. rewrite Em. cbn [sched w_sys w_sched kfree_sys w_heap Process.vm] in Hv.
    rewrite E1 in Hv. rewrite Hv. by destruct (v <? _).
  - intros Hv. assert (cmd ≠ 0) as Hc by (intros ->; done). rewrite Hv in Ec. unfold nz in Ec.
    rewrite (proj2 (Z.eqb_neq cmd 0)) in Ec by done. cbn [negb andb] in Ec.
    apply outcome_bind_inv in Ec as (src & Es & _). apply user_string_mapped in Es.
    unfold load in *. rewrite Em. unfold kx in Es. rewrite machine_put in Es.
    change (k_ram (env (put_machine _ m))) with (Pe.ram m) in Es.
    match goal with |- context [k_ram (env ?x)] => change (k_ram (env x)) with (k_ram (files s2)) end.
    by rewrite E2.
Qed.
End exec.

(** ** The type of the process table

    The arrays of a process have their sizes, its name and command line are terminated, and
    the descriptors of the console are never bound. *)

Definition process_wf (pr : process_t) : Prop :=
  alen (pname pr) = 32 ∧ (pname pr).[31] = 0 ∧ alen (cmdline pr) = 128 ∧ (cmdline pr).[127] = 0 ∧
  alen (fd_table pr) = MAX_PROCESS_FDS ∧ ∀ i, 0 <= i < 3 → (fd_table pr).[i] = 0.

Create HintDb procs.

Section types.
Context {L H F W U : Type} `{Link L} `{HeapAlloc H} `{FrameAllocator F} `{VfsWorld W} `{!OnHeap W H} `{PortIO U}.
Notation system := (sys H F (rest W U)).
Notation kernel := (net L system wait_queue_t).
Implicit Types (st : system) (k : kernel).

Definition procs_ok st : Prop := ∀ p, process_wf (pget st p).

Lemma procs_ok_prc st st' : prc st' = prc st → procs_ok st → procs_ok st'.
Proof. intros E Hok p. unfold pget. rewrite E. apply Hok. Qed.

Lemma procs_ok_pput st p v : process_wf v → procs_ok st → procs_ok (pput st p v).
Proof. intros Hv Hok q. rewrite pget_pput. by case_match. Qed.

Lemma procs_ok_pupd st p f : process_wf (f (pget st p)) → procs_ok st → procs_ok (pupd st p f).
Proof. apply procs_ok_pput. Qed.

(** The fields outside the type. *)
Lemma process_wf_same pr pr' :
  pname pr' = pname pr → cmdline pr' = cmdline pr → fd_table pr' = fd_table pr → process_wf pr → process_wf pr'.
Proof. unfold process_wf. by intros -> -> ->. Qed.

Lemma process_wf_zero : process_wf zero_process.
Proof.
  unfold process_wf. split_and!; try done. intros i Hi. cbn [fd_table zero_process].
  rewrite aget_replicate; [done|]. cbn. lia.
Qed.

Lemma process_wf_name pr name : process_wf pr → process_wf (w_pname (kstrncpy (pname pr) 0 name 31) pr).
Proof.
  intros (A1 & A2 & A3 & A4 & A5 & A6). unfold process_wf. cbn [pname cmdline fd_table w_pname].
  rewrite kstrncpy_pads by lia. set (b := take _ _).
  assert (alen b = 31) by (unfold b; rewrite alen_firstn, alen_app, alen_replicate; pose proof (alen_nonneg (cstr name)); lia).
  split_and!; try done; [rewrite alen_splice; lia|]. rewrite aget_splice by lia.
  destruct (Z.leb_spec 0 31), (Z.ltb_spec 31 (0 + alen b)); try lia. done.
Qed.

Lemma process_wf_line pr src : process_wf pr → process_wf (w_cmdline (kstrncpy (cmdline pr) 0 src 127) pr).
Proof.
  intros (A1 & A2 & A3 & A4 & A5 & A6). unfold process_wf. cbn [pname cmdline fd_table w_cmdline].
  rewrite kstrncpy_pads by lia. set (b := take _ _).
  assert (alen b = 127) by (unfold b; rewrite alen_firstn, alen_app, alen_replicate; pose proof (alen_nonneg (cstr src)); lia).
  split_and!; try done; [rewrite alen_splice; lia|]. rewrite aget_splice by lia.
  destruct (Z.leb_spec 0 127), (Z.ltb_spec 127 (0 + alen b)); try lia. done.
Qed.

Lemma process_wf_fd pr i v :
  0 <= i → 3 <= i ∨ v = 0 → process_wf pr → process_wf (w_fd_table ((fd_table pr).[i <- v]) pr).
Proof.
  intros Hi Hv (A1 & A2 & A3 & A4 & A5 & A6). unfold process_wf. cbn [pname cmdline fd_table w_fd_table].
  split_and!; try done; [by rewrite alen_aset|]. intros j Hj. unfold MAX_PROCESS_FDS in *.
  destruct (decide (i = j)) as [->|]; [|rewrite aget_aset_ne by lia; by apply A6].
  rewrite aget_aset_eq by lia. destruct Hv; [lia|done].
Qed.

Lemma procs_ok_upd st p f :
  (∀ pr, process_wf pr → process_wf (f pr)) → procs_ok st → procs_ok (pupd st p f).
Proof. intros Hf Hok. apply procs_ok_pput; [|done]. apply Hf, Hok. Qed.

(** [procs] peels the updates of a state off. *)
Ltac procs :=
  repeat first
    [ assumption
    | match goal with
      | |- procs_ok (tupd ?s _ _) => change (procs_ok s)
      | |- procs_ok (tput ?s _ _) => change (procs_ok s)
      | |- procs_ok (kfree_sys ?s _) => change (procs_ok s)
      | |- procs_ok (_ _ ?s) => change (procs_ok s)
      | |- procs_ok (sched (w_sys _ ?s)) => change (procs_ok s)
      | |- procs_ok (sched (_ ?k _)) => change (procs_ok (sched k))
      end
    | simple apply procs_ok_pput; [apply process_wf_zero|]
    | simple apply procs_ok_upd; [intros ? ?;
        first [ assumption | by eapply process_wf_same; [..|eassumption] | by apply process_wf_name
              | by apply process_wf_line ]|] ].

Lemma init_thread_ok st p t : procs_ok st → procs_ok (init_thread st p t).
Proof.
  intros Hok. unfold init_thread. cbv zeta. apply procs_ok_upd; [|procs]. intros pr Hpr.
  apply (for_loop_inv (λ _ l, process_wf (w_fd_table l pr)) (Z.to_nat MAX_PROCESS_FDS) 0
    (λ i l, l.[i <- 0]) (fd_table pr)); [done|].
  intros i l Hi Hl. apply (process_wf_fd (w_fd_table l pr) i 0); [lia|by right|done].
Qed.

Lemma init_process_ok st p name : procs_ok st → procs_ok (init_process st p name).
Proof. intros Hok. unfold init_process. cbv zeta. procs. Qed.

Lemma kmalloc_ok st n a st' : kmalloc_sys st n = (a, st') → procs_ok st → procs_ok st'.
Proof. unfold kmalloc_sys. intros [= <- <-]. by apply procs_ok_prc. Qed.

Lemma process_alloc_ok st name : procs_ok st → procs_ok (process_alloc st name).1.
Proof.
  intros Hok. unfold process_alloc. destruct (kmalloc_sys st _) as [proc st1] eqn:E1.
  apply kmalloc_ok in E1; [|done]. destruct (proc =? 0); [done|]. cbv zeta.
  pose proof (init_process_ok st1 proc name E1) as Hi. revert Hi. generalize (init_process st1 proc name) as st2.
  intros st2 Hi. destruct (kmalloc_sys st2 _) as [thread st3] eqn:E3. apply kmalloc_ok in E3; [|done].
  destruct (thread =? 0); [cbn [fst]; procs|].
  pose proof (init_thread_ok st3 proc thread E3) as Ht. revert Ht. generalize (init_thread st3 proc thread) as st4.
  intros st4 Ht. destruct (kmalloc_sys st4 _) as [stack st5] eqn:E5. apply kmalloc_ok in E5; [|done].
  destruct (stack =? 0); cbn [fst]; procs.
Qed.

Lemma process_create_user_ok st name e u : procs_ok st → procs_ok (process_create_user st name e u).2.
Proof.
  intros Hok. pose proof (process_alloc_ok st name Hok) as Ha. unfold process_create_user.
  destruct (process_alloc st name) as [st1 [[[proc thread] regs]|]]; cbn [fst] in Ha; [|done].
  cbv zeta. destruct (vmm_clone_directory _) as [dir v]. cbn [snd]. unfold push_process. procs.
Qed.

Lemma add_thread_ok fuel st t st' : scheduler_add_thread fuel st t = Some st' → procs_ok st → procs_ok st'.
Proof.
  unfold scheduler_add_thread. cbv zeta. intros E Hok. case_match; simplify_option_eq; procs.
Qed.

Lemma kill_threads_ok fuel : ∀ st t st', kill_threads fuel st t = Some st' → procs_ok st → procs_ok st'.
Proof.
  induction fuel as [|fuel IH]; intros st t st' E Hok; cbn [kill_threads] in E; (destruct (t =? 0); [by simplify_eq|]); [done|].
  eapply IH; [exact E|]. procs.
Qed.

Lemma process_terminate_ok fuel st p status st' :
  process_terminate close_node fuel st p status = Some st' → procs_ok st → procs_ok st'.
Proof.
  unfold process_terminate. cbv zeta. intros E Hok. destruct (_ || _); [by simplify_eq|].
  apply bind_Some in E as (st1 & K & [= <-]). apply kill_threads_ok in K; [|procs].
  unfold close_fds. apply (for_loop_inv (λ _ st, procs_ok st)); [done|].
  intros i st2 Hi Hok2. cbv zeta. destruct (nz _); [|done]. apply procs_ok_upd; [|procs].
  intros pr Hpr. apply process_wf_fd; [lia|by right|done].
Qed.

Lemma free_threads_ok fuel : ∀ st t st', free_threads fuel st t = Some st' → procs_ok st → procs_ok st'.
Proof.
  induction fuel as [|fuel IH]; intros st t st' E Hok; cbn [free_threads] in E; (destruct (t =? 0); [by simplify_eq|]); [done|].
  eapply IH; [exact E|]. destruct (nz _); procs.
Qed.

Lemma process_cleanup_ok fuel st p st' : process_cleanup fuel st p = Some st' → procs_ok st → procs_ok st'.
Proof.
  unfold process_cleanup, unlink_process. cbv zeta. intros E Hok. destruct (p =? 0); [by simplify_eq|].
  apply bind_Some in E as (st1 & E1 & E). apply bind_Some in E as (st2 & E2 & [= <-]).
  assert (procs_ok st1) as Hok1.
  { destruct (_ =? p); [injection E1 as <-; procs|]. apply bind_Some in E1 as (c & _ & [= <-]). destruct (nz c); procs. }
  pose proof (free_threads_ok _ _ _ _ E2 Hok1). destruct (nz _); procs.
Qed.

Lemma waitpid_ok tick (child : Z) fuel : (∀ st, procs_ok st → procs_ok (tick st)) → ∀ st r s st',
  process_waitpid fuel tick st child = Some (r, s, st') → procs_ok st → procs_ok st'.
Proof.
  intros Ht. induction fuel as [|fuel IH]; intros st r s st' E Hok; [done|]. cbn [process_waitpid] in E.
  apply bind_Some in E as (o & E1 & E). unfold waitpid_poll in E1. apply bind_Some in E1 as (c & _ & E1).
  destruct (c =? 0); [by simplify_eq|]. destruct (bool_decide _).
  - apply bind_Some in E1 as (st1 & Ec & [= <-]). simplify_eq. by eapply process_cleanup_ok.
  - simplify_eq. eapply IH; [exact E|]. by apply Ht.
Qed.

(** *** The calls *)

Variables (fuel : nat) (resume : kernel → kernel) (tick : system → system).
Variables (fresh : H → Z → Z → list Z) (junk : Z → Z).
Hypothesis tick_ok : ∀ st, procs_ok st → procs_ok (tick st).
Hypothesis resume_ok : ∀ k, procs_ok (sched k) → procs_ok (sched (resume k)).

Definition kernel_ok k : Prop := procs_ok (sched k).

Lemma of_fuel_inv {A} (o : option A) a : of_fuel o = Done a → o = Some a.
Proof. destruct o; cbn; [by intros [= ->]|done]. Qed.

Lemma store_bytes_ok k v b k' : store_bytes k v b = Done k' → kernel_ok k → kernel_ok k'.
Proof. unfold store_bytes. intros E Hok. outcome_inv. exact Hok. Qed.

Lemma write_back_ok k v b n k' : write_back k v b n = Done k' → kernel_ok k → kernel_ok k'.
Proof. unfold write_back. intros E Hok. case_match; [done|]. by eapply store_bytes_ok. Qed.

Lemma find_node_ok k path node k' : find_node k path = (node, k') → kernel_ok k → kernel_ok k'.
Proof. unfold find_node. destruct (vfs_find_path _ _ _ _). by intros [= <- <-]. Qed.

Lemma set_fd_ok k p fd node : 0 <= fd → 3 <= fd ∨ node = 0 → kernel_ok k → kernel_ok (set_fd k p fd node).
Proof. intros Hfd Hn Hok. apply procs_ok_upd; [|exact Hok]. intros pr Hpr. by apply process_wf_fd. Qed.

Hint Resolve store_bytes_ok write_back_ok find_node_ok : procs.

Lemma sys_write_ok k fd b n r k' : sys_write k fd b n = Done (r, k') → kernel_ok k → kernel_ok k'.
Proof. unfold sys_write, fault. intros E Hok. outcome_inv; simplify_eq; exact Hok. Qed.

Lemma sys_read_ok k fd b n r k' : sys_read k fd b n = Done (r, k') → kernel_ok k → kernel_ok k'.
Proof. unfold sys_read, fault. cbv zeta. intros E Hok. outcome_inv; simplify_eq; try exact Hok; eapply write_back_ok; done. Qed.

Lemma sys_open_ok k p r k' : sys_open fuel k p = Done (r, k') → kernel_ok k → kernel_ok k'.
Proof.
  unfold sys_open, fault. intros E Hok. outcome_inv; simplify_eq; eauto with procs.
  match goal with Hz : free_fd _ = Some _ |- _ => apply zfind_Some in Hz as (? & _) end.
  apply set_fd_ok; [lia|left; lia|]. by eapply find_node_ok.
Qed.

Lemma sys_close_ok k fd r k' : sys_close k fd = Done (r, k') → kernel_ok k → kernel_ok k'.
Proof.
  unfold sys_close. intros E Hok. destruct (_ && _) eqn:Ec in E; outcome_inv; simplify_eq; [|done].
  rewrite !andb_true_iff in Ec. destruct Ec as [[[_ Ha%Z.leb_le] _] _]. by apply set_fd_ok; [lia|right|].
Qed.

Lemma start_process_ok k p ep ust cmd r k' :
  start_process fuel k p ep ust cmd = Done (r, k') → kernel_ok k → kernel_ok k'.
Proof.
  unfold start_process. cbv zeta. intros E Hok. apply outcome_bind_inv in E as (line & El & E).
  apply outcome_bind_inv in E as (s & Es%of_fuel_inv & [= <- <-]). eapply add_thread_ok; [exact Es|].
  set (s0 := w_ctx _ _) in *. assert (procs_ok s0) as H0' by exact Hok. clearbody s0.
  apply procs_ok_pupd; [|done]. specialize (H0' p). outcome_inv; [by apply process_wf_line|].
  destruct H0' as (A1 & A2 & A3 & A4 & A5 & A6). unfold process_wf. cbn [pname cmdline fd_table w_cmdline].
  split_and!; try done; [by rewrite alen_aset|]. by rewrite aget_aset_ne by lia.
Qed.

Lemma load_process_ok k name file size cmd r k' :
  load_process fuel k name file size cmd = Done (r, k') → kernel_ok k → kernel_ok k'.
Proof.
  unfold load_process. intros E Hok. pose proof (process_create_user_ok (sched k) name 0 0 Hok) as Hc.
  destruct (process_create_user (sched k) name 0 0) as [proc s]. cbn [snd] in Hc. cbv zeta in E.
  destruct (_ && _); [|by simplify_eq]. apply outcome_bind_inv in E as ([img m] & _ & E).
  destruct img as [[ep ust]|]; [by eapply start_process_ok|]. simplify_eq. exact Hc.
Qed.

Lemma sys_exec_ok k p c r k' : sys_exec fuel fresh k p c = Done (r, k') → kernel_ok k → kernel_ok k'.
Proof.
  unfold sys_exec, fault. intros E Hok. destruct (negb _); [by simplify_eq|].
  apply outcome_bind_inv in E as (path & _ & E). destruct (find_node k path) as [node k1] eqn:En.
  apply find_node_ok in En; [|done]. destruct (node =? 0); [by simplify_eq|]. cbv zeta in E.
  destruct (kmalloc_sys _ _) as [b s] eqn:Ek. apply kmalloc_ok in Ek; [|done].
  destruct (b =? 0); [by simplify_eq|]. destruct (vfs_read _ _ _ _ _) as [[? file] w].
  apply outcome_bind_inv in E as ([ret k2] & El & [= <- <-]).
  apply load_process_ok in El; [exact El|exact Ek].
Qed.

Lemma sys_getdents_ok k fd b i r k' : sys_getdents k fd b i = Done (r, k') → kernel_ok k → kernel_ok k'.
Proof.
  unfold sys_getdents, fault. cbv zeta. intros E Hok. outcome_inv; simplify_eq; try exact Hok.
  match goal with Hs : store_bytes _ _ _ = Done _ |- _ => apply store_bytes_ok in Hs; [exact Hs|exact Hok] end.
Qed.

Lemma sys_getcmdline_ok k b n r k' : sys_getcmdline k b n = Done (r, k') → kernel_ok k → kernel_ok k'.
Proof. unfold sys_getcmdline, fault. cbv zeta. intros E Hok. outcome_inv; simplify_eq; eauto with procs. Qed.

Lemma wake_up_ok st q : procs_ok st → procs_ok (wake_up st q).1.
Proof.
  intros Hok. cbn [wake_up fst]. apply (for_loop_inv (λ _ s, procs_ok s)); [done|].
  intros i s' _ Hs. exact Hs.
Qed.

Lemma wait_on_ok st q : procs_ok st → procs_ok (wait_on st q).1.2.
Proof. intros Hok. unfold wait_on. destruct (_ =? 0); [done|]. destruct (_ <? _); [exact Hok|done]. Qed.

Lemma sys_netsend_ok k ip p b n r k' : sys_netsend fuel junk k ip p b n = Done (r, k') → kernel_ok k → kernel_ok k'.
Proof.
  unfold sys_netsend, fault. cbv zeta. intros E Hok. destruct (negb _); [by simplify_eq|].
  apply outcome_bind_inv in E as ([o k1] & Es & [= <- <-]).
  eapply (udp_send_sched junk procs_ok); [exact wake_up_ok|exact Es|done].
Qed.

Lemma sys_netrecv_ok k p b n r k' : sys_netrecv fuel resume k p b n = Done (r, k') → kernel_ok k → kernel_ok k'.
Proof.
  unfold sys_netrecv, fault. cbv zeta. intros E Hok. destruct (negb _); [by simplify_eq|].
  apply outcome_bind_inv in E as ([[o dest] k1] & Es & E). apply outcome_bind_inv in E as (k2 & Ew & [= <- <-]).
  eapply write_back_ok; [exact Ew|].
  eapply (udp_recv_sched procs_ok); [exact wait_on_ok|exact resume_ok|exact Es|done].
Qed.

Lemma sys_chmod_ok k p m r k' : sys_chmod fuel k p m = Done (r, k') → kernel_ok k → kernel_ok k'.
Proof.
  unfold sys_chmod, fault. intros E Hok. outcome_inv; simplify_eq; try done;
    match goal with Hn : find_node _ _ = _ |- _ => apply find_node_ok in Hn; [exact Hn|done] end.
Qed.

Lemma sys_in_parent_ok op k p r k' : sys_in_parent fuel junk op k p = Done (r, k') → kernel_ok k → kernel_ok k'.
Proof.
  unfold sys_in_parent, fault. intros E Hok. outcome_inv; simplify_eq; try done;
    match goal with Hn : find_node _ _ = _ |- _ => apply find_node_ok in Hn; [exact Hn|done] end.
Qed.

Lemma ps_loop_ok rounds : ∀ k p b n off k', ps_loop fuel junk rounds k p b n off = Done k' → kernel_ok k → kernel_ok k'.
Proof.
  induction rounds as [|rounds IH]; intros k p b n off k' E Hok; cbn [ps_loop] in E;
    (destruct (_ && _); [|by simplify_eq]); [done|].
  apply outcome_bind_inv in E as (k1 & El & E). apply outcome_bind_inv in E as (s & _ & E).
  eapply IH; [exact E|]. unfold ps_line in El. cbv zeta in El. apply outcome_bind_inv in El as (o & _ & El).
  by eapply store_bytes_ok.
Qed.

Lemma sys_ps_ok k b n r k' : sys_ps fuel junk k b n = Done (r, k') → kernel_ok k → kernel_ok k'.
Proof. unfold sys_ps, fault. intros E Hok. outcome_inv; simplify_eq; [done|]. by eapply ps_loop_ok. Qed.

Lemma sys_waitpid_ok k c p r k' : sys_waitpid fuel tick k c p = Done (r, k') → kernel_ok k → kernel_ok k'.
Proof.
  unfold sys_waitpid, fault. cbv zeta. intros E Hok. destruct (_ && _); [by simplify_eq|].
  apply outcome_bind_inv in E as ([[ret st] s] & Ew%of_fuel_inv & E). apply (waitpid_ok tick) in Ew; [|done|done].
  apply outcome_bind_inv in E as (k2 & Es & [= <- <-]). destruct (_ && _); [by eapply store_bytes_ok|by simplify_eq].
Qed.

Lemma sys_kill_ok k c s r k' : sys_kill fuel k c s = Done (r, k') → kernel_ok k → kernel_ok k'.
Proof.
  unfold sys_kill. intros E Hok. apply outcome_bind_inv in E as (t & _ & E). destruct (t =? 0); [by simplify_eq|].
  apply outcome_bind_inv in E as (s' & Et%of_fuel_inv & [= <- <-]). by eapply process_terminate_ok.
Qed.

Hint Resolve sys_write_ok sys_read_ok sys_open_ok sys_close_ok sys_exec_ok sys_getdents_ok sys_getcmdline_ok
  sys_netsend_ok sys_netrecv_ok sys_chmod_ok sys_in_parent_ok sys_ps_ok sys_waitpid_ok sys_kill_ok : procs.

Lemma handler_keeps_types k r ret k' :
  procs_ok (sched k) → syscall_handler fuel resume tick fresh junk k r = Done (ret, k') → procs_ok (sched k').
Proof.
  intros Hok E. change (kernel_ok k) in Hok. change (kernel_ok k'). unfold syscall_handler in E.
  destruct (_ =? SYS_REBOOT); [by simplify_eq|]. destruct (_ =? SYS_SHUTDOWN); [by simplify_eq|].
  destruct (_ =? SYS_EXIT).
  - unfold sys_exit in E. apply outcome_bind_inv in E as (s & Es & [= <- <-]). destruct (nz _); [|by simplify_eq].
    apply of_fuel_inv in Es. by eapply process_terminate_ok.
  - apply outcome_bind_inv in E as ([v k1] & Ed & [= <- <-]). unfold syscall_dispatch, sys_unlink, sys_mkdir, sys_create in Ed.
    repeat (destruct (_ =? _); [by eauto with procs|]). by simplify_eq.
Qed.
End types.

(** ** Calls that return *)

Lemma find_slash_bound path : ∀ i last, find_slash path i last = last ∨ find_slash path i last < i + alen path.
Proof.
  induction path as [|c path IH]; intros i last; cbn [find_slash]; [by left|]. arr. pose proof (alen_nonneg path).
  destruct (c =? 0); [by left|]. destruct (IH (i + 1) (if c =? SLASH then i else last)) as [->|?]; [|right; lia].
  destruct (c =? SLASH); [right; lia|by left].
Qed.

(** The buffers of 128 bytes hold any parent of a path of less than 128 characters. *)
Lemma split_path_fits s1 s2 s : alen s < 128 → ∃ parent name, split_path s1 s2 (s ++ [0]) = Done (parent, name).
Proof.
  intros Hs. unfold split_path. destruct (find_slash_bound (s ++ [0]) 0 (-1)) as [->|Hb]; [cbn; eauto|]. arr.
  change (alen [0]) with 1 in Hb. destruct (_ =? -1); [eauto|]. destruct (_ =? 0); [cbn; eauto|].
  destruct (Z.leb_spec 128 (find_slash (s ++ [0]) 0 (-1))); [lia|]. cbn. eauto.
Qed.

Lemma alen_kstrncpy src n : 0 <= n → alen (kstrncpy (replicate (Z.to_nat n) 0) 0 src n) = n.
Proof.
  intros Hn. pose proof (alen_nonneg (cstr src)).
  rewrite kstrncpy_pads, alen_splice; rewrite ?alen_firstn; arr; rewrite ?alen_replicate; lia.
Qed.

Lemma alen_dirent n : 0 <= alen (dirent_bytes n) <= sizeof_dirent.
Proof.
  unfold dirent_bytes, sizeof_dirent. pose proof (alen_nonneg (cstr (nname n))). rewrite strlen_cstr.
  rewrite !alen_app, !alen_le_bytes, alen_kstrncpy, !alen_cons by lia. change (alen (@nil Z)) with 0. lia.
Qed.

Section returns.
Context {L H F W U : Type} `{Link L} `{HeapAlloc H} `{FrameAllocatorLaws F ok taken managed} `{VfsWorld W}
  `{!OnHeap W H} `{PortIO U}.
Notation system := (sys H F (rest W U)).
Notation kernel := (net L system wait_queue_t).
Variables (fuel : nat) (resume : kernel → kernel) (tick : system → system).
Variables (fresh : H → Z → Z → list Z) (junk : Z → Z).
Hypothesis tick_ok : ∀ st, procs_ok st → procs_ok (tick st).
Hypothesis resume_ok : ∀ k, procs_ok (sched k) → procs_ok (sched (resume k)).
Implicit Types (k : kernel) (r : registers_t).
Notation handler := (syscall_handler fuel resume tick fresh junk).

(** The calls on files, descriptors and the caller's own process, and unknown ones. *)
Definition file_call r : Prop := eax r ∈ [3; 4; 5; 6; 12; 15; 16; 17; 18; 78; 88; 89] ∨ eax r ∉ syscall_numbers.

(** A buffer and a path in the memory of the caller. *)
Definition buffer_arg k d (p n : Z) : Prop :=
  0 <= p ∧ 0 <= n ∧ p + n <= KERNEL_VIRT_BASE ∧ ∀ i, 0 <= i < n → is_Some (uview k d (p + i)).

Definition path_arg k d (p : Z) : Prop :=
  ∃ s, 0 <= p ∧ alen s < 128 ∧ (length s < fuel)%nat ∧ p + alen s + 1 <= KERNEL_VIRT_BASE ∧
    Forall (λ c, c ≠ 0) s ∧ at_user k d p (s ++ [0]).

Definition is_path_call (num : Z) : bool :=
  (num =? SYS_OPEN) || (num =? 15) || (num =? 16) || (num =? 17) || (num =? 18).

(** The caller as a well-behaved call finds it: its directory is loaded, what it points to
    (if the pointer is accepted) is mapped, with the full record for SYS_GETDENTS, and the
    reads of the file system return no more than they were asked for. *)
Record call_ready k d r : Prop := {
  cr_dir : user_dir (ok := ok) (taken := taken) k d;
  cr_tty : Tty.inv (k_tty (env k));
  cr_args : ∀ p n, pointer_arg r = Some (p, n) → syscall_validate_ptr p n = true →
    if is_path_call (eax r) then path_arg k d p
    else buffer_arg k d p (if eax r =? 78 then sizeof_dirent else n);
  cr_read : ∀ node n b, alen b = n →
    let '(m, b', _) := vfs_read (fs_of k) node 0 n b in alen b' = n ∧ m <= n }.

Lemma store_bytes_done k d p b n :
  user_dir (ok := ok) (taken := taken) k d → buffer_arg k d p n → alen b <= n → ∃ k', store_bytes k p b = Done k'.
Proof.
  intros Hd (Hp & Hn & Hf & Hm) Hb.
  destruct (store_bytes_view k d p b Hd Hp ltac:(lia)) as (m & -> & _); [intros; apply Hm; lia|eauto].
Qed.

Lemma write_back_done k d p b n m :
  user_dir (ok := ok) (taken := taken) k d → buffer_arg k d p n → alen b = n → m <= n → ∃ k', write_back k p b m = Done k'.
Proof.
  intros Hd Hb Hl Hm. unfold write_back. destruct (Z.ltb_spec (alen b) m); [lia|].
  apply (store_bytes_done k d p _ n Hd Hb). rewrite alen_firstn. lia.
Qed.

Lemma mapped_length k d p n :
  user_dir (ok := ok) (taken := taken) k d → buffer_arg k d p n → alen (mapped (Z.to_nat n) k p) = n.
Proof.
  intros Hd (Hp & Hn & Hf & Hm). rewrite (alen_mapped k d) by (done || rewrite ?Z2Nat.id; done || lia).
  by rewrite Z2Nat.id.
Qed.

Lemma sys_write_done k d fd p n :
  user_dir (ok := ok) (taken := taken) k d → (syscall_validate_ptr p n = true → buffer_arg k d p n) →
  ∃ v, sys_write k fd p n = Done v.
Proof.
  intros Hd Hb. unfold sys_write. destruct (syscall_validate_ptr p n); [|by eexists]. specialize (Hb eq_refl).
  cbn [negb]. unfold user_bytes. rewrite (mapped_length k d p n Hd Hb), Z.eqb_refl, !outcome_bind_done.
  destruct (_ || _); [by eexists|]. destruct (_ && _); [|by eexists]. destruct (vfs_write _ _ _ _ _). by eexists.
Qed.

Lemma sys_read_done k d r fd :
  call_ready k d r → (syscall_validate_ptr (ecx r) (edx r) = true → buffer_arg k d (ecx r) (edx r)) →
  ∃ v, sys_read k fd (ecx r) (edx r) = Done v.
Proof.
  intros [Hd Ht _ Hr] Hb. unfold sys_read. destruct (syscall_validate_ptr _ _); [|by eexists].
  specialize (Hb eq_refl). pose proof (mapped_length k d _ _ Hd Hb) as Hl. pose proof Hb as (Hp & Hn & Hf & _).
  unfold KERNEL_VIRT_BASE in Hf. cbn [negb]. set (dest := mapped _ _ _) in *. destruct (fd =? 0).
  - destruct (Tty.tty_read_line (k_tty (env k)) dest (edx r) Ht ltac:(lia) ltac:(lia)) as (t & -> & _ & _).
    pose proof (Tty.alen_read_line (Z.to_nat (edx r)) (Tty.contents (k_tty (env k)))) as Ll.
    set (line := Tty.read_line _ _) in *. pose proof (alen_nonneg line).
    destruct (write_back_done (w_tty k t) d (ecx r) (splice dest 0 line) (edx r) (alen line)) as (k' & ->);
      [exact Hd|exact Hb|rewrite alen_splice; lia|lia|by eexists].
  - destruct (_ && _); [|by eexists]. specialize (Hr ((fd_table (proc_of k)).[fd]) (edx r) dest Hl).
    destruct (vfs_read _ _ _ _ _) as [[m b] w]. destruct Hr as [Hlb Hm].
    destruct (write_back_done (put_fs k w) d (ecx r) b (edx r) m) as (k' & ->);
      [exact Hd|exact Hb|done|done|by eexists].
Qed.

Lemma path_string k d p : user_dir (ok := ok) (taken := taken) k d → path_arg k d p →
  ∃ s, alen s < 128 ∧ user_string fuel k p = Done (s ++ [0]).
Proof.
  intros Hd (s & Hp & Hs & Hf & Hl & Hz & Ha). exists s. split; [done|].
  by apply (user_string_at (ok := ok) (taken := taken) k d).
Qed.

Lemma sys_open_done k d p :
  user_dir (ok := ok) (taken := taken) k d → (syscall_validate_ptr p 1 = true → path_arg k d p) →
  ∃ v, sys_open fuel k p = Done v.
Proof.
  intros Hd Hb. unfold sys_open. destruct (syscall_validate_ptr p 1); [|by eexists].
  destruct (path_string k d p Hd (Hb eq_refl)) as (s & _ & ->). rewrite outcome_bind_done. cbn [negb].
  destruct (find_node k _) as [node k1]. destruct (_ && _); [|by eexists]. destruct (free_fd _); by eexists.
Qed.

Lemma sys_chmod_done k d p m :
  user_dir (ok := ok) (taken := taken) k d → (syscall_validate_ptr p 1 = true → path_arg k d p) →
  ∃ v, sys_chmod fuel k p m = Done v.
Proof.
  intros Hd Hb. unfold sys_chmod. destruct (syscall_validate_ptr p 1); [|by eexists].
  destruct (path_string k d p Hd (Hb eq_refl)) as (s & _ & ->). rewrite outcome_bind_done. cbn [negb].
  destruct (find_node k _) as [node k1]. destruct (nz node); by eexists.
Qed.

Lemma sys_in_parent_done op k d p :
  user_dir (ok := ok) (taken := taken) k d → (syscall_validate_ptr p 1 = true → path_arg k d p) →
  ∃ v, sys_in_parent fuel junk op k p = Done v.
Proof.
  intros Hd Hb. unfold sys_in_parent. destruct (syscall_validate_ptr p 1); [|by eexists].
  destruct (path_string k d p Hd (Hb eq_refl)) as (s & Hs & ->). rewrite outcome_bind_done. cbn [negb].
  destruct (split_path_fits (uninit junk 128) (uninit junk 128) s Hs) as (parent & name & ->).
  rewrite outcome_bind_done. destruct (find_node k _) as [node k1].
  destruct (nz node); [|by eexists]. destruct (op _ _ _). by eexists.
Qed.

Lemma sys_getdents_done k d fd p i :
  user_dir (ok := ok) (taken := taken) k d → (syscall_validate_ptr p 128 = true → buffer_arg k d p sizeof_dirent) →
  ∃ v, sys_getdents k fd p i = Done v.
Proof.
  intros Hd Hb. unfold sys_getdents. destruct (syscall_validate_ptr p 128); [|by eexists]. specialize (Hb eq_refl).
  cbn [negb]. destruct (_ && _); [|by eexists]. destruct (_ =? _); [|by eexists].
  destruct (vfs_readdir _ _ _) as [child w]. destruct (nz child); [|by eexists].
  set (b := dirent_bytes _). pose proof (alen_dirent (node_at (fs_of (put_fs k w)) child)) as Hl. fold b in Hl.
  destruct (store_bytes_done (put_fs k w) d p b sizeof_dirent) as (k' & ->); [exact Hd|exact Hb|lia|by eexists].
Qed.

Lemma sys_getcmdline_done k d p n :
  user_dir (ok := ok) (taken := taken) k d → (syscall_validate_ptr p n = true → buffer_arg k d p n) →
  ∃ v, sys_getcmdline k p n = Done v.
Proof.
  intros Hd Hb. unfold sys_getcmdline. destruct (syscall_validate_ptr p n); [|by eexists]. specialize (Hb eq_refl).
  cbn [negb]. destruct (Z.ltb_spec 0 n); [|rewrite andb_false_r; by eexists]. destruct (nz _); [|by eexists]. cbn [andb].
  destruct (store_bytes_done k d p (kstrncpy (replicate (Z.to_nat (n - 1)) 0) 0 (cmdline (proc_of k)) (n - 1) ++ [0]) n)
    as (k' & ->); [done|done| |by eexists].
  rewrite alen_app, alen_kstrncpy by lia. change (alen [0]) with 1. lia.
Qed.

(** Each of the file calls returns. *)
Lemma file_call_returns k d r :
  file_call r → call_ready k d r → ∃ v, handler k r = Done v.
Proof.
  intros Hc Hr. pose proof Hr as [Hd _ Ha _].
  unfold syscall_handler, SYS_REBOOT, SYS_SHUTDOWN, SYS_EXIT. destruct (Z.eqb_spec (eax r) 88); [by eexists|].
  destruct (Z.eqb_spec (eax r) 89); [by eexists|].
  assert (eax r ≠ 1 ∧ ∃ v, syscall_dispatch fuel resume tick fresh junk k r = Done v) as [Hne [[ret k'] ->]].
  2: { destruct (Z.eqb_spec (eax r) 1); [done|]. by eexists. }
  unfold pointer_arg, is_path_call, SYS_WRITE, SYS_READ, SYS_OPEN in Ha. destruct Hc as [Hc|Hc].
  - split; [by intros E; rewrite E in Hc; set_solver|].
    unfold syscall_dispatch, sys_unlink, sys_mkdir, sys_create, SYS_WRITE, SYS_READ, SYS_OPEN, SYS_CLOSE.
    rewrite !elem_of_cons, elem_of_nil in Hc.
    destruct_or! Hc; try done; rewrite Hc in Ha |- *; cbn [Z.eqb Pos.eqb orb] in Ha |- *.
    + apply (sys_read_done k d r); [done|]. by apply Ha.
    + apply (sys_write_done k d); [done|]. by apply Ha.
    + apply (sys_open_done k d); [done|]. by apply Ha.
    + unfold sys_close. destruct (_ && _); by eexists.
    + apply (sys_getcmdline_done k d); [done|]. by apply Ha.
    + apply (sys_chmod_done k d); [done|]. by apply Ha.
    + apply (sys_in_parent_done _ k d); [done|]. by apply Ha.
    + apply (sys_in_parent_done _ k d); [done|]. by apply Ha.
    + apply (sys_in_parent_done _ k d); [done|]. by apply Ha.
    + apply (sys_getdents_done k d); [done|]. by apply Ha.
  - clear Ha Hr. unfold syscall_numbers in Hc. rewrite !not_elem_of_cons in Hc. split; [tauto|].
    unfold syscall_dispatch, SYS_WRITE, SYS_READ, SYS_OPEN, SYS_CLOSE. generalize dependent (eax r).
    intros num ? ? ?. by_number; try naive_solver; by eexists.
Qed.

(** C14: The process table stays well typed under the system calls: descriptor tables of 16
    entries in which 0 to 2 stay unbound, names and command lines in their arrays and
    terminated.  The calls on files and descriptors, on the caller's command line, and
    unknown ones return, and in such a state, whenever what the caller's accepted pointers
    point to is mapped, its paths have less than 128 characters (and end within the fuel), and
    the reads of the file system return no more than asked for ([call_ready]).  For the other calls (SYS_EXEC, the network, SYS_PS,
    SYS_WAITPID, SYS_EXIT, SYS_KILL) it is shown of every run that returns, provided the
    interrupts served while a call waits keep the type too; that they return is not claimed,
    and SYS_EXIT and SYS_KILL of a process whose threads are in the ready queue do not: the
    loop over the threads then runs around the ring (Process.v). *)
Theorem syscall_keeps_types k r :
  procs_ok (sched k) →
  (∀ d, file_call r → call_ready k d r →
     ∃ ret k', handler k r = Done (ret, k') ∧ procs_ok (sched k')) ∧
  (∀ ret k', handler k r = Done (ret, k') → procs_ok (sched k')).
Proof.
  intros Hok. split; [|intros ret k'; by apply handler_keeps_types].
  intros d Hc Hr. destruct (file_call_returns k d r Hc Hr) as [[ret k'] E].
  exists ret, k'. split; [done|]. by eapply handler_keeps_types.
Qed.
End returns.

(** ** Concrete runs

    A file system with one node, an executable, which is also its root; a process with the
    page 0x401000, which holds the path of that node. *)

Definition demo_node : vfs_node :=
  mk_node (replicate 128 0) 0 0 0 VFS_FILE 0 176 0 (Some FS_DEVFS) None None None None None None None None 0 0.

#[local] Instance demo_world : VfsWorld kheap := {|
  node_at _ _ := demo_node;
  put_node w _ _ := w;
  call_read _ w _ _ n b := (Z.min n 176, splice b 0 (take (Z.to_nat n) Pe.demo_file), w);
  call_write _ w _ _ _ _ := (0, w);
  call_open _ w _ := w;
  call_close _ w _ := w;
  call_readdir _ w _ _ := (0, w);
  call_finddir _ w _ _ := (0, w);
  call_create _ w _ _ := (0, w);
  call_unlink _ w _ _ := (false, w);
  call_mkdir _ w _ _ := (0, w) |}.

#[local] Instance kheap_on_heap : OnHeap kheap kheap := {| heap_of w := w; on_heap h _ := h |}.

Definition or_machine (m : machine pmm) (o : outcome (machine pmm)) : machine pmm :=
  match o with Done m' => m' | _ => m end.

Definition demo_page (m : machine pmm) : machine pmm := or_machine m (map_zeroed m 0x401000).

Definition demo_kernel (m : machine pmm) : net wire (sys kheap pmm (rest kheap uart)) wait_queue_t :=
  mk_net (mk_wire [2; 0; 0; 0; 0; 1] [])
    (mk_sys demo_kheap (Pe.vm m)
       (mk_rest demo_kheap (mk_vfs 8 (replicate 8 (mk_mount (replicate 128 0) 0))) (Pe.ram m) Tty.tty_ab
          (screen ∅ 0x1000 demo_term demo_uart))
       {[1 := mk_thread 0 THREAD_STATE_RUNNING 0 0 2 1]} {[2 := zero_process]} ∅ 1 1 2 1 1 0 0)
    demo_cache 0x0F02000A 0 demo_queues.

(** A call: its number and EBX, ECX, EDX, ESI. *)
Definition demo_call (n b c d s : Z) : registers_t := mk_regs 0 0 s 0 0 b d c n 0x80 0 0 0 0 0 0.

(** In the directory of the kernel, and in one of its own with the path in memory. *)
Definition demo_k : net wire (sys kheap pmm (rest kheap uart)) wait_queue_t := demo_kernel (demo_page Pe.demo_machine).
Definition demo_own : net wire (sys kheap pmm (rest kheap uart)) wait_queue_t :=
  let '(dir, v) := vmm_clone_directory demo_vmm in
  let m := demo_page (switch_to (mk_machine v ∅) dir) in
  demo_kernel (or_machine m (store m 0x401000 47)).

Lemma demo_k_user :
  user_dir (ok := pmm_ok) (taken := pmm_taken) demo_k 1 ∧
  ∀ v, 0x401000 <= v < 0x402000 → uview demo_k 1 v = Some 0.
Proof.
  destruct (map_zeroed_view (ok := pmm_ok) (taken := pmm_taken) (managed := pmm_managed) Pe.demo_machine 1 0x401000 8)
    as (m & E & Hs & Ha & Hv).
  - exact demo_space.
  - split; [exact (proj1 demo_vmm_ok)|done].
  - lia.
  - done.
  - done.
  - exact demo_frames.
  - assert (machine_of demo_k = m) as Em.
    { unfold demo_k, demo_page. rewrite E. by destruct m. }
    unfold user_dir, uview. rewrite Em. split; [split; [apply Hs|exact Ha]|].
    intros v Hr. unfold KERNEL_VIRT_BASE in Hv. rewrite Hv by lia.
    destruct (Z.leb_spec 0x401000 v), (Z.ltb_spec v (0x401000 + 4096)); try lia. done.
Qed.

Lemma demo_k_mapped v n i : 0x401000 <= v → v + n <= 0x402000 → 0 <= i < n → is_Some (uview demo_k 1 (v + i)).
Proof. intros. rewrite (proj2 demo_k_user) by lia. eauto. Qed.

Definition demo_junk (_ : Z) : Z := 0.
Definition demo_fresh (_ : kheap) (_ n : Z) : list Z := replicate (Z.to_nat n) 0.
Notation demo_handler := (syscall_handler 4 (λ k, k) (λ s, s) demo_fresh demo_junk).


Lemma demo_own_table : holds_table demo_own ∅.
Proof.
  constructor.
  - by vm_compute.
  - by vm_compute.
  - intros fd [x Hx]. by rewrite lookup_empty in Hx.
  - intros fd node Hx. by rewrite lookup_empty in Hx.
  - intros i Hi. rewrite lookup_empty. assert (fd_table (proc_of demo_own) = replicate 16 0) as -> by (by vm_compute).
    by rewrite aget_replicate.
Qed.

Lemma descriptors_refine_witness :
  ∃ k', demo_handler demo_own (demo_call 5 0x401000 0 0 0) = Done (Return (w_eax 3 (demo_call 5 0x401000 0 0 0)), k') ∧
    holds_table k' {[3 := 8]}.
Proof.
  destruct (descriptors_refine 4 (λ k, k) (λ s, s) demo_fresh demo_junk demo_own ∅ (demo_call 5 0x401000 0 0 0)
    demo_own_table) as [Ho _].
  destruct (Ho [47; 0] eq_refl ltac:(by vm_compute) ltac:(by vm_compute)) as [k' Hk].
  assert (table_open ∅ (find_node demo_own [47; 0]).1 = (3, {[3 := 8]})) as Et by (by vm_compute).
  rewrite Et in Hk. exists k'. exact Hk.
Defined.

Lemma demo_tty_inv : Tty.inv Tty.tty_ab.
Proof. unfold Tty.inv. split_and!; try (by vm_compute); vm_compute; discriminate. Qed.

Lemma sys_read_console_witness :
  ∃ k', demo_handler demo_k (demo_call 3 0 0x401010 8 0) = Done (Return (w_eax 2 (demo_call 3 0 0x401010 8 0)), k') ∧
    uview k' 1 0x401010 = Some 97 ∧ uview k' 1 0x401011 = Some 10 ∧ uview k' 1 0x401012 = Some 0 ∧
    Tty.contents (k_tty (env k')) = [98].
Proof.
  destruct (sys_read_console 4 (λ k, k) (λ s, s) demo_fresh demo_junk demo_k 1 (demo_call 3 0 0x401010 8 0) eq_refl eq_refl
    ltac:(cbn; lia) ltac:(cbn; lia) eq_refl (proj1 demo_k_user) demo_tty_inv) as (k' & E & Hv & _ & _ & Hc).
  - intros i Hi. apply (demo_k_mapped _ 8); cbn in *; lia.
  - exists k'. split; [exact E|]. unfold KERNEL_VIRT_BASE in Hv.
    split; [rewrite Hv by lia; by vm_compute|]. split; [rewrite Hv by lia; by vm_compute|].
    split; [|rewrite Hc; by vm_compute]. rewrite Hv by lia. cbv beta iota zeta.
    change (uview demo_k 1 0x401012 = Some 0). apply demo_k_user. lia.
Defined.

Lemma sys_write_console_witness :
  ∃ k', demo_handler demo_k (demo_call 4 1 0x401000 3 0) = Done (Return (w_eax 3 (demo_call 4 1 0x401000 3 0)), k') ∧
    hw (k_vga (env k')) = cells (type_text demo_paper [0; 0; 0]).
Proof.
  destruct (sys_write_console 4 (λ k, k) (λ s, s) demo_fresh demo_junk demo_k 1 (demo_call 4 1 0x401000 3 0) [0; 0; 0]
    ∅ 0x1000 demo_term demo_uart demo_paper eq_refl (or_introl eq_refl) ltac:(cbn; lia) eq_refl eq_refl
    ltac:(by vm_compute) eq_refl (proj1 demo_k_user)) as (k' & t' & s' & E & _ & _ & Hh & _).
  - intros i Hi. change (alen [0; 0; 0]) with 3 in Hi. cbn [ecx demo_call]. rewrite (proj2 demo_k_user) by lia.
    f_equal. symmetry. apply (aget_replicate 3). lia.
  - done.
  - apply (blank_sheet_shows 7).
  - exists k'. split; [exact E|exact Hh].
Defined.

Lemma sys_net_roundtrip_witness :
  ∃ k1 k2, demo_handler demo_k (demo_call 13 0x0100007F 7 0x401000 3) =
      Done (Return (w_eax 0 (demo_call 13 0x0100007F 7 0x401000 3)), k1) ∧
    demo_handler k1 (demo_call 14 7 0x401100 16 0) = Done (Return (w_eax 3 (demo_call 14 7 0x401100 16 0)), k2).
Proof.
  destruct (sys_net_roundtrip (ok := pmm_ok) (taken := pmm_taken) 4 (λ k, k) (λ s, s) demo_fresh demo_junk demo_k 1
    (demo_call 13 0x0100007F 7 0x401000 3) (demo_call 14 7 0x401100 16 0) [0; 0; 0] 0 demo_bound)
    as (k1 & k2 & E1 & E2 & _).
  - lia.
  - done.
  - done.
  - done.
  - cbn. lia.
  - exact demo_queues_wf.
  - done.
  - exact demo_slot.
  - by apply bytes_ok_b.
  - done.
  - done.
  - done.
  - done.
  - exact (proj1 demo_k_user).
  - intros i Hi. change (alen [0; 0; 0]) with 3 in Hi. cbn [edx demo_call]. rewrite (proj2 demo_k_user) by lia.
    f_equal. symmetry. apply (aget_replicate 3). lia.
  - done.
  - done.
  - done.
  - intros j Hj. apply (demo_k_mapped _ 16); cbn in *; lia.
  - exists k1, k2. exact (conj E1 E2).
Defined.

(** The result of the call and what the caller's page has become. *)
Lemma demo_exec_runs :
  (match sys_exec 4 demo_fresh demo_own 0x401000 0 with
   | Done (r, k) =>
       (r, Vmm.walk (mem (Process.vm (sched k))) (cr3 (Process.vm (sched k)) / 4096) 0x401000)
   | _ => (1, None)
   end) = (KERR_OK, None).
Proof. by vm_compute. Qed.

Lemma exec_on_kernel_directory_witness :
  ∃ k', sys_exec 4 demo_fresh demo_own 0x401000 0 = Done (KERR_OK, k') ∧
    on_kernel_directory (Process.vm (sched k')) ∧ load demo_own 0x401000 = Some 47 ∧ load k' 0x401000 = None.
Proof.
  pose proof demo_exec_runs as Hr.
  destruct (sys_exec 4 demo_fresh demo_own 0x401000 0) as [[ret k']| |] eqn:E; [|discriminate Hr..].
  injection Hr as -> Hw. exists k'.
  destruct (exec_on_kernel_directory 4 demo_fresh demo_own 0x401000 0 k' E) as (Hd & Hl & _).
  split; [reflexivity|]. split; [exact Hd|]. split; [by vm_compute|]. exact (Hl _ Hw).
Defined.

Lemma demo_k_procs : procs_ok (sched demo_k).
Proof.
  intros p. assert (prc (sched demo_k) = {[2 := zero_process]}) as E by (by vm_compute).
  unfold pget. rewrite E. destruct (decide (p = 2)) as [->|Hp].
  - rewrite lookup_singleton_eq. exact process_wf_zero.
  - rewrite lookup_singleton_ne by done. exact process_wf_zero.
Qed.

(** SYS_OPEN of a path in the page of the caller, in the kernel of the demonstration. *)
Lemma demo_k_ready : call_ready (ok := pmm_ok) (taken := pmm_taken) 4 demo_k 1 (demo_call 5 0x401000 0 0 0).
Proof.
  constructor.
  - exact (proj1 demo_k_user).
  - exact demo_tty_inv.
  - intros p n [= <- <-] _. cbn [is_path_call eax demo_call Z.eqb Pos.eqb orb SYS_OPEN].
    exists []. split_and!; [lia|done|cbn; lia|by vm_compute|constructor|].
    intros i Hi. change (alen ([] ++ [0])) with 1 in Hi. replace i with 0 by lia. apply demo_k_user. lia.
  - intros node n b Hb. pose proof (alen_nonneg b). unfold vfs_read. destruct (node =? 0); [by split; [|lia]|].
    cbn [f_read node_at demo_world demo_node call_read]. split; [|lia].
    rewrite alen_splice; [done|lia|]. rewrite alen_firstn. lia.
Qed.

Lemma syscall_keeps_types_witness :
  ∃ ret k', demo_handler demo_k (demo_call 5 0x401000 0 0 0) = Done (ret, k') ∧ procs_ok (sched k').
Proof.
  apply (proj1 (syscall_keeps_types (ok := pmm_ok) (taken := pmm_taken) 4 (λ k, k) (λ s, s) demo_fresh demo_junk
    (λ s Hs, Hs) (λ k Hk, Hk) demo_k (demo_call 5 0x401000 0 0 0) demo_k_procs) 1).
  - left. cbn [eax demo_call]. set_solver.
  - exact demo_k_ready.
Defined.
