(* ===== verification/Interrupts.v ===== *)
(** * Interrupts: arch/x86/gdt.c, idt.c, isr.c and mm/paging/fault.c

    The descriptor tables are arrays of packed entries, decoded the way the processor reads
    them; the interrupt controllers are a device behind ports 0x20, 0x21, 0xA0 and 0xA1; the
    dispatch composes the handlers (an interface) with the scheduler of Process.v.

    The theorems: a segment descriptor decodes to what was encoded; [idt_init] installs
    exactly the stubs it names and remaps both controllers, masked; [irq_handler] ends the
    interrupt in service and no other, spurious ones included; an exception in a user thread
    ends that thread and resumes another. *)

From S2P Require Import Prelude KString Pmm Vmm Kheap Process.

(** ** gdt.c *)

Record gdt_entry := mk_gdt_entry {
  limit_low : Z; g_base_low : Z; base_middle : Z; access : Z; granularity : Z; g_base_high : Z }.
#[global] Instance gdt_entry_inhabited : Inhabited gdt_entry := populate (mk_gdt_entry 0 0 0 0 0 0).

Record tss_entry_t := mk_tss {
  tss_esp0 : Z; tss_ss0 : Z; tss_cs : Z; tss_ss : Z; tss_ds : Z; tss_es : Z; tss_fs : Z; tss_gs : Z }.

Definition sizeof_tss : Z := 104.
Definition sizeof_descriptor : Z := 8.

Definition GDT_ACCESS_PRESENT : Z := 0x80.
Definition GDT_ACCESS_RING0 : Z := 0x00.
Definition GDT_ACCESS_RING3 : Z := 0x60.
Definition GDT_ACCESS_DESCRIPTOR_TYPE : Z := 0x10.
Definition GDT_ACCESS_EXECUTABLE : Z := 0x08.
Definition GDT_ACCESS_RW : Z := 0x02.
Definition GDT_GRAN_4K : Z := 0x80.
Definition GDT_GRAN_32BIT : Z := 0x40.

(** The tables, the loaded registers (limit and base) and the task register. *)
Record gdt := mk_gdt {
  gdt_entries : list gdt_entry; tss_entry : tss_entry_t; gdtr : Z * Z; task_register : Z }.

Definition descriptor (base limit access gran : Z) : gdt_entry :=
  mk_gdt_entry (Z.land limit 0xFFFF) (Z.land base 0xFFFF) (Z.land (Z.shiftr base 16) 0xFF) access
    (Z.lor (Z.land (Z.shiftr limit 16) 0x0F) (Z.land gran 0xF0)) (Z.land (Z.shiftr base 24) 0xFF).

Definition gdt_set_gate (g : gdt) (num base limit access gran : Z) : gdt :=
  mk_gdt ((gdt_entries g).[num <- descriptor base limit access gran]) (tss_entry g) (gdtr g) (task_register g).

(** [tss] and [gdt_at] are the addresses of the two static objects; the fields of the TSS
    the code does not name are zero. *)
Definition gdt_write_tss (tss : Z) (g : gdt) (num ss0 esp0 : Z) : gdt :=
  let g := gdt_set_gate g num tss sizeof_tss 0xE9 0x00 in
  mk_gdt (gdt_entries g) (mk_tss esp0 ss0 0x0B 0x13 0x13 0x13 0x13 0x13) (gdtr g) (task_register g).

Definition flags_or (l : list Z) : Z := foldr Z.lor 0 l.

Definition gdt_init (tss gdt_at : Z) (g : gdt) : gdt :=
  let gran := Z.lor GDT_GRAN_4K GDT_GRAN_32BIT in
  let g := gdt_set_gate g 0 0 0 0 0 in
  let g := gdt_set_gate g 1 0 0xFFFFFFFF
             (flags_or [GDT_ACCESS_PRESENT; GDT_ACCESS_DESCRIPTOR_TYPE; GDT_ACCESS_RING0; GDT_ACCESS_EXECUTABLE;
                        GDT_ACCESS_RW]) gran in
  let g := gdt_set_gate g 2 0 0xFFFFFFFF
             (flags_or [GDT_ACCESS_PRESENT; GDT_ACCESS_DESCRIPTOR_TYPE; GDT_ACCESS_RING0; GDT_ACCESS_RW]) gran in
  let g := gdt_set_gate g 3 0 0xFFFFFFFF
             (flags_or [GDT_ACCESS_PRESENT; GDT_ACCESS_DESCRIPTOR_TYPE; GDT_ACCESS_RING3; GDT_ACCESS_EXECUTABLE;
                        GDT_ACCESS_RW]) gran in
  let g := gdt_set_gate g 4 0 0xFFFFFFFF
             (flags_or [GDT_ACCESS_PRESENT; GDT_ACCESS_DESCRIPTOR_TYPE; GDT_ACCESS_RING3; GDT_ACCESS_RW]) gran in
  let g := gdt_write_tss tss g 5 0x10 0 in
  mk_gdt (gdt_entries g) (tss_entry g) (sizeof_descriptor * 6 - 1, gdt_at) 0x28.

(** ** idt.c *)

Record idt_entry := mk_idt_entry { base_low : Z; selector : Z; always0 : Z; gate_flags : Z; base_high : Z }.
#[global] Instance idt_entry_inhabited : Inhabited idt_entry := populate (mk_idt_entry 0 0 0 0 0).

Definition IDT_FLAG_PRESENT : Z := 0x80.
Definition IDT_FLAG_RING0 : Z := 0x00.
Definition IDT_FLAG_RING3 : Z := 0x60.
Definition IDT_FLAG_GATE_32BIT : Z := 0x0E.
Definition PIC1_COMMAND : Z := 0x20.
Definition PIC1_DATA : Z := 0x21.
Definition PIC2_COMMAND : Z := 0xA0.
Definition PIC2_DATA : Z := 0xA1.
Definition PIC_EOI : Z := 0x20.

Record idt := mk_idt { idt_entries : list idt_entry; idtr : Z * Z }.

Definition idt_set_gate (t : idt) (num base sel flags : Z) : idt :=
  mk_idt ((idt_entries t).[num <- mk_idt_entry (Z.land base 0xFFFF) sel 0 flags (Z.land (Z.shiftr base 16) 0xFFFF)])
    (idtr t).

Section pic.
Context {D : Type} `{PortIO D}.
Implicit Types d : D.

Definition io_wait d : D := outb d 0x80 0.

Definition pic_remap d : D :=
  let d := io_wait (outb (outb d PIC1_COMMAND 0x11) PIC2_COMMAND 0x11) in
  let d := io_wait (outb (outb d PIC1_DATA 0x20) PIC2_DATA 0x28) in
  let d := io_wait (outb (outb d PIC1_DATA 0x04) PIC2_DATA 0x02) in
  let d := io_wait (outb (outb d PIC1_DATA 0x01) PIC2_DATA 0x01) in
  outb (outb d PIC1_DATA 0xFF) PIC2_DATA 0xFF.

(** [isr n], [irq n] and [isr128] are the addresses of the assembly stubs, [idt_at] that of
    the table. *)
Definition kernel_gate : Z := flags_or [IDT_FLAG_PRESENT; IDT_FLAG_RING0; IDT_FLAG_GATE_32BIT].
Definition user_gate : Z := flags_or [IDT_FLAG_PRESENT; IDT_FLAG_RING3; IDT_FLAG_GATE_32BIT].

Definition idt_init (isr irq : Z → Z) (isr128 idt_at : Z) d (t : idt) : D * idt :=
  let t := mk_idt (replicate 256 (mk_idt_entry 0 0 0 0 0)) (sizeof_descriptor * 256 - 1, idt_at) in
  let d := pic_remap d in
  let t := for_loop 32 0 (λ n t, idt_set_gate t n (isr n) 0x08 kernel_gate) t in
  let t := for_loop 16 0 (λ n t, idt_set_gate t (32 + n) (irq n) 0x08 kernel_gate) t in
  (d, idt_set_gate t 0x80 isr128 0x08 user_gate).
End pic.

(** ** What the hardware makes of the tables *)

(** The processor's reading of a segment descriptor: base, limit, access, flags. *)
Definition segment (e : gdt_entry) : Z * Z * Z * Z :=
  (g_base_low e + 0x10000 * base_middle e + 0x1000000 * g_base_high e,
   limit_low e + 0x10000 * (granularity e mod 16), access e, 16 * (granularity e / 16)).

(** And of a gate: the entry point, its selector and its flags, when it is present. *)
Definition gate (e : idt_entry) : option (Z * Z * Z) :=
  if Z.testbit (gate_flags e) 7 then Some (base_low e + 0x10000 * base_high e, selector e, gate_flags e) else None.

(** Two cascaded 8259 controllers: the step of the initialisation, the vector offset, the
    mask, the interrupts in service (bit per line) and the register a read returns. *)
Record pic8259 := mk_pic { p_step : Z; p_offset : Z; p_mask : Z; p_isr : Z; p_read_isr : bool }.
Record pics := mk_pics { master : pic8259; slave : pic8259 }.

(** Ending the interrupt with the highest priority, the lowest line. *)
Definition pic_eoi (isr : Z) : Z := Z.land isr (isr - 1).

Definition pic_command (p : pic8259) (v : Z) : pic8259 :=
  if Z.testbit v 4 then mk_pic 1 (p_offset p) 0 0 false
  else if Z.testbit v 3 then mk_pic (p_step p) (p_offset p) (p_mask p) (p_isr p) (Z.land v 3 =? 3)
  else if v =? 0x20 then mk_pic (p_step p) (p_offset p) (p_mask p) (pic_eoi (p_isr p)) (p_read_isr p)
  else p.

Definition pic_data (p : pic8259) (v : Z) : pic8259 :=
  if p_step p =? 1 then mk_pic 2 v (p_mask p) (p_isr p) (p_read_isr p)
  else if p_step p =? 2 then mk_pic 3 (p_offset p) (p_mask p) (p_isr p) (p_read_isr p)
  else if p_step p =? 3 then mk_pic 0 (p_offset p) (p_mask p) (p_isr p) (p_read_isr p)
  else mk_pic 0 (p_offset p) v (p_isr p) (p_read_isr p).

#[global] Instance pics_io : PortIO pics := {|
  inb d port :=
    (if port =? 0x20 then if p_read_isr (master d) then p_isr (master d) else 0
     else if port =? 0xA0 then if p_read_isr (slave d) then p_isr (slave d) else 0
     else 0, d);
  inw d _ := (0, d);
  inl d _ := (0, d);
  outb d port v :=
    if port =? 0x20 then mk_pics (pic_command (master d) v) (slave d)
    else if port =? 0x21 then mk_pics (pic_data (master d) v) (slave d)
    else if port =? 0xA0 then mk_pics (master d) (pic_command (slave d) v)
    else if port =? 0xA1 then mk_pics (master d) (pic_data (slave d) v)
    else d;
  outw d _ _ := d;
  outl d _ _ := d |}.

(** ** isr.c *)

(** How an interrupt ends: [iret] with the frame at this address, or the machine stops. *)
Inductive intr_end := Iret (regs : Z) | Halted.

Record intr (H F V D A : Type) := mk_intr {
  i_sys : sys H F V; i_ports : D; interrupt_handlers : list (option A) }.
Arguments mk_intr {H F V D A}.
Arguments i_sys {H F V D A}.
Arguments i_ports {H F V D A}.
Arguments interrupt_handlers {H F V D A}.

Section dispatch.
Context {H F V D A : Type} `{HeapAlloc H} `{FrameAllocator F} `{PortIO D}.
Notation state := (intr H F V D A).
(** What the registered functions do; [None] when they stop the machine. *)
Variable call : A → state → Z → outcome (option state).
Variable fuel : nat.
Implicit Types (st : state) (regs : Z).

Definition with_sys st (s : sys H F V) : state := mk_intr s (i_ports st) (interrupt_handlers st).
Definition with_ports st (d : D) : state := mk_intr (i_sys st) d (interrupt_handlers st).

Definition register_interrupt_handler st (n : Z) (handler : A) : state :=
  mk_intr (i_sys st) (i_ports st) ((interrupt_handlers st).[n <- Some handler]).

(** [registers->int_no] *)
Definition vector st regs : Z := int_no (default zero_regs (ctx (i_sys st) !! regs)).

Definition handler_at st (n : Z) : outcome (option A) :=
  match (if n <? 0 then None else interrupt_handlers st !! Z.to_nat n) with Some h => Done h | None => Fault end.

Definition schedule st regs : outcome (intr_end * state) :=
  match scheduler_schedule fuel (i_sys st) regs with
  | Some (r, s) => Done (Iret r, with_sys st s)
  | None => NoFuel
  end.

(** [exception_messages] has 32 entries; the messages themselves are left out. *)
Definition isr_handler st regs : outcome (intr_end * state) :=
  let n := vector st regs in
  h ← handler_at st n;
  match h with
  | Some handler =>
      r ← call handler st regs;
      match r with Some st => schedule st regs | None => Done (Halted, st) end
  | None =>
      if negb (ck_memory n 1 32) then Fault
      else
        let thread := scheduler_get_current_thread (i_sys st) in
        let proc := if nz thread then tprocess (tget (i_sys st) thread) else 0 in
        if nz proc && (0 <? pid (pget (i_sys st) proc)) then
          schedule (with_sys st (tupd (i_sys st) thread (w_tstate THREAD_STATE_TERMINATED))) regs
        else Done (Halted, st)
  end.

(** The in-service register of a controller. *)
Definition read_isr st (command : Z) : Z * state :=
  let '(isr, d) := inb (outb (i_ports st) command 0x0B) command in (isr, with_ports st d).

Definition send_eoi st (n : Z) : state :=
  let st := if 40 <=? n then with_ports st (outb (i_ports st) PIC2_COMMAND PIC_EOI) else st in
  with_ports st (outb (i_ports st) PIC1_COMMAND PIC_EOI).

(** The end of [irq_handler]: acknowledge, call, schedule. *)
Definition irq_serve st regs : outcome (intr_end * state) :=
  let n := vector st regs in
  let st := send_eoi st n in
  h ← handler_at st n;
  match h with
  | Some handler =>
      r ← call handler st regs;
      match r with Some st => schedule st regs | None => Done (Halted, st) end
  | None => schedule st regs
  end.

Definition irq_handler st regs : outcome (intr_end * state) :=
  let n := vector st regs in
  if n =? 39 then
    let '(isr, st) := read_isr st PIC1_COMMAND in
    if negb (nz (Z.land isr 0x80)) then schedule st regs else irq_serve st regs
  else if n =? 47 then
    let '(isr, st) := read_isr st PIC2_COMMAND in
    if negb (nz (Z.land isr 0x80)) then
      schedule (with_ports st (outb (i_ports st) PIC1_COMMAND PIC_EOI)) regs
    else irq_serve st regs
  else irq_serve st regs.
End dispatch.

(** ** fault.c *)

(** [cr2] is the faulting address; the result is [None] when the kernel panics. *)
Definition page_fault_handler {H F V} `{HeapAlloc H} `{FrameAllocator F} (vfs_close : V → Z → V) (fuel : nat)
    (cr2 : Z) (st : sys H F V) (regs : Z) : outcome (option (sys H F V)) :=
  let frame := default zero_regs (ctx st !! regs) in
  let us := nz (Z.land (err_code frame) 0x4) in
  let current := scheduler_get_current_thread st in
  let proc := if nz current then tprocess (tget st current) else 0 in
  if us || (nz current && nz proc && ((cr2 <? 0x00400000) || (0xBFFFFFFF <? cr2))) then
    if nz proc then
      match process_terminate vfs_close fuel st proc (128 + 11) with Some s => Done (Some s) | None => NoFuel end
    else if nz current then Done (Some (tupd st current (w_tstate THREAD_STATE_TERMINATED)))
    else Done (Some st)
  else Done None.

(** ** The tables say what they should *)

Lemma land_ones_mod x k : 0 <= k → Z.land x (2 ^ k - 1) = x mod 2 ^ k.
Proof. intros. rewrite <-Z.land_ones by done. f_equal. rewrite Z.ones_equiv. lia. Qed.

Lemma lor_nibbles a b : 0 <= a < 16 → 0 <= b → Z.lor a (16 * b) = a + 16 * b.
Proof. intros. rewrite Z.lor_comm. change 16 with (2 ^ 4). rewrite Z.mul_comm, <-Z.shiftl_mul_pow2, lor_shift by lia.
  rewrite ?Z.shiftl_mul_pow2 by lia. lia. Qed.

Lemma land_high_nibble g : 0 <= g < 256 → Z.land g 0xF0 = 16 * (g / 16).
Proof.
  intros Hg. apply Z.eqb_eq. revert g Hg.
  apply (byte_forall (λ g, Z.land g 0xF0 =? 16 * (g / 16))). by vm_compute.
Qed.

(** A descriptor decodes to the base and the 20 bits of limit it was made from. *)
Lemma segment_descriptor base limit acc gran :
  0 <= base < 0x100000000 → 0 <= limit < 0x100000000 → 0 <= gran < 256 →
  segment (descriptor base limit acc gran) = (base, limit mod 0x100000, acc, Z.land gran 0xF0).
Proof.
  intros Hb Hl Hg. unfold segment, descriptor.
  cbn [limit_low g_base_low base_middle access granularity g_base_high].
  change 0xFFFF with (2 ^ 16 - 1). change 0xFF with (2 ^ 8 - 1). change 0x0F with (2 ^ 4 - 1).
  rewrite !land_ones_mod, !Z.shiftr_div_pow2, land_high_nibble by lia.
  rewrite lor_nibbles by zlia. rewrite !pair_equal_spec. split_and!; zlia.
Qed.

(** After [gdt_init] the processor sees flat 4 GiB segments for the kernel at 0x08 and
    0x10 (privilege 0) and for programs at 0x18 and 0x20 (privilege 3), the task state
    segment at its address, and the register that loads the table covers exactly them. *)
Theorem gdt_init_segments tss gdt_at g :
  0 <= tss < 0x100000000 → alen (gdt_entries g) = 6 →
  let g' := gdt_init tss gdt_at g in
  segment <$> gdt_entries g' =
    [(0, 0, 0, 0); (0, 0xFFFFF, 0x9A, 0xC0); (0, 0xFFFFF, 0x92, 0xC0); (0, 0xFFFFF, 0xFA, 0xC0);
     (0, 0xFFFFF, 0xF2, 0xC0); (tss, 104, 0xE9, 0)] ∧
  gdtr g' = (47, gdt_at) ∧ task_register g' = 8 * 5 ∧ tss_ss0 (tss_entry g') = 0x10.
Proof.
  intros Ht Hl g'. split_and!; try done. unfold g'.
  destruct g as [l t r k]. cbn [gdt_entries] in Hl. unfold alen in Hl.
  do 7 (destruct l as [|? l]; cbn [length] in Hl; try lia). clear Hl.
  match goal with |- segment <$> ?x = _ =>
    change x with [descriptor 0 0 0 0; descriptor 0 0xFFFFFFFF 0x9A 0xC0; descriptor 0 0xFFFFFFFF 0x92 0xC0;
      descriptor 0 0xFFFFFFFF 0xFA 0xC0; descriptor 0 0xFFFFFFFF 0xF2 0xC0; descriptor tss 104 0xE9 0] end.
  cbn [fmap list_fmap map]. by rewrite !segment_descriptor by (done || lia).
Qed.

(** *** The gates *)

Lemma gate_entry base sel flags :
  0 <= base < 0x100000000 → Z.testbit flags 7 = true →
  gate (mk_idt_entry (Z.land base 0xFFFF) sel 0 flags (Z.land (Z.shiftr base 16) 0xFFFF)) = Some (base, sel, flags).
Proof.
  intros Hb Hf. unfold gate. cbn [gate_flags base_low base_high selector]. rewrite Hf.
  change 0xFFFF with (2 ^ 16 - 1). rewrite !land_ones_mod, Z.shiftr_div_pow2 by lia. do 3 f_equal. zlia.
Qed.

(** The gates after a run of [idt_set_gate]s. *)
Lemma set_gates n a (f : Z → Z) flags t :
  0 <= a → a + Z.of_nat n <= alen (idt_entries t) → (∀ i, 0 <= i < Z.of_nat n → 0 <= f i < 0x100000000) →
  Z.testbit flags 7 = true →
  let t' := for_loop n 0 (λ i t, idt_set_gate t (a + i) (f i) 0x08 flags) t in
  alen (idt_entries t') = alen (idt_entries t) ∧ idtr t' = idtr t ∧
  ∀ v, gate ((idt_entries t').[v]) =
    if (a <=? v) && (v <? a + Z.of_nat n) then Some (f (v - a), 0x08, flags) else gate ((idt_entries t).[v]).
Proof.
  intros Ha Hn Hf Hfl. cbv zeta.
  destruct (for_loop_inv (λ i t', alen (idt_entries t') = alen (idt_entries t) ∧ idtr t' = idtr t ∧
    ∀ v, gate ((idt_entries t').[v]) =
      if (a <=? v) && (v <? a + i) then Some (f (v - a), 0x08, flags) else gate ((idt_entries t).[v]))
    n 0 (λ i t, idt_set_gate t (a + i) (f i) 0x08 flags) t) as (L & R & G).
  - split; [done|]. split; [done|]. intros v. destruct (Z.leb_spec a v), (Z.ltb_spec v (a + 0)); try done; lia.
  - intros i t1 Hi (L & R & G). cbn [idt_set_gate idt_entries idtr]. split; [by rewrite alen_aset|].
    split; [done|]. intros v. rewrite aget_aset by lia. destruct (Z.eqb_spec v (a + i)) as [->|].
    + rewrite gate_entry by (done || (apply Hf; lia)).
      destruct (Z.leb_spec a (a + i)), (Z.ltb_spec (a + i) (a + (i + 1))); try lia. cbn [andb].
      by replace (a + i - a) with i by lia.
    + rewrite G. destruct (Z.leb_spec a v), (Z.ltb_spec v (a + i)), (Z.ltb_spec v (a + (i + 1))); done || lia.
  - by rewrite Z.add_0_l in G.
Qed.

(** [idt_init] fills the table: the 32 exceptions and the 16 hardware interrupts lead to
    their stubs and only the kernel can invoke them, vector 0x80 leads to the system call
    stub and programs can, no other vector is present; both controllers deliver at 32 and 40
    with every line masked. *)
Theorem idt_init_gates isr irq isr128 idt_at (d : pics) t :
  (∀ n, 0 <= n < 32 → 0 <= isr n < 0x100000000) → (∀ n, 0 <= n < 16 → 0 <= irq n < 0x100000000) →
  0 <= isr128 < 0x100000000 →
  let '(d', t') := idt_init isr irq isr128 idt_at d t in
  (∀ v, 0 <= v < 256 → gate ((idt_entries t').[v]) =
     if v <? 32 then Some (isr v, 0x08, 0x8E) else if v <? 48 then Some (irq (v - 32), 0x08, 0x8E)
     else if v =? 0x80 then Some (isr128, 0x08, 0xEE) else None) ∧
  idtr t' = (2047, idt_at) ∧
  master d' = mk_pic 0 32 0xFF 0 false ∧ slave d' = mk_pic 0 40 0xFF 0 false.
Proof.
  intros Hisr Hirq H128. unfold idt_init. cbv zeta.
  set (t0 := mk_idt _ _). assert (alen (idt_entries t0) = 256) as L0 by done.
  assert (∀ v, gate ((idt_entries t0).[v]) = None) as G0.
  { intros v. cbn [idt_entries t0]. destruct (decide (0 <= v < 256)).
    - by rewrite aget_replicate.
    - unfold aget. destruct (Z.ltb_spec v 0); [done|].
      by rewrite list_lookup_total_alt, lookup_ge_None_2 by (rewrite length_replicate; lia). }
  assert (idtr t0 = (2047, idt_at)) as R0 by done. clearbody t0.
  destruct (set_gates 32 0 isr kernel_gate t0) as (L1 & R1 & G1); [lia|lia|done|done|].
  cbn [Z.add] in L1, R1, G1. set (t1 := for_loop 32 0 _ t0) in *. clearbody t1.
  destruct (set_gates 16 32 irq kernel_gate t1) as (L2 & R2 & G2); [lia|lia|done|done|].
  set (t2 := for_loop 16 0 _ t1) in *. clearbody t2.
  split; [|split; [|by split]].
  - intros v Hv. cbn [idt_set_gate idt_entries]. rewrite aget_aset by lia. destruct (Z.eqb_spec v 0x80) as [->|].
    + by rewrite gate_entry.
    + rewrite G2, G1, G0. replace (0 + Z.of_nat 32) with 32 by lia. replace (32 + Z.of_nat 16) with 48 by lia.
      replace (v - 0) with v by lia.
      destruct (Z.ltb_spec v 32), (Z.leb_spec 32 v), (Z.ltb_spec v 48), (Z.leb_spec 0 v); try lia; done.
  - cbn [idt_set_gate idtr]. by rewrite R2, R1, R0.
Qed.

(** ** Acknowledging interrupts *)

(** The lines in service on both controllers. *)
Definition in_service (d : pics) : Z * Z := (p_isr (master d), p_isr (slave d)).

(** Delivery of vector [n] puts its line in service; a line of the second controller also
    the cascade line of the first.  A spurious interrupt has no line in service, only the
    cascade when it came from the second. *)
Definition serve (p : pic8259) (line : Z) : pic8259 :=
  mk_pic (p_step p) (p_offset p) (p_mask p) (Z.lor (p_isr p) (Z.shiftl 1 line)) (p_read_isr p).

Definition deliver (d : pics) (n : Z) : pics :=
  if n <? 40 then mk_pics (serve (master d) (n - 32)) (slave d)
  else mk_pics (serve (master d) 2) (serve (slave d) (n - 40)).

Definition deliver_spurious (d : pics) (n : Z) : pics :=
  if n <? 40 then d else mk_pics (serve (master d) 2) (slave d).

(** A line is delivered only when nothing of its or of higher priority is in service. *)
Definition deliverable (d : pics) (n : Z) : Prop :=
  if n <? 40 then p_isr (master d) mod 2 ^ (n - 32 + 1) = 0
  else p_isr (master d) mod 2 ^ 3 = 0 ∧ p_isr (slave d) mod 2 ^ (n - 40 + 1) = 0.

Lemma eoi_undoes isr line :
  0 <= line < 8 → 0 <= isr < 256 → isr mod 2 ^ (line + 1) = 0 → pic_eoi (Z.lor isr (Z.shiftl 1 line)) = isr.
Proof.
  intros Hl Hi Hm.
  pose proof (byte_forall (λ isr, forallb (λ line, negb (isr mod 2 ^ (line + 1) =? 0) ||
    (pic_eoi (Z.lor isr (Z.shiftl 1 line)) =? isr)) (seqZ 0 8)) ltac:(by vm_compute) isr Hi) as HP.
  rewrite forallb_forall in HP. specialize (HP line). rewrite Hm in HP. apply Z.eqb_eq, HP.
  apply list_elem_of_In, elem_of_seqZ. lia.
Qed.

Lemma serve_bit7 isr : nz (Z.land (Z.lor isr (Z.shiftl 1 7)) 0x80) = true.
Proof.
  unfold nz. destruct (Z.eqb_spec (Z.land (Z.lor isr (Z.shiftl 1 7)) 0x80) 0) as [E|]; [|done].
  apply (f_equal (λ x, Z.testbit x 7)) in E. rewrite Z.land_spec, Z.lor_spec in E. by rewrite orb_true_r in E.
Qed.

Lemma eoi_master (d : pics) :
  in_service (outb d PIC1_COMMAND PIC_EOI) = (pic_eoi (p_isr (master d)), p_isr (slave d)).
Proof. reflexivity. Qed.
Lemma eoi_slave (d : pics) :
  in_service (outb d PIC2_COMMAND PIC_EOI) = (p_isr (master d), pic_eoi (p_isr (slave d))).
Proof. reflexivity. Qed.

(** What [send_eoi] does to the lines in service. *)
Definition ended (n : Z) (x : Z * Z) : Z * Z :=
  (pic_eoi x.1, if 40 <=? n then pic_eoi x.2 else x.2).

Section service.
Context {H F V A : Type} `{HeapAlloc H} `{FrameAllocator F}.
Notation state := (intr H F V pics A).
Variable call : A → state → Z → outcome (option state).
Variable fuel : nat.
Implicit Types (st : state) (regs : Z).

(** The scheduler's queues are in order. *)
Definition ready (s : sys H F V) : Prop :=
  ∃ l pl rot, ring s l ∧ alive_list s pl ∧ rotation (current_thread s) l rot ∧
    (length l <= fuel)%nat ∧ (length pl <= fuel)%nat.

(** The registered functions return, leave the controllers alone and the queues in order. *)
Hypothesis call_keeps : ∀ h st regs, ready (i_sys st) →
  ∃ st1, call h st regs = Done (Some st1) ∧ i_ports st1 = i_ports st ∧ ready (i_sys st1).

Lemma schedule_returns st regs :
  ready (i_sys st) → ∃ r s, schedule fuel st regs = Done (Iret r, with_sys st s).
Proof.
  intros (l & pl & rot & Hr & Ha & Hrot & Hl & Hp). unfold schedule.
  destruct (schedule_spec fuel (i_sys st) l pl rot regs Hr Ha Hrot Hl Hp) as (r & s & -> & _). by exists r, s.
Qed.

Lemma irq_serve_returns st regs n :
  ready (i_sys st) → vector st regs = n → 32 <= n < 48 → alen (interrupt_handlers st) = 256 →
  ∃ r st', irq_serve call fuel st regs = Done (Iret r, st') ∧ i_ports st' = i_ports (send_eoi st n).
Proof.
  intros Hrd Hv Hn Hl. unfold irq_serve. rewrite Hv. cbv zeta. unfold handler_at.
  destruct (Z.ltb_spec n 0); [lia|].
  assert (interrupt_handlers (send_eoi st n) = interrupt_handlers st) as -> by (unfold send_eoi; by destruct (40 <=? n)).
  destruct (lookup_lt_is_Some_2 (interrupt_handlers st) (Z.to_nat n)) as [h ->]; [unfold alen in Hl; lia|].
  assert (ready (i_sys (send_eoi st n))) as Hrd' by (unfold send_eoi; by destruct (40 <=? n)).
  cbn [mbind outcome_bind]. destruct h as [h|].
  - destruct (call_keeps h (send_eoi st n) regs Hrd') as (st1 & -> & Hp & Hr1). cbn [mbind outcome_bind].
    destruct (schedule_returns st1 regs Hr1) as (r & s & ->). by exists r, (with_sys st1 s).
  - destruct (schedule_returns (send_eoi st n) regs Hrd') as (r & s & ->). by exists r, (with_sys (send_eoi st n) s).
Qed.

Definition byte_isr (d : pics) : Prop := 0 <= p_isr (master d) < 256 ∧ 0 <= p_isr (slave d) < 256.

Lemma send_eoi_ended st n : in_service (i_ports (send_eoi st n)) = ended n (in_service (i_ports st)).
Proof. unfold send_eoi, ended. by destruct (40 <=? n). Qed.

Lemma eoi_restores d n :
  32 <= n < 48 → deliverable d n → byte_isr d → ended n (in_service (deliver d n)) = in_service d.
Proof.
  intros Hn Hd [Hm Hs]. unfold deliverable, deliver, in_service, ended in *.
  destruct (Z.ltb_spec n 40), (Z.leb_spec 40 n); try lia; cbn [master slave serve p_isr fst snd].
  - by rewrite eoi_undoes by (done || lia).
  - destruct Hd as [D1 D2]. by rewrite !eoi_undoes by (done || lia).
Qed.

Lemma read_isr_ports st c isr st1 :
  read_isr st c = (isr, st1) → c = PIC1_COMMAND ∨ c = PIC2_COMMAND →
  in_service (i_ports st1) = in_service (i_ports st) ∧ i_sys st1 = i_sys st ∧
    interrupt_handlers st1 = interrupt_handlers st ∧
    (c = PIC1_COMMAND → isr = p_isr (master (i_ports st))) ∧ (c = PIC2_COMMAND → isr = p_isr (slave (i_ports st))).
Proof. intros E [-> | ->]; unfold read_isr in E; injection E as <- <-; by split_and!. Qed.

(** C18: However the interrupt ends up being handled, [irq_handler] returns to a thread and
    leaves in service exactly what was in service before the interrupt: the line itself and
    for the second controller the cascade line are ended, a spurious interrupt 7 ends
    nothing, a spurious interrupt 15 only the cascade.  The registered handlers are those that
    return and keep the queues in order, without zombies ([ready]). *)
Theorem irq_ends_service st regs n :
  32 <= n < 48 → vector st regs = n → ready (i_sys st) → alen (interrupt_handlers st) = 256 → byte_isr (i_ports st) →
  (deliverable (i_ports st) n →
   ∃ r st', irq_handler call fuel (with_ports st (deliver (i_ports st) n)) regs = Done (Iret r, st') ∧
     in_service (i_ports st') = in_service (i_ports st)) ∧
  (n = 39 ∧ Z.testbit (p_isr (master (i_ports st))) 7 = false ∨
   n = 47 ∧ Z.testbit (p_isr (slave (i_ports st))) 7 = false ∧ p_isr (master (i_ports st)) mod 2 ^ 3 = 0 →
   ∃ r st', irq_handler call fuel (with_ports st (deliver_spurious (i_ports st) n)) regs = Done (Iret r, st') ∧
     in_service (i_ports st') = in_service (i_ports st)).
Proof.
  intros Hn Hv Hrd Hl Hby. split.
  - intros Hd. set (st0 := with_ports st (deliver (i_ports st) n)).
    assert (∀ st1, in_service (i_ports st1) = in_service (deliver (i_ports st) n) → i_sys st1 = i_sys st →
      interrupt_handlers st1 = interrupt_handlers st →
      ∃ r st', irq_serve call fuel st1 regs = Done (Iret r, st') ∧ in_service (i_ports st') = in_service (i_ports st))
      as Hserve.
    { intros st1 Ei Es Eh. destruct (irq_serve_returns st1 regs n) as (r & st' & E & Ep).
      { by rewrite Es. } { unfold vector in *. by rewrite Es. } { done. } { by rewrite Eh. }
      exists r, st'. split; [done|]. rewrite Ep, send_eoi_ended, Ei. by apply eoi_restores. }
    unfold irq_handler. change (vector st0 regs) with (vector st regs). rewrite Hv. cbv zeta.
    destruct (Z.eqb_spec n 39) as [->|]; [|destruct (Z.eqb_spec n 47) as [->|]; [|by apply Hserve]].
    + destruct (read_isr st0 PIC1_COMMAND) as [isr st1] eqn:Er.
      destruct (read_isr_ports _ _ _ _ Er (or_introl eq_refl)) as (E1 & E2 & E3 & E4 & _). rewrite (E4 eq_refl).
      cbn [st0 i_ports with_ports deliver Z.ltb Z.compare Pos.compare Pos.compare_cont master serve p_isr].
      change (39 - 32) with 7. rewrite serve_bit7. by apply Hserve.
    + destruct (read_isr st0 PIC2_COMMAND) as [isr st1] eqn:Er.
      destruct (read_isr_ports _ _ _ _ Er (or_intror eq_refl)) as (E1 & E2 & E3 & _ & E4). rewrite (E4 eq_refl).
      cbn [st0 i_ports with_ports deliver Z.ltb Z.compare Pos.compare Pos.compare_cont slave serve p_isr].
      change (47 - 40) with 7. rewrite serve_bit7. by apply Hserve.
  - assert (∀ isr, Z.testbit isr 7 = false → nz (Z.land isr 0x80) = false) as Hz.
    { intros isr Hb. unfold nz. apply negb_false_iff, Z.eqb_eq, Z.bits_inj'. intros j Hj.
      rewrite Z.land_spec, Z.bits_0. change 0x80 with (2 ^ 7). rewrite Z.pow2_bits_eqb by lia.
      destruct (Z.eqb_spec 7 j) as [<-|]; [by rewrite Hb|apply andb_false_r]. }
    intros Hsp. set (st0 := with_ports st (deliver_spurious (i_ports st) n)).
    unfold irq_handler. change (vector st0 regs) with (vector st regs). rewrite Hv. cbv zeta.
    destruct Hsp as [[-> Hb] | (-> & Hb & Hm)]; cbn [Z.eqb Pos.eqb].
    + destruct (read_isr st0 PIC1_COMMAND) as [isr st1] eqn:Er.
      destruct (read_isr_ports _ _ _ _ Er (or_introl eq_refl)) as (E1 & E2 & E3 & E4 & _). rewrite (E4 eq_refl).
      change (master (i_ports st0)) with (master (i_ports st)). rewrite Hz by done. cbn [negb].
      destruct (schedule_returns st1 regs) as (r & s & ->); [by rewrite E2|]. exists r, (with_sys st1 s).
      split; [done|]. exact E1.
    + destruct (read_isr st0 PIC2_COMMAND) as [isr st1] eqn:Er.
      destruct (read_isr_ports _ _ _ _ Er (or_intror eq_refl)) as (E1 & E2 & E3 & _ & E4). rewrite (E4 eq_refl).
      change (slave (i_ports st0)) with (slave (i_ports st)). rewrite Hz by done. cbn [negb].
      set (st2 := with_ports st1 _). destruct (schedule_returns st2 regs) as (r & s & ->).
      { change (i_sys st2) with (i_sys st1). by rewrite E2. }
      exists r, (with_sys st2 s). split; [done|]. change (i_ports (with_sys st2 s)) with (i_ports st2).
      unfold st2. cbn [i_ports with_ports]. rewrite eoi_master. unfold in_service in E1 |- *.
      injection E1 as -> ->. cbn [st0 i_ports with_ports deliver_spurious Z.ltb Z.compare Pos.compare Pos.compare_cont
        master slave serve p_isr]. by rewrite eoi_undoes by (done || lia || apply Hby).
Qed.
End service.

(** ** Exceptions *)

Section exceptions.
Context {H F V D A : Type} `{HeapAlloc H} `{FrameAllocator F} `{PortIO D}.
Notation state := (intr H F V D A).
Variable call : A → state → Z → outcome (option state).
Implicit Types (st : state) (regs : Z).

(** An exception nobody registered for, raised by a thread of a process, ends that
    thread and resumes the next runnable thread of the ready queue. *)
Theorem exception_ends_thread fuel st regs n l pl a t b :
  vector st regs = n → 0 <= n < 32 → interrupt_handlers st !! Z.to_nat n = Some None →
  let s := i_sys st in
  let c := current_thread s in
  c ≠ 0 → tprocess (tget s c) ≠ 0 → 0 < pid (pget s (tprocess (tget s c))) →
  ring s l → alive_list s pl → rotation c l (a ++ t :: b) → t ≠ c →
  Forall (λ u, is_runnable s u = false) a → is_runnable s t = true →
  (length l <= fuel)%nat → (length pl <= fuel)%nat →
  ∃ r st', isr_handler call fuel st regs = Done (Iret r, st') ∧
    current_thread (i_sys st') = t ∧ tstate (tget (i_sys st') t) = THREAD_STATE_RUNNING ∧
    tstate (tget (i_sys st') c) = THREAD_STATE_TERMINATED.
Proof.
  intros Hv Hn Hh s c Hc Hp Hpid Hr Hal Hrot Htc Ha Ht Hl Hpl.
  unfold isr_handler. rewrite Hv. cbv zeta. unfold handler_at. destruct (Z.ltb_spec n 0); [lia|]. rewrite Hh.
  cbn [mbind outcome_bind]. rewrite ck_memory_in by lia. cbn [negb]. fold s. unfold scheduler_get_current_thread. fold c.
  unfold nz.
  rewrite (proj2 (Z.eqb_neq c 0)) by done. cbn [negb].
  rewrite (proj2 (Z.eqb_neq (tprocess (tget s c)) 0)) by done. cbn [negb andb].
  destruct (Z.ltb_spec 0 (pid (pget s (tprocess (tget s c))))); [|lia].
  set (s1 := tupd s c (w_tstate THREAD_STATE_TERMINATED)).
  assert (tick_frame s s1) as Hf by apply tick_frame_state.
  assert (∀ u, is_runnable s1 u = if u =? c then false else is_runnable s u) as Hrun.
  { intros u. unfold is_runnable, s1. rewrite tget_tupd. by destruct (u =? c). }
  destruct (schedule_spec fuel s1 l pl (a ++ t :: b) regs (ring_frame _ _ _ Hf Hr) (alive_frame _ _ _ Hf Hal) Hrot Hl Hpl)
    as (r & s2 & E & _ & Hs).
  assert (is_runnable s1 t = true) as Ht1 by (by rewrite Hrun, (proj2 (Z.eqb_neq t c))).
  rewrite pick_first, (runnable_not_terminated _ _ Ht1) in Hs;
    [|eapply Forall_impl; [exact Ha|]; intros u Hu; rewrite Hrun, Hu; by destruct (u =? c)|done].
  destruct Hs as (Hcur & _ & Hts). exists r. unfold schedule. cbn [i_sys with_sys]. rewrite E.
  eexists. split; [reflexivity|]. cbn [i_sys with_sys]. split; [done|].
  rewrite !Hts, Z.eqb_refl, (proj2 (Z.eqb_neq c t)) by done. split; [done|].
  unfold s1. by rewrite tget_tupd, Z.eqb_refl.
Qed.
End exceptions.

(** ** Witnesses *)

Definition demo_gdt : gdt := mk_gdt (replicate 6 inhabitant) (mk_tss 0 0 0 0 0 0 0 0) (0, 0) 0.

Lemma gdt_init_segments_witness :
  segment <$> gdt_entries (gdt_init 0xC0123456 0xC0100000 demo_gdt) =
    [(0, 0, 0, 0); (0, 0xFFFFF, 0x9A, 0xC0); (0, 0xFFFFF, 0x92, 0xC0); (0, 0xFFFFF, 0xFA, 0xC0);
     (0, 0xFFFFF, 0xF2, 0xC0); (0xC0123456, 104, 0xE9, 0)].
Proof. apply (gdt_init_segments 0xC0123456 0xC0100000 demo_gdt); [lia|done]. Defined.

Definition demo_pics : pics := mk_pics (mk_pic 0 0 0 0 false) (mk_pic 0 0 0 0 false).

Lemma idt_init_gates_witness :
  let '(d', t') := idt_init (λ n, 0xC0101000 + 16 * n) (λ n, 0xC0102000 + 16 * n) 0xC0103000 0xC0104000 demo_pics
                     (mk_idt [] (0, 0)) in
  gate ((idt_entries t').[33]) = Some (0xC0102010, 8, 0x8E) ∧ gate ((idt_entries t').[200]) = None ∧
  master d' = mk_pic 0 32 0xFF 0 false.
Proof.
  pose proof (idt_init_gates (λ n, 0xC0101000 + 16 * n) (λ n, 0xC0102000 + 16 * n) 0xC0103000 0xC0104000 demo_pics
                (mk_idt [] (0, 0)) ltac:(intros; lia) ltac:(intros; lia) ltac:(lia)) as HI.
  destruct (idt_init _ _ _ _ _ _) as [d' t']. destruct HI as (HG & _ & Hm & _).
  split; [by rewrite HG by lia|]. split; [by rewrite HG by lia|exact Hm].
Defined.

(** A frame of vector [n] at 0x9000, with the second thread running. *)
Definition demo_intr (n : Z) : intr kheap pmm (list Z) pics unit :=
  mk_intr (w_ctx {[0x9000 := mk_regs 0 0 0 0 0 0 0 0 0 n 0 0 0 0 0 0]} (w_current_thread t1 demo_sys2)) demo_pics
    (replicate 256 None).

Lemma ring_current {H F V} (s : sys H F V) c x l : ring s l → ring (w_ctx x (w_current_thread c s)) l.
Proof. intros [R1 R2 R3 R4 R5]. by constructor. Qed.

Lemma alive_current {H F V} (s : sys H F V) c x pl : alive_list s pl → alive_list (w_ctx x (w_current_thread c s)) pl.
Proof. intros [R1 R2 R3 R4]. by constructor. Qed.

Lemma demo_intr_ring n : ring (i_sys (demo_intr n)) [t0; t1] ∧ alive_list (i_sys (demo_intr n)) [p1; p0].
Proof.
  unfold demo_intr. cbn [i_sys]. split; [apply ring_current, demo_ring|apply alive_current, demo_alive].
Qed.

Lemma demo_intr_rotation n : rotation (current_thread (i_sys (demo_intr n))) [t0; t1] [t0; t1].
Proof. right. by exists [t0], []. Qed.

Definition demo_call (_ : unit) (st : intr kheap pmm (list Z) pics unit) (_ : Z) :
    outcome (option (intr kheap pmm (list Z) pics unit)) := Done (Some st).

Lemma demo_call_keeps h st regs : ready 4 (i_sys st) →
  ∃ st1, demo_call h st regs = Done (Some st1) ∧ i_ports st1 = i_ports st ∧ ready 4 (i_sys st1).
Proof. intros Hr. by exists st. Qed.

Lemma demo_intr_ready n : ready 4 (i_sys (demo_intr n)).
Proof.
  exists [t0; t1], [p1; p0], [t0; t1]. split; [apply demo_intr_ring|]. split; [apply demo_intr_ring|].
  split; [apply demo_intr_rotation|]. cbn [length]. lia.
Qed.

Lemma irq_ends_service_witness :
  ∃ r st', irq_handler demo_call 4 (with_ports (demo_intr 44) (deliver (i_ports (demo_intr 44)) 44)) 0x9000 =
      Done (Iret r, st') ∧
    in_service (i_ports st') = in_service demo_pics.
Proof.
  assert (vector (demo_intr 44) 0x9000 = 44) as Hv by (by vm_compute).
  assert (byte_isr (i_ports (demo_intr 44)) ∧ deliverable (i_ports (demo_intr 44)) 44) as [Hb Hd].
  { split; split; vm_compute; (reflexivity || (split; [discriminate|reflexivity])). }
  exact (proj1 (irq_ends_service demo_call 4 demo_call_keeps (demo_intr 44) 0x9000 44 ltac:(lia) Hv (demo_intr_ready 44)
    eq_refl Hb) Hd).
Defined.

Lemma exception_ends_thread_witness :
  ∃ r st', isr_handler demo_call 4 (demo_intr 6) 0x9000 = Done (Iret r, st') ∧ current_thread (i_sys st') = t0 ∧
    tstate (tget (i_sys st') t1) = THREAD_STATE_TERMINATED.
Proof.
  destruct (exception_ends_thread demo_call 4 (demo_intr 6) 0x9000 6 [t0; t1] [p1; p0] [] t0 [t1])
    as (r & st' & E & Hc & _ & Ht).
  - done.
  - lia.
  - done.
  - done.
  - by vm_compute.
  - by vm_compute.
  - apply demo_intr_ring.
  - apply demo_intr_ring.
  - apply demo_intr_rotation.
  - done.
  - apply Forall_nil_2.
  - by vm_compute.
  - cbn. lia.
  - cbn. lia.
  - exists r, st'. split; [exact E|]. split; [exact Hc|exact Ht].
Defined.
