(* ===== verification/Clock.v ===== *)
(** * drivers/char/pit.c and drivers/char/rtc.c: the timer and the clock

    The timer counts ticks and keeps the uptime in milliseconds without a division per tick;
    the clock chip is read register by register and decoded.

    The theorems: the uptime is the exact quotient, whatever the frequency; a sleep lasts
    exactly the rounded-up number of ticks and ends; the clock is decoded correctly in 24-hour
    mode, in binary and in BCD, and wrongly in the two 12-hour modes. *)

From S2P Require Import Prelude Interrupts.

(** ** pit.c *)

Definition PIT_BASE_HZ : Z := 1193182.
Definition PIT_COMMAND : Z := 0x43.
Definition PIT_CHANNEL0 : Z := 0x40.

Record pit (D : Type) := mk_pit {
  pit_ticks : Z; pit_uptime_ms : Z; pit_freq : Z; pit_ms_base : Z; pit_ms_rem : Z; pit_ms_rem_acc : Z;
  pit_handlers : list Z; pit_ports : D }.
Arguments mk_pit {D}.
Arguments pit_ticks {D}.
Arguments pit_uptime_ms {D}.
Arguments pit_freq {D}.
Arguments pit_ms_base {D}.
Arguments pit_ms_rem {D}.
Arguments pit_ms_rem_acc {D}.
Arguments pit_handlers {D}.
Arguments pit_ports {D}.

(** Handlers are named by numbers, 0 is no handler. *)
Definition PIT_IRQ0_HANDLER : Z := 3.

Section pit.
Context {D : Type} `{PortIO D}.
Implicit Types p : pit D.

Definition pit_irq0_handler p : pit D :=
  let ticks := u64 (pit_ticks p + 1) in
  let uptime := u64 (pit_uptime_ms p + pit_ms_base p) in
  let acc := u32 (pit_ms_rem_acc p + pit_ms_rem p) in
  if pit_freq p <=? acc then
    mk_pit ticks (u64 (uptime + 1)) (pit_freq p) (pit_ms_base p) (pit_ms_rem p) (u32 (acc - pit_freq p))
      (pit_handlers p) (pit_ports p)
  else mk_pit ticks uptime (pit_freq p) (pit_ms_base p) (pit_ms_rem p) acc (pit_handlers p) (pit_ports p).

(** The divisor of the base frequency that is programmed. *)
Definition pit_divisor (freq_hz : Z) : Z :=
  let divisor := PIT_BASE_HZ / freq_hz in
  let divisor := if divisor =? 0 then 1 else divisor in
  if 0xFFFF <? divisor then 0xFFFF else divisor.

Definition pit_init p (freq_hz : Z) : pit D :=
  let freq_hz := if freq_hz =? 0 then 60 else freq_hz in
  let divisor := pit_divisor freq_hz in
  let d := outb (pit_ports p) PIT_COMMAND 0x36 in
  let d := outb d PIT_CHANNEL0 (u8 (Z.land divisor 0xFF)) in
  let d := outb d PIT_CHANNEL0 (u8 (Z.land (Z.shiftr divisor 8) 0xFF)) in
  let handlers := (pit_handlers p).[32 <- PIT_IRQ0_HANDLER] in
  let '(mask, d) := inb d PIC1_DATA in
  let d := outb d PIC1_DATA (u8 (Z.land mask (Z.lnot 1))) in
  mk_pit (pit_ticks p) (pit_uptime_ms p) freq_hz (1000 / freq_hz) (1000 mod freq_hz) 0 handlers d.

Definition pit_get_ticks p : Z := pit_ticks p.
Definition pit_get_uptime_ms p : Z := pit_uptime_ms p.

(** [while (pit_ticks < end) hlt]: a timer interrupt ends every [hlt]. *)
Fixpoint sleep_loop (fuel : nat) p (end_ : Z) : option (pit D) :=
  if pit_ticks p <? end_ then
    match fuel with O => None | S fuel' => sleep_loop fuel' (pit_irq0_handler p) end_ end
  else Some p.

Definition sleep_ticks p (ms : Z) : Z :=
  let t1 := u32 (ms / 1000 * pit_freq p) in
  let t2 := u32 (u32 (ms mod 1000 * pit_freq p) + 999) / 1000 in
  let target := u64 (t1 + t2) in
  if target =? 0 then 1 else target.

Definition pit_sleep_ms (fuel : nat) p (ms : Z) : option (pit D) :=
  if (pit_freq p =? 0) || (ms =? 0) then Some p
  else sleep_loop fuel p (u64 (pit_ticks p + sleep_ticks p ms)).

(** *** The uptime *)

Fixpoint pit_run (n : nat) p : pit D := match n with O => p | S n' => pit_irq0_handler (pit_run n' p) end.

Record pit_wf p (n0 : Z) : Prop := {
  pw_freq : 0 < pit_freq p <= 0xFFFFFC18;
  pw_base : pit_ms_base p = 1000 / pit_freq p;
  pw_rem : pit_ms_rem p = 1000 mod pit_freq p;
  pw_acc : 0 <= pit_ms_rem_acc p < pit_freq p;
  pw_ticks : 0 <= pit_ticks p - n0;
  pw_time : pit_freq p * pit_uptime_ms p + pit_ms_rem_acc p = 1000 * (pit_ticks p - n0) }.

Lemma tick_wf p n0 :
  pit_wf p n0 → 0 <= n0 → pit_ticks p + 1 < 2 ^ 64 → 1000 * (pit_ticks p - n0 + 1) < 2 ^ 64 →
  pit_wf (pit_irq0_handler p) n0 ∧ pit_ticks (pit_irq0_handler p) = pit_ticks p + 1 ∧
  pit_freq (pit_irq0_handler p) = pit_freq p.
Proof.
  intros [Hf Hb Hr Ha Ht HT] Hn Hm Hu. unfold pit_irq0_handler.
  pose proof (Z.div_mod 1000 (pit_freq p) ltac:(lia)) as Hdm.
  pose proof (Z.mod_pos_bound 1000 (pit_freq p) ltac:(lia)) as Hmod.
  pose proof (Z.div_pos 1000 (pit_freq p) ltac:(lia) ltac:(lia)) as Hdiv.
  assert (1000 mod pit_freq p <= 1000) as Hle by (apply Z.mod_le; lia).
  rewrite <-Hb in Hdm, Hdiv. rewrite <-Hr in Hdm, Hmod, Hle.
  assert (0 <= pit_uptime_ms p) as Hup by nia.
  assert (pit_uptime_ms p + pit_ms_base p + 1 <= 1000 * (pit_ticks p - n0 + 1) + 1) as Hub by nia.
  unfold u64, u32. rewrite (Z.mod_small (pit_ms_rem_acc p + pit_ms_rem p)) by lia.
  rewrite (Z.mod_small (pit_ticks p + 1)) by lia. rewrite (Z.mod_small (pit_uptime_ms p + pit_ms_base p)) by lia.
  destruct (Z.leb_spec (pit_freq p) (pit_ms_rem_acc p + pit_ms_rem p)).
  - assert (pit_uptime_ms p + pit_ms_base p + 1 <= 1000 * (pit_ticks p - n0 + 1)) by nia.
    rewrite (Z.mod_small (pit_uptime_ms p + pit_ms_base p + 1)) by lia.
    rewrite (Z.mod_small (pit_ms_rem_acc p + pit_ms_rem p - pit_freq p)) by lia.
    split; [|done]. constructor; cbn; try done; try lia; nia.
  - split; [|done]. constructor; cbn; try done; try lia; nia.
Qed.

Lemma pit_run_wf n p n0 :
  pit_wf p n0 → 0 <= n0 → pit_ticks p + Z.of_nat n < 2 ^ 64 → 1000 * (pit_ticks p - n0 + Z.of_nat n) < 2 ^ 64 →
  pit_wf (pit_run n p) n0 ∧ pit_ticks (pit_run n p) = pit_ticks p + Z.of_nat n ∧ pit_freq (pit_run n p) = pit_freq p.
Proof.
  intros Hp Hn. induction n as [|n IH]; intros Hm Hu; cbn [pit_run].
  - split; [done|]. split; [lia|done].
  - destruct IH as (A & B & C); [lia|lia|].
    destruct (tick_wf _ _ A Hn) as (A' & B' & C'); [lia|lia|]. split; [done|]. split; [lia|congruence].
Qed.

(** The uptime never drifts from the ticks: [n] ticks after [pit_init] it has advanced by
    exactly 1000 n / freq milliseconds, rounded down, for every frequency up to 0xFFFFFC18
    (beyond which the accumulator overflows) and as long as the 64-bit counters do not
    overflow. *)
Theorem pit_uptime_exact p freq n :
  0 < freq <= 0xFFFFFC18 → pit_uptime_ms p = 0 → 0 <= pit_ticks p →
  pit_ticks p + Z.of_nat n < 2 ^ 64 → 1000 * Z.of_nat n < 2 ^ 64 →
  let p' := pit_run n (pit_init p freq) in
  pit_get_uptime_ms p' = 1000 * Z.of_nat n / freq ∧ pit_get_ticks p' = pit_ticks p + Z.of_nat n.
Proof.
  intros Hf Hu Ht Hm Hx p'.
  assert (pit_wf (pit_init p freq) (pit_ticks p) ∧ pit_ticks (pit_init p freq) = pit_ticks p ∧ pit_freq (pit_init p freq) = freq)
    as (Hw & E1 & E2).
  { unfold pit_init. destruct (Z.eqb_spec freq 0); [lia|]. destruct (inb _ _) as [mask d]. split; [|done].
    constructor; cbn; try done; lia. }
  destruct (pit_run_wf n _ _ Hw Ht) as ([Wf _ _ Wa _ WT] & B & C); [lia|lia|].
  unfold pit_get_uptime_ms, pit_get_ticks, p'. split; [|lia]. rewrite C, E2, B, E1 in *.
  apply (Z.div_unique _ _ _ (pit_ms_rem_acc (pit_run n (pit_init p freq)))); lia.
Qed.

(** *** Sleeping *)

Lemma sleep_loop_runs n p n0 fuel :
  pit_wf p n0 → 0 <= n0 → pit_ticks p + Z.of_nat n < 2 ^ 64 → 1000 * (pit_ticks p - n0 + Z.of_nat n) < 2 ^ 64 →
  (n <= fuel)%nat → ∃ p', sleep_loop fuel p (pit_ticks p + Z.of_nat n) = Some p' ∧ pit_ticks p' = pit_ticks p + Z.of_nat n.
Proof.
  revert p fuel. induction n as [|n IH]; intros p fuel Hp Hn Hm Hu Hf.
  - exists p. destruct fuel; cbn [sleep_loop]; rewrite Z.add_0_r, (proj2 (Z.ltb_ge _ _)) by lia; done.
  - destruct fuel as [|fuel]; [lia|]. cbn [sleep_loop].
    destruct (Z.ltb_spec (pit_ticks p) (pit_ticks p + Z.of_nat (S n))); [|lia].
    destruct (tick_wf _ _ Hp Hn) as (A & B & C); [lia|lia|].
    destruct (IH (pit_irq0_handler p) fuel A Hn) as (p' & E & E'); [lia|lia|lia|].
    exists p'. replace (pit_ticks p + Z.of_nat (S n)) with (pit_ticks (pit_irq0_handler p) + Z.of_nat n) by lia.
    split; [done|lia].
Qed.

(** [pit_sleep_ms] ends, after exactly the time asked for rounded up to whole ticks: the
    least number of ticks that lasts [ms] milliseconds at the nominal frequency. *)
Theorem pit_sleep_exact p n0 ms fuel :
  pit_wf p n0 → 0 <= n0 → 0 < ms → ms / 1000 * pit_freq p < 2 ^ 32 → 999 * pit_freq p + 999 < 2 ^ 32 →
  let t := (ms * pit_freq p + 999) / 1000 in
  pit_ticks p + t < 2 ^ 64 → 1000 * (pit_ticks p - n0 + t) < 2 ^ 64 → t <= Z.of_nat fuel →
  ∃ p', pit_sleep_ms fuel p ms = Some p' ∧ pit_ticks p' = pit_ticks p + t ∧
    ms * pit_freq p <= 1000 * t < ms * pit_freq p + 1000.
Proof.
  intros Hp Hn Hms Hs Hr t Hm Hu Hf. pose proof (pw_freq _ _ Hp) as Hfr. pose proof (pw_ticks _ _ Hp) as Htk.
  assert (sleep_ticks p ms = t) as Ht.
  { unfold sleep_ticks, t, u32, u64.
    pose proof (Z.div_mod ms 1000 ltac:(lia)) as Hdm. pose proof (Z.mod_pos_bound ms 1000 ltac:(lia)) as Hmd.
    pose proof (Z.div_pos ms 1000 ltac:(lia) ltac:(lia)) as Hdp.
    assert (0 <= ms mod 1000 * pit_freq p <= 999 * pit_freq p) as Hq by nia.
    rewrite (Z.mod_small (ms / 1000 * pit_freq p)) by nia. rewrite (Z.mod_small (ms mod 1000 * pit_freq p)) by lia.
    rewrite (Z.mod_small (ms mod 1000 * pit_freq p + 999)) by lia.
    assert ((ms * pit_freq p + 999) / 1000 = ms / 1000 * pit_freq p + (ms mod 1000 * pit_freq p + 999) / 1000) as E.
    { rewrite <-Z.div_add_l by lia. f_equal. rewrite Hdm at 1. ring. }
    rewrite <-E. fold t. assert (0 < t) by (unfold t; apply Z.div_str_pos; nia).
    rewrite Z.mod_small by lia. destruct (Z.eqb_spec t 0); lia. }
  unfold pit_sleep_ms. rewrite Ht. destruct (Z.eqb_spec (pit_freq p) 0); [lia|]. destruct (Z.eqb_spec ms 0); [lia|].
  cbn [orb]. assert (0 <= t) by (unfold t; apply Z.div_pos; nia). unfold u64. rewrite Z.mod_small by lia.
  destruct (sleep_loop_runs (Z.to_nat t) p n0 fuel Hp Hn) as (p' & E & E'); rewrite ?Z2Nat.id in * by lia; try lia.
  exists p'. split; [done|]. split; [done|]. unfold t. zlia.
Qed.
End pit.

(** ** rtc.c *)

Definition CMOS_ADDR : Z := 0x70.
Definition CMOS_DATA : Z := 0x71.
Definition RTC_SECOND : Z := 0x00.
Definition RTC_MINUTE : Z := 0x02.
Definition RTC_HOUR : Z := 0x04.
Definition RTC_DAY : Z := 0x07.
Definition RTC_MONTH : Z := 0x08.
Definition RTC_YEAR : Z := 0x09.
Definition RTC_STATUS_B : Z := 0x0B.

Record rtc_time := mk_time {
  second : Z; minute : Z; hour : Z; day : Z; month : Z; year : Z; weekday : Z }.

Definition rtc_bcd_to_bin (bcd : Z) : Z := u8 (Z.shiftr bcd 4 * 10 + Z.land bcd 0x0F).

(** The 12-hour correction of the hour. *)
Definition rtc_hour (use_24h : bool) (hour : Z) : Z :=
  let hour := if negb use_24h && nz (Z.land hour 0x80) then u8 ((Z.land hour 0x7F + 12) mod 24) else hour in
  Z.land hour 0x7F.

Section rtc.
Context {D : Type} `{PortIO D}.
Implicit Types d : D.

Definition rtc_read_reg d (reg : Z) : Z * D := inb (outb d CMOS_ADDR (u8 (Z.lor 0x80 reg))) CMOS_DATA.

Definition rtc_read d : rtc_time * D :=
  let '(status_b, d) := rtc_read_reg d RTC_STATUS_B in
  let use_24h := nz (Z.land status_b 0x02) in
  let '(s, d) := rtc_read_reg d RTC_SECOND in
  let '(m, d) := rtc_read_reg d RTC_MINUTE in
  let '(h, d) := rtc_read_reg d RTC_HOUR in
  let '(dy, d) := rtc_read_reg d RTC_DAY in
  let '(mo, d) := rtc_read_reg d RTC_MONTH in
  let '(y, d) := rtc_read_reg d RTC_YEAR in
  let '(wd, d) := rtc_read_reg d 0x06 in
  let conv := if negb (nz (Z.land status_b 0x04)) then rtc_bcd_to_bin else id in
  let y := conv y in
  (mk_time (conv s) (conv m) (rtc_hour use_24h (conv h)) (conv dy) (conv mo) (if y <? 100 then y + 2000 else y) wd, d).
End rtc.

(** The chip: the selected register and the registers' values. *)
Record cmos := mk_cmos { c_index : Z; c_regs : Z → Z }.

#[global] Instance cmos_io : PortIO cmos := {|
  inb c port := (if port =? 0x71 then c_regs c (c_index c) else 0, c);
  inw c _ := (0, c);
  inl c _ := (0, c);
  outb c port v := if port =? 0x70 then mk_cmos (Z.land v 0x7F) (c_regs c) else c;
  outw c _ _ := c;
  outl c _ _ := c |}.

Lemma rtc_read_reg_value c reg :
  0 <= reg < 128 → rtc_read_reg c reg = (c_regs c reg, mk_cmos reg (c_regs c)).
Proof.
  intros Hr. unfold rtc_read_reg.
  assert (Z.land (u8 (Z.lor 0x80 reg)) 0x7F = reg) as E.
  { pose proof (byte_forall (λ r, negb (r <? 128) || (Z.land (u8 (Z.lor 0x80 r)) 0x7F =? r)) ltac:(by vm_compute) reg
      ltac:(lia)) as HP. cbv beta in HP.
    destruct (Z.ltb_spec reg 128); [|lia]. by apply Z.eqb_eq. }
  unfold CMOS_ADDR, CMOS_DATA. cbn [inb outb cmos_io Z.eqb Pos.eqb]. by rewrite E.
Qed.

(** A number as the chip stores it, in BCD or in binary, and an hour of the 12-hour modes. *)
Definition encode (binary : bool) (x : Z) : Z := if binary then x else 16 * (x / 10) + x mod 10.
Definition encode12 (binary pm : bool) (h : Z) : Z := Z.lor (encode binary h) (if pm then 0x80 else 0).

(** The chip shows the time [t] in the given mode; [hr] is the hour register. *)
Record shows_time (c : cmos) (binary h24 : bool) (hr : Z) (t : rtc_time) : Prop := {
  st_b : c_regs c RTC_STATUS_B = (if binary then 4 else 0) + (if h24 then 2 else 0);
  st_s : c_regs c RTC_SECOND = encode binary (second t) ∧ 0 <= second t < 60;
  st_m : c_regs c RTC_MINUTE = encode binary (minute t) ∧ 0 <= minute t < 60;
  st_h : c_regs c RTC_HOUR = hr;
  st_d : c_regs c RTC_DAY = encode binary (day t) ∧ 1 <= day t <= 31;
  st_mo : c_regs c RTC_MONTH = encode binary (month t) ∧ 1 <= month t <= 12;
  st_y : c_regs c RTC_YEAR = encode binary (year t - 2000) ∧ 2000 <= year t < 2100;
  st_w : c_regs c 0x06 = weekday t }.

Lemma decode_encode (b : bool) x : 0 <= x < 100 → (if negb b then rtc_bcd_to_bin else id) (encode b x) = x.
Proof.
  intros Hx. destruct b; [done|]. cbn [negb encode]. apply Z.eqb_eq.
  pose proof (byte_forall (λ x, negb (x <? 100) || (rtc_bcd_to_bin (16 * (x / 10) + x mod 10) =? x)) ltac:(by vm_compute) x
    ltac:(lia)) as HP. cbv beta in HP. destruct (Z.ltb_spec x 100); [exact HP|lia].
Qed.

Lemma rtc_read_shows c (b h24 : bool) hr t :
  shows_time c b h24 hr t →
  (rtc_read c).1 = mk_time (second t) (minute t) (rtc_hour h24 ((if negb b then rtc_bcd_to_bin else id) hr)) (day t)
                     (month t) (year t) (weekday t).
Proof.
  intros [Hb [Hs Rs] [Hm Rm] Hh [Hd Rd] [Hmo Rmo] [Hy Ry] Hw]. unfold rtc_read.
  unfold RTC_STATUS_B, RTC_SECOND, RTC_MINUTE, RTC_HOUR, RTC_DAY, RTC_MONTH, RTC_YEAR in *.
  repeat (rewrite rtc_read_reg_value by lia; cbn [c_regs]; cbv beta iota zeta). cbn [fst].
  rewrite Hb, Hs, Hm, Hh, Hd, Hmo, Hy, Hw.
  assert (nz (Z.land ((if b then 4 else 0) + (if h24 then 2 else 0)) 4) = b) as -> by (by destruct b, h24).
  assert (nz (Z.land ((if b then 4 else 0) + (if h24 then 2 else 0)) 2) = h24) as -> by (by destruct b, h24).
  rewrite !decode_encode by lia. destruct (Z.ltb_spec (year t - 2000) 100); [|lia]. f_equal. lia.
Qed.

(** [rtc_read] decodes the chip's registers: in 24-hour mode it returns the time shown,
    in BCD and in binary; in the 12-hour modes all but the hour is right, and the hour [h]
    comes out as [h] before noon and after noon as (h + 12) mod 24 in binary, which is wrong at
    12 both times, and as 80 + h in BCD, because the afternoon bit is decoded as a digit. *)
Theorem rtc_read_decodes c b t :
  (shows_time c b true (encode b (hour t)) t → 0 <= hour t < 24 → (rtc_read c).1 = t) ∧
  (∀ pm h, shows_time c b false (encode12 b pm h) t → 1 <= h <= 12 →
   let t' := (rtc_read c).1 in
   second t' = second t ∧ minute t' = minute t ∧ day t' = day t ∧ month t' = month t ∧ year t' = year t ∧
   hour t' = if (pm : bool) then (if b then (h + 12) mod 24 else 80 + h) else h).
Proof.
  split.
  - intros Hs Hh. rewrite (rtc_read_shows _ _ _ _ _ Hs), decode_encode by lia. unfold rtc_hour. cbn [negb andb].
    assert (Z.land (hour t) 0x7F = hour t) as ->; [|by destruct t].
    change 0x7F with (2 ^ 7 - 1). rewrite land_ones_mod by lia. apply Z.mod_small. lia.
  - intros pm h Hs Hh t'. unfold t'. rewrite (rtc_read_shows _ _ _ _ _ Hs).
    cbn [second minute hour day month year]. split_and!; try done.
    assert (h = 1 ∨ h = 2 ∨ h = 3 ∨ h = 4 ∨ h = 5 ∨ h = 6 ∨ h = 7 ∨ h = 8 ∨ h = 9 ∨ h = 10 ∨ h = 11 ∨ h = 12) as Hc by lia.
    destruct b, pm; (repeat destruct Hc as [->|Hc]; [..|subst h]); by vm_compute.
Qed.

(** ** Witnesses *)

Definition demo_pit : pit pics := mk_pit 0 0 0 0 0 0 (replicate 256 0) demo_pics.

Lemma pit_uptime_exact_witness : pit_get_uptime_ms (pit_run 7 (pit_init demo_pit 60)) = 116.
Proof.
  destruct (pit_uptime_exact demo_pit 60 7 ltac:(lia) eq_refl ltac:(cbn; lia) ltac:(cbn; lia) ltac:(cbn; lia)) as [E _].
  rewrite E. reflexivity.
Defined.

Lemma demo_pit_wf : pit_wf (pit_init demo_pit 60) 0.
Proof. constructor; by vm_compute || (vm_compute; split; [discriminate|reflexivity]) || (vm_compute; discriminate). Qed.

Lemma pit_sleep_exact_witness :
  ∃ p', pit_sleep_ms 10 (pit_init demo_pit 60) 50 = Some p' ∧ pit_ticks p' = 3.
Proof.
  destruct (pit_sleep_exact (pit_init demo_pit 60) 0 50 10 demo_pit_wf) as (p' & E & Et & _);
    [lia|lia|by vm_compute|by vm_compute|by vm_compute|by vm_compute|by vm_compute|].
  exists p'. split; [exact E|exact Et].
Defined.

(** 23:45:10 on 31 December 2026, in BCD; and 11 in the evening in the 12-hour mode. *)
Definition demo_cmos (status hr : Z) : cmos :=
  mk_cmos 0 (λ r, if r =? 0x0B then status else if r =? 0 then 0x10 else if r =? 2 then 0x45 else if r =? 4 then hr
    else if r =? 6 then 5 else if r =? 7 then 0x31 else if r =? 8 then 0x12 else if r =? 9 then 0x26 else 0).

Lemma rtc_read_decodes_witness :
  (rtc_read (demo_cmos 2 0x23)).1 = mk_time 10 45 23 31 12 2026 5 ∧
  hour (rtc_read (demo_cmos 0 0x91)).1 = 91.
Proof.
  split.
  - apply (rtc_read_decodes (demo_cmos 2 0x23) false (mk_time 10 45 23 31 12 2026 5)); [|cbn; lia].
    constructor; cbn; try done; (split; [done|lia]).
  - destruct (rtc_read_decodes (demo_cmos 0 0x91) false (mk_time 10 45 23 31 12 2026 5)) as [_ HT].
    apply (HT true 11); [|lia]. constructor; cbn; try done; (split; [done|lia]).
Defined.
