(* ===== verification/Vbe.v ===== *)
(** * drivers/gpu/vbe.c: the framebuffer at start-up

    [vbe_init] checks what the boot loader reports and maps the framebuffer at a fixed
    address through the page tables of Vmm.v.  The theorem: on success every byte of a
    framebuffer of up to 16 MiB is mapped to its physical byte and nothing below the window
    changes; of a larger one only the first 16 MiB are mapped, and it is reported as ready all
    the same. *)

From S2P Require Import Prelude Pmm Vmm.

Definition VBE_VIRT_LFB : Z := 0xE0000000.
Definition VBE_MAP_SIZE : Z := 0x00800000.

(** [struct vbe_info], the framebuffer by its address, and the fields of the boot
    information that are read. *)
Record vbe_state := mk_vbe_state { v_lfb : Z; v_width : Z; v_height : Z; v_pitch : Z; v_bpp : Z }.

Record multiboot_info := mk_mbi {
  mb_flags : Z; framebuffer_addr : Z; framebuffer_pitch : Z; framebuffer_width : Z; framebuffer_height : Z;
  framebuffer_bpp : Z; framebuffer_type : Z }.

Definition no_lfb (v : vbe_state) : vbe_state := mk_vbe_state 0 (v_width v) (v_height v) (v_pitch v) (v_bpp v).

(** The size that is mapped: at least 8 MiB, whole pages, at most 16 MiB. *)
Definition vbe_map_size (pitch height offset : Z) : Z :=
  let map_size := u32 (u32 (pitch * height) + offset) in
  let map_size := if map_size <? VBE_MAP_SIZE then VBE_MAP_SIZE else map_size in
  let map_size := Z.land (u32 (map_size + 4095)) (u32 (Z.lnot 4095)) in
  if 0x01000000 <? map_size then 0x01000000 else map_size.

Section vbe.
Context {S : Type} `{FrameAllocator S}.
Implicit Types m : vmm S.

(** [for (i = 0; i < map_size; i += 4096)], [n] pages from page [k] on. *)
Fixpoint map_lfb (n : nat) (k : Z) m (phys : Z) : bool * vmm S :=
  match n with
  | O => (true, m)
  | Datatypes.S n' =>
      let '(ok, m) := vmm_map_page m (u32 (phys + 4096 * k)) (u32 (VBE_VIRT_LFB + 4096 * k))
                        (Z.lor VMM_PRESENT VMM_WRITABLE) in
      if ok : bool then map_lfb n' (k + 1) m phys else (false, m)
  end.

Definition vbe_init (vbe : vbe_state) m (mbi : multiboot_info) (magic : Z) : vbe_state * vmm S :=
  if negb (magic =? 0x2BADB002) then (vbe, m)
  else if negb (Z.testbit (mb_flags mbi) 12) then (vbe, m)
  else if nz (Z.shiftr (framebuffer_addr mbi) 32) then (no_lfb vbe, m)
  else
    let phys_lfb := u32 (framebuffer_addr mbi) in
    if phys_lfb =? 0 then (no_lfb vbe, m)
    else
      let vbe := mk_vbe_state (v_lfb vbe) (framebuffer_width mbi) (framebuffer_height mbi) (framebuffer_pitch mbi)
                   (framebuffer_bpp mbi) in
      if framebuffer_type mbi =? 2 then (no_lfb vbe, m)
      else if (v_width vbe =? 0) || (v_height vbe =? 0) || (v_pitch vbe =? 0) then (no_lfb vbe, m)
      else
        let aligned := Z.land phys_lfb (u32 (Z.lnot 0xFFF)) in
        let offset := u32 (phys_lfb - aligned) in
        let map_size := vbe_map_size (v_pitch vbe) (v_height vbe) offset in
        let '(ok, m) := map_lfb (Z.to_nat (map_size / 4096)) 0 m aligned in
        if ok : bool then
          (mk_vbe_state (u32 (VBE_VIRT_LFB + offset)) (v_width vbe) (v_height vbe) (v_pitch vbe) (v_bpp vbe), m)
        else (no_lfb vbe, m).
End vbe.

Section mapped.
Context {S : Type} `{FrameAllocatorLaws S ok taken managed}.
Implicit Types m : vmm S.

Definition vm_ok m (fd : Z) : Prop :=
  at_dir m fd ∧ ok (frames m) ∧ dir_wf (taken := taken) (frames m) (mem m) fd.

(** The pages a successful loop maps. *)
Lemma map_lfb_walk n : ∀ k m fd p m',
  vm_ok m fd → 0 <= k → 0 <= p → k + Z.of_nat n <= 0x20000 → p + k + Z.of_nat n <= 0x100000 →
  map_lfb n k m (4096 * p) = (true, m') →
  vm_ok m' fd ∧ ∀ v, 0 <= v < 0x100000000 →
    walk (mem m') fd v =
      if (VBE_VIRT_LFB / 4096 + k <=? v / 4096) && (v / 4096 <? VBE_VIRT_LFB / 4096 + k + Z.of_nat n)
      then Some (p + (v / 4096 - VBE_VIRT_LFB / 4096)) else walk (mem m) fd v.
Proof.
  induction n as [|n IH]; intros k m fd p m' Hm Hk Hp Hn Hpn E; cbn [map_lfb] in E.
  - injection E as <-. split; [done|]. intros v Hv. change (VBE_VIRT_LFB / 4096) with 0xE0000.
    destruct (Z.leb_spec (0xE0000 + k) (v / 4096)), (Z.ltb_spec (v / 4096) (0xE0000 + k + Z.of_nat 0)); try done; lia.
  - destruct Hm as (Hat & Hok & Hwf).
    assert (u32 (4096 * p + 4096 * k) = 4096 * (p + k)) as E1 by (rewrite u32_small; lia).
    assert (u32 (VBE_VIRT_LFB + 4096 * k) = VBE_VIRT_LFB + 4096 * k) as E2 by (unfold VBE_VIRT_LFB; rewrite u32_small; lia).
    rewrite E1, E2 in E. change (Z.lor VMM_PRESENT VMM_WRITABLE) with 3 in E.
    pose proof (map_page_walk m fd (p + k) (VBE_VIRT_LFB + 4096 * k) 3 Hat Hok Hwf ltac:(lia) ltac:(lia)
      ltac:(unfold VBE_VIRT_LFB; lia)) as HM.
    destruct (vmm_map_page m (4096 * (p + k)) (VBE_VIRT_LFB + 4096 * k) 3) as [b m1]. destruct b; [|done].
    destruct HM as ((Hat1 & _ & _ & Hok1 & Hwf1 & _) & Hw1).
    destruct (IH (k + 1) m1 fd p m') as (Hm' & Hw); [by split|lia|lia|lia|lia|done|].
    split; [done|]. intros v Hv. rewrite Hw, Hw1 by done.
    assert ((VBE_VIRT_LFB + 4096 * k) / 4096 = 0xE0000 + k) as -> by (unfold VBE_VIRT_LFB; zlia).
    change (VBE_VIRT_LFB / 4096) with 0xE0000.
    destruct (Z.leb_spec (0xE0000 + (k + 1)) (v / 4096)), (Z.ltb_spec (v / 4096) (0xE0000 + (k + 1) + Z.of_nat n)),
      (Z.leb_spec (0xE0000 + k) (v / 4096)), (Z.ltb_spec (v / 4096) (0xE0000 + k + Z.of_nat (Datatypes.S n))),
      (Z.eqb_spec (v / 4096) (0xE0000 + k)); cbn [andb]; try lia; try done. f_equal. lia.
Qed.

Lemma page_align x : 0 <= x < 0x100000000 → Z.land x (u32 (Z.lnot 4095)) = 4096 * (x / 4096).
Proof.
  intros Hx. change (u32 (Z.lnot 4095)) with (Z.shiftl (Z.ones 20) 12). apply Z.bits_inj'. intros j Hj.
  replace (4096 * (x / 4096)) with (Z.shiftl (x / 4096) 12) by (rewrite Z.shiftl_mul_pow2 by lia; lia).
  rewrite Z.land_spec, !Z.shiftl_spec by lia. destruct (Z.ltb_spec j 12).
  - rewrite !(Z.testbit_neg_r _ (j - 12)) by lia. apply andb_false_r.
  - change 4096 with (2 ^ 12). rewrite Z.div_pow2_bits by lia. replace (j - 12 + 12) with j by lia.
    rewrite Z.testbit_ones by lia. destruct (Z.ltb_spec (j - 12) 20).
    + destruct (Z.leb_spec 0 (j - 12)); [|lia]. by rewrite andb_true_r.
    + rewrite word_testbit_high by lia. by rewrite andb_false_l.
Qed.

(** The size covers the framebuffer, up to 16 MiB. *)
Lemma vbe_map_size_spec pitch height offset :
  0 <= pitch → 0 <= height → 0 <= offset < 4096 → pitch * height + offset + 4095 < 0x100000000 →
  let s := vbe_map_size pitch height offset in
  s mod 4096 = 0 ∧ 0x800000 <= s <= 0x1000000 ∧ Z.min (pitch * height + offset) 0x1000000 <= s ∧
  (0x1000000 < pitch * height + offset → s = 0x1000000).
Proof.
  intros Hp Hh Ho Hb. unfold vbe_map_size, VBE_MAP_SIZE.
  assert (0 <= pitch * height) by nia. rewrite (u32_small (pitch * height)) by lia.
  rewrite (u32_small (pitch * height + offset)) by lia. cbv zeta.
  set (a := if pitch * height + offset <? _ then _ else _).
  assert (0x800000 <= a ∧ pitch * height + offset <= a ∧ a + 4095 < 0x100000000 ∧
    (0x800000 < a → a = pitch * height + offset)) as (A1 & A2 & A3 & A4)
    by (unfold a; destruct (Z.ltb_spec (pitch * height + offset) 0x800000); lia).
  clearbody a. rewrite u32_small, page_align by lia.
  destruct (Z.ltb_spec 0x1000000 (4096 * ((a + 4095) / 4096))); split_and!; zlia.
Qed.

(** When the boot information is accepted and the page tables have room, the framebuffer
    is ready and every byte of it, up to 16 MiB from the page it starts in, is mapped to its
    physical byte; below the window nothing changes; bytes beyond the 16 MiB stay as they
    were although the framebuffer is reported with its full height. *)
Theorem vbe_init_maps vbe m mbi fd m' vbe' :
  vm_ok m fd → Z.testbit (mb_flags mbi) 12 = true → framebuffer_type mbi ≠ 2 →
  let a := framebuffer_addr mbi in
  let size := framebuffer_pitch mbi * framebuffer_height mbi in
  0 < a → a + 0x1001000 <= 0x100000000 → 0 < framebuffer_width mbi → 0 < framebuffer_height mbi →
  0 < framebuffer_pitch mbi → size + 0x2000 < 0x100000000 →
  vbe_init vbe m mbi 0x2BADB002 = (vbe', m') → v_lfb vbe' ≠ 0 →
  v_width vbe' = framebuffer_width mbi ∧ v_height vbe' = framebuffer_height mbi ∧
  v_lfb vbe' = VBE_VIRT_LFB + a mod 4096 ∧
  (∀ o, 0 <= o < size → a mod 4096 + o < 0x1000000 →
     (v_lfb vbe' + o) mod 4096 = (a + o) mod 4096 ∧ walk (mem m') fd (v_lfb vbe' + o) = Some ((a + o) / 4096)) ∧
  (∀ v, 0 <= v < VBE_VIRT_LFB ∨ VBE_VIRT_LFB + 0x1000000 <= v < 0x100000000 → walk (mem m') fd v = walk (mem m) fd v).
Proof.
  intros Hm Hf Hty a size Ha Hamax Hw Hh Hp Hsz E Hl. unfold vbe_init in E. rewrite Hf in E. cbn [negb Z.eqb Pos.eqb] in E.
  fold a in E. rewrite Z.shiftr_div_pow2, (Z.div_small a) in E by lia. unfold nz in E. cbn [negb Z.eqb] in E.
  rewrite (u32_small a) in E by lia. rewrite (proj2 (Z.eqb_neq a 0)) in E by lia.
  cbn [v_width v_height v_pitch] in E. rewrite !(proj2 (Z.eqb_neq _ _)) in E by (done || lia). cbn [orb] in E.
  rewrite page_align in E by lia.
  assert (u32 (a - 4096 * (a / 4096)) = a mod 4096) as Eo by (rewrite Z.mod_eq by lia; apply u32_small; zlia).
  rewrite Eo in E. pose proof (Z.mod_pos_bound a 4096 ltac:(lia)) as Ho.
  destruct (vbe_map_size_spec (framebuffer_pitch mbi) (framebuffer_height mbi) (a mod 4096)) as (S1 & S2 & S3 & S4);
    [lia|lia|lia|unfold size in Hsz; lia|].
  set (s := vbe_map_size _ _ _) in *. clearbody s. fold size in S3, S4.
  destruct (map_lfb (Z.to_nat (s / 4096)) 0 m (4096 * (a / 4096))) as [b m1] eqn:EM.
  destruct b; [|by injection E as <- <-]. injection E as <- <-. cbn [v_width v_height v_lfb] in *.
  destruct (map_lfb_walk (Z.to_nat (s / 4096)) 0 m fd (a / 4096) m1 Hm) as (_ & HW); [lia|zlia|zlia|zlia|done|].
  rewrite Z2Nat.id in HW by zlia. change (VBE_VIRT_LFB / 4096) with 0xE0000 in HW.
  assert (u32 (VBE_VIRT_LFB + a mod 4096) = VBE_VIRT_LFB + a mod 4096) as -> by (unfold VBE_VIRT_LFB; apply u32_small; lia).
  unfold VBE_VIRT_LFB in *. split_and!; try done.
  - intros o Hoo Hin. split; [zlia|]. rewrite HW by lia.
    destruct (Z.leb_spec (0xE0000 + 0) ((0xE0000000 + a mod 4096 + o) / 4096)),
      (Z.ltb_spec ((0xE0000000 + a mod 4096 + o) / 4096) (0xE0000 + 0 + s / 4096)); try zlia. cbn [andb]. f_equal. zlia.
  - intros v Hv. rewrite HW by lia.
    destruct (Z.leb_spec (0xE0000 + 0) (v / 4096)), (Z.ltb_spec (v / 4096) (0xE0000 + 0 + s / 4096)); try done. zlia.
Qed.
End mapped.

(** A framebuffer of 1024 by 768 pixels of 32 bits at an address that is not page aligned. *)
Definition demo_mbi : multiboot_info := mk_mbi 0x1000 0xFD000010 4096 1024 768 32 1.

Lemma vbe_init_maps_witness :
  let '(vbe', m') := vbe_init (mk_vbe_state 0 0 0 0 0) demo_vmm demo_mbi 0x2BADB002 in
  v_lfb vbe' = 0xE0000010 ∧ walk (mem m') 1 (0xE0000010 + 0x2FFFFF) = Some 0xFD300.
Proof.
  assert (v_lfb (vbe_init (mk_vbe_state 0 0 0 0 0) demo_vmm demo_mbi 0x2BADB002).1 = 0xE0000010) as Hl by (by vm_compute).
  destruct (vbe_init (mk_vbe_state 0 0 0 0 0) demo_vmm demo_mbi 0x2BADB002) as [vbe' m'] eqn:E. cbn [fst] in Hl.
  pose proof (vbe_init_maps (managed := pmm_managed) (mk_vbe_state 0 0 0 0 0) demo_vmm demo_mbi 1 m' vbe' demo_vmm_ok) as H.
  cbv zeta in H. clear - H E Hl. generalize dependent demo_vmm. intros m0 E H.
  assert (v_lfb vbe' ≠ 0) as Hl0 by (by rewrite Hl).
  destruct (H eq_refl ltac:(done) eq_refl ltac:(by vm_compute) eq_refl eq_refl eq_refl eq_refl E Hl0) as (_ & _ & _ & HW & _).
  split; [done|]. rewrite Hl in HW. destruct (HW 0x2FFFFF) as [_ HW2]; [by vm_compute|by vm_compute|].
  rewrite HW2. by vm_compute.
Defined.
