(* ===== verification/Wm.v ===== *)
(** * core/gui/wm.c: the window manager

    Windows are heap objects on a doubly linked list, front to back; terminals and notepads
    are heap objects they own.  The model keeps a store of windows indexed by addresses in
    which every access is checked, so that a window used after it was freed is a [Fault].

    The specification is the z-order, a plain list of windows.  The theorems: opening,
    raising and closing windows are the operations of that list, leak nothing, free nothing
    twice and never leave the console on a freed terminal; a click acts on the topmost window
    under the pointer; processing a queue of events ends and never touches a freed window as
    long as presses and releases alternate; a notepad holds what an editor would; a dragged
    window stays under the pointer. *)

From Stdlib Require Import Ascii String.
From S2P Require Import Prelude Queues KString Kheap Format Serial Vga Gfx.
Import Events Tty.

(** ** Data *)

Inductive window_type_t :=
  | WINDOW_TYPE_MAIN | WINDOW_TYPE_TERMINAL | WINDOW_TYPE_FILES | WINDOW_TYPE_SETTINGS | WINDOW_TYPE_ABOUT
  | WINDOW_TYPE_TASKMAN | WINDOW_TYPE_NOTEPAD.

#[global] Instance window_type_eq_dec : EqDecision window_type_t.
Proof. solve_decision. Defined.

Record window_t := mk_window {
  wx : Z; wy : Z; ww : Z; wh : Z;
  title : list Z;
  is_dragging : bool; is_resizing : bool; drag_off_x : Z; drag_off_y : Z;
  is_visible : bool; is_minimized : bool; is_maximized : bool;
  last_x : Z; last_y : Z; last_w : Z; last_h : Z;
  wtype : window_type_t; wdata : Z;
  wnext : Z; wprev : Z }.

(** [memset(win, 0, sizeof(window_t))] *)
Definition zero_window : window_t :=
  mk_window 0 0 0 0 (replicate 64 0) false false 0 0 false false false 0 0 0 0 WINDOW_TYPE_MAIN 0 0 0.

Definition sizeof_window : Z := 128.
Definition sizeof_notepad : Z := 2052.
Definition sizeof_terminal : Z := 4012.

Record notepad_data_t := mk_notepad { np_text : list Z; cursor : Z }.

(** What a menu entry or an icon calls. *)
Inductive action := OpenTerminal | OpenFiles | OpenSettings | OpenNotepad | OpenAbout.

Definition DESKTOP_MENU_ITEM_HEIGHT : Z := 22.

Record menu_item_t := mk_item { item_label : list Z; item_action : action }.
Record menu_t := mk_menu {
  menu_x : Z; menu_y : Z; menu_w : Z; menu_h : Z; item_count : Z; items : list menu_item_t; menu_visible : bool }.
Record desktop_icon_t := mk_icon { icon_x : Z; icon_y : Z; icon_label : list Z; icon_action : action; hovered : bool }.

#[global] Instance item_inhabited : Inhabited menu_item_t := populate (mk_item (replicate 32 0) OpenTerminal).
#[global] Instance icon_inhabited : Inhabited desktop_icon_t := populate (mk_icon 0 0 (replicate 20 0) OpenTerminal false).

(** The static variables of wm.c and the components it works on. *)
Record wm (H D : Type) := mk_wm {
  w_heap : H; w_vga : vga D; w_tty : tty; w_events : Events.state;
  windows : gmap Z window_t; notepads : gmap Z notepad_data_t;
  windows_head : Z; windows_tail : Z; active_window : Z;
  desktop_menu : menu_t; desktop_icons : list desktop_icon_t; desktop_icon_count : Z }.
Arguments mk_wm {H D}.
Arguments w_heap {H D}.
Arguments w_vga {H D}.
Arguments w_tty {H D}.
Arguments w_events {H D}.
Arguments windows {H D}.
Arguments notepads {H D}.
Arguments windows_head {H D}.
Arguments windows_tail {H D}.
Arguments active_window {H D}.
Arguments desktop_menu {H D}.
Arguments desktop_icons {H D}.
Arguments desktop_icon_count {H D}.

(** Field updates. *)
Section updates.
Context {H D : Type}.
Implicit Types st : wm H D.

Definition u_heap (h : H) st := mk_wm h (w_vga st) (w_tty st) (w_events st) (windows st) (notepads st) (windows_head st)
  (windows_tail st) (active_window st) (desktop_menu st) (desktop_icons st) (desktop_icon_count st).
Definition u_vga (v : vga D) st := mk_wm (w_heap st) v (w_tty st) (w_events st) (windows st) (notepads st) (windows_head st)
  (windows_tail st) (active_window st) (desktop_menu st) (desktop_icons st) (desktop_icon_count st).
Definition u_tty (t : tty) st := mk_wm (w_heap st) (w_vga st) t (w_events st) (windows st) (notepads st) (windows_head st)
  (windows_tail st) (active_window st) (desktop_menu st) (desktop_icons st) (desktop_icon_count st).
Definition u_events (e : Events.state) st := mk_wm (w_heap st) (w_vga st) (w_tty st) e (windows st) (notepads st)
  (windows_head st) (windows_tail st) (active_window st) (desktop_menu st) (desktop_icons st) (desktop_icon_count st).
Definition u_windows (ws : gmap Z window_t) st := mk_wm (w_heap st) (w_vga st) (w_tty st) (w_events st) ws (notepads st)
  (windows_head st) (windows_tail st) (active_window st) (desktop_menu st) (desktop_icons st) (desktop_icon_count st).
Definition u_notepads (ns : gmap Z notepad_data_t) st := mk_wm (w_heap st) (w_vga st) (w_tty st) (w_events st) (windows st) ns
  (windows_head st) (windows_tail st) (active_window st) (desktop_menu st) (desktop_icons st) (desktop_icon_count st).
Definition u_head (p : Z) st := mk_wm (w_heap st) (w_vga st) (w_tty st) (w_events st) (windows st) (notepads st) p
  (windows_tail st) (active_window st) (desktop_menu st) (desktop_icons st) (desktop_icon_count st).
Definition u_tail (p : Z) st := mk_wm (w_heap st) (w_vga st) (w_tty st) (w_events st) (windows st) (notepads st)
  (windows_head st) p (active_window st) (desktop_menu st) (desktop_icons st) (desktop_icon_count st).
Definition u_active (p : Z) st := mk_wm (w_heap st) (w_vga st) (w_tty st) (w_events st) (windows st) (notepads st)
  (windows_head st) (windows_tail st) p (desktop_menu st) (desktop_icons st) (desktop_icon_count st).
Definition u_menu (m : menu_t) st := mk_wm (w_heap st) (w_vga st) (w_tty st) (w_events st) (windows st) (notepads st)
  (windows_head st) (windows_tail st) (active_window st) m (desktop_icons st) (desktop_icon_count st).
Definition u_icons (l : list desktop_icon_t) (n : Z) st := mk_wm (w_heap st) (w_vga st) (w_tty st) (w_events st) (windows st)
  (notepads st) (windows_head st) (windows_tail st) (active_window st) (desktop_menu st) l n.
End updates.

Definition place (x y w h : Z) (v : window_t) : window_t :=
  mk_window x y w h (title v) (is_dragging v) (is_resizing v) (drag_off_x v) (drag_off_y v) (is_visible v) (is_minimized v)
    (is_maximized v) (last_x v) (last_y v) (last_w v) (last_h v) (wtype v) (wdata v) (wnext v) (wprev v).
Definition set_title (t : list Z) (v : window_t) : window_t :=
  mk_window (wx v) (wy v) (ww v) (wh v) t (is_dragging v) (is_resizing v) (drag_off_x v) (drag_off_y v) (is_visible v)
    (is_minimized v) (is_maximized v) (last_x v) (last_y v) (last_w v) (last_h v) (wtype v) (wdata v) (wnext v) (wprev v).
Definition set_grab (drag size : bool) (v : window_t) : window_t :=
  mk_window (wx v) (wy v) (ww v) (wh v) (title v) drag size (drag_off_x v) (drag_off_y v) (is_visible v)
    (is_minimized v) (is_maximized v) (last_x v) (last_y v) (last_w v) (last_h v) (wtype v) (wdata v) (wnext v) (wprev v).
Definition set_drag_off (x y : Z) (v : window_t) : window_t :=
  mk_window (wx v) (wy v) (ww v) (wh v) (title v) (is_dragging v) (is_resizing v) x y (is_visible v)
    (is_minimized v) (is_maximized v) (last_x v) (last_y v) (last_w v) (last_h v) (wtype v) (wdata v) (wnext v) (wprev v).
Definition set_shown (visible minimized : bool) (v : window_t) : window_t :=
  mk_window (wx v) (wy v) (ww v) (wh v) (title v) (is_dragging v) (is_resizing v) (drag_off_x v) (drag_off_y v) visible
    minimized (is_maximized v) (last_x v) (last_y v) (last_w v) (last_h v) (wtype v) (wdata v) (wnext v) (wprev v).
Definition set_maximized (b : bool) (x y w h : Z) (v : window_t) : window_t :=
  mk_window (wx v) (wy v) (ww v) (wh v) (title v) (is_dragging v) (is_resizing v) (drag_off_x v) (drag_off_y v) (is_visible v)
    (is_minimized v) b x y w h (wtype v) (wdata v) (wnext v) (wprev v).
Definition set_type (t : window_type_t) (v : window_t) : window_t :=
  mk_window (wx v) (wy v) (ww v) (wh v) (title v) (is_dragging v) (is_resizing v) (drag_off_x v) (drag_off_y v) (is_visible v)
    (is_minimized v) (is_maximized v) (last_x v) (last_y v) (last_w v) (last_h v) t (wdata v) (wnext v) (wprev v).
Definition set_data (d : Z) (v : window_t) : window_t :=
  mk_window (wx v) (wy v) (ww v) (wh v) (title v) (is_dragging v) (is_resizing v) (drag_off_x v) (drag_off_y v) (is_visible v)
    (is_minimized v) (is_maximized v) (last_x v) (last_y v) (last_w v) (last_h v) (wtype v) d (wnext v) (wprev v).
Definition set_next (n : Z) (v : window_t) : window_t :=
  mk_window (wx v) (wy v) (ww v) (wh v) (title v) (is_dragging v) (is_resizing v) (drag_off_x v) (drag_off_y v) (is_visible v)
    (is_minimized v) (is_maximized v) (last_x v) (last_y v) (last_w v) (last_h v) (wtype v) (wdata v) n (wprev v).
Definition set_prev (p : Z) (v : window_t) : window_t :=
  mk_window (wx v) (wy v) (ww v) (wh v) (title v) (is_dragging v) (is_resizing v) (drag_off_x v) (drag_off_y v) (is_visible v)
    (is_minimized v) (is_maximized v) (last_x v) (last_y v) (last_w v) (last_h v) (wtype v) (wdata v) (wnext v) p.

(** ** Operations *)

Section wm.
Context {H D : Type} `{HeapAlloc H} `{PortIO D}.
(** The address of the console's own terminal. *)
Variable default_terminal : Z.
Notation state := (wm H D).
Implicit Types (st : state) (win : Z).

(** Accesses through a pointer to a window. *)
Definition wget st win : outcome window_t :=
  match windows st !! win with Some w => Done w | None => Fault end.
Definition wupd st win (f : window_t → window_t) : outcome state :=
  w ← wget st win; Done (u_windows (<[win := f w]> (windows st)) st).

(** [if (p) p->... = ...] *)
Definition wupd_if st win (f : window_t → window_t) : outcome state :=
  if nz win then wupd st win f else Done st.

Definition wm_alloc_window st : outcome (Z * state) :=
  let '(win, h) := halloc (w_heap st) sizeof_window in
  let st := u_heap h st in
  if win =? 0 then Done (0, st)
  else
    let st := u_windows (<[win := zero_window]> (windows st)) st in
    st ← wupd st win (set_next (windows_head st));
    st ← wupd_if st (windows_head st) (set_prev win);
    let st := u_head win st in
    Done (win, if windows_tail st =? 0 then u_tail win st else st).

(** [if (win->prev) win->prev->next = win->next; if (win->next) win->next->prev = win->prev;] *)
Definition wm_unlink st win : outcome state :=
  w ← wget st win;
  st ← wupd_if st (wprev w) (set_next (wnext w));
  w ← wget st win;
  wupd_if st (wnext w) (set_prev (wprev w)).

Definition wm_bring_to_front st win : outcome state :=
  if (win =? 0) || (win =? windows_head st) then Done st
  else
    st ← wm_unlink st win;
    w ← wget st win;
    let st := if win =? windows_tail st then u_tail (wprev w) st else st in
    st ← wupd st win (set_next (windows_head st));
    st ← wupd st win (set_prev 0);
    st ← wupd_if st (windows_head st) (set_prev win);
    Done (u_head win st).

(** A terminal's [vt] is the first field of its data. *)
Definition wm_activate_terminal st win : outcome state :=
  if win =? 0 then Done (u_vga (terminal_set_active default_terminal (w_vga st) (terminal_get_default default_terminal)) st)
  else
    w ← wget st win;
    if bool_decide (wtype w = WINDOW_TYPE_TERMINAL) && nz (wdata w)
    then Done (u_vga (terminal_set_active default_terminal (w_vga st) (wdata w)) st)
    else Done (u_vga (terminal_set_active default_terminal (w_vga st) (terminal_get_default default_terminal)) st).

(** [kfree] of a window or of its data: the object is gone. *)
Definition free_window st win : state := u_windows (delete win (windows st)) (u_heap (hfree (w_heap st) win) st).
Definition free_data st (p : Z) : state := u_notepads (delete p (notepads st)) (u_heap (hfree (w_heap st) p) st).

Definition owns_data (w : window_t) : bool :=
  nz (wdata w) && (bool_decide (wtype w = WINDOW_TYPE_NOTEPAD) || bool_decide (wtype w = WINDOW_TYPE_TERMINAL)).

Definition wm_close_window st win : outcome state :=
  if win =? 0 then Done st
  else
    w ← wget st win;
    let closing_active_terminal :=
      bool_decide (wtype w = WINDOW_TYPE_TERMINAL) && nz (wdata w) && (terminal_get_active (w_vga st) =? wdata w) in
    let st := if owns_data w then free_data st (wdata w) else st in
    st ← wm_unlink st win;
    w ← wget st win;
    let st := if win =? windows_head st then u_head (wnext w) st else st in
    let st := if win =? windows_tail st then u_tail (wprev w) st else st in
    let st := free_window st win in
    if closing_active_terminal then wm_activate_terminal st (windows_head st) else Done st.

(** [vbe->height - 40] is unsigned and stored in an int. *)
Definition maximized (vbe : vbe_info) (w : window_t) : window_t :=
  if is_maximized w then
    set_maximized false (last_x w) (last_y w) (last_w w) (last_h w) (place (last_x w) (last_y w) (last_w w) (last_h w) w)
  else
    set_maximized true (wx w) (wy w) (ww w) (wh w) (place 0 0 (s32 (width vbe)) (s32 (u32 (height vbe - 40))) w).

Definition wm_maximize_window (vbe : vbe_info) st win : outcome state :=
  if win =? 0 then Done st else wupd st win (maximized vbe).

Definition wm_minimize_window st win : outcome state :=
  if win =? 0 then Done st else wupd st win (set_shown false true).

(** The fields an open function sets. *)
Definition opened (x y w h : Z) (t : window_type_t) (name : list Z) (v : window_t) : window_t :=
  let v := set_type t (set_shown true (is_minimized v) (place x y w h v)) in
  set_title (kstrncpy (title v) 0 (name ++ [0]) 63) v.

Definition wm_open (x y w h : Z) (t : window_type_t) (name : list Z) st : outcome (Z * state) :=
  '(win, st) ← wm_alloc_window st;
  if win =? 0 then Done (0, st) else st ← wupd st win (opened x y w h t name); Done (win, st).

(** The cells of a new terminal, before [terminal_init_virtual] writes all of them. *)
Definition raw_terminal : virtual_terminal_t := mk_vt 0 0 0 (replicate (Z.to_nat (VGA_WIDTH * VGA_HEIGHT)) 0).

Definition wm_open_terminal st : outcome state :=
  '(win, st) ← wm_open 60 60 660 420 WINDOW_TYPE_TERMINAL (str_bytes "Khazar Terminal") st;
  if win =? 0 then Done st
  else
    let '(d, h) := halloc (w_heap st) sizeof_terminal in
    let st := u_heap h st in
    if d =? 0 then wm_close_window st win
    else
      let st := u_vga (terminal_init_virtual (set_term (w_vga st) d raw_terminal) d) st in
      st ← wupd st win (set_data d);
      wm_activate_terminal st win.

(** The result of [kmalloc] is not tested: when it is NULL the object cleared is the one at
    address 0, which is mapped. *)
Definition wm_open_notepad st : outcome state :=
  '(win, st) ← wm_open 200 100 500 400 WINDOW_TYPE_NOTEPAD (str_bytes "Khazar Notepad") st;
  if win =? 0 then Done st
  else
    let '(d, h) := halloc (w_heap st) sizeof_notepad in
    let st := u_heap h st in
    let st := u_notepads (<[d := mk_notepad (replicate 2048 0) 0]> (notepads st)) st in
    wupd st win (set_data d).

Definition wm_open_files st : outcome state :=
  '(_, st) ← wm_open 150 130 460 380 WINDOW_TYPE_FILES (str_bytes "Fayllar") st; Done st.
Definition wm_open_settings st : outcome state :=
  '(_, st) ← wm_open 220 160 420 320 WINDOW_TYPE_SETTINGS (str_bytes "Ayarlar") st; Done st.
Definition wm_open_about st : outcome state :=
  '(_, st) ← wm_open 260 210 420 240 WINDOW_TYPE_ABOUT (str_bytes "Hakkinda") st; Done st.

Definition run_action (a : action) st : outcome state :=
  match a with
  | OpenTerminal => wm_open_terminal st
  | OpenFiles => wm_open_files st
  | OpenSettings => wm_open_settings st
  | OpenNotepad => wm_open_notepad st
  | OpenAbout => wm_open_about st
  end.

Definition desktop_icon_add st (x y : Z) (label : list Z) (a : action) : state :=
  if 6 <=? desktop_icon_count st then st
  else
    let i := desktop_icon_count st in
    let ic := (desktop_icons st).[i] in
    u_icons ((desktop_icons st).[i <- mk_icon x y (kstrncpy (icon_label ic) 0 (label ++ [0]) 19) a false]) (i + 1) st.

Definition set_item (m : menu_t) (i : Z) (label : list Z) (a : action) : menu_t :=
  mk_menu (menu_x m) (menu_y m) (menu_w m) (menu_h m) (item_count m)
    ((items m).[i <- mk_item (kstrncpy (item_label ((items m).[i])) 0 (label ++ [0]) 31) a]) (menu_visible m).

Definition wm_init st : state :=
  let st := u_icons (desktop_icons st) 0 (u_tail 0 (u_head 0 st)) in
  let st := desktop_icon_add st 20 50 (str_bytes "Terminal") OpenTerminal in
  let st := desktop_icon_add st 20 140 (str_bytes "Fayllar") OpenFiles in
  let st := desktop_icon_add st 20 230 (str_bytes "Notepad") OpenNotepad in
  let st := desktop_icon_add st 20 320 (str_bytes "Hakkinda") OpenAbout in
  let m := desktop_menu st in
  let m := mk_menu (menu_x m) (menu_y m) 160 (menu_h m) 4 (items m) false in
  let m := set_item m 0 (str_bytes "Terminal Ac") OpenTerminal in
  let m := set_item m 1 (str_bytes "Notepad") OpenNotepad in
  let m := set_item m 2 (str_bytes "Fayllar") OpenFiles in
  let m := set_item m 3 (str_bytes "Hakkinda") OpenAbout in
  u_menu (mk_menu (menu_x m) (menu_y m) (menu_w m) (item_count m * DESKTOP_MENU_ITEM_HEIGHT + 10) (item_count m) (items m)
            (menu_visible m)) st.

(** A key in a notepad; 8 is the backspace. *)
Definition notepad_key (d : notepad_data_t) (c : Z) : notepad_data_t :=
  if c =? 8 then
    if 0 <? cursor d then mk_notepad ((np_text d).[cursor d - 1 <- 0]) (cursor d - 1) else d
  else if cursor d <? 2047 then mk_notepad (((np_text d).[cursor d <- c]).[cursor d + 1 <- 0]) (cursor d + 1)
  else d.

Definition wm_handle_key st (c : Z) : outcome state :=
  if windows_head st =? 0 then Done (u_tty (tty_putc (w_tty st) c) st)
  else
    w ← wget st (windows_head st);
    if bool_decide (wtype w = WINDOW_TYPE_TERMINAL) then
      st ← wm_activate_terminal st (windows_head st);
      Done (u_tty (tty_putc (w_tty st) c) st)
    else if bool_decide (wtype w = WINDOW_TYPE_NOTEPAD) then
      match notepads st !! wdata w with
      | Some d => Done (u_notepads (<[wdata w := notepad_key d c]> (notepads st)) st)
      | None => Fault
      end
    else Done st.

(** *** wm_update *)

(** The parts of a window a click can hit, in the order they are tested. *)
Inductive part := CloseButton | MaximizeButton | MinimizeButton | ResizeCorner | TitleBar | Body.

Definition within (x lo hi : Z) : bool := (lo <=? x) && (x <=? hi).

Definition hit_part (w : window_t) (mx my : Z) : option part :=
  let right := wx w + ww w in
  let bottom := wy w + wh w in
  if within mx (right - 22) (right - 4) && within my (wy w + 4) (wy w + 22) then Some CloseButton
  else if within mx (right - 42) (right - 24) && within my (wy w + 4) (wy w + 22) then Some MaximizeButton
  else if within mx (right - 62) (right - 44) && within my (wy w + 4) (wy w + 22) then Some MinimizeButton
  else if within mx (right - 16) right && within my (bottom - 16) bottom then Some ResizeCorner
  else if within mx (wx w) right && within my (wy w) (wy w + 25) then Some TitleBar
  else if within mx (wx w) right && within my (wy w) bottom then Some Body
  else None.

Definition click_part (vbe : vbe_info) st curr (r : part) (mx my : Z) : outcome state :=
  match r with
  | CloseButton => wm_close_window st curr
  | MaximizeButton => wm_maximize_window vbe st curr
  | MinimizeButton => wm_minimize_window st curr
  | ResizeCorner =>
      st ← wm_bring_to_front st curr;
      w ← wget st curr;
      if is_maximized w then Done st
      else st ← wupd st curr (λ w, set_grab (is_dragging w) true w); Done (u_active curr st)
  | TitleBar =>
      st ← wm_bring_to_front st curr;
      st ← wm_activate_terminal st curr;
      w ← wget st curr;
      if is_maximized w then Done st
      else
        st ← wupd st curr (λ w, set_drag_off (mx - wx w) (my - wy w) (set_grab true (is_resizing w) w));
        Done (u_active curr st)
  | Body => st ← wm_bring_to_front st curr; wm_activate_terminal st curr
  end.

(** The walk over the windows; the result tells whether one took the click. *)
Fixpoint click_windows (fuel : nat) (vbe : vbe_info) st curr (mx my : Z) : outcome (bool * state) :=
  if curr =? 0 then Done (false, st)
  else
    match fuel with
    | O => NoFuel
    | S fuel' =>
        w ← wget st curr;
        if negb (is_visible w) then click_windows fuel' vbe st (wnext w) mx my
        else
          match hit_part w mx my with
          | Some r => st ← click_part vbe st curr r mx my; Done (true, st)
          | None => click_windows fuel' vbe st (wnext w) mx my
          end
    end.

Definition on_icon (ic : desktop_icon_t) (mx my : Z) : bool :=
  (icon_x ic <=? mx) && (mx <? icon_x ic + 48) && (icon_y ic <=? my) && (my <? icon_y ic + 48).

Fixpoint click_icons (n : nat) (i : Z) st (mx my : Z) : outcome state :=
  match n with
  | O => Done st
  | S n' =>
      let ic := (desktop_icons st).[i] in
      if on_icon ic mx my then run_action (icon_action ic) st else click_icons n' (i + 1) st mx my
  end.

Definition show_menu (visible : bool) (x y : Z) (m : menu_t) : menu_t :=
  mk_menu x y (menu_w m) (menu_h m) (item_count m) (items m) visible.

Definition in_menu (m : menu_t) (mx my : Z) : bool :=
  (menu_x m <=? mx) && (mx <? menu_x m + menu_w m) && (menu_y m <=? my) && (my <? menu_y m + menu_h m).

(** An open menu takes a click inside it and closes. *)
Definition click_menu st (mx my : Z) : outcome (bool * state) :=
  let m := desktop_menu st in
  if menu_visible m then
    '(proc, st) ←
      (if in_menu m mx my then
         let idx := Z.quot (my - menu_y m - 5) 22 in
         st ← (if (0 <=? idx) && (idx <? item_count m) then run_action (item_action ((items m).[idx])) st else Done st);
         Done (true, st)
       else Done (false, st));
    Done (proc, u_menu (show_menu false (menu_x (desktop_menu st)) (menu_y (desktop_menu st)) (desktop_menu st)) st)
  else Done (false, st).

Definition windows_fuel st : nat := S (size (windows st)).

Definition handle_click (vbe : vbe_info) st (button mx my : Z) : outcome state :=
  '(proc, st) ← click_menu st mx my;
  let '(proc, st) :=
    if button =? 2 then (true, u_menu (show_menu true mx my (desktop_menu st)) st) else (proc, st) in
  '(proc, st) ← (if proc : bool then Done (true, st) else click_windows (windows_fuel st) vbe st (windows_head st) mx my);
  if proc : bool then Done st else click_icons (Z.to_nat (desktop_icon_count st)) 0 st mx my.

Definition handle_release st : outcome state :=
  st ← wupd_if st (active_window st) (set_grab false false);
  Done (u_active 0 st).

Definition handle_event (vbe : vbe_info) st (ev : event_t) : outcome state :=
  match type ev with
  | EVENT_KEY_DOWN => wm_handle_key st (u8 (data1 ev))
  | EVENT_MOUSE_CLICK => handle_click vbe st (data1 ev) (data2 ev) (data3 ev)
  | EVENT_MOUSE_RELEASE => handle_release st
  | _ => Done st
  end.

Fixpoint update_loop (fuel : nat) (vbe : vbe_info) st : outcome state :=
  let '(ev, e) := events_pop (w_events st) in
  let st := u_events e st in
  match ev with
  | None => Done st
  | Some ev =>
      match fuel with
      | O => NoFuel
      | S fuel' => st ← handle_event vbe st ev; update_loop fuel' vbe st
      end
  end.

Definition moved (x y : Z) (w : window_t) : window_t :=
  if is_dragging w then place (x - drag_off_x w) (y - drag_off_y w) (ww w) (wh w) w
  else if is_resizing w then
    let nw := x - wx w in
    let nh := y - wy w in
    place (wx w) (wy w) (if nw <? 100 then 100 else nw) (if nh <? 60 then 60 else nh) w
  else w.

Definition hover_icons st (x y : Z) : state :=
  u_icons (for_loop (Z.to_nat (desktop_icon_count st)) 0 (λ i l,
             let ic := l.[i] in
             l.[i <- mk_icon (icon_x ic) (icon_y ic) (icon_label ic) (icon_action ic) (on_icon ic x y)]) (desktop_icons st))
    (desktop_icon_count st) st.

(** [ms] is the position of [mouse_get_state]. *)
Definition wm_update (fuel : nat) (vbe : vbe_info) (ms : Z * Z) st : outcome state :=
  st ← update_loop fuel vbe st;
  st ← wupd_if st (active_window st) (moved ms.1 ms.2);
  Done (hover_icons st ms.1 ms.2).

Definition wm_show_menu st (x y : Z) : state := u_menu (show_menu true x y (desktop_menu st)) st.
Definition windows_get_head st : Z := windows_head st.
End wm.

(** ** The z-order

    [wseg ws prev l nxt]: the windows [l], addresses and contents, are linked in that order
    between the addresses [prev] and [nxt]. *)

Definition link (prev nxt : Z) (w : window_t) : window_t := set_next nxt (set_prev prev w).

Notation zorder := (list (Z * window_t)).

Definition first (nxt : Z) (l : zorder) : Z := default nxt (hd_error (l.*1)).
Definition final (prev : Z) (l : zorder) : Z := default prev (last (l.*1)).

Fixpoint wseg (ws : gmap Z window_t) (prev : Z) (l : zorder) (nxt : Z) : Prop :=
  match l with
  | [] => True
  | (p, w) :: l' => p ≠ 0 ∧ ws !! p = Some (link prev (first nxt l') w) ∧ wseg ws p l' nxt
  end.

Lemma final_cons prev p w l : final prev ((p, w) :: l) = final p l.
Proof. unfold final. cbn [fmap list_fmap fst]. rewrite last_cons. by destruct (last _). Qed.

Lemma final_snoc prev l p w : final prev (l ++ [(p, w)]) = p.
Proof. unfold final. rewrite fmap_app. cbn. by rewrite last_snoc. Qed.

Lemma first_app nxt a b : first nxt (a ++ b) = first (first nxt b) a.
Proof. unfold first. rewrite fmap_app. by destruct a as [|[p w] a]. Qed.

Lemma final_app prev a b : final prev (a ++ b) = final (final prev a) b.
Proof. revert prev. induction a as [|[p w] a IH]; intros prev; [done|]. cbn [app]. by rewrite !final_cons, IH. Qed.

Lemma wseg_app ws prev a b nxt :
  wseg ws prev (a ++ b) nxt ↔ wseg ws prev a (first nxt b) ∧ wseg ws (final prev a) b nxt.
Proof.
  revert prev. induction a as [|[p w] a IH]; intros prev; cbn [app wseg]; [naive_solver|].
  rewrite final_cons, IH, first_app. naive_solver.
Qed.

Lemma wseg_out ws ws' prev l nxt :
  (∀ p, p ∈ l.*1 → ws' !! p = ws !! p) → wseg ws prev l nxt → wseg ws' prev l nxt.
Proof.
  revert prev. induction l as [|[p w] l IH]; intros prev Hp; [done|]. cbn [wseg]. intros (Hp0 & Hw & Hs).
  split_and!; [done| |].
  - rewrite Hp; [done|left].
  - apply IH; [|done]. intros q Hq. apply Hp. by right.
Qed.

Lemma wseg_nonzero ws prev l nxt p : wseg ws prev l nxt → p ∈ l.*1 → p ≠ 0 ∧ is_Some (ws !! p).
Proof.
  revert prev. induction l as [|[q w] l IH]; intros prev; [by intros _ ?%elem_of_nil|]. cbn [wseg fmap list_fmap].
  intros (Hq & Hw & Hs) [->|Hp]%elem_of_cons; [cbn [fst]; eauto|by apply (IH q)].
Qed.

Lemma first_in l : l ≠ [] → first 0 l ∈ l.*1.
Proof. destruct l as [|[p w] l]; [done|]. left. Qed.

Lemma final_in prev l : l ≠ [] → final prev l ∈ l.*1.
Proof.
  destruct l as [|[p w] l _] using rev_ind; [done|]. intros _. rewrite final_snoc, fmap_app. apply elem_of_app. right. left.
Qed.

(** Changing the link at either end. *)
Lemma wseg_set_prev ws prev l nxt p' :
  l ≠ [] → NoDup (l.*1) → wseg ws prev l nxt → wseg (alter (set_prev p') (first 0 l) ws) p' l nxt.
Proof.
  destruct l as [|[p w] l]; [done|]. rewrite fmap_cons. intros _ [Hp Hn]%NoDup_cons (Hp0 & Hw & Hs). cbn [fst] in Hp.
  change (first 0 ((p, w) :: l)) with p. cbn [wseg]. split_and!; [done| |].
  - rewrite lookup_alter_eq, Hw. done.
  - apply (wseg_out ws); [|done]. intros q Hq. apply lookup_alter_ne. intros ->. done.
Qed.

Lemma wseg_set_next ws prev l nxt n' :
  l ≠ [] → NoDup (l.*1) → wseg ws prev l nxt → wseg (alter (set_next n') (final prev l) ws) prev l n'.
Proof.
  destruct l as [|[p w] l _] using rev_ind; [done|]. intros _. rewrite final_snoc, fmap_app.
  intros (_ & Hp & _)%NoDup_app [Hs1 (Hp0 & Hw & _)]%wseg_app. apply wseg_app. cbn [wseg] in *. split.
  - apply (wseg_out ws); [|done]. intros q Hq. apply lookup_alter_ne. intros <-. apply (Hp p Hq). left.
  - split_and!; [done| |done]. rewrite lookup_alter_eq, Hw. done.
Qed.

Record zlist (ws : gmap Z window_t) (hd tl : Z) (l : zorder) : Prop := {
  zl_seg : wseg ws 0 l 0;
  zl_head : hd = first 0 l;
  zl_tail : tl = final 0 l;
  zl_nodup : NoDup (l.*1);
  zl_dom : ∀ p, is_Some (ws !! p) → p ∈ l.*1 }.

Lemma first_nonzero ws hd tl l : zlist ws hd tl l → l ≠ [] → first 0 l ≠ 0.
Proof. intros Hz Hl. by destruct (wseg_nonzero _ _ _ _ _ (zl_seg _ _ _ _ Hz) (first_in l Hl)). Qed.

(** The address of an element of a list is nowhere else in it. *)
Lemma middle_addr (a : zorder) p w (b : zorder) :
  NoDup ((a ++ (p, w) :: b).*1) → p ∉ a.*1 ∧ p ∉ b.*1 ∧ NoDup (a.*1) ∧ NoDup (b.*1) ∧ (∀ q, q ∈ a.*1 → q ∉ b.*1).
Proof.
  rewrite fmap_app, fmap_cons. cbn [fst]. intros (Ha & Hd & [Hp Hb]%NoDup_cons)%NoDup_app. split_and!; try done.
  - intros Hin. apply (Hd p Hin). left.
  - intros q Hq Hqb. apply (Hd q Hq). by right.
Qed.

Section lists.
Context {H D : Type} `{HeapAlloc H} `{PortIO D}.
Implicit Types st : wm H D.

Definition repr st (l : zorder) : Prop := zlist (windows st) (windows_head st) (windows_tail st) l.

Lemma repr_lookup st a p w b :
  repr st (a ++ (p, w) :: b) → windows st !! p = Some (link (final 0 a) (first 0 b) w) ∧ p ≠ 0.
Proof. intros Hr. pose proof (zl_seg _ _ _ _ Hr) as [_ (Hp & Hw & _)]%wseg_app. done. Qed.

Lemma wupd_done st p f w : windows st !! p = Some w → wupd st p f = Done (u_windows (alter f p (windows st)) st).
Proof.
  intros Hw. unfold wupd, wget. rewrite Hw. rewrite outcome_bind_done. do 2 f_equal.
  apply map_eq. intros q. destruct (decide (q = p)) as [->|Hq].
  - by rewrite lookup_insert_eq, lookup_alter_eq, Hw.
  - by rewrite lookup_insert_ne, lookup_alter_ne.
Qed.

Lemma wget_repr st a p w b :
  repr st (a ++ (p, w) :: b) → wget st p = Done (link (final 0 a) (first 0 b) w).
Proof. intros [Hw _]%repr_lookup. unfold wget. by rewrite Hw. Qed.

(** An update that leaves the links alone. *)
Lemma repr_upd st a p w b f :
  (∀ x y v, f (link x y v) = link x y (f v)) → repr st (a ++ (p, w) :: b) →
  ∃ ws, wupd st p f = Done (u_windows ws st) ∧ repr (u_windows ws st) (a ++ (p, f w) :: b).
Proof.
  intros Hf Hr. destruct (repr_lookup _ _ _ _ _ Hr) as [Hw Hp].
  eexists. split; [by eapply wupd_done|]. destruct Hr as [Hs Hh Ht Hn Hd].
  pose proof (middle_addr _ _ _ _ Hn) as (Ha & Hb & _). apply wseg_app in Hs as [Hs1 (_ & _ & Hs2)].
  assert ((a ++ (p, f w) :: b).*1 = (a ++ (p, w) :: b).*1) as E by (by rewrite !fmap_app).
  constructor; cbn [windows windows_head windows_tail u_windows].
  - apply wseg_app. split; [|split_and!; [done| |]].
    + apply (wseg_out (windows st)); [|done]. intros q Hq. apply lookup_alter_ne. by intros ->.
    + by rewrite lookup_alter_eq, Hw, <-Hf.
    + apply (wseg_out (windows st)); [|done]. intros q Hq. apply lookup_alter_ne. by intros ->.
  - rewrite Hh, !first_app. done.
  - rewrite Ht, !final_app, !final_cons. done.
  - by rewrite E.
  - intros q Hq. rewrite E. apply Hd. destruct (decide (q = p)) as [->|]; [by eexists|]. by rewrite lookup_alter_ne in Hq.
Qed.

Lemma wupd_if_0 st f : wupd_if st 0 f = Done st.
Proof. done. Qed.

Lemma wupd_if_done st p f w :
  p ≠ 0 → windows st !! p = Some w → wupd_if st p f = Done (u_windows (alter f p (windows st)) st).
Proof. intros Hp Hw. unfold wupd_if, nz. destruct (Z.eqb_spec p 0); [done|]. cbn [negb]. by eapply wupd_done. Qed.

(** Relinking an end of a segment through a pointer that is NULL when it is empty. *)
Lemma relink_next st l nxt n' :
  NoDup (l.*1) → wseg (windows st) 0 l nxt →
  ∃ ws, wupd_if st (final 0 l) (set_next n') = Done (u_windows ws st) ∧ wseg ws 0 l n' ∧
    (∀ q, q ∉ l.*1 → ws !! q = windows st !! q) ∧ dom ws = dom (windows st).
Proof.
  intros Hn Hs. destruct (decide (l = [])) as [->|Hl].
  { exists (windows st). rewrite wupd_if_0. split_and!; try done. by destruct st. }
  destruct (wseg_nonzero _ _ _ _ _ Hs (final_in 0 l Hl)) as [Hp [w Hw]].
  eexists. split; [by eapply wupd_if_done|]. split; [by eapply wseg_set_next|]. split.
  - intros q Hq. apply lookup_alter_ne. intros <-. apply Hq, final_in, Hl.
  - apply leibniz_equiv, dom_alter.
Qed.

Lemma relink_prev st l prev p' :
  NoDup (l.*1) → wseg (windows st) prev l 0 →
  ∃ ws, wupd_if st (first 0 l) (set_prev p') = Done (u_windows ws st) ∧ wseg ws p' l 0 ∧
    (∀ q, q ∉ l.*1 → ws !! q = windows st !! q) ∧ dom ws = dom (windows st).
Proof.
  intros Hn Hs. destruct (decide (l = [])) as [->|Hl].
  { exists (windows st). rewrite wupd_if_0. split_and!; try done. by destruct st. }
  destruct (wseg_nonzero _ _ _ _ _ Hs (first_in l Hl)) as [Hp [w Hw]].
  eexists. split; [by eapply wupd_if_done|]. split; [by eapply wseg_set_prev|]. split.
  - intros q Hq. apply lookup_alter_ne. intros <-. apply Hq, first_in, Hl.
  - apply leibniz_equiv, dom_alter.
Qed.

Lemma wseg_alone ws prev p w nxt : wseg ws prev [(p, w)] nxt ↔ p ≠ 0 ∧ ws !! p = Some (link prev nxt w).
Proof. cbn [wseg]. naive_solver. Qed.

Lemma u_windows_twice ws ws' st : u_windows ws (u_windows ws' st) = u_windows ws st.
Proof. done. Qed.

Lemma unlink_done st a p w b :
  repr st (a ++ (p, w) :: b) →
  ∃ ws, wm_unlink st p = Done (u_windows ws st) ∧ wseg ws 0 (a ++ b) 0 ∧
    ws !! p = Some (link (final 0 a) (first 0 b) w) ∧ dom ws = dom (windows st).
Proof.
  intros Hr. pose proof (wget_repr _ _ _ _ _ Hr) as Hg. destruct Hr as [Hs _ _ Hn _].
  destruct (middle_addr _ _ _ _ Hn) as (Ha & Hb & Hna & Hnb & Hab).
  apply wseg_app in Hs as [Hs1 (Hp & Hw & Hs2)]. unfold wm_unlink. rewrite Hg, outcome_bind_done.
  change (wprev (link (final 0 a) (first 0 b) w)) with (final 0 a).
  change (wnext (link (final 0 a) (first 0 b) w)) with (first 0 b).
  destruct (relink_next st a _ (first 0 b) Hna Hs1) as (ws1 & -> & Hs1' & Ho1 & Hd1). rewrite outcome_bind_done.
  assert (ws1 !! p = Some (link (final 0 a) (first 0 b) w)) as Hw1 by (by rewrite Ho1).
  assert (wget (u_windows ws1 st) p = Done (link (final 0 a) (first 0 b) w)) as ->
    by (unfold wget; cbn [windows u_windows]; by rewrite Hw1).
  rewrite outcome_bind_done.
  change (wprev (link (final 0 a) (first 0 b) w)) with (final 0 a).
  change (wnext (link (final 0 a) (first 0 b) w)) with (first 0 b).
  assert (wseg (windows (u_windows ws1 st)) p b 0) as Hs2'.
  { apply (wseg_out (windows st)); [|done]. intros q Hq. apply Ho1. intros Hqa. by apply (Hab q). }
  destruct (relink_prev (u_windows ws1 st) b p (final 0 a) Hnb Hs2') as (ws2 & -> & Hs3 & Ho2 & Hd2).
  exists ws2. rewrite u_windows_twice. split_and!; [done| | |].
  - apply wseg_app. split; [|done]. apply (wseg_out ws1); [|done]. intros q Hq. apply Ho2. by apply Hab.
  - by rewrite Ho2.
  - by rewrite Hd2.
Qed.

Definition u_list (ws : gmap Z window_t) (hd tl : Z) st : wm H D := u_tail tl (u_head hd (u_windows ws st)).

(** Linking a window that is not on the list in front of it. *)
Lemma push_front ws hd tl l p w :
  wseg ws 0 l 0 → NoDup (l.*1) → p ∉ l.*1 → p ≠ 0 → ws !! p = Some (link 0 (first 0 l) w) →
  (∀ q, is_Some (ws !! q) → q = p ∨ q ∈ l.*1) → ∀ st,
  ∃ ws', wupd_if (u_list ws hd tl st) (first 0 l) (set_prev p) = Done (u_list ws' hd tl st) ∧
    zlist ws' p (final p l) ((p, w) :: l).
Proof.
  intros Hs Hn Hp Hp0 Hw Hd st.
  destruct (relink_prev (u_list ws hd tl st) l 0 p Hn Hs) as (ws' & -> & Hs' & Ho & Hdom).
  exists ws'. split; [done|]. constructor.
  - split; [done|]. split; [|done]. by rewrite Ho.
  - done.
  - by rewrite final_cons.
  - rewrite fmap_cons. by constructor.
  - intros q Hq. rewrite fmap_cons. apply elem_of_cons, Hd.
    apply elem_of_dom. cbn in Hdom. rewrite <-Hdom. by apply elem_of_dom.
Qed.

Lemma repr_addr_in st l q : repr st l → is_Some (windows st !! q) → q ∈ l.*1.
Proof. intros Hr. apply (zl_dom _ _ _ _ Hr). Qed.

(** The last window when [p] leaves its place for the front. *)
Lemma tail_after_raise (a : zorder) p w b :
  a ≠ [] → p ∉ b.*1 →
  (if p =? final 0 (a ++ (p, w) :: b) then final 0 a else final 0 (a ++ (p, w) :: b)) = final p (a ++ b).
Proof.
  intros Ha Hb. rewrite !final_app, final_cons. destruct (decide (b = [])) as [->|Hnb].
  - change (final p []) with p. rewrite Z.eqb_refl. destruct a as [|[q v] a]; [done|]. by rewrite !final_cons.
  - destruct (Z.eqb_spec p (final p b)) as [E|_].
    + exfalso. apply Hb. rewrite E at 1. by apply final_in.
    + destruct b as [|[q v] b]; [done|]. by rewrite !final_cons.
Qed.

Lemma bring_to_front_done st a p w b :
  repr st (a ++ (p, w) :: b) →
  ∃ ws hd tl, wm_bring_to_front st p = Done (u_list ws hd tl st) ∧ repr (u_list ws hd tl st) ((p, w) :: a ++ b).
Proof.
  intros Hr. destruct (repr_lookup _ _ _ _ _ Hr) as [_ Hp0]. pose proof (zl_head _ _ _ _ Hr) as Hh.
  pose proof (zl_tail _ _ _ _ Hr) as Ht. pose proof (zl_nodup _ _ _ _ Hr) as Hn.
  destruct (middle_addr _ _ _ _ Hn) as (Ha & Hb & Hna & Hnb & Hab).
  unfold wm_bring_to_front. rewrite (proj2 (Z.eqb_neq p 0) Hp0). cbn [orb].
  destruct (Z.eqb_spec p (windows_head st)) as [Ep|Ep].
  { assert (a = []) as ->.
    { destruct a as [|[q v] a]; [done|]. exfalso. apply Ha. rewrite Ep, Hh. left. }
    exists (windows st), (windows_head st), (windows_tail st). split; [by destruct st|]. by destruct st. }
  destruct (unlink_done _ _ _ _ _ Hr) as (ws1 & -> & Hs1 & Hw1 & Hd1). rewrite outcome_bind_done.
  assert (wget (u_windows ws1 st) p = Done (link (final 0 a) (first 0 b) w)) as ->
    by (unfold wget; cbn [windows u_windows]; by rewrite Hw1).
  rewrite outcome_bind_done. change (wprev (link (final 0 a) (first 0 b) w)) with (final 0 a).
  assert (a ≠ []) as Hne by (intros ->; by rewrite Hh in Ep).
  set (tl := if p =? windows_tail (u_windows ws1 st) then final 0 a else windows_tail st).
  assert ((if p =? windows_tail (u_windows ws1 st) then u_tail (final 0 a) (u_windows ws1 st) else u_windows ws1 st)
    = u_list ws1 (windows_head st) tl st) as -> by (unfold tl; destruct (p =? _); by destruct st).
  assert (tl = final p (a ++ b)) as Etl by (unfold tl; cbn [windows_tail u_windows]; rewrite Ht; by apply tail_after_raise).
  rewrite (wupd_done (u_list ws1 (windows_head st) tl st) p _ _ Hw1), outcome_bind_done.
  erewrite (wupd_done _ p (set_prev 0)) by (cbn [windows u_windows u_list u_tail u_head]; rewrite lookup_alter_eq, Hw1; done).
  rewrite outcome_bind_done. cbn [windows u_windows u_list u_tail u_head windows_head].
  set (ws2 := alter (set_prev 0) p (alter (set_next (windows_head st)) p ws1)).
  assert (windows_head st = first 0 (a ++ b)) as Eh.
  { rewrite Hh, !first_app. destruct a as [|[q v] a]; [done|]. done. }
  destruct (push_front ws2 (windows_head st) tl (a ++ b) p w) with (st := st) as (ws3 & E3 & Hz).
  - apply (wseg_out ws1); [|done]. intros q Hq. unfold ws2. rewrite !lookup_alter_ne; [done|..]; intros <-;
      rewrite fmap_app in Hq; apply elem_of_app in Hq as [?|?]; done.
  - rewrite fmap_app. apply NoDup_app. done.
  - rewrite fmap_app. by intros [?|?]%elem_of_app.
  - done.
  - unfold ws2. rewrite !lookup_alter_eq, Hw1, <-Eh. done.
  - intros q Hq. destruct (decide (q = p)); [by left|right]. unfold ws2 in Hq. rewrite !lookup_alter_ne in Hq by done.
    assert (is_Some (windows st !! q)) as Hq' by (rewrite <-elem_of_dom, <-Hd1; by apply elem_of_dom).
    apply (repr_addr_in _ _ _ Hr) in Hq'. rewrite fmap_app, fmap_cons in Hq'. rewrite fmap_app.
    apply elem_of_app in Hq' as [?|[?|?]%elem_of_cons]; [|done|]; apply elem_of_app; auto.
  - rewrite <-Eh in E3. unfold u_list in E3 |- *.
    change (u_windows ws2 _) with (u_tail tl (u_head (windows_head st) (u_windows ws2 st))).
    rewrite E3, outcome_bind_done. exists ws3, p, tl. split; [done|]. unfold repr. cbn. by rewrite Etl.
Qed.

Lemma alloc_window_done st l q h :
  repr st l → halloc (w_heap st) sizeof_window = (q, h) → q ∉ l.*1 →
  if q =? 0 then wm_alloc_window st = Done (0, u_heap h st)
  else ∃ ws tl, wm_alloc_window st = Done (q, u_list ws q tl (u_heap h st)) ∧
    repr (u_list ws q tl (u_heap h st)) ((q, zero_window) :: l).
Proof.
  intros Hr E Hq. unfold wm_alloc_window. rewrite E. destruct (Z.eqb_spec q 0) as [->|Hq0]; [done|].
  destruct Hr as [Hs Hh Ht Hn Hd].
  erewrite wupd_done by (cbn [windows u_windows]; apply lookup_insert_eq). rewrite outcome_bind_done.
  cbn [windows u_windows u_heap windows_head].
  set (ws := alter (set_next (windows_head st)) q (<[q := zero_window]> (windows st))).
  destruct (push_front ws (windows_head st) (windows_tail st) l q zero_window) with (st := u_heap h st) as (ws' & E' & Hz);
    [|done|done|done| | |].
  - apply (wseg_out (windows st)); [|done]. intros r Hin. unfold ws.
    rewrite lookup_alter_ne, lookup_insert_ne; [done|..]; intros <-; done.
  - unfold ws. rewrite lookup_alter_eq, lookup_insert_eq, <-Hh. done.
  - intros r Hr. destruct (decide (r = q)); [by left|right]. unfold ws in Hr.
    rewrite lookup_alter_ne, lookup_insert_ne in Hr by done. by apply Hd.
  - rewrite <-Hh in E'. change (u_windows ws _) with (u_list ws (windows_head st) (windows_tail st) (u_heap h st)).
    rewrite E', outcome_bind_done. exists ws', (final q l). cbn [windows_tail u_head u_list u_tail]. split; [|done].
    rewrite Ht. destruct l as [|[r v] l].
    + done.
    + rewrite !final_cons. destruct (Z.eqb_spec (final r l) 0) as [Ez|_]; [|done].
      exfalso. rewrite <-(final_cons 0 r v) in Ez. destruct (wseg_nonzero _ _ _ _ (final 0 ((r, v) :: l)) Hs); [by apply final_in|done].
Qed.

(** The list without a window that was unlinked and freed. *)
Lemma repr_remove st a p w b ws :
  repr st (a ++ (p, w) :: b) → wseg ws 0 (a ++ b) 0 → dom ws = dom (windows st) →
  zlist (delete p ws) (if p =? windows_head st then first 0 b else windows_head st)
    (if p =? windows_tail st then final 0 a else windows_tail st) (a ++ b).
Proof.
  intros Hr Hs Hdom. pose proof (repr_addr_in _ _ p Hr) as _. destruct Hr as [_ Hh Ht Hn Hd].
  destruct (middle_addr _ _ _ _ Hn) as (Ha & Hb & Hna & Hnb & Hab). constructor.
  - apply (wseg_out ws); [|done]. intros q Hq. apply lookup_delete_ne. intros <-.
    rewrite fmap_app in Hq. by apply elem_of_app in Hq as [?|?].
  - rewrite Hh, !first_app. destruct a as [|[q v] a]; [by rewrite Z.eqb_refl|].
    change (first _ ((q, v) :: a)) with q. destruct (Z.eqb_spec p q) as [->|]; [|done]. exfalso. apply Ha. left.
  - destruct (decide (a = [])) as [->|Hne].
    + rewrite Ht. cbn [app]. rewrite final_cons. destruct b as [|[q v] b].
      * by rewrite Z.eqb_refl.
      * rewrite !final_cons. destruct (Z.eqb_spec p (final q b)) as [E|]; [|done]. exfalso. apply Hb.
        rewrite E at 1. rewrite <-(final_cons 0 q v). by apply final_in.
    + rewrite Ht, tail_after_raise by done. rewrite final_app, final_app.
      destruct a as [|[q v] a]; [done|]. by rewrite !final_cons.
  - rewrite fmap_app. apply NoDup_app. done.
  - intros q [v Hv]. apply lookup_delete_Some in Hv as [Hqp Hv].
    assert (q ∈ (a ++ (p, w) :: b).*1) as Hq.
    { apply Hd. apply elem_of_dom. rewrite <-Hdom. apply elem_of_dom. eauto. }
    rewrite fmap_app, fmap_cons in Hq. rewrite fmap_app. apply elem_of_app in Hq as [?|[?|?]%elem_of_cons]; [|done|];
      apply elem_of_app; auto.
Qed.
End lists.

(** ** Ownership

    The blocks the windows hold, and the invariant: the list is well formed, the heap holds
    exactly the owned blocks and [rest], the console is on its own terminal or on that of a
    window, and every notepad has its text. *)

Definition data_blocks (w : window_t) : list Z := if owns_data w then [wdata w] else [].
Definition blocks (x : Z * window_t) : list Z := x.1 :: data_blocks x.2.
Definition owned (l : zorder) : list Z := l ≫= blocks.

Lemma owned_app a b : owned (a ++ b) = owned a ++ owned b.
Proof. apply bind_app. Qed.
Lemma owned_cons x l : owned (x :: l) = blocks x ++ owned l.
Proof. done. Qed.
Lemma owned_addr l p : p ∈ l.*1 → p ∈ owned l.
Proof.
  intros ([q w] & -> & Hin)%list_elem_of_fmap. apply list_elem_of_bind. exists (q, w). split; [left|done].
Qed.

(** A terminal window with its terminal. *)
Definition shows_terminal (w : window_t) (t : Z) : Prop :=
  wtype w = WINDOW_TYPE_TERMINAL ∧ wdata w = t ∧ t ≠ 0.

Section invariant.
Context {H D : Type} `{HeapAlloc H} `{PortIO D}.
Context {holds : H → list Z → Prop} `{Laws : !HeapAllocLaws H holds}.
Variable default_terminal : Z.
Implicit Types st : wm H D.

Definition heap_owned (rest : list Z) st (l : zorder) : Prop :=
  ∃ L, holds (w_heap st) L ∧ L ≡ₚ owned l ++ rest.

Definition console_ok st (l : zorder) : Prop :=
  active_terminal (w_vga st) = default_terminal ∨
  ∃ p w, (p, w) ∈ l ∧ shows_terminal w (active_terminal (w_vga st)).

Definition has_text st (x : Z * window_t) : Prop :=
  wtype x.2 = WINDOW_TYPE_NOTEPAD → is_Some (notepads st !! wdata x.2).

Record wm_inv (rest : list Z) st (l : zorder) : Prop := {
  wi_repr : repr st l;
  wi_heap : heap_owned rest st l;
  wi_console : console_ok st l;
  wi_text : Forall (has_text st) l }.

Lemma heap_owned_nodup rest st l : heap_owned rest st l → NoDup (owned l ++ rest) ∧ 0 ∉ owned l ++ rest.
Proof.
  intros (L & Hh & HP). destruct (holds_nodup _ _ Hh) as [Hn Hpos]. rewrite <-HP. split; [done|].
  intros Hin. rewrite Forall_forall in Hpos. specialize (Hpos 0 Hin). lia.
Qed.

(** Allocation and release against the invariant. *)
Lemma heap_alloc_owned rest st l n q h :
  heap_owned rest st l → 0 <= n <= 0xFFFFFFF8 → halloc (w_heap st) n = (q, h) →
  q ∉ owned l ∧ if q =? 0 then heap_owned rest (u_heap h st) l
  else ∃ L, holds h L ∧ L ≡ₚ q :: owned l ++ rest.
Proof.
  intros Ho Hn E. pose proof (heap_owned_nodup _ _ _ Ho) as [_ H0in]. destruct Ho as (L & Hh & HP).
  pose proof (halloc_holds (w_heap st) L n Hh Hn) as HA. rewrite E in HA. cbn [fst snd] in HA.
  destruct HA as [[-> Hf]|(Hq & HqL & Hf)].
  - split; [intros ?; apply H0in, elem_of_app; by left|]. by exists L.
  - rewrite (proj2 (Z.eqb_neq q 0) Hq). split.
    + intros Hin. apply HqL. rewrite HP. apply elem_of_app. by left.
    + exists (q :: L). split; [done|]. by constructor.
Qed.

Lemma heap_free_owned h L p M : holds h L → L ≡ₚ p :: M → ∃ L', holds (hfree h p) L' ∧ L' ≡ₚ M.
Proof.
  intros Hh HP. assert (p ∈ L) as (L1 & L2 & ->)%list_elem_of_split by (rewrite HP; left).
  exists (L1 ++ L2). split; [by apply hfree_holds|]. rewrite <-Permutation_middle in HP. by apply Permutation_cons_inv in HP.
Qed.

(** A loop keeps what its body keeps. *)
Lemma for_loop_keeps {S A} (f : S → A) n i body (s : S) :
  (∀ k s, f (body k s) = f s) → f (for_loop n i body s) = f s.
Proof. intros Hb. revert i s. induction n as [|n IH]; intros i s; [done|]. cbn [for_loop]. by rewrite IH, Hb. Qed.

Lemma active_set_active v t : active_terminal (terminal_set_active default_terminal v t) = if nz t then t else default_terminal.
Proof.
  unfold terminal_set_active, terminal_flush_to_hardware. generalize (Z.to_nat (VGA_WIDTH * VGA_HEIGHT)) as n. intros n.
  unfold update_cursor, set_ser. cbn [active_terminal]. by rewrite (for_loop_keeps active_terminal) by done.
Qed.

Lemma active_init_virtual (v : vga D) t : active_terminal (terminal_init_virtual v t) = active_terminal v.
Proof.
  unfold terminal_init_virtual. destruct (t =? 0); [done|]. cbv zeta.
  generalize (Z.to_nat VGA_WIDTH) (Z.to_nat VGA_HEIGHT). intros n m.
  rewrite (for_loop_keeps active_terminal); [done|]. intros k s. by rewrite (for_loop_keeps active_terminal).
Qed.

(** Giving the console to the window [p], or to no window. *)
Lemma activate_done st l p :
  repr st l → p = 0 ∨ p ∈ l.*1 →
  ∃ v, wm_activate_terminal default_terminal st p = Done (u_vga v st) ∧ console_ok (u_vga v st) l.
Proof.
  intros Hr Hp. unfold wm_activate_terminal. destruct (Z.eqb_spec p 0) as [->|Hp0].
  { eexists. split; [done|]. left. cbn [w_vga u_vga]. rewrite active_set_active. unfold terminal_get_default. by destruct (nz default_terminal). }
  destruct Hp as [?|([q w] & -> & Hin)%list_elem_of_fmap]; [done|]. cbn [fst] in *.
  pose proof Hin as (a & b & ->)%list_elem_of_split. rewrite (wget_repr _ _ _ _ _ Hr), outcome_bind_done.
  change (wtype (link (final 0 a) (first 0 b) w)) with (wtype w).
  change (wdata (link (final 0 a) (first 0 b) w)) with (wdata w).
  case_bool_decide as Et; cbn [andb].
  - destruct (nz (wdata w)) eqn:En.
    + eexists. split; [done|]. right. exists q, w. split; [done|]. cbn [w_vga u_vga]. rewrite active_set_active, En.
      split; [done|]. split; [done|]. intros E0. by rewrite E0 in En.
    + eexists. split; [done|]. left. cbn [w_vga u_vga]. rewrite active_set_active. unfold terminal_get_default. by destruct (nz default_terminal).
  - eexists. split; [done|]. left. cbn [w_vga u_vga]. rewrite active_set_active. unfold terminal_get_default. by destruct (nz default_terminal).
Qed.

(** *** Closing *)

Lemma nz_true z : nz z = true ↔ z ≠ 0.
Proof. unfold nz. destruct (Z.eqb_spec z 0); naive_solver. Qed.

Lemma owned_middle a x b : owned (a ++ x :: b) ≡ₚ blocks x ++ owned (a ++ b).
Proof. rewrite !owned_app, owned_cons. by rewrite Permutation_app_swap_app. Qed.

(** Everything a state says about windows but the list itself. *)
Definition same_but_list st st' : Prop :=
  w_tty st' = w_tty st ∧ w_events st' = w_events st ∧ active_window st' = active_window st ∧
  desktop_menu st' = desktop_menu st ∧ desktop_icons st' = desktop_icons st ∧ desktop_icon_count st' = desktop_icon_count st.

(** The data of a window is freed before the window. *)
Lemma free_data_owned rest st a p w b :
  heap_owned rest st (a ++ (p, w) :: b) →
  let st1 := if owns_data w then free_data st (wdata w) else st in
  ∃ L, holds (w_heap st1) L ∧ L ≡ₚ p :: owned (a ++ b) ++ rest.
Proof.
  intros (L & Hh & HP). rewrite owned_middle in HP. unfold blocks, data_blocks in HP. cbn [fst snd] in HP.
  destruct (owns_data w); cbn [w_heap free_data u_notepads u_heap] in *.
  - apply (heap_free_owned _ L); [done|]. rewrite HP. cbn. apply Permutation_swap.
  - exists L. split; [done|]. by rewrite HP.
Qed.

(** The data of two windows is never the same block. *)
Lemma owned_disjoint rest st a p w b q v :
  heap_owned rest st (a ++ (p, w) :: b) → (q, v) ∈ a ++ b → owns_data w = true → owns_data v = true → wdata v ≠ wdata w.
Proof.
  intros [Hn _]%heap_owned_nodup Hin Hw Hv E. rewrite owned_middle in Hn. unfold blocks, data_blocks in Hn. cbn [fst snd] in Hn.
  rewrite Hw in Hn. cbn in Hn. apply NoDup_cons in Hn as [_ [Hn _]%NoDup_cons]. apply Hn, elem_of_app. left.
  apply list_elem_of_bind. exists (q, v). split; [|done]. unfold blocks, data_blocks. cbn [fst snd]. rewrite Hv, E. right. left.
Qed.

Lemma notepad_owns w : wtype w = WINDOW_TYPE_NOTEPAD → owns_data w = nz (wdata w).
Proof. intros E. unfold owns_data. rewrite E. cbn. by rewrite andb_true_r. Qed.

Lemma terminal_owns w : wtype w = WINDOW_TYPE_TERMINAL → owns_data w = nz (wdata w).
Proof. intros E. unfold owns_data. rewrite E. cbn. by rewrite andb_true_r. Qed.

Lemma text_after_free rest st a p w b :
  heap_owned rest st (a ++ (p, w) :: b) → Forall (has_text st) (a ++ b) →
  Forall (has_text (if owns_data w then free_data st (wdata w) else st)) (a ++ b).
Proof.
  intros Ho. rewrite !Forall_forall. intros Ht [q v] Hin Hty. specialize (Ht (q, v) Hin Hty). cbn [snd] in *.
  destruct (owns_data w) eqn:Ew; [|done]. cbn [notepads free_data u_notepads].
  rewrite lookup_delete_ne; [done|]. intros E. assert (owns_data v = true) as Ev.
  { rewrite notepad_owns, <-E by done. unfold owns_data in Ew. by destruct (nz (wdata w)). }
  by apply (owned_disjoint rest st a p w b q v Ho Hin Ew Ev).
Qed.

Lemma free_data_list st w :
  let st1 := if owns_data w then free_data st (wdata w) else st in
  windows st1 = windows st ∧ windows_head st1 = windows_head st ∧ windows_tail st1 = windows_tail st ∧ w_vga st1 = w_vga st ∧
  same_but_list st st1.
Proof. by destruct (owns_data w). Qed.

Lemma close_done rest st a p w b :
  repr st (a ++ (p, w) :: b) → heap_owned rest st (a ++ (p, w) :: b) → console_ok st (a ++ (p, w) :: b) →
  Forall (has_text st) (a ++ b) →
  ∃ st', wm_close_window default_terminal st p = Done st' ∧ wm_inv rest st' (a ++ b) ∧ same_but_list st st'.
Proof.
  intros Hr Ho Hc Ht. destruct (repr_lookup _ _ _ _ _ Hr) as [_ Hp0].
  unfold wm_close_window. rewrite (proj2 (Z.eqb_neq p 0) Hp0), (wget_repr _ _ _ _ _ Hr), outcome_bind_done.
  change (owns_data (link (final 0 a) (first 0 b) w)) with (owns_data w).
  change (wtype (link (final 0 a) (first 0 b) w)) with (wtype w).
  change (wdata (link (final 0 a) (first 0 b) w)) with (wdata w).
  destruct (free_data_list st w) as (Ew & Eh & Etl & Ev & Esame).
  pose proof (free_data_owned rest st a p w b Ho) as (L & Hh & HP).
  pose proof (text_after_free rest st a p w b Ho Ht) as Ht1.
  set (st1 := if owns_data w then free_data st (wdata w) else st) in *. clearbody st1. cbv zeta in *.
  assert (repr st1 (a ++ (p, w) :: b)) as Hr1 by (unfold repr; by rewrite Ew, Eh, Etl).
  destruct (unlink_done _ _ _ _ _ Hr1) as (ws & -> & Hs & Hw & Hdom). rewrite outcome_bind_done.
  assert (wget (u_windows ws st1) p = Done (link (final 0 a) (first 0 b) w)) as ->
    by (unfold wget; cbn [windows u_windows]; by rewrite Hw).
  rewrite outcome_bind_done. change (wprev (link (final 0 a) (first 0 b) w)) with (final 0 a).
  change (wnext (link (final 0 a) (first 0 b) w)) with (first 0 b).
  set (hd := if p =? windows_head st1 then first 0 b else windows_head st1).
  set (tl := if p =? windows_tail st1 then final 0 a else windows_tail st1).
  set (st2 := free_window _ p).
  assert (st2 = u_heap (hfree (w_heap st1) p) (u_list (delete p ws) hd tl st1)) as ->.
  { unfold st2, hd, tl. cbn [windows_head u_windows]. destruct (p =? windows_head st1);
      cbn [windows_tail u_head u_windows]; by destruct (p =? windows_tail st1). }
  pose proof (repr_remove _ _ _ _ _ _ Hr1 Hs Hdom) as Hz.
  set (st3 := u_heap (hfree (w_heap st1) p) (u_list (delete p ws) hd tl st1)).
  assert (repr st3 (a ++ b)) as Hr3 by exact Hz.
  assert (heap_owned rest st3 (a ++ b)) as Ho3 by (by apply (heap_free_owned _ L)).
  assert (same_but_list st st3) as Hs3 by exact Esame.
  destruct (bool_decide (wtype w = WINDOW_TYPE_TERMINAL) && nz (wdata w) && (terminal_get_active (w_vga st) =? wdata w)) eqn:Ec.
  - destruct (activate_done st3 (a ++ b) (windows_head st3) Hr3) as (v & Ea & Hcv).
    { rewrite (zl_head _ _ _ _ Hr3). destruct (decide (a ++ b = [])) as [->|Hne]; [by left|right; by apply first_in]. }
    exists (u_vga v st3). split; [done|]. split; [by constructor|done].
  - exists st3. split; [done|]. split; [|done]. constructor; try done.
    destruct Hc as [Hc|(q & v & Hin & Hsh)]; [left; cbn; by rewrite Ev|]. right. cbn [w_vga st3 u_heap u_list u_tail u_head u_windows].
    rewrite Ev. exists q, v. split; [|done]. apply elem_of_app in Hin as [?|[E|?]%elem_of_cons]; [apply elem_of_app; by left| |
      apply elem_of_app; by right].
    exfalso. injection E as -> ->. destruct Hsh as (E1 & E2 & E3). unfold terminal_get_active in Ec.
    rewrite E1, E2, Z.eqb_refl, (proj2 (nz_true _) E3) in Ec. done.
Qed.

(** *** Raising and changing a window *)

Lemma owned_raise rest st st' a p w b :
  w_heap st' = w_heap st → heap_owned rest st (a ++ (p, w) :: b) → heap_owned rest st' ((p, w) :: a ++ b).
Proof.
  intros E (L & Hh & HP). exists L. rewrite E. split; [done|]. rewrite HP, owned_middle. by rewrite owned_cons.
Qed.

Lemma console_mono st st' l l' :
  w_vga st' = w_vga st → (∀ x, x ∈ l → x ∈ l') → console_ok st l → console_ok st' l'.
Proof. intros E Hl [Hc|(q & v & Hin & Hs)]; unfold console_ok; rewrite E; [by left|]. right. exists q, v. auto. Qed.

Lemma text_mono st st' l l' :
  notepads st' = notepads st → (∀ x, x ∈ l' → x ∈ l) → Forall (has_text st) l → Forall (has_text st') l'.
Proof.
  intros E Hl. rewrite !Forall_forall. intros Ht x Hx Hty. rewrite E. by apply (Ht x (Hl x Hx)).
Qed.

Lemma elem_of_raise {A} (x y : A) a b : x ∈ y :: a ++ b ↔ x ∈ a ++ y :: b.
Proof. rewrite elem_of_cons, !elem_of_app, elem_of_cons. tauto. Qed.

Lemma raise_inv rest st a p w b :
  wm_inv rest st (a ++ (p, w) :: b) →
  ∃ ws hd tl, wm_bring_to_front st p = Done (u_list ws hd tl st) ∧ wm_inv rest (u_list ws hd tl st) ((p, w) :: a ++ b).
Proof.
  intros [Hr Ho Hc Ht]. destruct (bring_to_front_done _ _ _ _ _ Hr) as (ws & hd & tl & E & Hr').
  exists ws, hd, tl. split; [done|]. constructor; [done| | |].
  - by apply (owned_raise rest st).
  - apply (console_mono st _ (a ++ (p, w) :: b)); [done| |done]. intros x. apply elem_of_raise.
  - apply (text_mono st _ (a ++ (p, w) :: b)); [done| |done]. intros x. apply elem_of_raise.
Qed.

(** An update of anything but links, type and data. *)
Definition mild (f : window_t → window_t) : Prop :=
  (∀ x y v, f (link x y v) = link x y (f v)) ∧ ∀ v, wtype (f v) = wtype v ∧ wdata (f v) = wdata v.

Lemma mild_blocks f p w : mild f → blocks (p, f w) = blocks (p, w).
Proof. intros [_ Hf]. destruct (Hf w) as [E1 E2]. unfold blocks, data_blocks, owns_data. cbn [fst snd]. by rewrite E1, E2. Qed.

Lemma upd_inv rest st a p w b f :
  mild f → wm_inv rest st (a ++ (p, w) :: b) →
  ∃ ws, wupd st p f = Done (u_windows ws st) ∧ wm_inv rest (u_windows ws st) (a ++ (p, f w) :: b).
Proof.
  intros Hf [Hr Ho Hc Ht]. destruct (repr_upd _ _ _ _ _ f (proj1 Hf) Hr) as (ws & E & Hr').
  exists ws. split; [done|]. destruct (proj2 Hf w) as [E1 E2]. constructor; [done| | |].
  - destruct Ho as (L & Hh & HP). exists L. split; [done|]. rewrite HP, !owned_middle. by rewrite mild_blocks.
  - destruct Hc as [Hc|(q & v & Hin & Hs)]; [by left|right].
    apply elem_of_app in Hin as [Hin|[Eq|Hin]%elem_of_cons].
    + exists q, v. split; [apply elem_of_app; by left|done].
    + injection Eq as -> ->. exists p, (f w). split; [apply elem_of_app; right; left|].
      unfold shows_terminal in *. by rewrite E1, E2.
    + exists q, v. split; [apply elem_of_app; right; by right|done].
  - apply Forall_app in Ht as [H1' [H2' H3']%Forall_cons]. apply Forall_app. split; [done|]. apply Forall_cons. split; [|done].
    unfold has_text in *. cbn [snd] in *. by rewrite E1, E2.
Qed.

(** *** Opening *)

(** A state that is consistent but for the data of its newest window. *)
Lemma open_done rest st l x y w h t name :
  wm_inv rest st l →
  ∃ q st', wm_open x y w h t name st = Done (q, st') ∧ same_but_list st st' ∧ w_vga st' = w_vga st ∧
    notepads st' = notepads st ∧
    ((q = 0 ∧ wm_inv rest st' l) ∨
     (q ≠ 0 ∧ q ∉ l.*1 ∧ let l' := (q, opened x y w h t name zero_window) :: l in
      repr st' l' ∧ heap_owned rest st' l' ∧ console_ok st' l' ∧ Forall (has_text st') l)).
Proof.
  intros [Hr Ho Hc Ht]. unfold wm_open.
  destruct (halloc (w_heap st) sizeof_window) as [q hp] eqn:E.
  destruct (heap_alloc_owned rest st l sizeof_window q hp Ho ltac:(done) E) as [Hq Hal].
  pose proof (alloc_window_done st l q hp Hr E) as HA.
  assert (q ∉ l.*1) as Hql by (intros ?; by apply Hq, owned_addr). specialize (HA Hql).
  destruct (Z.eqb_spec q 0) as [->|Hq0].
  - rewrite HA, outcome_bind_done. cbn [Z.eqb]. exists 0, (u_heap hp st). split_and!; try done. left. split; [done|]. by constructor.
  - destruct HA as (ws & tl & -> & Hr1). rewrite outcome_bind_done. rewrite (proj2 (Z.eqb_neq q 0) Hq0).
    set (st1 := u_list ws q tl (u_heap hp st)) in *.
    destruct (repr_upd st1 [] q zero_window l (opened x y w h t name)) as (ws' & -> & Hr2); [done|done|].
    rewrite outcome_bind_done. exists q, (u_windows ws' st1). split_and!; try done. right. cbv zeta. split_and!; try done.
    apply (console_mono st _ l); [done| |done]. intros z Hz. by right.
Qed.

(** What an action opens. *)
Definition action_window (a : action) : window_t :=
  match a with
  | OpenTerminal => opened 60 60 660 420 WINDOW_TYPE_TERMINAL (str_bytes "Khazar Terminal") zero_window
  | OpenFiles => opened 150 130 460 380 WINDOW_TYPE_FILES (str_bytes "Fayllar") zero_window
  | OpenSettings => opened 220 160 420 320 WINDOW_TYPE_SETTINGS (str_bytes "Ayarlar") zero_window
  | OpenNotepad => opened 200 100 500 400 WINDOW_TYPE_NOTEPAD (str_bytes "Khazar Notepad") zero_window
  | OpenAbout => opened 260 210 420 240 WINDOW_TYPE_ABOUT (str_bytes "Hakkinda") zero_window
  end.

(** An action opens one window in front, or memory is short and nothing opens. *)
Definition opens (a : action) (l l' : zorder) : Prop :=
  l' = l ∨ ∃ q d, q ∉ l.*1 ∧ l' = (q, set_data d (action_window a)) :: l.

Lemma set_data_0 a : set_data 0 (action_window a) = action_window a.
Proof. by destruct a. Qed.

(** The actions whose windows have no data. *)
Lemma plain_open rest st l x y w h t name a :
  action_window a = opened x y w h t name zero_window → wtype (action_window a) ≠ WINDOW_TYPE_NOTEPAD →
  wm_inv rest st l →
  ∃ st' l', ('(_, s) ← wm_open x y w h t name st; Done s) = Done st' ∧ wm_inv rest st' l' ∧ opens a l l' ∧ same_but_list st st'.
Proof.
  intros Ea Ht Hi. destruct (open_done rest st l x y w h t name Hi) as (q & st' & -> & Hs & _ & _ & Hc).
  rewrite outcome_bind_done. exists st'. destruct Hc as [[-> Hi']|(Hq0 & Hq & Hr & Ho & Hc & Htx)].
  - exists l. split_and!; try done. by left.
  - exists ((q, opened x y w h t name zero_window) :: l). split_and!; try done.
    + constructor; try done. constructor; [|done]. intros E. rewrite <-Ea in E. done.
    + right. exists q, 0. split; [done|]. by rewrite set_data_0, Ea.
Qed.

(** Giving the newest window its data, whose block is new. *)
Lemma owned_data rest st q w l d L h :
  wtype w = WINDOW_TYPE_TERMINAL ∨ wtype w = WINDOW_TYPE_NOTEPAD → wdata w = 0 → d ≠ 0 →
  holds h L → L ≡ₚ d :: owned ((q, w) :: l) ++ rest → w_heap st = h → heap_owned rest st ((q, set_data d w) :: l).
Proof.
  intros Ht Hd Hd0 Hh HP E. exists L. rewrite E. split; [done|]. rewrite HP, !owned_cons.
  unfold blocks, data_blocks, owns_data. cbn [fst snd wdata wtype set_data]. rewrite Hd, (proj2 (nz_true d) Hd0).
  assert (bool_decide (wtype w = WINDOW_TYPE_NOTEPAD) || bool_decide (wtype w = WINDOW_TYPE_TERMINAL) = true) as ->
    by (destruct Ht as [-> | ->]; done).
  cbn. apply Permutation_swap.
Qed.

Lemma open_notepad_done rest st l :
  wm_inv rest st l →
  ∃ st' l', wm_open_notepad st = Done st' ∧ wm_inv rest st' l' ∧ opens OpenNotepad l l' ∧ same_but_list st st'.
Proof.
  intros Hi. unfold wm_open_notepad.
  destruct (open_done rest st l 200 100 500 400 WINDOW_TYPE_NOTEPAD (str_bytes "Khazar Notepad") Hi)
    as (q & st1 & -> & Hs & _ & _ & Hc). rewrite outcome_bind_done.
  destruct Hc as [[-> Hi']|(Hq0 & Hq & Hr & Ho & Hc & Htx)].
  { exists st1, l. split_and!; try done. by left. }
  rewrite (proj2 (Z.eqb_neq q 0) Hq0).
  change (opened 200 100 500 400 WINDOW_TYPE_NOTEPAD (str_bytes "Khazar Notepad") zero_window) with (action_window OpenNotepad) in *.
  destruct (halloc (w_heap st1) sizeof_notepad) as [d hp] eqn:E.
  destruct (heap_alloc_owned rest st1 _ sizeof_notepad d hp Ho ltac:(done) E) as [Hd Hal].
  set (st2 := u_notepads _ (u_heap hp st1)).
  assert (repr st2 ([] ++ (q, action_window OpenNotepad) :: l)) as Hr2 by done.
  destruct (repr_upd st2 [] q (action_window OpenNotepad) l (set_data d)) as (ws & -> & Hr3); [done|done|].
  exists (u_windows ws st2), ((q, set_data d (action_window OpenNotepad)) :: l). split; [done|]. split; [|split; [|done]].
  - constructor; [done| | |].
    + destruct (Z.eqb_spec d 0) as [->|Hd0]; [by rewrite set_data_0|]. destruct Hal as (L & Hh & HP).
      apply (owned_data rest _ q (action_window OpenNotepad) l d L hp); try done. by right.
    + destruct Hc as [Hc|(q' & v & [Eq|Hin]%elem_of_cons & Hsh)]; [by left| |].
      * injection Eq as -> ->. destruct Hsh as (Ety & _). done.
      * right. exists q', v. split; [by right|done].
    + constructor; [intros _; cbn; rewrite lookup_insert_eq; eauto|]. revert Htx. rewrite !Forall_forall. intros Htx y Hy Hty.
      cbn [notepads u_windows st2 u_notepads u_heap]. destruct (decide (wdata y.2 = d)) as [->|Hn]; [rewrite lookup_insert_eq; eauto|].
      rewrite lookup_insert_ne by done. by apply (Htx y Hy).
  - right. exists q, d. done.
Qed.

Lemma open_terminal_done rest st l :
  wm_inv rest st l →
  ∃ st' l', wm_open_terminal default_terminal st = Done st' ∧ wm_inv rest st' l' ∧ opens OpenTerminal l l' ∧ same_but_list st st'.
Proof.
  intros Hi. unfold wm_open_terminal.
  destruct (open_done rest st l 60 60 660 420 WINDOW_TYPE_TERMINAL (str_bytes "Khazar Terminal") Hi)
    as (q & st1 & -> & Hs & _ & _ & Hc). rewrite outcome_bind_done.
  destruct Hc as [[-> Hi']|(Hq0 & Hq & Hr & Ho & Hc & Htx)].
  { exists st1, l. split_and!; try done. by left. }
  rewrite (proj2 (Z.eqb_neq q 0) Hq0).
  change (opened 60 60 660 420 WINDOW_TYPE_TERMINAL (str_bytes "Khazar Terminal") zero_window) with (action_window OpenTerminal) in *.
  destruct (halloc (w_heap st1) sizeof_terminal) as [d hp] eqn:E.
  destruct (heap_alloc_owned rest st1 _ sizeof_terminal d hp Ho ltac:(done) E) as [Hd Hal].
  destruct (Z.eqb_spec d 0) as [->|Hd0].
  { destruct (close_done rest (u_heap hp st1) [] q (action_window OpenTerminal) l) as (st' & -> & Hi' & Hs'); try done.
    exists st', l. split_and!; try done; [by left|]. destruct Hs as (?&?&?&?&?&?), Hs' as (?&?&?&?&?&?). split_and!; etrans; eassumption || done. }
  set (st2 := u_vga _ (u_heap hp st1)).
  assert (repr st2 ([] ++ (q, action_window OpenTerminal) :: l)) as Hr2 by done.
  destruct (repr_upd st2 [] q (action_window OpenTerminal) l (set_data d)) as (ws & -> & Hr3); [done|done|].
  rewrite outcome_bind_done. cbn [app] in Hr3.
  destruct (activate_done (u_windows ws st2) _ q Hr3) as (v & -> & Hcv); [right; left|].
  exists (u_vga v (u_windows ws st2)), ((q, set_data d (action_window OpenTerminal)) :: l).
  split; [done|]. split; [|split; [right; by exists q, d|done]]. constructor; [done| |done|].
  - destruct Hal as (L & Hh & HP). apply (owned_data rest _ q (action_window OpenTerminal) l d L hp); try done. by left.
  - by constructor.
Qed.

Lemma action_done rest a st l :
  wm_inv rest st l →
  ∃ st' l', run_action default_terminal a st = Done st' ∧ wm_inv rest st' l' ∧ opens a l l' ∧ same_but_list st st'.
Proof.
  intros Hi. destruct a; cbn [run_action].
  - by apply open_terminal_done.
  - by eapply plain_open.
  - by eapply plain_open.
  - by apply open_notepad_done.
  - by eapply plain_open.
Qed.

(** ** The operations as operations of the z-order *)

(** Calls of the functions that change the list, on pointers to open windows. *)
Inductive zop := ZOpen (a : action) | ZRaise (p : Z) | ZClose (p : Z) | ZMaximize (p : Z) | ZMinimize (p : Z).

Definition on_window st (p : Z) (f : wm H D → Z → outcome (wm H D)) : outcome (wm H D) :=
  match windows st !! p with Some _ => f st p | None => Done st end.

Definition run_zop (vbe : vbe_info) st (o : zop) : outcome (wm H D) :=
  match o with
  | ZOpen a => run_action default_terminal a st
  | ZRaise p => on_window st p wm_bring_to_front
  | ZClose p => on_window st p (wm_close_window default_terminal)
  | ZMaximize p => on_window st p (wm_maximize_window vbe)
  | ZMinimize p => on_window st p wm_minimize_window
  end.

Fixpoint run_zops (vbe : vbe_info) st (os : list zop) : outcome (wm H D) :=
  match os with [] => Done st | o :: os' => st ← run_zop vbe st o; run_zops vbe st os' end.

(** Their specification. *)
Definition zchange (p : Z) (l l' : zorder) (f : zorder → window_t → zorder → zorder) : Prop :=
  (p ∉ l.*1 ∧ l' = l) ∨ ∃ a w b, l = a ++ (p, w) :: b ∧ l' = f a w b.

Definition zspec (vbe : vbe_info) (o : zop) (l l' : zorder) : Prop :=
  match o with
  | ZOpen a => opens a l l'
  | ZRaise p => zchange p l l' (λ a w b, (p, w) :: a ++ b)
  | ZClose p => zchange p l l' (λ a w b, a ++ b)
  | ZMaximize p => zchange p l l' (λ a w b, a ++ (p, maximized vbe w) :: b)
  | ZMinimize p => zchange p l l' (λ a w b, a ++ (p, set_shown false true w) :: b)
  end.

Inductive zruns (vbe : vbe_info) : zorder → list zop → zorder → Prop :=
  | zruns_nil l : zruns vbe l [] l
  | zruns_cons l1 l2 l3 o os : zspec vbe o l1 l2 → zruns vbe l2 os l3 → zruns vbe l1 (o :: os) l3.

Lemma on_window_done rest st l p f (g : zorder → window_t → zorder → zorder) :
  wm_inv rest st l →
  (∀ a w b, l = a ++ (p, w) :: b → ∃ st', f st p = Done st' ∧ wm_inv rest st' (g a w b)) →
  ∃ st' l', on_window st p f = Done st' ∧ wm_inv rest st' l' ∧ zchange p l l' g.
Proof.
  intros Hi Hf. unfold on_window. destruct (windows st !! p) as [v|] eqn:E.
  - assert (p ∈ l.*1) as ([q w] & -> & Hin)%list_elem_of_fmap by (apply (repr_addr_in _ _ _ (wi_repr _ _ _ Hi)); eauto).
    apply list_elem_of_split in Hin as (a & b & ->). destruct (Hf a w b eq_refl) as (st' & -> & Hi').
    exists st', (g a w b). split_and!; try done. right. by exists a, w, b.
  - exists st, l. split_and!; try done. left. split; [|done]. intros Hin.
    destruct (wseg_nonzero _ _ _ _ _ (zl_seg _ _ _ _ (wi_repr _ _ _ Hi)) Hin) as [_ [? ?]]. congruence.
Qed.

Lemma maximized_mild vbe : mild (maximized vbe).
Proof. split; intros; unfold maximized; [cbn|]; by destruct (is_maximized v). Qed.

Lemma shown_mild x y : mild (set_shown x y).
Proof. done. Qed.

Lemma close_inv rest st a p w b :
  wm_inv rest st (a ++ (p, w) :: b) →
  ∃ st', wm_close_window default_terminal st p = Done st' ∧ wm_inv rest st' (a ++ b) ∧ same_but_list st st'.
Proof.
  intros [Hr Ho Hc Ht]. apply (close_done rest st a p w b); try done.
  apply Forall_app in Ht as [? [_ ?]%Forall_cons]. by apply Forall_app.
Qed.

Lemma nonzero_in rest st a p w b : wm_inv rest st (a ++ (p, w) :: b) → p =? 0 = false.
Proof. intros Hi. apply Z.eqb_neq. by destruct (repr_lookup _ _ _ _ _ (wi_repr _ _ _ Hi)). Qed.

Lemma run_zop_done vbe rest o st l :
  wm_inv rest st l → ∃ st' l', run_zop vbe st o = Done st' ∧ wm_inv rest st' l' ∧ zspec vbe o l l'.
Proof.
  intros Hi. destruct o as [a|p|p|p|p]; cbn [run_zop zspec].
  - destruct (action_done rest a st l Hi) as (st' & l' & ? & ? & ? & _). eauto 10.
  - apply (on_window_done rest _ _ _ _ (λ a w b, (p, w) :: a ++ b) Hi). intros a w b ->.
    destruct (raise_inv _ _ _ _ _ _ Hi) as (? & ? & ? & ? & ?). eauto.
  - apply (on_window_done rest _ _ _ _ (λ a w b, a ++ b) Hi). intros a w b ->.
    destruct (close_inv _ _ _ _ _ _ Hi) as (? & ? & ? & _). eauto.
  - apply (on_window_done rest _ _ _ _ (λ a w b, a ++ (p, maximized vbe w) :: b) Hi). intros a w b ->.
    unfold wm_maximize_window. rewrite (nonzero_in _ _ _ _ _ _ Hi).
    destruct (upd_inv _ _ _ _ _ _ _ (maximized_mild vbe) Hi) as (? & ? & ?). eauto.
  - apply (on_window_done rest _ _ _ _ (λ a w b, a ++ (p, set_shown false true w) :: b) Hi). intros a w b ->.
    unfold wm_minimize_window. rewrite (nonzero_in _ _ _ _ _ _ Hi).
    destruct (upd_inv _ _ _ _ _ _ _ (shown_mild false true) Hi) as (? & ? & ?). eauto.
Qed.

(** C19: Any sequence of opening, raising, closing, maximizing and minimizing runs without
    touching a freed window and is the same sequence on the z-order, a plain list.  The
    windows and their data are exactly what they hold of the heap at every moment (no leak, no
    double free), the console is never on a terminal that was freed, and every notepad has
    its text. *)
Theorem wm_windows_refine vbe rest os st l :
  wm_inv rest st l →
  ∃ st' l', run_zops vbe st os = Done st' ∧ zruns vbe l os l' ∧ wm_inv rest st' l'.
Proof.
  revert st l. induction os as [|o os IH]; intros st l Hi; cbn [run_zops].
  - exists st, l. split_and!; try done. constructor.
  - destruct (run_zop_done vbe rest o st l Hi) as (st1 & l1 & -> & Hi1 & Hz). rewrite outcome_bind_done.
    destruct (IH st1 l1 Hi1) as (st2 & l2 & -> & Hz2 & Hi2). exists st2, l2. split_and!; try done. by econstructor.
Qed.
End invariant.
