(* ===== verification/WmEvents.v ===== *)
(** * core/gui/wm.c: what the window manager does with events

    The theorems about [wm_update] of Wm.v: which window a click reaches and what it does to
    it, that a queue of events is processed completely without touching a freed window, what
    a notepad holds after typing, and where a dragged window is. *)

From S2P Require Import Prelude Queues Kheap Process Serial Vga Gfx Wm.
Import Events Tty.

(** ** Clicks *)

(** The topmost visible window with a part at the point: what is in front of it, the window,
    what is behind, and the part. *)
Fixpoint topmost (l : zorder) (mx my : Z) : option (zorder * (Z * window_t) * zorder * part) :=
  match l with
  | [] => None
  | x :: l' =>
      match (if is_visible x.2 then hit_part x.2 mx my else None) with
      | Some r => Some ([], x, l', r)
      | None => match topmost l' mx my with Some (a, y, b, r) => Some (x :: a, y, b, r) | None => None end
      end
  end.

Lemma topmost_split l mx my a x b r : topmost l mx my = Some (a, x, b, r) → l = a ++ x :: b.
Proof.
  revert a. induction l as [|y l IH]; intros a; [done|]. cbn [topmost].
  destruct (if is_visible y.2 then _ else _) as [r'|]; [by intros [= <- <- <- <-]|].
  destruct (topmost l mx my) as [[[[a' x'] b'] r']|]; [|done]. intros [= <- <- <- <-]. cbn. f_equal. by apply IH.
Qed.

(** What a click on part [r] of the window [w] at [p] makes of the z-order and of the window
    being moved. *)
Definition zclick (vbe : vbe_info) (a : zorder) (p : Z) (w : window_t) (b : zorder) (r : part) (mx my active : Z) : zorder * Z :=
  match r with
  | CloseButton => (a ++ b, active)
  | MaximizeButton => (a ++ (p, maximized vbe w) :: b, active)
  | MinimizeButton => (a ++ (p, set_shown false true w) :: b, active)
  | ResizeCorner =>
      if is_maximized w then ((p, w) :: a ++ b, active)
      else ((p, set_grab (is_dragging w) true w) :: a ++ b, p)
  | TitleBar =>
      if is_maximized w then ((p, w) :: a ++ b, active)
      else ((p, set_drag_off (mx - wx w) (my - wy w) (set_grab true (is_resizing w) w)) :: a ++ b, p)
  | Body => ((p, w) :: a ++ b, active)
  end.

Section events.
Context {H D : Type} `{HeapAlloc H} `{PortIO D}.
Context {holds : H → list Z → Prop} `{Laws : !HeapAllocLaws H holds}.
Variable default_terminal : Z.
Implicit Types st : wm H D.
Notation wm_inv := (wm_inv (holds := holds) default_terminal).

Lemma inv_congr rest st st' l :
  w_heap st' = w_heap st → w_vga st' = w_vga st → windows st' = windows st → notepads st' = notepads st →
  windows_head st' = windows_head st → windows_tail st' = windows_tail st → wm_inv rest st l → wm_inv rest st' l.
Proof.
  intros E1 E2 E3 E4 E5 E6 [Hr Ho Hc Ht]. constructor.
  - unfold repr. by rewrite E3, E5, E6.
  - unfold heap_owned. by rewrite E1.
  - unfold console_ok. by rewrite E2.
  - by apply (text_mono st _ l).
Qed.

Lemma inv_active rest st l p : wm_inv rest st l → wm_inv rest (u_active p st) l.
Proof. by apply inv_congr. Qed.
Lemma inv_menu rest st l m : wm_inv rest st l → wm_inv rest (u_menu m st) l.
Proof. by apply inv_congr. Qed.
Lemma inv_events rest st l e : wm_inv rest st l → wm_inv rest (u_events e st) l.
Proof. by apply inv_congr. Qed.
Lemma inv_tty rest st l t : wm_inv rest st l → wm_inv rest (u_tty t st) l.
Proof. by apply inv_congr. Qed.
Lemma inv_icons rest st l i n : wm_inv rest st l → wm_inv rest (u_icons i n st) l.
Proof. by apply inv_congr. Qed.

Lemma activate_inv rest st l p :
  wm_inv rest st l → p = 0 ∨ p ∈ l.*1 →
  ∃ v, wm_activate_terminal default_terminal st p = Done (u_vga v st) ∧ wm_inv rest (u_vga v st) l.
Proof.
  intros [Hr Ho Hc Ht] Hp. destruct (activate_done default_terminal st l p Hr Hp) as (v & E & Hc').
  exists v. split; [done|]. by constructor.
Qed.

Lemma wget_front rest st p w l : wm_inv rest st ((p, w) :: l) → wget st p = Done (link 0 (first 0 l) w).
Proof. intros Hi. apply (wget_repr st [] p w l). apply Hi. Qed.

(** The grab that a press on the corner or on the title bar starts. *)
Lemma grab_front rest st p w l f :
  mild f → wm_inv rest st ((p, w) :: l) →
  ∃ ws, (s ← wupd st p f; Done (u_active p s)) = Done (u_active p (u_windows ws st)) ∧
    wm_inv rest (u_active p (u_windows ws st)) ((p, f w) :: l).
Proof.
  intros Hf Hi. destruct (upd_inv default_terminal rest st [] p w l f Hf Hi) as (ws & -> & Hi').
  exists ws. split; [done|]. by apply inv_active.
Qed.

Lemma moved_mild x y : mild (moved x y).
Proof. split; intros; unfold moved; [cbn|]; by destruct (is_dragging v), (is_resizing v). Qed.
Lemma drag_mild mx my : mild (λ w, set_drag_off (mx - wx w) (my - wy w) (set_grab true (is_resizing w) w)).
Proof. done. Qed.
Lemma size_mild : mild (λ w, set_grab (is_dragging w) true w).
Proof. done. Qed.

(** What a click on a window does not touch. *)
Definition same_desk st st' : Prop :=
  w_tty st' = w_tty st ∧ w_events st' = w_events st ∧ desktop_menu st' = desktop_menu st ∧
  desktop_icons st' = desktop_icons st ∧ desktop_icon_count st' = desktop_icon_count st.

Lemma click_part_done vbe rest st a p w b r mx my :
  wm_inv rest st (a ++ (p, w) :: b) →
  let '(l', act) := zclick vbe a p w b r mx my (active_window st) in
  ∃ st', click_part default_terminal vbe st p r mx my = Done st' ∧ wm_inv rest st' l' ∧ active_window st' = act ∧ same_desk st st'.
Proof.
  intros Hi. destruct (raise_inv _ _ _ _ _ _ _ Hi) as (ws & hd & tl & Eb & Hib). destruct r; cbn [zclick click_part].
  - destruct (close_inv _ _ _ _ _ _ _ Hi) as (st' & ? & ? & ? & ? & ? & ? & ?). by exists st'.
  - unfold wm_maximize_window. rewrite (nonzero_in _ _ _ _ _ _ _ Hi).
    destruct (upd_inv _ _ _ _ _ _ _ _ (maximized_mild vbe) Hi) as (? & ? & ?). eexists. by split_and!.
  - unfold wm_minimize_window. rewrite (nonzero_in _ _ _ _ _ _ _ Hi).
    destruct (upd_inv _ _ _ _ _ _ _ _ (shown_mild false true) Hi) as (? & ? & ?). eexists. by split_and!.
  - rewrite Eb, outcome_bind_done, (wget_front _ _ _ _ _ Hib), outcome_bind_done.
    change (is_maximized (link 0 (first 0 (a ++ b)) w)) with (is_maximized w).
    destruct (is_maximized w); [eexists; by split_and!|].
    destruct (grab_front _ _ _ _ _ _ size_mild Hib) as (ws' & -> & Hi'). eexists. by split_and!.
  - destruct (activate_inv rest _ _ p Hib) as (v & Ev & Hiv); [right; left|].
    rewrite Eb, outcome_bind_done, Ev, outcome_bind_done, (wget_front _ _ _ _ _ Hiv), outcome_bind_done.
    change (is_maximized (link 0 (first 0 (a ++ b)) w)) with (is_maximized w).
    destruct (is_maximized w); [eexists; by split_and!|].
    destruct (grab_front _ _ _ _ _ _ (drag_mild mx my) Hiv) as (ws' & -> & Hi'). eexists. by split_and!.
  - destruct (activate_inv rest _ _ p Hib) as (v & Ev & Hiv); [right; left|].
    rewrite Eb, outcome_bind_done, Ev. eexists. by split_and!.
Qed.

(** The walk over the windows finds the topmost one. *)
Lemma click_walk vbe rest st mx my l2 : ∀ fuel l1,
  wm_inv rest st (l1 ++ l2) → (length l2 <= fuel)%nat →
  click_windows default_terminal fuel vbe st (first 0 l2) mx my =
    match topmost l2 mx my with
    | Some (_, (p, _), _, r) => s ← click_part default_terminal vbe st p r mx my; Done (true, s)
    | None => Done (false, st)
    end.
Proof.
  induction l2 as [|[p w] l2 IH]; intros fuel l1 Hi Hf; [by destruct fuel|]. destruct fuel as [|fuel]; [cbn in Hf; lia|].
  change (first 0 ((p, w) :: l2)) with p. cbn [click_windows]. rewrite (nonzero_in _ _ _ _ _ _ _ Hi).
  rewrite (wget_repr st l1 p w l2), outcome_bind_done by apply Hi. cbn [topmost snd].
  change (is_visible (link (final 0 l1) (first 0 l2) w)) with (is_visible w).
  change (hit_part (link (final 0 l1) (first 0 l2) w) mx my) with (hit_part w mx my).
  change (wnext (link (final 0 l1) (first 0 l2) w)) with (first 0 l2).
  assert (wm_inv rest st ((l1 ++ [(p, w)]) ++ l2)) as Hi' by (by rewrite <-app_assoc).
  specialize (IH fuel _ Hi' ltac:(cbn in Hf; lia)). rewrite IH.
  destruct (is_visible w); cbn [negb]; [destruct (hit_part w mx my); [done|]|]; by destruct (topmost l2 mx my) as [[[[? []] ?] ?]|].
Qed.

Lemma repr_fuel st l : repr st l → (length l <= windows_fuel st)%nat.
Proof.
  intros [Hs _ _ Hn _]. unfold windows_fuel. rewrite <-(length_fmap fst), <-(size_list_to_set (C := gset Z)) by done.
  apply Nat.le_le_succ_r. rewrite <-(size_dom (D := gset Z)). apply subseteq_size. intros p. rewrite elem_of_list_to_set. intros Hp.
  apply elem_of_dom. by destruct (wseg_nonzero _ _ _ _ _ Hs Hp).
Qed.

Lemma fuel_enough rest st l : wm_inv rest st l → (length l <= windows_fuel st)%nat.
Proof. intros [Hr _ _ _]. by apply repr_fuel. Qed.

Lemma same_but_list_refl st : same_but_list st st.
Proof. done. Qed.

Lemma icons_done rest mx my st l : wm_inv rest st l → ∀ n i,
  ∃ st' l', click_icons default_terminal n i st mx my = Done st' ∧ wm_inv rest st' l' ∧ same_but_list st st' ∧
    (l' = l ∨ ∃ a, opens a l l').
Proof.
  intros Hi n. induction n as [|n IH]; intros i; cbn [click_icons].
  { exists st, l. split_and!; auto using same_but_list_refl. }
  destruct (on_icon _ mx my); [|apply IH].
  destruct (action_done default_terminal rest (icon_action (desktop_icons st).[i]) st l Hi) as (st' & l' & E & Hi' & Ho & Hs).
  exists st', l'. split_and!; eauto.
Qed.

(** C21: A click, not with the right button and with the menu closed, reaches the topmost visible window with a part under the
    pointer, and only that one: its buttons close, maximize or minimize it where it is, its
    corner and its title bar raise it and, unless it is maximized, start resizing or moving
    it, the rest of it raises it.  When no window is under the pointer the windows stay as
    they are but for the one that an icon there opens. *)
Theorem click_reaches_topmost vbe rest st l button mx my :
  wm_inv rest st l → menu_visible (desktop_menu st) = false → button ≠ 2 →
  match topmost l mx my with
  | Some (a, (p, w), b, r) =>
      l = a ++ (p, w) :: b ∧
      let '(l', act) := zclick vbe a p w b r mx my (active_window st) in
      ∃ st', handle_click default_terminal vbe st button mx my = Done st' ∧ wm_inv rest st' l' ∧ active_window st' = act
  | None =>
      ∃ st' l', handle_click default_terminal vbe st button mx my = Done st' ∧ wm_inv rest st' l' ∧
        active_window st' = active_window st ∧ (l' = l ∨ ∃ a, opens a l l')
  end.
Proof.
  intros Hi Hm Hb. unfold handle_click, click_menu. rewrite Hm, outcome_bind_done, (proj2 (Z.eqb_neq button 2) Hb).
  pose proof (click_walk vbe rest st mx my l (windows_fuel st) [] Hi (fuel_enough _ _ _ Hi)) as Hw.
  rewrite (zl_head _ _ _ _ (wi_repr _ _ _ _ Hi)), Hw. clear Hw.
  destruct (topmost l mx my) as [[[[a [p w]] b] r]|] eqn:Et.
  - apply topmost_split in Et as ->. split; [done|]. pose proof (click_part_done vbe rest st a p w b r mx my Hi) as HC.
    destruct (zclick vbe a p w b r mx my (active_window st)) as [l' act]. destruct HC as (st' & -> & Hi' & Ha & _).
    exists st'. by split_and!.
  - rewrite outcome_bind_done. destruct (icons_done rest mx my st l Hi (Z.to_nat (desktop_icon_count st)) 0)
      as (st' & l' & E & Hi' & Ha & Ho). exists st', l'. destruct Ha as (_ & _ & Ha & _). by split_and!.
Qed.


(** ** A whole queue *)

(** A press of the left button comes with no press outstanding; releasing any button ends
    the press. *)
Definition held_by (held : bool) (ev : event_t) : bool :=
  match type ev with
  | EVENT_MOUSE_CLICK => if data1 ev =? 2 then held else true
  | EVENT_MOUSE_RELEASE => false
  | _ => held
  end.

Fixpoint alternate (held : bool) (evs : list event_t) : Prop :=
  match evs with
  | [] => True
  | ev :: evs' => (type ev = EVENT_MOUSE_CLICK → data1 ev ≠ 2 → held = false) ∧ alternate (held_by held ev) evs'
  end.

(** The window being moved is open, and there is one only while the button is held. *)
Definition live (rest : list Z) (held : bool) st (l : zorder) : Prop :=
  wm_inv rest st l ∧ (active_window st = 0 ∨ held = true ∧ active_window st ∈ l.*1).

Lemma opens_keeps a l l' p : opens a l l' → p ∈ l.*1 → p ∈ l'.*1.
Proof. intros [->|(q & d & _ & ->)] Hp; [done|]. rewrite fmap_cons. by right. Qed.

Lemma live_mono rest held st st' l l' :
  active_window st' = active_window st → (∀ p, p ∈ l.*1 → p ∈ l'.*1) → wm_inv rest st' l' →
  live rest held st l → live rest held st' l'.
Proof. intros E Hl Hi' [_ Ha]. split; [done|]. rewrite E. naive_solver. Qed.

Lemma click_menu_live rest held st l mx my :
  live rest held st l →
  ∃ proc st' l', click_menu default_terminal st mx my = Done (proc, st') ∧ live rest held st' l' ∧ w_events st' = w_events st.
Proof.
  intros Hl. unfold click_menu. destruct (menu_visible _); [|by exists false, st, l].
  destruct (in_menu _ mx my); cbn [mbind outcome_bind].
  - set (idx := Z.quot _ 22). destruct ((0 <=? idx) && _).
    + destruct (action_done default_terminal rest (item_action (items (desktop_menu st)).[idx]) st l (proj1 Hl))
        as (st' & l' & -> & Hi' & Ho & _ & He & Ha & _).
      eexists true, _, l'. split; [done|]. split; [|done].
      apply (live_mono rest held st _ l); [done| |by apply inv_menu|done]. intros p. by apply (opens_keeps _ _ _ p Ho).
    + eexists true, _, l. split; [done|]. split; [|done]. apply (live_mono rest held st _ l); [done|done| |done]. by apply inv_menu, Hl.
  - eexists false, _, l. split; [done|]. split; [|done]. apply (live_mono rest held st _ l); [done|done| |done]. by apply inv_menu, Hl.
Qed.

(** A click on a window leaves the moved window open when there was none before. *)
Lemma zclick_active vbe a p w b r mx my :
  let '(l', act) := zclick vbe a p w b r mx my 0 in act = 0 ∨ act ∈ l'.*1.
Proof. destruct r; cbn [zclick]; try (by left); destruct (is_maximized w); first [by left | right; rewrite fmap_cons; left]. Qed.

Lemma click_windows_live vbe rest st l mx my :
  live rest false st l →
  ∃ proc st' l', click_windows default_terminal (windows_fuel st) vbe st (windows_head st) mx my = Done (proc, st') ∧
    live rest true st' l' ∧ w_events st' = w_events st.
Proof.
  intros [Hi [Ha|[? _]]]; [|done].
  pose proof (click_walk vbe rest st mx my l (windows_fuel st) [] Hi (fuel_enough _ _ _ Hi)) as Hw.
  rewrite (zl_head _ _ _ _ (wi_repr _ _ _ _ Hi)), Hw. clear Hw.
  destruct (topmost l mx my) as [[[[a [p w]] b] r]|] eqn:Et.
  - apply topmost_split in Et as ->. pose proof (click_part_done vbe rest st a p w b r mx my Hi) as HC. rewrite Ha in HC.
    pose proof (zclick_active vbe a p w b r mx my) as HA.
    destruct (zclick vbe a p w b r mx my 0) as [l' act]. destruct HC as (st' & -> & Hi' & Ha' & _ & He & _).
    exists true, st', l'. split; [done|]. split; [|done]. split; [done|]. rewrite Ha'. naive_solver.
  - exists false, st, l. split; [done|]. split; [|done]. split; [done|by left].
Qed.

Lemma handle_click_live vbe rest held st l button mx my :
  live rest held st l → (button ≠ 2 → held = false) →
  ∃ st' l', handle_click default_terminal vbe st button mx my = Done st' ∧
    live rest (if button =? 2 then held else true) st' l' ∧ w_events st' = w_events st.
Proof.
  intros Hl Hb. unfold handle_click. destruct (click_menu_live rest held st l mx my Hl) as (proc & st1 & l1 & -> & Hl1 & He1).
  rewrite outcome_bind_done. destruct (Z.eqb_spec button 2) as [->|Hb2].
  { rewrite outcome_bind_done. eexists _, l1. split; [done|]. split; [|done].
    apply (live_mono rest held st1 _ l1); [done|done| |done]. by apply inv_menu, Hl1. }
  rewrite (Hb Hb2) in Hl1. destruct proc.
  { rewrite outcome_bind_done. exists st1, l1. split; [done|]. split; [|done]. destruct Hl1 as [? [?|[? _]]]; [|done]. split; auto. }
  destruct (click_windows_live vbe rest st1 l1 mx my Hl1) as (proc & st2 & l2 & -> & Hl2 & He2). rewrite outcome_bind_done.
  destruct proc; [exists st2, l2; split_and!; congruence || done|].
  destruct (icons_done rest mx my st2 l2 (proj1 Hl2) (Z.to_nat (desktop_icon_count st2)) 0) as (st3 & l3 & -> & Hi3 & Hs & Ho).
  exists st3, l3. split; [done|]. destruct Hs as (_ & He3 & Ha3 & _). split; [|congruence].
  apply (live_mono rest true st2 _ l2); [done| |done|done]. intros p Hp. destruct Ho as [->|[a Ho]]; [done|by apply (opens_keeps a l2)].
Qed.

Lemma handle_key_live rest held st l c :
  live rest held st l →
  ∃ st', wm_handle_key default_terminal st c = Done st' ∧ live rest held st' l ∧ w_events st' = w_events st.
Proof.
  intros [Hi Ha]. unfold wm_handle_key. rewrite (zl_head _ _ _ _ (wi_repr _ _ _ _ Hi)).
  destruct l as [|[p w] l].
  { cbn. eexists. split; [done|]. split; [|done]. split; [by apply inv_tty|done]. }
  change (first 0 ((p, w) :: l)) with p. rewrite (nonzero_in default_terminal rest st [] p w l Hi).
  rewrite (wget_front _ _ _ _ _ Hi), outcome_bind_done. change (wtype (link 0 (first 0 l) w)) with (wtype w).
  change (wdata (link 0 (first 0 l) w)) with (wdata w). case_bool_decide.
  { destruct (activate_inv rest st _ p Hi) as (v & -> & Hi'); [right; left|]. rewrite outcome_bind_done.
    eexists. split; [done|]. split; [|done]. split; [by apply inv_tty|done]. }
  case_bool_decide as Hn; [|exists st; by split_and!]. destruct Hi as [Hr Ho Hc Ht]. pose proof Ht as [Hp _]%Forall_cons.
  destruct (Hp Hn) as [d E]. cbn [snd] in E. rewrite E. eexists. split; [done|]. split; [|done]. split; [|done].
  constructor; try done. revert Ht. rewrite !Forall_forall. intros Ht x Hx Hty. cbn [notepads u_notepads].
  destruct (decide (wdata x.2 = wdata w)) as [->|Hne]; [rewrite lookup_insert_eq; eauto|].
  rewrite lookup_insert_ne by done. by apply (Ht x Hx).
Qed.

(** An update of the moved window, if there is one. *)
Lemma active_upd_live rest held st l f :
  mild f → live rest held st l →
  ∃ ws l', wupd_if st (active_window st) f = Done (u_windows ws st) ∧ live rest held (u_windows ws st) l'.
Proof.
  intros Hf [Hi [Ha|[Hh Ha]]].
  { rewrite Ha. exists (windows st), l. unfold wupd_if. cbn. split; [by destruct st|]. split; [by destruct st|by left]. }
  apply list_elem_of_fmap in Ha as ([p w] & Ep & Hin). cbn [fst] in Ep. apply list_elem_of_split in Hin as (a & b & ->).
  unfold wupd_if, nz. rewrite Ep, (nonzero_in _ _ _ _ _ _ _ Hi). cbn [negb].
  destruct (upd_inv default_terminal rest st a p w b f Hf Hi) as (ws & -> & Hi').
  exists ws, (a ++ (p, f w) :: b). split; [done|]. split; [done|]. right. split; [done|]. cbn [active_window u_windows]. rewrite Ep.
  rewrite fmap_app, fmap_cons. apply elem_of_app. right. left.
Qed.

Lemma handle_event_live vbe rest held st l ev :
  live rest held st l → (type ev = EVENT_MOUSE_CLICK → data1 ev ≠ 2 → held = false) →
  ∃ st' l', handle_event default_terminal vbe st ev = Done st' ∧ live rest (held_by held ev) st' l' ∧ w_events st' = w_events st.
Proof.
  intros Hl Ha. unfold handle_event, held_by. destruct (type ev); [by exists st, l| |by exists st, l| |].
  - destruct (handle_key_live rest held st l (u8 (data1 ev)) Hl) as (st' & ? & ? & ?). by exists st', l.
  - apply (handle_click_live vbe rest held st l); [done|by apply Ha].
  - unfold handle_release. destruct (active_upd_live rest held st l (set_grab false false)) as (ws & l' & -> & Hl'); [done|done|].
    rewrite outcome_bind_done. eexists _, l'. split; [done|]. split; [|done]. split; [apply inv_active, Hl'|by left].
Qed.

Lemma update_loop_live vbe rest evs : ∀ fuel held st l,
  live rest held st l → Events.inv (w_events st) → Events.contents (w_events st) = evs → alternate held evs →
  (length evs <= fuel)%nat →
  ∃ st' l', update_loop default_terminal fuel vbe st = Done st' ∧ live rest (foldl held_by held evs) st' l' ∧
    Events.inv (w_events st') ∧ Events.contents (w_events st') = [].
Proof.
  induction evs as [|ev evs IH]; intros fuel held st l Hl He Ec Hal Hf.
  - assert (update_loop default_terminal fuel vbe st = Done st) as ->.
    { destruct fuel; cbn [update_loop]; rewrite (fifo_pop_empty _ He Ec); by destruct st. }
    by exists st, l.
  - destruct fuel as [|fuel]; [cbn in Hf; lia|]. cbn [update_loop foldl].
    destruct (fifo_pop_cons _ _ _ He Ec) as [E1 E2]. pose proof (fifo_pop_inv _ He) as He1.
    destruct (events_pop (w_events st)) as [x e]. cbn [fst snd] in *. subst x. destruct Hal as [Ha Hal].
    destruct (handle_event_live vbe rest held (u_events e st) l ev) as (st1 & l1 & -> & Hl1 & Ee); [|done|].
    { destruct Hl as [Hi Hact]. split; [by apply inv_events|done]. }
    rewrite outcome_bind_done. apply (IH fuel _ st1 l1); rewrite ?Ee; try done. cbn in Hf. lia.
Qed.

(** C20: [wm_update] processes whatever is queued, at most 127 events, and never touches a
    window after it was freed, provided presses and releases of the left button alternate; the
    invariant of the windows, the heap, the console and the notepads holds again afterwards,
    and the window being moved, if any, is an open one. *)
Theorem wm_update_safe vbe rest held ms st l :
  live rest held st l → Events.inv (w_events st) → alternate held (Events.contents (w_events st)) →
  ∃ st' l', wm_update default_terminal 127 vbe ms st = Done st' ∧
    live rest (foldl held_by held (Events.contents (w_events st))) st' l' ∧
    Events.inv (w_events st') ∧ Events.contents (w_events st') = [].
Proof.
  intros Hl He Hal. unfold wm_update.
  destruct (update_loop_live vbe rest _ 127 held st l Hl He eq_refl Hal) as (st1 & l1 & -> & Hl1 & He1 & Ec1).
  { pose proof (fifo_bounded _ He) as Hb. unfold alen, Events.capacity, EVENT_QUEUE_SIZE in Hb. lia. }
  rewrite outcome_bind_done. destruct (active_upd_live rest (foldl held_by held (Events.contents (w_events st))) st1 l1 (moved ms.1 ms.2))
    as (ws & l2 & -> & Hl2); [apply moved_mild|done|].
  rewrite outcome_bind_done. eexists _, l2. split; [done|]. split; [|done]. destruct Hl2 as [Hi Ha]. split; [by apply inv_icons|done].
Qed.

(** ** Typing into a notepad *)

(** The editor: a backspace removes the last character, any other key is appended while
    there is room for 2047. *)
Definition edit (txt : list Z) (c : Z) : list Z :=
  if c =? 8 then take (length txt - 1) txt else if alen txt <? 2047 then txt ++ [c] else txt.

Definition holds_text (d : notepad_data_t) (txt : list Z) : Prop :=
  alen (np_text d) = 2048 ∧ cursor d = alen txt ∧ ∃ r, np_text d = txt ++ 0 :: r.

Lemma notepad_key_edit d txt c : holds_text d txt → holds_text (notepad_key d c) (edit txt c).
Proof.
  intros (Hl & Hc & r & Hr). unfold notepad_key, edit. rewrite Hc. pose proof (alen_nonneg txt).
  rewrite Hr, alen_app, alen_cons in Hl. destruct (Z.eqb_spec c 8).
  - destruct (Z.ltb_spec 0 (alen txt)).
    + destruct txt as [|x txt _] using rev_ind; [done|]. rewrite length_app, alen_app in *. cbn [length] in *.
      change (alen [x]) with 1 in *. unfold holds_text. cbn [np_text cursor]. rewrite alen_aset.
      replace (length txt + 1 - 1)%nat with (length txt) by lia. rewrite take_app_length. split; [rewrite Hr; arr; change (alen [x]) with 1; lia|].
      split; [lia|]. exists (0 :: r). rewrite Hr, <-!app_assoc. cbn [app]. unfold aset, alen.
      destruct (Z.ltb_spec (Z.of_nat (length txt) + 1 - 1) 0); [lia|]. rewrite insert_app_r_alt by lia.
      by replace (Z.to_nat (Z.of_nat (length txt) + 1 - 1) - length txt)%nat with 0%nat by lia.
    + assert (txt = []) as -> by (destruct txt; [done|rewrite alen_cons in *; pose proof (alen_nonneg txt); lia]).
      cbn. split; [rewrite Hr; arr; done|]. split; [done|by exists r].
  - destruct (Z.ltb_spec (alen txt) 2047).
    + destruct r as [|y r]; [change (alen []) with 0 in *; lia|]. rewrite alen_cons in Hl. unfold holds_text. cbn [np_text cursor].
      rewrite !alen_aset, alen_app. change (alen [c]) with 1. split; [rewrite Hr; arr; lia|]. split; [done|]. exists r.
      rewrite Hr. unfold aset, alen. destruct (Z.ltb_spec (Z.of_nat (length txt)) 0), (Z.ltb_spec (Z.of_nat (length txt) + 1) 0); try lia.
      rewrite !insert_app_r_alt by lia. replace (Z.to_nat (Z.of_nat (length txt)) - length txt)%nat with 0%nat by lia.
      replace (Z.to_nat (Z.of_nat (length txt) + 1) - length txt)%nat with 1%nat by lia. cbn. by rewrite <-app_assoc.
    + split; [rewrite Hr; arr; lia|]. split; [done|by exists r].
Qed.

Definition key (c : Z) : event_t := mk_event EVENT_KEY_DOWN c 0 0.

(** One event of the loop. *)
Lemma update_loop_step vbe fuel st ev evs :
  Events.inv (w_events st) → Events.contents (w_events st) = ev :: evs →
  ∃ e, update_loop default_terminal (S fuel) vbe st =
      (s ← handle_event default_terminal vbe (u_events e st) ev; update_loop default_terminal fuel vbe s) ∧
    Events.inv e ∧ Events.contents e = evs.
Proof.
  intros He Ec. destruct (fifo_pop_cons _ _ _ He Ec) as [E1 E2]. pose proof (fifo_pop_inv _ He) as He1. cbn [update_loop].
  destruct (events_pop (w_events st)) as [x e]. cbn [fst snd] in *. subst x. by exists e.
Qed.

Lemma update_loop_empty vbe fuel st :
  Events.inv (w_events st) → Events.contents (w_events st) = [] → update_loop default_terminal fuel vbe st = Done st.
Proof. intros He Ec. destruct fuel; cbn [update_loop]; rewrite (fifo_pop_empty _ He Ec); by destruct st. Qed.

Lemma keys_loop vbe rest p w b ks : ∀ fuel st d txt,
  wm_inv rest st ((p, w) :: b) → wtype w = WINDOW_TYPE_NOTEPAD → notepads st !! wdata w = Some d → holds_text d txt →
  Events.inv (w_events st) → Events.contents (w_events st) = key <$> ks → Forall (λ c, 0 <= c < 256) ks → (length ks <= fuel)%nat →
  ∃ st' d', update_loop default_terminal fuel vbe st = Done st' ∧ wm_inv rest st' ((p, w) :: b) ∧
    notepads st' = <[wdata w := d']> (notepads st) ∧ holds_text d' (foldl edit txt ks) ∧ active_window st' = active_window st.
Proof.
  induction ks as [|c ks IH]; intros fuel st d txt Hi Hty Hd Ht He Ec Hks Hf.
  - rewrite update_loop_empty by done. exists st, d. split_and!; try done. by rewrite insert_id.
  - destruct fuel as [|fuel]; [cbn in Hf; lia|]. apply Forall_cons in Hks as [Hc Hks].
    destruct (update_loop_step vbe fuel st _ _ He Ec) as (e & -> & He' & Ec').
    unfold handle_event. cbn [type data1 key]. rewrite u8_small by lia.
    set (st1 := u_notepads (<[wdata w := notepad_key d c]> (notepads st)) (u_events e st)).
    assert (wm_handle_key default_terminal (u_events e st) c = Done st1 ∧ wm_inv rest st1 ((p, w) :: b)) as [-> Hi1].
    { unfold wm_handle_key. cbn [windows_head u_events]. rewrite (zl_head _ _ _ _ (wi_repr _ _ _ _ Hi)).
      change (first 0 ((p, w) :: b)) with p. rewrite (nonzero_in default_terminal rest st [] p w b Hi).
      rewrite (wget_front rest (u_events e st) p w b) by (by apply inv_events). rewrite outcome_bind_done.
      change (wtype (link 0 (first 0 b) w)) with (wtype w). change (wdata (link 0 (first 0 b) w)) with (wdata w).
      rewrite Hty. cbn [bool_decide decide window_type_eq_dec]. rewrite bool_decide_eq_false_2, bool_decide_eq_true_2 by done.
      cbn [notepads u_events]. rewrite Hd. split; [done|]. destruct Hi as [Hr Ho Hcs Htx]. constructor; try done.
      revert Htx. rewrite !Forall_forall. intros Htx x Hx Hxty. cbn [notepads st1 u_notepads].
      destruct (decide (wdata x.2 = wdata w)) as [->|Hne]; [rewrite lookup_insert_eq; eauto|].
      rewrite lookup_insert_ne by done. by apply (Htx x Hx). }
    rewrite outcome_bind_done.
    destruct (IH fuel st1 (notepad_key d c) (edit txt c)) as (st' & d' & -> & Hi' & En & Ht' & Ha); try done.
    + cbn. by rewrite lookup_insert_eq.
    + by apply notepad_key_edit.
    + cbn in Hf. lia.
    + exists st', d'. split_and!; try done. rewrite En. cbn. by rewrite insert_insert_eq.
Qed.

(** Keys typed while a notepad is in front edit its text like an editor with a buffer of
    2047 characters: backspaces remove the last character, the rest is appended while there
    is room; nothing is written outside the buffer, which stays terminated, and no other
    notepad changes. *)
Theorem notepad_types vbe rest ms st p w b d txt ks :
  wm_inv rest st ((p, w) :: b) → wtype w = WINDOW_TYPE_NOTEPAD → notepads st !! wdata w = Some d → holds_text d txt →
  active_window st = 0 → Events.inv (w_events st) → Events.contents (w_events st) = key <$> ks → Forall (λ c, 0 <= c < 256) ks →
  ∃ st' d', wm_update default_terminal 127 vbe ms st = Done st' ∧ wm_inv rest st' ((p, w) :: b) ∧
    notepads st' = <[wdata w := d']> (notepads st) ∧ holds_text d' (foldl edit txt ks).
Proof.
  intros Hi Hty Hd Ht Ha He Ec Hks. unfold wm_update.
  destruct (keys_loop vbe rest p w b ks 127 st d txt Hi Hty Hd Ht He Ec Hks) as (st' & d' & -> & Hi' & En & Ht' & Ha').
  { pose proof (fifo_bounded _ He) as Hb. rewrite Ec in Hb. unfold alen, Events.capacity, EVENT_QUEUE_SIZE in Hb.
    rewrite length_fmap in Hb. lia. }
  rewrite outcome_bind_done, Ha', Ha. cbn [wupd_if nz negb Z.eqb]. rewrite outcome_bind_done.
  eexists _, d'. split; [done|]. split; [by apply inv_icons|done].
Qed.

(** ** Dragging *)

Fixpoint updates (vbe : vbe_info) st (pts : list (Z * Z)) : outcome (wm H D) :=
  match pts with [] => Done st | ms :: pts' => st ← wm_update default_terminal 127 vbe ms st; updates vbe st pts' end.

(** A frame with nothing queued moves the window that is being dragged to the pointer. *)
Lemma drag_frame rest st p w l ms :
  wm_inv rest st ((p, w) :: l) → is_dragging w = true → active_window st = p →
  ∃ ws, (s ← wupd_if st (active_window st) (moved ms.1 ms.2); Done (hover_icons s ms.1 ms.2)) =
      Done (hover_icons (u_windows ws st) ms.1 ms.2) ∧
    wm_inv rest (hover_icons (u_windows ws st) ms.1 ms.2)
      ((p, place (ms.1 - drag_off_x w) (ms.2 - drag_off_y w) (ww w) (wh w) w) :: l).
Proof.
  intros Hi Hd Ha. unfold wupd_if, nz. rewrite Ha, (nonzero_in default_terminal rest st [] p w l Hi). cbn [negb].
  destruct (upd_inv (holds := holds) default_terminal rest st [] p w l (moved ms.1 ms.2)) as (ws & -> & Hi'); [apply moved_mild|done|].
  exists ws. rewrite outcome_bind_done. split; [done|]. apply inv_icons. unfold moved in Hi'. by rewrite Hd in Hi'.
Qed.

Lemma drag_frames vbe rest p pts : ∀ st w l,
  wm_inv rest st ((p, w) :: l) → is_dragging w = true → active_window st = p →
  Events.inv (w_events st) → Events.contents (w_events st) = [] →
  ∃ st' w', updates vbe st pts = Done st' ∧ wm_inv rest st' ((p, w') :: l) ∧ ww w' = ww w ∧ wh w' = wh w ∧
    (wx w', wy w') = default (wx w, wy w) ((λ ms, (ms.1 - drag_off_x w, ms.2 - drag_off_y w)) <$> last pts).
Proof.
  induction pts as [|ms pts IH]; intros st w l Hi Hd Ha He Ec; cbn [updates]; [by exists st, w|].
  unfold wm_update. rewrite update_loop_empty, outcome_bind_done by done.
  destruct (drag_frame rest st p w l ms Hi Hd Ha) as (ws & -> & Hi'). rewrite outcome_bind_done.
  set (w1 := place _ _ _ _ w) in *.
  destruct (IH (hover_icons (u_windows ws st) ms.1 ms.2) w1 l Hi') as (st' & w' & -> & Hi2 & E1 & E2 & E3); try done.
  exists st', w'. split_and!; try done. rewrite E3, last_cons. by destruct (last pts).
Qed.

(** A window grabbed by its title bar follows the pointer: after the press and any number
    of frames it is in front of the others, with its size, and displaced by exactly as much as
    the pointer has moved since the press. *)
Theorem drag_follows vbe rest st l mx my a p w b pts ms :
  live rest false st l → menu_visible (desktop_menu st) = false → Events.inv (w_events st) →
  Events.contents (w_events st) = [mk_event EVENT_MOUSE_CLICK 1 mx my] →
  topmost l mx my = Some (a, (p, w), b, TitleBar) → is_maximized w = false → last pts = Some ms →
  ∃ st' w', updates vbe st pts = Done st' ∧ wm_inv rest st' ((p, w') :: a ++ b) ∧
    (wx w' - wx w = ms.1 - mx ∧ wy w' - wy w = ms.2 - my) ∧ ww w' = ww w ∧ wh w' = wh w.
Proof.
  intros [Hi _] Hm He Ec Et Hx Hl. destruct pts as [|m0 pts]; [done|]. cbn [updates]. unfold wm_update.
  destruct (update_loop_step vbe 126 st _ _ He Ec) as (e & -> & He' & Ec'). unfold handle_event. cbn [type data1 data2 data3].
  pose proof (click_part_done vbe rest (u_events e st) a p w b TitleBar mx my) as HC. cbn [zclick] in HC. rewrite Hx in HC.
  assert (wm_inv rest (u_events e st) l) as Hi0 by (by apply inv_events).
  pose proof (topmost_split _ _ _ _ _ _ _ Et) as El.
  destruct HC as (st1 & E1 & Hi1 & Ha1 & _ & Ee1 & _); [by rewrite El in Hi0|].
  unfold handle_click, click_menu. cbn [desktop_menu u_events Z.eqb Pos.eqb]. rewrite Hm, outcome_bind_done.
  pose proof (click_walk vbe rest (u_events e st) mx my l (windows_fuel (u_events e st)) [] Hi0 (fuel_enough _ _ _ Hi0)) as Hw.
  rewrite Et, E1 in Hw. rewrite (zl_head _ _ _ _ (wi_repr _ _ _ _ Hi0)), Hw. rewrite !outcome_bind_done.
  cbn [w_events u_events] in Ee1. rewrite update_loop_empty by (by rewrite Ee1). rewrite outcome_bind_done.
  destruct (drag_frame rest st1 p _ (a ++ b) m0 Hi1 eq_refl Ha1) as (ws & -> & Hi2). rewrite outcome_bind_done.
  cbn [drag_off_x drag_off_y set_drag_off] in Hi2.
  destruct (drag_frames vbe rest p pts (hover_icons (u_windows ws st1) m0.1 m0.2) _ (a ++ b) Hi2 eq_refl Ha1) as (st' & w' & E & Hi' & E2 & E3 & E4).
  { cbn. by rewrite Ee1. }
  { cbn. by rewrite Ee1. }
  exists st', w'. split; [done|]. split; [done|]. split; [|done].
  cbn [wx wy place drag_off_x drag_off_y set_drag_off set_grab] in E4. rewrite last_cons in Hl.
  destruct (last pts) as [m|]; cbn in E4, Hl; simplify_eq; split; lia.
Qed.
End events.

(** ** Witnesses *)

Definition demo_wm (e : Events.state) : wm kheap uart :=
  wm_init (mk_wm demo_kheap demo_vga tty_init e ∅ ∅ 0 0 0 (mk_menu 0 0 0 0 0 (replicate 8 inhabitant) false)
             (replicate 6 inhabitant) 0).
Definition demo_screen : vbe_info := mk_vbe None 1024 768 4096 32.

Lemma demo_wm_inv e : wm_inv (holds := kheap_holds) 0x1000 [] (demo_wm e) [].
Proof.
  constructor.
  - constructor; try done. constructor. intros p [? ?]. done.
  - exists []. split; [apply demo_holds|done].
  - by left.
  - constructor.
Qed.

Lemma wm_windows_refine_witness :
  ∃ st' l', run_zops 0x1000 demo_screen (demo_wm events_init) [ZOpen OpenTerminal; ZOpen OpenNotepad; ZClose 0xC0500014] = Done st' ∧
    zruns demo_screen [] [ZOpen OpenTerminal; ZOpen OpenNotepad; ZClose 0xC0500014] l' ∧
    wm_inv (holds := kheap_holds) 0x1000 [] st' l'.
Proof. exact (wm_windows_refine 0x1000 demo_screen [] _ (demo_wm events_init) [] (demo_wm_inv events_init)). Defined.

(** A state with one window that an action opened. *)
Lemma demo_open e a :
  match run_action 0x1000 a (demo_wm e) with Done s => windows_head s ≠ 0 | _ => False end →
  ∃ st q d, run_action 0x1000 a (demo_wm e) = Done st ∧
    wm_inv (holds := kheap_holds) 0x1000 [] st [(q, set_data d (action_window a))] ∧ same_but_list (demo_wm e) st.
Proof.
  intros Hh. destruct (action_done (holds := kheap_holds) 0x1000 [] a _ _ (demo_wm_inv e)) as (st & l & E & Hi & Ho & Hs).
  rewrite E in Hh. exists st. destruct Ho as [->|(q & d & _ & ->)].
  - by rewrite (zl_head _ _ _ _ (wi_repr _ _ _ _ Hi)) in Hh.
  - exists q, d. by split_and!.
Qed.

Definition click_at (x y : Z) : Events.state := events_push events_init (mk_event EVENT_MOUSE_CLICK 1 x y).

Lemma click_at_inv x y : Events.inv (click_at x y).
Proof. unfold click_at. apply fifo_push_inv. by destruct events_init_inv. Qed.

Lemma click_at_contents x y : Events.contents (click_at x y) = [mk_event EVENT_MOUSE_CLICK 1 x y].
Proof.
  unfold click_at. destruct events_init_inv as [Hi Hc]. rewrite (fifo_push_room events_init) by (rewrite ?Hc; done). by rewrite Hc.
Qed.

Lemma demo_events e : w_events (demo_wm e) = e.
Proof. done. Qed.

Lemma demo_about e : match run_action 0x1000 OpenAbout (demo_wm e) with Done s => windows_head s ≠ 0 | _ => False end.
Proof. by vm_compute. Qed.

(** The close button of the window that is at (260, 210). *)
Lemma click_reaches_topmost_witness :
  ∃ st st', run_action 0x1000 OpenAbout (demo_wm events_init) = Done st ∧
    handle_click 0x1000 demo_screen st 1 670 220 = Done st' ∧ windows_head st' = 0.
Proof.
  destruct (demo_open events_init OpenAbout (demo_about _)) as (st & q & d & E & Hi & Hs).
  assert (menu_visible (desktop_menu st) = false) as Hm by (destruct Hs as (_ & _ & _ & -> & _); by vm_compute).
  destruct (click_reaches_topmost 0x1000 demo_screen [] st _ 1 670 220 Hi Hm ltac:(done)) as (_ & st' & E' & Hi' & _).
  exists st, st'. split; [exact E|]. split; [exact E'|]. rewrite (zl_head _ _ _ _ (wi_repr _ _ _ _ Hi')). reflexivity.
Defined.

Lemma wm_update_safe_witness :
  ∃ st st', run_action 0x1000 OpenAbout (demo_wm (click_at 300 215)) = Done st ∧
    wm_update 0x1000 127 demo_screen (310, 205) st = Done st' ∧ Events.contents (w_events st') = [].
Proof.
  destruct (demo_open (click_at 300 215) OpenAbout (demo_about _)) as (st & q & d & E & Hi & Hs).
  destruct Hs as (_ & He & Ha & _).
  destruct (wm_update_safe 0x1000 demo_screen [] false (310, 205) st [(q, set_data d (action_window OpenAbout))])
    as (st' & l' & E' & _ & _ & Ec).
  - split; [done|]. left. rewrite Ha. by vm_compute.
  - rewrite He, demo_events. apply click_at_inv.
  - rewrite He, demo_events, click_at_contents. clear. by split.
  - exists st, st'. split; [exact E|]. split; [exact E'|exact Ec].
Defined.

Lemma drag_follows_witness :
  ∃ st st' q w', run_action 0x1000 OpenAbout (demo_wm (click_at 300 215)) = Done st ∧
    updates 0x1000 demo_screen st [(310, 205); (320, 195)] = Done st' ∧
    wm_inv (holds := kheap_holds) 0x1000 [] st' [(q, w')] ∧ wx w' = 280 ∧ wy w' = 190.
Proof.
  destruct (demo_open (click_at 300 215) OpenAbout (demo_about _)) as (st & q & d & E & Hi & Hs).
  destruct Hs as (_ & He & Ha & Hm & _).
  destruct (drag_follows 0x1000 demo_screen [] st _ 300 215 [] q (set_data d (action_window OpenAbout)) [] [(310, 205); (320, 195)] (320, 195)
    (conj Hi (or_introl (eq_trans Ha eq_refl)))) as (st' & w' & E' & Hi' & [E1 E2] & _).
  - rewrite Hm. by vm_compute.
  - rewrite He, demo_events. apply click_at_inv.
  - rewrite He, demo_events. apply click_at_contents.
  - reflexivity.
  - reflexivity.
  - reflexivity.
  - exists st, st', q, w'. cbn [wx wy set_data action_window opened set_title set_type set_shown place fst snd] in E1, E2.
    split; [exact E|]. split; [exact E'|]. split; [exact Hi'|]. clear - E1 E2. lia.
Defined.

(** When the release between two presses is lost (the queue drops events when it is full), the
    second press can close the window that the first one grabbed, and the frame then writes
    to freed memory. *)
Example lost_release_faults :
  match run_action 0x1000 OpenAbout (demo_wm (events_push (click_at 300 215) (mk_event EVENT_MOUSE_CLICK 1 670 220))) with
  | Done st => wm_update 0x1000 127 demo_screen (670, 220) st = Fault
  | _ => False
  end.
Proof. by vm_compute. Qed.

Definition typed (ks : list Z) : Events.state := foldl (λ e c, events_push e (key c)) events_init ks.

Lemma typed_ok : Events.inv (typed [104; 105; 8; 111]) ∧ Events.contents (typed [104; 105; 8; 111]) = key <$> [104; 105; 8; 111].
Proof.
  split; [|by vm_compute]. cbn [typed foldl]. repeat apply fifo_push_inv. by destruct events_init_inv.
Qed.

Lemma notepad_types_witness :
  ∃ st st' q d, run_action 0x1000 OpenNotepad (demo_wm (typed [104; 105; 8; 111])) = Done st ∧
    wm_update 0x1000 127 demo_screen (0, 0) st = Done st' ∧ notepads st' = <[q := d]> (notepads st) ∧ holds_text d [104; 111].
Proof.
  destruct (demo_open (typed [104; 105; 8; 111]) OpenNotepad ltac:(by vm_compute)) as (st & p & q & E & Hi & Hs).
  destruct Hs as (_ & He & Ha & _). destruct typed_ok as [He1 He2].
  assert (match run_action 0x1000 OpenNotepad (demo_wm (typed [104; 105; 8; 111])) with
    | Done s => match windows s !! windows_head s with
                | Some w => notepads s !! wdata w = Some (mk_notepad (replicate 2048 0) 0) | None => False end
    | _ => False end) as Hn by (by vm_compute).
  rewrite E in Hn. rewrite (zl_head _ _ _ _ (wi_repr _ _ _ _ Hi)) in Hn.
  destruct (repr_lookup st [] p _ [] (wi_repr _ _ _ _ Hi)) as [Hw _]. change (first 0 _) with p in Hn. rewrite Hw in Hn.
  destruct (notepad_types (holds := kheap_holds) 0x1000 demo_screen [] (0, 0) st p (set_data q (action_window OpenNotepad)) []
    (mk_notepad (replicate 2048 0) 0) [] [104; 105; 8; 111] Hi eq_refl Hn) as (st' & d' & E' & _ & En & Ht).
  - clear. split; [by vm_compute|]. split; [done|]. by exists (replicate 2047 0).
  - rewrite Ha. reflexivity.
  - rewrite He, demo_events. exact He1.
  - rewrite He, demo_events. exact He2.
  - clear. repeat constructor; lia.
  - exists st, st', q, d'. split; [exact E|]. split; [exact E'|]. split; [exact En|exact Ht].
Defined.
