(* ===== verification/Taskbar.v ===== *)
(** * core/gui/taskbar.c and drivers/power/power.c

    The taskbar reads the mouse every frame: the start button, the start menu and a button per
    window, over the window list of Wm.v; its clock is the chip of Clock.v.  Shutting down is
    a write to the power management ports after which the machine is stopped.

    The theorems: a press inside an entry of the start menu runs that entry and no other; the
    button of the n-th window restores, raises or minimizes exactly that window and keeps the
    invariant of the window manager; the clock shows the time. *)

From Stdlib Require Import Ascii String.
From S2P Require Import Prelude Queues Kheap Process Format Serial Vga Gfx Interrupts Clock Wm WmEvents.
Import Events Tty.

(** ** power.c *)

Section power.
Context {D : Type} `{PortIO D}.

Definition power_try_acpi (d : D) : D := outw (outw (outw d 0xB004 0x2000) 0x604 0x2000) 0x4004 0x3400.

(** The state in which the processor halts; the delays between the messages are left out. *)
Definition power_shutdown (g : gfx) (d : D) : gfx * D :=
  let cx := s32 (u32 (width (vbe g) / 2 - 140)) in
  let cy := s32 (u32 (height (vbe g) / 2 + 20)) in
  let g := gfx_swap_buffers (gfx_puts g cx cy (str_bytes "[*] Stopping disk subsystem...") 0x00AAAAAA) in
  let g := gfx_swap_buffers (gfx_puts g cx (cy + 12) (str_bytes "[*] Stopping input devices...") 0x00AAAAAA) in
  let g := gfx_swap_buffers (gfx_puts g cx (cy + 24) (str_bytes "[*] Flushing graphics buffer...") 0x00AAAAAA) in
  let g := gfx_swap_buffers (gfx_puts g cx (cy + 36) (str_bytes "[OK] All subsystems halted.") 0x0080FF80) in
  (g, power_try_acpi d).

(** [do temp = inb(0x64); while (temp & 2)], then the reset; [None] while the controller is
    still busy. *)
Fixpoint power_reboot (fuel : nat) (d : D) : option D :=
  match fuel with
  | O => None
  | S fuel' =>
      let '(temp, d) := inb d 0x64 in
      if nz (Z.land temp 0x02) then power_reboot fuel' d else Some (outb d 0x64 0xFE)
  end.
End power.

(** ** taskbar.c *)

Definition TASKBAR_HEIGHT : Z := 40.
Definition TASKBAR_START_BTN_WIDTH : Z := 80.
Definition START_MENU_X : Z := 5.
Definition START_MENU_WIDTH : Z := 220.
Definition START_MENU_PADDING : Z := 10.
Definition START_MENU_HEADER_HEIGHT : Z := 26.
Definition START_MENU_ITEM_HEIGHT : Z := 22.
Definition START_MENU_ITEM_GAP : Z := 4.

Record taskbar := mk_taskbar {
  taskbar_y : Z; start_button_hover : bool; start_button_pressed : bool; start_menu_active : bool; start_menu_h : Z;
  last_left_click : bool }.

Inductive start_action := StartOpen (a : action) | StartShutdown.

Record start_item_t := mk_start { start_label : list Z; start_run : start_action }.
#[global] Instance start_item_inhabited : Inhabited start_item_t := populate (mk_start [] StartShutdown).

Definition start_items : list start_item_t :=
  [mk_start (str_bytes "Terminal") (StartOpen OpenTerminal); mk_start (str_bytes "Dosyalar") (StartOpen OpenFiles);
   mk_start (str_bytes "Ayarlar") (StartOpen OpenSettings); mk_start (str_bytes "Notepad") (StartOpen OpenNotepad);
   mk_start (str_bytes "Kapat") StartShutdown].
Definition start_item_count : Z := 5.

Definition calc_start_menu_height (item_count : Z) : Z :=
  if item_count <=? 0 then START_MENU_PADDING * 2 + START_MENU_HEADER_HEIGHT
  else
    let item_block := item_count * (START_MENU_ITEM_HEIGHT + START_MENU_ITEM_GAP) - START_MENU_ITEM_GAP in
    START_MENU_PADDING * 2 + START_MENU_HEADER_HEIGHT + item_block.

(** The eight characters written for an hour and a minute, and a NUL. *)
Definition time_chars (h m : Z) (half : ascii) : list Z :=
  [u8 (h / 10 + ch "0"); u8 (h mod 10 + ch "0"); ch ":"; u8 (m / 10 + ch "0"); u8 (m mod 10 + ch "0"); ch " "; ch half; ch "M"; 0].

Definition format_time {D} `{PortIO D} (d : D) (buf : list Z) : list Z * D :=
  let '(t, d) := rtc_read d in
  (if hour t <? 12
   then splice buf 0 (time_chars (if hour t =? 0 then 12 else hour t) (minute t) "A")
   else splice buf 0 (time_chars (if hour t =? 12 then 12 else hour t - 12) (minute t) "P"), d).

Definition taskbar_init (vbe : vbe_info) (tb : taskbar) : taskbar :=
  mk_taskbar (s32 (u32 (height vbe - TASKBAR_HEIGHT))) (start_button_hover tb) (start_button_pressed tb) (start_menu_active tb)
    (start_menu_h tb) (last_left_click tb).

(** The frame goes on, or the machine is off. *)
Inductive frame_end (H D : Type) := Goes (tb : taskbar) (st : wm H D) | Off (g : gfx) (d : D).
Arguments Goes {H D}.
Arguments Off {H D}.

Section taskbar.
Context {H D : Type} `{HeapAlloc H} `{PortIO D}.
Variable default_terminal : Z.
Implicit Types (st : wm H D) (tb : taskbar).

Definition start_action_shutdown (g : gfx) (d : D) : gfx * D :=
  let x := s32 (u32 (width (vbe g) / 2 - 150)) in
  let y := s32 (u32 (height (vbe g) / 2 - 50)) in
  let g := gfx_draw_rect g x y 300 100 0x00202020 in
  let g := gfx_draw_rect g x y 300 1 0x00808080 in
  let g := gfx_draw_rect g x y 1 100 0x00808080 in
  let g := gfx_puts g (s32 (u32 (width (vbe g) / 2 - 100))) (s32 (u32 (height (vbe g) / 2 - 30)))
             (str_bytes "Sistem Kapatiliyor...") 0x00FFFFFF in
  let g := gfx_puts g (s32 (u32 (width (vbe g) / 2 - 80))) (s32 (height (vbe g) / 2)) (str_bytes "Khazar OS") 0x0087CEEB in
  power_shutdown (gfx_swap_buffers g) d.

Definition run_start (g : gfx) (a : start_action) st : outcome (option (wm H D) * (gfx * D)) :=
  match a with
  | StartOpen a => st ← run_action default_terminal a st; Done (Some st, (g, s_io (ser (w_vga st))))
  | StartShutdown => Done (None, start_action_shutdown g (s_io (ser (w_vga st))))
  end.

Definition in_box (x y bx by_ bw bh : Z) : bool := (bx <=? x) && (x <? bx + bw) && (by_ <=? y) && (y <? by_ + bh).

Definition item_y (tb : taskbar) (i : Z) : Z :=
  taskbar_y tb - calc_start_menu_height start_item_count - 5 + START_MENU_PADDING + START_MENU_HEADER_HEIGHT +
  i * (START_MENU_ITEM_HEIGHT + START_MENU_ITEM_GAP).

(** The first item at the height of the pointer. *)
Definition item_at (tb : taskbar) (y : Z) : option Z :=
  zfind (λ i, (item_y tb i <=? y) && (y <? item_y tb i + START_MENU_ITEM_HEIGHT)) 0 (Z.to_nat start_item_count).

Definition set_start (hover pressed active : bool) tb : taskbar :=
  mk_taskbar (taskbar_y tb) hover pressed active (calc_start_menu_height start_item_count) (last_left_click tb).

(** A window button: [curr == windows_get_head()] is read when the button is pressed. *)
Definition press_button st curr : outcome (wm H D) :=
  w ← wget st curr;
  if is_minimized w then st ← wupd st curr (set_shown true false); wm_bring_to_front st curr
  else if curr =? windows_get_head st then wupd st curr (set_shown false true)
  else wm_bring_to_front st curr.

Fixpoint window_buttons (fuel : nat) st curr (bx x : Z) : outcome (wm H D) :=
  if curr =? 0 then Done st
  else
    match fuel with
    | O => NoFuel
    | S fuel' =>
        if (bx <=? x) && (x <? bx + 150) then press_button st curr
        else w ← wget st curr; window_buttons fuel' st (wnext w) (bx + 160) x
    end.

(** The start button and the menu; the second component is what a pressed entry runs. *)
Definition start_press (just_pressed left_click : bool) (x y : Z) tb : taskbar * option start_action :=
  let h := calc_start_menu_height start_item_count in
  let menu_y := taskbar_y tb - h - 5 in
  if (taskbar_y tb <=? y) && (y <? taskbar_y tb + TASKBAR_HEIGHT) && (0 <=? x) && (x <? TASKBAR_START_BTN_WIDTH) then
    (set_start true left_click (if just_pressed then negb (start_menu_active tb) else start_menu_active tb) tb, None)
  else
    let active :=
      if just_pressed && start_menu_active tb
      then in_box x y START_MENU_X menu_y START_MENU_WIDTH h else start_menu_active tb in
    let items_start_y := menu_y + START_MENU_PADDING + START_MENU_HEADER_HEIGHT in
    if active && just_pressed &&
       in_box x y (START_MENU_X + START_MENU_PADDING) items_start_y (START_MENU_WIDTH - 2 * START_MENU_PADDING) h then
      match item_at tb y with
      | Some i => (set_start false false false tb, Some (start_run (start_items.[i])))
      | None => (set_start false false active tb, None)
      end
    else (set_start false false active tb, None).

(** [ms] is the mouse: position and buttons; [g] the screen. *)
Definition taskbar_update (g : gfx) (ms : Z * Z * Z) tb st : outcome (frame_end H D) :=
  let '(x, y, buttons) := ms in
  let left_click := nz (Z.land buttons 1) in
  let just_pressed := left_click && negb (last_left_click tb) in
  let '(tb, a) := start_press just_pressed left_click x y tb in
  '(st, off) ← match a with Some a => run_start g a st | None => Done (Some st, (g, s_io (ser (w_vga st)))) end;
  match st with
  | None => Done (Off off.1 off.2)
  | Some st =>
      let tb := mk_taskbar (taskbar_y tb) (start_button_hover tb) (start_button_pressed tb) (start_menu_active tb)
                  (start_menu_h tb) left_click in
      st ← (if just_pressed && (taskbar_y tb <=? y)
            then window_buttons (windows_fuel st) st (windows_get_head st) 110 x else Done st);
      Done (Goes tb st)
  end.
End taskbar.

(** ** The start menu *)

Lemma in_box_true x y bx by_ bw bh : in_box x y bx by_ bw bh = true ↔ bx <= x < bx + bw ∧ by_ <= y < by_ + bh.
Proof. unfold in_box. rewrite !andb_true_iff, !Z.leb_le, !Z.ltb_lt. lia. Qed.

(** The box of an entry, which is where [draw_start_menu] draws it. *)
Definition item_box (tb : taskbar) (x y i : Z) : bool :=
  in_box x y (START_MENU_X + START_MENU_PADDING) (item_y tb i) (START_MENU_WIDTH - 2 * START_MENU_PADDING) START_MENU_ITEM_HEIGHT.

Ltac menu_consts :=
  unfold item_y, TASKBAR_HEIGHT, TASKBAR_START_BTN_WIDTH, START_MENU_X, START_MENU_PADDING, START_MENU_WIDTH,
    START_MENU_HEADER_HEIGHT, START_MENU_ITEM_HEIGHT, START_MENU_ITEM_GAP, start_item_count in *.

Lemma menu_height : calc_start_menu_height start_item_count = 172.
Proof. done. Qed.

Lemma item_at_box tb x y i : 0 <= i < start_item_count → item_box tb x y i = true → item_at tb y = Some i.
Proof.
  intros Hi Hb%in_box_true. unfold item_at. apply zfind_Some. unfold item_y in *. rewrite ?menu_height in *.
  menu_consts. split; [lia|]. split.
  - rewrite ?menu_height, andb_true_iff, Z.leb_le, Z.ltb_lt. lia.
  - intros j Hj. rewrite ?menu_height. apply andb_false_iff. rewrite Z.leb_gt, Z.ltb_ge. lia.
Qed.

(** With the start menu open, a press inside the box of an entry runs that entry and
    closes the menu; a press anywhere else runs nothing. *)
Theorem start_menu_exact tb x y :
  start_menu_active tb = true →
  (∀ i, 0 <= i < start_item_count → item_box tb x y i = true →
     start_press true true x y tb = (set_start false false false tb, Some (start_run (start_items.[i])))) ∧
  ((∀ i, 0 <= i < start_item_count → item_box tb x y i = false) → (start_press true true x y tb).2 = None).
Proof.
  intros Ha. split.
  - intros i Hi Hb. pose proof (item_at_box tb x y i Hi Hb) as Hat. apply in_box_true in Hb. unfold start_press.
    rewrite Ha, Hat, menu_height. unfold item_y in Hb. rewrite menu_height in Hb. menu_consts.
    rewrite (proj2 (Z.leb_gt (taskbar_y tb) y)) by lia. cbn [andb].
    rewrite (proj2 (in_box_true x y 5 _ 220 172)) by lia. cbn [andb].
    by rewrite (proj2 (in_box_true x y _ _ _ 172)) by lia.
  - intros Hno. unfold start_press. destruct (_ && (x <? TASKBAR_START_BTN_WIDTH)); [done|].
    destruct (_ && _ && in_box _ _ _ _ _ _) eqn:E; [|done]. apply andb_true_iff in E as [_ E%in_box_true].
    unfold item_at. destruct (zfind _ 0 _) as [i|] eqn:Ef; [|done]. exfalso.
    apply zfind_Some in Ef as (Hi & Hy%andb_true_iff & _). rewrite Z.leb_le, Z.ltb_lt in Hy.
    specialize (Hno i ltac:(unfold start_item_count in *; lia)). apply not_true_iff_false in Hno. apply Hno, in_box_true. lia.
Qed.

(** ** Window buttons *)

(** What the button of a window does to the z-order. *)
Definition zbutton (a : zorder) (p : Z) (w : window_t) (b : zorder) : zorder :=
  if is_minimized w then (p, set_shown true false w) :: a ++ b
  else match a with [] => (p, set_shown false true w) :: b | _ => (p, w) :: a ++ b end.

Section buttons.
Context {H D : Type} `{HeapAlloc H} `{PortIO D}.
Context {holds : H → list Z → Prop} `{Laws : !HeapAllocLaws H holds}.
Variable default_terminal : Z.
Implicit Types (st : wm H D) (tb : taskbar).
Notation wm_inv := (wm_inv (holds := holds) default_terminal).
Notation live := (live (holds := holds) default_terminal).

Lemma press_button_done rest st a p w b :
  wm_inv rest st (a ++ (p, w) :: b) →
  ∃ st', press_button st p = Done st' ∧ wm_inv rest st' (zbutton a p w b) ∧ active_window st' = active_window st ∧
    w_events st' = w_events st ∧ w_vga st' = w_vga st.
Proof.
  intros Hi. unfold press_button, zbutton. rewrite (wget_repr st a p w b), outcome_bind_done by apply Hi.
  change (is_minimized (link (final 0 a) (first 0 b) w)) with (is_minimized w). destruct (is_minimized w).
  - destruct (upd_inv default_terminal rest st a p w b _ (shown_mild true false) Hi) as (ws & -> & Hi1). rewrite outcome_bind_done.
    destruct (raise_inv default_terminal rest _ a p _ b Hi1) as (ws2 & hd & tl & -> & Hi2). eexists. by split_and!.
  - unfold windows_get_head. rewrite (zl_head _ _ _ _ (wi_repr _ _ _ _ Hi)). destruct a as [|[q v] a].
    + cbn [app]. change (first 0 ((p, w) :: b)) with p. rewrite Z.eqb_refl.
      destruct (upd_inv default_terminal rest st [] p w b _ (shown_mild false true) Hi) as (ws & -> & Hi1). eexists. by split_and!.
    + change (first 0 (((q, v) :: a) ++ (p, w) :: b)) with q.
      pose proof (middle_addr _ _ _ _ (zl_nodup _ _ _ _ (wi_repr _ _ _ _ Hi))) as (Hp & _).
      destruct (Z.eqb_spec p q) as [->|_]; [exfalso; apply Hp; left|].
      destruct (raise_inv default_terminal rest _ ((q, v) :: a) p w b Hi) as (ws & hd & tl & -> & Hi2). eexists. by split_and!.
Qed.

(** The walk: the k-th window of the list has its button 160 k pixels to the right. *)
Lemma buttons_walk rest st x l2 : ∀ fuel l1 bx,
  wm_inv rest st (l1 ++ l2) → (length l2 <= fuel)%nat →
  (∃ a p w b, l2 = a ++ (p, w) :: b ∧ bx + 160 * alen a <= x < bx + 160 * alen a + 150 ∧
     window_buttons fuel st (first 0 l2) bx x = press_button st p) ∨
  ((∀ k, 0 <= k < alen l2 → ¬ bx + 160 * k <= x < bx + 160 * k + 150) ∧ window_buttons fuel st (first 0 l2) bx x = Done st).
Proof.
  induction l2 as [|[p w] l2 IH]; intros fuel l1 bx Hi Hf.
  { right. split; [intros k; change (alen []) with 0; lia|by destruct fuel]. }
  destruct fuel as [|fuel]; [cbn in Hf; lia|]. change (first 0 ((p, w) :: l2)) with p. cbn [window_buttons].
  rewrite (nonzero_in _ _ _ _ _ _ _ Hi). destruct ((bx <=? x) && (x <? bx + 150)) eqn:E.
  { left. exists [], p, w, l2. rewrite andb_true_iff, Z.leb_le, Z.ltb_lt in E. change (alen []) with 0. split_and!; done || lia. }
  rewrite (wget_repr st l1 p w l2), outcome_bind_done by apply Hi.
  change (wnext (link (final 0 l1) (first 0 l2) w)) with (first 0 l2).
  assert (wm_inv rest st ((l1 ++ [(p, w)]) ++ l2)) as Hi' by (by rewrite <-app_assoc).
  destruct (IH fuel _ (bx + 160) Hi' ltac:(cbn in Hf; lia)) as [(a & q & v & b & -> & Hx & Eb)|[Hno Eb]].
  - left. exists ((p, w) :: a), q, v, b. rewrite alen_cons. split_and!; try done; lia.
  - right. split; [|done]. intros k Hk Hx. rewrite alen_cons in Hk.
    destruct (decide (k = 0)) as [->|]; [|apply (Hno (k - 1)); lia].
    rewrite andb_false_iff, Z.leb_gt, Z.ltb_ge in E. lia.
Qed.

Lemma window_buttons_done rest st l x :
  wm_inv rest st l →
  ∃ st' l', window_buttons (windows_fuel st) st (windows_get_head st) 110 x = Done st' ∧ wm_inv rest st' l' ∧
    active_window st' = active_window st ∧ w_events st' = w_events st ∧
    ((∃ a p w b, l = a ++ (p, w) :: b ∧ 110 + 160 * alen a <= x < 110 + 160 * alen a + 150 ∧ l' = zbutton a p w b) ∨
     ((∀ k, 0 <= k < alen l → ¬ 110 + 160 * k <= x < 110 + 160 * k + 150) ∧ l' = l ∧ st' = st)).
Proof.
  intros Hi. unfold windows_get_head. rewrite (zl_head _ _ _ _ (wi_repr _ _ _ _ Hi)).
  destruct (buttons_walk rest st x l (windows_fuel st) [] 110 Hi (fuel_enough _ _ _ _ Hi)) as [(a & p & w & b & -> & Hx & ->)|[Hno ->]].
  - destruct (press_button_done rest st a p w b Hi) as (st' & E & Hi' & Ha & He & _). exists st', (zbutton a p w b).
    split_and!; try done. left. by exists a, p, w, b.
  - exists st, l. split_and!; try done. by right.
Qed.

Lemma zbutton_addrs a p w b q : q ∈ (a ++ (p, w) :: b).*1 → q ∈ (zbutton a p w b).*1.
Proof.
  rewrite fmap_app, fmap_cons. cbn [fst]. intros Hq. assert (q ∈ p :: a.*1 ++ b.*1) as Hq' by (by apply elem_of_raise).
  unfold zbutton. destruct (is_minimized w); [by rewrite fmap_cons, fmap_app|].
  destruct a as [|x a]; [done|]. by rewrite fmap_cons, fmap_app.
Qed.

(** A frame of the taskbar never touches a freed window: it ends with the machine switched
    off or with the windows, the heap and the console in order and the window being moved
    still open.  When the left button goes down on the taskbar and no menu is open, the button
    under the pointer, and only that one, takes effect: a minimized window comes back in
    front, the front window is minimized, another window is raised. *)
Theorem taskbar_update_safe rest held g x y buttons tb st l :
  live rest held st l →
  ∃ r, taskbar_update default_terminal g (x, y, buttons) tb st = Done r ∧
  match r with
  | Off _ _ => start_menu_active tb = true
  | Goes tb' st' =>
      ∃ l', live rest held st' l' ∧
        (start_menu_active tb = false → Z.land buttons 1 ≠ 0 → last_left_click tb = false → taskbar_y tb <= y →
         (∃ a p w b, l = a ++ (p, w) :: b ∧ 110 + 160 * alen a <= x < 110 + 160 * alen a + 150 ∧ l' = zbutton a p w b) ∨
         ((∀ k, 0 <= k < alen l → ¬ 110 + 160 * k <= x < 110 + 160 * k + 150) ∧ l' = l))
  end.
Proof.
  intros Hl. unfold taskbar_update. set (jp := nz (Z.land buttons 1) && negb (last_left_click tb)).
  destruct (start_press jp _ x y tb) as [tb1 oa] eqn:Es.
  assert (taskbar_y tb1 = taskbar_y tb ∧ (start_menu_active tb = false → oa = None)) as [Ey Hoa].
  { unfold start_press in Es. destruct (_ && (x <? TASKBAR_START_BTN_WIDTH)); [by injection Es as <- <-|].
    split; [|intros Hsm; rewrite Hsm, andb_false_r in Es; cbn [andb] in Es; by injection Es as <- <-].
    destruct (_ && _ && in_box _ _ _ _ _ _); [|by injection Es as <- <-]. destruct (item_at tb y); by injection Es as <- <-. }
  assert (∃ o off l1, match oa with Some a => run_start default_terminal g a st | None => Done (Some st, (g, s_io (ser (w_vga st)))) end
    = Done (o, off) ∧ (oa = None → o = Some st ∧ l1 = l) ∧ match o with Some s => live rest held s l1 | None => start_menu_active tb = true end)
    as (o & off & l1 & -> & Ho1 & Ho).
  { destruct oa as [[a|]|].
    - destruct (action_done (holds := holds) default_terminal rest a st l (proj1 Hl)) as (s & l1 & E & Hi & Hop & _ & _ & Ha & _).
      cbn [run_start]. rewrite E, outcome_bind_done. eexists (Some s), _, l1. split; [done|]. split; [done|].
      apply (live_mono default_terminal rest held st _ l); [done| |done|done]. intros q. by apply (opens_keeps a).
    - eexists None, _, l. cbn [run_start]. split; [done|]. split; [done|].
      destruct (start_menu_active tb); [done|]. by specialize (Hoa eq_refl).
    - by eexists (Some st), _, l. }
  rewrite outcome_bind_done. destruct o as [s|]; [|by eexists]. cbn [taskbar_y]. rewrite Ey.
  destruct (window_buttons_done rest s l1 x (proj1 Ho)) as (st' & l' & Eb & Hi' & Ha & He & Hz).
  destruct (jp && (taskbar_y tb <=? y)) eqn:Ej.
  - rewrite Eb, outcome_bind_done. eexists. split; [done|]. exists l'. split.
    + apply (live_mono default_terminal rest held s _ l1); [done| |done|done]. intros q Hq.
      destruct Hz as [(a & p & w & b & -> & _ & ->)|(_ & -> & _)]; [by apply zbutton_addrs|done].
    + intros Hsm _ _ _. destruct (Ho1 (Hoa Hsm)) as [_ ->]. naive_solver.
  - rewrite outcome_bind_done. eexists. split; [done|]. exists l1. split; [done|]. intros Hsm Hb Hll Hy. exfalso.
    unfold jp in Ej. rewrite (proj2 (nz_true _) Hb), Hll, (proj2 (Z.leb_le _ _) Hy) in Ej. done.
Qed.
End buttons.

(** ** The clock *)

(** Reading the display back: hours and minutes. *)
Definition clock_value (s : list Z) : Z * Z :=
  let h := 10 * (s.[0] - 48) + (s.[1] - 48) in
  (h mod 12 + (if s.[6] =? ch "P" then 12 else 0), 10 * (s.[3] - 48) + (s.[4] - 48)).

(** The taskbar shows the time: read back, the eight characters are the hour and the
    minute of the clock chip, and the string is terminated. *)
Theorem format_time_reads_back {D} `{PortIO D} (d : D) buf :
  let t := (rtc_read d).1 in
  0 <= hour t < 24 → 0 <= minute t < 60 → 9 <= alen buf →
  clock_value (format_time d buf).1 = (hour t, minute t) ∧ (format_time d buf).1.[8] = 0.
Proof.
  intros t. unfold format_time, t. destruct (rtc_read d) as [t' d']. cbn [fst]. intros Hh Hm Hb. clear t.
  destruct t' as [s m h dy mo yr wd]. cbn [hour minute] in *.
  assert (∀ hh a, 0 <= hh < 100 → let s := splice buf 0 (time_chars hh m a) in
    s.[0] = hh / 10 + 48 ∧ s.[1] = hh mod 10 + 48 ∧ s.[3] = m / 10 + 48 ∧ s.[4] = m mod 10 + 48 ∧ s.[6] = ch a ∧ s.[8] = 0) as Hs.
  { intros hh a Hhh. cbv zeta. rewrite !aget_splice by (done || (change (alen (time_chars hh m a)) with 9; lia)).
    change (alen (time_chars hh m a)) with 9. cbn [Z.leb Z.ltb Z.add Z.compare Pos.compare Pos.compare_cont andb Z.sub Z.opp].
    unfold time_chars. rewrite !u8_small by (change (ch "0") with 48; zlia). split_and!; reflexivity. }
  unfold clock_value. destruct (Z.ltb_spec h 12).
  - set (hh := if h =? 0 then 12 else h). destruct (Hs hh "A"%char) as (-> & -> & -> & -> & -> & ->);
      [unfold hh; destruct (Z.eqb_spec h 0); lia|].
    split; [|done]. change (ch "A" =? ch "P") with false. unfold hh. f_equal; [|zlia]. destruct (Z.eqb_spec h 0); [subst; reflexivity|zlia].
  - set (hh := if h =? 12 then 12 else h - 12). destruct (Hs hh "P"%char) as (-> & -> & -> & -> & -> & ->);
      [unfold hh; destruct (Z.eqb_spec h 12); lia|].
    split; [|done]. change (ch "P" =? ch "P") with true. unfold hh. f_equal; [|zlia]. destruct (Z.eqb_spec h 12); [subst; reflexivity|zlia].
Qed.

(** ** Witnesses *)

Definition demo_taskbar (active : bool) : taskbar := mk_taskbar 728 false false active 180 false.

(** The third entry, "Ayarlar". *)
Lemma start_menu_exact_witness :
  start_press true true 100 645 (demo_taskbar true) =
    (set_start false false false (demo_taskbar true), Some (StartOpen OpenSettings)).
Proof.
  destruct (start_menu_exact (demo_taskbar true) 100 645 eq_refl) as [Hhit _].
  apply (Hhit 2); [unfold start_item_count; lia|reflexivity].
Defined.

Definition demo_canvas : gfx := mk_gfx demo_screen None None 0.

(** The button of the only window minimizes it. *)
Lemma taskbar_update_safe_witness :
  ∃ st tb' st' p w, run_action 0x1000 OpenAbout (demo_wm events_init) = Done st ∧
    taskbar_update 0x1000 demo_canvas (120, 740, 1) (demo_taskbar false) st = Done (Goes tb' st') ∧
    wm_inv (holds := kheap_holds) 0x1000 [] st' [(p, w)] ∧ is_minimized w = true.
Proof.
  destruct (demo_open events_init OpenAbout (demo_about _)) as (st & q & d & E & Hi & Hs).
  destruct Hs as (_ & _ & Ha & _).
  destruct (taskbar_update_safe (holds := kheap_holds) 0x1000 [] false demo_canvas 120 740 1 (demo_taskbar false) st _
    (conj Hi (or_introl (eq_trans Ha eq_refl)))) as ([tb' st'|g d'] & E' & Hr); [|discriminate Hr].
  destruct Hr as (l' & [Hi' _] & Hb).
  destruct (Hb eq_refl ltac:(clear; by vm_compute) eq_refl ltac:(clear; by vm_compute)) as [(a & p & w & b & El & Hx & El')|[Hno _]].
  - exists st, tb', st', q, (set_shown false true (set_data d (action_window OpenAbout))).
    split; [exact E|]. split; [exact E'|]. destruct a as [|y a]; [|destruct a; discriminate El]. injection El as <- <- <-.
    rewrite El' in Hi'. split; [exact Hi'|reflexivity].
  - exfalso. apply (Hno 0); [clear; by vm_compute|clear; by vm_compute].
Defined.

Lemma format_time_reads_back_witness :
  clock_value (format_time (demo_cmos 2 0x23) (replicate 16 0)).1 = (23, 45).
Proof.
  destruct (format_time_reads_back (demo_cmos 2 0x23) (replicate 16 0)) as [E _];
    [clear; by vm_compute|clear; by vm_compute|clear; by vm_compute|]. rewrite E. by vm_compute.
Defined.
