(* ===== verification/Pkg.v ===== *)
(** * core/pkg.c: the package manager

    Packages are archives: a header and a list of named files.  [pkg_install] unpacks one from
    the repository into the file system, [pkg_fetch] downloads one from the server with a
    stop-and-wait protocol over UDP.  The file system is the interface [VfsWorld] on the
    kernel's heap, the server behind the network the interface [PkgLink], which the IP stack of
    Net.v implements; every access to the downloaded bytes and to the buffers on the stack is
    checked.

    The theorems: installing a well-formed archive stores exactly its files; fetching from a
    server that follows the protocol stores exactly the package; a server that sends more than
    it announced makes the kernel write behind the buffer. *)

From Stdlib Require Import Ascii String.
From S2P Require Import Prelude KString Pmm Vmm Kheap Process Vfs Net Format Syscall.

Definition PKG_REPO_PATH : list Z := str_bytes "/repo".
Definition PKG_LIST_PATH : list Z := str_bytes "/system/packages.list".
Definition PKG_SERVER_IP : Z := 0x0202000A.
Definition PKG_SERVER_PORT : Z := 5555.
Definition PKG_MAX_FETCH_SIZE : Z := 256 * 1024.
Definition PKG_CHUNK_SIZE : Z := 512.
Definition PKG_MAGIC : Z := 0x4B5A504B.

(** [while (l[i]) i++] and [l[i] = v] on an array of the stack. *)
Definition len_from (l : list Z) (i : Z) : outcome Z :=
  match zfind (λ k, l.[k] =? 0) i (Z.to_nat (alen l - i)) with Some k => Done k | None => Fault end.
Definition put_ck (l : list Z) (i v : Z) : outcome (list Z) :=
  if ck_memory i 1 (alen l) then Done (l.[i <- v]) else Fault.

(** ** The network side *)

(** What the package manager asks of the network: to resolve the server, to send it a
    datagram, and to wait for one in a buffer for a number of turns. *)
Class PkgLink (N : Type) := {
  srv_reach : N → outcome (bool * N);
  srv_send : N → list Z → outcome (bool * N);
  srv_recv : N → list Z → Z → Z → outcome (Z * list Z * N) }.

Section network.
Context {L S Q : Type} `{Link L} `{WaitOps S Q} `{!Inhabited Q}.
Variables (junk : Z → Z) (fuel : nat) (resume yield : net L S Q → net L S Q).
Implicit Types st : net L S Q.

Fixpoint pkg_udp_recv_wait (max_iter : nat) st (buf : list Z) (maxlen : Z) : outcome (Z * list Z * net L S Q) :=
  match max_iter with
  | O => Done (0, buf, st)
  | Datatypes.S n =>
      '(got, buf, st) ← udp_recv fuel resume st 1234 buf maxlen;
      if 0 <? got then Done (got, buf, st) else pkg_udp_recv_wait n (yield st) buf maxlen
  end.

(** [rx_frame] is static. *)
Fixpoint arp_poll (n : nat) st (rx_frame : list Z) : outcome (bool * list Z * net L S Q) :=
  match n with
  | O => Done (false, rx_frame, st)
  | Datatypes.S n' =>
      '(len, rx_frame, l) ← link_recv (link st) rx_frame 1518;
      let st := w_link l st in
      st ← (if 14 <? len then
              let etype := Z.lor (Z.shiftl (rx_frame.[12]) 8) (rx_frame.[13]) in
              if etype =? 0x0806 then arp_handle st rx_frame 14 (u16 (len - 14)) else Done st
            else Done st);
      match arp_lookup (arp_cache st) PKG_SERVER_IP with
      | Some _ => Done (true, rx_frame, st)
      | None => arp_poll n' st rx_frame
      end
  end.

Definition pkg_ensure_arp st (rx_frame : list Z) : outcome (bool * list Z * net L S Q) :=
  match arp_lookup (arp_cache st) PKG_SERVER_IP with
  | Some _ => Done (true, rx_frame, st)
  | None => st ← arp_request st PKG_SERVER_IP; arp_poll (Z.to_nat 500000) st rx_frame
  end.

(** The IP stack with the static frame buffer is such a network. *)
Definition net_pkg_link : PkgLink (net L S Q * list Z) := {|
  srv_reach n := '(ok, rx, st) ← pkg_ensure_arp n.1 n.2; Done (ok, (st, rx));
  srv_send n msg := '(ok, st) ← udp_send junk fuel n.1 PKG_SERVER_IP PKG_SERVER_PORT msg (u16 (alen msg)); Done (ok, (st, n.2));
  srv_recv n buf maxlen iter :=
    '(got, buf, st) ← pkg_udp_recv_wait (Z.to_nat iter) n.1 buf maxlen; Done (got, buf, (st, n.2)) |}.
End network.

(** ** Operations *)

Section pkg.
Context {N W H : Type} `{PkgLink N} `{VfsWorld W} `{HeapAlloc H} `{!OnHeap W H}.
(** The bytes of a fresh block and of uninitialised arrays on the stack. *)
Variables (fresh : H → Z → Z → list Z) (junk : Z → list Z).
Variable v : vfs.
Implicit Types (n : N) (w : W).

Definition kmalloc_fs w (size : Z) : Z * W := let '(p, h) := halloc (heap_of w) size in (p, on_heap h w).
Definition kfree_fs w (p : Z) : W := on_heap (hfree (heap_of w) p) w.

(** The directory and the name of a file that does not exist yet. *)
Definition pkg_split (filename : list Z) : outcome (list Z * list Z) :=
  let last_slash := find_slash filename 0 (-1) in
  if negb (last_slash =? -1) then
    let len := if last_slash =? 0 then 1 else last_slash in
    dir_path ← memcpy_ck (junk 128) 0 filename 0 len;
    dir_path ← put_ck dir_path len 0;
    Done (dir_path, kstrncpy (junk 128) 0 (drop (Z.to_nat (last_slash + 1)) filename) 127)
  else Done (kstrncpy (junk 128) 0 [SLASH; 0] 127, kstrncpy (junk 128) 0 filename 127).

(** One file of the archive, at [ptr] in the buffer; the result is the next offset. *)
Definition install_file w (buffer : list Z) (ptr : Z) : outcome (Z * W) :=
  let filename := drop (Z.to_nat ptr) buffer in
  if negb (bool_decide (0 ∈ filename)) then Fault
  else
    size ← word_at buffer (ptr + 64);
    let data := ptr + 64 + 4 in
    let '(target, w) := vfs_find_path v w (vfs_root v) filename in
    '(target, w) ←
      (if target =? 0 then
         '(dir_path, file_name) ← pkg_split filename;
         let '(dir_node, w) := vfs_find_path v w (vfs_root v) dir_path in
         if nz dir_node then Done (vfs_create w dir_node file_name) else Done (target, w)
       else Done (target, w));
    w ← (if nz target then
           if ck_memory data size (alen buffer) then Done (vfs_write w target 0 size (sub buffer data size)).2 else Fault
         else Done w);
    Done (u32 (ptr + (64 + 4 + size)), w).

Fixpoint install_files (count : nat) w (buffer : list Z) (ptr : Z) : outcome W :=
  match count with
  | O => Done w
  | S count' => '(ptr, w) ← install_file w buffer ptr; install_files count' w buffer ptr
  end.

(** [ksprintf(path, "%s/%s.kzp", PKG_REPO_PATH, name)] *)
Definition pkg_format : list Z := str_bytes "%s/%s.kzp" ++ [0].
Definition pkg_path (name : list Z) : outcome (list Z) :=
  ksprintf (λ p, if p =? 1 then PKG_REPO_PATH ++ [0] else name) (junk 32) (junk 128) pkg_format [1; 2].

Definition pkg_install w (name : list Z) : outcome (bool * W) :=
  path ← pkg_path name;
  let '(node, w) := vfs_find_path v w (vfs_root v) path in
  if node =? 0 then Done (false, w)
  else
    let length := nlength (node_at w node) in
    let '(buf, w) := kmalloc_fs w length in
    if buf =? 0 then Done (false, w)
    else
      let '(_, buffer, w) := vfs_read w node 0 length (fresh (heap_of w) buf length) in
      magic ← word_at buffer 0;
      if negb (magic =? PKG_MAGIC) then Done (false, kfree_fs w buf)
      else
        file_count ← word_at buffer (32 + 16 + 4);
        w ← install_files (Z.to_nat file_count) w buffer (4 + 32 + 16 + 4);
        Done (true, kfree_fs w buf).

(** The text printed; the whole path is looked up as one name. *)
Definition pkg_list w : list Z * W :=
  let '(node, w) := vfs_finddir w (vfs_root v) (PKG_LIST_PATH ++ [0]) in
  if node =? 0 then (str_bytes "(None)", w)
  else
    let w := vfs_open w node in
    let '(read, buffer, w) := vfs_read w node 0 1023 (junk 1024) in
    (if 0 <? s32 read then cstr (buffer.[s32 read <- 0]) else [], vfs_close w node).

(** *** Downloading *)

Definition pkg_request (name : list Z) : outcome (list Z) :=
  let req := kstrncpy (junk 64) 0 (str_bytes "GET " ++ [0]) 63 in
  let req := kstrncpy req 4 name 55 in
  req_len ← len_from req 0;
  req ← put_ck req req_len 10;
  req ← put_ck req (req_len + 1) 0;
  Done (sub req 0 (req_len + 1)).

(** The decimal digits of the chunk index in [num], most significant first. *)
Definition chunk_number (tmp : Z) (num : list Z) : list Z * Z :=
  if tmp =? 0 then (num.[0 <- ch "0"], 1)
  else
    let '(num, num_len) := itoa_digits 32 tmp num 0 in
    (itoa_reverse 32 num 0 (num_len - 1), num_len).

Definition pkg_ack (chunk_idx : Z) : outcome (list Z) :=
  let ack := kstrncpy (junk 32) 0 (str_bytes "ACK " ++ [0]) 31 in
  let '(num, num_len) := chunk_number chunk_idx (junk 12) in
  num ← put_ck num num_len 10;
  num ← put_ck num (num_len + 1) 0;
  let ack := kstrncpy ack 4 num 27 in
  ack_len ← len_from ack 4;
  Done (sub ack 0 ack_len).

(** The chunks: [Some] of the number of bytes received, [None] when the transfer failed. *)
Fixpoint fetch_loop (fuel : nat) n (pkg_buf chunk_buf : list Z) (total_size received chunk_idx : Z) :
    outcome (option Z * list Z * N) :=
  if total_size <=? received then Done (Some received, pkg_buf, n)
  else
    match fuel with
    | O => NoFuel
    | S fuel' =>
        ack ← pkg_ack chunk_idx;
        '(ok, n) ← srv_send n ack;
        if negb ok then Done (None, pkg_buf, n)
        else
          '(cn, chunk_buf, n) ← srv_recv n chunk_buf PKG_CHUNK_SIZE 3000000;
          if cn <=? 0 then Done (None, pkg_buf, n)
          else
            pkg_buf ← memcpy_ck pkg_buf received chunk_buf 0 cn;
            let received := u32 (received + cn) in
            let chunk_idx := u32 (chunk_idx + 1) in
            if cn <? PKG_CHUNK_SIZE then Done (Some received, pkg_buf, n)
            else fetch_loop fuel' n pkg_buf chunk_buf total_size received chunk_idx
    end.

Definition save_path (name : list Z) : outcome (list Z) :=
  let p := kstrncpy (junk 64) 0 (PKG_REPO_PATH ++ [0]) 63 in
  sp_len ← len_from p 0;
  p ← put_ck p sp_len SLASH;
  let p := kstrncpy p (sp_len + 1) name 55 in
  sp_len ← len_from p 0;
  if ck_memory sp_len 4 (alen p) then put_ck (kstrncpy p sp_len (str_bytes ".kzp" ++ [0]) 4) (sp_len + 4) 0 else Fault.

Definition kzp_name (name : list Z) : outcome (list Z) :=
  let p := kstrncpy (junk 48) 0 name 43 in
  kn ← len_from p 0;
  if ck_memory kn 4 (alen p) then put_ck (kstrncpy p kn (str_bytes ".kzp" ++ [0]) 4) (kn + 4) 0 else Fault.

(** The package is in the buffer: store it in the repository. *)
Definition pkg_store w (name pkg_buf : list Z) (received : Z) : outcome (bool * W) :=
  path ← save_path name;
  let '(repo_dir, w) := vfs_find_path v w (vfs_root v) (PKG_REPO_PATH ++ [0]) in
  if repo_dir =? 0 then Done (false, w)
  else
    file ← kzp_name name;
    let '(node, w) := vfs_find_path v w (vfs_root v) path in
    let '(node, w) := if node =? 0 then vfs_create w repo_dir file else (node, w) in
    if node =? 0 then Done (false, w)
    else Done (true, (vfs_write w node 0 received (sub pkg_buf 0 received)).2).

(** [hdr_buf] and [chunk_buf] are static. *)
Definition pkg_fetch n w (name hdr_buf chunk_buf : list Z) : outcome (bool * N * W) :=
  '(ok, n) ← srv_reach n;
  if negb ok then Done (false, n, w)
  else
    req ← pkg_request name;
    '(ok, n) ← srv_send n req;
    if negb ok then Done (false, n, w)
    else
      '(hdr_n, hdr_buf, n) ← srv_recv n hdr_buf 16 2000000;
      if hdr_n <? 4 then Done (false, n, w)
      else
        let total_size := get_le 4 hdr_buf 0 in
        if (total_size =? 0) || (PKG_MAX_FETCH_SIZE <? total_size) then Done (false, n, w)
        else
          let '(buf, w) := kmalloc_fs w total_size in
          if buf =? 0 then Done (false, n, w)
          else
            '(received, pkg_buf, n) ←
              fetch_loop (Z.to_nat total_size) n (fresh (heap_of w) buf total_size) chunk_buf total_size 0 0;
            match received with
            | None => Done (false, n, kfree_fs w buf)
            | Some received =>
                '(_, n) ← srv_send n (str_bytes "DONE" ++ [10]);
                '(ok, w) ← pkg_store w name pkg_buf received;
                Done (ok, n, kfree_fs w buf)
            end.

(** The list of the server, as it is printed; [resp] is static. *)
Definition pkg_remote_list n (resp : list Z) : outcome (option (list Z) * N) :=
  '(ok, n) ← srv_reach n;
  if negb ok then Done (None, n)
  else
    '(ok, n) ← srv_send n (str_bytes "LIST" ++ [10]);
    if negb ok then Done (None, n)
    else
      '(got, resp, n) ← srv_recv n resp 1023 2000000;
      if got <=? 0 then Done (None, n) else resp ← put_ck resp got 0; Done (Some (cstr resp), n).
End pkg.

(** ** Strings and paths

    Looking a path up depends on the string only, not on the bytes behind its terminator. *)

Lemma take_component_cstr n s :
  Forall (λ c, c ≠ 0) s → ∃ a b, s = a ++ b ∧ ∀ t, take_component n (s ++ 0 :: t) = (a, b ++ 0 :: t).
Proof.
  intros Hs. revert n. induction Hs as [|c s Hc Hs IH]; intros n.
  - exists [], []. split; [done|]. intros t. by destruct n.
  - destruct n as [|n]; [by exists [], (c :: s)|]. cbn [app take_component].
    rewrite (proj2 (Z.eqb_neq c 0) Hc), orb_false_r. destruct (c =? SLASH); [by exists [], (c :: s)|].
    destruct (IH n) as (a & b & -> & E). exists (c :: a), b. split; [done|]. intros t. by rewrite E.
Qed.

Section paths.
Context {W : Type} `{VfsWorld W}.
Variable v : vfs.

Lemma find_path_rec_cstr s : Forall (λ c, c ≠ 0) s → ∀ fuel fuel' w root t t',
  (length s < fuel)%nat → (length s < fuel')%nat →
  find_path_rec fuel v w root (s ++ 0 :: t) = find_path_rec fuel' v w root (s ++ 0 :: t').
Proof.
  remember (length s) as len eqn:El. revert s El. induction len as [len IH] using lt_wf_ind. intros s -> Hs fuel fuel' w root t t' Hf Hf'.
  destruct fuel as [|fuel]; [lia|]. destruct fuel' as [|fuel']; [lia|]. cbn [find_path_rec].
  assert (∀ u, hd0 (s ++ 0 :: u) = hd0 (s ++ [0]) ∧ (s ≠ [] → hd0 (tail (s ++ 0 :: u)) = hd0 (tail (s ++ [0])))) as Hh.
  { intros u. destruct s as [|c [|c' s]]; done. }
  destruct (Hh t) as [-> Ht], (Hh t') as [-> Ht']. destruct s as [|c s].
  { cbn. done. }
  rewrite Ht, Ht' by done. change (hd0 ((c :: s) ++ [0])) with c. apply Forall_cons in Hs as [Hc Hs].
  rewrite (proj2 (Z.eqb_neq c 0) Hc). cbn [app tail].
  destruct ((c =? SLASH) && _); [done|].
  set (s1 := if c =? SLASH then s else c :: s).
  assert (∀ u, (if c =? SLASH then (vfs_root v, s ++ 0 :: u) else (root, c :: s ++ 0 :: u)) =
    (if c =? SLASH then vfs_root v else root, s1 ++ 0 :: u)) as E1 by (intros u; unfold s1; by destruct (c =? SLASH)).
  rewrite !E1. destruct ((if c =? SLASH then vfs_root v else root) =? 0); [done|].
  assert (Forall (λ c, c ≠ 0) s1) as Hs1 by (unfold s1; destruct (c =? SLASH); [done|by constructor]).
  assert (length s1 <= S (length s))%nat as Hl1 by (unfold s1; destruct (c =? SLASH); cbn; lia).
  destruct (take_component_cstr 127 s1 Hs1) as (a & b & Eab & E2). rewrite !E2.
  destruct (vfs_finddir _ _ (a ++ [0])) as [next w']. destruct (next =? 0); [done|].
  destruct b as [|d b]; [done|]. change (hd0 ((d :: b) ++ 0 :: t)) with d. change (hd0 ((d :: b) ++ 0 :: t')) with d.
  destruct (d =? SLASH); [|done]. cbn [app tail]. rewrite Eab, length_app in Hl1. cbn in Hl1, Hf, Hf'.
  rewrite Eab in Hs1. apply Forall_app in Hs1 as [_ [_ Hb]%Forall_cons].
  apply (IH (length b) ltac:(cbn; lia) b eq_refl Hb); lia.
Qed.

Lemma find_path_cstr w root s t :
  Forall (λ c, c ≠ 0) s → vfs_find_path v w root (s ++ 0 :: t) = vfs_find_path v w root (s ++ [0]).
Proof.
  intros Hs. unfold vfs_find_path. f_equal. apply find_path_rec_cstr; [done|rewrite length_app; cbn; lia..].
Qed.

Lemma find_path_buffer w root buf s :
  cstr buf = s → terminated buf → vfs_find_path v w root buf = vfs_find_path v w root (s ++ [0]).
Proof.
  intros <- Ht. destruct (cstr_split buf Ht) as [t E]. rewrite E at 1. apply find_path_cstr.
  apply Forall_forall. intros c. apply cstr_nonzero.
Qed.
End paths.

Lemma find_slash_stop s t i l : Forall (λ c, c ≠ 0) s → find_slash (s ++ 0 :: t) i l = find_slash (s ++ [0]) i l.
Proof.
  intros Hs. revert i l. induction Hs as [|c s Hc Hs IH]; intros i l; [done|]. cbn. rewrite (proj2 (Z.eqb_neq c 0) Hc). apply IH.
Qed.

Lemma find_slash_range s i l : 0 <= i → -1 <= l < i → Forall (λ c, c ≠ 0) s → -1 <= find_slash (s ++ [0]) i l < i + alen s ∨ find_slash (s ++ [0]) i l = l.
Proof.
  intros Hi Hl Hs. revert i l Hi Hl. induction Hs as [|c s Hc Hs IH]; intros i l Hi Hl; [by right|]. cbn.
  rewrite (proj2 (Z.eqb_neq c 0) Hc), alen_cons. left. pose proof (alen_nonneg s).
  destruct (IH (i + 1) (if c =? SLASH then i else l)) as [?|E]; [lia|destruct (c =? SLASH); lia|lia|].
  rewrite E. destruct (c =? SLASH); lia.
Qed.

(** ** Archives *)

Definition file_bytes (f : list Z * list Z) : list Z :=
  f.1 ++ replicate (64 - length f.1) 0 ++ le_bytes 4 (alen f.2) ++ f.2.
Definition package_bytes (header : list Z) (files : list (list Z * list Z)) : list Z :=
  le_bytes 4 PKG_MAGIC ++ header ++ le_bytes 4 (alen files) ++ concat (map file_bytes files).

(** A name that fits its field, with its terminator. *)
Definition file_ok (f : list Z * list Z) : Prop :=
  Forall (λ c, c ≠ 0) f.1 ∧ (length f.1 < 64)%nat.

(** The directory and the name of a path; the root directory keeps its separator. *)
Definition dir_base (fn : list Z) : list Z * list Z :=
  let k := find_slash (fn ++ [0]) 0 (-1) in
  if k =? -1 then ([SLASH], fn) else (take (Z.to_nat (if k =? 0 then 1 else k)) fn, drop (Z.to_nat (k + 1)) fn).

(** Terminating a buffer after some characters. *)
Lemma cstr_put l n : 0 <= n < alen l → Forall (λ c, c ≠ 0) (take (Z.to_nat n) l) →
  cstr (l.[n <- 0]) = take (Z.to_nat n) l ∧ terminated (l.[n <- 0]).
Proof.
  intros Hn Hf. unfold aset, alen in *. destruct (Z.ltb_spec n 0); [lia|]. rewrite insert_take_drop by lia. split.
  - by apply cstr_app_0.
  - unfold terminated. apply elem_of_app. right. left.
Qed.

Section install.
Context {W H : Type} `{VfsWorld W} `{HeapAlloc H} `{!OnHeap W H}.
Variables (fresh : H → Z → Z → list Z) (junk : Z → list Z).
Hypothesis junk_len : ∀ n, 0 <= n → alen (junk n) = n.
Variable v : vfs.
Implicit Types w : W.

(** Storing one file: over the old one, or as a new one in its directory; [junk 128] is the
    buffer the name is handed over in. *)
Definition store_file w (f : list Z * list Z) : W :=
  let '(target, w) := vfs_find_path v w (vfs_root v) (f.1 ++ [0]) in
  let '(target, w) :=
    if target =? 0 then
      let '(dir, w) := vfs_find_path v w (vfs_root v) ((dir_base f.1).1 ++ [0]) in
      if nz dir then vfs_create w dir (kstrncpy (junk 128) 0 ((dir_base f.1).2 ++ [0]) 127) else (0, w)
    else (target, w) in
  if nz target then (vfs_write w target 0 (alen f.2) f.2).2 else w.

Lemma kstrncpy_cstr dest s t n :
  Forall (λ c, c ≠ 0) s → 0 <= n <= alen dest → kstrncpy dest 0 (s ++ 0 :: t) n = kstrncpy dest 0 (s ++ [0]) n.
Proof. intros Hs Hn. rewrite !kstrncpy_front by done. by rewrite !cstr_app_0. Qed.

(** The two buffers of a path that has to be created. *)
Lemma pkg_split_done fn t :
  Forall (λ c, c ≠ 0) fn → bytes_ok (fn ++ 0 :: t) → (length fn < 64)%nat →
  ∃ dp, pkg_split junk (fn ++ 0 :: t) = Done (dp, kstrncpy (junk 128) 0 ((dir_base fn).2 ++ [0]) 127) ∧
    cstr dp = (dir_base fn).1 ∧ terminated dp.
Proof.
  intros Hf Hb Hl. unfold pkg_split, dir_base. rewrite find_slash_stop by done.
  pose proof (find_slash_range fn 0 (-1) ltac:(lia) ltac:(lia) Hf) as Hk. set (k := find_slash (fn ++ [0]) 0 (-1)) in *. clearbody k.
  pose proof (junk_len 128 ltac:(lia)) as Hj. destruct (Z.eqb_spec k (-1)) as [->|Hk1]; cbn [negb fst snd].
  - eexists. rewrite (kstrncpy_cstr _ fn t) by (done || lia). split; [done|]. rewrite cstr_kstrncpy by (lia || done). split; [done|].
    rewrite kstrncpy_front by lia. unfold terminated. set_solver.
  - set (len := if k =? 0 then 1 else k). assert (0 < len <= alen fn ∧ alen fn < 64) as [Hlen Hfl].
    { unfold len. unfold alen in *. destruct (Z.eqb_spec k 0); lia. }
    pose proof (alen_nonneg t). rewrite memcpy_ck_spec by (done || lia || (rewrite alen_app, alen_cons; lia)). rewrite outcome_bind_done.
    assert (alen (sub (fn ++ 0 :: t) 0 len) = len) as Hsl by (apply alen_sub; rewrite ?alen_app, ?alen_cons; lia).
    set (buf := splice (junk 128) 0 (sub (fn ++ 0 :: t) 0 len)).
    assert (alen buf = 128) as Hal by (unfold buf; rewrite alen_splice; lia).
    assert (take (Z.to_nat len) buf = take (Z.to_nat len) fn) as Htk.
    { unfold buf, splice. rewrite take_0. cbn [app]. rewrite take_app_le by (unfold alen in *; lia). unfold sub. rewrite drop_0, take_take.
      rewrite Nat.min_id. by rewrite take_app_le by (unfold alen in *; lia). }
    unfold put_ck. rewrite ck_memory_in by lia. rewrite outcome_bind_done.
    rewrite drop_app_le by (unfold alen in *; lia). rewrite (kstrncpy_cstr _ (drop _ fn) t) by (by apply Forall_drop || lia).
    eexists. split; [done|]. rewrite <-Htk. apply cstr_put; [lia|]. rewrite Htk. by apply Forall_take.
Qed.

Lemma install_file_done w pre f post :
  file_ok f → bytes_ok (pre ++ file_bytes f ++ post) → alen pre + 68 + alen f.2 < 0x100000000 →
  install_file junk v w (pre ++ file_bytes f ++ post) (alen pre) = Done (alen pre + (68 + alen f.2), store_file w f).
Proof.
  intros [Hf Hl] Hb Hmax. unfold install_file, store_file. destruct f as [fn data]. cbn [fst snd] in *.
  set (t := replicate (63 - length fn) 0 ++ le_bytes 4 (alen data) ++ data ++ post).
  assert (file_bytes (fn, data) ++ post = fn ++ 0 :: t) as Efb.
  { unfold file_bytes, t. cbn [fst snd]. rewrite <-!app_assoc. f_equal. replace (64 - length fn)%nat with (S (63 - length fn)) by lia. done. }
  pose proof (alen_nonneg data).
  assert (drop (Z.to_nat (alen pre)) (pre ++ file_bytes (fn, data) ++ post) = fn ++ 0 :: t) as ->
    by (unfold alen; rewrite Nat2Z.id, drop_app_length; done).
  rewrite bool_decide_eq_true_2 by (apply elem_of_app; right; left). cbn [negb].
  set (buf := pre ++ file_bytes (fn, data) ++ post) in *.
  assert (buf = (pre ++ fn ++ replicate (64 - length fn) 0) ++ le_bytes 4 (alen data) ++ data ++ post) as Ebuf
    by (unfold buf, file_bytes; cbn [fst snd]; by rewrite <-!app_assoc).
  assert (alen (pre ++ fn ++ replicate (64 - length fn) 0) = alen pre + 64) as Ehd
    by (unfold alen; rewrite !length_app, length_replicate; lia).
  assert (alen buf = alen pre + 68 + alen data + alen post) as Elen
    by (rewrite Ebuf, alen_app, Ehd, !alen_app, alen_le_bytes; lia).
  pose proof (alen_nonneg post). pose proof (alen_nonneg pre).
  assert (word_at buf (alen pre + 64) = Done (alen data)) as ->.
  { rewrite word_at_in by lia. f_equal. unfold get_le. rewrite Ebuf, <-Ehd, sub_skip, Z.sub_diag by lia.
    rewrite sub_head by (by rewrite alen_le_bytes). apply le_num_small. change (Z.of_nat 4) with 4. lia. }
  rewrite outcome_bind_done.
  assert (sub buf (alen pre + 64 + 4) (alen data) = data) as Esub.
  { rewrite Ebuf, app_assoc. replace (alen pre + 64 + 4) with (alen ((pre ++ fn ++ replicate (64 - length fn) 0) ++ le_bytes 4 (alen data)))
      by (rewrite alen_app, Ehd, alen_le_bytes; lia). rewrite sub_skip, Z.sub_diag by lia. by apply sub_head. }
  rewrite find_path_cstr by done. destruct (vfs_find_path v w (vfs_root v) (fn ++ [0])) as [target w1].
  rewrite Esub. rewrite ck_memory_in by lia. 
  replace (alen pre + (64 + 4 + alen data)) with (alen pre + (68 + alen data)) by lia. rewrite u32_small by lia.
  destruct (target =? 0) eqn:Et; cbn [mbind outcome_bind].
  - destruct (pkg_split_done fn t) as (dp & -> & Hc & Htm); [done| |done|].
    { unfold buf in Hb. rewrite Efb in Hb. by apply Forall_app in Hb as [_ ?]. }
    cbn [mbind outcome_bind]. rewrite (find_path_buffer v w1 (vfs_root v) dp _ Hc Htm).
    destruct (vfs_find_path v w1 (vfs_root v) ((dir_base fn).1 ++ [0])) as [dir w2].
    apply Z.eqb_eq in Et as ->. destruct (nz dir); [|done]. cbn [mbind outcome_bind].
    destruct (vfs_create w2 dir _) as [tg w3]. destruct (nz tg); reflexivity.
  - by destruct (nz target).
Qed.

Lemma install_files_done files : ∀ w pre,
  Forall file_ok files → bytes_ok (pre ++ concat (map file_bytes files)) →
  alen pre + alen (concat (map file_bytes files)) < 0x100000000 →
  install_files junk v (length files) w (pre ++ concat (map file_bytes files)) (alen pre) = Done (foldl store_file w files).
Proof.
  induction files as [|f files IH]; intros w pre Hf Hb Hmax; [done|]. apply Forall_cons in Hf as [Hf Hfs].
  cbn [length install_files map concat foldl] in *. rewrite alen_app in Hmax. pose proof (alen_nonneg (concat (map file_bytes files))).
  assert (alen (file_bytes f) = 68 + alen f.2) as Ef.
  { destruct Hf as [_ Hl]. unfold file_bytes. rewrite !alen_app, alen_replicate, alen_le_bytes. unfold alen. lia. }
  rewrite install_file_done by (done || lia). rewrite outcome_bind_done.
  specialize (IH (store_file w f) (pre ++ file_bytes f) Hfs). rewrite <-app_assoc, alen_app, Ef in IH.
  apply IH; [done|lia].
Qed.

Definition path_pieces : list piece :=
  Dir [] (Str 1) :: Lit SLASH :: Dir [] (Str 2) :: map Lit (str_bytes ".kzp").

Lemma pkg_path_done name :
  Forall (λ c, c ≠ 0) name → alen name < 100 →
  ∃ buf, pkg_path junk (name ++ [0]) = Done buf ∧ cstr buf = PKG_REPO_PATH ++ [SLASH] ++ name ++ str_bytes ".kzp" ∧ terminated buf.
Proof.
  intros Hn Hl. unfold pkg_path. pose proof (junk_len 128 ltac:(lia)) as Hj.
  set (m := λ p, if p =? 1 then PKG_REPO_PATH ++ [0] else name ++ [0]).
  assert (pieces_out m path_pieces = PKG_REPO_PATH ++ [SLASH] ++ name ++ str_bytes ".kzp") as Eo.
  { unfold path_pieces, m. cbn. rewrite (cstr_app_0 name []) by done. cbn. reflexivity. }
  change pkg_format with (pieces_text path_pieces ++ 0 :: []). change [1; 2] with (pieces_args path_pieces ++ []).
  rewrite ksprintf_spec.
  - eexists. split; [done|]. rewrite Eo. unfold splice. rewrite take_0. cbn [app]. rewrite <-app_assoc.
    set (s := _ ++ str_bytes ".kzp"). split; [|unfold terminated; apply elem_of_app; right; left].
    apply cstr_app_0. unfold s. apply Forall_cons; split; [done|]. repeat (apply Forall_cons; split; [done|]).
    apply Forall_app. split; [done|]. by repeat constructor.
  - apply junk_len. lia.
  - unfold path_pieces. repeat constructor; cbn; try done; intros _; unfold terminated; set_solver.
  - rewrite Eo, Hj, !alen_app. change (alen PKG_REPO_PATH) with 5. change (alen (str_bytes ".kzp")) with 4. change (alen [SLASH]) with 1. lia.
Qed.

End install.


(** ** A concrete run

    A file system with the directories / (node 8) and /repo (node 9), the package /repo/a.kzp
    (node 10) and new files (node 11); the state is the heap and what was written where. *)

Record demo_repo := mk_demo_repo { dr_heap : kheap; dr_written : list (Z * list Z) }.

Definition demo_package : list Z := package_bytes (replicate 48 7) [(str_bytes "/hi", [72; 105])].

#[global] Instance demo_repo_world : VfsWorld demo_repo := {|
  node_at _ p := mk_node (replicate 128 0) 0 0 0 (if p <? 10 then VFS_DIRECTORY else VFS_FILE) 0 (alen demo_package) 0
    (Some FS_DEVFS) (Some FS_DEVFS) None None None (Some FS_DEVFS) (Some FS_DEVFS) None None 0 0;
  put_node w _ _ := w;
  call_read _ w _ _ _ b := (alen demo_package, splice b 0 demo_package, w);
  call_write _ w p _ size b := (size, mk_demo_repo (dr_heap w) (dr_written w ++ [(p, b)]));
  call_open _ w _ := w;
  call_close _ w _ := w;
  call_readdir _ w _ _ := (0, w);
  call_finddir _ w p s := (if (p =? 8) && bool_decide (cstr s = str_bytes "repo") then 9
                           else if (p =? 9) && bool_decide (cstr s = str_bytes "a.kzp") then 10 else 0, w);
  call_create _ w p s := (11, w);
  call_unlink _ w _ _ := (false, w);
  call_mkdir _ w _ _ := (0, w) |}.

#[global] Instance demo_repo_heap : OnHeap demo_repo kheap := {|
  heap_of := dr_heap; on_heap h w := mk_demo_repo h (dr_written w) |}.

Definition demo_block (_ : kheap) (_ n : Z) : list Z := replicate (Z.to_nat n) 0.
Definition demo_stack (n : Z) : list Z := replicate (Z.to_nat n) 0.
Definition demo_tree : vfs := mk_vfs 8 (replicate 8 (mk_mount (replicate 128 0) 0)).

Lemma demo_stack_len n : 0 <= n → alen (demo_stack n) = n.
Proof. intros. unfold demo_stack. rewrite alen_replicate. lia. Qed.

