(* ===== verification/PkgFetch.v ===== *)
(** * core/pkg.c: downloading a package

    The server of the package manager as an interface with laws ([PkgServer]: what it answers
    to every message), and the download of Pkg.v against it: the request, the acknowledgements
    and the file names are the strings the protocol prescribes, a server that follows the
    protocol has its package stored byte for byte, and one that sends more than it announced
    makes the kernel write behind its buffer. *)

From Stdlib Require Import Ascii String.
From S2P Require Import Prelude KString Pmm Vmm Kheap Process Vfs Net Format Syscall Pkg.

(** ** Strings in buffers *)

Notation text s := (Forall (λ c, c ≠ 0) s).

Lemma splice_here (p r d : list Z) : alen d <= alen r → splice (p ++ r) (alen p) d = p ++ d ++ drop (length d) r.
Proof.
  intros Hd. unfold splice, alen. rewrite Nat2Z.id, take_app_length.
  by rewrite drop_app_ge, Nat.add_comm, Nat.add_sub by lia.
Qed.

(** A copy with room for its terminator. *)
Lemma strncpy_here p r src s n :
  cstr src = s → alen s < n <= alen r →
  ∃ t, kstrncpy (p ++ r) (alen p) src n = p ++ s ++ 0 :: t ∧ alen (s ++ 0 :: t) = alen r.
Proof.
  intros <- Hn. pose proof (alen_nonneg p). pose proof (alen_nonneg (cstr src)). set (s := cstr src) in *.
  rewrite kstrncpy_pads by (rewrite ?alen_app; lia). fold s.
  assert (take (Z.to_nat n) (s ++ replicate (Z.to_nat n) 0) = s ++ 0 :: replicate (Z.to_nat (n - alen s - 1)) 0) as ->.
  { rewrite take_app, take_ge by (unfold alen in *; lia). f_equal. rewrite take_replicate. unfold alen in *.
    replace ((Z.to_nat n - length s) `min` Z.to_nat n)%nat with (S (Z.to_nat (n - Z.of_nat (length s) - 1))) by lia. done. }
  set (d := s ++ 0 :: _). assert (alen d = n) as Hd.
  { unfold d. rewrite alen_app, alen_cons, alen_replicate. lia. }
  rewrite splice_here by lia. unfold d at 1. rewrite <-app_assoc. cbn [app]. eexists. split; [done|].
  rewrite alen_app, alen_cons, alen_app, alen_replicate. unfold alen in *. rewrite length_drop. lia.
Qed.

(** A copy that fills the room exactly, without a terminator. *)
Lemma strncpy_full p r src s :
  cstr src = s → alen s <= alen r → kstrncpy (p ++ r) (alen p) src (alen s) = p ++ s ++ drop (length s) r.
Proof.
  intros <- Hn. pose proof (alen_nonneg p). pose proof (alen_nonneg (cstr src)).
  rewrite kstrncpy_pads by (rewrite ?alen_app; lia).
  rewrite take_app_le, take_ge by (unfold alen; lia). by apply splice_here.
Qed.

Lemma put_here p (c x : Z) t : put_ck (p ++ c :: t) (alen p) x = Done (p ++ x :: t).
Proof.
  pose proof (alen_nonneg p). pose proof (alen_nonneg t). unfold put_ck. rewrite ck_memory_in by (rewrite ?alen_app, ?alen_cons; lia). f_equal.
  unfold aset. destruct (Z.ltb_spec (alen p) 0); [lia|]. unfold alen. rewrite Nat2Z.id.
  rewrite insert_app_r_alt, Nat.sub_diag by lia. done.
Qed.

Lemma len_from_here p t i : text p → 0 <= i <= alen p → len_from (p ++ 0 :: t) i = Done (alen p).
Proof.
  intros Hp Hi. unfold len_from. pose proof (alen_nonneg t).
  rewrite (proj2 (zfind_Some _ _ _ (alen p))); [done|]. rewrite alen_app, alen_cons. split; [lia|]. split.
  - rewrite aget_app_r, Z.sub_diag by lia. done.
  - intros j Hj. rewrite aget_app_l by lia. apply Z.eqb_neq. by apply (Forall_aget (λ c, c ≠ 0)); [lia|].
Qed.

(** ** The messages of the protocol *)

Lemma itoa_reverse_app d r : alen d <= 33 → itoa_reverse 32 (d ++ r) 0 (alen d - 1) = rev d ++ r.
Proof.
  intros Hd. pose proof (alen_nonneg r). apply alist_eq; [by rewrite itoa_reverse_len, !alen_app, alen_rev|].
  intros i Hi. rewrite itoa_reverse_len, alen_app in Hi. rewrite itoa_reverse_spec by (rewrite ?alen_app; lia).
  destruct (Z.leb_spec 0 i); [|lia]. destruct (Z.leb_spec i (alen d - 1)); cbn [andb].
  - rewrite !aget_app_l, aget_rev by (rewrite ?alen_rev; lia). f_equal; lia.
  - by rewrite !aget_app_r by (rewrite ?alen_rev; lia); rewrite alen_rev.
Qed.

(** The decimal numeral of an index in front of what was in the array. *)
Lemma chunk_number_spec k num : 0 <= k < 0x80000000 → alen num = 12 →
  ∃ r, chunk_number k num = (show_int k ++ r, alen (show_int k)) ∧ alen (show_int k) <= 10 ∧ alen (show_int k ++ r) = 12.
Proof.
  intros Hk Hn. unfold chunk_number, show_int, numeral. destruct (Z.ltb_spec k 0); [lia|]. destruct (Z.eqb_spec k 0) as [->|].
  - destruct num as [|c num]; [done|]. exists num. rewrite alen_cons in Hn. split; [done|]. by rewrite alen_app, alen_cons.
  - pose proof (itoa_len10 k Hk) as Hd. rewrite itoa_digits_spec by (change (Z.of_nat 32) with 32; lia). rewrite Z.add_0_l.
    set (d := map show_digit (digits 10 32 k)). assert (alen d = alen (digits 10 32 k)) as Ed by apply alen_map.
    rewrite <-Ed in *. change (splice num 0 d) with (splice ([] ++ num) (alen (A := Z) []) d).
    rewrite splice_here by lia. cbn [app]. rewrite itoa_reverse_app by lia.
    eexists. rewrite alen_app, alen_rev. split; [done|]. split; [lia|]. unfold alen in *. rewrite length_drop. lia.
Qed.

Lemma text_app s t : text s → text t → text (s ++ t).
Proof. intros. by apply Forall_app. Qed.

Section messages.
Variable junk : Z → list Z.
Hypothesis junk_len : ∀ n, 0 <= n → alen (junk n) = n.

Lemma pkg_ack_spec k : 0 <= k < 0x80000000 → pkg_ack junk k = Done (str_bytes "ACK " ++ show_int k ++ [10]).
Proof.
  intros Hk. unfold pkg_ack. pose proof (junk_len 32 ltac:(lia)) as Hj.
  destruct (strncpy_here [] (junk 32) (str_bytes "ACK " ++ [0]) (str_bytes "ACK ") 31 eq_refl) as (t & E & Ht); [rewrite Hj; by split|].
  rewrite alen_nil in E. cbn [app] in E. rewrite E. clear E. rewrite Hj, alen_app in Ht. change (alen (str_bytes "ACK ")) with 4 in Ht.
  destruct (chunk_number_spec k (junk 12) Hk (junk_len 12 ltac:(lia))) as (r & -> & Hl & Hr). set (s := show_int k) in *.
  assert (text s) as Hs by apply show_int_nonzero.
  rewrite alen_app in Hr. destruct r as [|c [|c' r]]; rewrite ?alen_cons in Hr; [change (alen []) with 0 in Hr; lia..|].
  rewrite put_here, outcome_bind_done. rewrite (cons_middle 10 s), app_assoc.
  replace (alen s + 1) with (alen (s ++ [10])) by (by rewrite alen_app). rewrite put_here, outcome_bind_done.
  assert (text (s ++ [10])) as Hs' by (apply text_app; [done|by repeat constructor]).
  destruct (strncpy_here (str_bytes "ACK ") (0 :: t) ((s ++ [10]) ++ 0 :: r) (s ++ [10]) 27) as (t' & E & Ht').
  { by apply cstr_app_0. }
  { rewrite alen_app. change (alen [10]) with 1. lia. }
  change (alen (str_bytes "ACK ")) with 4 in E. rewrite E, app_assoc.
  assert (text (str_bytes "ACK ")) as Ha by (by repeat constructor).
  rewrite len_from_here; [|by apply text_app|rewrite alen_app; change (alen (str_bytes "ACK ")) with 4; pose proof (alen_nonneg (s ++ [10])); lia].
  rewrite outcome_bind_done, sub_head by done. done.
Qed.

Lemma pkg_request_spec name : text name → alen name < 55 →
  pkg_request junk (name ++ [0]) = Done (str_bytes "GET " ++ name ++ [10]).
Proof.
  intros Hn Hl. unfold pkg_request. pose proof (junk_len 64 ltac:(lia)) as Hj.
  destruct (strncpy_here [] (junk 64) (str_bytes "GET " ++ [0]) (str_bytes "GET ") 63 eq_refl) as (t & E & Ht); [rewrite Hj; by split|].
  rewrite alen_nil in E. cbn [app] in E. rewrite E. clear E. rewrite Hj, alen_app in Ht. change (alen (str_bytes "GET ")) with 4 in Ht.
  destruct (strncpy_here (str_bytes "GET ") (0 :: t) (name ++ [0]) name 55) as (t' & E & Ht').
  { by apply cstr_app_0. }
  { lia. }
  change (alen (str_bytes "GET ")) with 4 in E. rewrite E, app_assoc. clear E.
  assert (text (str_bytes "GET " ++ name)) as Hg by (apply text_app; [by repeat constructor|done]). rewrite alen_app, alen_cons in Ht'.
  set (g := str_bytes "GET " ++ name) in *. pose proof (alen_nonneg g).
  rewrite len_from_here by (done || lia). rewrite outcome_bind_done, put_here, outcome_bind_done.
  destruct t' as [|c t']; [change (alen []) with 0 in Ht'; lia|].
  rewrite (cons_middle 10 g), app_assoc. replace (alen g + 1) with (alen (g ++ [10])) by (by rewrite alen_app).
  rewrite put_here, outcome_bind_done, sub_head by done. unfold g. by rewrite <-app_assoc.
Qed.

(** Appending the suffix of a package behind a name. *)
Lemma put_suffix p t : text p → 5 <= alen t + 1 →
  ∃ t', (kn ← len_from (p ++ 0 :: t) 0;
     if ck_memory kn 4 (alen (p ++ 0 :: t)) then put_ck (kstrncpy (p ++ 0 :: t) kn (str_bytes ".kzp" ++ [0]) 4) (kn + 4) 0 else Fault) =
    Done ((p ++ str_bytes ".kzp") ++ 0 :: t').
Proof.
  intros Hp Ht. pose proof (alen_nonneg p). rewrite len_from_here by (done || lia). rewrite outcome_bind_done.
  rewrite ck_memory_in by (rewrite ?alen_app, ?alen_cons; lia).
  pose proof (strncpy_full p (0 :: t) (str_bytes ".kzp" ++ [0]) (str_bytes ".kzp") eq_refl) as E.
  change (alen (str_bytes ".kzp")) with 4 in E. rewrite E by (rewrite alen_cons; lia). clear E.
  destruct t as [|a [|b [|c [|d t]]]]; rewrite ?alen_cons in Ht; try (change (alen []) with 0 in Ht; lia).
  change (drop (length (str_bytes ".kzp")) (0 :: a :: b :: c :: d :: t)) with (d :: t).
  rewrite app_assoc. replace (alen p + 4) with (alen (p ++ str_bytes ".kzp")) by (by rewrite alen_app). rewrite put_here. eauto.
Qed.

Lemma kzp_name_spec name : text name → alen name < 43 → ∃ t, kzp_name junk (name ++ [0]) = Done ((name ++ str_bytes ".kzp") ++ 0 :: t).
Proof.
  intros Hn Hl. unfold kzp_name. pose proof (junk_len 48 ltac:(lia)) as Hj.
  destruct (strncpy_here [] (junk 48) (name ++ [0]) name 43) as (t & E & Ht); [by apply cstr_app_0|lia|].
  rewrite alen_nil in E. cbn [app] in E. rewrite E. rewrite alen_app, alen_cons in Ht. apply put_suffix; [done|lia].
Qed.

Lemma save_path_spec name : text name → alen name < 54 →
  ∃ t, save_path junk (name ++ [0]) = Done ((PKG_REPO_PATH ++ [SLASH] ++ name ++ str_bytes ".kzp") ++ 0 :: t).
Proof.
  intros Hn Hl. unfold save_path. pose proof (junk_len 64 ltac:(lia)) as Hj.
  destruct (strncpy_here [] (junk 64) (PKG_REPO_PATH ++ [0]) PKG_REPO_PATH 63 eq_refl) as (t & E & Ht); [rewrite Hj; by split|].
  rewrite alen_nil in E. cbn [app] in E. rewrite E. clear E. rewrite Hj, alen_app, alen_cons in Ht. change (alen PKG_REPO_PATH) with 5 in Ht.
  assert (text PKG_REPO_PATH) as Hp by (by repeat constructor).
  rewrite len_from_here by (done || (change (alen PKG_REPO_PATH) with 5; lia)). rewrite outcome_bind_done, put_here, outcome_bind_done.
  change (PKG_REPO_PATH ++ SLASH :: t) with ((PKG_REPO_PATH ++ [SLASH]) ++ t). change (alen PKG_REPO_PATH + 1) with (alen (PKG_REPO_PATH ++ [SLASH])).
  destruct (strncpy_here (PKG_REPO_PATH ++ [SLASH]) t (name ++ [0]) name 55) as (t' & E & Ht'); [by apply cstr_app_0|lia|].
  rewrite E, app_assoc. clear E. rewrite alen_app, alen_cons in Ht'.
  destruct (put_suffix ((PKG_REPO_PATH ++ [SLASH]) ++ name) t') as [t2 E2].
  { apply text_app; [by repeat constructor|done]. }
  { lia. }
  rewrite E2. exists t2. by rewrite <-!app_assoc.
Qed.
End messages.

(** ** The server

    [ready n]: the server waits for a message; [pending n r]: it has answered [r].  [answer] is
    what it says to a message; a message it does not know may get lost. *)

Class PkgServer {N : Type} `{PkgLink N} (ready : N → Prop) (pending : N → list Z → Prop) (answer : list Z → option (list Z)) := {
  reach_ready n : ready n → ∃ n', srv_reach n = Done (true, n') ∧ ready n';
  send_answered n msg r : ready n → answer msg = Some r → ∃ n', srv_send n msg = Done (true, n') ∧ pending n' r;
  send_returns n msg : ready n → ∃ ok n', srv_send n msg = Done (ok, n');
  recv_pending n r buf maxlen iter :
    pending n r → 0 < iter → r ≠ [] → alen r <= maxlen <= alen buf →
    ∃ n', srv_recv n buf maxlen iter = Done (alen r, splice buf 0 r, n') ∧ ready n' }.

(** The protocol for one package: its size, then the chunks by their index. *)
Definition serves (answer : list Z → option (list Z)) (name data : list Z) : Prop :=
  answer (str_bytes "GET " ++ name ++ [10]) = Some (le_bytes 4 (alen data)) ∧
  ∀ k, 0 <= k → 512 * k < alen data →
    answer (str_bytes "ACK " ++ show_int k ++ [10]) = Some (sub data (512 * k) (Z.min 512 (alen data - 512 * k))).

Section fetch.
Context {N W H : Type} `{VfsWorld W} `{HeapAlloc H} `{!OnHeap W H}.
Context {ready : N → Prop} {pending : N → list Z → Prop} {answer : list Z → option (list Z)} `{PkgServer N ready pending answer}.
Variables (fresh : H → Z → Z → list Z) (junk : Z → list Z).
Hypothesis junk_len : ∀ n, 0 <= n → alen (junk n) = n.
Hypothesis fresh_len : ∀ h p n, 0 <= n → alen (fresh h p n) = n.
Variable v : vfs.
Implicit Types (n : N) (w : W).

(** The next chunk in the buffer, after the data before it. *)
Lemma chunk_written buf (data : list Z) off c :
  0 <= off → 0 <= c → off + c <= alen data → alen buf = alen data → sub buf 0 off = sub data 0 off →
  sub (splice buf off (sub data off c)) 0 (off + c) = sub data 0 (off + c).
Proof.
  intros Ho Hc Hl Hb Hs. assert (alen (sub data off c) = c) as Hd by (apply alen_sub; lia).
  rewrite !(sub_app _ 0 off c) by (rewrite ?alen_splice; lia). rewrite Z.add_0_l. f_equal.
  - rewrite sub_splice_ne by lia. done.
  - rewrite <-Hd at 2. rewrite sub_splice_same by lia. done.
Qed.

(** The loop of the download gets the rest of the data from any chunk on. *)
Lemma fetch_loop_done name data : serves answer name data → bytes_ok data → alen data <= PKG_MAX_FETCH_SIZE →
  ∀ fuel n buf chunk k, ready n → bytes_ok chunk → alen chunk = 528 → alen buf = alen data →
    0 <= k → 512 * k < alen data → sub buf 0 (512 * k) = sub data 0 (512 * k) → alen data - 512 * k <= Z.of_nat fuel →
    ∃ n', fetch_loop junk fuel n buf chunk (alen data) (512 * k) k = Done (Some (alen data), data, n') ∧ ready n'.
Proof.
  intros [_ Hans] Hdb Hmax. unfold PKG_MAX_FETCH_SIZE in Hmax.
  induction fuel as [|fuel IH]; intros n buf chunk k Hr Hcb Hcl Hbl Hk Hlt Hsub Hf; [lia|]. cbn [fetch_loop].
  destruct (Z.leb_spec (alen data) (512 * k)); [lia|]. rewrite pkg_ack_spec by (done || lia). rewrite outcome_bind_done.
  destruct (send_answered n _ _ Hr (Hans k Hk Hlt)) as (n1 & -> & Hp). rewrite outcome_bind_done. cbn [negb].
  set (c := Z.min 512 (alen data - 512 * k)) in *. assert (0 < c <= 512 ∧ 512 * k + c <= alen data) as [Hc Hle] by (unfold c; lia).
  assert (alen (sub data (512 * k) c) = c) as Hsl by (apply alen_sub; lia).
  destruct (recv_pending n1 _ chunk PKG_CHUNK_SIZE 3000000 Hp) as (n2 & -> & Hr2); [lia| |unfold PKG_CHUNK_SIZE; lia|].
  { intros E. rewrite E in Hsl. change (alen []) with 0 in Hsl. lia. }
  rewrite outcome_bind_done, Hsl. destruct (Z.leb_spec c 0); [lia|].
  set (chunk' := splice chunk 0 (sub data (512 * k) c)).
  assert (bytes_ok chunk') as Hcb' by (apply bytes_ok_splice; [done|by apply bytes_ok_sub]).
  assert (alen chunk' = 528) as Hcl' by (unfold chunk'; rewrite alen_splice; lia).
  assert (sub chunk' 0 c = sub data (512 * k) c) as Hcs by (unfold chunk'; rewrite <-Hsl at 2; apply sub_splice_same; lia).
  rewrite memcpy_ck_spec by (done || lia). rewrite outcome_bind_done, Hcs.
  assert (alen (splice buf (512 * k) (sub data (512 * k) c)) = alen data) as Hbl' by (rewrite alen_splice; lia).
  pose proof (chunk_written buf data (512 * k) c ltac:(lia) ltac:(lia) Hle Hbl Hsub) as Hw.
  rewrite !u32_small by lia. set (buf' := splice buf _ _) in *.
  assert (512 * k + c = alen data → buf' = data) as Hfull.
  { intros E. rewrite E in Hw. rewrite <-Hbl' in Hw at 1. by rewrite !sub_full in Hw. }
  unfold PKG_CHUNK_SIZE. destruct (Z.ltb_spec c 512).
  { rewrite Hfull by (unfold c in *; lia). exists n2. split; [|done]. do 4 f_equal. unfold c in *. lia. }
  replace (512 * k + c) with (512 * (k + 1)) in * by lia.
  destruct (decide (512 * (k + 1) < alen data)).
  { apply IH; (done || lia). }
  exists n2. split; [|done]. rewrite Hfull by lia. assert (512 * (k + 1) = alen data) as -> by lia.
  destruct fuel; cbn [fetch_loop]; by rewrite Z.leb_refl.
Qed.

(** What the repository holds after the download: the package in the file of its name, made
    with the name in [file] when it is not there. *)
Definition store_package w (name file data : list Z) : bool * W :=
  let '(repo, w) := vfs_find_path v w (vfs_root v) (PKG_REPO_PATH ++ [0]) in
  if repo =? 0 then (false, w)
  else
    let '(node, w) := vfs_find_path v w (vfs_root v) ((PKG_REPO_PATH ++ [SLASH] ++ name ++ str_bytes ".kzp") ++ [0]) in
    let '(node, w) := if node =? 0 then vfs_create w repo file else (node, w) in
    if node =? 0 then (false, w) else (true, (vfs_write w node 0 (alen data) data).2).

Lemma pkg_store_done w name data : text name → alen name < 43 →
  ∃ t, let file := (name ++ str_bytes ".kzp") ++ 0 :: t in
    pkg_store junk v w (name ++ [0]) data (alen data) = Done (store_package w name file data).
Proof.
  intros Hn Hl. destruct (kzp_name_spec junk junk_len name Hn Hl) as [t Et]. exists t. cbn zeta.
  destruct (save_path_spec junk junk_len name Hn) as [t' Es]; [lia|]. unfold pkg_store, store_package. rewrite Es, outcome_bind_done.
  destruct (vfs_find_path v w (vfs_root v) (PKG_REPO_PATH ++ [0])) as [repo w1]. destruct (repo =? 0); [done|].
  rewrite Et, outcome_bind_done, find_path_cstr.
  - destruct (vfs_find_path v w1 _ _) as [node w2]. destruct (node =? 0).
    + destruct (vfs_create _ _ _) as [nd w3]. rewrite sub_full. by destruct (nd =? 0).
    + rewrite sub_full. by destruct (node =? 0).
  - apply text_app; [by repeat constructor|]. apply text_app; [by repeat constructor|]. apply text_app; [done|by repeat constructor].
Qed.

(** The request is answered with the size of the package. *)
Lemma size_received n hdr_buf size : pending n (le_bytes 4 size) → 0 <= size < 0x100000000 → alen hdr_buf = 16 →
  ∃ n' hdr, srv_recv n hdr_buf 16 2000000 = Done (4, hdr, n') ∧ get_le 4 hdr 0 = size ∧ ready n'.
Proof.
  intros Hp Hs Hl. destruct (recv_pending n _ hdr_buf 16 2000000 Hp) as (n' & -> & Hr); [lia|by destruct (le_bytes 4 size) eqn:E|rewrite alen_le_bytes; lia|].
  do 2 eexists. rewrite alen_le_bytes. split; [done|]. split; [|done]. unfold get_le.
  assert (alen (le_bytes 4 size) = 4) as E by (by rewrite alen_le_bytes).
  change (Z.of_nat 4) with 4. rewrite <-E at 1. rewrite sub_splice_same by lia. apply le_num_small. change (Z.of_nat 4) with 4. lia.
Qed.

(** The exchange up to the loop: the size is announced and the buffer allocated. *)
Lemma fetch_opening n w name size hdr_buf chunk_buf buf w1 :
  ready n → answer (str_bytes "GET " ++ name ++ [10]) = Some (le_bytes 4 size) → text name → alen name < 43 →
  0 < size <= PKG_MAX_FETCH_SIZE → alen hdr_buf = 16 → kmalloc_fs w size = (buf, w1) → buf ≠ 0 →
  ∃ n', ready n' ∧
    pkg_fetch fresh junk v n w (name ++ [0]) hdr_buf chunk_buf =
      ('(received, pkg_buf, n) ← fetch_loop junk (Z.to_nat size) n' (fresh (heap_of w1) buf size) chunk_buf size 0 0;
       match received with
       | None => Done (false, n, kfree_fs w1 buf)
       | Some received =>
           '(_, n) ← srv_send n (str_bytes "DONE" ++ [10]);
           '(ok, w) ← pkg_store junk v w1 (name ++ [0]) pkg_buf received;
           Done (ok, n, kfree_fs w buf)
       end).
Proof.
  intros Hr Hget Hn Hnl Hs Hh Em Hb. unfold pkg_fetch. unfold PKG_MAX_FETCH_SIZE in *.
  destruct (reach_ready n Hr) as (n1 & -> & Hr1). rewrite outcome_bind_done. cbn [negb].
  rewrite pkg_request_spec by (done || lia). rewrite outcome_bind_done.
  destruct (send_answered n1 _ _ Hr1 Hget) as (n2 & -> & Hp). rewrite outcome_bind_done. cbn [negb].
  destruct (size_received n2 hdr_buf size Hp ltac:(lia) Hh) as (n3 & hdr & -> & Es & Hr3). rewrite outcome_bind_done, Es.
  change (4 <? 4) with false. cbn match.
  destruct (Z.eqb_spec size 0); [lia|]. destruct (Z.ltb_spec (256 * 1024) size); [lia|]. cbn [orb].
  rewrite Em, (proj2 (Z.eqb_neq buf 0) Hb). eauto.
Qed.

(** C23: Downloading a package from a server that follows the protocol (it answers the request
    with the size and the acknowledgement of every chunk index with that chunk of at most 512
    bytes) ends, and stores exactly the bytes of the package in its file of the repository,
    whatever the length of the last chunk; the buffer is freed. *)
Theorem pkg_fetch_stores n w name data hdr_buf chunk_buf buf w1 :
  ready n → serves answer name data → text name → alen name < 43 → bytes_ok data → 0 < alen data <= PKG_MAX_FETCH_SIZE →
  alen hdr_buf = 16 → alen chunk_buf = 528 → bytes_ok chunk_buf →
  kmalloc_fs w (alen data) = (buf, w1) → buf ≠ 0 →
  ∃ n' t, let file := (name ++ str_bytes ".kzp") ++ 0 :: t in
    pkg_fetch fresh junk v n w (name ++ [0]) hdr_buf chunk_buf =
      Done ((store_package w1 name file data).1, n', kfree_fs (store_package w1 name file data).2 buf).
Proof.
  intros Hr Hsv Hn Hnl Hdb Hd Hh Hc Hcb Em Hb. pose proof Hsv as [Hget _].
  destruct (fetch_opening n w name (alen data) hdr_buf chunk_buf buf w1) as (n1 & Hr1 & ->); try done.
  destruct (fetch_loop_done name data Hsv Hdb ltac:(lia) (Z.to_nat (alen data)) n1
    (fresh (heap_of w1) buf (alen data)) chunk_buf 0) as (n2 & E2 & Hr2); try (done || lia).
  { apply fresh_len. lia. }
  change (512 * 0) with 0 in E2. rewrite E2, outcome_bind_done.
  destruct (send_returns n2 (str_bytes "DONE" ++ [10]) Hr2) as (ok & n3 & ->). rewrite outcome_bind_done.
  destruct (pkg_store_done w1 name data Hn Hnl) as [t Et]. cbn zeta in Et. exists n3, t. cbn zeta. rewrite Et, outcome_bind_done.
  by destruct (store_package w1 name _ data) as [ok' w2].
Qed.

(** A server that announces a size and then sends a first chunk longer than that makes the
    kernel write behind the buffer it allocated: the length of a chunk is not checked. *)
Theorem pkg_fetch_overrun n w name size chunk hdr_buf chunk_buf buf w1 :
  ready n → answer (str_bytes "GET " ++ name ++ [10]) = Some (le_bytes 4 size) →
  answer (str_bytes "ACK 0" ++ [10]) = Some chunk → text name → alen name < 43 →
  0 < size <= PKG_MAX_FETCH_SIZE → size < alen chunk <= 512 →
  alen hdr_buf = 16 → alen chunk_buf = 528 → kmalloc_fs w size = (buf, w1) → buf ≠ 0 →
  pkg_fetch fresh junk v n w (name ++ [0]) hdr_buf chunk_buf = Fault.
Proof.
  intros Hr Hget Hack Hn Hnl Hs Hch Hh Hc Em Hb.
  destruct (fetch_opening n w name size hdr_buf chunk_buf buf w1) as (n1 & Hr1 & ->); try done.
  destruct (Z.to_nat size) as [|f] eqn:Ef; [lia|]. cbn [fetch_loop].
  destruct (Z.leb_spec size 0); [lia|]. rewrite pkg_ack_spec by (done || lia). rewrite outcome_bind_done.
  change (str_bytes "ACK " ++ show_int 0 ++ [10]) with (str_bytes "ACK 0" ++ [10]).
  destruct (send_answered n1 _ _ Hr1 Hack) as (n4 & -> & Hp4). rewrite outcome_bind_done. cbn [negb].
  destruct (recv_pending n4 _ chunk_buf PKG_CHUNK_SIZE 3000000 Hp4) as (n5 & -> & Hr5); [lia| |unfold PKG_CHUNK_SIZE; lia|].
  { intros ->. change (alen []) with 0 in Hch. lia. }
  rewrite outcome_bind_done. destruct (Z.leb_spec (alen chunk) 0); [lia|].
  rewrite memcpy_ck_fault; [done|]. right. left. rewrite fresh_len by lia. lia.
Qed.
End fetch.

(** ** Concrete runs

    A server of the package b with three bytes; asked for c it announces one byte. *)

Record wire_end := mk_wire { inbox : option (list Z) }.

Definition demo_answer (msg : list Z) : option (list Z) :=
  if bool_decide (msg = str_bytes "GET b" ++ [10]) then Some (le_bytes 4 3)
  else if bool_decide (msg = str_bytes "GET c" ++ [10]) then Some (le_bytes 4 1)
  else if bool_decide (msg = str_bytes "ACK 0" ++ [10]) then Some [1; 2; 3]
  else None.

#[global] Instance demo_link : PkgLink wire_end := {|
  srv_reach n := Done (true, n);
  srv_send n msg := Done (true, mk_wire (demo_answer msg));
  srv_recv n buf maxlen iter :=
    match inbox n with Some r => Done (alen r, splice buf 0 r, mk_wire None) | None => Done (0, buf, n) end |}.

#[global] Instance demo_server : PkgServer (N := wire_end) (λ n, inbox n = None) (λ n r, inbox n = Some r) demo_answer.
Proof.
  split.
  - intros n Hn. by exists n.
  - intros n msg r _ E. eexists. split; [done|]. exact E.
  - intros n msg _. by do 2 eexists.
  - intros n r buf maxlen iter Hp _ _ _. exists (mk_wire None). cbn. by rewrite Hp.
Qed.

Lemma demo_block_len (h : kheap) (p n : Z) : 0 <= n → alen (demo_block h p n) = n.
Proof. intros. unfold demo_block. rewrite alen_replicate. lia. Qed.

Lemma demo_serves : serves demo_answer (str_bytes "b") [1; 2; 3].
Proof.
  split; [by vm_compute|]. intros k Hk Hl. change (alen [1; 2; 3]) with 3 in *. replace k with 0 by lia. by vm_compute.
Qed.

Lemma pkg_fetch_stores_witness :
  ∃ n' w', pkg_fetch demo_block demo_stack demo_tree (mk_wire None) (mk_demo_repo demo_kheap []) (str_bytes "b" ++ [0])
      (replicate 16 0) (replicate 528 0) = Done (true, n', w') ∧
    dr_written w' = [(11, [1; 2; 3])].
Proof.
  destruct (kmalloc_fs (mk_demo_repo demo_kheap []) (alen [1; 2; 3])) as [buf w1] eqn:Em.
  destruct (pkg_fetch_stores demo_block demo_stack demo_stack_len demo_block_len demo_tree (mk_wire None)
    (mk_demo_repo demo_kheap []) (str_bytes "b") [1; 2; 3] (replicate 16 0) (replicate 528 0) buf w1) as (n' & t & E).
  - reflexivity.
  - exact demo_serves.
  - clear. by repeat constructor.
  - reflexivity.
  - clear. by repeat constructor.
  - clear. by vm_compute.
  - reflexivity.
  - reflexivity.
  - apply bytes_ok_b. reflexivity.
  - exact Em.
  - apply (f_equal fst) in Em. cbn [fst] in Em. rewrite <-Em. by vm_compute.
  - cbn zeta in E. do 2 eexists. split; [exact E|].
    apply (f_equal (λ x, dr_written x.2)) in Em. cbn [snd] in Em. destruct w1 as [h l]. cbn in Em. rewrite <-Em. by vm_compute.
Defined.

Lemma pkg_fetch_overrun_witness :
  pkg_fetch demo_block demo_stack demo_tree (mk_wire None) (mk_demo_repo demo_kheap []) (str_bytes "c" ++ [0])
    (replicate 16 0) (replicate 528 0) = Fault.
Proof.
  destruct (kmalloc_fs (mk_demo_repo demo_kheap []) 1) as [buf w1] eqn:Em.
  apply (pkg_fetch_overrun demo_block demo_stack demo_stack_len demo_block_len demo_tree (mk_wire None)
    (mk_demo_repo demo_kheap []) (str_bytes "c") 1 [1; 2; 3] (replicate 16 0) (replicate 528 0) buf w1); first [exact Em|clear; done|idtac].
  - clear. by repeat constructor.
  - apply (f_equal fst) in Em. cbn [fst] in Em. rewrite <-Em. by vm_compute.
Defined.
