(* ===== verification/Shell.v ===== *)
(** * core/shell.c: the kernel's command line

    The line editor with its history and completion, and the commands.  What the shell calls is
    the interface [ShellEnv]: the console, the keyboard, system calls from the kernel, the
    package manager and the network; [kernel_env] implements it with the components of the
    kernel.  Arrays on the stack start with arbitrary bytes and every access to them is checked.

    The theorems: the editor is a plain line with a list of past lines; an address that was set
    is displayed again, with the broadcast address of its network; and a command that is not
    built in never runs, because the system call rejects the kernel's own pointers. *)

From Stdlib Require Import Ascii String.
From S2P Require Import Prelude Queues KString Pmm Vmm Kheap Process Vfs Net Dns Format Serial Vga Syscall Input Pkg PkgFetch.

Definition SHELL_BUFFER_SIZE : Z := 256.
Definition SHELL_HISTORY_MAX : Z := 16.

Record shell := mk_shell {
  input_buffer : list Z; buffer_index : Z;
  history : list (list Z); history_count : Z; history_pos : Z }.

Definition w_buffer (b : list Z) (i : Z) (s : shell) : shell := mk_shell b i (history s) (history_count s) (history_pos s).
Definition w_pos (p : Z) (s : shell) : shell := mk_shell (input_buffer s) (buffer_index s) (history s) (history_count s) p.

(** ** History *)

Definition history_push (s : shell) (cmd : list Z) : shell :=
  if strlen cmd =? 0 then s
  else if (0 <? history_count s) && (strcmp ((history s).[Z.rem (history_count s - 1) SHELL_HISTORY_MAX]) cmd =? 0) then s
  else
    let idx := Z.rem (history_count s) SHELL_HISTORY_MAX in
    let row := (kstrncpy ((history s).[idx]) 0 cmd (SHELL_BUFFER_SIZE - 1)).[SHELL_BUFFER_SIZE - 1 <- 0] in
    mk_shell (input_buffer s) (buffer_index s) ((history s).[idx <- row]) (s32 (u32 (history_count s + 1))) (history_pos s).

Definition history_get (s : shell) (offset : Z) : option (list Z) :=
  if (offset <? 0) || (history_count s <=? offset) then None
  else if SHELL_HISTORY_MAX <=? offset then None
  else
    let idx := history_count s - 1 - offset in
    if idx <? 0 then None else Some ((history s).[Z.rem idx SHELL_HISTORY_MAX]).

Definition builtin_commands : list (list Z) :=
  map str_bytes ["help"; "ls"; "clear"; "reboot"; "shutdown"; "about"; "chmod"; "pkg"; "ping"; "cat"; "echo"; "ifconfig"; "nslookup"]%string.

(** The characters before the first blank, at most [n]: of a string, and of the line, which has
    no terminator. *)
Fixpoint first_word (n : nat) (l : list Z) : list Z :=
  match n, l with
  | S n', c :: l' => if (c =? 32) || (c =? 0) then [] else c :: first_word n' l'
  | _, _ => []
  end.
Fixpoint tab_prefix (n : nat) (l : list Z) : list Z :=
  match n, l with
  | S n', c :: l' => if c =? 32 then [] else c :: tab_prefix n' l'
  | _, _ => []
  end.
Fixpoint skip_blanks (l : list Z) : list Z :=
  match l with c :: l' => if c =? 32 then skip_blanks l' else l | [] => [] end.

(** ** Numbers *)

(** [while ( *s >= '0' && *s <= '9') a = a * 10 + ( *s++ - '0')] in 32 bits. *)
Fixpoint dec_run (a : Z) (s : list Z) : Z * list Z :=
  match s with
  | c :: s' => if is_digit c then dec_run (u32 (a * 10 + (c - ch "0"))) s' else (a, s)
  | [] => (a, [])
  end.
Definition skip_dot (s : list Z) : list Z := match s with c :: s' => if c =? ch "." then s' else s | [] => [] end.
Definition parse_ip (s : list Z) : Z * Z * Z * Z :=
  let '(a, s) := dec_run 0 s in
  let '(b, s) := dec_run 0 (skip_dot s) in
  let '(c, s) := dec_run 0 (skip_dot s) in
  let '(d, s) := dec_run 0 (skip_dot s) in
  (a, b, c, d).
Definition pack_ip (q : Z * Z * Z * Z) : Z :=
  let '(a, b, c, d) := q in
  Z.lor (Z.lor (Z.lor a (u32 (Z.shiftl b 8))) (u32 (Z.shiftl c 16))) (u32 (Z.shiftl d 24)).

(** [mode = (mode << 3) | digit] for the octal digits of the string, the rest skipped. *)
Fixpoint octal_run (mode : Z) (s : list Z) : Z :=
  match s with
  | [] => mode
  | c :: s' => octal_run (if (ch "0" <=? c) && (c <=? ch "7") then Z.lor (u32 (Z.shiftl mode 3)) (c - ch "0") else mode) s'
  end.

(** ** The rest of the kernel *)

Record netcfg := mk_cfg { net_ip : Z; net_gateway_ip : Z; net_netmask : Z; net_bcast_ip : Z }.

Class ShellEnv (K : Type) := {
  sh_printf : K → (Z → list Z) → list Z → list Z → outcome K;
  sh_color : K → Z → K;
  sh_clear : K → K;
  sh_special : K → Z * K;
  sh_getc : K → Z * K;
  sh_reboot : K → outcome K;
  sh_shutdown : K → outcome K;
  sh_root : K → bool;
  sh_ls : K → outcome K;
  (* [int $0x80] with eax, ebx and ecx; the strings at the pointers *)
  sh_syscall : K → (Z → list Z) → Z → Z → Z → outcome (Z * K);
  sh_pkg_list : K → outcome K;
  sh_pkg_install : K → list Z → outcome K;
  sh_pkg_info : K → list Z → outcome K;
  sh_pkg_remote_list : K → outcome K;
  sh_pkg_fetch : K → list Z → outcome K;
  sh_cfg : K → netcfg;
  sh_set_cfg : K → netcfg → K;
  sh_arp_request : K → Z → outcome K;
  sh_arp_known : K → Z → bool;
  sh_yield : K → K;
  sh_icmp : K → Z → outcome (bool * K);
  sh_resolve : K → list Z → outcome (option Z * K);
  (* whether the network is ready, and the vendor and address of the card it is bound to *)
  sh_nic : K → option (option (Z * list Z)) }.

(** What a command leaves: the shell goes on, or the machine was stopped. *)
Inductive shell_step (K : Type) := Continues (s : shell) (k : K) | Stops (k : K).
Arguments Continues {K}.
Arguments Stops {K}.

(** ** Printing

    The literals are written as in the source, with its escapes. *)

Fixpoint unescape (l : list Z) : list Z :=
  match l with
  | [] => []
  | c :: l' =>
      if c =? 92 then
        match l' with
        | [] => [c]
        | d :: l'' => (if d =? ch "n" then 10 else if d =? ch "b" then 8 else d) :: unescape l''
        end
      else c :: unescape l'
  end.
Definition c_string (s : string) : list Z := unescape (str_bytes s) ++ [0].

Definition logo_lines : list string := [
    "  /$$   /$$ /$$                                                /$$$$$$   /$$$$$$ \n";
    " | $$  /$$/| $$                                               /$$__  $$ /$$__  $$\n";
    " | $$ /$$/ | $$$$$$$   /$$$$$$  /$$$$$$$$  /$$$$$$   /$$$$$$ | $$  \\ $$| $$  \\__/\n";
    " | $$$$$/  | $$__  $$ |____  $$|____ /$$/ |____  $$ /$$__  $$| $$  | $$|  $$$$$$ \n";
    " | $$  $$  | $$  \\ $$  /$$$$$$$   /$$$$/   /$$$$$$$| $$  \\__/| $$  | $$ \\____  $$\n";
    " | $$\\  $$ | $$  | $$ /$$__  $$  /$$__/   /$$__  $$| $$      | $$  | $$ /$$  \\ $$\n";
    " | $$ \\  $$| $$  | $$|  $$$$$$$ /$$$$$$$$|  $$$$$$$| $$      |  $$$$$$/|  $$$$$$/\n";
    " |__/  \\__/|__/  |__/ \\_______/|________/ \\_______/|__/       \\______/  \\______/ \n"]%string.
Definition logo_end : list string := [
    "      Khazar OS [Version 0.2.0] - Khazar terminalina xos geldiniz!\n";
    "      Tip 'help' for commands. Use UP/DOWN for history, TAB to complete.\n\n"]%string.
Definition help_title : string := "\n=== Khazar OS Shell Komandaları ===\n\n".
Definition help_lines : list string := [
    "  help              - Bu mesajı göster\n";
    "  ls                - Disk üzərindəki faylları siyahıla\n";
    "  clear             - Ekranı təmizlə\n";
    "  reboot            - Sistemi yenidən başlat\n";
    "  shutdown          - Sistemi bağla\n";
    "  about             - Khazar OS haqqında\n";
    "  chmod <mod> <yol> - Fayl icazələrini dəyiş\n";
    "  pkg list          - Quraşdırılmış paketlər\n";
    "  pkg install <ad>  - Lokal paket quraşdır\n";
    "  pkg update        - Uzaq paket siyahısını yenilə\n";
    "  pkg fetch <ad>    - Paketi serverdən yüklə\n";
    "  ping <ip>         - Standart ICMP ping göndər\n";
    "  ifconfig          - Şəbəkə parametrlərinə bax / dəyiş\n";
    "  nslookup <host>   - Domain adını IP-yə həll et (DNS)\n";
    "  sysinfo           - Sistem məlumatları\n";
    "  [komanda]         - Userland PE binary icra et\n\n"]%string.
Definition help_keys : string := "  [TAB] = tamamla  |  [UP/DOWN] = tarix  |  [BKSP] = sil\n\n".
Definition sysinfo_title : string := "\n=== Sistem Məlumatları ===\n".
Definition sysinfo_lines : list string := [
    "  OS:        Khazar OS v0.2.0\n";
    "  Arch:      x86 (32-bit Protected Mode)\n";
    "  Kernel:    Monolithic, Custom\n";
    "  FS:        FAT32 over ATA/LBA28 PIO\n";
    "  GUI:       VBE VESA Framebuffer @ 1024x768x32\n"]%string.
Definition about_title : string := "\n=== Khazar OS v0.2.0 ===\n".
Definition about_lines : list string := [
    "  Professionally crafted 32-bit operating system.\n";
    "  Features:\n";
    "    - Custom bootloader (GRUB Multiboot)\n";
    "    - x86 Protected Mode with GDT/IDT/ISR\n";
    "    - Physical & Virtual Memory Manager\n";
    "    - Preemptive process scheduler\n";
    "    - VBE VESA GUI with Window Manager\n";
    "    - ATA disk driver (LBA28 PIO)\n";
    "    - FAT32 filesystem with VFS layer\n";
    "    - Network stack (E1000, ARP, IPv4, UDP)\n";
    "    - Package manager (.kzp format)\n";
    "    - PE executable loader\n\n"]%string.

Definition light_green : Z := vga_entry_color 10 0.
Definition light_cyan : Z := vga_entry_color 11 0.
Definition light_red : Z := vga_entry_color 12 0.
Definition dark_grey : Z := vga_entry_color 8 0.
Definition white : Z := vga_entry_color 15 0.

Section shell.
Context {K : Type} `{ShellEnv K}.
(** Where the kernel has [input_buffer] and the array [full_path] of the stack. *)
Variables (buffer_addr path_addr : Z).
(** The bytes of an uninitialised array. *)
Variable junk : Z → list Z.
Implicit Types (s : shell) (k : K).

(** [kprintf] of a literal, of a format with one string, and with numbers. *)
Definition say k (fmt : string) : outcome K := sh_printf k (λ _, []) (c_string fmt) [].
Definition say_str k (fmt : string) (t : list Z) : outcome K := sh_printf k (λ _, t) (c_string fmt) [1].
Definition say_num k (fmt : string) (args : list Z) : outcome K := sh_printf k (λ _, []) (c_string fmt) args.
Fixpoint say_all k (l : list string) : outcome K :=
  match l with [] => Done k | t :: l' => k ← say k t; say_all k l' end.
Definition say_in k (color : Z) (fmt : string) : outcome K :=
  k ← say (sh_color k color) fmt; Done (sh_color k white).

Definition shell_print_logo k : outcome K :=
  k ← say_all (sh_color k light_cyan) logo_lines;
  say_all (sh_color k white) logo_end.

Definition shell_prompt k : outcome K := say_in k light_green "khazar> ".

(** ** The line *)

Fixpoint complete s k (rest : list Z) : outcome (shell * K) :=
  match rest with
  | [] => Done (s, k)
  | c :: rest' =>
      if buffer_index s <? SHELL_BUFFER_SIZE - 2 then
        k ← say_num k "%c" [c];
        complete (w_buffer ((input_buffer s).[buffer_index s <- c]) (buffer_index s + 1) s) k rest'
      else Done (s, k)
  end.

Fixpoint say_list k (l : list (list Z)) : outcome K :=
  match l with [] => Done k | m :: l' => k ← say_str k "  %s\n" (m ++ [0]); say_list k l' end.

Definition matches (prefix : list Z) : list (list Z) :=
  List.filter (λ cmd, strncmp (cmd ++ [0]) (prefix ++ [0]) (length prefix) =? 0) builtin_commands.

Definition shell_tab_complete s k : outcome (shell * K) :=
  if buffer_index s =? 0 then Done (s, k)
  else
    let prefix := tab_prefix 31 (take (Z.to_nat (buffer_index s)) (input_buffer s)) in
    if alen prefix =? 0 then Done (s, k)
    else
      match matches prefix with
      | [] => Done (s, k)
      | [last_match] =>
          '(s, k) ← complete s k (drop (length prefix) last_match);
          if buffer_index s <? SHELL_BUFFER_SIZE - 2 then
            k ← say k " ";
            Done (w_buffer ((input_buffer s).[buffer_index s <- 32]) (buffer_index s + 1) s, k)
          else Done (s, k)
      | many =>
          k ← say k "\n";
          k ← say_list k many;
          k ← say_in k light_green "khazar> ";
          k ← say_str k "%s" (input_buffer s);
          Done (s, k)
      end.

Fixpoint say_backspaces (n : nat) k : outcome K :=
  match n with O => Done k | S n' => k ← say k "\b"; say_backspaces n' k end.

Definition shell_clear_line s k : outcome (shell * K) :=
  k ← say_backspaces (Z.to_nat (buffer_index s)) k;
  Done (w_buffer ((input_buffer s).[0 <- 0]) 0 s, k).

(** [kstrncpy(input_buffer, entry, 255); buffer_index = strlen(input_buffer); kprintf("%s", input_buffer)] *)
Definition recall s k (entry : list Z) : outcome (shell * K) :=
  let b := kstrncpy (input_buffer s) 0 entry (SHELL_BUFFER_SIZE - 1) in
  n ← len_from b 0;
  k ← say_str k "%s" b;
  Done (w_buffer b n s, k).

(** ** The commands *)

Definition is_cmd (command : list Z) (name : string) : bool := strcmp command (str_bytes name ++ [0]) =? 0.
Definition starts (command : list Z) (name : string) : bool :=
  strncmp command (str_bytes name ++ [0]) (length (str_bytes name)) =? 0.
Definition from (command : list Z) (n : Z) : list Z := drop (Z.to_nat n) command.

Definition cmd_help k : outcome K :=
  k ← say_in k light_cyan help_title;
  k ← say_all k help_lines;
  say_in k dark_grey help_keys.

Definition cmd_sysinfo k : outcome K :=
  k ← say_in k light_cyan sysinfo_title;
  k ← say_all k (take 5 sysinfo_lines);
  k ← match sh_nic k with
      | Some (Some (vendor, mac)) =>
          let dname := if vendor =? 0x10EC then str_bytes "Realtek RTL8136"
                       else if vendor =? 0x8086 then str_bytes "Intel E1000" else str_bytes "Unknown" in
          sh_printf k (λ _, dname ++ [0]) (c_string "  Network:   %s (%02X:%02X:%02X:%02X:%02X:%02X)\n") (1 :: take 6 mac)
      | Some None => say k "  Network:   None (Not bound)\n"
      | None => say k "  Network:   None (Not active)\n"
      end;
  say k "  Shell:     Built-in with history & tab-complete\n\n".

Definition cmd_about k : outcome K :=
  k ← say_in k light_cyan about_title;
  say_all k about_lines.

Definition cmd_ls k : outcome K :=
  if sh_root k then sh_ls k else say k "ls: Fayl sistemi mövcud deyil.\n".

(** The first blank behind [chmod ] becomes a terminator, in the input buffer itself. *)
Definition cmd_chmod s k : outcome (shell * K) :=
  let command := input_buffer s in
  match zfind (λ i, (command.[i] =? 32) || (command.[i] =? 0)) 6 (Z.to_nat (alen command - 6)) with
  | None => Fault
  | Some i =>
      if command.[i] =? 0 then
        k ← say k "İstifadə: chmod <octal_mod> <yol>\n"; Done (s, k)
      else
        let command := command.[i <- 0] in
        let s := w_buffer command (buffer_index s) s in
        let path := from command (i + 1) in
        let mode := octal_run 0 (cstr (from command 6)) in
        '(ret, k) ← sh_syscall k (λ p, from command (p - buffer_addr)) 15 (u32 (buffer_addr + (i + 1))) mode;
        k ← (if ret =? 0 then sh_printf k (λ _, path) (c_string "chmod: %s icazəsi %o olaraq dəyişdirildi.\n") [1; mode]
             else say_str k "chmod: %s üçün icazə dəyişdirilə bilmədi.\n" path);
        Done (s, k)
  end.

Definition cmd_pkg k (command : list Z) : outcome K :=
  let subcmd := from command 4 in
  if strlen command <=? 4 then say k "İstifadə: pkg [list|install|info|update|fetch] [ad]\n"
  else if starts subcmd "list" then sh_pkg_list k
  else if starts subcmd "install " then sh_pkg_install k (from subcmd 8)
  else if starts subcmd "info " then sh_pkg_info k (from subcmd 5)
  else if is_cmd subcmd "update" then sh_pkg_remote_list k
  else if starts subcmd "fetch " then
    let pkg_name := from subcmd 6 in
    if strlen pkg_name =? 0 then say k "İstifadə: pkg fetch <ad>\n" else sh_pkg_fetch k pkg_name
  else say k "pkg: Naməlum alt komanda. 'help' yazmağa cəhd edin.\n".

(** Whether the address gets resolved within [n] turns. *)
Fixpoint wait_arp (n : nat) k (ip : Z) : bool * K :=
  match n with
  | O => (false, k)
  | S n' => if sh_arp_known k ip then (true, k) else wait_arp n' (sh_yield k) ip
  end.

Definition ip_args (q : Z * Z * Z * Z) : list Z := let '(a, b, c, d) := q in [a; b; c; d].

Definition cmd_ping k (command : list Z) : outcome K :=
  let q := parse_ip (from command 5) in
  let dst_ip := pack_ip q in
  k ← say_num k "ping: ARP həll edilir %d.%d.%d.%d...\n" (ip_args q);
  '(got_arp, k) ← (if (dst_ip =? 0x0100007F) || (dst_ip =? net_ip (sh_cfg k)) then Done (true, k)
                   else k ← sh_arp_request k dst_ip; Done (wait_arp (Z.to_nat 500000) k dst_ip));
  if (got_arp : bool) then
    '(ok, k) ← sh_icmp k dst_ip;
    if (ok : bool) then Done k else say k "ping: ICMP göndərmə uğursuz oldu\n"
  else say_num k "ping: %d.%d.%d.%d-dən ARP cavabı gəlmədi\n" (ip_args q).

(** [(ip >> 0) & 0xFF, ..., (ip >> 24) & 0xFF] *)
Definition octets (ip : Z) : list Z := map (λ n, Z.land (Z.shiftr ip n) 0xFF) [0; 8; 16; 24].

Definition cmd_ifconfig k (command : list Z) : outcome K :=
  let args := skip_blanks (from command 8) in
  if hd0 args =? 0 then
    k ← say k "\n=== Şəbəkə Konfiqurasiyası ===\n";
    k ← say_num k "  IP Ünvanı: %d.%d.%d.%d\n" (octets (net_ip (sh_cfg k)));
    k ← say_num k "  Şlüz (GW): %d.%d.%d.%d\n" (octets (net_gateway_ip (sh_cfg k)));
    k ← say_num k "  Mask (NM): %d.%d.%d.%d\n" (octets (net_netmask (sh_cfg k)));
    say_num k "  Yayını  (BC): %d.%d.%d.%d\n\n" (octets (net_bcast_ip (sh_cfg k)))
  else
    let ip_str := first_word 31 args in
    let p := skip_blanks (drop (length ip_str) args) in
    let gw_str := first_word 31 p in
    let p := skip_blanks (drop (length gw_str) p) in
    let nm_str := first_word 31 p in
    if alen ip_str =? 0 then say k "İstifadə: ifconfig [<ip> <gw> <mask>]\n"
    else
      let cfg := sh_cfg k in
      let ip := pack_ip (parse_ip ip_str) in
      let gw := if negb (alen gw_str =? 0) then pack_ip (parse_ip gw_str) else net_gateway_ip cfg in
      let nm := if negb (alen nm_str =? 0) then pack_ip (parse_ip nm_str) else net_netmask cfg in
      let k := sh_set_cfg k (mk_cfg ip gw nm (Z.lor (Z.land ip nm) (u32 (Z.lnot nm)))) in
      say_in k light_green "ifconfig: Şəbəkə konfiqurasiyası uğurla yeniləndi!\n".

Definition cmd_nslookup k (command : list Z) : outcome K :=
  let hostname := skip_blanks (from command 9) in
  if hd0 hostname =? 0 then say k "İstifadə: nslookup <domain_adı>\n"
  else
    k ← say_str k "nslookup: '%s' həll edilir (Google DNS 8.8.8.8)... \n" hostname;
    '(r, k) ← sh_resolve k hostname;
    match r with
    | Some ip =>
        k ← say_in k light_green "Uğurla həll edildi:\n";
        k ← say_str k "  Ad:     %s\n" hostname;
        say_num k "  Ünvan:  %d.%d.%d.%d\n\n" (octets ip)
    | None => say_in k light_red "nslookup: Domain adı həll edilə bilmədi!\n\n"
    end.

(** [exe_name]: the word, with the suffix unless it has it, in capitals.  The suffix is copied
    without a terminator and the length taken again after it. *)
Definition upper (c : Z) : Z := if (ch "a" <=? c) && (c <=? ch "z") then c - ch "a" + ch "A" else c.
Definition add_suffix (exe_name : list Z) : outcome (list Z) :=
  len ← len_from exe_name 0;
  if (len <? 4) || negb (strcmp (from exe_name (len - 4)) (str_bytes ".exe" ++ [0]) =? 0) then
    if ck_memory len 4 (alen exe_name) then
      let exe_name := kstrncpy exe_name len (str_bytes ".exe" ++ [0]) 4 in
      len ← len_from exe_name 0;
      put_ck exe_name (len + 4) 0
    else Fault
  else Done exe_name.
Definition exe_name (command : list Z) : outcome (list Z) :=
  let word := first_word 27 command in
  name ← add_suffix (splice (junk 32) 0 (word ++ [0]));
  Done (map upper (cstr name) ++ 0 :: drop (S (length (cstr name))) name).

(** [kstrncpy(full_path, "/BIN/", 5)], then the name and the terminator. *)
Definition exe_path (name : list Z) : outcome (list Z) :=
  let len := strlen name in
  let full_path := kstrncpy (junk 64) 0 (str_bytes "/BIN/" ++ [0]) 5 in
  if ck_memory 5 len (alen full_path) then put_ck (kstrncpy full_path 5 name len) (5 + len) 0 else Fault.

Definition cmd_external s k : outcome K :=
  let command := input_buffer s in
  name ← exe_name command;
  full_path ← exe_path name;
  '(ret, k) ← sh_syscall k (λ p, if p =? path_addr then full_path else from command (p - buffer_addr)) 11 path_addr buffer_addr;
  if negb (ret =? 0) then say_str k "Naməlum komanda: '%s'. 'help' yazın.\n" command else Done k.

(** The command in the input buffer. *)
Definition shell_process_command s k : outcome (shell_step K) :=
  if strlen (input_buffer s) =? 0 then Done (Continues s k)
  else
    let s := w_pos (-1) (history_push s (input_buffer s)) in
    let command := input_buffer s in
    let go (o : outcome K) := k ← o; Done (Continues s k) in
    if is_cmd command "help" then go (cmd_help k)
    else if is_cmd command "reboot" then k ← say k "Yenidən başladılır...\n"; k ← sh_reboot k; Done (Stops k)
    else if is_cmd command "shutdown" then k ← say k "Söndürülür...\n"; k ← sh_shutdown k; Done (Stops k)
    else if is_cmd command "clear" then go (shell_print_logo (sh_clear k))
    else if is_cmd command "sysinfo" then go (cmd_sysinfo k)
    else if is_cmd command "about" then go (cmd_about k)
    else if is_cmd command "ls" then go (cmd_ls k)
    else if starts command "chmod " then '(s, k) ← cmd_chmod s k; Done (Continues s k)
    else if starts command "pkg " || is_cmd command "pkg" then go (cmd_pkg k command)
    else if starts command "ping " then go (cmd_ping k command)
    else if starts command "ifconfig" then go (cmd_ifconfig k command)
    else if starts command "nslookup " then go (cmd_nslookup k command)
    else go (cmd_external s k).

(** ** A key *)

Definition shell_up s k : outcome (shell * K) :=
  let next_pos := history_pos s + 1 in
  match history_get s next_pos with
  | Some entry => '(s, k) ← shell_clear_line s k; recall (w_pos next_pos s) k entry
  | None => Done (s, k)
  end.

Definition shell_down s k : outcome (shell * K) :=
  if 0 <? history_pos s then
    let s := w_pos (history_pos s - 1) s in
    match history_get s (history_pos s) with
    | Some entry => '(s, k) ← shell_clear_line s k; recall s k entry
    | None => Done (s, k)
    end
  else if history_pos s =? 0 then '(s, k) ← shell_clear_line s k; Done (w_pos (-1) s, k)
  else Done (s, k).

Definition shell_enter s k : outcome (shell_step K) :=
  k ← say k "\n";
  r ← shell_process_command (w_buffer ((input_buffer s).[buffer_index s <- 0]) (buffer_index s) s) k;
  match r with
  | Stops k => Done (Stops k)
  | Continues s k => k ← shell_prompt k; Done (Continues (w_pos (-1) (w_buffer (input_buffer s) 0 s)) k)
  end.

Definition shell_key s k (special c : Z) : outcome (shell_step K) :=
  let go (o : outcome (shell * K)) := '(s, k) ← o; Done (Continues s k) in
  if (special =? 0x0F) || (c =? 9) then go (shell_tab_complete s k)
  else if special =? 0x48 then go (shell_up s k)
  else if special =? 0x50 then go (shell_down s k)
  else if c =? 10 then shell_enter s k
  else if c =? 8 then
    if 0 <? buffer_index s then k ← say k "\b"; Done (Continues (w_buffer (input_buffer s) (buffer_index s - 1) s) k)
    else Done (Continues s k)
  else if (32 <=? c) && (c <=? 126) && (buffer_index s <? SHELL_BUFFER_SIZE - 1) then
    k ← say_num k "%c" [c];
    Done (Continues (w_buffer ((input_buffer s).[buffer_index s <- c]) (buffer_index s + 1) s) k)
  else Done (Continues s k).

Definition shell_input s k (c : Z) : outcome (shell_step K) :=
  let '(special, k) := sh_special k in shell_key s k special c.

Definition shell_init s k : outcome (shell * K) :=
  let s := mk_shell (input_buffer s) 0 (history s) 0 (-1) in
  k ← shell_print_logo (sh_clear k);
  k ← shell_prompt k;
  Done (s, k).

Definition shell_update s k : outcome (shell_step K) :=
  let '(c, k) := sh_getc k in
  if nz c then shell_input s k c else Done (Continues s k).
End shell.

(** ** What printing promises *)

Class ShellLaws (K : Type) `{ShellEnv K} := {
  printf_done k mem ps args :
    Forall (piece_ok mem) ps → ∃ k', sh_printf k mem (pieces_text ps ++ [0]) (pieces_args ps ++ args) = Done k' }.

Ltac pieces_ok := repeat (apply Forall_cons; split; [split; solve [done|constructor|intros _; done]|]); apply Forall_nil; done.

Section printing.
Context {K : Type} `{ShellLaws K}.
Implicit Types k : K.

Lemma say_num_char k c : ∃ k', say_num k "%c" [c] = Done k'.
Proof. apply (printf_done k (λ _, []) [Dir [] (Chr c)] []). pieces_ok. Qed.

Lemma say_str_plain k t : terminated t → ∃ k', say_str k "%s" t = Done k'.
Proof. intros Ht. apply (printf_done k (λ _, t) [Dir [] (Str 1)] []). pieces_ok. Qed.

Lemma say_str_item k t : terminated t → ∃ k', say_str k "  %s\n" t = Done k'.
Proof. intros Ht. apply (printf_done k (λ _, t) [Lit 32; Lit 32; Dir [] (Str 1); Lit 10] []). pieces_ok. Qed.

Lemma say_done k fmt : forallb (λ c, negb (c =? 0) && negb (c =? ch "%")) (unescape (str_bytes fmt)) = true → ∃ k', say k fmt = Done k'.
Proof.
  intros Hf. unfold say, c_string. set (t := unescape (str_bytes fmt)) in *. clearbody t.
  assert (pieces_text (map Lit t) = t ∧ pieces_args (map Lit t) = []) as [E1 E2].
  { clear Hf. unfold pieces_text, pieces_args. induction t as [|c t [IH1 IH2]]; [done|]. cbn. by rewrite IH1, IH2. }
  destruct (printf_done k (λ _, []) (map Lit t) []) as [k' E].
  - apply Forall_map, Forall_forall. intros c Hc. rewrite forallb_forall in Hf. apply list_elem_of_In in Hc. specialize (Hf c Hc). cbn in Hf |- *. lia.
  - rewrite E1, E2 in E. eauto.
Qed.

Lemma say_in_done k color fmt :
  forallb (λ c, negb (c =? 0) && negb (c =? ch "%")) (unescape (str_bytes fmt)) = true → ∃ k', say_in k color fmt = Done k'.
Proof. intros Hf. unfold say_in. destruct (say_done (sh_color k color) fmt Hf) as [k' ->]. rewrite outcome_bind_done. eauto. Qed.

Lemma say_list_done l : ∀ k, ∃ k', say_list k (l : list (list Z)) = Done k'.
Proof.
  induction l as [|m l IH]; intros k; cbn [say_list]; [eauto|].
  destruct (say_str_item k (m ++ [0])) as [k1 ->]; [unfold terminated; set_solver|]. rewrite outcome_bind_done. apply IH.
Qed.

Lemma say_backspaces_done n : ∀ k, ∃ k', say_backspaces n k = Done k'.
Proof.
  induction n as [|n IH]; intros k; cbn [say_backspaces]; [eauto|].
  destruct (say_done k "\b" eq_refl) as [k1 ->]. rewrite outcome_bind_done. apply IH.
Qed.
End printing.

(** ** The editor without arrays

    A line, the past lines with the last one first, and the place in them, -1 for the line
    being typed. *)

Record editor := mk_ed { line : list Z; past : list (list Z); place : Z }.

Definition ed_push (l : list Z) (p : list (list Z)) : list (list Z) :=
  if bool_decide (l = []) || bool_decide (p !! 0%nat = Some l) then p else take 16 (l :: p).

Definition ed_complete (l : list Z) : list Z :=
  let prefix := tab_prefix 31 l in
  if alen prefix =? 0 then l
  else match matches prefix with [m] => l ++ take (254 - length l) (drop (length prefix) m ++ [32]) | _ => l end.

Definition ed_up (e : editor) : editor :=
  match past e !! Z.to_nat (place e + 1) with Some l => mk_ed l (past e) (place e + 1) | None => e end.
Definition ed_down (e : editor) : editor :=
  if 0 <? place e then mk_ed (default [] (past e !! Z.to_nat (place e - 1))) (past e) (place e - 1)
  else mk_ed (if place e =? 0 then [] else line e) (past e) (-1).

Definition ed_key (special c : Z) (e : editor) : editor :=
  if (special =? 0x0F) || (c =? 9) then mk_ed (ed_complete (line e)) (past e) (place e)
  else if special =? 0x48 then ed_up e
  else if special =? 0x50 then ed_down e
  else if c =? 10 then mk_ed [] (ed_push (line e) (past e)) (-1)
  else if c =? 8 then mk_ed (removelast (line e)) (past e) (place e)
  else if (32 <=? c) && (c <=? 126) && (alen (line e) <? 255) then mk_ed (line e ++ [c]) (past e) (place e)
  else e.

(** ** The shell's arrays represent it *)

Record past_in (s : shell) (p : list (list Z)) : Prop := {
  pi_count : 0 <= history_count s;
  pi_rows : alen (history s) = 16 ∧ Forall (λ r, alen r = 256) (history s);
  pi_len : alen p = Z.min 16 (history_count s);
  pi_text : Forall (λ l, Forall (λ c, c ≠ 0) l ∧ alen l <= 255) p;
  pi_row i l : p !! i = Some l →
    let r := (history s).[(history_count s - 1 - Z.of_nat i) mod 16] in cstr r = l ∧ terminated r }.

Record line_in (s : shell) (l : list Z) : Prop := {
  li_len : alen (input_buffer s) = 256;
  li_end : (input_buffer s).[255] = 0;
  li_index : buffer_index s = alen l;
  li_max : alen l <= 255;
  li_text : Forall (λ c, c ≠ 0) l;
  li_take : take (length l) (input_buffer s) = l }.

Record edits (s : shell) (e : editor) : Prop := {
  ed_line : line_in s (line e);
  ed_past : past_in s (past e);
  ed_place : history_pos s = place e ∧ -1 <= place e < alen (past e) }.

(** *** A string in a row of 256 *)

Lemma aset_end (a : list Z) x v : (a ++ [x]).[alen a <- v] = a ++ [v].
Proof.
  unfold aset. pose proof (alen_nonneg a). destruct (Z.ltb_spec (alen a) 0); [lia|]. unfold alen.
  rewrite Nat2Z.id, insert_app_r_alt, Nat.sub_diag by lia. done.
Qed.

Lemma row_copy b cmd :
  alen b = 256 → alen (cstr cmd) <= 255 →
  kstrncpy b 0 cmd 255 = cstr cmd ++ replicate (255 - length (cstr cmd)) 0 ++ [b.[255]].
Proof.
  intros Hb Hl. rewrite kstrncpy_front by lia. set (l := cstr cmd) in *. change (Z.to_nat 255) with 255%nat. rewrite app_assoc. f_equal.
  - rewrite take_app, take_ge by (unfold alen in *; lia). f_equal. rewrite take_replicate. f_equal. lia.
  - change (drop 255 b) with (drop (Z.to_nat 255) b). pose proof (sub_1 b 255 ltac:(lia)) as E. rewrite <-E. unfold sub.
    rewrite take_ge; [done|]. rewrite length_drop. unfold alen in Hb. lia.
Qed.

Lemma row_string l x : alen l <= 255 → Forall (λ c, c ≠ 0) l → x = 0 →
  let r := l ++ replicate (255 - length l) 0 ++ [x] in cstr r = l ∧ terminated r ∧ alen r = 256 ∧ r.[255] = 0.
Proof.
  intros Hl Ht ->. cbn zeta.
  assert (replicate (255 - length l) 0 ++ [0] = 0 :: replicate (255 - length l) 0) as ->.
  { clear. induction (255 - length l)%nat as [|n IH]; [done|]. cbn [replicate app]. by rewrite IH. }
  split; [by apply cstr_app_0|]. split; [unfold terminated; set_solver|]. split.
  - rewrite alen_app, alen_cons, alen_replicate. unfold alen in *. lia.
  - rewrite aget_app_r by done. destruct (Z.eqb_spec (255 - alen l) 0) as [->|]; [done|].
    change (0 :: replicate (255 - length l) 0) with (replicate (S (255 - length l)) 0). apply aget_replicate. unfold alen in *. lia.
Qed.

(** *** History *)

Lemma rem16 n : 0 <= n → Z.rem n 16 = n mod 16.
Proof. intros. rewrite Z.rem_mod_nonneg; lia. Qed.

Lemma history_get_past s p i : past_in s p → -1 <= i →
  match p !! Z.to_nat i with
  | Some l => if i =? -1 then history_get s i = None else ∃ r, history_get s i = Some r ∧ cstr r = l ∧ terminated r
  | None => history_get s i = None
  end.
Proof.
  intros [Hc _ Hl _ Hr] Hi. unfold history_get, SHELL_HISTORY_MAX.
  destruct (Z.eqb_spec i (-1)) as [->|]; [by destruct (p !! _)|].
  destruct (Z.ltb_spec i 0); [lia|]. cbn [orb]. unfold alen in Hl. destruct (p !! Z.to_nat i) as [l|] eqn:E.
  - pose proof (lookup_lt_Some _ _ _ E). destruct (Z.leb_spec (history_count s) i); [lia|]. destruct (Z.leb_spec 16 i); [lia|].
    destruct (Z.ltb_spec (history_count s - 1 - i) 0); [lia|]. eexists. split; [done|]. specialize (Hr _ _ E). rewrite Z2Nat.id in Hr by lia.
    by rewrite rem16 by lia.
  - apply lookup_ge_None in E. destruct (Z.leb_spec (history_count s) i); [done|]. destruct (Z.leb_spec 16 i); [done|lia].
Qed.

Lemma history_push_past s p cmd l :
  past_in s p → cstr cmd = l → alen l <= 255 → history_count s < 0x7FFFFFFF →
  past_in (history_push s cmd) (ed_push l p).
Proof.
  intros Hp Hcl Hll Hmax. pose proof Hp as [Hc [Hh Hrows] Hl Ht Hr]. unfold history_push, ed_push, SHELL_HISTORY_MAX, SHELL_BUFFER_SIZE.
  rewrite strlen_cstr, Hcl. destruct (Z.eqb_spec (alen l) 0) as [E0|E0].
  { destruct l; [|rewrite alen_cons in E0; pose proof (alen_nonneg l); lia]. by rewrite bool_decide_eq_true_2. }
  rewrite (bool_decide_eq_false_2 (l = [])) by (intros ->; done). cbn [orb].
  assert (text l) as Htl by (rewrite <-Hcl; apply cstr_Forall).
  case_bool_decide as Ed.
  - pose proof (lookup_lt_Some _ _ _ Ed). unfold alen in Hl. destruct (Z.ltb_spec 0 (history_count s)); [|lia]. cbn [andb].
    destruct (Hr _ _ Ed) as [E _]. rewrite rem16 by lia. change (Z.of_nat 0) with 0 in E. rewrite Z.sub_0_r in E.
    rewrite (proj2 (strcmp_eq _ _)) by congruence. done.
  - destruct ((0 <? history_count s) && _) eqn:Edup.
    { exfalso. apply Ed. apply andb_true_iff in Edup as [Hpos Eq%Z.eqb_eq]. apply strcmp_eq in Eq. rewrite rem16 in Eq by lia.
      unfold alen in Hl. destruct (lookup_lt_is_Some_2 p 0%nat) as [l0 E0']; [lia|]. destruct (Hr _ _ E0') as [E _].
      change (Z.of_nat 0) with 0 in E. rewrite Z.sub_0_r in E. congruence. }
    rewrite rem16 by lia. set (idx := history_count s mod 16). assert (0 <= idx < 16) as Hidx by (apply Z.mod_pos_bound; lia).
    assert (s32 (u32 (history_count s + 1)) = history_count s + 1) as -> by (rewrite u32_small by lia; apply s32_small; lia).
    set (old := (history s).[idx]). assert (alen old = 256) as Hold by (apply (Forall_aget (λ r, alen r = 256)); [lia|done]).
    rewrite row_copy by (rewrite ?Hcl; lia). rewrite Hcl. change (256 - 1) with 255.
    assert ((l ++ replicate (255 - length l) 0 ++ [old.[255]]).[255 <- 0] = l ++ replicate (255 - length l) 0 ++ [0]) as ->.
    { rewrite !app_assoc. set (a := l ++ _). assert (alen a = 255) as <- by (unfold a; rewrite alen_app, alen_replicate; unfold alen in *; lia).
      by rewrite aset_end. }
    destruct (row_string l 0 Hll Htl eq_refl) as (Hrc & Hrt & Hrl & _). set (row := l ++ _) in *. clearbody row.
    constructor; cbn [history history_count].
    + lia.
    + rewrite alen_aset. split; [done|]. by apply Forall_aset.
    + unfold alen in *. rewrite length_take. cbn [length]. lia.
    + apply Forall_take. constructor; [done|exact Ht].
    + intros i li Hi. apply lookup_take_Some in Hi as [Hi Hi16]. destruct i as [|i]; cbn in Hi.
      * simplify_eq. replace (history_count s + 1 - 1 - Z.of_nat 0) with (history_count s) by lia. fold idx. rewrite aget_aset_eq by lia. done.
      * replace (history_count s + 1 - 1 - Z.of_nat (S i)) with (history_count s - 1 - Z.of_nat i) by lia.
        rewrite aget_aset_ne; [by apply Hr| |lia].
        pose proof (lookup_lt_Some _ _ _ Hi). unfold alen in Hl. unfold idx. clear - Hi16 Hc. zlia.
Qed.

Lemma past_in_buffer s p b i : past_in s p → past_in (w_buffer b i s) p.
Proof. intros [? ? ? ? ?]. by constructor. Qed.
Lemma past_in_pos s p n : past_in s p → past_in (w_pos n s) p.
Proof. intros [? ? ? ? ?]. by constructor. Qed.
Lemma line_in_pos s l n : line_in s l → line_in (w_pos n s) l.
Proof. intros [? ? ? ? ? ?]. by constructor. Qed.
#[local] Hint Resolve past_in_buffer past_in_pos line_in_pos : core.

(** *** The line *)

Lemma take_aset_end (b l : list Z) c : take (length l) b = l → alen l < alen b → take (S (length l)) (b.[alen l <- c]) = l ++ [c].
Proof.
  intros Ht Hl. unfold aset, alen in *. destruct (Z.ltb_spec (Z.of_nat (length l)) 0); [lia|]. rewrite Nat2Z.id.
  rewrite (take_S_r _ _ c) by (apply list_lookup_insert_eq; lia). by rewrite take_insert_ge, Ht by lia.
Qed.

Lemma line_put s l c : line_in s l → alen l < 255 → c ≠ 0 → line_in (w_buffer ((input_buffer s).[buffer_index s <- c]) (buffer_index s + 1) s) (l ++ [c]).
Proof.
  intros [H1 H2 H3 H4 H5 H6] Hl Hc. pose proof (alen_nonneg l). constructor; cbn [input_buffer buffer_index w_buffer]; rewrite ?H3.
  - by rewrite alen_aset.
  - by rewrite aget_aset_ne by lia.
  - by rewrite alen_app.
  - rewrite alen_app. change (alen [c]) with 1. lia.
  - apply Forall_app. by repeat constructor.
  - rewrite length_app, Nat.add_comm. apply take_aset_end; [done|lia].
Qed.

Lemma line_back s l : line_in s l → 0 < alen l → line_in (w_buffer (input_buffer s) (buffer_index s - 1) s) (removelast l).
Proof.
  intros [H1 H2 H3 H4 H5 H6] Hl. destruct l as [|x l0 _] using rev_ind; [done|]. rewrite removelast_last. rewrite alen_app in *. change (alen [x]) with 1 in *.
  apply Forall_app in H5 as [H5 _]. constructor; cbn [input_buffer buffer_index w_buffer]; (done || lia || idtac).
  rewrite length_app in H6. apply (f_equal (take (length l0))) in H6. rewrite take_take, take_app_length in H6.
  by rewrite Nat.min_l in H6 by lia.
Qed.

Lemma line_terminated s l : line_in s l → terminated (input_buffer s).
Proof. intros Hl. unfold terminated. rewrite <-(li_end s l Hl). apply aget_elem. rewrite (li_len s l Hl). lia. Qed.

(** Ended with a terminator, the buffer is the line as a string. *)
Lemma line_ended s l : line_in s l → let b := (input_buffer s).[buffer_index s <- 0] in cstr b = l ∧ terminated b ∧ alen b = 256 ∧ b.[255] = 0.
Proof.
  intros [H1 H2 H3 H4 H5 H6]. cbn zeta. rewrite H3. pose proof (alen_nonneg l).
  destruct (cstr_put (input_buffer s) (alen l)) as [E1 E2]; [lia|unfold alen; by rewrite Nat2Z.id, H6|].
  unfold alen in E1 at 2. rewrite Nat2Z.id, H6 in E1. split_and!; try done; [by rewrite alen_aset|].
  destruct (decide (alen l = 255)) as [->|]; [by rewrite aget_aset_eq by lia|by rewrite aget_aset_ne by lia].
Qed.

Section editing.
Context {K : Type} `{ShellLaws K}.
Implicit Types (s : shell) (k : K).

Lemma complete_line rest : ∀ s k l, line_in s l → text rest →
  ∃ s' k', complete s k rest = Done (s', k') ∧ line_in s' (l ++ take (254 - length l) rest) ∧
    history s' = history s ∧ history_count s' = history_count s ∧ history_pos s' = history_pos s.
Proof.
  induction rest as [|c rest IH]; intros s k l Hl Ht; cbn [complete].
  { exists s, k. by rewrite take_nil, app_nil_r. }
  apply Forall_cons in Ht as [Hc Ht]. rewrite (li_index s l Hl). unfold SHELL_BUFFER_SIZE. destruct (Z.ltb_spec (alen l) (256 - 2)) as [Hlt|Hge].
  - destruct (say_num_char k c) as [k1 ->]. rewrite outcome_bind_done. rewrite <-(li_index s l Hl).
    destruct (IH _ k1 _ (line_put s l c Hl ltac:(lia) Hc) Ht) as (s' & k' & -> & Hl' & ? & ? & ?). exists s', k'. split; [done|].
    split; [|done]. rewrite <-app_assoc, length_app in Hl'. unfold alen in Hlt. cbn [length app] in Hl'.
    replace (254 - length l)%nat with (S (254 - (length l + 1))) by lia. done.
  - exists s, k. unfold alen in Hge. replace (254 - length l)%nat with 0%nat by lia. by rewrite take_0, app_nil_r.
Qed.

Lemma clear_line s k l : line_in s l → ∃ s' k', shell_clear_line s k = Done (s', k') ∧ line_in s' [] ∧
  history s' = history s ∧ history_count s' = history_count s ∧ history_pos s' = history_pos s.
Proof.
  intros [H1 H2 H3 H4 H5 H6]. unfold shell_clear_line. destruct (say_backspaces_done (Z.to_nat (buffer_index s)) k) as [k' ->]. rewrite outcome_bind_done.
  do 2 eexists. split; [done|]. split; [|done]. constructor; cbn [input_buffer buffer_index w_buffer]; try done; [by rewrite alen_aset|by rewrite aget_aset_ne by lia].
Qed.

Lemma recall_line s k l0 r l : line_in s l0 → cstr r = l → alen l <= 255 →
  ∃ s' k', recall s k r = Done (s', k') ∧ line_in s' l ∧
    history s' = history s ∧ history_count s' = history_count s ∧ history_pos s' = history_pos s.
Proof.
  intros [H1 H2 H3 H4 H5 H6] Hr Hl. unfold recall, SHELL_BUFFER_SIZE. change (256 - 1) with 255.
  rewrite row_copy, Hr by (rewrite ?Hr; done). assert (text l) as Ht by (rewrite <-Hr; apply cstr_Forall).
  destruct (row_string l ((input_buffer s).[255]) Hl Ht H2) as (E1 & E2 & E3 & E4). set (b := l ++ _) in *.
  destruct (cstr_split b E2) as [t E]. rewrite E1 in E.
  assert (len_from b 0 = Done (alen l)) as -> by (rewrite E; apply len_from_here; [done|]; pose proof (alen_nonneg l); lia).
  rewrite outcome_bind_done. destruct (say_str_plain k b E2) as [k' ->]. rewrite outcome_bind_done.
  do 2 eexists. split; [done|]. split; [|done]. constructor; cbn [input_buffer buffer_index w_buffer]; try done. unfold b. apply take_app_length.
Qed.
End editing.

Lemma past_in_eq s s' p : history s' = history s → history_count s' = history_count s → past_in s p → past_in s' p.
Proof. intros E1 E2 [? ? ? ? ?]. constructor; by rewrite ?E1, ?E2. Qed.

Lemma bind_done_inv {A B} (o : outcome A) (f : A → B) r : (a ← o; Done (f a)) = Done r → ∃ a, r = f a.
Proof. destruct o as [a| |]; cbn; [|done|done]. intros [= <-]. by exists a. Qed.

Section refinement.
Context {K : Type} `{ShellLaws K}.
Variables (buffer_addr path_addr : Z) (junk : Z → list Z).
Implicit Types (s : shell) (k : K).
Notation process := (shell_process_command buffer_addr path_addr junk).

(** No command touches the history, and the buffer keeps its size and its last terminator. *)
Lemma chmod_keeps s k s' k' : cmd_chmod buffer_addr s k = Done (s', k') → (input_buffer s).[255] = 0 →
  history s' = history s ∧ history_count s' = history_count s ∧ alen (input_buffer s') = alen (input_buffer s) ∧ (input_buffer s').[255] = 0.
Proof.
  unfold cmd_chmod. destruct (zfind _ _ _) as [i|] eqn:Ez; [|done]. apply zfind_Some in Ez as (Hi & _). destruct (_ =? 0).
  - intros (k1 & [= -> ->])%bind_done_inv ?. done.
  - destruct (sh_syscall _ _ _ _ _) as [[ret k1]| |]; cbn [mbind outcome_bind]; [|done|done]. intros (k2 & [= -> ->])%bind_done_inv H255. cbn [history history_count input_buffer w_buffer].
    rewrite alen_aset. split_and!; try done. destruct (decide (i = 255)) as [->|].
    + by rewrite aget_aset_eq by lia.
    + by rewrite aget_aset_ne by lia.
Qed.

Lemma process_keeps s k s' k' : process s k = Done (Continues s' k') → (input_buffer s).[255] = 0 →
  let h := history_push s (input_buffer s) in
  history s' = history h ∧ history_count s' = history_count h ∧ alen (input_buffer s') = alen (input_buffer s) ∧ (input_buffer s').[255] = 0.
Proof.
  intros E H255. cbn zeta. unfold shell_process_command in E. destruct (strlen (input_buffer s) =? 0) eqn:E0.
  { simplify_eq. unfold history_push. by rewrite E0. }
  assert (input_buffer (history_push s (input_buffer s)) = input_buffer s) as Hb by (unfold history_push; by repeat case_match).
  set (h := w_pos (-1) (history_push s (input_buffer s))) in *.
  assert (history h = history (history_push s (input_buffer s)) ∧ history_count h = history_count (history_push s (input_buffer s)) ∧
    input_buffer h = input_buffer s) as (Eh & Ec & Eb) by (by unfold h).
  rewrite <-Eh, <-Ec, <-Eb. rewrite <-Eb in H255. clearbody h. cbv beta zeta in E.
  repeat match type of E with
  | (if ?b then _ else _) = _ => destruct b
  | (k ← ?o; Done (Continues h k)) = _ => apply bind_done_inv in E as (? & [= -> ->]); done
  end.
  all: try (destruct (say k _) as [k1| |]; cbn [mbind outcome_bind] in E; [|done|done]; by apply bind_done_inv in E as (? & ?)).
  destruct (cmd_chmod buffer_addr h k) as [[s1 k1]| |] eqn:Ech; cbn [mbind outcome_bind] in E; [|done|done].
  injection E as <- <-. by apply (chmod_keeps h k s1 k1).
Qed.

Lemma edits_same s s' e l n : edits s e → line_in s' l → history s' = history s → history_count s' = history_count s →
  history_pos s' = n → -1 <= n < alen (past e) → edits s' (mk_ed l (past e) n).
Proof. intros [_ Hp _] Hl E1 E2 E3 Hn. constructor; [done|by apply (past_in_eq s)|done]. Qed.

Lemma builtin_text m : In m builtin_commands → text m.
Proof.
  intros Hm%list_elem_of_In. assert (Forall (λ m, text m) builtin_commands) as Ha.
  { unfold builtin_commands. cbn [map]. repeat (apply Forall_cons; split; [by repeat constructor|]). by apply Forall_nil. }
  rewrite Forall_forall in Ha. by apply Ha.
Qed.

Lemma tab_edits s k e : edits s e →
  ∃ s' k', shell_tab_complete s k = Done (s', k') ∧ edits s' (mk_ed (ed_complete (line e)) (past e) (place e)).
Proof.
  intros He. pose proof He as [Hl _ [Hpos Hpl]]. unfold shell_tab_complete, ed_complete. rewrite (li_index _ _ Hl).
  assert (take (Z.to_nat (alen (line e))) (input_buffer s) = line e) as -> by (unfold alen; rewrite Nat2Z.id; apply Hl).
  assert (edits s (mk_ed (line e) (past e) (place e))) as Hsame by (by apply (edits_same s)).
  destruct (Z.eqb_spec (alen (line e)) 0) as [E0|E0].
  { destruct (line e) as [|c l]; [|rewrite alen_cons in E0; pose proof (alen_nonneg l); lia]. by exists s, k. }
  set (prefix := tab_prefix 31 (line e)). destruct (alen prefix =? 0); [by exists s, k|].
  destruct (matches prefix) as [|m [|m2 ms]] eqn:Em; [by exists s, k| |].
  - assert (text m) as Hm by (apply builtin_text; assert (In m (matches prefix)) as Hin by (rewrite Em; by left); by apply filter_In in Hin as [? _]).
    destruct (complete_line (drop (length prefix) m) s k (line e) Hl (Forall_drop _ _ _ Hm)) as (s1 & k1 & -> & Hl1 & E1 & E2 & E3).
    rewrite outcome_bind_done. set (l1 := line e ++ take (254 - length (line e)) (drop (length prefix) m)) in *.
    rewrite take_app, app_assoc. fold l1. rewrite (li_index _ _ Hl1). unfold SHELL_BUFFER_SIZE. destruct (Z.ltb_spec (alen l1) (256 - 2)) as [Hlt|Hge].
    + destruct (say_done k1 " " eq_refl) as [k2 ->]. rewrite outcome_bind_done. do 2 eexists. split; [done|].
      rewrite (take_ge [32]) by (unfold l1, alen in Hlt; rewrite length_app, length_take in Hlt; cbn [length]; lia).
      rewrite <-(li_index _ _ Hl1). apply (edits_same s); try done; [apply line_put; (done || lia)|cbn; congruence].
    + do 2 eexists. split; [done|]. unfold l1, alen in Hge. rewrite length_app, length_take in Hge.
      pose proof (li_max _ _ Hl1) as Hm1. unfold l1, alen in Hm1. rewrite length_app, length_take in Hm1.
      replace (254 - length (line e) - length (drop (length prefix) m))%nat with 0%nat by lia.
      rewrite take_0, app_nil_r. apply (edits_same s); try done. congruence.
  - destruct (say_done k "\n" eq_refl) as [k1 ->]. rewrite outcome_bind_done.
    destruct (say_list_done (m :: m2 :: ms) k1) as [k2 ->]. rewrite outcome_bind_done.
    destruct (say_in_done k2 light_green "khazar> " eq_refl) as [k3 ->]. rewrite outcome_bind_done.
    destruct (say_str_plain k3 (input_buffer s) (line_terminated _ _ Hl)) as [k4 ->]. rewrite outcome_bind_done. by exists s, k4.
Qed.

(** Another line of the past in place of the line. *)
Lemma recall_edits s k e n r l : edits s e → past e !! Z.to_nat n = Some l → 0 <= n → cstr r = l →
  ∃ s' k', ('(s, k) ← shell_clear_line s k; recall (w_pos n s) k r) = Done (s', k') ∧ edits s' (mk_ed l (past e) n).
Proof.
  intros He Hn Hn0 Hr. pose proof He as [Hl Hp _]. destruct (clear_line s k _ Hl) as (s1 & k1 & -> & Hl1 & E1 & E2 & E3). rewrite outcome_bind_done.
  pose proof (pi_text _ _ Hp) as Ht. rewrite Forall_lookup in Ht. destruct (Ht _ _ Hn) as [_ Hmax].
  destruct (recall_line (w_pos n s1) k1 [] r l (line_in_pos _ _ n Hl1) Hr Hmax) as (s2 & k2 & -> & Hl2 & F1 & F2 & F3).
  do 2 eexists. split; [done|]. pose proof (lookup_lt_Some _ _ _ Hn). apply (edits_same s); (done || cbn in *; try congruence). unfold alen. lia.
Qed.

Lemma up_edits s k e : edits s e → ∃ s' k', shell_up s k = Done (s', k') ∧ edits s' (ed_up e).
Proof.
  intros He. pose proof He as [Hl Hp [Hpos Hpl]]. unfold shell_up, ed_up. rewrite Hpos.
  pose proof (history_get_past s (past e) (place e + 1) Hp ltac:(lia)) as Hg.
  destruct (past e !! Z.to_nat (place e + 1)) as [l|] eqn:El.
  - destruct (Z.eqb_spec (place e + 1) (-1)); [lia|]. destruct Hg as (r & -> & Hr & _). apply recall_edits; (done || lia).
  - rewrite Hg. exists s, k. by destruct e.
Qed.

Lemma down_edits s k e : edits s e → ∃ s' k', shell_down s k = Done (s', k') ∧ edits s' (ed_down e).
Proof.
  intros He. pose proof He as [Hl Hp [Hpos Hpl]]. unfold shell_down, ed_down. rewrite Hpos. destruct (Z.ltb_spec 0 (place e)).
  - set (s1 := w_pos (place e - 1) s). pose proof (history_get_past s1 (past e) (place e - 1) (past_in_pos _ _ _ Hp) ltac:(lia)) as Hg.
    change (history_pos s1) with (place e - 1). destruct (lookup_lt_is_Some_2 (past e) (Z.to_nat (place e - 1))) as [l El]; [unfold alen in Hpl; lia|].
    rewrite El in Hg |- *. destruct (Z.eqb_spec (place e - 1) (-1)); [lia|]. destruct Hg as (r & -> & Hr & _). cbn [default from_option id].
    destruct (recall_edits s1 k (mk_ed (line e) (past e) (place e - 1)) (place e - 1) r l) as (s' & k' & E & He'); try (done || lia).
    { constructor; cbn [line past place]; [by apply line_in_pos|by apply past_in_pos|]. split; [done|lia]. }
    exists s', k'. split; [|done]. rewrite <-E. unfold shell_clear_line. destruct (say_backspaces _ k) as [k1| |]; done.
  - destruct (Z.eqb_spec (place e) 0).
    + destruct (clear_line s k _ Hl) as (s1 & k1 & -> & Hl1 & E1 & E2 & E3). rewrite outcome_bind_done. do 2 eexists. split; [done|].
      apply (edits_same s); (done || lia || auto).
    + exists s, k. split; [done|]. destruct e as [l p m]. cbn in *. by replace (-1) with m by lia.
Qed.

(** C25: The line editor of the shell, with its arrays, ring of past lines and indices, behaves
    like a plain line with the list of the last sixteen past lines, to which a line equal to
    the one before it is not added: every key but
    enter returns, and every key that returns to the prompt has the effect of the plain editor
    (typing, erasing, completing the first word, recalling, and remembering the line that was
    entered), whatever the command did. *)
Theorem shell_edits s e k special c :
  edits s e → history_count s < 0x7FFFFFFF →
  (c ≠ 10 → ∃ s' k', shell_key buffer_addr path_addr junk s k special c = Done (Continues s' k')) ∧
  ∀ s' k', shell_key buffer_addr path_addr junk s k special c = Done (Continues s' k') → edits s' (ed_key special c e).
Proof.
  intros He Hmax. pose proof He as [Hl Hp [Hpos Hpl]].
  assert (∀ (o : outcome (shell * K)) e', (∃ s' k', o = Done (s', k') ∧ edits s' e') →
    (c ≠ 10 → ∃ s' k', ('(s, k) ← o; Done (Continues s k)) = Done (Continues s' k')) ∧
    ∀ s' k', ('(s, k) ← o; Done (Continues s k)) = Done (Continues s' k') → edits s' e') as Hgo.
  { intros o e' (s1 & k1 & -> & He1). cbn. split; [eauto|]. by intros s' k' [= <- <-]. }
  unfold shell_key, ed_key. destruct ((special =? 15) || (c =? 9)); [apply Hgo, tab_edits, He|].
  destruct (special =? 72); [apply Hgo, up_edits, He|]. destruct (special =? 80); [apply Hgo, down_edits, He|].
  destruct (Z.eqb_spec c 10) as [->|].
  { split; [done|]. intros s' k' E. unfold shell_enter in E. destruct (say k "\n") as [k1| |]; cbn [mbind outcome_bind] in E; [|done|done].
    destruct (line_ended s _ Hl) as (B1 & B2 & B3 & B4). set (sb := w_buffer _ _ s) in E.
    destruct (process sb k1) as [[s1 k2|k2]| |] eqn:Epr; cbn [mbind outcome_bind] in E; [|done..].
    apply bind_done_inv in E as (k3 & [= -> ->]). destruct (process_keeps _ _ _ _ Epr B4) as (F1 & F2 & F3 & F4).
    pose proof (history_push_past sb (past e) (input_buffer sb) (line e) ltac:(unfold sb; auto) B1 (li_max _ _ Hl) Hmax) as Hpush.
    constructor; cbn [line past place].
    - constructor; try done. cbn. by rewrite F3.
    - by apply (past_in_eq (history_push sb (input_buffer sb))).
    - split; [done|]. pose proof (alen_nonneg (ed_push (line e) (past e))). lia. }
  assert (edits s (mk_ed (line e) (past e) (place e))) as Hsame by (by apply (edits_same s)).
  assert (mk_ed (line e) (past e) (place e) = e) as Ee by (by destruct e). rewrite Ee in Hsame.
  destruct (c =? 8).
  { rewrite (li_index _ _ Hl). destruct (Z.ltb_spec 0 (alen (line e))) as [Hgt|Hle].
    - destruct (say_done k "\b" eq_refl) as [k1 ->]. rewrite outcome_bind_done. split; [eauto|]. intros s' k' [= <- <-].
      rewrite <-(li_index _ _ Hl). apply (edits_same s); try done. by apply line_back.
    - split; [eauto|]. intros s' k' [= <- <-]. destruct (line e) as [|x l] eqn:El; [|rewrite alen_cons in Hle; pose proof (alen_nonneg l); lia].
      cbn [removelast]. by rewrite Ee. }
  rewrite (li_index _ _ Hl). unfold SHELL_BUFFER_SIZE. change (256 - 1) with 255. destruct (_ && (alen (line e) <? 255)) eqn:Ec.
  - destruct (say_num_char k c) as [k1 ->]. rewrite outcome_bind_done. split; [eauto|]. intros s' k' [= <- <-].
    rewrite <-(li_index _ _ Hl). apply (edits_same s); try done. apply line_put; (done || lia).
  - split; [eauto|]. by intros s' k' [= <- <-].
Qed.
End refinement.
