(* ===== verification/ShellRun.v ===== *)
(** * core/shell.c: what the commands do

    The network configuration that ifconfig sets and shows again, the name under which a
    command that is not built in is looked for, and that such a command never runs: the shell
    hands pointers of the kernel to the system call, which accepts only user pointers.  The
    environment of Shell.v implemented by the components of the kernel ([kernel_env]), with the
    laws the theorems use. *)

From Stdlib Require Import Ascii String.
From S2P Require Import Prelude Queues KString Pmm Vmm Kheap Pe Process Vfs Net Dns Format Serial Vga Syscall Input Gfx Taskbar Pkg PkgFetch Shell.

(** ** Addresses *)

Definition quad : Type := Z * Z * Z * Z.
Definition quad_ok (q : quad) : Prop := Forall (λ n, 0 <= n <= 255) (ip_args q).
Definition show_quad (q : quad) : list Z :=
  let '(a, b, c, d) := q in show_int a ++ [ch "."] ++ show_int b ++ [ch "."] ++ show_int c ++ [ch "."] ++ show_int d.

Lemma dec_run_app s rest : ∀ a v, dec_run a s = (v, []) → is_digit (hd0 rest) = false → dec_run a (s ++ rest) = (v, rest).
Proof.
  induction s as [|c s IH]; intros a v E Hr; cbn [dec_run app] in *.
  - simplify_eq. destruct rest as [|c rest]; [done|]. change (hd0 (c :: rest)) with c in Hr. cbn [dec_run]. by rewrite Hr.
  - destruct (is_digit c); [by apply IH|done].
Qed.

(** Every byte, printed and read. *)
Lemma dec_run_byte n rest : 0 <= n <= 255 → is_digit (hd0 rest) = false → dec_run 0 (show_int n ++ rest) = (n, rest).
Proof.
  intros Hn. apply dec_run_app.
  assert (forallb (λ n, bool_decide (dec_run 0 (show_int n) = (n, []))) (seqZ 0 256) = true) as Ha by (by vm_compute).
  rewrite forallb_forall in Ha. specialize (Ha n). rewrite bool_decide_eq_true in Ha. apply Ha, list_elem_of_In, elem_of_seqZ. lia.
Qed.

Lemma parse_show_quad q rest : quad_ok q → is_digit (hd0 rest) = false → parse_ip (show_quad q ++ rest) = q.
Proof.
  destruct q as [[[a b] c] d]. unfold quad_ok, show_quad, parse_ip. cbn [ip_args]. intros Hq Hr. repeat (apply Forall_cons in Hq as [? Hq]).
  rewrite <-!app_assoc. rewrite dec_run_byte by done. cbn [skip_dot app]. rewrite Z.eqb_refl, dec_run_byte by done. cbn [skip_dot app].
  rewrite Z.eqb_refl, dec_run_byte by done. cbn [skip_dot app]. by rewrite Z.eqb_refl, dec_run_byte.
Qed.

(** Packing and showing. *)
Lemma octets_pack q : quad_ok q → octets (pack_ip q) = ip_args q.
Proof.
  destruct q as [[[a b] c] d]. unfold quad_ok, octets, pack_ip. cbn [ip_args map]. intros Hq. repeat (apply Forall_cons in Hq as [? Hq]).
  assert (Z.lor (Z.lor (Z.lor a (u32 (Z.shiftl b 8))) (u32 (Z.shiftl c 16))) (u32 (Z.shiftl d 24)) =
    a + 256 * b + 65536 * c + 16777216 * d) as ->.
  { assert (∀ x k, 0 <= x <= 255 → 0 <= k <= 24 → u32 (Z.shiftl x k) = Z.shiftl x k) as Hs.
    { intros x k Hx Hk. rewrite Z.shiftl_mul_pow2 by lia. apply u32_small. pose proof (Z.pow_le_mono_r 2 k 24). pose proof (Z.pow_pos_nonneg 2 k). nia. }
    rewrite !Hs, (Z.lor_comm a), lor_shift by lia. rewrite (Z.lor_comm (_ + a)), lor_shift by lia. rewrite Z.lor_comm, lor_shift by lia. lia. }
  change 0xFF with (Z.ones 8). rewrite !Z.land_ones, !Z.shiftr_div_pow2 by lia. repeat f_equal; zlia.
Qed.

Lemma byte_chars n : 0 <= n <= 255 → Forall (λ c, c ≠ 32 ∧ c ≠ 0) (show_int n) ∧ (0 < length (show_int n) <= 3)%nat.
Proof.
  intros Hn. assert (forallb (λ n, bool_decide (0 < length (show_int n) <= 3)%nat) (seqZ 0 256) = true) as Ha by (by vm_compute).
  rewrite forallb_forall in Ha. specialize (Ha n). rewrite bool_decide_eq_true in Ha. split; [|by apply Ha, list_elem_of_In, elem_of_seqZ; lia].
  unfold show_int. destruct (Z.ltb_spec n 0); [lia|]. eapply Forall_impl; [apply numeral_chars|]. intros c Hc. change (48 <= c <= 57) in Hc. lia.
Qed.

Lemma quad_chars q : quad_ok q → Forall (λ c, c ≠ 32 ∧ c ≠ 0) (show_quad q) ∧ (0 < length (show_quad q) <= 15)%nat.
Proof.
  destruct q as [[[a b] c] d]. unfold quad_ok, show_quad. cbn [ip_args]. intros Hq. repeat (apply Forall_cons in Hq as [? Hq]).
  destruct (byte_chars a), (byte_chars b), (byte_chars c), (byte_chars d); try done.
  split; [|rewrite !length_app; cbn [length]; lia]. repeat (apply Forall_app; split; try done). all: by repeat constructor.
Qed.

(** A word is cut at the first blank or at the end of the string. *)
Lemma first_word_cut w c rest n : Forall (λ c, c ≠ 32 ∧ c ≠ 0) w → c = 32 ∨ c = 0 → (length w < n)%nat → first_word n (w ++ c :: rest) = w.
Proof.
  intros Hw Hc. revert n. induction Hw as [|x w [Hx1 Hx2] Hw IH]; intros n Hn; (destruct n as [|n]; [cbn in Hn; lia|]); cbn [first_word app].
  - destruct Hc as [-> | ->]; done.
  - rewrite (proj2 (Z.eqb_neq x 32) Hx1), (proj2 (Z.eqb_neq x 0) Hx2). cbn [orb]. f_equal. apply IH. cbn in Hn. lia.
Qed.

Lemma skip_blank_word w rest : Forall (λ c, c ≠ 32 ∧ c ≠ 0) w → w ≠ [] → skip_blanks (32 :: w ++ rest) = w ++ rest ∧ hd0 (w ++ rest) ≠ 0.
Proof.
  intros Hw Hne. destruct w as [|c w]; [done|]. apply Forall_cons in Hw as [[H1 H2] _]. split; [|done].
  cbn [skip_blanks app Z.eqb Pos.eqb]. by rewrite (proj2 (Z.eqb_neq c 32) H1).
Qed.

(** The octets of the operations on addresses. *)
Lemma octet_bcast ip nm n : n ∈ [0; 8; 16; 24] →
  Z.land (Z.shiftr (Z.lor (Z.land ip nm) (u32 (Z.lnot nm))) n) 0xFF =
  Z.lor (Z.land (Z.land (Z.shiftr ip n) 0xFF) (Z.land (Z.shiftr nm n) 0xFF)) (255 - Z.land (Z.shiftr nm n) 0xFF).
Proof.
  intros Hn. assert (0 <= n <= 24) as Hr by (rewrite !elem_of_cons, elem_of_nil in Hn; lia). change 255 with (Z.ones 8) at 4.
  assert (∀ m, Z.ones 8 - Z.land m 0xFF = Z.land (Z.lnot m) 0xFF) as ->.
  { intros m. change 0xFF with (Z.ones 8). rewrite !Z.land_ones by lia. unfold Z.lnot. change (Z.ones 8) with 255. change (2 ^ 8) with 256. zlia. }
  apply Z.bits_inj'. intros i Hi. change 0xFF with (Z.ones 8). unfold u32. change 0x100000000 with (2 ^ 32). rewrite <-Z.land_ones by lia.
  rewrite !Z.land_spec, !Z.shiftr_spec, !Z.lor_spec, !Z.land_spec, !Z.shiftr_spec, !Z.lnot_spec, !Z.shiftr_spec by lia.
  rewrite !Z.testbit_ones_nonneg by lia. destruct (Z.ltb_spec i 8); [|by rewrite !andb_false_r]. rewrite (proj2 (Z.ltb_lt (i + n) 32)) by lia.
  by rewrite !andb_true_r.
Qed.

(** ** ifconfig *)

Class ShellCfgLaws (K : Type) `{ShellLaws K} := {
  cfg_set (k : K) c : sh_cfg (sh_set_cfg k c) = c;
  cfg_color (k : K) c : sh_cfg (sh_color k c) = sh_cfg k;
  cfg_printf (k : K) mem fmt args k' : sh_printf k mem fmt args = Done k' → sh_cfg k' = sh_cfg k }.

Section ifconfig.
Context {K : Type} `{ShellCfgLaws K}.
Implicit Types k : K.

(** Ifconfig with an address, a gateway and a mask in dotted notation configures exactly
    these (showing them again prints the same numbers), and the broadcast address has the
    network part of the address and ones everywhere else, octet by octet. *)
Theorem ifconfig_configures k ip gw nm t :
  quad_ok ip → quad_ok gw → quad_ok nm →
  ∃ k', cmd_ifconfig k (str_bytes "ifconfig " ++ show_quad ip ++ 32 :: show_quad gw ++ 32 :: show_quad nm ++ 0 :: t) = Done k' ∧
    octets (net_ip (sh_cfg k')) = ip_args ip ∧ octets (net_gateway_ip (sh_cfg k')) = ip_args gw ∧
    octets (net_netmask (sh_cfg k')) = ip_args nm ∧
    octets (net_bcast_ip (sh_cfg k')) = zip_with (λ a m, Z.lor (Z.land a m) (255 - m)) (ip_args ip) (ip_args nm).
Proof.
  intros Hip Hgw Hnm. destruct (quad_chars ip Hip) as [Ci Li], (quad_chars gw Hgw) as [Cg Lg], (quad_chars nm Hnm) as [Cn Ln].
  assert (∀ q, (0 < length (show_quad q))%nat → show_quad q ≠ [] ∧ negb (alen (show_quad q) =? 0) = true) as Hne.
  { intros q Hq. unfold alen. destruct (show_quad q); [cbn in Hq; lia|done]. }
  unfold cmd_ifconfig. change (from (str_bytes "ifconfig " ++ ?x) 8) with (32 :: x).
  destruct (skip_blank_word (show_quad ip) (32 :: show_quad gw ++ 32 :: show_quad nm ++ 0 :: t) Ci (proj1 (Hne _ (proj1 Li)))) as [-> Hh].
  rewrite (proj2 (Z.eqb_neq _ _) Hh). rewrite (first_word_cut (show_quad ip)) by (auto || lia). rewrite drop_app_length.
  destruct (skip_blank_word (show_quad gw) (32 :: show_quad nm ++ 0 :: t) Cg (proj1 (Hne _ (proj1 Lg)))) as [-> _].
  rewrite (first_word_cut (show_quad gw)) by (auto || lia). rewrite drop_app_length.
  destruct (skip_blank_word (show_quad nm) (0 :: t) Cn (proj1 (Hne _ (proj1 Ln)))) as [-> _].
  rewrite (first_word_cut (show_quad nm)) by (auto || lia).
  pose proof (proj2 (Hne _ (proj1 Li))) as Ni. apply negb_true_iff in Ni. rewrite Ni, (proj2 (Hne _ (proj1 Lg))), (proj2 (Hne _ (proj1 Ln))).
  assert (∀ q, quad_ok q → parse_ip (show_quad q) = q) as Hp by (intros q Hq; rewrite <-(app_nil_r (show_quad q)); by apply parse_show_quad).
  rewrite !Hp by done. set (cfg := mk_cfg _ _ _ _).
  destruct (say_done (sh_color (sh_set_cfg k cfg) light_green) "ifconfig: Şəbəkə konfiqurasiyası uğurla yeniləndi!\n" eq_refl) as [k1 E1].
  unfold say_in. rewrite E1, outcome_bind_done. eexists. split; [done|]. apply cfg_printf in E1. rewrite cfg_color, E1, cfg_color, cfg_set.
  unfold cfg. cbn [net_ip net_gateway_ip net_netmask net_bcast_ip]. rewrite !octets_pack by done. split_and!; try done.
  rewrite <-(octets_pack ip), <-(octets_pack nm) by done. unfold octets. cbn [map zip_with]. by rewrite !octet_bcast by set_solver.
Qed.
End ifconfig.

(** ** Commands that are not built in *)

Section external.
Variable junk : Z → list Z.
Hypothesis junk_len : ∀ n, 0 <= n → alen (junk n) = n.

(** The bytes of the stack behind the suffix of a name of [n] characters. *)
Definition behind (n : nat) : list Z := drop (n + 4) (junk 32).

(** The file name the shell looks a command of up to 26 characters up with is the command with its suffix, in
    capitals, followed by whatever the stack holds behind it up to the next zero byte, because
    the suffix is copied without a terminator; and when no zero byte follows early enough, as
    always for words of 24 characters or more, the terminator is written behind the array. *)
Theorem exe_name_exact w c rest :
  Forall (λ c, c ≠ 32 ∧ c ≠ 0) w → c = 32 ∨ c = 0 → (length w < 27)%nat → drop (length w - 4) w ≠ str_bytes ".exe" →
  let g := behind (length w) in
  if bool_decide (0 ∈ g) && (alen w + 8 + alen (cstr g) <? 32) then
    ∃ b, exe_name junk (w ++ c :: rest) = Done b ∧ terminated b ∧ cstr b = map upper (w ++ str_bytes ".exe" ++ cstr g)
  else exe_name junk (w ++ c :: rest) = Fault.
Proof.
  intros Hw Hc Hl Hsuf. cbn zeta. unfold exe_name. rewrite first_word_cut by (done || lia). pose proof (junk_len 32 ltac:(lia)) as Hj.
  assert (text w) as Ht by (eapply Forall_impl; [exact Hw|]; by intros ? [_ ?]).
  change (splice (junk 32) 0 (w ++ [0])) with (splice ([] ++ junk 32) (alen (A := Z) []) (w ++ [0])).
  rewrite splice_here by (rewrite alen_app; unfold alen in *; cbn; lia). cbn [app]. rewrite <-app_assoc. cbn [app].
  set (t := drop (length (w ++ [0])) (junk 32)). unfold add_suffix. rewrite len_from_here by (done || (unfold alen; lia)). rewrite outcome_bind_done.
  assert ((alen w <? 4) || negb (strcmp (from (w ++ 0 :: t) (alen w - 4)) (str_bytes ".exe" ++ [0]) =? 0) = true) as ->.
  { destruct (Z.ltb_spec (alen w) 4) as [|H4]; [done|]. cbn [orb]. apply negb_true_iff, Z.eqb_neq. intros E%strcmp_eq. apply Hsuf.
    unfold from in E. unfold alen in H4, E. rewrite drop_app_le in E by lia. rewrite cstr_app_0 in E by (by apply Forall_drop).
    change (cstr (str_bytes ".exe" ++ [0])) with (str_bytes ".exe") in E. rewrite <-E. f_equal. lia. }
  assert (alen t = 31 - alen w) as Hat by (unfold t, alen in *; rewrite length_drop, length_app; cbn [length]; lia).
  rewrite ck_memory_in by (rewrite ?alen_app, ?alen_cons; unfold alen in *; lia).
  pose proof (strncpy_full w (0 :: t) (str_bytes ".exe" ++ [0]) (str_bytes ".exe") eq_refl) as Ec. change (alen (str_bytes ".exe")) with 4 in Ec.
  rewrite Ec by (rewrite alen_cons; unfold alen in *; lia). clear Ec.
  assert (drop (length (str_bytes ".exe")) (0 :: t) = behind (length w)) as ->.
  { change (length (str_bytes ".exe")) with 4%nat. cbn [drop]. unfold t, behind. rewrite drop_drop, length_app. f_equal. cbn [length]. lia. }
  set (g := behind (length w)). assert (text (w ++ str_bytes ".exe")) as Ht' by (apply text_app; [done|by repeat constructor]).
  assert (alen g = 28 - alen w) as Hg by (unfold g, behind, alen in *; rewrite length_drop; lia).
  rewrite app_assoc. case_bool_decide as H0; cbn [andb].
  - destruct (cstr_split g H0) as [u Eu]. rewrite Eu. rewrite app_assoc. set (x := (w ++ str_bytes ".exe") ++ cstr g).
    assert (text x) as Hx by (apply text_app; [done|apply cstr_Forall]). rewrite cstr_app_0 by apply cstr_Forall.
    assert (alen x = alen w + 4 + alen (cstr g)) as Hxl by (unfold x; by rewrite !alen_app).
    pose proof (alen_nonneg x). rewrite len_from_here by (done || lia). rewrite outcome_bind_done. unfold put_ck.
    rewrite Eu, alen_app, alen_cons in Hg. pose proof (alen_nonneg u). destruct (Z.ltb_spec (alen w + 8 + alen (cstr g)) 32) as [Hlt|Hge].
    + rewrite ck_memory_in by (rewrite ?alen_app, ?alen_cons; lia). cbn [mbind outcome_bind].
      assert (cstr ((x ++ 0 :: u).[alen x + 4 <- 0]) = x) as Ex.
      { unfold aset. destruct (Z.ltb_spec (alen x + 4) 0); [lia|]. rewrite insert_app_r_alt by (unfold alen in *; lia).
        replace (Z.to_nat (alen x + 4) - length x)%nat with 4%nat by (unfold alen; lia). cbn. by apply cstr_app_0. }
      eexists. split; [done|]. rewrite Ex. unfold x. rewrite <-app_assoc. split; [unfold terminated; apply elem_of_app; right; left|].
      apply cstr_app_0. unfold x in Hx. rewrite <-app_assoc in Hx. apply Forall_map. eapply Forall_impl; [exact Hx|]. intros z Hz. unfold upper. cbn beta in *.
      change (ch "a") with 97. change (ch "z") with 122. change (ch "A") with 65. destruct ((97 <=? z) && (z <=? 122)) eqn:Eb; lia.
    + unfold ck_memory. rewrite alen_app, alen_cons. destruct (Z.leb_spec (alen x + 4 + 1) (alen x + (1 + alen u))); [lia|]. by rewrite !andb_false_r.
  - assert (zfind (λ k, ((w ++ str_bytes ".exe") ++ g).[k] =? 0) 0 (Z.to_nat (alen ((w ++ str_bytes ".exe") ++ g) - 0)) = None) as En.
    { apply zfind_None. intros j Hj'. apply Z.eqb_neq. intros E. assert (0 ∈ (w ++ str_bytes ".exe") ++ g) as Hin by (rewrite <-E; apply aget_elem; lia).
      apply elem_of_app in Hin as [Hin|Hin]; [|done]. rewrite Forall_forall in Ht'. by apply (Ht' 0 Hin). }
    unfold len_from. by rewrite En.
Qed.
End external.

(** The path fits its array. *)
Lemma exe_path_done junk name :
  (∀ n, 0 <= n → alen (junk n) = n) → strlen name < 59 → ∃ path, exe_path junk name = Done path.
Proof.
  intros Hj Hn. pose proof (alen_nonneg (cstr name)). rewrite strlen_cstr in Hn. unfold exe_path. rewrite strlen_cstr.
  assert (alen (kstrncpy (junk 64) 0 (str_bytes "/BIN/" ++ [0]) 5) = 64) as Hl.
  { rewrite kstrncpy_pads, alen_splice; rewrite ?alen_firstn, ?alen_app, ?alen_replicate, ?Hj; lia. }
  rewrite ck_memory_in by lia. unfold put_ck. rewrite ck_memory_in; [eauto|lia|lia|].
  rewrite kstrncpy_pads, alen_splice; rewrite ?alen_firstn, ?alen_app, ?alen_replicate, ?Hl; lia.
Qed.

(** A message around one string is printed. *)
Lemma say_str_done {K} `{ShellLaws K} (k : K) fmt pre post t :
  unescape (str_bytes fmt) = pre ++ [ch "%"; ch "s"] ++ post →
  forallb (λ c, negb (c =? 0) && negb (c =? ch "%")) (pre ++ post) = true → terminated t →
  ∃ k', say_str k fmt t = Done k'.
Proof.
  intros Hf Hp Ht. unfold say_str, c_string. rewrite Hf.
  assert (∀ l, pieces_text (map Lit l) = l ∧ pieces_args (map Lit l) = []) as Hl.
  { unfold pieces_text, pieces_args. induction l as [|c l [IH1 IH2]]; [done|]. cbn. by rewrite IH1, IH2. }
  destruct (printf_done k (λ _, t) (map Lit pre ++ [Dir [] (Str 1)] ++ map Lit post) []) as [k' E].
  - rewrite forallb_app, andb_true_iff, !forallb_forall in Hp. destruct Hp as [H1 H2].
    apply Forall_app. split; [|apply Forall_cons; split; [split; solve [done|constructor|intros _; done]|]].
    all: apply Forall_map, Forall_forall; intros c Hc%list_elem_of_In.
    + specialize (H1 c Hc). cbn in H1 |- *. lia.
    + specialize (H2 c Hc). cbn in H2 |- *. lia.
  - exists k'. rewrite <-E. f_equal.
    + unfold pieces_text in *. rewrite !map_app, !concat_app, !(proj1 (Hl _)). done.
    + unfold pieces_args in *. rewrite !map_app, !concat_app, !(proj2 (Hl _)). done.
Qed.

(** ** The kernel as the environment

    [fuel], [resume], [fresh] and [junk] as for the system calls; [stack] the bytes of an
    uninitialised array; [ls] is [fat32_ls] on the file system, [nic] what the network driver
    reports; [yield] runs the other threads.  The progress messages of the package manager are
    left out. *)

Section kernel.
Context {L H F W U : Type} `{Link L} `{HeapAlloc H} `{FrameAllocator F} `{VfsWorld W} `{!OnHeap W H} `{PortIO U}.
Notation system := (sys H F (rest W U)).
Notation kernel := (net L system wait_queue_t).
Variables (fuel : nat) (resume yield : kernel → kernel) (tick : system → system).
Variables (fresh : H → Z → Z → list Z) (junk : Z → Z) (stack : Z → list Z).
Variables (ls : W → option (option (list (list Z * Z))) * W) (nic : L → option (option (Z * list Z))).

Record kshell := mk_ks {
  ks_k : kernel; ks_kbd : Keyboard.keyboard; ks_gw : Z; ks_nm : Z; ks_bc : Z; ks_gfx : gfx;
  ks_rx : list Z; ks_hdr : list Z; ks_chunk : list Z; ks_resp : list Z }.
Definition on_k (k : kernel) (a : kshell) : kshell :=
  mk_ks k (ks_kbd a) (ks_gw a) (ks_nm a) (ks_bc a) (ks_gfx a) (ks_rx a) (ks_hdr a) (ks_chunk a) (ks_resp a).
Definition on_vga (v : vga U) (a : kshell) : kshell := on_k (Syscall.w_vga (ks_k a) v) a.
Definition vga_of (a : kshell) : vga U := k_vga (env (ks_k a)).

Definition ks_printf (a : kshell) (mem : Z → list Z) (fmt args : list Z) : outcome kshell :=
  v ← kprintf mem (stack 32) (vga_of a) fmt args; Done (on_vga v a).

(** [fat32_ls] with its messages. *)
Fixpoint ls_lines (a : kshell) (l : list (list Z * Z)) : outcome kshell :=
  match l with
  | [] => Done a
  | (name, size) :: l' =>
      a ← ks_printf a (λ _, name ++ [0]) (c_string "%s  -  %d bytes\n") [1; size]; ls_lines a l'
  end.
Definition ks_ls (a : kshell) : outcome kshell :=
  let '(r, w) := ls (fs_of (ks_k a)) in
  let a := on_k (put_fs (ks_k a) w) a in
  match r with
  | None => ks_printf a (λ _, []) (c_string "FAT32: Not initialized!\n") []
  | Some None => Done a
  | Some (Some l) =>
      a ← ks_printf a (λ _, []) (c_string "\n--- Root Directory Contents ---\n") [];
      a ← ls_lines a l;
      ks_printf a (λ _, []) (c_string "-------------------------------\n") []
  end.

Definition kernel_regs (num b c : Z) : registers_t := mk_regs 0x10 0 0 0 0 b 0 c num 0x80 0 0 0x08 0 0 0.
Definition ks_syscall (a : kshell) (num b c : Z) : outcome (Z * kshell) :=
  '(r, k) ← syscall_handler fuel resume tick fresh junk (ks_k a) (kernel_regs num b c);
  Done (match r with Return r => eax r | _ => num end, on_k k a).

(** The network with the static buffer of the package manager. *)
Definition ks_link : PkgLink (net L system wait_queue_t * list Z) := net_pkg_link junk fuel resume yield.
Definition on_net (n : net L system wait_queue_t * list Z) (a : kshell) : kshell :=
  mk_ks n.1 (ks_kbd a) (ks_gw a) (ks_nm a) (ks_bc a) (ks_gfx a) n.2 (ks_hdr a) (ks_chunk a) (ks_resp a).

Definition ks_pkg_install (a : kshell) (name : list Z) : outcome kshell :=
  '(_, w) ← pkg_install fresh stack (k_vfs (env (ks_k a))) (fs_of (ks_k a)) name; Done (on_k (put_fs (ks_k a) w) a).
Definition ks_pkg_fetch (a : kshell) (name : list Z) : outcome kshell :=
  '(_, n, w) ← @pkg_fetch _ W H ks_link _ _ _ fresh stack (k_vfs (env (ks_k a))) (ks_k a, ks_rx a) (fs_of (ks_k a)) name (ks_hdr a) (ks_chunk a);
  let a := on_net n a in Done (on_k (put_fs (ks_k a) w) a).
Definition ks_pkg_remote_list (a : kshell) : outcome kshell :=
  '(t, n) ← @pkg_remote_list _ ks_link (ks_k a, ks_rx a) (ks_resp a);
  match t with Some t => ks_printf (on_net n a) (λ _, t ++ [0]) (c_string "%s\n") [1] | None => Done (on_net n a) end.
Definition ks_pkg_list (a : kshell) : outcome kshell :=
  let '(t, w) := pkg_list stack (k_vfs (env (ks_k a))) (fs_of (ks_k a)) in
  ks_printf (on_k (put_fs (ks_k a) w) a) (λ _, t ++ [0]) (c_string "%s") [1].
Definition ks_pkg_info (a : kshell) (name : list Z) : outcome kshell :=
  a ← ks_printf a (λ _, name) (c_string "Package: %s\n") [1];
  a ← ks_printf a (λ _, []) (c_string "Version: 1.0.0 (Alpha)\n") [];
  ks_printf a (λ _, []) (c_string "Maintainer: Khazar OS Team\n") [].

Definition put_ports (d : U) (a : kshell) : kshell :=
  let v := vga_of a in on_vga (mk_vga (terms v) (active_terminal v) (terminal_buffer v) (hw v) (mk_serial (serial_ready (ser v)) d)) a.

#[local] Instance kernel_env : ShellEnv kshell := {|
  sh_printf := ks_printf;
  sh_color a c := on_vga (terminal_setcolor (vga_of a) c) a;
  sh_clear a := on_vga (terminal_clear (vga_of a)) a;
  sh_special a := let '(sc, kb) := Keyboard.keyboard_get_special (ks_kbd a) in
    (sc, mk_ks (ks_k a) kb (ks_gw a) (ks_nm a) (ks_bc a) (ks_gfx a) (ks_rx a) (ks_hdr a) (ks_chunk a) (ks_resp a));
  sh_getc a := let '(c, t) := Tty.tty_getc (k_tty (env (ks_k a))) in (c, on_k (Syscall.w_tty (ks_k a) t) a);
  sh_reboot a := match power_reboot fuel (s_io (ser (vga_of a))) with Some d => Done (put_ports d a) | None => NoFuel end;
  sh_shutdown a := let '(g, d) := power_shutdown (ks_gfx a) (s_io (ser (vga_of a))) in
    let a := put_ports d a in
    Done (mk_ks (ks_k a) (ks_kbd a) (ks_gw a) (ks_nm a) (ks_bc a) g (ks_rx a) (ks_hdr a) (ks_chunk a) (ks_resp a));
  sh_root a := nz (vfs_root (k_vfs (env (ks_k a))));
  sh_ls := ks_ls;
  sh_syscall a _ := ks_syscall a;
  sh_pkg_list := ks_pkg_list;
  sh_pkg_install := ks_pkg_install;
  sh_pkg_info := ks_pkg_info;
  sh_pkg_remote_list := ks_pkg_remote_list;
  sh_pkg_fetch := ks_pkg_fetch;
  sh_cfg a := mk_cfg (net_our_ip (ks_k a)) (ks_gw a) (ks_nm a) (ks_bc a);
  sh_set_cfg a c :=
    let k := ks_k a in
    mk_ks (mk_net (link k) (sched k) (arp_cache k) (net_ip c) (ip_id k) (udp_queues k)) (ks_kbd a)
      (net_gateway_ip c) (net_netmask c) (net_bcast_ip c) (ks_gfx a) (ks_rx a) (ks_hdr a) (ks_chunk a) (ks_resp a);
  sh_arp_request a ip := k ← arp_request (ks_k a) ip; Done (on_k k a);
  sh_arp_known a ip := bool_decide (is_Some (arp_lookup (arp_cache (ks_k a)) ip));
  sh_yield a := on_k (yield (ks_k a)) a;
  sh_icmp a ip := '(ok, k) ← icmp_send_request junk fuel (ks_k a) ip; Done (ok, on_k k a);
  sh_resolve a host := '(r, k) ← dns_resolve junk fuel resume (ks_k a) host; Done (r, on_k k a);
  sh_nic a := nic (link (ks_k a)) |}.

(** Printing returns and leaves the configuration alone. *)
Hypothesis stack_len : ∀ n, 0 <= n → alen (stack n) = n.

#[local] Instance kernel_laws : ShellLaws kshell.
Proof.
  constructor. intros a mem ps args Hps. cbn [sh_printf kernel_env]. unfold ks_printf, kprintf.
  assert (∀ l (v : vga U), ∃ v', put_all kprintf_putc l v = Done v') as Hall.
  { induction l as [|c l IH]; intros v; cbn [put_all]; [eauto|]. change (kprintf_putc c v) with (Done (terminal_putchar v c)). cbn [mbind outcome_bind]. apply IH. }
  rewrite (kvprintf_renders kprintf_putc mem (stack 32)) by (done || (apply stack_len; lia)).
  destruct (Hall (pieces_out mem ps) (vga_of a)) as [v ->]. rewrite outcome_bind_done. eauto.
Qed.

#[local] Instance kernel_cfg_laws : ShellCfgLaws kshell.
Proof.
  constructor; [by intros k []|done|]. intros a mem fmt args a'. cbn [sh_printf kernel_env]. unfold ks_printf.
  destruct (kprintf _ _ _ _ _) as [v| |]; cbn [mbind outcome_bind]; [|done|done]. by intros [= <-].
Qed.

(** Nothing of the kernel but the screen changes when a message is printed. *)
Lemma say_str_screen (a a' : kshell) fmt t : say_str a fmt t = Done a' → ∃ v, a' = on_vga v a.
Proof.
  unfold say_str. cbn [sh_printf kernel_env]. unfold ks_printf.
  destruct (kprintf _ _ _ _ _) as [v| |]; cbn [mbind outcome_bind]; [|done|done]. intros [= <-]. eauto.
Qed.

(** SYS_EXEC and SYS_CHMOD with a pointer into the kernel's half. *)
Lemma ks_syscall_rejects (a : kshell) num p c :
  num = 11 ∨ num = 15 → 0xC0000000 <= p < 0x100000000 → ks_syscall a num p c = Done (u32 KERR_FAULT, a).
Proof.
  intros Hn Hp. unfold ks_syscall. assert (syscall_validate_ptr p 1 = false) as Hv.
  { unfold syscall_validate_ptr, USER_SPACE_MIN, USER_SPACE_MAX. destruct (Z.eqb_spec p 0); [lia|].
    destruct (Z.ltb_spec p 0x400000); [lia|]. by destruct (Z.ltb_spec 0xBFFFFFFF p); [|lia]. }
  destruct Hn as [-> | ->]; unfold syscall_handler, syscall_dispatch; cbn [eax ebx ecx kernel_regs];
    cbn [Z.eqb Pos.eqb SYS_REBOOT SYS_SHUTDOWN SYS_EXIT SYS_WRITE SYS_READ SYS_OPEN SYS_CLOSE]; unfold sys_exec, sys_chmod; rewrite Hv; cbn [negb];
    by destruct a.
Qed.

(** The kernel is linked above 0xC0000000, and so are its data and its stacks. *)
Variables buffer_addr path_addr : Z.
Hypothesis path_in_kernel : 0xC0000000 <= path_addr < 0x100000000.
Hypothesis buffer_in_kernel : 0xC0000000 <= buffer_addr < 0x100000000 - 256.

Lemma external_rejected (s : shell) (a : kshell) w c rest :
  input_buffer s = w ++ c :: rest → Forall (λ c, c ≠ 32 ∧ c ≠ 0) w → c = 32 ∨ c = 0 →
  terminated (input_buffer s) → (length w < 27)%nat → drop (length w - 4) w ≠ str_bytes ".exe" →
  0 ∈ behind stack (length w) → alen w + 8 + alen (cstr (behind stack (length w))) < 32 →
  ∃ v, cmd_external buffer_addr path_addr stack s a = Done (on_vga v a) ∧
    say_str a "Naməlum komanda: '%s'. 'help' yazın.\n" (input_buffer s) = Done (on_vga v a).
Proof.
  intros Hs Hw Hc Ht Hl Hx Hz Hb. pose proof (exe_name_exact stack stack_len w c rest Hw Hc Hl Hx) as Hn. cbn zeta in Hn.
  rewrite bool_decide_eq_true_2, (proj2 (Z.ltb_lt _ _) Hb) in Hn by done. destruct Hn as (b & Eb & Tb & Cb).
  destruct (exe_path_done stack b stack_len) as [path Ep].
  { rewrite strlen_cstr, Cb. unfold alen in *. rewrite length_map, !length_app. change (length (str_bytes ".exe")) with 4%nat. lia. }
  unfold cmd_external. rewrite <-Hs in Eb. rewrite Eb, outcome_bind_done, Ep, outcome_bind_done.
  cbn [sh_syscall kernel_env]. rewrite ks_syscall_rejects by (auto || lia). rewrite outcome_bind_done.
  change (negb (u32 KERR_FAULT =? 0)) with true. cbn iota.
  destruct (say_str_done a "Naməlum komanda: '%s'. 'help' yazın.\n" (str_bytes "Naməlum komanda: '")
    (unescape (str_bytes "'. 'help' yazın.\n")) (input_buffer s)) as [a' E];
    [by vm_compute|by vm_compute|done|].
  destruct (say_str_screen _ _ _ _ E) as [v ->]. by exists v.
Qed.

Lemma chmod_rejected (s : shell) (a : kshell) m path :
  input_buffer s = str_bytes "chmod " ++ m ++ 32 :: path → Forall (λ c, c ≠ 32 ∧ c ≠ 0) m →
  alen (input_buffer s) = 256 → terminated path →
  ∃ s' v, cmd_chmod buffer_addr s a = Done (s', on_vga v a) ∧
    say_str a "chmod: %s üçün icazə dəyişdirilə bilmədi.\n" path = Done (on_vga v a).
Proof.
  intros Hs Hm Hl Ht. unfold cmd_chmod. pose proof (alen_nonneg m). pose proof (alen_nonneg path).
  assert (alen (input_buffer s) = 6 + alen m + 1 + alen path) as Hlen
    by (rewrite Hs, !alen_app, alen_cons; change (alen (str_bytes "chmod ")) with 6; lia).
  assert (∀ j, 0 <= j → (input_buffer s).[6 + j] = (m ++ 32 :: path).[j]) as Hj.
  { intros j Hj. rewrite Hs, aget_app_r by (change (alen (str_bytes "chmod ")) with 6; lia). f_equal. apply Z.add_simpl_l. }
  assert ((input_buffer s).[6 + alen m] = 32) as Hm32 by (rewrite Hj, aget_app_r, Z.sub_diag by lia; done).
  assert (zfind (λ i, ((input_buffer s).[i] =? 32) || ((input_buffer s).[i] =? 0)) 6 (Z.to_nat (alen (input_buffer s) - 6)) =
    Some (6 + alen m)) as ->.
  { apply zfind_Some. split; [lia|]. split; [by rewrite Hm32|]. intros j Hi. replace j with (6 + (j - 6)) by lia.
    rewrite Hj, aget_app_l by lia. pose proof (Forall_aget (λ c, c ≠ 32 ∧ c ≠ 0) m (j - 6) ltac:(lia) Hm) as [H32 Hz].
    by rewrite (proj2 (Z.eqb_neq _ _) H32), (proj2 (Z.eqb_neq _ _) Hz). }
  rewrite Hm32. cbn [Z.eqb]. cbn [sh_syscall kernel_env].
  rewrite ks_syscall_rejects by (rewrite ?u32_small; auto || lia). rewrite outcome_bind_done.
  change (u32 KERR_FAULT =? 0) with false. cbn iota.
  assert (from ((input_buffer s).[6 + alen m <- 0]) (6 + alen m + 1) = path) as ->.
  { unfold from, aset. destruct (Z.ltb_spec (6 + alen m) 0); [lia|]. rewrite drop_insert_lt by lia. rewrite Hs, app_assoc.
    replace (Z.to_nat (6 + alen m + 1)) with (S (length (str_bytes "chmod " ++ m))).
    - rewrite cons_middle, app_assoc. apply drop_app_length'. rewrite !length_app. cbn [length]. lia.
    - rewrite length_app. change (length (str_bytes "chmod ")) with 6%nat. unfold alen. lia. }
  destruct (say_str_done a "chmod: %s üçün icazə dəyişdirilə bilmədi.\n" (str_bytes "chmod: ")
    (unescape (str_bytes " üçün icazə dəyişdirilə bilmədi.\n")) path) as [a' E];
    [by vm_compute|by vm_compute|done|].
  destruct (say_str_screen _ _ _ _ E) as [v ->]. rewrite E, outcome_bind_done. eauto.
Qed.

End kernel.

(** ** Concrete runs

    The kernel of the concrete runs of Syscall.v, with the file system of one executable. *)

#[local] Existing Instance Syscall.demo_world.
#[local] Existing Instance Syscall.kheap_on_heap.

Notation demo_ks := (kshell (L := wire) (H := kheap) (F := pmm) (W := kheap) (U := uart)).

#[local] Instance demo_env : ShellEnv demo_ks :=
  kernel_env 4 (λ k, k) (λ k, k) (λ s, s) demo_fresh demo_junk demo_stack (λ w, (None, w)) (λ _, None).
#[local] Instance demo_laws : ShellLaws demo_ks := kernel_laws _ _ _ _ _ _ _ _ _ demo_stack_len.
#[local] Instance demo_cfg_laws : ShellCfgLaws demo_ks := kernel_cfg_laws _ _ _ _ _ _ _ _ _ demo_stack_len.

Definition demo_shell_kernel : demo_ks :=
  mk_ks demo_k (Keyboard.mk_kb false false false 0) 0x0202000A 0x00FFFFFF 0xFF02000A Gfx.demo_gfx
    (replicate 1518 0) (replicate 16 0) (replicate 528 0) (replicate 1024 0).
Definition demo_shell : shell := mk_shell (replicate 256 0) 0 (replicate 16 (replicate 256 0)) 0 (-1).
Definition demo_typed (t : string) : shell :=
  mk_shell (str_bytes t ++ replicate (256 - length (str_bytes t)) 0) (alen (str_bytes t)) (replicate 16 (replicate 256 0)) 0 (-1).

Lemma demo_edits : edits demo_shell (mk_ed [] [] (-1)).
Proof.
  constructor; cbn [line past place].
  - by constructor.
  - constructor; try done. split; [done|]. apply Forall_replicate. done.
  - done.
Qed.

Lemma shell_edits_witness :
  ∃ s' k', shell_key 0xC0200000 0xC0300000 demo_stack demo_shell demo_shell_kernel 0 97 = Done (Continues s' k') ∧
    edits s' (mk_ed [97] [] (-1)).
Proof.
  destruct (shell_edits 0xC0200000 0xC0300000 demo_stack demo_shell (mk_ed [] [] (-1)) demo_shell_kernel 0 97 demo_edits) as [Hr He].
  - reflexivity.
  - destruct Hr as (s' & k' & E); [done|]. exists s', k'. split; [exact E|]. exact (He s' k' E).
Defined.

Lemma ifconfig_configures_witness :
  ∃ k', cmd_ifconfig demo_shell_kernel (str_bytes "ifconfig 10.0.2.15 10.0.2.2 255.255.255.0" ++ [0]) = Done k' ∧
    octets (net_bcast_ip (sh_cfg k')) = [10; 0; 2; 255].
Proof.
  destruct (ifconfig_configures demo_shell_kernel (10, 0, 2, 15) (10, 0, 2, 2) (255, 255, 255, 0) []) as (k' & E & _ & _ & _ & Hb);
    [repeat constructor; lia..|]. exists k'. split; [exact E|exact Hb].
Defined.

Lemma exe_name_exact_witness :
  ∃ b, exe_name demo_stack (str_bytes "edit x" ++ [0]) = Done b ∧ cstr b = str_bytes "EDIT.EXE".
Proof.
  destruct (exe_name_exact demo_stack demo_stack_len (str_bytes "edit") 32 (str_bytes "x" ++ [0])) as (b & E & _ & Hb).
  - by repeat constructor.
  - by left.
  - cbn. lia.
  - by vm_compute.
  - exists b. split; [exact E|]. rewrite Hb. by vm_compute.
Defined.

Definition demo_external : shell := demo_typed "edit x".
Definition demo_chmod : shell := demo_typed "chmod 644 /BIN/EDIT.EXE".

