(* ===== verification/Desktop.v ===== *)
(** * core/gui/wm.c and core/gui/taskbar.c: drawing

    The icons, the windows from back to front with their contents, the menu, and the taskbar
    with the start menu, over the drawing layer of Gfx.v and the windows of Wm.v.  What the
    windows show of the rest of the kernel is a record ([sysinfo]) and, for the file list, a
    file system on the kernel's heap; texts are checked for their terminators.

    The theorem: drawing hides what is behind.  Inside the frame of the frontmost window every
    pixel depends on that window alone, whatever was on the screen and whatever is drawn behind
    it; and the texts of the settings window fit their buffer. *)

From Stdlib Require Import Ascii String.
From S2P Require Import Prelude KString Kheap Process Vfs Format Serial Vga Gfx Pci Clock Syscall Pkg Wm WmEvents Taskbar.

(** What the settings window shows: the frames of the memory manager, the PCI devices, whether
    the network is ready and the vendor and address of the card it is bound to. *)
Record sysinfo := mk_sysinfo {
  si_blocks : Z; si_free : Z; si_pci : list pci_device_t; si_nic : option (option (Z * list Z)) }.

Definition TASKBAR_COLOR : Z := 0x002B2B2B.
Definition COLOR_WHITE : Z := 0x00FFFFFF.

(** [gfx_puts] reads up to the terminator. *)
Definition puts (g : gfx) (x y : Z) (str : list Z) (color : Z) : outcome gfx :=
  if bool_decide (0 ∈ str) then Done (gfx_puts g x y str color) else Fault.
Definition label (g : gfx) (x y : Z) (s : string) (color : Z) : gfx := gfx_puts g x y (str_bytes s ++ [0]) color.

(** ** Icons *)

Definition draw_icon_terminal (g : gfx) (x y : Z) : gfx :=
  let g := gfx_draw_rect g x y 48 48 0x00222222 in
  let g := gfx_draw_rect g x y 48 2 0x0000CC88 in
  label g (x + 4) (y + 6) "> _" 0x0000FF88.

Definition draw_icon_files (g : gfx) (x y : Z) : gfx :=
  let g := gfx_draw_rect g x (y + 8) 48 36 0x00D4A017 in
  let g := gfx_draw_rect g x (y + 8) 20 8 0x00B8860B in
  gfx_draw_rect g (x + 4) (y + 14) 40 26 0x00FFD700.

Definition draw_icon_notepad (g : gfx) (x y : Z) : gfx :=
  let g := gfx_draw_rect g x y 48 48 0x00EEEEEE in
  let g := gfx_draw_rect g (x + 5) (y + 8) 38 2 0x00333333 in
  let g := gfx_draw_rect g (x + 5) (y + 16) 38 2 0x00333333 in
  gfx_draw_rect g (x + 5) (y + 24) 25 2 0x00333333.

Definition is_label (ic : desktop_icon_t) (s : string) : bool := strcmp (icon_label ic) (str_bytes s ++ [0]) =? 0.

Definition draw_desktop_icon (g : gfx) (ic : desktop_icon_t) : outcome gfx :=
  let x := icon_x ic in
  let y := icon_y ic in
  let g := if hovered ic then gfx_draw_rect g (x - 4) (y - 4) 56 70 0x33FFFFFF else g in
  let g := gfx_draw_rect g x y 48 48 0x00404040 in
  let g := if is_label ic "Terminal" then draw_icon_terminal g x y
           else if is_label ic "Fayllar" then draw_icon_files g x y
           else if is_label ic "Notepad" then draw_icon_notepad g x y
           else gfx_draw_rect g (x + 10) (y + 10) 28 28 0x00AAAAAA in
  let label_x := x + Z.quot (48 - strlen (icon_label ic) * 8) 2 in
  puts g label_x (y + 52) (icon_label ic) (if hovered ic then 0x00FFFFFF else 0x00DDDDDD).

Fixpoint draw_icons (g : gfx) (l : list desktop_icon_t) : outcome gfx :=
  match l with [] => Done g | ic :: l' => g ← draw_desktop_icon g ic; draw_icons g l' end.

(** ** The contents of the windows *)

(** [buf] is [char buf[64]], with the bytes of the call before. *)
Definition print (junk32 buf : list Z) (mem : Z → list Z) (fmt : string) (args : list Z) : outcome (list Z) :=
  ksprintf mem junk32 buf (str_bytes fmt ++ [0]) args.

Section content.
Context {H D W : Type} `{HeapAlloc H} `{VfsWorld W} `{!OnHeap W H}.
(** The bytes of uninitialised arrays. *)
Variable junk : Z → list Z.
Implicit Types (st : wm H D) (g : gfx) (w : W).

Definition terminal_cell st (term x cy r c : Z) (g : gfx) : gfx :=
  let e := get_buffer (w_vga st) term (r * VGA_WIDTH + c) in
  let ch := Z.land e 0xFF in
  if (32 <=? ch) && (ch <=? 126) then gfx_put_char g (x + 8 + c * 8) (cy + 4 + r * 12) ch 0xFFFFFFFF else g.

Definition draw_terminal st g (win : window_t) : gfx :=
  let cy := wy win + 26 in
  let g := gfx_draw_rect g (wx win + 2) cy (ww win - 4) (wh win - 26 - 2) 0x00111111 in
  let term := if nz (wdata win) then wdata win else terminal_get_buffer (w_vga st) in
  for_loop (Z.to_nat VGA_HEIGHT) 0 (λ r, for_loop (Z.to_nat VGA_WIDTH) 0 (λ c, terminal_cell st term (wx win) cy r c)) g.

Definition draw_notepad st g (win : window_t) : outcome gfx :=
  let cy := wy win + 26 in
  let g := gfx_draw_rect g (wx win + 2) cy (ww win - 4) (wh win - 26 - 2) 0x00FFFFFF in
  if nz (wdata win) then
    match notepads st !! wdata win with
    | None => Fault
    | Some d =>
        g ← puts g (wx win + 10) (cy + 10) (np_text d) 0x00333333;
        Done (gfx_draw_rect g (wx win + 10 + strlen (np_text d) * 8) (cy + 10) 2 12 0x00000000)
    end
  else Done g.

(** The network controllers; the number shown and the buffer. *)
Fixpoint net_lines (l : list pci_device_t) g (buf : list Z) (x cy shown : Z) : outcome (gfx * list Z * Z) :=
  match l with
  | [] => Done (g, buf, shown)
  | d :: l' =>
      if class_code d =? 0x02 then
        buf ← print (junk 32) buf (λ _, []) "- Bus %d, Dev %d (Ven: %x, Dev: %x)" [bus d; dev d; vendor_id d; device_id d];
        g ← puts g (x + 30) (cy + 110 + shown * 15) buf 0x003A78C8;
        net_lines l' g buf x cy (shown + 1)
      else net_lines l' g buf x cy shown
  end.

(** The other devices, at most six. *)
Fixpoint other_lines (l : list pci_device_t) g (buf : list Z) (x other_y other_shown : Z) : outcome gfx :=
  match l with
  | [] => Done g
  | d :: l' =>
      if other_shown <? 6 then
        if negb (class_code d =? 0x02) then
          buf ← print (junk 32) buf (λ _, []) "- Bus %d, Dev %d (Ven: %x, Dev: %x, Cls: %x)"
                  [bus d; dev d; vendor_id d; device_id d; class_code d];
          g ← puts g (x + 30) (other_y + other_shown * 15) buf 0x00666666;
          other_lines l' g buf x other_y (other_shown + 1)
        else other_lines l' g buf x other_y other_shown
      else Done g
  end.

Definition card_name (vendor : Z) : list Z :=
  if vendor =? 0x10EC then str_bytes "Realtek RTL8136 (Active)"
  else if vendor =? 0x8086 then str_bytes "Intel E1000 (Active)" else str_bytes "Unknown".

Definition driver_lines (nic : option (option (Z * list Z))) g (buf : list Z) (x y : Z) : outcome (gfx * list Z) :=
  match nic with
  | Some (Some (vendor, mac)) =>
      buf ← print (junk 32) buf (λ _, card_name vendor ++ [0]) "- Driver: %s" [1];
      g ← puts g (x + 30) (y + 15) buf 0x0022AA22;
      buf ← print (junk 32) buf (λ _, []) "- MAC: %02X:%02X:%02X:%02X:%02X:%02X" (take 6 mac);
      g ← puts g (x + 30) (y + 30) buf 0x00333333;
      Done (g, buf)
  | Some None => Done (label g (x + 30) (y + 15) "- Driver: Loaded but not bound" 0x00CCCC22, buf)
  | None => Done (label g (x + 30) (y + 15) "- Driver: Not active / No card match" 0x00CC2222, buf)
  end.

Definition draw_settings (si : sysinfo) g (win : window_t) : outcome gfx :=
  let x := wx win in
  let cy := wy win + 26 in
  let g := gfx_draw_rect g (x + 2) cy (ww win - 4) (wh win - 26 - 2) 0x00F0F0F0 in
  let total := u32 (si_blocks si * 4) / 1024 in
  let free := u32 (si_free si * 4) / 1024 in
  buf ← print (junk 32) (junk 64) (λ _, []) "RAM: %d MB / %d MB" [u32 (total - free); total];
  g ← puts g (x + 20) (cy + 20) buf 0x00333333;
  let g := gfx_draw_rect g (x + 20) (cy + 35) 300 10 0x00CCCCCC in
  let g := if 0 <? total
           then gfx_draw_rect g (x + 20) (cy + 35) (s32 (u32 (300 * u32 (total - free)) / total)) 10 0x003A78C8 else g in
  let g := label g (x + 20) (cy + 60) "CPU: x86 Generic (32-bit)" 0x00333333 in
  let g := label g (x + 20) (cy + 90) "Network Hardware:" 0x00333333 in
  '(g, buf, shown) ← net_lines (si_pci si) g buf x cy 0;
  let '(g, shown) :=
    if shown =? 0 then (label g (x + 30) (cy + 110) "No PCI Network cards found!" 0x00CC2222, 1) else (g, shown) in
  let net_status_y := cy + 110 + shown * 15 + 5 in
  let g := label g (x + 20) net_status_y "Driver Status:" 0x00333333 in
  '(g, buf) ← driver_lines (si_nic si) g buf x net_status_y;
  let shown := shown + 3 in
  let g := label g (x + 20) (cy + 110 + shown * 15 + 10) "Other Hardware:" 0x00333333 in
  other_lines (si_pci si) g buf x (cy + 110 + shown * 15 + 25) 0.

(** The names of the root directory; each node is freed. *)
Fixpoint file_lines (n : nat) (i : Z) (root : Z) g w (x cy : Z) : outcome (gfx * W) :=
  match n with
  | O => Done (g, w)
  | S n' =>
      match f_readdir (node_at w root) with
      | None => Fault
      | Some fs =>
          let '(p, w) := call_readdir fs w root i in
          if p =? 0 then Done (g, w)
          else
            g ← puts g (x + 15) (cy + 35 + i * 20) (nname (node_at w p)) 0x00444444;
            file_lines n' (i + 1) root g (Pkg.kfree_fs w p) x cy
      end
  end.

Definition draw_files (v : vfs) g w (win : window_t) : outcome (gfx * W) :=
  let cy := wy win + 26 in
  let g := gfx_draw_rect g (wx win + 2) cy (ww win - 4) (wh win - 26 - 2) 0x00F8F8F8 in
  let g := label g (wx win + 10) (cy + 10) "Fayllar Siyahisi:" 0x00222222 in
  if nz (vfs_root v) && bool_decide (is_Some (f_readdir (node_at w (vfs_root v))))
  then file_lines 8 0 (vfs_root v) g w (wx win) cy else Done (g, w).

Definition draw_about g (win : window_t) : gfx :=
  let cy := wy win + 26 in
  let g := gfx_draw_rect g (wx win + 2) cy (ww win - 4) (wh win - 26 - 2) 0x001A2A3A in
  let g := label g (wx win + 20) (cy + 20) "Khazar OS v0.2.0" 0x004A90D9 in
  label g (wx win + 20) (cy + 50) "Dinamik Pencere & Yaddas Sistemi" 0x00AAAAAA.

Definition wm_draw_window_content (si : sysinfo) (v : vfs) st g w (win : window_t) : outcome (gfx * W) :=
  match wtype win with
  | WINDOW_TYPE_TERMINAL => Done (draw_terminal st g win, w)
  | WINDOW_TYPE_NOTEPAD => g ← draw_notepad st g win; Done (g, w)
  | WINDOW_TYPE_SETTINGS => g ← draw_settings si g win; Done (g, w)
  | WINDOW_TYPE_FILES => draw_files v g w win
  | WINDOW_TYPE_ABOUT => Done (draw_about g win, w)
  | _ => Done (g, w)
  end.

(** ** Windows, back to front *)

(** The frame with its title and buttons, on a rectangle cleared first. *)
Definition draw_frame st g (curr : Z) (win : window_t) : outcome gfx :=
  let x := wx win in
  let y := wy win in
  let r := x + ww win in
  let g := gfx_draw_rect g x y (ww win) (wh win) 0xF2F2F2 in
  let c := if curr =? windows_head st then 0x3A78C8 else 0x424242 in
  let g := gfx_draw_rect g (x + 1) (y + 1) (ww win - 2) 24 c in
  g ← puts g (x + 10) (y + 8) (title win) 0xFFFFFF;
  let g := label (gfx_draw_rect g (r - 22) (y + 4) 18 18 0xCC2222) (r - 17) (y + 8) "X" 0xFFFFFF in
  let g := label (gfx_draw_rect g (r - 42) (y + 4) 18 18 0x22CC22) (r - 37) (y + 8) "M" 0xFFFFFF in
  let g := label (gfx_draw_rect g (r - 62) (y + 4) 18 18 0xCCCC22) (r - 57) (y + 8) "_" 0xFFFFFF in
  if is_maximized win then Done g
  else
    let g := gfx_draw_rect g (r - 10) (y + wh win - 2) 8 1 0x888888 in
    let g := gfx_draw_rect g (r - 6) (y + wh win - 6) 4 1 0x888888 in
    Done (gfx_draw_rect g (r - 2) (y + wh win - 10) 1 8 0x888888).

Definition draw_window (si : sysinfo) (v : vfs) st g w (curr : Z) (win : window_t) : outcome (gfx * W) :=
  if is_visible win then
    let g := if is_maximized win then g else gfx_draw_shadow g (wx win) (wy win) (ww win) (wh win) 8 in
    g ← draw_frame st g curr win;
    wm_draw_window_content si v st g w win
  else Done (g, w).

Fixpoint draw_windows (fuel : nat) (si : sysinfo) (v : vfs) st g w (curr : Z) : outcome (gfx * W) :=
  if curr =? 0 then Done (g, w)
  else
    match fuel with
    | O => NoFuel
    | S fuel' =>
        win ← wget st curr;
        '(g, w) ← draw_window si v st g w curr win;
        draw_windows fuel' si v st g w (wprev win)
    end.

Fixpoint draw_items (l : list menu_item_t) g (x y : Z) : outcome gfx :=
  match l with [] => Done g | it :: l' => g ← puts g x y (item_label it) 0x333333; draw_items l' g x (y + 22) end.

Definition draw_menu (m : menu_t) g : outcome gfx :=
  if menu_visible m then
    let g := gfx_draw_rect g (menu_x m) (menu_y m) (menu_w m) (menu_h m) 0xEEEEEE in
    draw_items (take (Z.to_nat (item_count m)) (items m)) g (menu_x m + 5) (menu_y m + 5)
  else Done g.

(** The file system works on the heap of the window manager. *)
Definition wm_draw (si : sysinfo) (v : vfs) st g w : outcome (gfx * W * wm H D) :=
  g ← draw_icons g (take (Z.to_nat (desktop_icon_count st)) (desktop_icons st));
  '(g, w) ← draw_windows (windows_fuel st) si v st g (on_heap (w_heap st) w) (windows_tail st);
  g ← draw_menu (desktop_menu st) g;
  Done (g, w, u_heap (heap_of w) st).
End content.

(** ** The taskbar *)

Section taskbar_drawing.
Context {H D : Type} `{PortIO D}.
Variable junk : Z → list Z.
Implicit Types (st : wm H D) (tb : taskbar) (g : gfx).

Fixpoint draw_start_items (l : list start_item_t) (i : Z) tb g (mx my : Z) : gfx :=
  match l with
  | [] => g
  | it :: l' =>
      let item_x := START_MENU_X + START_MENU_PADDING in
      let item_w := START_MENU_WIDTH - 2 * START_MENU_PADDING in
      let bg := if in_box mx my item_x (item_y tb i) item_w START_MENU_ITEM_HEIGHT then 0x000f3460 else 0x001a1a2e in
      let g := gfx_draw_rounded_rect g item_x (item_y tb i) item_w START_MENU_ITEM_HEIGHT 4 bg in
      draw_start_items l' (i + 1) tb (gfx_puts g (item_x + 8) (item_y tb i + 6) (start_label it ++ [0]) COLOR_WHITE) mx my
  end.

Definition draw_start_menu tb g (mx my : Z) : gfx * taskbar :=
  if start_menu_active tb then
    let h := calc_start_menu_height start_item_count in
    let menu_y := taskbar_y tb - h - 5 in
    let g := gfx_draw_gradient_rect g START_MENU_X menu_y START_MENU_WIDTH h 0x0016213e 0x000f3460 true in
    let g := gfx_draw_rect g (START_MENU_X + START_MENU_WIDTH) (menu_y + 4) 4 h 0x00202020 in
    let g := gfx_draw_rect g (START_MENU_X + 4) (menu_y + h) START_MENU_WIDTH 4 0x00202020 in
    let g := label g (START_MENU_X + START_MENU_PADDING) (menu_y + START_MENU_PADDING) "KHAZAR OS" 0x0087CEEB in
    (draw_start_items (take (Z.to_nat start_item_count) start_items) 0 tb g mx my,
     mk_taskbar (taskbar_y tb) (start_button_hover tb) (start_button_pressed tb) (start_menu_active tb) h (last_left_click tb))
  else (g, tb).

Definition draw_wave_icon g (x y : Z) : gfx :=
  let g := gfx_draw_rect g x (y + 4) 16 4 COLOR_WHITE in
  let g := gfx_draw_rect g x (y + 8) 16 4 0x0087CEEB in
  gfx_draw_rect g x (y + 12) 16 4 0x0040E0D0.

(** [kstrncpy(title_trim, curr->title, 15)] *)
Definition title_trim (win : window_t) : list Z := kstrncpy (junk 16) 0 (title win) 15.

Fixpoint draw_buttons (fuel : nat) tb st g (curr bx : Z) : outcome gfx :=
  if curr =? 0 then Done g
  else
    match fuel with
    | O => NoFuel
    | S fuel' =>
        win ← wget st curr;
        let btn_bg := if curr =? windows_get_head st then 0x004A78C8 else 0x00333333 in
        let btn_bg := if is_minimized win then 0x00222222 else btn_bg in
        let g := gfx_draw_rect g bx (taskbar_y tb + 4) 150 (TASKBAR_HEIGHT - 8) btn_bg in
        let g := gfx_draw_rect g bx (taskbar_y tb + 4) 150 1 0x00555555 in
        g ← puts g (bx + 10) (taskbar_y tb + 12) (title_trim win) COLOR_WHITE;
        draw_buttons fuel' tb st g (wnext win) (bx + 160)
    end.

Definition taskbar_draw tb st g (d : D) (mx my : Z) : outcome (gfx * taskbar * D) :=
  let wd := s32 (width (vbe g)) in
  let g := gfx_draw_rect g 0 (taskbar_y tb) wd TASKBAR_HEIGHT TASKBAR_COLOR in
  let g := gfx_draw_rect g 0 (taskbar_y tb) wd 1 0x00404040 in
  let start_bg := if start_button_pressed tb then 0x00151515 else if start_button_hover tb then 0x00404040 else 0x00333333 in
  let g := gfx_draw_rect g 2 (taskbar_y tb + 2) (TASKBAR_START_BTN_WIDTH - 4) (TASKBAR_HEIGHT - 4) start_bg in
  let g := draw_wave_icon g 8 (taskbar_y tb + 10) in
  let g := label g 28 (taskbar_y tb + 15) "Start" COLOR_WHITE in
  let clock_x := s32 (u32 (width (vbe g) - 110)) in
  let '(time_buf, d) := format_time d (junk 16) in
  g ← puts g (clock_x + 5) (taskbar_y tb + 15) time_buf COLOR_WHITE;
  g ← draw_buttons (windows_fuel st) tb st g (windows_get_head st) 110;
  let '(g, tb) := draw_start_menu tb g mx my in
  Done (g, tb, d).
End taskbar_drawing.

(** ** Pictures that agree in a region

    Two canvases of the same size whose pixels are the same in the region [P]; what the drawing
    operations do to one pixel depends on that pixel only. *)

Definition region : Type := Z → Z → Prop.
Definition nowhere : region := λ _ _, False.
Definition box (x y w h : Z) : region := λ a b, x <= a < x + w ∧ y <= b < y + h.
Definition join (P Q : region) : region := λ x y, P x y ∨ Q x y.

Record agree (P : region) (g1 g2 : gfx) : Prop := {
  ag_width : width (vbe g1) = width (vbe g2);
  ag_height : height (vbe g1) = height (vbe g2);
  ag_back : match backbuffer g1, backbuffer g2 with
            | Some b1, Some b2 => length b1 = length b2 ∧ ∀ x y, visible g1 x y = true → P x y → b1.[pixel g1 x y] = b2.[pixel g1 x y]
            | None, None => True
            | _, _ => False
            end }.

Create HintDb paint.

Lemma agree_pixel P g1 g2 x y : agree P g1 g2 → pixel g1 x y = pixel g2 x y ∧ visible g1 x y = visible g2 x y.
Proof. intros [Hw Hh _]. unfold pixel, visible. by rewrite Hw, Hh. Qed.

(** Writing the same colour to a pixel of both makes them agree there. *)
Lemma put_pixel_covers P g1 g2 x y c : agree P g1 g2 →
  agree (join P (λ a b, a = x ∧ b = y)) (gfx_put_pixel g1 x y c) (gfx_put_pixel g2 x y c).
Proof.
  intros Hag. destruct (agree_pixel P g1 g2 x y Hag) as [Ep Ev]. destruct Hag as [Hw Hh Hb]. unfold gfx_put_pixel.
  destruct (backbuffer g1) as [b1|] eqn:E1, (backbuffer g2) as [b2|] eqn:E2; try done; [|constructor; by rewrite ?E1, ?E2].
  destruct Hb as [Hl Hb]. rewrite <-Ev, <-Ep. destruct (visible g1 x y) eqn:Evis.
  - constructor; cbn [w_back vbe backbuffer]; try done. split; [by rewrite !length_aset|]. intros a b Hv Hp.
    change (pixel (w_back (Some (b1.[pixel g1 x y <- c])) g1) a b) with (pixel g1 a b). change (visible g1 a b = true) in Hv.
    assert (0 <= pixel g1 x y) as H0 by apply u32_range. destruct (decide (pixel g1 x y = pixel g1 a b)) as [E|E].
    + rewrite <-E. unfold aget, aset. destruct (Z.ltb_spec (pixel g1 x y) 0); [lia|]. rewrite !list_lookup_total_alt.
      destruct (decide (Z.to_nat (pixel g1 x y) < length b1)%nat).
      * by rewrite !list_lookup_insert_eq by lia.
      * by rewrite !lookup_ge_None_2 by (rewrite ?length_insert; lia).
    + rewrite !aget_aset_ne by done. apply Hb; [done|]. destruct Hp as [?|[-> ->]]; [done|]. done.
  - constructor; try done. rewrite E1, E2. split; [done|]. intros a b Hv [Hp|[-> ->]]; [by apply Hb|congruence].
Qed.

Lemma agree_mono P Q g1 g2 : agree P g1 g2 → (∀ x y, Q x y → P x y) → agree Q g1 g2.
Proof.
  intros [Hw Hh Hb] HQ. constructor; try done. destruct (backbuffer g1), (backbuffer g2); try done. destruct Hb as [Hl Hb].
  split; [done|]. intros x y Hv Hq. apply Hb; auto.
Qed.

Lemma put_pixel_agree P g1 g2 x y c : agree P g1 g2 → agree P (gfx_put_pixel g1 x y c) (gfx_put_pixel g2 x y c).
Proof. intros Hag. eapply agree_mono; [by apply put_pixel_covers|]. by left. Qed.

Lemma put_pixel_alpha_agree P g1 g2 x y c a : agree P g1 g2 → agree P (gfx_put_pixel_alpha g1 x y c a) (gfx_put_pixel_alpha g2 x y c a).
Proof.
  intros Hag. destruct (agree_pixel P g1 g2 x y Hag) as [Ep Ev]. pose proof (put_pixel_agree P g1 g2 x y c Hag) as Hput.
  pose proof Hag as [Hw Hh Hb]. unfold gfx_put_pixel_alpha, gfx_put_pixel in *.
  destruct (backbuffer g1) as [b1|] eqn:E1, (backbuffer g2) as [b2|] eqn:E2; try done. rewrite <-Ev, <-Ep in *.
  destruct (visible g1 x y) eqn:Evis; [|done]. destruct (a =? 255); [done|]. destruct (a =? 0); [done|].
  destruct Hb as [Hl Hb]. constructor; cbn [w_back vbe backbuffer]; try done. split; [by rewrite !length_aset|]. intros u v Hv Hp.
  change (visible g1 u v = true) in Hv. specialize (Hb u v Hv Hp). set (i := pixel g1 x y) in *.
  change (pixel (w_back _ g1) u v) with (pixel g1 u v). set (j := pixel g1 u v) in *. assert (0 <= i) as H0 by apply u32_range.
  destruct (decide (i = j)) as [E|E]; [|by rewrite !aget_aset_ne by done]. rewrite <-E in *. rewrite Hb.
  unfold aget, aset. destruct (Z.ltb_spec i 0); [lia|]. rewrite !list_lookup_total_alt.
  destruct (decide (Z.to_nat i < length b1)%nat).
  - by rewrite !list_lookup_insert_eq by lia.
  - by rewrite !lookup_ge_None_2 by (rewrite ?length_insert; lia).
Qed.

(** A relation between canvases that writing a pixel to both keeps; everything is drawn with
    these two operations. *)
Class Painted (R : gfx → gfx → Prop) := {
  painted_put g1 g2 x y c : R g1 g2 → R (gfx_put_pixel g1 x y c) (gfx_put_pixel g2 x y c);
  painted_alpha g1 g2 x y c a : R g1 g2 → R (gfx_put_pixel_alpha g1 x y c a) (gfx_put_pixel_alpha g2 x y c a) }.

#[export] Instance agree_painted P : Painted (agree P).
Proof. split; intros; [by apply put_pixel_agree|by apply put_pixel_alpha_agree]. Qed.

(** Two runs of a loop. *)
Lemma for_loop_rel {S T} (R : Z → S → T → Prop) n i f h (s : S) (t : T) :
  R i s t → (∀ k a b, i <= k < i + Z.of_nat n → R k a b → R (k + 1) (f k a) (h k b)) →
  R (i + Z.of_nat n) (for_loop n i f s) (for_loop n i h t).
Proof.
  revert i s t. induction n as [|n IH]; intros i s t Hr Hstep; cbn [for_loop].
  - by rewrite Z.add_0_r.
  - replace (i + Z.of_nat (Datatypes.S n)) with (i + 1 + Z.of_nat n) by lia. apply IH; [apply Hstep; (done || lia)|].
    intros k a b Hk. apply Hstep. lia.
Qed.

(** A filled rectangle hides what was there. *)
Lemma draw_rect_covers P g1 g2 x y w h c : agree P g1 g2 →
  agree (join P (box x y w h)) (gfx_draw_rect g1 x y w h c) (gfx_draw_rect g2 x y w h c).
Proof.
  intros Hag. unfold gfx_draw_rect.
  eapply agree_mono; [apply (for_loop_rel (λ k, agree (join P (box x y w k))) (Z.to_nat h) 0)|].
  - eapply agree_mono; [done|]. intros a b [?|[? ?]]; [done|lia].
  - intros i a b Hi Hr. eapply agree_mono; [apply (for_loop_rel (λ k, agree (join (join P (box x y w i)) (box x (y + i) k 1))) (Z.to_nat w) 0)|].
    + eapply agree_mono; [done|]. intros u v [?|[? ?]]; [done|lia].
    + intros j a' b' Hj Hr'. eapply agree_mono; [apply put_pixel_covers, Hr'|]. intros u v [Hp|[? ?]]; [by left; left|].
      destruct (decide (u = x + j)); [right; lia|left; right; split; lia].
    + intros u v [Hp|[? ?]]; [by left; left|]. destruct (decide (v = y + i)); [right; split; lia|left; right; split; lia].
  - intros u v [Hp|[? ?]]; [by left|right; split; lia].
Qed.

(** Computations that end the same way, with related results. *)
Definition orel {A B} (R : A → B → Prop) (x : outcome A) (y : outcome B) : Prop :=
  match x, y with Done a, Done b => R a b | Fault, Fault | NoFuel, NoFuel => True | _, _ => False end.

Lemma orel_bind {A B C E} (R : A → B → Prop) (S : C → E → Prop) x y f h :
  orel R x y → (∀ a b, R a b → orel S (f a) (h b)) → orel S (x ≫= f) (y ≫= h).
Proof. destruct x, y; cbn; try done. auto. Qed.

(** A step that does not involve the canvas. *)
Lemma orel_same {A C E} (S : C → E → Prop) (x : outcome A) f h : (∀ a, orel S (f a) (h a)) → orel S (x ≫= f) (x ≫= h).
Proof. intros. by destruct x; cbn. Qed.

Ltac painted := cbn [orel fst snd]; auto 12 with paint.

Section painting.
Context (R : gfx → gfx → Prop) `{!Painted R}.

Lemma for_loop_agree n i f h g1 g2 :
  R g1 g2 → (∀ k a b, R a b → R (f k a) (h k b)) → R (for_loop n i f g1) (for_loop n i h g2).
Proof. intros Hag Hstep. apply (for_loop_rel (λ _, R)); auto. Qed.

Lemma pixel_agree g1 g2 x y c : R g1 g2 → R (gfx_put_pixel g1 x y c) (gfx_put_pixel g2 x y c).
Proof. apply painted_put. Qed.
#[local] Hint Resolve pixel_agree for_loop_agree : paint.

Lemma draw_rect_agree g1 g2 x y w h c : R g1 g2 → R (gfx_draw_rect g1 x y w h c) (gfx_draw_rect g2 x y w h c).
Proof. intros. unfold gfx_draw_rect. auto with paint. Qed.

Lemma put_char_agree g1 g2 x y c color : R g1 g2 → R (gfx_put_char g1 x y c color) (gfx_put_char g2 x y c color).
Proof. intros. unfold gfx_put_char. case_match; [done|]. apply for_loop_agree; [done|]. intros. apply for_loop_agree; [done|]. intros. case_match; auto with paint. Qed.

Lemma puts_agree str color : ∀ g1 g2 x cx y, R g1 g2 → R (puts_loop g1 x cx y str color) (puts_loop g2 x cx y str color).
Proof.
  induction str as [|c str IH]; intros g1 g2 x cx y Hag; cbn [puts_loop]; [done|]. case_match; [done|]. case_match; [auto|]. apply IH. by apply put_char_agree.
Qed.

Lemma gfx_puts_agree g1 g2 x y str color : R g1 g2 → R (gfx_puts g1 x y str color) (gfx_puts g2 x y str color).
Proof. apply puts_agree. Qed.

Lemma label_agree g1 g2 x y s color : R g1 g2 → R (label g1 x y s color) (label g2 x y s color).
Proof. apply gfx_puts_agree. Qed.

Lemma draw_shadow_agree g1 g2 x y w h r : R g1 g2 → R (gfx_draw_shadow g1 x y w h r) (gfx_draw_shadow g2 x y w h r).
Proof.
  intros. unfold gfx_draw_shadow. apply for_loop_agree; [done|]. intros j a b Hab. apply for_loop_agree; [done|]. intros i a' b' Hab'.
  unfold shadow_pixel. case_match; [done|]. case_match; [|done]. by apply painted_alpha.
Qed.

#[local] Hint Resolve draw_rect_agree put_char_agree gfx_puts_agree label_agree draw_shadow_agree : paint.

Lemma puts_orel g1 g2 x y str color : R g1 g2 → orel R (puts g1 x y str color) (puts g2 x y str color).
Proof. intros. unfold puts. case_match; cbn; auto with paint. Qed.
#[local] Hint Resolve puts_orel : paint.

(** ** Every window draws the same on canvases that agree *)

Context {H D W : Type} `{HeapAlloc H} `{VfsWorld W} `{!OnHeap W H}.
Variable junk : Z → list Z.
Implicit Types (st : wm H D) (g : gfx) (w : W).

(** The canvas and what the window was drawn from. *)
Notation drawn R := (prod_relation R (=)).

Lemma draw_terminal_agree st g1 g2 win : R g1 g2 → R (draw_terminal st g1 win) (draw_terminal st g2 win).
Proof.
  intros. unfold draw_terminal. apply for_loop_agree; [auto with paint|]. intros r a b Hab. apply for_loop_agree; [done|]. intros c a' b' Hab'.
  unfold terminal_cell. case_match; auto with paint.
Qed.

Lemma draw_notepad_agree st g1 g2 win : R g1 g2 → orel R (draw_notepad st g1 win) (draw_notepad st g2 win).
Proof.
  intros. unfold draw_notepad. case_match; [|painted]. destruct (notepads st !! wdata win); [|done].
  apply (orel_bind R); [apply puts_orel; auto with paint|]. intros a b Hab. painted.
Qed.

Lemma net_lines_agree l : ∀ g1 g2 buf x cy n, R g1 g2 →
  orel (prod_relation (drawn R) (=)) (net_lines junk l g1 buf x cy n) (net_lines junk l g2 buf x cy n).
Proof.
  induction l as [|d l IH]; intros g1 g2 buf x cy n Hag; cbn [net_lines]; [done|]. case_match; [|auto].
  apply orel_same. intros buf'. apply (orel_bind R); [apply puts_orel; auto with paint|]. auto.
Qed.

Lemma other_lines_agree l : ∀ g1 g2 buf x y n, R g1 g2 → orel R (other_lines junk l g1 buf x y n) (other_lines junk l g2 buf x y n).
Proof.
  induction l as [|d l IH]; intros g1 g2 buf x y n Hag; cbn [other_lines]; [done|]. case_match; [|done]. case_match; [|auto].
  apply orel_same. intros buf'. apply (orel_bind R); [apply puts_orel; auto with paint|]. auto.
Qed.

Lemma driver_lines_agree nic g1 g2 buf x y : R g1 g2 → orel (drawn R) (driver_lines junk nic g1 buf x y) (driver_lines junk nic g2 buf x y).
Proof.
  intros. unfold driver_lines. destruct nic as [[[vendor mac]|]|]; [|split; painted..].
  apply orel_same. intros b1. apply (orel_bind R); [apply puts_orel; auto with paint|]. intros a b Hab. apply orel_same. intros b2.
  apply (orel_bind R); [apply puts_orel; auto with paint|]. intros a' b' Hab'. by split.
Qed.

Lemma draw_settings_agree si g1 g2 win : R g1 g2 → orel R (draw_settings junk si g1 win) (draw_settings junk si g2 win).
Proof.
  intros. unfold draw_settings. apply orel_same. intros buf. apply (orel_bind R); [apply puts_orel; auto with paint|]. intros a b Hab.
  apply (orel_bind (prod_relation (drawn R) (=))); [apply net_lines_agree; case_match; auto with paint|].
  intros [[a1 b1] n1] [[a2 b2] n2] [[Hag Eb] En]. cbn [fst snd] in *. subst b2 n2.
  assert (∀ a b n, R a b → orel R
    (let '(g, shown) := (a, n) in
     '(g, buf) ← driver_lines junk (si_nic si) (label g (wx win + 20) (wy win + 26 + 110 + shown * 15 + 5) "Driver Status:" 0x00333333) b1 (wx win) (wy win + 26 + 110 + shown * 15 + 5);
     other_lines junk (si_pci si) (label g (wx win + 20) (wy win + 26 + 110 + (shown + 3) * 15 + 10) "Other Hardware:" 0x00333333) buf (wx win) (wy win + 26 + 110 + (shown + 3) * 15 + 25) 0)
    (let '(g, shown) := (b, n) in
     '(g, buf) ← driver_lines junk (si_nic si) (label g (wx win + 20) (wy win + 26 + 110 + shown * 15 + 5) "Driver Status:" 0x00333333) b1 (wx win) (wy win + 26 + 110 + shown * 15 + 5);
     other_lines junk (si_pci si) (label g (wx win + 20) (wy win + 26 + 110 + (shown + 3) * 15 + 10) "Other Hardware:" 0x00333333) buf (wx win) (wy win + 26 + 110 + (shown + 3) * 15 + 25) 0)) as Hrest.
  { intros a0 b0 n Hab0. apply (orel_bind (drawn R)); [apply driver_lines_agree; auto with paint|]. intros [u bu] [u' bu'] [Hu Ebu]. cbn [fst snd] in *. subst bu'.
    apply other_lines_agree. auto with paint. }
  destruct (n1 =? 0); apply Hrest; auto with paint.
Qed.

Lemma file_lines_agree n : ∀ i root g1 g2 w x cy, R g1 g2 →
  orel (drawn R) (file_lines n i root g1 w x cy) (file_lines n i root g2 w x cy).
Proof.
  induction n as [|n IH]; intros i root g1 g2 w x cy Hag; cbn [file_lines]; [done|]. destruct (f_readdir _); [|done].
  destruct (call_readdir _ _ _ _) as [p w']. case_match; [done|]. apply (orel_bind R); [apply puts_orel; auto with paint|]. auto.
Qed.

Lemma draw_about_agree g1 g2 win : R g1 g2 → R (draw_about g1 win) (draw_about g2 win).
Proof. intros Hag. unfold draw_about. apply label_agree, label_agree, draw_rect_agree, Hag. Qed.

Lemma content_agree si v st g1 g2 w win : R g1 g2 →
  orel (drawn R) (wm_draw_window_content junk si v st g1 w win) (wm_draw_window_content junk si v st g2 w win).
Proof.
  intros Hag. unfold wm_draw_window_content. destruct (wtype win).
  - split; [exact Hag|reflexivity].
  - split; cbn [fst snd]; [apply draw_terminal_agree, Hag|reflexivity].
  - unfold draw_files. case_match; [apply file_lines_agree; auto with paint|split; painted].
  - apply (orel_bind R); [apply draw_settings_agree, Hag|]. intros a b Hab. split; [exact Hab|reflexivity].
  - split; cbn [fst snd]; [apply draw_about_agree, Hag|reflexivity].
  - split; [exact Hag|reflexivity].
  - apply (orel_bind R); [apply draw_notepad_agree, Hag|]. intros a b Hab. split; [exact Hab|reflexivity].
Qed.


Lemma draw_desktop_icon_agree g1 g2 ic : R g1 g2 → orel R (draw_desktop_icon g1 ic) (draw_desktop_icon g2 ic).
Proof.
  intros Hag. unfold draw_desktop_icon. apply puts_orel.
  assert (R (if hovered ic then gfx_draw_rect g1 (icon_x ic - 4) (icon_y ic - 4) 56 70 0x33FFFFFF else g1)
    (if hovered ic then gfx_draw_rect g2 (icon_x ic - 4) (icon_y ic - 4) 56 70 0x33FFFFFF else g2)) as Hh by (destruct (hovered ic); auto with paint).
  destruct (is_label ic "Terminal"); [unfold draw_icon_terminal; auto with paint|].
  destruct (is_label ic "Fayllar"); [unfold draw_icon_files; auto with paint|].
  destruct (is_label ic "Notepad"); [unfold draw_icon_notepad; auto 10 with paint|auto with paint].
Qed.

Lemma draw_icons_agree l : ∀ g1 g2, R g1 g2 → orel R (draw_icons g1 l) (draw_icons g2 l).
Proof.
  induction l as [|ic l IH]; intros g1 g2 Hag; cbn [draw_icons]; [exact Hag|].
  apply (orel_bind R); [by apply draw_desktop_icon_agree|]. auto.
Qed.

(** The frame once its rectangle is filled. *)
Lemma frame_rest_agree st g1 g2 curr win :
  R (gfx_draw_rect g1 (wx win) (wy win) (ww win) (wh win) 0xF2F2F2) (gfx_draw_rect g2 (wx win) (wy win) (ww win) (wh win) 0xF2F2F2) →
  orel R (draw_frame st g1 curr win) (draw_frame st g2 curr win).
Proof.
  intros Hc. unfold draw_frame. apply (orel_bind R); [apply puts_orel; auto with paint|]. intros a b Hab. case_match; painted.
Qed.

Lemma draw_window_agree si v st g1 g2 w curr win : R g1 g2 →
  orel (drawn R) (draw_window junk si v st g1 w curr win) (draw_window junk si v st g2 w curr win).
Proof.
  intros Hag. unfold draw_window. destruct (is_visible win); [|split; [exact Hag|reflexivity]].
  apply (orel_bind R); [apply frame_rest_agree, draw_rect_agree; destruct (is_maximized win); auto with paint|].
  intros a b Hab. by apply content_agree.
Qed.

(** The windows of a list, one after the other. *)
Fixpoint draw_list si v st (l : zorder) g w : outcome (gfx * W) :=
  match l with [] => Done (g, w) | x :: l' => '(g, w) ← draw_window junk si v st g w x.1 x.2; draw_list si v st l' g w end.

Lemma draw_list_agree si v st l : ∀ g1 g2 w, R g1 g2 → orel (drawn R) (draw_list si v st l g1 w) (draw_list si v st l g2 w).
Proof.
  induction l as [|x l IH]; intros g1 g2 w Hag; cbn [draw_list]; [split; [exact Hag|reflexivity]|].
  apply (orel_bind (drawn R)); [by apply draw_window_agree|]. intros [a wa] [b wb] [Hab Ew]. cbn [fst snd] in *. subst wb. auto.
Qed.
End painting.

(** ** The size of the canvas stays *)

Lemma agree_trans P g1 g2 g3 : agree P g1 g2 → agree P g2 g3 → agree P g1 g3.
Proof.
  intros H12 H23. pose proof (λ x y, agree_pixel _ _ _ x y H12) as Hpx. destruct H12 as [Hw Hh Hb], H23 as [Hw' Hh' Hb']. constructor; [congruence..|].
  destruct (backbuffer g1), (backbuffer g2), (backbuffer g3); try done. destruct Hb as [Hl Hb], Hb' as [Hl' Hb']. split; [congruence|].
  intros x y Hv Hp. destruct (Hpx x y) as [Ep Ev]. rewrite Hb, Ep by done. apply Hb'; [congruence|done].
Qed.

Lemma agree_refl P g : agree P g g.
Proof. constructor; try done. by destruct (backbuffer g). Qed.

Lemma agree_sym P g1 g2 : agree P g1 g2 → agree P g2 g1.
Proof.
  intros Hag. pose proof (λ x y, agree_pixel _ _ _ x y Hag) as Hpx. destruct Hag as [Hw Hh Hb]. constructor; [done..|].
  destruct (backbuffer g1), (backbuffer g2); try done. destruct Hb as [Hl Hb]. split; [done|].
  intros x y Hv Hp. destruct (Hpx x y) as [Ep Ev]. rewrite <-Ep. symmetry. apply Hb; [congruence|done].
Qed.

#[export] Instance sized_painted g0 : Painted (λ g _, agree nowhere g0 g).
Proof.
  assert (∀ g i c, agree nowhere g (match backbuffer g with None => g | Some b => w_back (Some (b.[i <- c])) g end)) as Hput.
  { intros g i c. destruct (backbuffer g) as [b|] eqn:E; [|apply agree_refl]. constructor; cbn [w_back vbe backbuffer]; try done. rewrite E.
    split; [by rewrite length_aset|]. by intros ? ? ? []. }
  split; intros g1 g2 x y c.
  - intros Hg. eapply agree_trans; [exact Hg|]. specialize (Hput g1 (pixel g1 x y) c). unfold gfx_put_pixel. destruct (backbuffer g1); [|apply agree_refl].
    case_match; [done|apply agree_refl].
  - intros a Hg. eapply agree_trans; [exact Hg|]. unfold gfx_put_pixel_alpha. pose proof (λ d, Hput g1 (pixel g1 x y) d) as Hp. destruct (backbuffer g1); [|apply agree_refl].
    repeat case_match; (apply Hp || apply agree_refl).
Qed.

(** ** The frontmost window hides what is behind it *)

Section hiding.
Context {H D W : Type} `{HeapAlloc H} `{PortIO D} `{VfsWorld W} `{!OnHeap W H}.
Variable junk : Z → list Z.
Implicit Types (st : wm H D) (g : gfx) (w : W).

(** The frame of a window. *)
Definition frame (win : window_t) : region := box (wx win) (wy win) (ww win) (wh win).

Lemma draw_window_covers si v st g1 g2 w curr win : agree nowhere g1 g2 → is_visible win = true →
  orel (prod_relation (agree (frame win)) (=)) (draw_window junk si v st g1 w curr win) (draw_window junk si v st g2 w curr win).
Proof.
  intros Hag Hv. unfold draw_window. rewrite Hv. set (s1 := if is_maximized win then g1 else _). set (s2 := if is_maximized win then g2 else _).
  assert (agree nowhere s1 s2) as Hs by (unfold s1, s2; destruct (is_maximized win); [done|by apply (draw_shadow_agree (agree nowhere))]).
  apply (orel_bind (agree (frame win))); [|intros a b Hab; by apply (content_agree (agree (frame win)))].
  apply (frame_rest_agree (agree (frame win))). eapply agree_mono; [apply draw_rect_covers, Hs|]. by right.
Qed.

(** The links of a window are not drawn. *)
Lemma draw_window_link si v st g w p a b win : draw_window junk si v st g w p (link a b win) = draw_window junk si v st g w p win.
Proof.
  unfold draw_window, draw_frame, wm_draw_window_content, draw_terminal, draw_notepad, draw_settings, draw_files, draw_about.
  cbn [link set_next set_prev wx wy ww wh title is_visible is_maximized wtype wdata]. reflexivity.
Qed.

(** Walking the list from its end draws the windows from back to front. *)
Lemma draw_windows_list si v st l : ∀ fuel g w nxt, wseg (windows st) 0 l nxt → (length l <= fuel)%nat →
  draw_windows junk fuel si v st g w (final 0 l) = draw_list junk si v st (rev l) g w.
Proof.
  induction l as [|[p x] l IH] using rev_ind; intros fuel g w nxt Hseg Hf.
  { by destruct fuel. }
  rewrite final_snoc, rev_app_distr. apply wseg_app in Hseg as [Hl (Hp & Hw & _)]. rewrite length_app in Hf. cbn [length] in Hf.
  destruct fuel as [|fuel]; [lia|]. cbn [draw_windows rev app draw_list]. rewrite (proj2 (Z.eqb_neq p 0) Hp). unfold wget. rewrite Hw, outcome_bind_done.
  cbn [fst snd]. rewrite draw_window_link.
  destruct (draw_window junk si v st g w p x) as [[g' w']| |]; cbn [mbind outcome_bind]; [|done|done]. apply (IH fuel g' w' _ Hl). lia.
Qed.

Lemma draw_list_snoc si v st l x : ∀ g w,
  draw_list junk si v st (l ++ [x]) g w = ('(g, w) ← draw_list junk si v st l g w; draw_window junk si v st g w x.1 x.2).
Proof.
  induction l as [|y l IH]; intros g w; cbn [app draw_list].
  - rewrite outcome_bind_done. by destruct (draw_window _ _ _ _ _ _ _ _) as [[? ?]| |].
  - destruct (draw_window _ _ _ _ _ _ _ _) as [[g' w']| |]; cbn [mbind outcome_bind]; [apply IH|done|done].
Qed.

(** C22: Drawing the desktop, with the menu closed, the frontmost window visible and no fault on
    the way, hides what is behind the frontmost window: every pixel inside its
    frame is what drawing this window alone gives, on any canvas of the same size, whatever was
    on the screen before and whatever windows and icons are behind it. *)
Theorem wm_draw_hides si v st g w p win rest g' w' st' :
  repr st ((p, win) :: rest) → is_visible win = true → menu_visible (desktop_menu st) = false →
  wm_draw junk si v st g w = Done (g', w', st') →
  ∃ w1, ∀ g2, agree nowhere g g2 →
    ∃ g2', draw_window junk si v st g2 w1 p win = Done (g2', w') ∧ agree (frame win) g' g2'.
Proof.
  intros Hr Hv Hm E. unfold wm_draw in E. set (icons := take _ _) in E.
  destruct (draw_icons g icons) as [g1| |] eqn:E1; cbn [mbind outcome_bind] in E; [|done|done].
  pose proof (zl_seg _ _ _ _ Hr) as Hseg. rewrite (zl_tail _ _ _ _ Hr) in E. rewrite (draw_windows_list si v st _ _ _ _ _ Hseg (repr_fuel st _ Hr)) in E.
  cbn [rev] in E. rewrite draw_list_snoc in E. cbn [fst snd] in E.
  destruct (draw_list junk si v st (rev rest) g1 (on_heap (w_heap st) w)) as [[g3 w3]| |] eqn:E3; cbn [mbind outcome_bind] in E; [|done|done].
  destruct (draw_window junk si v st g3 w3 p win) as [[g4 w4]| |] eqn:E4; cbn [mbind outcome_bind] in E; [|done|done].
  unfold draw_menu in E. rewrite Hm in E. cbn [mbind outcome_bind] in E. injection E as <- <- <-.
  assert (agree nowhere g g1) as S1.
  { pose proof (draw_icons_agree (λ a _, agree nowhere g a) icons g g (agree_refl _ g)) as Hs. by rewrite E1 in Hs. }
  assert (agree nowhere g g3) as S3.
  { pose proof (draw_list_agree (λ a _, agree nowhere g a) junk si v st (rev rest) g1 g1 (on_heap (w_heap st) w) S1) as Hs. rewrite E3 in Hs. apply Hs. }
  exists w3. intros g2 S2. assert (agree nowhere g3 g2) as S32.
  { eapply agree_trans; [|exact S2]. by apply agree_sym. }
  pose proof (draw_window_covers si v st g3 g2 w3 p win S32 Hv) as Hc. rewrite E4 in Hc.
  destruct (draw_window junk si v st g2 w3 p win) as [[g2' w2']| |]; [|done|done]. destruct Hc as [Hc Ew]. cbn [fst snd] in *. subst w2'. eauto.
Qed.
End hiding.

(** ** The titles in the taskbar *)

Section titles.
Context {H D : Type} `{HeapAlloc H} `{PortIO D}.
Variable junk : Z → list Z.
Hypothesis junk_len : ∀ n, 0 <= n → alen (junk n) = n.
Implicit Types (st : wm H D) (g : gfx) (tb : taskbar).

Lemma title_trim_exact win : terminated (title_trim junk win) ↔ alen (cstr (title win)) < 15 ∨ (junk 16).[15] = 0.
Proof.
  pose proof (junk_len 16 ltac:(lia)) as Hj. unfold title_trim, terminated. rewrite kstrncpy_front by lia.
  assert (drop (Z.to_nat 15) (junk 16) = [(junk 16).[15]]) as ->.
  { rewrite <-(sub_1 (junk 16) 15) by lia. unfold sub. rewrite take_ge; [done|]. rewrite length_drop. unfold alen in Hj. lia. }
  set (s := cstr (title win)). rewrite elem_of_app, list_elem_of_singleton. split.
  - intros [Hin|Hin]; [|by right]. left. destruct (decide (alen s < 15)) as [|Hge]; [done|]. exfalso.
    rewrite take_app_le in Hin by (unfold alen in Hge; lia). 
    assert (0 ∈ s) as Hi by (rewrite <-(take_drop (Z.to_nat 15) s); apply elem_of_app; by left). by apply cstr_nonzero in Hi.
  - intros [Hlt|E]; [left|by right]. rewrite take_app. apply elem_of_app. right. unfold alen in Hlt.
    destruct (Z.to_nat 15 - length s)%nat as [|k] eqn:Ek; [lia|]. change (Z.to_nat 15) with (S 14). cbn [replicate firstn]. left.
Qed.

Lemma puts_done g x y str color : terminated str → puts g x y str color = Done (gfx_puts g x y str color).
Proof. intros. unfold puts. by rewrite bool_decide_eq_true_2. Qed.

Lemma draw_buttons_done tb st b : ∀ fuel g prev bx, wseg (windows st) prev b 0 → (length b <= fuel)%nat →
  Forall (λ x, alen (cstr (title x.2)) < 15) b → ∃ g', draw_buttons junk fuel tb st g (first 0 b) bx = Done g'.
Proof.
  induction b as [|[p x] b IH]; intros fuel g prev bx Hs Hf Ht.
  { change (first 0 []) with 0. destruct fuel; cbn; eauto. }
  apply Forall_cons in Ht as [Hx Ht]. destruct Hs as (Hp & Hw & Hs). cbn [length] in Hf. destruct fuel as [|fuel]; [lia|].
  change (first 0 ((p, x) :: b)) with p. cbn [draw_buttons]. rewrite (proj2 (Z.eqb_neq p 0) Hp). unfold wget. rewrite Hw, outcome_bind_done.
  rewrite puts_done by (apply title_trim_exact; by left). rewrite outcome_bind_done. apply (IH fuel _ p _ Hs); [lia|done].
Qed.

Lemma clock_terminated (d : D) : terminated (format_time d (junk 16)).1.
Proof.
  unfold format_time. destruct (rtc_read d) as [t d']. cbn [fst]. unfold terminated.
  case_match; unfold splice, time_chars; apply elem_of_app; right; apply elem_of_app; left; set_solver.
Qed.

(** The taskbar can be drawn when every title has fewer than 15 characters, as a list of
    buttons of any length; when the first window has a longer title, such as the 15 characters
    of a terminal's, its copy has no terminator of its own, and unless the last byte of the
    array on the stack happens to be zero the drawing reads behind it. *)
Theorem taskbar_titles tb st l g d mx my :
  repr st l →
  (Forall (λ x, alen (cstr (title x.2)) < 15) l → ∃ r, taskbar_draw junk tb st g d mx my = Done r) ∧
  (∀ p win rest, l = (p, win) :: rest → 15 <= alen (cstr (title win)) → (junk 16).[15] ≠ 0 → taskbar_draw junk tb st g d mx my = Fault).
Proof.
  intros Hr. pose proof (clock_terminated d) as Hc. unfold taskbar_draw. destruct (format_time d (junk 16)) as [tb_ d'] eqn:Ef. cbn [fst] in Hc.
  rewrite puts_done by done. rewrite outcome_bind_done. unfold windows_get_head. rewrite (zl_head _ _ _ _ Hr). split.
  - intros Ht. edestruct (draw_buttons_done tb st l (windows_fuel st)) as [g' E]; [apply Hr|by apply repr_fuel|done|]. rewrite E, outcome_bind_done.
    destruct (draw_start_menu tb g' mx my). eauto.
  - intros p win rest -> Ht Hz. pose proof (zl_seg _ _ _ _ Hr) as (Hp & Hw & _). change (first 0 ((p, win) :: rest)) with p.
    unfold windows_fuel. cbn [draw_buttons]. rewrite (proj2 (Z.eqb_neq p 0) Hp). unfold wget. rewrite Hw, outcome_bind_done.
    unfold puts. rewrite bool_decide_eq_false_2; [done|]. intros Hin. apply (title_trim_exact (link 0 (first 0 rest) win)) in Hin as [Hlt|?]; [|done].
    change (title (link 0 (first 0 rest) win)) with (title win) in Hlt. lia.
Qed.
End titles.

(** ** Concrete runs: a window on a small canvas. *)

Definition demo_window (t : list Z) : window_t := set_title t (set_type WINDOW_TYPE_ABOUT (set_shown true false (place 1 1 2 2 zero_window))).
Definition demo_desktop (t : list Z) : wm kheap uart :=
  mk_wm demo_kheap demo_vga Queues.Tty.tty_init Queues.Events.events_init {[0x5000 := demo_window t]} ∅ 0x5000 0x5000 0
    (mk_menu 0 0 0 0 0 [] false) [] 0.
Definition demo_small (c : Z) : gfx := mk_gfx (mk_vbe None 4 4 16 32) (Some (replicate 16 c)) None 64.

Lemma demo_desktop_repr t : repr (demo_desktop t) [(0x5000, demo_window t)].
Proof.
  constructor.
  - split; [done|]. split; [apply lookup_singleton_eq|done].
  - done.
  - done.
  - apply NoDup_singleton.
  - intros p [x Hx]. cbn [demo_desktop windows] in Hx. apply lookup_singleton_Some in Hx as [<- _]. by left.
Qed.

Lemma demo_small_size c c' : agree nowhere (demo_small c) (demo_small c').
Proof. constructor; [done..|]. cbn [demo_small backbuffer]. split; [by rewrite !length_replicate|]. by intros ? ? ? []. Qed.

Lemma wm_draw_hides_witness :
  ∃ g' w' st' w1 g2', wm_draw demo_stack (mk_sysinfo 0 0 [] None) demo_tree (demo_desktop (replicate 64 0)) (demo_small 7) (mk_demo_repo demo_kheap []) =
      Done (g', w', st') ∧
    draw_window demo_stack (mk_sysinfo 0 0 [] None) demo_tree (demo_desktop (replicate 64 0)) (demo_small 9) w1 0x5000 (demo_window (replicate 64 0)) =
      Done (g2', w') ∧ agree (frame (demo_window (replicate 64 0))) g' g2'.
Proof.
  destruct (wm_draw demo_stack (mk_sysinfo 0 0 [] None) demo_tree (demo_desktop (replicate 64 0)) (demo_small 7) (mk_demo_repo demo_kheap []))
    as [[[g' w'] st']| |] eqn:E.
  - destruct (wm_draw_hides demo_stack (mk_sysinfo 0 0 [] None) demo_tree (demo_desktop (replicate 64 0)) (demo_small 7) (mk_demo_repo demo_kheap [])
      0x5000 (demo_window (replicate 64 0)) [] g' w' st' (demo_desktop_repr _) eq_refl eq_refl E) as (w1 & Hw).
    destruct (Hw (demo_small 9) (demo_small_size 7 9)) as (g2' & E2 & Ha). exists g', w', st', w1, g2'. split; [reflexivity|]. split; [exact E2|exact Ha].
  - exfalso. apply (f_equal (λ o, match o with Fault => true | _ => false end)) in E. vm_compute in E. discriminate.
  - exfalso. apply (f_equal (λ o, match o with NoFuel => true | _ => false end)) in E. vm_compute in E. discriminate.
Defined.

Lemma taskbar_titles_witness :
  taskbar_draw (λ n, replicate (Z.to_nat n) 65) (mk_taskbar 728 false false false 180 false)
    (demo_desktop (str_bytes "Khazar Terminal" ++ replicate 49 0)) (demo_small 0) (s_io demo_uart) 0 0 = Fault.
Proof.
  assert (∀ n, 0 <= n → alen ((λ n, replicate (Z.to_nat n) 65) n) = n) as Hj by (intros n Hn; cbn beta; rewrite alen_replicate; lia).
  refine (proj2 (taskbar_titles (λ n, replicate (Z.to_nat n) 65) Hj (mk_taskbar 728 false false false 180 false)
    (demo_desktop (str_bytes "Khazar Terminal" ++ replicate 49 0)) _ (demo_small 0) (s_io demo_uart) 0 0 (demo_desktop_repr _)) _ _ _ eq_refl _ _).
  - clear. by vm_compute.
  - clear. by vm_compute.
Defined.
