(* ===== verification/Libc.v ===== *)
(** * userland/libc: the C library of user programs

    string.c, stdlib.c, stdio.c, dirent.c and crt0.c over the system calls of the kernel,
    an interface ([UserOS]).  A program is a computation on the state of the operating
    system and of the library ([prog]); a [char *] is the list of bytes from the pointer
    on, a buffer handed to a call is the list of bytes the call stores at its start.

    [uos] is what a program may rely on: an abstract operating system of console, files,
    descriptors and command line; [UserOSLaws] states that a system shows the behaviour of
    [uos].  The theorems give the text every [printf] leaves on the console, [atoi] as the
    inverse of [print_int] for every [int], and the argument vector as the words of the
    command line. *)

From Stdlib Require Import Ascii String.
From S2P Require Import Prelude KString Format.

(** ** string.c *)

Fixpoint strlen (str : list Z) : Z :=
  match str with
  | [] => 0
  | c :: str' => if nz c then 1 + strlen str' else 0
  end.

(** The copy writes [dest] from offset [d] on, the terminator included. *)
Fixpoint strcpy (dest : list Z) (d : Z) (src : list Z) : list Z :=
  match src with
  | [] => dest.[d <- 0]
  | c :: src' => if nz c then strcpy (dest.[d <- c]) (d + 1) src' else dest.[d <- 0]
  end.

Fixpoint strcmp (s1 s2 : list Z) : Z :=
  match s1 with
  | [] => 0 - hd0 s2
  | c :: s1' => if nz c && (c =? hd0 s2) then strcmp s1' (tail s2) else c - hd0 s2
  end.

Fixpoint strncmp (s1 s2 : list Z) (n : nat) : Z :=
  match n with
  | O => 0
  | S n' =>
      if nz (hd0 s1) && nz (hd0 s2) then
        if negb (hd0 s1 =? hd0 s2) then hd0 s1 - hd0 s2
        else strncmp (tail s1) (tail s2) n'
      else 0
  end.

Definition memset (s : list Z) (off c n : Z) : list Z :=
  for_loop (Z.to_nat n) 0 (λ i s, s.[off + i <- u8 c]) s.

Definition memcpy (dest : list Z) (doff : Z) (src : list Z) (soff n : Z) : list Z :=
  for_loop (Z.to_nat n) 0 (λ i d, d.[doff + i <- src.[soff + i]]) dest.

(** ** The system calls *)

Record dirent_t := mk_dirent {
  d_ino : Z; d_off : Z; d_reclen : Z; d_mode : Z; d_type : Z; d_name : list Z }.

(** One operation per system call the library and the programs issue (syscall.h); strings
    are what the kernel reads up to the terminator.  [os_read], [os_getcmdline] and [os_ps]
    give the result and the bytes stored in the caller's buffer. *)
Class UserOS (K : Type) := {
  os_exit : Z → K → K;
  os_write : Z → list Z → K → Z * K;
  os_read : Z → Z → K → Z * list Z * K;
  os_open : list Z → K → Z * K;
  os_close : Z → K → Z * K;
  os_getdents : Z → Z → K → Z * option dirent_t * K;
  os_getcmdline : Z → K → Z * list Z * K;
  os_unlink : list Z → K → Z * K;
  os_mkdir : list Z → K → Z * K;
  os_create : list Z → K → Z * K;
  os_chmod : list Z → Z → K → Z * K;
  os_ps : Z → K → Z * list Z * K;
  os_waitpid : Z → bool → K → Z * option Z * K;
  os_kill : Z → Z → K → Z * K
}.

(** The kernel's state and the library's only static variable. *)
Record user (K : Type) := mk_user { os : K; heap_offset : Z }.
Arguments mk_user {K} os heap_offset.
Arguments os {K} u.
Arguments heap_offset {K} u.

Definition prog (K A : Type) : Type := user K → outcome (A * user K).

#[global] Instance prog_ret K : MRet (prog K) := λ A a u, Done (a, u).
#[global] Instance prog_bind K : MBind (prog K) := λ A B f m u,
  match m u with
  | Done (a, u') => f a u'
  | Fault => Fault
  | NoFuel => NoFuel
  end.

Definition lift {K A} (o : outcome A) : prog K A := λ u,
  match o with
  | Done a => Done (a, u)
  | Fault => Fault
  | NoFuel => NoFuel
  end.

(** A system call as a step of a program. *)
Definition call {K A} (f : K → A * K) : prog K A := λ u,
  let '(a, k) := f (os u) in Done (a, mk_user k (heap_offset u)).

(** The arguments behind the [...] of [printf]. *)
Inductive varg := VInt (w : Z) | VStr (s : list Z).

Definition va_int (args : list varg) : outcome (Z * list varg) :=
  match args with
  | VInt w :: args' => Done (w, args')
  | _ => Fault
  end.

Definition va_str (args : list varg) : outcome (list Z * list varg) :=
  match args with
  | VStr s :: args' => Done (s, args')
  | _ => Fault
  end.

Section libc.
Context {K : Type} `{UserOS K}.

(** ** stdlib.c *)

(** After the call the function only spins. *)
Definition exit (status : Z) : prog K unit := λ u,
  Done (tt, mk_user (os_exit (u32 status) (os u)) (heap_offset u)).

Fixpoint atoi_loop (str : list Z) (res : Z) : Z :=
  match str with
  | [] => res
  | c :: str' =>
      if c =? 0 then res
      else if (ch "0" <=? c) && (c <=? ch "9")
      then atoi_loop str' (s32 (res * 10 + c - ch "0"))
      else res
  end.

Definition atoi (str : list Z) : Z :=
  if hd0 str =? ch "-" then s32 (-1 * atoi_loop (tail str) 0)
  else if hd0 str =? ch "+" then s32 (1 * atoi_loop (tail str) 0)
  else s32 (1 * atoi_loop str 0).

Definition heap_size : Z := 64 * 1024.

(** The block as its offset in [user_heap]; [None] is NULL. *)
Definition malloc (size : Z) : prog K (option Z) := λ u,
  if (size =? 0) || (heap_size <? u32 (heap_offset u + size)) then Done (None, u)
  else Done (Some (heap_offset u), mk_user (os u) (u32 (heap_offset u + size))).

Definition free (ptr : Z) : prog K unit := mret tt.

Definition waitpid (pid : Z) (status : bool) : prog K (Z * option Z) :=
  call (os_waitpid (u32 pid) status).

Definition kill (pid sig : Z) : prog K Z := call (os_kill (u32 pid) (u32 sig)).

(** ** stdio.c *)

Definition puts (s : list Z) : prog K Z :=
  let len := strlen s in call (os_write 1 (sub s 0 len)).

(** The digit loop of [print_uint]; a 32-bit number has at most 32 digits. *)
Fixpoint print_digits (fuel : nat) (value base : Z) (buffer : list Z) (i : Z) : list Z * Z :=
  match fuel with
  | O => (buffer, i)
  | S fuel' =>
      if 0 <? value then
        let r := value mod base in
        let c := if r <? 10 then u8 (ch "0" + r) else u8 (ch "a" + (r - 10)) in
        print_digits fuel' (value / base) base (buffer.[i <- c]) (i + 1)
      else (buffer, i)
  end.

(** [while (i > 0)]: [i] characters from the back, one [puts] each. *)
Fixpoint print_back (i : nat) (buffer : list Z) : prog K unit :=
  match i with
  | O => mret tt
  | S i' => puts [buffer.[Z.of_nat i']; 0] ≫= λ _, print_back i' buffer
  end.

Definition print_uint (value base : Z) : prog K unit :=
  if value =? 0 then puts (str_bytes "0" ++ [0]) ≫= λ _, mret tt
  else let '(buffer, i) := print_digits 33 value base (replicate 32 0) 0 in
       print_back (Z.to_nat i) buffer.

Definition print_int (value : Z) : prog K unit :=
  if value <? 0 then
    puts (str_bytes "-" ++ [0]) ≫= λ _, print_uint (u32 (s32 (- value))) 10
  else print_uint (u32 value) 10.

(** One conversion: the [switch] on the letter behind the [%]. *)
Definition convert (c : Z) (args : list varg) : prog K (list varg) :=
  if c =? ch "d" then
    lift (va_int args) ≫= λ '(v, args), print_int (s32 v) ≫= λ _, mret args
  else if c =? ch "x" then
    lift (va_int args) ≫= λ '(v, args), print_uint (u32 v) 16 ≫= λ _, mret args
  else if c =? ch "s" then
    lift (va_str args) ≫= λ '(s, args), puts s ≫= λ _, mret args
  else if c =? ch "c" then
    lift (va_int args) ≫= λ '(v, args), puts [u8 v; 0] ≫= λ _, mret args
  else if c =? ch "%" then puts (str_bytes "%" ++ [0]) ≫= λ _, mret args
  else mret args.

Fixpoint printf_loop (fuel : nat) (format : list Z) (i : Z) (args : list varg) : prog K unit :=
  match fuel with
  | O => lift NoFuel
  | S fuel' =>
      lift (char_at format i) ≫= λ c,
      if c =? 0 then mret tt
      else if c =? ch "%" then
        lift (char_at format (i + 1)) ≫= λ c,
        convert c args ≫= λ args, printf_loop fuel' format (i + 1 + 1) args
      else puts [c; 0] ≫= λ _, printf_loop fuel' format (i + 1) args
  end.

(** Every turn moves on in the format, whose length is therefore enough fuel. *)
Definition printf (format : list Z) (args : list varg) : prog K Z :=
  printf_loop (S (length format)) format 0 args ≫= λ _, mret 0.

Definition fopen (name : list Z) : prog K Z := call (os_open (cstr name)).
Definition fclose (fd : Z) : prog K Z := call (os_close fd).

(** The result and the buffer after the call. *)
Definition fread (fd : Z) (buffer : list Z) (size : Z) : prog K (Z * list Z) :=
  call (os_read fd size) ≫= λ '(n, data), mret (n, splice buffer 0 data).

Definition fwrite (fd : Z) (buffer : list Z) (size : Z) : prog K Z :=
  call (os_write fd (sub buffer 0 size)).

(** ** dirent.c *)

(** The [DIR] of dirent.h, held by its owner; its place in the heap is only reserved. *)
Record DIR := mk_DIR { fd : Z; index : Z; current : dirent_t }.

Definition sizeof_DIR : Z := 4 + 4 + 144.

Definition opendir (fresh : dirent_t) (name : list Z) : prog K (option DIR) :=
  call (os_open (cstr name)) ≫= λ fd,
  if fd <? 0 then mret None
  else malloc sizeof_DIR ≫= λ dirp,
    match dirp with
    | None => call (os_close fd) ≫= λ _, mret None
    | Some _ => mret (Some (mk_DIR fd 0 fresh))
    end.

(** The call fills [current] in place; the result says whether there was an entry. *)
Definition readdir (dirp : DIR) : prog K (bool * DIR) :=
  call (os_getdents (fd dirp) (index dirp)) ≫= λ '(ret, entry),
  let current' := match entry with Some e => e | None => current dirp end in
  if ret =? 1 then mret (true, mk_DIR (fd dirp) (s32 (index dirp + 1)) current')
  else mret (false, mk_DIR (fd dirp) (index dirp) current').

Definition closedir (dirp : DIR) : prog K Z :=
  call (os_close (fd dirp)) ≫= λ ret, free 0 ≫= λ _, mret ret.

(** ** crt0.c *)

(** [while ( *p == ' ') p++;] and [while ( *p && *p != ' ') p++;]: the walk stops inside the
    buffer, which ends in a terminator. *)
Fixpoint skip_spaces (fuel : nat) (line : list Z) (p : Z) : Z :=
  match fuel with
  | O => p
  | S fuel' => if line.[p] =? ch " " then skip_spaces fuel' line (p + 1) else p
  end.

Fixpoint token_end (fuel : nat) (line : list Z) (p : Z) : Z :=
  match fuel with
  | O => p
  | S fuel' =>
      if nz (line.[p]) && negb (line.[p] =? ch " ") then token_end fuel' line (p + 1) else p
  end.

(** The outer loop: the command line with its terminators and the arguments as offsets. *)
Fixpoint split_args (fuel : nat) (line : list Z) (p : Z) (argv : list Z) : list Z * list Z :=
  match fuel with
  | O => (line, argv)
  | S fuel' =>
      if line.[p] =? 0 then (line, argv)
      else
        let p := skip_spaces (length line) line p in
        if line.[p] =? 0 then (line, argv)
        else
          let argv := argv ++ [p] in
          if 16 <=? alen argv then (line, argv)
          else
            let p := token_end (length line) line p in
            if nz (line.[p]) then split_args fuel' (line.[p <- 0]) (p + 1) argv
            else split_args fuel' line p argv
  end.

Definition start_c (main : Z → list (list Z) → prog K Z) : prog K unit :=
  let cmdline := for_loop 128 0 (λ i l, l.[i <- 0]) (replicate 128 0) in
  call (os_getcmdline 128) ≫= λ '(_, data),
  let '(line, argv) := split_args 129 (splice cmdline 0 data) 0 [] in
  main (alen argv) (map (λ o, drop (Z.to_nat o) line) argv) ≫= λ ret,
  exit ret.
End libc.

(** ** The operating system a program may rely on *)

Inductive unode := UFile (data : list Z) | UDir (entries : list dirent_t).

(** Console text, command line, files by path, open descriptors and the exit status. *)
Record uos := mk_uos {
  stdout : list Z;
  line : list Z;
  nodes : gmap (list Z) unode;
  fds : gmap Z (list Z);
  status : option Z }.

Definition u_write (s : list Z) (v : uos) : uos :=
  mk_uos (stdout v ++ s) (line v) (nodes v) (fds v) (status v).
Definition u_fds (t : gmap Z (list Z)) (v : uos) : uos :=
  mk_uos (stdout v) (line v) (nodes v) t (status v).
Definition u_exit (st : Z) (v : uos) : uos :=
  mk_uos (stdout v) (line v) (nodes v) (fds v) (Some (s32 st)).

(** A process has 16 descriptors, of which the first three are the console. *)
Definition u_free (t : gmap Z (list Z)) : option Z := zfind (λ i, bool_decide (t !! i = None)) 3 13.

Definition u_open (p : list Z) (v : uos) : Z * uos :=
  match nodes v !! p, u_free (fds v) with
  | Some _, Some n => (n, u_fds (<[n := p]> (fds v)) v)
  | _, _ => (-5, v)
  end.

Definition u_close (n : Z) (v : uos) : Z * uos :=
  match fds v !! n with
  | Some _ => (0, u_fds (delete n (fds v)) v)
  | None => (-3, v)
  end.

Definition u_node (v : uos) (n : Z) : option unode :=
  match fds v !! n with
  | Some p => nodes v !! p
  | None => None
  end.

(** What a system must show its programs.  A read starts at the beginning of the file, as
    the system has no file positions. *)
Class UserOSLaws (K : Type) `{UserOS K} (view : K → uos) := {
  law_exit st k : view (os_exit st k) = u_exit st (view k);
  law_write s k : view (os_write 1 s k).2 = u_write s (view k);
  law_getcmdline k :
    Forall (λ c, c ≠ 0) (line (view k)) → alen (line (view k)) <= 127 →
    ∃ r k', os_getcmdline 128 k = (r, line (view k) ++ replicate (128 - length (line (view k))) 0, k')
      ∧ view k' = view k;
  law_open p k :
    (os_open p k).1 = (u_open p (view k)).1 ∧ view (os_open p k).2 = (u_open p (view k)).2;
  law_close n k :
    (os_close n k).1 = (u_close n (view k)).1 ∧ view (os_close n k).2 = (u_close n (view k)).2;
  law_read n size k data :
    u_node (view k) n = Some (UFile data) → 0 <= size →
    ∃ k', os_read n size k = (Z.min size (alen data), sub data 0 size, k') ∧ view k' = view k;
  law_getdents n i k entries :
    u_node (view k) n = Some (UDir entries) → 0 <= i →
    ∃ k', os_getdents n i k = (match entries !! Z.to_nat i with
                               | Some e => (1, Some e)
                               | None => (0, None)
                               end, k') ∧ view k' = view k
}.

(** ** Numbers *)

Definition low_digit (r : Z) : Z := if r <? 10 then ch "0" + r else ch "a" + (r - 10).

(** What [%x] must print: no leading zeros, letters in lower case. *)
Definition show_low_hex (n : Z) : list Z := numeral 16 low_digit n.

Lemma strlen_cstr' s : strlen s = alen (cstr s).
Proof. induction s as [|c s IH]; [done|]. simpl. unfold nz. destruct (c =? 0); simpl; rewrite ?IH, ?alen_cons; done. Qed.

Lemma sub_strlen s : sub s 0 (strlen s) = cstr s.
Proof.
  rewrite strlen_cstr'. unfold sub, alen. change (Z.to_nat 0) with 0%nat. rewrite drop_0, Nat2Z.id.
  induction s as [|c s IH]; [done|]. simpl. destruct (c =? 0); [done|]. simpl. by rewrite IH.
Qed.

Lemma print_digits_spec fuel value base buffer i :
  1 < base <= 16 → 0 <= value → 0 <= i → i + alen (digits base fuel value) <= alen buffer →
  print_digits fuel value base buffer i =
    (splice buffer i (map low_digit (digits base fuel value)), i + alen (digits base fuel value)).
Proof.
  intros Hb. revert value buffer i. induction fuel as [|f IH]; intros value buffer i Hv Hi Hl; simpl in *.
  { rewrite splice_nil, alen_nil. f_equal; lia. }
  destruct (Z.ltb_spec 0 value); destruct (Z.eqb_spec value 0); try lia.
  2:{ simpl. rewrite splice_nil, alen_nil. f_equal; lia. }
  rewrite alen_cons in *. pose proof (alen_nonneg (digits base f (value / base))).
  rewrite IH; [|apply Z.div_pos; lia|lia|rewrite alen_aset; lia].
  pose proof (Z.mod_pos_bound value base).
  assert ((if value mod base <? 10 then u8 (ch "0" + value mod base) else u8 (ch "a" + (value mod base - 10)))
          = low_digit (value mod base)) as ->.
  { unfold low_digit. change (ch "0") with 48. change (ch "a") with 97.
    destruct (Z.ltb_spec (value mod base) 10); apply u8_small; lia. }
  f_equal; [|lia]. cbn [map]. apply splice_aset_adj; [lia|]. rewrite alen_map. lia.
Qed.

(** ** What a program prints *)

Section output.
Context {K : Type} `{UserOSLaws K view}.

(** [m] ends with [a], adds [s] to the console and changes nothing else a program sees. *)
Definition prints {A} (m : prog K A) (a : A) (s : list Z) : Prop :=
  ∀ u, ∃ u', m u = Done (a, u') ∧ view (os u') = u_write s (view (os u)) ∧ heap_offset u' = heap_offset u.

Lemma u_write_nil v : u_write [] v = v.
Proof. unfold u_write. rewrite app_nil_r. by destruct v. Qed.

Lemma u_write_app s t v : u_write t (u_write s v) = u_write (s ++ t) v.
Proof. unfold u_write. simpl. by rewrite app_assoc. Qed.

Lemma prints_ret {A} (a : A) : prints (mret a) a [].
Proof. intros u. exists u. rewrite u_write_nil. done. Qed.

Lemma prints_lift {A} (a : A) : prints (lift (Done a)) a [].
Proof. intros u. exists u. rewrite u_write_nil. done. Qed.

Lemma prints_bind {A B} (m : prog K A) (f : A → prog K B) a b s t :
  prints m a s → prints (f a) b t → prints (m ≫= f) b (s ++ t).
Proof.
  intros Hm Hf u. destruct (Hm u) as (u1 & E1 & V1 & H1). destruct (Hf u1) as (u2 & E2 & V2 & H2).
  exists u2. unfold mbind, prog_bind. rewrite E1, E2, V2, V1, u_write_app, H2, H1. done.
Qed.

(** The callers of [puts] ignore its result. *)
Lemma prints_puts {B} s (m : prog K B) b t : prints m b t → prints (puts s ≫= λ _, m) b (cstr s ++ t).
Proof.
  intros Hm u. unfold puts, mbind, prog_bind, call. rewrite sub_strlen.
  destruct (os_write 1 (cstr s) (os u)) as [r k] eqn:E.
  destruct (Hm (mk_user k (heap_offset u))) as (u2 & E2 & V2 & H2). exists u2.
  rewrite E2, V2, H2. simpl. pose proof (law_write (view := view) (cstr s) (os u)) as W. rewrite E in W. simpl in W.
  rewrite W, u_write_app. done.
Qed.

Lemma prints_eq {A} (m : prog K A) a s t : prints m a s → s = t → prints m a t.
Proof. intros ? <-. done. Qed.

Lemma print_back_spec i buffer :
  Forall (λ c, c ≠ 0) (take i buffer) → (i <= length buffer)%nat →
  prints (print_back i buffer) tt (rev (take i buffer)).
Proof.
  induction i as [|i IH]; intros Hn Hl; [apply prints_ret|]. cbn [print_back].
  destruct (lookup_lt_is_Some_2 buffer i) as [c Hc]; [lia|].
  erewrite take_S_r in Hn |- * by done. apply Forall_app in Hn as [Hn Hcn].
  rewrite rev_app_distr. cbn [rev app].
  replace (buffer.[Z.of_nat i]) with c by (symmetry; apply aget_lookup; [lia|by rewrite Nat2Z.id]).
  eapply prints_eq; [apply prints_puts, IH; [done|lia]|].
  apply Forall_cons in Hcn as [Hcn _]. simpl. destruct (Z.eqb_spec c 0); done.
Qed.

Lemma low_digit_nonzero r : 0 <= r → low_digit r ≠ 0.
Proof. unfold low_digit. change (ch "0") with 48. change (ch "a") with 97. destruct (Z.ltb_spec r 10); lia. Qed.

Lemma print_uint_spec value base :
  1 < base <= 16 → 0 <= value < 0x100000000 → prints (print_uint value base) tt (numeral base low_digit value).
Proof.
  intros Hb Hv. unfold print_uint, numeral. destruct (Z.eqb_spec value 0) as [->|Hz].
  { eapply prints_eq; [apply prints_puts, prints_ret|done]. }
  assert (0 <= value < base ^ Z.of_nat 32) as Hp.
  { split; [lia|]. eapply Z.lt_le_trans; [apply Hv|]. change 0x100000000 with (2 ^ 32).
    change (Z.of_nat 32) with 32. apply Z.pow_le_mono_l. lia. }
  assert (digits base 33 value = digits base 32 value) as D by (apply digits_fuel; [lia|done|lia]).
  pose proof (digits_length base 32 value) as L.
  rewrite print_digits_spec; rewrite ?D; unfold alen; rewrite ?length_replicate; try lia.
  set (d := map low_digit (digits base 32 value)).
  assert (length d = length (digits base 32 value)) as Ld by (unfold d; by rewrite length_map).
  rewrite Z.add_0_l, Nat2Z.id, <-Ld.
  assert (take (length d) (splice (replicate 32 0) 0 d) = d) as T.
  { unfold splice. rewrite take_0. cbn [app]. apply take_app_length. }
  eapply prints_eq; [apply print_back_spec; rewrite ?T|by rewrite T].
  - unfold d. apply Forall_map. eapply Forall_impl; [apply digits_range; lia|].
    intros r Hr. apply low_digit_nonzero. cbn in Hr. lia.
  - unfold splice. rewrite !length_app. lia.
Qed.

Lemma numeral_low_digit n : numeral 10 low_digit n = numeral 10 show_digit n.
Proof.
  unfold numeral. destruct (n =? 0); [done|]. f_equal. apply map_ext_Forall.
  eapply Forall_impl; [apply digits_range; lia|]. intros r Hr. cbn in Hr. unfold low_digit, show_digit.
  destruct (Z.ltb_spec r 10); [done|lia].
Qed.

(** [%d] is the decimal numeral of every [int], the least one included. *)
Lemma print_int_spec value : -0x80000000 <= value < 0x80000000 → prints (print_int value) tt (show_int value).
Proof.
  intros Hv. unfold print_int, show_int. rewrite <-!numeral_low_digit. destruct (Z.ltb_spec value 0).
  - eapply prints_eq; [apply prints_puts, print_uint_spec; [lia|apply u32_range]|].
    change (cstr (str_bytes "-" ++ [0])) with [ch "-"]. cbn [app]. do 2 f_equal.
    unfold s32, u32. zlia.
  - rewrite u32_small by lia. apply print_uint_spec; lia.
Qed.

Lemma atoi_loop_digits s r v :
  Forall (λ c, ch "0" <= c <= ch "9") s →
  atoi_loop (s ++ 0 :: r) (s32 v) = s32 (foldl (λ v c, 10 * v + (c - ch "0")) v s).
Proof.
  revert v. induction s as [|c s IH]; intros v Hs; [done|]. apply Forall_cons in Hs as [Hc Hs].
  change (ch "0") with 48 in *. change (ch "9") with 57 in *. cbn [atoi_loop app foldl].
  destruct (Z.eqb_spec c 0); [lia|]. change (ch "0") with 48. change (ch "9") with 57.
  destruct (Z.leb_spec 48 c), (Z.leb_spec c 57); try lia. cbn [andb].
  rewrite <-IH by done. f_equal. unfold s32. zlia.
Qed.

Lemma atoi_show_int n rest : -0x80000000 <= n < 0x80000000 → atoi (show_int n ++ 0 :: rest) = n.
Proof.
  intros Hn. unfold atoi, show_int.
  assert (∀ m, 0 <= m < 0x100000000 → atoi_loop (numeral 10 show_digit m ++ 0 :: rest) 0 = s32 m) as L.
  { intros m Hm. change (atoi_loop (numeral 10 show_digit m ++ 0 :: rest) (s32 0) = s32 m).
    rewrite atoi_loop_digits by apply numeral_chars. f_equal. by apply read_numeral. }
  destruct (Z.ltb_spec n 0).
  - change (hd0 ((ch "-" :: numeral 10 show_digit (- n)) ++ 0 :: rest) =? ch "-") with true.
    cbn [app tail]. rewrite L by lia. unfold s32. zlia.
  - pose proof (numeral_chars n) as C. pose proof (L n ltac:(lia)) as E.
    destruct (numeral 10 show_digit n) as [|c s] eqn:N.
    { exfalso. unfold numeral in N. pose proof (read_numeral n ltac:(lia)) as R. unfold numeral in R.
      rewrite N in R. destruct (Z.eqb_spec n 0); [done|]. cbn in R. lia. }
    apply Forall_cons in C as [C _]. change (ch "0") with 48 in C. cbn [app]. unfold hd0. rewrite aget_cons_0.
    change (ch "-") with 45. change (ch "+") with 43.
    destruct (Z.eqb_spec c 45), (Z.eqb_spec c 43); try lia. cbn [app] in E. rewrite E.
    rewrite Z.mul_1_l. rewrite (s32_small n) by lia. apply s32_small; lia.
Qed.

(** [print_int] and [atoi] are inverse to each other: what [printf] shows for [%d] is
    a text that [atoi] reads back as the same number, for every [int], the least one (whose
    negation overflows) included. *)
Theorem print_int_atoi n :
  -0x80000000 <= n < 0x80000000 →
  ∃ text, prints (print_int n) tt text ∧ ∀ rest, atoi (text ++ 0 :: rest) = n.
Proof.
  intros Hn. exists (show_int n). split; [by apply print_int_spec|]. intros rest. by apply atoi_show_int.
Qed.

(** ** Formats *)

(** A format by its parts: plain text and conversions with their arguments. *)
Inductive part :=
| PText (t : list Z)
| PInt (w : Z)
| PHex (w : Z)
| PStr (s : list Z)
| PChr (w : Z)
| PPercent.

Definition part_text (p : part) : list Z :=
  match p with
  | PText t => t
  | PInt _ => str_bytes "%d"
  | PHex _ => str_bytes "%x"
  | PStr _ => str_bytes "%s"
  | PChr _ => str_bytes "%c"
  | PPercent => str_bytes "%%"
  end.

Definition part_args (p : part) : list varg :=
  match p with
  | PInt w | PHex w | PChr w => [VInt w]
  | PStr s => [VStr s]
  | PText _ | PPercent => []
  end.

Definition part_out (p : part) : list Z :=
  match p with
  | PText t => t
  | PInt w => show_int (s32 w)
  | PHex w => show_low_hex (u32 w)
  | PStr s => cstr s
  | PChr w => cstr [u8 w]
  | PPercent => str_bytes "%"
  end.

Definition part_ok (p : part) : bool :=
  match p with
  | PText t => forallb (λ c, negb (c =? 0) && negb (c =? ch "%")) t
  | _ => true
  end.

Definition format_text (ps : list part) : list Z := concat (map part_text ps) ++ [0].
Definition format_args (ps : list part) : list varg := concat (map part_args ps).
Definition format_out (ps : list part) : list Z := concat (map part_out ps).

Lemma printf_text t pre post fuel args o :
  part_ok (PText t) = true →
  prints (printf_loop fuel (pre ++ t ++ post) (alen (pre ++ t)) args) tt o →
  prints (printf_loop (length t + fuel) (pre ++ t ++ post) (alen pre) args) tt (t ++ o).
Proof.
  revert pre. induction t as [|c t IH]; intros pre Ht Hp.
  { rewrite app_nil_r in Hp. done. }
  cbn [part_ok forallb] in Ht. apply andb_true_iff in Ht as [Hc Ht]. apply andb_true_iff in Hc as [C0 C1].
  cbn [length Nat.add printf_loop app]. rewrite (char_at_mid pre c (t ++ post) (alen pre) eq_refl).
  eapply (prints_eq _ _ ([] ++ (c :: t ++ o))); [|done]. eapply prints_bind; [apply prints_lift|].
  destruct (c =? 0) eqn:E0; [done|]. destruct (c =? ch "%"); [done|].
  eapply prints_eq; [apply prints_puts|].
  - replace (alen pre + 1) with (alen (pre ++ [c])) by (rewrite alen_app; done).
    specialize (IH (pre ++ [c]) Ht). rewrite <-!app_assoc in IH. cbn [app] in IH. apply IH.
    exact Hp.
  - cbn [cstr]. rewrite E0. done.
Qed.

Lemma convert_spec p c args :
  (∀ t, p ≠ PText t) → part_text p = [ch "%"; c] →
  prints (convert c (part_args p ++ args)) args (part_out p).
Proof.
  intros Ht Hp. assert (∀ {B} (m : B → prog K (list varg)) a o, prints (m a) args o → prints (lift (Done a) ≫= m) args o) as L.
  { intros B m a o Hm. eapply (prints_eq _ _ ([] ++ o)); [|done]. eapply prints_bind; [apply prints_lift|done]. }
  assert (∀ (m : prog K unit) o, prints m tt o → prints (m ≫= λ _, mret args) args o) as R.
  { intros m o Hm. eapply prints_eq; [eapply prints_bind; [done|apply prints_ret]|apply app_nil_r]. }
  destruct p; cbn [part_text] in Hp; try (injection Hp as <-); unfold convert; chars; cbn [part_args app va_int va_str].
  - by destruct (Ht t).
  - apply L, R, print_int_spec, s32_range.
  - apply L, R, print_uint_spec; [lia|apply u32_range].
  - apply L. eapply prints_eq; [apply prints_puts, prints_ret|apply app_nil_r].
  - apply L. eapply prints_eq; [apply prints_puts, prints_ret|].
    rewrite app_nil_r. cbn [part_out cstr]. destruct (u8 w =? 0); done.
  - eapply prints_eq; [apply prints_puts, prints_ret|done].
Qed.

Lemma part_cases p : (∃ t, p = PText t) ∨ ((∀ t, p ≠ PText t) ∧ ∃ c, part_text p = [ch "%"; c]).
Proof. destruct p; [left; by eexists|..]; right; (split; [done|by eexists]). Qed.

Lemma printf_parts ps : ∀ pre rest fuel args,
  forallb part_ok ps = true → (length (concat (map part_text ps)) < fuel)%nat →
  prints (printf_loop fuel (pre ++ concat (map part_text ps) ++ 0 :: rest) (alen pre) (format_args ps ++ args))
    tt (format_out ps).
Proof.
  unfold format_args, format_out. induction ps as [|p ps IH]; intros pre rest fuel args Hok Hf; cbn [map concat app forallb] in *.
  { destruct fuel as [|fuel]; [lia|]. cbn [printf_loop].
    rewrite (char_at_mid pre 0 rest (alen pre) eq_refl).
    eapply (prints_eq _ _ ([] ++ [])); [|done]. eapply prints_bind; [apply prints_lift|apply prints_ret]. }
  apply andb_true_iff in Hok as [Hp Hok]. rewrite length_app in Hf. rewrite <-!app_assoc.
  destruct (part_cases p) as [[t ->]|(Ht & c & Hc)].
  - cbn [part_text part_args part_out app] in *.
    replace fuel with (length t + (fuel - length t))%nat by lia. apply printf_text; [done|].
    specialize (IH (pre ++ t) rest (fuel - length t)%nat args Hok ltac:(lia)).
    rewrite <-app_assoc in IH. exact IH.
  - rewrite Hc in Hf |- *. cbn [length] in Hf. destruct fuel as [|fuel]; [lia|]. cbn [app printf_loop].
    rewrite (char_at_mid pre _ _ (alen pre) eq_refl).
    eapply (prints_eq _ _ ([] ++ _)); [|done]. eapply prints_bind; [apply prints_lift|]. chars.
    set (post := concat (map part_text ps) ++ 0 :: rest) in *.
    assert (char_at (pre ++ ch "%" :: c :: post) (alen pre + 1) = Done c) as ->.
    { change (ch "%" :: c :: post) with ([ch "%"] ++ c :: post). rewrite app_assoc.
      apply char_at_mid. rewrite alen_app. done. }
    eapply (prints_eq _ _ ([] ++ _)); [|done]. eapply prints_bind; [apply prints_lift|].
    eapply prints_bind; [by apply convert_spec|].
    specialize (IH (pre ++ [ch "%"; c]) rest fuel args Hok ltac:(lia)).
    rewrite <-app_assoc in IH. rewrite alen_app in IH.
    replace (alen pre + 1 + 1) with (alen pre + alen [ch "%"; c]) by (unfold alen at 2; simpl; lia). exact IH.
Qed.

(** What [printf] leaves on the console: the text with every conversion replaced by its
    argument, for formats without a lone [%] at the end. *)
Lemma printf_renders ps :
  forallb part_ok ps = true → prints (printf (format_text ps) (format_args ps)) 0 (format_out ps).
Proof.
  intros Hok. unfold printf, format_text. eapply prints_eq; [|apply app_nil_r].
  eapply prints_bind; [|apply prints_ret].
  pose proof (printf_parts ps [] [] (S (length (concat (map part_text ps) ++ [0]))) [] Hok) as Hp.
  rewrite app_nil_r in Hp. apply Hp. rewrite length_app. lia.
Qed.
End output.

(** ** The argument vector *)

(** The words of a command line, separated by any number of spaces. *)
Fixpoint words (s : list Z) : list (list Z) :=
  match s with
  | [] => []
  | c :: s' =>
      if c =? ch " " then words s'
      else match s' with
           | [] => [[c]]
           | d :: _ =>
               if d =? ch " " then [c] :: words s'
               else match words s' with
                    | w :: ws => (c :: w) :: ws
                    | [] => [[c]]
                    end
           end
  end.

Definition token (w : list Z) : Prop := w ≠ [] ∧ Forall (λ c, c ≠ ch " ") w.

Lemma words_spaces n s : words (replicate n (ch " ") ++ s) = words s.
Proof. induction n as [|n IH]; [done|]. cbn [replicate app words]. by chars. Qed.

Lemma words_token w r : token w → words (w ++ r) = w :: words r ∨ ∃ c r', r = c :: r' ∧ c ≠ ch " ".
Proof.
  intros [Hn Hw]. destruct r as [|d r]; [left|destruct (Z.eq_dec d (ch " ")) as [->|]; [left|by right; eauto]];
    (induction w as [|c w IH]; [done|]); apply Forall_cons in Hw as [Hc Hw]; cbn [app words];
    (destruct (Z.eqb_spec c (ch " ")); [done|]); (destruct w as [|c' w]; [done|]);
    specialize (IH ltac:(done) Hw); rewrite IH; cbn [app]; apply Forall_cons in Hw as [Hc' _];
    destruct (Z.eqb_spec c' (ch " ")); done.
Qed.

(** A string starts with spaces and then ends, or goes on with a token. *)
Lemma words_cases s :
  ∃ n, s = replicate n (ch " ") ∨
    ∃ w r, s = replicate n (ch " ") ++ w ++ r ∧ token w ∧ (r = [] ∨ ∃ r', r = ch " " :: r').
Proof.
  induction s as [|c s (n & IH)]; [by exists 0%nat; left|].
  destruct (Z.eq_dec c (ch " ")) as [->|Hc].
  { exists (S n). destruct IH as [->|(w & r & -> & Hw & Hr)]; [by left|right; by exists w, r]. }
  exists 0%nat. right. cbn [replicate app].
  destruct n as [|n].
  - destruct IH as [->|(w & r & -> & [Hn Hw] & Hr)]; [exists [c], []|exists (c :: w), r].
    + split_and!; [done|split; [done|by constructor]|by left].
    + split_and!; [done|split; [done|by constructor]|done].
  - exists [c], s. destruct IH as [->|(w & r & -> & _)];
      (split_and!; [done|split; [done|by constructor]|right; by eexists]).
Qed.

Lemma aget_mid (pre post : list Z) c : (pre ++ c :: post).[alen pre] = c.
Proof. rewrite aget_app_r by lia. rewrite Z.sub_diag. apply aget_cons_0. Qed.

Lemma skip_spaces_spec n : ∀ fuel pre c post, (n < fuel)%nat → c ≠ ch " " →
  skip_spaces fuel (pre ++ replicate n (ch " ") ++ c :: post) (alen pre) = alen pre + Z.of_nat n.
Proof.
  induction n as [|n IH]; intros fuel pre c post Hf Hc; (destruct fuel as [|fuel]; [lia|]);
    cbn [replicate app skip_spaces]; rewrite aget_mid.
  - destruct (Z.eqb_spec c (ch " ")); [done|lia].
  - rewrite Z.eqb_refl. specialize (IH fuel (pre ++ [ch " "]) c post ltac:(lia) Hc).
    rewrite <-app_assoc, alen_app in IH. cbn [app] in IH. change (alen [ch " "]) with 1 in IH. rewrite IH. lia.
Qed.

Lemma token_end_spec w : ∀ fuel pre c post,
  (length w < fuel)%nat → Forall (λ c, c ≠ ch " ") w → Forall (λ c, c ≠ 0) w → c = 0 ∨ c = ch " " →
  token_end fuel (pre ++ w ++ c :: post) (alen pre) = alen pre + alen w.
Proof.
  induction w as [|d w IH]; intros fuel pre c post Hf Hs Hz Hc; (destruct fuel as [|fuel]; [cbn in Hf; lia|]);
    cbn [app token_end]; rewrite aget_mid.
  - assert (nz c && negb (c =? ch " ") = false) as -> by (by destruct Hc as [-> | ->]). rewrite alen_nil. lia.
  - apply Forall_cons in Hs as [Hs1 Hs], Hz as [Hz1 Hz]. unfold nz.
    destruct (Z.eqb_spec d 0), (Z.eqb_spec d (ch " ")); try done. cbn [negb andb].
    specialize (IH fuel (pre ++ [d]) c post ltac:(cbn in Hf; lia) Hs Hz Hc).
    rewrite <-app_assoc, alen_app in IH. cbn [app] in IH. change (alen [d]) with 1 in IH.
    rewrite IH, alen_cons. lia.
Qed.

Lemma split_args_end fuel (pre post : list Z) argv :
  split_args fuel (pre ++ 0 :: post) (alen pre) argv = (pre ++ 0 :: post, argv).
Proof. destruct fuel; [done|]. cbn [split_args]. rewrite aget_mid. done. Qed.

(** One turn of the outer loop reaches the token behind the spaces. *)
Lemma split_args_token fuel pre n w c post argv :
  token w → Forall (λ c, c ≠ 0) w → c = 0 ∨ c = ch " " → alen argv < 15 →
  split_args (S fuel) (pre ++ replicate n (ch " ") ++ w ++ c :: post) (alen pre) argv =
    let line := pre ++ replicate n (ch " ") ++ w ++ c :: post in
    let p := alen pre + Z.of_nat n + alen w in
    let argv := argv ++ [alen pre + Z.of_nat n] in
    if nz c then split_args fuel (line.[p <- 0]) (p + 1) argv else split_args fuel line p argv.
Proof.
  intros [Hn Hw] Hz Hc Ha. destruct w as [|d w]; [done|].
  apply Forall_cons in Hw as [Hd Hw], Hz as [Hd0 Hz].
  assert (alen (pre ++ replicate n (ch " ")) = alen pre + Z.of_nat n) as Hp.
  { rewrite alen_app, alen_replicate. done. }
  assert ((pre ++ replicate n (ch " ") ++ (d :: w) ++ c :: post).[alen pre] =? 0 = false) as E0.
  { destruct n; cbn [replicate app]; rewrite aget_mid; [by apply Z.eqb_neq|done]. }
  cbn [split_args]. rewrite E0. rewrite (skip_spaces_spec n _ pre d (w ++ c :: post)); [|rewrite !length_app, length_replicate; cbn [length app]; rewrite ?length_app; cbn [length]; lia|done].
  rewrite <-Hp. rewrite !(app_assoc pre). cbn [app]. rewrite aget_mid.
  destruct (Z.eqb_spec d 0); [done|].
  assert (16 <=? alen (argv ++ [alen (pre ++ replicate n (ch " "))]) = false) as ->.
  { apply Z.leb_gt. rewrite alen_app. change (alen [alen (pre ++ replicate n (ch " "))]) with 1. lia. }
  change (d :: w ++ c :: post) with ((d :: w) ++ c :: post).
  rewrite token_end_spec; [|rewrite !length_app; cbn [length]; lia|by constructor|by constructor|done].
  assert (((pre ++ replicate n (ch " ")) ++ (d :: w) ++ c :: post).[alen (pre ++ replicate n (ch " ")) + alen (d :: w)] = c) as ->.
  { rewrite app_assoc, <-alen_app. apply aget_mid. }
  done.
Qed.

Lemma aset_mid (pre post : list Z) c v : (pre ++ c :: post).[alen pre <- v] = pre ++ v :: post.
Proof.
  unfold aset, alen. destruct (Z.ltb_spec (Z.of_nat (length pre)) 0); try lia.
  rewrite Nat2Z.id. clear; induction pre as [|x pre IH]; [done|]. change (x :: <[length pre := v]> (pre ++ c :: post) = x :: (pre ++ v :: post)). by rewrite IH.
Qed.

(** Every word gets its offset, its terminator and no other byte. *)
Lemma split_args_words fuel : ∀ s pre z argv,
  Forall (λ c, c ≠ 0) s → (length s < fuel)%nat → alen argv + alen (words s) < 16 →
  ∃ t offs, split_args fuel (pre ++ s ++ 0 :: z) (alen pre) argv = (pre ++ t, argv ++ offs) ∧
    map (λ o, cstr (drop (Z.to_nat o) (pre ++ t))) offs = words s.
Proof.
  induction fuel as [|fuel IH]; intros s pre z argv Hz Hf Ha; [lia|].
  destruct (words_cases s) as (n & [->|(w & r & -> & Hw & Hr)]).
  { exists (replicate n (ch " ") ++ 0 :: z), []. rewrite app_nil_r.
    pose proof (words_spaces n []) as E. rewrite app_nil_r in E. rewrite E. split; [|done].
    cbn [split_args]. rewrite skip_spaces_spec; [|rewrite !length_app, length_replicate; cbn [length]; lia|done].
    replace (alen pre + Z.of_nat n) with (alen (pre ++ replicate n (ch " "))) by (rewrite alen_app, alen_replicate; done).
    rewrite app_assoc, aget_mid. by destruct (_ =? 0). }
  rewrite words_spaces in *. apply Forall_app in Hz as [_ Hz]. apply Forall_app in Hz as [Hzw Hzr].
  destruct (words_token w r Hw) as [E|(c & r' & -> & Hc)]; [|by destruct Hr as [|[? [= ->]]]].
  rewrite E, alen_cons in *. pose proof (alen_nonneg (words r)).
  set (pre1 := pre ++ replicate n (ch " ")).
  assert (alen pre + Z.of_nat n = alen pre1) as Hp by (unfold pre1; rewrite alen_app, alen_replicate; done).
  assert (∀ t, cstr (drop (Z.to_nat (alen pre1)) (pre1 ++ w ++ 0 :: t)) = w) as Hd.
  { intros t. unfold alen. rewrite Nat2Z.id, drop_app_length. by apply cstr_app_0. }
  rewrite <-!app_assoc. destruct Hr as [->|(r' & ->)]; cbn [app].
  - rewrite split_args_token by (done || (by left) || lia). cbv zeta. rewrite Hp. change (nz 0) with false. cbv iota.
    exists (replicate n (ch " ") ++ w ++ 0 :: z), [alen pre1]. rewrite app_assoc. fold pre1.
    rewrite <-alen_app, app_assoc, split_args_end, <-app_assoc. split; [done|]. cbn [map]. by rewrite Hd.
  - rewrite split_args_token by (done || (by right) || lia). cbv zeta. rewrite Hp. change (nz (ch " ")) with true. cbv iota.
    rewrite app_assoc. fold pre1. rewrite <-alen_app, app_assoc, aset_mid.
    replace (alen (pre1 ++ w) + 1) with (alen ((pre1 ++ w) ++ [0])) by (rewrite !alen_app; done).
    change (0 :: r' ++ 0 :: z) with ([0] ++ r' ++ 0 :: z). rewrite (app_assoc (pre1 ++ w)).
    apply Forall_cons in Hzr as [_ Hzr].
    change (words (ch " " :: r')) with (words r') in *.
    destruct (IH r' ((pre1 ++ w) ++ [0]) z (argv ++ [alen pre1])) as (t & offs & -> & Hm);
      [done|rewrite !length_app in Hf; cbn [length] in Hf; lia|rewrite alen_app; change (alen [alen pre1]) with 1; lia|].
    exists (replicate n (ch " ") ++ w ++ 0 :: t), (alen pre1 :: offs).
    rewrite <-!app_assoc in Hm |- *. cbn [app map] in *.
    replace (pre ++ replicate n (ch " ") ++ w ++ 0 :: t) with (pre1 ++ w ++ 0 :: t) by (unfold pre1; by rewrite <-app_assoc).
    rewrite <-!app_assoc. split; [done|]. by rewrite Hd, Hm.
Qed.

Section start.
Context {K : Type} `{UserOSLaws K view}.

(** The start-up code calls [main] with the words of the command line and exits with its
    result. *)
Lemma start_c_argv main u :
  Forall (λ c, c ≠ 0) (line (view (os u))) → alen (line (view (os u))) <= 127 →
  alen (words (line (view (os u)))) < 16 →
  ∃ argv u', map cstr argv = words (line (view (os u))) ∧ view (os u') = view (os u) ∧
    heap_offset u' = heap_offset u ∧
    start_c main u = (main (alen argv) argv ≫= exit) u'.
Proof.
  intros Hz Hl Hw. destruct (law_getcmdline (view := view) (os u) Hz Hl) as (r & k & E & V).
  set (s := line (view (os u))) in *.
  destruct (split_args_words 129 s [] (replicate (127 - length s) 0) []) as (t & offs & SA & M);
    [done|unfold alen in Hl; lia|done|].
  cbn [app] in SA, M. change (alen []) with 0 in SA. exists (map (λ o, drop (Z.to_nat o) t) offs), (mk_user k (heap_offset u)).
  split_and!; [by rewrite map_map|done|done|].
  unfold start_c, mbind, prog_bind, call. rewrite E. cbv beta iota zeta.
  rewrite splice_full.
  2:{ unfold alen. rewrite length_app, length_replicate. unfold alen in Hl.
      replace (length s + (128 - length s))%nat with 128%nat by lia. done. }
  replace (128 - length s)%nat with (S (127 - length s))%nat by (unfold alen in Hl; lia). cbn [replicate].
  rewrite SA.
  replace (alen (map (λ o, drop (Z.to_nat o) t) offs)) with (alen offs) by (unfold alen; by rewrite length_map).
  done.
Qed.
End start.
