(* ===== verification/Programs.v ===== *)
(** * userland/bin: the programs

    The [main] of every program, over the C library of Libc.v; uninitialised local buffers
    are arguments.  Each program is proved from the command line on: started by [start_c]
    with given words, what it leaves on the console, which descriptors stay open and with
    which status it exits. *)

From Stdlib Require Import Ascii String.
From S2P Require Import Prelude KString Format Libc.

(** Format strings, with and without a newline at the end. *)
Definition fmt (s : string) : list Z := str_bytes s ++ [0].
Definition fmtln (s : string) : list Z := str_bytes s ++ [10; 0].
Arguments fmt s%_string.
Arguments fmtln s%_string.

Section bin.
Context {K : Type} `{UserOS K}.

(** ** calc.c *)

Definition calc_main (argc : Z) (argv : list (list Z)) : prog K Z :=
  if negb (argc =? 4) then
    printf (fmtln "Usage: calc <num1> <op> <num2>") [] ≫= λ _,
    printf (fmtln "Example: calc 5 + 3") [] ≫= λ _,
    printf (fmtln "Operators: +, -, *, /") [] ≫= λ _, mret 1
  else
    let a := atoi (argv.[1]) in
    let op := hd0 (argv.[2]) in
    let b := atoi (argv.[3]) in
    let show res :=
      printf (fmtln "%d %c %d = %d") [VInt a; VInt op; VInt b; VInt res] ≫= λ _, mret 0 in
    if op =? ch "+" then show (s32 (a + b))
    else if op =? ch "-" then show (s32 (a - b))
    else if op =? ch "*" then show (s32 (a * b))
    else if op =? ch "/" then
      if b =? 0 then printf (fmtln "Error: Division by zero") [] ≫= λ _, mret 1
      else if (a =? -0x80000000) && (b =? -1) then lift Fault (* the quotient is no [int] *)
      else show (Z.quot a b)
    else printf (fmtln "Error: Unknown operator '%c'") [VInt op] ≫= λ _, mret 1.

(** ** cat.c *)

(** [buffer] is the local array of 2048 bytes. *)
Definition cat_main (buffer : list Z) (argc : Z) (argv : list (list Z)) : prog K Z :=
  if argc <? 2 then printf (fmtln "Usage: cat <filename>") [] ≫= λ _, mret 1
  else
    let filename := argv.[1] in
    fopen filename ≫= λ fd,
    if fd <? 0 then
      printf (fmtln "cat: %s: No such file or directory") [VStr filename] ≫= λ _, mret 1
    else
      fread fd buffer (2048 - 1) ≫= λ '(bytes_read, buffer),
      (if 0 <? bytes_read then
         let buffer := buffer.[bytes_read <- 0] in
         printf (fmt "%s") [VStr buffer]
       else mret 0) ≫= λ _,
      fclose fd ≫= λ _,
      printf (fmtln "") [] ≫= λ _, mret 0.

(** ** chmod.c, mkdir.c, rm.c and touch.c *)

Definition chmod_main (argc : Z) (argv : list (list Z)) : prog K Z :=
  if argc <? 3 then printf (fmtln "Usage: chmod <mode> <file>") [] ≫= λ _, mret 1
  else
    let mode := atoi (argv.[1]) in
    call (os_chmod (cstr (argv.[2])) (u32 mode)) ≫= λ ret,
    if ret <? 0 then
      printf (fmtln "chmod: cannot access '%s'") [VStr (argv.[2])] ≫= λ _, mret 1
    else mret 0.

Definition mkdir_main (argc : Z) (argv : list (list Z)) : prog K Z :=
  if argc <? 2 then printf (fmtln "Usage: mkdir <dir>") [] ≫= λ _, mret 1
  else
    call (os_mkdir (cstr (argv.[1]))) ≫= λ ret,
    if ret <? 0 then
      printf (fmtln "mkdir: cannot create directory '%s'") [VStr (argv.[1])] ≫= λ _, mret 1
    else mret 0.

Definition rm_main (argc : Z) (argv : list (list Z)) : prog K Z :=
  if argc <? 2 then printf (fmtln "Usage: rm <file>") [] ≫= λ _, mret 1
  else
    call (os_unlink (cstr (argv.[1]))) ≫= λ ret,
    if ret <? 0 then
      printf (fmtln "rm: cannot remove '%s'") [VStr (argv.[1])] ≫= λ _, mret 1
    else mret 0.

Definition touch_main (argc : Z) (argv : list (list Z)) : prog K Z :=
  if argc <? 2 then printf (fmtln "Usage: touch <file>") [] ≫= λ _, mret 1
  else
    call (os_create (cstr (argv.[1]))) ≫= λ ret,
    if ret <? 0 then
      printf (fmtln "touch: cannot touch '%s'") [VStr (argv.[1])] ≫= λ _, mret 1
    else mret 0.

(** ** echo.c *)

(** [n] turns of the loop from [i] on. *)
Fixpoint echo_loop (n : nat) (i argc : Z) (argv : list (list Z)) : prog K unit :=
  match n with
  | O => mret tt
  | S n' =>
      printf (fmt "%s") [VStr (argv.[i])] ≫= λ _,
      (if i <? argc - 1 then printf (fmt " ") [] else mret 0) ≫= λ _,
      echo_loop n' (i + 1) argc argv
  end.

Definition echo_main (argc : Z) (argv : list (list Z)) : prog K Z :=
  (if 1 <? argc then echo_loop (Z.to_nat (argc - 1)) 1 argc argv
   else printf (fmt "Hello from Khazar OS Userland (Ring 3)!") [] ≫= λ _, mret tt) ≫= λ _,
  printf (fmtln "") [] ≫= λ _, mret 0.

(** ** ls.c *)

Definition mode_to_string (mode : Z) (str : list Z) (is_dir : bool) : list Z :=
  let bit m c := if nz (Z.land mode m) then ch c else ch "-" in
  let str := str.[0 <- if is_dir then ch "d" else ch "-"] in
  let str := str.[1 <- bit 0x100 "r"%char] in
  let str := str.[2 <- bit 0x080 "w"%char] in
  let str := str.[3 <- bit 0x040 "x"%char] in
  let str := str.[4 <- bit 0x020 "r"%char] in
  let str := str.[5 <- bit 0x010 "w"%char] in
  let str := str.[6 <- bit 0x008 "x"%char] in
  let str := str.[7 <- bit 0x004 "r"%char] in
  let str := str.[8 <- bit 0x002 "w"%char] in
  let str := str.[9 <- bit 0x001 "x"%char] in
  str.[10 <- 0].

(** The loop over the entries; it ends with the directory, so [fuel] is one more than the
    number of its entries. *)
Fixpoint ls_entries (fuel : nat) (dir : DIR) (mode_str : list Z) : prog K DIR :=
  match fuel with
  | O => lift NoFuel
  | S fuel' =>
      readdir dir ≫= λ '((found, dir) : bool * DIR),
      if found then
        let entry := current dir in
        let mode_str := mode_to_string (d_mode entry) mode_str (d_type entry =? 2) in
        printf (fmtln "%s  %s  %d bytes") [VStr mode_str; VStr (d_name entry); VInt (d_off entry)] ≫= λ _,
        ls_entries fuel' dir mode_str
      else mret dir
  end.

Definition ls_main (fuel : nat) (fresh : dirent_t) (mode_str : list Z)
    (argc : Z) (argv : list (list Z)) : prog K Z :=
  let path := if 1 <? argc then argv.[1] else fmt "/" in
  opendir fresh path ≫= λ dir,
  match dir with
  | None => printf (fmtln "Error: Cannot open directory '%s'") [VStr path] ≫= λ _, mret 1
  | Some dir =>
      ls_entries fuel dir mode_str ≫= λ dir,
      closedir dir ≫= λ _, mret 0
  end.

(** ** ps.c, pwd.c and sysinfo.c *)

Definition ps_main (buf : list Z) (argc : Z) (argv : list (list Z)) : prog K Z :=
  let buf := buf.[0 <- 0] in
  call (os_ps 1024) ≫= λ '(ret, data),
  let buf := splice buf 0 data in
  if ret <? 0 then printf (fmtln "ps: failed to read process list") [] ≫= λ _, mret 1
  else
    printf (fmtln "  PID CMD") [] ≫= λ _,
    printf (fmt "%s") [VStr buf] ≫= λ _, mret 0.

Definition pwd_main (argc : Z) (argv : list (list Z)) : prog K Z :=
  printf (fmtln "/") [] ≫= λ _, mret 0.

Definition sysinfo_main (netbuf : list Z) (argc : Z) (argv : list (list Z)) : prog K Z :=
  printf (fmtln "========================================") [] ≫= λ _,
  printf (fmtln "          Khazar OS Sysinfo             ") [] ≫= λ _,
  printf (fmtln "========================================") [] ≫= λ _,
  printf (fmtln "OS Version: Khazar OS v0.2.0") [] ≫= λ _,
  printf (fmtln "Architecture: x86 (32-bit Protected Mode)") [] ≫= λ _,
  printf (fmtln "Kernel: Monolithic, Custom") [] ≫= λ _,
  printf (fmtln "Filesystem: FAT32 over ATA/LBA28 PIO") [] ≫= λ _,
  printf (fmtln "GUI: VBE VESA Framebuffer @ 1024x768x32") [] ≫= λ _,
  fopen (fmt "/dev/netinfo") ≫= λ fd,
  (if 3 <=? fd then
     let netbuf := memset netbuf 0 0 128 in
     fread fd netbuf (128 - 1) ≫= λ '(bytes, netbuf),
     (if 0 <? bytes then printf (fmtln "Network: %s") [VStr netbuf]
      else printf (fmtln "Network: None") []) ≫= λ _,
     fclose fd
   else printf (fmtln "Network: None (Not active)") []) ≫= λ _,
  printf (fmtln "Userland: Custom libc, PE binaries") [] ≫= λ _,
  printf (fmtln "========================================") [] ≫= λ _,
  mret 0.
End bin.

(** ** Running a program *)

Section runs.
Context {K : Type} `{UserOSLaws K view}.
#[local] Notation prints := (Libc.prints (view := view)).

(** [m], run in a system that looks like [v] with [h] bytes of heap in use, ends with [a]
    and leaves [v'] and [h']. *)
Definition does {A} (v : uos) (h : Z) (m : prog K A) (a : A) (v' : uos) (h' : Z) : Prop :=
  ∀ u, view (os u) = v → heap_offset u = h →
  ∃ u', m u = Done (a, u') ∧ view (os u') = v' ∧ heap_offset u' = h'.

Lemma does_bind {A B} v h (m : prog K A) a v1 h1 (f : A → prog K B) b v2 h2 :
  does v h m a v1 h1 → does v1 h1 (f a) b v2 h2 → does v h (m ≫= f) b v2 h2.
Proof.
  intros Hm Hf u Hv Hh. destruct (Hm u Hv Hh) as (u1 & E1 & V1 & H1).
  destruct (Hf u1 V1 H1) as (u2 & E2 & V2 & H2). exists u2. unfold mbind, prog_bind. by rewrite E1.
Qed.

Lemma does_ret {A} v h (a : A) : does v h (mret a) a v h.
Proof. intros u Hv Hh. by exists u. Qed.

Lemma does_prints {A} v h (m : prog K A) a s : prints m a s → does v h m a (u_write s v) h.
Proof. intros Hm u <- <-. apply Hm. Qed.

(** The conversions of a format, given as its parts. *)
Lemma prints_printf ps f args :
  f = format_text ps → args = format_args ps → forallb part_ok ps = true →
  prints (printf f args) 0 (format_out ps).
Proof. intros -> ->. apply printf_renders. Qed.

Lemma prints_then {A B} (m : prog K A) a (b : B) s : prints m a s → prints (m ≫= λ _, mret b) b s.
Proof. intros Hm. eapply prints_eq; [eapply prints_bind; [done|apply prints_ret]|apply app_nil_r]. Qed.

Lemma does_open v h name : does v h (fopen name) (u_open (cstr name) v).1 (u_open (cstr name) v).2 h.
Proof.
  intros u <- <-. unfold fopen, call. destruct (law_open (view := view) (cstr name) (os u)) as [E V].
  destruct (os_open (cstr name) (os u)) as [r k]. cbn [fst snd] in *. subst r.
  eexists. split_and!; [done|done|done].
Qed.

Lemma does_close v h n : does v h (fclose n) (u_close n v).1 (u_close n v).2 h.
Proof.
  intros u <- <-. unfold fclose, call. destruct (law_close (view := view) n (os u)) as [E V].
  destruct (os_close n (os u)) as [r k]. cbn [fst snd] in *. subst r.
  eexists. split_and!; [done|done|done].
Qed.

Lemma does_read v h n buffer size data :
  u_node v n = Some (UFile data) → 0 <= size →
  does v h (fread n buffer size) (Z.min size (alen data), splice buffer 0 (sub data 0 size)) v h.
Proof.
  intros Hn Hs u <- <-. destruct (law_read (view := view) n size (os u) data Hn Hs) as (k & E & V).
  eexists. unfold fread, mbind, prog_bind, call. rewrite E. split_and!; [done|done|done].
Qed.

Lemma does_exit v h r : does v h (exit r) tt (u_exit (u32 r) v) h.
Proof. intros u <- <-. eexists. split_and!; [done|apply (law_exit (view := view))|done]. Qed.

(** From the command line to the exit status. *)
Lemma start_does main u r v' h' :
  Forall (λ c, c ≠ 0) (line (view (os u))) → alen (line (view (os u))) <= 127 →
  alen (words (line (view (os u)))) < 16 →
  (∀ argv, map cstr argv = words (line (view (os u))) →
     does (view (os u)) (heap_offset u) (main (alen argv) argv) r v' h') →
  ∃ u', start_c main u = Done (tt, u') ∧ view (os u') = u_exit (u32 r) v' ∧ heap_offset u' = h'.
Proof.
  intros Hz Hl Hw Hm. destruct (start_c_argv main u Hz Hl Hw) as (argv & u1 & Ha & V & HH & ->).
  eapply does_bind; [by apply Hm|apply does_exit|done|done].
Qed.

(** An open descriptor is one that was free, and closing it restores the table. *)
Lemma u_open_file v p nd n :
  nodes v !! p = Some nd → u_free (fds v) = Some n →
  u_open p v = (n, u_fds (<[n := p]> (fds v)) v) ∧ 3 <= n ∧
  ∀ s, u_node (u_write s (u_open p v).2) n = Some nd ∧
       u_close n (u_write s (u_open p v).2) = (0, u_write s v).
Proof.
  intros Hp Hf. unfold u_open. rewrite Hp, Hf. apply zfind_Some in Hf as (H3 & Hn & _).
  apply bool_decide_eq_true in Hn. split_and!; [done|lia|]. intros s. unfold u_node, u_close. cbn.
  rewrite lookup_insert_eq, delete_insert_id by done. split; [done|]. by destruct v.
Qed.

(** ** calc *)

(** The results of the four operations on [int]s; the ones that do not exist are [None]. *)
Definition calc_value (op a b : Z) : option Z :=
  if op =? ch "+" then Some (s32 (a + b))
  else if op =? ch "-" then Some (s32 (a - b))
  else if op =? ch "*" then Some (s32 (a * b))
  else if op =? ch "/" then
    if (b =? 0) || ((a =? -0x80000000) && (b =? -1)) then None else Some (Z.quot a b)
  else None.

Lemma atoi_loop_cstr x r : atoi_loop (cstr x) r = atoi_loop x r.
Proof.
  revert r. induction x as [|c x IH]; intros r; [done|]. cbn [cstr atoi_loop].
  destruct (c =? 0) eqn:E; [done|]. cbn [atoi_loop]. rewrite E. by destruct (_ && _).
Qed.

Lemma atoi_cstr x : atoi (cstr x) = atoi x.
Proof.
  destruct x as [|c x]; [done|]. cbn [cstr]. destruct (Z.eqb_spec c 0) as [->|Hc]; [done|].
  unfold atoi, hd0. rewrite !aget_cons_0. cbn [tail].
  rewrite (atoi_loop_cstr x 0). cbn [atoi_loop]. by rewrite atoi_loop_cstr.
Qed.

Lemma atoi_int x n : -0x80000000 <= n < 0x80000000 → cstr x = show_int n → atoi x = n.
Proof.
  intros Hn Hx. rewrite <-atoi_cstr, Hx. rewrite <-(atoi_show_int n [] Hn) at 2.
  rewrite <-(atoi_cstr (_ ++ _)), cstr_app_0; [done|apply show_int_nonzero].
Qed.

Lemma quot_int a b :
  -0x80000000 <= a < 0x80000000 → b ≠ 0 → (a =? -0x80000000) && (b =? -1) = false →
  -0x80000000 <= Z.quot a b < 0x80000000.
Proof.
  intros Ha Hb Hab. destruct (Z.eq_dec b 1) as [->|H1]; [rewrite Z.quot_1_r; lia|].
  destruct (Z.eq_dec b (-1)) as [->|H2].
  { change (-1) with (- (1)). rewrite Z.quot_opp_r, Z.quot_1_r by lia.
    destruct (Z.eqb_spec a (-0x80000000)); [done|lia]. }
  pose proof (Z.quot_abs a b Hb) as Q. rewrite Z.quot_div_nonneg in Q by lia.
  assert (Z.abs a / Z.abs b <= Z.abs a / 2) by (apply Z.div_le_compat_l; lia).
  assert (Z.abs a / 2 <= 0x80000000 / 2) by (apply Z.div_le_mono; lia).
  change (0x80000000 / 2) with 0x40000000 in *. lia.
Qed.

Lemma calc_value_range op a b r :
  -0x80000000 <= a < 0x80000000 → calc_value op a b = Some r → -0x80000000 <= r < 0x80000000.
Proof.
  intros Ha. unfold calc_value.
  destruct (op =? ch "+"); [intros [= <-]; apply s32_range|].
  destruct (op =? ch "-"); [intros [= <-]; apply s32_range|].
  destruct (op =? ch "*"); [intros [= <-]; apply s32_range|].
  destruct (op =? ch "/"); [|done]. destruct (Z.eqb_spec b 0); [done|]. cbn [orb].
  destruct (_ && _) eqn:E; [done|]. intros [= <-]. by apply quot_int.
Qed.

(** The line of a calculation. *)
Definition calc_text (op a b r : Z) : list Z :=
  show_int a ++ ch " " :: op :: ch " " :: show_int b ++ str_bytes " = " ++ show_int r ++ [10].

Lemma calc_prints argv name op a b r :
  -0x80000000 <= a < 0x80000000 → -0x80000000 <= b < 0x80000000 → calc_value op a b = Some r →
  map cstr argv = [name; show_int a; [op]; show_int b] →
  prints (calc_main (alen argv) argv) 0 (calc_text op a b r).
Proof.
  intros Ha Hb Hr Hv. destruct argv as [|x0 [|x1 [|x2 [|x3 [|x4 argv]]]]]; try done.
  injection Hv as _ E1 E2 E3.
  change (alen [x0; x1; x2; x3]) with 4. unfold calc_main. cbn [negb Z.eqb Pos.eqb].
  change ([x0; x1; x2; x3].[1]) with x1. change ([x0; x1; x2; x3].[2]) with x2. change ([x0; x1; x2; x3].[3]) with x3.
  rewrite (atoi_int x1 a), (atoi_int x3 b) by done.
  assert (hd0 x2 = op ∧ op ≠ 0) as [-> Ho].
  { rewrite cstr_unfold in E2. destruct (Z.eqb_spec (hd0 x2) 0); [done|]. by injection E2 as <-. }
  assert (∀ res, -0x80000000 <= res < 0x80000000 → u8 op = op →
    prints (printf (fmtln "%d %c %d = %d") [VInt a; VInt op; VInt b; VInt res] ≫= λ _, mret 0) 0
      (calc_text op a b res)) as Hshow.
  { intros res Hres Hu. apply prints_then with (a := 0). eapply prints_eq;
      [apply (prints_printf [PInt a; PText [32]; PChr op; PText [32]; PInt b; PText (str_bytes " = "); PInt res; PText [10]]); done|].
    unfold format_out, calc_text. cbn [map concat part_out]. rewrite !s32_small by done. rewrite Hu.
    cbn [cstr]. destruct (Z.eqb_spec op 0); [done|]. cbn [app]. done. }
  pose proof (calc_value_range op a b r Ha Hr) as Hrr. unfold calc_value in Hr.
  repeat (match type of Hr with context [op =? ch ?c] => destruct (Z.eqb_spec op (ch c)) as [->|] end;
    [try (injection Hr as <-; by apply Hshow)|]); [|done].
  destruct (b =? 0); [done|]. cbn [orb] in Hr. destruct (_ && _); [done|]. injection Hr as <-. by apply Hshow.
Qed.

(** C27: [calc] from the command line to the console: started with the decimal numerals of
    two [int]s around an operator, it prints the equation with the value of the operation
    (in 32-bit arithmetic, the quotient rounded to zero) and exits with status 0; nothing
    else changes. *)
Theorem calc_computes u name op a b r :
  Forall (λ c, c ≠ 0) (line (view (os u))) → alen (line (view (os u))) <= 127 →
  words (line (view (os u))) = [name; show_int a; [op]; show_int b] →
  -0x80000000 <= a < 0x80000000 → -0x80000000 <= b < 0x80000000 → calc_value op a b = Some r →
  ∃ u', start_c calc_main u = Done (tt, u') ∧
    view (os u') = u_exit 0 (u_write (calc_text op a b r) (view (os u))) ∧ heap_offset u' = heap_offset u.
Proof.
  intros Hz Hl Hw Ha Hb Hr. apply (start_does calc_main u 0); [done|done|by rewrite Hw|].
  intros argv Hv. rewrite Hw in Hv. apply does_prints. by eapply calc_prints.
Qed.

(** ** echo *)

Fixpoint join (ws : list (list Z)) : list Z :=
  match ws with
  | [] => []
  | [w] => w
  | w :: ws' => w ++ ch " " :: join ws'
  end.

Lemma prints_str f x : f = fmt "%s" → prints (printf f [VStr x]) 0 (cstr x).
Proof.
  intros ->. eapply prints_eq; [apply (prints_printf [PStr x]); done|apply app_nil_r].
Qed.

Lemma echo_loop_spec ws : ∀ pre,
  prints (echo_loop (length ws) (alen pre) (alen (pre ++ ws)) (pre ++ ws)) tt (join (map cstr ws)).
Proof.
  induction ws as [|w ws IH]; intros pre; [apply prints_ret|]. cbn [length echo_loop].
  assert ((pre ++ w :: ws).[alen pre] = w) as ->.
  { rewrite aget_app_r by lia. rewrite Z.sub_diag. apply aget_cons_0. }
  specialize (IH (pre ++ [w])). rewrite <-app_assoc in IH. cbn [app] in IH.
  replace (alen (pre ++ [w])) with (alen pre + 1) in IH by (rewrite alen_app; done).
  destruct ws as [|w' ws].
  - rewrite alen_app. change (alen [w]) with 1.
    replace (alen pre <? alen pre + 1 - 1) with false by (symmetry; apply Z.ltb_ge; lia).
    eapply prints_eq; [eapply prints_bind; [by apply prints_str|];
      eapply prints_bind; [apply prints_ret|apply prints_ret]|]. cbn [map join]. by rewrite !app_nil_r.
  - replace (alen pre <? alen (pre ++ w :: w' :: ws) - 1) with true.
    2:{ symmetry. apply Z.ltb_lt. rewrite alen_app, !alen_cons. pose proof (alen_nonneg ws). lia. }
    eapply prints_eq; [eapply prints_bind; [by apply prints_str|];
      eapply prints_bind; [|exact IH]; apply (prints_printf [PText [32]]); done|]. done.
Qed.

(** [echo] with at least one argument prints its arguments, separated by single spaces
    whatever the command line had between them, and a newline. *)
Theorem echo_echoes u name arg args :
  Forall (λ c, c ≠ 0) (line (view (os u))) → alen (line (view (os u))) <= 127 →
  words (line (view (os u))) = name :: arg :: args → alen args < 14 →
  ∃ u', start_c echo_main u = Done (tt, u') ∧
    view (os u') = u_exit 0 (u_write (join (arg :: args) ++ [10]) (view (os u))) ∧ heap_offset u' = heap_offset u.
Proof.
  intros Hz Hl Hw Hn. apply (start_does echo_main u 0); [done|done|rewrite Hw, !alen_cons; lia|].
  intros argv Hv. rewrite Hw in Hv. apply does_prints. destruct argv as [|x0 argv]; [done|].
  injection Hv as _ Hv. unfold echo_main. rewrite alen_cons.
  assert (1 <? 1 + alen argv = true) as ->.
  { apply Z.ltb_lt. destruct argv; [done|]. rewrite alen_cons. pose proof (alen_nonneg argv). lia. }
  replace (Z.to_nat (1 + alen argv - 1)) with (length argv) by (unfold alen; lia).
  eapply prints_bind; [|apply prints_then with (a := 0); apply (prints_printf [PText [10]]); done].
  pose proof (echo_loop_spec argv [x0]) as L. rewrite Hv, alen_app in L. exact L.
Qed.

(** ** cat *)

Lemma cstr_zero d r : cstr (d ++ 0 :: r) = cstr d.
Proof. induction d as [|c d IH]; [done|]. cbn [app cstr]. by rewrite IH. Qed.

(** A buffer filled by a read and terminated behind the bytes read. *)
Lemma cstr_read buffer data size :
  0 <= size < alen buffer →
  cstr ((splice buffer 0 (sub data 0 size)).[Z.min size (alen data) <- 0]) = cstr (sub data 0 size).
Proof.
  intros Hs. set (d := sub data 0 size).
  assert (Z.min size (alen data) = alen d) as ->.
  { unfold d, sub. change (drop (Z.to_nat 0) data) with data. rewrite alen_firstn. lia. }
  assert (alen d <= size) by (unfold d, sub; rewrite alen_firstn; lia).
  unfold splice. change (take (Z.to_nat 0) buffer) with (@nil Z). cbn [app].
  destruct (drop (Z.to_nat 0 + length d) buffer) as [|x r] eqn:E.
  { apply (f_equal length) in E. rewrite length_drop in E. cbn in E. unfold alen in *. lia. }
  rewrite aset_mid. apply cstr_zero.
Qed.

(** [cat] of a file prints its first 2047 bytes, up to the first zero byte, and a
    newline; it leaves no descriptor open and exits with status 0. *)
Theorem cat_shows u name path data buffer n :
  Forall (λ c, c ≠ 0) (line (view (os u))) → alen (line (view (os u))) <= 127 →
  words (line (view (os u))) = [name; path] → alen buffer = 2048 →
  nodes (view (os u)) !! path = Some (UFile data) → u_free (fds (view (os u))) = Some n →
  ∃ u', start_c (cat_main buffer) u = Done (tt, u') ∧
    view (os u') = u_exit 0 (u_write (cstr (sub data 0 2047) ++ [10]) (view (os u))) ∧
    heap_offset u' = heap_offset u.
Proof.
  intros Hz Hl Hw Hb Hp Hf. apply (start_does (cat_main buffer) u 0); [done|done|by rewrite Hw|].
  intros argv Hv. rewrite Hw in Hv. destruct argv as [|x0 [|x1 [|x2 argv]]]; try done. injection Hv as _ E1.
  set (v := view (os u)) in *. change (alen [x0; x1]) with 2. unfold cat_main. cbn [Z.ltb Z.compare Pos.compare Pos.compare_cont].
  change ([x0; x1].[1]) with x1.
  destruct (u_open_file v path (UFile data) n Hp Hf) as (EO & H3 & Hfd).
  eapply does_bind; [apply does_open|]. rewrite E1. rewrite EO in Hfd |- *. cbn [fst snd] in *.
  destruct (Z.ltb_spec n 0); [lia|]. destruct (Hfd []) as [Hn _]. rewrite u_write_nil in Hn.
  eapply does_bind; [apply (does_read _ _ _ _ _ data Hn); lia|]. cbv beta iota.
  eapply (does_bind _ _ _ 0 (u_write (cstr (sub data 0 2047)) _)).
  - cbn [fst snd]. pose proof (alen_nonneg data).
    destruct (Z.ltb_spec 0 (Z.min (2048 - 1) (alen data))).
    + apply does_prints. rewrite <-(cstr_read buffer data 2047) by lia. by apply prints_str.
    + assert (sub data 0 2047 = []) as ->; [|rewrite u_write_nil; apply does_ret].
      destruct data; [done|]. rewrite alen_cons in *. pose proof (alen_nonneg data). lia.
  - destruct (Hfd (cstr (sub data 0 2047))) as [_ EC].
    eapply does_bind; [apply does_close|]. rewrite EC. cbn [snd].
    rewrite <-u_write_app. apply does_prints, prints_then with (a := 0). apply (prints_printf [PText [10]]); done.
Qed.

(** ** ls *)

(** Permissions as [ls -l] writes them: the type and three groups of [rwx]. *)
Definition mode_text (mode : Z) (is_dir : bool) : list Z :=
  (if is_dir then ch "d" else ch "-") ::
  map (λ k, if Z.testbit mode (8 - k) then (str_bytes "rwx").[k mod 3] else ch "-") (seqZ 0 9).

Definition ls_line (e : dirent_t) : list Z :=
  mode_text (d_mode e) (d_type e =? 2) ++ str_bytes "  " ++ cstr (d_name e) ++ str_bytes "  " ++
  show_int (s32 (d_off e)) ++ str_bytes " bytes" ++ [10].

Lemma nz_land_bit m k : 0 <= k → nz (Z.land m (2 ^ k)) = Z.testbit m k.
Proof.
  intros Hk. assert (Z.land m (2 ^ k) = if Z.testbit m k then 2 ^ k else 0) as ->.
  { apply Z.bits_inj'. intros j Hj. rewrite Z.land_spec, Z.pow2_bits_eqb by done.
    destruct (Z.eqb_spec k j) as [->|].
    - destruct (Z.testbit m j); [by rewrite Z.pow2_bits_true|by rewrite Z.bits_0].
    - rewrite andb_false_r. destruct (Z.testbit m k); [by rewrite Z.pow2_bits_false|by rewrite Z.bits_0]. }
  unfold nz. pose proof (Z.pow_pos_nonneg 2 k ltac:(lia) Hk).
  destruct (Z.testbit m k); [|done]. destruct (Z.eqb_spec (2 ^ k) 0); [lia|done].
Qed.

Lemma mode_to_string_spec mode str is_dir :
  alen str = 11 → mode_to_string mode str is_dir = mode_text mode is_dir ++ [0].
Proof.
  intros Hl. unfold alen in Hl. do 11 (destruct str as [|? str]; [done|]). destruct str; [|cbn in Hl; lia].
  unfold mode_to_string, mode_text. change 0x100 with (2 ^ 8). change 0x080 with (2 ^ 7). change 0x040 with (2 ^ 6).
  change 0x020 with (2 ^ 5). change 0x010 with (2 ^ 4). change 0x008 with (2 ^ 3). change 0x004 with (2 ^ 2).
  change 0x002 with (2 ^ 1). change 0x001 with (2 ^ 0).
  rewrite !nz_land_bit by lia. reflexivity.
Qed.

Lemma mode_text_nonzero mode is_dir : Forall (λ c, c ≠ 0) (mode_text mode is_dir).
Proof.
  unfold mode_text. constructor; [by destruct is_dir|]. apply Forall_map, Forall_forall. intros k Hk.
  apply elem_of_seqZ in Hk. destruct (Z.testbit mode (8 - k)); [|done].
  pose proof (Z.mod_pos_bound k 3 ltac:(lia)).
  assert (k mod 3 = 0 ∨ k mod 3 = 1 ∨ k mod 3 = 2) as [-> | [-> | ->]] by lia; done.
Qed.

Lemma does_readdir v h n i cur entries :
  u_node v n = Some (UDir entries) → 0 <= i < 0x7fffffff →
  does v h (readdir (mk_DIR n i cur))
    match entries !! Z.to_nat i with
    | Some e => (true, mk_DIR n (i + 1) e)
    | None => (false, mk_DIR n i cur)
    end v h.
Proof.
  intros Hn Hi u <- <-. destruct (law_getdents (view := view) n i (os u) entries Hn ltac:(lia)) as (k & E & V).
  eexists. unfold readdir, mbind, prog_bind, call. cbn [Libc.fd Libc.index Libc.current]. rewrite E.
  destruct (entries !! Z.to_nat i); cbn [Z.eqb Pos.eqb]; [rewrite s32_small by lia|]; (split_and!; [done|done|done]).
Qed.

Lemma ls_prints e mode_str :
  alen mode_str = 11 →
  prints (printf (fmtln "%s  %s  %d bytes")
            [VStr (mode_to_string (d_mode e) mode_str (d_type e =? 2)); VStr (d_name e); VInt (d_off e)])
    0 (ls_line e).
Proof.
  intros Hm. rewrite mode_to_string_spec by done.
  eapply prints_eq; [apply (prints_printf [PStr (mode_text (d_mode e) (d_type e =? 2) ++ [0]); PText (str_bytes "  ");
    PStr (d_name e); PText (str_bytes "  "); PInt (d_off e); PText (str_bytes " bytes" ++ [10])]); done|].
  unfold format_out, ls_line. cbn [map concat part_out]. rewrite cstr_app_0 by apply mode_text_nonzero.
  rewrite app_nil_r. done.
Qed.

Lemma ls_entries_spec n h rest : ∀ fuel pre v cur mode_str,
  u_node v n = Some (UDir (pre ++ rest)) → alen (pre ++ rest) < 0x7fffffff → alen mode_str = 11 →
  (length rest < fuel)%nat →
  ∃ dir, Libc.fd dir = n ∧
    does v h (ls_entries fuel (mk_DIR n (alen pre) cur) mode_str) dir (u_write (concat (map ls_line rest)) v) h.
Proof.
  induction rest as [|e rest IH]; intros fuel pre v cur mode_str Hn Hl Hm Hf; (destruct fuel as [|fuel]; [cbn in Hf; lia|]);
    pose proof (alen_nonneg pre); rewrite alen_app in Hl; cbn [ls_entries].
  - exists (mk_DIR n (alen pre) cur). split; [done|]. rewrite alen_nil in Hl.
    eapply does_bind; [apply (does_readdir _ _ _ _ _ _ Hn); lia|].
    unfold alen. rewrite Nat2Z.id, app_nil_r, lookup_ge_None_2 by done. cbn [map concat]. rewrite u_write_nil. apply does_ret.
  - pose proof (alen_nonneg rest). rewrite alen_cons in Hl. destruct (IH fuel (pre ++ [e]) (u_write (ls_line e) v) e
      (mode_to_string (d_mode e) mode_str (d_type e =? 2))) as (dir & Hd & D).
    { by rewrite <-app_assoc. }
    { rewrite <-app_assoc, alen_app. cbn [app]. rewrite alen_cons. lia. }
    { rewrite mode_to_string_spec by done. done. }
    { cbn in Hf. lia. }
    exists dir. split; [done|]. eapply does_bind; [apply (does_readdir _ _ _ _ _ _ Hn); lia|].
    unfold alen at 1. rewrite Nat2Z.id, list_lookup_middle by done. cbv beta iota. cbn [Libc.current].
    eapply does_bind; [by apply does_prints, ls_prints|]. cbn [map concat]. rewrite <-u_write_app.
    rewrite alen_app in D. exact D.
Qed.

(** C28: [ls] of a directory prints one line per entry, in order, with the permissions,
    the name and the size, ends with the last entry, closes the directory and exits with
    status 0; its directory handle stays allocated. *)
Theorem ls_lists u name path entries fresh mode_str n fuel :
  Forall (λ c, c ≠ 0) (line (view (os u))) → alen (line (view (os u))) <= 127 →
  words (line (view (os u))) = [name; path] → alen mode_str = 11 →
  nodes (view (os u)) !! path = Some (UDir entries) → u_free (fds (view (os u))) = Some n →
  0 <= heap_offset u <= heap_size - sizeof_DIR → alen entries < 0x7fffffff → (length entries < fuel)%nat →
  ∃ u', start_c (ls_main fuel fresh mode_str) u = Done (tt, u') ∧
    view (os u') = u_exit 0 (u_write (concat (map ls_line entries)) (view (os u))) ∧
    heap_offset u' = heap_offset u + sizeof_DIR.
Proof.
  intros Hz Hl Hw Hm Hp Hf Hh Hn Hfu. apply (start_does (ls_main fuel fresh mode_str) u 0); [done|done|by rewrite Hw|].
  intros argv Hv. rewrite Hw in Hv. destruct argv as [|x0 [|x1 [|x2 argv]]]; try done. injection Hv as _ E1.
  set (v := view (os u)) in *. change (alen [x0; x1]) with 2. unfold ls_main. cbn [Z.ltb Z.compare Pos.compare Pos.compare_cont].
  change ([x0; x1].[1]) with x1.
  destruct (u_open_file v path (UDir entries) n Hp Hf) as (EO & H3 & Hfd).
  destruct (Hfd []) as [Hnode _]. rewrite u_write_nil in Hnode.
  destruct (ls_entries_spec n (heap_offset u + sizeof_DIR) entries fuel [] (u_open path v).2 fresh mode_str Hnode Hn Hm Hfu)
    as (dir & Hd & D).
  eapply (does_bind _ _ _ (Some (mk_DIR n 0 fresh)) (u_open path v).2 (heap_offset u + sizeof_DIR)).
  - eapply (does_bind _ _ (fopen x1)); [apply does_open|]. rewrite E1, EO. cbn [fst snd].
    destruct (Z.ltb_spec n 0); [lia|].
    intros u1 VV HH. eexists. unfold mbind, prog_bind, malloc. rewrite HH.
    unfold heap_size, sizeof_DIR in *. cbn [Z.eqb orb]. rewrite u32_small by lia.
    destruct (Z.ltb_spec (64 * 1024) (heap_offset u + (4 + 4 + 144))); [lia|]. split_and!; [done|done|done].
  - cbv beta iota. eapply does_bind; [exact D|]. destruct (Hfd (concat (map ls_line entries))) as [_ EC].
    eapply (does_bind _ _ _ 0); [|apply does_ret]. unfold closedir. rewrite Hd.
    eapply (does_bind _ _ (fclose n)); [apply does_close|]. rewrite EC. cbn [fst snd].
    eapply does_bind; [apply does_ret|apply does_ret].
Qed.
End runs.

(** ** The abstract system, run *)

Definition u_nodes (t : gmap (list Z) unode) (v : uos) : uos :=
  mk_uos (stdout v) (line v) t (fds v) (status v).

Definition u_add (nd : unode) (p : list Z) (v : uos) : Z * uos :=
  match nodes v !! p with
  | Some _ => (-4, v)
  | None => (0, u_nodes (<[p := nd]> (nodes v)) v)
  end.

(** [uos] itself is a system that meets the laws. *)
#[global] Instance uos_os : UserOS uos := {|
  os_exit := u_exit;
  os_write n s v := if (n =? 1) || (n =? 2) then (alen s, u_write s v) else (-3, v);
  os_read n size v :=
    match u_node v n with
    | Some (UFile data) => (Z.min size (alen data), sub data 0 size, v)
    | _ => (-3, [], v)
    end;
  os_open := u_open;
  os_close := u_close;
  os_getdents n i v :=
    match u_node v n with
    | Some (UDir entries) =>
        (match entries !! Z.to_nat i with Some e => (1, Some e) | None => (0, None) end, v)
    | _ => (-3, None, v)
    end;
  os_getcmdline size v :=
    let s := sub (line v) 0 (size - 1) in (0, s ++ replicate (Z.to_nat size - length s) 0, v);
  os_unlink p v := match nodes v !! p with
                   | Some _ => (0, u_nodes (delete p (nodes v)) v)
                   | None => (-4, v)
                   end;
  os_mkdir := u_add (UDir []);
  os_create := u_add (UFile []);
  os_chmod p _ v := match nodes v !! p with Some _ => (0, v) | None => (-5, v) end;
  os_ps _ v := (0, fmtln "PID 1: init", v);
  os_waitpid _ _ v := (-5, None, v);
  os_kill _ _ v := (-5, v)
|}.

#[global] Instance uos_laws : UserOSLaws uos id.
Proof.
  split; try done.
  - intros v Hz Hl. cbn [os_getcmdline uos_os]. unfold id in *. eexists _, v. split; [|done].
    assert (sub (line v) 0 (128 - 1) = line v) as ->; [|done].
    unfold sub, alen in *. change (Z.to_nat 0) with 0%nat. rewrite drop_0. apply take_ge. lia.
  - intros n size v data Hn Hs. exists v. cbn [os_read uos_os]. unfold id in *. by rewrite Hn.
  - intros n i v entries Hn Hi. exists v. cbn [os_getdents uos_os]. unfold id in *. by rewrite Hn.
Qed.

(** ** Witnesses *)

Definition demo_dirent (name : string) (size mode type : Z) : dirent_t :=
  mk_dirent 7 size 141 mode type (str_bytes name ++ replicate (128 - String.length name) 0).
Arguments demo_dirent name%_string.

Definition demo_entries : list dirent_t :=
  [demo_dirent "BIN" 0 0x1ED 2; demo_dirent "README.TXT" 421 0x1A4 1].

Definition demo_system (cmd : string) : user uos :=
  mk_user (mk_uos [] (str_bytes cmd)
    (<[str_bytes "/" := UDir demo_entries]> (<[str_bytes "/motd" := UFile (str_bytes "Salam!")]> ∅)) ∅ None) 0.
Arguments demo_system cmd%_string.

Lemma nonzero_b s : forallb (λ c, negb (c =? 0)) s = true → Forall (λ c, c ≠ 0) s.
Proof.
  intros Hs. apply Forall_forall. intros c Hc. rewrite forallb_forall in Hs.
  apply list_elem_of_In in Hc. specialize (Hs c Hc). by destruct (Z.eqb_spec c 0).
Qed.

Lemma print_int_atoi_witness :
  ∃ text, prints (view := @id uos) (print_int (-0x80000000)) tt text ∧ ∀ rest, atoi (text ++ 0 :: rest) = -0x80000000.
Proof. apply print_int_atoi. lia. Defined.

Lemma calc_computes_witness :
  ∃ u', start_c calc_main (demo_system "calc  -7 /  2") = Done (tt, u') ∧
    os u' = u_exit 0 (u_write (calc_text (ch "/") (-7) 2 (-3)) (os (demo_system "calc  -7 /  2"))) ∧
    heap_offset u' = 0.
Proof.
  apply (calc_computes (view := id) (demo_system "calc  -7 /  2") (str_bytes "calc") (ch "/") (-7) 2 (-3)).
  - apply nonzero_b. reflexivity.
  - by vm_compute.
  - reflexivity.
  - lia.
  - lia.
  - reflexivity.
Defined.

Lemma calc_text_example : calc_text (ch "/") (-7) 2 (-3) = str_bytes "-7 / 2 = -3" ++ [10].
Proof. reflexivity. Qed.

Lemma echo_echoes_witness :
  ∃ u', start_c echo_main (demo_system "echo  salam   dost") = Done (tt, u') ∧
    os u' = u_exit 0 (u_write (str_bytes "salam dost" ++ [10]) (os (demo_system "echo  salam   dost"))) ∧
    heap_offset u' = 0.
Proof.
  apply (echo_echoes (view := id) (demo_system "echo  salam   dost") (str_bytes "echo") (str_bytes "salam") [str_bytes "dost"]).
  - apply nonzero_b. reflexivity.
  - by vm_compute.
  - reflexivity.
  - by vm_compute.
Defined.

Lemma cat_shows_witness :
  ∃ u', start_c (cat_main (replicate 2048 7)) (demo_system "cat /motd") = Done (tt, u') ∧
    os u' = u_exit 0 (u_write (str_bytes "Salam!" ++ [10]) (os (demo_system "cat /motd"))) ∧
    heap_offset u' = 0.
Proof.
  apply (cat_shows (view := id) (demo_system "cat /motd") (str_bytes "cat") (str_bytes "/motd") (str_bytes "Salam!")
           (replicate 2048 7) 3).
  - apply nonzero_b. reflexivity.
  - by vm_compute.
  - reflexivity.
  - reflexivity.
  - by vm_compute.
  - by vm_compute.
Defined.

Lemma ls_lists_witness :
  ∃ u', start_c (ls_main 3 (demo_dirent "" 0 0 0) (replicate 11 7)) (demo_system "ls /") = Done (tt, u') ∧
    os u' = u_exit 0 (u_write (concat (map ls_line demo_entries)) (os (demo_system "ls /"))) ∧
    heap_offset u' = 152.
Proof.
  apply (ls_lists (view := id) (demo_system "ls /") (str_bytes "ls") (str_bytes "/") demo_entries
           (demo_dirent "" 0 0 0) (replicate 11 7) 3 3).
  - apply nonzero_b. reflexivity.
  - by vm_compute.
  - reflexivity.
  - reflexivity.
  - by vm_compute.
  - by vm_compute.
  - by vm_compute.
  - by vm_compute.
  - cbn. lia.
Defined.

Lemma ls_line_example :
  concat (map ls_line demo_entries) =
    str_bytes "drwxr-xr-x  BIN  0 bytes" ++ [10] ++ str_bytes "-rw-r--r--  README.TXT  421 bytes" ++ [10].
Proof. reflexivity. Qed.

(** ** Edges *)

(** [strncmp] takes a string and its continuation for equal: it only compares characters
    until either string ends. *)
Lemma strncmp_zero n : ∀ s1 s2,
  Libc.strncmp s1 s2 n = 0 ↔
    take n (cstr s1) `prefix_of` take n (cstr s2) ∨ take n (cstr s2) `prefix_of` take n (cstr s1).
Proof.
  induction n as [|n IH]; intros s1 s2; cbn [Libc.strncmp].
  { cbn [take]. split; [by left; apply prefix_nil|done]. }
  rewrite (cstr_unfold s1), (cstr_unfold s2). unfold nz.
  destruct (Z.eqb_spec (hd0 s1) 0), (Z.eqb_spec (hd0 s2) 0); cbn [negb andb take];
    try (split; [intros _|done]; auto using prefix_nil).
  destruct (Z.eqb_spec (hd0 s1) (hd0 s2)) as [->|Hne]; cbn [negb].
  - rewrite IH. split; (intros [Hp|Hp]; [left|right]); by (apply prefix_cons || eapply prefix_cons_inv_2).
  - split; [lia|]. intros [Hp|Hp]; by apply prefix_cons_inv_1 in Hp.
Qed.

Lemma strncmp_prefix_equal : Libc.strncmp (fmt "cat") (fmt "catalog") 8 = 0.
Proof. reflexivity. Qed.

(** [malloc] hands out the next bytes of the heap, as long as the sum does not wrap. *)
Lemma malloc_spec {K} `{UserOS K} (u : user K) size :
  0 <= heap_offset u <= heap_size → 0 < size < 0x100000000 - heap_size →
  malloc size u =
    if heap_offset u + size <=? heap_size
    then Done (Some (heap_offset u), mk_user (os u) (heap_offset u + size)) else Done (None, u).
Proof.
  unfold malloc, heap_size. intros Hh Hs. rewrite u32_small by lia.
  destruct (Z.eqb_spec size 0); [lia|]. cbn [orb].
  destruct (Z.ltb_spec (64 * 1024) (heap_offset u + size)), (Z.leb_spec (heap_offset u + size) (64 * 1024)); lia || done.
Qed.

(** A request of nearly 4 GB wraps: it succeeds and rewinds the heap over live blocks. *)
Lemma malloc_wraps v : malloc (K := uos) 0xFFFFFFF0 (mk_user v 152) = Done (Some 152, mk_user v 136).
Proof. reflexivity. Qed.

(** A format that ends in [%] is read behind its terminator. *)
Lemma printf_lone_percent v : printf (K := uos) (fmt "100%") [] (mk_user v 0) = Fault.
Proof. reflexivity. Qed.

(** The sixteenth argument is not terminated: it keeps the rest of the command line. *)
Lemma sixteenth_argument :
  let '(l, argv) := split_args 129 (fmt "a b c d e f g h i j k l m n o p q r") 0 [] in
  alen argv = 16 ∧ cstr (drop (Z.to_nat (argv.[15])) l) = str_bytes "p q r".
Proof. by vm_compute. Qed.

(** The one quotient that is no [int] raises a divide error. *)
Lemma calc_divide_error : start_c calc_main (demo_system "calc -2147483648 / -1") = Fault.
Proof. by vm_compute. Qed.
