(* ===== verification/Html.v ===== *)
(** * core/gui/htmlui.c: the markup interface

    The parser of a markup subset, the style sheets, layout, drawing and pointer handling.
    The element tree of the source, linked by [first_child] and [next_sibling], is an
    inductive tree; every element and string keeps the address of its heap block, so that
    allocation and release go through the heap interface ([HeapAlloc]).  While the parser
    runs, [current] and its chain of [parent]s are the stack of open elements; an open
    element joins the children of its parent when it is closed, which is where the source
    has it from the start: as the last child.

    A [char *] is the list of bytes from the pointer on; the bounded copy loops of the
    source are [copy_until].  Coordinates are integers. *)

From Stdlib Require Import Ascii String.
From S2P Require Import Prelude KString Kheap Format Gfx.

(** ** Data *)

Inductive html_element_type_t :=
| HTML_ELEMENT_DIV | HTML_ELEMENT_SPAN | HTML_ELEMENT_BUTTON | HTML_ELEMENT_TEXT.

#[global] Instance html_element_type_eq : EqDecision html_element_type_t.
Proof. solve_decision. Defined.

Record css_properties_t := mk_css {
  background_color : Z;
  background_color2 : Z;
  has_background : bool;
  is_gradient : bool;
  is_gradient_vertical : bool;
  text_color : Z;
  hover_background_color : Z;
  has_hover_style : bool;
  border_radius : Z;
  padding : Z;
  margin : Z;
  width : Z;
  height : Z;
  has_shadow : bool;
  shadow_offset : Z;
  shadow_color : Z }.

Definition w_background_color (v : Z) (s : css_properties_t) : css_properties_t :=
  mk_css v (background_color2 s) (has_background s) (is_gradient s) (is_gradient_vertical s) (text_color s) 
    (hover_background_color s) (has_hover_style s) (border_radius s) (padding s) (margin s) (width s) 
    (height s) (has_shadow s) (shadow_offset s) (shadow_color s).
Definition w_background_color2 (v : Z) (s : css_properties_t) : css_properties_t :=
  mk_css (background_color s) v (has_background s) (is_gradient s) (is_gradient_vertical s) (text_color s) 
    (hover_background_color s) (has_hover_style s) (border_radius s) (padding s) (margin s) (width s) 
    (height s) (has_shadow s) (shadow_offset s) (shadow_color s).
Definition w_has_background (v : bool) (s : css_properties_t) : css_properties_t :=
  mk_css (background_color s) (background_color2 s) v (is_gradient s) (is_gradient_vertical s) (text_color s) 
    (hover_background_color s) (has_hover_style s) (border_radius s) (padding s) (margin s) (width s) 
    (height s) (has_shadow s) (shadow_offset s) (shadow_color s).
Definition w_is_gradient (v : bool) (s : css_properties_t) : css_properties_t :=
  mk_css (background_color s) (background_color2 s) (has_background s) v (is_gradient_vertical s) 
    (text_color s) (hover_background_color s) (has_hover_style s) (border_radius s) (padding s) 
    (margin s) (width s) (height s) (has_shadow s) (shadow_offset s) (shadow_color s).
Definition w_is_gradient_vertical (v : bool) (s : css_properties_t) : css_properties_t :=
  mk_css (background_color s) (background_color2 s) (has_background s) (is_gradient s) v (text_color s) 
    (hover_background_color s) (has_hover_style s) (border_radius s) (padding s) (margin s) (width s) 
    (height s) (has_shadow s) (shadow_offset s) (shadow_color s).
Definition w_text_color (v : Z) (s : css_properties_t) : css_properties_t :=
  mk_css (background_color s) (background_color2 s) (has_background s) (is_gradient s) 
    (is_gradient_vertical s) v (hover_background_color s) (has_hover_style s) (border_radius s) 
    (padding s) (margin s) (width s) (height s) (has_shadow s) (shadow_offset s) (shadow_color s).
Definition w_hover_background_color (v : Z) (s : css_properties_t) : css_properties_t :=
  mk_css (background_color s) (background_color2 s) (has_background s) (is_gradient s) 
    (is_gradient_vertical s) (text_color s) v (has_hover_style s) (border_radius s) (padding s) 
    (margin s) (width s) (height s) (has_shadow s) (shadow_offset s) (shadow_color s).
Definition w_has_hover_style (v : bool) (s : css_properties_t) : css_properties_t :=
  mk_css (background_color s) (background_color2 s) (has_background s) (is_gradient s) 
    (is_gradient_vertical s) (text_color s) (hover_background_color s) v (border_radius s) (padding s) 
    (margin s) (width s) (height s) (has_shadow s) (shadow_offset s) (shadow_color s).
Definition w_border_radius (v : Z) (s : css_properties_t) : css_properties_t :=
  mk_css (background_color s) (background_color2 s) (has_background s) (is_gradient s) 
    (is_gradient_vertical s) (text_color s) (hover_background_color s) (has_hover_style s) v (padding s) 
    (margin s) (width s) (height s) (has_shadow s) (shadow_offset s) (shadow_color s).
Definition w_padding (v : Z) (s : css_properties_t) : css_properties_t :=
  mk_css (background_color s) (background_color2 s) (has_background s) (is_gradient s) 
    (is_gradient_vertical s) (text_color s) (hover_background_color s) (has_hover_style s) 
    (border_radius s) v (margin s) (width s) (height s) (has_shadow s) (shadow_offset s) 
    (shadow_color s).
Definition w_margin (v : Z) (s : css_properties_t) : css_properties_t :=
  mk_css (background_color s) (background_color2 s) (has_background s) (is_gradient s) 
    (is_gradient_vertical s) (text_color s) (hover_background_color s) (has_hover_style s) 
    (border_radius s) (padding s) v (width s) (height s) (has_shadow s) (shadow_offset s) 
    (shadow_color s).
Definition w_width (v : Z) (s : css_properties_t) : css_properties_t :=
  mk_css (background_color s) (background_color2 s) (has_background s) (is_gradient s) 
    (is_gradient_vertical s) (text_color s) (hover_background_color s) (has_hover_style s) 
    (border_radius s) (padding s) (margin s) v (height s) (has_shadow s) (shadow_offset s) 
    (shadow_color s).
Definition w_height (v : Z) (s : css_properties_t) : css_properties_t :=
  mk_css (background_color s) (background_color2 s) (has_background s) (is_gradient s) 
    (is_gradient_vertical s) (text_color s) (hover_background_color s) (has_hover_style s) 
    (border_radius s) (padding s) (margin s) (width s) v (has_shadow s) (shadow_offset s) 
    (shadow_color s).
Definition w_has_shadow (v : bool) (s : css_properties_t) : css_properties_t :=
  mk_css (background_color s) (background_color2 s) (has_background s) (is_gradient s) 
    (is_gradient_vertical s) (text_color s) (hover_background_color s) (has_hover_style s) 
    (border_radius s) (padding s) (margin s) (width s) (height s) v (shadow_offset s) (shadow_color s).
Definition w_shadow_offset (v : Z) (s : css_properties_t) : css_properties_t :=
  mk_css (background_color s) (background_color2 s) (has_background s) (is_gradient s) 
    (is_gradient_vertical s) (text_color s) (hover_background_color s) (has_hover_style s) 
    (border_radius s) (padding s) (margin s) (width s) (height s) (has_shadow s) v (shadow_color s).
Definition w_shadow_color (v : Z) (s : css_properties_t) : css_properties_t :=
  mk_css (background_color s) (background_color2 s) (has_background s) (is_gradient s) 
    (is_gradient_vertical s) (text_color s) (hover_background_color s) (has_hover_style s) 
    (border_radius s) (padding s) (margin s) (width s) (height s) (has_shadow s) (shadow_offset s) v.

(** A string in a block of the heap: its address and its bytes. *)
Definition hstring : Type := Z * list Z.

(** The fields of [html_element_t] but the links. *)
Record html_data := mk_data {
  e_addr : Z;
  e_type : html_element_type_t;
  e_text : option hstring;
  e_class : option hstring;
  e_id : option hstring;
  e_style : css_properties_t;
  e_x : Z; e_y : Z;
  computed_width : Z; computed_height : Z;
  is_hovered : bool }.

Inductive html_element := Element (d : html_data) (children : list html_element).

Definition data (e : html_element) : html_data := let '(Element d _) := e in d.
Definition children (e : html_element) : list html_element := let '(Element _ cs) := e in cs.

Definition w_text (v : option hstring) (d : html_data) : html_data :=
  mk_data (e_addr d) (e_type d) v (e_class d) (e_id d) (e_style d) (e_x d) (e_y d)
    (computed_width d) (computed_height d) (is_hovered d).
Definition w_class (v : option hstring) (d : html_data) : html_data :=
  mk_data (e_addr d) (e_type d) (e_text d) v (e_id d) (e_style d) (e_x d) (e_y d)
    (computed_width d) (computed_height d) (is_hovered d).
Definition w_id (v : option hstring) (d : html_data) : html_data :=
  mk_data (e_addr d) (e_type d) (e_text d) (e_class d) v (e_style d) (e_x d) (e_y d)
    (computed_width d) (computed_height d) (is_hovered d).
Definition w_style (v : css_properties_t) (d : html_data) : html_data :=
  mk_data (e_addr d) (e_type d) (e_text d) (e_class d) (e_id d) v (e_x d) (e_y d)
    (computed_width d) (computed_height d) (is_hovered d).
Definition w_pos (x y : Z) (d : html_data) : html_data :=
  mk_data (e_addr d) (e_type d) (e_text d) (e_class d) (e_id d) (e_style d) x y
    (computed_width d) (computed_height d) (is_hovered d).
Definition w_size (w h : Z) (d : html_data) : html_data :=
  mk_data (e_addr d) (e_type d) (e_text d) (e_class d) (e_id d) (e_style d) (e_x d) (e_y d)
    w h (is_hovered d).
Definition w_hovered (v : bool) (d : html_data) : html_data :=
  mk_data (e_addr d) (e_type d) (e_text d) (e_class d) (e_id d) (e_style d) (e_x d) (e_y d)
    (computed_width d) (computed_height d) v.

(** ** String helpers *)

Fixpoint html_strcpy (dest : list Z) (d : Z) (src : list Z) : list Z :=
  match src with
  | [] => dest.[d <- 0]
  | c :: src' => if nz c then html_strcpy (dest.[d <- c]) (d + 1) src' else dest.[d <- 0]
  end.

(** The inner loop: does the needle end before a mismatch? *)
Fixpoint html_match (h n : list Z) : bool :=
  match n with
  | [] => true
  | b :: n' =>
      if b =? 0 then true
      else match h with
           | [] => false
           | a :: h' => if nz a && (a =? b) then html_match h' n' else false
           end
  end.

(** The haystack from the first match on. *)
Fixpoint html_find (haystack needle : list Z) : option (list Z) :=
  match haystack with
  | [] => None
  | c :: h' =>
      if c =? 0 then None
      else if html_match haystack needle then Some haystack else html_find h' needle
  end.

Definition html_strstr (haystack needle : list Z) : option (list Z) :=
  if hd0 needle =? 0 then Some haystack else html_find haystack needle.

Definition is_space (c : Z) : bool := (c =? ch " ") || (c =? 9) || (c =? 10) || (c =? 13).

Fixpoint skip_whitespace (str : list Z) : list Z :=
  match str with
  | [] => []
  | c :: str' => if is_space c then skip_whitespace str' else str
  end.

(** [while ( *p && !stop( *p) && i < max) buf[i++] = *p++]: the characters copied and the rest. *)
Fixpoint copy_until (stop : Z → bool) (max : nat) (p : list Z) : list Z * list Z :=
  match max, p with
  | S max', c :: p' =>
      if (c =? 0) || stop c then ([], p)
      else let '(s, r) := copy_until stop max' p' in (c :: s, r)
  | _, _ => ([], p)
  end.

(** [while ( *p && !stop( *p)) p++]. *)
Fixpoint skip_until (stop : Z → bool) (p : list Z) : list Z :=
  match p with
  | [] => []
  | c :: p' => if (c =? 0) || stop c then p else skip_until stop p'
  end.

Definition is_key (key : list Z) (s : string) : bool := strcmp key (str_bytes s ++ [0]) =? 0.
Arguments is_key key s%_string.

(** ** Properties *)

(** One digit of a colour; other characters only shift. *)
Definition hex_step (color c : Z) : Z :=
  let color := u32 (Z.shiftl color 4) in
  if (ch "0" <=? c) && (c <=? ch "9") then Z.lor color (c - ch "0")
  else if (ch "a" <=? c) && (c <=? ch "f") then Z.lor color (c - ch "a" + 10)
  else if (ch "A" <=? c) && (c <=? ch "F") then Z.lor color (c - ch "A" + 10)
  else color.

(** [for (i = 1; i < 7 && val[i]; i++)]: six characters behind the [#]. *)
Fixpoint hex_loop (n : nat) (s : list Z) (color : Z) : Z :=
  match n, s with
  | S n', c :: s' => if c =? 0 then color else hex_loop n' s' (hex_step color c)
  | _, _ => color
  end.

Definition css_color (val : list Z) : Z := hex_loop 6 (tail val) 0.

Fixpoint css_number (val : list Z) (r : Z) : Z :=
  match val with
  | [] => r
  | c :: val' =>
      if (ch "0" <=? c) && (c <=? ch "9") then css_number val' (s32 (r * 10 + (c - ch "0"))) else r
  end.

Definition css_parse_property (style : css_properties_t) (key val : list Z) : css_properties_t :=
  let val := skip_whitespace val in
  if is_key key "background-color" || is_key key "background" then
    if hd0 val =? ch "#"
    then w_is_gradient false (w_has_background true (w_background_color (css_color val) style))
    else style
  else if is_key key "background-gradient" then
    match html_strstr val (str_bytes "#" ++ [0]) with
    | None => style
    | Some c1 =>
        let color := css_color c1 in
        let style := w_background_color color style in
        match html_strstr (tail c1) (str_bytes "#" ++ [0]) with
        | None => style
        | Some c2 =>
            let color2 := css_color c2 in
            let style := w_background_color2 color2 style in
            let style := w_has_background true style in
            let style := w_is_gradient true style in
            let style := w_is_gradient_vertical true style in
            if (color =? 0) && (color2 =? 0)
            then w_background_color2 0x00FF0000 (w_background_color 0x000000FF style)
            else style
        end
    end
  else if is_key key "color" then
    if hd0 val =? ch "#" then w_text_color (css_color val) style else style
  else if is_key key "border-radius" then w_border_radius (css_number val 0) style
  else if is_key key "padding" then w_padding (css_number val 0) style
  else if is_key key "margin" then w_margin (css_number val 0) style
  else if is_key key "hover-background-color" then
    if hd0 val =? ch "#"
    then w_has_hover_style true (w_hover_background_color (css_color val) style)
    else style
  else if is_key key "box-shadow" || is_key key "shadow" then
    match html_strstr val (str_bytes "true" ++ [0]), html_strstr val (str_bytes "1" ++ [0]) with
    | None, None => w_has_shadow false style
    | _, _ => w_shadow_offset 4 (w_has_shadow true style)
    end
  else if is_key key "shadow-offset" then w_shadow_offset (css_number val 0) style
  else style.

Fixpoint apply_to_tree_internal (cls k v : list Z) (node : html_element) : html_element :=
  let '(Element d cs) := node in
  let d := match e_class d with
           | Some (_, s) => if strcmp s cls =? 0 then w_style (css_parse_property (e_style d) k v) d else d
           | None => d
           end in
  Element d (map (apply_to_tree_internal cls k v) cs).

(** ** The parser *)

Section parser.
Context {H : Type} `{HeapAlloc H}.

Definition sizeof_html_element : Z := 104.
Definition COLOR_WHITE : Z := 0x00FFFFFF.

Definition default_style : css_properties_t :=
  mk_css 0 0 false false true COLOR_WHITE 0x00FFFFFF false 0 0 0 (-1) (-1) false 0 0x00000000.

Definition create_element (type : html_element_type_t) (h : H) : option html_data * H :=
  let '(elem, h) := halloc h sizeof_html_element in
  if elem =? 0 then (None, h)
  else (Some (mk_data elem type None None None default_style 0 0 0 0 false), h).

(** [kmalloc(strlen(s) + 1)] and the copy into the block. *)
Definition new_string (s : list Z) (h : H) : option hstring * H :=
  let '(p, h) := halloc h (strlen s + 1) in
  if p =? 0 then (None, h)
  else (Some (p, html_strcpy (replicate (Z.to_nat (strlen s + 1)) 0) 0 s), h).

Definition apply_attribute (name value : list Z) (d : html_data) (h : H) : html_data * H :=
  if is_key name "class" then let '(s, h) := new_string value h in (w_class s d, h)
  else if is_key name "id" then let '(s, h) := new_string value h in (w_id s d, h)
  else (d, h).

(** The attributes up to the [>]; every turn consumes characters. *)
Fixpoint parse_attributes (fuel : nat) (p : list Z) (d : html_data) (h : H) : html_data * list Z * H :=
  match fuel with
  | O => (d, p, h)
  | S fuel' =>
      if (hd0 p =? 0) || (hd0 p =? ch ">") then (d, p, h)
      else
        let p := skip_whitespace p in
        if hd0 p =? ch ">" then (d, p, h)
        else
          let '(name, p) := copy_until (λ c, (c =? ch "=") || (c =? ch " ") || (c =? ch ">")) 31 p in
          if hd0 p =? ch "=" then
            let p := tail p in
            let p := if hd0 p =? 34 then tail p else p in
            let '(value, p) := copy_until (λ c, (c =? 34) || (c =? ch ">")) 127 p in
            let p := if hd0 p =? 34 then tail p else p in
            let '(d, h) := apply_attribute (name ++ [0]) (value ++ [0]) d h in
            parse_attributes fuel' p d h
          else parse_attributes fuel' p d h
  end.

(** The open elements, innermost first, with their children so far, and the children of the
    wrapper on the stack. *)
Record parse_state := mk_parse {
  ps_heap : H;
  ps_open : list (html_data * list html_element);
  ps_top : list html_element }.

(** [e] becomes the last child of [current]. *)
Definition add_child (e : html_element) (st : parse_state) : parse_state :=
  match ps_open st with
  | [] => mk_parse (ps_heap st) [] (ps_top st ++ [e])
  | (d, cs) :: fs => mk_parse (ps_heap st) ((d, cs ++ [e]) :: fs) (ps_top st)
  end.

(** [if (current->parent) current = current->parent;] *)
Definition close_current (st : parse_state) : parse_state :=
  match ps_open st with
  | [] => st
  | (d, cs) :: fs => add_child (Element d cs) (mk_parse (ps_heap st) fs (ps_top st))
  end.

Fixpoint close_all (n : nat) (st : parse_state) : parse_state :=
  match n with
  | O => st
  | S n' => close_all n' (close_current st)
  end.

Definition tag_element (tag_name : list Z) (h : H) : option html_data * H :=
  if is_key tag_name "div" then create_element HTML_ELEMENT_DIV h
  else if is_key tag_name "span" then create_element HTML_ELEMENT_SPAN h
  else if is_key tag_name "button" then create_element HTML_ELEMENT_BUTTON h
  else (None, h).

(** A tag, with [p] behind the [<]. *)
Definition parse_tag (p : list Z) (st : parse_state) : list Z * parse_state :=
  if hd0 p =? ch "/" then
    let st := close_current st in
    let p := skip_until (λ c, c =? ch ">") p in
    (if hd0 p =? ch ">" then tail p else p, st)
  else
    let '(tag_name, p) := copy_until (λ c, (c =? ch " ") || (c =? ch ">")) 31 p in
    let '(elem, h) := tag_element (tag_name ++ [0]) (ps_heap st) in
    match elem with
    | None => (p, mk_parse h (ps_open st) (ps_top st))
    | Some d =>
        let '(d, p, h) := parse_attributes (S (length p)) p d h in
        let p := if hd0 p =? ch ">" then tail p else p in
        (p, mk_parse h ((d, []) :: ps_open st) (ps_top st))
    end.

Definition parse_text (p : list Z) (st : parse_state) : list Z * parse_state :=
  let '(text, p) := copy_until (λ c, c =? ch "<") 255 p in
  let trimmed := skip_whitespace (text ++ [0]) in
  if hd0 trimmed =? 0 then (p, st)
  else
    let '(elem, h) := create_element HTML_ELEMENT_TEXT (ps_heap st) in
    match elem with
    | None => (p, mk_parse h (ps_open st) (ps_top st))
    | Some d =>
        let '(s, h) := new_string trimmed h in
        (p, add_child (Element (w_text s d) []) (mk_parse h (ps_open st) (ps_top st)))
    end.

Fixpoint parse_loop (fuel : nat) (p : list Z) (st : parse_state) : parse_state :=
  match fuel with
  | O => st
  | S fuel' =>
      if hd0 p =? 0 then st
      else
        let p := skip_whitespace p in
        if hd0 p =? 0 then st
        else if hd0 p =? ch "<"
        then let '(p, st) := parse_tag (tail p) st in parse_loop fuel' p st
        else let '(p, st) := parse_text p st in parse_loop fuel' p st
  end.

(** Every turn consumes characters, so the length of the string is enough fuel.  The result
    is the first element; the others stay behind its [next_sibling]. *)
Definition html_parse (html_string : list Z) (h : H) : option html_element * H :=
  let st := parse_loop (S (length html_string)) html_string (mk_parse h [] []) in
  let st := close_all (length (ps_open st)) st in
  (head (ps_top st), ps_heap st).

(** ** Release *)

Definition free_string (s : option hstring) (h : H) : H :=
  match s with
  | Some (p, _) => hfree h p
  | None => h
  end.

Fixpoint html_free (root : html_element) (h : H) : H :=
  let '(Element d cs) := root in
  let h := fold_left (λ h c, html_free c h) cs h in
  let h := free_string (e_text d) h in
  let h := free_string (e_class d) h in
  let h := free_string (e_id d) h in
  hfree h (e_addr d).
End parser.

(** ** Styles *)

Definition css_parse_inline_style (element : html_element) (style_string : list Z) : html_element :=
  match html_strstr style_string (str_bytes "background:" ++ [0]),
        html_strstr style_string (str_bytes "#" ++ [0]) with
  | Some _, Some _ =>
      Element (w_style (w_background_color 0x00CCCCCC (e_style (data element))) (data element)) (children element)
  | _, _ => element
  end.

(** The built-in styles of the menus. *)
Definition class_style (class_name : list Z) (s : css_properties_t) : css_properties_t :=
  if is_key class_name "menu-item" then
    w_border_radius 4 (w_padding 8 (w_text_color COLOR_WHITE
      (w_has_background true (w_background_color 0x00333333 s))))
  else if is_key class_name "start-menu" then
    w_shadow_color 0x00000000 (w_shadow_offset 4 (w_has_shadow true (w_border_radius 8
      (w_padding 10 (w_has_background true (w_background_color 0x0016213e s))))))
  else if is_key class_name "menu-container" then
    w_shadow_offset 6 (w_has_shadow true (w_border_radius 8 (w_padding 10 (w_has_background true
      (w_is_gradient_vertical true (w_is_gradient true (w_background_color2 0x000f3460
        (w_background_color 0x0016213e s))))))))
  else if is_key class_name "header" then
    w_margin 2 (w_padding 5 (w_text_color 0x0087CEEB s))
  else if is_key class_name "item" then
    w_has_hover_style true (w_hover_background_color 0x000f3460 (w_border_radius 4 (w_margin 2
      (w_padding 8 (w_text_color COLOR_WHITE (w_has_background true (w_background_color 0x001a1a2e s)))))))
  else if is_key class_name "ctx-menu" then
    w_shadow_offset 4 (w_has_shadow true (w_border_radius 4 (w_padding 5
      (w_has_background true (w_background_color 0x00FFFFFF s)))))
  else if is_key class_name "mi" then
    w_has_hover_style true (w_hover_background_color 0x00e0e0e0 (w_border_radius 2 (w_margin 1
      (w_padding 5 (w_text_color 0x00333333 s)))))
  else s.

(** An element without a class ends the walk: its children are not visited. *)
Fixpoint css_apply_class_styles (element : html_element) : html_element :=
  let '(Element d cs) := element in
  match e_class d with
  | None => element
  | Some (_, s) => Element (w_style (class_style s (e_style d)) d) (map css_apply_class_styles cs)
  end.

(** The end of a rule that is skipped: the braces are counted. *)
Fixpoint skip_block (p : list Z) (depth : nat) : list Z :=
  match p with
  | [] => []
  | c :: p' =>
      match depth with
      | O => p
      | S depth' =>
          if c =? 0 then p
          else if c =? ch "{" then skip_block p' (S depth)
          else if c =? ch "}" then skip_block p' depth'
          else skip_block p' depth
      end
  end.

Definition skip_rule (p : list Z) : list Z :=
  let p := skip_until (λ c, c =? ch "{") p in
  if hd0 p =? ch "{" then skip_block (tail p) 1
  else if nz (hd0 p) then tail p else p.

(** Spaces at the end become terminators. *)
Fixpoint trim_end (klen : nat) (key : list Z) : list Z :=
  match klen with
  | O => key
  | S k => if is_space (key.[Z.of_nat k]) then trim_end k (key.[Z.of_nat k <- 0]) else key
  end.

Definition trimmed (s : list Z) : list Z := trim_end (Z.to_nat (strlen (s ++ [0]))) (s ++ [0]).

(** The declarations of a rule. *)
Fixpoint css_declarations (fuel : nat) (cls p : list Z) (root : html_element) : list Z * html_element :=
  match fuel with
  | O => (p, root)
  | S fuel' =>
      if (hd0 p =? 0) || (hd0 p =? ch "}") then (p, root)
      else
        let p := skip_whitespace p in
        if (hd0 p =? ch "}") || (hd0 p =? 0) then (p, root)
        else
          let '(key, p) := copy_until (λ c, c =? ch ":") 63 p in
          let key := trimmed key in
          if hd0 p =? ch ":" then
            let p := skip_whitespace (tail p) in
            let '(val, p) := copy_until (λ c, (c =? ch ";") || (c =? ch "}")) 63 p in
            let val := trimmed val in
            let p := if hd0 p =? ch ";" then tail p else p in
            css_declarations fuel' cls p (apply_to_tree_internal cls key val root)
          else
            let p := skip_until (λ c, (c =? ch ";") || (c =? ch "}")) p in
            let p := if hd0 p =? ch ";" then tail p else p in
            css_declarations fuel' cls p root
  end.

Fixpoint css_rules (fuel : nat) (p : list Z) (root : html_element) : html_element :=
  match fuel with
  | O => root
  | S fuel' =>
      if hd0 p =? 0 then root
      else
        let p := skip_whitespace p in
        if hd0 p =? 0 then root
        else if negb (hd0 p =? ch ".") then css_rules fuel' (skip_rule p) root
        else
          let '(cls, p) := copy_until (λ c, (c =? ch " ") || (c =? ch "{")) 63 (tail p) in
          let p := skip_whitespace p in
          if hd0 p =? ch "{" then
            let '(p, root) := css_declarations (S (length p)) (cls ++ [0]) (tail p) root in
            let p := if hd0 p =? ch "}" then tail p else p in
            css_rules fuel' p root
          else css_rules fuel' p root
  end.

Definition css_apply_styles (root : html_element) (css_string : list Z) : html_element :=
  css_rules (S (length css_string)) css_string root.

(** ** Layout, drawing and the pointer *)

(** The loop over the children: one below the other, from [y] on. *)
Definition stack_children (layout : Z → Z → html_element → html_element) (pad : Z) :=
  fix stack (cs : list html_element) (y : Z) : list html_element * Z :=
    match cs with
    | [] => ([], y)
    | c :: cs' =>
        let c := layout pad y c in
        let y := y + (computed_height (data c) + margin (e_style (data c))) in
        let '(r, y) := stack cs' y in (c :: r, y)
    end.

(** The element at the position its parent gave it, laid out. *)
Fixpoint layout_at (parent_width x y : Z) (root : html_element) : html_element :=
  let '(Element d cs) := root in
  let d := w_pos x y d in
  let st := e_style d in
  let w := if 0 <? width st then width st else parent_width - margin st * 2 in
  let h := if 0 <? height st then height st
           else match e_type d, e_text d with
                | HTML_ELEMENT_TEXT, Some _ => 20
                | _, _ => 30
                end in
  let w := w + padding st * 2 in
  let h := h + padding st * 2 in
  let '(cs, y) := stack_children (layout_at (w - padding st * 2)) (padding st) cs (padding st) in
  let h := if h <? y then y + padding st else h in
  Element (w_size w h d) cs.

Definition html_layout (root : html_element) (parent_width : Z) : html_element :=
  layout_at parent_width (e_x (data root)) (e_y (data root)) root.

(** The shadow and the background of an element. *)
Definition draw_box (d : html_data) (x y : Z) (g : gfx) : gfx :=
  let st := e_style d in
  let w := computed_width d in
  let h := computed_height d in
  let g :=
    if has_shadow st then
      let shadow_x := x + shadow_offset st in
      let shadow_y := y + shadow_offset st in
      if 0 <? border_radius st
      then gfx_draw_rounded_rect g shadow_x shadow_y w h (border_radius st) 0x00404040
      else gfx_draw_rect g shadow_x shadow_y w h 0x00404040
    else g in
  let hover := is_hovered d && has_hover_style st in
  let bg_color := if hover then hover_background_color st else background_color st in
  let draw_bg := has_background st || is_gradient st || hover in
  if draw_bg then
    if is_gradient st && negb hover then
      gfx_draw_gradient_rect g x y w h (background_color st) (background_color2 st) (is_gradient_vertical st)
    else if 0 <? border_radius st then gfx_draw_rounded_rect g x y w h (border_radius st) bg_color
    else gfx_draw_rect g x y w h bg_color
  else g.

(** What a parent's colour makes of the colour of a child. *)
Definition inherit_color (color : Z) (d : html_data) : html_data :=
  if bool_decide (e_type d = HTML_ELEMENT_TEXT) && negb (color =? COLOR_WHITE)
  then w_style (w_text_color color (e_style d)) d else d.

(** The loop over the children of an element at [x], [y]; [render] gets the data the parent
    changed. *)
Definition render_children (render : (html_data → html_data) → Z → Z → html_element → gfx → html_element * gfx)
    (color x y : Z) :=
  fix loop (cs : list html_element) (g : gfx) : list html_element * gfx :=
    match cs with
    | [] => ([], g)
    | c :: cs' =>
        let '(c, g) := render (inherit_color color) (x + e_x (data c)) (y + e_y (data c)) c g in
        let '(r, g) := loop cs' g in (c :: r, g)
    end.

Fixpoint render_at (f : html_data → html_data) (x y : Z) (root : html_element) (g : gfx) : html_element * gfx :=
  let '(Element d cs) := root in
  let d := w_pos x y (f d) in
  let g := draw_box d x y g in
  let g := match e_type d, e_text d with
           | HTML_ELEMENT_TEXT, Some (_, s) => gfx_puts g x y s (text_color (e_style d))
           | _, _ => g
           end in
  let '(cs, g) := render_children render_at (text_color (e_style d)) x y cs g in
  (Element d cs, g).

Definition html_render (root : html_element) (x y : Z) (g : gfx) : html_element * gfx :=
  render_at (λ d, d) x y root g.

Fixpoint html_handle_mouse (mouse_x mouse_y : Z) (root : html_element) : html_element :=
  let '(Element d cs) := root in
  let inside := (e_x d <=? mouse_x) && (mouse_x <? e_x d + computed_width d) &&
                (e_y d <=? mouse_y) && (mouse_y <? e_y d + computed_height d) in
  Element (w_hovered inside d) (map (html_handle_mouse mouse_x mouse_y) cs).
