(* ===== verification/HtmlDoc.v ===== *)
(** * core/gui/htmlui.c: documents, memory, styles and layout

    The reference is a document: a tree of texts and tagged nodes, with its markup
    ([markup]).  Parsing the markup of a document gives an element tree that shows the
    document, in blocks of the heap of its own, and [html_free] gives back exactly these
    blocks.  Style sheets, given as rules, act as the rules in order; layout stacks the
    children of an element without overlap; and drawing a tree twice without a layout in
    between moves its children. *)

From Stdlib Require Import Ascii String.
From S2P Require Import Prelude KString Kheap Format Gfx Html.

(** ** Documents *)

Inductive doc :=
| DText (s : list Z)
| DNode (type : html_element_type_t) (class id : option (list Z)) (cs : list doc).

Section doc_induction.
Variable P : doc → Prop.
Hypothesis P_text : ∀ s, P (DText s).
Hypothesis P_node : ∀ t cl id cs, Forall P cs → P (DNode t cl id cs).

Fixpoint doc_ind' (d : doc) : P d :=
  match d with
  | DText s => P_text s
  | DNode t cl id cs =>
      P_node t cl id cs
        ((fix all (cs : list doc) : Forall P cs :=
            match cs with
            | [] => Forall_nil_2 P
            | c :: cs' => Forall_cons_2 P c cs' (doc_ind' c) (all cs')
            end) cs)
  end.
End doc_induction.

Section element_induction.
Variable P : html_element → Prop.
Hypothesis P_element : ∀ d cs, Forall P cs → P (Element d cs).

Fixpoint html_ind' (e : html_element) : P e :=
  let '(Element d cs) := e in
  P_element d cs
    ((fix all (cs : list html_element) : Forall P cs :=
        match cs with
        | [] => Forall_nil_2 P
        | c :: cs' => Forall_cons_2 P c cs' (html_ind' c) (all cs')
        end) cs).
End element_induction.

Definition tag (t : html_element_type_t) : list Z :=
  match t with
  | HTML_ELEMENT_DIV => str_bytes "div"
  | HTML_ELEMENT_SPAN => str_bytes "span"
  | HTML_ELEMENT_BUTTON => str_bytes "button"
  | HTML_ELEMENT_TEXT => []
  end.

Definition print_attr (name : list Z) (v : option (list Z)) : list Z :=
  match v with
  | Some s => ch " " :: name ++ ch "=" :: 34 :: s ++ [34]
  | None => []
  end.

Fixpoint markup (d : doc) : list Z :=
  match d with
  | DText s => s
  | DNode t cl id cs =>
      ch "<" :: tag t ++ print_attr (str_bytes "class") cl ++ print_attr (str_bytes "id") id ++ ch ">" ::
      concat (map markup cs) ++ ch "<" :: ch "/" :: tag t ++ [ch ">"]
  end.

(** Texts and attribute values that the markup can hold and the buffers of the parser too. *)
Definition text_ok (s : list Z) : bool :=
  negb (is_space (hd0 s)) && negb (hd0 s =? 0) && forallb (λ c, negb (c =? 0) && negb (c =? ch "<")) s &&
  (alen s <=? 255).

Definition attr_ok (v : option (list Z)) : bool :=
  match v with
  | Some s => forallb (λ c, negb (c =? 0) && negb ((c =? 34) || (c =? ch ">"))) s && (alen s <=? 127)
  | None => true
  end.

(** Two texts in a row would be one. *)
Fixpoint texts_apart (cs : list doc) : bool :=
  match cs with
  | DText _ :: ((DText _ :: _) as cs') => false
  | _ :: cs' => texts_apart cs'
  | [] => true
  end.

Fixpoint doc_ok (d : doc) : bool :=
  match d with
  | DText s => text_ok s
  | DNode t cl id cs =>
      negb (bool_decide (t = HTML_ELEMENT_TEXT)) && attr_ok cl && attr_ok id && texts_apart cs && forallb doc_ok cs
  end.

(** The document an element tree shows. *)
Definition shown (s : option hstring) : option (list Z) := (λ x : hstring, cstr x.2) <$> s.

Fixpoint erase (e : html_element) : doc :=
  let '(Element d cs) := e in
  match e_type d with
  | HTML_ELEMENT_TEXT => DText (default [] (shown (e_text d)))
  | t => DNode t (shown (e_class d)) (shown (e_id d)) (map erase cs)
  end.

(** The blocks of the heap a tree lives in, the youngest first. *)
Definition block (s : option hstring) : list Z := match s with Some (p, _) => [p] | None => [] end.

Fixpoint blocks (e : html_element) : list Z :=
  let '(Element d cs) := e in
  concat (rev (map blocks cs)) ++ block (e_id d) ++ block (e_class d) ++ block (e_text d) ++ [e_addr d].

(** The number of blocks a document needs. *)
Definition one {A} (v : option A) : nat := match v with Some _ => 1 | None => 0 end.

Fixpoint weight (d : doc) : nat :=
  match d with
  | DText _ => 2
  | DNode _ cl id cs => S (one cl + one id) + list_sum (map weight cs)
  end.

Section heap.
Context {H : Type} `{HeapAlloc H}.

(** [n] more allocations of the sizes the parser asks for will succeed. *)
Fixpoint roomy (n : nat) (h : H) : Prop :=
  match n with
  | O => True
  | S n' => ∀ size, 0 <= size <= 256 → (halloc h size).1 ≠ 0 ∧ roomy n' (halloc h size).2
  end.

End heap.

(** ** The scanning loops *)

Lemma hd0_cons c (l : list Z) : hd0 (c :: l) = c.
Proof. apply aget_cons_0. Qed.

Lemma copy_until_spec stop max s r :
  forallb (λ c, negb (c =? 0) && negb (stop c)) s = true → (length s <= max)%nat →
  (hd0 r =? 0) || stop (hd0 r) = true → copy_until stop max (s ++ r) = (s, r).
Proof.
  revert max. induction s as [|c s IH]; intros max Hs Hl Hr.
  - cbn [app]. destruct max as [|max]; [by destruct r|]. destruct r as [|c r]; [done|]. cbn [copy_until].
    rewrite hd0_cons in Hr. by rewrite Hr.
  - cbn [length] in Hl. destruct max as [|max]; [lia|]. cbn [app copy_until forallb] in *.
    apply andb_true_iff in Hs as [Hc Hs]. destruct (c =? 0); [done|]. destruct (stop c); [done|]. cbn [orb].
    rewrite IH; [done|done|lia|done].
Qed.

Lemma skip_until_spec stop s r :
  forallb (λ c, negb (c =? 0) && negb (stop c)) s = true →
  (hd0 r =? 0) || stop (hd0 r) = true → skip_until stop (s ++ r) = r.
Proof.
  intros Hs Hr. induction s as [|c s IH]; cbn [app].
  - destruct r as [|c r]; [done|]. cbn [skip_until]. rewrite hd0_cons in Hr. by rewrite Hr.
  - cbn [skip_until forallb] in *. apply andb_true_iff in Hs as [Hc Hs].
    destruct (c =? 0); [done|]. destruct (stop c); [done|]. by apply IH.
Qed.

Lemma skip_whitespace_id p : is_space (hd0 p) = false → skip_whitespace p = p.
Proof. destruct p as [|c p]; [done|]. rewrite hd0_cons. cbn [skip_whitespace]. by intros ->. Qed.

Lemma html_strcpy_strcpy dest d src : html_strcpy dest d src = strcpy dest d src.
Proof. revert dest d. induction src as [|c src IH]; intros dest d; [done|]. cbn. destruct (nz c); [apply IH|done]. Qed.

Lemma html_strcpy_block s n :
  Forall (λ c, c ≠ 0) s → Z.of_nat n = alen s + 1 → html_strcpy (replicate n 0) 0 (s ++ [0]) = s ++ [0].
Proof.
  intros Hs Hn. rewrite html_strcpy_strcpy, strcpy_copies; rewrite ?strlen_cstr, ?cstr_app_0 by done.
  - apply splice_full. rewrite alen_app, alen_replicate. done.
  - lia.
  - rewrite alen_replicate. lia.
Qed.

(** ** Parsing a document *)

Section parse.
Context {H : Type} `{HeapAllocLaws H holds}.
Implicit Types (h : H) (st : parse_state (H := H)) (L : list Z).

(** An allocation that succeeds: its address, a heap with room for one block less. *)
Lemma halloc_roomy h L n size :
  holds h L → roomy (S n) h → 0 <= size <= 256 →
  ∃ p h', halloc h size = (p, h') ∧ p =? 0 = false ∧ holds h' (p :: L) ∧ roomy n h'.
Proof.
  intros Hh Hr Hs. destruct (Hr size Hs) as [Ha Hn].
  destruct (halloc_holds (holds := holds) h L size Hh ltac:(lia)) as [[? _]|(_ & _ & Hh')]; [done|].
  destruct (halloc h size) as [p h']. cbn [fst snd] in *. exists p, h'. split_and!; [done|by apply Z.eqb_neq|done|done].
Qed.

Lemma new_string_spec h L n s :
  holds h L → roomy (S n) h → Forall (λ c, c ≠ 0) s → alen s <= 255 →
  ∃ p h', new_string (s ++ [0]) h = (Some (p, s ++ [0]), h') ∧ holds h' (p :: L) ∧ roomy n h'.
Proof.
  intros Hh Hr Hs Hl. pose proof (alen_nonneg s). unfold new_string. rewrite strlen_cstr, cstr_app_0 by done.
  destruct (halloc_roomy h L n (alen s + 1) Hh Hr ltac:(lia)) as (p & h' & -> & -> & Hh' & Hr').
  exists p, h'. rewrite html_strcpy_block; [done|done|]. rewrite Z2Nat.id; lia.
Qed.

Lemma create_element_spec t h L n :
  holds h L → roomy (S n) h →
  ∃ p h', create_element t h = (Some (mk_data p t None None None default_style 0 0 0 0 false), h') ∧
    holds h' (p :: L) ∧ roomy n h'.
Proof.
  intros Hh Hr. unfold create_element.
  destruct (halloc_roomy h L n sizeof_html_element Hh Hr ltac:(done)) as (p & h' & -> & -> & Hh' & Hr').
  by exists p, h'.
Qed.

Lemma forallb_nonzero (f : Z → bool) s :
  forallb (λ c, negb (c =? 0) && f c) s = true → Forall (λ c, c ≠ 0) s.
Proof.
  intros Hs. induction s as [|c s IH]; constructor; cbn [forallb] in Hs; apply andb_true_iff in Hs as [Hc Hs].
  - by destruct (Z.eqb_spec c 0).
  - by apply IH.
Qed.

(** One attribute. *)
Lemma parse_attribute_one fuel name v p d h :
  name = str_bytes "class" ∨ name = str_bytes "id" → attr_ok (Some v) = true →
  parse_attributes (S fuel) (print_attr name (Some v) ++ p) d h =
    let '(d, h) := apply_attribute (name ++ [0]) (v ++ [0]) d h in parse_attributes fuel p d h.
Proof.
  intros Hn Hv. cbn [attr_ok] in Hv. apply andb_true_iff in Hv as [Hv Hl]. apply Z.leb_le in Hl.
  unfold print_attr. cbn [app parse_attributes]. rewrite hd0_cons. chars.
  change (ch " " =? 0) with false. cbn [orb].
  assert (skip_whitespace (ch " " :: (name ++ ch "=" :: 34 :: v ++ [34]) ++ p) = name ++ ch "=" :: 34 :: v ++ 34 :: p) as ->.
  { destruct Hn as [-> | ->]; cbn; rewrite <-app_assoc; done. }
  assert (hd0 (name ++ ch "=" :: 34 :: v ++ 34 :: p) =? ch ">" = false) as -> by (by destruct Hn as [-> | ->]).
  rewrite copy_until_spec; [|by destruct Hn as [-> | ->]|destruct Hn as [-> | ->]; cbn; lia|by rewrite hd0_cons].
  rewrite hd0_cons. chars. cbn [tail]. rewrite hd0_cons. cbn [Z.eqb Pos.eqb tail].
  rewrite copy_until_spec; [|done|unfold alen in Hl; lia|by rewrite hd0_cons].
  rewrite hd0_cons. cbn [Z.eqb Pos.eqb tail]. done.
Qed.

Lemma parse_attributes_end fuel rest d h :
  parse_attributes fuel (ch ">" :: rest) d h = (d, ch ">" :: rest, h).
Proof. destruct fuel; [done|]. cbn [parse_attributes]. rewrite hd0_cons. done. Qed.

(** An optional attribute that [w] stores: the string it leaves and its block. *)
Lemma parse_attribute_opt (w : option hstring → html_data → html_data) name v fuel p d h L n :
  name = str_bytes "class" ∧ w = w_class ∨ name = str_bytes "id" ∧ w = w_id →
  w None d = d → attr_ok v = true → holds h L → roomy (one v + n) h →
  ∃ s h', parse_attributes (one v + fuel) (print_attr name v ++ p) d h = parse_attributes fuel p (w s d) h' ∧
    shown s = v ∧ holds h' (block s ++ L) ∧ roomy n h'.
Proof.
  intros Hw Hd Hv Hh Hr. destruct v as [v|]; [|exists None, h; cbn [one print_attr app Nat.add]; by rewrite Hd].
  pose proof Hv as Hv'. cbn [attr_ok] in Hv'. apply andb_true_iff in Hv' as [Hz Hl]. apply Z.leb_le in Hl.
  apply forallb_nonzero in Hz. destruct (new_string_spec h L n v Hh Hr Hz ltac:(lia)) as (q & h' & E & Hh' & Hr').
  exists (Some (q, v ++ [0])), h'. cbn [one Nat.add].
  rewrite parse_attribute_one by (done || (destruct Hw as [[-> _]|[-> _]]; auto)).
  assert (apply_attribute (name ++ [0]) (v ++ [0]) d h = (w (Some (q, v ++ [0])) d, h')) as ->.
  { destruct Hw as [[-> ->]|[-> ->]]; unfold apply_attribute; cbn; by rewrite E. }
  split_and!; [done| |done|done]. cbn. by rewrite cstr_app_0.
Qed.

(** The tags of the three kinds of elements. *)
Lemma tag_element_spec t h : t ≠ HTML_ELEMENT_TEXT → tag_element (tag t ++ [0]) h = create_element t h.
Proof. by destruct t. Qed.

Lemma parse_tag_open t cl id rest st L n :
  t ≠ HTML_ELEMENT_TEXT → attr_ok cl = true → attr_ok id = true → holds (ps_heap st) L →
  roomy (S (one cl + one id) + n) (ps_heap st) →
  ∃ q sc si h',
    parse_tag (tag t ++ print_attr (str_bytes "class") cl ++ print_attr (str_bytes "id") id ++ ch ">" :: rest) st =
      (rest, mk_parse h' ((mk_data q t None sc si default_style 0 0 0 0 false, []) :: ps_open st) (ps_top st)) ∧
    shown sc = cl ∧ shown si = id ∧ holds h' (block si ++ block sc ++ q :: L) ∧ roomy n h'.
Proof.
  intros Ht Hcl Hid Hh Hr. unfold parse_tag.
  set (attrs := print_attr (str_bytes "class") cl ++ print_attr (str_bytes "id") id ++ ch ">" :: rest).
  assert (hd0 (tag t ++ attrs) =? ch "/" = false) as -> by (by destruct t).
  rewrite copy_until_spec; [|by destruct t|destruct t; cbn; lia|by unfold attrs; destruct cl, id].
  rewrite tag_element_spec by done. cbn [Nat.add] in Hr.
  destruct (create_element_spec t _ L _ Hh Hr) as (q & h1 & -> & Hh1 & Hr1). rewrite <-Nat.add_assoc in Hr1.
  destruct (parse_attribute_opt w_class (str_bytes "class") cl (one id + S (length attrs - one cl - one id))
    (print_attr (str_bytes "id") id ++ ch ">" :: rest) (mk_data q t None None None default_style 0 0 0 0 false) h1 (q :: L) (one id + n))
    as (sc & h2 & E2 & Hsc & Hh2 & Hr2); [by left|done|done|done|done|].
  destruct (parse_attribute_opt w_id (str_bytes "id") id (S (length attrs - one cl - one id))
    (ch ">" :: rest) (mk_data q t None sc None default_style 0 0 0 0 false) h2 (block sc ++ q :: L) n)
    as (si & h3 & E3 & Hsi & Hh3 & Hr3); [by right|done|done|done|done|].
  exists q, sc, si, h3. split_and!; try done.
  replace (S (length attrs)) with (one cl + (one id + S (length attrs - one cl - one id)))%nat.
  2:{ assert (one cl <= length (print_attr (str_bytes "class") cl))%nat by (destruct cl; cbn; lia).
      assert (one id <= length (print_attr (str_bytes "id") id))%nat by (destruct id; cbn; lia).
      unfold attrs. rewrite !length_app. cbn [length]. lia. }
  unfold attrs at 2. rewrite E2. cbn [w_class e_addr e_type e_text e_class e_id e_style e_x e_y computed_width computed_height is_hovered].
  change (w_class sc (mk_data q t None None None default_style 0 0 0 0 false)) with (mk_data q t None sc None default_style 0 0 0 0 false).
  rewrite E3, parse_attributes_end. rewrite hd0_cons. done.
Qed.

Lemma parse_tag_close t rest st :
  t ≠ HTML_ELEMENT_TEXT → parse_tag (ch "/" :: tag t ++ ch ">" :: rest) st = (rest, close_current st).
Proof.
  intros Ht. unfold parse_tag. rewrite hd0_cons. chars.
  rewrite (skip_until_spec _ (ch "/" :: tag t) (ch ">" :: rest)); [|by destruct t|by rewrite hd0_cons].
  by rewrite hd0_cons.
Qed.

Lemma parse_text_spec s rest st L n :
  text_ok s = true → hd0 rest = 0 ∨ hd0 rest = ch "<" → holds (ps_heap st) L → roomy (2 + n) (ps_heap st) →
  ∃ q p h', parse_text (s ++ rest) st =
      (rest, add_child (Element (mk_data q HTML_ELEMENT_TEXT (Some (p, s ++ [0])) None None default_style 0 0 0 0 false) [])
               (mk_parse h' (ps_open st) (ps_top st))) ∧
    holds h' (p :: q :: L) ∧ roomy n h' ∧ Forall (λ c, c ≠ 0) s.
Proof.
  intros Hs Hr Hh Hroom. unfold text_ok in Hs. apply andb_true_iff in Hs as [Hs Hl]. apply andb_true_iff in Hs as [Hs Hf].
  apply andb_true_iff in Hs as [Hs Hc0]. apply Z.leb_le in Hl. apply negb_true_iff in Hs, Hc0.
  destruct s as [|c s]; [done|]. rewrite hd0_cons in Hs, Hc0. pose proof (forallb_nonzero _ _ Hf) as Hz.
  unfold parse_text. rewrite copy_until_spec; [|done|unfold alen in Hl; lia|by destruct Hr as [-> | ->]].
  rewrite skip_whitespace_id by done. change (hd0 ((c :: s) ++ [0]) =? 0) with (c =? 0). rewrite Hc0.
  destruct (create_element_spec HTML_ELEMENT_TEXT _ L (S n) Hh Hroom) as (q & h1 & -> & Hh1 & Hr1).
  destruct (new_string_spec h1 (q :: L) n (c :: s) Hh1 Hr1 Hz Hl) as (p & h2 & -> & Hh2 & Hr2).
  exists q, p, h2. done.
Qed.

(** The turns of the main loop a document takes. *)
Fixpoint turns (d : doc) : nat :=
  match d with
  | DText _ => 1
  | DNode _ _ _ cs => 2 + list_sum (map turns cs)
  end.

Lemma parse_loop_tag fuel p st :
  parse_loop (S fuel) (ch "<" :: p) st = let '(p, st) := parse_tag p st in parse_loop fuel p st.
Proof. done. Qed.

Lemma parse_loop_text fuel s rest st :
  text_ok s = true → parse_loop (S fuel) (s ++ rest) st = let '(p, st) := parse_text (s ++ rest) st in parse_loop fuel p st.
Proof.
  unfold text_ok. intros Hs. destruct s as [|c s]; [done|]. cbn [app parse_loop forallb] in *. rewrite !hd0_cons in *.
  destruct (is_space c) eqn:Es; [done|]. destruct (c =? 0) eqn:E0; [done|]. destruct (c =? ch "<") eqn:E1; [done|].
  cbn [skip_whitespace]. by rewrite Es, hd0_cons, E0, E1.
Qed.

(** [d] is parsed as the last child of [current], in front of what may follow it. *)
Definition parses (d : doc) : Prop :=
  doc_ok d = true → ∀ fuel rest st L n,
  match d with DText _ => hd0 rest = 0 ∨ hd0 rest = ch "<" | DNode _ _ _ _ => True end →
  holds (ps_heap st) L → roomy (weight d + n) (ps_heap st) →
  ∃ e h', erase e = d ∧ holds h' (blocks e ++ L) ∧ roomy n h' ∧
    parse_loop (turns d + fuel) (markup d ++ rest) st =
      parse_loop fuel rest (add_child e (mk_parse h' (ps_open st) (ps_top st))).

Lemma parse_docs ds : Forall parses ds → forallb doc_ok ds = true → texts_apart ds = true →
  ∀ fuel rest h d0 cs0 fs top L n, hd0 rest = ch "<" → holds h L → roomy (list_sum (map weight ds) + n) h →
  ∃ es h', map erase es = ds ∧ holds h' (concat (rev (map blocks es)) ++ L) ∧ roomy n h' ∧
    parse_loop (list_sum (map turns ds) + fuel) (concat (map markup ds) ++ rest) (mk_parse h ((d0, cs0) :: fs) top) =
      parse_loop fuel rest (mk_parse h' ((d0, cs0 ++ es) :: fs) top).
Proof.
  induction 1 as [|d ds Hd Hds IH]; intros Hok Ha fuel rest h d0 cs0 fs top L n Hrest Hh Hr.
  { exists [], h. cbn. by rewrite app_nil_r. }
  cbn [forallb map concat] in *. change (list_sum (turns d :: map turns ds)) with (turns d + list_sum (map turns ds))%nat.
  change (list_sum (weight d :: map weight ds)) with (weight d + list_sum (map weight ds))%nat in Hr.
  apply andb_true_iff in Hok as [Hokd Hok].
  assert (texts_apart ds = true) as Ha' by (destruct d; [destruct ds as [|[] ds]|]; done).
  rewrite <-!Nat.add_assoc, <-app_assoc. rewrite <-Nat.add_assoc in Hr.
  destruct (Hd Hokd (list_sum (map turns ds) + fuel)%nat (concat (map markup ds) ++ rest)
              (mk_parse h ((d0, cs0) :: fs) top) L (list_sum (map weight ds) + n)%nat) as (e & h1 & He & Hh1 & Hr1 & ->);
    [|done|done|].
  { destruct d; [|done]. right. destruct ds as [|d' ds]; [done|]. destruct d'; [done|]. done. }
  cbn [add_child ps_open ps_heap ps_top].
  destruct (IH Hok Ha' fuel rest h1 d0 (cs0 ++ [e]) fs top (blocks e ++ L) n Hrest Hh1 Hr1) as (es & h2 & Hes & Hh2 & Hr2 & ->).
  exists (e :: es), h2. cbn [map rev]. rewrite He, Hes, concat_app. cbn [concat]. rewrite app_nil_r, <-!app_assoc. done.
Qed.

Lemma print_node t cl id cs rest :
  markup (DNode t cl id cs) ++ rest =
    ch "<" :: tag t ++ print_attr (str_bytes "class") cl ++ print_attr (str_bytes "id") id ++ ch ">" ::
    concat (map markup cs) ++ ch "<" :: ch "/" :: tag t ++ ch ">" :: rest.
Proof. cbn [markup]. repeat (rewrite <-app_assoc || rewrite <-app_comm_cons). done. Qed.

Lemma parse_loop_turns t cl id cs fuel p st :
  parse_loop (turns (DNode t cl id cs) + fuel) p st = parse_loop (S (list_sum (map turns cs) + S fuel)) p st.
Proof. f_equal. cbn [turns]. lia. Qed.

Lemma doc_parses d : parses d.
Proof.
  induction d as [s|t cl id cs IH] using doc_ind'; intros Hok fuel rest st L n Hrest Hh Hr; cbn [doc_ok] in Hok.
  - cbn [turns markup Nat.add weight] in *. rewrite parse_loop_text by done.
    destruct (parse_text_spec s rest st L n Hok Hrest Hh Hr) as (q & p & h' & -> & Hh' & Hr' & Hz).
    exists (Element (mk_data q HTML_ELEMENT_TEXT (Some (p, s ++ [0])) None None default_style 0 0 0 0 false) []), h'.
    split_and!; [|done|done|done]. cbn. by rewrite cstr_app_0.
  - apply andb_true_iff in Hok as [Hok Hcs]. apply andb_true_iff in Hok as [Hok Hap].
    apply andb_true_iff in Hok as [Hok Hid]. apply andb_true_iff in Hok as [Hok Hcl]. apply negb_true_iff, bool_decide_eq_false in Hok.
    rewrite print_node, parse_loop_turns, parse_loop_tag.
    change (weight (DNode t cl id cs) + n)%nat with (S (one cl + one id) + list_sum (map weight cs) + n)%nat in Hr.
    rewrite <-Nat.add_assoc in Hr.
    destruct (parse_tag_open t cl id (concat (map markup cs) ++ ch "<" :: ch "/" :: tag t ++ ch ">" :: rest) st L
      (list_sum (map weight cs) + n) Hok)
      as (q & sc & si & h1 & -> & Hsc & Hsi & Hh1 & Hr1); [done..|].
    destruct (parse_docs cs IH Hcs Hap (S fuel) (ch "<" :: ch "/" :: tag t ++ ch ">" :: rest) h1
      (mk_data q t None sc si default_style 0 0 0 0 false) [] (ps_open st) (ps_top st) (block si ++ block sc ++ q :: L) n) as (es & h2 & Hes & Hh2 & Hr2 & E);
      [by rewrite hd0_cons|exact Hh1|exact Hr1|]. rewrite E, parse_loop_tag, parse_tag_close by done.
    exists (Element (mk_data q t None sc si default_style 0 0 0 0 false) es), h2. split_and!.
    2:{ cbn [blocks e_id e_class e_text e_addr block app]. by rewrite <-!app_assoc. }
    2-3: done.
    cbn [erase e_type e_class e_id]. rewrite Hes, Hsc, Hsi. by destruct t.
Qed.

(** ** Release *)

Lemma free_string_block x h L1 L2 : holds h (L1 ++ block x ++ L2) → holds (free_string x h) (L1 ++ L2).
Proof. destruct x as [[p s]|]; [|done]. apply hfree_holds. Qed.

Lemma free_children cs :
  Forall (λ e, ∀ h L1 L2, holds h (L1 ++ blocks e ++ L2) → holds (html_free e h) (L1 ++ L2)) cs →
  ∀ h L1 L2, holds h (L1 ++ concat (rev (map blocks cs)) ++ L2) →
  holds (fold_left (λ h c, html_free c h) cs h) (L1 ++ L2).
Proof.
  induction 1 as [|c cs Hc Hcs IH]; intros h L1 L2 Hh; [done|]. cbn [map rev fold_left] in *.
  rewrite concat_app in Hh. cbn [concat] in Hh. rewrite app_nil_r, <-!app_assoc in Hh.
  apply IH. rewrite app_assoc in Hh. apply Hc in Hh. by rewrite <-app_assoc in Hh.
Qed.

(** [html_free] gives back exactly the blocks of the tree. *)
Lemma html_free_blocks e : ∀ h L1 L2, holds h (L1 ++ blocks e ++ L2) → holds (html_free e h) (L1 ++ L2).
Proof.
  induction e as [d cs IH] using html_ind'. intros h L1 L2 Hh. cbn [blocks html_free] in *.
  rewrite <-!app_assoc in Hh. apply (free_children cs IH) in Hh.
  set (h1 := fold_left (λ h c, html_free c h) cs h) in *.
  assert (holds (free_string (e_text d) h1) (L1 ++ block (e_id d) ++ block (e_class d) ++ [e_addr d] ++ L2)) as H2.
  { pose proof (free_string_block (e_text d) h1 (L1 ++ block (e_id d) ++ block (e_class d)) ([e_addr d] ++ L2)) as F.
    rewrite <-!app_assoc in F. by apply F. }
  pose proof (free_string_block (e_class d) (free_string (e_text d) h1) (L1 ++ block (e_id d)) ([e_addr d] ++ L2)) as F.
  rewrite <-!app_assoc in F. apply F in H2. apply free_string_block in H2. by apply hfree_holds in H2.
Qed.

Lemma turns_length d : doc_ok d = true → (turns d <= length (markup d))%nat.
Proof.
  induction d as [s|t cl id cs IH] using doc_ind'; intros Hok.
  - destruct s; [done|]. cbn. lia.
  - cbn [doc_ok turns markup] in *. apply andb_true_iff in Hok as [_ Hcs].
    assert (list_sum (map turns cs) <= length (concat (map markup cs)))%nat.
    { induction IH as [|c cs Hc _ IHcs]; [done|]. cbn [map concat forallb] in *. apply andb_true_iff in Hcs as [Hok Hcs].
      change (list_sum (turns c :: map turns cs)) with (turns c + list_sum (map turns cs))%nat.
      rewrite length_app. specialize (Hc Hok). specialize (IHcs Hcs). lia. }
    cbn [length]. rewrite !length_app. cbn [length]. rewrite !length_app. cbn [length]. lia.
Qed.

(** C29: Parsing and memory: the markup of a document, in a heap with room for it, is parsed
    to an element tree that shows the same document, with its tags, classes, ids and texts;
    the tree lies in fresh blocks of the heap, and [html_free] releases these blocks and
    nothing else. *)
Theorem html_roundtrip d h L :
  doc_ok d = true → holds h L → roomy (weight d) h →
  ∃ e h', html_parse (markup d ++ [0]) h = (Some e, h') ∧ erase e = d ∧
    holds h' (blocks e ++ L) ∧ holds (html_free e h') L.
Proof.
  intros Hok Hh Hr. pose proof (turns_length d Hok) as Ht.
  destruct (doc_parses d Hok (S (length (markup d ++ [0%Z])) - turns d)%nat [0] (mk_parse h [] []) L 0%nat) as (e & h' & He & Hh' & _ & E);
    [destruct d; [by left|done]|done|by rewrite Nat.add_0_r|].
  exists e, h'. split_and!; [|done|done|by apply (html_free_blocks e h' [] L)].
  unfold html_parse. rewrite length_app in *. cbn [length] in *.
  replace (turns d + (S (length (markup d) + 1) - turns d))%nat with (S (length (markup d) + 1)) in E by lia.
  rewrite E. destruct (S (length (markup d) + 1) - turns d)%nat as [|f] eqn:Ef; [lia|]. done.
Qed.
End parse.

(** ** Style sheets *)

(** The same change of every element. *)
Fixpoint restyle (f : html_data → html_data) (e : html_element) : html_element :=
  let '(Element d cs) := e in Element (f d) (map (restyle f) cs).

(** A rule: its class and its declarations. *)
Definition rule : Type := list Z * list (list Z * list Z).

Definition print_decl (kv : list Z * list Z) : list Z := kv.1 ++ ch ":" :: kv.2 ++ [ch ";"].
Definition print_rule (r : rule) : list Z := ch "." :: r.1 ++ ch " " :: ch "{" :: concat (map print_decl r.2) ++ [ch "}"].
Definition print_sheet (rs : list rule) : list Z := concat (map print_rule rs).

(** Names and values that fit the buffers and need no trimming. *)
Definition plain (s : list Z) (p : Z → bool) : bool :=
  forallb (λ c, negb (c =? 0) && negb (is_space c) && p c) s && (alen s <=? 63).

Definition value_ok (s : list Z) : bool :=
  forallb (λ c, negb (c =? 0) && negb ((c =? ch ";") || (c =? ch "}"))) s && (alen s <=? 63) &&
  negb (is_space (hd0 s)) && negb (is_space (hd0 (rev s))).

Definition decl_ok (kv : list Z * list Z) : bool :=
  negb (hd0 kv.1 =? 0) && plain kv.1 (λ c, negb (c =? ch ":") && negb (c =? ch "}")) && value_ok kv.2.

Definition rule_ok (r : rule) : bool :=
  plain r.1 (λ c, negb (c =? ch "{")) && forallb decl_ok r.2.

(** What a style sheet does to one element: the declarations of the rules for its class, in
    order. *)
Definition declared (rs : list rule) (cls : option (list Z)) : list (list Z * list Z) :=
  concat (map (λ r : rule, if bool_decide (cls = Some r.1) then r.2 else []) rs).

Definition apply_decls (kvs : list (list Z * list Z)) (s : css_properties_t) : css_properties_t :=
  fold_left (λ s kv, css_parse_property s (kv.1 ++ [0]) (kv.2 ++ [0])) kvs s.

Definition restyled (rs : list rule) (d : html_data) : html_data :=
  w_style (apply_decls (declared rs (shown (e_class d))) (e_style d)) d.

Lemma restyle_ext f g e : (∀ d, f d = g d) → restyle f e = restyle g e.
Proof.
  intros Hfg. induction e as [d cs IH] using html_ind'. cbn [restyle]. rewrite Hfg. f_equal.
  by apply map_ext_Forall.
Qed.

Lemma restyle_compose f g e : restyle f (restyle g e) = restyle (λ d, f (g d)) e.
Proof.
  induction e as [d cs IH] using html_ind'. cbn [restyle]. f_equal. rewrite map_map. by apply map_ext_Forall.
Qed.

Lemma restyle_id e : restyle (λ d, d) e = e.
Proof.
  induction e as [d cs IH] using html_ind'. cbn [restyle]. f_equal.
  rewrite <-(map_id cs) at 2. by apply map_ext_Forall.
Qed.

(** One declaration, on one element. *)
Definition declare (cls : list Z) (kv : list Z * list Z) (d : html_data) : html_data :=
  if bool_decide (shown (e_class d) = Some cls)
  then w_style (css_parse_property (e_style d) (kv.1 ++ [0]) (kv.2 ++ [0])) d else d.

Lemma apply_to_tree_restyle cls kv e :
  Forall (λ c, c ≠ 0) cls →
  apply_to_tree_internal (cls ++ [0]) (kv.1 ++ [0]) (kv.2 ++ [0]) e = restyle (declare cls kv) e.
Proof.
  intros Hc. induction e as [d cs IH] using html_ind'. cbn [apply_to_tree_internal restyle]. f_equal.
  - unfold declare, shown. destruct (e_class d) as [[p s]|]; [|done]. cbn [fmap option_fmap option_map snd].
    pose proof (strcmp_eq s (cls ++ [0])) as E. rewrite cstr_app_0 in E by done.
    destruct (Z.eqb_spec (strcmp s (cls ++ [0])) 0) as [Hs|Hs].
    + apply E in Hs. rewrite bool_decide_true; [done|by f_equal].
    + rewrite bool_decide_false; [done|]. intros [= Hs']. by apply Hs, E.
  - by apply map_ext_Forall.
Qed.

(** The declarations of one rule, on one element. *)
Lemma declare_all cls kvs d :
  fold_left (λ d kv, declare cls kv d) kvs d =
    w_style (apply_decls (if bool_decide (shown (e_class d) = Some cls) then kvs else []) (e_style d)) d.
Proof.
  revert d. induction kvs as [|kv kvs IH]; intros d; cbn [fold_left].
  { destruct (bool_decide _); by destruct d. }
  rewrite IH. unfold declare. destruct (bool_decide (shown (e_class d) = Some cls)) eqn:E; [|by rewrite E].
  change (e_class (w_style ?s d)) with (e_class d). rewrite E. by destruct d.
Qed.

Lemma restyled_cons r rs d :
  restyled rs (fold_left (λ d kv, declare r.1 kv d) r.2 d) = restyled (r :: rs) d.
Proof.
  rewrite declare_all. unfold restyled. destruct d as [a t tx c i s x y w h b].
  unfold declared. cbn [w_style e_class e_style map concat]. unfold apply_decls. rewrite fold_left_app. done.
Qed.

Lemma trimmed_id s : Forall (λ c, c ≠ 0) s → is_space (hd0 (rev s)) = false → trimmed s = s ++ [0].
Proof.
  intros Hz Hs. unfold trimmed. rewrite strlen_cstr, cstr_app_0 by done. unfold alen. rewrite Nat2Z.id.
  destruct s as [|c s _] using rev_ind; [done|]. rewrite rev_app_distr in Hs. cbn [rev app] in Hs. rewrite hd0_cons in Hs.
  rewrite length_app, Nat.add_1_r. cbn [trim_end].
  replace (((s ++ [c]) ++ [0]).[Z.of_nat (length s)]) with c; [by rewrite Hs|].
  symmetry. apply aget_lookup; [lia|]. rewrite Nat2Z.id, <-app_assoc. by apply list_lookup_middle.
Qed.

Lemma plain_spec s p :
  plain s p = true → Forall (λ c, c ≠ 0) s ∧ is_space (hd0 (rev s)) = false ∧ is_space (hd0 s) = false ∧
    alen s <= 63 ∧ forallb (λ c, negb (c =? 0) && p c) s = true.
Proof.
  unfold plain. intros Hp. apply andb_true_iff in Hp as [Hp Hl]. apply Z.leb_le in Hl.
  assert (∀ c, c ∈ s → c ≠ 0 ∧ is_space c = false ∧ p c = true) as Hc.
  { intros c Hc. rewrite forallb_forall in Hp. apply list_elem_of_In in Hc. specialize (Hp c Hc).
    apply andb_true_iff in Hp as [Hp ?]. apply andb_true_iff in Hp as [? ?]. destruct (Z.eqb_spec c 0), (is_space c); done. }
  split_and!; [apply Forall_forall; intros c; apply Hc| | |done|].
  - destruct s as [|c s _] using rev_ind; [done|]. rewrite rev_app_distr. cbn [rev app]. rewrite hd0_cons. apply Hc. set_solver.
  - destruct s as [|c s]; [done|]. rewrite hd0_cons. apply Hc. set_solver.
  - apply forallb_forall. intros c Hin. apply list_elem_of_In in Hin. destruct (Hc c Hin) as (? & _ & ->).
    by destruct (Z.eqb_spec c 0).
Qed.

Lemma forallb_impl {A} (p q : A → bool) l : (∀ x, p x = true → q x = true) → forallb p l = true → forallb q l = true.
Proof. intros Hpq. rewrite !forallb_forall. auto. Qed.

Lemma css_declaration fuel cls kv p root :
  decl_ok kv = true →
  css_declarations (S fuel) cls (print_decl kv ++ p) root =
    css_declarations fuel cls p (apply_to_tree_internal cls (kv.1 ++ [0]) (kv.2 ++ [0]) root).
Proof.
  destruct kv as [k v]. unfold decl_ok, print_decl. cbn [fst snd]. intros Hok.
  apply andb_true_iff in Hok as [Hok Hv]. apply andb_true_iff in Hok as [Hk0 Hk].
  destruct (plain_spec _ _ Hk) as (Kz & Kr & Ks & Kl & Kc). unfold value_ok in Hv.
  apply andb_true_iff in Hv as [Hv Vr]. apply andb_true_iff in Hv as [Hv Vs]. apply andb_true_iff in Hv as [Vc Vl].
  apply Z.leb_le in Vl. apply negb_true_iff in Vr, Vs, Hk0.
  destruct k as [|c k]; [done|]. rewrite hd0_cons in Hk0, Ks.
  assert (c =? ch "}" = false) as Hb.
  { cbn [forallb] in Kc. apply andb_true_iff in Kc as [Kc _]. destruct (c =? ch "}"); [|done]. by rewrite !andb_false_r in Kc. }
  assert (((c :: k) ++ ch ":" :: v ++ [ch ";"]) ++ p = (c :: k) ++ ch ":" :: v ++ [ch ";"] ++ p) as ->.
  { repeat (rewrite <-app_assoc || rewrite <-app_comm_cons). done. }
  cbn [css_declarations].
  assert (hd0 ((c :: k) ++ ch ":" :: v ++ [ch ";"] ++ p) = c) as Hh by (cbn [app]; apply hd0_cons).
  rewrite Hh, Hk0, Hb. cbn [orb]. rewrite skip_whitespace_id by by rewrite Hh. rewrite Hh, Hk0, Hb. cbn [orb].
  rewrite copy_until_spec; [|eapply forallb_impl, Kc|unfold alen in Kl; lia|by rewrite hd0_cons].
  2:{ intros x. cbv beta. rewrite !andb_true_iff. tauto. }
  rewrite hd0_cons. chars. cbn [tail]. rewrite trimmed_id by done.
  rewrite skip_whitespace_id.
  2:{ destruct v; [done|]. cbn [app]. rewrite hd0_cons in Vs |- *. done. }
  rewrite copy_until_spec; [|done|unfold alen in Vl; lia|by cbn [app]; rewrite hd0_cons].
  cbn [app]. rewrite hd0_cons. chars. rewrite trimmed_id; [done| |done].
  exact (forallb_nonzero (λ c, negb ((c =? ch ";") || (c =? ch "}"))) v Vc).
Qed.

Lemma css_declarations_spec kvs : ∀ fuel cls rest root,
  forallb decl_ok kvs = true → (length kvs < fuel)%nat → Forall (λ c, c ≠ 0) cls →
  css_declarations fuel (cls ++ [0]) (concat (map print_decl kvs) ++ ch "}" :: rest) root =
    (ch "}" :: rest, restyle (λ d, fold_left (λ d kv, declare cls kv d) kvs d) root).
Proof.
  induction kvs as [|kv kvs IH]; intros fuel cls rest root Hok Hf Hc; (destruct fuel as [|fuel]; [cbn in Hf; lia|]).
  - cbn [map concat app css_declarations fold_left]. rewrite hd0_cons, restyle_id. done.
  - cbn [map concat forallb] in *. apply andb_true_iff in Hok as [Hkv Hok]. rewrite <-app_assoc, css_declaration by done.
    rewrite IH by (done || (cbn in Hf; lia)). rewrite apply_to_tree_restyle, restyle_compose by done. done.
Qed.

Lemma decls_length kvs : (length kvs <= length (concat (map print_decl kvs)))%nat.
Proof. induction kvs as [|kv kvs IH]; [done|]. cbn [map concat length]. unfold print_decl at 1. rewrite !length_app. cbn [length]. lia. Qed.

Lemma css_rule fuel r p root :
  rule_ok r = true →
  css_rules (S fuel) (print_rule r ++ p) root =
    css_rules fuel p (restyle (λ d, fold_left (λ d kv, declare r.1 kv d) r.2 d) root).
Proof.
  destruct r as [cls kvs]. unfold rule_ok, print_rule. cbn [fst snd]. intros Hok. apply andb_true_iff in Hok as [Hc Hk].
  unfold plain in Hc. pose proof Hc as Hc'. apply andb_true_iff in Hc' as [Hcf _].
  destruct (plain_spec _ _ Hc) as (Cz & _ & _ & Cl & Cc).
  repeat (rewrite <-app_comm_cons || rewrite <-app_assoc). cbn [css_rules]. rewrite hd0_cons.
  change (ch "." =? 0) with false. cbv iota. rewrite skip_whitespace_id by by rewrite hd0_cons. rewrite hd0_cons. chars.
  change (ch "." =? 0) with false. cbn [negb tail].
  rewrite copy_until_spec; [|eapply forallb_impl, Hcf|unfold alen in Cl; lia|by rewrite hd0_cons].
  2:{ intros x. cbv beta. unfold is_space. destruct (x =? ch " "), (x =? 9), (x =? 10), (x =? 13), (x =? ch "{"), (x =? 0); done. }
  change (skip_whitespace (ch " " :: ch "{" :: concat (map print_decl kvs) ++ ch "}" :: [] ++ p))
    with (ch "{" :: concat (map print_decl kvs) ++ ch "}" :: p).
  rewrite hd0_cons. chars. cbn [tail app].
  rewrite css_declarations_spec; [|done| |done].
  - rewrite hd0_cons. chars. done.
  - cbn [length]. rewrite length_app. pose proof (decls_length kvs). lia.
Qed.

(** A style sheet acts on every element of the tree by itself: on its style by the
    declarations of the rules for its class, in the order of the sheet, and on nothing
    else. *)
Theorem css_applies rs root :
  forallb rule_ok rs = true → css_apply_styles root (print_sheet rs ++ [0]) = restyle (restyled rs) root.
Proof.
  intros Hok. unfold css_apply_styles.
  assert (length rs <= length (print_sheet rs))%nat as Hl.
  { clear. unfold print_sheet. induction rs as [|r rs IH]; [done|]. cbn [map concat length]. rewrite length_app.
    unfold print_rule at 1. cbn [length]. lia. }
  assert (∀ fuel root, (length rs < fuel)%nat →
    css_rules fuel (print_sheet rs ++ [0]) root = restyle (restyled rs) root) as Hr; [|apply Hr; rewrite length_app; cbn [length]; lia].
  clear Hl root. induction rs as [|r rs IH]; intros fuel root Hf; (destruct fuel as [|fuel]; [cbn in Hf; lia|]).
  - cbn. rewrite (restyle_ext _ (λ d, d)); [by rewrite restyle_id|]. intros d. by destruct d.
  - cbn [forallb] in Hok. apply andb_true_iff in Hok as [Hr Hok]. unfold print_sheet. cbn [map concat].
    rewrite <-app_assoc, css_rule by done. fold (print_sheet rs). rewrite IH by (done || (cbn in Hf; lia)).
    rewrite restyle_compose. apply restyle_ext. intros d. apply restyled_cons.
Qed.

(** ** Layout *)

(** Below each element the children stand inside its height, one below the other. *)
Inductive tidy : html_element → Prop :=
| tidy_element d cs :
    (∀ i c, cs !! i = Some c →
       0 <= e_y (data c) ∧ e_y (data c) + computed_height (data c) <= computed_height d) →
    (∀ i j c c', cs !! i = Some c → cs !! j = Some c' → (i < j)%nat →
       e_y (data c) + computed_height (data c) <= e_y (data c')) →
    Forall tidy cs → tidy (Element d cs).

Inductive all_nodes (P : html_data → Prop) : html_element → Prop :=
| all_element d cs : P d → Forall (all_nodes P) cs → all_nodes P (Element d cs).

(** Styles as the style sheets can give them: no negative spaces. *)
Definition spaced (d : html_data) : Prop := 0 <= padding (e_style d) ∧ 0 <= margin (e_style d).

Lemma layout_at_data pw x y e :
  e_y (data (layout_at pw x y e)) = y ∧ e_style (data (layout_at pw x y e)) = e_style (data e).
Proof.
  destruct e as [d cs]. cbn [layout_at]. destruct (stack_children _ _ _ _) as [cs' y']. by destruct d.
Qed.

Lemma stack_spec layout pad cs :
  Forall (λ c, ∀ y, tidy (layout pad y c) ∧ e_y (data (layout pad y c)) = y ∧
            0 <= computed_height (data (layout pad y c)) ∧ 0 <= margin (e_style (data (layout pad y c)))) cs →
  ∀ y, let '(r, y') := stack_children layout pad cs y in
  y <= y' ∧ Forall tidy r ∧
  (∀ i c, r !! i = Some c → y <= e_y (data c) ∧ e_y (data c) + computed_height (data c) <= y') ∧
  (∀ i j c c', r !! i = Some c → r !! j = Some c' → (i < j)%nat →
     e_y (data c) + computed_height (data c) <= e_y (data c')).
Proof.
  induction 1 as [|c cs Hc Hcs IH]; intros y; cbn [stack_children]; [split_and!; [lia|constructor|done|done]|].
  destruct (Hc y) as (Ht & Hy & Hh & Hm). set (c' := layout pad y c) in *.
  specialize (IH (y + (computed_height (data c') + margin (e_style (data c'))))).
  change ((fix stack (cs : list html_element) (y : Z) : list html_element * Z := _) cs) with (stack_children layout pad cs).
  destruct (stack_children layout pad cs _) as [r y']. destruct IH as (Hle & Htr & Hin & Hpair).
  split_and!; [lia|by constructor| |].
  - intros [|i] e; cbn; [intros [= <-]; lia|]. intros He. specialize (Hin i e He). lia.
  - intros [|i] [|j] e e'; cbn; intros E1 E2 Hij; [lia| |lia|apply (Hpair i j e e'); [done|done|lia]].
    injection E1 as <-. specialize (Hin j e' E2). lia.
Qed.

(** Layout: for styles without negative spaces, below every element of the tree the
    children stand one below the other without overlap and within the height computed for
    their parent. *)
Theorem html_layout_tidy e parent_width : all_nodes spaced e → tidy (html_layout e parent_width).
Proof.
  unfold html_layout. generalize (e_x (data e)), (e_y (data e)). intros x y. revert parent_width x y.
  induction e as [d cs IH] using html_ind'. intros pw x y Hs. inversion Hs as [? ? [Hp Hm] Hcs]; subst.
  cbn [layout_at]. change (e_style (w_pos x y d)) with (e_style d).
  match goal with |- context [stack_children ?f _ _ _] => pose proof (stack_spec f (padding (e_style d)) cs) as S end.
  match type of S with ?P → _ => assert P as F end.
  { rewrite Forall_forall in IH, Hcs |- *. intros c Hc y'. specialize (Hcs c Hc). split; [by apply IH|].
    match goal with |- context [layout_at ?a ?b ?c' c] => destruct (layout_at_data a b c' c) as [-> ->] end.
    destruct c as [dc cc]. inversion Hcs as [? ? [Hpc Hmc] _]; subst. split_and!; [done| |done].
    cbn [layout_at]. destruct (stack_children _ _ _ _) as [r yr]. cbn [data w_size computed_height w_pos e_style e_type e_text].
    match goal with |- context [if ?h <? yr then _ else _] => assert (0 <= h) as Hh; [|destruct (Z.ltb_spec h yr); lia] end.
    destruct (Z.ltb_spec 0 (height (e_style dc))); [lia|]. repeat case_match; lia. }
  specialize (S F (padding (e_style d))). destruct (stack_children _ _ _ _) as [r y']. destruct S as (Hle & Ht & Hin & Hpair).
  constructor; [|done|done]. intros i c Hc. specialize (Hin i c Hc). cbn [computed_height w_size].
  match goal with |- context [if ?h <? y' then _ else _] => destruct (Z.ltb_spec h y'); lia end.
Qed.

(** ** Drawing twice *)

Lemma render_at_x f x y e g : e_x (data (render_at f x y e g).1) = x ∧ e_y (data (render_at f x y e g).1) = y.
Proof. destruct e as [d cs]. cbn [render_at]. by destruct (render_children _ _ _ _ _ _) as [cs' g']. Qed.

Lemma render_positions color x y cs : ∀ g,
  map (λ c, e_x (data c)) (render_children render_at color x y cs g).1 = map (λ c, x + e_x (data c)) cs.
Proof.
  induction cs as [|c cs IH]; intros g; [done|]. cbn [render_children map].
  change ((fix loop (cs : list html_element) (g : gfx) : list html_element * gfx := _) cs)
    with (render_children render_at color x y cs).
  pose proof (render_at_x (inherit_color color) (x + e_x (data c)) (y + e_y (data c)) c g) as [E _].
  destruct (render_at _ _ _ c g) as [c' g']. specialize (IH g').
  destruct (render_children render_at color x y cs g') as [r g'']. cbn [fst snd map] in *. by rewrite E, IH.
Qed.

(** Drawing turns the offsets of the children into positions on the screen, and the next
    drawing takes these for offsets: without a layout in between the children move by the
    position of their parent each time. *)
Lemma html_render_drifts d cs x y g g' :
  let once := (html_render (Element d cs) x y g).1 in
  let twice := (html_render once x y g').1 in
  map (λ c, e_x (data c)) (children once) = map (λ c, x + e_x (data c)) cs ∧
  map (λ c, e_x (data c)) (children twice) = map (λ c, x + (x + e_x (data c))) cs.
Proof.
  cbv zeta. unfold html_render. cbn [render_at].
  match goal with |- context [render_children ?r ?c x y cs ?g0] => pose proof (render_positions c x y cs g0) as E;
    destruct (render_children r c x y cs g0) as [cs1 g1] end. cbn [fst render_at].
  match goal with |- context [render_children ?r ?c x y cs1 ?g0] => pose proof (render_positions c x y cs1 g0) as E';
    destruct (render_children r c x y cs1 g0) as [cs2 g2] end. cbn [fst children] in *. split; [done|].
  rewrite E'. rewrite <-(map_map (λ c, e_x (data c)) (λ a, x + a)), E, map_map. done.
Qed.

(** ** A heap to run the parser in, and witnesses *)

(** A heap that never reuses memory. *)
Definition bump : Type := Z.

#[local] Instance bump_alloc : HeapAlloc bump := {|
  halloc (b : Z) n := if b + n + 1 <=? 0x100000000 then (b, b + n + 1) else (0, b);
  hfree b _ := b |}.

Definition bump_holds (b : bump) (L : list Z) : Prop :=
  0 < b <= 0x100000000 ∧ NoDup L ∧ Forall (λ p, 0 < p < b) L.

#[local] Instance bump_laws : HeapAllocLaws bump bump_holds.
Proof.
  split.
  - intros b L (Hb & Hd & HL). split; [done|]. eapply Forall_impl; [done|]. cbn. intros p Hp. unfold bump in *. lia.
  - intros b L n (Hb & Hd & HL) Hn. cbn [halloc bump_alloc]. unfold bump in *.
    destruct (Z.leb_spec (b + n + 1) 0x100000000); cbn [fst snd]; [right|by left].
    assert (b ∉ L) as Hnot by (intros Hin; rewrite Forall_forall in HL; specialize (HL b Hin); cbn in HL; lia).
    split_and!; [lia|done|]. unfold bump_holds. split_and!; [lia|lia|by constructor|]. constructor; [lia|].
    eapply Forall_impl; [done|]. cbn. lia.
  - intros b L1 L2 p (Hb & Hd & HL). cbn [hfree bump_alloc]. split_and!; [lia|lia| |].
    + apply NoDup_app in Hd as (Hd1 & Hd2 & Hd3). apply NoDup_cons in Hd3 as [_ Hd3]. apply NoDup_app. set_solver.
    + rewrite !Forall_app, Forall_cons in *. tauto.
  - done.
Qed.

Lemma bump_roomy n b : 0 < b → b + 257 * Z.of_nat n <= 0x100000000 → roomy n (b : bump).
Proof.
  revert b. induction n as [|n IH]; intros b Hb Hn; [done|]. intros size Hs. cbn [halloc bump_alloc].
  destruct (Z.leb_spec (b + size + 1) 0x100000000); [|lia]. cbn [fst snd]. split; [lia|]. apply IH; lia.
Qed.

Definition demo_doc : doc :=
  DNode HTML_ELEMENT_DIV (Some (str_bytes "menu")) None
    [DText (str_bytes "Salam, ");
     DNode HTML_ELEMENT_SPAN None (Some (str_bytes "who")) [DText (str_bytes "dost")];
     DNode HTML_ELEMENT_BUTTON (Some (str_bytes "item")) (Some (str_bytes "ok")) []].

Lemma html_roundtrip_witness :
  ∃ e h', html_parse (markup demo_doc ++ [0]) (1 : bump) = (Some e, h') ∧ erase e = demo_doc ∧
    bump_holds h' (blocks e ++ []) ∧ bump_holds (html_free e h') [].
Proof.
  apply (html_roundtrip (holds := bump_holds) demo_doc (1 : bump) []).
  - reflexivity.
  - split_and!; [done|done|constructor|constructor].
  - apply bump_roomy; [done|by vm_compute].
Defined.

Definition demo_element : html_element :=
  default (Element (mk_data 0 HTML_ELEMENT_DIV None None None default_style 0 0 0 0 false) [])
    (html_parse (markup demo_doc ++ [0]) (1 : bump)).1.

Definition demo_rules : list rule :=
  [(str_bytes "menu", [(str_bytes "padding", str_bytes "8px"); (str_bytes "background", str_bytes "#1a1a2e")]);
   (str_bytes "item", [(str_bytes "margin", str_bytes "2")])].

Lemma css_applies_witness :
  css_apply_styles demo_element (print_sheet demo_rules ++ [0]) = restyle (restyled demo_rules) demo_element ∧
  padding (e_style (data (restyle (restyled demo_rules) demo_element))) = 8.
Proof. split; [apply css_applies; reflexivity|reflexivity]. Defined.

Lemma demo_spaced : all_nodes spaced (restyle (restyled demo_rules) demo_element).
Proof. vm_compute. repeat first [discriminate | constructor]. Qed.

Lemma html_layout_tidy_witness : tidy (html_layout (restyle (restyled demo_rules) demo_element) 300).
Proof. apply html_layout_tidy, demo_spaced. Defined.

(** ** Edges *)

(** An unknown tag is left in the middle: the rest of it becomes text, and its closing tag
    closes the element around it. *)
Lemma unknown_tag_as_text :
  erase <$> (html_parse (str_bytes "<div>a<br>b</div>" ++ [0]) (1 : bump)).1 =
    Some (DNode HTML_ELEMENT_DIV None None [DText (str_bytes "a"); DText (str_bytes ">b")]) ∧
  erase <$> (html_parse (str_bytes "<div><p>b</p><span>c</span></div>" ++ [0]) (1 : bump)).1 =
    Some (DNode HTML_ELEMENT_DIV None None [DText (str_bytes ">b")]).
Proof. split; reflexivity. Qed.

(** An element without a class hides its children: their built-in styles are not applied. *)
Lemma class_styles_stop d cs : e_class d = None → css_apply_class_styles (Element d cs) = Element d cs.
Proof. intros E. cbn [css_apply_class_styles]. by rewrite E. Qed.

(** A second class attribute loses the block of the first. *)
Lemma repeated_class_leaks :
  let '(e, h) := html_parse (str_bytes "<div" ++ print_attr (str_bytes "class") (Some (str_bytes "a")) ++
                   print_attr (str_bytes "class") (Some (str_bytes "b")) ++ str_bytes ">" ++ [0]) (1 : bump) in
  option_map blocks e = Some [109; 1] ∧ h = 112.
Proof. split; reflexivity. Qed.
