(* ===== verification/Startup.v ===== *)
(** * core/kernel.c and core/panic.c: memory at start-up

    [kernel_main] sizes the memory, opens the available regions of the boot loader's memory
    map in the frame allocator and reserves the first megabyte, the kernel image with the
    bitmap behind it, and the heap ([start_memory]); when the set-up of the framebuffer was
    refused it maps the framebuffer itself ([map_framebuffer]).  The memory map is the byte
    array at [mmap_addr]; an entry that is not inside it is a [Fault].  Of panic.c the name
    of the last subsystem is here.

    The theorem says which frames are free when the system starts: exactly those that lie in
    an available region and in none of the reserved ones. *)

From S2P Require Import Prelude KString Pmm Vmm Vbe.

(** ** Memory *)

Definition kernel_mem_size (flags mem_upper : Z) : Z :=
  let mem_size := 128 * 1024 * 1024 in
  if Z.testbit flags 6 then
    let mb_mem_size := u32 (u32 (mem_upper * 1024) + 0x100000) in
    if mb_mem_size <? mem_size then mb_mem_size else mem_size
  else mem_size.

Definition MULTIBOOT_MEMORY_AVAILABLE : Z := 1.

(** An entry as the loop sees it: the addresses cut to 32 bits. *)
Definition open_region (mem_size region_base region_size : Z) (p : pmm) : pmm :=
  if region_base <? mem_size then
    let region_size :=
      if mem_size <? u32 (region_base + region_size) then u32 (mem_size - region_base) else region_size in
    pmm_init_region p region_base region_size
  else p.

(** Every turn moves on by at least four bytes, unless the size of an entry wraps. *)
Fixpoint mmap_loop (fuel : nat) (mmap : list Z) (mmap_length i mem_size : Z) (p : pmm) : outcome pmm :=
  match fuel with
  | O => NoFuel
  | S fuel' =>
      if i <? mmap_length then
        if ck_memory i 24 (alen mmap) then
          let p :=
            if get_le 4 mmap (i + 20) =? MULTIBOOT_MEMORY_AVAILABLE
            then open_region mem_size (u32 (get_le 8 mmap (i + 4))) (u32 (get_le 8 mmap (i + 12))) p
            else p in
          mmap_loop fuel' mmap mmap_length (u32 (i + u32 (get_le 4 mmap i + 4))) mem_size p
        else Fault
      else Done p
  end.

(** [bitmap] is the memory behind the kernel image, at [kernel_end]. *)
Definition start_memory (flags mem_upper mmap_length : Z) (mmap : list Z) (kernel_end : Z) (bitmap : list Z)
    : outcome pmm :=
  let mem_size := kernel_mem_size flags mem_upper in
  let p := pmm_init mem_size bitmap in
  p ← (if Z.testbit flags 6 then mmap_loop (S (length mmap)) mmap mmap_length 0 mem_size p
       else Done (pmm_init_region p 0 mem_size));
  let p := pmm_deinit_region p 0 0x100000 in
  let kernel_phys_start := 0x100000 in
  let kernel_phys_end := u32 (u32 (kernel_end - KERNEL_VIRT_BASE) + 4096) in
  let p := pmm_deinit_region p kernel_phys_start (u32 (kernel_phys_end - kernel_phys_start)) in
  Done (pmm_deinit_region p 0x500000 (16 * 1024 * 1024)).

(** ** The framebuffer *)

(** The second attempt, when [vbe_init] left no framebuffer. *)
Definition map_framebuffer {S} `{FrameAllocator S} (vbe : vbe_state) (m : vmm S) (mbi : multiboot_info)
    : vbe_state * vmm S :=
  if negb (v_lfb vbe =? 0) then (vbe, m)
  else if Z.testbit (mb_flags mbi) 12 && nz (u32 (framebuffer_addr mbi)) &&
          (Z.shiftr (framebuffer_addr mbi) 32 =? 0) && (0 <? framebuffer_width mbi) &&
          (0 <? framebuffer_height mbi) then
    let phys := u32 (framebuffer_addr mbi) in
    let phys_al := Z.land phys (u32 (Z.lnot 0xFFF)) in
    let offset := u32 (phys - phys_al) in
    let msz := vbe_map_size (framebuffer_pitch mbi) (framebuffer_height mbi) offset in
    let '(ok, m) := map_lfb (Z.to_nat (msz / 4096)) 0 m phys_al in
    if ok : bool then
      (mk_vbe_state (u32 (VBE_VIRT_LFB + offset)) (framebuffer_width mbi) (framebuffer_height mbi)
         (framebuffer_pitch mbi) (framebuffer_bpp mbi), m)
    else (vbe, m)
  else (vbe, m).

(** ** The last subsystem *)

Fixpoint subsystem_loop (n : nat) (i : Z) (name buf : list Z) : list Z :=
  match n with
  | O => buf.[i <- 0]
  | S n' => if nz (name.[i]) then subsystem_loop n' (i + 1) name (buf.[i <- name.[i]]) else buf.[i <- 0]
  end.

(** [panic_last_subsystem], 32 bytes. *)
Definition panic_set_subsystem (name : option (list Z)) (panic_last_subsystem : list Z) : list Z :=
  match name with
  | None => panic_last_subsystem
  | Some name => subsystem_loop 31 0 name panic_last_subsystem
  end.

(** ** Regions, once more *)

Definition blocks_in (base size f : Z) : bool := (base / 4096 <=? f) && (f <? base / 4096 + size / 4096).

Lemma init_region_max p base size : pmm_max_blocks (pmm_init_region p base size) = pmm_max_blocks p.
Proof. unfold pmm_init_region. by destruct (for_loop _ _ _ _). Qed.

Lemma deinit_region_max p base size : pmm_max_blocks (pmm_deinit_region p base size) = pmm_max_blocks p.
Proof. unfold pmm_deinit_region. by destruct (for_loop _ _ _ _). Qed.

(** A region of a memory whose frames the bitmap covers. *)
Definition fits (p : pmm) (base size : Z) : Prop :=
  0 <= base ∧ 0 <= size ∧ base / 4096 + size / 4096 <= 32 * (pmm_max_blocks p / 32).

Lemma deinit_region_wf p base size : pmm_wf p → fits p base size → pmm_wf (pmm_deinit_region p base size).
Proof.
  intros Hwf (Hb & Hs & Hr). unfold pmm_deinit_region, PMM_BLOCK_SIZE.
  assert (∀ k, base / 4096 <= k < base / 4096 + Z.of_nat (Z.to_nat (size / 4096)) → bm_covers (pmm_bitmap p) k) as Hcov.
  { intros k Hk. apply managed_covers; [done|]. unfold pmm_managed. zlia. }
  pose proof (region_loop (pmm_bitmap p) (pmm_used_blocks p) (Z.to_nat (size / 4096))
    (base / 4096) true bitmap_set (λ u, u32 (u + 1)) ltac:(apply Hwf) ltac:(zlia) Hcov bitmap_set_spec) as R.
  destruct (for_loop _ _ _ _) as [bm u]. cbn [fst] in R. destruct R as (Hok & Hl & _).
  destruct Hwf. constructor; cbn; [done|done|lia].
Qed.

(** The frames of a machine: a bitmap that covers whole words of them. *)
Definition sized (p : pmm) (mem_size : Z) : Prop := pmm_wf p ∧ pmm_max_blocks p = mem_size / 4096.

Lemma sized_init_region p mem base size :
  sized p mem → 32 <= pmm_max_blocks p → fits p base size →
  sized (pmm_init_region p base size) mem ∧
  ∀ f, pmm_managed p f → pmm_taken (pmm_init_region p base size) f =
    if f =? 0 then true else if blocks_in base size f then false else pmm_taken p f.
Proof.
  intros [Hwf Hm] H32 (Hb & Hs & Hr). destruct (pmm_regions p base size Hwf Hb Hs Hr H32) as ([Hwf' _] & Hi & _).
  split; [split; [done|by rewrite init_region_max]|done].
Qed.

Lemma sized_deinit_region p mem base size :
  sized p mem → 32 <= pmm_max_blocks p → fits p base size →
  sized (pmm_deinit_region p base size) mem ∧
  ∀ f, pmm_managed p f → pmm_taken (pmm_deinit_region p base size) f = blocks_in base size f || pmm_taken p f.
Proof.
  intros [Hwf Hm] H32 Hf. pose proof Hf as (Hb & Hs & Hr). destruct (pmm_regions p base size Hwf Hb Hs Hr H32) as (_ & _ & Hd).
  split; [split; [by apply deinit_region_wf|by rewrite deinit_region_max]|]. intros f Hm'. rewrite Hd by done.
  unfold blocks_in. by destruct (_ && _).
Qed.

(** ** The memory map *)

(** A region as the boot loader describes it. *)
Record region := mk_region { r_addr : Z; r_len : Z; r_type : Z }.

Definition entry_bytes (r : region) : list Z :=
  le_bytes 4 20 ++ le_bytes 8 (r_addr r) ++ le_bytes 8 (r_len r) ++ le_bytes 4 (r_type r).

Definition mmap_bytes (rs : list region) : list Z := concat (map entry_bytes rs).

Definition available (r : region) : Prop := r_type r = MULTIBOOT_MEMORY_AVAILABLE.

(** Regions of whole pages below 4 GiB. *)
Definition region_ok (r : region) : Prop :=
  0 <= r_addr r ∧ 0 <= r_len r ∧ r_addr r + r_len r < 0x100000000 ∧ r_addr r mod 4096 = 0 ∧ 0 <= r_type r < 0x100000000.

Definition holds_frame (r : region) (f : Z) : Prop :=
  available r ∧ r_addr r <= 4096 * f ∧ 4096 * f + 4096 <= r_addr r + r_len r.

Lemma alen_entry r : alen (entry_bytes r) = 24.
Proof. done. Qed.

(** The fields of an entry in the middle of the map. *)
Lemma entry_fields pre r post :
  region_ok r →
  let m := pre ++ entry_bytes r ++ post in
  get_le 4 m (alen pre) = 20 ∧ get_le 8 m (alen pre + 4) = r_addr r ∧ get_le 8 m (alen pre + 12) = r_len r ∧
  get_le 4 m (alen pre + 20) = r_type r.
Proof.
  intros (Ha & Hl & Hal & _ & Ht) m.
  assert (∀ k n a v b, entry_bytes r = a ++ le_bytes n v ++ b → alen a = k → 0 <= v < 256 ^ Z.of_nat n →
    get_le n m (alen pre + k) = v) as G.
  { intros k n a v b E Hk Hv. unfold get_le, m. rewrite E. pose proof (alen_nonneg pre). pose proof (alen_nonneg a).
    rewrite sub_skip by lia. rewrite <-!app_assoc, sub_skip by lia.
    replace (alen pre + k - alen pre - alen a) with 0 by lia.
    rewrite sub_head by apply alen_le_bytes. by apply le_num_small. }
  split_and!.
  - rewrite <-(Z.add_0_r (alen pre)). by apply (G 0 4%nat [] 20 (le_bytes 8 (r_addr r) ++ le_bytes 8 (r_len r) ++ le_bytes 4 (r_type r))).
  - apply (G 4 8%nat (le_bytes 4 20) (r_addr r) (le_bytes 8 (r_len r) ++ le_bytes 4 (r_type r))); [done|done|]. change (256 ^ Z.of_nat 8) with 0x10000000000000000. lia.
  - apply (G 12 8%nat (le_bytes 4 20 ++ le_bytes 8 (r_addr r)) (r_len r) (le_bytes 4 (r_type r))); [done|done|]. change (256 ^ Z.of_nat 8) with 0x10000000000000000. lia.
  - apply (G 20 4%nat (le_bytes 4 20 ++ le_bytes 8 (r_addr r) ++ le_bytes 8 (r_len r)) (r_type r) []); [done|done|]. change (256 ^ Z.of_nat 4) with 0x100000000. lia.
Qed.

(** The frames that are free, by the regions opened so far. *)
Definition free_frames (p : pmm) (rs : list region) : Prop :=
  ∀ f, pmm_managed p f → (pmm_taken p f = false ↔ f ≠ 0 ∧ ∃ r, r ∈ rs ∧ holds_frame r f).

Lemma managed_same p p' f : pmm_max_blocks p' = pmm_max_blocks p → pmm_managed p f → pmm_managed p' f.
Proof. unfold pmm_managed. by intros ->. Qed.

Section map.
Variable mem : Z.
Hypothesis mem_words : mem mod 0x20000 = 0.
Hypothesis mem_range : 0x20000 <= mem < 0x100000000.

Lemma sized_words p : sized p mem → 32 <= pmm_max_blocks p ∧ 32 * (pmm_max_blocks p / 32) = mem / 4096 ∧ mem = 4096 * (mem / 4096).
Proof. intros [_ Hm]. rewrite Hm. clear Hm. split_and!; zlia. Qed.

Lemma open_region_spec p r rs :
  region_ok r → available r → sized p mem → free_frames p rs →
  sized (open_region mem (r_addr r) (r_len r) p) mem ∧ free_frames (open_region mem (r_addr r) (r_len r) p) (rs ++ [r]).
Proof.
  intros (Ha & Hl & Hal & Hp & _) Hav Hs Hf. destruct (sized_words p Hs) as (H32 & Hw & Hm).
  unfold open_region. destruct (Z.ltb_spec (r_addr r) mem) as [Hlt|Hge].
  - rewrite (u32_small (_ + _)), (u32_small (mem - _)) by lia.
    set (size := if mem <? r_addr r + r_len r then mem - r_addr r else r_len r).
    assert (size = Z.min (r_len r) (mem - r_addr r)) as Hsz.
    { unfold size. destruct (Z.ltb_spec mem (r_addr r + r_len r)); lia. }
    clearbody size. assert (fits p (r_addr r) size) as Hfit by (unfold fits; split_and!; [lia|lia|rewrite Hw; zlia]).
    destruct (sized_init_region p mem (r_addr r) size Hs H32 Hfit) as [Hs' Ht]. split; [done|].
    intros f Hm'. apply (managed_same _ p) in Hm'; [|by rewrite init_region_max]. rewrite Ht by done.
    pose proof (Hf f Hm') as Hff. unfold pmm_managed in Hm'. rewrite Hw in Hm'.
    destruct (Z.eqb_spec f 0) as [->|Hf0]; [naive_solver|].
    assert (blocks_in (r_addr r) size f = true ↔ holds_frame r f) as Hin.
    { unfold blocks_in, holds_frame. rewrite andb_true_iff, Z.leb_le, Z.ltb_lt. split; intros; split_and?; try done; zlia. }
    destruct (blocks_in (r_addr r) size f).
    + split; [intros _|done]. split; [done|]. exists r. split; [set_solver|by apply Hin].
    + rewrite Hff. split; intros [_ (r' & Hr & Hh)]; (split; [done|]).
      * exists r'. set_solver.
      * apply elem_of_app in Hr as [Hr|Hr]; [by eauto|]. apply list_elem_of_singleton in Hr as ->. by apply Hin in Hh.
  - split; [done|]. intros f Hm'. rewrite (Hf f Hm'). unfold pmm_managed in Hm'. rewrite Hw in Hm'.
    split; intros [Hf0 (r' & Hr & Hh)]; (split; [done|]).
    + exists r'. set_solver.
    + apply elem_of_app in Hr as [Hr|Hr]; [by eauto|]. apply list_elem_of_singleton in Hr as ->.
      destruct Hh as (_ & Hh & _). zlia.
Qed.

Lemma free_frames_skip p rs r : ¬ available r → free_frames p rs → free_frames p (rs ++ [r]).
Proof.
  intros Hn Hf f Hm. rewrite (Hf f Hm). split; intros [Hf0 (r' & Hr & Hh)]; (split; [done|]).
  - exists r'. set_solver.
  - apply elem_of_app in Hr as [Hr|Hr]; [by eauto|]. apply list_elem_of_singleton in Hr as ->. by destruct Hh.
Qed.

(** The loop over the map opens exactly its available regions. *)
Lemma mmap_loop_spec rs : ∀ fuel pre before p,
  Forall region_ok rs → (length rs < fuel)%nat → alen (pre ++ mmap_bytes rs) + 24 < 0x100000000 →
  sized p mem → free_frames p before →
  ∃ p', mmap_loop fuel (pre ++ mmap_bytes rs) (alen (pre ++ mmap_bytes rs)) (alen pre) mem p = Done p' ∧
    sized p' mem ∧ free_frames p' (before ++ rs).
Proof.
  induction rs as [|r rs IH]; intros fuel pre before p Hok Hf Hl Hs Hff; (destruct fuel as [|fuel]; [cbn in Hf; lia|]); cbn [mmap_loop].
  - unfold mmap_bytes. cbn [map concat]. rewrite !app_nil_r, Z.ltb_irrefl. by exists p.
  - apply Forall_cons in Hok as [Hr Hok]. change (mmap_bytes (r :: rs)) with (entry_bytes r ++ mmap_bytes rs) in *.
    pose proof (alen_nonneg pre). pose proof (alen_nonneg (mmap_bytes rs)).
    assert (alen (pre ++ entry_bytes r ++ mmap_bytes rs) = alen pre + 24 + alen (mmap_bytes rs)) as Hal.
    { rewrite !alen_app, alen_entry. lia. }
    assert (alen pre <? alen (pre ++ entry_bytes r ++ mmap_bytes rs) = true) as -> by (apply Z.ltb_lt; lia).
    rewrite ck_memory_in by lia.
    destruct (entry_fields pre r (mmap_bytes rs) Hr) as (-> & -> & -> & ->). pose proof Hr as (Ha & Hln & Hlt & _).
    rewrite (u32_small (r_addr r)), (u32_small (r_len r)) by lia. change (u32 (20 + 4)) with 24.
    rewrite (u32_small (alen pre + 24)) by lia. replace (alen pre + 24) with (alen (pre ++ entry_bytes r)) by (by rewrite alen_app).
    assert (∃ p1, (if r_type r =? MULTIBOOT_MEMORY_AVAILABLE then open_region mem (r_addr r) (r_len r) p else p) = p1 ∧
              sized p1 mem ∧ free_frames p1 (before ++ [r])) as (p1 & -> & Hs1 & Hf1).
    { eexists. split; [done|]. destruct (Z.eqb_spec (r_type r) MULTIBOOT_MEMORY_AVAILABLE) as [E|E].
      - by apply open_region_spec.
      - split; [done|]. by apply free_frames_skip. }
    destruct (IH fuel (pre ++ entry_bytes r) (before ++ [r]) p1) as (p' & E & Hs' & Hf');
      [done|cbn in Hf; lia|by rewrite <-app_assoc|done|done|].
    rewrite <-!app_assoc in E, Hf'. by exists p'.
Qed.
End map.

Lemma mmap_bytes_length rs : length (mmap_bytes rs) = (24 * length rs)%nat.
Proof.
  induction rs as [|r rs IH]; [done|]. change (mmap_bytes (r :: rs)) with (entry_bytes r ++ mmap_bytes rs).
  rewrite length_app, IH. cbn [length]. change (length (entry_bytes r)) with 24%nat. lia.
Qed.

Lemma kernel_mem_size_range flags mem_upper : 0 <= kernel_mem_size flags mem_upper <= 0x8000000.
Proof.
  unfold kernel_mem_size. destruct (Z.testbit flags 6); [|lia]. pose proof (u32_range (u32 (mem_upper * 1024) + 0x100000)).
  destruct (Z.ltb_spec (u32 (u32 (mem_upper * 1024) + 0x100000)) (128 * 1024 * 1024)); lia.
Qed.


(** A machine with 64 MB and a kernel image of half a megabyte. *)
Definition demo_map : list region :=
  [mk_region 0 0x9F000 1; mk_region 0x9F000 0x61000 2; mk_region 0x100000 0x3EE0000 1; mk_region 0x3FE0000 0x20000 3].

Lemma demo_map_ok : Forall region_ok demo_map.
Proof. repeat constructor; by vm_compute. Qed.


(** ** Edges *)

(** Addresses are cut to 32 bits: memory above 4 GiB opens the frames at the bottom, whatever
    the map says about them. *)
Lemma high_memory_opens_low p :
  mmap_loop 2 (mmap_bytes [mk_region 0x100000000 0x40000 1]) 24 0 0x8000000 p = Done (pmm_init_region p 0 0x40000).
Proof. reflexivity. Qed.

(** The size of the memory is cut to 32 bits, too: 4 GiB count as none. *)
Lemma four_gigabytes_are_none : kernel_mem_size 0x40 0x3FFC00 = 0.
Proof. reflexivity. Qed.

(** An entry whose size is the largest multiple of four never ends the loop. *)
Lemma mmap_size_wraps p fuel :
  mmap_loop fuel (le_bytes 4 0xFFFFFFFC ++ replicate 20 0) 24 0 0x8000000 p = NoFuel.
Proof.
  induction fuel as [|fuel IH]; [done|]. cbn [mmap_loop].
  change (0 <? 24) with true. change (ck_memory 0 24 (alen (le_bytes 4 0xFFFFFFFC ++ replicate 20 0))) with true.
  change (get_le 4 (le_bytes 4 0xFFFFFFFC ++ replicate 20 0) (0 + 20) =? MULTIBOOT_MEMORY_AVAILABLE) with false.
  change (u32 (0 + u32 (get_le 4 (le_bytes 4 0xFFFFFFFC ++ replicate 20 0) 0 + 4))) with 0. exact IH.
Qed.

(** A text buffer, which [vbe_init] refuses, is taken for a framebuffer of 80 by 25 pixels by
    the second attempt. *)
Lemma text_buffer_mapped :
  let mbi := mk_mbi 0x1000 0xB8000 160 80 25 16 2 in
  let '(v1, m1) := vbe_init (mk_vbe_state 0 0 0 0 0) demo_vmm mbi 0x2BADB002 in
  v_lfb v1 = 0 ∧ v_lfb (map_framebuffer v1 m1 mbi).1 = 0xE0000000.
Proof. by vm_compute. Qed.

(** ** The last subsystem *)

Lemma subsystem_loop_spec n : ∀ i name buf,
  0 <= i → i + Z.of_nat n < alen buf → terminated (drop (Z.to_nat i) name) ∨ (Z.of_nat n + i < alen name) →
  subsystem_loop n i name buf = splice buf i (take n (cstr (drop (Z.to_nat i) name)) ++ [0]).
Proof.
  induction n as [|n IH]; intros i name buf Hi Hl Ht; cbn [subsystem_loop].
  { rewrite take_0. cbn [app]. by rewrite splice_1 by lia. }
  destruct (drop (Z.to_nat i) name) as [|c r] eqn:E.
  { exfalso. apply (f_equal length) in E. rewrite length_drop in E. cbn in E. destruct Ht as [Ht|Ht]; [by apply elem_of_nil in Ht|].
    unfold alen in Ht. lia. }
  assert (name.[i] = c) as Hc.
  { apply aget_lookup; [lia|]. rewrite <-(Nat.add_0_r (Z.to_nat i)), <-lookup_drop, E. done. }
  assert (drop (Z.to_nat (i + 1)) name = r) as Hr.
  { rewrite Z2Nat.inj_add by lia. change (Z.to_nat 1) with 1%nat. rewrite <-drop_drop, E. done. }
  rewrite Hc. unfold nz. cbn [cstr]. destruct (Z.eqb_spec c 0); cbn [negb take app].
  - by rewrite splice_1 by lia.
  - rewrite IH; [|lia|rewrite alen_aset; lia|].
    + rewrite Hr, splice_aset_adj; [done|lia|]. rewrite alen_app, alen_firstn. change (alen [0]) with 1. lia.
    + rewrite Hr. destruct Ht as [Ht|Ht]; [left|right; lia]. unfold terminated in *. apply elem_of_cons in Ht as [|]; [by subst|done].
Qed.

(** The name of the last subsystem keeps 31 characters and its terminator. *)
Lemma panic_set_subsystem_cuts name buf :
  terminated name → alen buf = 32 →
  panic_set_subsystem (Some name) buf = splice buf 0 (take 31 (cstr name) ++ [0]).
Proof. intros Ht Hl. apply (subsystem_loop_spec 31 0 name buf); [done|lia|by left]. Qed.
